(* ===== verification/_CoqProject ===== *)
-Q . S2P
Prelude.v
Adt.v
Heap.v
HeapInv.v
HeapProofs.v
HeapProps.v
CString.v
Arith.v
Number.v
Text.v
Format.v
Time.v
Pmemmap.v
Threads.v
ThreadLists.v
Sync.v
SyncInv.v
SyncSys.v
SyncSteps.v
SyncProps.v
VfsAcl.v
NodeCache.v
VfsPath.v
VfsState.v
VfsOpen.v
VfsIo.v
VfsMount.v
VfsInv.v
VfsSafe.v
VfsTables.v
VfsOps.v
VfsSystem.v
VfsRam.v
VfsProps.v
VfsLookup.v
VfsMem.v
VfsFindings.v
Disk.v
IoCache.v
Lvm.v
LvmProps.v
Chains.v
Timers.v
TimerProps.v
NetAddr.v
Routing.v
Tcp.v
TcpProps.v
NetBuf.v
Net.v
Udp.v
NetProps.v
UdpProps.v
NetFindings.v
Mm.v
MmVirt.v
MmInv.v
MmRefs.v
MmSpace.v
MmCow.v
MmInstall.v
MmProps.v
Fat.v
FatDir.v
FatFiles.v
FatTable.v
FatGrow.v
FatNames.v
FatProps.v
FatFindings.v
