(* ===== verification/Prelude.v ===== *)
(** * Acess2: a verification development

    Acess2 is a small operating system.  This library models the parts of its kernel that carry
    its own logic (sources under [src/KernelLand]) as executable definitions and proves what makes them correct.

    ** The program's parts and the files that model them

    - [Prelude]: machine integers ([u8] ... [i64], wrap-around written out), partial list access, the
      state-and-stop monad [M S E A] and its notation, tactics and hint databases shared by all files.
    - Ring buffers, [adt.c]: [Adt].
    - The kernel C library, [libc.c], [lib.c], [utf16.c], [arch/x86/lib.c]: [CString] (strings and memory), [Arith] (64-bit
      division), [Number] (reading and printing numbers), [Text] (UTF-8 and UTF-16), [Format] (vsnprintf, Hex and UnHex), [Time] (dates).
    - The physical memory map, [pmemmap.c]: [Pmemmap].
    - The kernel heap, [heap.c]: [Heap] (the operations on word-addressed memory), [HeapInv] (the tiling of the heap by blocks),
      [HeapProofs] (each operation as a function on the list of blocks), [HeapProps] (what clients rely on).
    - Threads and synchronisation, [threads.c], [mutex.c], [semaphore.c], [rwlock.c], [workqueue.c], [events.c]: [Threads] and [Sync] (the
      code), [ThreadLists] (the linked lists as sequences), [SyncInv] (where each thread is), [SyncSys] (the kernel as a transition
      system), [SyncSteps] (every step keeps the invariant), [SyncProps] (the theorems).
    - The VFS, [vfs/*.c]: [VfsAcl], [NodeCache], [VfsPath] (absolute paths), [VfsState] (nodes, mounts, handles), [VfsOpen],
      [VfsIo], [VfsMount] (the operations), [VfsInv], [VfsSafe], [VfsTables], [VfsOps], [VfsSystem] (the accounting of mounts through every
      operation), [VfsRam] (the root filesystem and its refinement to a tree), [VfsProps], [VfsLookup], [VfsMem], [VfsFindings].
    - Storage, [drvutil_disk.c], [drv/iocache.c], [Modules/Storage/LVM]: [Disk] (byte access to block devices), [IoCache] (the block cache), [Lvm] and
      [LvmProps] (volumes, partition tables, the subvolumes that are devices again).
    - Kernel timers, [time.c]: [Timers], [TimerProps]; [Chains] holds the lemmas on singly linked lists that timers, routes, connections and
      channels share.
    - The IP stack, [Modules/IPStack]: [NetAddr] (addresses, checksums), [Routing] (routes), [Tcp] and [TcpProps] (connections), [NetBuf] (packet
      buffers), [Net] (link layer, ARP and the cache of hardware addresses, IPv4, firewall, ICMP), [Udp] (UDP and the receiving side of the
      path), [NetProps] (datagrams and ARP from host to host), [UdpProps] (ports), [NetFindings].
    - The memory manager of x86, [arch/x86/mm_phys.c], [arch/x86/mm_virt.c]: [Mm] (physical pages and their reference counts), [MmVirt] (page
      tables, address spaces, copy on write), [MmInv] and [MmRefs] (the invariant and what a change of one page does to it), [MmSpace],
      [MmCow] (address spaces and faults), [MmInstall] (the bitmap set up at boot), [MmProps] (the theorems).
    - The FAT filesystem, [Modules/Filesystems/FAT]: [Fat] (the table, clusters, reading and writing files), [FatDir] (directories and names),
      [FatFiles] (files as arrays of bytes), [FatTable], [FatGrow] (chains of clusters, growing and freeing them), [FatNames] (long file
      names), [FatProps] (the theorems), [FatFindings].

    ** How code becomes definitions

    A C structure is a [Record], an enumeration an [Inductive], a pointer to a structure an address ([Z], 0 for NULL) into a
    finite map or a pool.  A function that changes state is a function in the monad [M]: it takes the state and
    gives a value and the new state, or the way it stops (a fault, a failed ASSERT, a panic, the overflow of a signed count, a
    loop that does not end within its fuel).  Integers are [Z] with the conversion to the C type wherever an operation can leave its range.  A buffer
    that a function writes is returned.  Loops that are not structural recursion take fuel; the theorems that a call
    returns show the fuel the definitions pass is enough (the number of blocks in the heap, the number of threads, the length of the string,
    the size of the pool).  Code outside the repository's sources and drivers reached through function pointers are
    parameters: filesystems enter the VFS through the class [Filesystems], with the laws the VFS relies on
    in the class [QuietFS], which the root filesystem satisfies.

    ** What the theorems show

    Each theorem's comment gives the conditions it is proved under; the main ones are named here, and where the code fails
    outside of them a theorem named there shows how.

    - Heap: any history of malloc (of 1 byte to 768 MiB), free and writes into held blocks keeps the heap well formed; calls return; blocks
      held are aligned, inside the heap and disjoint; malloc is best fit; free coalesces.
    - Threads: every thread is where its status says, through any history of scheduling and synchronisation calls; mutexes
      exclude, with waiters queued and woken in order; semaphores conserve their items; work queues are FIFOs; every permitted call returns.
    - VFS: every open handle is on a live mount whose count covers it (mounts in the root filesystem only, and counts that stay within an
      int: an operation that would overflow one stops, as the overflow is undefined); paths are normalised (relative ones without a
      process root) and resolved (for root, in a tree without links and other mounts) as on lists of names; the root filesystem
      is a tree of named files; reads give back writes through a descriptor; the node cache is a finite map.
    - Storage: on a device that does not fail and with memory for the cache, a read of a subvolume is a read of the device at its
      place and never past its end, and the block cache is coherent with the device; byte access reads and writes exactly the bytes asked
      for, and counts them when the device fails; a write to blocks that are not cached is lost.
    - Timers: a timer fires, once, when its time has come.
    - Memory: a physical page is never given out while somebody holds it (pages allocated one at a time); a fault on a shared page gives
      a private copy with the same contents when there is memory for it; references and releases keep the counts exact; the
      bitmap starts out with the free memory of the map.
    - FAT: files refine arrays of bytes for writes inside their clusters; on FAT12 volumes of up to 1022 clusters growing a file
      takes a free cluster and deleting it frees its chain; a valid short name linked into the root directory is found.
    - Network: TCP connects, delivers a stream (without segments ahead of the data expected, and within the receiver's buffer) and
      follows its state machine; segments carry the checksum of the standard; a UDP datagram sent from a channel to a host on the link is
      read from the channel of the port there, whose queue is empty, byte for byte through the frame; ARP finds hardware addresses
      out while its cache is not full; ports are exclusive; routes are the best ones.
    - Library code: round trips of printing and reading, equality with mathematical division, memmove on overlapping ranges,
      truncation of formatted output, the sorting of the memory map.
    - Errors: theorems that state where the code does not do what it means to, on every such input or on a reached state.

    ** Not modelled

    Hardware drivers (disks, network cards, USB controllers, video), boot and assembly code, the memory managers of processors other than x86, module and binary
    loading, messages between threads, FIFOs, [select] and memory-mapped files, IPv6, SCTP and the administration of network adapters, disk filesystems other than FAT, logging, and the user-mode programs and libraries are not modelled: they are I/O on devices, or
    code the kernel's logic does not depend on.  The manifest lists each with its reason.  Memory in the models is that of one
    object (a buffer, the heap, a pool); caches, interrupts inside a locked section and speculative execution are not represented. *)
From stdpp Require Export base functions list gmap numbers option sorting.
From Stdlib Require Export ZArith Lia.

Local Open Scope Z_scope.

(** ** Machine integers

    Values of the C integer types are kept as [Z]; every arithmetic operation
    that can leave its type's range is followed by the conversion to that
    type.  Constants are literals so that [lia] sees linear arithmetic. *)

Definition u8 (x : Z) : Z := x mod 256.
Definition u16 (x : Z) : Z := x mod 65536.
Definition u32 (x : Z) : Z := x mod 4294967296.
Definition u64 (x : Z) : Z := x mod 18446744073709551616.
Definition i8 (x : Z) : Z := (x + 128) mod 256 - 128.
Definition i32 (x : Z) : Z := (x + 2147483648) mod 4294967296 - 2147483648.
Definition i64 (x : Z) : Z :=
  (x + 9223372036854775808) mod 18446744073709551616 - 9223372036854775808.

(** Truth value of a C condition as the [int] the language gives it. *)
Definition b2z (b : bool) : Z := if b then 1 else 0.

Create HintDb acess.

Section int_lemmas.
Context (x : Z).

Lemma u8_small : 0 <= x < 256 -> u8 x = x.
Proof. apply Z.mod_small. Qed.
Lemma u16_small : 0 <= x < 65536 -> u16 x = x.
Proof. apply Z.mod_small. Qed.
Lemma u32_small : 0 <= x < 4294967296 -> u32 x = x.
Proof. apply Z.mod_small. Qed.
Lemma u64_small : 0 <= x < 18446744073709551616 -> u64 x = x.
Proof. apply Z.mod_small. Qed.
Lemma i32_small : -2147483648 <= x < 2147483648 -> i32 x = x.
Proof. unfold i32; intros. rewrite Z.mod_small; lia. Qed.
Lemma i64_small :
  -9223372036854775808 <= x < 9223372036854775808 -> i64 x = x.
Proof. unfold i64; intros. rewrite Z.mod_small; lia. Qed.

Lemma u8_range : 0 <= u8 x < 256.
Proof. apply Z.mod_pos_bound; lia. Qed.
Lemma u16_range : 0 <= u16 x < 65536.
Proof. apply Z.mod_pos_bound; lia. Qed.
Lemma u32_range : 0 <= u32 x < 4294967296.
Proof. apply Z.mod_pos_bound; lia. Qed.
Lemma u64_range : 0 <= u64 x < 18446744073709551616.
Proof. apply Z.mod_pos_bound; lia. Qed.
End int_lemmas.

#[export] Hint Resolve u8_range u16_range u32_range u64_range : acess.

(** [ints] removes the conversions whose argument is already in range. *)
Ltac ints :=
  repeat match goal with
  | |- context [u32 ?x] => rewrite (u32_small x) by lia
  | |- context [i32 ?x] => rewrite (i32_small x) by lia
  | |- context [u8 ?x] => rewrite (u8_small x) by lia
  | |- context [u16 ?x] => rewrite (u16_small x) by lia
  | |- context [u64 ?x] => rewrite (u64_small x) by lia
  | |- context [i64 ?x] => rewrite (i64_small x) by lia
  end.

(** [bools] turns boolean tests of the code in the context into
    propositions; [dlia] is [lia] with division and remainder by constants and
    the conversions unfolded. *)
Ltac bools :=
  repeat match goal with
  | H : (_ && _)%bool = true |- _ => apply andb_prop in H as [? ?]
  | H : (_ || _)%bool = false |- _ => apply orb_false_elim in H as [? ?]
  | H : (_ <? _) = true |- _ => apply Z.ltb_lt in H
  | H : (_ <? _) = false |- _ => apply Z.ltb_ge in H
  | H : (_ <=? _) = true |- _ => apply Z.leb_le in H
  | H : (_ <=? _) = false |- _ => apply Z.leb_gt in H
  | H : (_ =? _) = true |- _ => apply Z.eqb_eq in H
  | H : (_ =? _) = false |- _ => apply Z.eqb_neq in H
  | H : negb _ = true |- _ => apply negb_true_iff in H
  | H : negb _ = false |- _ => apply negb_false_iff in H
  end.

Ltac dlia :=
  unfold u8, u16, u32, u64, i8, i32, i64, b2z in *;
  Z.div_mod_to_equations; lia.

(** ** Bit fields

    Disjoint fields are joined by [Z.lor] as by addition, and a field is read by
    shifting and masking. *)
Lemma lor_disjoint k q b : 0 <= k -> 0 <= b < 2 ^ k -> Z.lor (q * 2 ^ k) b = q * 2 ^ k + b.
Proof.
  intros Hk Hb. assert (Z.land (q * 2 ^ k) b = 0) as Hz.
  { apply Z.bits_inj'. intros i Hi. rewrite Z.land_spec, Z.bits_0.
    destruct (decide (i < k)).
    - by rewrite Z.mul_pow2_bits_low by lia.
    - rewrite <- (Z.mod_small b (2 ^ k)) by lia. rewrite Z.mod_pow2_bits_high by lia. apply andb_false_r. }
  rewrite Z.add_nocarry_lxor by done. symmetry. by apply Z.lxor_lor.
Qed.

Lemma lor_add a b k : 0 <= k -> a mod 2 ^ k = 0 -> 0 <= b < 2 ^ k -> Z.lor a b = a + b.
Proof.
  intros Hk Ha Hb. assert (0 < 2 ^ k) by (apply Z.pow_pos_nonneg; lia).
  rewrite (Z.div_mod a (2 ^ k)) by lia. rewrite Ha, Z.add_0_r, Z.mul_comm. by apply lor_disjoint.
Qed.

Lemma land_low x k : 0 <= k -> Z.land x (2 ^ k - 1) = x mod 2 ^ k.
Proof. intros. rewrite <- Z.land_ones by lia. f_equal. rewrite Z.ones_equiv. lia. Qed.

Lemma land_field x j k : 0 <= j -> 0 <= k ->
  Z.land x ((2 ^ k - 1) * 2 ^ j) = (x / 2 ^ j) mod 2 ^ k * 2 ^ j.
Proof.
  intros Hj Hk. rewrite <- land_low by lia. rewrite <- !Z.shiftl_mul_pow2, <- Z.shiftr_div_pow2 by lia.
  apply Z.bits_inj'. intros i Hi. rewrite Z.land_spec, !Z.shiftl_spec by lia.
  destruct (decide (i < j)).
  - rewrite !(Z.testbit_neg_r _ (i - j)) by lia. apply andb_false_r.
  - rewrite Z.land_spec, Z.shiftr_spec by lia. by replace (i - j + j) with i by lia.
Qed.

(** [case_if] splits on the first [if] of the goal and clears up. *)
Ltac case_if :=
  match goal with
  | |- context [if ?b then _ else _] => destruct b eqn:?; bools
  end.

Ltac case_if_in H :=
  match type of H with
  | context [if ?b then _ else _] => destruct b eqn:?; bools
  end.

(** [splits] finishes goals about nested tests by splitting every test and
    closing each branch by arithmetic or congruence of indices. *)
Ltac splits :=
  repeat (case_if; try (exfalso; lia));
  repeat match goal with
  | H : (_ && _)%bool = false |- _ => apply andb_false_iff in H as [?|?]; bools
  end;
  try solve [exfalso; lia | done | lia | f_equal; lia].

(** ** Byte buffers

    A C buffer of [n] objects is a list of length [n]; an access outside it is
    undefined behaviour, [None].  Offsets and sizes are [Z]. *)

Definition len {A} (l : list A) : Z := Z.of_nat (length l).

Definition get {A} (l : list A) (i : Z) : option A :=
  if 0 <=? i then l !! Z.to_nat i else None.

Definition set {A} (l : list A) (i : Z) (x : A) : option (list A) :=
  if (0 <=? i) && (i <? len l) then Some (<[Z.to_nat i := x]> l) else None.

(** [rd l o n] is what [memcpy(_, l + o, n)] reads. *)
Definition rd {A} (l : list A) (o n : Z) : option (list A) :=
  if (0 <=? o) && (0 <=? n) && (o + n <=? len l)
  then Some (take (Z.to_nat n) (drop (Z.to_nat o) l)) else None.

(** [wr l o src] is the buffer after [memcpy(l + o, src, len src)]. *)
Definition wr {A} (l : list A) (o : Z) (src : list A) : option (list A) :=
  if (0 <=? o) && (o + len src <=? len l)
  then Some (take (Z.to_nat o) l ++ src ++ drop (Z.to_nat o + length src) l)
  else None.

(** [sub o n l] is the slice of [n] elements at [o], without a bounds check. *)
Definition sub {A} (o n : Z) (l : list A) : list A :=
  take (Z.to_nat n) (drop (Z.to_nat o) l).

Section buffers.
Context {A : Type}.
Implicit Types (l k : list A) (o n i : Z).

Lemma len_nonneg l : 0 <= len l.
Proof. unfold len; lia. Qed.

Lemma len_app l k : len (l ++ k) = len l + len k.
Proof. unfold len. rewrite length_app. lia. Qed.

Lemma len_cons (x : A) l : len (x :: l) = 1 + len l.
Proof. unfold len. simpl length. lia. Qed.

Lemma len_take n l : 0 <= n -> len (take (Z.to_nat n) l) = Z.min n (len l).
Proof. unfold len. rewrite length_take. lia. Qed.

Lemma len_drop n l : 0 <= n -> len (drop (Z.to_nat n) l) = Z.max 0 (len l - n).
Proof. unfold len. rewrite length_drop. lia. Qed.

Lemma len_sub o n l : 0 <= o -> 0 <= n -> o + n <= len l -> len (sub o n l) = n.
Proof. unfold sub, len. rewrite length_take, length_drop. lia. Qed.

Lemma rd_ok l o n : 0 <= o -> 0 <= n -> o + n <= len l -> rd l o n = Some (sub o n l).
Proof.
  unfold rd, sub; intros.
  replace ((0 <=? o) && (0 <=? n) && (o + n <=? len l)) with true by (symmetry; lia).
  done.
Qed.

Lemma wr_ok l o k : 0 <= o -> o + len k <= len l ->
  wr l o k = Some (take (Z.to_nat o) l ++ k ++ drop (Z.to_nat o + length k) l).
Proof.
  unfold wr; intros.
  replace ((0 <=? o) && (o + len k <=? len l)) with true by (symmetry; lia).
  done.
Qed.

Lemma wr_len l o k l' : wr l o k = Some l' -> len l' = len l.
Proof.
  unfold wr. case_if; [|done]. intros [= <-].
  unfold len in *. rewrite !length_app, length_take, length_drop. lia.
Qed.
End buffers.

(** Lists equal when they agree below a common length. *)
Lemma list_eq_below {A} (l k : list A) :
  length l = length k ->
  (forall i, (i < length l)%nat -> l !! i = k !! i) -> l = k.
Proof.
  intros Hl H. apply list_eq. intros i.
  destruct (decide (i < length l)%nat); [auto|].
  rewrite !lookup_ge_None_2 by lia. done.
Qed.

Lemma length_sub {A} (l : list A) o n : 0 <= o -> 0 <= n -> o + n <= len l ->
  length (sub o n l) = Z.to_nat n.
Proof. unfold sub, len. rewrite length_take, length_drop. lia. Qed.

Lemma sub_lookup {A} (l : list A) o n (i : nat) : 0 <= o -> (i < Z.to_nat n)%nat ->
  sub o n l !! i = l !! (Z.to_nat o + i)%nat.
Proof. intros. unfold sub. rewrite lookup_take_lt by lia. apply lookup_drop. Qed.

(** Storing two consecutive pieces at the front of a buffer. *)
Lemma wr_front {A} (d a : list A) : len a <= len d ->
  wr d 0 a = Some (a ++ drop (length a) d).
Proof. intros. rewrite wr_ok by lia. done. Qed.

Lemma wr_front2 {A} (d a c : list A) o : o = len a -> len a + len c <= len d ->
  wr (a ++ drop (length a) d) o c =
  Some ((a ++ c) ++ drop (length (a ++ c)) d).
Proof.
  intros ->. intros. rewrite wr_ok; unfold len in *;
    [|lia|rewrite length_app, length_drop; lia].
  f_equal. rewrite take_app_length' by lia. rewrite <- app_assoc. do 2 f_equal.
  rewrite drop_app_ge by lia. rewrite drop_drop, length_app. f_equal. lia.
Qed.

(** A successful store, element by element. *)
Lemma wr_spec {A} (l k : list A) o : 0 <= o -> o + len k <= len l ->
  exists l', wr l o k = Some l' /\ len l' = len l /\
    forall i : nat, l' !! i =
      if (o <=? Z.of_nat i) && (Z.of_nat i <? o + len k)
      then k !! (i - Z.to_nat o)%nat else l !! i.
Proof.
  intros Ho Hk. eexists. split; [by apply wr_ok|]. split.
  { unfold len in *. rewrite !length_app, length_take, length_drop. lia. }
  unfold len in *. intros i. case_if.
  - rewrite lookup_app_r by (rewrite length_take; lia).
    rewrite lookup_app_l by (rewrite length_take; lia).
    rewrite length_take. f_equal; lia.
  - apply andb_false_iff in Heqb as [?|?]; bools.
    + rewrite lookup_app_l by (rewrite length_take; lia). apply lookup_take_lt; lia.
    + rewrite lookup_app_r by (rewrite length_take; lia).
      rewrite lookup_app_r by (rewrite length_take; lia).
      rewrite lookup_drop, length_take. f_equal; lia.
Qed.

(** Access by index. *)
Lemma get_ok {A} (l : list A) i : 0 <= i < len l -> is_Some (get l i).
Proof.
  unfold get, len. intros. replace (0 <=? i) with true by (symmetry; lia).
  apply lookup_lt_is_Some. lia.
Qed.

Lemma get_nat {A} (l : list A) (i : nat) : get l (Z.of_nat i) = l !! i.
Proof. unfold get. rewrite (proj2 (Z.leb_le 0 (Z.of_nat i))) by lia. by rewrite Nat2Z.id. Qed.

Lemma set_ok {A} (l : list A) i x : 0 <= i < len l ->
  exists l', set l i x = Some l' /\ len l' = len l /\
    forall j, get l' j = if j =? i then Some x else get l j.
Proof.
  intros Hi. unfold set.
  replace ((0 <=? i) && (i <? len l)) with true by (symmetry; lia).
  eexists. split; [done|]. split; [unfold len; by rewrite length_insert|].
  intros j. unfold get, len in *. destruct (j =? i) eqn:E; bools; [subst|].
  - replace (0 <=? i) with true by (symmetry; lia). apply list_lookup_insert_eq. lia.
  - destruct (0 <=? j) eqn:Ej; bools; [|done]. apply list_lookup_insert_ne. lia.
Qed.

Lemma list_eq_get {A} (l k : list A) :
  len l = len k -> (forall i, 0 <= i < len l -> get l i = get k i) -> l = k.
Proof.
  unfold len. intros Hl H. apply list_eq_below; [lia|]. intros i Hi.
  rewrite <- !get_nat. apply H. lia.
Qed.

Lemma get_wr {A} (l k : list A) o : 0 <= o -> o + len k <= len l ->
  exists l', wr l o k = Some l' /\ len l' = len l /\
    forall j, get l' j = if (o <=? j) && (j <? o + len k) then get k (j - o) else get l j.
Proof.
  intros Ho Hk. destruct (wr_spec l k o Ho Hk) as (l' & Hw & Hl & Hg). exists l'.
  split_and!; try done. intros j. destruct (0 <=? j) eqn:Ej; bools.
  - rewrite <- (Z2Nat.id j) by lia. rewrite !get_nat, Hg. case_if; [|done].
    rewrite <- get_nat. f_equal. lia.
  - unfold get. replace (0 <=? j) with false by (symmetry; lia).
    destruct (o <=? j) eqn:E; bools; [lia|done].
Qed.

Lemma get_sub {A} (l : list A) o n j : 0 <= o -> 0 <= j < n -> get (sub o n l) j = get l (o + j).
Proof.
  intros. unfold get. replace (0 <=? j) with true by (symmetry; lia).
  replace (0 <=? o + j) with true by (symmetry; lia). rewrite sub_lookup by lia. f_equal. lia.
Qed.

(** Access at the joint of two pieces. *)
Section joints.
Context {A : Type}.
Implicit Types (X Y k r t : list A) (x y : A).

Lemma get_middle X x Y : get (X ++ x :: Y) (len X) = Some x.
Proof. unfold len. rewrite get_nat. by apply list_lookup_middle. Qed.

Lemma set_middle X x Y y : set (X ++ x :: Y) (len X) y = Some (X ++ y :: Y).
Proof.
  unfold set. replace ((0 <=? len X) && (len X <? len (X ++ x :: Y))) with true.
  2: { rewrite len_app, len_cons. pose proof (len_nonneg X). pose proof (len_nonneg Y). lia. }
  f_equal. unfold len. rewrite Nat2Z.id. rewrite insert_app_r_alt by lia. by rewrite Nat.sub_diag.
Qed.

Lemma wr_app X Y k : len k <= len Y -> wr (X ++ Y) (len X) k = Some (X ++ k ++ drop (length k) Y).
Proof.
  intros. rewrite wr_ok; [|apply len_nonneg|rewrite len_app; lia].
  unfold len. rewrite Nat2Z.id, take_app_length, drop_app_ge by lia. do 4 f_equal. lia.
Qed.

Lemma sub_app X k Y : sub (len X) (len k) (X ++ k ++ Y) = k.
Proof. unfold sub, len. rewrite !Nat2Z.id, drop_app_length. by rewrite take_app_length. Qed.
End joints.

(** ** A bit of a word *)
Lemma mask_bit x j : 0 <= j -> Z.land x (Z.shiftl 1 j) = 0 <-> Z.testbit x j = false.
Proof.
  intros Hj. split.
  - intros H. assert (Z.testbit (Z.land x (Z.shiftl 1 j)) j = false) as Hb by (by rewrite H, Z.bits_0).
    rewrite Z.land_spec, Z.shiftl_spec, Z.sub_diag in Hb by lia. by rewrite andb_true_r in Hb.
  - intros H. apply Z.bits_inj'. intros i Hi. rewrite Z.land_spec, Z.shiftl_spec, Z.bits_0 by lia.
    destruct (decide (i = j)) as [->|]; [by rewrite H|]. destruct (decide (i < j)).
    + rewrite (Z.testbit_neg_r 1) by lia. apply andb_false_r.
    + rewrite (Z.bits_above_log2 1 (i - j)); [apply andb_false_r|lia|cbn; lia].
Qed.

(** ** Operations on a state that may stop

    [M S E A]: a computation over the state [S] that returns an [A] or stops for
    a reason [E] (a fault, a panic, a failed assertion).  *)
Inductive res (S E A : Type) :=
  | Ok (a : A) (s : S)
  | Stop (e : E).
Arguments Ok {S E A} a s.
Arguments Stop {S E A} e.

Definition M (S E A : Type) := S -> res S E A.

Section monad.
Context {S E : Type}.
Definition ret {A} (a : A) : M S E A := fun s => Ok a s.
Definition halt {A} (e : E) : M S E A := fun _ => Stop e.
Definition bind {A B} (c : M S E A) (k : A -> M S E B) : M S E B := fun s =>
  match c s with Ok a s' => k a s' | Stop e => Stop e end.
Definition get_state : M S E S := fun s => Ok s s.

(** Running a bind whose first part is known to return. *)
Lemma bind_Ok {A B} (c : M S E A) (k : A -> M S E B) s a s' :
  c s = Ok a s' -> bind c k s = k a s'.
Proof. unfold bind. by intros ->. Qed.

Lemma bind_assoc {A B C} (c : M S E A) (f : A -> M S E B) (g : B -> M S E C) s :
  bind (bind c f) g s = bind c (fun a => bind (f a) g) s.
Proof. unfold bind. by destruct (c s). Qed.

Lemma bind_ret {A B} (a : A) (k : A -> M S E B) s : bind (ret a) k s = k a s.
Proof. done. Qed.

Lemma bind_get {B} (k : S -> M S E B) s : bind get_state k s = k s s.
Proof. done. Qed.
End monad.

(** Total correctness: the computation returns, and the result satisfies [Q]. *)
Definition wp {S E A} (c : M S E A) (s : S) (Q : A -> S -> Prop) : Prop :=
  match c s with Ok a s' => Q a s' | Stop _ => False end.

Section wp.
Context {S E : Type}.

Lemma wp_ret {A} (a : A) (s : S) (Q : A -> S -> Prop) : Q a s -> wp (E := E) (ret a) s Q.
Proof. done. Qed.

Lemma wp_get (s : S) (Q : S -> S -> Prop) : Q s s -> wp (E := E) get_state s Q.
Proof. done. Qed.

Lemma wp_bind {A B} (c : M S E A) (k : A -> M S E B) s Q :
  wp c s (fun a s' => wp (k a) s' Q) -> wp (bind c k) s Q.
Proof. unfold wp, bind. by destruct (c s). Qed.

Lemma wp_mono {A} (c : M S E A) s (P Q : A -> S -> Prop) :
  wp c s P -> (forall a s', P a s' -> Q a s') -> wp c s Q.
Proof. unfold wp. destruct (c s); naive_solver. Qed.

Lemma wp_eq {A} (c : M S E A) s a s' (Q : A -> S -> Prop) :
  c s = Ok a s' -> Q a s' -> wp c s Q.
Proof. unfold wp. by intros ->. Qed.

Lemma wp_inv {A} (c : M S E A) s Q : wp c s Q -> exists a s', c s = Ok a s' /\ Q a s'.
Proof. unfold wp. destruct (c s); naive_solver. Qed.
End wp.

Declare Scope monad_scope.
Delimit Scope monad_scope with monad.
Notation "'do' x <- c ; k" := (bind c (fun x => k))
  (at level 10, x name, c at level 100, k at level 200) : monad_scope.
Notation "c ;;; k" := (bind c (fun _ => k))
  (at level 100, k at level 200, right associativity) : monad_scope.
