(* ===== verification/Adt.v ===== *)
(** * Ring buffers ([KernelLand/Kernel/adt.c])

    The kernel's byte ring buffer: its state, the two operations and their
    refinement of a bounded first-in first-out queue.  The unlocked middle of
    [RingBuffer_Write] is kept as a step of its own, so that a reader may run
    between the locked sections as it does on another CPU. *)
From S2P Require Import Prelude.
Local Open Scope Z_scope.

(** ** Bounded byte queues

    What the ring buffer promises its clients (the TCP receive and send
    buffers, the kernel log): a bounded FIFO of bytes. *)
Class ByteQueue (Q : Type) := {
  q_ok : Q -> Prop;
  q_contents : Q -> list Z;
  q_capacity : Q -> Z;
  q_read : list Z -> Q -> Z -> option (Z * list Z * Q);
  q_write : Q -> list Z -> Z -> option (Z * Q);
  q_read_spec : forall dest q n,
    q_ok q -> 0 <= n -> n <= len dest ->
    let k := Z.min n (len (q_contents q)) in
    exists q', q_read dest q n =
      Some (k, take (Z.to_nat k) (q_contents q) ++ drop (Z.to_nat k) dest, q') /\
      q_ok q' /\ q_capacity q' = q_capacity q /\
      q_contents q' = drop (Z.to_nat k) (q_contents q);
  q_write_spec : forall q src n,
    q_ok q -> 0 <= n -> n <= len src ->
    let k := Z.min n (q_capacity q - len (q_contents q)) in
    exists q', q_write q src n = Some (k, q') /\
      q_ok q' /\ q_capacity q' = q_capacity q /\
      q_contents q' = q_contents q ++ take (Z.to_nat k) src
}.

(** ** The implementation *)
Module RingBuffer.

(** [struct sRingBuffer]; the spinlock is a step boundary, not a field. *)
Record tRingBuffer := mk {
  Start : Z;
  Length : Z;
  Space : Z;
  Data : list Z
}.

(** [sizeof(tRingBuffer)] on x86: three words and a three-word spinlock. *)
Definition sizeof_tRingBuffer : Z := 24.

(** [calloc_ok] says whether [calloc] returned a buffer; the code stores
    through the result without a test, so a failed allocation is a null
    dereference ([None]).  [calloc] is asked for the wrapped sum, which is what
    bounds the bytes really behind [Data]. *)
Definition RingBuffer_Create (calloc_ok : bool) (Space : Z) : option tRingBuffer :=
  if calloc_ok then
    Some (mk 0 0 Space
            (replicate (Z.to_nat (u32 (sizeof_tRingBuffer + Space) - sizeof_tRingBuffer)) 0))
  else None.

Definition RingBuffer_Read (Dest : list Z) (Buffer : tRingBuffer) (Length0 : Z)
  : option (Z * list Z * tRingBuffer) :=
  let tmpLen := Length Buffer in
  let Length' := if tmpLen <? Length0 then tmpLen else Length0 in
  dest' ←
    (if Space Buffer <? u32 (Start Buffer + Length') then
       let endData := i32 (Space Buffer - Start Buffer) in
       a ← rd (Data Buffer) (Start Buffer) (u32 endData);
       d1 ← wr Dest 0 a;
       b ← rd (Data Buffer) 0 (u32 (Length' - endData));
       wr d1 endData b
     else
       a ← rd (Data Buffer) (Start Buffer) Length';
       wr Dest 0 a);
  let start1 := u32 (Start Buffer + Length') in
  let start2 := if Space Buffer <? start1 then u32 (start1 - Space Buffer) else start1 in
  Some (Length', dest',
        mk start2 (u32 (Length Buffer - Length')) (Space Buffer) (Data Buffer)).

(** The first locked section of the writer. *)
Definition write_snapshot (Buffer : tRingBuffer) : Z * Z := (Start Buffer, Length Buffer).

(** The unlocked middle: it uses the snapshot, and reads [Buffer->Length] again
    for [bufEnd].  The modulo by a zero [Space] is undefined. *)
Definition write_copy (snap : Z * Z) (Buffer : tRingBuffer) (Source : list Z) (Length0 : Z)
  : option (Z * tRingBuffer) :=
  let '(tmpStart, tmpLen) := snap in
  if Space Buffer =? 0 then None else
  let bufEnd := u32 (tmpStart + Length Buffer) mod Space Buffer in
  let endSpace := u32 (Space Buffer - bufEnd) in
  let room := u32 (Space Buffer - tmpLen) in
  let Length' := if room <? Length0 then room else Length0 in
  data' ←
    (if endSpace <? Length' then
       a ← rd Source 0 endSpace;
       d1 ← wr (Data Buffer) bufEnd a;
       b ← rd Source endSpace (u32 (Length' - endSpace));
       wr d1 0 b
     else
       a ← rd Source 0 Length';
       wr (Data Buffer) bufEnd a);
  Some (Length', mk (Start Buffer) (Length Buffer) (Space Buffer) data').

(** The second locked section. *)
Definition write_commit (Buffer : tRingBuffer) (Length' : Z) : tRingBuffer :=
  mk (Start Buffer) (u32 (Length Buffer + Length')) (Space Buffer) (Data Buffer).

Definition RingBuffer_Write (Buffer : tRingBuffer) (Source : list Z) (Length0 : Z)
  : option (Z * tRingBuffer) :=
  let snap := write_snapshot Buffer in
  r ← write_copy snap Buffer Source Length0;
  let '(n, Buffer') := r in
  Some (n, write_commit Buffer' n).

(** ** Invariant and abstraction *)

Definition ok (b : tRingBuffer) : Prop :=
  0 < Space b < 2147483648 /\ 0 <= Start b <= Space b /\
  0 <= Length b <= Space b /\ len (Data b) = Space b.

(** The queued bytes: [Length] bytes of the data rotated to [Start]. *)
Definition contents (b : tRingBuffer) : list Z :=
  take (Z.to_nat (Length b))
    (drop (Z.to_nat (Start b)) (Data b) ++ take (Z.to_nat (Start b)) (Data b)).

Lemma contents_len b : ok b -> len (contents b) = Length b.
Proof.
  unfold ok, contents, len. intros.
  rewrite length_take, length_app, length_drop, length_take. lia.
Qed.

(** Where the [i]th queued byte lives. *)
Lemma contents_lookup b (i : nat) : ok b -> Z.of_nat i < Length b ->
  contents b !! i =
  Data b !! (if Start b + Z.of_nat i <? Space b then (Z.to_nat (Start b) + i)%nat
             else (Z.to_nat (Start b) + i - length (Data b))%nat).
Proof.
  unfold ok, contents, len. intros H Hi.
  rewrite lookup_take_lt by lia. case_if.
  - rewrite lookup_app_l by (rewrite length_drop; lia). rewrite lookup_drop. done.
  - rewrite lookup_app_r by (rewrite length_drop; lia).
    rewrite length_drop, lookup_take_lt by lia. f_equal; lia.
Qed.


(** What the one or two [memcpy]s of the reader leave in [Dest]. *)
Lemma read_dest b n : ok b -> 0 <= n <= Length b -> Start b + n <= Space b ->
  sub (Start b) n (Data b) = take (Z.to_nat n) (contents b).
Proof.
  intros Hok Hn Hs. pose proof (contents_len b Hok) as Hc.
  unfold ok, len in *.
  apply list_eq_below.
  - unfold sub. rewrite !length_take, length_drop. lia.
  - intros i Hi. unfold sub in Hi. rewrite length_take, length_drop in Hi.
    rewrite sub_lookup by lia. rewrite lookup_take_lt by lia.
    rewrite contents_lookup by (unfold ok, len; lia).
    case_if; [done|lia].
Qed.

Lemma read_dest_wrap b n : ok b -> 0 <= n <= Length b -> Space b < Start b + n ->
  sub (Start b) (Space b - Start b) (Data b) ++
  sub 0 (n - (Space b - Start b)) (Data b) = take (Z.to_nat n) (contents b).
Proof.
  intros Hok Hn Hs. pose proof (contents_len b Hok) as Hc.
  unfold ok, len in *.
  apply list_eq_below.
  - unfold sub. rewrite length_app, !length_take, !length_drop. lia.
  - intros i Hi. unfold sub in Hi. rewrite length_app, !length_take, !length_drop in Hi.
    rewrite lookup_take_lt by lia.
    rewrite contents_lookup by (unfold ok, len; lia).
    case_if.
    + rewrite lookup_app_l by (unfold sub; rewrite length_take, length_drop; lia).
      apply sub_lookup; lia.
    + rewrite lookup_app_r by (unfold sub; rewrite length_take, length_drop; lia).
      rewrite length_sub, sub_lookup by (unfold len; lia). f_equal; lia.
Qed.

Lemma length_take_contents b n : ok b -> 0 <= n <= Length b ->
  length (take (Z.to_nat n) (contents b)) = Z.to_nat n.
Proof.
  intros Hok Hn. pose proof (contents_len b Hok). unfold len in *.
  rewrite length_take. lia.
Qed.

(** The buffer after [k] bytes have been taken. *)
Definition advance (b : tRingBuffer) (k : Z) : tRingBuffer :=
  mk (if Space b <? Start b + k then Start b + k - Space b else Start b + k)
     (Length b - k) (Space b) (Data b).

Lemma advance_ok b k : ok b -> 0 <= k <= Length b -> ok (advance b k).
Proof. unfold ok, advance; simpl. intros. case_if; lia. Qed.

Lemma advance_contents b k : ok b -> 0 <= k <= Length b ->
  contents (advance b k) = drop (Z.to_nat k) (contents b).
Proof.
  intros Hok Hk. pose proof (advance_ok b k Hok Hk) as Hok'.
  pose proof (contents_len _ Hok) as H1. pose proof (contents_len _ Hok') as H2.
  unfold len in *. simpl in H2.
  apply list_eq_below; [rewrite length_drop; lia|].
  intros i Hi. rewrite lookup_drop.
  rewrite !contents_lookup by (assumption || (simpl; lia)).
  unfold ok, len in *. simpl in *.
  repeat case_if; f_equal; lia.
Qed.

Lemma read_eq Dest b n : ok b -> 0 <= n -> n <= len Dest ->
  let k := Z.min n (Length b) in
  RingBuffer_Read Dest b n =
  Some (k, take (Z.to_nat k) (contents b) ++ drop (Z.to_nat k) Dest, advance b k).
Proof.
  intros Hok Hn Hd k. unfold RingBuffer_Read. cbv zeta.
  assert ((if Length b <? n then Length b else n) = k) as -> by (subst k; case_if; lia).
  assert (0 <= k <= Length b) as Hk by (unfold ok in Hok; lia).
  assert (k <= n) as Hkn by lia. clearbody k.
  pose proof (length_take_contents b k Hok Hk) as Hl.
  unfold ok in Hok. unfold advance. ints.
  destruct (Space b <? Start b + k) eqn:E; bools.
  - ints. rewrite !rd_ok by lia. cbn [mbind option_bind].
    rewrite wr_front by (rewrite len_sub; lia). cbn [mbind option_bind].
    rewrite wr_front2 by (rewrite !len_sub; lia). cbn [mbind option_bind].
    rewrite read_dest_wrap by (unfold ok; lia). rewrite Hl. by ints.
  - rewrite rd_ok by lia. cbn [mbind option_bind].
    rewrite wr_front by (rewrite len_sub; lia). cbn [mbind option_bind].
    rewrite read_dest by (unfold ok; lia). rewrite Hl. by ints.
Qed.

(** The index in [Data] of the [i]th slot after [Start]. *)
Definition slot (b : tRingBuffer) (i : nat) : nat :=
  if Start b + Z.of_nat i <? Space b then (Z.to_nat (Start b) + i)%nat
  else if Start b + Z.of_nat i <? 2 * Space b
  then (Z.to_nat (Start b) + i - Z.to_nat (Space b))%nat else 0%nat.

Lemma write_end b : ok b ->
  (Start b + Length b) mod Space b = Z.of_nat (slot b (Z.to_nat (Length b))).
Proof.
  unfold ok, slot. intros. repeat case_if; symmetry.
  - apply (Z.mod_unique _ _ 0); lia.
  - apply (Z.mod_unique _ _ 1); lia.
  - apply (Z.mod_unique _ _ 2); lia.
Qed.

(** The writer's copy stores the accepted bytes in the free slots and leaves the
    queued ones alone. *)
Lemma write_copy_spec b src n : ok b -> 0 <= n -> n <= len src ->
  let k := Z.min n (Space b - Length b) in
  exists d, write_copy (write_snapshot b) b src n =
      Some (k, mk (Start b) (Length b) (Space b) d) /\
    len d = Space b /\
    forall i : nat, Z.of_nat i < Length b + k ->
      d !! slot b i = if Z.of_nat i <? Length b then Data b !! slot b i
                      else src !! (i - Z.to_nat (Length b))%nat.
Proof.
  intros Hok Hn Hs k. unfold write_copy, write_snapshot.
  pose proof (write_end b Hok) as He. unfold ok in Hok.
  replace (Space b =? 0) with false by (symmetry; lia). cbv zeta.
  rewrite (u32_small (Start b + Length b)) by lia. rewrite He.
  assert (Z.of_nat (slot b (Z.to_nat (Length b))) < Space b)
    by (rewrite <- He; apply Z.mod_pos_bound; lia).
  remember (slot b (Z.to_nat (Length b))) as e eqn:Hdef. clear He. ints.
  assert ((if Space b - Length b <? n then Space b - Length b else n) = k) as ->
    by (subst k; case_if; lia).
  assert (0 <= k <= Space b - Length b /\ k <= n) as Hk by lia. clearbody k.
  case_if.
  - ints. rewrite !rd_ok by lia. cbn [mbind option_bind].
    destruct (wr_spec (Data b) (sub 0 (Space b - Z.of_nat e) src) (Z.of_nat e))
      as (d1 & -> & Hl1 & H1); [lia|rewrite len_sub; lia|]. cbn [mbind option_bind].
    rewrite len_sub in H1 by lia.
    destruct (wr_spec d1 (sub (Space b - Z.of_nat e) (k - (Space b - Z.of_nat e)) src) 0)
      as (d2 & -> & Hl2 & H2); [lia|rewrite len_sub; lia|]. cbn [mbind option_bind].
    rewrite len_sub in H2 by lia.
    exists d2. split; [done|]. split; [lia|]. intros i Hi.
    rewrite H2, H1. unfold slot in *.
    repeat case_if_in Hdef; splits; rewrite sub_lookup by lia; f_equal; lia.
  - rewrite rd_ok by lia. cbn [mbind option_bind].
    destruct (wr_spec (Data b) (sub 0 k src) (Z.of_nat e))
      as (d1 & -> & Hl1 & H1); [lia|rewrite len_sub; lia|]. cbn [mbind option_bind].
    rewrite len_sub in H1 by lia.
    exists d1. split; [done|]. split; [lia|]. intros i Hi.
    rewrite H1. unfold slot in *.
    repeat case_if_in Hdef; splits; rewrite sub_lookup by lia; f_equal; lia.
Qed.

Lemma contents_slot b (i : nat) : ok b -> Z.of_nat i < Length b ->
  contents b !! i = Data b !! slot b i.
Proof.
  intros Hok Hi. rewrite contents_lookup by done. unfold slot, ok, len in *. splits.
Qed.

Lemma write_spec b src n : ok b -> 0 <= n -> n <= len src ->
  let k := Z.min n (Space b - Length b) in
  exists b', RingBuffer_Write b src n = Some (k, b') /\ ok b' /\
    Space b' = Space b /\ contents b' = contents b ++ take (Z.to_nat k) src.
Proof.
  intros Hok Hn Hs k. unfold RingBuffer_Write.
  destruct (write_copy_spec b src n Hok Hn Hs) as (d & -> & Hd & Hlook). fold k in Hlook |- *.
  cbn [mbind option_bind]. unfold write_commit; simpl.
  assert (0 <= k <= Space b - Length b /\ k <= n) as Hk by (unfold ok in Hok; lia).
  clearbody k. eexists. split; [done|].
  set (b' := mk _ _ _ _).
  assert (ok b') as Hok' by (unfold ok in *; simpl; ints; lia).
  split; [done|]. split; [done|].
  pose proof (contents_len b Hok) as Hl. pose proof (contents_len b' Hok') as Hl'.
  unfold ok, len in Hok, Hok', Hl, Hl', Hd, Hs. simpl in Hl'. rewrite u32_small in Hl' by lia.
  apply list_eq_below; [rewrite length_app, length_take; lia|].
  intros i Hi. rewrite contents_slot by (unfold ok, len; simpl; ints; lia).
  change (slot b' i) with (slot b i). change (Data b') with d. rewrite Hlook by lia.
  case_if.
  - rewrite lookup_app_l by lia. rewrite contents_slot; unfold ok, len; done || lia.
  - rewrite lookup_app_r by lia. rewrite lookup_take_lt by lia. f_equal; lia.
Qed.

Lemma read_law dest q n : ok q -> 0 <= n -> n <= len dest ->
  let k := Z.min n (len (contents q)) in
  exists q', RingBuffer_Read dest q n =
      Some (k, take (Z.to_nat k) (contents q) ++ drop (Z.to_nat k) dest, q') /\
    ok q' /\ Space q' = Space q /\ contents q' = drop (Z.to_nat k) (contents q).
Proof.
  intros Hok Hn Hd k. subst k. rewrite contents_len by done.
  assert (0 <= Z.min n (Length q) <= Length q) by (unfold ok in Hok; lia).
  eexists. split; [by apply read_eq|]. split; [by apply advance_ok|]. split; [done|].
  by apply advance_contents.
Qed.

Lemma write_law q src n : ok q -> 0 <= n -> n <= len src ->
  let k := Z.min n (Space q - len (contents q)) in
  exists q', RingBuffer_Write q src n = Some (k, q') /\
    ok q' /\ Space q' = Space q /\ contents q' = contents q ++ take (Z.to_nat k) src.
Proof.
  intros Hok Hn Hs k. subst k. rewrite contents_len by done. by apply write_spec.
Qed.
End RingBuffer.

#[export] Instance RingBuffer_ByteQueue : ByteQueue RingBuffer.tRingBuffer := {
  q_ok := RingBuffer.ok;
  q_contents := RingBuffer.contents;
  q_capacity := RingBuffer.Space;
  q_read := RingBuffer.RingBuffer_Read;
  q_write := RingBuffer.RingBuffer_Write;
  q_read_spec := RingBuffer.read_law;
  q_write_spec := RingBuffer.write_law
}.

(** ** Clients of a byte queue

    A client is a sequence of calls; [run] executes it on a queue, [spec_run] on
    the plain list a queue stands for.  Each call's observation is the count it
    returned and, for a read, the destination buffer afterwards. *)
Inductive call :=
  | Read (dest : list Z) (n : Z)
  | Write (src : list Z) (n : Z).

Definition call_ok (c : call) : Prop :=
  match c with
  | Read dest n => 0 <= n <= len dest
  | Write src n => 0 <= n <= len src
  end.

Definition spec_step (cap : Z) (q : list Z) (c : call) : (Z * list Z) * list Z :=
  match c with
  | Read dest n =>
      let k := Z.min n (len q) in
      ((k, take (Z.to_nat k) q ++ drop (Z.to_nat k) dest), drop (Z.to_nat k) q)
  | Write src n =>
      let k := Z.min n (cap - len q) in
      ((k, []), q ++ take (Z.to_nat k) src)
  end.

Fixpoint spec_run (cap : Z) (q : list Z) (cs : list call) : list (Z * list Z) * list Z :=
  match cs with
  | [] => ([], q)
  | c :: cs' =>
      let '(o, q1) := spec_step cap q c in
      let '(os, q2) := spec_run cap q1 cs' in (o :: os, q2)
  end.

Section client.
Context {Q : Type} `{ByteQueue Q}.

Definition step (q : Q) (c : call) : option ((Z * list Z) * Q) :=
  match c with
  | Read dest n => r ← q_read dest q n; Some ((r.1.1, r.1.2), r.2)
  | Write src n => r ← q_write q src n; Some ((r.1, []), r.2)
  end.

Fixpoint run (q : Q) (cs : list call) : option (list (Z * list Z) * Q) :=
  match cs with
  | [] => Some ([], q)
  | c :: cs' =>
      r1 ← step q c;
      r2 ← run r1.2 cs';
      Some (r1.1 :: r2.1, r2.2)
  end.

Lemma run_refines (cs : list call) : forall q, q_ok q -> Forall call_ok cs ->
  exists q' os, run q cs = Some (os, q') /\ q_ok q' /\
    spec_run (q_capacity q) (q_contents q) cs = (os, q_contents q').
Proof.
  induction cs as [|c cs IH]; intros q Hq Hcs; [by eexists q, []|].
  inversion_clear Hcs as [|? ? Hc Hcs']. simpl run. simpl spec_run.
  assert (exists q1 o, step q c = Some (o, q1) /\ q_ok q1 /\
      q_capacity q1 = q_capacity q /\
      spec_step (q_capacity q) (q_contents q) c = (o, q_contents q1)) as (q1 & o & Hst & Hq1 & Hcap & Hsp).
  { destruct c as [dest n|src n]; simpl in Hc |- *.
    - destruct (q_read_spec dest q n) as (q1 & -> & ? & ? & Hq1); [done|lia..|].
      eexists q1, _. rewrite Hq1. done.
    - destruct (q_write_spec q src n) as (q1 & -> & ? & ? & Hq1); [done|lia..|].
      eexists q1, _. rewrite Hq1. done. }
  rewrite Hst, Hsp. cbn [mbind option_bind fst snd].
  destruct (IH q1 Hq1 Hcs') as (q2 & os & -> & Hq2 & Hs). rewrite Hcap in Hs. rewrite Hs.
  by eexists q2, _.
Qed.
End client.

(** The bytes a read call delivered, and those a write call was given credit
    for, in the abstract queue. *)
Definition delivered (c : call) (o : Z * list Z) : list Z :=
  match c with Read _ _ => take (Z.to_nat o.1) o.2 | Write _ _ => [] end.
Definition accepted (c : call) (o : Z * list Z) : list Z :=
  match c with Read _ _ => [] | Write src _ => take (Z.to_nat o.1) src end.

Definition delivered_all (cs : list call) (os : list (Z * list Z)) : list Z :=
  concat (zip_with delivered cs os).
Definition accepted_all (cs : list call) (os : list (Z * list Z)) : list Z :=
  concat (zip_with accepted cs os).

Lemma spec_run_fifo cap cs : forall q os q', Forall call_ok cs ->
  spec_run cap q cs = (os, q') ->
  delivered_all cs os ++ q' = q ++ accepted_all cs os.
Proof.
  unfold delivered_all, accepted_all.
  induction cs as [|c cs IH]; intros q os q' Hcs; simpl.
  { intros [= <- <-]. by rewrite app_nil_r. }
  inversion_clear Hcs as [|? ? Hc Hcs'].
  destruct (spec_step cap q c) as [o q1] eqn:E1.
  destruct (spec_run cap q1 cs) as [os2 q2] eqn:E2. intros [= <- <-]. simpl.
  apply IH in E2; [|done]. rewrite <- app_assoc, E2.
  destruct c as [dest n|src n]; simpl in *; injection E1 as <- <-; simpl.
  - rewrite take_app_length'; [by rewrite app_assoc, take_drop|].
    rewrite length_take. unfold len in *. lia.
  - by rewrite <- app_assoc.
Qed.

(** ** Properties of the ring buffer *)
Module RingBufferProps.
Import RingBuffer.

Lemma create_ok n : 0 < n < 2147483648 ->
  exists b, RingBuffer_Create true n = Some b /\ ok b /\ contents b = [] /\ Space b = n.
Proof.
  intros Hn. unfold RingBuffer_Create, sizeof_tRingBuffer. ints. eexists. split; [done|].
  split; [|done]. unfold ok, len; simpl. rewrite length_replicate. lia.
Qed.

(** C30: A ring buffer created with a positive size below 2 GiB refines a bounded
    FIFO queue of bytes: any sequence of [RingBuffer_Read] and
    [RingBuffer_Write] calls with large enough buffers runs without touching
    memory outside the buffer, returns for each call exactly what the abstract
    queue of that capacity returns (counts and delivered bytes), and what has
    been delivered followed by what is still queued is what was accepted, in
    order. *)
Theorem RingBuffer_refines_fifo n cs :
  0 < n < 2147483648 -> Forall call_ok cs ->
  exists b b' os, RingBuffer_Create true n = Some b /\
    run b cs = Some (os, b') /\ ok b' /\
    spec_run n [] cs = (os, contents b') /\
    delivered_all cs os ++ contents b' = accepted_all cs os.
Proof.
  intros Hn Hcs. destruct (create_ok n Hn) as (b & Hb & Hok & Hc & Hsp).
  destruct (@run_refines _ RingBuffer_ByteQueue cs b Hok Hcs) as (b' & os & Hrun & Hok' & Hspec).
  simpl in Hspec. rewrite Hc, Hsp in Hspec.
  exists b, b', os. split_and!; try done.
  by rewrite (spec_run_fifo _ _ _ _ _ Hcs Hspec).
Qed.

Definition fifo_demo : list call :=
  [Write [1;2;3] 3; Read [0;0] 2; Write [4;5;6] 3; Read [0;0;0;0;0] 5].

Lemma RingBuffer_refines_fifo_witness :
  (0 < 4 < 2147483648 /\ Forall call_ok fifo_demo) /\
  exists b b' os, RingBuffer_Create true 4 = Some b /\
    run b fifo_demo = Some (os, b') /\ ok b' /\
    spec_run 4 [] fifo_demo = (os, contents b') /\
    delivered_all fifo_demo os ++ contents b' = accepted_all fifo_demo os.
Proof.
  assert (Forall call_ok fifo_demo) as Hf
    by (repeat constructor; vm_compute; congruence).
  split; [split; [lia|exact Hf]|]. apply (RingBuffer_refines_fifo 4); [lia|exact Hf].
Defined.

(** The interleaving that the writer's second read of [Buffer->Length] admits:
    the snapshot, a whole read, then the copy and the commit. *)
Definition write_with_read_between (b : tRingBuffer) (dest : list Z) (rn : Z)
    (src : list Z) (n : Z) : option (tRingBuffer * list Z) :=
  let snap := write_snapshot b in
  r ← RingBuffer_Read dest b rn;
  w ← write_copy snap r.2 src n;
  Some (write_commit w.2 w.1, r.1.2).

(** The writer is not safe against a concurrent reader: when a reader takes
    one of two queued bytes between the writer's first locked
    section and its computation of [bufEnd], the accepted bytes are stored over
    unread ones and the queue no longer holds the bytes in order. *)
Theorem RingBuffer_Write_race :
  let b := mk 0 2 4 [1;2;3;4] in
  ok b /\ contents b = [1;2] /\
  exists b', write_with_read_between b [0] 1 [7;8] 2 = Some (b', [1]) /\
    contents b' <> [2;7;8].
Proof.
  split; [unfold ok; simpl; unfold len; simpl; lia|]. split; [done|].
  eexists. split; [vm_compute; reflexivity|]. vm_compute. congruence.
Qed.
End RingBufferProps.
