(* ===== verification/Heap.v ===== *)
(** * The kernel heap: model ([KernelLand/Kernel/heap.c])

    Memory is word addressed: a finite map from 4-byte aligned addresses to
    32-bit values, an absent address being an unmapped one whose access faults.
    Block headers and footers are words of that memory at the offsets of
    [tHeapHead] and [tHeapFoot] on x86, so that whatever the C code would
    overwrite, the model overwrites.  Every operation is the statement sequence
    of the C function in a state monad with the ways the kernel can stop. *)
From S2P Require Import Prelude.
Local Open Scope Z_scope.
Local Open Scope monad_scope.

(** ** The page allocator the heap grows with

    [MM_Allocate] of the architecture's memory manager: it backs the page at an
    address, or fails.  It never changes words that are already mapped, and
    after a success the whole page is mapped. *)
Definition page_word (p a : Z) : Prop := p <= a < p + 4096 /\ a mod 4 = 0.

Class PageAllocator := {
  mm : Type;
  MM_Allocate : Z -> mm -> gmap Z Z -> bool * mm * gmap Z Z;
  MM_Allocate_keeps : forall p s m b s' m' a v,
    MM_Allocate p s m = (b, s', m') -> m !! a = Some v -> m' !! a = Some v;
  MM_Allocate_maps : forall p s m s' m' a,
    MM_Allocate p s m = (true, s', m') -> page_word p a -> is_Some (m' !! a)
}.

(** ** Effects *)
Section model.
Context `{PageAllocator}.

Record heap_state := HS {
  gHeapStart : Z;
  gHeapEnd : Z;
  mem : gmap Z Z;
  frames : mm;           (* state of the physical allocator *)
  glHeap : bool;         (* the heap mutex is held *)
  in_heap_dump : bool;
  clock : Z              (* what [now()] returns *)
}.

(** Why an operation does not return: an access to unmapped memory, a kernel
    panic, a failed assertion, waiting on the heap mutex while holding it, or a
    walk longer than the heap. *)
Inductive stop := PageFault | KernelPanic | AssertFailed | Deadlock | NoProgress.

Abbreviation HM := (M heap_state stop).

Definition ld (a : Z) : HM Z := fun s =>
  match mem s !! a with Some v => Ok v s | None => Stop PageFault end.

Definition with_mem (s : heap_state) (m : gmap Z Z) : heap_state :=
  HS (gHeapStart s) (gHeapEnd s) m (frames s) (glHeap s) (in_heap_dump s) (clock s).

Definition st (a v : Z) : HM unit := fun s =>
  match mem s !! a with
  | Some _ => Ok tt (with_mem s (<[a := u32 v]> (mem s)))
  | None => Stop PageFault
  end.

Definition Mutex_Acquire : HM unit := fun s =>
  if glHeap s then Stop Deadlock
  else Ok tt (HS (gHeapStart s) (gHeapEnd s) (mem s) (frames s) true (in_heap_dump s) (clock s)).
Definition Mutex_Release : HM unit := fun s =>
  Ok tt (HS (gHeapStart s) (gHeapEnd s) (mem s) (frames s) false (in_heap_dump s) (clock s)).
Definition set_dumping (b : bool) : HM unit := fun s =>
  Ok tt (HS (gHeapStart s) (gHeapEnd s) (mem s) (frames s) (glHeap s) b (clock s)).
Definition set_end (e : Z) : HM unit := fun s =>
  Ok tt (HS (gHeapStart s) e (mem s) (frames s) (glHeap s) (in_heap_dump s) (clock s)).
Definition set_bounds (b e : Z) : HM unit := fun s =>
  Ok tt (HS b e (mem s) (frames s) (glHeap s) (in_heap_dump s) (clock s)).
Definition map_page (p : Z) : HM bool := fun s =>
  let '(b, f, m) := MM_Allocate p (frames s) (mem s) in
  Ok b (HS (gHeapStart s) (gHeapEnd s) m f (glHeap s) (in_heap_dump s) (clock s)).

(** ** Constants and layout *)
Definition HEAP_INIT_SIZE : Z := 0x8000.
Definition MIN_SIZE : Z := 32.
Definition MAGIC_FOOT : Z := 0x544F4F46.
Definition MAGIC_FREE : Z := 0x45455246.
Definition MAGIC_USED : Z := 0x44455355.
Definition MM_KHEAP_BASE : Z := 0xC0400000.
Definition MM_KHEAP_MAX : Z := 0xCF000000.
Definition UINT_MAX : Z := 0xFFFFFFFF.
Definition INVLPTR : Z := 0xFFFFFFFF.

(** [tHeapHead]: Size, ValidSize, File, Line, Magic, AllocateTime (8 bytes). *)
Definition oValidSize : Z := 4.
Definition oFile : Z := 8.
Definition oLine : Z := 12.
Definition oMagic : Z := 16.
Definition oTime : Z := 20.
Definition sizeof_tHeapHead : Z := 28.
(** [tHeapFoot]: Magic, Head. *)
Definition oFootHead : Z := 4.
Definition sizeof_tHeapFoot : Z := 8.

Definition Heap_NextHead (Head : Z) : HM Z :=
  do sz <- ld Head; ret (u32 (Head + sz)).
Definition Heap_ThisFoot (Head : Z) : HM Z :=
  do sz <- ld Head; ret (u32 (Head + sz - sizeof_tHeapFoot)).
Definition Heap_PrevFoot (Head : Z) : Z := u32 (Head - sizeof_tHeapFoot).

Definition Heap_int_GetBlockSize (AllocSize : Z) : Z :=
  Z.land (u32 (AllocSize + sizeof_tHeapHead + sizeof_tHeapFoot + MIN_SIZE - 1))
         (u32 (Z.lnot (MIN_SIZE - 1))).

(** ** Validation *)

(** The forward walk of [Heap_ValidateDump]; its result is the header it stopped
    at.  The walk visits at most one block per [MIN_SIZE] bytes, or halts. *)
Fixpoint validate_walk (fuel : nat) (bVerbose : bool) (head : Z) : HM Z :=
  match fuel with
  | O => halt NoProgress
  | S fuel' =>
    do s <- get_state;
    if negb (head <? gHeapEnd s) then ret head else
    do foot <- Heap_ThisFoot head;
    (if bVerbose then
       do sz <- ld head; do vs <- ld (u32 (head + oValidSize)); do mg <- ld (u32 (head + oMagic));
       do fh <- ld (u32 (foot + oFootHead)); do fm <- ld foot;
       do fl <- ld (u32 (head + oFile)); ret tt
     else ret tt);;;
    do sz <- ld head;
    if sz =? 0 then ret head else
    if negb (Z.land sz (MIN_SIZE - 1) =? 0) then ret head else
    do mg <- ld (u32 (head + oMagic));
    if negb (mg =? MAGIC_FREE) && negb (mg =? MAGIC_USED) then ret head else
    do fm <- ld foot;
    if negb (fm =? MAGIC_FOOT) then ret head else
    do fh <- ld (u32 (foot + oFootHead));
    if negb (head =? fh) then ret head else
    validate_walk fuel' bVerbose (u32 (foot + sizeof_tHeapFoot))
  end.

(** Enough steps for any heap of the address range. *)
Definition walk_fuel (s : heap_state) : nat :=
  S (Z.to_nat ((gHeapEnd s - gHeapStart s) / MIN_SIZE)).

(** The walk back from the end of the heap that prints the blocks down to the bad
    one; it touches headers and footers and can fault itself.  The strings the
    headers name are not followed. *)
Fixpoint dump_back (fuel : nat) (badHead foot head : Z) : HM unit :=
  match fuel with
  | O => halt NoProgress
  | S fuel' =>
    if head <? badHead then ret tt else
    do sz <- ld head;
    do vs <- ld (u32 (head + oValidSize));
    do mg <- ld (u32 (head + oMagic));
    do fh <- ld (u32 (foot + oFootHead));
    do fm <- ld foot;
    do fl <- ld (u32 (head + oFile));
    if sz =? 0 then ret tt else
    if negb (Z.land sz (MIN_SIZE - 1) =? 0) then ret tt else
    if negb (mg =? MAGIC_FREE) && negb (mg =? MAGIC_USED) then ret tt else
    if negb (fm =? MAGIC_FOOT) then ret tt else
    if negb (head =? fh) then ret tt else
    if head =? badHead then ret tt else
    let foot := Heap_PrevFoot head in
    do head <- ld (u32 (foot + oFootHead));
    dump_back fuel' badHead foot head
  end.

(** A walk that stops short of the end of the heap dumps the bad block and the
    blocks above it, and panics. *)
Definition Heap_ValidateDump (bVerbose : bool) : HM unit :=
  do s <- get_state;
  if in_heap_dump s then ret tt else
  set_dumping true;;;
  do head <- validate_walk (walk_fuel s) bVerbose (gHeapStart s);
  if gHeapEnd s <=? head then set_dumping false else
  (if negb bVerbose then
     do foot <- Heap_ThisFoot head;
     do vs <- ld (u32 (head + oValidSize));
     do mg <- ld (u32 (head + oMagic));
     do fh <- ld (u32 (foot + oFootHead));
     do fm <- ld foot;
     do fl <- ld (u32 (head + oFile)); ret tt
   else ret tt);;;
  let foot := Heap_PrevFoot (gHeapEnd s) in
  do last <- ld (u32 (foot + oFootHead));
  dump_back (walk_fuel s) head foot last;;;
  halt KernelPanic.

Definition Heap_Validate : HM unit := Heap_ValidateDump false.
Definition Heap_Dump : HM unit := Heap_ValidateDump true.

(** ** Merging and extending *)

(** Merge left (down): absorb [Head] into the free block before it. *)
Definition merge_left (Head thisFoot : Z) : HM Z :=
  do s <- get_state;
  let foot := Heap_PrevFoot Head in
  do left <- (if gHeapStart s <? Head then
                do fh <- ld (u32 (foot + oFootHead));
                do mg <- ld (u32 (fh + oMagic));
                ret (mg =? MAGIC_FREE)
              else ret false);
  if (left : bool) then
    do fh <- ld (u32 (foot + oFootHead));
    do fsz <- ld fh;
    do hsz <- ld Head;
    st fh (fsz + hsz);;;
    do fh <- ld (u32 (foot + oFootHead));
    st (u32 (thisFoot + oFootHead)) fh;;;
    st (u32 (Head + oMagic)) 0;;;
    st Head 0;;;
    do fh <- ld (u32 (foot + oFootHead));
    st (u32 (foot + oFootHead)) 0;;;
    st foot 0;;;
    ret fh
  else ret Head.

(** Merge right (upwards): absorb the free block after [Head]. *)
Definition merge_right (Head thisFoot : Z) : HM unit :=
  do s <- get_state;
  do nexthead <- Heap_NextHead Head;
  do right <- (if nexthead <? gHeapEnd s then
                 do mg <- ld (u32 (nexthead + oMagic)); ret (mg =? MAGIC_FREE)
               else ret false);
  if (right : bool) then
    do hsz <- ld Head;
    do nsz <- ld nexthead;
    st Head (hsz + nsz);;;
    do foot <- Heap_ThisFoot Head;
    st (u32 (foot + oFootHead)) Head;;;
    st (u32 (thisFoot + oFootHead)) 0;;;
    st thisFoot 0;;;
    st nexthead 0;;;
    st (u32 (nexthead + oMagic)) 0
  else ret tt.

Definition Heap_Merge (Head : Z) : HM Z :=
  do thisFoot <- Heap_ThisFoot Head;
  do next <- Heap_NextHead Head;
  do s <- get_state;
  if gHeapEnd s <? next then halt AssertFailed else
  do Head <- merge_left Head thisFoot;
  merge_right Head thisFoot;;;
  ret Head.

(** The page loop of [Heap_Extend]: [false] as soon as one page fails. *)
Fixpoint map_pages (n : nat) (p : Z) : HM bool :=
  match n with
  | O => ret true
  | S n' => do b <- map_page p; if b then map_pages n' (u32 (p + 4096)) else ret false
  end.

Definition Heap_Extend (Bytes : Z) : HM Z :=
  do s <- get_state;
  if gHeapEnd s =? MM_KHEAP_MAX then ret 0 else
  if Bytes =? 0 then ret 0 else
  let pages := Z.shiftr (u32 (Bytes + 0xFFF)) 12 in
  let new_end := u32 (gHeapEnd s + u32 (Z.shiftl pages 12)) in
  if MM_KHEAP_MAX <? new_end then ret 0 else
  do ok <- map_pages (Z.to_nat pages) (gHeapEnd s);
  if negb ok then Heap_Dump;;; ret 0 else
  let head := gHeapEnd s in
  set_end new_end;;;
  st head (Z.land (u32 (Bytes + 0xFFF)) (u32 (Z.lnot 0xFFF)));;;
  st (u32 (head + oMagic)) MAGIC_FREE;;;
  do foot <- Heap_ThisFoot head;
  st (u32 (foot + oFootHead)) head;;;
  st foot MAGIC_FOOT;;;
  Heap_Merge head.

Definition Heap_Install : HM unit :=
  set_bounds MM_KHEAP_BASE MM_KHEAP_BASE;;;
  do _ <- Heap_Extend HEAP_INIT_SIZE; ret tt.

(** ** Allocation *)

(** The stores that mark a block as allocated. *)
Definition mark_used (head File Line Bytes : Z) : HM unit :=
  do s <- get_state;
  st (u32 (head + oMagic)) MAGIC_USED;;;
  st (u32 (head + oFile)) File;;;
  st (u32 (head + oLine)) Line;;;
  st (u32 (head + oValidSize)) Bytes;;;
  st (u32 (head + oTime)) (clock s);;;
  st (u32 (head + oTime + 4)) (Z.shiftr (clock s) 32).

(** What the traversal ends with: a corrupt block (the caller returns NULL), a
    block of exactly the size, or the best fit, 0 for none. *)
Inductive scan_result := Bad | Exact (head : Z) | Best (head : Z).

Fixpoint scan (fuel : nat) (Bytes head best bestSize : Z) : HM scan_result :=
  match fuel with
  | O => halt NoProgress
  | S fuel' =>
    do s <- get_state;
    if negb (head <? gHeapEnd s) then ret (Best best) else
    do sz <- ld head;
    if negb (Z.land sz (MIN_SIZE - 1) =? 0) then ret Bad else
    if sz <? MIN_SIZE then ret Bad else
    if 0x80000000 <? sz then ret Bad else
    do mg <- ld (u32 (head + oMagic));
    if mg =? MAGIC_USED then scan fuel' Bytes (u32 (head + sz)) best bestSize else
    if negb (mg =? MAGIC_FREE) then ret Bad else
    if sz <? Bytes then scan fuel' Bytes (u32 (head + sz)) best bestSize else
    if sz =? Bytes then ret (Exact head) else
    if sz <? bestSize then scan fuel' Bytes (u32 (head + sz)) head sz
    else scan fuel' Bytes (u32 (head + sz)) best bestSize
  end.

(** The tail of [Heap_Allocate]: cut [Bytes] off the front of [best]. *)
Definition split_block (best File Line Bytes __Bytes : Z) : HM unit :=
  do s <- get_state;
  do bsz <- ld best;
  let newsize := u32 (bsz - Bytes) in
  st best Bytes;;;
  st (u32 (best + oValidSize)) __Bytes;;;
  st (u32 (best + oMagic)) MAGIC_USED;;;
  st (u32 (best + oFile)) File;;;
  st (u32 (best + oLine)) Line;;;
  st (u32 (best + oTime)) (clock s);;;
  st (u32 (best + oTime + 4)) (Z.shiftr (clock s) 32);;;
  do newfoot <- Heap_ThisFoot best;
  st (u32 (newfoot + oFootHead)) best;;;
  st newfoot MAGIC_FOOT;;;
  do newhead <- Heap_NextHead best;
  st newhead newsize;;;
  st (u32 (newhead + oMagic)) MAGIC_FREE;;;
  st (u32 (newhead + oValidSize)) 0;;;
  st (u32 (newhead + oFile)) 0;;;
  st (u32 (newhead + oLine)) 0;;;
  do foot <- Heap_ThisFoot newhead;
  st (u32 (foot + oFootHead)) newhead.

(** Hand out the whole of a free block. *)
Definition take_whole (head File Line __Bytes : Z) : HM Z :=
  mark_used head File Line __Bytes;;;
  Mutex_Release;;;
  ret (u32 (head + sizeof_tHeapHead)).

(** Hand out the front of a larger one. *)
Definition take_front (best File Line Bytes __Bytes : Z) : HM Z :=
  split_block best File Line Bytes __Bytes;;;
  Mutex_Release;;;
  ret (u32 (best + sizeof_tHeapHead)).

(** No block is large enough: create one. *)
Definition take_extended (File Line Bytes __Bytes : Z) : HM Z :=
  do best <- Heap_Extend Bytes;
  if best =? 0 then Mutex_Release;;; ret 0 else
  do sz <- ld best;
  if sz =? Bytes then take_whole best File Line __Bytes
  else take_front best File Line Bytes __Bytes.

Definition Heap_Allocate (File Line __Bytes : Z) : HM Z :=
  if __Bytes =? 0 then ret 0 else
  Heap_Validate;;;
  let Bytes := Heap_int_GetBlockSize __Bytes in
  Mutex_Acquire;;;
  do s <- get_state;
  do r <- scan (walk_fuel s) Bytes (gHeapStart s) 0 UINT_MAX;
  match r with
  | Bad => Mutex_Release;;; Heap_ValidateDump false;;; ret 0
  | Exact head => take_whole head File Line __Bytes
  | Best best =>
      if best =? 0 then take_extended File Line Bytes __Bytes
      else take_front best File Line Bytes __Bytes
  end.

(** [memset(p, 0, n)] for an aligned [p]: whole words, then the low bytes of the
    last one. *)
Fixpoint zero_words (n : nat) (a : Z) : HM unit :=
  match n with O => ret tt | S n' => st a 0;;; zero_words n' (u32 (a + 4)) end.
Definition memset_zero (p n : Z) : HM unit :=
  zero_words (Z.to_nat (n / 4)) p;;;
  if n mod 4 =? 0 then ret tt else
  let a := u32 (p + 4 * (n / 4)) in
  do v <- ld a; st a (Z.land v (Z.lnot (2 ^ (8 * (n mod 4)) - 1))).

Definition Heap_AllocateZero (File Line Bytes : Z) : HM Z :=
  do p <- Heap_Allocate File Line Bytes;
  if p =? 0 then ret 0 else
  memset_zero p Bytes;;; ret p.

(** ** Deallocation *)
Definition Heap_Deallocate (File Line Ptr : Z) : HM unit :=
  if Ptr =? INVLPTR then ret tt else
  if Ptr =? 0 then ret tt else
  if negb (Ptr mod 4 =? 0) then ret tt else
  do s <- get_state;
  if (Ptr <? gHeapStart s) || (gHeapEnd s <? Ptr) then ret tt else
  let head := u32 (Ptr - sizeof_tHeapHead) in
  do mg <- ld (u32 (head + oMagic));
  if mg =? MAGIC_FREE then ret tt else
  if negb (mg =? MAGIC_USED) then ret tt else
  do foot <- Heap_ThisFoot head;
  do fh <- ld (u32 (foot + oFootHead));
  if negb (fh =? head) then ret tt else
  do fm <- ld foot;
  if negb (fm =? MAGIC_FOOT) then ret tt else
  Mutex_Acquire;;;
  st (u32 (head + oMagic)) MAGIC_FREE;;;
  st (u32 (head + oFile)) File;;;
  st (u32 (head + oLine)) Line;;;
  st (u32 (head + oValidSize)) 0;;;
  do _ <- Heap_Merge head;
  Mutex_Release.

Definition Heap_IsHeapAddr (Ptr : Z) : HM bool :=
  do s <- get_state;
  if Ptr <? gHeapStart s then ret false else
  if gHeapEnd s <? Ptr then ret false else
  if negb (Z.land Ptr 3 =? 0) then ret false else
  let head := u32 (Ptr - sizeof_tHeapHead) in
  do mg <- ld (u32 (head + oMagic));
  if negb (mg =? MAGIC_USED) && negb (mg =? MAGIC_FREE) then ret false else ret true.

(** ** Reallocation *)

(** [memmove] of [n] words: all are read before any is written. *)
Fixpoint ld_words (n : nat) (a : Z) : HM (list Z) :=
  match n with
  | O => ret []
  | S n' => do v <- ld a; do vs <- ld_words n' (u32 (a + 4)); ret (v :: vs)
  end.
Fixpoint st_words (a : Z) (vs : list Z) : HM unit :=
  match vs with
  | [] => ret tt
  | v :: vs' => st a v;;; st_words (u32 (a + 4)) vs'
  end.
Definition copy_words (dst src n : Z) : HM unit :=
  do vs <- ld_words (Z.to_nat (n / 4)) src; st_words dst vs.

(** [FreeFile], [FreeLine]: the source position the [free] macro passes. *)
Definition Heap_Reallocate (FreeFile FreeLine File Line __ptr __size : Z) : HM Z :=
  let head := u32 (__ptr - sizeof_tHeapHead) in
  let newSize := Heap_int_GetBlockSize __size in
  if __ptr =? 0 then Heap_Allocate File Line __size else
  do is_heap <- Heap_IsHeapAddr __ptr;
  if negb is_heap then ret 0 else
  do hsz <- ld head;
  if newSize <=? hsz then ret __ptr else
  Heap_Validate;;;
  do nextHead <- Heap_NextHead head;
  do nmg <- ld (u32 (nextHead + oMagic));
  do up <- (if nmg =? MAGIC_FREE then
              do nsz <- ld nextHead; do hsz <- ld head;
              ret (newSize <=? u32 (nsz + hsz))
            else ret false);
  if up then
    do nsz <- ld nextHead; do hsz <- ld head;
    let size := u32 (nsz + hsz) in
    do foot <- Heap_ThisFoot nextHead;
    if size =? newSize then
      st head newSize;;;
      st (u32 (head + oValidSize)) __size;;;
      st (u32 (head + oFile)) File;;;
      st (u32 (head + oLine)) Line;;;
      st (u32 (foot + oFootHead)) head;;;
      st (u32 (nextHead + oMagic)) 0;;;
      st nextHead 0;;;
      ret __ptr
    else
      st head newSize;;;
      st (u32 (head + oFile)) File;;;
      st (u32 (head + oLine)) Line;;;
      st (u32 (head + oValidSize)) __size;;;
      do foot <- Heap_ThisFoot head;
      st (u32 (foot + oFootHead)) head;;;
      st foot MAGIC_FOOT;;;
      do nextHead <- Heap_NextHead head;
      st nextHead (size - newSize);;;
      st (u32 (nextHead + oMagic)) MAGIC_FREE;;;
      do nfoot <- Heap_ThisFoot nextHead;
      st (u32 (nfoot + oFootHead)) nextHead;;;
      ret __ptr
  else
  let foot := Heap_PrevFoot head in
  do nextHead <- ld (u32 (foot + oFootHead));
  do nmg <- ld (u32 (nextHead + oMagic));
  do down <- (if nmg =? MAGIC_FREE then
                do nsz <- ld nextHead; do hsz <- ld head;
                ret (newSize <=? u32 (nsz + hsz))
              else ret false);
  if down then
    st (u32 (nextHead + oMagic)) MAGIC_USED;;;
    st nextHead newSize;;;
    st (u32 (nextHead + oFile)) File;;;
    st (u32 (nextHead + oLine)) Line;;;
    st (u32 (nextHead + oValidSize)) __size;;;
    do foot <- Heap_ThisFoot nextHead;
    st (u32 (foot + oFootHead)) nextHead;;;
    do hsz <- ld head;
    let oldDataSize := u32 (hsz - sizeof_tHeapFoot - sizeof_tHeapHead) in
    st head 0;;;
    st (u32 (head + oMagic)) 0;;;
    copy_words (u32 (nextHead + sizeof_tHeapHead)) __ptr oldDataSize;;;
    ret (u32 (nextHead + sizeof_tHeapHead))
  else
  do p <- Heap_Allocate File Line __size;
  if p =? 0 then ret 0 else
  let nextHead := u32 (p - sizeof_tHeapHead) in
  st (u32 (nextHead + oFile)) File;;;
  st (u32 (nextHead + oLine)) Line;;;
  st (u32 (nextHead + oValidSize)) __size;;;
  do hsz <- ld head;
  do nsz <- ld nextHead;
  if negb (hsz <? nsz) then halt AssertFailed else
  copy_words (u32 (nextHead + sizeof_tHeapHead)) __ptr
             (u32 (hsz - sizeof_tHeapFoot - sizeof_tHeapHead));;;
  Heap_Deallocate FreeFile FreeLine __ptr;;;
  Heap_Validate;;;
  ret (u32 (nextHead + sizeof_tHeapHead)).

(** ** Statistics *)
Record heap_stats := Stats {
  nBlocks : Z; nFree : Z; totalBytes : Z; freeBytes : Z; maxAlloc : Z; minAlloc : Z }.

(** The first loop of [Heap_Stats]; a bad magic number ends it early. *)
Fixpoint stats_walk (fuel : nat) (head : Z) (c : heap_stats) : HM heap_stats :=
  match fuel with
  | O => halt NoProgress
  | S fuel' =>
    do s <- get_state;
    if negb (head <? gHeapEnd s) then ret c else
    do sz <- ld head;
    do mg <- ld (u32 (head + oMagic));
    let n := i32 (nBlocks c + 1) in
    let t := i32 (totalBytes c + sz) in
    if mg =? MAGIC_FREE then
      stats_walk fuel' (u32 (head + sz))
        (Stats n (i32 (nFree c + 1)) t (i32 (freeBytes c + sz)) (maxAlloc c) (minAlloc c))
    else if mg =? MAGIC_USED then
      stats_walk fuel' (u32 (head + sz))
        (Stats n (nFree c) t (freeBytes c)
           (if u32 (maxAlloc c) <? sz then i32 sz else maxAlloc c)
           (if (minAlloc c =? -1) || (sz <? u32 (minAlloc c)) then i32 sz else minAlloc c))
    else ret (Stats n (nFree c) t (freeBytes c) (maxAlloc c) (minAlloc c))
  end.

(** The table of sizes: the first entry that is empty or of this size counts it. *)
Fixpoint count_size (tbl : list (Z * Z)) (size : Z) : list (Z * Z) :=
  match tbl with
  | [] => []
  | (sz, n) :: tbl' =>
      if (sz =? 0) || (sz =? size) then (size, u32 (n + 1)) :: tbl'
      else (sz, n) :: count_size tbl' size
  end.

Fixpoint size_walk (fuel : nat) (head : Z) (tbl : list (Z * Z)) : HM (list (Z * Z)) :=
  match fuel with
  | O => halt NoProgress
  | S fuel' =>
    do s <- get_state;
    if negb (head <? gHeapEnd s) then ret tbl else
    do sz <- ld head;
    size_walk fuel' (u32 (head + sz)) (count_size tbl sz)
  end.

(** What [Heap_Stats] logs: the counters, fragmentation and overhead in units of
    0.01%, the average allocation, and the number of blocks of each size. *)
Definition Heap_Stats : HM (heap_stats * (Z * Z * Z) * list (Z * Z)) :=
  do s <- get_state;
  do c <- stats_walk (walk_fuel s) (gHeapStart s) (Stats 0 0 0 0 0 (-1));
  let frag := if nBlocks c =? 0 then 0 else Z.quot (i32 ((nFree c - 1) * 10000)) (nBlocks c) in
  let avg := if nBlocks c <=? nFree c then 0
             else Z.quot (i32 (totalBytes c - freeBytes c)) (nBlocks c - nFree c) in
  let overhead := if avg =? 0 then 0
                  else i32 ((sizeof_tHeapFoot + sizeof_tHeapHead) * 10000 / u32 avg) in
  if 0 <? nBlocks c then
    do tbl <- size_walk (walk_fuel s) (gHeapStart s) (replicate (Z.to_nat (nBlocks c)) (0, 0));
    ret (c, (frag, avg, overhead), filter (fun e => e.2 <> 0) tbl)
  else ret (c, (frag, avg, overhead), []).
End model.

(** ** A concrete page allocator

    A pool of [n] zeroed frames; used to run the model. *)
Definition zero_page (p : Z) : gmap Z Z :=
  list_to_map ((fun i => (p + 4 * Z.of_nat i, 0)) <$> seq 0 1024).

Lemma zero_page_word p a : page_word p a -> p mod 4 = 0 -> zero_page p !! a = Some 0.
Proof.
  intros [Hr Ha] Hp. unfold zero_page. apply elem_of_list_to_map_1'.
  - intros v Hv. apply list_elem_of_fmap in Hv as (i & [= -> ->] & _). done.
  - apply list_elem_of_fmap. exists (Z.to_nat ((a - p) / 4)). split.
    + f_equal. rewrite Z2Nat.id by (apply Z.div_pos; lia).
      rewrite <- Z_div_exact_full_2; [lia..|]. rewrite Zminus_mod, Ha, Hp. done.
    + apply elem_of_seq. assert ((a - p) / 4 < 1024) by (apply Z.div_lt_upper_bound; lia). lia.
Qed.

#[export, refine] Instance frame_pool : PageAllocator := {
  mm := nat;
  MM_Allocate p n m :=
    match n with
    | O => (false, O, m)
    | S n' => if p mod 4 =? 0 then (true, n', m ∪ zero_page p) else (false, n, m)
    end
}.
Proof.
  - intros p [|n] m b s' m' a v; [by intros [= <- <- <-]|].
    case_if; intros [= <- <- <-]; intros; [by apply lookup_union_Some_l|done].
  - intros p [|n] m s' m' a; [done|]. case_if; [|done]. intros [= <- <-] Hw.
    apply lookup_union_is_Some. right. exists 0. by apply zero_page_word.
Defined.

Definition boot (n : nat) : heap_state :=
  HS 0 0 ∅ n false false 5.
