(* ===== verification/HeapInv.v ===== *)
(** * The kernel heap: invariant

    A well-formed heap is a sequence of blocks that tile the range from
    [gHeapStart] to [gHeapEnd], each with matching header and footer words.  This
    file states that invariant, its frame properties, and the rules by which the
    straight-line code of [Heap] is executed symbolically. *)
From S2P Require Import Prelude Heap.
Local Open Scope Z_scope.
Local Open Scope monad_scope.

(** ** Tilings *)
Record block := Blk { bsize : Z; bused : bool }.

Definition magic_of (used : bool) : Z := if used then MAGIC_USED else MAGIC_FREE.

(** The header and footer words of a block at [a].  A used block is large enough
    that its allocation time does not overlap its footer. *)
Definition block_at (m : gmap Z Z) (a : Z) (b : block) : Prop :=
  m !! a = Some (bsize b) /\
  m !! (a + 16) = Some (magic_of (bused b)) /\
  m !! (a + bsize b - 8) = Some MAGIC_FOOT /\
  m !! (a + bsize b - 4) = Some a /\
  bsize b mod 32 = 0 /\ 32 <= bsize b /\ (bused b = true -> 64 <= bsize b).

Fixpoint heap_rep (m : gmap Z Z) (a : Z) (bs : list block) (e : Z) : Prop :=
  match bs with
  | [] => a = e
  | b :: bs' => block_at m a b /\ heap_rep m (a + bsize b) bs' e
  end.

Definition total (bs : list block) : Z := foldr (fun b n => bsize b + n) 0 bs.

Definition mapped (m : gmap Z Z) (lo hi : Z) : Prop :=
  forall x, lo <= x < hi -> x mod 4 = 0 -> is_Some (m !! x).

(** No two free blocks are neighbours. *)
Fixpoint coalesced (bs : list block) : Prop :=
  match bs with
  | b1 :: ((b2 :: _) as bs') => (bused b1 = true \/ bused b2 = true) /\ coalesced bs'
  | _ => True
  end.

(** The blocks in use, with their addresses. *)
Fixpoint live (a : Z) (bs : list block) : list (Z * Z) :=
  match bs with
  | [] => []
  | b :: bs' => (if bused b then [(a, bsize b)] else []) ++ live (a + bsize b) bs'
  end.

Section inv.
Context `{PageAllocator}.
Implicit Types (m : gmap Z Z) (bs l r : list block) (a e x : Z).

(** The state between two heap operations, holding the blocks [bs]. *)
Record valid (s : heap_state) (bs : list block) : Prop := {
  v_start : gHeapStart s = MM_KHEAP_BASE;
  v_end : gHeapEnd s <= MM_KHEAP_MAX;
  v_rep : heap_rep (mem s) (gHeapStart s) bs (gHeapEnd s);
  v_mapped : mapped (mem s) (gHeapStart s) (gHeapEnd s);
  v_coalesced : coalesced bs;
  v_unlocked : glHeap s = false;
  v_dump : in_heap_dump s = false
}.

Lemma total_app l r : total (l ++ r) = total l + total r.
Proof. induction l; simpl; lia. Qed.

Lemma heap_rep_app m a l r e :
  heap_rep m a (l ++ r) e <-> heap_rep m a l (a + total l) /\ heap_rep m (a + total l) r e.
Proof.
  revert a. induction l as [|b l IH]; intros a; simpl.
  { rewrite Z.add_0_r. tauto. }
  rewrite IH, Z.add_assoc. tauto.
Qed.

Lemma heap_rep_total m a bs e : heap_rep m a bs e -> e = a + total bs.
Proof. revert a. induction bs as [|b bs IH]; intros a; simpl; [lia|]. intros [_ ->%IH]. lia. Qed.

Lemma heap_rep_size m a bs e : heap_rep m a bs e ->
  32 * Z.of_nat (length bs) <= total bs /\ total bs mod 32 = 0.
Proof.
  revert a. induction bs as [|b bs IH]; intros a; simpl; [done|].
  intros [Hb Hr%IH]. unfold block_at in Hb.
  assert (bsize b mod 32 = 0 /\ 32 <= bsize b) as [? ?] by tauto.
  rewrite Z.add_mod by lia. destruct Hr as [? ->]. rewrite H0. split; [lia|done].
Qed.

Lemma block_at_frame m m' a b :
  (forall x, a <= x < a + bsize b -> m' !! x = m !! x) -> block_at m a b -> block_at m' a b.
Proof.
  intros Hf (H1 & H2 & H3 & H4 & H5 & H6 & H7).
  unfold block_at. rewrite !Hf by lia. done.
Qed.

Lemma heap_rep_frame m m' a bs e :
  (forall x, a <= x < e -> m' !! x = m !! x) -> heap_rep m a bs e -> heap_rep m' a bs e.
Proof.
  revert a. induction bs as [|b bs IH]; intros a Hf; simpl; [done|].
  intros [Hb Hr]. pose proof (heap_rep_total _ _ _ _ Hr) as He.
  pose proof (heap_rep_size _ _ _ _ Hr) as [Hs _].
  assert (32 <= bsize b) by (unfold block_at in Hb; tauto).
  split.
  - apply (block_at_frame m); [|done]. intros; apply Hf; lia.
  - apply IH; [|done]. intros; apply Hf; lia.
Qed.

Lemma mapped_insert m lo hi k v : mapped m lo hi -> mapped (<[k := v]> m) lo hi.
Proof.
  intros Hm x Hx Ha. rewrite lookup_insert. case_decide; [eauto|]. auto.
Qed.

Lemma live_app a l r : live a (l ++ r) = live a l ++ live (a + total l) r.
Proof.
  revert a. induction l as [|b l IH]; intros a; simpl; [by rewrite Z.add_0_r|].
  rewrite IH, <- app_assoc, Z.add_assoc. done.
Qed.

(** ** Symbolic execution *)
Lemma wp_ld a v s (Q : Z -> heap_state -> Prop) :
  mem s !! a = Some v -> Q v s -> wp (ld a) s Q.
Proof. unfold wp, ld. by intros ->. Qed.

Lemma wp_st a v s (Q : unit -> heap_state -> Prop) :
  is_Some (mem s !! a) -> Q tt (with_mem s (<[a := u32 v]> (mem s))) -> wp (st a v) s Q.
Proof. unfold wp, st. intros [w ->]. done. Qed.
End inv.

#[export] Hint Resolve mapped_insert : acess.

Lemma lookup_insert_eqZ {A} (m : gmap Z A) k k' v : k = k' -> <[k := v]> m !! k' = Some v.
Proof. intros ->. apply lookup_insert_eq. Qed.

(** [lookup] resolves a read of a memory built by stores, down to a hypothesis
    about the memory below; addresses are compared by arithmetic. *)
Ltac lookup :=
  repeat first
    [ rewrite lookup_insert_eqZ by lia
    | rewrite lookup_insert_ne by lia ];
  try reflexivity;
  match goal with
  | H : ?m !! ?k = Some ?v |- ?m !! ?k' = Some _ =>
      replace k' with k by lia; exact H
  end.

(** [backed] shows that an address lies in the mapped range. *)
Ltac backed :=
  match goal with
  | Hm : mapped ?m ?lo ?hi |- is_Some (_ !! ?x) =>
      assert (x mod 4 = 0) by dlia;
      refine (_ : mapped _ lo hi -> _) || idtac;
      eapply (fun (Hmm : mapped _ lo hi) => Hmm x);
      [repeat apply mapped_insert; exact Hm | lia | assumption]
  end.

Ltac offsets :=
  unfold oValidSize, oFile, oLine, oMagic, oTime, oFootHead,
    sizeof_tHeapHead, sizeof_tHeapFoot, MIN_SIZE, MM_KHEAP_BASE, MM_KHEAP_MAX in *.

Ltac tidy :=
  unfold with_mem in *; cbn [gHeapStart gHeapEnd mem frames glHeap in_heap_dump clock] in *.

(** Tests of the magic numbers against each other. *)
Ltac magic :=
  change (MAGIC_FREE =? MAGIC_FREE) with true;
  change (MAGIC_USED =? MAGIC_USED) with true;
  change (MAGIC_FOOT =? MAGIC_FOOT) with true;
  change (MAGIC_FREE =? MAGIC_USED) with false;
  change (MAGIC_USED =? MAGIC_FREE) with false;
  cbn [negb andb orb]; cbv iota.

(** One statement of straight-line code. *)
Ltac hstep :=
  repeat lazymatch goal with |- wp (bind _ _) _ _ => apply wp_bind end;
  lazymatch goal with
  | |- wp (ld _) _ _ => ints; eapply wp_ld; [tidy; lookup|]
  | |- wp (st _ _) _ _ => ints; apply wp_st; [tidy; backed|]
  | |- wp (ret _) _ _ => apply wp_ret
  | |- wp get_state _ _ => apply wp_get
  | |- wp (Heap_ThisFoot _) _ _ => unfold Heap_ThisFoot, sizeof_tHeapFoot
  | |- wp (Heap_NextHead _) _ _ => unfold Heap_NextHead
  end; tidy; magic.

Section merge.
Context `{PageAllocator}.
Implicit Types (m : gmap Z Z) (bs l r : list block) (a e x : Z).

(** Merging left into a free predecessor of size [sz0]. *)
Lemma merge_left_free st0 e m f lk du ck a sz sz0 u :
  MM_KHEAP_BASE <= a - sz0 -> a + sz <= MM_KHEAP_MAX -> st0 < a -> a mod 32 = 0 ->
  block_at m (a - sz0) (Blk sz0 false) -> block_at m a (Blk sz u) ->
  mapped m (a - sz0) (a + sz) ->
  wp (merge_left a (a + sz - 8)) (HS st0 e m f lk du ck) (fun h s' => h = a - sz0 /\
    exists m', s' = HS st0 e m' f lk du ck /\
      block_at m' (a - sz0) (Blk (sz0 + sz) false) /\
      mapped m' (a - sz0) (a + sz) /\
      (forall x, ~ (a - sz0 <= x < a + sz) -> m' !! x = m !! x)).
Proof.
  intros Hlo Hhi Hst Ha (P1 & P2 & P3 & P4 & P5 & P6 & _) (B1 & B2 & B3 & B4 & B5 & B6 & _) Hm.
  cbn [bsize bused magic_of] in *. offsets.
  unfold merge_left, Heap_PrevFoot. offsets.
  hstep. replace (st0 <? a) with true by (symmetry; lia). apply wp_bind.
  repeat hstep.
  split; [done|]. eexists. split; [done|]. split; [|split].
  - unfold block_at. cbn [bsize bused]. ints. split_and!; try lia; try done; try lookup; dlia.
  - repeat apply mapped_insert. done.
  - intros x Hx. rewrite !lookup_insert_ne by lia. done.
Qed.

Lemma merge_left_none st0 e m f lk du ck a tf :
  (a <= st0 \/ exists sz0, MM_KHEAP_BASE <= a - sz0 /\ a <= MM_KHEAP_MAX /\
     block_at m (a - sz0) (Blk sz0 true)) ->
  wp (merge_left a tf) (HS st0 e m f lk du ck)
    (fun h s' => h = a /\ s' = HS st0 e m f lk du ck).
Proof.
  intros Hc. unfold merge_left, Heap_PrevFoot. offsets. hstep.
  destruct (st0 <? a) eqn:E; bools; [|hstep; hstep; done].
  destruct Hc as [?|(sz0 & Hlo & Hhi & P1 & P2 & P3 & P4 & P5 & P6 & P7)]; [lia|].
  cbn [bsize bused magic_of] in *. specialize (P7 eq_refl).
  apply wp_bind. repeat hstep. done.
Qed.

(** Merging right into a free successor of size [sz2]. *)
Lemma merge_right_free st0 e m f lk du ck a sz sz2 tf :
  MM_KHEAP_BASE <= a -> a + sz + sz2 <= MM_KHEAP_MAX -> a + sz < e -> a mod 32 = 0 ->
  block_at m a (Blk sz false) -> block_at m (a + sz) (Blk sz2 false) ->
  mapped m a (a + sz + sz2) -> tf = a + sz - 8 ->
  wp (merge_right a tf) (HS st0 e m f lk du ck) (fun _ s' =>
    exists m', s' = HS st0 e m' f lk du ck /\
      block_at m' a (Blk (sz + sz2) false) /\ mapped m' a (a + sz + sz2) /\
      (forall x, ~ (a <= x < a + sz + sz2) -> m' !! x = m !! x)).
Proof.
  intros Hlo Hhi Hst Ha (P1 & P2 & P3 & P4 & P5 & P6 & _) (B1 & B2 & B3 & B4 & B5 & B6 & _) Hm ->.
  cbn [bsize bused magic_of] in *. offsets. unfold merge_right. offsets.
  repeat hstep. rewrite (u32_small (a + sz)) by lia.
  replace (a + sz <? e) with true by (symmetry; lia).
  apply wp_bind.
  repeat hstep.
  eexists. split; [done|]. split; [|split].
  - unfold block_at. cbn [bsize bused]. ints. split_and!; try lia; try done; try lookup; dlia.
  - repeat apply mapped_insert. done.
  - intros x Hx. rewrite !lookup_insert_ne by lia. done.
Qed.

Lemma merge_right_none st0 e m f lk du ck a sz tf :
  MM_KHEAP_BASE <= a -> 0 < sz -> a + sz <= MM_KHEAP_MAX -> m !! a = Some sz ->
  (e <= a + sz \/ exists sz2, block_at m (a + sz) (Blk sz2 true)) ->
  wp (merge_right a tf) (HS st0 e m f lk du ck) (fun _ s' => s' = HS st0 e m f lk du ck).
Proof.
  intros Hlo Hsz Hhi Ha Hc. unfold merge_right. offsets. repeat hstep.
  rewrite (u32_small (a + sz)) by lia.
  destruct (a + sz <? e) eqn:E; bools; [|hstep; hstep; done].
  destruct Hc as [?|(sz2 & B1 & B2 & _)]; [lia|].
  cbn [bsize bused magic_of] in *.
  apply wp_bind. repeat hstep. done.
Qed.
End merge.
