(* ===== verification/HeapProofs.v ===== *)
(** * The kernel heap: correctness of the operations

    Each operation of [Heap] is shown to act on the tiling of [HeapInv] as a
    function on block lists: merging, extending, allocating by best fit, freeing
    and reallocating. *)
From S2P Require Import Prelude Heap HeapInv.
Local Open Scope Z_scope.
Local Open Scope monad_scope.

(** ** Block-list operations *)

(** Free neighbours are absorbed on the left and on the right. *)
Definition absorb_left (l : list block) (sz : Z) : list block * Z :=
  match reverse l with
  | Blk s false :: rl => (reverse rl, s + sz)
  | _ => (l, sz)
  end.
Definition absorb_right (sz : Z) (r : list block) : Z * list block :=
  match r with
  | Blk s false :: r' => (sz + s, r')
  | _ => (sz, r)
  end.
Definition spec_merge (l : list block) (sz : Z) (r : list block) : list block :=
  let '(l', s1) := absorb_left l sz in
  let '(s2, r') := absorb_right s1 r in
  l' ++ Blk s2 false :: r'.

Definition adjacent_ok (o1 o2 : option block) : Prop :=
  match o1, o2 with
  | Some b1, Some b2 => bused b1 = true \/ bused b2 = true
  | _, _ => True
  end.

Lemma coalesced_cons b bs :
  coalesced (b :: bs) <-> adjacent_ok (Some b) (head bs) /\ coalesced bs.
Proof. destruct bs; simpl; tauto. Qed.

Lemma coalesced_app l r :
  coalesced (l ++ r) <-> coalesced l /\ coalesced r /\ adjacent_ok (last l) (head r).
Proof.
  induction l as [|b l IH]; [simpl; tauto|].
  change ((b :: l) ++ r) with (b :: (l ++ r)).
  rewrite !coalesced_cons, IH. destruct l as [|b' l]; [simpl; tauto|].
  change (last (b :: b' :: l)) with (last (b' :: l)). simpl head. tauto.
Qed.

Lemma absorb_left_cases l sz :
  (exists l0 s, l = l0 ++ [Blk s false] /\ absorb_left l sz = (l0, s + sz)) \/
  (absorb_left l sz = (l, sz) /\ forall b, last l = Some b -> bused b = true).
Proof.
  unfold absorb_left. destruct l as [|[s u] l0 _] using rev_ind.
  { right. done. }
  rewrite reverse_app. simpl. destruct u.
  - right. split; [done|]. intros b. rewrite last_snoc. by intros [= <-].
  - left. exists l0, s. by rewrite reverse_involutive.
Qed.

Lemma absorb_right_cases sz r :
  (exists s r0, r = Blk s false :: r0 /\ absorb_right sz r = (sz + s, r0)) \/
  (absorb_right sz r = (sz, r) /\ forall b, head r = Some b -> bused b = true).
Proof.
  destruct r as [|[s [|]] r0]; simpl; [right..|left]; split_and?; eauto; try done.
  naive_solver.
Qed.

Lemma spec_merge_live a l sz r :
  live a (spec_merge l sz r) = live a (l ++ Blk sz false :: r).
Proof.
  unfold spec_merge.
  destruct (absorb_left_cases l sz) as [(l0 & s & -> & ->)|[-> _]];
  [destruct (absorb_right_cases (s + sz) r) as [(s2 & r0 & -> & ->)|[-> _]]
  |destruct (absorb_right_cases sz r) as [(s2 & r0 & -> & ->)|[-> _]]];
  rewrite ?live_app, ?total_app; simpl; rewrite ?live_app, ?total_app, ?app_nil_r; simpl;
  try (f_equal; f_equal; lia).
Qed.

Lemma spec_merge_coalesced l sz r :
  coalesced l -> coalesced r -> coalesced (spec_merge l sz r).
Proof.
  intros Hl Hr. unfold spec_merge.
  destruct (absorb_left_cases l sz) as [(l0 & s & -> & ->)|[-> Hl']];
  [destruct (absorb_right_cases (s + sz) r) as [(s2 & r0 & -> & ->)|[-> Hr']]
  |destruct (absorb_right_cases sz r) as [(s2 & r0 & -> & ->)|[-> Hr']]];
  rewrite ?coalesced_app, ?coalesced_cons in *; simpl in *;
  unfold adjacent_ok in *; simpl in *; split_and?; try tauto;
  repeat case_match; simplify_eq; naive_solver.
Qed.

Section ops.
Context `{PageAllocator}.
Implicit Types (m : gmap Z Z) (bs l r : list block) (a e x : Z).

Lemma heap_rep_snoc m a l b e :
  heap_rep m a (l ++ [b]) e <->
  heap_rep m a l (a + total l) /\ block_at m (a + total l) b /\ a + total l + bsize b = e.
Proof. rewrite heap_rep_app. simpl. tauto. Qed.

Lemma heap_rep_end m a l e : heap_rep m a l e -> heap_rep m a l (a + total l).
Proof. intros Hr. by rewrite <- (heap_rep_total _ _ _ _ Hr). Qed.

Lemma block_at_size m a b : block_at m a b -> 32 <= bsize b /\ bsize b mod 32 = 0.
Proof. unfold block_at. tauto. Qed.

Lemma mapped_splice m m' lo hi lo' hi' :
  mapped m lo hi -> mapped m' lo' hi' ->
  (forall x, ~ (lo' <= x < hi') -> m' !! x = m !! x) -> mapped m' lo hi.
Proof.
  intros Hm Hm' Hf x Hx Ha.
  destruct (decide (lo' <= x < hi')); [by apply Hm'|]. rewrite Hf by done. by apply Hm.
Qed.

Lemma mapped_sub m lo hi lo' hi' : mapped m lo hi -> lo <= lo' -> hi' <= hi -> mapped m lo' hi'.
Proof. intros Hm ? ? x Hx. apply Hm. lia. Qed.

(** The two halves of a merge, on tilings. *)
Lemma merge_left_list e m f lk du ck l sz :
  let a := MM_KHEAP_BASE + total l in
  let h := MM_KHEAP_BASE + total (absorb_left l sz).1 in
  let s1 := (absorb_left l sz).2 in
  a + sz <= e -> e <= MM_KHEAP_MAX ->
  heap_rep m MM_KHEAP_BASE l a -> block_at m a (Blk sz false) -> mapped m MM_KHEAP_BASE e ->
  wp (merge_left a (a + sz - 8)) (HS MM_KHEAP_BASE e m f lk du ck) (fun h' s' => exists m1,
    h' = h /\ s' = HS MM_KHEAP_BASE e m1 f lk du ck /\
    heap_rep m1 MM_KHEAP_BASE (absorb_left l sz).1 h /\ block_at m1 h (Blk s1 false) /\
    h + s1 = a + sz /\ mapped m1 MM_KHEAP_BASE e /\
    (forall x, ~ (h <= x < a + sz) -> m1 !! x = m !! x)).
Proof.
  intros a h s1 Hae He Hl Hb Hm. subst h s1.
  pose proof (heap_rep_size _ _ _ _ Hl) as [Hls Hlm].
  assert (a mod 32 = 0) as Ham by (subst a; unfold MM_KHEAP_BASE; dlia).
  pose proof (block_at_size _ _ _ Hb) as [Hsz _]. cbn [bsize] in Hsz.
  destruct (absorb_left_cases l sz) as [(l0 & s0 & -> & ->)|[-> Hu]]; cbn [fst snd].
  - apply heap_rep_snoc in Hl as (Hl0 & Hb0 & Hend). cbn [bsize] in Hend.
    pose proof (heap_rep_size _ _ _ _ Hl0) as [Hl0s _].
    pose proof (block_at_size _ _ _ Hb0) as [Hs0 _]. cbn [bsize] in Hs0.
    assert (a - s0 = MM_KHEAP_BASE + total l0) as Ea by lia. rewrite <- Ea in Hl0, Hb0 |- *.
    eapply wp_mono; [apply (merge_left_free _ _ _ _ _ _ _ a sz s0 false); try done; try lia|].
    { eapply mapped_sub; [exact Hm|lia..]. }
    intros h' s' (-> & m' & -> & Hb' & Hm' & Hf). exists m'. split_and!; try done; try lia.
    + eapply heap_rep_frame; [|exact Hl0]. intros; apply Hf; lia.
    + by eapply mapped_splice.
  - eapply wp_mono; [apply merge_left_none|].
    + destruct l as [|b l0 _] using rev_ind; [left; subst a; simpl; lia|right].
      exists (bsize b). specialize (Hu b). rewrite last_snoc in Hu. specialize (Hu eq_refl).
      apply heap_rep_snoc in Hl as (Hl0 & Hb0 & Hend).
      pose proof (heap_rep_size _ _ _ _ Hl0) as [Hl0s _].
      replace (a - bsize b) with (MM_KHEAP_BASE + total l0) by lia.
      destruct b as [sb ub]. simpl in Hu. subst ub. split_and!; [lia|lia|done].
    + intros h' s' [-> ->]. exists m. done.
Qed.

Lemma merge_right_list e m f lk du ck h s1 r :
  let s2 := (absorb_right s1 r).1 in
  MM_KHEAP_BASE <= h -> e <= MM_KHEAP_MAX -> h mod 32 = 0 ->
  block_at m h (Blk s1 false) -> heap_rep m (h + s1) r e -> mapped m MM_KHEAP_BASE e ->
  wp (merge_right h (h + s1 - 8)) (HS MM_KHEAP_BASE e m f lk du ck) (fun _ s' => exists m1,
    s' = HS MM_KHEAP_BASE e m1 f lk du ck /\
    heap_rep m1 h (Blk s2 false :: (absorb_right s1 r).2) e /\ mapped m1 MM_KHEAP_BASE e /\
    (forall x, ~ (h <= x < h + s2) -> m1 !! x = m !! x)).
Proof.
  intros s2 Hh He Ham Hb Hr Hm. subst s2.
  pose proof (block_at_size _ _ _ Hb) as [Hsz _]. cbn [bsize] in Hsz.
  pose proof (heap_rep_size _ _ _ _ Hr) as [Hrs _].
  pose proof (heap_rep_total _ _ _ _ Hr) as Her.
  destruct (absorb_right_cases s1 r) as [(s0 & r0 & -> & ->)|[-> Hu]]; cbn [fst snd].
  - destruct Hr as [Hb0 Hr0]. cbn [bsize] in Hr0. simpl total in Her, Hrs.
    pose proof (block_at_size _ _ _ Hb0) as [Hs0 _]. cbn [bsize] in Hs0.
    pose proof (heap_rep_size _ _ _ _ Hr0) as [Hr0s _].
    eapply wp_mono; [apply (merge_right_free _ _ _ _ _ _ _ h s1 s0); try done; try lia|].
    { eapply mapped_sub; [exact Hm|lia..]. }
    intros _ s' (m' & -> & Hb' & Hm' & Hf). 
    exists m'. cbn [heap_rep bsize]. rewrite (Z.add_assoc h). split_and!; try done.
    + eapply heap_rep_frame; [|exact Hr0]. intros; apply Hf; lia.
    + by eapply mapped_splice.
  - eapply wp_mono; [apply (merge_right_none _ _ _ _ _ _ _ h s1)|]; try done; try lia.
    + by destruct Hb.
    + destruct r as [|[s0 [|]] r0]; simpl in Hr.
      * left; lia.
      * right. exists s0. tauto.
      * by specialize (Hu _ eq_refl).
    + intros _ s' ->. exists m. done.
Qed.

Lemma absorb_right_ge m a r e s1 : heap_rep m a r e -> s1 <= (absorb_right s1 r).1.
Proof.
  destruct r as [|[s [|]] r]; simpl; try lia. intros [Hb _]. apply block_at_size in Hb.
  simpl in Hb. lia.
Qed.

(** What a merge does to the tiling around a free block at [a]. *)
Lemma Heap_Merge_wp e m f lk du ck l sz r :
  let a := MM_KHEAP_BASE + total l in
  let h := MM_KHEAP_BASE + total (absorb_left l sz).1 in
  e <= MM_KHEAP_MAX ->
  heap_rep m MM_KHEAP_BASE (l ++ Blk sz false :: r) e -> mapped m MM_KHEAP_BASE e ->
  wp (Heap_Merge a) (HS MM_KHEAP_BASE e m f lk du ck) (fun h' s' => exists m',
    h' = h /\ s' = HS MM_KHEAP_BASE e m' f lk du ck /\
    heap_rep m' MM_KHEAP_BASE (spec_merge l sz r) e /\ mapped m' MM_KHEAP_BASE e /\
    (forall x, ~ (h <= x < h + (absorb_right (absorb_left l sz).2 r).1) -> m' !! x = m !! x)).
Proof.
  intros a h He Hrep Hm.
  apply heap_rep_app in Hrep as [Hl [Hb Hr]]. fold a in Hl, Hb, Hr. cbn [bsize] in Hr.
  pose proof (heap_rep_size _ _ _ _ Hl) as [Hls Hlm].
  pose proof (heap_rep_size _ _ _ _ Hr) as [Hrs _].
  pose proof (heap_rep_total _ _ _ _ Hr) as Her.
  pose proof (block_at_size _ _ _ Hb) as [Hsz _]. cbn [bsize] in Hsz.
  assert (3225419776 <= a) by (unfold a, MM_KHEAP_BASE; lia).
  assert (a + sz <= 3472883712) by (unfold MM_KHEAP_MAX in He; lia).
  unfold Heap_Merge. pose proof Hb as (B1 & _). cbn [bsize] in B1.
  repeat hstep. ints.
  replace (e <? a + sz) with false by (symmetry; lia).
  apply wp_bind. eapply wp_mono; [apply merge_left_list; try done; lia|].
  intros h' s' (m1 & -> & -> & Hl1 & Hb1 & Hend & Hm1 & Hf1). fold a in Hend, Hf1.
  apply wp_bind. rewrite <- Hend.
  pose proof (heap_rep_size _ _ _ _ Hl1) as [Hl1s Hl1m].
  eapply wp_mono; [apply (merge_right_list _ _ _ _ _ _ _ _ r); try done|].
  { lia. }
  { unfold MM_KHEAP_BASE. dlia. }
  { rewrite Hend. eapply heap_rep_frame; [|exact Hr]. intros; apply Hf1; lia. }
  intros _ s' (m2 & -> & Hr2 & Hm2 & Hf2). apply wp_ret. exists m2.
  pose proof (absorb_right_ge _ _ _ _ (absorb_left l sz).2 Hr) as Hge.
  split_and!; try done.
  - unfold spec_merge. destruct (absorb_left l sz) as [l1 s1]. cbn [fst snd] in *.
    destruct (absorb_right s1 r) as [s2 r1]. cbn [fst snd] in *.
    apply heap_rep_app. split; [|done].
    eapply heap_rep_frame; [|exact Hl1]. intros; apply Hf2; lia.
  - intros x Hx. rewrite Hf2, Hf1; [done|..]; unfold h in *; lia.
Qed.

(** ** Walks over a well-formed heap *)
Lemma land31 x : Z.land x (MIN_SIZE - 1) = x mod 32.
Proof. change (MIN_SIZE - 1) with (Z.ones 5). by rewrite Z.land_ones by lia. Qed.

(** A read whose value does not matter. *)
Lemma wp_ld_any a s (Q : Z -> heap_state -> Prop) :
  is_Some (mem s !! a) -> (forall v, Q v s) -> wp (ld a) s Q.
Proof. intros [v Hv] HQ. apply (wp_eq _ _ v s); [|done]. unfold ld. by rewrite Hv. Qed.

Lemma validate_walk_wp e m f lk du ck v bs : forall fuel a,
  MM_KHEAP_BASE <= a -> e <= MM_KHEAP_MAX -> a mod 32 = 0 -> mapped m a e ->
  heap_rep m a bs e -> (length bs < fuel)%nat ->
  wp (validate_walk fuel v a) (HS MM_KHEAP_BASE e m f lk du ck)
     (fun h s' => h = e /\ s' = HS MM_KHEAP_BASE e m f lk du ck).
Proof.
  induction bs as [|[sz u] bs IH]; intros [|fuel] a Ha He Hal Hm Hr Hf; simpl in Hf; try lia.
  - simpl in Hr. subst a. simpl. hstep.
    replace (e <? e) with false by (symmetry; lia). simpl. apply wp_ret. done.
  - pose proof (heap_rep_total _ _ _ _ Hr) as Ht.
    pose proof Hr as [Hb Hr']. pose proof (heap_rep_size _ _ _ _ Hr') as [Hs' _].
    destruct Hb as (B1 & B2 & B3 & B4 & B5 & B6 & _). cbn [bsize bused total foldr] in *.
    assert (3225419776 <= a) by done. assert (e <= 3472883712) by done.
    change (foldr (fun b n => bsize b + n) 0 bs) with (total bs) in Ht.
    simpl validate_walk. hstep. replace (a <? e) with true by (symmetry; lia).
    cbn [negb]; cbv iota. repeat hstep.
    apply wp_bind.
    apply (wp_mono _ _ (fun _ s' => s' = HS MM_KHEAP_BASE e m f lk du ck)).
    { destruct v; [|done]. offsets.
      repeat (apply wp_bind; apply wp_ld_any; [ints; backed|]; intros). done. }
    intros _ s' ->.
    unfold oFootHead, oMagic, sizeof_tHeapFoot. repeat hstep.
    replace (sz =? 0) with false by (symmetry; lia).
    rewrite land31, B5. change (negb (0 =? 0)) with false. cbv iota. hstep.
    assert (negb (magic_of u =? MAGIC_FREE) && negb (magic_of u =? MAGIC_USED) = false) as ->
      by (by destruct u). cbv iota. repeat hstep.
    rewrite Z.eqb_refl. cbn [negb]. cbv iota. ints.
    replace (a + sz - 8 + 8) with (a + sz) by lia. apply IH; try done; try lia; [dlia|].
    eapply mapped_sub; [exact Hm|lia..].
Qed.

Lemma walk_fuel_enough s bs :
  heap_rep (mem s) (gHeapStart s) bs (gHeapEnd s) -> (length bs < walk_fuel s)%nat.
Proof.
  intros Hr. unfold walk_fuel, MIN_SIZE.
  pose proof (heap_rep_total _ _ _ _ Hr). pose proof (heap_rep_size _ _ _ _ Hr) as [? _].
  assert (Z.of_nat (length bs) <= (gHeapEnd s - gHeapStart s) / 32)
    by (apply Z.div_le_lower_bound; lia). lia.
Qed.

Lemma Heap_ValidateDump_wp e m f lk ck v bs :
  e <= MM_KHEAP_MAX -> heap_rep m MM_KHEAP_BASE bs e -> mapped m MM_KHEAP_BASE e ->
  wp (Heap_ValidateDump v) (HS MM_KHEAP_BASE e m f lk false ck)
     (fun _ s' => s' = HS MM_KHEAP_BASE e m f lk false ck).
Proof.
  intros He Hr Hm. unfold Heap_ValidateDump. hstep. cbv iota. apply wp_bind. apply wp_bind.
  eapply wp_mono; [apply (validate_walk_wp _ _ _ _ _ _ _ bs)|]; try done.
  { by apply (walk_fuel_enough (HS MM_KHEAP_BASE e m f lk false ck)). }
  intros h s' [-> ->]. tidy. replace (e <=? e) with true by (symmetry; lia). done.
Qed.

(** The traversal of [Heap_Allocate], on a block list. *)
Fixpoint pick (n a : Z) (bs : list block) (best bestSize : Z) : scan_result :=
  match bs with
  | [] => Best best
  | b :: bs' =>
    let next := pick n (a + bsize b) bs' in
    if bused b then next best bestSize else
    if bsize b <? n then next best bestSize else
    if bsize b =? n then Exact a else
    if bsize b <? bestSize then next a (bsize b) else next best bestSize
  end.

Lemma scan_wp e m f lk du ck n bs : forall fuel a best bestSize,
  MM_KHEAP_BASE <= a -> e <= MM_KHEAP_MAX -> heap_rep m a bs e -> (length bs < fuel)%nat ->
  wp (scan fuel n a best bestSize) (HS MM_KHEAP_BASE e m f lk du ck)
     (fun sr s' => sr = pick n a bs best bestSize /\ s' = HS MM_KHEAP_BASE e m f lk du ck).
Proof.
  induction bs as [|[sz u] bs IH]; intros [|fuel] a best bestSize Ha He Hr Hf;
    simpl in Hf; try lia.
  - simpl in Hr. subst a. simpl. hstep.
    replace (e <? e) with false by (symmetry; lia). simpl. apply wp_ret. done.
  - pose proof (heap_rep_total _ _ _ _ Hr) as Ht.
    pose proof Hr as [Hb Hr']. pose proof (heap_rep_size _ _ _ _ Hr') as [Hs' _].
    destruct Hb as (B1 & B2 & B3 & B4 & B5 & B6 & _). cbn [bsize bused total foldr] in *.
    assert (3225419776 <= a) by done. assert (e <= 3472883712) by done.
    change (foldr (fun b n => bsize b + n) 0 bs) with (total bs) in Ht.
    simpl scan. hstep. replace (a <? e) with true by (symmetry; lia).
    cbn [negb]; cbv iota. repeat hstep.
    rewrite land31, B5. change (negb (0 =? 0)) with false. cbv iota.
    unfold MIN_SIZE, oMagic. replace (sz <? 32) with false by (symmetry; lia).
    replace (2147483648 <? sz) with false by (symmetry; lia). hstep.
    ints. cbn [pick bsize bused].
    destruct u; cbn [magic_of]; magic; [apply IH; try done; lia|].
    repeat (case_if; [try (apply wp_ret; done); apply IH; try done; lia|]).
    apply IH; try done; lia.
Qed.

Definition fits (n : Z) (b : block) : Prop := bused b = false /\ n <= bsize b.

(** [pick] finds a block of exactly the size, or the smallest that is larger, or
    shows that there is none. *)
Lemma pick_spec n bs : forall a best bestSize,
  match pick n a bs best bestSize with
  | Bad => False
  | Exact h => exists l r, bs = l ++ Blk n false :: r /\ h = a + total l
  | Best h =>
      (h = best /\ Forall (fun b => fits n b -> bestSize <= bsize b) bs) \/
      (exists l sz r, bs = l ++ Blk sz false :: r /\ h = a + total l /\ n < sz < bestSize /\
         Forall (fun b => fits n b -> sz <= bsize b) bs)
  end.
Proof.
  unfold fits.
  induction bs as [|[sz u] bs IH]; intros a best bestSize; simpl; [by left|].
  assert (forall best bestSize, match pick n (a + sz) bs best bestSize with
    | Bad => False
    | Exact h => exists l r, Blk sz u :: bs = l ++ Blk n false :: r /\ h = a + total l
    | Best h =>
      (h = best /\ Forall (fun b => bused b = false /\ n <= bsize b -> bestSize <= bsize b) bs) \/
      (exists l sz' r, Blk sz u :: bs = l ++ Blk sz' false :: r /\ h = a + total l /\
         n < sz' < bestSize /\
         Forall (fun b => bused b = false /\ n <= bsize b -> sz' <= bsize b) bs)
    end) as IH'.
  { intros best' bs'. specialize (IH (a + sz) best' bs').
    destruct (pick n (a + sz) bs best' bs') as [|h|h]; [done|..].
    - destruct IH as (l & r & -> & ->). exists (Blk sz u :: l), r. simpl. split; [done|lia].
    - destruct IH as [?|(l & sz' & r & -> & -> & ? & ?)]; [by left|right].
      exists (Blk sz u :: l), sz', r. simpl. split_and!; try done; lia. }
  clear IH.
  assert ((u = false /\ n <= sz -> bestSize <= sz) ->
    match pick n (a + sz) bs best bestSize with
    | Bad => False
    | Exact h => exists l r, Blk sz u :: bs = l ++ Blk n false :: r /\ h = a + total l
    | Best h =>
      (h = best /\ Forall (fun b => bused b = false /\ n <= bsize b -> bestSize <= bsize b)
                     (Blk sz u :: bs)) \/
      (exists l sz' r, Blk sz u :: bs = l ++ Blk sz' false :: r /\ h = a + total l /\
         n < sz' < bestSize /\
         Forall (fun b => bused b = false /\ n <= bsize b -> sz' <= bsize b) (Blk sz u :: bs))
    end) as Hskip.
  { intros Hno. specialize (IH' best bestSize).
    destruct (pick _ _ _ _ _) as [|h|h]; [done|done|].
    destruct IH' as [[-> ?]|(l & sz' & r & ? & ? & ? & ?)]; [left|right].
    - split; [done|]. by constructor.
    - exists l, sz', r. split_and!; try done; try lia.
      constructor; [simpl; intros ?%Hno; lia|done]. }
  destruct u; [apply Hskip; by intros []|].
  case_if; [apply Hskip; lia|]. case_if.
  { exists [], bs. simpl. subst. split; [done|lia]. }
  case_if; [|apply Hskip; lia].
  specialize (IH' a sz). destruct (pick _ _ _ _ _) as [|h|h]; [done|done|right].
  destruct IH' as [[-> ?]|(l & sz' & r & ? & ? & ? & ?)].
  - exists [], sz, bs. simpl. split_and!; try done; try lia. constructor; [simpl; lia|done].
  - exists l, sz', r. split_and!; try done; try lia. constructor; [simpl; lia|done].
Qed.

(** ** Marking and cutting a block *)
Lemma mark_used_wp st0 e m f lk du ck a sz F L n :
  MM_KHEAP_BASE <= a -> a + sz <= MM_KHEAP_MAX -> a mod 32 = 0 -> 64 <= sz ->
  block_at m a (Blk sz false) -> mapped m a (a + sz) ->
  wp (mark_used a F L n) (HS st0 e m f lk du ck) (fun _ s' => exists m',
    s' = HS st0 e m' f lk du ck /\ block_at m' a (Blk sz true) /\
    m' !! (a + 4) = Some (u32 n) /\ mapped m' a (a + sz) /\
    (forall x, ~ (a <= x < a + 28) -> m' !! x = m !! x)).
Proof.
  intros Hlo Hhi Ha Hsz (B1 & B2 & B3 & B4 & B5 & B6 & _) Hm.
  cbn [bsize bused] in *. unfold mark_used. offsets. repeat hstep.
  eexists. split; [done|]. split_and!.
  - unfold block_at. cbn [bsize bused magic_of]. split_and!; try lia; try done; lookup.
  - lookup.
  - repeat apply mapped_insert. done.
  - intros x Hx. rewrite !lookup_insert_ne by lia. done.
Qed.

Lemma split_block_wp st0 e m f lk du ck a sz F L n req :
  MM_KHEAP_BASE <= a -> a + sz <= MM_KHEAP_MAX -> a mod 32 = 0 -> n mod 32 = 0 -> 64 <= n < sz ->
  block_at m a (Blk sz false) -> mapped m a (a + sz) ->
  wp (split_block a F L n req) (HS st0 e m f lk du ck) (fun _ s' => exists m',
    s' = HS st0 e m' f lk du ck /\ block_at m' a (Blk n true) /\
    block_at m' (a + n) (Blk (sz - n) false) /\
    m' !! (a + 4) = Some (u32 req) /\ mapped m' a (a + sz) /\
    (forall x, ~ (a <= x < a + sz) -> m' !! x = m !! x)).
Proof.
  intros Hlo Hhi Ha Hn Hsz (B1 & B2 & B3 & B4 & B5 & B6 & _) Hm.
  cbn [bsize bused] in *. unfold split_block. offsets.
  assert (32 <= sz - n) by dlia. repeat hstep.
  eexists. split; [done|]. split_and!.
  - unfold block_at. cbn [bsize bused magic_of]. split_and!; try lia; try done; lookup.
  - unfold block_at. cbn [bsize bused magic_of]. ints. split_and!; try lia; try done; try lookup.
    all: dlia.
  - lookup.
  - repeat apply mapped_insert. done.
  - intros x Hx. rewrite !lookup_insert_ne by lia. done.
Qed.

(** ** Extending the heap *)
Definition grows (m m' : gmap Z Z) : Prop := forall x v, m !! x = Some v -> m' !! x = Some v.

Lemma heap_rep_grows m m' bs e : forall a, grows m m' -> heap_rep m a bs e -> heap_rep m' a bs e.
Proof.
  induction bs as [|b bs IH]; intros a Hg; simpl; [done|].
  intros [(B1 & B2 & B3 & B4 & B5) Hr]. split; [|by apply IH].
  unfold block_at. rewrite !(Hg _ _ B1), (Hg _ _ B2), (Hg _ _ B3), (Hg _ _ B4). done.
Qed.

Lemma mapped_grows m m' lo hi : grows m m' -> mapped m lo hi -> mapped m' lo hi.
Proof. intros Hg Hm x Hx Ha. destruct (Hm x Hx Ha) as [v Hv]. exists v. by apply Hg. Qed.

Lemma map_pages_wp st0 e lk du ck n : forall p m f,
  0 <= p -> p + 4096 * Z.of_nat n < 4294967296 ->
  wp (map_pages n p) (HS st0 e m f lk du ck) (fun b s' => exists m' f',
    s' = HS st0 e m' f' lk du ck /\ grows m m' /\
    (b = true -> mapped m' p (p + 4096 * Z.of_nat n))).
Proof.
  induction n as [|n IH]; intros p m f Hp Hn; simpl.
  - apply wp_ret. exists m, f. split_and!; [done|by intros ??|]. intros _ x ??. lia.
  - apply wp_bind. unfold wp at 1, map_page. tidy.
    destruct (MM_Allocate p f m) as [[b f1] m1] eqn:E.
    assert (grows m m1) as Hg by (intros ??; by eapply MM_Allocate_keeps).
    destruct b; [|apply wp_ret; exists m1, f1; done].
    rewrite u32_small by lia.
    eapply wp_mono; [apply IH; lia|]. intros b s' (m2 & f2 & -> & Hg2 & Hmap).
    exists m2, f2. split_and!; [done| |].
    + intros x v Hx. by apply Hg2, Hg.
    + intros Hb x Hx Ha. destruct (decide (x < p + 4096)).
      * destruct (MM_Allocate_maps p f m f1 m1 x E) as [v Hv]; [split; [lia|done]|].
        exists v. by apply Hg2.
      * apply Hmap; [done|lia|done].
Qed.

Lemma pages_eq n : 0 < n <= 0x30001000 ->
  Z.shiftr (u32 (n + 0xFFF)) 12 = (n + 4095) / 4096.
Proof. intros. ints. by rewrite Z.shiftr_div_pow2 by lia. Qed.

(** Clearing the low [k] bits of a 32-bit word rounds it down. *)
Lemma mask_low x k : 0 <= x < 4294967296 -> 0 <= k ->
  Z.land x (Z.ldiff (Z.ones 32) (Z.ones k)) = 2 ^ k * (x / 2 ^ k).
Proof.
  intros Hx Hk. transitivity (Z.ldiff x (Z.ones k)).
  - apply Z.bits_inj'. intros i Hi. rewrite Z.land_spec, !Z.ldiff_spec.
    destruct (decide (i < 32)); [rewrite (Z.ones_spec_low 32) by lia; by destruct (Z.testbit _ _)|].
    destruct (decide (x = 0)) as [->|]; [by rewrite Z.bits_0|].
    rewrite (Z.bits_above_log2 x); [done|lia|].
    apply Z.log2_lt_pow2; [lia|]. apply (Z.lt_le_trans _ (2 ^ 32)); [lia|].
    apply Z.pow_le_mono_r; lia.
  - rewrite Z.ldiff_ones_r by lia. rewrite Z.shiftr_div_pow2, Z.shiftl_mul_pow2 by lia. lia.
Qed.

Lemma page_round n : 0 < n <= 0x30001000 ->
  Z.land (u32 (n + 0xFFF)) (u32 (Z.lnot 0xFFF)) = 4096 * ((n + 4095) / 4096).
Proof.
  intros. ints. change (u32 (Z.lnot 4095)) with (Z.ldiff (Z.ones 32) (Z.ones 12)).
  by rewrite mask_low by lia.
Qed.

Lemma Heap_Extend_wp e m f lk ck bs n :
  let pg := 4096 * ((n + 4095) / 4096) in
  let h := MM_KHEAP_BASE + total (absorb_left bs pg).1 in
  0 < n <= 0x30001000 -> e <= MM_KHEAP_MAX ->
  heap_rep m MM_KHEAP_BASE bs e -> mapped m MM_KHEAP_BASE e ->
  wp (Heap_Extend n) (HS MM_KHEAP_BASE e m f lk false ck) (fun h' s' => exists m' f',
    (h' = 0 /\ s' = HS MM_KHEAP_BASE e m' f' lk false ck /\ grows m m') \/
    (h' = h /\ e + pg <= MM_KHEAP_MAX /\
     s' = HS MM_KHEAP_BASE (e + pg) m' f' lk false ck /\
     heap_rep m' MM_KHEAP_BASE (spec_merge bs pg []) (e + pg) /\
     mapped m' MM_KHEAP_BASE (e + pg) /\
     (forall x v, x < h -> m !! x = Some v -> m' !! x = Some v))).
Proof.
  intros pg h Hn He Hr Hm.
  pose proof (heap_rep_total _ _ _ _ Hr) as Het.
  pose proof (heap_rep_size _ _ _ _ Hr) as [Hs Hsm].
  assert (e mod 32 = 0) as Hem by (unfold MM_KHEAP_BASE in Het; dlia).
  assert (4096 <= pg /\ pg mod 32 = 0 /\ pg <= 0x30001000 /\
    Z.of_nat (Z.to_nat ((n + 4095) / 4096)) * 4096 = pg) as (Hpg & Hpgm & Hpgb & Hpgn)
    by (unfold pg; dlia).
  unfold Heap_Extend. hstep.
  destruct (e =? MM_KHEAP_MAX) eqn:E1; bools.
  { apply wp_ret. exists m, f. left. split_and!; try done. by intros ??. }
  replace (n =? 0) with false by (symmetry; lia).
  rewrite pages_eq, page_round by lia. fold pg.
  rewrite Z.shiftl_mul_pow2 by lia. change (2 ^ 12) with 4096.
  replace ((n + 4095) / 4096 * 4096) with pg by (unfold pg; lia).
  unfold MM_KHEAP_BASE, MM_KHEAP_MAX in He, Het. ints.
  destruct (MM_KHEAP_MAX <? e + pg) eqn:E2; bools.
  { apply wp_ret. exists m, f. left. split_and!; try done. by intros ??. }
  apply wp_bind. eapply wp_mono; [apply map_pages_wp; lia|].
  intros b s' (m1 & f1 & -> & Hg & Hmap).
  pose proof (heap_rep_grows _ _ _ _ _ Hg Hr) as Hr1.
  destruct b; cbn [negb]; cbv iota.
  2: { apply wp_bind. eapply wp_mono; [apply (Heap_ValidateDump_wp _ _ _ _ _ _ bs); try done;
         by eapply mapped_grows|].
       intros _ s' ->. apply wp_ret. exists m1, f1. left. done. }
  specialize (Hmap eq_refl). replace (4096 * _) with pg in Hmap by lia.
  apply wp_bind. apply (wp_mono _ _ (fun _ s' => s' = HS MM_KHEAP_BASE (e + pg) m1 f1 lk false ck));
    [done|]. intros _ s' ->. cbv beta.
  clear Hpgn. unfold MM_KHEAP_MAX in E2. unfold oMagic, oFootHead.
  repeat hstep.
  match goal with |- wp _ (HS _ _ ?mm _ _ _ _) _ => set (m2 := mm) end.
  assert (forall x, ~ (e <= x < e + pg) -> m2 !! x = m1 !! x) as Hf2
    by (intros; unfold m2; rewrite !lookup_insert_ne by lia; done).
  assert (mapped m2 e (e + pg)) as Hm2' by (unfold m2; repeat apply mapped_insert; done).
  assert (mapped m2 MM_KHEAP_BASE (e + pg)) as Hm2.
  { intros x Hx Ha. destruct (decide (x < e)); [|apply Hm2'; [lia|done]].
    rewrite Hf2 by lia. apply (mapped_grows _ _ _ _ Hg Hm); [lia|done]. }
  assert (heap_rep m2 MM_KHEAP_BASE (bs ++ [Blk pg false]) (e + pg)) as Hr2.
  { apply heap_rep_snoc. unfold MM_KHEAP_BASE at 2 3 4. rewrite <- Het. split_and!; [|..|done].
    - eapply heap_rep_frame; [|exact Hr1]. intros; apply Hf2; lia.
    - unfold block_at, m2. cbn [bsize bused magic_of]. split_and!; try lia; try done; lookup. }
  replace e with (MM_KHEAP_BASE + total bs) at 1 by (unfold MM_KHEAP_BASE; lia).
  eapply wp_mono; [apply (Heap_Merge_wp _ _ _ _ _ _ bs pg []); done|].
  intros h' s' (m3 & -> & -> & Hr3 & Hm3 & Hf3). exists m3, f1. right.
  split_and!; try done. intros x v Hx Hv. fold h in Hf3. rewrite Hf3 by lia.
  rewrite Hf2; [by apply Hg|].
  assert (h <= e); [|lia]. unfold h.
  destruct (absorb_left_cases bs pg) as [(l0 & s0 & -> & ->)|[-> _]]; simpl;
    [|unfold MM_KHEAP_BASE; lia].
  rewrite total_app in Het. apply heap_rep_snoc in Hr as (_ & Hb0%block_at_size & _).
  simpl in *. unfold MM_KHEAP_BASE; lia.
Qed.

(** ** Allocation *)

(** Replacing the blocks of one range of a tiling by others. *)
Lemma heap_rep_replace m m' a l b mid r e :
  heap_rep m a (l ++ b :: r) e ->
  heap_rep m' (a + total l) mid (a + total l + bsize b) ->
  (forall x, ~ (a + total l <= x < a + total l + bsize b) -> m' !! x = m !! x) ->
  heap_rep m' a (l ++ mid ++ r) e.
Proof.
  intros Hr Hmid Hf. apply heap_rep_app in Hr as (Hl & Hb & Hr).
  pose proof (heap_rep_total _ _ _ _ Hmid) as Ht.
  pose proof (heap_rep_size _ _ _ _ Hr) as [? _]. apply block_at_size in Hb.
  pose proof (heap_rep_total _ _ _ _ Hr).
  apply heap_rep_app. split; [|apply heap_rep_app; rewrite <- Ht; split; [done|]].
  - eapply heap_rep_frame; [|exact Hl]. intros; apply Hf; lia.
  - eapply heap_rep_frame; [|exact Hr]. intros; apply Hf; lia.
Qed.

(** The facts about one block of a tiling that its code needs. *)
Lemma heap_rep_focus m l b r e : e <= MM_KHEAP_MAX ->
  heap_rep m MM_KHEAP_BASE (l ++ b :: r) e -> mapped m MM_KHEAP_BASE e ->
  let a := MM_KHEAP_BASE + total l in
  MM_KHEAP_BASE <= a /\ a + bsize b <= MM_KHEAP_MAX /\ a mod 32 = 0 /\ block_at m a b /\
  mapped m a (a + bsize b) /\ a + bsize b <= e /\ 0 <= total l.
Proof.
  intros He Hr Hm a. apply heap_rep_app in Hr as (Hl & Hb & Hr). fold a in Hl, Hb, Hr.
  pose proof (heap_rep_size _ _ _ _ Hl) as [? ?]. pose proof (heap_rep_size _ _ _ _ Hr) as [? _].
  pose proof (heap_rep_total _ _ _ _ Hr). pose proof (block_at_size _ _ _ Hb).
  split_and!; try done; try lia.
  - unfold a, MM_KHEAP_BASE. dlia.
  - eapply mapped_sub; [exact Hm|lia..].
Qed.

Lemma use_block_wp e m f lk du ck l sz r F L n :
  let a := MM_KHEAP_BASE + total l in
  e <= MM_KHEAP_MAX -> 64 <= sz ->
  heap_rep m MM_KHEAP_BASE (l ++ Blk sz false :: r) e -> mapped m MM_KHEAP_BASE e ->
  wp (mark_used a F L n) (HS MM_KHEAP_BASE e m f lk du ck) (fun _ s' => exists m',
    s' = HS MM_KHEAP_BASE e m' f lk du ck /\
    heap_rep m' MM_KHEAP_BASE (l ++ Blk sz true :: r) e /\ mapped m' MM_KHEAP_BASE e /\
    m' !! (a + 4) = Some (u32 n) /\
    (forall x, ~ (a <= x < a + sz) -> m' !! x = m !! x)).
Proof.
  intros a He Hsz Hr Hm.
  destruct (heap_rep_focus _ _ _ _ _ He Hr Hm) as (H1 & H2 & H3 & H4 & H5 & H6 & _).
  fold a in H1, H2, H3, H4, H5, H6. cbn [bsize] in *.
  eapply wp_mono; [by apply (mark_used_wp _ _ _ _ _ _ _ a sz)|].
  intros _ s' (m' & -> & Hb & Hv & Hm' & Hf).
  assert (forall x, ~ (a <= x < a + sz) -> m' !! x = m !! x) as Hf' by (intros; apply Hf; lia).
  exists m'. split_and!; try done.
  - apply (heap_rep_replace m m' _ l (Blk sz false) [Blk sz true] r e Hr); [done|exact Hf'].
  - by eapply mapped_splice.
Qed.

Lemma cut_block_wp e m f lk du ck l sz r F L n req :
  let a := MM_KHEAP_BASE + total l in
  e <= MM_KHEAP_MAX -> n mod 32 = 0 -> 64 <= n < sz ->
  heap_rep m MM_KHEAP_BASE (l ++ Blk sz false :: r) e -> mapped m MM_KHEAP_BASE e ->
  wp (split_block a F L n req) (HS MM_KHEAP_BASE e m f lk du ck) (fun _ s' => exists m',
    s' = HS MM_KHEAP_BASE e m' f lk du ck /\
    heap_rep m' MM_KHEAP_BASE (l ++ Blk n true :: Blk (sz - n) false :: r) e /\
    mapped m' MM_KHEAP_BASE e /\ m' !! (a + 4) = Some (u32 req) /\
    (forall x, ~ (a <= x < a + sz) -> m' !! x = m !! x)).
Proof.
  intros a He Hn Hsz Hr Hm.
  destruct (heap_rep_focus _ _ _ _ _ He Hr Hm) as (H1 & H2 & H3 & H4 & H5 & H6 & _).
  fold a in H1, H2, H3, H4, H5, H6. cbn [bsize] in *.
  eapply wp_mono; [by apply (split_block_wp _ _ _ _ _ _ _ a sz)|].
  intros _ s' (m' & -> & Hb1 & Hb2 & Hv & Hm' & Hf).
  exists m'. split_and!; try done.
  - apply (heap_rep_replace m m' _ l (Blk sz false) [Blk n true; Blk (sz - n) false] r e Hr);
      [|exact Hf]. cbn [heap_rep bsize]. split_and!; try done. lia.
  - by eapply mapped_splice.
Qed.

(** What an allocation of [n] bytes (header and footer included) may do to the
    blocks: take a free block of exactly that size, cut the smallest larger one,
    or, when none fits, grow the heap by whole pages and cut the last block. *)
Inductive alloc_step (n : Z) (bs : list block) : Z -> list block -> Prop :=
  | alloc_exact l r :
      bs = l ++ Blk n false :: r ->
      alloc_step n bs (MM_KHEAP_BASE + total l) (l ++ Blk n true :: r)
  | alloc_best l sz r :
      bs = l ++ Blk sz false :: r -> n < sz ->
      Forall (fun b => fits n b -> sz <= bsize b) bs ->
      alloc_step n bs (MM_KHEAP_BASE + total l) (l ++ Blk n true :: Blk (sz - n) false :: r)
  | alloc_grow l sz :
      Forall (fun b => ~ fits n b) bs ->
      spec_merge bs (4096 * ((n + 4095) / 4096)) [] = l ++ [Blk sz false] -> n <= sz ->
      alloc_step n bs (MM_KHEAP_BASE + total l)
        (l ++ Blk n true :: (if n =? sz then [] else [Blk (sz - n) false])).

(** Memory of live blocks is left alone. *)
Definition keeps_live (bs : list block) m m' : Prop :=
  forall b s x v, (b, s) ∈ live MM_KHEAP_BASE bs -> b <= x < b + s ->
    m !! x = Some v -> m' !! x = Some v.

Lemma live_bounds m bs : forall a e b s, heap_rep m a bs e -> (b, s) ∈ live a bs ->
  a <= b /\ b + s <= a + total bs.
Proof.
  induction bs as [|b0 bs IH]; intros a e b s; simpl; [by intros _ ?%not_elem_of_nil|].
  intros [Hb Hr] Hin. apply block_at_size in Hb.
  pose proof (heap_rep_size _ _ _ _ Hr) as [? _].
  apply elem_of_app in Hin as [Hin|Hin].
  - destruct (bused b0); [|by apply not_elem_of_nil in Hin].
    apply list_elem_of_singleton in Hin. injection Hin as -> ->. lia.
  - apply (IH _ _ _ _ Hr) in Hin. lia.
Qed.

Lemma live_disjoint m l sz r e a b s :
  heap_rep m a (l ++ Blk sz false :: r) e -> (b, s) ∈ live a (l ++ Blk sz false :: r) ->
  b + s <= a + total l \/ a + total l + sz <= b.
Proof.
  intros Hr Hin. apply heap_rep_app in Hr as (Hl & _ & Hr). rewrite live_app in Hin.
  apply elem_of_app in Hin as [Hin|Hin].
  - apply (live_bounds _ _ _ _ _ _ Hl) in Hin. lia.
  - simpl in Hin. apply (live_bounds _ _ _ _ _ _ Hr) in Hin. simpl in Hin. lia.
Qed.

Lemma keeps_outside m m' l sz r e :
  heap_rep m MM_KHEAP_BASE (l ++ Blk sz false :: r) e ->
  (forall x, ~ (MM_KHEAP_BASE + total l <= x < MM_KHEAP_BASE + total l + sz) -> m' !! x = m !! x) ->
  keeps_live (l ++ Blk sz false :: r) m m'.
Proof.
  intros Hr Hf b s x v Hin Hx Hv. rewrite Hf; [done|].
  pose proof (live_disjoint _ _ _ _ _ _ _ _ Hr Hin). lia.
Qed.

Lemma keeps_grows bs m m' : grows m m' -> keeps_live bs m m'.
Proof. intros Hg b s x v _ _. apply Hg. Qed.

Lemma spec_merge_nil bs sz :
  spec_merge bs sz [] = (absorb_left bs sz).1 ++ [Blk (absorb_left bs sz).2 false].
Proof. unfold spec_merge. by destruct (absorb_left bs sz). Qed.

Lemma alloc_step_live n bs h bs' : alloc_step n bs h bs' ->
  live MM_KHEAP_BASE bs' ≡ₚ (h, n) :: live MM_KHEAP_BASE bs.
Proof.
  destruct 1 as [l r ->|l sz r -> _ _|l sz _ Hm _].
  - rewrite !live_app. simpl. symmetry. apply Permutation_middle.
  - rewrite !live_app. simpl. replace (MM_KHEAP_BASE + total l + n + (sz - n))
      with (MM_KHEAP_BASE + total l + sz) by lia. symmetry. apply Permutation_middle.
  - pose proof (spec_merge_live MM_KHEAP_BASE bs (4096 * ((n + 4095) / 4096)) []) as Hlv.
    rewrite Hm, !live_app in Hlv. simpl in Hlv. rewrite !app_nil_r in Hlv.
    rewrite <- Hlv, live_app. simpl. case_if; simpl; apply Permutation_app_comm.
Qed.

Lemma alloc_step_coalesced n bs h bs' : alloc_step n bs h bs' -> coalesced bs -> coalesced bs'.
Proof.
  destruct 1 as [l r ->|l sz r -> _ _|l sz _ Hm _]; intros Hc.
  - rewrite coalesced_app, coalesced_cons in Hc |- *. simpl in *.
    destruct Hc as (? & (? & ?) & ?). split_and!; try done; unfold adjacent_ok;
      repeat case_match; naive_solver.
  - rewrite coalesced_app, !coalesced_cons in Hc |- *. simpl in *.
    destruct Hc as (? & (? & ?) & ?). split_and!; try done; unfold adjacent_ok;
      repeat case_match; naive_solver.
  - assert (coalesced (l ++ [Blk sz false])) as Hc'
      by (rewrite <- Hm; by apply spec_merge_coalesced).
    rewrite coalesced_app in Hc' |- *. destruct Hc' as (? & _ & _).
    split_and!; [done| |unfold adjacent_ok; repeat case_match; naive_solver].
    case_if; simpl; tauto.
Qed.

Lemma block_size_eq n : 0 < n <= 0x30000000 ->
  let B := Heap_int_GetBlockSize n in
  B mod 32 = 0 /\ 64 <= B /\ n + 36 <= B /\ B <= 0x30001000.
Proof.
  intros Hn B. assert (B = 32 * ((n + 67) / 32)) as ->.
  { unfold B, Heap_int_GetBlockSize, sizeof_tHeapHead, sizeof_tHeapFoot, MIN_SIZE.
    replace (n + 28 + 8 + 32 - 1) with (n + 67) by lia. ints.
    change (u32 (Z.lnot (32 - 1))) with (Z.ldiff (Z.ones 32) (Z.ones 5)).
    rewrite mask_low by lia. done. }
  dlia.
Qed.

Lemma wp_acquire st0 e m f du ck (Q : unit -> heap_state -> Prop) :
  Q tt (HS st0 e m f true du ck) -> wp Mutex_Acquire (HS st0 e m f false du ck) Q.
Proof. done. Qed.
Lemma wp_release st0 e m f lk du ck (Q : unit -> heap_state -> Prop) :
  Q tt (HS st0 e m f false du ck) -> wp Mutex_Release (HS st0 e m f lk du ck) Q.
Proof. done. Qed.

(** What an allocation leaves behind: the heap mutex is free, live memory is
    intact, and either nothing was allocated, because no free block was large
    enough and the heap could not grow, or the blocks made an [alloc_step]. *)
Definition alloc_post (e : Z) m ck bs (B n : Z) (p : Z) (s' : heap_state) : Prop :=
  exists e' m' f', s' = HS MM_KHEAP_BASE e' m' f' false false ck /\ e' <= MM_KHEAP_MAX /\
    keeps_live bs m m' /\
    ((p = 0 /\ e' = e /\ grows m m' /\ Forall (fun b => ~ fits B b) bs) \/
     (exists h bs', p = h + 28 /\ alloc_step B bs h bs' /\ MM_KHEAP_BASE <= h /\
        heap_rep m' MM_KHEAP_BASE bs' e' /\ mapped m' MM_KHEAP_BASE e' /\
        m' !! (h + 4) = Some n)).

Lemma data_ptr l sz : 0 <= total l -> 0 <= sz -> MM_KHEAP_BASE + total l + sz <= MM_KHEAP_MAX ->
  u32 (MM_KHEAP_BASE + total l + sizeof_tHeapHead) = MM_KHEAP_BASE + total l + 28.
Proof. unfold sizeof_tHeapHead, MM_KHEAP_BASE, MM_KHEAP_MAX. intros. ints. lia. Qed.

Lemma take_whole_wp e m f lk ck l r F L B n :
  e <= MM_KHEAP_MAX -> 64 <= B -> 0 <= n < 4294967296 ->
  heap_rep m MM_KHEAP_BASE (l ++ Blk B false :: r) e -> mapped m MM_KHEAP_BASE e ->
  wp (take_whole (MM_KHEAP_BASE + total l) F L n) (HS MM_KHEAP_BASE e m f lk false ck)
    (fun p s' => p = MM_KHEAP_BASE + total l + 28 /\ exists m',
       s' = HS MM_KHEAP_BASE e m' f false false ck /\
       heap_rep m' MM_KHEAP_BASE (l ++ Blk B true :: r) e /\ mapped m' MM_KHEAP_BASE e /\
       m' !! (MM_KHEAP_BASE + total l + 4) = Some n /\
       keeps_live (l ++ Blk B false :: r) m m').
Proof.
  intros He HB Hn Hr Hm. unfold take_whole.
  destruct (heap_rep_focus _ _ _ _ _ He Hr Hm) as (_ & Hhi & _ & _ & _ & _ & Hl). cbn [bsize] in Hhi.
  apply wp_bind. eapply wp_mono; [by apply (use_block_wp _ _ _ _ _ _ l B r)|].
  intros _ s' (m' & -> & Hr' & Hm' & Hv & Hf). apply wp_bind, wp_release, wp_ret.
  rewrite u32_small in Hv by lia.
  split; [apply (data_ptr l B); lia|]. exists m'. split_and!; try done. by eapply keeps_outside.
Qed.

Lemma take_front_wp e m f lk ck l sz r F L B n :
  e <= MM_KHEAP_MAX -> B mod 32 = 0 -> 64 <= B < sz -> 0 <= n < 4294967296 ->
  heap_rep m MM_KHEAP_BASE (l ++ Blk sz false :: r) e -> mapped m MM_KHEAP_BASE e ->
  wp (take_front (MM_KHEAP_BASE + total l) F L B n) (HS MM_KHEAP_BASE e m f lk false ck)
    (fun p s' => p = MM_KHEAP_BASE + total l + 28 /\ exists m',
       s' = HS MM_KHEAP_BASE e m' f false false ck /\
       heap_rep m' MM_KHEAP_BASE (l ++ Blk B true :: Blk (sz - B) false :: r) e /\
       mapped m' MM_KHEAP_BASE e /\ m' !! (MM_KHEAP_BASE + total l + 4) = Some n /\
       keeps_live (l ++ Blk sz false :: r) m m').
Proof.
  intros He HBm HB Hn Hr Hm. unfold take_front.
  destruct (heap_rep_focus _ _ _ _ _ He Hr Hm) as (_ & Hhi & _ & _ & _ & _ & Hl). cbn [bsize] in Hhi.
  apply wp_bind. eapply wp_mono; [by apply (cut_block_wp _ _ _ _ _ _ l sz r)|].
  intros _ s' (m' & -> & Hr' & Hm' & Hv & Hf). apply wp_bind, wp_release, wp_ret.
  rewrite u32_small in Hv by lia.
  split; [apply (data_ptr l sz); lia|]. exists m'. split_and!; try done. by eapply keeps_outside.
Qed.

(** The block an extension ends with holds the request, and lies above every
    live block. *)
Lemma absorb_left_ge m bs e sz : heap_rep m MM_KHEAP_BASE bs e -> sz <= (absorb_left bs sz).2.
Proof.
  intros Hr. destruct (absorb_left_cases bs sz) as [(l0 & s0 & -> & ->)|[-> _]]; simpl; [|done].
  apply heap_rep_snoc in Hr as (_ & Hb0%block_at_size & _). simpl in Hb0. lia.
Qed.

Lemma absorb_left_live bs sz :
  live MM_KHEAP_BASE ((absorb_left bs sz).1 ++ [Blk (absorb_left bs sz).2 false]) =
  live MM_KHEAP_BASE bs.
Proof. rewrite <- spec_merge_nil, spec_merge_live, live_app. simpl. by rewrite app_nil_r. Qed.

Lemma keeps_live_trans bs bs' m1 m2 m3 :
  live MM_KHEAP_BASE bs' = live MM_KHEAP_BASE bs ->
  keeps_live bs m1 m2 -> keeps_live bs' m2 m3 -> keeps_live bs m1 m3.
Proof.
  intros Hl H1 H2 b s x v Hin Hx Hv. apply (H2 b s); [by rewrite Hl|done|]. by apply (H1 b s).
Qed.

Lemma take_extended_wp e m f ck bs F L B n :
  e <= MM_KHEAP_MAX -> heap_rep m MM_KHEAP_BASE bs e -> mapped m MM_KHEAP_BASE e ->
  B mod 32 = 0 -> 64 <= B <= 0x30001000 -> 0 <= n < 4294967296 ->
  Forall (fun b => ~ fits B b) bs ->
  wp (take_extended F L B n) (HS MM_KHEAP_BASE e m f true false ck) (alloc_post e m ck bs B n).
Proof.
  intros He Hr Hm HBm HB Hn Hnone. unfold take_extended. apply wp_bind.
  eapply wp_mono; [apply (Heap_Extend_wp _ _ _ _ _ bs); try done; lia|].
  remember (4096 * ((B + 4095) / 4096)) as pg eqn:Hpg.
  intros h' s' (m1 & f1 & [(-> & -> & Hg)|(-> & He1 & -> & Hr1 & Hm1 & Hf1)]).
  { change (0 =? 0) with true. cbv iota. apply wp_bind, wp_release, wp_ret.
    exists e, m1, f1. split_and!; try done; [by apply keeps_grows|by left]. }
  pose proof (spec_merge_nil bs pg) as Hmn. rewrite Hmn in Hr1.
  pose proof (absorb_left_ge _ _ _ pg Hr) as Hge. pose proof (absorb_left_live bs pg) as Hlv.
  assert (B <= pg) by dlia.
  set (l := (absorb_left bs pg).1) in *. set (sz := (absorb_left bs pg).2) in *.
  assert (keeps_live bs m m1) as Hk1.
  { intros b s0 x v Hin Hx Hv. apply Hf1; [|done]. rewrite <- Hlv, live_app in Hin.
    simpl in Hin. rewrite app_nil_r in Hin. apply heap_rep_app in Hr1 as [Hl1 _].
    apply (live_bounds _ _ _ _ _ _ Hl1) in Hin. lia. }
  destruct (heap_rep_focus _ _ _ _ _ He1 Hr1 Hm1) as (Hlo & _ & _ & (B1 & _) & _).
  replace (MM_KHEAP_BASE + total l =? 0) with false
    by (symmetry; unfold MM_KHEAP_BASE in *; lia). cbv iota.
  apply wp_bind, (wp_ld _ sz); [exact B1|].
  destruct (sz =? B) eqn:Esz; bools.
  - rewrite Esz in Hr1, Hlv. eapply wp_mono; [apply (take_whole_wp _ _ _ _ _ l [] F L B n); try done; lia|].
    intros p s' (-> & m2 & -> & Hr2 & Hm2 & Hv & Hk2).
    eexists _, m2, f1. split_and!; [done|done|by eapply keeps_live_trans|right].
    eexists _, _. split_and!; [done| |done|exact Hr2|done|done].
    replace [Blk B true] with (Blk B true :: (if B =? sz then [] else [Blk (sz - B) false]))
      by (rewrite Esz, Z.eqb_refl; done).
    apply alloc_grow; [done|by rewrite <- Hpg|lia].
  - eapply wp_mono; [apply (take_front_wp _ _ _ _ _ l sz [] F L B n); try done; lia|].
    intros p s' (-> & m2 & -> & Hr2 & Hm2 & Hv & Hk2).
    eexists _, m2, f1. split_and!; [done|done|by eapply keeps_live_trans|right].
    eexists _, _. split_and!; [done| |done|exact Hr2|done|done].
    replace [Blk (sz - B) false] with (if B =? sz then [] else [Blk (sz - B) false])
      by (replace (B =? sz) with false by (symmetry; lia); done).
    apply alloc_grow; [done|by rewrite <- Hpg|lia].
Qed.

(** The traversal started with no candidate: 0 means that nothing fits. *)
Lemma pick_best m e bs B h : e <= MM_KHEAP_MAX ->
  heap_rep m MM_KHEAP_BASE bs e -> mapped m MM_KHEAP_BASE e ->
  pick B MM_KHEAP_BASE bs 0 UINT_MAX = Best h ->
  (h = 0 /\ Forall (fun b => ~ fits B b) bs) \/
  (exists l sz r, bs = l ++ Blk sz false :: r /\ h = MM_KHEAP_BASE + total l /\ B < sz /\
     Forall (fun b => fits B b -> sz <= bsize b) bs).
Proof.
  intros He Hr Hm Hp. pose proof (pick_spec B bs MM_KHEAP_BASE 0 UINT_MAX) as H0.
  rewrite Hp in H0. destruct H0 as [[-> Hall]|(l & sz & r & ? & ? & [? ?] & ?)];
    [left|right; by exists l, sz, r].
  split; [done|]. apply Forall_forall. intros b Hb Hfit.
  rewrite Forall_forall in Hall. specialize (Hall b Hb Hfit).
  apply list_elem_of_split in Hb as (l1 & l2 & ->).
  destruct (heap_rep_focus _ _ _ _ _ He Hr Hm) as (Hlo & Hhi & _).
  unfold UINT_MAX, MM_KHEAP_BASE, MM_KHEAP_MAX in *. lia.
Qed.

Lemma Heap_Allocate_wp e m f ck bs F L n :
  e <= MM_KHEAP_MAX -> heap_rep m MM_KHEAP_BASE bs e -> mapped m MM_KHEAP_BASE e ->
  0 < n <= 0x30000000 ->
  wp (Heap_Allocate F L n) (HS MM_KHEAP_BASE e m f false false ck)
     (alloc_post e m ck bs (Heap_int_GetBlockSize n) n).
Proof.
  intros He Hr Hm Hn. destruct (block_size_eq n Hn) as (HB1 & HB2 & HB3 & HB4).
  unfold Heap_Allocate. replace (n =? 0) with false by (symmetry; lia).
  set (B := Heap_int_GetBlockSize n) in *. clearbody B.
  apply wp_bind. eapply wp_mono; [by apply (Heap_ValidateDump_wp _ _ _ _ _ _ bs)|].
  intros _ s' ->. apply wp_bind, wp_acquire. hstep. apply wp_bind.
  eapply wp_mono; [apply (scan_wp _ _ _ _ _ _ _ bs); try done;
    by apply (walk_fuel_enough (HS MM_KHEAP_BASE e m f true false ck))|].
  intros sr s' [-> ->]. pose proof (pick_spec B bs MM_KHEAP_BASE 0 UINT_MAX) as Hp.
  destruct (pick B MM_KHEAP_BASE bs 0 UINT_MAX) as [|h|h] eqn:Ep; [done|..].
  - destruct Hp as (l & r & -> & ->).
    destruct (heap_rep_focus _ _ _ _ _ He Hr Hm) as (Hlo & _).
    eapply wp_mono; [apply (take_whole_wp _ _ _ _ _ l r F L B n); try done; lia|].
    intros p s' (-> & m' & -> & Hr' & Hm' & Hv & Hk).
    exists e, m', f. split_and!; try done. right.
    eexists _, _. split_and!; [done|by apply alloc_exact|done|exact Hr'|done|done].
  - clear Hp. destruct (pick_best _ _ _ _ _ He Hr Hm Ep)
      as [[-> Hnone]|(l & sz & r & -> & -> & Hsz & Hbest)].
    + apply take_extended_wp; try done; lia.
    + destruct (heap_rep_focus _ _ _ _ _ He Hr Hm) as (Hlo & _).
      replace (MM_KHEAP_BASE + total l =? 0) with false
        by (symmetry; unfold MM_KHEAP_BASE in *; lia). cbv iota.
      eapply wp_mono; [apply (take_front_wp _ _ _ _ _ l sz r F L B n); try done; lia|].
      intros p s' (-> & m' & -> & Hr' & Hm' & Hv & Hk).
      exists e, m', f. split_and!; try done. right.
      eexists _, _. split_and!; [done|by apply alloc_best|done|exact Hr'|done|done].
Qed.

(** ** Deallocation *)
Lemma spec_merge_split l sz r :
  spec_merge l sz r =
  (absorb_left l sz).1 ++
  Blk (absorb_right (absorb_left l sz).2 r).1 false :: (absorb_right (absorb_left l sz).2 r).2.
Proof. unfold spec_merge. destruct (absorb_left l sz) as [? s]. simpl. by destruct (absorb_right s r). Qed.

Lemma free_block_wp e m f du ck l sz r F L :
  let a := MM_KHEAP_BASE + total l in
  e <= MM_KHEAP_MAX ->
  heap_rep m MM_KHEAP_BASE (l ++ Blk sz true :: r) e -> mapped m MM_KHEAP_BASE e ->
  wp (Heap_Deallocate F L (a + 28)) (HS MM_KHEAP_BASE e m f false du ck) (fun _ s' => exists m',
    s' = HS MM_KHEAP_BASE e m' f false du ck /\
    heap_rep m' MM_KHEAP_BASE (spec_merge l sz r) e /\ mapped m' MM_KHEAP_BASE e /\
    keeps_live (spec_merge l sz r) m m').
Proof.
  intros a He Hr Hm.
  destruct (heap_rep_focus _ _ _ _ _ He Hr Hm) as (H1 & H2 & H3 & Hb & Hmb & H6 & _).
  fold a in H1, H2, H3, Hb, Hmb, H6. pose proof Hb as (B1 & B2 & B3 & B4 & B5 & B6 & B7).
  cbn [bsize bused magic_of] in *. specialize (B7 eq_refl).
  unfold Heap_Deallocate, INVLPTR. offsets.
  replace (a + 28 =? 4294967295) with false by (symmetry; lia).
  replace (a + 28 =? 0) with false by (symmetry; lia).
  replace ((a + 28) mod 4 =? 0) with true by (symmetry; apply Z.eqb_eq; dlia).
  cbn [negb]. cbv iota. hstep.
  replace (a + 28 <? 3225419776) with false by (symmetry; lia).
  replace (e <? a + 28) with false by (symmetry; lia). cbn [orb]. cbv iota. ints.
  replace (a + 28 - 28) with a by lia. repeat hstep. rewrite Z.eqb_refl. cbn [negb]. cbv iota.
  hstep. apply wp_bind, wp_acquire. repeat hstep.
  match goal with |- wp _ (HS _ _ ?mm _ _ _ _) _ => set (m2 := mm) end.
  assert (forall x, ~ (a <= x < a + sz) -> m2 !! x = m !! x) as Hf2
    by (intros; unfold m2; rewrite !lookup_insert_ne by lia; done).
  assert (heap_rep m2 MM_KHEAP_BASE (l ++ Blk sz false :: r) e) as Hr2.
  { apply (heap_rep_replace m m2 _ l (Blk sz true) [Blk sz false] r e Hr); [|exact Hf2].
    cbn [heap_rep bsize]. split; [|done]. fold a.
    unfold block_at, m2. cbn [bsize bused magic_of]. split_and!; try lia; try done; lookup. }
  assert (mapped m2 MM_KHEAP_BASE e) as Hm2 by (unfold m2; repeat apply mapped_insert; done).
  apply wp_bind. eapply wp_mono; [by apply (Heap_Merge_wp _ _ _ _ _ _ l sz r)|].
  intros h' s' (m3 & -> & -> & Hr3 & Hm3 & Hf3). apply wp_release. exists m3. split_and!; try done.
  intros b s0 x v Hin Hx Hv.
  assert (b + s0 <= a \/ a + sz <= b) as Hd.
  { rewrite spec_merge_live in Hin. by apply (live_disjoint _ _ _ _ _ _ _ _ Hr2). }
  rewrite spec_merge_split in Hr3, Hin.
  pose proof (live_disjoint _ _ _ _ _ _ _ _ Hr3 Hin) as Hd3.
  rewrite Hf3 by lia. rewrite Hf2 by lia. done.
Qed.

(** Freeing what is not a live block of the heap changes nothing. *)
Lemma free_ignored e m f lk du ck F L Ptr mg :
  Ptr = 0 \/ Ptr = INVLPTR \/ Ptr mod 4 <> 0 \/ Ptr < MM_KHEAP_BASE \/ e < Ptr \/
  (m !! u32 (u32 (Ptr - 28) + 16) = Some mg /\ mg <> MAGIC_USED) ->
  Heap_Deallocate F L Ptr (HS MM_KHEAP_BASE e m f lk du ck) = Ok tt (HS MM_KHEAP_BASE e m f lk du ck).
Proof.
  intros Hc. unfold Heap_Deallocate, sizeof_tHeapHead, oMagic.
  repeat case_if; try done. rewrite bind_get. tidy. case_if; [done|]. bools.
  unfold INVLPTR in *. destruct Hc as [?|[?|[?|[?|[?|[Hmg Hne]]]]]]; try lia.
  rewrite (bind_Ok _ _ _ mg (HS MM_KHEAP_BASE e m f lk du ck)) by (unfold ld; tidy; by rewrite Hmg).
  case_if; [done|]. replace (mg =? MAGIC_USED) with false by (symmetry; lia). done.
Qed.
End ops.
