(* ===== verification/HeapProps.v ===== *)
(** * The kernel heap: properties

    The theorems a client of [malloc]/[free] relies on: every history of calls and
    of writes into allocated memory keeps the heap well formed, calls return, live
    blocks never overlap and keep their contents, allocation is best fit, and
    freed space is coalesced; and the inputs on which [heap.c] fails. *)
From S2P Require Import Prelude Heap HeapInv HeapProofs.
Local Open Scope Z_scope.
Local Open Scope monad_scope.

Section props.
Context `{PageAllocator}.

Lemma valid_HS s bs : valid s bs -> exists e m f ck,
  s = HS MM_KHEAP_BASE e m f false false ck /\ e <= MM_KHEAP_MAX /\
  heap_rep m MM_KHEAP_BASE bs e /\ mapped m MM_KHEAP_BASE e /\ coalesced bs.
Proof.
  destruct s as [st0 e m f lk du ck]. intros [H1 H2 H3 H4 H5 H6 H7]. simpl in *. subst.
  exists e, m, f, ck. done.
Qed.

Lemma valid_intro e m f ck bs :
  e <= MM_KHEAP_MAX -> heap_rep m MM_KHEAP_BASE bs e -> mapped m MM_KHEAP_BASE e ->
  coalesced bs -> valid (HS MM_KHEAP_BASE e m f false false ck) bs.
Proof. intros. by split. Qed.

Lemma live_split bs : forall a b sz, (b, sz) ∈ live a bs ->
  exists l r, bs = l ++ Blk sz true :: r /\ b = a + total l.
Proof.
  induction bs as [|b0 bs IH]; intros a b sz; simpl; [by intros ?%not_elem_of_nil|].
  intros [Hin|Hin]%elem_of_app.
  - destruct b0 as [s u]. simpl in Hin. destruct u; [|by apply not_elem_of_nil in Hin].
    apply list_elem_of_singleton in Hin. injection Hin as -> ->.
    exists [], bs. simpl. split; [done|lia].
  - apply IH in Hin as (l & r & -> & ->). exists (b0 :: l), r. simpl. split; [done|lia].
Qed.

Lemma live_remove a l sz r :
  live a (l ++ Blk sz true :: r) ≡ₚ (a + total l, sz) :: live a (l ++ Blk sz false :: r).
Proof. rewrite !live_app. simpl. symmetry. apply Permutation_middle. Qed.

Lemma Heap_Install_wp s : glHeap s = false -> in_heap_dump s = false ->
  wp Heap_Install s (fun _ s' => valid s' [] \/ valid s' [Blk 0x8000 false]).
Proof.
  destruct s as [st0 e m f lk du ck]. simpl. intros -> ->. unfold Heap_Install.
  apply wp_bind. unfold wp at 1. simpl. apply wp_bind.
  eapply wp_mono; [apply (Heap_Extend_wp MM_KHEAP_BASE m f false ck [] HEAP_INIT_SIZE)|]; try done.
  { intros x ?. lia. }
  intros h s' (m' & f' & [(-> & -> & Hg)|(-> & He & -> & Hr & Hm & _)]); apply wp_ret.
  - left. apply valid_intro; try done. intros x ?; lia.
  - right. by apply valid_intro.
Qed.

(** A write by the owner of a block into its payload. *)
Lemma valid_poke s bs b sz x v : valid s bs -> (b, sz) ∈ live MM_KHEAP_BASE bs ->
  b + 28 <= x < b + sz - 8 -> valid (with_mem s (<[x := v]> (mem s))) bs.
Proof.
  intros Hv Hin Hx. apply valid_HS in Hv as (e & m & f & ck & -> & He & Hr & Hm & Hc).
  apply live_split in Hin as (l & r & -> & ->).
  destruct (heap_rep_focus _ _ _ _ _ He Hr Hm) as (_ & _ & _ & (B1 & B2 & B3 & B4 & B5 & B6 & B7) & _).
  cbn [bsize bused] in *.
  apply valid_intro; try done; [|by apply mapped_insert].
  apply (heap_rep_replace m _ _ l (Blk sz true) [Blk sz true] r e Hr).
  - cbn [heap_rep bsize]. split; [|done]. unfold block_at. cbn [bsize bused].
    split_and!; try done; try lia; lookup.
  - cbn [bsize]. intros y Hy. rewrite lookup_insert_ne by lia. done.
Qed.

Lemma valid_malloc s bs F L n : valid s bs -> 0 < n <= 0x30000000 ->
  wp (Heap_Allocate F L n) s (fun p s' =>
    keeps_live bs (mem s) (mem s') /\
    ((p = 0 /\ valid s' bs /\ Forall (fun b => ~ fits (Heap_int_GetBlockSize n) b) bs) \/
     exists h bs', p = h + 28 /\ MM_KHEAP_BASE <= h /\
       alloc_step (Heap_int_GetBlockSize n) bs h bs' /\ valid s' bs' /\ mem s' !! (h + 4) = Some n)).
Proof.
  intros Hv Hn. apply valid_HS in Hv as (e & m & f & ck & -> & He & Hr & Hm & Hc).
  eapply wp_mono; [by apply Heap_Allocate_wp|].
  intros p s' (e' & m' & f' & -> & He' & Hk & Hd). split; [done|].
  destruct Hd as [(-> & -> & Hg & Hno)|(h & bs' & -> & Hst & Hh & Hr' & Hm' & Hv)].
  - left. split_and!; try done. apply valid_intro; try done;
      [by eapply heap_rep_grows|by eapply mapped_grows].
  - right. exists h, bs'. split_and!; try done. apply valid_intro; try done.
    by eapply alloc_step_coalesced.
Qed.

Lemma coalesced_parts l b r : coalesced (l ++ b :: r) -> coalesced l /\ coalesced r.
Proof. rewrite coalesced_app, coalesced_cons. tauto. Qed.

Lemma valid_free s l sz r F L : valid s (l ++ Blk sz true :: r) ->
  wp (Heap_Deallocate F L (MM_KHEAP_BASE + total l + 28)) s (fun _ s' =>
    valid s' (spec_merge l sz r) /\ keeps_live (spec_merge l sz r) (mem s) (mem s')).
Proof.
  intros Hv. apply valid_HS in Hv as (e & m & f & ck & -> & He & Hr & Hm & Hc).
  apply coalesced_parts in Hc as [Hcl Hcr].
  eapply wp_mono; [by apply free_block_wp|]. intros _ s' (m' & -> & Hr' & Hm' & Hk).
  split; [|done]. apply valid_intro; try done. by apply spec_merge_coalesced.
Qed.

(** ** Histories

    [client s ls]: [s] is a state a client can bring the heap to, after
    [Heap_Install], by allocating, freeing what it holds, and writing into the
    payloads it holds; [ls] is what it holds, as pairs of the header's address
    and the block's size. *)
Inductive client : heap_state -> list (Z * Z) -> Prop :=
  | c_install s0 s :
      glHeap s0 = false -> in_heap_dump s0 = false ->
      Heap_Install s0 = Ok tt s -> client s []
  | c_malloc s ls F L n p s' :
      client s ls -> 0 < n <= 0x30000000 ->
      Heap_Allocate F L n s = Ok p s' ->
      client s' (if p =? 0 then ls else (p - 28, Heap_int_GetBlockSize n) :: ls)
  | c_free s ls b sz ls' F L s' :
      client s ls -> ls ≡ₚ (b, sz) :: ls' ->
      Heap_Deallocate F L (b + 28) s = Ok tt s' -> client s' ls'
  | c_write s ls b sz x v :
      client s ls -> (b, sz) ∈ ls -> b + 28 <= x < b + sz - 8 ->
      client (with_mem s (<[x := v]> (mem s))) ls.

Lemma client_valid s ls : client s ls ->
  exists bs, valid s bs /\ live MM_KHEAP_BASE bs ≡ₚ ls.
Proof.
  induction 1 as [s0 s Hl Hd Hi|s ls F L n p s' _ (bs & Hv & Hp) Hn Ha
    |s ls b sz ls' F L s' _ (bs & Hv & Hp) Hls Hf|s ls b sz x v _ (bs & Hv & Hp) Hin Hx].
  - pose proof (Heap_Install_wp s0 Hl Hd) as Hw. unfold wp in Hw. rewrite Hi in Hw.
    destruct Hw as [Hw|Hw]; eexists; (split; [exact Hw|done]).
  - pose proof (valid_malloc s bs F L n Hv Hn) as Hw. unfold wp in Hw. rewrite Ha in Hw.
    destruct Hw as (_ & [(-> & Hv' & _)|(h & bs' & -> & Hh & Hst & Hv' & _)]).
    + by exists bs.
    + replace (h + 28 =? 0) with false by (symmetry; unfold MM_KHEAP_BASE in Hh; lia).
      exists bs'. split; [done|]. rewrite (alloc_step_live _ _ _ _ Hst), Hp.
      replace (h + 28 - 28) with h by lia. done.
  - assert ((b, sz) ∈ live MM_KHEAP_BASE bs) as Hin by (rewrite Hp, Hls; apply list_elem_of_here).
    apply live_split in Hin as (l & r & -> & ->).
    pose proof (valid_free s l sz r F L Hv) as Hw. unfold wp in Hw. rewrite Hf in Hw.
    destruct Hw as [Hv' _]. exists (spec_merge l sz r). split; [done|].
    rewrite spec_merge_live. rewrite live_remove, Hls in Hp. by apply Permutation_cons_inv in Hp.
  - exists bs. split; [|done]. apply (valid_poke s bs b sz); try done. by rewrite Hp.
Qed.

(** Blocks in use do not overlap. *)
Definition apart (x y : Z * Z) : Prop := x.1 + x.2 <= y.1 \/ y.1 + y.2 <= x.1.

Fixpoint all_apart (ls : list (Z * Z)) : Prop :=
  match ls with [] => True | x :: ls' => Forall (apart x) ls' /\ all_apart ls' end.

Lemma all_apart_perm_1 l k : l ≡ₚ k -> all_apart l -> all_apart k.
Proof.
  intros Hp. induction Hp as [|x l k Hp IH|x y l|]; simpl; try tauto.
  - intros [Hf Hr]. split; [by rewrite <- Hp|auto].
  - rewrite !Forall_cons. unfold apart. tauto.
Qed.

#[global] Instance all_apart_perm : Proper ((≡ₚ) ==> iff) all_apart.
Proof. intros l k Hp. split; by apply all_apart_perm_1. Qed.

Lemma live_apart m bs : forall a e, heap_rep m a bs e -> all_apart (live a bs).
Proof.
  induction bs as [|[sz u] bs IH]; intros a e; simpl; [done|].
  intros [Hb Hr]. destruct u; simpl; [|by eapply IH]. split; [|by eapply IH].
  apply Forall_forall. intros [b s] Hin.
  apply (live_bounds _ _ _ _ _ _ Hr) in Hin. left. simpl. lia.
Qed.

Lemma valid_apart s bs : valid s bs -> all_apart (live MM_KHEAP_BASE bs).
Proof.
  intros (e & m & f & ck & -> & He & Hr & _)%valid_HS. by eapply live_apart.
Qed.

Lemma valid_live_range s bs b sz : valid s bs -> (b, sz) ∈ live MM_KHEAP_BASE bs ->
  gHeapStart s <= b /\ b + sz <= gHeapEnd s /\ b mod 4 = 0.
Proof.
  intros (e & m & f & ck & -> & He & Hr & _)%valid_HS Hin. simpl.
  pose proof (live_bounds _ _ _ _ _ _ Hr Hin). rewrite (heap_rep_total _ _ _ _ Hr).
  split_and!; try lia.
  apply live_split in Hin as (l & r & -> & ->). apply heap_rep_app in Hr as [Hl _].
  destruct (heap_rep_size _ _ _ _ Hl) as [_ Ht]. unfold MM_KHEAP_BASE. dlia.
Qed.

(** A zeroed range of a block in use. *)
Lemma st_wp a v s (Q : unit -> heap_state -> Prop) : is_Some (mem s !! a) ->
  Q tt (with_mem s (<[a := u32 v]> (mem s))) -> wp (st a v) s Q.
Proof. intros [w Hw] ?. unfold wp, st. by rewrite Hw. Qed.

Lemma with_mem_twice s m m' : with_mem (with_mem s m) m' = with_mem s m'.
Proof. done. Qed.

Lemma live_mapped s bs b sz x : valid s bs -> (b, sz) ∈ live MM_KHEAP_BASE bs ->
  b <= x < b + sz -> x mod 4 = 0 -> is_Some (mem s !! x) /\ MM_KHEAP_BASE <= x < MM_KHEAP_MAX.
Proof.
  intros Hv Hin Hx Ha. apply valid_HS in Hv as (e & m & f & ck & -> & He & Hr & Hm & Hc).
  pose proof (live_bounds _ _ _ _ _ _ Hr Hin). pose proof (heap_rep_total _ _ _ _ Hr). simpl.
  split; [apply Hm; [lia|done]|lia].
Qed.

Lemma zero_words_wp b sz bs n : forall s a, valid s bs -> (b, sz) ∈ live MM_KHEAP_BASE bs ->
  a mod 4 = 0 -> b + 28 <= a -> a + 4 * Z.of_nat n <= b + sz - 8 ->
  wp (zero_words n a) s (fun _ s' => valid s' bs /\ forall x,
    mem s' !! x = if (a <=? x) && (x <? a + 4 * Z.of_nat n) && (x mod 4 =? 0)
                  then Some 0 else mem s !! x).
Proof.
  induction n as [|n IH]; intros s a Hv Hin Ha H1 H2; cbn [zero_words].
  - apply wp_ret. split; [done|]. intros x.
    destruct (a <=? x) eqn:?, (x <? a + 4 * Z.of_nat 0) eqn:?; bools; done || lia.
  - destruct (live_mapped s bs b sz a) as [Hm Hr]; [done..|lia|done|].
    apply wp_bind, st_wp; [done|].
    assert (Hr2 : 0 <= a + 4 < 4294967296) by (unfold MM_KHEAP_BASE, MM_KHEAP_MAX in Hr; lia).
    rewrite (u32_small _ Hr2).
    eapply wp_mono; [apply (IH _ (a + 4)); [apply (valid_poke s bs b sz); [done|done|lia]|done|..]|].
    + rewrite Z.add_mod, Ha by lia. done.
    + lia.
    + lia.
    + intros _ s' [Hv' Hx]. split; [done|]. intros x. rewrite Hx. cbn [mem with_mem].
      rewrite lookup_insert. case_decide as Hd.
      * subst x. rewrite Ha. cbn [Z.eqb]. rewrite !andb_true_r.
        destruct (a <=? a) eqn:?, (a <? a + 4 * Z.of_nat (S n)) eqn:?; bools; try lia.
        simpl. by case_if.
      * destruct (x mod 4 =? 0) eqn:Hxm; bools; [|by rewrite !andb_false_r].
        assert (x < a + 4 -> x < a) by dlia. rewrite !andb_true_r.
        destruct (a + 4 <=? x) eqn:?, (x <? a + 4 + 4 * Z.of_nat n) eqn:?,
          (a <=? x) eqn:?, (x <? a + 4 * Z.of_nat (S n)) eqn:?; bools; done || lia.
Qed.

(** The byte of a word memory at an address (little endian). *)
Definition byte_at (m : gmap Z Z) (a : Z) : option Z :=
  (fun v => Z.land (Z.shiftr v (8 * (a mod 4))) 255) <$> m !! (a - a mod 4).

Lemma masked_byte v k j : 0 <= j < k -> k < 4 ->
  Z.land (Z.shiftr (u32 (Z.land v (Z.lnot (2 ^ (8 * k) - 1)))) (8 * j)) 255 = 0.
Proof.
  intros Hj Hk. apply Z.bits_inj'. intros i Hi. rewrite Z.land_spec, Z.bits_0.
  change 255 with (Z.ones 8).
  destruct (decide (i < 8)) as [Hi8|]; [|rewrite (Z.ones_spec_high 8) by lia; apply andb_false_r].
  rewrite Z.shiftr_spec by lia. unfold u32. change 4294967296 with (2 ^ 32).
  rewrite Z.mod_pow2_bits_low by lia. rewrite Z.land_spec, Z.lnot_spec by lia.
  replace (2 ^ (8 * k) - 1) with (Z.ones (8 * k)) by (rewrite Z.ones_equiv; lia).
  rewrite Z.ones_spec_low by lia. simpl. by rewrite andb_false_r.
Qed.

Lemma memset_zero_wp b sz bs n s : valid s bs -> (b, sz) ∈ live MM_KHEAP_BASE bs ->
  0 <= n -> n + 36 <= sz ->
  wp (memset_zero (b + 28) n) s (fun _ s' => valid s' bs /\
    (forall i, 0 <= i < n -> byte_at (mem s') (b + 28 + i) = Some 0) /\
    (forall x, x < b \/ b + sz <= x -> mem s' !! x = mem s !! x)).
Proof.
  intros Hv Hin Hn Hsz. destruct (valid_live_range _ _ _ _ Hv Hin) as (_ & _ & Hb).
  assert (sz mod 4 = 0) as Hs4.
  { pose proof Hv as (e & m & f & ck & -> & He & Hr & _)%valid_HS.
    apply live_split in Hin as (l & r & -> & ->).
    apply heap_rep_app in Hr as (_ & Hbk & _). apply block_at_size in Hbk. simpl in Hbk. dlia. }
  assert (4 * (n / 4) <= n < 4 * (n / 4) + 4) as Hq by dlia.
  unfold memset_zero. apply wp_bind.
  eapply wp_mono; [apply (zero_words_wp b sz bs _ s (b + 28)); try done; try dlia|].
  rewrite Z2Nat.id by dlia. intros _ s1 [Hv1 Hx].
  assert (forall i, 0 <= i < 4 * (n / 4) -> byte_at (mem s1) (b + 28 + i) = Some 0) as Hz.
  { intros i Hi. unfold byte_at. rewrite Hx.
    assert ((b + 28 + i) mod 4 = i mod 4) as -> by dlia.
    assert ((b + 28 + i - i mod 4) mod 4 = 0) as -> by dlia.
    destruct (b + 28 <=? b + 28 + i - i mod 4) eqn:?, (b + 28 + i - i mod 4 <? b + 28 + 4 * (n / 4)) eqn:?;
      bools; try dlia. simpl. by rewrite Z.shiftr_0_l. }
  assert (forall x, x < b \/ b + sz <= x -> mem s1 !! x = mem s !! x) as Hout.
  { intros x Ho. rewrite Hx.
    destruct (b + 28 <=? x) eqn:?, (x <? b + 28 + 4 * (n / 4)) eqn:?; bools; done || lia. }
  case_if; [apply wp_ret; split_and!; try done; intros; apply Hz; dlia|].
  destruct (live_mapped s1 bs b sz (b + 28 + 4 * (n / 4))) as [Hm Hr]; try done; try dlia.
  assert (0 <= b + 28 + 4 * (n / 4) < 4294967296) as Hr2
    by (unfold MM_KHEAP_BASE, MM_KHEAP_MAX in Hr; lia).
  rewrite (u32_small _ Hr2). apply wp_bind. destruct Hm as [v Hvv].
  apply (wp_eq _ s1 v s1); [unfold ld; by rewrite Hvv|]. apply st_wp; [by eexists|]. simpl. split_and!.
  - apply (valid_poke s1 bs b sz); [done..|]. dlia.
  - intros i Hi. unfold byte_at. rewrite lookup_insert.
    destruct (decide (i < 4 * (n / 4))) as [Hlt|Hge].
    + rewrite decide_False by dlia. apply (Hz i). lia.
    + assert ((b + 28 + i) mod 4 = i - 4 * (n / 4)) as -> by dlia. rewrite decide_True by lia.
      simpl. f_equal. apply masked_byte; dlia.
  - intros x Ho. rewrite lookup_insert_ne by dlia. by apply Hout.
Qed.
End props.

(** ** Reallocation into the free block above *)
Section realloc.
Context `{PageAllocator}.

(** The blocks after growing a block of size [B] into a free range of size [t]. *)
Definition grown (B t : Z) : list block :=
  Blk B true :: (if t =? B then [] else [Blk (t - B) false]).

Lemma grown_coalesced l sz fsz r B :
  coalesced (l ++ Blk sz true :: Blk fsz false :: r) ->
  coalesced (l ++ grown B (sz + fsz) ++ r).
Proof.
  unfold grown. rewrite !coalesced_app, !coalesced_cons. simpl. intros (? & (? & ? & ?) & ?).
  case_if; simpl; rewrite ?coalesced_cons; split_and!; try done; unfold adjacent_ok in *;
    repeat case_match; naive_solver.
Qed.

Lemma realloc_up_wp e m f ck l sz fsz r FF FL F L n :
  let a := MM_KHEAP_BASE + total l in
  let B := Heap_int_GetBlockSize n in
  e <= MM_KHEAP_MAX -> 0 < n <= 0x30000000 -> sz < B <= sz + fsz ->
  heap_rep m MM_KHEAP_BASE (l ++ Blk sz true :: Blk fsz false :: r) e ->
  mapped m MM_KHEAP_BASE e ->
  wp (Heap_Reallocate FF FL F L (a + 28) n) (HS MM_KHEAP_BASE e m f false false ck)
    (fun p s' => p = a + 28 /\ exists m', s' = HS MM_KHEAP_BASE e m' f false false ck /\
       heap_rep m' MM_KHEAP_BASE (l ++ grown B (sz + fsz) ++ r) e /\
       mapped m' MM_KHEAP_BASE e /\ m' !! (a + 4) = Some n /\
       (forall x, a + 28 <= x < a + sz - 8 -> m' !! x = m !! x) /\
       (forall x, ~ (a <= x < a + sz + fsz) -> m' !! x = m !! x)).
Proof.
  intros a B He Hn HB Hr Hm. destruct (block_size_eq n Hn) as (HB1 & HB2 & HB3 & HB4).
  fold B in HB1, HB2, HB3, HB4.
  destruct (heap_rep_focus _ _ _ _ _ He Hr Hm) as (H1 & H2 & H3 & Hb & Hmb & H6 & H7).
  assert (l ++ Blk sz true :: Blk fsz false :: r = (l ++ [Blk sz true]) ++ Blk fsz false :: r) as El
    by (rewrite <- app_assoc; done).
  pose proof Hr as Hr2. rewrite El in Hr2.
  destruct (heap_rep_focus _ _ _ _ _ He Hr2 Hm) as (G1 & G2 & G3 & Gb & Gmb & G6 & G7).
  rewrite total_app in *. cbn [total foldr bsize bused] in *.
  rewrite Z.add_0_r, Z.add_assoc in *. fold a in H1, H2, H3, Hb, Hmb, H6, G1, G2, G3, Gb, Gmb, G6.
  assert (mapped m a (a + sz + fsz)) as Hma by (eapply mapped_sub; [exact Hm|lia..]).
  pose proof Hb as (B1 & B2 & B3 & B4 & B5 & B6 & B7).
  pose proof Gb as (C1 & C2 & C3 & C4 & C5 & C6 & _).
  cbn [bsize bused magic_of] in *. specialize (B7 eq_refl).
  unfold Heap_Reallocate. fold B. offsets. cbv zeta.
  replace (a + 28 =? 0) with false by (symmetry; lia). apply wp_bind.
  unfold Heap_IsHeapAddr. offsets. hstep.
  replace (a + 28 <? 3225419776) with false by (symmetry; lia).
  replace (e <? a + 28) with false by (symmetry; lia).
  assert (Z.land (a + 28) 3 = 0) as ->.
  { change 3 with (Z.ones 2). rewrite Z.land_ones by lia. change (2 ^ 2) with 4. dlia. }
  cbn [Z.eqb negb]. cbv iota. ints. replace (a + 28 - 28) with a by lia. repeat hstep.
  replace (B <=? sz) with false by (symmetry; lia). cbv iota.
  apply wp_bind. eapply wp_mono; [apply (Heap_ValidateDump_wp e m f false ck false _ He Hr Hm)|].
  intros _ s' ->. repeat hstep. rewrite (u32_small (fsz + sz)) by lia.
  replace (B <=? fsz + sz) with true by (symmetry; lia). repeat hstep.
  assert (forall m', (forall x, ~ (a <= x < a + sz + fsz) -> m' !! x = m !! x) ->
    heap_rep m' a (grown B (sz + fsz)) (a + sz + fsz) ->
    heap_rep m' 3225419776 (l ++ grown B (sz + fsz) ++ r) e) as Hrep.
  { intros m' Hf Hg. apply heap_rep_app in Hr as (Hl & _ & _ & Hr). fold a in Hl, Hr.
    cbn [bsize] in Hr. pose proof (heap_rep_total _ _ _ _ Hg).
    pose proof (heap_rep_size _ _ _ _ Hr) as [? _]. pose proof (heap_rep_total _ _ _ _ Hr).
    apply heap_rep_app. fold a. split; [eapply heap_rep_frame, Hl; intros; apply Hf; lia|].
    apply heap_rep_app. replace (a + total (grown B (sz + fsz))) with (a + sz + fsz) by lia.
    split; [done|]. eapply heap_rep_frame, Hr. intros; apply Hf; lia. }
  unfold grown in *. rewrite (Z.add_comm fsz sz). destruct (sz + fsz =? B) eqn:E; bools;
    [|assert (32 <= sz + fsz - B) by dlia]; repeat hstep.
  - split; [done|]. eexists. split; [done|]. split_and!.
    + apply Hrep; [intros x Hx; rewrite !lookup_insert_ne by lia; done|].
      cbn [heap_rep bsize]. split; [|lia]. unfold block_at. cbn [bsize bused magic_of]. ints.
      split_and!; try lia; try done; lookup.
    + repeat apply mapped_insert. done.
    + ints. lookup.
    + intros x Hx. rewrite !lookup_insert_ne by lia. done.
    + intros x Hx. rewrite !lookup_insert_ne by lia. done.
  - split; [done|]. eexists. split; [done|]. ints. split_and!.
    + apply Hrep; [intros x Hx; rewrite !lookup_insert_ne by lia; done|].
      cbn [heap_rep bsize]. split_and!; [..|lia]; unfold block_at; cbn [bsize bused magic_of];
      split_and!; try lia; try done; try lookup. dlia.
    + repeat apply mapped_insert. done.
    + ints. lookup.
    + intros x Hx. rewrite !lookup_insert_ne by lia. done.
    + intros x Hx. rewrite !lookup_insert_ne by lia. done.
Qed.
End realloc.

(** ** Statistics *)
Section stats.
Context `{PageAllocator}.

Definition free_blocks (bs : list block) : list block := List.filter (fun b => negb (bused b)) bs.

Lemma free_blocks_total m bs : forall a e, heap_rep m a bs e ->
  0 <= total (free_blocks bs) <= total bs /\ (length (free_blocks bs) <= length bs)%nat.
Proof.
  induction bs as [|[sz u] bs IH]; intros a e; [done|]. intros [Hb Hr].
  apply IH in Hr. apply block_at_size in Hb. cbn [bsize] in Hb.
  destruct u; cbn [free_blocks List.filter negb bused total foldr length bsize] in *;
    unfold total, free_blocks in *; lia.
Qed.

Lemma stats_walk_wp e m f lk du ck bs : forall fuel a c,
  MM_KHEAP_BASE <= a -> e <= MM_KHEAP_MAX -> heap_rep m a bs e -> (length bs < fuel)%nat ->
  0 <= nBlocks c -> 0 <= nFree c -> 0 <= totalBytes c -> 0 <= freeBytes c ->
  nBlocks c + Z.of_nat (length bs) < 0x40000000 -> nFree c + Z.of_nat (length bs) < 0x40000000 ->
  totalBytes c + total bs < 0x40000000 -> freeBytes c + total bs < 0x40000000 ->
  wp (stats_walk fuel a c) (HS MM_KHEAP_BASE e m f lk du ck) (fun c' s' =>
    s' = HS MM_KHEAP_BASE e m f lk du ck /\
    nBlocks c' = nBlocks c + Z.of_nat (length bs) /\
    nFree c' = nFree c + Z.of_nat (length (free_blocks bs)) /\
    totalBytes c' = totalBytes c + total bs /\
    freeBytes c' = freeBytes c + total (free_blocks bs)).
Proof.
  induction bs as [|[sz u] bs IH]; intros [|fuel] a c Ha He Hr Hf; intros; simpl in Hf; try lia.
  - simpl in Hr. subst a. cbn [stats_walk]. hstep.
    replace (e <? e) with false by (symmetry; lia). apply wp_ret. simpl. split_and!; done || lia.
  - pose proof (heap_rep_total _ _ _ _ Hr) as Ht.
    pose proof Hr as [Hb Hr']. pose proof (heap_rep_size _ _ _ _ Hr') as [Hs' _].
    destruct Hb as (B1 & B2 & B3 & B4 & B5 & B6 & _). cbn [bsize bused length] in *.
    change (total (Blk sz u :: bs)) with (sz + total bs) in *. cbn [stats_walk]. offsets. hstep.
    replace (a <? e) with true by (symmetry; lia). cbn [negb]. cbv iota. repeat hstep.
    cbv zeta. destruct u; cbn [magic_of] in *; magic; ints;
      (eapply wp_mono; [apply IH; try done; cbn [nBlocks nFree totalBytes freeBytes]; lia|]);
      cbn [nBlocks nFree totalBytes freeBytes]; intros c' s' (-> & -> & -> & -> & ->);
      cbn [free_blocks List.filter negb bused length]; fold (free_blocks bs);
      rewrite ?(eq_refl : total (Blk sz false :: free_blocks bs) = sz + total (free_blocks bs));
      split_and!; done || lia.
Qed.

Lemma size_walk_wp e m f lk du ck bs : forall fuel a tbl,
  MM_KHEAP_BASE <= a -> e <= MM_KHEAP_MAX -> heap_rep m a bs e -> (length bs < fuel)%nat ->
  wp (size_walk fuel a tbl) (HS MM_KHEAP_BASE e m f lk du ck) (fun t s' =>
    s' = HS MM_KHEAP_BASE e m f lk du ck /\ t = fold_left count_size (bsize <$> bs) tbl).
Proof.
  induction bs as [|[sz u] bs IH]; intros [|fuel] a tbl Ha He Hr Hf; simpl in Hf; try lia.
  - simpl in Hr. subst a. cbn [size_walk]. hstep.
    replace (e <? e) with false by (symmetry; lia). apply wp_ret. done.
  - pose proof (heap_rep_total _ _ _ _ Hr) as Ht.
    pose proof Hr as [Hb Hr']. pose proof (heap_rep_size _ _ _ _ Hr') as [Hs' _].
    destruct Hb as (B1 & B2 & B3 & B4 & B5 & B6 & _). cbn [bsize bused] in *.
    change (total (Blk sz u :: bs)) with (sz + total bs) in *. cbn [size_walk]. offsets. hstep.
    replace (a <? e) with true by (symmetry; lia). cbn [negb]. cbv iota. repeat hstep. ints.
    simpl. apply IH; [lia|done|done|lia].
Qed.
End stats.

(** ** Theorems *)
Section theorems.
Context `{PageAllocator}.

(** C1: Every history of malloc calls of 1 to 0x30000000 bytes (768 MiB), frees of blocks held and writes into the
    payload of blocks held, after Heap_Install, leaves a well-formed, coalesced heap whose used blocks are exactly those
    the client holds. (Larger requests wrap: malloc_size_wraps.) *)
Theorem heap_history_valid s ls : client s ls ->
  exists bs, valid s bs /\ live MM_KHEAP_BASE bs ≡ₚ ls.
Proof. apply client_valid. Qed.

(** C12: After every history of malloc calls of 1 to 0x30000000 bytes (768 MiB), frees of blocks held and writes into
    payloads held, the blocks held lie inside the heap, are word aligned and never overlap. (Larger requests wrap:
    malloc_size_wraps.) *)
Theorem heap_blocks_apart s ls : client s ls ->
  all_apart ls /\
  Forall (fun '(b, sz) => gHeapStart s <= b /\ b + sz <= gHeapEnd s /\ b mod 4 = 0) ls.
Proof.
  intros (bs & Hv & Hp)%client_valid. split.
  - rewrite <- Hp. by eapply valid_apart.
  - rewrite <- Hp. apply Forall_forall. intros [b sz] Hin. by eapply valid_live_range.
Qed.


(** On a well-formed heap [malloc] returns NULL and leaves the blocks as they are only when no
    free block is large enough; otherwise it takes a free block of exactly the
    size, else splits the smallest one that is larger, else grows the heap, and
    records the requested size.  The words of all blocks in use are kept. *)
Theorem malloc_best_fit s bs F L n : valid s bs -> 0 < n <= 0x30000000 ->
  exists p s', Heap_Allocate F L n s = Ok p s' /\
    keeps_live bs (mem s) (mem s') /\
    ((p = 0 /\ valid s' bs /\ Forall (fun b => ~ fits (Heap_int_GetBlockSize n) b) bs) \/
     exists h bs', p = h + 28 /\ MM_KHEAP_BASE <= h /\
       alloc_step (Heap_int_GetBlockSize n) bs h bs' /\ valid s' bs' /\
       mem s' !! (h + 4) = Some n).
Proof. intros Hv Hn. apply (wp_inv _ _ _ (valid_malloc s bs F L n Hv Hn)). Qed.

(** [calloc] is [malloc] whose [n] bytes are zero, and which still
    keeps the words of the other blocks in use. *)
Theorem calloc_zeroes s bs F L n : valid s bs -> 0 < n <= 0x30000000 ->
  exists p s', Heap_AllocateZero F L n s = Ok p s' /\
    keeps_live bs (mem s) (mem s') /\
    ((p = 0 /\ valid s' bs) \/
     exists h bs', p = h + 28 /\ alloc_step (Heap_int_GetBlockSize n) bs h bs' /\ valid s' bs' /\
       forall i, 0 <= i < n -> byte_at (mem s') (p + i) = Some 0).
Proof.
  intros Hv Hn. apply wp_inv. unfold Heap_AllocateZero. apply wp_bind.
  eapply wp_mono; [by apply valid_malloc|].
  intros p s1 (Hk & [(-> & Hv1 & _)|(h & bs' & -> & Hh & Hst & Hv1 & _)]).
  - apply wp_ret. split; [done|]. by left.
  - replace (h + 28 =? 0) with false by (symmetry; unfold MM_KHEAP_BASE in Hh; lia).
    pose proof (alloc_step_live _ _ _ _ Hst) as Hp.
    assert ((h, Heap_int_GetBlockSize n) ∈ live MM_KHEAP_BASE bs') as Hin
      by (rewrite Hp; apply list_elem_of_here).
    destruct (block_size_eq n Hn) as (_ & _ & Hb & _).
    apply wp_bind. eapply wp_mono; [apply (memset_zero_wp h (Heap_int_GetBlockSize n) bs' n s1); try done; lia|].
    intros _ s2 (Hv2 & Hz & Ho). apply wp_ret. split.
    + pose proof (valid_apart _ _ Hv1) as Ha. rewrite Hp in Ha. destruct Ha as [Ha _].
      intros b sz x v Hb' Hx Hm. rewrite Ho; [by eapply Hk|].
      rewrite Forall_forall in Ha. specialize (Ha _ Hb'). destruct Ha; simpl in *; lia.
    + right. exists h, bs'. done.
Qed.

(** [free] of a block in use returns, merges the block with whichever neighbours are
    free so that the heap stays coalesced, removes exactly that block from the
    ones in use, and keeps the words of all the others. *)
Theorem free_coalesces s l sz r F L : valid s (l ++ Blk sz true :: r) ->
  exists s', Heap_Deallocate F L (MM_KHEAP_BASE + total l + 28) s = Ok tt s' /\
    valid s' (spec_merge l sz r) /\
    live MM_KHEAP_BASE (l ++ Blk sz true :: r) ≡ₚ
      (MM_KHEAP_BASE + total l, sz) :: live MM_KHEAP_BASE (spec_merge l sz r) /\
    keeps_live (spec_merge l sz r) (mem s) (mem s').
Proof.
  intros Hv. destruct (wp_inv _ _ _ (valid_free s l sz r F L Hv)) as ([] & s' & Hs & Hv' & Hk).
  exists s'. split_and!; try done. rewrite spec_merge_live. apply live_remove.
Qed.

(** [free] ignores NULL, the invalid pointer, a misaligned pointer, a pointer outside
    the heap, and one whose header word is not that of a block in use (in
    particular a second free of the same block while its header is intact). *)
Theorem free_rejects s bs F L Ptr mg : valid s bs ->
  Ptr = 0 \/ Ptr = INVLPTR \/ Ptr mod 4 <> 0 \/ Ptr < MM_KHEAP_BASE \/ gHeapEnd s < Ptr \/
  (mem s !! u32 (u32 (Ptr - 28) + 16) = Some mg /\ mg <> MAGIC_USED) ->
  Heap_Deallocate F L Ptr s = Ok tt s.
Proof.
  intros (e & m & f & ck & -> & He & Hr & Hm & Hc)%valid_HS Hp. by apply (free_ignored e m f false false ck F L Ptr mg).
Qed.

(** On a well-formed heap [Heap_Stats] returns, changes nothing and reports
    the number and bytes of all blocks and of the free ones; the bytes are the extent of the heap. *)
Theorem Heap_Stats_counts s bs : valid s bs ->
  exists c x tbl, Heap_Stats s = Ok (c, x, tbl) s /\
    nBlocks c = len bs /\ totalBytes c = gHeapEnd s - gHeapStart s /\
    nFree c = len (free_blocks bs) /\ freeBytes c = total (free_blocks bs) /\
    tbl = filter (fun e => e.2 <> 0) (fold_left count_size (bsize <$> bs) (replicate (length bs) (0, 0))).
Proof.
  intros (e & m & f & ck & -> & He & Hr & Hm & Hc)%valid_HS.
  pose proof (heap_rep_total _ _ _ _ Hr) as Ht. pose proof (heap_rep_size _ _ _ _ Hr) as [Hs _].
  pose proof (walk_fuel_enough (HS MM_KHEAP_BASE e m f false false ck) bs Hr) as Hw.
  assert (wp Heap_Stats (HS MM_KHEAP_BASE e m f false false ck) (fun r s' =>
    s' = HS MM_KHEAP_BASE e m f false false ck /\
    nBlocks r.1.1 = len bs /\ totalBytes r.1.1 = e - MM_KHEAP_BASE /\
    nFree r.1.1 = len (free_blocks bs) /\ freeBytes r.1.1 = total (free_blocks bs) /\
    r.2 = filter (fun e => e.2 <> 0)
            (fold_left count_size (bsize <$> bs) (replicate (length bs) (0, 0))))) as Hwp.
  - unfold Heap_Stats. apply wp_bind, wp_get. apply wp_bind. cbn [gHeapStart].
    eapply wp_mono; [apply stats_walk_wp with (bs := bs); try done;
      cbn [nBlocks nFree totalBytes freeBytes]; unfold MM_KHEAP_BASE, MM_KHEAP_MAX in *; lia|].
    cbn [nBlocks nFree totalBytes freeBytes]. intros c s' (-> & Hn & Hfr & Htt & Hft).
    fold (len bs) in Hn. fold (len (free_blocks bs)) in Hfr. rewrite Z.add_0_l in Hn, Hfr, Htt, Hft.
    destruct (0 <? nBlocks c) eqn:En; bools.
    + apply wp_bind. eapply wp_mono; [by apply size_walk_wp with (bs := bs)|].
      intros t s' [-> ->]. apply wp_ret. cbn [fst snd].
      rewrite Hn at 2. unfold len at 3. rewrite Nat2Z.id. split_and!; done || lia.
    + apply wp_ret. cbn [fst snd]. destruct bs; [|unfold len in *; simpl in *; lia].
      split_and!; done || (simpl in *; lia).
  - destruct (wp_inv _ _ _ Hwp) as ([[c x] tbl] & s' & Hs' & -> & H1 & H2 & H3 & H4 & H5).
    exists c, x, tbl. split_and!; done.
Qed.

(** [realloc] of a block whose upper neighbour is free and large enough keeps the pointer and
    the payload, grows the block into that neighbour, leaves the remainder (if any) free,
    and touches no other block. *)
Theorem realloc_grows_up s l sz fsz r FF FL F L n :
  valid s (l ++ Blk sz true :: Blk fsz false :: r) -> 0 < n <= 0x30000000 ->
  sz < Heap_int_GetBlockSize n <= sz + fsz ->
  let a := MM_KHEAP_BASE + total l in
  exists s', Heap_Reallocate FF FL F L (a + 28) n s = Ok (a + 28) s' /\
    valid s' (l ++ grown (Heap_int_GetBlockSize n) (sz + fsz) ++ r) /\
    (forall x, a + 28 <= x < a + sz - 8 -> mem s' !! x = mem s !! x) /\
    (forall x, ~ (a <= x < a + sz + fsz) -> mem s' !! x = mem s !! x).
Proof.
  intros (e & m & f & ck & -> & He & Hr & Hm & Hc)%valid_HS Hn HB a.
  destruct (wp_inv _ _ _ (realloc_up_wp e m f ck l sz fsz r FF FL F L n He Hn HB Hr Hm))
    as (p & s' & Hs & -> & m' & -> & Hr' & Hm' & _ & Hk & Ho).
  eexists. split; [exact Hs|]. split; [|done]. apply valid_intro; try done.
  by apply grown_coalesced.
Qed.
End theorems.

(** ** Runs on a pool of frames *)
Definition exec {A} (c : M heap_state stop A) (s : heap_state) : heap_state :=
  match c s with Ok _ s' => s' | Stop _ => s end.
Definition result {A} (c : M heap_state stop A) (s : heap_state) : option A :=
  match c s with Ok a _ => Some a | Stop _ => None end.

Definition stops {A} (c : M heap_state stop A) (s : heap_state) : option stop :=
  match c s with Ok _ _ => None | Stop e => Some e end.

Lemma result_exec {A} (c : M heap_state stop A) s a : result c s = Some a -> c s = Ok a (exec c s).
Proof. unfold result, exec. destruct (c s); congruence. Qed.

Lemma exec_Ok {A} (c : M heap_state stop A) s a s' : c s = Ok a s' -> exec c s = s'.
Proof. unfold exec. by intros ->. Qed.

Abbreviation installed := (exec Heap_Install (boot 16)).
Abbreviation two_blocks :=
  (exec (Heap_Allocate 1 2 20) (exec (Heap_Allocate 1 2 100) installed)).

Lemma installed_valid : valid installed [Blk 0x8000 false].
Proof.
  assert ((gHeapStart installed =? gHeapEnd installed) = false) as Hne by (vm_compute; reflexivity).
  destruct (wp_inv _ _ _ (Heap_Install_wp (boot 16) eq_refl eq_refl)) as (a & s & Hs & Hv).
  rewrite (exec_Ok _ _ _ _ Hs) in Hne |- *. bools. destruct Hv as [Hv|Hv]; [|exact Hv].
  apply v_rep in Hv. contradiction.
Qed.

Lemma client_two : client two_blocks [(0xC04000A0, 64); (0xC0400000, 160)].
Proof.
  apply (c_malloc (exec (Heap_Allocate 1 2 100) installed) [(0xC0400000, 160)] 1 2 20 0xC04000BC).
  - apply (c_malloc installed [] 1 2 100 0xC040001C); [|lia|apply result_exec; vm_compute; done].
    apply (c_install (boot 16)); [done..|]. apply result_exec. vm_compute. done.
  - lia.
  - apply result_exec. vm_compute. done.
Qed.

Lemma heap_history_valid_witness :
  exists bs, valid two_blocks bs /\
    live MM_KHEAP_BASE bs ≡ₚ [(0xC04000A0, 64); (0xC0400000, 160)].
Proof. exact (heap_history_valid _ _ client_two). Defined.

Lemma heap_blocks_apart_witness : all_apart [(0xC04000A0, 64); (0xC0400000, 160)].
Proof. exact (proj1 (heap_blocks_apart _ _ client_two)). Defined.


Lemma malloc_best_fit_witness : exists p s', Heap_Allocate 1 2 100 installed = Ok p s'.
Proof.
  destruct (malloc_best_fit installed [Blk 0x8000 false] 1 2 100 installed_valid) as (p & s' & Hs & _);
    [lia|]. exists p, s'. exact Hs.
Defined.

Lemma calloc_zeroes_witness : exists p s', Heap_AllocateZero 1 2 13 installed = Ok p s'.
Proof.
  destruct (calloc_zeroes installed [Blk 0x8000 false] 1 2 13 installed_valid) as (p & s' & Hs & _);
    [lia|]. exists p, s'. exact Hs.
Defined.

(** The heap after the first allocation of the kernel. *)
Lemma one_block_valid :
  valid (exec (Heap_Allocate 1 2 100) installed) [Blk 160 true; Blk 0x7F60 false].
Proof.
  destruct (wp_inv _ _ _ (valid_malloc installed _ 1 2 100 installed_valid ltac:(lia)))
    as (p & s' & Hs & _ & [(-> & _ & Hno)|(h & bs' & -> & _ & Hst & Hv & _)]).
  { apply Forall_cons in Hno as [Hno _]. destruct Hno. split; vm_compute; done. }
  rewrite (exec_Ok _ _ _ _ Hs). replace [_; _] with bs'; [exact Hv|].
  change (Heap_int_GetBlockSize 100) with 160 in Hst.
  inversion Hst as [l r Hl|l sz r Hl Hsz _|l sz Hno]; subst.
  - by destruct l as [|? [|]].
  - destruct l as [|? [|]]; by inversion Hl.
  - apply Forall_cons in Hno as [Hno _]. destruct Hno. split; vm_compute; done.
Qed.

Lemma free_coalesces_witness : exists s',
  Heap_Deallocate 1 2 0xC040001C (exec (Heap_Allocate 1 2 100) installed) = Ok tt s' /\
  valid s' [Blk 0x8000 false].
Proof.
  destruct (free_coalesces _ [] 160 [Blk 0x7F60 false] 1 2 one_block_valid) as (s' & Hs & Hv & _).
  exists s'. exact (conj Hs Hv).
Defined.

Lemma Heap_Stats_counts_witness : exists c x tbl,
  Heap_Stats (exec (Heap_Allocate 1 2 100) installed)
  = Ok (c, x, tbl) (exec (Heap_Allocate 1 2 100) installed) /\ nBlocks c = 2.
Proof.
  destruct (Heap_Stats_counts _ _ one_block_valid) as (c & x & tbl & Hs & Hn & _).
  exists c, x, tbl. exact (conj Hs Hn).
Defined.

Lemma free_rejects_witness : Heap_Deallocate 1 2 0xC040001E installed = Ok tt installed.
Proof.
  apply (free_rejects installed [Blk 0x8000 false] 1 2 0xC040001E 0 installed_valid).
  right. right. left. vm_compute. discriminate.
Defined.

Lemma realloc_grows_up_witness : exists s',
  Heap_Reallocate 0 0 1 2 0xC040001C 1000 (exec (Heap_Allocate 1 2 100) installed)
  = Ok 0xC040001C s'.
Proof.
  destruct (realloc_grows_up _ [] 160 0x7F60 [] 0 0 1 2 1000 one_block_valid) as (s' & Hs & _).
  - lia.
  - vm_compute. split; [reflexivity|discriminate].
  - exists s'. exact Hs.
Defined.

(** ** Where the heap breaks *)

(** Three blocks of which the first has been freed again. *)
Definition hole_below : M heap_state stop Z :=
  do p <- Heap_Allocate 1 2 100;
  do q <- Heap_Allocate 1 2 20;
  do r <- Heap_Allocate 1 2 20;
  Heap_Deallocate 1 2 p;;; ret q.

(** The block size of a request close to 4 GiB wraps around.  [malloc(0xFFFFFFF0)] succeeds, with a
    block of 32 bytes whose returned pointer is the last word of its own footer;
    one word written through it makes the next [malloc] panic. *)
Theorem malloc_size_wraps :
  Heap_int_GetBlockSize 0xFFFFFFF0 = 32 /\
  result (Heap_Allocate 1 2 0xFFFFFFF0) installed = Some 0xC040001C /\
  stops (do p <- Heap_Allocate 1 2 0xFFFFFFF0; st p 7;;; Heap_Allocate 1 2 8) installed
  = Some KernelPanic.
Proof. split_and!; vm_compute; reflexivity. Qed.

(** [realloc] looks at the header after the block without testing for the end of the heap:
    growing the block that ends the heap reads unmapped memory. *)
Theorem realloc_last_faults :
  stops (do p <- Heap_Allocate 1 2 (0x8000 - 36); Heap_Reallocate 0 0 1 2 p 0x8000) installed
  = Some PageFault.
Proof. vm_compute. reflexivity. Qed.

(** [realloc] into a free block below that is larger than needed returns a
    pointer but writes neither a footer for the new block nor a block for the
    remainder: the next validation panics. *)
Theorem realloc_down_corrupts :
  result (do q <- hole_below; Heap_Reallocate 0 0 1 2 q 60) installed = Some 0xC040001C /\
  stops (do q <- hole_below; do p <- Heap_Reallocate 0 0 1 2 q 60; Heap_Validate) installed
  = Some KernelPanic.
Proof. split; vm_compute; reflexivity. Qed.
