(* ===== verification/CString.v ===== *)
(** * Kernel C library: characters, strings, memory ([KernelLand/Kernel/libc.c])

    A [char *] is the list of [char] values from the pointer to the end of the
    object it points into; reading or writing past that end is undefined
    behaviour, [None].  A pointer returned into an argument is its offset from
    it.  [char] is signed on x86: a character is a [Z] from -128 to 127.  Source and
    destination of a copy are distinct objects, except for [memmove], which
    works on one memory. *)
From S2P Require Import Prelude.
Local Open Scope Z_scope.

Abbreviation cTAB := 9 (only parsing).
Abbreviation cLF := 10 (only parsing).
Abbreviation cVT := 11 (only parsing).
Abbreviation cCR := 13 (only parsing).
Abbreviation cSPACE := 32 (only parsing).
Abbreviation cBANG := 33 (only parsing).
Abbreviation cPERCENT := 37 (only parsing).
Abbreviation cSTAR := 42 (only parsing).
Abbreviation cPLUS := 43 (only parsing).
Abbreviation cCOMMA := 44 (only parsing).
Abbreviation cMINUS := 45 (only parsing).
Abbreviation cDOT := 46 (only parsing).
Abbreviation c_0 := 48 (only parsing).
Abbreviation c_1 := 49 (only parsing).
Abbreviation c_7 := 55 (only parsing).
Abbreviation c_9 := 57 (only parsing).
Abbreviation cQUERY := 63 (only parsing).
Abbreviation c_A := 65 (only parsing).
Abbreviation c_F := 70 (only parsing).
Abbreviation c_X := 88 (only parsing).
Abbreviation c_Z := 90 (only parsing).
Abbreviation c_a := 97 (only parsing).
Abbreviation c_f := 102 (only parsing).
Abbreviation c_x := 120 (only parsing).
Abbreviation c_z := 122 (only parsing).

(** ** ctype.h *)
Module Ctype.
Definition isdigit (c : Z) : bool := (c_0 <=? c) && (c <=? c_9).
Definition islower (c : Z) : bool := (c_a <=? c) && (c <=? c_z).
Definition isupper (c : Z) : bool := (c_A <=? c) && (c <=? c_Z).
Definition isalpha (c : Z) : bool := isupper c || islower c.
Definition isalnum (c : Z) : bool := isalpha c || isdigit c.
Definition isascii (c : Z) : bool := (0 <=? c) && (c <? 128).
Definition isblank (c : Z) : bool :=
  if c =? cTAB then true else if c =? cSPACE then true else false.
Definition iscntrl (c : Z) : bool := if c <? cSPACE then true else false.
Definition isgraph (c : Z) : bool := false.
Definition isprint (c : Z) : bool := if (cSPACE <=? c) && (c <=? 127) then true else false.
Definition ispunct (c : Z) : bool :=
  if (c =? cDOT) || (c =? cCOMMA) || (c =? cQUERY) || (c =? cBANG) then true else false.
Definition isspace (c : Z) : bool :=
  if c =? cSPACE then true else if c =? cTAB then true else if c =? cVT then true
  else if c =? cLF then true else if c =? cCR then true else false.
Definition isxdigit (c : Z) : bool :=
  isdigit c || ((c_a <=? c) && (c <=? c_f)) || ((c_A <=? c) && (c <=? c_F)).
Definition toupper (c : Z) : Z := if islower c then c - 32 else c.
Definition tolower (c : Z) : Z := if isupper c then c + 32 else c.
End Ctype.
Export Ctype.

(** ** Strings *)
Module Str.

(** The characters before the terminator, if there is one. *)
Fixpoint str_of (s : list Z) : option (list Z) :=
  match s with
  | [] => None
  | c :: s' => if c =? 0 then Some [] else (cons c) <$> str_of s'
  end.

Fixpoint strlen (s : list Z) : option Z :=
  match s with
  | [] => None
  | c :: s' => if c =? 0 then Some 0 else (fun n => n + 1) <$> strlen s'
  end.

Fixpoint strcmp (s1 s2 : list Z) : option Z :=
  match s1, s2 with
  | c1 :: s1', c2 :: s2' =>
      if negb (c1 =? 0) && (c1 =? c2) then strcmp s1' s2' else Some (c1 - c2)
  | _, _ => None
  end.

(** The loop of [strncmp], entered with [num] already known to be positive. *)
Fixpoint strncmp_loop (num : nat) (s1 s2 : list Z) : option Z :=
  match s1, s2 with
  | c1 :: s1', c2 :: s2' =>
      match num with
      | S (S _ as num') =>
          if negb (c1 =? 0) && (c1 =? c2) then strncmp_loop num' s1' s2' else Some (c1 - c2)
      | _ => Some (c1 - c2)
      end
  | _, _ => None
  end.
Definition strncmp (s1 s2 : list Z) (num : Z) : option Z :=
  if num =? 0 then Some 0 else strncmp_loop (Z.to_nat num) s1 s2.

Fixpoint strucmp (s1 s2 : list Z) : option Z :=
  match s1, s2 with
  | c1 :: s1', c2 :: s2' =>
      if negb (c1 =? 0) && (tolower c1 =? tolower c2) then strucmp s1' s2'
      else Some (tolower c1 - tolower c2)
  | _, _ => None
  end.

(** The pointer returned by [strchr] and [strrchr], as an offset; the inner
    [None] is NULL. *)
Fixpoint strchr (s : list Z) (ch : Z) : option (option Z) :=
  match s with
  | [] => None
  | c :: s' =>
      if c =? 0 then Some None else
      if c =? ch then Some (Some 0) else
      r ← strchr s' ch; Some (option_map (fun n => n + 1) r)
  end.

Fixpoint strpos (s : list Z) (ch : Z) : option Z :=
  match s with
  | [] => None
  | c :: s' =>
      if c =? 0 then Some (-1) else
      if c =? ch then Some 0
      else (fun n => if n =? -1 then -1 else n + 1) <$> strpos s' ch
  end.

(** [while(--ofs && __s[ofs] != __c);] for a positive [ofs]; for [ofs] 0 the
    decrement wraps and the loop reads at the top of the address space. *)
Fixpoint strrchr_loop (ofs : nat) (s : list Z) (ch : Z) : option nat :=
  match ofs with
  | O => None
  | S O => Some O
  | S (S _ as ofs') =>
      c ← s !! ofs'; if c =? ch then Some ofs' else strrchr_loop ofs' s ch
  end.
Definition strrchr (s : list Z) (ch : Z) : option (option Z) :=
  n ← strlen s;
  ofs ← strrchr_loop (Z.to_nat n) s ch;
  c ← s !! ofs;
  if c =? ch then Some (Some (Z.of_nat ofs)) else Some None.

(** Storing at the front of a buffer. *)
Definition put1 (d : list Z) (c : Z) : option (list Z) :=
  match d with [] => None | _ :: d' => Some (c :: d') end.

(** Buffer and returned pointer (the terminator's position). *)
Fixpoint strcpy (d s : list Z) {struct s} : option (list Z * Z) :=
  match s with
  | [] => None
  | c :: s' =>
      if c =? 0 then d' ← put1 d 0; Some (d', 0) else
      match d with
      | [] => None
      | _ :: d0 => '(d', o) ← strcpy d0 s'; Some (c :: d', o + 1)
      end
  end.

(** [while( *__str2 && __max-- >= 1) ...; if(__max) *__str1 = 0;]  When the loop
    ends on the count, the post-decrement has left [__max] at its wrapped
    maximum, so the terminator is stored after all. *)
Fixpoint strncpy (d s : list Z) (max : nat) {struct s} : option (list Z * Z) :=
  match s with
  | [] => None
  | c :: s' =>
      if c =? 0 then
        match max with
        | O => Some (d, 0)
        | S _ => d' ← put1 d 0; Some (d', 0)
        end
      else
        match max with
        | O => d' ← put1 d 0; Some (d', 0)
        | S max' =>
            match d with
            | [] => None
            | _ :: d0 => '(d', o) ← strncpy d0 s' max'; Some (c :: d', o + 1)
            end
        end
  end.

(** [while( *__dest++); __dest--;] then the copy loop of [strcpy]. *)
Fixpoint strcat (d s : list Z) : option (list Z * Z) :=
  match d with
  | [] => None
  | c :: d0 =>
      if c =? 0 then strcpy d s else '(d', o) ← strcat d0 s; Some (c :: d', o + 1)
  end.

(** [while( *__src && n-- >= 1) *__dest++ = *__src++; *__dest = 0]. *)
Fixpoint strncat_copy (d s : list Z) (n : nat) {struct s} : option (list Z * Z) :=
  match s with
  | [] => None
  | c :: s' =>
      if c =? 0 then d' ← put1 d 0; Some (d', 0) else
      match n with
      | O => d' ← put1 d 0; Some (d', 0)
      | S n' =>
          match d with
          | [] => None
          | _ :: d0 => '(d', o) ← strncat_copy d0 s' n'; Some (c :: d', o + 1)
          end
      end
  end.
(** As written: [__dest] is left one past the terminator. *)
Fixpoint strncat (d s : list Z) (n : nat) : option (list Z * Z) :=
  match d with
  | [] => None
  | c :: d0 =>
      '(d', o) ← (if c =? 0 then strncat_copy d0 s n else strncat d0 s n);
      Some (c :: d', o + 1)
  end.

(** [_strdup]: [alloc] is the buffer [Heap_Allocate] returned for the size it is
    given, [None] for NULL. *)
Definition _strdup (alloc : Z -> option (list Z)) (s : list Z) : option (option (list Z)) :=
  n ← strlen s;
  match alloc (n + 1) with
  | None => Some None
  | Some buf => '(d, _) ← strcpy buf s; Some (Some d)
  end.

End Str.
Export Str.

(** ** Memory blocks *)
Module Mem.
(** Blocks of objects of any one type, offsets and sizes in objects. *)

(** [memcpy] of x86 moves from low to high addresses ([rep movsb]; its wider
    moves are taken only when both addresses agree modulo the width, so that
    they give the same result). *)
Fixpoint memcpy {A} (m : list A) (dst src : Z) (n : nat) : option (list A) :=
  match n with
  | O => Some m
  | S n' => c ← get m src; m' ← set m dst c; memcpy m' (dst + 1) (src + 1) n'
  end.

(** [for( int i = len; i--; ) dest[i] = src[i];] *)
Fixpoint move_down {A} (m : list A) (dst src : Z) (i : nat) : option (list A) :=
  match i with
  | O => Some m
  | S i' => c ← get m (src + Z.of_nat i'); m' ← set m (dst + Z.of_nat i') c; move_down m' dst src i'
  end.

Definition memmove {A} (m : list A) (dest src n : Z) : option (list A) :=
  if (n =? 0) || (dest =? src) then Some m else
  if src + n <? dest then memcpy m dest src (Z.to_nat n) else
  if dest + n <? src then memcpy m dest src (Z.to_nat n) else
  if dest <? src then memcpy m dest src (Z.to_nat n) else
  move_down m dest src (Z.to_nat n).

Definition memset (m : list Z) (dst val n : Z) : option (list Z) :=
  wr m dst (replicate (Z.to_nat n) (Z.land val 255)).

(** [memcmp] of x86, on unsigned bytes. *)
Fixpoint memcmp (d1 d2 : list Z) (n : nat) : option Z :=
  match n with
  | O => Some 0
  | S n' =>
      match d1, d2 with
      | a :: d1', b :: d2' => if negb (a =? b) then Some (a - b) else memcmp d1' d2' n'
      | _, _ => None
      end
  end.

End Mem.
Export Mem.

(** ** [rand]: xorshift over four words *)
Module Rand.
Record state := RS { rx : Z; ry : Z; rz : Z; rw : Z }.
Definition init : state := RS 123456789 362436069 521288629 88675123.
Definition rand (s : state) : Z * state :=
  let t := Z.lxor (rx s) (u32 (Z.shiftl (rx s) 11)) in
  let w := Z.lxor (Z.lxor (Z.lxor (rw s) (Z.shiftr (rw s) 19)) t) (Z.shiftr t 8) in
  (i32 w, RS (ry s) (rz s) (rw s) w).
End Rand.

(** ** Lemmas *)
Section str_lemmas.
Implicit Types (s d l : list Z).

Lemma str_of_split s l : str_of s = Some l -> exists r, s = l ++ 0 :: r /\ Forall (fun c => c <> 0) l.
Proof.
  revert l. induction s as [|c s IH]; intros l; simpl; [done|]. case_if.
  - intros [= <-]. subst. by exists s.
  - intros (l' & Hl & ->)%fmap_Some. destruct (IH _ Hl) as (r & -> & Hf).
    exists r. split; [done|]. by constructor.
Qed.

Lemma str_of_app l r : Forall (fun c => c <> 0) l -> str_of (l ++ 0 :: r) = Some l.
Proof.
  induction 1 as [|c l Hc _ IH]; simpl; [done|].
  replace (c =? 0) with false by (symmetry; lia). by rewrite IH.
Qed.

Lemma strlen_str s l : str_of s = Some l -> strlen s = Some (len l).
Proof.
  revert l. induction s as [|c s IH]; intros l; simpl; [done|]. case_if; [by intros [= <-]|].
  intros (l' & Hl & ->)%fmap_Some. rewrite (IH _ Hl). simpl. f_equal. unfold len. simpl. lia.
Qed.

Lemma strcpy_str s l : str_of s = Some l -> forall d, (length l < length d)%nat ->
  strcpy d s = Some (l ++ 0 :: drop (S (length l)) d, len l).
Proof.
  revert l. induction s as [|c s IH]; intros l; simpl; [done|]. case_if.
  - intros [= <-] [|? d]; simpl; [lia|]. done.
  - intros (l' & Hl & ->)%fmap_Some [|? d] Hd; simpl in *; [lia|].
    rewrite (IH _ Hl) by lia. simpl. rewrite len_cons. do 2 f_equal. lia.
Qed.

Lemma strcat_str l r s : Forall (fun c => c <> 0) l ->
  strcat (l ++ 0 :: r) s = ('(d, o) ← strcpy (0 :: r) s; Some (l ++ d, len l + o)).
Proof.
  induction 1 as [|c l Hc _ IH].
  - simpl. by destruct (strcpy (0 :: r) s) as [[d o]|].
  - cbn [strcat app]. replace (c =? 0) with false by (symmetry; lia). rewrite IH.
    destruct (strcpy (0 :: r) s) as [[d o]|]; simpl; [|done]. rewrite len_cons. do 2 f_equal. lia.
Qed.

Lemma strncpy_fits s l : str_of s = Some l -> forall d n, (length l < n)%nat -> (length l < length d)%nat ->
  strncpy d s n = strcpy d s.
Proof.
  revert l. induction s as [|c s IH]; intros l; simpl; [done|]. case_if.
  - intros [= <-] d [|n]; simpl; [lia|done].
  - intros (l' & Hl & ->)%fmap_Some [|x d] [|n]; simpl; try lia. intros. by rewrite (IH _ Hl) by lia.
Qed.

Lemma strncpy_long s l : str_of s = Some l -> forall d n, (n < length l)%nat ->
  strncpy d s n = d' ← put1 (drop n d) 0; if (n <=? length d)%nat then Some (take n l ++ d', Z.of_nat n) else None.
Proof.
  revert l. induction s as [|c s IH]; intros l; simpl; [done|]. case_if; [intros [= <-] d n; simpl; lia|].
  intros (l' & Hl & ->)%fmap_Some d [|n] Hn; simpl in *.
  - rewrite drop_0. destruct d; simpl; done.
  - destruct d as [|x d]; simpl; [by rewrite ?drop_nil|].
    rewrite (IH _ Hl) by lia. destruct (put1 (drop n d) 0) as [d'|]; simpl; [|done].
    destruct (n <=? length d)%nat; simpl; [|done]. do 2 f_equal. lia.
Qed.

Lemma strncat_prefix l r s n : Forall (fun c => c <> 0) l ->
  strncat (l ++ 0 :: r) s n =
  ('(d, o) ← strncat_copy r s n; Some (l ++ 0 :: d, len l + 1 + o)).
Proof.
  induction 1 as [|c l Hc _ IH].
  - cbn [strncat app]. simpl. destruct (strncat_copy r s n) as [[d o]|]; simpl; [|done].
    do 2 f_equal. unfold len. simpl. lia.
  - cbn [strncat app]. replace (c =? 0) with false by (symmetry; lia). rewrite IH.
    destruct (strncat_copy r s n) as [[d o]|]; simpl; [|done]. rewrite len_cons. do 2 f_equal. lia.
Qed.

Lemma strcmp_str s1 s2 l1 l2 : str_of s1 = Some l1 -> str_of s2 = Some l2 ->
  exists v, strcmp s1 s2 = Some v /\ (v = 0 <-> l1 = l2).
Proof.
  revert s2 l1 l2. induction s1 as [|c1 s1 IH]; intros [|c2 s2] l1 l2; simpl; try done.
  destruct (c1 =? 0) eqn:E1, (c2 =? 0) eqn:E2; bools; simpl; subst.
  - intros [= <-] [= <-]. exists 0. done.
  - intros [= <-] (? & _ & ->)%fmap_Some. exists (0 - c2). split; [done|]. split; [lia|done].
  - intros (? & _ & ->)%fmap_Some [= <-]. destruct (c1 =? 0) eqn:?; bools; [lia|].
    exists (c1 - 0). split; [done|]. split; [lia|done].
  - intros (k1 & H1 & ->)%fmap_Some (k2 & H2 & ->)%fmap_Some. destruct (c1 =? c2) eqn:E; bools.
    + subst. destruct (IH _ _ _ H1 H2) as (v & Hv & Hiff). exists v. split; [done|].
      rewrite Hiff. split; congruence.
    + exists (c1 - c2). split; [done|]. split; [lia|]. intros [= ?]. lia.
Qed.
End str_lemmas.

Section mem_lemmas.
Context {A : Type}.
Implicit Types m : list A.

(** [m'] is [m] with the [n] bytes at [src] copied over those at [dst]. *)
Definition copied m (dst src n : Z) m' : Prop :=
  len m' = len m /\
  forall i, get m' i = if (dst <=? i) && (i <? dst + n) then get m (i - dst + src) else get m i.

Lemma memcpy_copied n : forall m dst src,
  0 <= dst -> 0 <= src -> dst + Z.of_nat n <= len m -> src + Z.of_nat n <= len m ->
  dst <= src \/ src + Z.of_nat n <= dst ->
  exists m', memcpy m dst src n = Some m' /\ copied m dst src (Z.of_nat n) m'.
Proof.
  induction n as [|n IH]; intros m dst src Hd Hs Hdn Hsn Ho; cbn [memcpy].
  - exists m. split; [done|]. split; [done|]. intros i. splits.
  - destruct (get_ok m src) as [c Hc]; [lia|]. rewrite Hc. simpl.
    destruct (set_ok m dst c) as (m1 & -> & Hl1 & Hg1); [lia|]. simpl.
    destruct (IH m1 (dst + 1) (src + 1)) as (m' & Hm' & Hl' & Hg'); [lia..|].
    exists m'. split; [done|]. split; [lia|]. intros i. rewrite Hg', !Hg1.
    destruct (decide (i = dst)) as [->|Hne].
    + replace (dst + 1 <=? dst) with false by (symmetry; lia). rewrite Z.eqb_refl. simpl.
      replace (dst - dst + src) with src by lia. splits.
    + replace (i =? dst) with false by (symmetry; lia).
      destruct (dst + 1 <=? i) eqn:E1, (i <? dst + 1 + Z.of_nat n) eqn:E2; bools; simpl.
      * replace (i - (dst + 1) + (src + 1) =? dst) with false by (symmetry; lia).
        replace (i - (dst + 1) + (src + 1)) with (i - dst + src) by lia. splits.
      * splits.
      * splits.
      * splits.
Qed.

Lemma move_down_copied n : forall m dst src,
  0 <= dst -> 0 <= src -> dst + Z.of_nat n <= len m -> src + Z.of_nat n <= len m -> src <= dst ->
  exists m', move_down m dst src n = Some m' /\ copied m dst src (Z.of_nat n) m'.
Proof.
  induction n as [|n IH]; intros m dst src Hd Hs Hdn Hsn Ho; cbn [move_down].
  - exists m. split; [done|]. split; [done|]. intros i. splits.
  - destruct (get_ok m (src + Z.of_nat n)) as [c Hc]; [lia|]. rewrite Hc. simpl.
    destruct (set_ok m (dst + Z.of_nat n) c) as (m1 & -> & Hl1 & Hg1); [lia|]. simpl.
    destruct (IH m1 dst src) as (m' & Hm' & Hl' & Hg'); [lia..|].
    exists m'. split; [done|]. split; [lia|]. intros i. rewrite Hg', !Hg1.
    destruct (dst <=? i) eqn:E1, (i <? dst + Z.of_nat n) eqn:E2; bools; simpl.
    + replace (i - dst + src =? dst + Z.of_nat n) with false by (symmetry; lia). splits.
    + destruct (i =? dst + Z.of_nat n) eqn:E3; bools.
      * subst i. rewrite <- Hc. splits.
      * splits.
    + splits.
    + splits.
Qed.

Lemma copied_wr m dst src n m' : 0 <= dst -> 0 <= src -> 0 <= n -> dst + n <= len m -> src + n <= len m ->
  copied m dst src n m' -> Some m' = wr m dst (sub src n m).
Proof.
  intros Hd Hs Hn Hdn Hsn [Hl Hg].
  assert (len (sub src n m) = n) as Hls by (apply len_sub; lia).
  destruct (get_wr m (sub src n m) dst) as (k & -> & Hlk & Hgk); [lia..|].
  f_equal. apply list_eq_get; [lia|]. intros i Hi. rewrite Hg, Hgk, Hls.
  destruct (dst <=? i) eqn:E1, (i <? dst + n) eqn:E2; bools; simpl; try done.
  rewrite get_sub by lia. f_equal. lia.
Qed.
Lemma memmove_wr m dest src n :
  0 <= dest -> 0 <= src -> 0 <= n -> dest + n <= len m -> src + n <= len m ->
  memmove m dest src n = wr m dest (sub src n m).
Proof.
  intros Hd Hs Hn Hdn Hsn. unfold memmove.
  destruct ((n =? 0) || (dest =? src)) eqn:E0.
  { apply copied_wr; try done. split; [done|]. intros i.
    apply orb_prop in E0 as [?|?]; bools; subst; splits. }
  apply orb_false_elim in E0 as [? ?]. bools.
  assert (forall c, (exists m', c = Some m' /\ copied m dest src (Z.of_nat (Z.to_nat n)) m') ->
    c = wr m dest (sub src n m)) as Hc.
  { intros c (m' & -> & Hc). rewrite Z2Nat.id in Hc by lia. by apply copied_wr. }
  repeat case_if; apply Hc; first [apply memcpy_copied; lia | apply move_down_copied; lia].
Qed.
End mem_lemmas.

(** ** Properties *)
Module StrProps.

(** [memmove] copies the [n] bytes at [src] as they were before the call, whether or
    not the ranges overlap and in whichever direction, and changes nothing else. *)
Theorem memmove_copies (m : list Z) dest src n :
  0 <= dest -> 0 <= src -> 0 <= n -> dest + n <= len m -> src + n <= len m ->
  memmove m dest src n = wr m dest (sub src n m).
Proof. apply memmove_wr. Qed.

Lemma memmove_copies_witness : memmove [1; 2; 3; 4; 5] 1 0 3 = Some [1; 1; 2; 3; 5].
Proof. rewrite (memmove_copies [1; 2; 3; 4; 5] 1 0 3); vm_compute; done. Defined.

(** With room for the result, [strcpy] stores the source string and its terminator and keeps the rest
    of the buffer; [strcat] appends it to the string in the buffer; both return the position of the
    terminator; and [strcmp] is 0 exactly on equal strings. *)
Theorem string_ops d s ld ls : str_of d = Some ld -> str_of s = Some ls ->
  (len ld + len ls < len d)%Z ->
  strcpy d s = Some (ls ++ 0 :: drop (S (length ls)) d, len ls) /\
  strcat d s = Some (ld ++ ls ++ 0 :: drop (S (length ld + length ls)) d, len ld + len ls) /\
  exists v, strcmp d s = Some v /\ (v = 0 <-> ld = ls).
Proof.
  intros Hd Hs Hlen. unfold len in Hlen. split_and!.
  - apply strcpy_str; [done|lia].
  - destruct (str_of_split _ _ Hd) as (r & -> & Hf). rewrite strcat_str by done.
    rewrite length_app in Hlen. rewrite (strcpy_str _ _ Hs) by lia. simpl. do 4 f_equal.
    rewrite drop_app_ge by lia. by replace (S (length ld + length ls) - length ld)%nat with (S (length ls)) by lia.
  - by apply strcmp_str.
Qed.

Lemma string_ops_witness : strcat [104; 0; 9; 9; 9] [105; 33; 0] = Some ([104; 105; 33; 0; 9], 3).
Proof.
  destruct (string_ops [104; 0; 9; 9; 9] [105; 33; 0] [104] [105; 33]) as (_ & H & _);
    [reflexivity|reflexivity|reflexivity|exact H].
Defined.

(** [strncpy] with a source longer than [max] stores [max] characters and then a
    terminator: into a buffer of exactly [max] characters that is a store past its end, and with one more
    character of room it lands at index [max]. *)
Theorem strncpy_overruns s l d max : str_of s = Some l -> (max < length l)%nat ->
  (length d = max -> strncpy d s max = None) /\
  (forall x, length d = max -> strncpy (d ++ [x]) s max = Some (take max l ++ [0], Z.of_nat max)).
Proof.
  intros Hs Hm. split.
  - intros Hd. rewrite (strncpy_long _ _ Hs) by done. rewrite <- Hd, drop_all. done.
  - intros x Hd. rewrite (strncpy_long _ _ Hs) by done. rewrite <- Hd, drop_app_length.
    simpl. rewrite length_app. replace (_ <=? _)%nat with true by (symmetry; apply Nat.leb_le; lia). done.
Qed.

Lemma strncpy_overruns_witness : strncpy [7; 7] [65; 66; 67; 0] 2 = None.
Proof.
  apply (proj1 (strncpy_overruns [65; 66; 67; 0] [65; 66; 67] [7; 7] 2 eq_refl ltac:(simpl; lia))).
  reflexivity.
Defined.

(** [strncat] never changes the string in the buffer: it skips one past the terminator and writes
    there, so what it appends is not part of the string. *)
Theorem strncat_appends_nothing d s n ld d' o :
  str_of d = Some ld -> strncat d s n = Some (d', o) -> str_of d' = Some ld.
Proof.
  intros Hd. destruct (str_of_split _ _ Hd) as (r & -> & Hf). rewrite strncat_prefix by done.
  destruct (strncat_copy r s n) as [[k p]|]; simpl; [|done]. intros [= <- _]. by apply str_of_app.
Qed.

Lemma strncat_appends_nothing_witness :
  strncat [104; 0; 9; 9; 9] [105; 0] 5 = Some ([104; 0; 105; 0; 9], 3) /\
  str_of [104; 0; 105; 0; 9] = Some [104].
Proof.
  split; [reflexivity|].
  apply (strncat_appends_nothing [104; 0; 9; 9; 9] [105; 0] 5 [104] _ 3); reflexivity.
Defined.
End StrProps.
