(* ===== verification/Arith.v ===== *)
(** * Arithmetic helpers
    ([KernelLand/Kernel/arch/x86/lib.c], [arch/helpers.h], [KernelLand/Kernel/lib.c])

    64-bit division on a 32-bit CPU by shift and subtract with its fast paths,
    byte order conversion, checksum and rounding helpers, and their equivalence
    with the mathematical operations. *)
From S2P Require Import Prelude.
Local Open Scope Z_scope.

(** ** Division *)

(** [while(N/2>=D&&add) {D<<=1;add<<=1;}] *)
Fixpoint divmod_grow (fuel : nat) (N D add : Z) : option (Z * Z) :=
  match fuel with
  | O => None
  | S fuel' =>
      if (D <=? N / 2) && negb (add =? 0)
      then divmod_grow fuel' N (u64 (Z.shiftl D 1)) (u64 (Z.shiftl add 1))
      else Some (D, add)
  end.

(** [while(add>0){ if(N>=D){ret+=add;N-=D;} add>>=1;D>>=1; }] *)
Fixpoint divmod_shrink (fuel : nat) (N D add ret : Z) : option (Z * Z) :=
  match fuel with
  | O => None
  | S fuel' =>
      if 0 <? add then
        let '(N', ret') := if D <=? N then (N - D, u64 (ret + add)) else (N, ret) in
        divmod_shrink fuel' N' (Z.shiftr D 1) (Z.shiftr add 1) ret'
      else Some (ret, N)
  end.

(** [add] is shifted at most 64 times each way. *)
Definition __divmod64 (N D : Z) : option (Z * Z) :=
  '(D', add) ← divmod_grow 66 N D 1; divmod_shrink 66 N D' add 0.

Definition DivMod64U (Num Div : Z) : option (Z * Z) :=
  if Div =? 16 then Some (Z.shiftr Num 4, Z.land Num 15) else
  if (Div <? 0x100000000) && (Num <? u64 (0xFFFFFFFF * Div)) then
    (* the DIV instruction, which faults on a zero divisor or a quotient over 32 bits *)
    if (Div =? 0) || (0x100000000 <=? Num / Div) then None
    else Some (Num / Div, Num mod Div)
  else __divmod64 Num Div.

Definition __udivdi3 (Num Den : Z) : option Z :=
  if Den =? 0 then None else
  if (Num <=? 0xFFFFFFFF) && (Den <=? 0xFFFFFFFF) then Some (Num / Den) else
  if Den =? 1 then Some Num else
  if Den =? 2 then Some (Z.shiftr Num 1) else
  if Den =? 4 then Some (Z.shiftr Num 2) else
  if Den =? 8 then Some (Z.shiftr Num 3) else
  if Den =? 16 then Some (Z.shiftr Num 4) else
  if Den =? 32 then Some (Z.shiftr Num 5) else
  if Den =? 1024 then Some (Z.shiftr Num 10) else
  if Den =? 2048 then Some (Z.shiftr Num 11) else
  if Den =? 4096 then Some (Z.shiftr Num 12) else
  if Num <? Den then Some 0 else
  if Num <? u64 (Den * 2) then Some 1 else
  if Num =? u64 (Den * 2) then Some 2 else
  fst <$> __divmod64 Num Den.

Definition __umoddi3 (Num Den : Z) : option Z :=
  if Den =? 0 then None else
  if Den =? 1 then Some 0 else
  if Den =? 2 then Some (Z.land Num 1) else
  if Den =? 4 then Some (Z.land Num 3) else
  if Den =? 8 then Some (Z.land Num 7) else
  if Den =? 16 then Some (Z.land Num 15) else
  if Den =? 32 then Some (Z.land Num 31) else
  if Den =? 1024 then Some (Z.land Num 1023) else
  if Den =? 2048 then Some (Z.land Num 2047) else
  if Den =? 4096 then Some (Z.land Num 4095) else
  if (Z.shiftr Num 32 =? 0) && (Z.shiftr Den 32 =? 0) then Some (Num mod Den) else
  snd <$> __divmod64 Num Den.

(** [DivMod64] of lib.c: the quotient's sign is restored, the remainder is that
    of the absolute values. *)
Definition DivMod64 (N D : Z) : option (Z * Z) :=
  let sign := xorb (N <? 0) (D <? 0) in
  let N := if N <? 0 then i64 (- N) else N in
  let D := if D <? 0 then i64 (- D) else D in
  '(q, r) ← DivMod64U (u64 N) (u64 D);
  Some (if sign then i64 (- q) else i64 q, i64 r).

(** ** Small helpers of lib.c *)
Fixpoint ByteSum (data : list Z) (Size : nat) (sum : Z) : option Z :=
  match Size with
  | O => Some sum
  | S n => match data with [] => None | b :: data' => ByteSum data' n (u8 (sum + b)) end
  end.

(** C division truncates towards zero. *)
Definition DivUp (num dem : Z) : option Z :=
  if dem =? 0 then None else Some (Z.quot (i32 (num + dem - 1)) dem).

Definition SwapEndian16 (Val : Z) : Z :=
  u16 (Z.lor (Z.shiftl (Z.land Val 0xFF) 8) (Z.land (Z.shiftr Val 8) 0xFF)).
Definition SwapEndian32 (Val : Z) : Z :=
  u32 (Z.lor (Z.lor (Z.lor (Z.shiftl (Z.land Val 0xFF) 24) (Z.shiftl (Z.land Val 0xFF00) 8))
         (Z.land (Z.shiftr Val 8) 0xFF00)) (Z.land (Z.shiftr Val 24) 0xFF)).
Definition SwapEndian64 (Val : Z) : Z :=
  u64 (Z.lor (SwapEndian32 (u32 (Z.shiftr Val 32))) (Z.shiftl (SwapEndian32 (u32 Val)) 32)).

(** ** Correctness of division *)
Section division.

Lemma divmod_grow_spec fuel : forall k N D,
  0 < D -> 0 <= N < 2 ^ 64 -> 0 <= k -> D * 2 ^ k <= N \/ k = 0 -> 64 - k < Z.of_nat fuel ->
  exists j, 0 <= j /\ divmod_grow fuel N (D * 2 ^ k) (2 ^ k) = Some (D * 2 ^ j, 2 ^ j) /\
    N < D * 2 ^ (j + 1) /\ j < 64.
Proof.
  induction fuel as [|fuel IH]; intros k N D HD HN Hk Hinv Hf.
  { assert (2 ^ 64 <= 2 ^ k) by (apply Z.pow_le_mono_r; lia). nia. }
  cbn [divmod_grow]. assert (0 < 2 ^ k) by (apply Z.pow_pos_nonneg; lia).
  assert (k < 64) as Hk64.
  { destruct (decide (k < 64)); [done|]. assert (2 ^ 64 <= 2 ^ k) by (apply Z.pow_le_mono_r; lia). nia. }
  replace (2 ^ k =? 0) with false by (symmetry; lia). rewrite andb_true_r. case_if.
  - assert (2 * (D * 2 ^ k) <= N) by dlia.
    rewrite !Z.shiftl_mul_pow2 by lia. change (2 ^ 1) with 2.
    replace (2 ^ k * 2) with (2 ^ (k + 1)) by (rewrite Z.pow_add_r by lia; lia).
    replace (D * 2 ^ k * 2) with (D * 2 ^ (k + 1)) by (rewrite Z.pow_add_r by lia; lia).
    assert (D * 2 ^ (k + 1) <= N) by (rewrite Z.pow_add_r by lia; lia).
    assert (0 < 2 ^ (k + 1)) by (apply Z.pow_pos_nonneg; lia).
    rewrite !u64_small by nia. apply IH; try lia.
  - exists k. split; [done|]. split; [done|]. split; [|done].
    rewrite Z.pow_add_r by lia. change (2 ^ 1) with 2. dlia.
Qed.

Lemma divmod_shrink_done fuel N D ret : (0 < fuel)%nat -> divmod_shrink fuel N D 0 ret = Some (ret, N).
Proof. destruct fuel; [lia|done]. Qed.

Lemma divmod_shrink_spec (n : nat) : forall fuel N D ret, 0 < D -> 0 <= N < D * 2 ^ Z.of_nat (S n) ->
  0 <= ret -> ret + N / D < 2 ^ 64 -> (S n < fuel)%nat ->
  divmod_shrink fuel N (D * 2 ^ Z.of_nat n) (2 ^ Z.of_nat n) ret = Some (ret + N / D, N mod D).
Proof.
  induction n as [|n IH]; intros [|fuel] N D ret HD HN Hr Hb Hf; try lia.
  - cbn [divmod_shrink]. change (2 ^ Z.of_nat 0) with 1 in *. change (2 ^ Z.of_nat 1) with 2 in *.
    rewrite !Z.mul_1_r. change (0 <? 1) with true. cbv iota. change (Z.shiftr 1 1) with 0.
    destruct (D <=? N) eqn:E; bools.
    + assert (N / D = 1) as Hq by (symmetry; apply (Z.div_unique N D 1 (N - D)); lia).
      assert (N mod D = N - D) as Hm by (rewrite Z.mod_eq, Hq by lia; lia).
      rewrite u64_small by lia. rewrite divmod_shrink_done by lia. by rewrite Hq, Hm.
    + rewrite divmod_shrink_done by lia. rewrite Z.div_small, Z.mod_small by lia. do 2 f_equal. lia.
  - cbn [divmod_shrink].
    assert (0 < 2 ^ Z.of_nat n) as Hp by (apply Z.pow_pos_nonneg; lia).
    assert (2 ^ Z.of_nat (S n) = 2 * 2 ^ Z.of_nat n) as HS
      by (rewrite Nat2Z.inj_succ, Z.pow_succ_r by lia; lia).
    assert (2 ^ Z.of_nat (S (S n)) = 4 * 2 ^ Z.of_nat n) as HSS
      by (rewrite 2!Nat2Z.inj_succ, !Z.pow_succ_r by lia; lia).
    rewrite HS, HSS in *. replace (0 <? 2 * 2 ^ Z.of_nat n) with true by (symmetry; lia).
    set (P := 2 ^ Z.of_nat n) in *.
    rewrite !Z.shiftr_div_pow2 by lia. change (2 ^ 1) with 2.
    replace (D * (2 * P) / 2) with (D * P)
      by (replace (D * (2 * P)) with (D * P * 2) by lia; by rewrite Z.div_mul by lia).
    replace (2 * P / 2) with P by (rewrite Z.mul_comm, Z.div_mul by lia; done).
    destruct (D * (2 * P) <=? N) eqn:E; bools.
    + assert (N / D = 2 * P + (N - D * (2 * P)) / D) as Hq.
      { replace N with (N - D * (2 * P) + (2 * P) * D) at 1 by lia. rewrite Z.div_add by lia. lia. }
      assert (N mod D = (N - D * (2 * P)) mod D) as Hm.
      { replace N with (N - D * (2 * P) + (2 * P) * D) at 1 by lia. by rewrite Z.mod_add by lia. }
      assert (0 <= (N - D * (2 * P)) / D) by (apply Z.div_pos; lia).
      assert (ret + 2 * P + (N - D * (2 * P)) / D < 2 ^ 64) by lia.
      rewrite u64_small by (change (2 ^ 64) with 18446744073709551616 in *; lia).
      rewrite IH; [|done|clear Hq Hm; lia|lia|done|lia].
      rewrite Hq, Hm. do 2 f_equal. clear. lia.
    + apply IH; [done|fold P; lia|done|done|lia].
Qed.

Lemma divmod64_spec N D : 0 < D -> 0 <= N < 2 ^ 64 -> __divmod64 N D = Some (N / D, N mod D).
Proof.
  intros HD HN. unfold __divmod64.
  destruct (divmod_grow_spec 66 0 N D) as (j & Hj & Hg & HNj & Hj64); [lia..|].
  change (2 ^ 0) with 1 in Hg. rewrite Z.mul_1_r in Hg. rewrite Hg. cbn [mbind option_bind].
  rewrite <- (Z2Nat.id j) by lia. rewrite divmod_shrink_spec; [done|lia| |lia| |lia].
  - rewrite Nat2Z.inj_succ, Z2Nat.id by lia. unfold Z.succ. lia.
  - assert (N / D <= N) by (apply Z.div_le_upper_bound; nia). lia.
Qed.

Lemma divmod64U_spec N D : 0 < D -> 0 <= N < 2 ^ 64 -> DivMod64U N D = Some (N / D, N mod D).
Proof.
  intros HD HN. unfold DivMod64U. case_if.
  - subst. rewrite Z.shiftr_div_pow2 by lia. change 15 with (2 ^ 4 - 1). rewrite land_low by lia. done.
  - case_if; [|by apply divmod64_spec].
    replace (D =? 0) with false by (symmetry; lia). cbn [orb].
    assert (N / D < 4294967296) as Hq.
    { apply Z.div_lt_upper_bound; [lia|]. rewrite u64_small in *; lia. }
    replace (0x100000000 <=? N / D) with false by (symmetry; lia). done.
Qed.
End division.

(** ** Byte order *)
Section swap.

Lemma SwapEndian16_bytes v : 0 <= v < 0x10000 -> SwapEndian16 v = (v mod 256) * 256 + v / 256.
Proof.
  intros Hv. unfold SwapEndian16. change 0xFF with (2 ^ 8 - 1). rewrite !land_low by lia.
  rewrite Z.shiftl_mul_pow2, Z.shiftr_div_pow2 by lia. change (2 ^ 8) with 256.
  rewrite (lor_add _ _ 8) by dlia. dlia.
Qed.

Lemma SwapEndian16_twice v : 0 <= v < 0x10000 -> SwapEndian16 (SwapEndian16 v) = v.
Proof.
  intros Hv. rewrite (SwapEndian16_bytes v) by done.
  assert (0 <= v mod 256 < 256 /\ 0 <= v / 256 < 256) as [Ha Hb] by dlia.
  assert (v = v / 256 * 256 + v mod 256) as Hw by dlia.
  rewrite SwapEndian16_bytes by lia. revert Ha Hb Hw. generalize (v mod 256), (v / 256). intros. dlia.
Qed.

Lemma SwapEndian32_bytes v : 0 <= v < 0x100000000 ->
  SwapEndian32 v = (v mod 256) * 16777216 + (v / 256 mod 256) * 65536
                   + (v / 65536 mod 256) * 256 + v / 16777216.
Proof.
  intros Hv. unfold SwapEndian32. change 0xFF00 with ((2 ^ 8 - 1) * 2 ^ 8). change 0xFF with (2 ^ 8 - 1).
  rewrite !land_low, !land_field by lia.
  rewrite !Z.shiftl_mul_pow2, !Z.shiftr_div_pow2 by lia. rewrite Z.div_div by lia.
  change (2 ^ 24) with 16777216. change (2 ^ 8 * 2 ^ 8) with 65536. change (2 ^ 8) with 256.
  rewrite (lor_add (v mod 256 * 16777216) _ 24) by dlia.
  rewrite (lor_add _ (v / 65536 mod 256 * 256) 16) by dlia.
  rewrite (lor_add _ (v / 16777216 mod 256) 8) by dlia. dlia.
Qed.

Lemma SwapEndian32_range v : 0 <= v < 0x100000000 -> 0 <= SwapEndian32 v < 0x100000000.
Proof. intros. apply u32_range. Qed.

Lemma bytes_of_word a b c d :
  0 <= a < 256 -> 0 <= b < 256 -> 0 <= c < 256 -> 0 <= d < 256 ->
  let w := a * 16777216 + b * 65536 + c * 256 + d in
  w mod 256 = d /\ w / 256 mod 256 = c /\ w / 65536 mod 256 = b /\ w / 16777216 = a.
Proof. intros Ha Hb Hc Hd w. unfold w. split_and!; dlia. Qed.

Lemma word_bytes v : 0 <= v < 0x100000000 ->
  v = v / 16777216 * 16777216 + v / 65536 mod 256 * 65536 + v / 256 mod 256 * 256 + v mod 256.
Proof. intros. dlia. Qed.

Lemma SwapEndian32_twice v : 0 <= v < 0x100000000 -> SwapEndian32 (SwapEndian32 v) = v.
Proof.
  intros Hv. rewrite SwapEndian32_bytes by (by apply SwapEndian32_range).
  rewrite SwapEndian32_bytes by done.
  destruct (bytes_of_word (v mod 256) (v / 256 mod 256) (v / 65536 mod 256) (v / 16777216))
    as (-> & -> & -> & ->); [dlia..|]. symmetry. by apply word_bytes.
Qed.

Lemma SwapEndian64_words v : 0 <= v < 0x10000000000000000 ->
  SwapEndian64 v = SwapEndian32 (v mod 0x100000000) * 0x100000000 + SwapEndian32 (v / 0x100000000).
Proof.
  intros Hv. unfold SwapEndian64. rewrite Z.shiftr_div_pow2, Z.shiftl_mul_pow2 by lia.
  change (2 ^ 32) with 4294967296.
  rewrite (u32_small (v / 4294967296)) by dlia. change (u32 v) with (v mod 4294967296).
  pose proof (SwapEndian32_range (v mod 4294967296) ltac:(dlia)).
  pose proof (SwapEndian32_range (v / 4294967296) ltac:(dlia)).
  rewrite Z.lor_comm, (lor_add _ _ 32); [apply u64_small; lia|lia|by apply Z.mod_mul|lia].
Qed.

Lemma word_pair a b : 0 <= b < 0x100000000 ->
  (a * 0x100000000 + b) mod 0x100000000 = b /\ (a * 0x100000000 + b) / 0x100000000 = a.
Proof. intros. split; dlia. Qed.
End swap.

(** ** Theorems *)
Module ArithProps.

(** The shift-and-subtract division, its hardware fast path and the compiler
    support routines built on it terminate and compute the quotient and the remainder, for every 64-bit
    dividend and every non-zero 64-bit divisor. *)
Theorem division_correct Num Den : 0 <= Num < 2 ^ 64 -> 0 < Den < 2 ^ 64 ->
  __divmod64 Num Den = Some (Num / Den, Num mod Den) /\
  DivMod64U Num Den = Some (Num / Den, Num mod Den) /\
  __udivdi3 Num Den = Some (Num / Den) /\
  __umoddi3 Num Den = Some (Num mod Den).
Proof.
  intros HN HD. split; [apply divmod64_spec; lia|]. split; [apply divmod64U_spec; lia|]. split.
  - unfold __udivdi3. repeat case_if; subst; try lia; try done;
      try (by rewrite Z.shiftr_div_pow2 by lia); try (by rewrite ?Z.div_1_r).
    + by rewrite Z.div_small by lia.
    + f_equal. apply (Z.div_unique _ _ 1 (Num - Den)); unfold u64 in *; dlia.
    + f_equal. unfold u64 in *. apply (Z.div_unique _ _ 2 0); dlia.
    + by rewrite divmod64_spec by lia.
  - unfold __umoddi3. repeat case_if; subst; try lia; try (by rewrite Z.mod_1_r);
      try (match goal with |- Some (Z.land _ ?m) = Some (_ mod ?d) =>
             change m with (2 ^ Z.log2 d - 1); rewrite land_low by (vm_compute; done); done end).
    + done.
    + by rewrite divmod64_spec by lia.
Qed.

Lemma division_correct_witness : DivMod64U 0xFEDCBA9876543210 12345 = Some (1487627261603326, 5250).
Proof.
  destruct (division_correct 0xFEDCBA9876543210 12345) as (_ & H & _); [lia|lia|]. rewrite H. vm_compute. reflexivity.
Defined.

(** The byte-order conversions are involutions on their widths, and agree with the reversal of
    the bytes. *)
Theorem SwapEndian_involutive v :
  (0 <= v < 2 ^ 16 -> SwapEndian16 (SwapEndian16 v) = v /\ SwapEndian16 v = (v mod 256) * 256 + v / 256) /\
  (0 <= v < 2 ^ 32 -> SwapEndian32 (SwapEndian32 v) = v) /\
  (0 <= v < 2 ^ 64 -> SwapEndian64 (SwapEndian64 v) = v).
Proof.
  split_and!; intros Hv.
  - split; [by apply SwapEndian16_twice|by apply SwapEndian16_bytes].
  - by apply SwapEndian32_twice.
  - rewrite (SwapEndian64_words v) by lia.
    pose proof (SwapEndian32_range (v mod 4294967296) ltac:(dlia)).
    pose proof (SwapEndian32_range (v / 4294967296) ltac:(dlia)).
    rewrite SwapEndian64_words by lia.
    destruct (word_pair (SwapEndian32 (v mod 4294967296)) (SwapEndian32 (v / 4294967296)))
      as [-> ->]; [done|]. rewrite !SwapEndian32_twice by dlia. dlia.
Qed.

Lemma SwapEndian_involutive_witness : SwapEndian32 (SwapEndian32 0x12345678) = 0x12345678.
Proof. apply (proj1 (proj2 (SwapEndian_involutive 0x12345678))). lia. Defined.
End ArithProps.
