(* ===== verification/Number.v ===== *)
(** * Numbers and text
    ([Usermode/Libraries/libc.so_src/strtoi.c], which libc.c includes, and [ParseInt],
    [itoa] of [KernelLand/Kernel/libc.c])

    Strings as in [CString]; an end pointer is the rest of the string from there.
    [errno] is what the call leaves in it, [None] when it does not write it. *)
From S2P Require Import Prelude CString Arith.
Local Open Scope Z_scope.

(** ** strtoi.c *)
Inductive errno_t := EINVAL | ERANGE.
#[export] Instance errno_eq : EqDecision errno_t.
Proof. solve_decision. Defined.

Abbreviation ULLONG_MAX := 18446744073709551615 (only parsing).
Abbreviation LLONG_MAX := 9223372036854775807 (only parsing).
Abbreviation LLONG_MIN := (-9223372036854775808) (only parsing).
Abbreviation ULONG_MAX := 4294967295 (only parsing).
Abbreviation LONG_MAX := 2147483647 (only parsing).
Abbreviation LONG_MIN := (-2147483648) (only parsing).

(** [while( isspace( *str) ) str++;] *)
Fixpoint skip_spaces (str : list Z) : option (list Z) :=
  match str with
  | [] => None
  | c :: str' => if isspace c then skip_spaces str' else Some str
  end.

(** The value of a digit in [base], -1 for any other character. *)
Definition digit_value (base c : Z) : Z :=
  if base <=? 10 then
    if (c_0 <=? c) && (c <=? c_0 + base - 1) then c - c_0 else -1
  else
    let next := if (c_0 <=? c) && (c <=? c_9) then c - c_0 else -1 in
    let next := if (c_A <=? c) && (c <=? c_A + base - 10 - 1) then c - c_A + 10 else next in
    if (c_a <=? c) && (c <=? c_a + base - 10 - 1) then c - c_a + 10 else next.

Fixpoint strtoull_loop (base max_before space_above : Z) (str : list Z) (ret : Z) (err : option errno_t)
  : option (Z * list Z * option errno_t) :=
  match str with
  | [] => None
  | c :: str' =>
      if c =? 0 then Some (ret, str, err) else
      let next := digit_value base c in
      if next <? 0 then Some (ret, str, err) else
      if ret =? ULLONG_MAX then strtoull_loop base max_before space_above str' ret (Some ERANGE) else
      if (max_before <=? ret) && (space_above <? u64 (u64 ((ret - max_before) * base) + next))
      then strtoull_loop base max_before space_above str' ULLONG_MAX (Some ERANGE)
      else strtoull_loop base max_before space_above str' (u64 (u64 (ret * base) + next)) err
  end.

(** The prefix "0x" counts only when a hexadecimal digit follows. *)
Definition hex_prefix (str : list Z) : option bool :=
  c0 ← str !! 0%nat;
  if negb (c0 =? c_0) then Some false else
  c1 ← str !! 1%nat;
  if negb ((c1 =? c_x) || (c1 =? c_X)) then Some false else
  c2 ← str !! 2%nat;
  Some (isxdigit c2).

Definition strtoull (str : option (list Z)) (base : Z) : option (Z * option (list Z) * option errno_t) :=
  match str with
  | None => Some (0, None, Some EINVAL)
  | Some str =>
      if (base <? 0) || (36 <? base) || (base =? 1) then Some (0, Some str, Some EINVAL) else
      str ← skip_spaces str;
      hex ← (if (base =? 0) || (base =? 16) then hex_prefix str else Some false);
      let '(str, base) := if (hex : bool) then (drop 2 str, 16) else (str, base) in
      c0 ← str !! 0%nat;
      let '(str, base) := if (base =? 0) && (c0 =? c_0) then (drop 1 str, 8) else (str, base) in
      let base := if base =? 0 then 10 else base in
      let max_before := ULLONG_MAX / base in
      let space_above := u32 (ULLONG_MAX - max_before * base) in
      '(ret, end_, err) ← strtoull_loop base max_before space_above str 0 None;
      Some (ret, Some end_, err)
  end.

Definition strtoul (str : option (list Z)) (base : Z) : option (Z * option (list Z) * option errno_t) :=
  '(tmp, end_, err) ← strtoull str base;
  if ULONG_MAX <? tmp then Some (ULONG_MAX, end_, Some ERANGE) else Some (tmp, end_, err).

(** The end pointer is written by [strtoull], except after a bare sign and for NULL. *)
Definition strtoll (str : option (list Z)) (base : Z) : option (Z * option (list Z) * option errno_t) :=
  match str with
  | None => Some (0, None, Some EINVAL)
  | Some str =>
      str ← skip_spaces str;
      c0 ← str !! 0%nat;
      let sign := (c0 =? cMINUS) || (c0 =? cPLUS) in
      ok ← (if sign then c1 ← str !! 1%nat; Some (isdigit c1) else Some true);
      if negb ok then Some (0, Some str, None) else
      let neg := sign && (c0 =? cMINUS) in
      let str := if sign then drop 1 str else str in
      '(ret, end_, err) ← strtoull (Some str) base;
      if neg then
        if u64 (ret + 0x8000000000000000) <? ret then Some (LLONG_MIN, end_, Some ERANGE)
        else Some (i64 (- ret), end_, err)
      else
        if LLONG_MAX <? ret then Some (LLONG_MAX, end_, Some ERANGE)
        else Some (ret, end_, err)
  end.

(** [strtol], [atoi] and [atol] clamp in the same way: [long] and [int] are 32 bits. *)
Definition clamp32 (tmp : Z) : Z := if LONG_MAX <? tmp then LONG_MAX else LONG_MIN.

Definition strtol (str : option (list Z)) (base : Z) : option (Z * option (list Z) * option errno_t) :=
  '(tmp, end_, err) ← strtoll str base;
  if (LONG_MAX <? tmp) || (tmp <? LONG_MIN) then Some (clamp32 tmp, end_, Some ERANGE)
  else Some (tmp, end_, err).

Definition atoi (str : option (list Z)) : option (Z * option errno_t) :=
  '(tmp, _, err) ← strtoll str 0;
  if (LONG_MAX <? tmp) || (tmp <? LONG_MIN) then Some (clamp32 tmp, Some ERANGE)
  else Some (tmp, err).

Definition atol (str : option (list Z)) : option (Z * option errno_t) :=
  '(tmp, _, err) ← strtoll str 0;
  if (LONG_MAX <? tmp) || (tmp <? LONG_MIN) then Some (clamp32 tmp, Some ERANGE)
  else Some (tmp, err).

Definition atoll (str : option (list Z)) : option (Z * option errno_t) :=
  '(tmp, _, err) ← strtoll str 0; Some (tmp, err).

(** ** [ParseInt] *)

(** [while( !stop( *string) ) string++], counting the characters passed. *)
Fixpoint skip_to (stop : Z -> bool) (str : list Z) (n : Z) : option (list Z * Z) :=
  match str with
  | [] => None
  | c :: str' => if stop c then Some (str, n) else skip_to stop str' (n + 1)
  end.

(** [for( ; dig( *string); string++ ) { ret *= base; ret += ...; }] in [int]s. *)
Fixpoint eat_digits (dig : Z -> option Z) (base : Z) (str : list Z) (ret n : Z) : option (Z * Z) :=
  match str with
  | [] => None
  | c :: str' =>
      match dig c with
      | Some d => eat_digits dig base str' (i32 (i32 (ret * base) + d)) (n + 1)
      | None => Some (ret, n)
      end
  end.

Definition dec_digit (c : Z) : option Z := if (c_0 <=? c) && (c <=? c_9) then Some (c - c_0) else None.
Definition oct_digit (c : Z) : option Z := if (c_0 <=? c) && (c <=? c_7) then Some (c - c_0) else None.
Definition hex_digit (c : Z) : option Z :=
  if (c_0 <=? c) && (c <=? c_9) then Some (c - c_0) else
  if (c_A <=? c) && (c <=? c_F) then Some (c - c_A + 10) else
  if (c_a <=? c) && (c <=? c_f) then Some (c - c_a + 10) else None.

(** The number of characters used and the value, if one is stored. *)
Definition ParseInt (string : list Z) : option (Z * option Z) :=
  '(str, n) ← skip_to (fun c => isdigit c || (c =? cMINUS)) string 0;
  c ← str !! 0%nat;
  let bNeg := c =? cMINUS in
  '(str, n) ← (if bNeg then skip_to isdigit str n else Some (str, n));
  c ← str !! 0%nat;
  '(r, dec) ← (if c =? c_0 then
      let str := drop 1 str in
      c1 ← str !! 0%nat;
      r ← (if c1 =? c_x then eat_digits hex_digit 16 (drop 1 str) 0 (n + 2)
           else eat_digits oct_digit 8 str 0 (n + 1));
      Some (r, false)
    else r ← eat_digits dec_digit 10 str 0 n; Some (r, true));
  let '(ret, n) := r in
  if dec && (ret =? 0) then Some (0, None) else
  let ret := if bNeg then i32 (- ret) else ret in
  Some (n, Some ret).

(** ** [itoa] *)
Definition cUCDIGITS : list Z := [48; 49; 50; 51; 52; 53; 54; 55; 56; 57; 65; 66; 67; 68; 69; 70].

(** [while(num > base-1) ...]: the digits from the lowest up, the last one for
    the remaining [num]; [tmpBuf] has room for 65. *)
Fixpoint itoa_digits (fuel : nat) (num base : Z) : option (list Z) :=
  match fuel with
  | O => None
  | S fuel' =>
      if base - 1 <? num then
        '(num', rem) ← DivMod64U num base;
        if negb (rem <? base) then None else
        c ← get cUCDIGITS rem;
        (cons c) <$> itoa_digits fuel' num' base
      else c ← get cUCDIGITS num; Some [c]
  end.

(** Padding, digits from the highest down, terminator; [None] past the end of
    [buf] as for a failed assertion.  A base out of range leaves the empty
    string. *)
Definition itoa (buf : list Z) (num base minLength pad : Z) : option (list Z) :=
  buf ← set buf 0 0;
  if (base <? 2) || (16 <? base) then Some buf else
  tmp ← itoa_digits 65 num base;
  wr buf 0 (replicate (Z.to_nat (minLength - len tmp)) pad ++ reverse tmp ++ [0]).

(** ** The value of a digit string *)
Section digits.
Implicit Types (cs ds : list Z).

Definition value (base : Z) (cs : list Z) (acc : Z) : Z :=
  fold_left (fun a c => a * base + digit_value base c) cs acc.

Lemma value_app base cs ds acc : value base (cs ++ ds) acc = value base ds (value base cs acc).
Proof. apply fold_left_app. Qed.

Definition is_digit (base c : Z) : Prop := c <> 0 /\ 0 <= digit_value base c.

Lemma value_ge base cs acc : 1 <= base -> 0 <= acc -> Forall (is_digit base) cs -> acc <= value base cs acc.
Proof.
  intros Hb Ha Hf. revert acc Ha. induction Hf as [|c cs [_ Hc] _ IH]; intros acc Ha; simpl; [lia|].
  assert (acc * base + digit_value base c <= value base cs (acc * base + digit_value base c))
    by (apply IH; nia). unfold value in *. nia.
Qed.

Lemma strtoull_loop_value base cs rest err : 2 <= base <= 36 -> Forall (is_digit base) cs ->
  forall acc, 0 <= acc -> value base cs acc <= ULLONG_MAX ->
  strtoull_loop base (ULLONG_MAX / base) (u32 (ULLONG_MAX - ULLONG_MAX / base * base)) (cs ++ 0 :: rest) acc err
  = Some (value base cs acc, 0 :: rest, err).
Proof.
  intros Hb Hf. induction Hf as [|c cs [Hc0 Hc] Hf IH]; intros acc Ha Hv; [done|].
  assert (0 <= acc * base + digit_value base c) as Hacc' by nia.
  pose proof (value_ge base cs _ ltac:(lia) Hacc' Hf) as Hge.
  change (value base (c :: cs) acc) with (value base cs (acc * base + digit_value base c)) in *.
  cbn [app strtoull_loop]. replace (c =? 0) with false by (symmetry; lia).
  replace (digit_value base c <? 0) with false by (symmetry; lia).
  assert (acc * 2 <= acc * base) as H2 by nia.
  replace (acc =? ULLONG_MAX) with false by (symmetry; lia).
  set (mb := ULLONG_MAX / base) in *.
  assert (0 <= ULLONG_MAX - mb * base < base) as Hsp.
  { unfold mb. pose proof (Z.mod_pos_bound ULLONG_MAX base ltac:(lia)).
    rewrite Z.mod_eq in * by lia. lia. }
  rewrite (u32_small (ULLONG_MAX - mb * base)) in * by lia.
  destruct ((mb <=? acc) && _) eqn:E.
  - apply andb_prop in E as [E1 E2]. bools.
    assert (0 <= mb * base) by lia.
    assert (0 <= (acc - mb) * base) by nia.
    assert ((acc - mb) * base = acc * base - mb * base) by lia.
    rewrite (u64_small ((acc - mb) * base)), u64_small in E2 by lia. lia.
  - assert (0 <= acc * base) by nia. rewrite (u64_small (acc * base)), u64_small by lia. apply IH; lia.
Qed.

(** The characters [itoa] writes. *)
Definition uc_digit (base c : Z) : Prop := c ∈ cUCDIGITS /\ 0 <= digit_value base c.

Lemma ucdigit_get base r : 2 <= base <= 16 -> 0 <= r < base ->
  exists c, get cUCDIGITS r = Some c /\ c ∈ cUCDIGITS /\ digit_value base c = r.
Proof.
  intros Hb Hr. destruct (get_ok cUCDIGITS r) as [c Hc]; [unfold len; simpl; lia|].
  exists c. split; [done|]. split.
  { unfold get in Hc. case_if_in Hc; [|done]. by apply list_elem_of_lookup_2 in Hc. }
  unfold digit_value.
  assert (r = 0 \/ r = 1 \/ r = 2 \/ r = 3 \/ r = 4 \/ r = 5 \/ r = 6 \/ r = 7 \/ r = 8 \/ r = 9 \/
    r = 10 \/ r = 11 \/ r = 12 \/ r = 13 \/ r = 14 \/ r = 15) as Hcases by lia.
  repeat (destruct Hcases as [->|Hcases]; [vm_compute in Hc; injection Hc as <-; repeat case_if; lia|]).
  subst r. vm_compute in Hc. injection Hc as <-. repeat case_if; lia.
Qed.

Lemma itoa_digits_value n : forall num base, 2 <= base <= 16 -> 0 <= num < 2 ^ 64 ->
  num < 2 ^ Z.of_nat (S n) ->
  exists ds, itoa_digits (S n) num base = Some ds /\ ds <> [] /\ (length ds <= S n)%nat /\
    Forall (uc_digit base) ds /\ value base (reverse ds) 0 = num.
Proof.
  induction n as [|n IH]; intros num base Hb Hn Hf; rewrite Nat2Z.inj_succ, Z.pow_succ_r in Hf by lia.
  all: cbn [itoa_digits]; destruct (base - 1 <? num) eqn:E; bools.
  1: { change (2 ^ Z.of_nat 0) with 1 in Hf. lia. }
  1, 3: destruct (ucdigit_get base num) as (c & -> & Hin & Hdv); [lia..|]; cbn [mbind option_bind];
    exists [c]; split; [done|]; split; [done|]; split; [simpl; lia|]; split;
    [apply Forall_singleton; split; [done|lia]|unfold value; simpl; lia].
  rewrite divmod64U_spec by lia. cbn [mbind option_bind].
  pose proof (Z.mod_pos_bound num base ltac:(lia)) as Hr.
  replace (num mod base <? base) with true by (symmetry; lia). cbn [negb].
  destruct (ucdigit_get base (num mod base)) as (c & -> & Hin & Hdv); [lia..|]. cbn [mbind option_bind].
  assert (num / base < 2 ^ Z.of_nat (S n)).
  { apply Z.div_lt_upper_bound; [lia|]. nia. }
  assert (0 <= num / base <= num) by (split; [apply Z.div_pos; lia|apply Z.div_le_upper_bound; nia]).
  destruct (IH (num / base) base) as (ds & Hds & Hne & Hl & Hfa & Hv); [lia..|].
  cbn [itoa_digits] in Hds. rewrite Hds.
  exists (c :: ds). split; [done|]. split; [done|]. split; [simpl; lia|]. split.
  - constructor; [split; [done|lia]|done].
  - rewrite reverse_cons, value_app, Hv. unfold value. simpl. rewrite Hdv.
    pose proof (Z.div_mod num base ltac:(lia)). lia.
Qed.

Lemma uc_digit_chars c : c ∈ cUCDIGITS -> 48 <= c <= 57 \/ 65 <= c <= 70.
Proof.
  intros H. unfold cUCDIGITS in H. repeat (apply elem_of_cons in H as [->|H]; [lia|]).
  by apply not_elem_of_nil in H.
Qed.

Lemma uc_is_digit base c : uc_digit base c -> is_digit base c.
Proof. intros [Hc Hd]. split; [|done]. apply uc_digit_chars in Hc. lia. Qed.

Lemma isspace_digit c : c ∈ cUCDIGITS -> isspace c = false.
Proof. intros Hc%uc_digit_chars. unfold isspace. repeat case_if; lia. Qed.

Lemma skip_spaces_pad n cs : skip_spaces (replicate n 32 ++ cs) = skip_spaces cs.
Proof. induction n; simpl; done. Qed.

(** Parsing a non-empty string of such digits. *)
Lemma strtoull_digits base cs rest : 2 <= base <= 16 -> cs <> [] -> Forall (uc_digit base) cs ->
  value base cs 0 <= ULLONG_MAX ->
  strtoull (Some (cs ++ 0 :: rest)) base = Some (value base cs 0, Some (0 :: rest), None).
Proof.
  intros Hb Hne Hf Hv. unfold strtoull.
  replace ((base <? 0) || (36 <? base) || (base =? 1)) with false by (symmetry; lia).
  destruct cs as [|c cs]; [done|]. apply Forall_cons in Hf as Hf'. destruct Hf' as [[Hc Hd] Hcs].
  cbn [app skip_spaces]. rewrite isspace_digit by done. cbn [mbind option_bind].
  assert (hex_prefix (c :: cs ++ 0 :: rest) = Some false) as Hhex.
  { unfold hex_prefix. cbn. case_if; [done|]. destruct cs as [|c1 cs]; [done|].
    apply Forall_cons in Hcs as [[Hc1%uc_digit_chars _] _]. cbn.
    destruct (c1 =? c_x) eqn:?, (c1 =? c_X) eqn:?; bools; done || lia. }
  assert ((if (base =? 0) || (base =? 16) then hex_prefix (c :: cs ++ 0 :: rest) else Some false)
    = Some false) as -> by (by case_if).
  cbn [mbind option_bind list_lookup lookup].
  assert ((base =? 0) = false) as Hb0 by lia. rewrite Hb0. cbn [andb]. cbv iota. rewrite ?Hb0.
  change (c :: cs ++ 0 :: rest) with ((c :: cs) ++ 0 :: rest).
  rewrite strtoull_loop_value; [done|lia| |lia|done].
  eapply Forall_impl; [exact Hf|]. apply uc_is_digit.
Qed.

Lemma value_zeros base n cs acc : base <> 0 -> digit_value base 48 = 0 -> acc = 0 ->
  value base (replicate n 48 ++ cs) acc = value base cs 0.
Proof.
  intros Hb Hz ->. induction n as [|n IH]; simpl; [done|]. unfold value in *. simpl. by rewrite Hz.
Qed.

Lemma digit_value_zero base : 2 <= base -> digit_value base 48 = 0.
Proof. intros. unfold digit_value. repeat case_if; lia. Qed.
End digits.

(** ** Theorems *)
Module NumberProps.

(** Parsing what [itoa] printed gives the number back: for every base from 2 to 16, every 64-bit number,
    every minimum length and both paddings the kernel uses (blanks and zeros), [strtoull] returns the number, stops at the
    terminator and reports no error. *)
Theorem itoa_strtoull_roundtrip buf num base minLength pad :
  2 <= base <= 16 -> 0 <= num < 2 ^ 64 -> pad = 32 \/ pad = 48 -> Z.max minLength 65 < len buf ->
  exists buf' rest, itoa buf num base minLength pad = Some buf' /\
    strtoull (Some buf') base = Some (num, Some (0 :: rest), None).
Proof.
  intros Hb Hn Hp Hl. unfold itoa. destruct (set_ok buf 0 0) as (b1 & -> & Hl1 & _); [lia|].
  cbn [mbind option_bind]. replace ((base <? 2) || (16 <? base)) with false by (symmetry; lia).
  destruct (itoa_digits_value 64 num base) as (ds & -> & Hne & Hlen & Hf & Hv); [lia..|].
  cbn [mbind option_bind]. set (k := Z.to_nat (minLength - len ds)).
  assert (len (replicate k pad ++ reverse ds ++ [0]) <= len b1) as Hroom.
  { rewrite !len_app. unfold len in *. rewrite length_replicate, length_reverse. simpl. lia. }
  rewrite wr_front by done. eexists. exists (drop (length (replicate k pad ++ reverse ds ++ [0])) b1).
  split; [done|]. set (rest := drop _ b1). rewrite <- !app_assoc. cbn [app].
  assert (Forall (uc_digit base) (reverse ds)) as Hfr by (by apply Forall_reverse).
  assert (reverse ds <> []) as Hnr.
  { intros E. apply Hne. rewrite <- (reverse_involutive ds), E. done. }
  destruct Hp as [->| ->].
  - transitivity (strtoull (Some (reverse ds ++ 0 :: rest)) base); [|rewrite <- Hv; apply strtoull_digits; try done; lia].
    unfold strtoull. replace ((base <? 0) || (36 <? base) || (base =? 1)) with false by (symmetry; lia).
    by rewrite skip_spaces_pad.
  - assert (digit_value base 48 = 0) as Hz by (apply digit_value_zero; lia).
    assert (value base (replicate k 48 ++ reverse ds) 0 = num) as Hvz by (rewrite value_zeros by (done || lia); done).
    rewrite app_assoc. rewrite strtoull_digits; [by rewrite Hvz|done| | |].
    + intros [_ E]%app_eq_nil. done.
    + apply Forall_app. split; [|done]. apply Forall_replicate. split; [vm_compute; by left|lia].
    + rewrite Hvz. lia.
Qed.

Lemma itoa_strtoull_roundtrip_witness : exists buf' rest,
  itoa (replicate 70 7) 0xDEADBEEF 16 12 48 = Some buf' /\
  strtoull (Some buf') 16 = Some (0xDEADBEEF, Some (0 :: rest), None).
Proof.
  apply (itoa_strtoull_roundtrip (replicate 70 7) 0xDEADBEEF 16 12 48); [lia|lia|by right|reflexivity].
Defined.

(** Overflow detection of [strtoull] is itself computed modulo 2^64 and misses some inputs: the decimal string
    36893488147419103230 (2^65 - 2) is accepted with the value 2^64 - 2 and no error. *)
Theorem strtoull_overflow_missed :
  strtoull (Some [51; 54; 56; 57; 51; 52; 56; 56; 49; 52; 55; 52; 49; 57; 49; 48; 51; 50; 51; 48; 0]) 10
  = Some (18446744073709551614, Some [0], None) /\
  value 10 [51; 54; 56; 57; 51; 52; 56; 56; 49; 52; 55; 52; 49; 57; 49; 48; 51; 50; 51; 48] 0 = 2 ^ 65 - 2.
Proof. vm_compute. done. Qed.
End NumberProps.
