(* ===== verification/Text.v ===== *)
(** * Unicode text ([KernelLand/Kernel/lib.c], [KernelLand/Kernel/utf16.c])

    Reading and writing of UTF-8 and UTF-16 characters, and the comparison of a
    UTF-16 with a UTF-8 string that the FAT and NTFS drivers use.  A pointer is
    the list of units from it on ([Uint8] for UTF-8, [Uint16] for UTF-16); reads
    and stores past its end are [None]. *)
From S2P Require Import Prelude CString.
Local Open Scope Z_scope.

(** ** UTF-8 *)
Definition is_cont (b : Z) : bool := Z.land b 0xC0 =? 0x80.

(** The character ([0xFFFD] when invalid) and the number of bytes to skip. *)
Definition ReadUTF8 (str : list Z) : option (Z * Z) :=
  c0 ← str !! 0%nat;
  if Z.land c0 0x80 =? 0 then Some (c0, 1) else
  if is_cont c0 then Some (0xFFFD, 1) else
  if Z.land c0 0xE0 =? 0xC0 then
    let outval := Z.shiftl (Z.land c0 0x1F) 6 in
    c1 ← str !! 1%nat;
    if negb (is_cont c1) then Some (0xFFFD, 2) else
    Some (Z.lor outval (Z.land c1 0x3F), 2)
  else if Z.land c0 0xF0 =? 0xE0 then
    let outval := Z.shiftl (Z.land c0 0x0F) 12 in
    c1 ← str !! 1%nat;
    if negb (is_cont c1) then Some (0xFFFD, 2) else
    let outval := Z.lor outval (Z.shiftl (Z.land c1 0x3F) 6) in
    c2 ← str !! 2%nat;
    if negb (is_cont c2) then Some (0xFFFD, 3) else
    Some (Z.lor outval (Z.land c2 0x3F), 3)
  else if Z.land c0 0xF8 =? 0xF0 then
    let outval := Z.shiftl (Z.land c0 0x07) 18 in
    c1 ← str !! 1%nat;
    if negb (is_cont c1) then Some (0xFFFD, 2) else
    let outval := Z.lor outval (Z.shiftl (Z.land c1 0x3F) 12) in
    c2 ← str !! 2%nat;
    if negb (is_cont c2) then Some (0xFFFD, 3) else
    let outval := Z.lor outval (Z.shiftl (Z.land c2 0x3F) 6) in
    c3 ← str !! 3%nat;
    if negb (is_cont c3) then Some (0xFFFD, 4) else
    Some (Z.lor outval (Z.land c3 0x3F), 4)
  else Some (0xFFFD, 4).

(** The buffer after the stores ([None] for a NULL [str]) and the length. *)
Definition WriteUTF8 (str : option (list Z)) (Val : Z) : option (option (list Z) * Z) :=
  let put bytes :=
    match str with
    | None => Some (None, len bytes)
    | Some buf => buf' ← wr buf 0 (u8 <$> bytes); Some (Some buf', len bytes)
    end in
  if Val <? 128 then put [Val] else
  if Val <? 0x8000 then
    put [Z.lor 0xC0 (Z.shiftr Val 6); Z.lor 0x80 (Z.land Val 0x3F)]
  else if Val <? 0x10000 then
    put [Z.lor 0xE0 (Z.shiftr Val 12); Z.lor 0x80 (Z.land (Z.shiftr Val 6) 0x3F);
         Z.lor 0x80 (Z.land Val 0x3F)]
  else if Val <? 0x110000 then
    put [Z.lor 0xF0 (Z.shiftr Val 18); Z.lor 0x80 (Z.land (Z.shiftr Val 12) 0x3F);
         Z.lor 0x80 (Z.land (Z.shiftr Val 6) 0x3F); Z.lor 0x80 (Z.land Val 0x3F)]
  else put [].

(** [strpos8]: a character below 128 is compared byte by byte; another one is
    decoded at every byte from 128 on, [pos] being advanced both by the
    decoder and by the loop. *)
Fixpoint strpos8_loop (fuel : nat) (str : list Z) (pos : Z) (Search : Z) : option Z :=
  match fuel with
  | O => None
  | S fuel' =>
    c ← get str pos;
    if c =? 0 then Some (-1) else
    if Search <? 128 then
      if c =? Search then Some pos else strpos8_loop fuel' str (pos + 1) Search
    else if c <? 128 then strpos8_loop fuel' str (pos + 1) Search
    else
      '(val, n) ← ReadUTF8 (drop (Z.to_nat pos) str);
      if val =? Search then Some (pos + n) else strpos8_loop fuel' str (pos + n + 1) Search
  end.
Definition strpos8 (str : list Z) (Search : Z) : option Z :=
  strpos8_loop (S (length str)) str 0 Search.

(** ** UTF-16 *)
Definition ReadUTF16 (Str16 : list Z) : option (Z * Z) :=
  c0 ← Str16 !! 0%nat;
  if (0xD800 <? c0) && (c0 <=? 0xDFFF) then
    if 0xDC00 <? c0 then Some (0, 1) else
    c1 ← Str16 !! 1%nat;
    if (c1 <? 0xD800) || (0xDC00 <=? c1) then Some (0, 2) else
    Some (0x10000 + Z.lor (Z.shiftl (Z.land c0 0x3FF) 10) (Z.land c1 0x3FF), 2)
  else Some (c0, 1).

(** [for( ; *Source && SrcLen --; Source ++ )]; the destination may be NULL, and
    units are stored truncated to [char]. *)
Fixpoint convert_loop (Dest : option (list Z)) (DestLen : Z) (Source : list Z) (SrcLen : nat) (n : Z)
  : option (option (list Z) * Z) :=
  match Source with
  | [] => None
  | c :: Source' =>
      if c =? 0 then Some (Dest, n) else
      match SrcLen with
      | O => Some (Dest, n)
      | S SrcLen' =>
          Dest' ← match Dest with
                  | Some d => if n <? DestLen then Some <$> set d n (i8 c) else Some (Some d)
                  | None => Some None
                  end;
          convert_loop Dest' DestLen Source' SrcLen' (n + 1)
      end
  end.
Definition UTF16_ConvertToUTF8 (DestLen : Z) (Dest : option (list Z)) (SrcLen : Z) (Source : list Z)
  : option (option (list Z) * Z) :=
  '(Dest, n) ← convert_loop Dest DestLen Source (Z.to_nat SrcLen) 0;
  match Dest with
  | Some d => if n <? DestLen then d' ← set d n 0; Some (Some d', n) else Some (Some d, n)
  | None => Some (None, n)
  end.

Fixpoint compare_loop (fuel : nat) (Str16Len : Z) (Str16 Str8 : list Z) (pos16 pos8 : Z) (ci : bool)
  : option Z :=
  match fuel with
  | O => None
  | S fuel' =>
      more ← (if pos16 <? Str16Len then
                c16 ← get Str16 pos16;
                if c16 =? 0 then Some false else c8 ← get Str8 pos8; Some (negb (c8 =? 0))
              else Some false);
      if (more : bool) then
        '(cp16, n16) ← ReadUTF16 (drop (Z.to_nat pos16) Str16);
        '(cp8, n8) ← ReadUTF8 (drop (Z.to_nat pos8) Str8);
        let cp16 := if ci then toupper cp16 else cp16 in
        let cp8 := if ci then toupper cp8 else cp8 in
        if cp16 =? cp8 then compare_loop fuel' Str16Len Str16 Str8 (pos16 + n16) (pos8 + n8) ci
        else if cp16 <? cp8 then Some (-1) else Some 1
      else
        if pos16 =? Str16Len then Some 0 else
        c16 ← get Str16 pos16;
        c8 ← (if c16 =? 0 then Some 0 else get Str8 pos8);
        if negb (c16 =? 0) && negb (c8 =? 0) then Some 0 else
        if negb (c16 =? 0) then Some 1 else Some (-1)
  end.
Definition UTF16_CompareWithUTF8Ex (Str16Len : Z) (Str16 Str8 : list Z) (bCaseInsensitive : bool)
  : option Z :=
  compare_loop (S (length Str16)) Str16Len Str16 Str8 0 0 bCaseInsensitive.
Definition UTF16_CompareWithUTF8 (Str16Len : Z) (Str16 Str8 : list Z) : option Z :=
  UTF16_CompareWithUTF8Ex Str16Len Str16 Str8 false.
Definition UTF16_CompareWithUTF8CI (Str16Len : Z) (Str16 Str8 : list Z) : option Z :=
  UTF16_CompareWithUTF8Ex Str16Len Str16 Str8 true.

(** ** Masks as fields *)
Section masks.
Context (x : Z).
Lemma mask_80 : Z.land x 0x80 = x / 128 mod 2 * 128.
Proof. exact (land_field x 7 1 ltac:(lia) ltac:(lia)). Qed.
Lemma mask_C0 : Z.land x 0xC0 = x / 64 mod 4 * 64.
Proof. exact (land_field x 6 2 ltac:(lia) ltac:(lia)). Qed.
Lemma mask_E0 : Z.land x 0xE0 = x / 32 mod 8 * 32.
Proof. exact (land_field x 5 3 ltac:(lia) ltac:(lia)). Qed.
Lemma mask_F0 : Z.land x 0xF0 = x / 16 mod 16 * 16.
Proof. exact (land_field x 4 4 ltac:(lia) ltac:(lia)). Qed.
Lemma mask_F8 : Z.land x 0xF8 = x / 8 mod 32 * 8.
Proof. exact (land_field x 3 5 ltac:(lia) ltac:(lia)). Qed.
Lemma mask_3F : Z.land x 0x3F = x mod 64.
Proof. exact (land_low x 6 ltac:(lia)). Qed.
Lemma mask_1F : Z.land x 0x1F = x mod 32.
Proof. exact (land_low x 5 ltac:(lia)). Qed.
Lemma mask_0F : Z.land x 0x0F = x mod 16.
Proof. exact (land_low x 4 ltac:(lia)). Qed.
Lemma mask_07 : Z.land x 0x07 = x mod 8.
Proof. exact (land_low x 3 ltac:(lia)). Qed.
Lemma lor_80 : 0 <= x < 64 -> Z.lor 0x80 x = 128 + x.
Proof. intros. by apply (lor_add _ _ 6). Qed.
Lemma lor_C0 : 0 <= x < 64 -> Z.lor 0xC0 x = 192 + x.
Proof. intros. by apply (lor_add _ _ 6). Qed.
Lemma lor_E0 : 0 <= x < 32 -> Z.lor 0xE0 x = 224 + x.
Proof. intros. by apply (lor_add _ _ 5). Qed.
Lemma lor_F0 : 0 <= x < 16 -> Z.lor 0xF0 x = 240 + x.
Proof. intros. by apply (lor_add _ _ 4). Qed.
End masks.
Create Rewrite HintDb masks.
#[export] Hint Rewrite mask_80 mask_C0 mask_E0 mask_F0 mask_F8 mask_3F mask_1F mask_0F mask_07 : masks.

(** Decides the tests of the decoder on a byte whose leading bits are known. *)
Ltac lead :=
  autorewrite with masks;
  repeat match goal with
  | |- context [if ?a =? ?b then _ else _] =>
      first [ replace (a =? b) with false by (symmetry; apply Z.eqb_neq; dlia)
            | replace (a =? b) with true by (symmetry; apply Z.eqb_eq; dlia) ]
  end.

Section utf8.
Implicit Types (r : list Z).

Lemma cont_byte b : 0 <= b < 64 -> is_cont (128 + b) = true.
Proof. intros. unfold is_cont. rewrite mask_C0. apply Z.eqb_eq. dlia. Qed.

Lemma ReadUTF8_1 a r : 0 <= a < 128 -> ReadUTF8 (a :: r) = Some (a, 1).
Proof. intros. unfold ReadUTF8. cbn -[Z.land]. lead. done. Qed.

Lemma not_cont b : 192 <= b < 256 -> is_cont b = false.
Proof. intros. unfold is_cont. rewrite mask_C0. apply Z.eqb_neq. dlia. Qed.

Lemma ReadUTF8_2 a b r : 0 <= a < 32 -> 0 <= b < 64 ->
  ReadUTF8 (192 + a :: 128 + b :: r) = Some (a * 64 + b, 2).
Proof.
  intros. unfold ReadUTF8. cbn -[Z.land Z.lor Z.shiftl].
  rewrite not_cont, cont_byte by lia. lead. cbn [negb].
  rewrite Z.shiftl_mul_pow2 by lia. rewrite (lor_add _ _ 6) by dlia. do 2 f_equal. dlia.
Qed.

Lemma ReadUTF8_3 a b c r : 0 <= a < 16 -> 0 <= b < 64 -> 0 <= c < 64 ->
  ReadUTF8 (224 + a :: 128 + b :: 128 + c :: r) = Some (a * 4096 + b * 64 + c, 3).
Proof.
  intros. unfold ReadUTF8. cbn -[Z.land Z.lor Z.shiftl].
  rewrite not_cont, !cont_byte by lia. lead. cbn [negb].
  rewrite !Z.shiftl_mul_pow2 by lia.
  rewrite (lor_add (_ * 2 ^ 12) _ 12) by dlia. rewrite (lor_add _ _ 6) by dlia. do 2 f_equal. dlia.
Qed.

Lemma ReadUTF8_4 a b c d r : 0 <= a < 8 -> 0 <= b < 64 -> 0 <= c < 64 -> 0 <= d < 64 ->
  ReadUTF8 (240 + a :: 128 + b :: 128 + c :: 128 + d :: r) = Some (a * 262144 + b * 4096 + c * 64 + d, 4).
Proof.
  intros. unfold ReadUTF8. cbn -[Z.land Z.lor Z.shiftl].
  rewrite not_cont, !cont_byte by lia. lead. cbn [negb].
  rewrite !Z.shiftl_mul_pow2 by lia.
  rewrite (lor_add (_ * 2 ^ 18) _ 18) by dlia. rewrite (lor_add (_ + _) (_ * 2 ^ 6) 12) by dlia.
  rewrite (lor_add _ _ 6) by dlia. do 2 f_equal. dlia.
Qed.

(** What is stored for each range of characters. *)
Lemma WriteUTF8_2 buf Val : 4 <= len buf -> 128 <= Val < 0x800 ->
  WriteUTF8 (Some buf) Val = Some (Some (192 + Val / 64 :: 128 + Val mod 64 :: drop 2 buf), 2).
Proof.
  intros Hb Hv. unfold WriteUTF8. replace (Val <? 128) with false by (symmetry; lia).
  replace (Val <? 0x8000) with true by (symmetry; lia).
  rewrite mask_3F, Z.shiftr_div_pow2 by lia. change (2 ^ 6) with 64.
  rewrite lor_80, lor_C0 by dlia. cbn [fmap list_fmap]. rewrite !u8_small by dlia.
  rewrite wr_front by (unfold len in *; simpl; lia). done.
Qed.

Lemma WriteUTF8_3 buf Val : 4 <= len buf -> 0x8000 <= Val < 0x10000 ->
  WriteUTF8 (Some buf) Val =
  Some (Some (224 + Val / 4096 :: 128 + Val / 64 mod 64 :: 128 + Val mod 64 :: drop 3 buf), 3).
Proof.
  intros Hb Hv. unfold WriteUTF8. replace (Val <? 128) with false by (symmetry; lia).
  replace (Val <? 0x8000) with false by (symmetry; lia).
  replace (Val <? 0x10000) with true by (symmetry; lia).
  rewrite !mask_3F, !Z.shiftr_div_pow2 by lia. change (2 ^ 6) with 64. change (2 ^ 12) with 4096.
  rewrite !lor_80, lor_E0 by dlia. cbn [fmap list_fmap]. rewrite !u8_small by dlia.
  rewrite wr_front by (unfold len in *; simpl; lia). done.
Qed.

Lemma WriteUTF8_4 buf Val : 4 <= len buf -> 0x10000 <= Val < 0x110000 ->
  WriteUTF8 (Some buf) Val =
  Some (Some (240 + Val / 262144 :: 128 + Val / 4096 mod 64 :: 128 + Val / 64 mod 64 ::
              128 + Val mod 64 :: drop 4 buf), 4).
Proof.
  intros Hb Hv. unfold WriteUTF8. replace (Val <? 128) with false by (symmetry; lia).
  replace (Val <? 0x8000) with false by (symmetry; lia).
  replace (Val <? 0x10000) with false by (symmetry; lia).
  replace (Val <? 0x110000) with true by (symmetry; lia).
  rewrite !mask_3F, !Z.shiftr_div_pow2 by lia. change (2 ^ 6) with 64. change (2 ^ 12) with 4096.
  change (2 ^ 18) with 262144.
  rewrite !lor_80, lor_F0 by dlia. cbn [fmap list_fmap]. rewrite !u8_small by dlia.
  rewrite wr_front by (unfold len in *; simpl; lia). done.
Qed.
End utf8.

(** ** Theorems *)
Module TextProps.

(** For every character below [0x800] and from [0x8000] to the last code point, reading back what [WriteUTF8] stored
    gives the character and the number of bytes written, and the rest of the buffer is kept. *)
Theorem UTF8_roundtrip buf Val : 4 <= len buf -> 0 <= Val < 0x800 \/ 0x8000 <= Val < 0x110000 ->
  exists bytes n, WriteUTF8 (Some buf) Val = Some (Some (bytes ++ drop (Z.to_nat n) buf), n) /\
    len bytes = n /\ ReadUTF8 (bytes ++ drop (Z.to_nat n) buf) = Some (Val, n).
Proof.
  intros Hb Hv.
  destruct (decide (Val < 128)); [|destruct (decide (Val < 0x800)); [|destruct (decide (Val < 0x10000))]].
  - exists [Val], 1. split; [|split; [done|cbn [app]; apply ReadUTF8_1; lia]].
    unfold WriteUTF8. replace (Val <? 128) with true by (symmetry; lia). cbn [fmap list_fmap].
    rewrite u8_small by lia. rewrite wr_front by (unfold len in *; simpl; lia). done.
  - exists [192 + Val / 64; 128 + Val mod 64], 2. split; [rewrite WriteUTF8_2 by lia; reflexivity|]. split; [done|].
    cbn [app]. rewrite ReadUTF8_2 by dlia. do 2 f_equal. dlia.
  - exists [224 + Val / 4096; 128 + Val / 64 mod 64; 128 + Val mod 64], 3.
    split; [rewrite WriteUTF8_3 by lia; reflexivity|]. split; [done|].
    cbn [app]. rewrite ReadUTF8_3 by dlia. do 2 f_equal. dlia.
  - exists [240 + Val / 262144; 128 + Val / 4096 mod 64; 128 + Val / 64 mod 64; 128 + Val mod 64], 4.
    split; [rewrite WriteUTF8_4 by lia; reflexivity|]. split; [done|].
    cbn [app]. rewrite ReadUTF8_4 by dlia. do 2 f_equal. dlia.
Qed.

Lemma UTF8_roundtrip_witness : exists bytes n,
  WriteUTF8 (Some [9; 9; 9; 9; 9]) 0x1F600 = Some (Some (bytes ++ drop (Z.to_nat n) [9; 9; 9; 9; 9]), n) /\
  len bytes = n /\ ReadUTF8 (bytes ++ drop (Z.to_nat n) [9; 9; 9; 9; 9]) = Some (0x1F600, n).
Proof. apply (UTF8_roundtrip [9; 9; 9; 9; 9] 0x1F600); [vm_compute; discriminate|right; lia]. Defined.

(** What a reader of the bytes written for [Val], followed by a terminator, gets. *)
Definition reread (Val : Z) : option Z :=
  '(b, n) ← WriteUTF8 (Some [0; 0; 0; 0; 0]) Val; buf ← b; '(v, _) ← ReadUTF8 buf; Some v.

(** A lead byte, one continuation byte and a terminator. *)
Lemma read_cut b0 b1 r : 192 <= b0 < 256 -> 0 <= b1 < 64 ->
  exists v n, ReadUTF8 (b0 :: 128 + b1 :: 0 :: r) = Some (v, n) /\ (v < 0x800 \/ v = 0xFFFD).
Proof.
  intros H0 H1. unfold ReadUTF8. cbn -[Z.land Z.lor Z.shiftl].
  rewrite not_cont, cont_byte by lia. change (is_cont 0) with false. cbn [negb].
  rewrite mask_80. replace (_ =? 0) with false by (symmetry; apply Z.eqb_neq; dlia).
  case_if; [|case_if; [|case_if]]; eexists _, _; (split; [reflexivity|]); [left|by right..].
  rewrite mask_1F, mask_3F, Z.shiftl_mul_pow2 by lia. rewrite (lor_add _ _ 6) by dlia. dlia.
Qed.

Lemma lead_byte x : 0x20 <= x < 0x200 -> 192 <= u8 (Z.lor 0xC0 x) < 256.
Proof.
  intros Hx.
  assert (forallb (fun k => (192 <=? u8 (Z.lor 0xC0 (Z.of_nat k))) && (u8 (Z.lor 0xC0 (Z.of_nat k)) <? 256))
            (seq 0 512) = true) as H by (vm_compute; reflexivity).
  rewrite forallb_forall in H. specialize (H (Z.to_nat x)). rewrite Z2Nat.id in H by lia.
  rewrite in_seq in H. specialize (H ltac:(lia)). bools. done.
Qed.

(** The two-byte form is used up to [0x8000] instead of [0x800]: no character from [0x800] to [0x7FFF]
    can be read back from what [WriteUTF8] stores for it. *)
Theorem UTF8_two_byte_range_wrong Val : 0x800 <= Val < 0x8000 ->
  exists v, reread Val = Some v /\ v <> Val.
Proof.
  intros Hv. unfold reread, WriteUTF8. replace (Val <? 128) with false by (symmetry; lia).
  replace (Val <? 0x8000) with true by (symmetry; lia).
  rewrite mask_3F, Z.shiftr_div_pow2 by lia. change (2 ^ 6) with 64.
  pose proof (lead_byte (Val / 64) ltac:(dlia)) as Hb0. set (b0 := u8 _) in Hb0.
  rewrite lor_80 by dlia. cbn [fmap list_fmap]. fold b0. rewrite (u8_small (128 + _)) by dlia.
  rewrite wr_front by (unfold len; simpl; lia). cbn [mbind option_bind app length drop].
  destruct (read_cut b0 (Val mod 64) [0; 0] Hb0 ltac:(dlia)) as (v & n & -> & Hvv).
  exists v. split; [done|]. lia.
Qed.

Lemma UTF8_two_byte_range_wrong_witness : exists v, reread 0x20AC = Some v /\ v <> 0x20AC.
Proof. apply (UTF8_two_byte_range_wrong 0x20AC). lia. Defined.

(** [ReadUTF16] decodes no surrogate pair: for every high and low surrogate it either reports an
    invalid character (0) or passes the high surrogate through as a character. *)
Theorem UTF16_pairs_rejected h l r : 0xD800 <= h <= 0xDBFF -> 0xDC00 <= l <= 0xDFFF ->
  ReadUTF16 (h :: l :: r) = (if h =? 0xD800 then Some (0xD800, 1) else Some (0, 2)).
Proof.
  intros Hh Hl. unfold ReadUTF16. cbn -[Z.land Z.lor Z.shiftl]. destruct (h =? 0xD800) eqn:E; bools.
  - subst. done.
  - replace (0xD800 <? h) with true by (symmetry; lia). replace (h <=? 0xDFFF) with true by (symmetry; lia).
    replace (0xDC00 <? h) with false by (symmetry; lia). replace (l <? 0xD800) with false by (symmetry; lia).
    replace (0xDC00 <=? l) with true by (symmetry; lia). done.
Qed.

Lemma UTF16_pairs_rejected_witness : ReadUTF16 [0xD83D; 0xDE00; 0] = Some (0, 2).
Proof. apply (UTF16_pairs_rejected 0xD83D 0xDE00 [0]); lia. Defined.

(** [UTF16_CompareWithUTF8] reports equality for a prefix ([ab] in an array of two units against [abc]), and -1 for equal strings when
    the UTF-16 one ends before its array does. *)
Theorem UTF16_compare_wrong :
  UTF16_CompareWithUTF8 2 [97; 98] [97; 98; 99; 0] = Some 0 /\
  UTF16_CompareWithUTF8 3 [97; 98; 0] [97; 98; 0] = Some (-1).
Proof. done. Qed.

(** Searching for a character outside ASCII that is not found, [strpos8] steps over the terminator after a final
    multi-byte character and reads past the string. *)
Theorem strpos8_overruns :
  strpos8 [0xC3; 0xA9; 0] 0x20AC = None /\ strpos8 [0xC3; 0xA9; 65; 66; 0] 0x20AC = Some (-1).
Proof. done. Qed.
End TextProps.
