(* ===== verification/Format.v ===== *)
(** * Formatted output ([vsnprintf] and its callers in [KernelLand/Kernel/libc.c],
    [Hex] and [UnHex] in [KernelLand/Kernel/lib.c])

    The format string and the strings among the arguments are as in [CString].
    Nothing the function prints depends on what it has stored, so it is modelled as the
    sequence of characters passed to PUTCH, followed by the stores. *)
From S2P Require Import Prelude CString Arith Number Text.
Local Open Scope Z_scope.

(** ** Variadic arguments

    Each [va_arg] must find an argument of its type ([None] otherwise).  Pointers: NULL,
    a readable string, an address for which [CheckString] and [CheckMem] fail,
    a UTF-16 string. *)
Inductive varg :=
  | AInt (v : Z)
  | ALong (v : Z)
  | ANull
  | AStr (s : list Z)
  | ABad (addr : Z)
  | AStr16 (s : list Z).

Definition arg_int (args : list varg) : option (Z * list varg) :=
  match args with
  | AInt v :: r => Some (u32 v, r)
  | ABad a :: r => Some (u32 a, r)
  | ANull :: r => Some (0, r)
  | _ => None
  end.

(** The macro GETVAL. *)
Definition arg_val (isLongLong : bool) (args : list varg) : option (Z * list varg) :=
  if isLongLong then
    match args with ALong v :: r => Some (u64 v, r) | _ => None end
  else arg_int args.

(** ** Pieces of output *)

(** [for( len = BITS/4; len -- && ((ptr>>(len*4))&15) == 0; ) ; len ++;] *)
Fixpoint top_nibble (len : nat) (val : Z) : nat :=
  match len with
  | O => O
  | S l => if Z.land (Z.shiftr val (4 * Z.of_nat l)) 15 =? 0 then top_nibble l val else S l
  end.
Fixpoint nibbles (len : nat) (val : Z) : option (list Z) :=
  match len with
  | O => Some []
  | S l => c ← get cUCDIGITS (Z.land (Z.shiftr val (4 * Z.of_nat l)) 15); (cons c) <$> nibbles l val
  end.
Definition hex_pointer (val : Z) : option (list Z) :=
  let len := top_nibble 8 val in
  if (len =? 0)%nat then Some [c_0] else nibbles len val.

(** [printString]: padding to [minSize] on the chosen side, at most [precision]
    characters (all for a negative one). *)
Definition print_string (p : list Z) (minSize precision pad : Z) (bPadLeft : bool) : option (list Z) :=
  l ← str_of p;
  let fill := replicate (Z.to_nat (minSize - len l)) pad in
  let shown := if precision <? 0 then l else take (Z.to_nat precision) l in
  Some (if bPadLeft then shown ++ fill else fill ++ shown).

Definition s_null : list Z := [40; 110; 117; 108; 108; 41; 0].            (* (null) *)
Definition s_inval : list Z := [40; 105; 110; 118; 97; 108; 41; 0].       (* (inval) *)
Definition s_inval_ptr : list Z := [40; 105; 110; 118; 97; 108; 58; 42; 48; 120]. (* (inval:*0x *)
Definition s_True : list Z := [84; 114; 117; 101; 0].
Definition s_False : list Z := [70; 97; 108; 115; 101; 0].

(** [while( *p16 && precision-- )] over the characters of a UTF-16 string. *)
Fixpoint print_utf16 (fuel : nat) (p16 : list Z) (precision : Z) : option (list Z) :=
  match fuel with
  | O => None
  | S fuel' =>
      c ← p16 !! 0%nat;
      if c =? 0 then Some [] else
      if precision =? 0 then Some [] else
      '(cp, n) ← ReadUTF16 p16;
      '(tmp, k) ← WriteUTF8 (Some (replicate 5 0)) cp;
      tmp ← tmp; tmp ← set tmp k 0;
      chars ← str_of tmp;
      app (i8 <$> chars) <$> print_utf16 fuel' (drop (Z.to_nat n) p16) (precision - 1)
  end.

(** The [%C] array: [minSize] characters, escaped. *)
Fixpoint print_array (p : list Z) (n : nat) : option (list Z) :=
  match n with
  | O => Some []
  | S n' =>
      match p with
      | [] => None
      | c :: p' =>
          app (if c =? 0 then [92; 48] else if c =? 92 then [92; 92] else [c]) <$> print_array p' n'
      end
  end.

(** ** Conversion specifications *)
Record spec := Spec { code : Z; pad : Z; minSize : Z; precision : Z; isLong : bool; isLongLong : bool }.

Definition next (fmt : list Z) : option (Z * list Z) :=
  match fmt with [] => None | c :: f => Some (c, f) end.

(** [while('0' <= c && c <= '9') { acc *= 10; acc += c - '0'; c = *__format++; }] *)
Fixpoint read_num (c : Z) (fmt : list Z) (acc : Z) : option (Z * Z * list Z) :=
  if isdigit c then
    match fmt with
    | [] => None
    | c' :: fmt' => read_num c' fmt' (i32 (i32 (acc * 10) + (c - c_0)))
    end
  else Some (acc, c, fmt).

(** Flags, minimum length, precision, length modifiers; [c] is the character
    after the percent sign. *)
Definition parse_flags (c : Z) (fmt : list Z) (bPadLeft : bool) : option (Z * Z * list Z * bool) :=
  '(c, fmt, bPadLeft) ← (if c =? cMINUS then '(c, f) ← next fmt; Some (c, f, true) else Some (c, fmt, bPadLeft));
  if c =? c_0 then '(c, f) ← next fmt; Some (c_0, c, f, bPadLeft) else Some (cSPACE, c, fmt, bPadLeft).

Definition parse_size (default c : Z) (fmt : list Z) (args : list varg) : option (Z * Z * list Z * list varg) :=
  if c =? cSTAR then
    '(v, args) ← arg_int args; '(c, fmt) ← next fmt; Some (i32 v, c, fmt, args)
  else if (c_1 <=? c) && (c <=? c_9) then
    '(n, c, fmt) ← read_num c fmt 0; Some (n, c, fmt, args)
  else Some (default, c, fmt, args).

Definition parse_spec (c : Z) (fmt : list Z) (args : list varg) (bPadLeft : bool)
  : option (spec * list Z * list varg * bool) :=
  '(pad, c, fmt, bPadLeft) ← parse_flags c fmt bPadLeft;
  '(minSize, c, fmt, args) ← parse_size 0 c fmt args;
  '(precision, c, fmt, args) ←
    (if c =? cDOT then '(c, fmt) ← next fmt; parse_size (-1) c fmt args
     else Some (-1, c, fmt, args));
  if c =? 108 then
    '(c, fmt) ← next fmt;
    if c =? 108 then
      '(c, fmt) ← next fmt; Some (Spec c pad minSize precision true true, fmt, args, bPadLeft)
    else Some (Spec c pad minSize precision true false, fmt, args, bPadLeft)
  else Some (Spec c pad minSize precision false false, fmt, args, bPadLeft).

(** An integer through [tmpBuf], which holds 34 characters. *)
Definition print_int (sp : spec) (bPadLeft : bool) (val base : Z) : option (list Z) :=
  tmpBuf ← itoa (replicate 34 0) val base (minSize sp) (pad sp);
  print_string tmpBuf (minSize sp) (precision sp) (pad sp) bPadLeft.

Definition convert (sp : spec) (args : list varg) (bPadLeft : bool) : option (list Z * list varg) :=
  let c := code sp in
  if (c =? 100) || (c =? 105) then                                  (* d i *)
    '(val, args) ← arg_val (isLongLong sp) args;
    let '(sign, val) :=
      if isLongLong sp && negb (Z.shiftr val 63 =? 0) then
        ([cMINUS], if val =? 0x8000000000000000 then LLONG_MAX else u64 (- val))
      else if negb (isLongLong sp) && negb (Z.shiftr val 31 =? 0) then
        ([cMINUS], Z.land (Z.lnot val) 0xFFFFFFFF + 1)
      else ([], val) in
    out ← print_int sp bPadLeft val 10; Some (sign ++ out, args)
  else if c =? 117 then                                             (* u *)
    '(val, args) ← arg_val (isLongLong sp) args;
    out ← print_int sp bPadLeft val 10; Some (out, args)
  else if c =? 80 then                                              (* P *)
    '(val, args) ← arg_val (isLongLong sp) args;
    out ← print_int sp bPadLeft val 16; Some (c_0 :: c_x :: out, args)
  else if (c =? 88) || (c =? c_x) then                              (* X x *)
    '(val, args) ← arg_val (isLongLong sp) args;
    out ← print_int sp bPadLeft val 16; Some (out, args)
  else if c =? 111 then                                             (* o *)
    '(val, args) ← arg_val (isLongLong sp) args;
    out ← print_int sp bPadLeft val 8; Some (out, args)
  else if c =? 98 then                                              (* b *)
    '(val, args) ← arg_val (isLongLong sp) args;
    out ← print_int sp bPadLeft val 2; Some (out, args)
  else if c =? 66 then                                              (* B *)
    '(val, args) ← arg_int args;
    out ← print_string (if val =? 0 then s_False else s_True) (minSize sp) (precision sp) (pad sp) bPadLeft;
    Some (out, args)
  else if c =? 115 then                                             (* s *)
    if isLong sp then
      match args with
      | AStr16 p16 :: args => out ← print_utf16 (S (length p16)) p16 (precision sp); Some (out, args)
      | _ => None
      end
    else
      match args with
      | AStr p :: args =>
          out ← print_string p (minSize sp) (precision sp) (pad sp) bPadLeft; Some (out, args)
      | ANull :: args =>
          out ← print_string s_null (minSize sp) (precision sp) (pad sp) bPadLeft; Some (out, args)
      | ABad addr :: args => h ← hex_pointer (u32 addr); Some (s_inval_ptr ++ h ++ [41], args)
      | _ => None
      end
  else if c =? 67 then                                              (* C *)
    match args with
    | AStr p :: args => out ← print_array p (Z.to_nat (u32 (minSize sp))); Some (out, args)
    | ANull :: args | ABad _ :: args =>
        out ← print_string s_inval (minSize sp) (precision sp) (pad sp) bPadLeft; Some (out, args)
    | _ => None
    end
  else                                                              (* c and others *)
    '(val, args) ← arg_val (isLongLong sp) args; Some ([i8 (u8 val)], args).

(** ** The main loop

    [bPadLeft] is declared outside the loop and never cleared. *)
Fixpoint vsn_loop (fuel : nat) (fmt : list Z) (args : list varg) (bPadLeft : bool) : option (list Z) :=
  match fuel with
  | O => None
  | S fuel' =>
    '(c, fmt) ← next fmt;
    if c =? 0 then Some [] else
    if negb (c =? cPERCENT) then (cons c) <$> vsn_loop fuel' fmt args bPadLeft else
    '(c, fmt) ← next fmt;
    if c =? 0 then Some [] else
    if c =? cPERCENT then (cons cPERCENT) <$> vsn_loop fuel' fmt args bPadLeft else
    if c =? 112 then                                                (* p *)
      '(ptr, args) ← arg_int args;
      h ← hex_pointer ptr;
      app ([cSTAR; c_0; c_x] ++ h) <$> vsn_loop fuel' fmt args bPadLeft
    else
      '(sp, fmt, args, bPadLeft) ← parse_spec c fmt args bPadLeft;
      '(out, args) ← convert sp args bPadLeft;
      app out <$> vsn_loop fuel' fmt args bPadLeft
  end.

(** One iteration uses at least one character of the format. *)
Definition vsn_out (fmt : list Z) (args : list varg) : option (list Z) :=
  vsn_loop (S (length fmt)) fmt args false.

(** The macro PUTCH, on the buffer ([None] for NULL) and [pos], a [size_t]. *)
Definition PUTCH (maxlen : Z) (st : option (list Z) * Z) (ch : Z) : option (option (list Z) * Z) :=
  let '(s, pos) := st in
  match s with
  | Some b =>
      if pos <? maxlen then b' ← set b pos ch; Some (Some b', u32 (pos + 1))
      else Some (Some b, u32 (pos + 1))
  | None => Some (None, u32 (pos + 1))
  end.

Fixpoint put_all (maxlen : Z) (st : option (list Z) * Z) (chs : list Z) : option (option (list Z) * Z) :=
  match chs with
  | [] => Some st
  | ch :: chs' => st' ← PUTCH maxlen st ch; put_all maxlen st' chs'
  end.

(** The result is [pos] converted to [int]. *)
Definition vsnprintf (s : option (list Z)) (maxlen : Z) (fmt : list Z) (args : list varg)
  : option (option (list Z) * Z) :=
  out ← vsn_out fmt args;
  '(s, pos) ← put_all maxlen (s, 0) out;
  match s with
  | Some b => if pos <? maxlen then b' ← set b pos 0; Some (Some b', i32 pos) else Some (Some b, i32 pos)
  | None => Some (None, i32 pos)
  end.

Definition snprintf := vsnprintf.
Definition sprintf (s : option (list Z)) (fmt : list Z) (args : list varg) : option (option (list Z) * Z) :=
  vsnprintf s 0xFFFFFFFF fmt args.

(** ** Hexadecimal dumps *)
Definition fmt_02x : list Z := [37; 48; 50; 120; 0].                (* %02x *)

Fixpoint Hex_loop (Dest : list Z) (o : Z) (Source : list Z) (Size : nat) : option (list Z) :=
  match Size with
  | O => Some Dest
  | S n =>
      match Source with
      | [] => None
      | b :: Source' =>
          '(d, _) ← sprintf (Some (drop (Z.to_nat o) Dest)) fmt_02x [AInt b];
          d ← d;
          Hex_loop (take (Z.to_nat o) Dest ++ d) (o + 2) Source' n
      end
  end.
Definition Hex (Dest : list Z) (Size : Z) (SourceData : list Z) : option (list Z * Z) :=
  d ← Hex_loop Dest 0 SourceData (Z.to_nat Size); Some (d, Size * 2).

(** The value a character contributes; others count as 0. *)
Definition unhex_digit (c : Z) : Z := default 0 (hex_digit c).

Fixpoint UnHex_loop (n : nat) (src : list Z) : option (list Z) :=
  match n with
  | O => Some []
  | S n' =>
      c0 ← src !! 0%nat;
      if c0 =? 0 then Some [] else
      c1 ← src !! 1%nat;
      if c1 =? 0 then Some [] else
      (cons (u8 (Z.lor (Z.shiftl (unhex_digit c0) 4) (unhex_digit c1)))) <$> UnHex_loop n' (drop 2 src)
  end.
Definition UnHex (Dest : list Z) (DestSize : Z) (SourceString : list Z) : option (list Z * Z) :=
  bytes ← UnHex_loop (Z.to_nat DestSize) SourceString;
  d ← wr Dest 0 bytes; Some (d, len bytes).

(** ** Lemmas *)
Section put.
Implicit Types (pre b chs : list Z).

Lemma put_all_past maxlen s chs : forall pos, maxlen <= pos -> 0 <= pos -> pos + len chs < 4294967296 ->
  put_all maxlen (Some s, pos) chs = Some (Some s, pos + len chs).
Proof.
  induction chs as [|ch chs IH]; intros pos Hp H0 Hw; cbn [put_all PUTCH]; [by rewrite Z.add_0_r|].
  rewrite len_cons in *. pose proof (len_nonneg chs).
  replace (pos <? maxlen) with false by (symmetry; lia). cbn [mbind option_bind].
  rewrite u32_small, IH by lia. do 2 f_equal. lia.
Qed.

(** A character stored at [pos]. *)
Lemma PUTCH_middle maxlen pre x b ch : len pre < maxlen -> len pre + 1 < 4294967296 ->
  PUTCH maxlen (Some (pre ++ x :: b), len pre) ch = Some (Some ((pre ++ [ch]) ++ b), len (pre ++ [ch])).
Proof.
  intros Hm Hw. unfold PUTCH. pose proof (len_nonneg pre).
  replace (len pre <? maxlen) with true by (symmetry; lia).
  rewrite set_middle, u32_small by lia. cbn [mbind option_bind]. by rewrite <- app_assoc, len_app.
Qed.

Lemma put_all_spec maxlen chs : forall pre b, maxlen <= len pre + len b -> len pre <= maxlen ->
  len pre + len chs < 4294967296 ->
  put_all maxlen (Some (pre ++ b), len pre) chs =
  Some (Some (pre ++ take (Z.to_nat (maxlen - len pre)) chs
                  ++ drop (Nat.min (length chs) (Z.to_nat (maxlen - len pre))) b), len pre + len chs).
Proof.
  induction chs as [|ch chs IH]; intros pre b Hm Hp Hw.
  { simpl. rewrite take_nil, drop_0. do 2 f_equal. unfold len. simpl. lia. }
  destruct (decide (len pre = maxlen)) as [He|Hne].
  { rewrite put_all_past by (pose proof (len_nonneg pre); lia). rewrite He, Z.sub_diag. simpl. by rewrite drop_0. }
  destruct b as [|x b]; [unfold len in *; simpl in *; lia|].
  assert (len (pre ++ [ch]) = len pre + 1) as Hl by (by rewrite len_app).
  rewrite !len_cons in *. pose proof (len_nonneg chs). cbn [put_all].
  rewrite PUTCH_middle by lia. cbn [mbind option_bind]. rewrite IH by lia. rewrite Hl.
  replace (Z.to_nat (maxlen - len pre)) with (S (Z.to_nat (maxlen - (len pre + 1)))) by lia.
  cbn [take length Nat.min drop]. rewrite <- app_assoc. cbn [app]. do 2 f_equal. lia.
Qed.

(** With room for everything, whatever [maxlen]. *)
Lemma put_all_fits maxlen chs : forall pre b, len chs <= len b -> len pre + len chs <= maxlen ->
  len pre + len chs < 4294967296 ->
  put_all maxlen (Some (pre ++ b), len pre) chs =
  Some (Some (pre ++ chs ++ drop (length chs) b), len pre + len chs).
Proof.
  induction chs as [|ch chs IH]; intros pre b Hb Hm Hw.
  { simpl. rewrite drop_0. do 2 f_equal. unfold len. simpl. lia. }
  rewrite len_cons in *. pose proof (len_nonneg chs).
  destruct b as [|x b]; [unfold len in *; simpl in *; lia|].
  assert (len (pre ++ [ch]) = len pre + 1) as Hl by (by rewrite len_app).
  rewrite len_cons in *. cbn [put_all].
  rewrite PUTCH_middle by lia. cbn [mbind option_bind]. rewrite IH by lia. rewrite Hl.
  cbn [length drop]. rewrite <- app_assoc. cbn [app]. do 2 f_equal. lia.
Qed.
End put.

(** ** Theorems *)
Module FormatProps.

(** C39: For arguments that match the format and integer fields that fit the 34 characters of tmpBuf (so that the
    output is defined; widths from 34 on overflow it: vsnprintf_width_overflow), and an output below 4 GiB, vsnprintf
    stores the output cut to maxlen, terminates it when there is room, touches nothing past maxlen, and returns the full
    length converted to int (negative from 2 GiB on: vsnprintf_length_wraps). *)
Theorem vsnprintf_truncates fmt args out buf maxlen : vsn_out fmt args = Some out ->
  0 <= maxlen <= len buf -> len out < 4294967296 ->
  vsnprintf (Some buf) maxlen fmt args =
  Some (Some (if len out <? maxlen then out ++ 0 :: drop (S (length out)) buf
              else take (Z.to_nat maxlen) out ++ drop (Z.to_nat maxlen) buf), i32 (len out)).
Proof.
  intros Ho Hm Hw. unfold vsnprintf. rewrite Ho. cbn [mbind option_bind].
  change (Some buf, 0) with (Some ([] ++ buf), len (@nil Z)).
  rewrite put_all_spec by (unfold len in *; simpl; lia).
  change (len (@nil Z)) with 0. rewrite Z.sub_0_r, Z.add_0_l. cbn [mbind option_bind app].
  destruct (len out <? maxlen) eqn:E; bools.
  - assert (length out < Z.to_nat maxlen)%nat by (unfold len in *; lia).
    rewrite take_ge, Nat.min_l by lia.
    destruct (drop (length out) buf) as [|x r] eqn:Ed.
    { apply (f_equal length) in Ed. rewrite length_drop in Ed. unfold len in *. simpl in Ed. lia. }
    rewrite set_middle. cbn [mbind option_bind]. do 4 f_equal.
    replace (S (length out)) with (length out + 1)%nat by lia. by rewrite <- drop_drop, Ed.
  - rewrite Nat.min_r by (unfold len in *; lia). done.
Qed.

Lemma vsnprintf_truncates_witness :
  vsnprintf (Some [9; 9; 9; 9]) 3 [37; 117; 0] [AInt 12345] = Some (Some [49; 50; 51; 9], 5).
Proof.
  rewrite (vsnprintf_truncates [37; 117; 0] [AInt 12345] [49; 50; 51; 52; 53]); vm_compute;
    [reflexivity|reflexivity|split; discriminate|reflexivity].
Defined.

(** A field of at least 34 characters does not fit the 34 characters of [tmpBuf] with its terminator. *)
Lemma print_int_overflow sp left val base : 34 <= minSize sp -> 2 <= base <= 16 ->
  print_int sp left val base = None.
Proof.
  intros Hm Hb. unfold print_int, itoa. change (set (replicate 34 0) 0 0) with (Some (replicate 34 0)).
  cbn [mbind option_bind]. replace ((base <? 2) || (16 <? base)) with false by (symmetry; lia).
  destruct (itoa_digits 65 val base) as [tmp|]; [|done]. cbn [mbind option_bind].
  unfold wr. rewrite !len_app. change (len [0]) with 1. change (len (replicate 34 0)) with 34.
  assert (len (reverse tmp) = len tmp) as -> by (unfold len; by rewrite length_reverse).
  assert (34 - len tmp <= len (replicate (Z.to_nat (minSize sp - len tmp)) (pad sp)))
    by (unfold len at 2; rewrite length_replicate; lia).
  replace (_ <=? 34) with false by (symmetry; lia). by rewrite andb_false_r.
Qed.

(** A field width of 34 or more overflows the buffer the number is converted in, whatever the number and the
    destination ("%34u" stores past the end of [tmpBuf]). *)
Theorem vsnprintf_width_overflow s maxlen v :
  vsnprintf s maxlen [37; 51; 52; 117; 0] [AInt v] = None.
Proof.
  unfold vsnprintf, vsn_out. cbn -[print_int u32]. by rewrite print_int_overflow by done.
Qed.

Lemma put_all_NULL maxlen chs : forall pos, 0 <= pos -> pos + len chs < 4294967296 ->
  put_all maxlen (None, pos) chs = Some (None, pos + len chs).
Proof.
  induction chs as [|ch chs IH]; intros pos H0 Hw; cbn [put_all PUTCH]; [by rewrite Z.add_0_r|].
  rewrite len_cons in *. pose proof (len_nonneg chs). cbn [mbind option_bind].
  rewrite u32_small, IH by lia. do 2 f_equal. lia.
Qed.

(** One conversion of the main loop. *)
Lemma vsn_loop_field fuel c fmt args left sp fmt' args' left' out args'' :
  (c =? 0) || (c =? cPERCENT) || (c =? 112) = false ->
  parse_spec c fmt args left = Some (sp, fmt', args', left') -> convert sp args' left' = Some (out, args'') ->
  vsn_loop (S fuel) (cPERCENT :: c :: fmt) args left = app out <$> vsn_loop fuel fmt' args'' left'.
Proof.
  intros [[H0 H1]%orb_false_elim H2]%orb_false_elim Hp Hc.
  cbn -[vsn_loop parse_spec convert]. cbn [vsn_loop next mbind option_bind].
  change (cPERCENT =? 0) with false. change (negb (cPERCENT =? cPERCENT)) with false. cbn iota.
  by rewrite H0, H1, H2, Hp; cbn [mbind option_bind]; rewrite Hc.
Qed.

Lemma convert_empty_string n args left : 0 <= n ->
  convert (Spec 115 cSPACE n (-1) false false) (AStr [0] :: args) left
  = Some (replicate (Z.to_nat n) cSPACE, args).
Proof.
  intros Hn. unfold convert. cbn [code isLong minSize precision pad].
  cbn [Z.eqb Pos.eqb orb]. unfold print_string. change (str_of [0]) with (Some (@nil Z)).
  cbn [mbind option_bind]. change (len (@nil Z)) with 0. rewrite Z.sub_0_r.
  by destruct left; cbn [Z.ltb Z.compare app]; rewrite ?app_nil_r.
Qed.

(** "2147483647s". *)
Definition fmt_wide : list Z := [50; 49; 52; 55; 52; 56; 51; 54; 52; 55; 115].

(** The length is counted in a [size_t] and returned as an [int]: the two fields of "%2147483647s%2147483647s" are [4294967294]
    characters, and the result is [-2]. *)
Theorem vsnprintf_length_wraps maxlen :
  vsnprintf None maxlen (cPERCENT :: fmt_wide ++ cPERCENT :: fmt_wide ++ [0]) [AStr [0]; AStr [0]] = Some (None, -2).
Proof.
  pose proof (convert_empty_string 2147483647) as Hc.
  assert (forall n, len (replicate (Z.to_nat n) cSPACE) = Z.max 0 n) as Hr
    by (intros n; unfold len; rewrite length_replicate; lia).
  specialize (Hr 2147483647). revert Hc Hr. generalize (replicate (Z.to_nat 2147483647) cSPACE).
  intros blanks Hc Hr. unfold vsnprintf, vsn_out, fmt_wide. cbn [app length].
  erewrite vsn_loop_field; [|reflexivity|reflexivity|by apply Hc].
  erewrite vsn_loop_field; [|reflexivity|reflexivity|by apply Hc].
  cbn [vsn_loop next mbind option_bind]. change (0 =? 0) with true. cbn [fmap option_fmap option_map].
  assert (len (blanks ++ blanks ++ []) = 4294967294) as Hl by (rewrite !len_app, Hr; reflexivity).
  cbn [mbind option_bind]. rewrite put_all_NULL by (rewrite ?Hl; lia). by rewrite Hl.
Qed.

(** The left-alignment flag stays set for the rest of the format: in "%-2s%2s" the second field is left aligned too.  The most negative
    64-bit number is printed as one larger than it is. *)
Theorem vsnprintf_flags_stick :
  vsn_out [37; 45; 50; 115; 37; 50; 115; 0] [AStr [97; 0]; AStr [98; 0]] = Some [97; 32; 98; 32] /\
  vsn_out [37; 50; 115; 0] [AStr [98; 0]] = Some [32; 98] /\
  vsn_out [37; 108; 108; 105; 0] [ALong (-9223372036854775808)]
  = vsn_out [37; 108; 108; 105; 0] [ALong (-9223372036854775807)].
Proof. vm_compute. done. Qed.

(** [Hex] of one byte. *)
Definition hi_lo (b : Z) : list Z := [nth (Z.to_nat (b / 16)) cUCDIGITS 0; nth (Z.to_nat (b mod 16)) cUCDIGITS 0].

Lemma out_02x b : 0 <= b < 256 -> vsn_out fmt_02x [AInt b] = Some (hi_lo b).
Proof.
  intros Hb.
  assert (forallb (fun k => bool_decide (vsn_out fmt_02x [AInt (Z.of_nat k)] = Some (hi_lo (Z.of_nat k))))
            (seq 0 256) = true) as H by (vm_compute; reflexivity).
  rewrite forallb_forall in H. specialize (H (Z.to_nat b)). rewrite Z2Nat.id, in_seq in H by lia.
  specialize (H ltac:(lia)). by apply bool_decide_eq_true_1 in H.
Qed.

Lemma unhex_hi_lo b r n : 0 <= b < 256 -> UnHex_loop (S n) (hi_lo b ++ r) = (cons b) <$> UnHex_loop n r.
Proof.
  intros Hb.
  assert (forallb (fun k => match hi_lo (Z.of_nat k) with
            | [c0; c1] => negb (c0 =? 0) && negb (c1 =? 0) &&
                (u8 (Z.lor (Z.shiftl (unhex_digit c0) 4) (unhex_digit c1)) =? Z.of_nat k)
            | _ => false end) (seq 0 256) = true) as H by (vm_compute; reflexivity).
  rewrite forallb_forall in H. specialize (H (Z.to_nat b)). rewrite Z2Nat.id, in_seq in H by lia.
  specialize (H ltac:(lia)). unfold hi_lo in *.
  set (c0 := nth (Z.to_nat (b / 16)) cUCDIGITS 0) in *. set (c1 := nth (Z.to_nat (b mod 16)) cUCDIGITS 0) in *.
  clearbody c0 c1. apply andb_prop in H as [[Hc0 Hc1]%andb_prop Hv]. apply Z.eqb_eq in Hv.
  cbn [UnHex_loop app list_lookup lookup mbind option_bind drop].
  apply negb_true_iff in Hc0, Hc1. rewrite Hc0, Hc1, Hv. by destruct r.
Qed.

Lemma hi_lo_ok b : length (hi_lo b) = 2%nat.
Proof. done. Qed.

Lemma sprintf_02x buf b : 0 <= b < 256 -> 3 <= len buf < 0xFFFFFFFF ->
  sprintf (Some buf) fmt_02x [AInt b] = Some (Some (hi_lo b ++ 0 :: drop 3 buf), 2).
Proof.
  intros Hb Hl. unfold sprintf, vsnprintf. rewrite out_02x by done. cbn [mbind option_bind].
  destruct buf as [|x0 [|x1 [|x2 buf]]]; try (unfold len in Hl; simpl in Hl; lia).
  pose proof (put_all_fits 0xFFFFFFFF (hi_lo b) [] (x0 :: x1 :: x2 :: buf)) as Hp.
  change (len (hi_lo b)) with 2 in Hp. change (len (@nil Z)) with 0 in Hp. cbn [app] in Hp. rewrite Hp by lia.
  exact (f_equal (fun o => b' ← o; Some (Some b', i32 2)) (set_middle (hi_lo b) x2 buf 0)).
Qed.

(** [Hex] of a list of bytes is the concatenation of their digits. *)
Lemma Hex_loop_spec bs : forall pre d, Forall (fun b => 0 <= b < 256) bs ->
  len pre + len d < 0xFFFFFFFF -> 2 * len bs < len d ->
  Hex_loop (pre ++ d) (len pre) bs (length bs) =
  Some (pre ++ concat (hi_lo <$> bs) ++
        match bs with [] => d | _ => 0 :: drop (S (2 * length bs)) d end).
Proof.
  induction bs as [|b bs IH]; intros pre d Hf Hl Hr; [done|].
  apply Forall_cons in Hf as [Hb Hf]. cbn [Hex_loop length].
  assert (Z.to_nat (len pre) = length pre) as -> by (unfold len; lia).
  rewrite drop_app_length, take_app_length. rewrite len_cons in Hr. pose proof (len_nonneg bs).
  pose proof (len_nonneg pre). rewrite sprintf_02x by lia. cbn [mbind option_bind].
  assert (len pre + 2 = len (pre ++ hi_lo b)) as -> by (by rewrite len_app).
  rewrite app_assoc, IH; [|done|..].
  - rewrite <- !app_assoc. f_equal. rewrite fmap_cons. cbn [concat]. rewrite <- app_assoc. do 3 f_equal.
    destruct bs as [|b' bs]; [done|]. f_equal. cbn [length].
    replace (S (2 * S (S (length bs)))) with (3 + (S (2 * S (length bs)) - 1))%nat by lia.
    rewrite <- drop_drop. cbn [drop]. f_equal; lia.
  - rewrite len_app, len_cons. unfold len in *. rewrite length_drop. simpl length. lia.
  - rewrite len_cons. unfold len in *. rewrite length_drop. lia.
Qed.

Lemma UnHex_loop_spec bs : forall r, Forall (fun b => 0 <= b < 256) bs ->
  UnHex_loop (length bs) (concat (hi_lo <$> bs) ++ r) = Some bs.
Proof.
  induction bs as [|b bs IH]; intros r Hf; [done|]. apply Forall_cons in Hf as [Hb Hf].
  rewrite fmap_cons. cbn [concat length]. rewrite <- app_assoc, unhex_hi_lo by done. by rewrite IH.
Qed.

(** [UnHex] reads back what [Hex] printed: for every sequence of bytes, with room for its digits and the terminator,
    the same bytes are stored and their number is returned. *)
Theorem Hex_UnHex_roundtrip bs text dest : Forall (fun b => 0 <= b < 256) bs ->
  2 * len bs < len text < 0xFFFFFFFF -> len bs <= len dest ->
  exists text', Hex text (len bs) bs = Some (text', 2 * len bs) /\
    UnHex dest (len bs) text' = Some (bs ++ drop (length bs) dest, len bs).
Proof.
  intros Hf Ht Hd. unfold Hex, UnHex. assert (Z.to_nat (len bs) = length bs) as -> by (unfold len; lia).
  pose proof (Hex_loop_spec bs [] text Hf ltac:(unfold len in *; simpl; lia) ltac:(lia)) as Hh.
  cbn [app] in Hh. change (len (@nil Z)) with 0 in Hh. rewrite Hh. cbn [mbind option_bind].
  eexists. split; [do 2 f_equal; lia|]. rewrite UnHex_loop_spec by done. cbn [mbind option_bind].
  by rewrite wr_front.
Qed.

Lemma Hex_UnHex_roundtrip_witness : exists text',
  Hex (replicate 7 9) 3 [0xDE; 0xAD; 0x01] = Some (text', 6) /\
  UnHex [1; 1; 1; 1] 3 text' = Some ([0xDE; 0xAD; 0x01; 1], 3).
Proof.
  apply (Hex_UnHex_roundtrip [0xDE; 0xAD; 0x01] (replicate 7 9) [1; 1; 1; 1]).
  - repeat constructor; lia.
  - split; reflexivity.
  - vm_compute. discriminate.
Defined.
End FormatProps.
