(* ===== verification/Time.v ===== *)
(** * Dates ([timestamp] and [format_date] of [KernelLand/Kernel/lib.c])

    A timestamp counts milliseconds; months and days are counted from 0. *)
From S2P Require Import Prelude Arith.
Local Open Scope Z_scope.

Definition DAYS_BEFORE : list Z := [0; 31; 59; 90; 120; 151; 181; 212; 243; 273; 304; 334].
Definition UNIX_TO_2K : Z := 30 * 365 * 3600 * 24 + 7 * 3600 * 24.

(** C's [%] and [/] on [int]. *)
Definition timestamp (sec min hrs day month year : Z) : option Z :=
  if negb ((0 <=? sec) && (sec <? 60)) then Some 0 else
  if negb ((0 <=? min) && (min <? 60)) then Some 0 else
  if negb ((0 <=? hrs) && (hrs <? 24)) then Some 0 else
  if negb ((0 <=? day) && (day <? 31)) then Some 0 else
  if negb ((0 <=? month) && (month <? 12)) then Some 0 else
  before ← get DAYS_BEFORE month;
  let stamp := before + day in
  let is_leap := b2z (Z.rem year 4 =? 0) - b2z (Z.rem year 100 =? 0) + b2z (Z.rem year 400 =? 0) in
  if negb ((is_leap =? 0) || (is_leap =? 1)) then None else
  let stamp := if negb (is_leap =? 0) && (1 <? month) then stamp + 1 else stamp in
  let year := i32 (year - 2000) in
  let stamp := i64 (stamp + i32 (year * 365 + Z.quot year 400 - Z.quot year 100 + Z.quot year 4)) in
  let stamp := i64 (stamp * (3600 * 24)) in
  let stamp := i64 (stamp + UNIX_TO_2K) in
  let stamp := i64 (stamp + sec) in
  let stamp := i64 (stamp + min * 60) in
  let stamp := i64 (stamp + hrs * 3600) in
  Some (i64 (stamp * 1000)).

(** [for( i = 0; i < 12; i ++ ) if( TS < DAYS_BEFORE[i] ) break;] *)
Fixpoint month_index (i : nat) (days : list Z) (TS : Z) : nat :=
  match days with
  | [] => i
  | d :: days' => if TS <? d then i else month_index (S i) days' TS
  end.

Record date := Date { year : Z; month : Z; day : Z; hrs : Z; mins : Z; sec : Z; ms : Z }.

(** The year and the day within it, and whether it is taken for a leap year. *)
Definition split_years (TS : Z) : option (Z * Z * bool) :=
  '(q, TS) ← DivMod64 TS (365 * 400 + (400 / 4 - 3));
  let year := i32 (400 * q) in
  if TS <? 366 then Some (year, TS, true) else
  '(q, TS) ← DivMod64 TS (365 * 100 + (100 / 4 - 1));
  let year := i32 (year + 100 * q) in
  if TS <? 366 then Some (year, TS, false) else
  '(q, TS) ← DivMod64 TS (365 * 4 + 1);
  let year := i32 (year + 4 * q) in
  if TS <? 366 then Some (year, TS, true) else
  '(q, TS) ← DivMod64 TS 356;
  Some (i32 (year + q), TS, false).

Definition format_date (TS : Z) : option date :=
  '(TS, ms) ← DivMod64 TS 1000;
  '(TS, sec) ← DivMod64 TS 60;
  '(TS, mins) ← DivMod64 TS 60;
  '(TS, hrs) ← DivMod64 TS 24;
  let TS := i64 (TS - UNIX_TO_2K / (3600 * 24)) in
  '(year, TS, is_leap) ← split_years TS;
  let year := i32 (year + 2000) in
  if negb (0 <=? TS) then None else
  let '(TS, day) := if (is_leap : bool) && (59 <? TS) then (TS - 1, 1) else (TS, 0) in
  let i := month_index 0 DAYS_BEFORE TS in
  before ← DAYS_BEFORE !! (i - 1)%nat;
  Some (Date year (Z.of_nat i - 1) (i32 (day + (TS - before))) hrs mins sec ms).

(** ** Reference calendar *)
Definition leap (y : Z) : bool := (y mod 4 =? 0) && (negb (y mod 100 =? 0) || (y mod 400 =? 0)).

(** Leap days before the first of January of [y], and days since that of 2000. *)
Definition leap_days (y : Z) : Z := (y - 1) / 4 - (y - 1) / 100 + (y - 1) / 400.
Definition days_since_2000 (y : Z) : Z := 365 * (y - 2000) + leap_days y - leap_days 2000.

(** The reference counts every leap year once. *)
Lemma days_since_2000_step y : days_since_2000 (y + 1) = days_since_2000 y + (if leap y then 366 else 365).
Proof.
  unfold days_since_2000, leap_days, leap. replace (y + 1 - 1) with y by lia.
  assert (forall k, 0 < k -> (y - 1) / k = y / k - (if y mod k =? 0 then 1 else 0)) as Hk.
  { intros k Hk. destruct (y mod k =? 0) eqn:E; bools.
    - rewrite (Z.div_mod y k) at 1 by lia. rewrite E.
      symmetry. apply (Z.div_unique _ _ _ (k - 1)); lia.
    - symmetry. pose proof (Z.mod_pos_bound y k Hk). apply (Z.div_unique _ _ _ (y mod k - 1)); [lia|].
      rewrite (Z.div_mod y k) at 1 by lia. lia. }
  rewrite !Hk by lia.
  destruct (y mod 4 =? 0) eqn:E4, (y mod 100 =? 0) eqn:E100, (y mod 400 =? 0) eqn:E400; bools; simpl; dlia.
Qed.

Definition reference (sec min hrs day month year : Z) : Z :=
  let before := nth (Z.to_nat month) DAYS_BEFORE 0 in
  let days := days_since_2000 year + before + day + (if leap year && (1 <? month) then 1 else 0) in
  (days * 86400 + UNIX_TO_2K + hrs * 3600 + min * 60 + sec) * 1000.

(** ** Lemmas *)
Section years.

Lemma quot_neg n k : n <= 0 -> 0 < k -> Z.quot n k = (n + k - 1) / k.
Proof.
  intros Hn Hk. replace n with (- (- n)) at 1 by lia. rewrite Z.quot_opp_l by lia.
  rewrite Z.quot_div_nonneg by lia. pose proof (Z.div_mod (- n) k ltac:(lia)).
  pose proof (Z.mod_pos_bound (- n) k Hk).
  apply (Z.div_unique _ _ _ (k - 1 - (- n) mod k)); lia.
Qed.

Lemma ceil_div n k : 0 < k -> (n + k - 1) / k = n / k + (if n mod k =? 0 then 0 else 1).
Proof.
  intros Hk. pose proof (Z.div_mod n k ltac:(lia)). pose proof (Z.mod_pos_bound n k Hk).
  destruct (n mod k =? 0) eqn:E; bools; symmetry.
  - apply (Z.div_unique _ _ _ (k - 1)); lia.
  - apply (Z.div_unique _ _ _ (n mod k - 1)); lia.
Qed.

Lemma days_ceil y : days_since_2000 y =
  let n := y - 2000 in 365 * n + (n + 4 - 1) / 4 - (n + 100 - 1) / 100 + (n + 400 - 1) / 400.
Proof. unfold days_since_2000, leap_days. simpl. dlia. Qed.

(** The year term of [timestamp]: one day short after 2000 except in leap years. *)
Lemma year_days y :
  let n := y - 2000 in
  n * 365 + Z.quot n 400 - Z.quot n 100 + Z.quot n 4 =
  days_since_2000 y - (if (2000 <? y) && negb (leap y) then 1 else 0).
Proof.
  intros n. rewrite days_ceil. fold n. cbv zeta. destruct (2000 <? y) eqn:E; bools.
  - rewrite !Z.quot_div_nonneg, !ceil_div by lia. unfold leap.
    assert (n mod 4 = y mod 4 /\ n mod 100 = y mod 100 /\ n mod 400 = y mod 400) as (-> & -> & ->)
      by (unfold n; split_and!; dlia).
    destruct (y mod 4 =? 0) eqn:E4, (y mod 100 =? 0) eqn:E100, (y mod 400 =? 0) eqn:E400; bools; simpl; try lia; dlia.
  - rewrite !quot_neg by lia. simpl. lia.
Qed.

Lemma rem_mod y k : 0 < k -> (Z.rem y k =? 0) = (y mod k =? 0).
Proof.
  intros Hk. apply Bool.eq_iff_eq_true. rewrite !Z.eqb_eq.
  rewrite Z.rem_divide, Z.mod_divide by lia. done.
Qed.

Lemma is_leap_flag y :
  b2z (Z.rem y 4 =? 0) - b2z (Z.rem y 100 =? 0) + b2z (Z.rem y 400 =? 0) = b2z (leap y).
Proof.
  rewrite !rem_mod by lia. unfold leap, b2z.
  destruct (y mod 4 =? 0) eqn:E4, (y mod 100 =? 0) eqn:E100, (y mod 400 =? 0) eqn:E400; bools; simpl; try lia; dlia.
Qed.

Lemma days_before_get m : 0 <= m < 12 ->
  get DAYS_BEFORE m = Some (nth (Z.to_nat m) DAYS_BEFORE 0) /\ 0 <= nth (Z.to_nat m) DAYS_BEFORE 0 <= 334.
Proof.
  intros Hm. assert (m = 0 \/ m = 1 \/ m = 2 \/ m = 3 \/ m = 4 \/ m = 5 \/ m = 6 \/ m = 7 \/ m = 8 \/
    m = 9 \/ m = 10 \/ m = 11) as H by lia.
  repeat (destruct H as [->|H]; [vm_compute; split; [done|split; discriminate]|]).
  subst. vm_compute; split; [done|split; discriminate].
Qed.

Lemma DivMod64_nonneg N D : 0 <= N < 2 ^ 63 -> 0 < D < 2 ^ 63 -> DivMod64 N D = Some (N / D, N mod D).
Proof.
  intros HN HD. unfold DivMod64. replace (N <? 0) with false by (symmetry; lia).
  replace (D <? 0) with false by (symmetry; lia). cbn [xorb].
  rewrite !u64_small by lia. rewrite divmod64U_spec by lia. cbn [mbind option_bind].
  assert (0 <= N / D <= N) by (split; [apply Z.div_pos; lia|apply Z.div_le_upper_bound; nia]).
  pose proof (Z.mod_pos_bound N D ltac:(lia)). by rewrite !i64_small by lia.
Qed.

(** Whatever the sign, the remainder is a residue. *)
Lemma DivMod64_total N D : - 2 ^ 62 < N < 2 ^ 62 -> 0 < D < 2 ^ 62 ->
  exists q r, DivMod64 N D = Some (q, r) /\ 0 <= r < D.
Proof.
  intros HN HD. unfold DivMod64. replace (D <? 0) with false by (symmetry; lia).
  set (A := if N <? 0 then i64 (- N) else N).
  assert (0 <= A < 2 ^ 62) as HA by (unfold A; case_if; rewrite ?i64_small; lia).
  rewrite !u64_small by lia. rewrite divmod64U_spec by lia. cbn [mbind option_bind].
  pose proof (Z.mod_pos_bound A D ltac:(lia)). rewrite (i64_small (A mod D)) by lia. eauto.
Qed.

Lemma split_years_total TS : - 2 ^ 62 < TS < 2 ^ 62 ->
  exists y T l, split_years TS = Some (y, T, l) /\ 0 <= T < 366.
Proof.
  intros HT. unfold split_years.
  destruct (DivMod64_total TS (365 * 400 + (400 / 4 - 3))) as (q & T1 & -> & H1); [lia|done|].
  cbn [mbind option_bind]. change (365 * 400 + (400 / 4 - 3)) with 146097 in H1.
  case_if; [eexists _, _, _; split; [done|lia]|].
  destruct (DivMod64_total T1 (365 * 100 + (100 / 4 - 1))) as (q2 & T2 & -> & H2); [lia|done|].
  cbn [mbind option_bind]. change (365 * 100 + (100 / 4 - 1)) with 36524 in H2.
  case_if; [eexists _, _, _; split; [done|lia]|].
  destruct (DivMod64_total T2 (365 * 4 + 1)) as (q3 & T3 & -> & H3); [lia|done|].
  cbn [mbind option_bind]. case_if; [eexists _, _, _; split; [done|lia]|].
  destruct (DivMod64_total T3 356) as (q4 & T4 & -> & H4); [lia|done|].
  cbn [mbind option_bind]. eexists _, _, _. split; [done|lia].
Qed.

Lemma month_index_range T : 0 <= T -> (1 <= month_index 0 DAYS_BEFORE T <= 12)%nat.
Proof.
  intros HT. unfold DAYS_BEFORE. cbn [month_index].
  repeat (case_if; [lia|]). lia.
Qed.
End years.

(** ** Theorems *)
Module TimeProps.

(** For every date of the years up to a million either side of 2000, [timestamp] is the proleptic Gregorian count of
    milliseconds, less one day exactly when the year is after 2000 and not a leap year. *)
Theorem timestamp_reference sec min hrs day month year :
  0 <= sec < 60 -> 0 <= min < 60 -> 0 <= hrs < 24 -> 0 <= day < 31 -> 0 <= month < 12 ->
  -1000000 <= year <= 1000000 ->
  timestamp sec min hrs day month year =
  Some (reference sec min hrs day month year - (if (2000 <? year) && negb (leap year) then 86400000 else 0)).
Proof.
  intros Hs Hmi Hh Hd Hm Hy. unfold timestamp, reference.
  replace ((0 <=? sec) && (sec <? 60)) with true by (symmetry; lia).
  replace ((0 <=? min) && (min <? 60)) with true by (symmetry; lia).
  replace ((0 <=? hrs) && (hrs <? 24)) with true by (symmetry; lia).
  replace ((0 <=? day) && (day <? 31)) with true by (symmetry; lia).
  replace ((0 <=? month) && (month <? 12)) with true by (symmetry; lia). cbn [negb].
  destruct (days_before_get month Hm) as [-> Hb]. cbn [mbind option_bind].
  set (before := nth _ _ _) in *. clearbody before.
  rewrite is_leap_flag. rewrite (i32_small (year - 2000)) by lia.
  pose proof (year_days year) as Hyd. cbv zeta in Hyd. rewrite Hyd. clear Hyd.
  assert (-400000000 <= days_since_2000 year <= 400000000) as Hr
    by (rewrite days_ceil; cbv zeta; dlia).
  set (D := days_since_2000 year) in *. clearbody D. unfold UNIX_TO_2K.
  set (late := (2000 <? year) && negb (leap year)).
  assert (0 <= (if late then 1 else 0) <= 1) as Hl by (destruct late; lia).
  rewrite (i32_small (D - _)) by lia.
  destruct (leap year); cbn [b2z Z.eqb negb orb andb]; [destruct (1 <? month)|]; cbv iota;
    ints; f_equal; destruct late; lia.
Qed.

Lemma timestamp_reference_witness : timestamp 5 4 3 28 1 2004 = Some (reference 5 4 3 28 1 2004).
Proof. rewrite (timestamp_reference 5 4 3 28 1 2004) by lia. vm_compute. reflexivity. Defined.

(** For every time from 1970 on, [format_date] returns and its time of day is right. *)
Theorem format_date_time TS : 0 <= TS < 2 ^ 53 ->
  exists d, format_date TS = Some d /\ ms d = TS mod 1000 /\ sec d = TS / 1000 mod 60 /\
    mins d = TS / 60000 mod 60 /\ hrs d = TS / 3600000 mod 24.
Proof.
  intros HT. unfold format_date.
  assert (0 <= TS / 1000 <= TS /\ 0 <= TS / 1000 / 60 <= TS /\ 0 <= TS / 1000 / 60 / 60 <= TS)
    as (Ha & Hb & Hc) by (split_and!; dlia).
  do 4 (rewrite DivMod64_nonneg by lia; cbn [mbind option_bind]).
  set (T0 := TS / 1000 / 60 / 60 / 24). assert (0 <= T0 <= TS) as HT0 by (unfold T0; dlia).
  change (UNIX_TO_2K / (3600 * 24)) with 10957. rewrite (i64_small (T0 - 10957)) by lia.
  destruct (split_years_total (T0 - 10957)) as (y & T & l & -> & HTr); [lia|]. cbn [mbind option_bind].
  replace (0 <=? T) with true by (symmetry; lia). cbn [negb].
  set (p := if l && (59 <? T) then (T - 1, 1) else (T, 0)).
  assert (0 <= p.1) as Hp.
  { unfold p. destruct (l && (59 <? T)) eqn:E; simpl; [|lia]. apply andb_prop in E as [_ E]. bools. lia. }
  destruct p as [T1 dd]. simpl in Hp. pose proof (month_index_range T1 Hp) as Hi.
  destruct (DAYS_BEFORE !! (month_index 0 DAYS_BEFORE T1 - 1)%nat) as [bf|] eqn:Eb.
  2: { apply lookup_ge_None in Eb. change (length DAYS_BEFORE) with 12%nat in Eb. lia. }
  cbn [mbind option_bind]. eexists. split; [done|]. simpl.
  rewrite !Z.div_div by lia. done.
Qed.

Lemma format_date_time_witness : exists d, format_date 1234567890123 = Some d /\ hrs d = 23 /\ mins d = 31.
Proof.
  destruct (format_date_time 1234567890123) as (d & Hd & _ & _ & Hm & Hh); [lia|].
  exists d. rewrite Hh, Hm. exact (conj Hd (conj eq_refl eq_refl)).
Defined.

(** The date part is wrong for most days: the first day of 2001 is shown as the 11th of January, the
    first of March 2000 as the second, the 29th of February 2000 as the first of March, and the last day of 1999
    as the second of January 2000. *)
Theorem format_date_wrong :
  let day_of y m d := reference 0 0 0 d m y in
  let shown ts := option_map (fun d => (year d, month d, day d)) (format_date ts) in
  shown (day_of 2001 0 0) = Some (2001, 0, 10) /\
  shown (day_of 2000 2 0) = Some (2000, 2, 1) /\
  shown (day_of 2000 1 28) = Some (2000, 2, 0) /\
  shown (day_of 1999 11 30) = Some (2000, 0, 1).
Proof. vm_compute. done. Qed.
End TimeProps.
