(* ===== verification/Pmemmap.v ===== *)
(** * The physical memory map ([KernelLand/Kernel/pmemmap.c])

    The boot code's table of memory ranges: an array of [MaxEnts] entries of which the
    first [NEnts] are in use.  The array is a list of length [MaxEnts]; an access
    outside it is [None]. *)
From S2P Require Import Prelude CString.
Local Open Scope Z_scope.

Inductive ePMemMapEntType :=
  PMEMTYPE_FREE | PMEMTYPE_USED | PMEMTYPE_RESERVED | PMEMTYPE_NVRAM | PMEMTYPE_UNMAPPED.
#[export] Instance type_eq : EqDecision ePMemMapEntType.
Proof. solve_decision. Defined.

Record tPMemMapEnt := Ent { Start : Z; Length : Z; Type_ : ePMemMapEntType; NUMADomain : Z }.
#[export] Instance ent_eq : EqDecision tPMemMapEnt.
Proof. solve_decision. Defined.

Definition ent_end (e : tPMemMapEnt) : Z := u64 (Start e + Length e).

(** ** Operations *)
Definition PMemMap_SplitBlock (map : list tPMemMapEnt) (NEnts MaxEnts Block Offset : Z)
  : option (list tPMemMapEnt * Z) :=
  b ← get map Block;
  let _len := Length b in
  map ← set map Block (Ent (Start b) Offset (Type_ b) (NUMADomain b));
  if NEnts =? MaxEnts then Some (map, NEnts) else
  map ← (if Block <? NEnts then memmove map (Block + 2) (Block + 1) (NEnts - Block) else Some map);
  p ← get map Block;
  map ← set map (Block + 1)
          (Ent (u64 (Start p + Offset)) (u64 (_len - Offset)) (Type_ p) (NUMADomain p));
  Some (map, NEnts + 1).

(** The loop from [i]; every pass either advances [i] or removes an entry. *)
Fixpoint compact_loop (fuel : nat) (map : list tPMemMapEnt) (NEnts i : Z)
  : option (list tPMemMapEnt * Z) :=
  match fuel with
  | O => None
  | S fuel' =>
      if negb (i <? NEnts) then Some (map, NEnts) else
      p ← get map (i - 1);
      c ← get map i;
      if ent_end p <? Start c then compact_loop fuel' map NEnts (i + 1) else
      if negb (bool_decide (Type_ p = Type_ c)) then compact_loop fuel' map NEnts (i + 1) else
      if negb (NUMADomain p =? NUMADomain c) then compact_loop fuel' map NEnts (i + 1) else
      map ← set map (i - 1) (Ent (Start p) (u64 (Length p + Length c)) (Type_ p) (NUMADomain p));
      map ← memmove map i (i + 1) (NEnts - (i + 1));
      compact_loop fuel' map (NEnts - 1) i
  end.
Definition PMemMap_CompactMap (map : list tPMemMapEnt) (NEnts MaxEnts : Z)
  : option (list tPMemMapEnt * Z) :=
  compact_loop (S (Z.to_nat NEnts)) map NEnts 1.

(** [for( int i = 1; i < NEnts; i ++ )] with the test for a descent; [n] entries
    are left to look at. *)
Fixpoint needs_sort (n : nat) (map : list tPMemMapEnt) (i : Z) : option bool :=
  match n with
  | O => Some false
  | S n' =>
      p ← get map (i - 1); c ← get map i;
      if Start c <? Start p then Some true else needs_sort n' map (i + 1)
  end.

(** The inner loop of the selection sort, from [j]. *)
Fixpoint select_min (n : nat) (map : list tPMemMapEnt) (sel j : Z) : option Z :=
  match n with
  | O => Some sel
  | S n' =>
      e ← get map j; s ← get map sel;
      select_min n' map (if Start e <? Start s then j else sel) (j + 1)
  end.

Fixpoint sort_loop (n : nat) (map : list tPMemMapEnt) (NEnts i : Z) : option (list tPMemMapEnt) :=
  match n with
  | O => Some map
  | S n' =>
      sel ← select_min (Z.to_nat (NEnts - (i + 1))) map i (i + 1);
      map ← (if negb (sel =? i) then
               tmp ← get map i; s ← get map sel;
               map ← set map i s; set map sel tmp
             else Some map);
      sort_loop n' map NEnts (i + 1)
  end.

(** The pass that reports overlaps only logs, but reads every entry. *)
Fixpoint overlap_pass (n : nat) (map : list tPMemMapEnt) (i : Z) : option unit :=
  match n with
  | O => Some tt
  | S n' => p ← get map (i - 1); c ← get map i; overlap_pass n' map (i + 1)
  end.

Definition PMemMap_ValidateMap (map : list tPMemMapEnt) (NEnts MaxEnts : Z)
  : option (list tPMemMapEnt * Z) :=
  bNeedsSort ← needs_sort (Z.to_nat (NEnts - 1)) map 1;
  map ← (if (bNeedsSort : bool) then sort_loop (Z.to_nat NEnts) map NEnts 0 else Some map);
  _ ← overlap_pass (Z.to_nat (NEnts - 1)) map 1;
  PMemMap_CompactMap map NEnts MaxEnts.

(** The first entry that ends after [Base], -1 for none. *)
Fixpoint find_first (n : nat) (map : list tPMemMapEnt) (i Base : Z) : option Z :=
  match n with
  | O => Some (-1)
  | S n' => e ← get map i; if Base <? ent_end e then Some i else find_first n' map (i + 1) Base
  end.

(** The entry [first] starts at the range: split off what follows and mark. *)
Definition mark_front (map : list tPMemMapEnt) (NEnts MaxEnts first Size : Z) : option (list tPMemMapEnt * Z) :=
  e ← get map first;
  r ← (if Size <? Length e then
         if NEnts =? MaxEnts then Some None else
         '(map, NEnts) ← PMemMap_SplitBlock map NEnts MaxEnts first Size;
         Some (Some (map, NEnts))
       else Some (Some (map, NEnts)));
  match r with
  | None => Some (map, NEnts)
  | Some (map, NEnts) =>
      e ← get map first;
      map ← set map first (Ent (Start e) (Length e) PMEMTYPE_USED (NUMADomain e));
      PMemMap_CompactMap map NEnts MaxEnts
  end.

Definition PMemMap_MarkRangeUsed (map : list tPMemMapEnt) (NEnts MaxEnts Base Size : Z)
  : option (list tPMemMapEnt * Z) :=
  let Size := Z.land (u64 (Size + 0xFFF)) (Z.lnot 0xFFF) in
  let Base := Z.land Base (Z.lnot 0xFFF) in
  first ← find_first (Z.to_nat NEnts) map 0 Base;
  if first =? -1 then Some (map, NEnts) else
  e ← get map first;
  if Base <? Start e then Some (map, NEnts) else
  if (Start e <=? Base) && (u64 (Base + Size) <=? ent_end e) then
    r ← (if Start e <? Base then
           if NEnts =? MaxEnts then Some None else
           '(map, NEnts) ← PMemMap_SplitBlock map NEnts MaxEnts first (u64 (Base - Start e));
           Some (Some (map, NEnts, first + 1))
         else Some (Some (map, NEnts, first)));
    match r with
    | None => Some (map, NEnts)
    | Some (map, NEnts, first) => mark_front map NEnts MaxEnts first Size
    end
  else Some (map, NEnts).

(** ** The ranges a map describes *)
Section spec.
Implicit Types (ents pre rest t : list tPMemMapEnt) (e p c : tPMemMapEnt).

Definition ok_ent e : Prop := 0 <= Start e /\ 0 <= Length e /\ Start e + Length e < 2 ^ 64.

(** In order, without overlap. *)
Fixpoint ordered ents : Prop :=
  match ents with
  | p :: ((c :: _) as rest) => Start p + Length p <= Start c /\ ordered rest
  | _ => True
  end.
Definition wf ents : Prop := Forall ok_ent ents /\ ordered ents.

(** Address [x] is described as memory of type and domain [a]. *)
Definition has ents (x : Z) (a : ePMemMapEntType * Z) : Prop :=
  exists e, e ∈ ents /\ Start e <= x < Start e + Length e /\ a = (Type_ e, NUMADomain e).

Lemma ent_end_ok e : ok_ent e -> ent_end e = Start e + Length e.
Proof. intros (? & ? & ?). unfold ent_end. rewrite u64_small; lia. Qed.

Lemma has_nil x a : has [] x a <-> False.
Proof. split; [intros (e & ?%not_elem_of_nil & _); done|done]. Qed.

Lemma has_cons e ents x a :
  has (e :: ents) x a <-> (Start e <= x < Start e + Length e /\ a = (Type_ e, NUMADomain e)) \/ has ents x a.
Proof.
  unfold has. setoid_rewrite elem_of_cons. split.
  - intros (e' & [->|H] & Hx); [by left|]. right. eauto.
  - intros [Hx|(e' & H & Hx)]; [exists e; tauto|exists e'; tauto].
Qed.

Lemma has_app l r x a : has (l ++ r) x a <-> has l x a \/ has r x a.
Proof. unfold has. setoid_rewrite elem_of_app. naive_solver. Qed.

#[global] Instance has_perm : Proper ((≡ₚ) ==> (=) ==> (=) ==> iff) has.
Proof.
  intros l k Hp x ? <- a ? <-. unfold has. split; intros (e & He & Hx); exists e;
    (split; [|done]); [by rewrite <- Hp|by rewrite Hp].
Qed.

Lemma ordered_tail e ents : ordered (e :: ents) -> ordered ents.
Proof. destruct ents; simpl; tauto. Qed.

Lemma wf_cons_inv e ents : wf (e :: ents) -> ok_ent e /\ wf ents.
Proof. intros [Hf Ho]. apply Forall_cons in Hf as [? ?]. split; [done|]. split; [done|]. by eapply ordered_tail. Qed.

(** ** Compaction on lists *)
Definition joinable p c : bool :=
  negb (ent_end p <? Start c) && bool_decide (Type_ p = Type_ c) && (NUMADomain p =? NUMADomain c).
Definition join p c : tPMemMapEnt :=
  Ent (Start p) (u64 (Length p + Length c)) (Type_ p) (NUMADomain p).
Fixpoint compact_from p rest : list tPMemMapEnt :=
  match rest with
  | [] => [p]
  | c :: rest' =>
      if joinable p c then compact_from (join p c) rest' else p :: compact_from c rest'
  end.
Definition compacted ents : list tPMemMapEnt :=
  match ents with [] => [] | p :: rest => compact_from p rest end.

Lemma memmove_down X e r t :
  memmove (X ++ e :: r ++ t) (len X) (len X + 1) (len r)
  = Some (X ++ r ++ drop (length r) (e :: r ++ t)).
Proof.
  pose proof (len_nonneg X). pose proof (len_nonneg r). pose proof (len_nonneg t).
  rewrite memmove_wr; rewrite ?len_app, ?len_cons, ?len_app; try lia.
  replace (X ++ e :: r ++ t) with ((X ++ [e]) ++ r ++ t) at 2 by (by rewrite <- app_assoc).
  assert (len X + 1 = len (X ++ [e])) as -> by (by rewrite len_app). rewrite sub_app.
  apply wr_app. rewrite len_cons, len_app. lia.
Qed.

Lemma compact_loop_spec rest : forall fuel pre p t, (length rest < fuel)%nat ->
  exists t', compact_loop fuel (pre ++ p :: rest ++ t) (len pre + 1 + len rest) (len pre + 1) =
    Some (pre ++ compact_from p rest ++ t', len pre + len (compact_from p rest)) /\
    (S (length rest + length t) = length (compact_from p rest) + length t')%nat.
Proof.
  induction rest as [|c rest IH]; intros [|fuel] pre p t Hf; simpl in Hf; try lia.
  - exists t. cbn [compact_loop]. change (len (@nil tPMemMapEnt)) with 0.
    replace (len pre + 1 <? len pre + 1 + 0) with false by (symmetry; lia). simpl.
    split; [|lia]. do 2 f_equal. unfold len. simpl. lia.
  - cbn [compact_loop]. rewrite len_cons. pose proof (len_nonneg rest).
    replace (len pre + 1 <? len pre + 1 + (1 + len rest)) with true by (symmetry; lia). cbn [negb].
    replace (len pre + 1 - 1) with (len pre) by lia. rewrite get_middle. cbn [mbind option_bind].
    assert (pre ++ p :: (c :: rest) ++ t = (pre ++ [p]) ++ c :: rest ++ t) as Eq by (by rewrite <- app_assoc).
    assert (len (pre ++ [p]) = len pre + 1) as Hlp by (by rewrite len_app).
    rewrite Eq, <- Hlp, get_middle. cbn [mbind option_bind].
    assert (exists t', compact_loop fuel ((pre ++ [p]) ++ c :: rest ++ t) (len (pre ++ [p]) + (1 + len rest))
      (len (pre ++ [p]) + 1) = Some (pre ++ p :: compact_from c rest ++ t', len pre + len (p :: compact_from c rest)) /\
      (S (length (c :: rest) + length t) = length (p :: compact_from c rest) + length t')%nat) as Hskip.
    { destruct (IH fuel (pre ++ [p]) c t) as (t' & Ht & Hl); [lia|]. exists t'.
      replace (len (pre ++ [p]) + (1 + len rest)) with (len (pre ++ [p]) + 1 + len rest) by lia.
      rewrite Ht, <- app_assoc, Hlp, len_cons. split; [do 2 f_equal; lia|]. simpl. lia. }
    unfold compact_from; fold compact_from. unfold joinable.
    destruct (ent_end p <? Start c); [exact Hskip|].
    destruct (bool_decide (Type_ p = Type_ c)); [|exact Hskip].
    destruct (NUMADomain p =? NUMADomain c); [|exact Hskip]. cbn [negb andb]. clear Hskip. cbv iota.
    rewrite <- Eq. change (p :: (c :: rest) ++ t) with (p :: c :: rest ++ t).
    rewrite set_middle. cbn [mbind option_bind]. fold (join p c).
    replace (pre ++ join p c :: c :: rest ++ t) with ((pre ++ [join p c]) ++ c :: rest ++ t)
      by (by rewrite <- app_assoc).
    assert (len (pre ++ [join p c]) = len pre + 1) as Hlj by (by rewrite len_app).
    rewrite Hlp. replace (len pre + 1 + (1 + len rest) - (len pre + 1 + 1)) with (len rest) by lia.
    rewrite <- Hlj, memmove_down. cbn [mbind option_bind].
    destruct (IH fuel pre (join p c) (drop (length rest) (c :: rest ++ t))) as (t' & Ht & Hl); [lia|].
    exists t'. rewrite <- app_assoc. cbn [app].
    replace (len (pre ++ [join p c]) + (1 + len rest) - 1) with (len pre + 1 + len rest) by lia.
    rewrite Hlj, Ht. split; [done|]. rewrite length_drop in Hl. simpl in *. rewrite length_app in Hl. lia.
Qed.

Lemma CompactMap_spec ents t M : exists t',
  PMemMap_CompactMap (ents ++ t) (len ents) M = Some (compacted ents ++ t', len (compacted ents)) /\
  (length ents + length t = length (compacted ents) + length t')%nat.
Proof.
  unfold PMemMap_CompactMap. destruct ents as [|p rest].
  { exists t. done. }
  destruct (compact_loop_spec rest (S (Z.to_nat (len (p :: rest)))) [] p t) as (t' & Ht & Hl).
  { unfold len. simpl. lia. }
  exists t'. change (len (@nil tPMemMapEnt)) with 0 in Ht. rewrite !Z.add_0_l in Ht. cbn [app] in *.
  rewrite len_cons in *. rewrite Ht. split; [done|]. simpl in *. unfold compacted. lia.
Qed.
End spec.

(** ** Compaction keeps the description *)
Section compaction.
Implicit Types (ents pre rest t : list tPMemMapEnt) (e p c : tPMemMapEnt).

Lemma join_ok p c : ok_ent p -> ok_ent c -> Start p + Length p <= Start c -> joinable p c = true ->
  ok_ent (join p c) /\ Start (join p c) = Start p /\ Start (join p c) + Length (join p c) = Start c + Length c /\
  Start p + Length p = Start c /\ Type_ p = Type_ c /\ NUMADomain p = NUMADomain c.
Proof.
  intros Hp Hc Ho Hj. unfold joinable in Hj. apply andb_prop in Hj as [[He Ht]%andb_prop Hn].
  rewrite ent_end_ok in He by done. bools. apply bool_decide_eq_true_1 in Ht.
  destruct Hp as (? & ? & ?), Hc as (? & ? & ?). unfold join, ok_ent. cbn [Start Length].
  rewrite u64_small by lia. split_and!; try done; lia.
Qed.

Lemma has_join p c ents x a : ok_ent p -> ok_ent c -> Start p + Length p <= Start c -> joinable p c = true ->
  has (join p c :: ents) x a <-> has (p :: c :: ents) x a.
Proof.
  intros Hp Hc Ho Hj. destruct (join_ok p c Hp Hc Ho Hj) as (_ & Hs & He & Hm & Ht & Hn).
  rewrite !has_cons, He, Hs. change (Type_ (join p c)) with (Type_ p).
  change (NUMADomain (join p c)) with (NUMADomain p). rewrite <- Ht, <- Hn.
  destruct Hp as (? & ? & ?), Hc as (? & ? & ?).
  destruct (decide (x < Start c)); split; intros [[? ?]|H']; auto; try (destruct H' as [[? ?]|H']); auto.
  all: first [left; split; [lia|done] | right; left; split; [lia|done] | idtac].
Qed.

Lemma wf_cons2 p c ents : wf (p :: c :: ents) <-> ok_ent p /\ Start p + Length p <= Start c /\ wf (c :: ents).
Proof. unfold wf. rewrite (Forall_cons _ p). simpl. tauto. Qed.

Lemma wf_join p c ents : wf (p :: c :: ents) -> joinable p c = true -> wf (join p c :: ents).
Proof.
  intros (Hp & Ho & Hw)%wf_cons2 Hj. pose proof (wf_cons_inv _ _ Hw) as [Hc _].
  destruct (join_ok p c Hp Hc Ho Hj) as (Hjo & Hs & He & _).
  destruct ents as [|e ents]; [by split; [apply Forall_singleton|]|].
  apply wf_cons2 in Hw as (_ & Hce & Hw). apply wf_cons2. rewrite He. done.
Qed.

Definition no_joinable ents : Prop :=
  forall l p c r, ents = l ++ p :: c :: r -> joinable p c = false.

Lemma compact_from_spec rest : forall p, wf (p :: rest) ->
  wf (compact_from p rest) /\ (forall x a, has (compact_from p rest) x a <-> has (p :: rest) x a) /\
  no_joinable (compact_from p rest) /\
  exists q r, compact_from p rest = q :: r /\ Start q = Start p /\
    (forall e, joinable e q = joinable e p).
Proof.
  induction rest as [|c rest IH]; intros p Hw.
  - split; [done|]. split; [done|]. split; [|by exists p, []].
    intros [|? [|? l]] ? ? ? [=].
  - pose proof Hw as (Hp & Ho & Hw')%wf_cons2. pose proof (wf_cons_inv _ _ Hw') as [Hc _].
    simpl. destruct (joinable p c) eqn:Hj.
    + destruct (IH _ (wf_join _ _ _ Hw Hj)) as (H1 & H2 & H3 & q & r & H4 & H5 & H6).
      split; [done|]. split; [intros; rewrite H2; by apply has_join|]. split; [done|].
      exists q, r. split_and!; [done|exact H5|]. intros e. rewrite H6. done.
    + destruct (IH c Hw') as (H1 & H2 & H3 & q & r & H4 & H5 & H6). split_and!.
      * rewrite H4 in *. apply wf_cons2. rewrite H5. done.
      * intros. by rewrite has_cons, (has_cons p), H2.
      * intros [|z l] p' c' r'; rewrite H4; [intros [= -> -> ->]; by rewrite H6|].
        intros [= -> E]. rewrite H4 in H3. by eapply H3.
      * by exists p, (compact_from c rest).
Qed.

Lemma compacted_spec ents : wf ents ->
  wf (compacted ents) /\ (forall x a, has (compacted ents) x a <-> has ents x a) /\ no_joinable (compacted ents).
Proof.
  destruct ents as [|p rest]; intros Hw.
  - split_and!; [done|done|]. intros [|? ?] ? ? ? [=].
  - destruct (compact_from_spec rest p Hw) as (H1 & H2 & H3 & _). done.
Qed.
End compaction.

(** ** Sorting *)
Section sorting.
Implicit Types (P Q X rest t M : list tPMemMapEnt) (e s : tPMemMapEnt).

Definition le_start e s : Prop := Start e <= Start s.

Lemma select_min_spec Q : forall P t sel s, 0 <= sel < len P -> get (P ++ Q ++ t) sel = Some s ->
  exists sel' s', select_min (length Q) (P ++ Q ++ t) sel (len P) = Some sel' /\
    get (P ++ Q ++ t) sel' = Some s' /\ le_start s' s /\ Forall (le_start s') Q /\
    (sel' = sel \/ len P <= sel' < len P + len Q).
Proof.
  induction Q as [|e Q IH]; intros P t sel s Hsel Hs; cbn [select_min length].
  - exists sel, s. split_and!; try done; [unfold le_start; lia|by left].
  - cbn [app] in *. rewrite get_middle, Hs. cbn [mbind option_bind].
    assert (P ++ e :: Q ++ t = (P ++ [e]) ++ Q ++ t) as Eq by (by rewrite <- app_assoc).
    assert (len (P ++ [e]) = len P + 1) as Hl by (by rewrite len_app).
    pose proof (len_nonneg P). pose proof (len_nonneg Q). rewrite len_cons.
    destruct (Start e <? Start s) eqn:E; bools.
    + destruct (IH (P ++ [e]) t (len P) e) as (sel' & s' & H1 & H2 & H3 & H4 & H5).
      { lia. } { rewrite <- Eq. apply get_middle. }
      rewrite <- Eq, Hl in *. exists sel', s'. unfold le_start in *. split_and!; try done; try lia.
      constructor; done.
    + destruct (IH (P ++ [e]) t sel s) as (sel' & s' & H1 & H2 & H3 & H4 & H5).
      { lia. } { by rewrite <- Eq. }
      rewrite <- Eq, Hl in *. exists sel', s'. unfold le_start in *. split_and!; try done; try lia.
      constructor; [lia|done].
Qed.

Lemma get_split {A} (P Q t : list A) i x : get (P ++ Q ++ t) i = Some x -> len P <= i < len P + len Q ->
  exists l r, Q = l ++ x :: r /\ i = len P + len l.
Proof.
  intros Hg Hi. unfold get, len in *. replace (0 <=? i) with true in Hg by (symmetry; lia).
  rewrite lookup_app_r, lookup_app_l in Hg by lia.
  exists (take (Z.to_nat i - length P) Q), (drop (S (Z.to_nat i - length P)) Q).
  split; [by rewrite take_drop_middle|]. rewrite length_take. lia.
Qed.

Lemma sort_loop_spec n : forall rest X t, length rest = n ->
  exists r', sort_loop n (X ++ rest ++ t) (len X + len rest) (len X) = Some (X ++ r' ++ t) /\
    r' ≡ₚ rest /\ StronglySorted le_start r'.
Proof.
  induction n as [|n IH]; intros rest X t Hn.
  { destruct rest; [|done]. exists []. split_and!; try done. constructor. }
  destruct rest as [|e rest]; [done|]. injection Hn as Hn. cbn [sort_loop].
  pose proof (len_nonneg X). pose proof (len_nonneg rest). rewrite len_cons.
  assert (len (X ++ [e]) = len X + 1) as Hl by (by rewrite len_app).
  assert (Z.to_nat (len X + (1 + len rest) - (len X + 1)) = length rest) as -> by (unfold len in *; lia).
  assert (X ++ (e :: rest) ++ t = (X ++ [e]) ++ rest ++ t) as Eq by (by rewrite <- app_assoc).
  destruct (select_min_spec rest (X ++ [e]) t (len X) e) as (sel & s & Hsel & Hg & Hle & Hall & Hwhere).
  { lia. } { rewrite <- Eq. apply get_middle. }
  rewrite <- Eq, Hl in *. rewrite Hsel. cbn [mbind option_bind].
  assert (forall y rest', y :: rest' ≡ₚ e :: rest -> length rest' = n -> Forall (le_start y) rest' ->
    exists r', sort_loop n (X ++ (y :: rest') ++ t) (len X + (1 + len rest)) (len X + 1) = Some (X ++ r' ++ t) /\
      r' ≡ₚ e :: rest /\ StronglySorted le_start r') as Hstep.
  { intros y rest' Hp Hlen Hmin. destruct (IH rest' (X ++ [y]) t Hlen) as (r & Hr & Hrp & Hrs).
    assert (len rest' = len rest) as Hlr by (unfold len; lia).
    rewrite len_app in Hr. change (len [y]) with 1 in Hr. rewrite <- app_assoc in Hr. cbn [app] in *.
    exists (y :: r). replace (len X + (1 + len rest)) with (len X + 1 + len rest') by lia.
    rewrite Hr. rewrite <- app_assoc. split; [done|]. split; [by rewrite Hrp|].
    constructor; [done|]. by rewrite Hrp. }
  destruct Hwhere as [->|Hin].
  - rewrite Z.eqb_refl. cbn [negb]. cbv iota. apply Hstep; [done|done|].
    cbn [app] in Hg; rewrite get_middle in Hg. injection Hg as ->. done.
  - replace (sel =? len X) with false by (symmetry; lia). cbn [negb]. cbv iota.
    assert (get ((X ++ [e]) ++ rest ++ t) sel = Some s) as Hg' by (by rewrite <- Eq).
    rewrite Hg. cbn [app] in *. rewrite get_middle. cbn [mbind option_bind]. rewrite set_middle.
    cbn [mbind option_bind].
    destruct (get_split _ _ _ _ _ Hg') as (l & r & -> & Hi); [lia|].
    replace (X ++ s :: (l ++ s :: r) ++ t) with ((X ++ s :: l) ++ s :: r ++ t)
      by (rewrite <- ?app_assoc; cbn [app]; rewrite <- ?app_assoc; done).
    assert (sel = len (X ++ s :: l)) as -> by (rewrite Hi, Hl, len_app, len_cons; lia).
    rewrite set_middle. cbn [mbind option_bind].
    replace ((X ++ s :: l) ++ e :: r ++ t) with (X ++ (s :: l ++ e :: r) ++ t)
      by (rewrite <- ?app_assoc; cbn [app]; rewrite <- ?app_assoc; done).
    apply Hstep.
    + rewrite <- !Permutation_middle. apply Permutation_swap.
    + rewrite <- Hn, !length_app. done.
    + rewrite Forall_app, Forall_cons in *. tauto.
Qed.

Lemma needs_sort_ok rest : forall pre p t, exists b,
  needs_sort (length rest) (pre ++ p :: rest ++ t) (len pre + 1) = Some b /\
  (b = false -> Sorted le_start (p :: rest)).
Proof.
  induction rest as [|c rest IH]; intros pre p t; cbn [needs_sort length].
  { exists false. split; [done|]. intros. repeat constructor. }
  replace (len pre + 1 - 1) with (len pre) by lia. rewrite get_middle. cbn [mbind option_bind].
  assert (pre ++ p :: (c :: rest) ++ t = (pre ++ [p]) ++ c :: rest ++ t) as Eq by (by rewrite <- app_assoc).
  assert (len (pre ++ [p]) = len pre + 1) as Hlp by (by rewrite len_app).
  rewrite Eq, <- Hlp, get_middle. cbn [mbind option_bind].
  destruct (Start c <? Start p) eqn:E; bools; [by exists true|].
  destruct (IH (pre ++ [p]) c t) as (b & Hb & Hs). exists b. split; [done|].
  intros Hf. specialize (Hs Hf). constructor; [done|]. constructor. unfold le_start. lia.
Qed.

Lemma overlap_pass_ok rest : forall pre p t,
  overlap_pass (length rest) (pre ++ p :: rest ++ t) (len pre + 1) = Some tt.
Proof.
  induction rest as [|c rest IH]; intros pre p t; cbn [overlap_pass length]; [done|].
  replace (len pre + 1 - 1) with (len pre) by lia. rewrite get_middle. cbn [mbind option_bind].
  assert (pre ++ p :: (c :: rest) ++ t = (pre ++ [p]) ++ c :: rest ++ t) as Eq by (by rewrite <- app_assoc).
  assert (len (pre ++ [p]) = len pre + 1) as Hlp by (by rewrite len_app).
  rewrite Eq, <- Hlp, get_middle. cbn [mbind option_bind]. apply IH.
Qed.
End sorting.

(** ** Splitting and marking *)
Section marking.
Implicit Types (ents pre rest t : list tPMemMapEnt) (e b : tPMemMapEnt).

Definition apart_ent e b : Prop := Start e + Length e <= Start b \/ Start b + Length b <= Start e.
Fixpoint all_apart ents : Prop :=
  match ents with [] => True | e :: ents' => Forall (apart_ent e) ents' /\ all_apart ents' end.

Lemma all_apart_perm l k : l ≡ₚ k -> all_apart l -> all_apart k.
Proof.
  intros Hp. induction Hp as [|x l k Hp IH|x y l|]; simpl; try tauto.
  - intros [Hf Hr]. split; [by rewrite <- Hp|auto].
  - rewrite !Forall_cons. unfold apart_ent. tauto.
Qed.

Lemma sorted_ordered ents : Forall (fun e => 0 < Length e) ents -> all_apart ents ->
  StronglySorted le_start ents -> ordered ents.
Proof.
  intros Hl Ha Hs. induction Hs as [|e ents Hs IH Hf]; [done|].
  apply Forall_cons in Hl as [He Hl]. destruct Ha as [Hae Ha]. destruct ents as [|c ents]; [done|].
  split; [|by apply IH]. apply Forall_cons in Hf as [Hf _]. apply Forall_cons in Hl as [Hc _].
  apply Forall_cons in Hae as [[?|?] _]; unfold le_start in Hf; lia.
Qed.

Lemma split_middle pre b rest (u0 u1 : tPMemMapEnt) t M Offset :
  0 <= Start b -> 0 <= Offset <= Length b -> Start b + Length b < 2 ^ 64 ->
  len pre + 1 + len rest <> M ->
  PMemMap_SplitBlock (pre ++ b :: rest ++ u0 :: u1 :: t) (len pre + 1 + len rest) M (len pre) Offset =
  Some (pre ++ Ent (Start b) Offset (Type_ b) (NUMADomain b) ::
               Ent (Start b + Offset) (Length b - Offset) (Type_ b) (NUMADomain b) :: rest ++ u0 :: t,
        len pre + 1 + len rest + 1).
Proof.
  intros Hs Ho He HM. unfold PMemMap_SplitBlock. rewrite get_middle. cbn [mbind option_bind].
  rewrite set_middle. cbn [mbind option_bind]. set (b1 := Ent (Start b) Offset (Type_ b) (NUMADomain b)).
  pose proof (len_nonneg pre). pose proof (len_nonneg rest).
  replace (len pre + 1 + len rest =? M) with false by (symmetry; lia).
  replace (len pre <? len pre + 1 + len rest) with true by (symmetry; lia). cbv iota.
  pose proof (len_nonneg t).
  assert (len (rest ++ [u0]) = len rest + 1) as HK by (by rewrite len_app).
  replace (len pre + 1 + len rest - len pre) with (len (rest ++ [u0])) by lia.
  assert (len (pre ++ b1 :: rest ++ u0 :: u1 :: t) = len pre + len rest + len t + 3) as HL
    by (rewrite len_app, len_cons, len_app, !len_cons; lia).
  rewrite memmove_wr by (rewrite ?HL, ?HK; lia).
  replace (pre ++ b1 :: rest ++ u0 :: u1 :: t) with ((pre ++ [b1]) ++ (rest ++ [u0]) ++ u1 :: t) at 2
    by (rewrite <- ?app_assoc; cbn [app]; rewrite <- ?app_assoc; done).
  assert (len pre + 1 = len (pre ++ [b1])) as Hpb by (by rewrite len_app). rewrite Hpb at 1.
  rewrite sub_app.
  destruct (rest ++ [u0]) as [|y ys] eqn:Ey; [by destruct rest|].
  replace (pre ++ b1 :: rest ++ u0 :: u1 :: t) with ((pre ++ [b1; y]) ++ ys ++ u1 :: t).
  2: { rewrite <- !app_assoc. cbn [app].
       replace (rest ++ u0 :: u1 :: t) with ((rest ++ [u0]) ++ u1 :: t) by (by rewrite <- app_assoc).
       by rewrite Ey. }
  assert (len pre + 2 = len (pre ++ [b1; y])) as -> by (by rewrite len_app).
  rewrite wr_app by (rewrite len_app, !len_cons; pose proof (len_nonneg t); lia).
  cbn [mbind option_bind]. rewrite <- !app_assoc. cbn [app]. rewrite get_middle. cbn [mbind option_bind].
  replace (pre ++ b1 :: y :: y :: ys ++ drop (length (y :: ys)) (ys ++ u1 :: t))
    with ((pre ++ [b1]) ++ y :: y :: ys ++ t).
  2: { rewrite <- app_assoc. cbn [app]. do 5 f_equal. simpl length.
       replace (S (length ys)) with (length ys + 1)%nat by lia. rewrite <- drop_drop, drop_app_length. done. }
  rewrite Hpb, set_middle, <- Hpb. cbn [mbind option_bind]. rewrite <- app_assoc. cbn [app].
  cbn [Start Length Type_ NUMADomain b1]. rewrite !u64_small by lia.
  replace (rest ++ u0 :: t) with ((rest ++ [u0]) ++ t) by (by rewrite <- app_assoc). by rewrite Ey.
Qed.

Lemma find_first_spec pre b Y Base : Forall (fun e => ok_ent e /\ Start e + Length e <= Base) pre ->
  ok_ent b -> Base < Start b + Length b -> forall X n, (length pre < n)%nat ->
  find_first n (X ++ pre ++ b :: Y) (len X) Base = Some (len X + len pre).
Proof.
  intros Hf Hb HB. induction Hf as [|e pre [Hok He] Hf IH]; intros X [|n] Hn; simpl in Hn; try lia;
    cbn [find_first app]; rewrite get_middle; cbn [mbind option_bind]; rewrite ent_end_ok by done.
  - replace (Base <? Start b + Length b) with true by (symmetry; lia). f_equal. unfold len. simpl. lia.
  - replace (Base <? Start e + Length e) with false by (symmetry; lia).
    specialize (IH (X ++ [e]) n ltac:(lia)). rewrite len_app, <- app_assoc in IH. cbn [app] in IH.
    change (len [e]) with 1 in IH. rewrite IH, len_cons. f_equal. lia.
Qed.

Lemma page_floor x : Z.land x (Z.lnot 0xFFF) = x / 4096 * 4096.
Proof.
  change 0xFFF with (Z.ones 12). rewrite <- Z.ldiff_land, Z.ldiff_ones_r by lia.
  by rewrite Z.shiftl_mul_pow2, Z.shiftr_div_pow2 by lia.
Qed.

(** In an ordered map the ranges before an entry end below it. *)
Lemma wf_before pre b rest : wf (pre ++ b :: rest) ->
  Forall (fun e => ok_ent e /\ Start e + Length e <= Start b) pre /\ ok_ent b /\ wf (b :: rest).
Proof.
  induction pre as [|e pre IH]; simpl; intros Hw.
  { pose proof (wf_cons_inv _ _ Hw) as [? _]. done. }
  destruct pre as [|c pre].
  - apply wf_cons2 in Hw as (He & Ho & Hw). pose proof (wf_cons_inv _ _ Hw) as [? _].
    split; [|done]. by apply Forall_singleton.
  - apply wf_cons2 in Hw as (He & Ho & Hw). destruct (IH Hw) as (Hf & Hb & Hw').
    split; [|done]. constructor; [|done]. split; [done|].
    apply Forall_cons in Hf as [[(? & ? & ?) ?] _]. lia.
Qed.

(** Replacing one entry by pieces that tile it. *)
Lemma wf_replace pre b mid rest : wf (pre ++ b :: rest) -> Forall ok_ent mid -> ordered mid ->
  (forall e, e ∈ mid -> Start b <= Start e /\ Start e + Length e <= Start b + Length b) ->
  mid <> [] -> wf (pre ++ mid ++ rest).
Proof.
  intros Hw Hok Hord Hin Hne. induction pre as [|e pre IH]; cbn [app] in *.
  - destruct Hw as [Hf Ho]. apply Forall_cons in Hf as [_ Hf]. split; [by apply Forall_app|].
    clear Hne. induction mid as [|m mid IHm]; [by eapply ordered_tail|].
    apply Forall_cons in Hok as [_ Hok]. cbn [app].
    assert (ordered (mid ++ rest)) as Hmr.
    { apply IHm; [done|by eapply ordered_tail|]. intros e He. apply Hin. by apply list_elem_of_further. }
    destruct mid as [|m' mid]; [|destruct Hord; by split]. destruct rest as [|c rest]; [done|].
    split; [|done]. destruct Ho as [Ho _]. specialize (Hin m ltac:(apply list_elem_of_here)). lia.
  - assert (wf (pre ++ mid ++ rest)) as Hw' by (apply IH; exact (proj2 (wf_cons_inv _ _ Hw))).
    pose proof (wf_cons_inv _ _ Hw) as [He _]. destruct pre as [|c pre]; cbn [app] in *.
    + destruct mid as [|m mid]; [done|]. cbn [app] in *. apply wf_cons2 in Hw as (_ & Ho & _). apply wf_cons2.
      specialize (Hin m ltac:(apply list_elem_of_here)). split_and!; [done|lia|done].
    + apply wf_cons2 in Hw as (_ & Ho & _). by apply wf_cons2.
Qed.

Lemma wf_after b rest : wf (b :: rest) -> Forall (fun e => Start b + Length b <= Start e) rest.
Proof.
  revert b. induction rest as [|c rest IH]; intros b; [done|].
  intros (Hb & Ho & Hw)%wf_cons2. constructor; [done|]. pose proof (wf_cons_inv _ _ Hw) as [(? & ? & ?) _].
  eapply Forall_impl; [by apply IH|]. simpl. lia.
Qed.

Lemma wf_others pre b rest x a : wf (pre ++ b :: rest) -> Start b <= x < Start b + Length b ->
  ~ has pre x a /\ ~ has rest x a.
Proof.
  intros (Hf & Hb & Hw)%wf_before Hx. pose proof (wf_after _ _ Hw) as Ha.
  rewrite Forall_forall in Hf, Ha. split; intros (e & He & Hxe & _).
  - destruct (Hf e He). lia.
  - specialize (Ha e He). simpl in Ha. lia.
Qed.

(** Marking inside one entry: what matters is the pieces it is replaced by. *)
Lemma has_replace pre b mid rest lo hi n : wf (pre ++ b :: rest) -> Start b <= lo -> hi <= Start b + Length b ->
  (forall x a, has mid x a <->
     (lo <= x < hi /\ a = (PMEMTYPE_USED, n)) \/
     (Start b <= x < Start b + Length b /\ ~ (lo <= x < hi) /\ a = (Type_ b, NUMADomain b))) ->
  forall x a, has (pre ++ mid ++ rest) x a <->
    (lo <= x < hi /\ a = (PMEMTYPE_USED, n)) \/ (~ (lo <= x < hi) /\ has (pre ++ b :: rest) x a).
Proof.
  intros Hw Hlo Hhi Hmid x a. rewrite !has_app, has_cons, Hmid.
  destruct (decide (Start b <= x < Start b + Length b)) as [Hx|Hx].
  - destruct (wf_others pre b rest x a Hw Hx). tauto.
  - destruct (decide (lo <= x < hi)); [lia|]. tauto.
Qed.

Lemma finish_mark pre b rest mid t M lo hi n : wf (pre ++ b :: rest) -> wf (pre ++ mid ++ rest) ->
  Start b <= lo -> hi <= Start b + Length b ->
  (forall x a, has mid x a <->
     (lo <= x < hi /\ a = (PMEMTYPE_USED, n)) \/
     (Start b <= x < Start b + Length b /\ ~ (lo <= x < hi) /\ a = (Type_ b, NUMADomain b))) ->
  exists ents' t', PMemMap_CompactMap ((pre ++ mid ++ rest) ++ t) (len (pre ++ mid ++ rest)) M =
      Some (ents' ++ t', len ents') /\ wf ents' /\
    forall x a, has ents' x a <->
      (lo <= x < hi /\ a = (PMEMTYPE_USED, n)) \/ (~ (lo <= x < hi) /\ has (pre ++ b :: rest) x a).
Proof.
  intros Hw Hw' Hlo Hhi Hmid. destruct (CompactMap_spec (pre ++ mid ++ rest) t M) as (t' & Ht & _).
  destruct (compacted_spec _ Hw') as (H1 & H2 & _). exists (compacted (pre ++ mid ++ rest)), t'.
  split; [done|]. split; [done|]. intros x a. rewrite H2. by apply has_replace.
Qed.

Definition used_ent (B S n : Z) : tPMemMapEnt := Ent B S PMEMTYPE_USED n.
Definition part (b : tPMemMapEnt) (B S : Z) : tPMemMapEnt := Ent B S (Type_ b) (NUMADomain b).

(** The entry [b] with the range of [S] bytes at [B] cut out and marked. *)
Definition pieces b (B S : Z) : list tPMemMapEnt :=
  (if Start b <? B then [part b (Start b) (B - Start b)] else []) ++
  used_ent B S (NUMADomain b) ::
  (if B + S =? Start b + Length b then [] else [part b (B + S) (Start b + Length b - (B + S))]).

Lemma pieces_ok b B S : ok_ent b -> Start b <= B -> 0 < S -> B + S <= Start b + Length b ->
  Forall ok_ent (pieces b B S) /\ ordered (pieces b B S) /\ pieces b B S <> [] /\
  (forall e, e ∈ pieces b B S -> Start b <= Start e /\ Start e + Length e <= Start b + Length b).
Proof.
  intros (? & ? & ?) HB HS He. unfold pieces, used_ent, part.
  destruct (Start b <? B) eqn:E1, (B + S =? Start b + Length b) eqn:E2; bools; cbn [app ordered Start Length];
    (split; [repeat constructor; cbn [Start Length]; lia|]);
    (split; [lia|]); (split; [done|]); intros e He';
    repeat (apply elem_of_cons in He' as [->|He']; [cbn [Start Length]; lia|]);
    by apply not_elem_of_nil in He'.
Qed.

Lemma pieces_has b B S x a : ok_ent b -> Start b <= B -> 0 < S -> B + S <= Start b + Length b ->
  has (pieces b B S) x a <->
    (B <= x < B + S /\ a = (PMEMTYPE_USED, NUMADomain b)) \/
    (Start b <= x < Start b + Length b /\ ~ (B <= x < B + S) /\ a = (Type_ b, NUMADomain b)).
Proof.
  intros (? & ? & ?) HB HS He. unfold pieces, used_ent, part.
  assert (forall P Q R : Prop, (P <-> Q \/ R) -> P <-> Q \/ R) as Hid by done.
  destruct (Start b <? B) eqn:E1, (B + S =? Start b + Length b) eqn:E2; bools; cbn [app];
    rewrite ?has_cons, has_nil; cbn [Start Length Type_ NUMADomain].
  all: destruct (decide (B <= x < B + S)).
  all: split; [intros Hc; repeat destruct Hc as [[? ->]|Hc]; try done; try lia|
               intros [[? ->]|(? & ? & ->)]; try lia].
  all: try (left; split; [lia|done]).
  all: try (right; split; [lia|]; split; [lia|done]).
  all: try (right; left; split; [lia|done]).
  all: try (destruct (decide (x < B)); [left; split; [lia|done]|right; right; left; split; [lia|done]]).
Qed.

Lemma mark_front_spec pre e rest (u0 u1 : tPMemMapEnt) t S M :
  ok_ent e -> 0 < S <= Length e -> len pre + 1 + len rest <> M ->
  exists t2, mark_front (pre ++ e :: rest ++ u0 :: u1 :: t) (len pre + 1 + len rest) M (len pre) S =
    let mid := used_ent (Start e) S (NUMADomain e) ::
               (if S =? Length e then [] else [part e (Start e + S) (Length e - S)]) in
    PMemMap_CompactMap ((pre ++ mid ++ rest) ++ t2) (len (pre ++ mid ++ rest)) M.
Proof.
  intros (? & ? & ?) HS HM. unfold mark_front. rewrite get_middle. cbn [mbind option_bind].
  destruct (S =? Length e) eqn:E; bools.
  - replace (S <? Length e) with false by (symmetry; lia). cbn [mbind option_bind].
    rewrite get_middle. cbn [mbind option_bind]. rewrite set_middle. cbn [mbind option_bind].
    exists (u0 :: u1 :: t). unfold used_ent. cbv zeta. rewrite E, <- !app_assoc. cbn [app].
    f_equal. rewrite len_app, len_cons. lia.
  - replace (S <? Length e) with true by (symmetry; lia).
    replace (_ =? M) with false by (symmetry; lia). rewrite split_middle by lia. cbn [mbind option_bind].
    rewrite get_middle. cbn [mbind option_bind]. rewrite set_middle. cbn [mbind option_bind Start Length NUMADomain].
    exists (u0 :: t). unfold used_ent, part. cbv zeta. rewrite <- !app_assoc. cbn [app].
    f_equal. rewrite len_app, !len_cons. lia.
Qed.
End marking.

(** ** Theorems *)
Module PmemmapProps.

(** C38: for any map of non-empty, pairwise disjoint ranges, [PMemMap_ValidateMap] returns a map in ascending order,
    without overlaps and with no two entries left that could be joined, describing
    every address exactly as before. *)
Theorem ValidateMap_sorts ents t M : Forall ok_ent ents -> Forall (fun e => 0 < Length e) ents -> all_apart ents ->
  exists ents' t', PMemMap_ValidateMap (ents ++ t) (len ents) M = Some (ents' ++ t', len ents') /\
    wf ents' /\ no_joinable ents' /\ forall x a, has ents' x a <-> has ents x a.
Proof.
  intros Hok Hl Ha. unfold PMemMap_ValidateMap. destruct ents as [|p rest].
  { exists [], t. split; [done|]. split_and!; [done|intros [|? ?] ? ? ? [=]|done]. }
  assert (Z.to_nat (len (p :: rest) - 1) = length rest) as -> by (unfold len; simpl; lia).
  assert (exists k, (forall b, b = true \/ b = false /\ StronglySorted le_start (p :: rest) ->
    (if (b : bool) then sort_loop (Z.to_nat (len (p :: rest))) ((p :: rest) ++ t) (len (p :: rest)) 0
     else Some ((p :: rest) ++ t)) = Some ((if b then k else p :: rest) ++ t)) /\
    k ≡ₚ p :: rest /\ StronglySorted le_start k) as (k & Hk & Hkp & Hks).
  { assert (Z.to_nat (len (p :: rest)) = length (p :: rest)) as -> by (unfold len; lia).
    destruct (sort_loop_spec (length (p :: rest)) (p :: rest) [] t eq_refl) as (k & Hk & Hkp & Hks).
    exists k. split; [|done]. intros [|] _; [|done]. exact Hk. }
  destruct (needs_sort_ok rest [] p t) as (b & Hb & Hs).
  change (len (@nil tPMemMapEnt) + 1) with 1 in Hb. cbn [app] in *. rewrite Hb. cbn [mbind option_bind].
  cbn [app] in Hk. rewrite (Hk b).
  2: { destruct b; [by left|]. right. split; [done|].
       apply Sorted_StronglySorted; [|auto]. intros x y z ??. unfold le_start in *. lia. }
  cbn [mbind option_bind]. set (r := if b then k else p :: rest).
  assert (r ≡ₚ p :: rest) as Hr by (unfold r; by destruct b).
  assert (StronglySorted le_start r) as Hrs.
  { unfold r. destruct b; [done|]. apply Sorted_StronglySorted; [|auto]. intros x y z ??. unfold le_start in *. lia. }
  assert (wf r) as Hw.
  { split; [by rewrite Hr|]. apply sorted_ordered; [by rewrite Hr|by eapply all_apart_perm|done]. }
  assert (length r = length (p :: rest)) as Hlr by (by rewrite Hr).
  destruct r as [|q rs]; [done|]. injection Hlr as Hlr. rewrite <- Hlr.
  pose proof (overlap_pass_ok rs [] q t) as Ho. change (len (@nil tPMemMapEnt) + 1) with 1 in Ho.
  cbn [app] in *. rewrite Ho. cbn [mbind option_bind].
  replace (len (p :: rest)) with (len (q :: rs)) by (unfold len; simpl; lia).
  destruct (CompactMap_spec (q :: rs) t M) as (t' & Ht & _). cbn [app] in Ht. rewrite Ht.
  destruct (compacted_spec _ Hw) as (H1 & H2 & H3). exists (compacted (q :: rs)), t'.
  split_and!; try done. intros x a. by rewrite H2, Hr.
Qed.

(** Marking a range that (rounded to pages) lies inside one entry of an ordered map makes exactly that range used memory of
    the same domain, keeps the description of every other address, and keeps the map ordered; with three
    spare entries in the array it cannot fail. *)
Theorem MarkRangeUsed_marks pre b rest t Base Size :
  let B := Base / 4096 * 4096 in
  let S := (Size + 4095) / 4096 * 4096 in
  let ents := pre ++ b :: rest in
  wf ents -> (3 <= length t)%nat -> 0 <= Base -> 0 < Size -> Size + 4095 < 2 ^ 64 ->
  Start b <= B -> B + S <= Start b + Length b ->
  exists ents' t', PMemMap_MarkRangeUsed (ents ++ t) (len ents) (len (ents ++ t)) Base Size =
      Some (ents' ++ t', len ents') /\ wf ents' /\
    forall x a, has ents' x a <->
      (B <= x < B + S /\ a = (PMEMTYPE_USED, NUMADomain b)) \/ (~ (B <= x < B + S) /\ has ents x a).
Proof.
  intros B S ents Hw Ht HB0 HS0 HS1 HB HS. destruct (wf_before _ _ _ Hw) as (Hf & Hb & Hwb).
  assert (0 < S) by (unfold S; dlia). assert (0 <= B <= Base) by (unfold B; dlia).
  destruct t as [|u0 [|u1 [|u2 t]]]; simpl in Ht; try lia.
  assert (len ents = len pre + 1 + len rest) as Hle by (unfold ents; rewrite len_app, len_cons; lia).
  assert (len (ents ++ u0 :: u1 :: u2 :: t) = len ents + 3 + len t) as HM by (rewrite len_app, !len_cons; lia).
  pose proof (len_nonneg t). pose proof (len_nonneg pre). pose proof (len_nonneg rest).
  unfold PMemMap_MarkRangeUsed. rewrite !page_floor, (u64_small (Size + 4095)) by lia. fold B S.
  assert (ents ++ u0 :: u1 :: u2 :: t = pre ++ b :: rest ++ u0 :: u1 :: u2 :: t) as Eq
    by (unfold ents; rewrite <- app_assoc; done).
  destruct Hb as (Hb0 & Hb1 & Hb2).
  assert (find_first (Z.to_nat (len ents)) (ents ++ u0 :: u1 :: u2 :: t) 0 B = Some (len pre)) as ->.
  { rewrite Eq. apply (find_first_spec pre b _ B) with (X := []); [|by split|lia|unfold len in *; lia].
    eapply Forall_impl; [exact Hf|]. simpl. intros e [? ?]. split; [done|lia]. }
  cbn [mbind option_bind]. replace (len pre =? -1) with false by (symmetry; lia).
  rewrite HM, Hle, Eq, get_middle. cbn [mbind option_bind].
  replace (B <? Start b) with false by (symmetry; lia).
  rewrite (u64_small (B + S)) by lia. rewrite ent_end_ok by (by split).
  replace ((Start b <=? B) && (B + S <=? Start b + Length b)) with true by (symmetry; lia).
  set (MM := len pre + 1 + len rest + 3 + len t).
  assert (ok_ent b) as Hb by (by split). destruct (pieces_ok b B S Hb HB H HS) as (P1 & P2 & P3 & P4).
  enough (exists t2, (r ← (if Start b <? B then
           if len pre + 1 + len rest =? MM then Some None else
           '(map, NEnts) ← PMemMap_SplitBlock (pre ++ b :: rest ++ u0 :: u1 :: u2 :: t) (len pre + 1 + len rest) MM (len pre) (u64 (B - Start b));
           Some (Some (map, NEnts, len pre + 1))
         else Some (Some (pre ++ b :: rest ++ u0 :: u1 :: u2 :: t, len pre + 1 + len rest, len pre)));
    match r with
    | None => Some (pre ++ b :: rest ++ u0 :: u1 :: u2 :: t, len pre + 1 + len rest)
    | Some (map, NEnts, first) => mark_front map NEnts MM first S
    end) = PMemMap_CompactMap ((pre ++ pieces b B S ++ rest) ++ t2) (len (pre ++ pieces b B S ++ rest)) MM) as (t2 & ->).
  { apply finish_mark; try done; [by apply wf_replace with b|]. intros x a. by apply pieces_has. }
  destruct (Start b <? B) eqn:E; bools.
  - replace (_ =? MM) with false by (symmetry; unfold MM; lia). rewrite (u64_small (B - Start b)) by lia.
    rewrite split_middle by (unfold MM; lia). cbn [mbind option_bind].
    set (b1 := Ent (Start b) (B - Start b) _ _). set (b2 := Ent (Start b + (B - Start b)) _ _ _).
    destruct (mark_front_spec (pre ++ [b1]) b2 rest u0 u2 t S MM) as (t2 & Hmf).
    { unfold ok_ent, b2. cbn [Start Length]. lia. } { unfold b2. cbn [Length]. lia. }
    { rewrite len_app. change (len [b1]) with 1. unfold MM. lia. }
    replace (len (pre ++ [b1])) with (len pre + 1) in Hmf by (by rewrite len_app).
    replace (len pre + 1 + 1 + len rest) with (len pre + 1 + len rest + 1) in Hmf by lia.
    rewrite <- !app_assoc in Hmf. cbn [app] in Hmf. rewrite Hmf. clear Hmf. exists t2.
    unfold pieces. replace (Start b <? B) with true by (symmetry; lia).
    unfold b1, b2, used_ent, part. cbn [Start Length Type_ NUMADomain app].
    replace (Start b + (B - Start b)) with B by lia. replace (Length b - (B - Start b) - S) with (Start b + Length b - (B + S)) by lia.
    replace (S =? Length b - (B - Start b)) with (B + S =? Start b + Length b) by lia.
    by rewrite <- (app_assoc pre [_]).
  - destruct (mark_front_spec pre b rest u0 u1 (u2 :: t) S MM) as (t2 & Hmf); [by split|lia|unfold MM; lia|].
    cbn [mbind option_bind]. rewrite Hmf. clear Hmf. exists t2.
    unfold pieces. replace (Start b <? B) with false by (symmetry; lia).
    assert (B = Start b) as -> by lia. unfold used_ent, part. cbn [app].
    replace (Start b + S =? Start b + Length b) with (S =? Length b) by lia.
    replace (Start b + Length b - (Start b + S)) with (Length b - S) by lia. done.
Qed.

Definition blank : tPMemMapEnt := Ent 0 0 PMEMTYPE_FREE 0.
Definition low : tPMemMapEnt := Ent 0 0xA0000 PMEMTYPE_FREE 0.
Definition high : tPMemMapEnt := Ent 0x100000 0x700000 PMEMTYPE_FREE 0.

Lemma ValidateMap_sorts_witness : exists ents' t',
  PMemMap_ValidateMap [high; low; blank] 2 3 = Some (ents' ++ t', len ents') /\ wf ents'.
Proof.
  destruct (ValidateMap_sorts [high; low] [blank] 3) as (e' & t' & H1 & H2 & _).
  - repeat constructor; cbn; lia.
  - repeat constructor; cbn; lia.
  - simpl. unfold apart_ent. cbn. split_and!; try done. apply Forall_singleton. cbn. right. lia.
  - exists e', t'. exact (conj H1 H2).
Defined.

Lemma MarkRangeUsed_marks_witness : exists ents' t',
  PMemMap_MarkRangeUsed [low; high; blank; blank; blank] 2 5 0x200000 0x1234 = Some (ents' ++ t', len ents') /\ wf ents'.
Proof.
  destruct (MarkRangeUsed_marks [low] high [] [blank; blank; blank] 0x200000 0x1234) as (e' & t' & H1 & H2 & _).
  - split; [repeat constructor; cbn; lia|cbn; lia].
  - simpl. lia.
  - lia.
  - lia.
  - lia.
  - vm_compute. discriminate.
  - vm_compute. discriminate.
  - exists e', t'. exact (conj H1 H2).
Defined.

(** Splitting when one free entry is left stores past the end of the array: the entries are moved up one too many. *)
Theorem SplitBlock_overflows map NEnts Block Offset : len map = NEnts + 1 -> 0 <= Block < NEnts ->
  PMemMap_SplitBlock map NEnts (NEnts + 1) Block Offset = None.
Proof.
  intros Hl Hb. unfold PMemMap_SplitBlock. destruct (get_ok map Block) as [b ->]; [lia|].
  cbn [mbind option_bind]. destruct (set_ok map Block (Ent (Start b) Offset (Type_ b) (NUMADomain b))) as (m & -> & Hlm & _); [lia|].
  cbn [mbind option_bind]. replace (NEnts =? NEnts + 1) with false by (symmetry; lia).
  replace (Block <? NEnts) with true by (symmetry; lia). unfold memmove.
  replace ((NEnts - Block =? 0) || (Block + 2 =? Block + 1)) with false by (symmetry; lia).
  replace (Block + 1 + (NEnts - Block) <? Block + 2) with false by (symmetry; lia).
  replace (Block + 2 + (NEnts - Block) <? Block + 1) with false by (symmetry; lia).
  replace (Block + 2 <? Block + 1) with false by (symmetry; lia).
  assert (exists k, Z.to_nat (NEnts - Block) = S k /\ Z.of_nat k = NEnts - Block - 1) as (k & -> & Hk)
    by (exists (Z.to_nat (NEnts - Block - 1)); lia).
  cbn [move_down]. destruct (get_ok m (Block + 1 + Z.of_nat k)) as [c ->]; [lia|]. cbn [mbind option_bind].
  unfold set. replace (Block + 2 + Z.of_nat k <? len m) with false; [by rewrite andb_false_r|].
  symmetry. apply Z.ltb_ge. lia.
Qed.

Lemma SplitBlock_overflows_witness : PMemMap_SplitBlock [low; high; blank] 2 3 1 0x1000 = None.
Proof. apply (SplitBlock_overflows [low; high; blank] 2 1 0x1000); [reflexivity|lia]. Defined.

(** The base is rounded down to a page but the size is not enlarged by what that added, so the end of an
    unaligned range stays free: after marking 0x1000 bytes at 0x200800, the byte at 0x201000 is still free memory. *)
Theorem MarkRangeUsed_short : exists ents',
  PMemMap_MarkRangeUsed [low; high; blank; blank; blank] 2 5 0x200800 0x1000 = Some (ents' ++ [blank], 4) /\
  has ents' 0x201000 (PMEMTYPE_FREE, 0).
Proof.
  eexists [_; _; _; _]. split; [vm_compute; reflexivity|].
  eexists. split; [do 3 apply list_elem_of_further; apply list_elem_of_here|]. cbn. split; [lia|done].
Qed.
End PmemmapProps.
