(* ===== verification/Threads.v ===== *)
(** * Threads and the scheduler ([KernelLand/Kernel/threads.c])

    Thread control blocks, the linked thread lists that share their [Next] fields (run
    queues, the list of sleeping threads, the waiting lists of the synchronisation
    objects), the round-robin scheduler ([SCHED_RR_PRI], the configured one) and the
    sleep and wake primitives.

    A thread pointer is [option tid], [None] being NULL.  The [Next] fields of all threads form
    one map, [Links]; a pair of head and tail pointers, wherever it is stored, is an entry of
    [Lists].  Each function runs under the spinlocks it takes, which disable
    interrupts, and is one step; a function that sleeps is cut where it gives up the CPU. *)
From S2P Require Import Prelude.
Local Open Scope Z_scope.
Local Open Scope monad_scope.

Abbreviation tid := positive (only parsing).

Inductive eThreadStatus :=
  | THREAD_STAT_NULL | THREAD_STAT_ACTIVE | THREAD_STAT_SLEEPING | THREAD_STAT_MUTEXSLEEP
  | THREAD_STAT_RWLOCKSLEEP | THREAD_STAT_SEMAPHORESLEEP | THREAD_STAT_QUEUESLEEP
  | THREAD_STAT_EVENTSLEEP | THREAD_STAT_WAITING | THREAD_STAT_PREINIT
  | THREAD_STAT_ZOMBIE | THREAD_STAT_DEAD | THREAD_STAT_BURIED.
#[export] Instance status_eq : EqDecision eThreadStatus.
Proof. solve_decision. Defined.

(** Where a pair of list pointers lives: [gaActiveThreads[p]], [gSleepingThreads],
    [Waiting]/[LastWaiting] of a mutex, the two lists of a semaphore, the two of a
    reader-writer lock, [Sleeper]/[SleepTail] of a work queue. *)
Inductive listid :=
  | LActive (p : Z) | LSleeping | LMutex (m : positive) | LSemWait (s : positive)
  | LSemSignal (s : positive) | LReaders (l : positive) | LWriters (l : positive)
  | LQueue (w : positive).
#[export] Instance listid_eq : EqDecision listid.
Proof. solve_decision. Defined.

(** What a [WaitPointer] points to. *)
Inductive waitobj := WMutex (m : positive) | WSem (s : positive) | WLock (l : positive) | WQueue (w : positive).
#[export] Instance waitobj_eq : EqDecision waitobj.
Proof. solve_decision. Defined.

Record tThreadList := L { Head : option tid; Tail : option tid }.
Record qmem := Q { Links : tid -> option tid; Lists : listid -> tThreadList }.

Definition setNext (t : tid) (n : option tid) (q : qmem) : qmem := Q (<[t := n]> (Links q)) (Lists q).
Definition setHead (id : listid) (h : option tid) (q : qmem) : qmem :=
  Q (Links q) (<[id := L h (Tail (Lists q id))]> (Lists q)).
Definition setTail (id : listid) (t : option tid) (q : qmem) : qmem :=
  Q (Links q) (<[id := L (Head (Lists q id)) t]> (Lists q)).

(** ** List operations *)

(** [None]: a NULL pointer is followed. *)
Definition Threads_int_AddToList (id : listid) (Thread : tid) (q : qmem) : option qmem :=
  q1 ← match Head (Lists q id) with
       | Some _ => tl ← Tail (Lists q id); Some (setNext tl (Some Thread) q)
       | None => Some (setHead id (Some Thread) q)
       end;
  Some (setNext Thread None (setTail id (Some Thread) q1)).

(** The walk of a list for a thread: [None] when the fuel runs out, else what precedes the thread if it is there. *)
Fixpoint find_prev (fuel : nat) (q : qmem) (cur prev : option tid) (Thread : tid)
  : option (option (option tid)) :=
  match fuel with
  | O => None
  | S fuel =>
    match cur with
    | None => Some None
    | Some c => if decide (c = Thread) then Some (Some prev)
                else find_prev fuel q (Links q c) (Some c) Thread
    end
  end.

Definition Threads_int_DelFromQueue (fuel : nat) (id : listid) (Thread : tid) (q : qmem)
  : option (option tid * qmem) :=
  found ← find_prev fuel q (Head (Lists q id)) None Thread;
  match found with
  | None => Some (None, q)
  | Some prev =>
    let q1 := match prev with
              | None => setHead id (Links q Thread) q
              | Some p => setNext p (Links q Thread) q
              end in
    Some (Some Thread,
          if decide (Links q1 Thread = None) then setTail id prev q1 else q1)
  end.

(** The part of [Threads_int_Sleep] that appends to a list given by head and tail. *)
Definition wait_append (id : listid) (us : tid) (q : qmem) : qmem :=
  let q := setNext us None q in
  let q := match Tail (Lists q id) with
           | Some tl => setNext tl (Some us) q
           | None => setHead id (Some us) q
           end in
  setTail id (Some us) q.

(** ** Thread state *)
Record tThread := TCB {
  Status : eThreadStatus; WaitPointer : option waitobj; RetStatus : Z; Priority : Z;
  CurCPU : Z; EventState : Z; Quantum : Z; Remaining : Z; HasMessages : bool }.

Definition set_Status v t := TCB v (WaitPointer t) (RetStatus t) (Priority t) (CurCPU t) (EventState t) (Quantum t) (Remaining t) (HasMessages t).
Definition set_WaitPointer v t := TCB (Status t) v (RetStatus t) (Priority t) (CurCPU t) (EventState t) (Quantum t) (Remaining t) (HasMessages t).
Definition set_RetStatus v t := TCB (Status t) (WaitPointer t) v (Priority t) (CurCPU t) (EventState t) (Quantum t) (Remaining t) (HasMessages t).
Definition set_Priority v t := TCB (Status t) (WaitPointer t) (RetStatus t) v (CurCPU t) (EventState t) (Quantum t) (Remaining t) (HasMessages t).
Definition set_CurCPU v t := TCB (Status t) (WaitPointer t) (RetStatus t) (Priority t) v (EventState t) (Quantum t) (Remaining t) (HasMessages t).
Definition set_EventState v t := TCB (Status t) (WaitPointer t) (RetStatus t) (Priority t) (CurCPU t) v (Quantum t) (Remaining t) (HasMessages t).
Definition set_Remaining v t := TCB (Status t) (WaitPointer t) (RetStatus t) (Priority t) (CurCPU t) (EventState t) (Quantum t) v (HasMessages t).

(** The fields of the synchronisation objects that are not thread lists. *)
Record tSemaphore := SEM { Value : Z; MaxValue : Z }.
Record tRWLock := RWL { Level : Z; RWOwner : option tid }.
Record tWorkqueue := WQ { WHead : option positive; WTail : option positive }.

(** [Items] is the next pointer inside each work item ([QUEUENEXT]). *)
Record kstate := K {
  Qm : qmem; Thr : tid -> tThread; giNumActiveThreads : Z; NoTaskSwitch : bool;
  Owner : positive -> option tid; Sems : positive -> tSemaphore; Locks : positive -> tRWLock;
  Works : positive -> tWorkqueue; Items : positive -> option positive }.

Definition with_Qm v s := K v (Thr s) (giNumActiveThreads s) (NoTaskSwitch s) (Owner s) (Sems s) (Locks s) (Works s) (Items s).
Definition with_Thr v s := K (Qm s) v (giNumActiveThreads s) (NoTaskSwitch s) (Owner s) (Sems s) (Locks s) (Works s) (Items s).
Definition with_Num v s := K (Qm s) (Thr s) v (NoTaskSwitch s) (Owner s) (Sems s) (Locks s) (Works s) (Items s).
Definition with_Owner v s := K (Qm s) (Thr s) (giNumActiveThreads s) (NoTaskSwitch s) v (Sems s) (Locks s) (Works s) (Items s).
Definition with_Sems v s := K (Qm s) (Thr s) (giNumActiveThreads s) (NoTaskSwitch s) (Owner s) v (Locks s) (Works s) (Items s).
Definition with_Locks v s := K (Qm s) (Thr s) (giNumActiveThreads s) (NoTaskSwitch s) (Owner s) (Sems s) v (Works s) (Items s).
Definition with_Works v s := K (Qm s) (Thr s) (giNumActiveThreads s) (NoTaskSwitch s) (Owner s) (Sems s) (Locks s) v (Items s).
Definition with_Items v s := K (Qm s) (Thr s) (giNumActiveThreads s) (NoTaskSwitch s) (Owner s) (Sems s) (Locks s) (Works s) v.

(** Why a kernel function does not return: a NULL pointer followed, [Panic], a failed assertion, an access outside an
    array, signed overflow, a list walk that does not end. *)
Inductive stop := NullPointer | Panicked | AssertFailed | OutOfBounds | Overflow | Endless.
Definition KM (A : Type) := M kstate stop A.

Definition gets {A} (f : kstate -> A) : KM A := do s <- get_state; ret (f s).
Definition modify (f : kstate -> kstate) : KM unit := fun s => Ok tt (f s).
Definition require (e : stop) (b : bool) : KM unit := if b then ret tt else halt e.
Definition deref {A} (e : stop) (p : option A) : KM A := match p with Some x => ret x | None => halt e end.
Definition thr (t : tid) : KM tThread := gets (fun s => Thr s t).
Definition upd (t : tid) (f : tThread -> tThread) : KM unit :=
  modify (fun s => with_Thr (<[t := f (Thr s t)]> (Thr s)) s).
Definition onQ {A} (e : stop) (f : qmem -> option (A * qmem)) : KM A := fun s =>
  match f (Qm s) with Some (a, q) => Ok a (with_Qm q s) | None => Stop e end.
Definition onQ' (f : qmem -> qmem) : KM unit := modify (fun s => with_Qm (f (Qm s)) s).

(** ** Scheduler *)
Abbreviation DEFAULT_PRIORITY := 5 (only parsing).
Abbreviation MIN_PRIORITY := 10 (only parsing).

(** The index of [gaActiveThreads] for a priority. *)
Definition prio_ok (p : Z) : bool := (0 <=? p) && (p <=? MIN_PRIORITY).
Definition add_list (id : listid) (t : tid) : KM unit :=
  onQ NullPointer (fun q => option_map (pair tt) (Threads_int_AddToList id t q)).
Definition add_active_list (t : tid) : KM unit :=
  do th <- thr t;
  require OutOfBounds (prio_ok (Priority th));;;
  add_list (LActive (Priority th)) t.

Section ops.
(** [cur] is [Proc_GetCurThread()]. *)
Context (cur : tid).

Definition Threads_AddActive (Thread : tid) : KM unit :=
  do th <- thr Thread;
  if decide (Status th = THREAD_STAT_ACTIVE) then halt Panicked else
  upd Thread (set_Status THREAD_STAT_ACTIVE);;;
  (if decide (Thread = cur) then ret tt else add_active_list Thread);;;
  modify (fun s => with_Num (giNumActiveThreads s + 1) s).

Definition Threads_RemActive : KM tid :=
  modify (fun s => with_Num (giNumActiveThreads s - 1) s);;; ret cur.

(** The list argument of [Threads_int_Sleep]: head and tail of a list, or the address of a variable holding
    the thread itself (as [Threads_WaitEvents] passes). *)
Inductive sleep_list := OnList (id : listid) | OnSelf.

(** Up to [Threads_int_WaitForStatusEnd], at which the thread gives up the CPU. *)
Definition Threads_int_Sleep (st : eThreadStatus) (Ptr : option waitobj) (Num : Z) (list : sleep_list) : KM unit :=
  do us <- Threads_RemActive;
  onQ' (setNext us None);;;
  upd us (fun th => set_RetStatus Num (set_WaitPointer Ptr (set_Status st th)));;;
  match list with
  | OnList id => onQ' (wait_append id us)
  | OnSelf => onQ' (setNext us (Some us))
  end.

(** What [Threads_int_Sleep] does once [Threads_int_WaitForStatusEnd] has returned. *)
Definition int_Sleep_end : KM Z :=
  upd cur (set_WaitPointer None);;; do th <- thr cur; ret (RetStatus th).

(** [true]: the thread goes to sleep. *)
Definition Threads_Sleep : KM bool :=
  do th <- thr cur;
  if HasMessages th then ret false else
  Threads_RemActive;;;
  upd cur (set_Status THREAD_STAT_SLEEPING);;;
  add_list LSleeping cur;;; ret true.

Definition Threads_SetPriority (fuel : nat) (Thread : option tid) (Pri : Z) : KM unit :=
  let Thread := default cur Thread in
  let Pri := if Pri <? 0 then MIN_PRIORITY else Pri in
  let Pri := if MIN_PRIORITY <? Pri then MIN_PRIORITY else Pri in
  do th <- thr Thread;
  if Pri =? Priority th then ret tt else
  if decide (Thread = cur) then upd Thread (set_Priority Pri) else
  require OutOfBounds (prio_ok (Priority th));;;
  onQ Endless (Threads_int_DelFromQueue fuel (LActive (Priority th)) Thread);;;
  add_list (LActive Pri) Thread;;;
  upd Thread (set_Priority Pri).
End ops.

(** [n] priorities are left to look at, from [i] on. *)
Fixpoint GetRunnable_from (n : nat) (i : Z) : KM (option tid) :=
  match n with
  | O => ret None
  | S n =>
    do h <- gets (fun s => Head (Lists (Qm s) (LActive i)));
    match h with
    | None => GetRunnable_from n (i + 1)
    | Some thread =>
      do th <- thr thread;
      if decide (Status th = THREAD_STAT_ACTIVE) then
        onQ' (fun q => setHead (LActive i) (Links q thread) q);;;
        onQ' (fun q => if decide (Links q thread = None) then setTail (LActive i) None q else q);;;
        onQ' (setNext thread None);;;
        ret (Some thread)
      else halt Panicked
    end
  end.
Definition Threads_int_GetRunnable : KM (option tid) := GetRunnable_from 11 0.

Definition Threads_GetNextToRun (CPU : Z) (Last : option tid) : KM (option tid) :=
  do no <- gets NoTaskSwitch;
  if (no : bool) then ret Last else
  match Last with Some l => upd l (set_CurCPU (-1)) | None => ret tt end;;;
  do n <- gets giNumActiveThreads;
  if n =? 0 then ret None else
  match Last with
  | Some l =>
    do th <- thr l;
    (if decide (Status th = THREAD_STAT_ACTIVE) then add_active_list l else ret tt);;;
    upd l (set_CurCPU (-1))
  | None => ret tt
  end;;;
  do thread <- Threads_int_GetRunnable;
  match thread with
  | Some t => upd t (fun th => set_Remaining (Quantum th) (set_CurCPU CPU th));;; ret (Some t)
  | None => ret None
  end.
