(* ===== verification/ThreadLists.v ===== *)
(** * Linked thread lists as sequences

    The abstraction of the shared list memory of [Threads]: every head/tail pair denotes a
    sequence of threads, and no thread is on two lists.  Each pointer manipulation of the kernel
    (append, unlink, take the head) is shown to implement the operation on sequences. *)
From S2P Require Import Prelude Threads.
Local Open Scope Z_scope.

(** [h] is the head of a NULL-terminated list through [lk] that visits [l]. *)
Fixpoint seg (lk : tid -> option tid) (h : option tid) (l : list tid) : Prop :=
  match l with
  | [] => h = None
  | t :: l => h = Some t /\ seg lk (lk t) l
  end.

Definition ok1 (q : qmem) (id : listid) (l : list tid) : Prop :=
  seg (Links q) (Head (Lists q id)) l /\ Tail (Lists q id) = last l.

Definition disj (qs : listid -> list tid) : Prop :=
  (forall id, NoDup (qs id)) /\ forall id1 id2 t, t ∈ qs id1 -> t ∈ qs id2 -> id1 = id2.

(** [qs] is what the list memory [q] holds. *)
Definition view (q : qmem) (qs : listid -> list tid) : Prop := (forall id, ok1 q id (qs id)) /\ disj qs.
Definition free (qs : listid -> list tid) (t : tid) : Prop := forall id, t ∉ qs id.

Ltac fsimp :=
  repeat match goal with
  | H : ?a <> ?b |- context [<[?a := ?v]> ?f ?b] => rewrite (fn_lookup_insert_ne f a b v H)
  | H : ?b <> ?a |- context [<[?a := ?v]> ?f ?b] => rewrite (fn_lookup_insert_ne f a b v (not_eq_sym H))
  | |- context [<[?a := ?v]> ?f ?a] => rewrite (fn_lookup_insert f a v)
  end.

Section seg_lemmas.
Implicit Types (lk : tid -> option tid) (l : list tid) (t p z : tid).

Lemma seg_ext lk lk' h l : (forall t, t ∈ l -> lk t = lk' t) -> seg lk h l -> seg lk' h l.
Proof.
  revert h. induction l as [|t l IH]; simpl; [done|]. intros h He [-> Hl]. split; [done|].
  rewrite <- He by left. apply IH; [|done]. intros. apply He. by right.
Qed.

Lemma seg_frame lk h l t n : t ∉ l -> seg lk h l -> seg (<[t:=n]> lk) h l.
Proof. intros Ht. apply seg_ext. intros u Hu. by rewrite fn_lookup_insert_ne by set_solver. Qed.

Lemma seg_head lk h l : seg lk h l -> h = head l.
Proof. destruct l; simpl; [done|]. by intros [-> _]. Qed.


Lemma seg_mid lk h pre t post : seg lk h (pre ++ t :: post) -> seg lk (lk t) post.
Proof. revert h. induction pre as [|x pre IH]; simpl; intros h [-> H]; [done|]. eauto. Qed.

Lemma seg_last lk h l t : seg lk h l -> last l = Some t -> lk t = None.
Proof.
  intros H Hl. apply last_Some in Hl as [k ->]. apply seg_mid in H. done.
Qed.

Lemma seg_append lk h l z t : seg lk h l -> last l = Some z -> NoDup l -> t ∉ l ->
  seg (<[t:=None]> (<[z:=Some t]> lk)) h (l ++ [t]).
Proof.
  revert h. induction l as [|x l IH]; [done|]. intros h [-> Hs] Hl Hn Ht.
  apply NoDup_cons in Hn as [Hx Hn]. apply not_elem_of_cons in Ht as [Htx Ht].
  simpl. split; [done|]. rewrite fn_lookup_insert_ne by done.
  destruct l as [|y l].
  - simpl in *. simplify_eq. by rewrite !fn_lookup_insert.
  - rewrite fn_lookup_insert_ne.
    2: { intros ->. apply Hx. by apply last_Some_elem_of. }
    apply IH; done.
Qed.

Lemma seg_unlink lk h pre p t post : seg lk h (pre ++ p :: t :: post) -> NoDup (pre ++ p :: t :: post) ->
  seg (<[p:=lk t]> lk) h (pre ++ p :: post).
Proof.
  revert h. induction pre as [|x pre IH]; simpl; intros h.
  - intros (-> & Hp & Hs) (Hn & [_ Hn']%NoDup_cons)%NoDup_cons. split; [done|].
    rewrite fn_lookup_insert. apply seg_frame; [set_solver|done].
  - intros [-> Hs] [Hx Hn]%NoDup_cons. split; [done|].
    rewrite fn_lookup_insert_ne by set_solver. eauto.
Qed.

Lemma find_prev_found q t : forall l1 l2 c prev fuel, seg (Links q) c (l1 ++ t :: l2) -> t ∉ l1 ->
  (length l1 < fuel)%nat ->
  find_prev fuel q c prev t = Some (Some (match last l1 with Some x => Some x | None => prev end)).
Proof.
  induction l1 as [|x l1 IH]; intros l2 c prev fuel; simpl.
  - intros [-> _] _ ?. destruct fuel; [lia|]. simpl. by rewrite decide_True.
  - intros [-> Hs] [Hx Ht]%not_elem_of_cons ?. destruct fuel; [lia|]. simpl. rewrite decide_False by done.
    rewrite (IH l2 _ (Some x) fuel Hs Ht) by lia. destruct l1 as [|y l1]; [done|].
    rewrite last_cons_cons. by destruct (last (y :: l1)) eqn:?; [|by apply last_None in Heqo].
Qed.

Lemma find_prev_absent q t : forall l c prev fuel, seg (Links q) c l -> t ∉ l ->
  (length l < fuel)%nat -> find_prev fuel q c prev t = Some None.
Proof.
  induction l as [|x l IH]; intros c prev fuel; simpl.
  - intros -> _ ?. destruct fuel; [lia|]. done.
  - intros [-> Hs] [Hx Ht]%not_elem_of_cons ?. destruct fuel; [lia|]. simpl. rewrite decide_False by done.
    apply IH; [done|done|lia].
Qed.
End seg_lemmas.

Section view_lemmas.
Implicit Types (q : qmem) (qs : listid -> list tid) (id : listid) (t p : tid).

Lemma disj_add qs id t : disj qs -> free qs t -> disj (<[id := qs id ++ [t]]> qs).
Proof.
  intros [Hn Hd] Hf. split.
  - intros i. destruct (decide (id = i)) as [<-|]; fsimp; [|done].
    apply NoDup_app. split_and!; [done| |apply NoDup_singleton].
    intros x Hx ->%list_elem_of_singleton. by apply (Hf id).
  - assert (Hin : forall i x, x ∈ (<[id := qs id ++ [t]]> qs : listid -> list tid) i ->
      x ∈ qs i \/ x = t /\ i = id).
    { intros i x. destruct (decide (id = i)) as [<-|]; fsimp; [|by left].
      rewrite elem_of_app, list_elem_of_singleton. naive_solver. }
    intros i j x [Hi|[-> ->]]%Hin [Hj|[? ->]]%Hin; subst; try done; [eauto|exfalso..]; eapply Hf; eauto.
Qed.

Lemma disj_sub qs id l : disj qs -> sublist l (qs id) -> disj (<[id := l]> qs).
Proof.
  intros [Hn Hd] Hs.
  assert (Hin : forall i x, x ∈ (<[id := l]> qs : listid -> list tid) i -> x ∈ qs i).
  { intros i x. destruct (decide (id = i)) as [<-|]; fsimp; [|done].
    intros. by eapply elem_of_sublist. }
  split; [|eauto]. intros i. destruct (decide (id = i)) as [<-|]; fsimp; [|done].
  by eapply sublist_NoDup.
Qed.

Lemma view_upd q q' qs id l : view q qs -> ok1 q' id l -> disj (<[id := l]> qs) ->
  (forall i, i <> id -> Lists q' i = Lists q i) ->
  (forall i t, i <> id -> t ∈ qs i -> Links q' t = Links q t) ->
  view q' (<[id := l]> qs).
Proof.
  intros [Ho Hd] Hok Hd' HL HN. split; [|done]. intros i. destruct (decide (id = i)) as [<-|]; fsimp; [done|].
  destruct (Ho i) as [Hs Ht]. split; rewrite HL by done; [|done].
  eapply seg_ext; [|exact Hs]. intros. symmetry. by eapply HN.
Qed.

(** A thread on no list can be changed freely. *)
Lemma view_setNext q qs t n : view q qs -> free qs t -> view (setNext t n q) qs.
Proof.
  intros [Ho Hd] Hf. split; [|done]. intros id. destruct (Ho id) as [Hs Ht]. split; [|done].
  apply seg_frame; [apply Hf|done].
Qed.

Lemma view_head q qs id : view q qs -> Head (Lists q id) = head (qs id).
Proof. intros [Ho _]. destruct (Ho id) as [Hs _]. by apply seg_head in Hs. Qed.
Lemma view_tail q qs id : view q qs -> Tail (Lists q id) = last (qs id).
Proof. intros [Ho _]. by destruct (Ho id) as [_ ?]. Qed.

(** The successor of a list's first thread. *)
Lemma view_next q qs id t l : view q qs -> qs id = t :: l -> Links q t = head l.
Proof.
  intros [Ho _] E. destruct (Ho id) as [Hs _]. rewrite E in Hs. destruct Hs as [_ Hs].
  by apply seg_head in Hs.
Qed.

Lemma ok1_append q id l t : ok1 q id l -> NoDup l -> t ∉ l ->
  let q1 := match last l with Some z => setNext z (Some t) q | None => setHead id (Some t) q end in
  ok1 (setNext t None (setTail id (Some t) q1)) id (l ++ [t]).
Proof.
  intros [Hs Hl] Hn Ht. simpl. destruct (last l) as [z|] eqn:E; unfold ok1; simpl; fsimp; simpl.
  - split; [|by rewrite last_snoc]. by apply seg_append.
  - apply last_None in E as ->. simpl. fsimp. simpl. done.
Qed.

Lemma append_links q qs id t z : view q qs -> free qs t -> last (qs id) = Some z ->
  forall i u, i <> id -> u ∈ qs i -> u <> z /\ u <> t.
Proof.
  intros [_ [_ Hd]] Hf Hz i u Hi Hu. split; intros ->.
  - apply Hi. eapply Hd; [done|]. by apply last_Some_elem_of.
  - by apply (Hf i).
Qed.

Lemma view_append q qs id t : view q qs -> free qs t ->
  view (setNext t None (setTail id (Some t)
    (match last (qs id) with Some z => setNext z (Some t) q | None => setHead id (Some t) q end)))
    (<[id := qs id ++ [t]]> qs).
Proof.
  intros Hv Hf. assert (Hv' := Hv). destruct Hv' as [Ho [Hn Hd]]. eapply view_upd; [exact Hv| | | |].
  - apply ok1_append; auto.
  - apply disj_add; [split|]; done.
  - intros i Hi. destruct (last (qs id)); simpl; repeat rewrite fn_lookup_insert_ne by done; done.
  - intros i u Hi Hu. destruct (last (qs id)) as [z|] eqn:E; simpl.
    + destruct (append_links _ _ _ _ _ Hv Hf E i u Hi Hu). by rewrite !fn_lookup_insert_ne by done.
    + rewrite fn_lookup_insert_ne; [done|]. intros ->. by apply (Hf i).
Qed.

Lemma AddToList_view q qs id t : view q qs -> free qs t ->
  exists q', Threads_int_AddToList id t q = Some q' /\ view q' (<[id := qs id ++ [t]]> qs).
Proof.
  intros Hv Hf. pose proof (view_append q qs id t Hv Hf) as Ha.
  unfold Threads_int_AddToList. rewrite (view_head _ _ id Hv), (view_tail _ _ id Hv).
  destruct (qs id) as [|x l] eqn:E; simpl in *; [eauto|].
  destruct (last (x :: l)) as [z|] eqn:Ez; [|by apply last_None in Ez].
  simpl. eauto.
Qed.

Lemma wait_append_view q qs id t : view q qs -> free qs t ->
  view (wait_append id t q) (<[id := qs id ++ [t]]> qs).
Proof.
  intros Hv Hf. pose proof (view_append q qs id t Hv Hf) as [Ha Hd]. split; [|done].
  unfold wait_append. change (Lists (setNext t None q)) with (Lists q).
  rewrite (view_tail _ _ id Hv) in *.
  intros i. destruct (Ha i) as [Hs Ht]. destruct (last (qs id)) as [z|] eqn:E; [|split; [|done]].
  - split; [|done]. eapply seg_ext; [|exact Hs]. intros u Hu. simpl.
    assert (z <> t). { intros ->. apply (Hf id). by apply last_Some_elem_of. }
    destruct (decide (u = z)) as [->|]; [by rewrite fn_lookup_insert_ne, !fn_lookup_insert by done|].
    destruct (decide (u = t)) as [->|]; [|by rewrite !fn_lookup_insert_ne by done].
    by rewrite fn_lookup_insert, fn_lookup_insert_ne, fn_lookup_insert by done.
  - exact Hs.
Qed.

(** ** Unlinking *)

(** Memory after [t] was unlinked from the list [id] holding [pre ++ t :: post]. *)
Definition unlinked q q' id (pre : list tid) t (post : list tid) : Prop :=
  Head (Lists q' id) = head (pre ++ post) /\ Tail (Lists q' id) = last (pre ++ post) /\
  (forall i, i <> id -> Lists q' i = Lists q i) /\
  (forall u, u <> t -> Links q' u = if decide (last pre = Some u) then Links q t else Links q u).

Lemma view_unlink q q' qs id pre t post : view q qs -> qs id = pre ++ t :: post ->
  unlinked q q' id pre t post -> view q' (<[id := pre ++ post]> qs) /\ free (<[id := pre ++ post]> qs) t.
Proof.
  intros Hv E (Hh & Ht & HL & HN). assert (Hv' := Hv). destruct Hv' as [Ho [Hn Hd]].
  destruct (Ho id) as [Hs Htl]. specialize (Hn id). rewrite E in *.
  assert (Hnt : t ∉ pre ++ post).
  { apply NoDup_app in Hn as (_ & H1 & H2). apply NoDup_cons in H2 as [H2 _].
    rewrite elem_of_app. intros [?|?]; [|done]. eapply H1; [done|]. left. }
  split.
  - eapply view_upd; [exact Hv| | |done|].
    + split; [|done]. rewrite Hh.
      destruct pre as [|p pre' _] using rev_ind.
      * simpl in *. destruct Hs as [_ Hs]. pose proof (seg_head _ _ _ Hs) as <-.
        eapply seg_ext; [|exact Hs]. intros u Hu. rewrite HN by set_solver. done.
      * rewrite <- app_assoc in *. simpl in *.
        pose proof (seg_unlink _ _ _ _ _ _ Hs Hn) as Hu.
        pose proof (seg_head _ _ _ Hu) as He.
        eapply seg_ext; [|rewrite <- He; exact Hu].
        intros u Hin. rewrite HN by set_solver. rewrite last_snoc.
        destruct (decide (Some p = Some u)); simplify_eq; fsimp; [done|].
        rewrite fn_lookup_insert_ne by congruence. done.
    + apply disj_sub; [apply Hv|]. rewrite E. apply sublist_app; [done|]. by apply sublist_cons.
    + intros i u Hi Hu.
      assert (u ∉ qs id) as Hnu. { intros ?. apply Hi. eauto. } rewrite E in Hnu.
      rewrite HN by set_solver. rewrite decide_False; [done|]. intros Hl%last_Some_elem_of. set_solver.
  - intros i. destruct (decide (id = i)) as [<-|]; fsimp; [done|].
    intros Hi. assert (t ∈ qs id) by (rewrite E; set_solver). naive_solver.
Qed.

(** The tail pointer of the list without [t]. *)
Lemma last_unlink (pre : list tid) (t : tid) post : last (pre ++ post) =
  match post with [] => last pre | _ => last (pre ++ t :: post) end.
Proof. destruct post; [by rewrite app_nil_r|]. by rewrite !last_app_cons, last_cons_cons. Qed.
End view_lemmas.

(** ** The unlinking code of the kernel *)
Section unlink_code.
Implicit Types (q : qmem) (qs : listid -> list tid) (id : listid) (t p : tid).

Lemma view_ext q q' qs : (forall t, Links q' t = Links q t) -> (forall id, Lists q' id = Lists q id) ->
  view q qs -> view q' qs.
Proof.
  intros HN HL [Ho Hd]. split; [|done]. intros id. destruct (Ho id) as [Hs Ht]. split; rewrite HL; [|done].
  eapply seg_ext; [|exact Hs]. auto.
Qed.

(** What [Threads_int_AddToList] computes, whether or not the thread is on another list. *)
Lemma AddToList_eq q qs id t : view q qs ->
  Threads_int_AddToList id t q = Some (setNext t None (setTail id (Some t)
    (match last (qs id) with Some z => setNext z (Some t) q | None => setHead id (Some t) q end))).
Proof.
  intros Hv. unfold Threads_int_AddToList. rewrite (view_head _ _ id Hv), (view_tail _ _ id Hv).
  destruct (qs id) as [|x l] eqn:E; simpl; [done|].
  destruct (last (x :: l)) as [z|] eqn:Ez; [|by apply last_None in Ez]. done.
Qed.

(** A list holding [pre ++ t :: post]: the pointers around [t]. *)
Lemma view_around q qs id pre t post : view q qs -> qs id = pre ++ t :: post ->
  Links q t = head post /\ ~ (t ∈ pre) /\ (forall p, last pre = Some p -> p <> t /\ Links q p = Some t) /\
  Head (Lists q id) = head (pre ++ t :: post) /\ Tail (Lists q id) = last (t :: post).
Proof.
  intros Hv E. assert (Hv' := Hv). destruct Hv' as [Ho [Hn _]]. destruct (Ho id) as [Hs Ht].
  specialize (Hn id). rewrite E in *. split_and!.
  - apply seg_mid in Hs. by apply seg_head in Hs.
  - apply NoDup_app in Hn as (_ & H & _). intros ?. eapply H; [done|]. left.
  - intros p Hp. apply last_Some in Hp as [pre' ->]. rewrite <- app_assoc in Hs, Hn. simpl in *. split.
    + intros ->. apply NoDup_app in Hn as (_ & _ & Hn). apply NoDup_cons in Hn as [Hn _]. set_solver.
    + apply seg_mid in Hs. by apply seg_head in Hs.
  - by apply seg_head in Hs.
  - rewrite Ht. by rewrite last_app_cons.
Qed.

Lemma head_unlink (pre : list tid) (t : tid) post :
  head (pre ++ post) = match last pre with None => head post | Some _ => head (pre ++ t :: post) end.
Proof.
  destruct pre as [|x pre]; [done|]. simpl. by destruct (last (x :: pre)) eqn:E; [|apply last_None in E].
Qed.

(** Following [prev] or the head pointer past [t], and correcting the tail pointer, unlinks [t]. *)
Lemma relink_unlinked q q' qs id pre t post : view q qs -> qs id = pre ++ t :: post ->
  (forall u, Links q' u = match last pre with
     Some p => (<[p := Links q t]> (Links q) : tid -> option tid) u | None => Links q u end) ->
  Head (Lists q' id) = match last pre with Some _ => Head (Lists q id) | None => Links q t end ->
  Tail (Lists q' id) = (if decide (post = []) then last pre else Tail (Lists q id)) ->
  (forall i, i <> id -> Lists q' i = Lists q i) ->
  unlinked q q' id pre t post.
Proof.
  intros Hv E HN HH HT HL.
  destruct (view_around _ _ _ _ _ _ Hv E) as (Hnx & Hnt & Hp & Hh & Htl).
  split_and!; try done.
  - rewrite HH, (head_unlink pre t), Hnx, Hh. by destruct (last pre).
  - rewrite HT, (last_unlink pre t), Htl, last_app_cons. by destruct post.
  - intros u Hu. rewrite HN. destruct (last pre) as [p|]; [|done].
    destruct (decide (Some p = Some u)) as [[= ->]|]; fsimp; [done|]. by rewrite fn_lookup_insert_ne by congruence.
Qed.

Lemma DelFromQueue_unlinked fuel q qs id pre t post : view q qs -> qs id = pre ++ t :: post ->
  (length (qs id) <= fuel)%nat ->
  exists q', Threads_int_DelFromQueue fuel id t q = Some (Some t, q') /\ unlinked q q' id pre t post.
Proof.
  intros Hv E Hf. destruct (view_around _ _ _ _ _ _ Hv E) as (Hnx & Hnt & Hp & Hh & Htl).
  rewrite E, length_app in Hf. simpl in Hf. destruct Hv as [Ho Hd] eqn:EHv. destruct (Ho id) as [Hs _]. rewrite E in Hs.
  unfold Threads_int_DelFromQueue.
  rewrite (find_prev_found q t pre post _ None fuel Hs Hnt) by lia. simpl.
  eexists. split; [done|]. eapply relink_unlinked; [exact Hv|exact E|..].
  all: destruct (last pre) as [p|] eqn:Ep; [destruct (Hp p eq_refl) as [Hpt _]|]; simpl;
    rewrite ?(fn_lookup_insert_ne _ _ _ _ Hpt), Hnx; destruct post; simpl;
    rewrite ?decide_True, ?decide_False by done; simpl; intros; try done; fsimp; try done.
Qed.
End unlink_code.

(** Sequences that agree. *)
Lemma view_seqs q q' qs qs' : (forall t, Links q' t = Links q t) -> (forall id, Lists q' id = Lists q id) ->
  (forall id, qs' id = qs id) -> view q qs -> view q' qs'.
Proof.
  intros HN HL HQ Hv. pose proof (view_ext q q' qs HN HL Hv) as [Ho [Hn Hd]]. split; [|split].
  - intros id. rewrite HQ. apply Ho.
  - intros id. rewrite HQ. apply Hn.
  - intros i j t. rewrite !HQ. apply Hd.
Qed.
