(* ===== verification/Sync.v ===== *)
(** * Synchronisation: mutexes, semaphores, reader-writer locks, work queues, events
    ([KernelLand/Kernel/mutex.c], [semaphore.c], [rwlock.c], [workqueue.c], [events.c], and [Threads_Wake] of
    [threads.c])

    A call that may block returns [None] when the thread has gone to sleep; the function with the suffix
    [_end] is the rest of the call, run by the same thread when
    [Threads_int_WaitForStatusEnd] has returned. *)
From S2P Require Import Prelude Threads.
Local Open Scope Z_scope.
Local Open Scope monad_scope.

(** A result of type [int]. *)
Definition int_ok (x : Z) : bool := (-2147483648 <=? x) && (x <=? 2147483647).

Section ops.
(** [cur] is [Proc_GetCurThread()]; [fuel] bounds the walks along a list. *)
Context (cur : tid) (fuel : nat).

(** ** Mutexes *)
Definition set_Owner (m : positive) (o : option tid) : KM unit :=
  modify (fun s => with_Owner (<[m := o]> (Owner s)) s).

Definition Mutex_Acquire (m : positive) : KM (option Z) :=
  do o <- gets (fun s => Owner s m);
  match o with
  | Some _ =>
    Threads_int_Sleep cur THREAD_STAT_MUTEXSLEEP (Some (WMutex m)) 0 (OnList (LMutex m));;; ret None
  | None => set_Owner m (Some cur);;; ret (Some 0)
  end.
Definition Mutex_Acquire_end : KM Z := int_Sleep_end cur;;; ret 0.

(** [if( Thread->Status != THREAD_STAT_ACTIVE ) Threads_AddActive(Thread)] *)
Definition wake_if_asleep (t : tid) : KM unit :=
  do th <- thr t;
  if decide (Status th = THREAD_STAT_ACTIVE) then ret tt else Threads_AddActive cur t.

Definition Mutex_Release (m : positive) : KM unit :=
  do w <- gets (fun s => Head (Lists (Qm s) (LMutex m)));
  match w with
  | Some w =>
    set_Owner m (Some w);;;
    onQ' (fun q => setHead (LMutex m) (Links q w) q);;;
    onQ' (fun q => if decide (Tail (Lists q (LMutex m)) = Some w) then setTail (LMutex m) None q else q);;;
    wake_if_asleep w
  | None => set_Owner m None
  end.

Definition Mutex_IsLocked (m : positive) : KM bool := gets (fun s => bool_decide (Owner s m <> None)).

(** ** Semaphores *)
Definition set_Value (s : positive) (v : Z) : KM unit :=
  require Overflow (int_ok v);;;
  modify (fun st => with_Sems (<[s := SEM v (MaxValue (Sems st s))]> (Sems st)) st).

(** [memset] clears the lists too. *)
Definition Semaphore_Init (s : positive) (v max : Z) : KM unit :=
  modify (fun st => with_Sems (<[s := SEM v max]> (Sems st)) st);;;
  onQ' (fun q => Q (Links q) (<[LSemWait s := L None None]> (<[LSemSignal s := L None None]> (Lists q)))).

(** Removal of the first thread of one of a semaphore's lists. *)
Definition sem_pop (id : listid) (w : tid) : KM unit :=
  onQ' (fun q => setHead id (Links q w) q);;;
  onQ' (fun q => if decide (Head (Lists q id) = None) then setTail id None q else q).

(** The loop of [Semaphore_Wait] that lets blocked signallers go on. *)
Fixpoint sem_serve (n : nat) (s : positive) : KM unit :=
  match n with
  | O => halt Endless
  | S n =>
    do sem <- gets (fun st => Sems st s);
    do w <- gets (fun st => Head (Lists (Qm st) (LSemSignal s)));
    if (MaxValue sem =? 0) || (Value sem <? MaxValue sem) then
      match w with
      | None => ret tt
      | Some w =>
        sem_pop (LSemSignal s) w;;;
        do th <- thr w;
        require Overflow ((RetStatus th =? 0) || int_ok (Value sem + RetStatus th));;;
        let given := if negb (RetStatus th =? 0) && (Value sem + RetStatus th <? MaxValue sem)
                     then RetStatus th else MaxValue sem - Value sem in
        require Overflow (int_ok given);;;
        set_Value s (Value sem - given);;;
        upd w (set_RetStatus given);;;
        wake_if_asleep w;;;
        sem_serve n s
      end
    else ret tt
  end.

Definition Semaphore_Wait (s : positive) (MaxToTake : Z) : KM (option Z) :=
  let MaxToTake := if MaxToTake <? 0 then 0 else MaxToTake in
  do sem <- gets (fun st => Sems st s);
  if 0 <? Value sem then
    let taken := if negb (MaxToTake =? 0) && (MaxToTake <? Value sem) then MaxToTake else Value sem in
    set_Value s (Value sem - taken);;;
    sem_serve fuel s;;; ret (Some taken)
  else
    Threads_int_Sleep cur THREAD_STAT_SEMAPHORESLEEP (Some (WSem s)) MaxToTake (OnList (LSemWait s));;; ret None.
Definition Semaphore_Wait_end (s : positive) : KM Z :=
  do taken <- int_Sleep_end cur;
  sem_serve fuel s;;; ret taken.

(** The loop of [Semaphore_Signal] that hands items to waiting threads. *)
Fixpoint sem_hand_out (n : nat) (s : positive) : KM unit :=
  match n with
  | O => halt Endless
  | S n =>
    do sem <- gets (fun st => Sems st s);
    do w <- gets (fun st => Head (Lists (Qm st) (LSemWait s)));
    if Value sem =? 0 then ret tt else
    match w with
    | None => ret tt
    | Some w =>
      sem_pop (LSemWait s) w;;;
      do th <- thr w;
      let given := if negb (RetStatus th =? 0) && (RetStatus th <? Value sem)
                   then RetStatus th else Value sem in
      set_Value s (Value sem - given);;;
      upd w (set_RetStatus given);;;
      wake_if_asleep w;;;
      sem_hand_out n s
    end
  end.

Definition Semaphore_Signal (s : positive) (AmmountToAdd : Z) : KM (option Z) :=
  do sem <- gets (fun st => Sems st s);
  if negb (MaxValue sem =? 0) && (Value sem =? MaxValue sem) then
    Threads_int_Sleep cur THREAD_STAT_SEMAPHORESLEEP (Some (WSem s)) AmmountToAdd (OnList (LSemSignal s));;; ret None
  else
    require Overflow ((MaxValue sem =? 0) || int_ok (Value sem + AmmountToAdd));;;
    let added := if negb (MaxValue sem =? 0) && (MaxValue sem <? Value sem + AmmountToAdd)
                 then MaxValue sem - Value sem else AmmountToAdd in
    require Overflow (int_ok added);;;
    set_Value s (Value sem + added);;;
    sem_hand_out fuel s;;; ret (Some added).
Definition Semaphore_Signal_end (s : positive) : KM Z :=
  do added <- int_Sleep_end cur;
  sem_hand_out fuel s;;; ret added.

(** [prev->Next = Thread->Next], or the head of the list when nothing precedes the thread;
    then the tail pointer. *)
Definition unlink_after (id : listid) (prev : option tid) (Thread : tid) (q : qmem) : qmem :=
  let q := match prev with
           | Some p => setNext p (Links q Thread) q
           | None => setHead id (Links q Thread) q
           end in
  if decide (Tail (Lists q id) = Some Thread) then setTail id prev q else q.

(** The walk of [Semaphore_ForceWake]: the thread whose successor is [Thread], if any. *)
Fixpoint find_before (n : nat) (q : qmem) (prev : option tid) (Thread : tid) : option (option tid) :=
  match n with
  | O => None
  | S n =>
    match prev with
    | None => Some None
    | Some p => if decide (Links q p = Some Thread) then Some (Some p) else find_before n q (Links q p) Thread
    end
  end.

Definition force_unlink (id : listid) (Thread : tid) (q : qmem) : option (unit * qmem) :=
  if decide (Head (Lists q id) = Some Thread) then
    let q := setHead id (Links q Thread) q in
    Some (tt, if decide (Tail (Lists q id) = Some Thread) then setTail id None q else q)
  else
    prev ← find_before fuel q (Head (Lists q id)) Thread;
    let q := match prev with Some p => setNext p (Links q Thread) q | None => q end in
    Some (tt, if decide (Tail (Lists q id) = Some Thread) then setTail id prev q else q).

(** [has_lock]: [CPU_HAS_LOCK(&Thread->IsLocked)]. *)
Definition Semaphore_ForceWake (has_lock : bool) (Thread : tid) : KM unit :=
  if negb has_lock then ret tt else
  do th <- thr Thread;
  if decide (Status th = THREAD_STAT_SEMAPHORESLEEP) then
    match WaitPointer th with
    | Some (WSem s) =>
      onQ Endless (force_unlink (LSemWait s) Thread);;;
      upd Thread (set_RetStatus 0);;;
      Threads_AddActive cur Thread
    | _ => halt NullPointer
    end
  else ret tt.

Definition Semaphore_GetValue (s : positive) : KM Z := gets (fun st => Value (Sems st s)).

(** ** Waking a thread from outside *)
Inductive wake_result := EOK | EINVAL | EALREADY | EINTERNAL | ENOTIMPL.

Definition find_on (id : listid) (Thread : tid) : KM (option (option tid)) :=
  onQ Endless (fun q => r ← find_prev fuel q (Head (Lists q id)) None Thread; Some (r, q)).

Definition Threads_Wake (Thread : option tid) : KM wake_result :=
  match Thread with
  | None => ret EINVAL
  | Some t =>
    do th <- thr t;
    match Status th with
    | THREAD_STAT_ACTIVE => ret EALREADY
    | THREAD_STAT_SLEEPING =>
      onQ Endless (Threads_int_DelFromQueue fuel LSleeping t);;;
      Threads_AddActive cur t;;; ret EOK
    | THREAD_STAT_SEMAPHORESLEEP =>
      match WaitPointer th with
      | Some (WSem s) =>
        do w <- find_on (LSemWait s) t;
        match w with
        | Some prev =>
          onQ' (unlink_after (LSemWait s) prev t);;;
          upd t (set_RetStatus 0);;; Threads_AddActive cur t;;; ret EOK
        | None =>
          do w <- find_on (LSemSignal s) t;
          match w with
          | Some prev =>
            onQ' (unlink_after (LSemSignal s) prev t);;;
            upd t (set_RetStatus 0);;; Threads_AddActive cur t;;; ret EOK
          | None => ret EINTERNAL
          end
        end
      | _ => halt NullPointer
      end
    | THREAD_STAT_WAITING | THREAD_STAT_DEAD => ret ENOTIMPL
    | _ => ret EINTERNAL
    end
  end.

(** ** Events *)
Abbreviation THREAD_EVENT_TIMER := 8 (only parsing).

Definition Threads_PostEvent (Thread : option tid) (EventMask : Z) : KM unit :=
  match Thread with
  | None => ret tt
  | Some t =>
    if EventMask =? 0 then ret tt else
    upd t (fun th => set_EventState (Z.lor (EventState th) EventMask) th);;;
    do th <- thr t;
    match Status th with
    | THREAD_STAT_EVENTSLEEP =>
      if Z.land (u32 (RetStatus th)) EventMask =? 0 then ret tt else Threads_AddActive cur t
    | THREAD_STAT_SEMAPHORESLEEP =>
      if Z.land EventMask THREAD_EVENT_TIMER =? 0 then ret tt else Semaphore_ForceWake true t
    | _ => ret tt
    end
  end.

(** [x & ~mask] on [Uint32]. *)
Definition clear_bits (x mask : Z) : Z := Z.land x (Z.lxor mask 0xFFFFFFFF).

Definition Threads_ClearEvent (EventMask : Z) : KM unit :=
  upd cur (fun th => set_EventState (clear_bits (EventState th) EventMask) th).

Definition collect_events (EventMask : Z) : KM Z :=
  do th <- thr cur;
  let rv := Z.land (EventState th) EventMask in
  upd cur (fun th => set_EventState (clear_bits (EventState th) EventMask) th);;; ret rv.
Definition Threads_WaitEvents (EventMask : Z) : KM (option Z) :=
  if EventMask =? 0 then ret (Some 0) else
  do th <- thr cur;
  if Z.land (EventState th) EventMask =? 0 then
    Threads_int_Sleep cur THREAD_STAT_EVENTSLEEP None (i32 EventMask) OnSelf;;; ret None
  else do rv <- collect_events EventMask; ret (Some rv).
Definition Threads_WaitEvents_end (EventMask : Z) : KM Z :=
  int_Sleep_end cur;;; collect_events EventMask.

(** ** Reader-writer locks *)
Definition set_Lock (l : positive) (v : tRWLock) : KM unit :=
  require Overflow (int_ok (Level v));;;
  modify (fun s => with_Locks (<[l := v]> (Locks s)) s).

Definition RWLock_AcquireRead (l : positive) : KM (option Z) :=
  do lk <- gets (fun s => Locks s l);
  do w <- gets (fun s => Head (Lists (Qm s) (LWriters l)));
  match RWOwner lk, w with
  | None, None => set_Lock l (RWL (Level lk + 1) (RWOwner lk));;; ret (Some 0)
  | _, _ => Threads_int_Sleep cur THREAD_STAT_RWLOCKSLEEP (Some (WLock l)) 0 (OnList (LReaders l));;; ret None
  end.

Definition RWLock_AcquireWrite (l : positive) : KM (option Z) :=
  do lk <- gets (fun s => Locks s l);
  if bool_decide (RWOwner lk = None) && (Level lk =? 0) then
    set_Lock l (RWL (Level lk) (Some cur));;; ret (Some 0)
  else Threads_int_Sleep cur THREAD_STAT_RWLOCKSLEEP (Some (WLock l)) 0 (OnList (LWriters l));;; ret None.
Definition RWLock_Acquire_end : KM Z := int_Sleep_end cur;;; ret 0.

Fixpoint rw_wake_readers (n : nat) (l : positive) : KM unit :=
  match n with
  | O => halt Endless
  | S n =>
    do r <- gets (fun s => Head (Lists (Qm s) (LReaders l)));
    match r with
    | None => ret tt
    | Some r =>
      do lk <- gets (fun s => Locks s l);
      set_Lock l (RWL (Level lk + 1) (RWOwner lk));;;
      Threads_AddActive cur r;;;
      onQ' (fun q => setHead (LReaders l) (Links q r) q);;;
      rw_wake_readers n l
    end
  end.

Definition RWLock_Release (l : positive) : KM unit :=
  do lk <- gets (fun s => Locks s l);
  (if decide (RWOwner lk = Some cur) then ret tt
   else set_Lock l (RWL (Level lk - 1) (RWOwner lk)));;;
  do lk <- gets (fun s => Locks s l);
  do w <- gets (fun s => Head (Lists (Qm s) (LWriters l)));
  match w with
  | Some w =>
    set_Lock l (RWL (Level lk) (Some w));;;
    onQ' (fun q => setHead (LWriters l) (Links q w) q);;;
    wake_if_asleep w
  | None =>
    set_Lock l (RWL (Level lk) None);;;
    rw_wake_readers fuel l
  end.

(** ** Work queues *)
Definition set_Work (w : positive) (v : tWorkqueue) : KM unit :=
  modify (fun s => with_Works (<[w := v]> (Works s)) s).
Definition set_Item (i : positive) (n : option positive) : KM unit :=
  modify (fun s => with_Items (<[i := n]> (Items s)) s).

(** [Head] and [Tail] keep what the memory held. *)
Definition Workqueue_Init (w : positive) : KM unit :=
  onQ' (fun q => Q (Links q) (<[LQueue w := L None None]> (Lists q))).

(** One round of the loop. *)
Definition Workqueue_GetWork (w : positive) : KM (option positive) :=
  do wq <- gets (fun s => Works s w);
  match WHead wq with
  | Some ret_ =>
    do n <- gets (fun s => Items s ret_);
    set_Work w (WQ n (if decide (WTail wq = Some ret_) then None else WTail wq));;;
    ret (Some ret_)
  | None =>
    Threads_int_Sleep cur THREAD_STAT_QUEUESLEEP (Some (WQueue w)) 0 (OnList (LQueue w));;; ret None
  end.
Definition Workqueue_GetWork_end (w : positive) : KM (option positive) :=
  int_Sleep_end cur;;; Workqueue_GetWork w.

Definition Workqueue_AddWork (w Ptr : positive) : KM unit :=
  do wq <- gets (fun s => Works s w);
  match WTail wq with
  | Some tl => set_Item tl (Some Ptr);;; set_Work w (WQ (WHead wq) (Some Ptr))
  | None => set_Work w (WQ (Some Ptr) (Some Ptr))
  end;;;
  set_Item Ptr None;;;
  do sl <- gets (fun s => Head (Lists (Qm s) (LQueue w)));
  match sl with
  | None => ret tt
  | Some sl =>
    do th <- thr sl;
    require AssertFailed (negb (bool_decide (Status th = THREAD_STAT_ACTIVE)));;;
    do next_sleeper <- gets (fun s => Links (Qm s) sl);
    Threads_AddActive cur sl;;;
    onQ' (setHead (LQueue w) next_sleeper);;;
    (if decide (next_sleeper = None) then onQ' (setTail (LQueue w) None) else ret tt)
  end.
End ops.
