(* ===== verification/SyncInv.v ===== *)
(** * Invariant of the scheduler and the synchronisation objects

    Where each thread is (running, on a run queue, on the waiting list of the object it
    sleeps on), as a property of the thread's own fields and of the sequences the list memory denotes, and
    what sleeping, waking and rescheduling do to it. *)
From S2P Require Import Prelude Threads ThreadLists Sync.
Local Open Scope Z_scope.
Local Open Scope monad_scope.

(** ** Running the monadic code *)
Section running.
Context {A B : Type} (s : kstate).
Lemma bind_gets (f : kstate -> A) (c : A -> KM B) : bind (gets f) c s = c (f s) s.
Proof. done. Qed.
Lemma bind_thr t (c : tThread -> KM B) : bind (thr t) c s = c (Thr s t) s.
Proof. done. Qed.
Lemma bind_upd t f (c : unit -> KM B) : bind (upd t f) c s = c tt (with_Thr (<[t := f (Thr s t)]> (Thr s)) s).
Proof. done. Qed.
Lemma bind_modify f (c : unit -> KM B) : bind (modify f) c s = c tt (f s).
Proof. done. Qed.
Lemma bind_onQ' f (c : unit -> KM B) : bind (onQ' f) c s = c tt (with_Qm (f (Qm s)) s).
Proof. done. Qed.
Lemma bind_require e b (c : unit -> KM B) : b = true -> bind (require e b) c s = c tt s.
Proof. by intros ->. Qed.
Lemma bind_kret (a : A) (c : A -> KM B) : bind (ret a) c s = c a s.
Proof. done. Qed.
Lemma bind_kassoc {C} (c : KM C) (f : C -> KM A) (g : A -> KM B) :
  bind (bind c f) g s = bind c (fun a => bind (f a) g) s.
Proof. apply bind_assoc. Qed.
End running.
Ltac krun := repeat first [ rewrite bind_gets | rewrite bind_thr | rewrite bind_upd | rewrite bind_modify
  | rewrite bind_onQ' | rewrite bind_kret | rewrite bind_kassoc ].

(** ** Removing a thread from a waiting list *)
Section unlinking.
Context (q : qmem) (qs : listid -> list tid) (id : listid) (t : tid).
Context (Hv : view q qs).

Lemma unlink_after_unlinked pre post : qs id = pre ++ t :: post ->
  unlinked q (unlink_after id (last pre) t q) id pre t post.
Proof.
  intros E. destruct (view_around _ _ _ _ _ _ Hv E) as (Hnx & Hnt & Hp & Hh & Htl).
  assert (Hlast : last (t :: post) = Some t <-> post = []).
  { destruct post as [|x post]; [done|]. rewrite last_cons_cons. split; [|done]. intros Hl%last_Some_elem_of.
    destruct Hv as [_ [Hn _]]. specialize (Hn id). rewrite E in Hn.
    apply NoDup_app in Hn as (_ & _ & Hn). by apply NoDup_cons in Hn as [Hn _]. }
  eapply relink_unlinked; [exact Hv|exact E|..]; unfold unlink_after;
    destruct (last pre) as [p|] eqn:Ep; simpl; fsimp; simpl; rewrite Htl;
    destruct (decide (last (t :: post) = Some t)) as [Hl|Hl]; rewrite Hlast in Hl; simpl;
    intros; fsimp; simpl; rewrite ?decide_True, ?decide_False by done; done.
Qed.

(** Taking the first thread. *)
Lemma pop_unlinked q' post : qs id = t :: post -> (forall u, Links q' u = Links q u) ->
  Lists q' id = L (Links q t) (if decide (post = []) then None else Tail (Lists q id)) ->
  (forall i, i <> id -> Lists q' i = Lists q i) -> unlinked q q' id [] t post.
Proof. intros E HN HI HL. eapply relink_unlinked; [exact Hv|exact E|..]; simpl; rewrite ?HI; done. Qed.

Lemma find_before_found : forall l1 l2 p prev fuel, seg (Links q) prev (l1 ++ p :: t :: l2) ->
  NoDup (l1 ++ p :: t :: l2) -> (length l1 < fuel)%nat -> find_before fuel q prev t = Some (Some p).
Proof.
  induction l1 as [|x l1 IH]; intros l2 p prev fuel; simpl.
  - intros (-> & Hp & _) Hn ?. destruct fuel; [lia|]. simpl. by rewrite decide_True.
  - intros [-> Hs] [Hx Hn]%NoDup_cons ?. destruct fuel; [lia|]. simpl. rewrite decide_False.
    + apply (IH l2); [done..|lia].
    + intros Hl. rewrite Hl in Hs. apply seg_head in Hs. destruct l1 as [|y l1]; simpl in *; simplify_eq.
      * apply NoDup_cons in Hn as [Hn _]. set_solver.
      * apply NoDup_cons in Hn as [Hn _]. set_solver.
Qed.

Lemma force_unlink_unlinked fuel pre post : qs id = pre ++ t :: post -> (length (qs id) <= fuel)%nat ->
  exists q', force_unlink fuel id t q = Some (tt, q') /\ unlinked q q' id pre t post.
Proof.
  intros E Hf. exists (unlink_after id (last pre) t q). split; [|by apply unlink_after_unlinked].
  destruct (view_around _ _ _ _ _ _ Hv E) as (Hnx & Hnt & Hp & Hh & Htl).
  unfold force_unlink, unlink_after. destruct pre as [|p pre' _] using rev_ind.
  - simpl in *. rewrite decide_True by done. done.
  - rewrite <- app_assoc in *. simpl in *. rewrite decide_False.
    2: { rewrite Hh. destruct pre' as [|y pre']; simpl; [|intros [= ->]; set_solver].
         intros [= ->]. set_solver. }
    destruct Hv as [Ho [Hn _]]. destruct (Ho id) as [Hs _]. specialize (Hn id). rewrite E in *.
    rewrite (find_before_found pre' post p _ fuel Hs Hn) by (rewrite length_app in Hf; simpl in Hf; lia).
    simpl. by rewrite last_snoc.
Qed.
End unlinking.

(** ** Sums over the threads *)
Definition zsum (f : tid -> Z) (l : list tid) : Z := foldr (fun t a => f t + a) 0 l.

Section zsum_lemmas.
Implicit Types (f g : tid -> Z) (l : list tid).

Lemma zsum_ext f g l : (forall t, t ∈ l -> f t = g t) -> zsum f l = zsum g l.
Proof.
  induction l as [|x l IH]; simpl; [done|]. intros H. rewrite H by left. f_equal.
  apply IH. intros. apply H. by right.
Qed.

Lemma zsum_change f g l t : NoDup l -> t ∈ l -> (forall u, u <> t -> g u = f u) ->
  zsum g l = zsum f l - f t + g t.
Proof.
  intros Hn Ht H. induction l as [|x l IH]; [set_solver|]. apply NoDup_cons in Hn as [Hx Hn]. simpl.
  apply elem_of_cons in Ht as [<-|Ht].
  - rewrite (zsum_ext g f l); [lia|]. intros u Hu. apply H. set_solver.
  - rewrite IH by done. rewrite (H x) by set_solver. lia.
Qed.

Lemma zsum_nonneg f l : (forall t, t ∈ l -> 0 <= f t) -> 0 <= zsum f l.
Proof.
  induction l as [|x l IH]; simpl; [done|]. intros H. pose proof (H x ltac:(left)).
  assert (0 <= zsum f l); [|lia]. apply IH. intros. apply H. by right.
Qed.

Lemma zsum_zero f l : (forall t, t ∈ l -> 0 <= f t) -> zsum f l = 0 -> forall t, t ∈ l -> f t = 0.
Proof.
  induction l as [|x l IH]; simpl; [set_solver|]. intros H Hz t.
  pose proof (H x ltac:(left)). assert (0 <= zsum f l) by (apply zsum_nonneg; intros; apply H; by right).
  intros [->|Ht]%elem_of_cons; [lia|]. apply IH; [intros; apply H; by right|lia|done].
Qed.
End zsum_lemmas.

(** ** Calls that have not returned *)
Inductive pending := PMutex (m : positive) | PSemWait (s : positive) | PQueue (w : positive) | PEvents (mask : Z) | PSleep.
#[export] Instance pending_eq : EqDecision pending.
Proof. solve_decision. Defined.

(** A thread with the fields [th], on the list [w], inside the call [p]; [c]: it is the current thread. *)
Definition tok (th : tThread) (w : option listid) (p : option pending) (c : bool) : Prop :=
  prio_ok (Priority th) = true /\
  match Status th with
  | THREAD_STAT_ACTIVE => w = if c then None else Some (LActive (Priority th))
  | THREAD_STAT_SLEEPING => w = Some LSleeping /\ p = Some PSleep
  | THREAD_STAT_MUTEXSLEEP => exists m, w = Some (LMutex m) /\ p = Some (PMutex m)
  | THREAD_STAT_SEMAPHORESLEEP => exists s, w = Some (LSemWait s) /\ p = Some (PSemWait s) /\
      WaitPointer th = Some (WSem s) /\ 0 <= RetStatus th <= 2147483647
  | THREAD_STAT_QUEUESLEEP => exists s, w = Some (LQueue s) /\ p = Some (PQueue s)
  | THREAD_STAT_EVENTSLEEP => exists mask, w = None /\ p = Some (PEvents mask) /\
      0 <= mask < 4294967296 /\ RetStatus th = i32 mask /\ Z.land (EventState th) mask = 0
  | THREAD_STAT_PREINIT => w = None /\ p = None
  | _ => False
  end.

Definition active (k : kstate) (t : tid) : Z := b2z (bool_decide (Status (Thr k t) = THREAD_STAT_ACTIVE)).

Section core.
Context (tids : list tid) (Htids : NoDup tids).
Implicit Types (k : kstate) (qs : listid -> list tid) (wh : tid -> option listid) (pend : tid -> option pending).

(** The invariant of lists and threads, except for the threads in [P]. *)
Definition core_but (P : tid -> Prop) (oc : option tid) pend k qs wh : Prop :=
  view (Qm k) qs /\
  (forall id t, t ∈ qs id <-> t ∈ tids /\ ~ P t /\ wh t = Some id) /\
  (forall t, t ∈ tids -> ~ P t -> tok (Thr k t) (wh t) (pend t) (bool_decide (oc = Some t))) /\
  giNumActiveThreads k = zsum (active k) tids.
Definition core := core_but (fun _ => False).

(** Nothing but threads and lists differs. *)
Definition same_objects k k' : Prop :=
  NoTaskSwitch k' = NoTaskSwitch k /\ Owner k' = Owner k /\ Sems k' = Sems k /\ Locks k' = Locks k /\
  Works k' = Works k /\ Items k' = Items k.

Lemma core_elem oc pend k qs wh id t : core oc pend k qs wh -> t ∈ qs id <-> t ∈ tids /\ wh t = Some id.
Proof. intros (_ & H & _). rewrite H. tauto. Qed.

Lemma core_length oc pend k qs wh id : core oc pend k qs wh -> (length (qs id) <= length tids)%nat.
Proof.
  intros Hc. apply submseteq_length, NoDup_submseteq.
  - destruct Hc as ((_ & Hn & _) & _). apply Hn.
  - intros t Ht. by eapply core_elem in Ht as [? _].
Qed.

Lemma core_free P oc pend k qs wh t : core_but P oc pend k qs wh -> P t \/ wh t = None -> free qs t.
Proof. intros (_ & H & _) Hp id Hid. apply H in Hid as (_ & ? & ?). destruct Hp; [done|congruence]. Qed.

(** Taking a thread off its list. *)
Lemma core_unlink oc pend k qs wh t id pre post q' : core oc pend k qs wh -> qs id = pre ++ t :: post ->
  unlinked (Qm k) q' id pre t post ->
  core_but (fun u => u = t) oc pend (with_Qm q' k) (<[id := pre ++ post]> qs) wh.
Proof.
  intros Hc E Hu. assert (Hc' := Hc). destruct Hc' as (Hv & Hin & Htok & Hnum).
  destruct (view_unlink _ _ _ _ _ _ _ Hv E Hu) as [Hv' Hf]. split_and!; [done| |naive_solver|done].
  intros i u. destruct (decide (u = t)) as [->|Hne].
  - split; [intros ?; by destruct (Hf i)|naive_solver].
  - transitivity (u ∈ qs i); [|rewrite Hin; naive_solver].
    destruct (decide (id = i)) as [<-|]; fsimp; [|done]. rewrite E. set_solver.
Qed.

(** A thread asleep on no list (waiting for events). *)
Lemma core_limbo oc pend k qs wh t : core oc pend k qs wh -> wh t = None ->
  core_but (fun u => u = t) oc pend k qs wh.
Proof.
  intros (Hv & Hin & Htok & Hnum) Hw. split_and!; [done| |naive_solver|done].
  intros id u. rewrite Hin. split; [|naive_solver]. intros (? & ? & ?). split_and!; try done. intros ->. congruence.
Qed.

(** Changing fields other than the status of a thread in limbo. *)
Lemma core_but_upd oc pend k qs wh t th : core_but (fun u => u = t) oc pend k qs wh ->
  Status th = Status (Thr k t) -> core_but (fun u => u = t) oc pend (with_Thr (<[t := th]> (Thr k)) k) qs wh.
Proof.
  intros (Hv & Hin & Htok & Hnum) Hs. split_and!; try done.
  - intros u Hu Hne. simpl. rewrite fn_lookup_insert_ne by done. auto.
  - simpl. rewrite Hnum. apply zsum_ext. intros u _. unfold active. simpl.
    destruct (decide (t = u)) as [<-|]; fsimp; [by rewrite Hs|done].
Qed.

(** Putting a thread in limbo on a list, with its fields as they are then. *)
Lemma core_place oc pend k k' qs wh t id : core_but (fun u => u = t) oc pend k qs wh -> t ∈ tids ->
  Thr k' = Thr k -> giNumActiveThreads k' = giNumActiveThreads k ->
  view (Qm k') (<[id := qs id ++ [t]]> qs) ->
  tok (Thr k t) (Some id) (pend t) (bool_decide (oc = Some t)) ->
  core oc pend k' (<[id := qs id ++ [t]]> qs) (<[t := Some id]> wh).
Proof.
  intros (Hv & Hin & Htok & Hnum) Ht HT HN Hv' Hk. split_and!; [done| | |].
  - intros i u. destruct (decide (t = u)) as [<-|]; fsimp.
    + assert (forall i, t ∉ qs i) by (intros j Hj; apply Hin in Hj; naive_solver).
      destruct (decide (id = i)) as [<-|]; fsimp; rewrite ?elem_of_app, ?list_elem_of_singleton; naive_solver.
    + transitivity (u ∈ qs i); [|rewrite Hin; split; intros (? & ? & ?); split_and!; auto; congruence].
      destruct (decide (id = i)) as [<-|]; fsimp; [|done].
      rewrite elem_of_app, list_elem_of_singleton. split; [intros [?|?]; congruence|by left].
  - intros u Hu _. rewrite HT. destruct (decide (t = u)) as [<-|]; fsimp; [done|]. apply Htok; auto.
  - rewrite HN, Hnum. apply zsum_ext. intros u _. unfold active. by rewrite HT.
Qed.

(** Leaving it on no list. *)
Lemma core_settle oc pend k k' qs wh t : core_but (fun u => u = t) oc pend k qs wh ->
  Thr k' = Thr k -> giNumActiveThreads k' = giNumActiveThreads k -> view (Qm k') qs ->
  (t ∈ tids -> tok (Thr k t) None (pend t) (bool_decide (oc = Some t))) ->
  core oc pend k' qs (<[t := None]> wh).
Proof.
  intros (Hv & Hin & Htok & Hnum) HT HN Hv' Hk. split_and!; [done| | |].
  - intros i u. destruct (decide (t = u)) as [<-|]; fsimp; rewrite Hin; naive_solver.
  - intros u Hu _. rewrite HT. destruct (decide (t = u)) as [<-|]; fsimp; [auto|]. apply Htok; auto.
  - rewrite HN, Hnum. apply zsum_ext. intros u _. unfold active. by rewrite HT.
Qed.

Lemma active_change k k' t : (forall u, u <> t -> Thr k' u = Thr k u) -> t ∈ tids ->
  zsum (active k') tids = zsum (active k) tids - active k t + active k' t.
Proof. intros H Ht. apply zsum_change; [done..|]. intros u Hu. unfold active. by rewrite H. Qed.

Lemma active_yes k t : Status (Thr k t) = THREAD_STAT_ACTIVE -> active k t = 1.
Proof. intros H. unfold active. by rewrite H. Qed.
Lemma active_no k t : Status (Thr k t) <> THREAD_STAT_ACTIVE -> active k t = 0.
Proof. intros H. unfold active. by rewrite bool_decide_eq_false_2. Qed.
Lemma active_nonneg k t : 0 <= active k t.
Proof. unfold active. destruct (bool_decide _); done. Qed.

(** ** Becoming active *)
Definition appended (q : qmem) qs (id : listid) (t : tid) : qmem :=
  setNext t None (setTail id (Some t)
    (match last (qs id) with Some z => setNext z (Some t) q | None => setHead id (Some t) q end)).

Lemma add_list_run k qs id t : view (Qm k) qs -> add_list id t k = Ok tt (with_Qm (appended (Qm k) qs id t) k).
Proof. intros Hv. unfold add_list, onQ. by rewrite (AddToList_eq _ _ id t Hv). Qed.

Lemma add_active_list_run k qs t : view (Qm k) qs -> prio_ok (Priority (Thr k t)) = true ->
  add_active_list t k = Ok tt (with_Qm (appended (Qm k) qs (LActive (Priority (Thr k t))) t) k).
Proof.
  intros Hv Hp. unfold add_active_list. krun. rewrite bind_require by done. by apply add_list_run.
Qed.

Definition awake (k : kstate) (t : tid) : tThread := set_Status THREAD_STAT_ACTIVE (Thr k t).

Lemma AddActive_run cur k qs t : view (Qm k) qs -> Status (Thr k t) <> THREAD_STAT_ACTIVE ->
  prio_ok (Priority (Thr k t)) = true ->
  Threads_AddActive cur t k = Ok tt (with_Num (giNumActiveThreads k + 1)
    (with_Qm (if decide (t = cur) then Qm k else appended (Qm k) qs (LActive (Priority (Thr k t))) t)
      (with_Thr (<[t := awake k t]> (Thr k)) k))).
Proof.
  intros Hv Hs Hp. unfold Threads_AddActive. krun. rewrite decide_False by done. krun.
  destruct (decide (t = cur)).
  - done.
  - unfold bind. erewrite add_active_list_run; [| |].
    + cbn. by rewrite fn_lookup_insert.
    + exact Hv.
    + cbn. by rewrite fn_lookup_insert.
Qed.

Definition not_active (id : listid) : Prop := forall p, id <> LActive p.

Lemma AddActive_core cur pend k qs wh t : core_but (fun u => u = t) (Some cur) pend k qs wh -> t ∈ tids ->
  Status (Thr k t) <> THREAD_STAT_ACTIVE -> prio_ok (Priority (Thr k t)) = true ->
  exists k' qs' wh', Threads_AddActive cur t k = Ok tt k' /\ core (Some cur) pend k' qs' wh' /\
    Thr k' = <[t := awake k t]> (Thr k) /\ same_objects k k' /\
    (forall id, not_active id -> qs' id = qs id).
Proof.
  intros Hc Ht Hs Hp. assert (Hc' := Hc). destruct Hc' as (Hv & Hin & Htok & Hnum).
  rewrite (AddActive_run cur k qs t Hv Hs Hp).
  assert (Hf : free qs t) by (eapply core_free; [exact Hc|by left]).
  set (k1 := with_Num (giNumActiveThreads k + 1) (with_Thr (<[t := awake k t]> (Thr k)) k)).
  assert (Hc1 : core_but (fun u => u = t) (Some cur) pend k1 qs wh).
  { split_and!; try done.
    - intros u Hu Hne. simpl. rewrite fn_lookup_insert_ne by done. auto.
    - simpl. rewrite (active_change k k1 t); [| |done].
      2: { intros u Hu. simpl. by rewrite fn_lookup_insert_ne by done. }
      rewrite (active_no k t Hs), (active_yes k1 t); [lia|]. simpl. by rewrite fn_lookup_insert. }
  destruct (decide (t = cur)) as [->|Hne].
  - do 3 eexists. split; [done|]. split; [|split_and!; done].
    eapply core_settle; [exact Hc1|done..|]. intros _. split; [simpl; by rewrite fn_lookup_insert|].
    simpl. rewrite fn_lookup_insert, bool_decide_eq_true_2 by done. done.
  - set (id := LActive (Priority (Thr k t))).
    exists (with_Qm (appended (Qm k) qs id t) k1), (<[id := qs id ++ [t]]> qs), (<[t := Some id]> wh).
    split; [done|]. split; [|split_and!; try done].
    + apply (core_place _ _ k1); [done..| |].
      * by apply view_append.
      * split; [simpl; by rewrite fn_lookup_insert|].
        simpl. rewrite fn_lookup_insert, bool_decide_eq_false_2 by congruence. done.
    + intros i Hi. by rewrite fn_lookup_insert_ne by (intros <-; by eapply Hi).
Qed.

(** ** Going to sleep *)

(** Changing a thread in limbo, and the call it is in. *)
Lemma core_but_change oc pend pend' k k' qs wh t : core_but (fun u => u = t) oc pend k qs wh -> t ∈ tids ->
  Qm k' = Qm k -> (forall u, u <> t -> Thr k' u = Thr k u) -> (forall u, u <> t -> pend' u = pend u) ->
  giNumActiveThreads k' = giNumActiveThreads k - active k t + active k' t ->
  core_but (fun u => u = t) oc pend' k' qs wh.
Proof.
  intros (Hv & Hin & Htok & Hnum) Ht HQ HT HP HN. split_and!; [by rewrite HQ|done| |].
  - intros u Hu Hne. rewrite HT, HP by done. auto.
  - by rewrite HN, Hnum, (active_change k k' t HT Ht).
Qed.

(** The current thread, running its own code, is on no list. *)
Lemma core_running cur pend k qs wh : core (Some cur) pend k qs wh -> cur ∈ tids ->
  Status (Thr k cur) = THREAD_STAT_ACTIVE -> wh cur = None.
Proof.
  intros (_ & _ & Htok & _) Hc Hs. destruct (Htok cur Hc ltac:(tauto)) as [_ Ht].
  rewrite Hs, bool_decide_eq_true_2 in Ht by done. done.
Qed.

Definition asleep (k : kstate) (t : tid) st ptr n : tThread :=
  set_RetStatus n (set_WaitPointer ptr (set_Status st (Thr k t))).

Section sleeping.
Context (cur : tid) (pend : tid -> option pending) (k : kstate) (qs : listid -> list tid) (wh : tid -> option listid).
Context (Hc : core (Some cur) pend k qs wh) (Hcur : cur ∈ tids) (Hs : Status (Thr k cur) = THREAD_STAT_ACTIVE).

Lemma sleep_limbo th p : Status th <> THREAD_STAT_ACTIVE ->
  core_but (fun u => u = cur) (Some cur) (<[cur := p]> pend)
    (with_Thr (<[cur := th]> (Thr k)) (with_Num (giNumActiveThreads k - 1) k)) qs wh.
Proof.
  intros Hth. apply (core_but_change _ pend _ k); [|done..| | |].
  - eapply core_limbo; [exact Hc|]. by eapply core_running.
  - intros u Hu. simpl. by rewrite fn_lookup_insert_ne by done.
  - intros u Hu. by rewrite fn_lookup_insert_ne by done.
  - rewrite (active_yes k cur Hs), (active_no _ cur); simpl; [lia|]. by rewrite fn_lookup_insert.
Qed.

Lemma Sleep_core st ptr n id p : st <> THREAD_STAT_ACTIVE ->
  tok (asleep k cur st ptr n) (Some id) (Some p) true ->
  exists k', Threads_int_Sleep cur st ptr n (OnList id) k = Ok tt k' /\
    core (Some cur) (<[cur := Some p]> pend) k' (<[id := qs id ++ [cur]]> qs) (<[cur := Some id]> wh) /\
    Thr k' = <[cur := asleep k cur st ptr n]> (Thr k) /\ same_objects k k'.
Proof.
  intros Hst Hk. eexists. split; [reflexivity|]. split; [|split_and!; done].
  pose proof (sleep_limbo (asleep k cur st ptr n) (Some p) Hst) as Hl.
  assert (Hf : free qs cur) by (eapply core_free; [exact Hl|by left]).
  eapply core_place; [exact Hl|done..| |].
  - apply wait_append_view; [|done]. apply view_setNext; [apply Hc|done].
  - simpl. by rewrite !fn_lookup_insert, bool_decide_eq_true_2.
Qed.

Lemma Sleep_self_core st ptr n p : st <> THREAD_STAT_ACTIVE ->
  tok (asleep k cur st ptr n) None (Some p) true ->
  exists k', Threads_int_Sleep cur st ptr n OnSelf k = Ok tt k' /\
    core (Some cur) (<[cur := Some p]> pend) k' qs (<[cur := None]> wh) /\
    Thr k' = <[cur := asleep k cur st ptr n]> (Thr k) /\ same_objects k k'.
Proof.
  intros Hst Hk. eexists. split; [reflexivity|]. split; [|split_and!; done].
  pose proof (sleep_limbo (asleep k cur st ptr n) (Some p) Hst) as Hl.
  assert (Hf : free qs cur) by (eapply core_free; [exact Hl|by left]).
  eapply core_settle; [exact Hl|done..| |].
  - simpl. repeat apply view_setNext; try done. apply Hc.
  - intros _. simpl. by rewrite !fn_lookup_insert, bool_decide_eq_true_2.
Qed.

Lemma Threads_Sleep_core : HasMessages (Thr k cur) = false ->
  exists k', Threads_Sleep cur k = Ok true k' /\
    core (Some cur) (<[cur := Some PSleep]> pend) k' (<[LSleeping := qs LSleeping ++ [cur]]> qs) (<[cur := Some LSleeping]> wh) /\
    Thr k' = <[cur := set_Status THREAD_STAT_SLEEPING (Thr k cur)]> (Thr k) /\ same_objects k k'.
Proof.
  intros Hm. unfold Threads_Sleep. krun. rewrite Hm.
  set (th := set_Status THREAD_STAT_SLEEPING (Thr k cur)).
  pose proof (sleep_limbo th (Some PSleep) ltac:(done)) as Hl.
  assert (Hf : free qs cur) by (eapply core_free; [exact Hl|by left]).
  unfold Threads_RemActive, upd, modify, bind, ret. erewrite add_list_run by apply Hc.
  eexists. split; [reflexivity|]. split; [|split_and!; done].
  eapply core_place; [exact Hl|done..| |].
  - apply view_append; [apply Hc|done].
  - destruct Hc as (_ & _ & Htok & _). destruct (Htok cur Hcur ltac:(tauto)) as [Hp _].
    simpl. rewrite !fn_lookup_insert. done.
Qed.
End sleeping.

(** ** Waking a thread that sleeps on a list *)
Lemma core_tok oc pend k qs wh t : core oc pend k qs wh -> t ∈ tids ->
  tok (Thr k t) (wh t) (pend t) (bool_decide (oc = Some t)).
Proof. intros (_ & _ & Htok & _) Ht. apply Htok; tauto. Qed.

Lemma core_asleep oc pend k qs wh t id : core oc pend k qs wh -> t ∈ qs id -> not_active id ->
  t ∈ tids /\ wh t = Some id /\ Status (Thr k t) <> THREAD_STAT_ACTIVE /\ prio_ok (Priority (Thr k t)) = true.
Proof.
  intros Hc Hin Hna. eapply core_elem in Hin as [Ht Hw]; [|exact Hc]. split_and!; try done.
  - intros Hs. destruct (core_tok _ _ _ _ _ _ Hc Ht) as [_ Htok]. rewrite Hs, Hw in Htok.
    destruct (bool_decide _); [done|]. injection Htok as ->. by eapply Hna.
  - by apply (core_tok _ _ _ _ _ _ Hc Ht).
Qed.

Lemma wake_core cur pend k k1 qs wh t id pre post : core (Some cur) pend k qs wh ->
  qs id = pre ++ t :: post -> not_active id -> unlinked (Qm k) (Qm k1) id pre t post ->
  (forall u, u <> t -> Thr k1 u = Thr k u) -> giNumActiveThreads k1 = giNumActiveThreads k ->
  Status (Thr k1 t) = Status (Thr k t) -> Priority (Thr k1 t) = Priority (Thr k t) ->
  exists k' qs' wh', Threads_AddActive cur t k1 = Ok tt k' /\ core (Some cur) pend k' qs' wh' /\
    (forall u, u <> t -> Thr k' u = Thr k u) /\ Thr k' t = set_Status THREAD_STAT_ACTIVE (Thr k1 t) /\
    same_objects k1 k' /\ (forall i, not_active i -> qs' i = (<[id := pre ++ post]> qs : listid -> list tid) i).
Proof.
  intros Hc E Hna Hu HT HN Hst Hpr.
  destruct (core_asleep _ _ _ _ _ t id Hc) as (Ht & Hw & Hs & Hp); [rewrite E; set_solver|done|].
  pose proof (core_unlink _ _ _ _ _ _ _ _ _ _ Hc E Hu) as Hl.
  apply (core_but_change _ _ pend _ k1) in Hl; [|done..|].
  2: { rewrite !active_no by (simpl; congruence). simpl. lia. }
  destruct (AddActive_core cur pend _ _ wh t Hl Ht) as (k' & qs' & wh' & Hr & Hc' & HT' & Ho & Hq); [congruence..|].
  exists k', qs', wh'. split_and!; try done.
  - intros u Hne. rewrite HT', fn_lookup_insert_ne by done. auto.
  - by rewrite HT', fn_lookup_insert.
Qed.

(** ** Choosing the next thread *)

(** The first thread of the run queue of highest priority, [n] queues from [i] on. *)
Fixpoint pick_from (n : nat) (i : Z) qs : option tid :=
  match n with
  | O => None
  | S n => match qs (LActive i) with t :: _ => Some t | [] => pick_from n (i + 1) qs end
  end.
Definition pick qs : option tid := pick_from 11 0 qs.

Lemma pick_from_spec n : forall i qs t, pick_from n i qs = Some t ->
  exists j l, i <= j < i + Z.of_nat n /\ qs (LActive j) = t :: l /\ forall h, i <= h < j -> qs (LActive h) = [].
Proof.
  induction n as [|n IH]; intros i qs t; simpl; [done|]. destruct (qs (LActive i)) as [|x l] eqn:E.
  - intros (j & l & Hj & Hq & Hh)%IH. exists j, l. split_and!; [lia|lia|done|].
    intros h Hlt. destruct (decide (h = i)) as [->|]; [done|]. apply Hh. lia.
  - intros [= ->]. exists i, l. split_and!; [lia|lia|done|]. lia.
Qed.

Lemma pick_from_none n : forall i qs j, pick_from n i qs = None -> i <= j < i + Z.of_nat n -> qs (LActive j) = [].
Proof.
  induction n as [|n IH]; intros i qs j; simpl; [lia|]. destruct (qs (LActive i)) as [|x l] eqn:E; [|done].
  intros Hp Hj. destruct (decide (j = i)) as [->|]; [done|]. eapply IH; [done|lia].
Qed.

(** [q] without the first thread of the list [id]. *)
Definition popped (q : qmem) (id : listid) (t : tid) : qmem :=
  setNext t None ((fun q => if decide (Links q t = None) then setTail id None q else q)
    (setHead id (Links q t) q)).

Lemma popped_unlinked q qs id t l : view q qs -> qs id = t :: l -> unlinked q (popped q id t) id [] t l.
Proof.
  intros Hv E. destruct (view_around q qs id [] t l Hv E) as (Hnx & _ & _ & Hh & Htl). simpl in *.
  unfold popped, unlinked. simpl. rewrite Hnx. destruct l as [|x l]; simpl.
  - split_and!; intros; fsimp; try done.
  - split_and!; intros; fsimp; done.
Qed.

Lemma GetRunnable_core n : forall i pend k qs wh, core None pend k qs wh ->
  exists k', GetRunnable_from n i k = Ok (pick_from n i qs) k' /\ Thr k' = Thr k /\ same_objects k k' /\
    match pick_from n i qs with
    | None => k' = k
    | Some t => t ∈ tids /\ exists j l wh', qs (LActive j) = t :: l /\ core (Some t) pend k' (<[LActive j := l]> qs) wh'
    end.
Proof.
  induction n as [|n IH]; intros i pend k qs wh Hc; [by exists k|].
  cbn [GetRunnable_from pick_from]. krun.
  rewrite (view_head _ _ (LActive i)) by apply Hc. destruct (qs (LActive i)) as [|t l] eqn:E; cbn [head]; [by eapply IH|].
  assert (Hin : t ∈ qs (LActive i)) by (rewrite E; left).
  eapply core_elem in Hin as [Ht Hw]; [|exact Hc].
  pose proof (core_tok _ _ _ _ _ _ Hc Ht) as Htok.
  assert (Hs : Status (Thr k t) = THREAD_STAT_ACTIVE).
  { destruct Htok as [_ Htok]. rewrite Hw in Htok. destruct (Status (Thr k t)); naive_solver. }
  krun. rewrite decide_True by done. krun. eexists. split; [reflexivity|]. split; [done|]. split; [by split_and!|]. split; [done|].
  pose proof (core_unlink _ _ _ _ _ t (LActive i) [] l (popped (Qm k) (LActive i) t) Hc E) as Hl.
  specialize (Hl (popped_unlinked _ _ _ _ _ (proj1 Hc) E)).
  exists i, l, (<[t := None]> wh). split; [done|].
  - eapply core_settle; [|done..| |].
    + destruct Hl as (Hv & Hi & Hk & Hn). split_and!; [exact Hv|exact Hi| |exact Hn].
      intros u Hu Hne. specialize (Hk u Hu Hne). rewrite bool_decide_eq_false_2 in Hk by done.
      rewrite bool_decide_eq_false_2 by congruence. exact Hk.
    + apply Hl.
    + intros _. rewrite bool_decide_eq_true_2 by done. destruct Htok as [Hp _]. split; [done|].
      simpl. by rewrite Hs.
Qed.

(** Only the scheduling fields [CurCPU], [Quantum] and [Remaining] differ. *)
Definition same_tcb (th th' : tThread) : Prop :=
  Status th' = Status th /\ WaitPointer th' = WaitPointer th /\ RetStatus th' = RetStatus th /\
  Priority th' = Priority th /\ EventState th' = EventState th /\ HasMessages th' = HasMessages th.

Lemma same_tcb_refl th : same_tcb th th.
Proof. by split_and!. Qed.
Lemma same_tcb_trans th th' th'' : same_tcb th th' -> same_tcb th' th'' -> same_tcb th th''.
Proof. unfold same_tcb. intuition congruence. Qed.
Lemma same_tcb_upd (T : tid -> tThread) t th : same_tcb (T t) th -> forall u, same_tcb (T u) ((<[t := th]> T : tid -> tThread) u).
Proof. intros H u. destruct (decide (t = u)) as [<-|]; fsimp; [done|apply same_tcb_refl]. Qed.
Lemma tok_same th th' w p c : same_tcb th th' -> tok th w p c -> tok th' w p c.
Proof. intros (Hs & Hw & Hr & Hp & He & _) [H1 H2]. unfold tok. by rewrite Hs, Hp, Hw, Hr, He. Qed.

Lemma core_tcb oc pend k k' qs wh : core oc pend k qs wh -> Qm k' = Qm k ->
  giNumActiveThreads k' = giNumActiveThreads k -> (forall t, same_tcb (Thr k t) (Thr k' t)) -> core oc pend k' qs wh.
Proof.
  intros (Hv & Hin & Htok & Hnum) HQ HN HT. split_and!; [by rewrite HQ|done| |].
  - intros t Ht Hp. eapply tok_same; [apply HT|]. auto.
  - rewrite HN, Hnum. apply zsum_ext. intros u _. unfold active. by destruct (HT u) as [-> _].
Qed.

(** Whether a sleeping thread is still the current one makes no difference. *)
Lemma core_current oc oc' pend k qs wh : core oc pend k qs wh ->
  (forall t, t ∈ tids -> Status (Thr k t) = THREAD_STAT_ACTIVE ->
     bool_decide (oc = Some t) = bool_decide (oc' = Some t)) -> core oc' pend k qs wh.
Proof.
  intros (Hv & Hin & Htok & Hnum) Ha. split_and!; try done.
  intros t Ht Hp. specialize (Htok t Ht Hp). destruct (decide (Status (Thr k t) = THREAD_STAT_ACTIVE)) as [Hs|Hs].
  - by rewrite <- Ha.
  - destruct Htok as [H1 H2]. split; [done|]. by destruct (Status (Thr k t)).
Qed.

(** The run queues with the current thread put back if it can go on. *)
Definition requeue k (cur : tid) qs : listid -> list tid :=
  let id := LActive (Priority (Thr k cur)) in
  if decide (Status (Thr k cur) = THREAD_STAT_ACTIVE) then <[id := qs id ++ [cur]]> qs else qs.

Lemma requeue_core cur pend k qs wh : core (Some cur) pend k qs wh -> cur ∈ tids ->
  exists k' wh', (if decide (Status (Thr k cur) = THREAD_STAT_ACTIVE) then add_active_list cur else ret tt) k = Ok tt k' /\
    Thr k' = Thr k /\ same_objects k k' /\ core None pend k' (requeue k cur qs) wh'.
Proof.
  intros Hc Hcur. unfold requeue.
  destruct (decide (Status (Thr k cur) = THREAD_STAT_ACTIVE)) as [Hs|Hs].
  - pose proof (core_running _ _ _ _ _ Hc Hcur Hs) as Hw. pose proof (core_limbo _ _ _ _ _ _ Hc Hw) as Hl.
    destruct (core_tok _ _ _ _ _ _ Hc Hcur) as [Hp _].
    rewrite (add_active_list_run k qs cur (proj1 Hc) Hp). do 2 eexists. split; [done|]. split; [done|].
    split; [by split_and!|]. apply (core_place _ _ k); [|done..| |].
    + destruct Hl as (Hv & Hin & Htok & Hn). split_and!; try done. intros t Ht Hne. specialize (Htok t Ht Hne).
      rewrite bool_decide_eq_false_2 in Htok by congruence. by rewrite bool_decide_eq_false_2.
    + apply view_append; [apply Hc|]. eapply core_free; [exact Hc|by right].
    + rewrite bool_decide_eq_false_2 by done. split; [done|]. by rewrite Hs.
  - exists k, wh. split_and!; try done. eapply core_current; [exact Hc|]. intros t _ Ht.
    rewrite !bool_decide_eq_false_2; congruence.
Qed.

(** With no active thread every run queue is empty. *)
Lemma pick_idle oc pend k qs wh : core oc pend k qs wh -> giNumActiveThreads k = 0 -> pick qs = None.
Proof.
  intros Hc Hn. destruct (pick qs) as [t|] eqn:Hp; [|done]. exfalso.
  apply pick_from_spec in Hp as (j & l & _ & E & _).
  assert (Hin : t ∈ qs (LActive j)) by (rewrite E; left).
  eapply core_elem in Hin as [Ht Hw]; [|exact Hc].
  pose proof (core_tok _ _ _ _ _ _ Hc Ht) as [_ Htok]. destruct Hc as (_ & _ & _ & Hnum).
  assert (active k t = 0) as Hz by (apply (zsum_zero _ tids); [intros; apply active_nonneg|lia|done]).
  unfold active in Hz. rewrite Hw in Htok. destruct (Status (Thr k t)); try done; naive_solver.
Qed.

Lemma requeue_same k k' cur qs : same_tcb (Thr k cur) (Thr k' cur) -> requeue k' cur qs = requeue k cur qs.
Proof. intros (Hs & _ & _ & Hp & _). unfold requeue. by rewrite Hs, Hp. Qed.

Lemma same_objects_trans k k' k'' : same_objects k k' -> same_objects k' k'' -> same_objects k k''.
Proof. unfold same_objects. intuition congruence. Qed.

(** Rescheduling, after the test of [NoTaskSwitch] and of the number of active threads. *)
Lemma resched_core CPU cur pend k qs wh : core (Some cur) pend k qs wh -> cur ∈ tids ->
  let r := pick (requeue k cur qs) in
  exists k', bind (bind (thr cur) (fun th =>
      (if decide (Status th = THREAD_STAT_ACTIVE) then add_active_list cur else ret tt);;; upd cur (set_CurCPU (-1))))
    (fun _ => do thread <- Threads_int_GetRunnable;
      match thread with
      | Some t => upd t (fun th => set_Remaining (Quantum th) (set_CurCPU CPU th));;; ret (Some t)
      | None => ret None
      end) k = Ok r k' /\
    same_objects k k' /\ (forall t, same_tcb (Thr k t) (Thr k' t)) /\ default cur r ∈ tids /\
    exists qs' wh', core (Some (default cur r)) pend k' qs' wh' /\ (forall id, not_active id -> qs' id = qs id) /\
      forall t, r = Some t -> exists j l, requeue k cur qs (LActive j) = t :: l /\ qs' = <[LActive j := l]> (requeue k cur qs).
Proof.
  intros Hc Hcur r. krun.
  destruct (requeue_core cur pend k qs wh Hc Hcur) as (k1 & wh1 & Hr1 & HT1 & Ho1 & Hc1).
  rewrite (bind_Ok _ _ _ _ _ Hr1). krun.
  set (k2 := with_Thr (<[cur := set_CurCPU (-1) (Thr k1 cur)]> (Thr k1)) k1).
  assert (Hsame2 : forall t, same_tcb (Thr k t) (Thr k2 t)).
  { intros t. rewrite <- HT1. simpl. apply same_tcb_upd. by split_and!. }
  assert (Hc2 : core None pend k2 (requeue k cur qs) wh1).
  { eapply core_tcb; [exact Hc1|done..|]. intros t. rewrite HT1. apply Hsame2. }
  destruct (GetRunnable_core 11 0 pend k2 _ wh1 Hc2) as (k3 & Hr3 & HT3 & Ho3 & Hm).
  fold (pick (requeue k cur qs)) in *. fold r in Hr3, Hm. unfold Threads_int_GetRunnable. rewrite (bind_Ok _ _ _ _ _ Hr3).
  assert (Hq : forall id, not_active id -> requeue k cur qs id = qs id).
  { intros id Hid. unfold requeue. destruct (decide _); [|done]. by rewrite fn_lookup_insert_ne by (intros <-; by eapply Hid). }
  destruct r as [t|] eqn:Er.
  - destruct Hm as (Ht & j & l & wh' & Ej & Hc3). eexists. split; [reflexivity|].
    set (k4 := with_Thr _ _). assert (Hs4 : forall u, same_tcb (Thr k3 u) (Thr k4 u)).
    { intros u. simpl. apply same_tcb_upd. by split_and!. }
    split_and!; [..|exists (<[LActive j := l]> (requeue k cur qs)), wh'; split_and!].
    + by eapply same_objects_trans; [exact Ho1|eapply same_objects_trans; [|exact Ho3]].
    + intros u. eapply same_tcb_trans; [apply Hsame2|]. rewrite <- HT3. apply Hs4.
    + done.
    + eapply core_tcb; [exact Hc3|done..].
    + intros id Hid. rewrite fn_lookup_insert_ne by (intros <-; by eapply Hid). by apply Hq.
    + intros t' [= <-]. by exists j, l.
  - subst k3. eexists. split; [reflexivity|]. split_and!; [done..|exists (requeue k cur qs), wh1; split_and!; [|done..]].
    eapply core_current; [exact Hc2|]. intros t Ht Hs. rewrite !bool_decide_eq_false_2; [done| |done]. intros [= <-].
    unfold pick in Er. apply (pick_from_none 11 0 _ (Priority (Thr k cur))) in Er.
    + destruct (Hsame2 cur) as [Hs' _]. rewrite Hs' in Hs. unfold requeue in Er. rewrite decide_True in Er by done.
      rewrite fn_lookup_insert in Er. by destruct (qs _).
    + destruct (core_tok _ _ _ _ _ _ Hc Hcur) as [Hp _]. unfold prio_ok in Hp. lia.
Qed.

Definition next_thread k cur qs : option tid :=
  if NoTaskSwitch k then Some cur else pick (requeue k cur qs).

Lemma GetNextToRun_core CPU cur pend k qs wh : core (Some cur) pend k qs wh -> cur ∈ tids ->
  let r := next_thread k cur qs in
  exists k', Threads_GetNextToRun CPU (Some cur) k = Ok r k' /\
    same_objects k k' /\ (forall t, same_tcb (Thr k t) (Thr k' t)) /\ default cur r ∈ tids /\
    exists qs' wh', core (Some (default cur r)) pend k' qs' wh' /\ (forall id, not_active id -> qs' id = qs id) /\
      forall t, r = Some t -> NoTaskSwitch k = false -> exists j l, requeue k cur qs (LActive j) = t :: l /\ qs' = <[LActive j := l]> (requeue k cur qs).
Proof.
  intros Hc Hcur r. unfold r, next_thread. unfold Threads_GetNextToRun. krun. destruct (NoTaskSwitch k).
  { eexists. split; [reflexivity|]. split_and!; try done. exists qs, wh. by split_and!. }
  krun. set (k1 := with_Thr _ _).
  assert (Hs1 : forall t, same_tcb (Thr k t) (Thr k1 t)) by (simpl; apply same_tcb_upd; by split_and!).
  assert (Hc1 : core (Some cur) pend k1 qs wh) by (eapply core_tcb; [exact Hc|done..]).
  pose proof (requeue_same k k1 cur qs (Hs1 cur)) as Hrq. rewrite <- Hrq.
  destruct (giNumActiveThreads k1 =? 0) eqn:Hn; bools.
  - destruct (requeue_core cur pend k1 qs wh Hc1 Hcur) as (k2 & wh2 & _ & HT2 & _ & Hc2).
    assert (Hn2 : giNumActiveThreads k2 = giNumActiveThreads k1).
    { destruct Hc1 as (_ & _ & _ & H1), Hc2 as (_ & _ & _ & H2). rewrite H1, H2. apply zsum_ext.
      intros u _. unfold active. by rewrite HT2. }
    rewrite (pick_idle _ _ _ _ _ Hc2) by congruence.
    eexists. split; [reflexivity|]. split_and!; try done. exists qs, wh. by split_and!.
  - destruct (resched_core CPU cur pend k1 qs wh Hc1 Hcur) as (k' & Hr & Ho & Hs & Ht & Hx).
    rewrite bind_assoc in Hr. eexists. split; [exact Hr|]. split_and!; try done.
    + intros t. eapply same_tcb_trans; [apply Hs1|apply Hs].
    + destruct Hx as (qs' & wh' & Hc' & Hq & Hx). exists qs', wh'. split_and!; auto.
Qed.

(** ** Changing a priority *)
Lemma SetPriority_core fuel cur pend k qs wh t Pri : core (Some cur) pend k qs wh -> cur ∈ tids -> t ∈ tids ->
  (length tids < fuel)%nat -> Status (Thr k t) = THREAD_STAT_ACTIVE ->
  let p := if (0 <=? Pri) && (Pri <=? 10) then Pri else 10 in
  exists k' qs' wh', Threads_SetPriority cur fuel (Some t) Pri k = Ok tt k' /\ core (Some cur) pend k' qs' wh' /\
    Thr k' t = set_Priority p (Thr k t) /\ (forall u, u <> t -> Thr k' u = Thr k u) /\ same_objects k k' /\
    forall id, not_active id -> qs' id = qs id.
Proof.
  intros Hc Hcur Ht Hf Hs p. unfold Threads_SetPriority. cbn [default from_option id].
  assert (Hp : (if 10 <? (if Pri <? 0 then 10 else Pri) then 10 else if Pri <? 0 then 10 else Pri) = p).
  { unfold p. destruct (Pri <? 0) eqn:?, (0 <=? Pri) eqn:?; bools; try lia; [done|]. simpl.
    destruct (10 <? Pri) eqn:?, (Pri <=? 10) eqn:?; bools; try lia; done. }
  rewrite Hp. assert (Hpo : prio_ok p = true).
  { unfold p, prio_ok. by destruct ((0 <=? Pri) && (Pri <=? 10)) eqn:E. }
  clear Hp. clearbody p. krun.
  destruct (core_tok _ _ _ _ _ _ Hc Ht) as [Hpt Hwt]. rewrite Hs in Hwt.
  destruct (p =? Priority (Thr k t)) eqn:Ep; bools.
  { exists k, qs, wh. split_and!; try done. rewrite Ep. by destruct (Thr k t). }
  destruct (decide (t = cur)) as [->|Hne].
  - eexists _, qs, (<[cur := None]> wh). split; [reflexivity|]. rewrite bool_decide_eq_true_2 in Hwt by done.
    split; [|split_and!; try done; simpl; intros; fsimp; done].
    eapply core_settle; [|done..|apply Hc|].
    + eapply core_but_upd; [eapply core_limbo; [exact Hc|done]|]. done.
    + intros _. simpl. rewrite fn_lookup_insert, bool_decide_eq_true_2 by done. split; [done|]. simpl. by rewrite Hs.
  - rewrite bool_decide_eq_false_2 in Hwt by congruence. rewrite bind_require by done.
    assert (Hin : t ∈ qs (LActive (Priority (Thr k t)))) by (eapply core_elem; [exact Hc|done]).
    apply list_elem_of_split in Hin as (pre & post & E).
    destruct (DelFromQueue_unlinked fuel (Qm k) qs _ pre t post (proj1 Hc) E) as (q' & Hd & Hu).
    { pose proof (core_length _ _ _ _ _ (LActive (Priority (Thr k t))) Hc). lia. }
    erewrite bind_Ok; [|unfold onQ; by rewrite Hd].
    pose proof (core_unlink _ _ _ _ _ _ _ _ _ _ Hc E Hu) as Hl.
    erewrite bind_Ok; [|apply add_list_run, Hl].
    set (qs1 := <[LActive (Priority (Thr k t)) := pre ++ post]> qs) in *.
    eexists _, (<[LActive p := qs1 (LActive p) ++ [t]]> qs1), (<[t := Some (LActive p)]> wh). split; [reflexivity|].
    split; [|split_and!; try done; simpl; intros; fsimp; try done].
    + eapply (core_place _ _ (with_Thr (<[t := set_Priority p (Thr k t)]> (Thr k)) (with_Qm q' k)) _ qs1);
        [by apply (core_but_upd _ _ (with_Qm q' k))|done..| |].
      * apply view_append; [apply Hl|]. eapply core_free; [exact Hl|by left].
      * simpl. rewrite fn_lookup_insert, bool_decide_eq_false_2 by congruence. split; [done|]. simpl. by rewrite Hs.
    + rewrite fn_lookup_insert_ne by (intros <-; by eapply H). unfold qs1.
      by rewrite fn_lookup_insert_ne by (intros <-; by eapply H).
Qed.
End core.
