(* ===== verification/SyncSys.v ===== *)
(** * The kernel's threads as a transition system

    One CPU runs the current thread; between any two locked sections an interrupt may post events,
    signal a semaphore, queue work or reschedule.  A history is a sequence of [op]s; ghost
    fields record what clients have been given.  The invariant relates all of it to the
    list memory, and every permitted step returns and keeps it. *)
From S2P Require Import Prelude Threads ThreadLists Sync SyncInv.
Local Open Scope Z_scope.
Local Open Scope monad_scope.

(** [inside m]: threads whose [Mutex_Acquire] of [m] has returned and that have not released it;
    [added], [taken]: items signalled to and returned by waits on a semaphore; [queued]: the items in a work
    queue, [put] and [got]: all items ever added and returned, in order. *)
Record sys := Sys {
  ks : kstate; cur : tid; pend : tid -> option pending; inside : positive -> list tid;
  added : positive -> Z; taken : positive -> Z;
  queued : positive -> list positive; put : positive -> list positive; got : positive -> list positive }.

Inductive op :=
  | Acquire (m : positive) | Release (m : positive)
  | Wait (s : positive) (n : Z) | Signal (s : positive) (n : Z)
  | GetWork (w : positive) | AddWork (w i : positive)
  | WaitEvents (mask : Z) | ClearEvent (mask : Z) | Post (t : tid) (mask : Z)
  | Sleep | Wake (t : tid) | SetPriority (t : tid) (p : Z)
  | Start (t : tid) | Reschedule (cpu : Z) | Resume.

Definition with_ks k x := Sys k (cur x) (pend x) (inside x) (added x) (taken x) (queued x) (put x) (got x).
Definition with_cur c x := Sys (ks x) c (pend x) (inside x) (added x) (taken x) (queued x) (put x) (got x).
Definition with_pend p x := Sys (ks x) (cur x) (<[cur x := p]> (pend x)) (inside x) (added x) (taken x) (queued x) (put x) (got x).
Definition enter m x := Sys (ks x) (cur x) (pend x) (<[m := cur x :: inside x m]> (inside x)) (added x) (taken x) (queued x) (put x) (got x).
Definition leave m x := Sys (ks x) (cur x) (pend x) (<[m := list_difference (inside x m) [cur x]]> (inside x)) (added x) (taken x) (queued x) (put x) (got x).
Definition take s n x := Sys (ks x) (cur x) (pend x) (inside x) (added x) (<[s := taken x s + n]> (taken x)) (queued x) (put x) (got x).
Definition add s n x := Sys (ks x) (cur x) (pend x) (inside x) (<[s := added x s + n]> (added x)) (taken x) (queued x) (put x) (got x).
Definition enqueue w i x := Sys (ks x) (cur x) (pend x) (inside x) (added x) (taken x)
  (<[w := queued x w ++ [i]]> (queued x)) (<[w := put x w ++ [i]]> (put x)) (got x).
Definition dequeue w i x := Sys (ks x) (cur x) (pend x) (inside x) (added x) (taken x)
  (<[w := tail (queued x w)]> (queued x)) (put x) (<[w := got x w ++ [i]]> (got x)).

Section system.
(** The threads, and the bound for walks along lists. *)
Context (tids : list tid) (fuel : nat).

(** What a call leaves behind: [blk] when it sleeps, [fin] when it returns. *)
Definition settle {A} (r : res kstate stop (option A)) (blk : sys -> sys) (fin : A -> sys -> sys) (x : sys) : option sys :=
  match r with
  | Ok (Some a) k => Some (fin a (with_ks k x))
  | Ok None k => Some (blk (with_ks k x))
  | Stop _ => None
  end.
Definition finish {A} (r : res kstate stop A) (fin : A -> sys -> sys) (x : sys) : option sys :=
  match r with Ok a k => Some (fin a (with_ks k x)) | Stop _ => None end.

Definition run (o : op) (x : sys) : option sys :=
  let c := cur x in let k := ks x in
  match o with
  | Acquire m => settle (Mutex_Acquire c m k) (with_pend (Some (PMutex m))) (fun _ => enter m) x
  | Release m => finish (Mutex_Release c m k) (fun _ => leave m) x
  | Wait s n => settle (Semaphore_Wait c fuel s n k) (with_pend (Some (PSemWait s))) (take s) x
  | Signal s n => settle (Semaphore_Signal c fuel s n k) (fun x => x) (add s) x
  | GetWork w => settle (Workqueue_GetWork c w k) (with_pend (Some (PQueue w))) (dequeue w) x
  | AddWork w i => finish (Workqueue_AddWork c w i k) (fun _ => enqueue w i) x
  | WaitEvents mask => settle (Threads_WaitEvents c mask k) (with_pend (Some (PEvents mask))) (fun _ x => x) x
  | ClearEvent mask => finish (Threads_ClearEvent c mask k) (fun _ x => x) x
  | Post t mask => finish (Threads_PostEvent c fuel (Some t) mask k) (fun _ x => x) x
  | Sleep => finish (Threads_Sleep c k) (fun b x => if b : bool then with_pend (Some PSleep) x else x) x
  | Wake t => finish (Threads_Wake c fuel (Some t) k) (fun _ x => x) x
  | SetPriority t p => finish (Threads_SetPriority c fuel (Some t) p k) (fun _ x => x) x
  | Start t => finish (Threads_AddActive c t k) (fun _ x => x) x
  | Reschedule cpu => finish (Threads_GetNextToRun cpu (Some c) k) (fun t => with_cur (default c t)) x
  | Resume =>
    match pend x c with
    | None => None
    | Some (PMutex m) => finish (Mutex_Acquire_end c k) (fun _ x => enter m (with_pend None x)) x
    | Some (PSemWait s) => finish (Semaphore_Wait_end c fuel s k) (fun n x => take s n (with_pend None x)) x
    | Some (PQueue w) =>
      settle (Workqueue_GetWork_end c w k) (with_pend (Some (PQueue w))) (fun i x => dequeue w i (with_pend None x)) x
    | Some (PEvents mask) => finish (Threads_WaitEvents_end c mask k) (fun _ => with_pend None) x
    | Some PSleep => Some (with_pend None x)
    end
  end.

(** What the callers of these functions must observe.  Threads act only while running; a mutex is released by its holder; the
    semaphores are unbounded ([MaxValue] 0) and do not overflow; an item is on at most one
    work queue; a priority is changed for a thread that can run. *)
Definition own_code (x : sys) : Prop :=
  pend x (cur x) = None /\ Status (Thr (ks x) (cur x)) = THREAD_STAT_ACTIVE.
Definition unbounded (x : sys) (s : positive) : Prop := MaxValue (Sems (ks x) s) = 0.

Definition allowed (x : sys) (o : op) : Prop :=
  match o with
  | Acquire _ | GetWork _ | ClearEvent _ | Sleep => own_code x
  | Release m => own_code x /\ cur x ∈ inside x m
  | Wait s n => own_code x /\ unbounded x s /\ n <= 2147483647
  | Signal s n => unbounded x s /\ 0 <= n /\ Value (Sems (ks x) s) + n <= 2147483647
  | AddWork w i => forall v, i ∉ queued x v
  | WaitEvents mask => own_code x /\ 0 <= mask < 4294967296
  | Post t mask => t ∈ tids /\ 0 <= mask < 4294967296
  | Wake t => t ∈ tids
  | SetPriority t _ => t ∈ tids /\ Status (Thr (ks x) t) = THREAD_STAT_ACTIVE
  | Start t => t ∈ tids /\ Status (Thr (ks x) t) = THREAD_STAT_PREINIT
  | Reschedule _ => True
  | Resume => pend x (cur x) <> None /\ Status (Thr (ks x) (cur x)) = THREAD_STAT_ACTIVE
  end.

(** ** The invariant *)
Definition ready (k : kstate) (pd : tid -> option pending) (p : pending) (t : tid) : bool :=
  bool_decide (pd t = Some p) && bool_decide (Status (Thr k t) = THREAD_STAT_ACTIVE).

(** Items handed to a thread that has not yet returned from its wait. *)
Definition owed (k : kstate) (pd : tid -> option pending) (s : positive) (t : tid) : Z :=
  if ready k pd (PSemWait s) t then RetStatus (Thr k t) else 0.

Definition minv (k : kstate) pd (qs : listid -> list tid) (ins : positive -> list tid) : Prop := forall m,
  match Owner k m with
  | None => ins m = [] /\ qs (LMutex m) = []
  | Some t => t ∈ tids /\ (ins m = [t] \/ ins m = [] /\ ready k pd (PMutex m) t = true)
  end /\
  forall t, t ∈ tids -> ready k pd (PMutex m) t = true -> Owner k m = Some t /\ ins m = [].

Definition sinv (k : kstate) pd (qs : listid -> list tid) (ad tk : positive -> Z) : Prop := forall s,
  MaxValue (Sems k s) = 0 ->
  0 <= Value (Sems k s) <= 2147483647 /\ (qs (LSemWait s) <> [] -> Value (Sems k s) = 0) /\
  (forall t, t ∈ tids -> 0 <= owed k pd s t) /\
  ad s = Value (Sems k s) + tk s + zsum (owed k pd s) tids.

(** The work queues seen as lists of items. *)
Definition wq_mem (k : kstate) : qmem :=
  Q (Items k) (fun id => match id with LQueue w => L (WHead (Works k w)) (WTail (Works k w)) | _ => L None None end).
Definition wq_seqs (qd : positive -> list positive) : listid -> list positive :=
  fun id => match id with LQueue w => qd w | _ => [] end.

Definition winv (k : kstate) pd (qs : listid -> list tid) (qd pt gt : positive -> list positive) : Prop :=
  view (wq_mem k) (wq_seqs qd) /\
  forall w, pt w = gt w ++ qd w /\
    (qs (LQueue w) <> [] -> Z.of_nat (length (qd w)) <= zsum (fun t => b2z (ready k pd (PQueue w) t)) tids).

Definition inv (x : sys) : Prop := cur x ∈ tids /\ exists qs wh,
  core tids (Some (cur x)) (pend x) (ks x) qs wh /\
  minv (ks x) (pend x) qs (inside x) /\ sinv (ks x) (pend x) qs (added x) (taken x) /\
  winv (ks x) (pend x) qs (queued x) (put x) (got x).
End system.
