(* ===== verification/SyncSteps.v ===== *)
(** * Every step keeps the invariant of the thread system *)
From S2P Require Import Prelude Threads ThreadLists Sync SyncInv SyncSys.
Local Open Scope Z_scope.
Local Open Scope monad_scope.

Section steps.
Context (tids : list tid) (fuel : nat) (Htids : NoDup tids) (Hfuel : (length tids < fuel)%nat).
Implicit Types (k : kstate) (qs : listid -> list tid) (wh : tid -> option listid) (pd : tid -> option pending).

(** ** Frames: what the parts of the invariant depend on *)
Lemma minv_frame k k' pd pd' qs qs' ins : minv tids k pd qs ins -> Owner k' = Owner k ->
  (forall m t, t ∈ tids -> ready k' pd' (PMutex m) t = ready k pd (PMutex m) t) ->
  (forall m, Owner k m = None -> qs (LMutex m) = [] -> qs' (LMutex m) = []) -> minv tids k' pd' qs' ins.
Proof.
  intros H HO HR HQ m. destruct (H m) as [H1 H2]. rewrite HO. split.
  - destruct (Owner k m) as [t|] eqn:E; [|naive_solver]. destruct H1 as [Ht H1]. split; [done|]. by rewrite HR.
  - intros t Ht. rewrite HR by done. auto.
Qed.

Lemma sinv_frame k k' pd pd' qs qs' ad tk : sinv tids k pd qs ad tk -> Sems k' = Sems k ->
  (forall s t, t ∈ tids -> owed k' pd' s t = owed k pd s t) ->
  (forall s, MaxValue (Sems k s) = 0 -> qs' (LSemWait s) <> [] -> qs (LSemWait s) <> [] \/ Value (Sems k s) = 0) ->
  sinv tids k' pd' qs' ad tk.
Proof.
  intros H HS HO HQ s. rewrite HS. intros Hm. destruct (H s Hm) as (H1 & H2 & H3 & H4). split_and!; try lia.
  - intros Hq. destruct (HQ s Hm Hq); auto.
  - intros t Ht. rewrite HO by done. auto.
  - rewrite H4. f_equal. apply zsum_ext. intros t Ht. by rewrite HO.
Qed.

Lemma winv_frame k k' pd pd' qs qs' qd pt gt : winv tids k pd qs qd pt gt -> Works k' = Works k -> Items k' = Items k ->
  (forall w t, t ∈ tids -> ready k' pd' (PQueue w) t = ready k pd (PQueue w) t) ->
  (forall w, qs' (LQueue w) <> [] -> qs (LQueue w) <> [] \/ qd w = []) -> winv tids k' pd' qs' qd pt gt.
Proof.
  intros [H1 H2] HW HI HR HQ. split; [by unfold wq_mem; rewrite HW, HI|]. intros w. destruct (H2 w) as [H3 H4]. split; [done|].
  intros Hq. rewrite (zsum_ext _ (fun t => b2z (ready k pd (PQueue w) t))) by (intros; by rewrite HR).
  destruct (HQ w Hq) as [Hx|Hx]; [auto|]. rewrite Hx. apply zsum_nonneg. intros t _. by destruct (ready _ _ _ t).
Qed.

(** [ready] and [owed] look at one thread. *)
Lemma ready_same k k' pd pd' p t : pd' t = pd t -> Status (Thr k' t) = Status (Thr k t) ->
  ready k' pd' p t = ready k pd p t.
Proof. unfold ready. by intros -> ->. Qed.
Lemma owed_same k k' pd pd' s t : pd' t = pd t -> Status (Thr k' t) = Status (Thr k t) ->
  RetStatus (Thr k' t) = RetStatus (Thr k t) -> owed k' pd' s t = owed k pd s t.
Proof. intros Hp Hs Hr. unfold owed. by rewrite (ready_same k k' pd pd' _ t Hp Hs), Hr. Qed.
Lemma ready_idle k pd p t : pd t = None -> ready k pd p t = false.
Proof. unfold ready. by intros ->. Qed.
Lemma ready_asleep k pd p t : Status (Thr k t) <> THREAD_STAT_ACTIVE -> ready k pd p t = false.
Proof. unfold ready. intros. rewrite (bool_decide_eq_false_2 (Status _ = _)) by done. by rewrite andb_false_r. Qed.
Lemma ready_now k pd p t : Status (Thr k t) = THREAD_STAT_ACTIVE -> ready k pd p t = bool_decide (pd t = Some p).
Proof. unfold ready. intros ->. rewrite (bool_decide_eq_true_2 (THREAD_STAT_ACTIVE = THREAD_STAT_ACTIVE)) by done. by rewrite andb_true_r. Qed.

Lemma ready_true k pd p t : ready k pd p t = true <-> pd t = Some p /\ Status (Thr k t) = THREAD_STAT_ACTIVE.
Proof. unfold ready. by rewrite andb_true_iff, !bool_decide_eq_true. Qed.

(** Threads whose fields that matter are unchanged. *)
Lemma objects_same k k' pd qs qs' x : same_objects k k' -> (forall t, same_tcb (Thr k t) (Thr k' t)) ->
  (forall id, not_active id -> qs' id = qs id) ->
  minv tids k pd qs (inside x) /\ sinv tids k pd qs (added x) (taken x) /\ winv tids k pd qs (queued x) (put x) (got x) ->
  minv tids k' pd qs' (inside x) /\ sinv tids k' pd qs' (added x) (taken x) /\ winv tids k' pd qs' (queued x) (put x) (got x).
Proof.
  intros (_ & HO & HS & _ & HW & HI) HT HQ (Hm & Hs & Hw). split_and!.
  - eapply minv_frame; [exact Hm|done| |]; intros; [apply ready_same; [done|apply HT]|by rewrite HQ].
  - eapply sinv_frame; [exact Hs|done| |]; intros; [apply owed_same; [done|apply HT..]|rewrite HQ in H0 by done; by left].
  - eapply winv_frame; [exact Hw|done..| |]; intros; [apply ready_same; [done|apply HT]|rewrite HQ in H by done; by left].
Qed.

(** [t], asleep in the call [p], becomes active. *)
Section waking.
Context (k k' : kstate) (pd : tid -> option pending) (qs qs' : listid -> list tid) (t : tid) (p : pending).
Context (Hp : pd t = Some p) (Hold : Status (Thr k t) <> THREAD_STAT_ACTIVE).
Context (HU : forall u, u <> t -> Thr k' u = Thr k u) (Hnew : Status (Thr k' t) = THREAD_STAT_ACTIVE).

Lemma ready_wake q u : ready k' pd q u = if decide (u = t) then bool_decide (q = p) else ready k pd q u.
Proof.
  destruct (decide (u = t)) as [->|Hu].
  - rewrite ready_now, Hp by done. apply bool_decide_ext. naive_solver.
  - apply ready_same; [done|]. by rewrite HU.
Qed.
Lemma ready_wake_ne q u : q <> p -> ready k' pd q u = ready k pd q u.
Proof.
  intros Hq. rewrite ready_wake. destruct (decide (u = t)) as [->|]; [|done].
  by rewrite ready_asleep, bool_decide_eq_false_2.
Qed.

Lemma minv_wake ins : minv tids k pd qs ins -> Owner k' = Owner k -> (forall m, p <> PMutex m) ->
  (forall m, qs' (LMutex m) = qs (LMutex m)) -> minv tids k' pd qs' ins.
Proof.
  intros H HO Hne HQ. eapply minv_frame; [exact H|done| |].
  - intros m u _. apply ready_wake_ne. intros <-. by eapply Hne.
  - intros m _. by rewrite HQ.
Qed.
Lemma winv_wake qd pt gt : winv tids k pd qs qd pt gt -> Works k' = Works k -> Items k' = Items k ->
  (forall w, p <> PQueue w) -> (forall w, qs' (LQueue w) = qs (LQueue w)) -> winv tids k' pd qs' qd pt gt.
Proof.
  intros H HW HI Hne HQ. eapply winv_frame; [exact H|done..| |].
  - intros m u _. apply ready_wake_ne. intros <-. by eapply Hne.
  - intros m Hq. left. by rewrite <- HQ.
Qed.
(** A thread woken from a semaphore with nothing. *)
Lemma sinv_wake ad tk : sinv tids k pd qs ad tk -> Sems k' = Sems k ->
  (forall s, p = PSemWait s -> RetStatus (Thr k' t) = 0) ->
  (forall s, qs' (LSemWait s) <> [] -> qs (LSemWait s) <> []) -> sinv tids k' pd qs' ad tk.
Proof.
  intros H HS H0 HQ. eapply sinv_frame; [exact H|done| |].
  - intros s u _. unfold owed. rewrite ready_wake. destruct (decide (u = t)) as [->|Hu]; [|by rewrite HU].
    rewrite (ready_asleep k) by done. case_bool_decide as E; [|done]. by eapply H0.
  - intros s _ Hq. left. auto.
Qed.
End waking.

(** ** Semaphores *)

(** No thread is ever blocked in [Semaphore_Signal] here. *)
Lemma sem_serve_idle c oc pd k qs wh s : core tids oc pd k qs wh -> sem_serve c fuel s k = Ok tt k.
Proof.
  intros Hc. destruct fuel as [|n]; [lia|]. cbn [sem_serve]. krun. rewrite (view_head _ _ (LSemSignal s) (proj1 Hc)).
  destruct (qs (LSemSignal s)) as [|t l] eqn:E.
  - cbn [head]. by destruct (_ || _).
  - exfalso. destruct (core_asleep _ _ _ _ _ _ t (LSemSignal s) Hc) as (Ht & Hwt & Ha & _); [by rewrite E; left|done|].
    destruct (core_tok _ _ _ _ _ _ _ Hc Ht) as [_ Htok]. rewrite Hwt in Htok. destruct (Status (Thr k t)); naive_solver.
Qed.

(** [sinv], except that [s] may hold items while threads wait for it. *)
Definition sinv_but (s : positive) k pd qs (ad tk : positive -> Z) : Prop := forall s',
  MaxValue (Sems k s') = 0 ->
  0 <= Value (Sems k s') <= 2147483647 /\ (s' <> s -> qs (LSemWait s') <> [] -> Value (Sems k s') = 0) /\
  (forall t, t ∈ tids -> 0 <= owed k pd s' t) /\
  ad s' = Value (Sems k s') + tk s' + zsum (owed k pd s') tids.

Lemma sinv_restore s k pd qs ad tk : sinv_but s k pd qs ad tk ->
  (MaxValue (Sems k s) = 0 -> qs (LSemWait s) <> [] -> Value (Sems k s) = 0) -> sinv tids k pd qs ad tk.
Proof.
  intros H Hz s' Hmx. destruct (H s' Hmx) as (H1 & H2 & H3 & H4). split_and!; try done; try lia.
  destruct (decide (s' = s)) as [->|]; auto.
Qed.

(** The state before [Threads_AddActive] in one round of handing out: [w] has left the list with [g] items. *)
Definition handed k (s : positive) (w : tid) (g : Z) : kstate :=
  with_Thr (<[w := set_RetStatus g (Thr k w)]> (Thr k))
    (with_Sems (<[s := SEM (Value (Sems k s) - g) (MaxValue (Sems k s))]> (Sems k))
      (with_Qm (let q := setHead (LSemWait s) (Links (Qm k) w) (Qm k) in
        if decide (Head (Lists q (LSemWait s)) = None) then setTail (LSemWait s) None q else q) k)).

Lemma handed_unlinked k qs s w l g : view (Qm k) qs -> qs (LSemWait s) = w :: l ->
  unlinked (Qm k) (Qm (handed k s w g)) (LSemWait s) [] w l.
Proof.
  intros Hv E. destruct (view_around _ _ _ [] _ _ Hv E) as (Hnx & _ & _ & _ & Htl).
  apply (pop_unlinked _ _ _ _ Hv _ _ E); simpl; rewrite fn_lookup_insert; simpl; rewrite Hnx; destruct l as [|y l]; simpl;
    rewrite ?decide_True, ?decide_False by done; simpl; intros; repeat (rewrite fn_lookup_insert; simpl);
    repeat rewrite fn_lookup_insert_ne by done; try done.
Qed.

Lemma hand_out_step c pd k qs wh s w l g ins ad tk qd pt gt :
  core tids (Some c) pd k qs wh -> minv tids k pd qs ins -> winv tids k pd qs qd pt gt -> sinv_but s k pd qs ad tk ->
  MaxValue (Sems k s) = 0 -> qs (LSemWait s) = w :: l -> 0 <= g <= Value (Sems k s) ->
  exists k' qs' wh', Threads_AddActive c w (handed k s w g) = Ok tt k' /\ core tids (Some c) pd k' qs' wh' /\
    minv tids k' pd qs' ins /\ winv tids k' pd qs' qd pt gt /\ sinv_but s k' pd qs' ad tk /\
    qs' (LSemWait s) = l /\ Sems k' s = SEM (Value (Sems k s) - g) 0.
Proof.
  intros Hc Hm Hw Hs Hmx E Hg.
  destruct (core_asleep _ _ _ _ _ _ w (LSemWait s) Hc) as (Ht & Hwt & Ha & _); [by rewrite E; left|done|].
  assert (Hp : pd w = Some (PSemWait s)).
  { destruct (core_tok _ _ _ _ _ _ _ Hc Ht) as [_ Htok]. rewrite Hwt in Htok. destruct (Status (Thr k w)); naive_solver. }
  destruct (wake_core tids Htids c pd k (handed k s w g) qs wh w (LSemWait s) [] l Hc E)
    as (k' & qs' & wh' & Hr & Hc' & HU & HT & (_ & HO & HS & _ & HW & HI) & HQ); try done.
  { apply (handed_unlinked _ qs); [apply Hc|done]. } 1-3: simpl; intros; fsimp; done.
  simpl in HT, HO, HS, HW, HI. rewrite fn_lookup_insert in HT.
  assert (Hnew : Status (Thr k' w) = THREAD_STAT_ACTIVE) by (by rewrite HT).
  assert (HQ' : forall i, not_active i -> i <> LSemWait s -> qs' i = qs i).
  { intros i Hi Hne. rewrite HQ by done. by rewrite fn_lookup_insert_ne by done. }
  exists k', qs', wh'. split_and!; try done.
  - eapply (minv_wake k k' pd qs qs' w (PSemWait s)); try done. intros. by apply HQ'.
  - eapply (winv_wake k k' pd qs qs' w (PSemWait s)); try done. intros. by apply HQ'.
  - intros s' Hmx'. rewrite HS in *. simpl in *.
    assert (Ho : forall u, owed k' pd s' u = if decide (u = w) then (if decide (s' = s) then g else 0) else owed k pd s' u).
    { intros u. unfold owed. erewrite ready_wake by done. destruct (decide (u = w)) as [->|Hne]; [|by rewrite HU].
      case_bool_decide as Eb; [simplify_eq; rewrite decide_True by done; by rewrite HT|].
      rewrite decide_False; [done|]. intros ->. done. }
    assert (Hold : owed k pd s' w = 0) by (unfold owed; by rewrite ready_asleep).
    assert (Hmx0 : MaxValue (Sems k s') = 0) by (destruct (decide (s = s')) as [<-|]; [done|by rewrite fn_lookup_insert_ne in Hmx']).
    destruct (Hs s' Hmx0) as (H1 & H2 & H3 & H4).
    rewrite (zsum_change (owed k pd s') (owed k' pd s') tids w Htids Ht) by (intros u Hu; by rewrite Ho, decide_False).
    rewrite Hold, (Ho w), decide_True by done.
    assert (H3' : forall t, t ∈ tids -> 0 <= owed k' pd s' t).
    { intros t Htt. rewrite Ho. destruct (decide (t = w)); [destruct (decide (s' = s)); lia|auto]. }
    destruct (decide (s = s')) as [<-|Hne]; fsimp; simpl.
    + rewrite decide_True by done. split_and!; try done; lia.
    + rewrite decide_False by done. split_and!; try done; try lia. intros _. rewrite HQ' by congruence. auto.
  - rewrite HQ by done. by rewrite fn_lookup_insert.
  - rewrite HS. simpl. by rewrite fn_lookup_insert, Hmx.
Qed.

Lemma hand_out_inv c s ins ad tk qd pt gt pd n : forall k qs wh,
  core tids (Some c) pd k qs wh -> minv tids k pd qs ins -> winv tids k pd qs qd pt gt -> sinv_but s k pd qs ad tk ->
  MaxValue (Sems k s) = 0 -> (length (qs (LSemWait s)) < n)%nat ->
  exists k' qs' wh', sem_hand_out c n s k = Ok tt k' /\ core tids (Some c) pd k' qs' wh' /\
    minv tids k' pd qs' ins /\ winv tids k' pd qs' qd pt gt /\ sinv tids k' pd qs' ad tk.
Proof.
  induction n as [|n IH]; intros k qs wh Hc Hm Hw Hs Hmx Hn; [lia|]. cbn [sem_hand_out]. krun.
  rewrite (view_head _ _ (LSemWait s) (proj1 Hc)).
  destruct (Value (Sems k s) =? 0) eqn:Ev; bools.
  { exists k, qs, wh. split_and!; try done. by eapply sinv_restore. }
  destruct (qs (LSemWait s)) as [|w l] eqn:E; cbn [head].
  { exists k, qs, wh. split_and!; try done. eapply sinv_restore; [done|]. intros _. by rewrite E. }
  destruct (core_asleep _ _ _ _ _ _ w (LSemWait s) Hc) as (Ht & Hwt & Ha & _); [by rewrite E; left|done|].
  assert (Hret : 0 <= RetStatus (Thr k w)).
  { destruct (core_tok _ _ _ _ _ _ _ Hc Ht) as [_ Htok]. rewrite Hwt in Htok. destruct (Status (Thr k w)); naive_solver lia. }
  destruct (Hs s Hmx) as (Hv & _). unfold sem_pop, set_Value, wake_if_asleep. krun. simpl Thr. simpl Sems.
  set (g := if _ && _ then _ else _).
  assert (Hg : 0 <= g <= Value (Sems k s)).
  { unfold g. simpl. destruct (_ && _) eqn:Eg; bools; lia. }
  rewrite bind_require by (unfold int_ok; simpl in *; lia). krun.
  rewrite decide_False by (simpl; rewrite fn_lookup_insert; done).
  destruct (hand_out_step c pd k qs wh s w l g ins ad tk qd pt gt) as (k' & qs' & wh' & Hr & Hc' & Hm' & Hw' & Hs' & HQ & HS); try done.
  erewrite bind_Ok; [|exact Hr]. apply (IH k' qs' wh'); try done; [by rewrite HS|]. rewrite HQ. simpl in Hn. lia.
Qed.

(** ** Work queues *)
Lemma wq_put_view k k' w i qd : view (wq_mem k) (wq_seqs qd) -> (forall v, i ∉ qd v) ->
  Items k' = <[i := None]> (match last (qd w) with Some z => <[z := Some i]> (Items k) | None => Items k end) ->
  Works k' = <[w := WQ (match last (qd w) with Some _ => WHead (Works k w) | None => Some i end) (Some i)]> (Works k) ->
  view (wq_mem k') (wq_seqs (<[w := qd w ++ [i]]> qd)).
Proof.
  intros Hv Hi HI HW.
  assert (Hf : free (wq_seqs qd) i) by (intros id; destruct id; simpl; set_solver).
  pose proof (view_append _ _ (LQueue w) i Hv Hf) as Ha. eapply view_seqs; [..|exact Ha].
  - intros t. simpl. rewrite HI. by destruct (last (qd w)).
  - intros id. simpl. rewrite HW. destruct (decide (LQueue w = id)) as [<-|Hne].
    + rewrite !fn_lookup_insert. destruct (last (qd w)); simpl; fsimp; done.
    + rewrite fn_lookup_insert_ne by done. destruct (last (qd w)); simpl; fsimp; destruct id; try done;
        rewrite fn_lookup_insert_ne by congruence; done.
  - intros id. destruct (decide (LQueue w = id)) as [<-|Hne]; fsimp; simpl; fsimp; [done|].
    destruct id; simpl; try done. by rewrite fn_lookup_insert_ne by congruence.
Qed.

Lemma wq_get_view k k' w i l qd : view (wq_mem k) (wq_seqs qd) -> qd w = i :: l -> Items k' = Items k ->
  Works k' = <[w := WQ (Items k i) (if decide (WTail (Works k w) = Some i) then None else WTail (Works k w))]> (Works k) ->
  view (wq_mem k') (wq_seqs (<[w := l]> qd)).
Proof.
  intros Hv E HI HW. assert (E' : wq_seqs qd (LQueue w) = i :: l) by done.
  destruct (view_around _ _ _ [] _ _ Hv E') as (Hnx & _ & _ & _ & Htl). simpl in Hnx, Htl.
  destruct (view_unlink _ (wq_mem k') _ (LQueue w) [] i l Hv E') as [Hv' _].
  { apply (pop_unlinked _ _ _ _ Hv _ _ E'); simpl.
    - by rewrite HI.
    - rewrite HW, fn_lookup_insert. simpl. f_equal. rewrite Htl.
      assert (Hiff : last (i :: l) = Some i <-> l = []).
      { destruct l as [|y l]; [done|]. rewrite last_cons_cons. split; [|done]. intros Hl%last_Some_elem_of.
        destruct Hv as (_ & Hn & _). specialize (Hn (LQueue w)). rewrite E' in Hn. by apply NoDup_cons in Hn as [? _]. }
      destruct (decide (last (i :: l) = Some i)), (decide (l = [])); tauto.
    - intros id Hne. rewrite HW. destruct id; try done. by rewrite fn_lookup_insert_ne by congruence. }
  eapply view_seqs; [..|exact Hv']; try done.
  intros id. destruct (decide (LQueue w = id)) as [<-|Hne]; fsimp; simpl; fsimp; [done|].
  destruct id; simpl; try done. by rewrite fn_lookup_insert_ne by congruence.
Qed.

Lemma core_mem oc pd k k' qs wh : core tids oc pd k qs wh -> (forall t, Links (Qm k') t = Links (Qm k) t) ->
  (forall id, Lists (Qm k') id = Lists (Qm k) id) -> Thr k' = Thr k -> giNumActiveThreads k' = giNumActiveThreads k ->
  core tids oc pd k' qs wh.
Proof.
  intros (Hv & Hin & Htok & Hnum) HL HI HT HN. split_and!; [by eapply view_ext|done|by rewrite HT|].
  rewrite HN, Hnum. apply zsum_ext. intros u _. unfold active. by rewrite HT.
Qed.

(** The sleeper is made active before it is taken off the list: the lists end up as in the other order. *)
Lemma wake_then_unlink c pd k qs wh w sl l : core tids (Some c) pd k qs wh -> qs (LQueue w) = sl :: l ->
  let unlink := fun q => (if decide (head l = None) then setTail (LQueue w) None else (fun q => q)) (setHead (LQueue w) (head l) q) in
  exists k1 k' qs' wh', Threads_AddActive c sl k = Ok tt k1 /\
    k' = with_Qm (unlink (Qm k1)) k1 /\ core tids (Some c) pd k' qs' wh' /\
    (forall u, u <> sl -> Thr k' u = Thr k u) /\ Thr k' sl = set_Status THREAD_STAT_ACTIVE (Thr k sl) /\
    same_objects k k' /\ (forall i, not_active i -> qs' i = (<[LQueue w := l]> qs : listid -> list tid) i).
Proof.
  intros Hc E unlink. pose proof (proj1 Hc) as Hv.
  destruct (view_around _ _ _ [] _ _ Hv E) as (Hnx & _ & _ & _ & Htl). simpl in Htl.
  destruct (core_asleep _ _ _ _ _ _ sl (LQueue w) Hc) as (Ht & Hwt & Ha & Hp); [by rewrite E; left|done|].
  rewrite (AddActive_run c k qs sl Hv Ha Hp). do 2 eexists.
  set (k0 := with_Qm (unlink (Qm k)) k).
  assert (Hu : unlinked (Qm k) (Qm k0) (LQueue w) [] sl l).
  { unfold k0, unlink. apply (pop_unlinked _ _ _ _ Hv _ _ E); simpl; destruct l as [|y l]; simpl; intros;
      repeat (rewrite fn_lookup_insert; simpl); fsimp; by rewrite ?Hnx, ?Htl. }
  destruct (wake_core tids Htids c pd k k0 qs wh sl (LQueue w) [] l Hc E) as (k' & qs' & wh' & Hr & Hc' & HU & HT & Ho & HQ); try done.
  pose proof (core_unlink tids Htids _ _ _ _ _ sl (LQueue w) [] l _ Hc E Hu) as Hl.
  exists qs', wh'. split; [done|]. split; [done|].
  rewrite (AddActive_run c k0 _ sl (proj1 Hl) Ha Hp) in Hr. simplify_eq. split_and!; try done.
  assert (HA : (<[LQueue w := [] ++ l]> qs : listid -> list tid) (LActive (Priority (Thr k sl))) = qs (LActive (Priority (Thr k sl)))).
  { by rewrite fn_lookup_insert_ne. }
  assert (Hlq : LActive (Priority (Thr k sl)) <> LQueue w) by done.
  simpl in HA. eapply core_mem; [exact Hc'| | |done|done]; unfold appended; simpl; rewrite ?HA;
    [intros t|intros id]; destruct (decide (sl = c)); try done; unfold unlink;
    destruct (last (qs (LActive (Priority (Thr k sl))))), l; simpl; try done.
  all: destruct (decide (LQueue w = id)) as [<-|]; repeat (fsimp; simpl); try done.
  all: destruct (decide (LActive (Priority (Thr k sl)) = id)) as [<-|]; repeat (fsimp; simpl); done.
Qed.

(** ** Blocking *)
Section at_state.
Context (x : sys) (qs : listid -> list tid) (wh : tid -> option listid).
Context (Hcur : cur x ∈ tids) (Hc : core tids (Some (cur x)) (pend x) (ks x) qs wh).
Context (Hm : minv tids (ks x) (pend x) qs (inside x)) (Hs : sinv tids (ks x) (pend x) qs (added x) (taken x)).
Context (Hw : winv tids (ks x) (pend x) qs (queued x) (put x) (got x)).

Local Abbreviation k := (ks x).
Local Abbreviation c := (cur x).

(** The current thread goes to sleep in the call [p]: no thread becomes ready or stops being so, provided it was in no call
    or, having been woken, finds nothing and sleeps again. *)
Lemma sleep_inv k' p qs' wh' th : core tids (Some c) (<[c := Some p]> (pend x)) k' qs' wh' ->
  same_objects k k' -> Thr k' = <[c := th]> (Thr k) -> Status th <> THREAD_STAT_ACTIVE ->
  pend x c = None \/ (exists w, pend x c = Some (PQueue w) /\ queued x w = []) ->
  (forall m, Owner k m = None -> qs (LMutex m) = [] -> qs' (LMutex m) = []) ->
  (forall s, MaxValue (Sems k s) = 0 -> qs' (LSemWait s) <> [] -> qs (LSemWait s) <> [] \/ Value (Sems k s) = 0) ->
  (forall w, qs' (LQueue w) <> [] -> qs (LQueue w) <> [] \/ queued x w = []) ->
  inv tids (with_pend (Some p) (with_ks k' x)).
Proof.
  intros Hc' (_ & HO & HS & _ & HW & HI) HT Hth Hpd HQm HQs HQw. split; [done|]. exists qs', wh'. split; [done|].
  assert (Hst : Status (Thr k' c) <> THREAD_STAT_ACTIVE) by (by rewrite HT, fn_lookup_insert).
  assert (Hoth : forall t, t <> c -> Thr k' t = Thr k t /\ <[c := Some p]> (pend x) t = pend x t).
  { intros t Ht. rewrite HT. by rewrite !fn_lookup_insert_ne by done. }
  assert (HR : forall q t, (forall w, q <> PQueue w) -> ready k' (<[c := Some p]> (pend x)) q t = ready k (pend x) q t).
  { intros q t Hq. destruct (decide (t = c)) as [->|Ht].
    - rewrite ready_asleep by done. destruct Hpd as [H0|(w & H0 & _)]; [by rewrite ready_idle|].
      unfold ready. rewrite H0, bool_decide_eq_false_2; [done|]. intros [= <-]. by eapply Hq.
    - destruct (Hoth t Ht) as [H1 H2]. apply ready_same; [done|by rewrite H1]. }
  simpl. split_and!.
  - eapply minv_frame; [exact Hm|done| |done]. intros. by apply HR.
  - eapply sinv_frame; [exact Hs|done| |done]. intros s t Ht. unfold owed. rewrite HR by done.
    destruct (decide (t = c)) as [->|Hne]; [|by destruct (Hoth t Hne) as [-> _]].
    destruct (ready k (pend x) (PSemWait s) c) eqn:E; [|done]. apply ready_true in E as [E _].
    destruct Hpd as [Hpx|(w & Hpx & _)]; congruence.
  - destruct Hw as [Hv Hwq]. split; [unfold wq_mem; by rewrite HW, HI|]. intros w. destruct (Hwq w) as [H1 H2].
    split; [done|]. intros Hq.
    assert (Hge : forall f : tid -> bool, 0 <= zsum (fun t => b2z (f t)) tids).
    { intros f. apply zsum_nonneg. intros t _. by destruct (f t). }
    destruct (queued x w) as [|i l] eqn:Eq; [apply Hge|]. rewrite <- Eq in *.
    rewrite (zsum_ext _ (fun t => b2z (ready k (pend x) (PQueue w) t))).
    { destruct (HQw w Hq) as [Hn|Hn]; [|rewrite Eq in Hn; done]. apply H2. done. }
    intros t Ht. f_equal. destruct (decide (t = c)) as [->|Hne].
    + rewrite ready_asleep by done. destruct Hpd as [H0|(v & H0 & Hv0)]; [by rewrite ready_idle|].
      unfold ready. rewrite H0, bool_decide_eq_false_2; [done|]. intros [= ->]. congruence.
    + destruct (Hoth t Hne) as [E1 E2]. apply ready_same; [done|by rewrite E1].
Qed.

Lemma own_tok : prio_ok (Priority (Thr k c)) = true.
Proof. by destruct (core_tok _ _ _ _ _ _ _ Hc Hcur) as [? _]. Qed.

Lemma insert_list_ne (i j : listid) l : i <> j -> (<[i := l]> qs : listid -> list tid) j = qs j.
Proof. apply fn_lookup_insert_ne. Qed.

Lemma acquire_step m : own_code x -> exists x', run fuel (Acquire m) x = Some x' /\ inv tids x'.
Proof.
  intros [Hp Ha]. unfold run, Mutex_Acquire. krun. destruct (Owner k m) as [o|] eqn:Eo.
  - destruct (Sleep_core tids Htids c (pend x) k qs wh Hc Hcur Ha THREAD_STAT_MUTEXSLEEP (Some (WMutex m)) 0 (LMutex m) (PMutex m))
      as (k' & Hr & Hc' & HT & Ho); [done|split; [apply own_tok|simpl; eauto]|].
    rewrite (bind_Ok _ _ _ _ _ Hr). simpl. eexists. split; [done|].
    eapply sleep_inv; [exact Hc'|done|exact HT|done|by left|..]; intros v.
    + intros Hv Hq. rewrite insert_list_ne; [done|]. intros [= ->]. congruence.
    + intros _. rewrite insert_list_ne by done. by left.
    + rewrite insert_list_ne by done. by left.
  - eexists. split; [reflexivity|]. split; [done|]. exists qs, wh. split_and!; [done| |done..].
    intros m'. simpl. destruct (Hm m) as [Hm1 Hm2]. rewrite Eo in Hm1. destruct Hm1 as [Hi Hq].
    destruct (decide (m = m')) as [<-|Hne]; [|fsimp; apply Hm]. fsimp. split.
    + split; [done|]. left. by rewrite Hi.
    + intros t Ht Hr. destruct (Hm2 t Ht Hr) as [? _]. congruence.
Qed.

Lemma getwork_sleep_step w : Status (Thr k c) = THREAD_STAT_ACTIVE -> queued x w = [] ->
  pend x c = None \/ pend x c = Some (PQueue w) ->
  exists k', Workqueue_GetWork c w k = Ok None k' /\ inv tids (with_pend (Some (PQueue w)) (with_ks k' x)).
Proof.
  intros Ha Hq Hp. unfold Workqueue_GetWork. krun.
  assert (Hh : WHead (Works k w) = None).
  { destruct Hw as [Hv _]. pose proof (view_head _ _ (LQueue w) Hv) as Hh. simpl in Hh. by rewrite Hh, Hq. }
  rewrite Hh.
  destruct (Sleep_core tids Htids c (pend x) k qs wh Hc Hcur Ha THREAD_STAT_QUEUESLEEP (Some (WQueue w)) 0 (LQueue w) (PQueue w))
    as (k' & Hr & Hc' & HT & Ho); [done|split; [apply own_tok|simpl; eauto]|].
  rewrite (bind_Ok _ _ _ _ _ Hr). eexists. split; [reflexivity|].
  eapply sleep_inv; [exact Hc'|done|exact HT|done|naive_solver|..]; intros v.
  - rewrite insert_list_ne by done. done.
  - intros _. rewrite insert_list_ne by done. by left.
  - destruct (decide (w = v)) as [<-|]; [by right|]. rewrite insert_list_ne by congruence. by left.
Qed.

Lemma wait_sleep_step s n : own_code x -> n <= 2147483647 -> Value (Sems k s) <= 0 ->
  exists x', run fuel (Wait s n) x = Some x' /\ inv tids x'.
Proof.
  intros [Hp Ha] Hn Hv. unfold run, Semaphore_Wait. krun.
  destruct (0 <? Value (Sems k s)) eqn:E; bools; [lia|].
  set (mx := if n <? 0 then 0 else n).
  assert (0 <= mx <= 2147483647) by (unfold mx; destruct (n <? 0) eqn:?; bools; lia).
  destruct (Sleep_core tids Htids c (pend x) k qs wh Hc Hcur Ha THREAD_STAT_SEMAPHORESLEEP (Some (WSem s)) mx (LSemWait s) (PSemWait s))
    as (k' & Hr & Hc' & HT & Ho); [done|split; [apply own_tok|simpl; eauto 6]|].
  rewrite (bind_Ok _ _ _ _ _ Hr). eexists. split; [reflexivity|].
  eapply sleep_inv; [exact Hc'|done|exact HT|done|by left|..]; intros v.
  - rewrite insert_list_ne by done. done.
  - intros Hmx. destruct (decide (s = v)) as [<-|]; [right|rewrite insert_list_ne by congruence; by left].
    destruct (Hs s Hmx) as [? _]. lia.
  - rewrite insert_list_ne by done. by left.
Qed.

(** A change to a thread's fields that concerns no list and no call. *)
Lemma quiet_step t th : t ∈ tids -> Status th = Status (Thr k t) -> RetStatus th = RetStatus (Thr k t) ->
  tok th (wh t) (pend x t) (bool_decide (Some c = Some t)) ->
  inv tids (with_ks (with_Thr (<[t := th]> (Thr k)) k) x).
Proof.
  intros Ht Hst Hr Htk. split; [done|]. exists qs, wh. simpl.
  assert (HS : forall u, Status ((<[t := th]> (Thr k) : tid -> tThread) u) = Status (Thr k u)).
  { intros u. destruct (decide (t = u)) as [<-|]; fsimp; done. }
  assert (HR : forall u, RetStatus ((<[t := th]> (Thr k) : tid -> tThread) u) = RetStatus (Thr k u)).
  { intros u. destruct (decide (t = u)) as [<-|]; fsimp; done. }
  split_and!.
  - destruct Hc as (Hv & Hin & Htok & Hnum). split_and!; [done|done| |].
    + intros u Hu Hn. simpl. destruct (decide (t = u)) as [<-|]; fsimp; [done|auto].
    + simpl. rewrite Hnum. apply zsum_ext. intros u _. unfold active. by rewrite <- HS.
  - eapply minv_frame; [exact Hm|done| |done]. intros. apply ready_same; [done|apply HS].
  - eapply sinv_frame; [exact Hs|done| |by left]. intros. apply owed_same; [done|apply HS|apply HR].
  - eapply winv_frame; [exact Hw|done..| |by left]. intros. apply ready_same; [done|apply HS].
Qed.

(** The same for the current thread while it runs. *)
Lemma own_quiet th : Status (Thr k c) = THREAD_STAT_ACTIVE -> Status th = THREAD_STAT_ACTIVE ->
  RetStatus th = RetStatus (Thr k c) -> Priority th = Priority (Thr k c) ->
  inv tids (with_ks (with_Thr (<[c := th]> (Thr k)) k) x).
Proof.
  intros Ha Hst Hr Hp. apply quiet_step; [done|congruence|done|].
  pose proof (core_tok _ _ _ _ _ _ _ Hc Hcur) as [H1 H2]. rewrite Ha in H2.
  split; [by rewrite Hp|]. by rewrite Hst, Hp.
Qed.

Lemma waitevents_step mask : own_code x -> 0 <= mask < 4294967296 ->
  exists x', run fuel (WaitEvents mask) x = Some x' /\ inv tids x'.
Proof.
  intros [Hp Ha] Hb. unfold run, Threads_WaitEvents.
  destruct (mask =? 0) eqn:E0; bools.
  { eexists. split; [reflexivity|]. split; [done|]. by exists qs, wh. }
  krun. destruct (Z.land (EventState (Thr k c)) mask =? 0) eqn:E; bools.
  - destruct (Sleep_self_core tids Htids c (pend x) k qs wh Hc Hcur Ha THREAD_STAT_EVENTSLEEP None (i32 mask) (PEvents mask))
      as (k' & Hr & Hc' & HT & Ho); [done|split; [apply own_tok|simpl; eauto 8]|].
    rewrite (bind_Ok _ _ _ _ _ Hr). eexists. split; [reflexivity|].
    eapply sleep_inv; [exact Hc'|done|exact HT|done|by left|..]; intros v; naive_solver.
  - eexists. split; [reflexivity|]. by apply own_quiet.
Qed.

Lemma clear_step mask : own_code x -> exists x', run fuel (ClearEvent mask) x = Some x' /\ inv tids x'.
Proof. intros [_ Ha]. eexists. split; [reflexivity|]. by apply own_quiet. Qed.

Lemma sleep_step : own_code x -> exists x', run fuel Sleep x = Some x' /\ inv tids x'.
Proof.
  intros [Hp Ha]. unfold run. destruct (HasMessages (Thr k c)) eqn:Hmsg.
  - unfold Threads_Sleep. krun. rewrite Hmsg. eexists. split; [reflexivity|]. split; [done|]. by exists qs, wh.
  - destruct (Threads_Sleep_core tids Htids c (pend x) k qs wh Hc Hcur Ha Hmsg) as (k' & Hr & Hc' & HT & Ho).
    rewrite Hr. eexists. split; [reflexivity|].
    eapply sleep_inv; [exact Hc'|done|exact HT|done|by left|..]; intros v; rewrite insert_list_ne by done; auto.
Qed.

Lemma setpriority_step t p : t ∈ tids -> Status (Thr k t) = THREAD_STAT_ACTIVE ->
  exists x', run fuel (SetPriority t p) x = Some x' /\ inv tids x'.
Proof.
  intros Ht Ha. destruct (SetPriority_core tids Htids fuel c (pend x) k qs wh t p Hc Hcur Ht Hfuel Ha)
    as (k' & qs' & wh' & Hr & Hc' & HT & HU & (_ & HO & HS & _ & HW & HI) & HQ).
  unfold run. rewrite Hr. eexists. split; [reflexivity|]. split; [done|]. exists qs', wh'. simpl.
  assert (HSt : forall u, Status (Thr k' u) = Status (Thr k u) /\ RetStatus (Thr k' u) = RetStatus (Thr k u)).
  { intros u. destruct (decide (u = t)) as [->|Hu]; [by rewrite HT|by rewrite HU]. }
  split_and!; [done|..].
  - eapply minv_frame; [exact Hm|done| |]; intros; [apply ready_same; [done|apply HSt]|by rewrite HQ].
  - eapply sinv_frame; [exact Hs|done| |]; intros; [apply owed_same; [done|apply HSt..]|rewrite HQ in * by done; by left].
  - eapply winv_frame; [exact Hw|done..| |]; intros; [apply ready_same; [done|apply HSt]|rewrite HQ in * by done; by left].
Qed.

Lemma reschedule_step cpu : exists x', run fuel (Reschedule cpu) x = Some x' /\ inv tids x'.
Proof.
  destruct (GetNextToRun_core tids Htids cpu c (pend x) k qs wh Hc Hcur) as (k' & Hr & Ho & HT & Ht & qs' & wh' & Hc' & HQ & _).
  unfold run. rewrite Hr. eexists. split; [reflexivity|]. split; [done|]. exists qs', wh'. split; [done|].
  eapply (objects_same k k' (pend x) qs qs' x); [done..|]. by split_and!.
Qed.

(** ** Waking *)
Lemma asleep_call t id : t ∈ qs id -> not_active id -> exists p, pend x t = Some p /\
  match id with
  | LSleeping => p = PSleep | LMutex m => p = PMutex m | LSemWait s => p = PSemWait s | LQueue w => p = PQueue w
  | _ => False
  end.
Proof.
  intros Hin Hna. destruct (core_asleep _ _ _ _ _ _ _ _ Hc Hin Hna) as (Ht & Hwt & Ha & _).
  destruct (core_tok _ _ _ _ _ _ _ Hc Ht) as [_ Htok]. rewrite Hwt in Htok.
  destruct (Status (Thr (ks x) t)); naive_solver.
Qed.

Lemma list_bound id : (length (qs id) <= fuel)%nat.
Proof. pose proof (core_length tids _ _ _ _ _ id Hc). lia. Qed.

(** Waking a thread from the semaphore or the list of sleeping threads, empty-handed. *)
Lemma wake_inv t id pre post k1 : qs id = pre ++ t :: post -> id = LSleeping \/ (exists s, id = LSemWait s) ->
  unlinked (Qm k) (Qm k1) id pre t post ->
  (forall u, u <> t -> Thr k1 u = Thr k u) -> giNumActiveThreads k1 = giNumActiveThreads k ->
  Status (Thr k1 t) = Status (Thr k t) -> Priority (Thr k1 t) = Priority (Thr k t) ->
  (id <> LSleeping -> RetStatus (Thr k1 t) = 0) -> same_objects k k1 ->
  exists k', Threads_AddActive c t k1 = Ok tt k' /\ inv tids (with_ks k' x).
Proof.
  intros E Hid Hu HT HN Hst Hpr Hret Ho.
  assert (Hna : not_active id) by (intros p; destruct Hid as [->|[s ->]]; done).
  destruct (wake_core tids Htids c (pend x) k k1 qs wh t id pre post Hc E Hna Hu HT HN Hst Hpr)
    as (k' & qs' & wh' & Hr & Hc' & HT' & Htt & Ho' & HQ).
  destruct (asleep_call t id) as (p & Hp & Hpid); [rewrite E; set_solver|done|].
  destruct (core_asleep _ _ _ _ _ _ t id Hc) as (Ht & _ & Ha & _); [rewrite E; set_solver|done|].
  exists k'. split; [done|]. split; [done|]. exists qs', wh'. split; [done|].
  assert (Hnew : Status (Thr k' t) = THREAD_STAT_ACTIVE) by (by rewrite Htt).
  pose proof (same_objects_trans _ _ _ Ho Ho') as (_ & HO & HS & _ & HW & HI). simpl.
  assert (HQ' : forall i, not_active i -> i <> id -> qs' i = qs i).
  { intros i Hi Hne. rewrite HQ by done. by rewrite fn_lookup_insert_ne by done. }
  split_and!.
  - eapply (minv_wake k k' (pend x) qs qs' t p); try done; intros m.
    + intros ->. destruct Hid as [->|[s ->]]; done.
    + apply HQ'; [done|]. destruct Hid as [->|[s ->]]; done.
  - eapply (sinv_wake k k' (pend x) qs qs' t p); try done; intros s.
    + intros ->. rewrite Htt. simpl. apply Hret. intros ->. done.
    + destruct (decide (LSemWait s = id)) as [<-|Hne]; [|by rewrite HQ'].
      intros _. rewrite E. by destruct pre.
  - eapply (winv_wake k k' (pend x) qs qs' t p); try done; intros m.
    + intros ->. destruct Hid as [->|[s ->]]; done.
    + apply HQ'; [done|]. destruct Hid as [->|[s ->]]; done.
Qed.

Lemma forcewake_run t s : t ∈ qs (LSemWait s) -> Status (Thr k t) = THREAD_STAT_SEMAPHORESLEEP ->
  WaitPointer (Thr k t) = Some (WSem s) ->
  exists k', Semaphore_ForceWake c fuel true t k = Ok tt k' /\ inv tids (with_ks k' x).
Proof.
  intros (pre & post & E)%list_elem_of_split Ha Hwp. unfold Semaphore_ForceWake. cbn [negb]. krun.
  rewrite decide_True, Hwp by done.
  destruct (force_unlink_unlinked _ _ _ _ (proj1 Hc) fuel pre post E (list_bound _)) as (q' & Hf & Hu).
  erewrite bind_Ok; [|unfold onQ; by rewrite Hf]. krun.
  eapply wake_inv; [exact E|eauto|exact Hu|..]; try done; simpl; intros; fsimp; done.
Qed.

Lemma wake_step t : t ∈ tids -> exists x', run fuel (Wake t) x = Some x' /\ inv tids x'.
Proof.
  intros Ht. unfold run, Threads_Wake. krun.
  assert (Hnop : forall r : wake_result, exists x', finish (ret r k) (fun _ x => x) x = Some x' /\ inv tids x').
  { intros r. eexists. split; [reflexivity|]. split; [done|]. by exists qs, wh. }
  pose proof (core_tok _ _ _ _ _ _ _ Hc Ht) as [_ Htok].
  destruct (Status (Thr k t)) eqn:Ha; try apply Hnop.
  - destruct Htok as [Hwt _].
    assert (Hin : t ∈ qs LSleeping) by (eapply core_elem; [exact Hc|done]).
    apply list_elem_of_split in Hin as (pre & post & E).
    destruct (DelFromQueue_unlinked fuel _ _ _ pre t post (proj1 Hc) E (list_bound _)) as (q' & Hd & Hu).
    erewrite bind_Ok; [|unfold onQ; by rewrite Hd].
    edestruct (wake_inv t LSleeping pre post (with_Qm q' k)) as (k' & Hr & Hi); try done; [by left|].
    rewrite (bind_Ok _ _ _ _ _ Hr). eexists. split; [reflexivity|]. exact Hi.
  - destruct Htok as (s & Hwt & _ & Hwp & _). rewrite Hwp.
    assert (Hin : t ∈ qs (LSemWait s)) by (eapply core_elem; [exact Hc|done]).
    apply list_elem_of_split in Hin as (pre & post & E).
    destruct (view_around _ _ _ _ _ _ (proj1 Hc) E) as (_ & Hnt & _).
    assert (Hfind : find_on fuel (LSemWait s) t k = Ok (Some (last pre)) k).
    { unfold find_on, onQ. pose proof (proj1 Hc) as [Ho _]. destruct (Ho (LSemWait s)) as [Hseg _]. rewrite E in Hseg.
      pose proof (list_bound (LSemWait s)) as Hb. rewrite E, length_app in Hb. simpl in Hb.
      rewrite (find_prev_found _ t pre post _ None fuel Hseg Hnt) by lia. simpl. by destruct (last pre), k. }
    rewrite (bind_Ok _ _ _ _ _ Hfind). krun.
    match goal with |- context [bind (Threads_AddActive _ _) _ ?k1] =>
      destruct (wake_inv t (LSemWait s) pre post k1) as (k' & Hr & Hi) end.
    1: exact E. 1: eauto. 1: { eapply unlink_after_unlinked; [apply Hc|exact E]. }
    1-6: try done; simpl; intros; fsimp; done.
    rewrite (bind_Ok _ _ _ _ _ Hr). eexists. split; [reflexivity|]. exact Hi.
Qed.

(** A thread woken from waiting for events; [k1] differs from the state only in that thread. *)
Lemma event_wake_inv t k1 : t ∈ tids -> Status (Thr k t) = THREAD_STAT_EVENTSLEEP -> Qm k1 = Qm k ->
  (forall u, u <> t -> Thr k1 u = Thr k u) -> giNumActiveThreads k1 = giNumActiveThreads k ->
  Status (Thr k1 t) = Status (Thr k t) -> Priority (Thr k1 t) = Priority (Thr k t) -> same_objects k k1 ->
  exists k', Threads_AddActive c t k1 = Ok tt k' /\ inv tids (with_ks k' x).
Proof.
  intros Ht Ha HQ HT HN Hst Hpr Ho.
  pose proof (core_tok _ _ _ _ _ _ _ Hc Ht) as [Hp Htok]. rewrite Ha in Htok.
  destruct Htok as (mask & Hwt & Hpd & _).
  pose proof (core_limbo _ _ _ _ _ _ _ Hc Hwt) as Hl.
  apply (core_but_change tids Htids _ _ (pend x) _ k1) in Hl; [|done..|].
  2: { rewrite !active_no by congruence. lia. }
  destruct (AddActive_core tids Htids c (pend x) _ _ wh t Hl Ht) as (k' & qs' & wh' & Hr & Hc' & HT' & Ho' & Hq); [congruence..|].
  exists k'. split; [done|]. split; [done|]. exists qs', wh'. split; [done|].
  assert (Hnew : Status (Thr k' t) = THREAD_STAT_ACTIVE) by (by rewrite HT', fn_lookup_insert).
  assert (HU : forall u, u <> t -> Thr k' u = Thr k u).
  { intros u Hu. rewrite HT', fn_lookup_insert_ne by done. auto. }
  assert (Hold : Status (Thr k t) <> THREAD_STAT_ACTIVE) by congruence.
  pose proof (same_objects_trans _ _ _ Ho Ho') as (_ & HO & HS & _ & HW & HI). simpl. split_and!.
  - eapply (minv_wake k k' (pend x) qs qs' t (PEvents mask)); try done. intros. by apply Hq.
  - eapply (sinv_wake k k' (pend x) qs qs' t (PEvents mask)); try done. intros s. by rewrite Hq.
  - eapply (winv_wake k k' (pend x) qs qs' t (PEvents mask)); try done. intros. by apply Hq.
Qed.

(** ** Releasing a mutex *)
Lemma holder m : cur x ∈ inside x m -> Owner k m = Some c /\ inside x m = [c] /\
  forall t, t ∈ tids -> ready k (pend x) (PMutex m) t = false.
Proof.
  intros Hin. destruct (Hm m) as [H1 H2]. destruct (Owner k m) as [o|] eqn:Eo.
  - destruct H1 as [Ht [Hi|[Hi _]]]; rewrite Hi in Hin; [|set_solver]. apply list_elem_of_singleton in Hin as <-.
    split_and!; try done. intros t Htt. destruct (ready k (pend x) (PMutex m) t) eqn:Er; [|done].
    destruct (H2 t Htt Er) as [_ ?]. congruence.
  - destruct H1 as [Hi _]. rewrite Hi in Hin. set_solver.
Qed.

Lemma leave_self m : inside x m = [c] -> list_difference (inside x m) [c] = [].
Proof. intros ->. simpl. destruct (decide_rel elem_of c [c]) as [|Hn]; [done|]. destruct Hn. left. Qed.

Lemma release_step m : cur x ∈ inside x m -> exists x', run fuel (Release m) x = Some x' /\ inv tids x'.
Proof.
  intros Hin. destruct (holder m Hin) as (Ho & Hi & Hnr). unfold run, Mutex_Release. krun.
  rewrite (view_head _ _ (LMutex m) (proj1 Hc)). destruct (qs (LMutex m)) as [|w l] eqn:Eq; cbn [head].
  - eexists. split; [reflexivity|]. split; [done|]. exists qs, wh. split_and!; [done| |done..]. intros m'. simpl.
    destruct (decide (m = m')) as [<-|Hne]; fsimp; [|apply Hm]. split; [split; [by apply leave_self|done]|].
    intros t Ht Hr. specialize (Hnr t Ht). unfold ready in *. simpl in *. congruence.
  - destruct (view_around _ _ _ [] _ _ (proj1 Hc) Eq) as (Hnx & _ & _ & _ & Htl). simpl in Htl.
    assert (Hna : not_active (LMutex m)) by done.
    destruct (core_asleep _ _ _ _ _ _ w (LMutex m) Hc) as (Ht & _ & Ha & _); [by rewrite Eq; left|done|].
    destruct (asleep_call w (LMutex m)) as (p & Hp & ->); [by rewrite Eq; left|done|].
    unfold set_Owner, wake_if_asleep. krun. simpl. rewrite decide_False by done.
    match goal with |- context [Threads_AddActive _ _ ?k0] => set (k1 := k0) end.
    assert (Hu : unlinked (Qm k) (Qm k1) (LMutex m) [] w l).
    { unfold k1. apply (pop_unlinked _ _ _ _ (proj1 Hc) _ _ Eq); simpl; rewrite fn_lookup_insert; simpl; rewrite Htl.
      - intros u. by destruct (decide (last (w :: l) = Some w)).
      - destruct (decide (last (w :: l) = Some w)) as [Hl|Hl].
        + rewrite decide_True; [simpl; repeat (rewrite fn_lookup_insert; simpl); done|]. destruct l as [|y l]; [done|].
          rewrite last_cons_cons in Hl. apply last_Some_elem_of in Hl.
          destruct Hc as ((_ & Hn & _) & _). specialize (Hn (LMutex m)). rewrite Eq in Hn. by apply NoDup_cons in Hn as [? _].
        + rewrite decide_False; [simpl; repeat (rewrite fn_lookup_insert; simpl); by rewrite ?Htl|]. by intros ->.
      - intros i Hne. destruct (decide (last (w :: l) = Some w)); simpl; by repeat rewrite fn_lookup_insert_ne by done. }
    destruct (wake_core tids Htids c (pend x) k k1 qs wh w (LMutex m) [] l Hc Eq Hna Hu) as (k' & qs' & wh' & Hr & Hc' & HU & HT & Hob & HQ); try done.
    rewrite Hr. eexists. split; [reflexivity|]. split; [done|]. exists qs', wh'. split; [done|].
    assert (Hnew : Status (Thr k' w) = THREAD_STAT_ACTIVE) by (by rewrite HT).
    destruct Hob as (_ & HO & HS & _ & HW & HI). simpl. split_and!.
    + intros m'. rewrite HO. simpl. destruct (decide (m = m')) as [<-|Hne]; fsimp.
      * rewrite leave_self by done. split.
        { split; [done|]. right. split; [done|]. by erewrite ready_wake, decide_True, bool_decide_eq_true_2 by done. }
        intros t Htt. erewrite ready_wake by done. destruct (decide (t = w)) as [->|]; [done|]. by rewrite Hnr.
      * destruct (Hm m') as [H1 H2]. split.
        { destruct (Owner k m') as [o|]; [|rewrite HQ, fn_lookup_insert_ne by congruence; done].
          destruct H1 as [H0 H1]. split; [done|]. by erewrite ready_wake_ne by first [done|congruence]. }
        intros t Htt. erewrite ready_wake_ne by first [done|congruence]. auto.
    + eapply (sinv_wake k k' (pend x) qs qs' w (PMutex m)); try done. intros s. rewrite HQ by done. by fsimp.
    + eapply (winv_wake k k' (pend x) qs qs' w (PMutex m)); try done. intros s. rewrite HQ by done. by fsimp.
Qed.

(** ** Returning from a call *)
Definition back (th : tThread) : sys := with_pend None (with_ks (with_Thr (<[c := th]> (Thr k)) k) x).

Section back.
Context (th : tThread) (Ha : Status (Thr k c) = THREAD_STAT_ACTIVE).
Context (Ha' : Status th = THREAD_STAT_ACTIVE) (Hpr : Priority th = Priority (Thr k c)).
Let k1 := with_Thr (<[c := th]> (Thr k)) k.
Let pd1 : tid -> option pending := <[c := None]> (pend x).

Lemma back_core : core tids (Some c) pd1 k1 qs wh.
Proof.
  pose proof (core_running _ _ _ _ _ _ Hc Hcur Ha) as Hwc.
  pose proof (core_limbo _ _ _ _ _ _ _ Hc Hwc) as Hl.
  apply (core_but_change tids Htids _ _ pd1 _ k1) in Hl; [|done|done|..].
  - destruct Hl as (Hv & Hin & Htok & Hnum). split_and!; [done| | |done].
    + intros id t. rewrite Hin. split; [naive_solver|]. intros (? & _ & Hw'). split_and!; try done. intros ->. congruence.
    + intros t Ht _. destruct (decide (t = c)) as [->|Hne]; [|auto].
      rewrite Hwc, bool_decide_eq_true_2 by done. unfold k1. simpl. rewrite fn_lookup_insert.
      split; [by rewrite Hpr; apply own_tok|]. by rewrite Ha'.
  - intros u Hu. simpl. by rewrite fn_lookup_insert_ne by done.
  - intros u Hu. unfold pd1. by rewrite fn_lookup_insert_ne by done.
  - rewrite !active_yes; [simpl; lia|simpl; by rewrite fn_lookup_insert|done].
Qed.

Lemma ready_back p t : ready k1 pd1 p t = if decide (t = c) then false else ready k (pend x) p t.
Proof.
  destruct (decide (t = c)) as [->|Hne].
  - apply ready_idle. unfold pd1. by rewrite fn_lookup_insert.
  - apply ready_same; [unfold pd1|unfold k1; simpl]; by rewrite fn_lookup_insert_ne by done.
Qed.
Lemma ready_back_ne p t : pend x c <> Some p -> ready k1 pd1 p t = ready k (pend x) p t.
Proof.
  intros Hne. rewrite ready_back. destruct (decide (t = c)) as [->|]; [|done].
  unfold ready. by rewrite bool_decide_eq_false_2.
Qed.
Lemma owed_back s t : owed k1 pd1 s t = if decide (t = c) then 0 else owed k (pend x) s t.
Proof.
  unfold owed. rewrite ready_back. destruct (decide (t = c)) as [->|Hne]; [done|].
  unfold k1. simpl. by rewrite fn_lookup_insert_ne by done.
Qed.
Lemma owed_back_ne s t : pend x c <> Some (PSemWait s) -> owed k1 pd1 s t = owed k (pend x) s t.
Proof.
  intros Hne. rewrite owed_back. destruct (decide (t = c)) as [->|]; [|done].
  unfold owed, ready. by rewrite bool_decide_eq_false_2.
Qed.

Lemma back_minv : (forall m, pend x c <> Some (PMutex m)) -> minv tids k1 pd1 qs (inside x).
Proof. intros Hne. eapply minv_frame; [exact Hm|done| |done]. intros. by apply ready_back_ne. Qed.
Lemma back_sinv : (forall s, pend x c <> Some (PSemWait s)) -> sinv tids k1 pd1 qs (added x) (taken x).
Proof. intros Hne. eapply sinv_frame; [exact Hs|done| |by left]. intros. by apply owed_back_ne. Qed.
Lemma back_winv : (forall w, pend x c <> Some (PQueue w)) -> winv tids k1 pd1 qs (queued x) (put x) (got x).
Proof. intros Hne. eapply winv_frame; [exact Hw|done..| |by left]. intros. by apply ready_back_ne. Qed.
End back.

(** Only the mutexes, semaphores or events can be told apart after the call. *)
Lemma resume_mutex m : Status (Thr k c) = THREAD_STAT_ACTIVE -> pend x c = Some (PMutex m) ->
  inv tids (enter m (back (set_WaitPointer None (Thr k c)))).
Proof.
  intros Ha Hp. split; [done|]. exists qs, wh. simpl. split_and!.
  - by apply back_core.
  - assert (Hr : ready k (pend x) (PMutex m) c = true) by (by apply ready_true).
    intros m'. simpl. destruct (decide (m = m')) as [<-|Hne]; fsimp.
    + destruct (Hm m) as [H1 H2]. destruct (H2 c Hcur Hr) as [Ho Hi]. rewrite Ho, Hi. split; [auto|].
      intros t Ht. rewrite ready_back. destruct (decide (t = c)); [done|]. intros Hrt.
      destruct (H2 t Ht Hrt) as [? _]. congruence.
    + destruct (Hm m') as [H1 H2]. split.
      * destruct (Owner k m') as [o|]; [|done]. destruct H1 as [H0 H1]. split; [done|].
        by rewrite ready_back_ne by congruence.
      * intros t Ht. rewrite ready_back_ne by congruence. auto.
  - apply back_sinv. congruence.
  - apply back_winv. congruence.
Qed.

Lemma resume_sem s : Status (Thr k c) = THREAD_STAT_ACTIVE -> pend x c = Some (PSemWait s) ->
  inv tids (take s (RetStatus (Thr k c)) (back (set_WaitPointer None (Thr k c)))).
Proof.
  intros Ha Hp. split; [done|]. exists qs, wh. simpl. split_and!.
  - by apply back_core.
  - apply back_minv. congruence.
  - intros s' Hmx. simpl in Hmx. destruct (Hs s' Hmx) as (H1 & H2 & H3 & H4).
    assert (H3' : forall t, t ∈ tids -> 0 <= owed (with_Thr (<[c := set_WaitPointer None (Thr k c)]> (Thr k)) k) (<[c := None]> (pend x)) s' t).
    { intros t Ht. rewrite owed_back. destruct (decide (t = c)); [lia|auto]. }
    split_and!; simpl; try done; try lia. simpl in *.
    rewrite (zsum_change (owed k (pend x) s') _ tids c Htids Hcur).
    2: { intros u Hu. by rewrite owed_back, decide_False. }
    rewrite owed_back, decide_True by done. destruct (decide (s = s')) as [<-|Hne]; fsimp.
    + assert (owed k (pend x) s c = RetStatus (Thr k c)); [|lia].
      unfold owed. by rewrite (proj2 (ready_true _ _ _ _)).
    + assert (owed k (pend x) s' c = 0); [|lia]. unfold owed, ready. rewrite Hp, bool_decide_eq_false_2; [done|congruence].
  - apply back_winv. congruence.
Qed.

(** Events and message sleep: nothing was handed over. *)
Lemma resume_other th : Status (Thr k c) = THREAD_STAT_ACTIVE -> Status th = THREAD_STAT_ACTIVE ->
  Priority th = Priority (Thr k c) -> (pend x c = Some PSleep \/ exists mask, pend x c = Some (PEvents mask)) ->
  inv tids (back th).
Proof.
  intros Ha Hst Hpr Hp. split; [done|]. exists qs, wh. simpl.
  split_and!; [by apply back_core|apply back_minv|apply back_sinv|apply back_winv]; intros; destruct Hp as [->|[mask ->]]; done.
Qed.


(** ** The remaining calls *)
Lemma wait_step s n : own_code x -> unbounded x s -> n <= 2147483647 ->
  exists x', run fuel (Wait s n) x = Some x' /\ inv tids x'.
Proof.
  intros Hown Hmx Hn. destruct (decide (Value (Sems k s) <= 0)) as [|Hv]; [by apply wait_sleep_step|].
  unfold run, Semaphore_Wait. krun. rewrite (proj2 (Z.ltb_lt 0 (Value (Sems k s)))) by lia.
  set (mx := if n <? 0 then 0 else n). set (tk := if _ && _ then mx else _).
  destruct (Hs s Hmx) as (Hb & Hwq & _).
  assert (Htk : 0 < tk <= Value (Sems k s)).
  { unfold tk, mx. destruct (n <? 0) eqn:?, (_ && _) eqn:E; simpl in E; try done; bools; lia. }
  unfold set_Value. krun. rewrite bind_require by (unfold int_ok; lia). krun.
  set (k' := with_Sems _ _).
  assert (Hc' : core tids (Some c) (pend x) k' qs wh) by exact Hc.
  rewrite (bind_Ok _ _ _ _ _ (sem_serve_idle c _ _ _ _ _ s Hc')).
  eexists. split; [reflexivity|]. split; [done|]. exists qs, wh. split_and!; try done.
  intros s' Hmx'. simpl in *. destruct (decide (s = s')) as [<-|Hne]; fsimp.
  - destruct (Hs s Hmx) as (_ & _ & H3 & H4). simpl. split_and!; try lia; [|exact H3|].
    + intros Hq. specialize (Hwq Hq). lia.
    + change (owed k' (pend x) s) with (owed k (pend x) s). lia.
  - rewrite fn_lookup_insert_ne in Hmx' by done. apply (Hs s' Hmx').
Qed.

Lemma signal_step s n : unbounded x s -> 0 <= n -> Value (Sems k s) + n <= 2147483647 ->
  exists x', run fuel (Signal s n) x = Some x' /\ inv tids x'.
Proof.
  intros Hmx Hn Hb. unfold unbounded in Hmx. destruct (Hs s Hmx) as (Hv & _ & H3 & H4).
  unfold run, Semaphore_Signal. krun. rewrite Hmx. cbn [Z.eqb negb andb orb].
  rewrite bind_require by done. rewrite bind_require by (unfold int_ok; lia). unfold set_Value. krun.
  rewrite bind_require by (unfold int_ok; lia). krun. set (k' := with_Sems _ _).
  set (ad := <[s := added x s + n]> (added x)).
  destruct (hand_out_inv c s (inside x) ad (taken x) (queued x) (put x) (got x) (pend x) fuel k' qs wh)
    as (k2 & qs2 & wh2 & Hr & Hc2 & Hm2 & Hw2 & Hs2); [exact Hc|exact Hm|exact Hw| | |pose proof (core_length tids _ _ _ _ _ (LSemWait s) Hc); lia|].
  - intros s' Hmx'. simpl in *. unfold ad. destruct (decide (s = s')) as [<-|Hne]; fsimp; simpl.
    + split_and!; try lia; [exact H3|]. change (owed k' (pend x) s) with (owed k (pend x) s). lia.
    + rewrite fn_lookup_insert_ne in Hmx' by done. destruct (Hs s' Hmx') as (H1' & H2' & H3' & H4'). split_and!; try done; lia.
  - simpl. rewrite fn_lookup_insert. done.
  - rewrite (bind_Ok _ _ _ _ _ Hr). eexists. split; [reflexivity|]. split; [done|]. by exists qs2, wh2.
Qed.

(** Taking an item; [pd'] differs from the calls before at most in that the current thread was woken for it. *)
Lemma fetch_winv k' pd' w i l : Works k' = <[w := WQ (Items k i) (if decide (WTail (Works k w) = Some i) then None else WTail (Works k w))]> (Works k) ->
  Items k' = Items k -> queued x w = i :: l ->
  (forall v t, t ∈ tids -> v <> w -> ready k' pd' (PQueue v) t = ready k (pend x) (PQueue v) t) ->
  zsum (fun t => b2z (ready k (pend x) (PQueue w) t)) tids <= zsum (fun t => b2z (ready k' pd' (PQueue w) t)) tids + 1 ->
  winv tids k' pd' qs (<[w := tail (queued x w)]> (queued x)) (put x) (<[w := got x w ++ [i]]> (got x)).
Proof.
  intros HW HI E HR Hsum. destruct Hw as [Hv Hq]. split.
  - rewrite E. by eapply wq_get_view.
  - intros v. destruct (Hq v) as [Hp Hn]. destruct (decide (w = v)) as [<-|Hne]; fsimp.
    + rewrite E in *. simpl in *. split; [rewrite Hp; by rewrite <- app_assoc|]. intros Hqs. specialize (Hn Hqs). lia.
    + split; [done|]. intros Hqs. specialize (Hn Hqs).
      erewrite (zsum_ext (fun t => b2z (ready k' pd' (PQueue v) t))); [exact Hn|]. intros t Ht. simpl. f_equal. by apply HR.
Qed.

Lemma queue_head w i l : queued x w = i :: l -> WHead (Works k w) = Some i.
Proof. intros E. destruct Hw as [Hv _]. pose proof (view_head _ _ (LQueue w) Hv) as Hh. simpl in Hh. by rewrite Hh, E. Qed.

Lemma getwork_step w : own_code x -> exists x', run fuel (GetWork w) x = Some x' /\ inv tids x'.
Proof.
  intros [Hp Ha]. destruct (queued x w) as [|i l] eqn:E.
  - destruct (getwork_sleep_step w Ha E (or_introl Hp)) as (k' & Hr & Hi). unfold run. rewrite Hr. eauto.
  - unfold run, Workqueue_GetWork. krun. rewrite (queue_head w i l E). krun.
    eexists. split; [reflexivity|]. split; [done|]. exists qs, wh. split_and!; try done.
    apply (fetch_winv _ (pend x) w i l); try done. simpl. change (ready _ (pend x)) with (ready k (pend x)). lia.
Qed.

Lemma resume_item w i l : Status (Thr k c) = THREAD_STAT_ACTIVE -> pend x c = Some (PQueue w) -> queued x w = i :: l ->
  exists x', run fuel Resume x = Some x' /\ inv tids x'.
Proof.
  intros Ha Hp E. unfold run. rewrite Hp. unfold Workqueue_GetWork_end, int_Sleep_end. krun.
  set (th := set_WaitPointer None (Thr k c)). set (k1 := with_Thr _ _).
  unfold Workqueue_GetWork. krun. change (Works k1 w) with (Works k w). rewrite (queue_head w i l E). krun.
  eexists. split; [reflexivity|]. split; [done|]. exists qs, wh. simpl. split_and!.
  - by apply (back_core th).
  - apply (back_minv th). congruence.
  - apply (back_sinv th). congruence.
  - apply (fetch_winv _ _ w i l); try done.
    + intros v t Ht Hne. apply (ready_back_ne th). congruence.
    + assert (Hrb : forall u, u <> c -> ready k1 (<[c := None]> (pend x)) (PQueue w) u = ready k (pend x) (PQueue w) u).
      { intros u Hu. pose proof (ready_back th (PQueue w) u) as Hrb. by rewrite decide_False in Hrb. }
      rewrite (zsum_change (fun t => b2z (ready k1 (<[c := None]> (pend x)) (PQueue w) t)) _ tids c Htids Hcur).
      2: { intros u Hu. by rewrite Hrb. }
      change (ready (with_Works _ k1)) with (ready k1).
      destruct (ready k (pend x) (PQueue w) c), (ready k1 (<[c := None]> (pend x)) (PQueue w) c); simpl; lia.
Qed.
End at_state.

(** ** All steps *)
Lemma inv_intro x : inv tids x -> exists qs wh, cur x ∈ tids /\ core tids (Some (cur x)) (pend x) (ks x) qs wh /\
  minv tids (ks x) (pend x) qs (inside x) /\ sinv tids (ks x) (pend x) qs (added x) (taken x) /\
  winv tids (ks x) (pend x) qs (queued x) (put x) (got x).
Proof. intros (Hc & qs & wh & H). by exists qs, wh. Qed.

Lemma resume_step x : inv tids x -> pend x (cur x) <> None -> Status (Thr (ks x) (cur x)) = THREAD_STAT_ACTIVE ->
  exists x', run fuel Resume x = Some x' /\ inv tids x'.
Proof.
  intros (qs & wh & Hcur & Hc & Hm & Hs & Hw)%inv_intro Hp Ha.
  destruct (pend x (cur x)) as [[m|s|w|mask|]|] eqn:E; [..|done].
  - unfold run. rewrite E. eexists. split; [reflexivity|]. by eapply resume_mutex.
  - unfold run. rewrite E. unfold Semaphore_Wait_end, int_Sleep_end. krun.
    erewrite bind_Ok; [|eapply sem_serve_idle, (back_core x qs wh)]; try done.
    eexists. split; [reflexivity|]. simpl. rewrite fn_lookup_insert. by eapply resume_sem.
  - destruct (queued x w) as [|i l] eqn:Eq; [|by eapply resume_item].
    set (x1 := with_ks (with_Thr (<[cur x := set_WaitPointer None (Thr (ks x) (cur x))]> (Thr (ks x))) (ks x)) x).
    assert (Hi : inv tids x1) by (by eapply own_quiet).
    apply inv_intro in Hi as (qs1 & wh1 & Hcur1 & Hc1 & Hm1 & Hs1 & Hw1).
    destruct (getwork_sleep_step x1 qs1 wh1 Hcur1 Hc1 Hm1 Hs1 Hw1 w) as (k' & Hr & Hi'); try done; [simpl; by rewrite fn_lookup_insert|by right|].
    unfold run. rewrite E. unfold Workqueue_GetWork_end, int_Sleep_end. krun. simpl in Hr. rewrite Hr.
    eexists. split; [reflexivity|]. exact Hi'.
  - set (x1 := with_ks (with_Thr (<[cur x := set_WaitPointer None (Thr (ks x) (cur x))]> (Thr (ks x))) (ks x)) x).
    assert (Hi : inv tids x1) by (by eapply own_quiet).
    apply inv_intro in Hi as (qs1 & wh1 & Hcur1 & Hc1 & Hm1 & Hs1 & Hw1).
    unfold run. rewrite E. eexists. split; [reflexivity|].
    eapply (resume_other x1 qs1 wh1 Hcur1 Hc1 Hm1 Hs1 Hw1); try (simpl; fsimp; done). right. by exists mask.
  - unfold run. rewrite E. eexists. split; [reflexivity|].
    assert (Hi : inv tids (back x (Thr (ks x) (cur x)))) by (eapply resume_other; try done; by left).
    apply inv_intro in Hi as (qs1 & wh1 & Hcur1 & Hc1 & Hm1 & Hs1 & Hw1). split; [done|]. exists qs1, wh1.
    assert (HT : forall t, same_tcb (Thr (ks (back x (Thr (ks x) (cur x)))) t) (Thr (ks x) t)).
    { intros t. simpl. destruct (decide (cur x = t)) as [<-|]; fsimp; apply same_tcb_refl. }
    split; [by eapply core_tcb|].
    eapply (objects_same (ks (back x (Thr (ks x) (cur x)))) (ks x) _ qs1 qs1 x); try done.
Qed.

Lemma addwork_step x w i : inv tids x -> (forall v, i ∉ queued x v) ->
  exists x', run fuel (AddWork w i) x = Some x' /\ inv tids x'.
Proof.
  intros (qs & wh & Hcur & Hc & Hm & Hs & Hw)%inv_intro Hi.
  set (k2 := with_Items (<[i := None]> (match last (queued x w) with Some z => <[z := Some i]> (Items (ks x)) | None => Items (ks x) end))
    (with_Works (<[w := WQ (match last (queued x w) with Some _ => WHead (Works (ks x) w) | None => Some i end) (Some i)]> (Works (ks x))) (ks x))).
  assert (Hv2 : view (wq_mem k2) (wq_seqs (<[w := queued x w ++ [i]]> (queued x)))).
  { destruct Hw as [Hv _]. by eapply wq_put_view. }
  assert (Hrun : Workqueue_AddWork (cur x) w i (ks x) = (do sl <- gets (fun s => Head (Lists (Qm s) (LQueue w)));
    match sl with
    | None => ret tt
    | Some sl =>
      do th <- thr sl;
      require AssertFailed (negb (bool_decide (Status th = THREAD_STAT_ACTIVE)));;;
      do next_sleeper <- gets (fun s => Links (Qm s) sl);
      Threads_AddActive (cur x) sl;;;
      onQ' (setHead (LQueue w) next_sleeper);;;
      (if decide (next_sleeper = None) then onQ' (setTail (LQueue w) None) else ret tt)
    end) k2).
  { unfold Workqueue_AddWork, set_Item, set_Work. krun. destruct Hw as [Hv _].
    pose proof (view_tail _ _ (LQueue w) Hv) as Htl. simpl in Htl. rewrite Htl. unfold k2.
    by destruct (last (queued x w)). }
  unfold run. rewrite Hrun. krun. change (Qm k2) with (Qm (ks x)). rewrite (view_head _ _ (LQueue w) (proj1 Hc)).
  assert (Hput : forall v, (<[w := put x w ++ [i]]> (put x) : positive -> list positive) v = got x v ++ (<[w := queued x w ++ [i]]> (queued x) : positive -> list positive) v).
  { intros v. destruct Hw as [_ Hq]. destruct (Hq v) as [Hp _]. destruct (decide (w = v)) as [<-|]; fsimp; [|done]. by rewrite Hp, app_assoc. }
  destruct (qs (LQueue w)) as [|sl l] eqn:Eq; cbn [head].
  - eexists. split; [reflexivity|]. split; [done|]. exists qs, wh. split_and!; try done. split; [done|]. intros v. split; [apply Hput|].
    intros Hne. destruct Hw as [_ Hq]. destruct (Hq v) as [_ Hn]. specialize (Hn Hne).
    destruct (decide (w = v)) as [<-|]; [congruence|]. simpl. fsimp. exact Hn.
  - destruct (core_asleep _ _ _ _ _ _ sl (LQueue w) Hc) as (Ht & Hwt & Ha & _); [by rewrite Eq; left|done|].
    destruct (asleep_call x qs wh Hc sl (LQueue w)) as (p & Hp & ->); [by rewrite Eq; left|done|].
    krun. rewrite bind_require by (by rewrite bool_decide_eq_false_2). krun.
    destruct (wake_then_unlink (cur x) (pend x) k2 qs wh w sl l Hc Eq) as (k3 & k' & qs' & wh' & Hr & Hk' & Hc' & HU & HT & Ho & HQ).
    destruct (view_around _ _ _ [] _ _ (proj1 Hc) Eq) as (Hnx & _).
    change (Links (Qm k2) sl) with (Links (Qm (ks x)) sl). rewrite Hnx. rewrite (bind_Ok _ _ _ _ _ Hr). krun.
    assert (Hfin : forall d : Decision (head l = None), (if d then onQ' (setTail (LQueue w) None) else ret tt)
      (with_Qm (setHead (LQueue w) (head l) (Qm k3)) k3) = Ok tt k').
    { intros d. rewrite Hk'. by destruct d, (decide (head l = None)). }
    rewrite Hfin. eexists. split; [reflexivity|]. split; [done|]. exists qs', wh'. split; [done|].
    assert (Hnew : Status (Thr k' sl) = THREAD_STAT_ACTIVE) by (by rewrite HT).
    destruct Ho as (_ & HO & HS & _ & HW & HI).
    assert (HQ' : forall j, not_active j -> j <> LQueue w -> qs' j = qs j).
    { intros j Hj Hne. rewrite HQ by done. by rewrite fn_lookup_insert_ne by done. }
    simpl. split_and!.
    + eapply (minv_wake (ks x) k' (pend x) qs qs' sl (PQueue w)); try done. intros. by apply HQ'.
    + eapply (sinv_wake (ks x) k' (pend x) qs qs' sl (PQueue w)); try done. intros s. by rewrite HQ'.
    + split; [unfold wq_mem; by rewrite HW, HI|]. intros v. split; [apply Hput|]. intros Hne.
      destruct Hw as [_ Hq]. destruct (Hq v) as [_ Hn].
      rewrite (zsum_change (fun t => b2z (ready (ks x) (pend x) (PQueue v) t)) (fun t => b2z (ready k' (pend x) (PQueue v) t)) tids sl Htids Ht).
      2: { intros u Hu. f_equal. apply ready_same; [done|]. by rewrite HU. }
      rewrite (ready_asleep (ks x)) by done. rewrite ready_now, Hp by done.
      destruct (decide (w = v)) as [<-|Hwv]; fsimp.
      * rewrite bool_decide_eq_true_2 by done. rewrite length_app. simpl. rewrite Eq in Hn. specialize (Hn ltac:(done)). lia.
      * rewrite bool_decide_eq_false_2 by congruence. simpl. rewrite HQ' in Hne by congruence. specialize (Hn Hne). lia.
Qed.

Lemma start_step x t : inv tids x -> t ∈ tids -> Status (Thr (ks x) t) = THREAD_STAT_PREINIT ->
  exists x', run fuel (Start t) x = Some x' /\ inv tids x'.
Proof.
  intros (qs & wh & Hcur & Hc & Hm & Hs & Hw)%inv_intro Ht Ha.
  pose proof (core_tok _ _ _ _ _ _ _ Hc Ht) as [Hp Htok]. rewrite Ha in Htok. destruct Htok as [Hwt Hpd].
  pose proof (core_limbo _ _ _ _ _ _ _ Hc Hwt) as Hl.
  destruct (AddActive_core tids Htids (cur x) (pend x) _ _ wh t Hl Ht) as (k' & qs' & wh' & Hr & Hc' & HT & Ho & Hq); [congruence..|].
  unfold run. rewrite Hr. eexists. split; [reflexivity|]. split; [done|]. exists qs', wh'. split; [done|].
  destruct Ho as (_ & HO & HS & _ & HW & HI). simpl.
  assert (HR : forall p u, ready k' (pend x) p u = ready (ks x) (pend x) p u).
  { intros p u. destruct (decide (u = t)) as [->|Hne]; [by rewrite !ready_idle|].
    apply ready_same; [done|]. by rewrite HT, fn_lookup_insert_ne. }
  split_and!.
  - eapply minv_frame; [exact Hm|done| |]; intros; [apply HR|by rewrite Hq].
  - eapply sinv_frame; [exact Hs|done| |]; intros; [|rewrite Hq in * by done; by left].
    unfold owed. rewrite HR. destruct (decide (t0 = t)) as [->|Hne]; [by rewrite ready_idle|].
    by rewrite HT, fn_lookup_insert_ne.
  - eapply winv_frame; [exact Hw|done..| |]; intros; [apply HR|rewrite Hq in * by done; by left].
Qed.

Lemma events_kept E m' m : Z.land E m' = 0 -> Z.land m' m = 0 -> Z.land (Z.lor E m) m' = 0.
Proof. intros H1 H2. rewrite Z.land_lor_distr_l, H1, (Z.land_comm m), H2. done. Qed.

Lemma u32_i32 z : 0 <= z < 4294967296 -> u32 (i32 z) = z.
Proof.
  intros. unfold u32, i32. rewrite Zminus_mod_idemp_l. rewrite <- (Z.mod_small z 4294967296) at 2 by lia. f_equal. lia.
Qed.

Lemma post_step x t mask : inv tids x -> t ∈ tids -> 0 <= mask < 4294967296 ->
  exists x', run fuel (Post t mask) x = Some x' /\ inv tids x'.
Proof.
  intros Hinv Ht Hmask. assert (Hi0 := Hinv). apply inv_intro in Hi0 as (qs & wh & Hcur & Hc & Hm & Hs & Hw).
  unfold run, Threads_PostEvent. destruct (mask =? 0) eqn:E0; bools; [eexists; split; [reflexivity|]; by destruct x|].
  krun. set (th := set_EventState (Z.lor (EventState (Thr (ks x) t)) mask) (Thr (ks x) t)).
  set (k1 := with_Thr _ _). assert (Hth : Thr k1 t = th) by (simpl; by rewrite fn_lookup_insert). rewrite Hth.
  change (Status th) with (Status (Thr (ks x) t)). change (RetStatus th) with (RetStatus (Thr (ks x) t)).
  pose proof (core_tok _ _ _ _ _ _ _ Hc Ht) as Htok.
  destruct (decide (Status (Thr (ks x) t) = THREAD_STAT_EVENTSLEEP)) as [Ha|Ha].
  - rewrite Ha. destruct Htok as [Hp Htk]. rewrite Ha in Htk. destruct Htk as (m' & Hwt & Hpd & Hb & Hret & Hland).
    rewrite Hret, u32_i32 by done. destruct (Z.land m' mask =? 0) eqn:El; bools.
    + eexists. split; [reflexivity|]. eapply quiet_step; try done. split; [done|]. simpl. rewrite Ha. exists m'.
      split_and!; try done; try lia. by apply events_kept.
    + destruct (event_wake_inv x qs wh Hcur Hc Hm Hs Hw t k1) as (k' & Hr & Hi); try done; try (simpl; intros; fsimp; done).
      rewrite Hr. eexists. split; [reflexivity|]. exact Hi.
  - assert (Hi : inv tids (with_ks k1 x)).
    { eapply quiet_step; try done. destruct Htok as [Hp Htk]. split; [done|]. simpl. by destruct (Status (Thr (ks x) t)). }
    assert (Hret : exists x', finish (ret tt k1) (fun _ x => x) x = Some x' /\ inv tids x') by (eexists; split; [reflexivity|done]).
    destruct (Status (Thr (ks x) t)) eqn:Hst; try done.
    destruct (Z.land mask 8 =? 0) eqn:E8; [done|].
    apply inv_intro in Hi as (qs1 & wh1 & Hcur1 & Hc1 & Hm1 & Hs1 & Hw1).
    pose proof (core_tok _ _ _ _ _ _ _ Hc1 Ht) as [_ Htk]. simpl in Htk. rewrite fn_lookup_insert in Htk. simpl in Htk. rewrite Hst in Htk.
    destruct Htk as (s & Hwt & _ & Hwp & _).
    destruct (forcewake_run (with_ks k1 x) qs1 wh1 Hcur1 Hc1 Hm1 Hs1 Hw1 t s) as (k' & Hr & Hi).
    + eapply core_elem; [exact Hc1|done].
    + simpl. by rewrite fn_lookup_insert.
    + simpl. by rewrite fn_lookup_insert.
    + simpl in Hr. rewrite Hr. eexists. split; [reflexivity|]. exact Hi.
Qed.

Theorem step_inv x o : inv tids x -> allowed tids x o -> exists x', run fuel o x = Some x' /\ inv tids x'.
Proof.
  intros Hi Ha. assert (Hi0 := Hi). apply inv_intro in Hi0 as (qs & wh & Hcur & Hc & Hm & Hs & Hw).
  destruct o; simpl in Ha.
  - by eapply acquire_step.
  - destruct Ha. by eapply release_step.
  - destruct Ha as (? & ? & ?). by eapply wait_step.
  - destruct Ha as (? & ? & ?). by eapply signal_step.
  - by eapply getwork_step.
  - by eapply addwork_step.
  - destruct Ha. by eapply waitevents_step.
  - by eapply clear_step.
  - destruct Ha. by eapply post_step.
  - by eapply sleep_step.
  - by eapply wake_step.
  - destruct Ha. by eapply setpriority_step.
  - destruct Ha. by eapply start_step.
  - by eapply reschedule_step.
  - destruct Ha. by eapply resume_step.
Qed.
End steps.
