(* ===== verification/SyncProps.v ===== *)
(** * What the scheduler and the synchronisation objects guarantee

    Properties of every state reached from the one [Threads_Init] leaves, and the cases the code gets wrong. *)
From S2P Require Import Prelude Threads ThreadLists Sync SyncInv SyncSys SyncSteps.
Local Open Scope Z_scope.
Local Open Scope monad_scope.

(** ** The initial state

    [c] runs ([gThreadZero]); the other threads are being created ([THREAD_STAT_PREINIT]). *)
Definition first_thread (c : tid) (prio : tid -> Z) (t : tid) : tThread :=
  TCB (if decide (t = c) then THREAD_STAT_ACTIVE else THREAD_STAT_PREINIT) None 0 (prio t) 0 0 50 50 false.
Definition Threads_Init (c : tid) (prio : tid -> Z) (sems : positive -> tSemaphore) : kstate :=
  K (Q (fun _ => None) (fun _ => L None None)) (first_thread c prio) 1 false (fun _ => None) sems
    (fun _ => RWL 0 None) (fun _ => WQ None None) (fun _ => None).
Definition start (c : tid) prio sems : sys :=
  Sys (Threads_Init c prio sems) c (fun _ => None) (fun _ => []) (fun s => Value (sems s)) (fun _ => 0)
    (fun _ => []) (fun _ => []) (fun _ => []).

Section histories.
Context (tids : list tid) (fuel : nat).

(** [x'] is reached from [x] by permitted steps. *)
Inductive reach : sys -> sys -> Prop :=
  | reach_refl x : reach x x
  | reach_step x x' x'' o : allowed tids x o -> run fuel o x = Some x' -> reach x' x'' -> reach x x''.

Record setup (c : tid) (prio : tid -> Z) (sems : positive -> tSemaphore) : Prop := {
  setup_nodup : NoDup tids;
  setup_fuel : (length tids < fuel)%nat;
  setup_cur : c ∈ tids;
  setup_prio : forall t, 0 <= prio t <= 10;
  setup_sems : forall s, 0 <= Value (sems s) <= 2147483647 }.

Context (c : tid) (prio : tid -> Z) (sems : positive -> tSemaphore).

Lemma zsum_zeros (f : tid -> Z) l : (forall t, t ∈ l -> f t = 0) -> zsum f l = 0.
Proof. intros H. rewrite (zsum_ext f (fun _ => 0) l H). clear H. induction l; simpl; lia. Qed.

Lemma start_inv : setup c prio sems -> inv tids (start c prio sems).
Proof.
  intros H. pose proof (setup_nodup _ _ _ H) as Hn. pose proof (setup_cur _ _ _ H) as Hcur. split; [done|]. exists (fun _ => []), (fun _ => None). split_and!.
  - split_and!.
    + split; [done|]. split; [intros; apply NoDup_nil_2|set_solver].
    + intros id t. simpl. split; [set_solver|]. by intros (_ & _ & ?).
    + intros t Ht _. split; [simpl; unfold prio_ok; pose proof (setup_prio _ _ _ H t); lia|].
      simpl. destruct (decide (t = c)) as [->|Hne]; [by rewrite bool_decide_eq_true_2|done].
    + simpl. rewrite (zsum_change (fun _ => 0) _ tids c Hn Hcur).
      * rewrite zsum_zeros by done. rewrite active_yes; [done|]. simpl. by rewrite decide_True.
      * intros u Hu. apply active_no. simpl. by rewrite decide_False.
  - intros m. by split.
  - intros s Hmx. simpl. split_and!; try done; [apply (setup_sems _ _ _ H s)|apply (setup_sems _ _ _ H s)|].
    rewrite zsum_zeros by done. lia.
  - split; [|intros w; by split]. split; [intros id; by destruct id|].
    split; [intros id; destruct id; apply NoDup_nil_2|]. intros i j t Hi. destruct i; simpl in Hi; set_solver.
Qed.

Lemma reach_inv x x' : NoDup tids -> (length tids < fuel)%nat -> reach x x' -> inv tids x -> inv tids x'.
Proof.
  intros Hn Hf Hr. induction Hr as [|x x' x'' o Ha Hrun _ IH]; [done|]. intros Hi. apply IH.
  destruct (step_inv tids fuel Hn Hf x o Hi Ha) as (y & Hy & Hyi). congruence.
Qed.

Lemma start_reach x : setup c prio sems -> reach (start c prio sems) x -> inv tids x.
Proof.
  intros H Hr. eapply reach_inv; [apply H..|exact Hr|]. by apply start_inv.
Qed.
End histories.

(** Making a thread active touches no object and no waiting list. *)
Lemma AddActive_frame cur t k k' : Threads_AddActive cur t k = Ok tt k' ->
  Owner k' = Owner k /\ forall id, not_active id -> Lists (Qm k') id = Lists (Qm k) id.
Proof.
  unfold Threads_AddActive. krun. destruct (decide (Status (Thr k t) = THREAD_STAT_ACTIVE)); [done|]. krun.
  destruct (decide (t = cur)); [by intros [= <-]|]. unfold add_active_list. krun.
  unfold require, add_list, onQ, Threads_int_AddToList. simpl. rewrite fn_lookup_insert. simpl.
  destruct (prio_ok (Priority (Thr k t))); unfold bind at 1, ret; simpl; [|done].
  unfold bind at 1. simpl. destruct (Head (Lists (Qm k) (LActive (Priority (Thr k t))))); simpl;
    [destruct (Tail (Lists (Qm k) (LActive (Priority (Thr k t))))); [|done]|];
    simpl; intros [= <-]; simpl; (split; [done|]); intros id Hid;
    repeat rewrite fn_lookup_insert_ne by (intros <-; by eapply Hid); done.
Qed.

(** Running a list of operations; [history]: each is permitted and returns. *)
Fixpoint final (fuel : nat) (os : list op) (x : sys) : sys :=
  match os with [] => x | o :: os => match run fuel o x with Some x' => final fuel os x' | None => x end end.
Fixpoint history (tids : list tid) (fuel : nat) (os : list op) (x : sys) : Prop :=
  match os with
  | [] => True
  | o :: os => allowed tids x o /\ match run fuel o x with Some x' => history tids fuel os x' | None => False end
  end.
Lemma history_reach tids fuel os : forall x, history tids fuel os x -> reach tids fuel x (final fuel os x).
Proof.
  induction os as [|o os IH]; simpl; intros x; [intros; apply reach_refl|]. intros [Ha H].
  destruct (run fuel o x) as [x'|] eqn:E; [|done]. eapply reach_step; [exact Ha|exact E|]. auto.
Qed.

(** Three threads of the same priority. *)
Definition three : list tid := [1; 2; 3]%positive.
Definition three_start : sys := start 1%positive (fun _ => 5) (fun _ => SEM 0 0).
Lemma three_setup : setup three 10 1%positive (fun _ => 5) (fun _ => SEM 0 0).
Proof.
  split; [|simpl; lia|by left|lia|simpl; lia]. unfold three. repeat (apply NoDup_cons; split; [set_solver|]). apply NoDup_nil_2.
Qed.
Ltac play := vm_compute; repeat split; try done; try (repeat constructor; done); try set_solver.

(** A mutex that is taken: the current thread goes to the end of the waiting list. *)
Lemma waiter_appended tids fuel (Htids : NoDup tids) x qs wh m : cur x ∈ tids -> core tids (Some (cur x)) (pend x) (ks x) qs wh ->
  allowed tids x (Acquire m) -> Owner (ks x) m <> None -> exists x' qs', run fuel (Acquire m) x = Some x' /\
    pend x' (cur x) = Some (PMutex m) /\ Status (Thr (ks x') (cur x)) = THREAD_STAT_MUTEXSLEEP /\
    view (Qm (ks x')) qs' /\ qs' (LMutex m) = qs (LMutex m) ++ [cur x].
Proof.
  intros Hcur Hc [Hp Ha] Ho. destruct (Owner (ks x) m) as [o|] eqn:Eo; [|done]. destruct (core_tok _ _ _ _ _ _ _ Hc Hcur) as [Hpr _].
  destruct (Sleep_core tids Htids (cur x) (pend x) (ks x) qs wh Hc Hcur Ha THREAD_STAT_MUTEXSLEEP (Some (WMutex m)) 0 (LMutex m) (PMutex m))
    as (k' & Hr & Hc' & HT & _); [done|split; [exact Hpr|simpl; eauto]|].
  exists (with_pend (Some (PMutex m)) (with_ks k' x)), (<[LMutex m := qs (LMutex m) ++ [cur x]]> qs). unfold run, Mutex_Acquire. krun. rewrite Eo, (bind_Ok _ _ _ _ _ Hr). simpl.
  split_and!; [done|by rewrite fn_lookup_insert|by rewrite HT, fn_lookup_insert|apply Hc'|by rewrite fn_lookup_insert].
Qed.

Module SyncTheorems.
(** C9: in every state reached from the initial one by permitted operations and interrupts, every permitted operation returns:
    no NULL pointer is followed, no assertion or panic fires, no list walk is endless. *)
Theorem sync_calls_return tids fuel c prio sems x o : setup tids fuel c prio sems ->
  reach tids fuel (start c prio sems) x -> allowed tids x o -> is_Some (run fuel o x).
Proof.
  intros H Hr Ha. pose proof (start_reach _ _ _ _ _ _ H Hr) as Hi.
  destruct (step_inv tids fuel (setup_nodup _ _ _ _ _ H) (setup_fuel _ _ _ _ _ H) x o Hi Ha) as (x' & Hx & _). by exists x'.
Qed.

(** C3: in every reached state the list memory denotes sequences without repetition or overlap, and every thread is in its place: an
    active thread is the current one or on the run queue of its priority, a sleeping thread is on the list of the object
    it sleeps on, a thread asleep for events has none of them pending, and [giNumActiveThreads] counts the active threads. *)
Theorem threads_in_place tids fuel c prio sems x : setup tids fuel c prio sems ->
  reach tids fuel (start c prio sems) x ->
  exists qs, view (Qm (ks x)) qs /\
    giNumActiveThreads (ks x) = zsum (active (ks x)) tids /\
    forall t, t ∈ tids ->
      match Status (Thr (ks x) t) with
      | THREAD_STAT_ACTIVE => if decide (t = cur x) then free qs t else t ∈ qs (LActive (Priority (Thr (ks x) t)))
      | THREAD_STAT_SLEEPING => t ∈ qs LSleeping
      | THREAD_STAT_MUTEXSLEEP => exists m, t ∈ qs (LMutex m) /\ pend x t = Some (PMutex m)
      | THREAD_STAT_SEMAPHORESLEEP => exists s, t ∈ qs (LSemWait s) /\ pend x t = Some (PSemWait s)
      | THREAD_STAT_QUEUESLEEP => exists w, t ∈ qs (LQueue w) /\ pend x t = Some (PQueue w)
      | THREAD_STAT_EVENTSLEEP => exists mask, free qs t /\ pend x t = Some (PEvents mask) /\
          Z.land (EventState (Thr (ks x) t)) mask = 0
      | THREAD_STAT_PREINIT => free qs t
      | _ => False
      end.
Proof.
  intros H Hr. destruct (inv_intro _ _ (start_reach _ _ _ _ _ _ H Hr)) as (qs & wh & _ & Hc & _).
  exists qs. pose proof Hc as (Hv & _ & _ & Hn). split_and!; try done.
  intros t Ht. pose proof (core_tok _ _ _ _ _ _ _ Hc Ht) as [_ Htok].
  assert (Hin : forall id, wh t = Some id -> t ∈ qs id) by (intros; by eapply core_elem).
  assert (Hfr : wh t = None -> free qs t) by (intros; eapply core_free; [exact Hc|by right]).
  destruct (Status (Thr (ks x) t)) eqn:Ha; try done; try naive_solver.
  destruct (decide (t = cur x)) as [->|Hne].
  - rewrite bool_decide_eq_true_2 in Htok by done. auto.
  - rewrite bool_decide_eq_false_2 in Htok by congruence. auto.
Qed.

(** C7: Mutual exclusion in every reached state: at most one thread is inside a mutex and it is the owner, nobody
    waits for a free mutex and a woken waiter owns it; Mutex_Acquire of a taken mutex puts the thread at the end of the
    waiting list, and a release hands the mutex to the first thread of that list. *)
Theorem mutex_exclusive tids fuel c prio sems x m : setup tids fuel c prio sems ->
  reach tids fuel (start c prio sems) x ->
  (inside x m = [] \/ exists t, inside x m = [t] /\ Owner (ks x) m = Some t) /\
  (forall t, t ∈ tids -> pend x t = Some (PMutex m) -> Status (Thr (ks x) t) = THREAD_STAT_ACTIVE ->
     Owner (ks x) m = Some t /\ inside x m = []) /\
  (forall t, t ∈ tids -> pend x t = Some (PMutex m) -> Status (Thr (ks x) t) = THREAD_STAT_MUTEXSLEEP ->
     Owner (ks x) m <> None) /\
  exists qs, view (Qm (ks x)) qs /\ (forall x', run fuel (Release m) x = Some x' -> Owner (ks x') m = head (qs (LMutex m)) /\
    Head (Lists (Qm (ks x')) (LMutex m)) = head (tail (qs (LMutex m)))) /\
  (allowed tids x (Acquire m) -> Owner (ks x) m <> None -> exists x' qs', run fuel (Acquire m) x = Some x' /\
    pend x' (cur x) = Some (PMutex m) /\ Status (Thr (ks x') (cur x)) = THREAD_STAT_MUTEXSLEEP /\
    view (Qm (ks x')) qs' /\ qs' (LMutex m) = qs (LMutex m) ++ [cur x]).
Proof.
  intros H Hr. destruct (inv_intro _ _ (start_reach _ _ _ _ _ _ H Hr)) as (qs & wh & Hcur & Hc & Hm & _).
  destruct (Hm m) as [H1 H2]. split_and!.
  - destruct (Owner (ks x) m) as [t|]; naive_solver.
  - intros t Ht Hp Ha. apply H2; [done|]. by apply ready_true.
  - intros t Ht Hp Ha Ho. rewrite Ho in H1. destruct H1 as [_ Hq].
    destruct (core_tok _ _ _ _ _ _ _ Hc Ht) as [_ Htok]. rewrite Ha, Hp in Htok. destruct Htok as (m' & Hw & [= <-]).
    assert (Hin : t ∈ qs (LMutex m)) by (by eapply core_elem). rewrite Hq in Hin. set_solver.
  - exists qs. split; [apply Hc|]. split; [|by apply (waiter_appended tids fuel (setup_nodup _ _ _ _ _ H) x qs wh m Hcur Hc)]. unfold run, Mutex_Release. intros x'. krun. rewrite (view_head _ _ (LMutex m) (proj1 Hc)).
    destruct (qs (LMutex m)) as [|w l] eqn:Eq; cbn [head tail].
    + intros [= <-]. simpl. rewrite fn_lookup_insert. split; [done|].
      by rewrite (view_head _ _ (LMutex m) (proj1 Hc)), Eq.
    + destruct (core_asleep _ _ _ _ _ _ w (LMutex m) Hc) as (_ & _ & Ha & _); [by rewrite Eq; left|done|].
      destruct (view_around _ _ _ [] _ _ (proj1 Hc) Eq) as (Hnx & _).
      unfold wake_if_asleep, set_Owner. krun. rewrite decide_False by done. unfold finish.
      destruct (Threads_AddActive _ _ _) as [[] k'|] eqn:Hadd; [|done]. intros [= <-].
      apply AddActive_frame in Hadd as [HO HL]. simpl. rewrite HO, HL by done. simpl. rewrite fn_lookup_insert. split; [done|].
      destruct (decide _); simpl; repeat (rewrite fn_lookup_insert; simpl); done.
Qed.

(** Thread 1 takes mutex 7, thread 2 waits for it, thread 3 runs. *)
Definition mutex_story : list op :=
  [Start 2; Start 3; Acquire 7; Reschedule 0; Acquire 7; Reschedule 0]%positive.
Lemma mutex_story_ok : history three 10 mutex_story three_start.
Proof. play. Qed.

Lemma sync_calls_return_witness : setup three 10 1%positive (fun _ => 5) (fun _ => SEM 0 0) /\
  reach three 10 three_start (final 10 mutex_story three_start) /\
  allowed three (final 10 mutex_story three_start) (Wake 2%positive) /\
  is_Some (run 10 (Wake 2%positive) (final 10 mutex_story three_start)).
Proof.
  pose proof three_setup as H. pose proof (history_reach _ _ _ _ mutex_story_ok) as Hr.
  assert (Ha : allowed three (final 10 mutex_story three_start) (Wake 2%positive)) by play.
  split_and!; [done|done|done|]. exact (sync_calls_return three 10 1 _ _ _ _ H Hr Ha).
Defined.

Lemma threads_in_place_witness : setup three 10 1%positive (fun _ => 5) (fun _ => SEM 0 0) /\
  reach three 10 three_start (final 10 mutex_story three_start) /\
  exists qs, view (Qm (ks (final 10 mutex_story three_start))) qs.
Proof.
  pose proof three_setup as H. pose proof (history_reach _ _ _ _ mutex_story_ok) as Hr.
  split_and!; [done|done|]. destruct (threads_in_place three 10 1 _ _ _ H Hr) as (qs & Hv & _). by exists qs.
Defined.

Lemma mutex_exclusive_witness : setup three 10 1%positive (fun _ => 5) (fun _ => SEM 0 0) /\
  reach three 10 three_start (final 10 mutex_story three_start) /\
  inside (final 10 mutex_story three_start) 7 = [1%positive] /\
  (inside (final 10 mutex_story three_start) 7 = [] \/
   exists t, inside (final 10 mutex_story three_start) 7 = [t] /\ Owner (ks (final 10 mutex_story three_start)) 7 = Some t).
Proof.
  pose proof three_setup as H. pose proof (history_reach _ _ _ _ mutex_story_ok) as Hr.
  split_and!; [done|done|by vm_compute|]. destruct (mutex_exclusive three 10 1 _ _ _ 7 H Hr) as [Hx _]. exact Hx.
Defined.

(** C31: no item of an unbounded semaphore is lost or invented.  In every reached state the items signalled (with the initial
    value) are those still in the semaphore, those returned by waits, and those handed to woken threads that have
    not returned yet; the value is never negative, and it is 0 while a thread sleeps on the semaphore. *)
Theorem semaphore_conserves tids fuel c prio sems x s : setup tids fuel c prio sems ->
  reach tids fuel (start c prio sems) x -> MaxValue (Sems (ks x) s) = 0 ->
  added x s = Value (Sems (ks x) s) + taken x s + zsum (owed (ks x) (pend x) s) tids /\
  0 <= Value (Sems (ks x) s) /\ (forall t, t ∈ tids -> 0 <= owed (ks x) (pend x) s t) /\
  forall t, t ∈ tids -> pend x t = Some (PSemWait s) -> Status (Thr (ks x) t) = THREAD_STAT_SEMAPHORESLEEP ->
    Value (Sems (ks x) s) = 0.
Proof.
  intros H Hr Hmx. destruct (inv_intro _ _ (start_reach _ _ _ _ _ _ H Hr)) as (qs & wh & _ & Hc & _ & Hs & _).
  destruct (Hs s Hmx) as (H1 & H2 & H3 & H4). split_and!; try done; try lia.
  intros t Ht Hp Ha. apply H2. intros Hq.
  destruct (core_tok _ _ _ _ _ _ _ Hc Ht) as [_ Htok]. rewrite Ha, Hp in Htok. destruct Htok as (s' & Hw & [= <-] & _).
  assert (Hin : t ∈ qs (LSemWait s)) by (by eapply core_elem). rewrite Hq in Hin. set_solver.
Qed.

(** Threads 2 and 3 wait on semaphore 4; thread 1 signals three items. *)
Definition sem_story : list op :=
  [Start 2; Start 3; Reschedule 0; Wait 4 2; Reschedule 0; Wait 4 0; Reschedule 0; Signal 4 5; Reschedule 0; Resume]%positive.
Lemma sem_story_ok : history three 10 sem_story three_start.
Proof. play. Qed.
Lemma semaphore_conserves_witness : setup three 10 1%positive (fun _ => 5) (fun _ => SEM 0 0) /\
  reach three 10 three_start (final 10 sem_story three_start) /\ MaxValue (Sems (ks (final 10 sem_story three_start)) 4) = 0 /\
  taken (final 10 sem_story three_start) 4 = 2 /\ added (final 10 sem_story three_start) 4 = 5 /\
  0 <= Value (Sems (ks (final 10 sem_story three_start)) 4).
Proof.
  pose proof three_setup as H. pose proof (history_reach _ _ _ _ sem_story_ok) as Hr.
  assert (Hmx : MaxValue (Sems (ks (final 10 sem_story three_start)) 4) = 0) by (by vm_compute).
  split_and!; [done|done|done|by vm_compute|by vm_compute|].
  by destruct (semaphore_conserves three 10 1 _ _ _ 4 H Hr Hmx) as (_ & ? & _).
Defined.

(** C32: a work queue is a FIFO that loses no item and no wake-up.  In every reached state the items returned so far followed by the queued
    ones are the items added, in order; the queued ones are what the item memory links from [Head] to [Tail]; and while a thread sleeps on the
    queue there are no more items than woken threads about to fetch one. *)
Theorem workqueue_fifo tids fuel c prio sems x w : setup tids fuel c prio sems ->
  reach tids fuel (start c prio sems) x ->
  put x w = got x w ++ queued x w /\
  seg (Items (ks x)) (WHead (Works (ks x) w)) (queued x w) /\ WTail (Works (ks x) w) = last (queued x w) /\
  forall t, t ∈ tids -> pend x t = Some (PQueue w) -> Status (Thr (ks x) t) = THREAD_STAT_QUEUESLEEP ->
    Z.of_nat (length (queued x w)) <= zsum (fun u => b2z (ready (ks x) (pend x) (PQueue w) u)) tids.
Proof.
  intros H Hr. destruct (inv_intro _ _ (start_reach _ _ _ _ _ _ H Hr)) as (qs & wh & _ & Hc & _ & _ & [Hv Hw]).
  destruct (Hw w) as [Hp Hn]. destruct Hv as [Ho _]. destruct (Ho (LQueue w)) as [Hs Htl]. split_and!; try done.
  intros t Ht Hpt Ha. apply Hn. intros Hq.
  destruct (core_tok _ _ _ _ _ _ _ Hc Ht) as [_ Htok]. rewrite Ha, Hpt in Htok. destruct Htok as (w' & Hwt & [= <-]).
  assert (Hin : t ∈ qs (LQueue w)) by (by eapply core_elem). rewrite Hq in Hin. set_solver.
Qed.

(** Threads 2 and 3 wait for work; thread 1 adds an item. *)
Definition queue_story : list op :=
  [Start 2; Start 3; Reschedule 0; GetWork 6; Reschedule 0; GetWork 6; Reschedule 0; AddWork 6 9; Reschedule 0; Resume]%positive.
Lemma queue_story_ok : history three 10 queue_story three_start.
Proof. play. Qed.
Lemma workqueue_fifo_witness : setup three 10 1%positive (fun _ => 5) (fun _ => SEM 0 0) /\
  reach three 10 three_start (final 10 queue_story three_start) /\ got (final 10 queue_story three_start) 6 = [9%positive] /\
  put (final 10 queue_story three_start) 6 = got (final 10 queue_story three_start) 6 ++ queued (final 10 queue_story three_start) 6.
Proof.
  pose proof three_setup as H. pose proof (history_reach _ _ _ _ queue_story_ok) as Hr.
  split_and!; [done|done|by vm_compute|]. destruct (workqueue_fifo three 10 1 _ _ _ 6 H Hr) as [Hq _]. exact Hq.
Defined.

(** C35: in every reached state in which switching is enabled, [Threads_GetNextToRun] puts the current thread at the end of the run queue
    of its priority if it can go on, and takes the first thread of the first queue that is not empty, lower numbers
    before higher; it returns NULL only when all queues are empty. *)
Theorem GetNextToRun_picks tids fuel c prio sems x cpu : setup tids fuel c prio sems ->
  reach tids fuel (start c prio sems) x -> NoTaskSwitch (ks x) = false ->
  exists qs r k', view (Qm (ks x)) qs /\ Threads_GetNextToRun cpu (Some (cur x)) (ks x) = Ok r k' /\
    match r with
    | None => forall j, 0 <= j <= 10 -> requeue (ks x) (cur x) qs (LActive j) = []
    | Some t => exists j l, 0 <= j <= 10 /\ requeue (ks x) (cur x) qs (LActive j) = t :: l /\
        (forall h, 0 <= h < j -> requeue (ks x) (cur x) qs (LActive h) = []) /\
        view (Qm k') (<[LActive j := l]> (requeue (ks x) (cur x) qs))
    end.
Proof.
  intros H Hr Hsw. destruct (inv_intro _ _ (start_reach _ _ _ _ _ _ H Hr)) as (qs & wh & Hcur & Hc & _).
  destruct (GetNextToRun_core tids (setup_nodup _ _ _ _ _ H) cpu (cur x) (pend x) (ks x) qs wh Hc Hcur)
    as (k' & Hrun & _ & _ & _ & qs' & wh' & Hc' & _ & Hj).
  exists qs, (next_thread (ks x) (cur x) qs), k'. split_and!; [apply Hc|done|].
  unfold next_thread in *. rewrite Hsw in *. destruct (pick (requeue (ks x) (cur x) qs)) as [t|] eqn:Ep.
  - destruct (Hj t eq_refl eq_refl) as (j & l & E & ->).
    destruct (pick_from_spec _ _ _ _ Ep) as (j' & l' & Hb & E' & Hh).
    assert (j = j') as ->.
    { destruct (requeue_core tids (cur x) (pend x) (ks x) qs wh Hc Hcur) as (k1 & wh1 & _ & _ & _ & Hc1).
      assert (H1 : t ∈ requeue (ks x) (cur x) qs (LActive j)) by (rewrite E; left).
      assert (H2 : t ∈ requeue (ks x) (cur x) qs (LActive j')) by (rewrite E'; left).
      destruct Hc1 as ((_ & _ & Hd) & _). by injection (Hd _ _ _ H1 H2). }
    rewrite E in E'. injection E' as <-. exists j', l. split_and!; try done; try lia. apply Hc'.
  - intros j Hb. eapply pick_from_none; [exact Ep|lia].
Qed.
Lemma GetNextToRun_picks_witness : setup three 10 1%positive (fun _ => 5) (fun _ => SEM 0 0) /\
  reach three 10 three_start (final 10 mutex_story three_start) /\ NoTaskSwitch (ks (final 10 mutex_story three_start)) = false /\
  exists r k', Threads_GetNextToRun 0 (Some (cur (final 10 mutex_story three_start))) (ks (final 10 mutex_story three_start)) = Ok r k'.
Proof.
  pose proof three_setup as H. pose proof (history_reach _ _ _ _ mutex_story_ok) as Hr.
  assert (Hsw : NoTaskSwitch (ks (final 10 mutex_story three_start)) = false) by (by vm_compute).
  split_and!; [done|done|done|].
  destruct (GetNextToRun_picks three 10 1 _ _ _ 0 H Hr Hsw) as (_ & r & k' & _ & Hx & _). by exists r, k'.
Defined.

(** ** What goes wrong *)

(** The value a computation returns. *)
Definition outcome {A} (r : res kstate stop A) : option A := match r with Ok a _ => Some a | Stop _ => None end.

(** Threads 1, 2 and 3 running, on as many CPUs where the calls name different current threads; semaphore 4
    holds one item and can hold one. *)
Definition running3 : kstate :=
  K (Q (fun _ => None) (fun _ => L None None)) (fun _ => TCB THREAD_STAT_ACTIVE None 0 5 0 0 50 50 false) 3 false
    (fun _ => None) (fun _ => SEM 1 1) (fun _ => RWL 0 None) (fun _ => WQ None None) (fun _ => None).

(** A bounded semaphore loses items.  With the semaphore full, thread 1 blocks signalling one item; thread 2 then takes the
    one item there is, which lets the signaller go on: it is told that its item was added, but the value has become -1. *)
Theorem bounded_semaphore_negative :
  outcome ((do a <- Semaphore_Signal 1 10 4 1; do b <- Semaphore_Wait 2 10 4 0;
            do v <- Semaphore_GetValue 4; do t <- thr 1; ret (a, b, v, RetStatus t, Status t)) running3)
  = Some (None, Some 1, -1, 1, THREAD_STAT_ACTIVE).
Proof. by vm_compute. Qed.

(** The reader-writer lock admits a writer beside a reader: threads 1 and 3 read, thread 2 waits to write, and when thread 1
    releases, the lock goes to thread 2 although thread 3 still reads.  And it forgets waiters: after thread 2 was given the lock
    by thread 1, thread 3 waiting to write is put behind the stale tail pointer, and when thread 2 releases, the lock is free while thread 3 sleeps
    on no list. *)
Theorem rwlock_not_exclusive :
  outcome ((do a <- RWLock_AcquireRead 1 8; do b <- RWLock_AcquireRead 3 8; do c <- RWLock_AcquireWrite 2 8;
            RWLock_Release 1 10 8;;; do l <- gets (fun s => Locks s 8%positive); do t <- thr 2;
            ret (a, b, c, l, Status t)) running3)
  = Some (Some 0, Some 0, None, RWL 1 (Some 2%positive), THREAD_STAT_ACTIVE) /\
  outcome ((do a <- RWLock_AcquireWrite 1 8; do b <- RWLock_AcquireWrite 2 8; RWLock_Release 1 10 8;;;
            do c <- RWLock_AcquireWrite 3 8; RWLock_Release 2 10 8;;;
            do l <- gets (fun s => Locks s 8%positive); do t <- thr 3; do h <- gets (fun s => Head (Lists (Qm s) (LWriters 8)));
            ret (a, b, c, l, Status t, h)) running3)
  = Some (Some 0, None, None, RWL 0 None, THREAD_STAT_RWLOCKSLEEP, None).
Proof. split; by vm_compute. Qed.

(** With two CPUs a thread can run on both: thread 1, on CPU 0, has queued itself for a mutex and released the locks but not yet
    given up its CPU when thread 2, on CPU 1, releases the mutex: thread 1 becomes active and is put on the run queue, CPU 1 picks
    it from there, and CPU 0 goes on with it. *)
Theorem smp_double_run :
  outcome ((do a <- Mutex_Acquire 2 7; do b <- Mutex_Acquire 1 7; Mutex_Release 2 7;;;
            do n <- Threads_GetNextToRun 1 (Some 2%positive); do t <- thr 1; ret (a, b, n, Status t)) running3)
  = Some (Some 0, None, Some 1%positive, THREAD_STAT_ACTIVE).
Proof. by vm_compute. Qed.
End SyncTheorems.
