(* ===== verification/VfsAcl.v ===== *)
(** Access control lists of the VFS, from [KernelLand/Kernel/vfs/acls.c]:
    entries, the two passes over a list of entries, the permission check the
    rest of the VFS calls, and the conversion from UNIX modes. *)
From S2P Require Import Prelude.

Local Open Scope Z_scope.

Module Acl.

Definition VFS_PERM_READ : Z := 1.
Definition VFS_PERM_WRITE : Z := 2.
Definition VFS_PERM_APPEND : Z := 4.
Definition VFS_PERM_EXEC : Z := 8.
Definition VFS_PERM_ALL : Z := 2147483647.
Definition VFS_ACLENT_ALL : Z := 2147483647.

(** [tVFS_ACL]: the bit fields [Ent] (Group, ID) and [Perm] (Inv, Perms). *)
Record tVFS_ACL := MkACL { Ent_Group : Z; Ent_ID : Z; Perm_Inv : Z; Perm_Perms : Z }.

#[global] Instance tVFS_ACL_eq_dec : EqDecision tVFS_ACL.
Proof. solve_decision. Defined.

Definition gVFS_ACL_EveryoneRWX : tVFS_ACL := MkACL 1 VFS_ACLENT_ALL 0 VFS_PERM_ALL.
Definition gVFS_ACL_EveryoneRW : tVFS_ACL := MkACL 1 VFS_ACLENT_ALL 0 (Z.lxor VFS_PERM_ALL VFS_PERM_EXEC).
Definition gVFS_ACL_EveryoneRX : tVFS_ACL := MkACL 1 VFS_ACLENT_ALL 0 (Z.lor VFS_PERM_READ VFS_PERM_EXEC).
Definition gVFS_ACL_EveryoneRO : tVFS_ACL := MkACL 1 VFS_ACLENT_ALL 0 VFS_PERM_READ.

(** The entry is one of the caller's: for everyone, for the user, or for the group. *)
Definition applies (a : tVFS_ACL) (UID GID : Z) : bool :=
  if Ent_ID a =? VFS_ACLENT_ALL then true
  else if Ent_Group a =? 0 then Ent_ID a =? UID else Ent_ID a =? GID.

(** [None]: the loop reads an entry past the end of the array. *)
Fixpoint VFS_int_CheckACLs (ACLs : list tVFS_ACL) (Num : nat) (bDeny : bool) (Perms UID GID : Z) : option Z :=
  match Num with
  | O => Some (if bDeny then 0 else Perms)
  | S Num' =>
      match ACLs with
      | [] => None
      | a :: rest =>
          if negb (Perm_Inv a =? 0) || negb (applies a UID GID)
          then VFS_int_CheckACLs rest Num' bDeny Perms UID GID else
          if bDeny && negb (Z.land (Perm_Perms a) Perms =? 0) then Some (Z.land (Perm_Perms a) Perms) else
          if negb bDeny && (Z.land (Perm_Perms a) Perms =? Perms) then Some 0
          else VFS_int_CheckACLs rest Num' bDeny Perms UID GID
      end
  end.

(** As written: the [if( !rv )] after the first pass has no braces, so that only
    the log message depends on it and the [return 0] after it is always taken;
    the second pass is dead code. *)
Definition VFS_CheckACL (ACLs : list tVFS_ACL) (NumACLs : Z) (Permissions uid gid : Z) : option Z :=
  if uid =? 0 then Some 1 else
  if NumACLs =? 0 then Some 0 else
  _ ← VFS_int_CheckACLs ACLs (Z.to_nat NumACLs) true Permissions uid gid;
  Some 0.

(** The loop of [VFS_GetACL]: the permissions of the entry with the identity of
    [Dest], and the value returned. *)
Fixpoint find_acl (ACLs : list tVFS_ACL) (Num : nat) (Dest : tVFS_ACL) : option (tVFS_ACL * Z) :=
  match Num with
  | O => Some (MkACL (Ent_Group Dest) (Ent_ID Dest) 0 0, 0)
  | S Num' =>
      match ACLs with
      | [] => None
      | a :: rest =>
          if negb (Ent_Group a =? Ent_Group Dest) then find_acl rest Num' Dest else
          if negb (Ent_ID a =? Ent_ID Dest) then find_acl rest Num' Dest else
          Some (MkACL (Ent_Group Dest) (Ent_ID Dest) (Perm_Inv a) (Perm_Perms a), 1)
      end
  end.

(** [VFS_GetACL] once the handle is known to be open. *)
Definition GetACL_node (ACLs : list tVFS_ACL) (NumACLs : Z) (Dest : tVFS_ACL) : option (tVFS_ACL * Z) :=
  if (Ent_Group Dest =? 0) && (Ent_ID Dest =? 0)
  then Some (MkACL (Ent_Group Dest) (Ent_ID Dest) 0 VFS_PERM_ALL, 1) else
  if NumACLs =? 0 then Some (MkACL (Ent_Group Dest) (Ent_ID Dest) 0 0, 0) else
  find_acl ACLs (Z.to_nat NumACLs) Dest.

(** The permissions for three mode bits. *)
Definition mode_perms (Mode r w x : Z) : Z :=
  let p := if negb (Z.land Mode r =? 0) then Z.lor 0 VFS_PERM_READ else 0 in
  let p := if negb (Z.land Mode w =? 0) then Z.lor p VFS_PERM_WRITE else p in
  if negb (Z.land Mode x =? 0) then Z.lor p VFS_PERM_EXEC else p.

(** [ok] is whether [malloc] found room for the three entries. *)
Definition VFS_UnixToAcessACL (ok : bool) (Mode Owner Group : Z) : option (list tVFS_ACL) :=
  if negb ok then None else
  Some [MkACL 0 Owner 0 (mode_perms Mode 256 128 64);
        MkACL 1 Group 0 (mode_perms Mode 32 16 8);
        MkACL 1 VFS_ACLENT_ALL 0 (mode_perms Mode 4 2 1)].

End Acl.
Export Acl.

(** ** Behaviour *)
Section acl_lemmas.
Implicit Types (l : list tVFS_ACL).

(** A pass within the array returns. *)
Lemma CheckACLs_returns n l d p u g : (n <= length l)%nat ->
  is_Some (VFS_int_CheckACLs l n d p u g).
Proof.
  revert l. induction n as [|n IH]; intros [|a l] Hl; simpl in *; [by eexists|by eexists|lia|].
  repeat case_if; eauto with lia; apply IH; lia.
Qed.

(** The deny pass reports the first overlap with an entry of the caller. *)
Lemma CheckACLs_deny l p u g :
  VFS_int_CheckACLs l (length l) true p u g =
  Some (match filter (fun a => Perm_Inv a = 0 /\ applies a u g = true /\ Z.land (Perm_Perms a) p <> 0) l with
        | [] => 0
        | a :: _ => Z.land (Perm_Perms a) p
        end).
Proof.
  induction l as [|a l IH]; [done|]. cbn [VFS_int_CheckACLs length]. rewrite filter_cons.
  destruct (Perm_Inv a =? 0) eqn:E1, (applies a u g) eqn:E2, (Z.land (Perm_Perms a) p =? 0) eqn:E3; bools;
    cbn [negb orb andb]; rewrite ?IH; try (rewrite decide_False by naive_solver; done).
  by rewrite decide_True by naive_solver.
Qed.

(** The allow pass returns 0 exactly when an entry of the caller grants
    everything asked for, and otherwise what was asked for. *)
Lemma CheckACLs_allow l p u g :
  VFS_int_CheckACLs l (length l) false p u g =
  Some (if existsb (fun a => (Perm_Inv a =? 0) && applies a u g && (Z.land (Perm_Perms a) p =? p)) l
        then 0 else p).
Proof.
  induction l as [|a l IH]; [done|]. cbn [VFS_int_CheckACLs length existsb].
  destruct (Perm_Inv a =? 0), (applies a u g), (Z.land (Perm_Perms a) p =? p); cbn [negb orb andb]; done.
Qed.
End acl_lemmas.

Module AclProps.

(** VFS_CheckACL grants everything to the user 0 and nothing to anybody
    else, whatever the entries of the node say: the missing braces make the
    check a test for root. *)
Theorem CheckACL_root_only l (n p uid gid : Z) : 0 <= n <= len l ->
  VFS_CheckACL l n p uid gid = Some (b2z (uid =? 0)).
Proof.
  unfold len, VFS_CheckACL. intros Hn. destruct (uid =? 0) eqn:E; [done|]. cbn [b2z].
  case_if; [done|]. destruct (CheckACLs_returns (Z.to_nat n) l true p uid gid) as [x ->]; [lia|done].
Qed.

Lemma CheckACL_root_only_witness :
  VFS_CheckACL [gVFS_ACL_EveryoneRWX] 1 VFS_PERM_READ 1000 1000 = Some 0.
Proof. refine (CheckACL_root_only [gVFS_ACL_EveryoneRWX] 1 VFS_PERM_READ 1000 1000 _). vm_compute. split; discriminate. Defined.

(** An access list made from a UNIX mode grants a set of permissions to a
    caller through the allow pass exactly when the mode's bits for the owner
    (if the caller is the owner), for the group (if it is the caller's) or for
    everybody contain all of them. *)
Theorem UnixToAcessACL_grants Mode Owner Group p uid gid :
  0 < p -> Owner <> VFS_ACLENT_ALL -> Group <> VFS_ACLENT_ALL ->
  exists l, VFS_UnixToAcessACL true Mode Owner Group = Some l /\
    (VFS_int_CheckACLs l 3 false p uid gid = Some 0 <->
     (uid = Owner /\ Z.land (mode_perms Mode 256 128 64) p = p) \/
     (gid = Group /\ Z.land (mode_perms Mode 32 16 8) p = p) \/
     Z.land (mode_perms Mode 4 2 1) p = p).
Proof.
  intros Hp Ho Hg. eexists. split; [done|].
  rewrite (CheckACLs_allow [_; _; _]). unfold applies. cbn [existsb Perm_Inv Ent_ID Ent_Group Perm_Perms].
  rewrite Z.eqb_refl. rewrite (proj2 (Z.eqb_neq Owner _)), (proj2 (Z.eqb_neq Group _)) by done.
  change (1 =? 0) with false. change (0 =? 0) with true. cbn [andb].
  set (po := mode_perms Mode 256 128 64). set (pg := mode_perms Mode 32 16 8). set (pw := mode_perms Mode 4 2 1).
  destruct (Owner =? uid) eqn:E1, (Group =? gid) eqn:E2, (Z.land po p =? p) eqn:E3, (Z.land pg p =? p) eqn:E4,
    (Z.land pw p =? p) eqn:E5; bools; cbn [andb orb]; (split; [intros [=]|intros H]); try lia; try done;
    try (exfalso; lia); naive_solver.
Qed.

Lemma UnixToAcessACL_grants_witness : exists l, VFS_UnixToAcessACL true 420 7 8 = Some l /\
  VFS_int_CheckACLs l 3 false (VFS_PERM_READ + VFS_PERM_WRITE) 7 9 = Some 0.
Proof.
  destruct (UnixToAcessACL_grants 420 7 8 3 7 9) as (l & Hl & Hi); [lia|discriminate|discriminate|].
  exists l. split; [exact Hl|]. apply (proj2 Hi). left. split; [reflexivity|vm_compute; reflexivity].
Defined.
End AclProps.
