(* ===== verification/NodeCache.v ===== *)
(** The VFS inode cache, [KernelLand/Kernel/vfs/nodecache.c]: per-filesystem
    caches of nodes with reference counts, kept in a list sorted by inode with
    the highest cached inode remembered, and the refinement to a finite map
    from inodes to reference counts. *)
From S2P Require Import Prelude.

Local Open Scope Z_scope.

Module NodeCache.

(** An entry of a cache: the address of the node (which callers hold), and the
    fields of [Node] the cache uses.  [NodeClose]: the node's type has a Close
    method. *)
Record tCachedInode := MkEnt {
  addr : Z; Inode : Z; ReferenceCount : Z; Data : Z; NodeClose : bool }.

(** [FirstNode] is the chain of entries from the head. *)
Record tInodeCache := MkCache {
  CleanUpNode : bool; FirstNode : list tCachedInode; MaxCached : Z }.

#[global] Instance tCachedInode_eq_dec : EqDecision tCachedInode.
Proof. solve_decision. Defined.

(** What freeing an entry does, in order. *)
Inductive event :=
  | ECleanUp (node : Z)
  | EFreeData (p : Z)
  | EFree (ent : Z).

Definition Inode_GetHandle (CleanUpNode : bool) : tInodeCache := MkCache CleanUpNode [] 0.

Definition upd_count (f : Z -> Z) (e : tCachedInode) : tCachedInode :=
  MkEnt (addr e) (Inode e) (f (ReferenceCount e)) (Data e) (NodeClose e).

(** The search loops.  The result is the node's address ([None] for NULL) and
    the list with the count stepped. *)
Fixpoint get_loop (l : list tCachedInode) (inode : Z) : option Z * list tCachedInode :=
  match l with
  | [] => (None, [])
  | e :: l' =>
      if Inode e <? inode then let '(r, k) := get_loop l' inode in (r, e :: k) else
      if inode <? Inode e then (None, l)
      else (Some (addr e), upd_count (fun n => i32 (n + 1)) e :: l')
  end.

Definition Inode_GetCache (c : tInodeCache) (inode : Z) : option Z * tInodeCache :=
  if MaxCached c <? inode then (None, c) else
  let '(r, l) := get_loop (FirstNode c) inode in (r, MkCache (CleanUpNode c) l (MaxCached c)).

(** [new] is the entry made by malloc and memcpy from the caller's node; it is
    linked before the first entry with a greater inode. *)
Fixpoint cache_loop (l : list tCachedInode) (new : tCachedInode) : Z * list tCachedInode :=
  match l with
  | [] => (addr new, [upd_count (fun _ => 1) new])
  | e :: l' =>
      if Inode e <? Inode new then let '(r, k) := cache_loop l' new in (r, e :: k) else
      if Inode e =? Inode new then (addr e, upd_count (fun n => i32 (n + 1)) e :: l')
      else (addr new, upd_count (fun _ => 1) new :: l)
  end.

Definition Inode_CacheNodeEx (c : tInodeCache) (new : tCachedInode) : Z * tInodeCache :=
  let max := if MaxCached c <? Inode new then Inode new else MaxCached c in
  let '(r, l) := cache_loop (FirstNode c) new in (r, MkCache (CleanUpNode c) l max).

Definition Inode_CacheNode (c : tInodeCache) (new : tCachedInode) : Z * tInodeCache :=
  Inode_CacheNodeEx c new.

(** [prev] (if any) and the entry with the inode. *)
Fixpoint find_loop (prev : option tCachedInode) (l : list tCachedInode) (inode : Z)
  : option (option tCachedInode * tCachedInode) :=
  match l with
  | [] => None
  | e :: l' =>
      if Inode e <? inode then find_loop (Some e) l' inode else
      if inode <? Inode e then None else Some (prev, e)
  end.

(** Storing back the decremented entry, or unlinking it. *)
Fixpoint put_loop (l : list tCachedInode) (e : tCachedInode) : list tCachedInode :=
  match l with
  | [] => []
  | x :: l' => if Inode x =? Inode e then e :: l' else x :: put_loop l' e
  end.
Fixpoint unlink_loop (l : list tCachedInode) (e : tCachedInode) : list tCachedInode :=
  match l with
  | [] => []
  | x :: l' => if Inode x =? Inode e then l' else x :: unlink_loop l' e
  end.

(** After the unlinking [Cache->FirstNode] is the new head, so [ent] differs from
    it, and [prev] alone decides the new [MaxCached]. *)
Definition Inode_UncacheNode (c : tInodeCache) (inode : Z) : Z * tInodeCache * list event :=
  if MaxCached c <? inode then (-1, c, []) else
  match find_loop None (FirstNode c) inode with
  | None => (-1, c, [])
  | Some (prev, e) =>
      let e' := upd_count (fun n => i32 (n - 1)) e in
      if ReferenceCount e' =? 0 then
        let max := if Inode e =? MaxCached c
                   then match prev with Some p => Inode p | None => 0 end else MaxCached c in
        (1, MkCache (CleanUpNode c) (unlink_loop (FirstNode c) e') max,
         (if CleanUpNode c then [ECleanUp (addr e)] else []) ++
         (if negb (Data e =? 0) then [EFreeData (Data e)] else []) ++ [EFree (addr e)])
      else (0, MkCache (CleanUpNode c) (put_loop (FirstNode c) e') (MaxCached c), [])
  end.

(** [Inode_ClearCache] walks the entries with the successor saved before each
    call.  [Close] is the node type's Close method, which works on the same
    cache through its handle; [todo] is the chain as it was linked when the walk
    passed it, the entries of which Close may unlink. *)
Section clear.
Context (Close : tInodeCache -> tCachedInode -> tInodeCache * list event).

Fixpoint clear_loop (todo : list tCachedInode) (c : tInodeCache) : tInodeCache * list event :=
  match todo with
  | [] => (c, [])
  | e :: rest =>
      let c1 := MkCache (CleanUpNode c) (put_loop (FirstNode c) (upd_count (fun _ => 1) e)) (MaxCached c) in
      let '(c2, ev) := if NodeClose e then Close c1 e else (c1, [EFree (addr e)]) in
      let '(c3, ev') := clear_loop rest c2 in
      (c3, ev ++ ev')
  end.

(** The list of all caches: the cache is unlinked and freed if it is on it. *)
Definition Inode_ClearCache (caches : list (Z * tInodeCache)) (handle : Z)
  : list (Z * tInodeCache) * list event :=
  match list_find (fun p => p.1 = handle) caches with
  | None => (caches, [])
  | Some (i, (_, c)) => (delete i caches, (clear_loop (FirstNode c) c).2)
  end.
End clear.

(** The Close method of a filesystem that keeps its nodes in the cache. *)
Definition close_uncache (c : tInodeCache) (e : tCachedInode) : tInodeCache * list event :=
  let '(_, c', ev) := Inode_UncacheNode c (Inode e) in (c', ev).

End NodeCache.
Export NodeCache.

(** ** Invariant and abstraction *)
Section cache_inv.
Implicit Types (l k : list tCachedInode) (e : tCachedInode) (c : tInodeCache).

Definition sorted l : Prop := StronglySorted Z.lt (Inode <$> l).
Definition below i l : Prop := Forall (fun e => Inode e < i) l.
Definition above i l : Prop := Forall (fun e => i < Inode e) l.

(** Sorted, the highest inode remembered, counts positive and at most [b]. *)
Record cache_ok (b : Z) c : Prop := {
  ok_sorted : sorted (FirstNode c);
  ok_max : MaxCached c = default 0 (last (Inode <$> FirstNode c));
  ok_counts : Forall (fun e => 0 <= Inode e /\ 0 < ReferenceCount e <= b) (FirstNode c) }.

(** The cache as a map from inodes to address and count. *)
Definition refs l : gmap Z (Z * Z) :=
  list_to_map ((fun e => (Inode e, (addr e, ReferenceCount e))) <$> l).

Lemma refs_cons e l : refs (e :: l) = <[Inode e := (addr e, ReferenceCount e)]> (refs l).
Proof. done. Qed.

Lemma refs_None l i : refs l !! i = None <-> i ∉ Inode <$> l.
Proof.
  unfold refs. rewrite <- not_elem_of_list_to_map. rewrite <- list_fmap_compose. done.
Qed.

(** Around an inode, a list without it ... *)
Lemma refs_around l1 l2 i : below i l1 -> above i l2 -> refs (l1 ++ l2) !! i = None.
Proof.
  unfold below, above. rewrite !Forall_forall. intros H1 H2. apply refs_None.
  rewrite fmap_app, elem_of_app, !list_elem_of_fmap. intros [(e & -> & He)|(e & -> & He)].
  - specialize (H1 _ He). lia.
  - specialize (H2 _ He). lia.
Qed.

(** ... and with it. *)
Lemma refs_middle l1 e l2 : below (Inode e) l1 ->
  refs (l1 ++ e :: l2) = <[Inode e := (addr e, ReferenceCount e)]> (refs (l1 ++ l2)).
Proof.
  induction 1 as [|x l Hx _ IH]; [done|]. cbn [app]. rewrite !refs_cons, IH.
  apply insert_insert_ne. lia.
Qed.

Lemma split_at l i : sorted l -> exists l1 l2, below i l1 /\ above i l2 /\
  (l = l1 ++ l2 \/ exists e, Inode e = i /\ l = l1 ++ e :: l2).
Proof.
  unfold sorted. induction l as [|e l IH]; simpl.
  - intros _. exists [], []. split_and!; try constructor. done.
  - intros Hs. apply StronglySorted_inv in Hs as [Hs Hf]. rewrite Forall_fmap in Hf.
    destruct (decide (Inode e < i)).
    + destruct (IH Hs) as (l1 & l2 & H1 & H2 & H). exists (e :: l1), l2.
      split_and!; [by constructor|done|]. destruct H as [->|(e' & He & ->)]; [by left|right; eauto].
    + exists []. destruct (decide (Inode e = i)) as [<-|].
      * exists l. split_and!; [constructor|exact Hf|]. right. by exists e.
      * exists (e :: l). split_and!; [constructor| |by left]. constructor; [lia|].
        eapply Forall_impl; [exact Hf|]. simpl. lia.
Qed.

(** Insertion, replacement and removal keep the order. *)
Lemma sorted_insert l1 e l2 : sorted (l1 ++ l2) -> below (Inode e) l1 -> above (Inode e) l2 ->
  sorted (l1 ++ e :: l2).
Proof.
  unfold sorted, below, above. rewrite !fmap_app, fmap_cons, !StronglySorted_app. intros (H & Hs1 & Hs2) H1 H2.
  rewrite Forall_forall in H1. split_and!; [|done|constructor; [done|by apply Forall_fmap]].
  intros x y Hx. rewrite elem_of_cons. intros [->|Hy]; [|by apply H].
  apply list_elem_of_fmap in Hx as (z & -> & Hz). by apply H1.
Qed.

Lemma sorted_remove l1 e l2 : sorted (l1 ++ e :: l2) -> sorted (l1 ++ l2).
Proof.
  unfold sorted. rewrite !fmap_app, fmap_cons, !StronglySorted_app. intros (H & ? & Hs).
  split_and!; [|done|by inversion Hs]. intros. apply H; [done|]. by apply elem_of_cons; right.
Qed.

(** The maximum of a list around an inode. *)
Lemma last_above l1 e l2 : above (Inode e) l2 ->
  default 0 (last (Inode <$> l1 ++ e :: l2)) = if bool_decide (l2 = []) then Inode e
     else default 0 (last (Inode <$> l1 ++ l2)).
Proof.
  intros _. rewrite !fmap_app, fmap_cons, last_app_cons. destruct l2 as [|x l2]; [done|].
  rewrite bool_decide_false by done. rewrite fmap_cons, last_cons_cons. by rewrite last_app_cons.
Qed.

Lemma above_last i l1 l2 : below i l1 -> above i l2 -> Forall (fun e => 0 <= Inode e) (l1 ++ l2) -> 0 <= i ->
  i < default 0 (last (Inode <$> l1 ++ l2)) <-> l2 <> [].
Proof.
  intros H1 H2 H0 Hi. destruct l2 as [|x l2] using rev_ind.
  - rewrite app_nil_r in *. split; [|done]. destruct l1 as [|y l1] using rev_ind; simpl; [lia|].
    rewrite fmap_last, last_snoc. simpl. apply Forall_app in H1 as [_ H1']. apply Forall_cons_1 in H1' as [H1' _]. intros; exfalso.
    lia.
  - rewrite app_assoc, fmap_last, last_snoc. simpl. apply Forall_app in H2 as [_ H2']. apply Forall_cons_1 in H2' as [H2' _].
    split; [intros _; by destruct l2|lia].
Qed.

(** The loops skip what is below. *)
Lemma get_skip l1 k i : below i l1 -> get_loop (l1 ++ k) i = let '(r, k') := get_loop k i in (r, l1 ++ k').
Proof.
  induction 1 as [|x l Hx _ IH]; simpl; [by destruct (get_loop k i)|].
  replace (Inode x <? i) with true by (symmetry; lia). rewrite IH. by destruct (get_loop k i).
Qed.

Lemma cache_skip l1 k e : below (Inode e) l1 ->
  cache_loop (l1 ++ k) e = let '(r, k') := cache_loop k e in (r, l1 ++ k').
Proof.
  induction 1 as [|x l Hx _ IH]; simpl; [by destruct (cache_loop k e)|].
  replace (Inode x <? Inode e) with true by (symmetry; lia). rewrite IH. by destruct (cache_loop k e).
Qed.

Lemma find_skip l1 k i p : below i l1 ->
  find_loop p (l1 ++ k) i = find_loop (match last l1 with Some e => Some e | None => p end) k i.
Proof.
  intros H. revert p. induction H as [|x l Hx _ IH]; intros p; [done|]. simpl.
  replace (Inode x <? i) with true by (symmetry; lia). rewrite IH. f_equal.
  destruct l as [|y l] using rev_ind; [done|]. change (x :: l ++ [y]) with ((x :: l) ++ [y]). by rewrite !last_snoc.
Qed.

Lemma put_skip l1 k e : below (Inode e) l1 -> put_loop (l1 ++ k) e = l1 ++ put_loop k e.
Proof.
  induction 1 as [|x l Hx _ IH]; simpl; [done|].
  replace (Inode x =? Inode e) with false by (symmetry; lia). by rewrite IH.
Qed.

Lemma unlink_skip l1 k e : below (Inode e) l1 -> unlink_loop (l1 ++ k) e = l1 ++ unlink_loop k e.
Proof.
  induction 1 as [|x l Hx _ IH]; simpl; [done|].
  replace (Inode x =? Inode e) with false by (symmetry; lia). by rewrite IH.
Qed.

(** The searches on a list that has no entry for the inode. *)
Lemma get_missing l2 i : above i l2 -> get_loop l2 i = (None, l2).
Proof.
  intros [|x l Hx]; simpl; [done|]. replace (Inode x <? i) with false by (symmetry; lia).
  by replace (i <? Inode x) with true by (symmetry; lia).
Qed.

Lemma find_missing p l2 i : above i l2 -> find_loop p l2 i = None.
Proof.
  intros [|x l Hx]; simpl; [done|]. replace (Inode x <? i) with false by (symmetry; lia).
  by replace (i <? Inode x) with true by (symmetry; lia).
Qed.

Lemma cache_missing l2 e : above (Inode e) l2 -> cache_loop l2 e = (addr e, upd_count (fun _ => 1) e :: l2).
Proof.
  intros [|x l Hx]; simpl; [done|]. replace (Inode x <? Inode e) with false by (symmetry; lia).
  by replace (Inode x =? Inode e) with false by (symmetry; lia).
Qed.
End cache_inv.

(** ** The abstract cache *)
Module CacheSpec.

(** A cache is a map from inodes to the node's address and the number of
    references to it; a node is freed when its last reference is dropped. *)
Inductive cop :=
  | CGet (inode : Z)
  | CCache (node : tCachedInode)
  | CUncache (inode : Z).

(** Pointer returned, or code returned with the nodes freed. *)
Inductive cout :=
  | OPtr (p : option Z)
  | ORet (r : Z) (freed : list Z).

Definition spec_step (m : gmap Z (Z * Z)) (o : cop) : cout * gmap Z (Z * Z) :=
  match o with
  | CGet i =>
      match m !! i with
      | Some (a, n) => (OPtr (Some a), <[i := (a, n + 1)]> m)
      | None => (OPtr None, m)
      end
  | CCache e =>
      match m !! Inode e with
      | Some (a, n) => (OPtr (Some a), <[Inode e := (a, n + 1)]> m)
      | None => (OPtr (Some (addr e)), <[Inode e := (addr e, 1)]> m)
      end
  | CUncache i =>
      match m !! i with
      | Some (a, n) => if n =? 1 then (ORet 1 [a], delete i m) else (ORet 0 [], <[i := (a, n - 1)]> m)
      | None => (ORet (-1) [], m)
      end
  end.

Definition freed (l : list event) : list Z :=
  omap (fun x => match x with EFree a => Some a | _ => None end) l.

Definition code_step (c : tInodeCache) (o : cop) : cout * tInodeCache :=
  match o with
  | CGet i => let '(r, c') := Inode_GetCache c i in (OPtr r, c')
  | CCache e => let '(r, c') := Inode_CacheNode c e in (OPtr (Some r), c')
  | CUncache i => let '(r, c', ev) := Inode_UncacheNode c i in (ORet r (freed ev), c')
  end.

Definition valid_op (o : cop) : Prop :=
  match o with CGet i | CUncache i => 0 <= i | CCache e => 0 <= Inode e end.

Fixpoint run {S} (step : S -> cop -> cout * S) (s : S) (ops : list cop) : list cout * S :=
  match ops with
  | [] => ([], s)
  | o :: ops' => let '(r, s') := step s o in let '(rs, s'') := run step s' ops' in (r :: rs, s'')
  end.

End CacheSpec.
Export CacheSpec.

Section cache_steps.
Implicit Types (l k : list tCachedInode) (e : tCachedInode) (c : tInodeCache).

(** What a step has to establish. *)
Definition simulates b c (o : cop) : Prop :=
  let '(r, c') := code_step c o in
  spec_step (refs (FirstNode c)) o = (r, refs (FirstNode c')) /\ cache_ok (b + 1) c'.

Lemma ok_inodes b c : cache_ok b c -> Forall (fun e => 0 <= Inode e) (FirstNode c).
Proof. intros [_ _ H]. eapply Forall_impl; [exact H|]. simpl. lia. Qed.

Lemma ok_more b b' c : b <= b' -> cache_ok b c -> cache_ok b' c.
Proof. intros Hb [? ? H]. split; try done. eapply Forall_impl; [exact H|]. simpl. lia. Qed.

(** Replacing the count of an entry. *)
Lemma ok_recount b c l1 e l2 n : cache_ok b c -> FirstNode c = l1 ++ e :: l2 -> 0 < n <= b + 1 ->
  cache_ok (b + 1) (MkCache (CleanUpNode c) (l1 ++ upd_count (fun _ => n) e :: l2) (MaxCached c)).
Proof.
  intros [Hs Hm Hc] Hl Hn. rewrite Hl in *.
  assert ((Inode <$> l1 ++ upd_count (fun _ => n) e :: l2) = (Inode <$> l1 ++ e :: l2)) as Hi
    by (by rewrite !fmap_app, !fmap_cons).
  split; cbn [FirstNode MaxCached]; unfold sorted; rewrite ?Hi; try done.
  rewrite Forall_app, Forall_cons in *. destruct Hc as (H1 & H2 & H3). simpl.
  split_and!; try lia; (eapply Forall_impl; [eassumption|]); simpl; lia.
Qed.

Lemma refs_recount l1 e l2 n : below (Inode e) l1 ->
  refs (l1 ++ upd_count (fun _ => n) e :: l2) = <[Inode e := (addr e, n)]> (refs (l1 ++ e :: l2)).
Proof. intros H. rewrite !refs_middle by done. simpl. by rewrite insert_insert_eq. Qed.

(** An entry is not above the remembered maximum, and its fields are in range. *)
Lemma ok_entry b c l1 e l2 : cache_ok b c -> FirstNode c = l1 ++ e :: l2 -> below (Inode e) l1 -> above (Inode e) l2 ->
  (MaxCached c <? Inode e) = false /\ 0 < ReferenceCount e <= b /\ 0 <= Inode e /\
  Forall (fun e => 0 <= Inode e) (l1 ++ l2).
Proof.
  intros [Hs Hm Hc] Hl H1 H2. rewrite Hl in Hc. apply Forall_app in Hc as [C1 C2].
  apply Forall_cons_1 in C2 as [C2 C3].
  assert (Forall (fun e => 0 <= Inode e) (l1 ++ l2)) as H0
    by (apply Forall_app; split; [eapply Forall_impl; [exact C1|]|eapply Forall_impl; [exact C3|]]; simpl; lia).
  split_and!; try lia; try done. apply Z.ltb_ge. rewrite Hm, Hl, last_above by done.
  case_bool_decide; [lia|]. apply Z.lt_le_incl. apply above_last; done || lia.
Qed.

Lemma get_simulates b c i : cache_ok b c -> 0 <= i -> b < 2147483647 -> simulates b c (CGet i).
Proof.
  intros Hok Hi Hb. unfold simulates, code_step, Inode_GetCache, spec_step.
  destruct (split_at _ i (ok_sorted _ _ Hok)) as (l1 & l2 & H1 & H2 & [Hl|(e & <- & Hl)]).
  - rewrite Hl, refs_around by done.
    destruct (MaxCached c <? i); [rewrite Hl; split; [done|]; apply (ok_more b); [lia|done]|].
    rewrite get_skip, get_missing by done. cbn [FirstNode]. split; [done|]. rewrite <- Hl.
    destruct c. apply (ok_more b); [lia|done].
  - destruct (ok_entry b c l1 e l2) as (-> & Hn & _ & _); try done.
    rewrite Hl, get_skip by done. rewrite refs_middle, lookup_insert_eq by done. cbn [get_loop].
    rewrite Z.ltb_irrefl. cbn [FirstNode]. unfold upd_count. rewrite i32_small by lia.
    split; [|by apply (ok_recount b c l1 e l2); [| |lia]].
    rewrite insert_insert_eq. f_equal. by rewrite refs_middle.
Qed.

Lemma cache_simulates b c e : cache_ok b c -> 0 <= Inode e -> 0 <= b < 2147483647 -> simulates b c (CCache e).
Proof.
  intros Hok Hi Hb. unfold simulates, code_step, Inode_CacheNode, Inode_CacheNodeEx, spec_step.
  destruct (split_at _ (Inode e) (ok_sorted _ _ Hok)) as (l1 & l2 & H1 & H2 & [Hl|(x & Hx & Hl)]).
  - rewrite Hl, refs_around, cache_skip, cache_missing by done. cbn [FirstNode].
    split; [by rewrite refs_middle|]. pose proof (ok_inodes _ _ Hok) as H0. destruct Hok as [Hs Hm Hc].
    rewrite Hl in *. split; cbn [FirstNode MaxCached].
    + by apply sorted_insert.
    + rewrite last_above by done. rewrite Hm. pose proof (above_last (Inode e) l1 l2 H1 H2 H0 Hi) as Ha.
      cbn [Inode upd_count]. case_bool_decide as E; [subst l2|].
      * destruct (Z.ltb_spec (default 0 (last (Inode <$> l1 ++ []))) (Inode e)); [done|].
        destruct (decide (Inode e < default 0 (last (Inode <$> l1 ++ [])))); [naive_solver|lia].
      * destruct (Z.ltb_spec (default 0 (last (Inode <$> l1 ++ l2))) (Inode e)); [|done].
        apply Ha in E. lia.
    + rewrite Forall_app, Forall_cons in *. cbn [Inode upd_count ReferenceCount].
      split_and!; try lia; (eapply Forall_impl; [apply Hc|]); simpl; lia.
  - rewrite <- Hx in *. destruct (ok_entry b c l1 x l2) as (-> & Hn & _ & _); try done.
    rewrite Hl, cache_skip by (by rewrite <- Hx). rewrite refs_middle, lookup_insert_eq by done. cbn [cache_loop].
    rewrite <- Hx, Z.ltb_irrefl, Z.eqb_refl. cbn [FirstNode]. unfold upd_count. rewrite i32_small by lia.
    split; [|by apply (ok_recount b c l1 x l2); [| |lia]].
    rewrite insert_insert_eq. f_equal. by rewrite refs_middle.
Qed.

Lemma freed_events (b1 b2 : bool) x y a :
  freed ((if b1 then [ECleanUp x] else []) ++ (if b2 then [EFreeData y] else []) ++ [EFree a]) = [a].
Proof. by destruct b1, b2. Qed.

Lemma uncache_simulates b c i : cache_ok b c -> 0 <= i -> 0 <= b < 2147483647 -> simulates b c (CUncache i).
Proof.
  intros Hok Hi Hb. unfold simulates, code_step, Inode_UncacheNode, spec_step.
  destruct (split_at _ i (ok_sorted _ _ Hok)) as (l1 & l2 & H1 & H2 & [Hl|(e & <- & Hl)]).
  - rewrite Hl, refs_around by done.
    destruct (MaxCached c <? i); [rewrite Hl; split; [done|]; apply (ok_more b); [lia|done]|].
    rewrite find_skip, find_missing by done. split; [by rewrite Hl|]. apply (ok_more b); [lia|done].
  - destruct (ok_entry b c l1 e l2) as (-> & Hn & _ & H0); try done.
    rewrite Hl, find_skip by done. rewrite refs_middle, lookup_insert_eq by done. cbn [find_loop].
    rewrite Z.ltb_irrefl. cbn [upd_count ReferenceCount]. rewrite i32_small by lia.
    replace (ReferenceCount e - 1 =? 0) with (ReferenceCount e =? 1) by (symmetry; apply eq_iff_eq_true; lia).
    case_if.
    + rewrite freed_events. rewrite unlink_skip by done. cbn [unlink_loop Inode FirstNode]. rewrite Z.eqb_refl.
      split; [rewrite delete_insert_eq, delete_id; [done|by apply refs_around]|].
      destruct Hok as [Hs Hm Hc]. rewrite Hl in *. split; cbn [FirstNode MaxCached].
      * by eapply sorted_remove.
      * rewrite Hm, last_above by done. case_bool_decide as E.
        -- subst l2. rewrite Z.eqb_refl, app_nil_r, fmap_last. by destruct (last l1).
        -- apply (above_last (Inode e) l1 l2 H1 H2 H0 Hi) in E.
           by replace (Inode e =? _) with false by (symmetry; lia).
      * rewrite Forall_app, Forall_cons in *.
        split_and!; (eapply Forall_impl; [apply Hc|]); simpl; lia.
    + rewrite put_skip by done. cbn [put_loop Inode FirstNode]. rewrite Z.eqb_refl.
      unfold upd_count. rewrite i32_small by lia.
      split; [|by apply (ok_recount b c l1 e l2); [| |lia]].
      rewrite insert_insert_eq. f_equal. by rewrite refs_middle.
Qed.

Lemma step_simulates b c o : cache_ok b c -> valid_op o -> 0 <= b < 2147483647 -> simulates b c o.
Proof.
  destruct o; simpl; intros; [by apply get_simulates; [| |lia]|by apply cache_simulates|by apply uncache_simulates].
Qed.
End cache_steps.

Module NodeCacheProps.

(** C14: The inode cache refines a finite map from inodes to (node, references):
    any sequence of lookups, insertions and releases on a fresh cache returns
    the same pointers and codes as the map, frees a node exactly when its last
    reference is released, and the sorted list with its remembered maximum
    (which the lookups use to give up early) always represents the map. *)
Theorem node_cache_refines_map cleanup ops : Forall valid_op ops -> len ops < 2147483647 ->
  let '(rs, c) := run code_step (Inode_GetHandle cleanup) ops in
  run spec_step ∅ ops = (rs, refs (FirstNode c)) /\ cache_ok (len ops) c.
Proof.
  assert (forall b c, cache_ok b c -> 0 <= b -> Forall valid_op ops -> b + len ops < 2147483647 ->
    let '(rs, c') := run code_step c ops in
    run spec_step (refs (FirstNode c)) ops = (rs, refs (FirstNode c')) /\ cache_ok (b + len ops) c') as Hgen.
  { clear. induction ops as [|o ops IH]; intros b c Hok Hb Hv Hlen.
    - cbn. split; [done|]. by rewrite Z.add_0_r.
    - apply Forall_cons_1 in Hv as [Ho Hv]. rewrite len_cons in Hlen. pose proof (len_nonneg ops).
      assert (simulates b c o) as Hsim by (apply step_simulates; [done|done|lia]).
      unfold simulates in Hsim. cbn [run]. destruct (code_step c o) as [r c1]. destruct Hsim as [-> Hok1].
      specialize (IH (b + 1) c1 Hok1 ltac:(lia) Hv ltac:(lia)).
      destruct (run code_step c1 ops) as [rs c']. destruct IH as [-> Hok']. split; [done|].
      rewrite len_cons. by replace (b + (1 + len ops)) with (b + 1 + len ops) by lia. }
  intros Hv Hl. apply (Hgen 0 (Inode_GetHandle cleanup)); try done. split; constructor.
Qed.

Lemma node_cache_refines_map_witness :
  let ops := [CCache (MkEnt 100 7 0 0 true); CCache (MkEnt 200 3 0 50 true); CGet 7; CGet 9; CUncache 7; CUncache 3; CUncache 7] in
  run spec_step ∅ ops = ([OPtr (Some 100); OPtr (Some 200); OPtr (Some 100); OPtr None; ORet 0 []; ORet 1 [200]; ORet 1 [100]],
    refs (FirstNode (run code_step (Inode_GetHandle true) ops).2)).
Proof.
  assert (Forall valid_op [CCache (MkEnt 100 7 0 0 true); CCache (MkEnt 200 3 0 50 true); CGet 7; CGet 9;
    CUncache 7; CUncache 3; CUncache 7]) as Hv by (repeat constructor; discriminate).
  exact (proj1 (node_cache_refines_map true _ Hv eq_refl)).
Defined.

(** Releasing the only reference to the first entry. *)
Lemma close_first cl e l m : (m <? Inode e) = false -> exists ev,
  close_uncache (MkCache cl (upd_count (fun _ => 1) e :: l) m) e =
    (MkCache cl l (if Inode e =? m then 0 else m), ev) /\ freed ev = [addr e].
Proof.
  intros Hm. unfold close_uncache, Inode_UncacheNode. cbn [FirstNode MaxCached CleanUpNode find_loop].
  rewrite Hm. cbn [upd_count Inode]. rewrite Z.ltb_irrefl. cbn [ReferenceCount upd_count unlink_loop Inode].
  change (i32 (1 - 1) =? 0) with true. cbn match. rewrite Z.eqb_refl. eexists. split; [done|]. apply freed_events.
Qed.

(** Clearing a cache whose nodes are released by their Close method empties it
    and frees every node once, in order. *)
Theorem ClearCache_frees b c : cache_ok b c -> Forall (fun e => NodeClose e = true) (FirstNode c) ->
  let '(c', ev) := clear_loop close_uncache (FirstNode c) c in
  FirstNode c' = [] /\ freed ev = addr <$> FirstNode c.
Proof.
  intros [Hs Hm Hc] Hcl. remember (FirstNode c) as l eqn:Hl.
  revert c Hl Hm. induction l as [|e l IH]; intros c Hl Hm; [done|]. cbn [clear_loop].
  apply Forall_cons_1 in Hcl as [-> Hcl], Hc as [He Hc]. unfold sorted in Hs. cbn in Hs.
  apply StronglySorted_inv in Hs as [Hs Ha]. rewrite Forall_fmap in Ha.
  assert (l <> [] -> Inode e < default 0 (last (Inode <$> l))) as Hlast.
  { apply (above_last _ [] l); try done; [constructor| |lia]. eapply Forall_impl; [exact Hc|]. simpl. lia. }
  rewrite <- Hl. cbn [put_loop]. cbn [Inode upd_count]. rewrite Z.eqb_refl.
  change (e :: l) with ([] ++ e :: l) in Hm. rewrite last_above in Hm by done.
  destruct (close_first (CleanUpNode c) e l (MaxCached c)) as (ev1 & -> & Hev1).
  { apply Z.ltb_ge. rewrite Hm. case_bool_decide as E; [lia|]. specialize (Hlast E). cbn [app]. lia. }
  set (c2 := MkCache _ l _). specialize (IH Hs Hc Hcl c2 eq_refl).
  destruct (clear_loop close_uncache l c2) as [c3 ev]. destruct IH as [-> Hev].
  { subst c2. cbn [MaxCached]. rewrite Hm. case_bool_decide as E.
    - subst l. by rewrite Z.eqb_refl.
    - specialize (Hlast E). cbn [app]. by replace (Inode e =? _) with false by (symmetry; lia). }
  split; [done|]. unfold freed in *. by rewrite omap_app, Hev, Hev1.
Qed.
End NodeCacheProps.
