(* ===== verification/VfsPath.v ===== *)
(** Absolute paths, [VFS_GetAbsPath] of [KernelLand/Kernel/vfs/open.c], at the
    level of the buffer it builds: the string is assembled, cut into components
    by their offsets, and rebuilt in place without its empty, [.] and [..]
    components.  The reference definition is path normalisation on lists of
    names. *)
From S2P Require Import Prelude CString.

Local Open Scope Z_scope.

Module Path.

Abbreviation cSLASH := 47 (only parsing).
Abbreviation cDOLLAR := 36 (only parsing).
Abbreviation MAX_PATH_SLASHES := 256 (only parsing).

(** [strcpy(ret + ofs, s)]. *)
Definition strcpy_at (ret : list Z) (ofs : Z) (s : list Z) : option (list Z) :=
  if (0 <=? ofs) && (ofs <=? len ret) then
    '(d, _) ← strcpy (drop (Z.to_nat ofs) ret) s; Some (take (Z.to_nat ofs) ret ++ d)
  else None.

(** The scan for components: [s] is the memory at [tmpStr], [iPos] the number of
    offsets stored.  Inner [None]: too many. *)
Fixpoint scan (s : list Z) (ofs iPos : Z) : option (option (list Z)) :=
  match s with
  | [] => None
  | c :: s' =>
      if c =? 0 then Some (Some []) else
      if c =? cSLASH then
        if iPos + 1 =? MAX_PATH_SLASHES then Some None else
        r ← scan s' (ofs + 1) (iPos + 1); Some (option_map (cons (ofs + 1)) r)
      else scan s' (ofs + 1) iPos
  end.

(** What a component is, from its characters; the tests read no further than
    they need to. *)
Inductive kind := KUp | KSkip | KName.
Definition ends (c : Z) : bool := (c =? cSLASH) || (c =? 0).
Definition classify (ret : list Z) (o : Z) : option kind :=
  c0 ← get ret o;
  up ← (if c0 =? cDOT then c1 ← get ret (o + 1); if c1 =? cDOT then c2 ← get ret (o + 2); Some (ends c2)
        else Some false else Some false);
  if (up : bool) then Some KUp else
  dot ← (if c0 =? cDOT then c1 ← get ret (o + 1); Some (ends c1) else Some false);
  if (dot : bool) then Some KSkip else
  if ends c0 then Some KSkip else Some KName.

(** The cleanup loop: [kept] are the entries below [iPos2]. *)
Fixpoint cleanup (ret : list Z) (kept todo : list Z) : option (list Z) :=
  match todo with
  | [] => Some kept
  | o :: todo' =>
      k ← classify ret o;
      match k with
      | KUp => cleanup ret (removelast kept) todo'
      | KSkip => cleanup ret kept todo'
      | KName => cleanup ret (kept ++ [o]) todo'
      end
  end.

(** Copying a component down, in the one buffer. *)
Fixpoint copy_comp (fuel : nat) (ret : list Z) (src dst : Z) : option (list Z * Z) :=
  match fuel with
  | O => None
  | S fuel' =>
      c ← get ret src;
      if ends c then Some (ret, dst) else
      ret' ← set ret dst c; copy_comp fuel' ret' (src + 1) (dst + 1)
  end.

Fixpoint rebuild (ret : list Z) (comps : list Z) (iPos2 : Z) : option (list Z * Z) :=
  match comps with
  | [] => Some (ret, iPos2)
  | o :: comps' =>
      '(ret1, p) ← copy_comp (length ret) ret o iPos2;
      ret2 ← set ret1 p cSLASH;
      rebuild ret2 comps' (p + 1)
  end.

(** The terminator, and the chroot over the front of the buffer. *)
Definition finish (ret1 : list Z) (iPos2 : Z) (chroot : list Z) (chrootLen : Z) : option (list Z) :=
  ret2 ← (if 1 <? iPos2 then set ret1 (iPos2 - 1) 0 else set ret1 iPos2 0);
  if chrootLen =? 0 then Some ret2 else c ← rd chroot 0 chrootLen; wr ret2 0 c.

(** From the assembled buffer to the result. *)
Definition normalise (ret chroot : list Z) (chrootLen : Z) : option (option (list Z)) :=
  comps ← scan (drop (Z.to_nat (chrootLen + 1)) ret) (chrootLen + 1) 1;
  match comps with
  | None => Some None
  | Some comps =>
      kept ← cleanup ret [] (chrootLen + 1 :: comps);
      ret0 ← set ret 0 cSLASH;
      '(ret1, iPos2) ← rebuild ret0 kept (chrootLen + 1);
      ret3 ← finish ret1 iPos2 chroot chrootLen;
      Some (Some ret3)
  end.

(** The length of the chroot without a trailing slash. *)
Definition chroot_len (chroot : list Z) : option Z :=
  n ← strlen chroot;
  last ← (if n =? 0 then Some 0 else get chroot (n - 1));
  Some (if negb (n =? 0) && (last =? cSLASH) then n - 1 else n).

(** [alloc n] is the block malloc returns for [n] bytes, [None] for NULL; the
    second allocation is not checked.  [chroot] and [cwd] are the process's,
    [None] for NULL.  The result's inner [None] is NULL. *)
Definition VFS_GetAbsPath (alloc : Z -> option (list Z)) (chroot cwd : option (list Z)) (Path : list Z)
  : option (option (list Z)) :=
  pathLen ← strlen Path;
  c0 ← get Path 0;
  if c0 =? cDOLLAR then
    match alloc (pathLen + 1) with
    | None => Some None
    | Some ret => ret ← strcpy_at ret 0 Path; Some (Some ret)
    end
  else
    let chroot := default [0] chroot in
    chrootLen ← chroot_len chroot;
    if c0 =? cSLASH then
      match alloc (chrootLen + pathLen + 1) with
      | None => Some None
      | Some ret => ret ← strcpy_at ret chrootLen Path; normalise ret chroot chrootLen
      end
    else
      let cwd := default [cSLASH; 0] cwd in
      cwdLen ← strlen cwd;
      match alloc (chrootLen + cwdLen + 1 + pathLen + 1) with
      | None => None
      | Some ret =>
          ret ← strcpy_at ret chrootLen cwd;
          ret ← set ret cwdLen cSLASH;
          ret ← strcpy_at ret (chrootLen + cwdLen + 1) Path;
          normalise ret chroot chrootLen
      end.

End Path.
Export Path.

(** ** The reference: names *)
Module PathSpec.

(** The pieces of a string between slashes. *)
Fixpoint split (s : list Z) : list (list Z) :=
  match s with
  | [] => [[]]
  | c :: s' =>
      if c =? cSLASH then [] :: split s'
      else match split s' with n :: ns => (c :: n) :: ns | [] => [[c]] end
  end.

(** Walking a list of names from the root. *)
Definition norm_step (st : list (list Z)) (n : list Z) : list (list Z) :=
  if bool_decide (n = [cDOT; cDOT]) then removelast st
  else if bool_decide (n = [cDOT]) || bool_decide (n = []) then st else st ++ [n].
Definition norm (ns : list (list Z)) : list (list Z) := fold_left norm_step ns [].

Definition render (ns : list (list Z)) : list Z := concat ((cons cSLASH) <$> ns).

(** The string of a normalised path under a root directory. *)
Definition path_string (root : list Z) (ns : list (list Z)) : list Z :=
  if bool_decide (root = []) && bool_decide (ns = []) then [cSLASH] else root ++ render ns.

End PathSpec.
Export PathSpec.

(** ** From the buffer to the names *)
Section path_lemmas.
Implicit Types (B W s n : list Z) (ps : list (Z * list Z)).

(** A component of the buffer: its characters, then a slash or the end. *)
Definition comp_at B (o : Z) n : Prop :=
  Forall (fun c => c <> 0 /\ c <> cSLASH) n /\ 0 <= o /\
  exists c, ends c = true /\ sub o (len n + 1) B = n ++ [c].

(** Components in order without overlap, the first at or after [p]. *)
Fixpoint spaced (p : Z) ps : Prop :=
  match ps with
  | [] => True
  | (o, n) :: ps' => p <= o /\ spaced (o + len n + 1) ps'
  end.

Lemma comp_get B o n i : comp_at B o n -> 0 <= i < len n -> get B (o + i) = get n i.
Proof.
  intros (_ & Ho & c & _ & Hs) Hi. rewrite <- (get_sub B o (len n + 1)), Hs by lia.
  unfold get. replace (0 <=? i) with true by (symmetry; lia). apply lookup_app_l. unfold len in *. lia.
Qed.

Lemma comp_end B o n : comp_at B o n -> exists c, get B (o + len n) = Some c /\ ends c = true.
Proof.
  intros (_ & Ho & c & Hc & Hs). exists c. split; [|done]. pose proof (len_nonneg n).
  rewrite <- (get_sub B o (len n + 1)), Hs by lia. by rewrite get_middle.
Qed.

Lemma comp_char B o n i : comp_at B o n -> 0 <= i < len n ->
  exists c, get B (o + i) = Some c /\ c <> 0 /\ c <> cSLASH /\ get n i = Some c.
Proof.
  intros H Hi. rewrite (comp_get _ _ _ _ H Hi). destruct H as (Hf & _).
  destruct (get_ok n i Hi) as [c Hc]. exists c. rewrite Hc. unfold get in Hc.
  replace (0 <=? i) with true in Hc by (symmetry; lia).
  rewrite Forall_lookup in Hf. destruct (Hf _ _ Hc). done.
Qed.

Lemma comp_bound B o n : comp_at B o n -> o + len n < len B.
Proof.
  intros H. destruct (comp_end _ _ _ H) as (c & Hg & _). destruct H as (_ & Ho & _). pose proof (len_nonneg n).
  unfold get in Hg. rewrite (proj2 (Z.leb_le 0 _)) in Hg by lia. apply lookup_lt_Some in Hg. unfold len in *. lia.
Qed.

Lemma ends_false c : c <> 0 -> c <> cSLASH -> ends c = false.
Proof. unfold ends. intros. apply orb_false_intro; lia. Qed.

(** The tests on the characters decide the name. *)
Lemma classify_name B o n : comp_at B o n ->
  classify B o = Some (if bool_decide (n = [cDOT; cDOT]) then KUp
                       else if bool_decide (n = [cDOT]) || bool_decide (n = []) then KSkip else KName).
Proof.
  intros H. pose proof (comp_end _ _ _ H) as (ce & Hce & He). unfold classify.
  assert (forall i : nat, match n !! i with
    | Some c => get B (o + Z.of_nat i) = Some c /\ ends c = false
    | None => True end) as Hch.
  { intros i. destruct (n !! i) as [c|] eqn:E; [|done]. pose proof (lookup_lt_Some _ _ _ E).
    destruct (comp_char B o n (Z.of_nat i) H) as (c' & Hg & ? & ? & Hc'); [unfold len; lia|].
    rewrite get_nat in Hc'. simplify_eq. split; [done|by apply ends_false]. }
  assert (forall (c : Z), ends c = true -> (c =? cDOT) = false) as Hdot.
  { intros c. unfold ends. intros [?|?]%orb_true_iff; lia. }
  destruct n as [|c0 n].
  { rewrite Z.add_0_r in Hce. rewrite Hce. cbn [mbind option_bind]. rewrite Hdot by done. cbn. by rewrite He. }
  destruct (Hch 0%nat) as [H0 E0]. rewrite Z.add_0_r in H0. rewrite H0. cbn [mbind option_bind].
  destruct (c0 =? cDOT) eqn:D0; bools.
  2: { cbn [mbind option_bind]. rewrite E0. rewrite !bool_decide_false by naive_solver. done. }
  subst c0. destruct n as [|c1 n].
  { change (len [46]) with 1 in Hce. rewrite Hce. cbn [mbind option_bind]. rewrite Hdot by done.
    cbn [mbind option_bind]. rewrite He. done. }
  destruct (Hch 1%nat) as [H1 E1]. change (Z.of_nat 1) with 1 in H1. rewrite H1. cbn [mbind option_bind].
  destruct (c1 =? cDOT) eqn:D1; bools.
  2: { cbn [mbind option_bind]. rewrite E1, E0. rewrite !bool_decide_false by naive_solver. done. }
  subst c1. destruct n as [|c2 n].
  { change (len [46; 46]) with 2 in Hce. rewrite Hce. cbn [mbind option_bind]. rewrite He. done. }
  destruct (Hch 2%nat) as [H2 E2]. change (Z.of_nat 2) with 2 in H2. rewrite H2. cbn [mbind option_bind].
  rewrite E2. cbn [mbind option_bind]. rewrite E1. rewrite !bool_decide_false by naive_solver. done.
Qed.

(** The cleanup loop walks the names, keeping the spacing. *)
Lemma spaced_weaken p p' ps : p' <= p -> spaced p ps -> spaced p' ps.
Proof. destruct ps as [|[o n] ps]; simpl; [done|]. intros ? [??]. split; [lia|done]. Qed.

Lemma spaced_app_r p ps x qs : spaced p (ps ++ x :: qs) -> spaced p (ps ++ qs).
Proof.
  revert p. induction ps as [|[o n] ps IH]; intros p; simpl.
  - destruct x as [o n]. intros [? H]. apply (spaced_weaken (o + len n + 1)); [pose proof (len_nonneg n); lia|done].
  - intros [? H]. split; [done|]. by eapply IH.
Qed.

Lemma removelast_fmap {A C} (f : A -> C) (l : list A) : removelast (f <$> l) = f <$> removelast l.
Proof. induction l as [|x [|y l] IH]; [done|done|]. simpl in *. by rewrite IH. Qed.

Lemma removelast_app_one {A} (l : list A) x : removelast (l ++ [x]) = l.
Proof. rewrite removelast_app by done. by rewrite app_nil_r. Qed.

Lemma cleanup_norm B todo : forall kept p,
  Forall (fun x => comp_at B x.1 x.2) (kept ++ todo) -> spaced p (kept ++ todo) ->
  exists ps, cleanup B kept.*1 todo.*1 = Some ps.*1 /\ fold_left norm_step todo.*2 kept.*2 = ps.*2 /\
    Forall (fun x => comp_at B x.1 x.2) ps /\ spaced p ps.
Proof.
  induction todo as [|[o n] todo IH]; intros kept p Hc Hs.
  { rewrite app_nil_r in *. exists kept. done. }
  assert (comp_at B o n) as Hon. { apply Forall_app in Hc as [_ Hc]. by apply Forall_cons_1 in Hc as [Hc _]. }
  assert (Forall (fun x => comp_at B x.1 x.2) (kept ++ todo)) as Hdrop.
  { apply Forall_app in Hc as [? Hc]. apply Forall_cons_1 in Hc as [_ ?]. by apply Forall_app. }
  pose proof (spaced_app_r _ _ _ _ Hs) as Hsd. cbn [fmap list_fmap fst snd cleanup fold_left].
  rewrite (classify_name B o n Hon). cbn [mbind option_bind]. unfold norm_step at 2.
  destruct (bool_decide (n = [46; 46])); [|destruct (bool_decide (n = [46]) || bool_decide (n = []))].
  - rewrite !removelast_fmap. apply IH.
    + destruct kept as [|x kept _] using rev_ind; [done|]. rewrite removelast_app_one, <- app_assoc in *.
      apply Forall_app in Hdrop as [? Hx]. apply Forall_app in Hx as [_ ?]. by apply Forall_app.
    + destruct kept as [|x kept _] using rev_ind; [done|]. rewrite removelast_app_one. rewrite <- app_assoc in Hsd.
      by eapply spaced_app_r.
  - by apply IH.
  - specialize (IH (kept ++ [(o, n)]) p). rewrite !fmap_app in IH. cbn [fmap list_fmap fst snd] in IH.
    apply IH; by rewrite <- app_assoc.
Qed.

(** A buffer whose first part has been rewritten. *)
Definition patched B W : list Z := W ++ drop (length W) B.

Lemma patched_get B W q : len W <= q -> len W <= len B -> get (patched B W) q = get B q.
Proof.
  unfold patched, get, len. intros. replace (0 <=? q) with true by (symmetry; lia).
  rewrite lookup_app_r by lia. rewrite lookup_drop. f_equal. lia.
Qed.

Lemma patched_set B W c : len W < len B -> set (patched B W) (len W) c = Some (patched B (W ++ [c])).
Proof.
  unfold patched. intros Hl. unfold len in Hl. destruct (drop (length W) B) as [|x r] eqn:E.
  { apply (f_equal length) in E. rewrite length_drop in E. simpl in E. lia. }
  rewrite set_middle. f_equal. rewrite <- app_assoc. f_equal. rewrite length_app. simpl. f_equal.
  rewrite <- drop_drop, E. done.
Qed.

Lemma length_patched B W : (length W <= length B)%nat -> length (patched B W) = length B.
Proof. unfold patched. rewrite length_app, length_drop. lia. Qed.

Lemma copy_comp_spec B o n : comp_at B o n -> forall k W fuel, len W <= o + len (take k n) ->
  (length n - k < fuel)%nat -> (k <= length n)%nat ->
  copy_comp fuel (patched B W) (o + Z.of_nat k) (len W) = Some (patched B (W ++ drop k n), len (W ++ drop k n)).
Proof.
  intros Hc. pose proof (comp_bound _ _ _ Hc) as Hb. pose proof Hc as (_ & Ho & _).
  intros k W fuel. revert k W. induction fuel as [|fuel IH]; intros k W HW Hf Hk; [lia|].
  cbn [copy_comp]. unfold len in HW. rewrite length_take in HW.
  rewrite patched_get by (unfold len in *; lia).
  destruct (decide (k = length n)) as [->|Hne].
  - destruct (comp_end _ _ _ Hc) as (c & Hg & He). fold (len n) in *. rewrite Hg. cbn [mbind option_bind].
    rewrite He, drop_all, app_nil_r. done.
  - destruct (comp_char B o n (Z.of_nat k) Hc) as (c & Hg & Hc0 & Hcs & Hn); [unfold len; lia|].
    rewrite Hg. cbn [mbind option_bind]. rewrite ends_false by done.
    rewrite patched_set by (unfold len in *; lia). cbn [mbind option_bind].
    rewrite get_nat in Hn. rewrite (drop_S n c k Hn).
    replace (o + Z.of_nat k + 1) with (o + Z.of_nat (S k)) by lia.
    replace (len W + 1) with (len (W ++ [c])) by (rewrite len_app; done).
    rewrite IH by (rewrite ?len_app; unfold len; rewrite ?length_take; cbn [length]; lia).
    by rewrite <- app_assoc.
Qed.

(** Rebuilding writes the names, each with a slash after it. *)
Lemma rebuild_spec B ps : forall W, Forall (fun x => comp_at B x.1 x.2) ps -> spaced (len W) ps ->
  len W <= len B ->
  let W' := W ++ concat ((fun n => n ++ [cSLASH]) <$> ps.*2) in
  rebuild (patched B W) ps.*1 (len W) = Some (patched B W', len W') /\ len W' <= len B.
Proof.
  induction ps as [|[o n] ps IH]; intros W Hc Hs Hl; cbn [fmap list_fmap fst snd concat rebuild].
  { by rewrite app_nil_r. }
  apply Forall_cons_1 in Hc as [Hon Hc]. cbn [fst snd] in Hon. destruct Hs as [Ho Hs].
  pose proof (comp_bound _ _ _ Hon) as Hb. pose proof Hon as (_ & Ho0 & _).
  pose proof (copy_comp_spec B o n Hon 0 W (length (patched B W))) as Hcp. replace (o + Z.of_nat 0) with o in Hcp by lia. rewrite drop_0 in Hcp.
  rewrite Hcp; [|cbn; unfold len in *; lia|rewrite length_patched; unfold len in *; lia|lia].
  cbn [mbind option_bind]. rewrite patched_set by (rewrite len_app; lia). cbn [mbind option_bind].
  replace (len (W ++ n) + 1) with (len ((W ++ n) ++ [cSLASH])) by (rewrite len_app; done).
  destruct (IH ((W ++ n) ++ [cSLASH])) as [-> ?]; try done.
  - eapply spaced_weaken; [|exact Hs]. rewrite !len_app. change (len [47]) with 1. lia.
  - rewrite !len_app. change (len [47]) with 1. lia.
  - by rewrite <- !app_assoc in *.
Qed.

(** The scan finds the pieces of the string. *)
Lemma split_cons s : exists n ns, split s = n :: ns.
Proof. induction s as [|c s (n & ns & E)]; simpl; [by eexists _, _|]. rewrite E. case_if; by eexists _, _. Qed.

Fixpoint offsets (ns : list (list Z)) (o : Z) : list (Z * list Z) :=
  match ns with
  | [] => []
  | n :: ns' => (o, n) :: offsets ns' (o + len n + 1)
  end.

Lemma offsets_spaced ns : forall o, spaced o (offsets ns o).
Proof. induction ns as [|n ns IH]; intros o; simpl; [done|]. split; [lia|]. apply IH. Qed.

Lemma offsets_names ns : forall o, (offsets ns o).*2 = ns.
Proof. induction ns as [|n ns IH]; intros o; simpl; [done|]. by rewrite IH. Qed.

Lemma scan_split s r : Forall (fun c => c <> 0) s -> forall o i,
  scan (s ++ 0 :: r) o i =
  Some (if bool_decide (i + len (split s) - 1 < MAX_PATH_SLASHES)
        then Some (drop 1 (offsets (split s) o).*1) else None) \/ MAX_PATH_SLASHES <= i.
Proof.
  induction 1 as [|c s Hc _ IH]; intros o i.
  { destruct (decide (MAX_PATH_SLASHES <= i)); [by right|left]. simpl. by rewrite bool_decide_true by (unfold len; simpl; lia). }
  destruct (decide (MAX_PATH_SLASHES <= i)) as [|Hi]; [by right|left]. cbn [app scan split].
  replace (c =? 0) with false by (symmetry; lia). destruct (split_cons s) as (n & ns & E).
  destruct (c =? cSLASH) eqn:Ec; bools.
  - destruct (i + 1 =? MAX_PATH_SLASHES) eqn:Ei; bools.
    { rewrite bool_decide_false; [done|]. rewrite len_cons, E, len_cons. pose proof (len_nonneg ns). lia. }
    destruct (IH (o + 1) (i + 1)) as [->|?]; [|lia]. cbn [mbind option_bind]. f_equal.
    rewrite len_cons. replace (i + (1 + len (split s)) - 1) with (i + 1 + len (split s) - 1) by lia.
    rewrite E. case_bool_decide; [|done]. simpl. rewrite drop_0. by rewrite !Z.add_0_r.
  - destruct (IH (o + 1) i) as [->|?]; [|lia]. rewrite E. rewrite !len_cons. f_equal.
    case_bool_decide; [|done]. simpl. rewrite !drop_0. f_equal. rewrite len_cons. do 2 f_equal. lia.
Qed.

Lemma split_at_buffer s : Forall (fun c => c <> 0) s -> forall X r,
  Forall (fun x => comp_at (X ++ s ++ 0 :: r) x.1 x.2) (offsets (split s) (len X)).
Proof.
  induction 1 as [|c s Hc _ IH]; intros X r.
  - constructor; [|constructor]. simpl. split_and!; [constructor|apply len_nonneg|]. exists 0. split; [done|].
    change (len [] + 1) with (len [0]). apply (sub_app X [0] r).
  - specialize (IH (X ++ [c]) r). rewrite <- !app_assoc in IH. cbn [app] in *.
    rewrite len_app in IH. change (len [c]) with 1 in IH. cbn [split]. destruct (split_cons s) as (n & ns & E).
    destruct (c =? cSLASH) eqn:Ec; bools.
    + subst c. cbn [offsets]. change (len []) with 0. rewrite Z.add_0_r.
      constructor; [|exact IH]. cbn [fst snd]. split_and!; [constructor|apply len_nonneg|].
      exists cSLASH. split; [done|]. change (len [] + 1) with (len [cSLASH]). apply (sub_app X [cSLASH]).
    + rewrite E in *. cbn [offsets] in *. apply Forall_cons_1 in IH as [H1 H2]. constructor.
      * cbn [fst snd] in *. destruct H1 as (Hf & Ho & ce & He & Hs). split_and!; [by constructor|apply len_nonneg|].
        exists ce. split; [done|]. revert Hs. unfold sub. rewrite len_cons.
        rewrite !Z2Nat.inj_add by (pose proof (len_nonneg X); pose proof (len_nonneg n); lia).
        unfold len. rewrite !Nat2Z.id. intros Hs. rewrite drop_app_length.
        rewrite <- drop_drop, drop_app_length in Hs. simpl in *. rewrite drop_0 in Hs.
        replace (Z.to_nat 1 + length n + Z.to_nat 1)%nat with (S (length n + 1)) by lia. simpl. f_equal.
        by replace (length n + Z.to_nat 1)%nat with (length n + 1)%nat in Hs by lia.
      * rewrite len_cons. by replace (len X + (1 + len n) + 1) with (len X + 1 + len n + 1) by lia.
Qed.
End path_lemmas.

Section normalise.
Implicit Types (X s r root : list Z).

Lemma render_shift ns : [cSLASH] ++ concat ((fun n => n ++ [cSLASH]) <$> ns) = render ns ++ [cSLASH].
Proof.
  unfold render. induction ns as [|n ns IH]; [done|]. cbn [fmap list_fmap concat].
  rewrite <- (app_assoc n), IH. by rewrite <- app_assoc.
Qed.

Lemma patched_app (P Q W : list Z) : length W = length P -> patched (P ++ Q) W = W ++ Q.
Proof. intros H. unfold patched. by rewrite H, drop_app_length. Qed.

(** The first slash is stored over the first byte of the buffer. *)
Lemma store_slash X s : exists V, len V = len X /\
  set (X ++ cSLASH :: s) 0 cSLASH = Some (patched (X ++ cSLASH :: s) (V ++ [cSLASH])).
Proof.
  destruct X as [|x X].
  - exists []. split; [done|]. apply (set_middle [] _ s).
  - exists (cSLASH :: X). split; [by rewrite !len_cons|].
    rewrite (set_middle [] x (X ++ cSLASH :: s)). f_equal.
    replace ((x :: X) ++ 47 :: s) with ((x :: X ++ [47]) ++ s) by (by rewrite app_comm_cons, <- app_assoc).
    rewrite patched_app by done. cbn [app]. by rewrite <- app_assoc.
Qed.

Lemma nulfree_names B ps : Forall (fun x => comp_at B x.1 x.2) ps -> Forall (fun c => c <> 0) (render ps.*2).
Proof.
  unfold render. induction 1 as [|[o n] ps (Hf & _) _ IH]; cbn [fmap list_fmap concat]; [constructor|].
  apply Forall_app. split; [|done]. constructor; [lia|]. eapply Forall_impl; [exact Hf|]. simpl. tauto.
Qed.

Lemma len_0 {A} (l : list A) : len l = 0 -> l = [].
Proof. destruct l; [done|]. rewrite len_cons. pose proof (len_nonneg l). lia. Qed.

(** The last steps on a rebuilt buffer: [V] stands where the chroot goes. *)
Lemma finish_spec V R rest rc croot : len V <= len croot -> Forall (fun c => c <> 0) croot ->
  Forall (fun c => c <> 0) R -> (V ++ R = [] -> rest <> []) ->
  exists buf, finish (V ++ R ++ cSLASH :: rest) (len V + len R + 1) (croot ++ 0 :: rc) (len V) = Some buf /\
    str_of buf = Some (if bool_decide (V ++ R = []) then [cSLASH] else take (length V) croot ++ R).
Proof.
  intros Hl Hcf HR Hrest. unfold finish. pose proof (len_nonneg V). pose proof (len_nonneg R).
  assert (len (take (length V) croot) = len V) as Hroot by (unfold len in *; rewrite length_take; lia).
  destruct (Z.ltb_spec 1 (len V + len R + 1)) as [Hlt|Hge].
  - rewrite bool_decide_false by (intros [-> ->]%app_eq_nil; unfold len in Hlt; simpl length in Hlt; lia).
    replace (len V + len R + 1 - 1) with (len (V ++ R)) by (rewrite len_app; lia).
    rewrite app_assoc, set_middle. cbn [mbind option_bind]. destruct (Z.eqb_spec (len V) 0) as [E0|E0].
    + apply len_0 in E0 as ->. eexists. split; [done|]. by apply str_of_app.
    + rewrite rd_ok by (rewrite ?len_app, ?len_cons; pose proof (len_nonneg rc); lia). cbn [mbind option_bind].
      assert (sub 0 (len V) (croot ++ 0 :: rc) = take (length V) croot) as ->.
      { unfold sub, len. rewrite Nat2Z.id, drop_0, take_app_le; [done|unfold len in *; lia]. }
      rewrite <- app_assoc. rewrite (wr_app [] (V ++ R ++ 0 :: rest)).
      2: { rewrite len_app. pose proof (len_nonneg (R ++ 0 :: rest)). lia. }
      eexists. split; [done|]. cbn [app]. rewrite drop_app_length' by (unfold len in *; lia).
      rewrite app_assoc. apply str_of_app, Forall_app. split; [by apply Forall_take|done].
  - assert (V = [] /\ R = []) as [-> ->] by (split; apply len_0; lia).
    destruct rest as [|y rest]; [by destruct Hrest|]. cbn [app].
    change (len [] + len [] + 1) with (len [cSLASH]). rewrite (set_middle [cSLASH] y rest). cbn [mbind option_bind].
    eexists. split; done.
Qed.

Lemma path_string_parts V X croot ns : length V = length X -> len X <= len croot ->
  (if bool_decide (V ++ render ns = []) then [cSLASH] else take (length V) croot ++ render ns) =
  path_string (take (length X) croot) ns.
Proof.
  intros Hlen Hl. unfold path_string. rewrite Hlen.
  assert (take (length X) croot = [] <-> V = []) as HtV.
  { rewrite <- (length_zero_iff_nil V), <- length_zero_iff_nil. unfold len in Hl. rewrite length_take. lia. }
  assert (render ns = [] <-> ns = []) as HtR by (unfold render; by destruct ns).
  destruct (bool_decide (V ++ render ns = [])) eqn:E.
  - apply bool_decide_eq_true, app_eq_nil in E as [??]. rewrite !bool_decide_true by tauto. done.
  - apply bool_decide_eq_false in E. destruct (bool_decide (take _ _ = [])) eqn:E1; [|done].
    destruct (bool_decide (ns = [])) eqn:E2; [|done]. apply bool_decide_eq_true in E1, E2.
    destruct E. by rewrite (proj1 HtV E1), (proj2 HtR E2).
Qed.

Lemma normalise_spec X s r chroot croot :
  Forall (fun c => c <> 0) s -> str_of chroot = Some croot -> len X <= len croot ->
  exists res, normalise (X ++ cSLASH :: s ++ 0 :: r) chroot (len X) = Some res /\
    if bool_decide (len (split s) < MAX_PATH_SLASHES)
    then exists buf, res = Some buf /\ str_of buf = Some (path_string (take (length X) croot) (norm (split s)))
    else res = None.
Proof.
  intros Hs Hch Hl. unfold normalise. set (B := X ++ cSLASH :: s ++ 0 :: r).
  assert (B = (X ++ [cSLASH]) ++ s ++ 0 :: r) as HB by (subst B; by rewrite <- app_assoc).
  assert (len X + 1 = len (X ++ [cSLASH])) as HX by (by rewrite len_app).
  replace (drop (Z.to_nat (len X + 1)) B) with (s ++ 0 :: r).
  2: { rewrite HB, HX. unfold len. by rewrite Nat2Z.id, drop_app_length. }
  destruct (scan_split s r Hs (len X + 1) 1) as [->|?]; [|lia]. cbn [mbind option_bind].
  replace (1 + len (split s) - 1) with (len (split s)) by lia.
  case_bool_decide as Hn; [|by eexists]. pose proof (split_at_buffer s Hs (X ++ [cSLASH]) r) as Hcs.
  rewrite <- HB, <- HX in Hcs. set (ps := offsets (split s) (len X + 1)) in *.
  assert (len X + 1 :: drop 1 ps.*1 = ps.*1) as ->.
  { subst ps. destruct (split_cons s) as (n & ns & ->). done. }
  destruct (cleanup_norm B ps [] (len X + 1)) as (qs & Hcl & Hnorm & Hqs & Hsp); [done|apply offsets_spaced|].
  change (cleanup B [] ps.*1) with (cleanup B (@nil (Z * list Z)).*1 ps.*1). rewrite Hcl. cbn [mbind option_bind].
  assert (qs.*2 = norm (split s)) as Hq by (rewrite <- Hnorm; subst ps; by rewrite offsets_names).
  destruct (store_slash X (s ++ 0 :: r)) as (V & HV & HsetV). fold B in HsetV. rewrite HsetV. cbn [mbind option_bind].
  assert (len X + 1 < len B) as HlB.
  { subst B. rewrite len_app, len_cons, len_app, len_cons. pose proof (len_nonneg s). pose proof (len_nonneg r). lia. }
  assert (len (V ++ [cSLASH]) = len X + 1) as HVl by (rewrite len_app, HV; done).
  destruct (rebuild_spec B qs (V ++ [cSLASH]) Hqs) as [Hrb HW]; [by rewrite HVl|lia|]. rewrite HVl in Hrb.
  rewrite Hrb. cbn [mbind option_bind]. pose proof (nulfree_names _ _ Hqs) as Hnf. rewrite Hq in *.
  rewrite <- app_assoc, render_shift in HW |- *. set (R := render (norm (split s))) in *.
  destruct (str_of_split _ _ Hch) as (rc & -> & Hcf). unfold patched.
  set (rest := drop (length (V ++ R ++ [47])) B).
  destruct (finish_spec V R rest rc croot) as (buf & Hf & Hbuf); [lia|done|done| |].
  { intros [HV0 HR0]%app_eq_nil Hr. apply (f_equal length) in Hr. subst rest. rewrite HV0, HR0 in Hr.
    rewrite length_drop in Hr. rewrite HV0 in HV. unfold len in *. simpl length in *. lia. }
  rewrite !len_app, HV in *. change (len [47]) with 1. rewrite <- !app_assoc. cbn [app].
  rewrite Z.add_assoc, Hf. cbn [mbind option_bind]. eexists. split; [done|]. eexists. split; [done|].
  rewrite Hbuf. f_equal. apply path_string_parts; [by unfold len in HV; lia|done].
Qed.
End normalise.

(** ** Theorems *)
Module PathProps.

(** Blocks of the size asked for. *)
Definition alloc_ok (alloc : Z -> option (list Z)) : Prop :=
  forall n, 0 <= n -> exists b, alloc n = Some b /\ len b = n.

(** A chroot without its trailing slash. *)
Definition trim (s : list Z) : list Z :=
  if bool_decide (last s = Some cSLASH) then removelast s else s.

Lemma strcpy_at_end (b s l : list Z) (X : list Z) : str_of s = Some l -> b = X ++ drop (length X) b ->
  len X + len l < len b ->
  strcpy_at b (len X) s = Some (X ++ l ++ 0 :: drop (S (length X + length l)) b).
Proof.
  intros Hs Hb Hl. unfold strcpy_at. pose proof (len_nonneg X). pose proof (len_nonneg l).
  replace ((0 <=? len X) && (len X <=? len b)) with true by (symmetry; lia).
  unfold len at 1. rewrite Nat2Z.id. rewrite (strcpy_str _ _ Hs) by (rewrite length_drop; unfold len in *; lia).
  cbn [mbind option_bind]. f_equal. unfold len at 1. rewrite Nat2Z.id. rewrite Hb at 1. rewrite take_app_length.
  do 3 f_equal. rewrite drop_drop. f_equal. lia.
Qed.

Lemma trim_len chroot croot : str_of chroot = Some croot ->
  chroot_len chroot = Some (len (trim croot)) /\
  trim croot = take (length (trim croot)) croot /\ len (trim croot) <= len croot.
Proof.
  intros H. unfold chroot_len. rewrite (strlen_str _ _ H). cbn [mbind option_bind].
  destruct (str_of_split _ _ H) as (r & -> & _). clear H. destruct croot as [|x l _] using rev_ind; [done|].
  replace (len (l ++ [x]) =? 0) with false by (rewrite len_app; change (len [x]) with 1; pose proof (len_nonneg l); symmetry; lia).
  rewrite len_app. change (len [x]) with 1. replace (len l + 1 - 1) with (len l) by lia.
  rewrite <- app_assoc. cbn [app]. rewrite get_middle. cbn [mbind option_bind negb andb]. unfold trim. rewrite last_snoc.
  destruct (x =? cSLASH) eqn:E; bools.
  - rewrite bool_decide_true by congruence. rewrite removelast_app_one, take_app_length. split_and!; [done|done|lia].
  - rewrite bool_decide_false by congruence. rewrite firstn_all, len_app. split_and!; [done|done|change (len [x]) with 1; lia].
Qed.

(** What the string says about an assembled buffer. *)
Lemma drop_exact (b X : list Z) n : len b = n -> n = len X -> drop (length X) b = [].
Proof. intros ? ?. apply drop_ge. unfold len in *. lia. Qed.

Lemma front_buffer (b : list Z) (n : Z) : 0 <= n <= len b ->
  exists X, len X = n /\ b = X ++ drop (length X) b.
Proof.
  intros Hn. exists (take (Z.to_nat n) b). split; [rewrite len_take by lia; lia|].
  rewrite length_take. replace (Z.to_nat n `min` length b)%nat with (Z.to_nat n) by (unfold len in *; lia).
  by rewrite take_drop.
Qed.

(** Absolute paths: the buffer is the gap for the chroot and the path. *)
Lemma assemble_abs alloc p Path chrootLen : alloc_ok alloc -> str_of Path = Some p -> 0 <= chrootLen ->
  exists b X, alloc (chrootLen + len p + 1) = Some b /\ len X = chrootLen /\
    strcpy_at b chrootLen Path = Some (X ++ p ++ [0]).
Proof.
  intros Ha Hp Hc. pose proof (len_nonneg p). destruct (Ha (chrootLen + len p + 1)) as (b & Hb & Hlb); [lia|].
  destruct (front_buffer b chrootLen) as (X & HX & HbX); [lia|]. exists b, X. split_and!; [done..|].
  rewrite <- HX. rewrite (strcpy_at_end _ _ _ _ Hp HbX) by lia. do 4 f_equal. apply drop_ge. unfold len in *. lia.
Qed.

(** Relative paths: the gap, the working directory and, a character after its
    end, the path; the slash goes to index [cwdLen]. *)
Lemma assemble_rel alloc p Path w cwd n : alloc_ok alloc -> str_of Path = Some p -> str_of cwd = Some w -> 0 <= n ->
  exists b X, alloc (n + len w + 1 + len p + 1) = Some b /\ len X = n /\
    strcpy_at b n cwd = Some (X ++ w ++ 0 :: drop (S (length X + length w)) b) /\
    forall Y, length Y = length (X ++ w ++ [0]) ->
      strcpy_at (Y ++ drop (S (length X + length w)) b) (n + len w + 1) Path = Some (Y ++ p ++ [0]).
Proof.
  intros Ha Hp Hw Hn. pose proof (len_nonneg p). pose proof (len_nonneg w).
  destruct (Ha (n + len w + 1 + len p + 1)) as (b & Hb & Hlb); [lia|].
  destruct (front_buffer b n) as (X & HX & HbX); [lia|]. exists b, X. split_and!; [done..| |].
  - rewrite <- HX. by rewrite (strcpy_at_end _ _ _ _ Hw HbX) by lia.
  - intros Y HY. rewrite !length_app in HY. simpl in HY.
    replace (n + len w + 1) with (len Y) by (unfold len in *; lia).
    rewrite (strcpy_at_end _ _ _ _ Hp).
    + do 4 f_equal. apply drop_ge. rewrite length_app, length_drop. unfold len in *. lia.
    + by rewrite drop_app_length.
    + rewrite len_app. unfold len in *. rewrite length_drop. lia.
Qed.

Lemma first_char Path p : str_of Path = Some p -> get Path 0 = Some (default 0 (head p)).
Proof. intros (r & -> & _)%str_of_split. by destruct p. Qed.

(** C11: For an absolute path under any process root, and for a relative path in a process without a root of its own
    (or with /), when memory can be allocated, the working directory is absolute and the path does not start with $:
    VFS_GetAbsPath returns the process root followed by the normalised names (empty and . names dropped, .. removing the
    name before it, never above the root), or NULL from 256 names on. Relative paths under another process root are
    excluded: GetAbsPath_chroot_relative_lost shows that the code loses them. *)
Theorem GetAbsPath_normalises alloc chroot cwd Path croot w p :
  alloc_ok alloc -> str_of (default [0] chroot) = Some croot ->
  str_of (default [cSLASH; 0] cwd) = Some (cSLASH :: w) -> str_of Path = Some p ->
  head p <> Some cDOLLAR -> head p = Some cSLASH \/ trim croot = [] ->
  let s := if bool_decide (head p = Some cSLASH) then tail p else w ++ cSLASH :: p in
  exists r, VFS_GetAbsPath alloc chroot cwd Path = Some r /\
    if bool_decide (len (split s) < MAX_PATH_SLASHES)
    then exists buf, r = Some buf /\ str_of buf = Some (path_string (trim croot) (norm (split s)))
    else r = None.
Proof.
  intros Ha Hch Hcwd Hp Hd Hor. destruct (trim_len _ _ Hch) as (Hcl & Htrim & Hle).
  destruct (str_of_split _ _ Hp) as (_ & _ & Hpf). destruct (str_of_split _ _ Hcwd) as (_ & _ & Hwf).
  apply Forall_cons_1 in Hwf as [_ Hwf]. pose proof (len_nonneg (trim croot)).
  unfold VFS_GetAbsPath. rewrite (strlen_str _ _ Hp), (first_char _ _ Hp). cbn [mbind option_bind].
  replace (default 0 (head p) =? cDOLLAR) with false by (destruct p; simpl in *; [done|symmetry; apply Z.eqb_neq; congruence]).
  rewrite Hcl. cbn [mbind option_bind]. destruct (decide (head p = Some cSLASH)) as [Habs|Habs];
    [rewrite (bool_decide_true (head p = _)) by done|rewrite (bool_decide_false (head p = _)) by done].
  - destruct p as [|c p]; [discriminate Habs|]. injection Habs as ->. cbn [head default from_option id tail].
    change (47 =? 47) with true. cbn match. destruct (assemble_abs alloc _ _ (len (trim croot)) Ha Hp) as (b & X & -> & HX & ->); [done|].
    cbn [mbind option_bind]. rewrite <- HX. apply Forall_cons_1 in Hpf as [_ Hpf].
    destruct (normalise_spec X p [] _ _ Hpf Hch) as (r & Hr & Hres); [lia|]. cbn [app] in *. exists r.
    split; [done|]. replace (trim croot) with (take (length X) croot); [done|].
    rewrite Htrim at 1. f_equal. unfold len in HX. lia.
  - replace (default 0 (head p) =? cSLASH) with false by (destruct p; simpl in *; [done|symmetry; apply Z.eqb_neq; congruence]).
    destruct Hor as [?|Ht]; [done|]. rewrite Ht in *. change (len []) with 0.
    rewrite (strlen_str _ _ Hcwd). cbn [mbind option_bind].
    destruct (assemble_rel alloc _ _ _ _ 0 Ha Hp Hcwd) as (b & X & -> & HX & -> & Hcp); [done|].
    apply len_0 in HX as ->. cbn [mbind option_bind].
    rewrite app_nil_l, (set_middle (cSLASH :: w)). cbn [mbind option_bind].
    specialize (Hcp ((cSLASH :: w) ++ [cSLASH])). rewrite <- app_assoc in Hcp. cbn [app] in Hcp |- *.
    rewrite Hcp by (cbn; by rewrite !length_app). cbn [mbind option_bind]. rewrite <- app_assoc.
    assert (Forall (fun c => c <> 0) (w ++ cSLASH :: p)) as Hf by (apply Forall_app; split; [done|by constructor]).
    destruct (normalise_spec [] (w ++ cSLASH :: p) [] _ _ Hf Hch) as (r & Hr & Hres); [apply len_nonneg|].
    exists r. cbn [app length take] in *. by rewrite <- app_assoc in Hr.
Qed.

Lemma GetAbsPath_normalises_witness : exists buf,
  VFS_GetAbsPath (fun n => Some (replicate (Z.to_nat n) 99)) None (Some [47; 97; 47; 98; 0])
    [46; 46; 47; 47; 99; 47; 46; 0] = Some (Some buf) /\ str_of buf = Some [47; 97; 47; 99].
Proof.
  destruct (GetAbsPath_normalises (fun n => Some (replicate (Z.to_nat n) 99)) None (Some [47; 97; 47; 98; 0])
    [46; 46; 47; 47; 99; 47; 46; 0] [] [97; 47; 98] [46; 46; 47; 47; 99; 47; 46]) as (r & Hr & Hb);
    [|reflexivity|reflexivity|reflexivity|discriminate|right; reflexivity|].
  - intros n Hn. eexists. split; [reflexivity|]. unfold len. rewrite length_replicate. lia.
  - destruct Hb as (buf & -> & Hs). exists buf. split; [exact Hr|]. rewrite Hs. vm_compute. reflexivity.
Defined.

(** In a process with a chroot (of two characters or more) whose working
    directory is its root, every relative path resolves to the chroot directory
    itself: the slash that should join the working directory and the path is
    stored at index cwdLen instead of chrootLen + cwdLen, so the string ends
    before the path. *)
Theorem GetAbsPath_chroot_relative_lost alloc chroot Path croot p :
  alloc_ok alloc -> str_of chroot = Some croot -> (2 <= length (trim croot))%nat -> str_of Path = Some p ->
  head p <> Some cDOLLAR -> head p <> Some cSLASH ->
  exists buf, VFS_GetAbsPath alloc (Some chroot) None Path = Some (Some buf) /\ str_of buf = Some (trim croot).
Proof.
  intros Ha Hch Hr Hp Hd Hsl. destruct (trim_len _ _ Hch) as (Hcl & Htrim & Hle).
  unfold VFS_GetAbsPath. rewrite (strlen_str _ _ Hp), (first_char _ _ Hp). cbn [mbind option_bind].
  replace (default 0 (head p) =? cDOLLAR) with false by (destruct p; simpl in *; [done|symmetry; apply Z.eqb_neq; congruence]).
  replace (default 0 (head p) =? cSLASH) with false by (destruct p; simpl in *; [done|symmetry; apply Z.eqb_neq; congruence]).
  cbn [default from_option id]. rewrite Hcl. cbn [mbind option_bind].
  destruct (assemble_rel alloc _ _ [cSLASH] [cSLASH; 0] (len (trim croot)) Ha Hp) as (b & X & Hb & HX & Hcp1 & Hcp);
    [done|apply len_nonneg|]. change (len [47]) with 1 in *.
  change (strlen [47; 0]) with (Some 1). cbn [mbind option_bind]. rewrite Hb, Hcp1. cbn [mbind option_bind].
  destruct X as [|x [|y X]]; [unfold len in HX; simpl in HX; lia..|]. set (d := drop _ b) in *.
  change ((x :: y :: X) ++ [cSLASH] ++ 0 :: d) with ([x] ++ y :: (X ++ cSLASH :: 0 :: d)).
  change 1 with (len [x]) at 1. rewrite set_middle. cbn [mbind option_bind].
  replace ([x] ++ cSLASH :: X ++ cSLASH :: 0 :: d) with ((x :: cSLASH :: X ++ [cSLASH; 0]) ++ d) by (cbn; by rewrite <- app_assoc).
  rewrite Hcp by (cbn; by rewrite !length_app). cbn [mbind option_bind].
  replace ((x :: cSLASH :: X ++ [cSLASH; 0]) ++ p ++ [0]) with ((x :: cSLASH :: X) ++ cSLASH :: [] ++ 0 :: p ++ [0])
    by (cbn; by rewrite <- app_assoc).
  assert (len (x :: cSLASH :: X) = len (trim croot)) as HX' by (rewrite <- HX; by rewrite !len_cons).
  rewrite <- HX'. destruct (normalise_spec (x :: cSLASH :: X) [] (p ++ [0]) chroot croot) as (r & -> & buf & -> & Hs);
    [constructor|done|lia|]. exists buf. split; [done|]. rewrite Hs.
  replace (length (x :: cSLASH :: X)) with (length (trim croot)) by (unfold len in HX'; lia). rewrite <- Htrim.
  unfold path_string. rewrite bool_decide_false by (intros E; rewrite E in Hr; simpl in Hr; lia). cbn. by rewrite app_nil_r.
Qed.

Lemma GetAbsPath_chroot_relative_lost_witness : exists buf,
  VFS_GetAbsPath (fun n => Some (replicate (Z.to_nat n) 99)) (Some [47; 114; 0]) None [102; 111; 111; 0] = Some (Some buf) /\
  str_of buf = Some [47; 114].
Proof.
  refine (GetAbsPath_chroot_relative_lost _ [47; 114; 0] [102; 111; 111; 0] [47; 114] [102; 111; 111] _ eq_refl _ eq_refl _ _);
    [|vm_compute; lia|discriminate|discriminate].
  intros n Hn. eexists. split; [reflexivity|]. unfold len. rewrite length_replicate. lia.
Defined.
End PathProps.
