(* ===== verification/VfsState.v ===== *)
(** The state of the VFS ([KernelLand/Kernel/include/vfs.h], [vfs_int.h]) and the
    operations on handles of [KernelLand/Kernel/vfs/handle.c].

    Nodes, mounts and handles are structures at addresses; a NULL pointer is 0.
    Filesystems are reached through their node types and drivers only, which
    are tables of operations on this state (absent methods are NULL).  The
    model is of one thread of execution at a time: the mount list lock, which
    every operation takes and releases again, is not represented. *)
From S2P Require Import Prelude CString VfsAcl.

Local Open Scope Z_scope.

Module VfsErrno.
Abbreviation EINVAL := 5 (only parsing).
Abbreviation EBADF := 6 (only parsing).
Abbreviation ENOMEM := 7 (only parsing).
Abbreviation EACCES := 8 (only parsing).
Abbreviation EBUSY := 9 (only parsing).
Abbreviation ENOTIMPL := 12 (only parsing).
Abbreviation ENOENT := 13 (only parsing).
Abbreviation EEXIST := 14 (only parsing).
Abbreviation ENFILE := 15 (only parsing).
Abbreviation ENOTDIR := 16 (only parsing).
Abbreviation EISDIR := 17 (only parsing).
Abbreviation EPERM := 24 (only parsing).
Abbreviation EAGAIN := 26 (only parsing).
Abbreviation EINTERNAL := 35 (only parsing).
End VfsErrno.
Export VfsErrno.

Abbreviation VFS_OPENFLAG_EXEC := 1 (only parsing).
Abbreviation VFS_OPENFLAG_READ := 2 (only parsing).
Abbreviation VFS_OPENFLAG_WRITE := 4 (only parsing).
Abbreviation VFS_OPENFLAG_NOLINK := 64 (only parsing).
Abbreviation VFS_OPENFLAG_CREATE := 128 (only parsing).
Abbreviation VFS_OPENFLAG_NONBLOCK := 256 (only parsing).
Abbreviation VFS_OPENFLAG_USER := 32768 (only parsing).
Abbreviation VFS_KERNEL_FLAG := 1073741824 (only parsing).
Abbreviation VFS_FFLAG_DIRECTORY := 2 (only parsing).
Abbreviation VFS_FFLAG_SYMLINK := 4 (only parsing).
Abbreviation VFS_NODETYPEFLAG_NOAUTOEXPAND := 1 (only parsing).
Abbreviation VFS_NODETYPEFLAG_STREAM := 2 (only parsing).
Abbreviation VFS_IOFLAG_NOBLOCK := 1 (only parsing).
Abbreviation MAX_KERNEL_FILES := 128 (only parsing).

(** [flag x f]: the C test [x & f]. *)
Definition flag (x f : Z) : bool := negb (Z.land x f =? 0).

(** ** Structures *)
Record tVFS_Node := MkNode {
  n_Type : Z; n_Inode : Z; n_ImplPtr : Z; n_ReferenceCount : Z; n_Size : Z; n_Flags : Z;
  n_UID : Z; n_GID : Z; n_NumACLs : Z; n_ACLs : list tVFS_ACL }.

(** [MountPoint], [Device] and [Options] are the strings in [StrData], with their
    terminators. *)
Record tVFS_Mount := MkMount {
  MountPoint : list Z; MountPointLen : Z; Identifier : Z; m_Device : list Z; m_Options : list Z;
  m_Filesystem : Z; RootNode : Z; OpenHandleCount : Z }.

Record tVFS_Handle := MkHandle { h_Node : Z; h_Mount : Z; h_Position : Z; h_Mode : Z }.
Definition zero_handle : tVFS_Handle := MkHandle 0 0 0 0.

Record tVFS_MarshalledHandle := MkMarshal { mh_Magic : Z; mh_AllocTime : Z; mh_Handle : tVFS_Handle }.

#[export] Instance tVFS_Node_eq_dec : EqDecision tVFS_Node.
Proof. solve_decision. Defined.
#[export] Instance tVFS_Mount_eq_dec : EqDecision tVFS_Mount.
Proof. solve_decision. Defined.
#[export] Instance tVFS_Handle_eq_dec : EqDecision tVFS_Handle.
Proof. solve_decision. Defined.

(** Why an operation does not return: a use of memory that is not there (a NULL or
    unmapped pointer, an overrun), a use of a mount that has been freed, a failed
    ASSERT, a kernel panic, the process being terminated, a loop without end, a
    signed counter that leaves the range of [int] (undefined in C). *)
Inductive stop := SFault | SFreed | SAssert | SPanic | SExit | SLoop | SOverflow.

(** The state.  [E] is what the filesystems keep for themselves.  A handle table is
    [None] while its memory is not mapped; [v_others] are the tables of the other
    processes and [v_saved] the arrays of VFS_SaveHandles, by address.  [v_alloc]
    decides the coming allocations; [v_mountfile] and [v_driverfile] are the
    texts behind gsVFS_MountFile and gsVFS_DriverFile. *)
Record vfs (E : Type) := MkVfs {
  v_nodes : gmap Z tVFS_Node;
  v_mounts : gmap Z tVFS_Mount;
  v_list : list Z;
  v_root : Z;
  v_ident : Z;
  v_user : option (list tVFS_Handle);
  v_kern : option (list tVFS_Handle);
  v_others : list (list tVFS_Handle);
  v_saved : gmap Z (list tVFS_Handle);
  v_marshal : list tVFS_MarshalledHandle;
  v_maxfd : Z; v_uid : Z; v_gid : Z;
  v_cwd : option (list Z); v_chroot : option (list Z);
  v_errno : Z;
  v_drivers : list Z;
  v_alloc : list bool;
  v_next : Z;
  v_ext : E;
  v_mountfile : list Z; v_driverfile : list Z }.
Arguments MkVfs {E}.
Arguments v_nodes {E} v. Arguments v_mounts {E} v. Arguments v_list {E} v. Arguments v_root {E} v.
Arguments v_ident {E} v. Arguments v_user {E} v. Arguments v_kern {E} v. Arguments v_others {E} v.
Arguments v_saved {E} v. Arguments v_marshal {E} v. Arguments v_maxfd {E} v. Arguments v_uid {E} v.
Arguments v_gid {E} v. Arguments v_cwd {E} v. Arguments v_chroot {E} v. Arguments v_errno {E} v.
Arguments v_drivers {E} v. Arguments v_alloc {E} v. Arguments v_next {E} v. Arguments v_ext {E} v.
Arguments v_mountfile {E} v. Arguments v_driverfile {E} v.

Definition VM (E A : Type) : Type := M (vfs E) stop A.

(** Methods of a node type; buffers written by a method are returned. *)
Record tVFS_NodeType (E : Type) := MkType {
  t_Flags : Z;
  t_Reference : option (Z -> VM E unit);
  t_Close : option (Z -> VM E unit);
  t_IOCtl : option (Z -> Z -> VM E Z);
  t_Read : option (Z -> Z -> Z -> Z -> VM E (Z * list Z));
  t_Write : option (Z -> Z -> Z -> list Z -> Z -> VM E Z);
  t_Truncate : option (Z -> Z -> VM E Z);
  t_FindDir : option (Z -> list Z -> Z -> VM E Z);
  t_ReadDir : option (Z -> Z -> VM E (Z * list Z));
  t_MkNod : option (Z -> list Z -> Z -> VM E Z) }.
Arguments MkType {E}. Arguments t_Flags {E} t. Arguments t_Reference {E} t. Arguments t_Close {E} t.
Arguments t_IOCtl {E} t. Arguments t_Read {E} t. Arguments t_Write {E} t. Arguments t_Truncate {E} t.
Arguments t_FindDir {E} t. Arguments t_ReadDir {E} t. Arguments t_MkNod {E} t.

Record tVFS_Driver (E : Type) := MkDriver {
  d_Name : list Z;
  d_Detect : option (Z -> VM E Z);
  d_InitDevice : list Z -> list (list Z) -> VM E Z;
  d_Unmount : option (Z -> VM E unit);
  d_GetNodeFromINode : option (Z -> Z -> VM E Z) }.
Arguments MkDriver {E}. Arguments d_Name {E} t. Arguments d_Detect {E} t. Arguments d_InitDevice {E} t.
Arguments d_Unmount {E} t. Arguments d_GetNodeFromINode {E} t.

(** The code of the filesystems: node types and drivers by address; [None] is not
    mapped memory. *)
Class Filesystems (E : Type) := {
  types : Z -> option (tVFS_NodeType E);
  fsdrv : Z -> option (tVFS_Driver E) }.

(** ** Updates and accesses *)
Section state.
Context {E : Type}.
Implicit Types (s : vfs E).
Definition upd_nodes (x : gmap Z tVFS_Node) s : vfs E :=
  MkVfs x (v_mounts s) (v_list s) (v_root s) (v_ident s) (v_user s) (v_kern s) (v_others s) (v_saved s) (v_marshal s) (v_maxfd s) (v_uid s) (v_gid s) (v_cwd s) (v_chroot s) (v_errno s) (v_drivers s) (v_alloc s) (v_next s) (v_ext s) (v_mountfile s) (v_driverfile s).
Definition upd_mounts (x : gmap Z tVFS_Mount) s : vfs E :=
  MkVfs (v_nodes s) x (v_list s) (v_root s) (v_ident s) (v_user s) (v_kern s) (v_others s) (v_saved s) (v_marshal s) (v_maxfd s) (v_uid s) (v_gid s) (v_cwd s) (v_chroot s) (v_errno s) (v_drivers s) (v_alloc s) (v_next s) (v_ext s) (v_mountfile s) (v_driverfile s).
Definition upd_list (x : list Z) s : vfs E :=
  MkVfs (v_nodes s) (v_mounts s) x (v_root s) (v_ident s) (v_user s) (v_kern s) (v_others s) (v_saved s) (v_marshal s) (v_maxfd s) (v_uid s) (v_gid s) (v_cwd s) (v_chroot s) (v_errno s) (v_drivers s) (v_alloc s) (v_next s) (v_ext s) (v_mountfile s) (v_driverfile s).
Definition upd_root (x : Z) s : vfs E :=
  MkVfs (v_nodes s) (v_mounts s) (v_list s) x (v_ident s) (v_user s) (v_kern s) (v_others s) (v_saved s) (v_marshal s) (v_maxfd s) (v_uid s) (v_gid s) (v_cwd s) (v_chroot s) (v_errno s) (v_drivers s) (v_alloc s) (v_next s) (v_ext s) (v_mountfile s) (v_driverfile s).
Definition upd_ident (x : Z) s : vfs E :=
  MkVfs (v_nodes s) (v_mounts s) (v_list s) (v_root s) x (v_user s) (v_kern s) (v_others s) (v_saved s) (v_marshal s) (v_maxfd s) (v_uid s) (v_gid s) (v_cwd s) (v_chroot s) (v_errno s) (v_drivers s) (v_alloc s) (v_next s) (v_ext s) (v_mountfile s) (v_driverfile s).
Definition upd_user (x : option (list tVFS_Handle)) s : vfs E :=
  MkVfs (v_nodes s) (v_mounts s) (v_list s) (v_root s) (v_ident s) x (v_kern s) (v_others s) (v_saved s) (v_marshal s) (v_maxfd s) (v_uid s) (v_gid s) (v_cwd s) (v_chroot s) (v_errno s) (v_drivers s) (v_alloc s) (v_next s) (v_ext s) (v_mountfile s) (v_driverfile s).
Definition upd_kern (x : option (list tVFS_Handle)) s : vfs E :=
  MkVfs (v_nodes s) (v_mounts s) (v_list s) (v_root s) (v_ident s) (v_user s) x (v_others s) (v_saved s) (v_marshal s) (v_maxfd s) (v_uid s) (v_gid s) (v_cwd s) (v_chroot s) (v_errno s) (v_drivers s) (v_alloc s) (v_next s) (v_ext s) (v_mountfile s) (v_driverfile s).
Definition upd_others (x : list (list tVFS_Handle)) s : vfs E :=
  MkVfs (v_nodes s) (v_mounts s) (v_list s) (v_root s) (v_ident s) (v_user s) (v_kern s) x (v_saved s) (v_marshal s) (v_maxfd s) (v_uid s) (v_gid s) (v_cwd s) (v_chroot s) (v_errno s) (v_drivers s) (v_alloc s) (v_next s) (v_ext s) (v_mountfile s) (v_driverfile s).
Definition upd_saved (x : gmap Z (list tVFS_Handle)) s : vfs E :=
  MkVfs (v_nodes s) (v_mounts s) (v_list s) (v_root s) (v_ident s) (v_user s) (v_kern s) (v_others s) x (v_marshal s) (v_maxfd s) (v_uid s) (v_gid s) (v_cwd s) (v_chroot s) (v_errno s) (v_drivers s) (v_alloc s) (v_next s) (v_ext s) (v_mountfile s) (v_driverfile s).
Definition upd_marshal (x : list tVFS_MarshalledHandle) s : vfs E :=
  MkVfs (v_nodes s) (v_mounts s) (v_list s) (v_root s) (v_ident s) (v_user s) (v_kern s) (v_others s) (v_saved s) x (v_maxfd s) (v_uid s) (v_gid s) (v_cwd s) (v_chroot s) (v_errno s) (v_drivers s) (v_alloc s) (v_next s) (v_ext s) (v_mountfile s) (v_driverfile s).
Definition upd_cwd (x : option (list Z)) s : vfs E :=
  MkVfs (v_nodes s) (v_mounts s) (v_list s) (v_root s) (v_ident s) (v_user s) (v_kern s) (v_others s) (v_saved s) (v_marshal s) (v_maxfd s) (v_uid s) (v_gid s) x (v_chroot s) (v_errno s) (v_drivers s) (v_alloc s) (v_next s) (v_ext s) (v_mountfile s) (v_driverfile s).
Definition upd_chroot (x : option (list Z)) s : vfs E :=
  MkVfs (v_nodes s) (v_mounts s) (v_list s) (v_root s) (v_ident s) (v_user s) (v_kern s) (v_others s) (v_saved s) (v_marshal s) (v_maxfd s) (v_uid s) (v_gid s) (v_cwd s) x (v_errno s) (v_drivers s) (v_alloc s) (v_next s) (v_ext s) (v_mountfile s) (v_driverfile s).
Definition upd_errno (x : Z) s : vfs E :=
  MkVfs (v_nodes s) (v_mounts s) (v_list s) (v_root s) (v_ident s) (v_user s) (v_kern s) (v_others s) (v_saved s) (v_marshal s) (v_maxfd s) (v_uid s) (v_gid s) (v_cwd s) (v_chroot s) x (v_drivers s) (v_alloc s) (v_next s) (v_ext s) (v_mountfile s) (v_driverfile s).
Definition upd_drivers (x : list Z) s : vfs E :=
  MkVfs (v_nodes s) (v_mounts s) (v_list s) (v_root s) (v_ident s) (v_user s) (v_kern s) (v_others s) (v_saved s) (v_marshal s) (v_maxfd s) (v_uid s) (v_gid s) (v_cwd s) (v_chroot s) (v_errno s) x (v_alloc s) (v_next s) (v_ext s) (v_mountfile s) (v_driverfile s).
Definition upd_alloc (x : list bool) s : vfs E :=
  MkVfs (v_nodes s) (v_mounts s) (v_list s) (v_root s) (v_ident s) (v_user s) (v_kern s) (v_others s) (v_saved s) (v_marshal s) (v_maxfd s) (v_uid s) (v_gid s) (v_cwd s) (v_chroot s) (v_errno s) (v_drivers s) x (v_next s) (v_ext s) (v_mountfile s) (v_driverfile s).
Definition upd_next (x : Z) s : vfs E :=
  MkVfs (v_nodes s) (v_mounts s) (v_list s) (v_root s) (v_ident s) (v_user s) (v_kern s) (v_others s) (v_saved s) (v_marshal s) (v_maxfd s) (v_uid s) (v_gid s) (v_cwd s) (v_chroot s) (v_errno s) (v_drivers s) (v_alloc s) x (v_ext s) (v_mountfile s) (v_driverfile s).
Definition upd_ext (x : E) s : vfs E :=
  MkVfs (v_nodes s) (v_mounts s) (v_list s) (v_root s) (v_ident s) (v_user s) (v_kern s) (v_others s) (v_saved s) (v_marshal s) (v_maxfd s) (v_uid s) (v_gid s) (v_cwd s) (v_chroot s) (v_errno s) (v_drivers s) (v_alloc s) (v_next s) x (v_mountfile s) (v_driverfile s).
Definition upd_maxfd (x : Z) s : vfs E :=
  MkVfs (v_nodes s) (v_mounts s) (v_list s) (v_root s) (v_ident s) (v_user s) (v_kern s) (v_others s) (v_saved s) (v_marshal s) x (v_uid s) (v_gid s) (v_cwd s) (v_chroot s) (v_errno s) (v_drivers s) (v_alloc s) (v_next s) (v_ext s) (v_mountfile s) (v_driverfile s).
Definition upd_mountfile (x : list Z) s : vfs E :=
  MkVfs (v_nodes s) (v_mounts s) (v_list s) (v_root s) (v_ident s) (v_user s) (v_kern s) (v_others s) (v_saved s) (v_marshal s) (v_maxfd s) (v_uid s) (v_gid s) (v_cwd s) (v_chroot s) (v_errno s) (v_drivers s) (v_alloc s) (v_next s) (v_ext s) x (v_driverfile s).
Definition upd_driverfile (x : list Z) s : vfs E :=
  MkVfs (v_nodes s) (v_mounts s) (v_list s) (v_root s) (v_ident s) (v_user s) (v_kern s) (v_others s) (v_saved s) (v_marshal s) (v_maxfd s) (v_uid s) (v_gid s) (v_cwd s) (v_chroot s) (v_errno s) (v_drivers s) (v_alloc s) (v_next s) (v_ext s) (v_mountfile s) x.

Definition modify (f : vfs E -> vfs E) : VM E unit := fun s => Ok tt (f s).
Local Open Scope monad_scope.

Definition set_errno (e : Z) : VM E unit := modify (upd_errno e).

(** Whether the next allocation succeeds. *)
Definition alloc_ok : VM E bool := fun s =>
  match v_alloc s with
  | [] => Ok true s
  | b :: l => Ok b (upd_alloc l s)
  end.

(** An address nothing has been put at. *)
Definition new_address : VM E Z := fun s => Ok (v_next s) (upd_next (v_next s + 1) s).

Definition node_at (p : Z) : VM E tVFS_Node := fun s =>
  match v_nodes s !! p with Some n => Ok n s | None => Stop SFault end.
Definition put_node (p : Z) (n : tVFS_Node) : VM E unit := modify (fun s => upd_nodes (<[p := n]> (v_nodes s)) s).

(** NULL is an ordinary fault; any other pointer to a mount was one once. *)
Definition mount_at (m : Z) : VM E tVFS_Mount := fun s =>
  if m =? 0 then Stop SFault else
  match v_mounts s !! m with Some x => Ok x s | None => Stop SFreed end.
Definition put_mount (m : Z) (x : tVFS_Mount) : VM E unit := modify (fun s => upd_mounts (<[m := x]> (v_mounts s)) s).

(** The count is an [int]. *)
Definition set_count (n : Z) (x : tVFS_Mount) : tVFS_Mount :=
  MkMount (MountPoint x) (MountPointLen x) (Identifier x) (m_Device x) (m_Options x) (m_Filesystem x) (RootNode x) (i32 n).

Definition ASSERT (b : bool) : VM E unit := if b then ret tt else halt SAssert.

(** The result of signed arithmetic on [int]. *)
Definition int_result (n : Z) : VM E Z := if i32 n =? n then ret n else halt SOverflow.

(** [OpenHandleCount ++] and [--]. *)
Definition mount_inc (m : Z) : VM E unit := do x <- mount_at m; do n <- int_result (OpenHandleCount x + 1); put_mount m (set_count n x).
Definition mount_dec (m : Z) : VM E unit := do x <- mount_at m; do n <- int_result (OpenHandleCount x - 1); put_mount m (set_count n x).

Definition _ReferenceMount (m : Z) : VM E unit := mount_inc m.
Definition _DereferenceMount (m : Z) : VM E unit :=
  do x <- mount_at m; ASSERT (0 <? OpenHandleCount x);;; mount_dec m.

Definition upd_refcount (f : Z -> Z) (n : tVFS_Node) : tVFS_Node :=
  MkNode (n_Type n) (n_Inode n) (n_ImplPtr n) (f (n_ReferenceCount n)) (n_Size n) (n_Flags n)
    (n_UID n) (n_GID n) (n_NumACLs n) (n_ACLs n).

Context {FS : Filesystems E}.

(** [Node->Type], dereferenced; NULL gives [None]. *)
Definition type_of (n : tVFS_Node) : VM E (option (tVFS_NodeType E)) :=
  if n_Type n =? 0 then ret None else
  match types (n_Type n) with Some t => ret (Some t) | None => halt SFault end.

Definition _CloseNode (p : Z) : VM E unit :=
  if p =? 0 then ret tt else
  do n <- node_at p; do t <- type_of n;
  match t with
  | Some t => match t_Close t with Some f => f p | None => ret tt end
  | None => ret tt
  end.

(** The check for an unmapped type only logs and returns. *)
Definition _ReferenceNode (p : Z) : VM E unit :=
  do n <- node_at p;
  if n_Type n =? 0 then ret tt else
  match types (n_Type n) with
  | None => ret tt
  | Some t => match t_Reference t with
              | Some f => f p
              | None => put_node p (upd_refcount (fun c => c + 1) n)
              end
  end.

Definition CheckACL (p : Z) (Permissions : Z) : VM E bool :=
  do n <- node_at p; do s <- get_state;
  match VFS_CheckACL (n_ACLs n) (n_NumACLs n) Permissions (v_uid s) (v_gid s) with
  | Some r => ret (negb (r =? 0))
  | None => halt SFault
  end.

(** ** Handles *)

(** A pointer into one of the two tables. *)
Inductive href := HUser (i : Z) | HKern (i : Z).

Definition table (r : href) (s : vfs E) : option (list tVFS_Handle) :=
  match r with HUser _ => v_user s | HKern _ => v_kern s end.
Definition hindex (r : href) : Z := match r with HUser i | HKern i => i end.
Definition upd_table (r : href) (t : list tVFS_Handle) : vfs E -> vfs E :=
  match r with HUser _ => upd_user (Some t) | HKern _ => upd_kern (Some t) end.

Definition hread (r : href) : VM E tVFS_Handle := fun s =>
  match table r s with
  | Some t => match get t (hindex r) with Some h => Ok h s | None => Stop SFault end
  | None => Stop SFault
  end.
Definition hwrite (r : href) (h : tVFS_Handle) : VM E unit := fun s =>
  match table r s with
  | Some t => match set t (hindex r) h with Some t' => Ok tt (upd_table r t' s) | None => Stop SFault end
  | None => Stop SFault
  end.

(** The slot a descriptor number stands for, before it is looked at. *)
Definition slot (FD : Z) : VM E (option href) :=
  if FD <? 0 then ret None else
  if flag FD VFS_KERNEL_FLAG then
    let i := Z.land FD (VFS_KERNEL_FLAG - 1) in
    if MAX_KERNEL_FILES <=? i then ret None else ret (Some (HKern i))
  else
    do s <- get_state;
    if v_maxfd s <=? FD then ret None else ret (Some (HUser FD)).

Definition VFS_GetHandle (FD : Z) : VM E (option href) :=
  do r <- slot FD;
  match r with
  | None => ret None
  | Some r => do h <- hread r; if h_Node h =? 0 then ret None else ret (Some r)
  end.

Definition VFS_SetHandle (FD Node Mode : Z) : VM E Z :=
  do r <- slot FD;
  match r with
  | None => ret (-1)
  | Some r => do h <- hread r; hwrite r (MkHandle Node (h_Mount h) (h_Position h) Mode);;; ret FD
  end.

(** The first slot without a node. *)
Fixpoint free_slot (t : list tVFS_Handle) (i : Z) : option Z :=
  match t with
  | [] => None
  | h :: t' => if h_Node h =? 0 then Some i else free_slot t' (i + 1)
  end.

(** [n] pages, one after the other. *)
Fixpoint map_pages (n : nat) (e : stop) : VM E unit :=
  match n with
  | O => ret tt
  | S n' => do b <- alloc_ok; if b then map_pages n' e else halt e
  end.

Abbreviation sizeof_handle := 20 (only parsing).

(** Mapping a table on first use: for a user table the loop steps by one and maps
    as many pages as the table has bytes, for the kernel's it runs once. *)
Definition map_table (bIsUser : bool) : VM E unit :=
  do s <- get_state;
  if bIsUser then
    match v_user s with
    | Some _ => ret tt
    | None => map_pages (Z.to_nat (v_maxfd s * sizeof_handle)) SExit;;;
              modify (upd_user (Some (replicate (Z.to_nat (v_maxfd s)) zero_handle)))
    end
  else
    match v_kern s with
    | Some _ => ret tt
    | None => map_pages 1 SPanic;;; modify (upd_kern (Some (replicate (Z.to_nat MAX_KERNEL_FILES) zero_handle)))
    end.

Definition VFS_AllocHandle (bIsUser : bool) (Node Mode : Z) : VM E Z :=
  map_table bIsUser;;;
  do s <- get_state;
  let mk i := if bIsUser then HUser i else HKern i in
  let max := if bIsUser then v_maxfd s else MAX_KERNEL_FILES in
  match free_slot (take (Z.to_nat max) (default [] (table (mk 0) s))) 0 with
  | None => ret (-1)
  | Some i =>
      do h <- hread (mk i);
      hwrite (mk i) (MkHandle Node (h_Mount h) 0 Mode);;;
      ret (if bIsUser then i else Z.lor i VFS_KERNEL_FLAG)
  end.

(** Referencing every open handle of an array. *)
Fixpoint reference_all (l : list tVFS_Handle) : VM E unit :=
  match l with
  | [] => ret tt
  | h :: l' =>
      (if h_Node h =? 0 then ret tt else _ReferenceNode (h_Node h);;; mount_inc (h_Mount h));;;
      reference_all l'
  end.

(** Called when the process is cloned. *)
Definition VFS_ReferenceUserHandles : VM E unit :=
  do s <- get_state;
  match v_user s with
  | None => ret tt
  | Some t => reference_all (take (Z.to_nat (v_maxfd s)) t)
  end.

(** Closing the nodes of a table and clearing it; the mounts keep their counts. *)
Fixpoint close_all (l : list tVFS_Handle) : VM E (list tVFS_Handle) :=
  match l with
  | [] => ret []
  | h :: l' =>
      (if h_Node h =? 0 then ret tt else _CloseNode (h_Node h));;;
      do k <- close_all l';
      ret (MkHandle 0 (h_Mount h) (h_Position h) (h_Mode h) :: k)
  end.

(** [PAGE_SIZE / sizeof(tVFS_Handle)]. *)
Abbreviation MAX_TABLE_PAGE := 204 (only parsing).

(** [VFS_CloseAllUserHandles] of another process, number [i] of [v_others]. *)
Definition VFS_CloseAllUserHandles (i : nat) : VM E unit :=
  do s <- get_state;
  if MAX_TABLE_PAGE <=? v_maxfd s then halt SPanic else
  match v_others s !! i with
  | None => ret tt
  | Some t => do t' <- close_all t; modify (fun s => upd_others (<[i := t']> (v_others s)) s)
  end.

(** The copies VFS_SaveHandles takes for a list of descriptors; a bad one
    abandons the whole array. *)
Fixpoint save_fds (FDs : list Z) : VM E (option (list tVFS_Handle)) :=
  match FDs with
  | [] => ret (Some [])
  | fd :: FDs' =>
      if fd <? -1 then
        do r <- save_fds FDs'; ret (option_map (cons zero_handle) r)
      else
        do h <- VFS_GetHandle (Z.land fd (VFS_KERNEL_FLAG - 1));
        match h with
        | None => ret None
        | Some h => do x <- hread h; do r <- save_fds FDs'; ret (option_map (cons x) r)
        end
  end.

(** The array has room for [NumFDs] handles, of which the first [max_handles] at
    most are filled in; [junk] is what the rest holds.  0 for NULL. *)
Definition VFS_SaveHandles (junk : tVFS_Handle) (NumFDs : Z) (FDs : option (list Z)) : VM E Z :=
  do s <- get_state;
  match v_user s with
  | None => ret 0
  | Some t =>
      do b <- alloc_ok;
      if negb (b : bool) then ret 0 else
      let n := Z.min NumFDs (v_maxfd s) in
      do r <- match FDs with
              | None => ret (Some (take (Z.to_nat n) t))
              | Some fds => save_fds (take (Z.to_nat n) fds)
              end;
      match r with
      | None => ret 0
      | Some l =>
          reference_all l;;;
          do p <- new_address;
          modify (fun s => upd_saved (<[p := l ++ replicate (Z.to_nat (NumFDs - n)) junk]> (v_saved s)) s);;;
          ret p
      end
  end.

(** Releasing an array: [chk] is the ASSERT of VFS_FreeSavedHandles, which
    VFS_RestoreHandles does not have. *)
Fixpoint release_all (chk : bool) (l : list tVFS_Handle) : VM E unit :=
  match l with
  | [] => ret tt
  | h :: l' =>
      (if h_Node h =? 0 then ret tt else
       _CloseNode (h_Node h);;;
       do m <- mount_at (h_Mount h);
       (if chk then ASSERT (0 <? OpenHandleCount m) else ret tt);;; mount_dec (h_Mount h));;;
      release_all chk l'
  end.

Definition VFS_RestoreHandles (NumFDs : Z) (Handles : Z) : VM E unit :=
  if Handles =? 0 then ret tt else
  do s <- get_state;
  let n := Z.min NumFDs (v_maxfd s) in
  match v_saved s !! Handles with
  | None => halt SFault
  | Some l =>
      match v_user s with
      | None =>
          if n <=? 0 then (if v_maxfd s <=? 0 then ret tt else halt SFault) else
          do b <- alloc_ok;
          if b then modify (upd_user (Some (replicate (Z.to_nat (v_maxfd s)) zero_handle))) else ret tt
      | Some t => release_all false (take (Z.to_nat n) t)
      end;;;
      do s1 <- get_state;
      match v_user s1 with
      | None => ret tt
      | Some t =>
          modify (upd_user (Some (take (Z.to_nat n) l ++
            ((fun h => MkHandle 0 (h_Mount h) (h_Position h) (h_Mode h)) <$> drop (Z.to_nat n) t))));;;
          reference_all (take (Z.to_nat n) l)
      end
  end.

Definition VFS_FreeSavedHandles (NumFDs : Z) (Handles : Z) : VM E unit :=
  if Handles =? 0 then ret tt else
  do s <- get_state;
  match v_saved s !! Handles with
  | None => halt SFault
  | Some l => release_all true (take (Z.to_nat NumFDs) l);;;
              modify (fun s => upd_saved (delete Handles (v_saved s)) s)
  end.

End state.
Arguments HUser i : assert.
