(* ===== verification/VfsOpen.v ===== *)
(** Path lookup and the operations of [KernelLand/Kernel/vfs/open.c], with memory
    files ([memfile.c]) created by path. *)
From S2P Require Import Prelude CString VfsAcl VfsPath VfsState.

Local Open Scope Z_scope.
Local Open Scope monad_scope.

Module VfsOpen.

Abbreviation MAX_PATH_LEN := 255 (only parsing).
Abbreviation MAX_NESTED_LINKS := 4 (only parsing).
Abbreviation MAX_MARSHALLED_HANDLES := 16 (only parsing).
Abbreviation gVFS_MemFileType := 7 (only parsing).

Section open.
Context {E : Type} {FS : Filesystems E}.

(** What memory that has not been written holds, and what is read past the end of
    a string. *)
Context (junk : Z).

(** A fault of the C library functions. *)
Definition lift {A} (o : option A) : VM E A := match o with Some a => ret a | None => halt SFault end.

Definition path_at (Path : list Z) (i : Z) : Z := default junk (get Path i).

(** ** Memory files *)

(** [Uint] arithmetic; digits 0-9 and A-F. *)
Fixpoint mem_hex (s : list Z) (acc : Z) : option (Z * list Z) :=
  match s with
  | [] => None
  | c :: s' =>
      if (c_0 <=? c) && (c <=? c_9) then mem_hex s' (u32 (u32 (acc * 16) + (c - c_0))) else
      if (c_A <=? c) && (c <=? c_F) then mem_hex s' (u32 (u32 (acc * 16) + (c - c_A + 10)))
      else Some (acc, s)
  end.

(** The base and size of a memory file's path; the inner [None] is NULL. *)
Definition mem_parse (Path : list Z) : option (option (Z * Z)) :=
  match Path with
  | [] => None
  | _ :: str =>
      '(base, str) ← mem_hex str 0;
      match str with
      | c :: str =>
          if negb (c =? 58) then Some None else
          '(size, str) ← mem_hex str 0;
          match str with
          | c :: _ => if negb (c =? 0) then Some None else Some (Some (base, size))
          | [] => None
          end
      | [] => None
      end
  end.

Definition VFS_MemFile_Create (Path : list Z) : VM E Z :=
  do r <- lift (mem_parse Path);
  match r with
  | None => ret 0
  | Some (base, size) =>
      do b <- alloc_ok;
      if negb (b : bool) then halt SFault else
      do p <- new_address;
      put_node p (MkNode gVFS_MemFileType base base 0 size 0 0 0 1 [gVFS_ACL_EveryoneRWX]);;;
      ret p
  end.

(** ** Path lookup *)

(** The mount for a path: the last one in the list of the longest mount points
    that are followed by a slash; a mount point that is the whole path ends the
    search ([true]).  [Path[mnt->MountPointLen]] is read whether or not the path
    is that long. *)
Fixpoint find_mount (Path : list Z) (l : list Z) (longest : Z) : VM E (Z * bool) :=
  match l with
  | [] => ret (longest, false)
  | m :: l' =>
      do x <- mount_at m;
      let c := path_at Path (MountPointLen x) in
      if negb (c =? cSLASH) && negb (c =? 0) then find_mount Path l' longest else
      do y <- mount_at longest;
      if MountPointLen x <? MountPointLen y then find_mount Path l' longest else
      do cmp <- lift (strncmp Path (MountPoint x) (MountPointLen x));
      if negb (cmp =? 0) then find_mount Path l' longest else
      if c =? 0 then ret (m, true) else find_mount Path l' m
  end.

(** How the walk over the path's elements ends: an error, a symbolic link at an
    offset, or the last element.  The true path is a string without its
    terminator, [None] while it is not wanted or has been freed. *)
Inductive walked :=
  | WErr (curNode : Z)
  | WLink (curNode ofs nextSlash : Z)
  | WEnd (curNode ofs : Z) (truepath : option (list Z)).

Fixpoint walk (fuel : nat) (Path : list Z) (ofs : Z) (curNode : Z) (tp : option (list Z)) : VM E walked :=
  match fuel with
  | O => halt SLoop
  | S fuel' =>
      do nextSlash <- lift (strpos (drop (Z.to_nat ofs) Path) cSLASH);
      if nextSlash =? -1 then ret (WEnd curNode ofs tp) else
      if nextSlash =? 0 then walk fuel' Path (ofs + nextSlash + 1) curNode tp else
      let pathEle := sub ofs nextSlash Path ++ [0] in
      do acl <- CheckACL curNode VFS_PERM_EXEC;
      if negb (acl : bool) then set_errno EPERM;;; ret (WErr curNode) else
      do n <- node_at curNode;
      do ty <- type_of n;
      match ty with
      | None => ret (WErr curNode)
      | Some ty =>
        match t_FindDir ty with
        | None => ret (WErr curNode)
        | Some FindDir =>
            do tmpNode <- FindDir curNode pathEle 0;
            _CloseNode curNode;;;
            if tmpNode =? 0 then set_errno ENOENT;;; ret (WErr 0) else
            do n <- node_at tmpNode;
            if flag (n_Flags n) VFS_FFLAG_SYMLINK then ret (WLink tmpNode ofs nextSlash) else
            if negb (flag (n_Flags n) VFS_FFLAG_DIRECTORY) then set_errno ENOTDIR;;; ret (WErr tmpNode) else
            match tp with
            | None => walk fuel' Path (ofs + nextSlash + 1) tmpNode None
            | Some t =>
                do b <- alloc_ok;
                if negb (b : bool) then set_errno ENOMEM;;; ret (WErr tmpNode) else
                walk fuel' Path (ofs + nextSlash + 1) tmpNode (Some (t ++ cSLASH :: sub ofs nextSlash Path))
            end
        end
      end
  end.

(** [strcat] onto a buffer from inside the same buffer. *)
Fixpoint copy_over (fuel : nat) (buf : list Z) (dst src : Z) : option (list Z) :=
  match fuel with
  | O => None
  | S fuel' =>
      c ← get buf src;
      if c =? 0 then set buf dst 0 else
      buf' ← set buf dst c; copy_over fuel' buf' (dst + 1) (src + 1)
  end.
Definition strcat_self (buf : list Z) (src : Z) : option (list Z) :=
  d ← strlen buf; copy_over (S (length buf)) buf d src.

(** [Path] is the caller's string or, after a symbolic link, [path_buffer]. *)
Inductive psrc := PArg (s : list Z) | PBuf.
Definition path_mem (src : psrc) (buf : list Z) : list Z := match src with PArg s => s | PBuf => buf end.

(** Putting the link's target into [path_buffer] and the rest of the path after it. *)
Definition follow_link (src : psrc) (buf : list Z) (node ofs nextSlash : Z) : VM E (option (list Z)) :=
  do n <- node_at node;
  do pathLen <- lift (strlen (path_mem src buf));
  let remlen := pathLen - (ofs + nextSlash) in
  if MAX_PATH_LEN <? n_Size n + remlen then ret None else
  do ty <- type_of n;
  match option_map t_Read ty with
  | Some (Some Read) =>
      do r <- Read node 0 (n_Size n) 0;
      do buf1 <- lift (wr buf 0 r.2);
      do buf2 <- lift (set buf1 (n_Size n) 0);
      match src with
      | PArg s => do r <- lift (strcat buf2 (drop (Z.to_nat (ofs + nextSlash)) s)); ret (Some r.1)
      | PBuf => do buf3 <- lift (strcat_self buf2 (ofs + nextSlash)); ret (Some buf3)
      end
  | _ => halt SFault
  end.

Record parsed := MkParsed { p_node : Z; p_true : option (list Z); p_mount : Z }.
Definition not_found : parsed := MkParsed 0 None 0.

(** The label [_error]. *)
Definition parse_error (mnt curNode : Z) : VM E parsed :=
  _CloseNode curNode;;; _DereferenceMount mnt;;; ret not_found.

(** The last element of the path. *)
Definition parse_last (Path : list Z) (mnt curNode ofs : Z) (tp : option (list Z)) : VM E parsed :=
  do n <- node_at curNode;
  do ty <- type_of n;
  match option_map t_FindDir ty with
  | Some (Some FindDir) =>
      do tmpNode <- FindDir curNode (drop (Z.to_nat ofs) Path) 0;
      if tmpNode =? 0 then set_errno ENOENT;;; parse_error mnt curNode else
      _CloseNode curNode;;;
      match tp with
      | None => ret (MkParsed tmpNode None mnt)
      | Some t =>
          do b <- alloc_ok;
          if negb (b : bool) then set_errno ENOMEM;;; parse_error mnt curNode else
          do name <- lift (str_of (drop (Z.to_nat ofs) Path));
          ret (MkParsed tmpNode (Some (t ++ cSLASH :: name)) mnt)
      end
  | _ => set_errno ENOENT;;; parse_error mnt curNode
  end.

(** From the label [restart_parse].  The fuel counts restarts, of which the limit on
    nested links allows six. *)
Fixpoint parse_restart (fuel : nat) (src : psrc) (buf : list Z) (iNestedLinks : Z) (want : bool) : VM E parsed :=
  match fuel with
  | O => halt SLoop
  | S fuel' =>
      let Path := path_mem src buf in
      do s <- get_state;
      if (path_at Path 0 =? cSLASH) && (path_at Path 1 =? 0) then
        do x <- mount_at (v_root s);
        do tp <- (if want then do b <- alloc_ok; if (b : bool) then do p <- lift (str_of (MountPoint x)); ret (Some p)
                  else halt SFault else ret None);
        _ReferenceMount (v_root s);;;
        ret (MkParsed (RootNode x) tp (v_root s))
      else
      match v_list s with
      | [] => ret not_found
      | _ =>
          do fm <- find_mount Path (v_list s) (v_root s);
          let '(m, exact) := fm in
          do x <- mount_at m;
          if (exact : bool) then
            do tp <- (if want then do b <- alloc_ok; if (b : bool) then do p <- lift (str_of (MountPoint x)); ret (Some p)
                      else halt SFault else ret None);
            _ReferenceMount m;;;
            ret (MkParsed (RootNode x) tp m)
          else
            _ReferenceMount m;;;
            do tp <- (if want then do b <- alloc_ok;
                        if (b : bool) then ret (Some (take (Z.to_nat (MountPointLen x)) (MountPoint x))) else halt SFault
                      else ret None);
            do r <- node_at (RootNode x);
            put_node (RootNode x) (upd_refcount (fun c => c + 1) r);;;
            do w <- walk (S (length Path)) Path (MountPointLen x + 1) (RootNode x) tp;
            match w with
            | WErr cur => parse_error m cur
            | WEnd cur ofs tp => parse_last Path m cur ofs tp
            | WLink cur ofs nextSlash =>
                do n <- node_at cur;
                do ty <- type_of n;
                match option_map t_Read ty with
                | Some (Some _) =>
                    if MAX_NESTED_LINKS <? iNestedLinks then set_errno ENOENT;;; parse_error m cur else
                    do nb <- follow_link src buf cur ofs nextSlash;
                    match nb with
                    | None => set_errno ENOENT;;; parse_error m cur
                    | Some nb => _DereferenceMount m;;; parse_restart fuel' PBuf nb (iNestedLinks + 1) want
                    end
                | _ => set_errno EINTERNAL;;; parse_error m cur
                end
            end
      end
  end.

(** [want]: the caller passed somewhere to store the true path.  The result's mount
    is meaningful when the node is not NULL. *)
Definition VFS_ParsePath (Path : list Z) (want : bool) : VM E parsed :=
  do s <- get_state;
  if (v_uid s =? 0) && (path_at Path 0 =? cDOLLAR) then
    do tp <- (if want then do b <- alloc_ok; if (b : bool) then do p <- lift (str_of Path); ret (Some p)
              else halt SFault else ret None);
    do p <- VFS_MemFile_Create Path;
    ret (MkParsed p tp 0)
  else parse_restart 6 (PArg Path) (replicate (Z.to_nat (MAX_PATH_LEN + 1)) junk) 0 want.

(** [VFS_GetAbsPath] in the current process. *)
Definition GetAbsPath (Path : list Z) : VM E (option (list Z)) :=
  do b <- alloc_ok; do s <- get_state;
  lift (VFS_GetAbsPath (fun n => if (b : bool) then Some (replicate (Z.to_nat n) junk) else None)
          (v_chroot s) (v_cwd s) Path).

(** ** Opening *)

(** A failure leaves the reference to the mount with nobody. *)
Definition VFS_int_CreateHandle (Node Mount Mode : Z) : VM E Z :=
  let i := Z.lor (Z.lor (if flag Mode VFS_OPENFLAG_EXEC then VFS_PERM_EXEC else 0)
                        (if flag Mode VFS_OPENFLAG_READ then VFS_PERM_READ else 0))
                 (if flag Mode VFS_OPENFLAG_WRITE then VFS_PERM_WRITE else 0) in
  do acl <- CheckACL Node i;
  if negb (acl : bool) then _CloseNode Node;;; set_errno EACCES;;; ret (-1) else
  do n <- node_at Node;
  if (n_Type n =? 0) || negb (bool_decide (is_Some (types (n_Type n)))) then set_errno EINTERNAL;;; ret (-1) else
  do fd <- VFS_AllocHandle (flag Mode VFS_OPENFLAG_USER) Node Mode;
  if fd <? 0 then set_errno ENFILE;;; ret (-1) else
  do r <- VFS_GetHandle fd;
  match r with
  | None => halt SFault
  | Some r => do h <- hread r; hwrite r (MkHandle (h_Node h) Mount (h_Position h) (h_Mode h));;; ret fd
  end.

(** Creating the file when the path was not found: [Some] the new node and its
    mount, or [None] after an error. *)
Definition open_create (absPath : list Z) : VM E (option (Z * Z)) :=
  do f <- lift (strrchr absPath cSLASH);
  match f with
  | None => halt SFault
  | Some ofs =>
      do dir <- lift (set absPath ofs 0);
      let file := drop (Z.to_nat (ofs + 1)) absPath in
      do p <- VFS_ParsePath dir false;
      if p_node p =? 0 then set_errno ENOENT;;; ret None else
      let fail : VM E (option (Z * Z)) := _CloseNode (p_node p);;; _DereferenceMount (p_mount p);;; ret None in
      do acl <- CheckACL (p_node p) (Z.lor VFS_PERM_EXEC VFS_PERM_WRITE);
      if negb (acl : bool) then set_errno EACCES;;; fail else
      do n <- node_at (p_node p);
      do ty <- type_of n;
      match option_map t_MkNod ty with
      | Some (Some MkNod) =>
          do node <- MkNod (p_node p) file 0;
          if node =? 0 then set_errno ENOENT;;; fail else
          _ReferenceMount (p_mount p);;;
          _CloseNode (p_node p);;;
          _DereferenceMount (p_mount p);;;
          ret (Some (node, p_mount p))
      | _ => set_errno EINVAL;;; fail
      end
  end.

(** The node a final symbolic link points to; [None] after an error. *)
Definition open_link (node mnt : Z) : VM E (option (Z * Z)) :=
  do n <- node_at node;
  let fail : VM E (option (Z * Z)) := _DereferenceMount mnt;;; _CloseNode node;;; ret None in
  if MAX_PATH_LEN <? n_Size n then fail else
  do ty <- type_of n;
  match option_map t_Read ty with
  | Some (Some Read) =>
      do r <- Read node 0 (n_Size n) 0;
      do buf <- lift (wr (replicate (Z.to_nat (n_Size n + 1)) junk) 0 r.2);
      do tmppath <- lift (set buf (n_Size n) 0);
      _CloseNode node;;;
      _DereferenceMount mnt;;;
      do p <- VFS_ParsePath tmppath false;
      if p_node p =? 0 then set_errno ENOENT;;; ret None
      else ret (Some (p_node p, p_mount p))
  | _ => fail
  end.

Definition VFS_OpenEx (Path : list Z) (Flags Mode : Z) : VM E Z :=
  do absPath <- GetAbsPath Path;
  match absPath with
  | None => ret (-1)
  | Some absPath =>
      do p <- VFS_ParsePath absPath false;
      do nm <- (if (p_node p =? 0) && flag Flags VFS_OPENFLAG_CREATE then open_create absPath
                else if p_node p =? 0 then set_errno ENOENT;;; ret None
                else ret (Some (p_node p, p_mount p)));
      match nm with
      | None => ret (-1)
      | Some (node, mnt) =>
          do n <- node_at node;
          do nm <- (if negb (flag Flags VFS_OPENFLAG_NOLINK) && flag (n_Flags n) VFS_FFLAG_SYMLINK
                    then open_link node mnt else ret (Some (node, mnt)));
          match nm with
          | None => ret (-1)
          | Some (node, mnt) => VFS_int_CreateHandle node mnt Flags
          end
      end
  end.

Definition VFS_Open (Path : list Z) (Flags : Z) : VM E Z := VFS_OpenEx Path Flags 0.

Definition VFS_OpenChild (FD : Z) (Name : list Z) (Mode : Z) : VM E Z :=
  do r <- VFS_GetHandle FD;
  match r with
  | None => set_errno EINVAL;;; ret (-1)
  | Some r =>
      do h <- hread r;
      do n <- node_at (h_Node h);
      if negb (flag (n_Flags n) VFS_FFLAG_DIRECTORY) then set_errno ENOTDIR;;; ret (-1) else
      do ty <- type_of n;
      match option_map t_FindDir ty with
      | Some (Some FindDir) =>
          do node <- FindDir (h_Node h) Name 0;
          if node =? 0 then set_errno ENOENT;;; ret (-1) else
          _ReferenceMount (h_Mount h);;;
          VFS_int_CreateHandle node (h_Mount h) Mode
      | _ => set_errno ENOTDIR;;; ret (-1)
      end
  end.

(** [VFS_GetMountByIdent] of mount.c. *)
Fixpoint mount_by_ident (l : list Z) (MountID : Z) : VM E Z :=
  match l with
  | [] => ret 0
  | m :: l' => do x <- mount_at m; if Identifier x =? MountID then ret m else mount_by_ident l' MountID
  end.
Definition VFS_GetMountByIdent (MountID : Z) : VM E Z :=
  do s <- get_state;
  do m <- mount_by_ident (v_list s) MountID;
  (if m =? 0 then ret tt else mount_inc m);;; ret m.

(** The failing branches keep the reference VFS_GetMountByIdent took. *)
Definition VFS_OpenInode (Mount Inode Mode : Z) : VM E Z :=
  do mnt <- VFS_GetMountByIdent Mount;
  if mnt =? 0 then set_errno ENOENT;;; ret (-1) else
  do x <- mount_at mnt;
  match fsdrv (m_Filesystem x) with
  | None => halt SFault
  | Some fs =>
      match d_GetNodeFromINode fs with
      | None => set_errno ENOENT;;; ret (-1)
      | Some f =>
          do node <- f (RootNode x) Inode;
          if node =? 0 then set_errno ENOENT;;; ret (-1) else
          VFS_int_CreateHandle node mnt Mode
      end
  end.

(** ** Closing, duplicating *)
Definition VFS_Close (FD : Z) : VM E unit :=
  do r <- VFS_GetHandle FD;
  match r with
  | None => set_errno EINVAL
  | Some r =>
      do h <- hread r;
      _CloseNode (h_Node h);;;
      (if h_Mount h =? 0 then ret tt else _DereferenceMount (h_Mount h));;;
      do h <- hread r;
      hwrite r (MkHandle 0 (h_Mount h) (h_Position h) (h_Mode h))
  end.

Definition VFS_Reopen (FD : Z) (Path : list Z) (Flags : Z) : VM E Z :=
  do r <- VFS_GetHandle FD;
  match r with
  | None => set_errno EBADF;;; ret (-1)
  | Some r =>
      do newf <- VFS_Open Path Flags;
      if newf =? -1 then ret (-1) else
      do h <- hread r;
      _CloseNode (h_Node h);;;
      _DereferenceMount (h_Mount h);;;
      do r2 <- VFS_GetHandle newf;
      match r2 with
      | None => halt SFault
      | Some r2 =>
          do h2 <- hread r2;
          hwrite r h2;;;
          _ReferenceNode (h_Node h2);;;
          _ReferenceMount (h_Mount h2);;;
          VFS_Close newf;;;
          ret FD
      end
  end.

(** When no handle can be allocated [DstFD] is -1 and the final copy goes through
    the NULL that VFS_GetHandle gives for it. *)
Definition VFS_DuplicateFD (SrcFD DstFD : Z) : VM E Z :=
  let isUser := negb (flag SrcFD VFS_KERNEL_FLAG) in
  do r <- VFS_GetHandle SrcFD;
  match r with
  | None => ret (-1)
  | Some r =>
      do src <- hread r;
      do d <- (if DstFD =? -1 then do d <- VFS_AllocHandle isUser (h_Node src) (h_Mode src); ret (Some d)
               else do x <- VFS_GetHandle DstFD;
                    match x with
                    | Some _ => ret None
                    | None => VFS_SetHandle DstFD (h_Node src) (h_Mode src);;; ret (Some DstFD)
                    end);
      match d with
      | None => ret (-1)
      | Some d =>
          _ReferenceMount (h_Mount src);;;
          _ReferenceNode (h_Node src);;;
          do x <- VFS_GetHandle d;
          match x with
          | None => halt SFault
          | Some x => do src <- hread r; hwrite x src;;; ret d
          end
      end
  end.

(** [Mode] is [Uint], [Mask] and [Value] are [int]. *)
Definition VFS_SetFDFlags (FD Mask Value : Z) : VM E Z :=
  do r <- VFS_GetHandle FD;
  match r with
  | None => set_errno EBADF;;; ret (-1)
  | Some r =>
      do h <- hread r;
      let Value := Z.land Value Mask in
      hwrite r (MkHandle (h_Node h) (h_Mount h) (h_Position h)
                  (Z.lor (Z.land (h_Mode h) (u32 (Z.lnot Mask))) (u32 Value)));;;
      ret (i32 (h_Mode h))
  end.

(** The common part of VFS_ChDir and VFS_ChRoot: the absolute path, if it can be
    opened and is a directory. *)
Definition check_dir (Dest : list Z) : VM E (option (list Z)) :=
  do buf <- GetAbsPath Dest;
  match buf with
  | None => ret None
  | Some buf =>
      do fd <- VFS_Open buf VFS_OPENFLAG_EXEC;
      if fd =? -1 then ret None else
      do r <- VFS_GetHandle fd;
      match r with
      | None => halt SFault
      | Some r =>
          do h <- hread r; do n <- node_at (h_Node h);
          VFS_Close fd;;;
          ret (if flag (n_Flags n) VFS_FFLAG_DIRECTORY then Some buf else None)
      end
  end.

Definition VFS_ChDir (Dest : list Z) : VM E Z :=
  do r <- check_dir Dest;
  match r with None => ret (-1) | Some buf => modify (upd_cwd (Some buf));;; ret 1 end.

Definition VFS_ChRoot (New : list Z) : VM E Z :=
  if (path_at New 0 =? cSLASH) && (path_at New 1 =? 0) then ret 1 else
  do r <- check_dir New;
  match r with None => ret (-1) | Some buf => modify (upd_chroot (Some buf));;; ret 1 end.

(** ** Passing handles between processes *)

(** The search for a slot does not stop at the first: every free slot gets the
    node, and the last of them is used. *)
Fixpoint claim_slots (l : list tVFS_MarshalledHandle) (i node time : Z) (r : Z) : list tVFS_MarshalledHandle * Z :=
  match l with
  | [] => ([], r)
  | mh :: l' =>
      if h_Node (mh_Handle mh) =? 0 then
        let h := mh_Handle mh in
        let '(k, r') := claim_slots l' (i + 1) node time i in
        (MkMarshal (mh_Magic mh) time (MkHandle node (h_Mount h) (h_Position h) (h_Mode h)) :: k, r')
      else let '(k, r') := claim_slots l' (i + 1) node time r in (mh :: k, r')
  end.

(** [time] is [now()] and [magic] what [rand()] returns. *)
Definition VFS_MarshalHandle (time magic : Z) (FD : Z) : VM E Z :=
  do r <- VFS_GetHandle FD;
  match r with
  | None => set_errno EBADF;;; ret (u64 (-1))
  | Some r =>
      do h <- hread r;
      do s <- get_state;
      let '(l, i) := claim_slots (v_marshal s) 0 (h_Node h) time (-1) in
      modify (upd_marshal l);;;
      if i <? 0 then set_errno EAGAIN;;; ret (u64 (-1)) else
      do l' <- lift (set l i (MkMarshal (u32 magic) time h));
      modify (upd_marshal l');;;
      _ReferenceMount (h_Mount h);;;
      _ReferenceNode (h_Node h);;;
      ret (Z.lor (Z.shiftl (u32 magic) 32) i)
  end.

(** [id] is an [int]: a value with its top bit set passes the range check and
    indexes before the array. *)
Definition VFS_UnmarshalHandle (Handle : Z) : VM E Z :=
  let magic := u32 (Z.shiftr Handle 32) in
  let id := i32 (Z.land Handle 4294967295) in
  if MAX_MARSHALLED_HANDLES <=? id then set_errno EINVAL;;; ret (-1) else
  do s <- get_state;
  do mh <- lift (get (v_marshal s) id);
  if h_Node (mh_Handle mh) =? 0 then set_errno EINVAL;;; ret (-1) else
  if negb (mh_Magic mh =? magic) then set_errno EACCES;;; ret (-1) else
  do fd <- VFS_AllocHandle true (h_Node (mh_Handle mh)) (h_Mode (mh_Handle mh));
  let h := mh_Handle mh in
  do s <- get_state;
  do l <- lift (set (v_marshal s) id (MkMarshal (mh_Magic mh) (mh_AllocTime mh)
                  (MkHandle 0 (h_Mount h) (h_Position h) (h_Mode h))));
  modify (upd_marshal l);;;
  if fd =? -1 then set_errno ENFILE;;; ret (-1) else ret fd.

End open.
End VfsOpen.
Export VfsOpen.
