(* ===== verification/VfsIo.v ===== *)
(** Reading, writing, seeking and file information ([KernelLand/Kernel/vfs/io.c]),
    directories and links ([dir.c]), access lists of open files ([acls.c]). *)
From S2P Require Import Prelude CString VfsAcl VfsPath VfsState VfsOpen.

Local Open Scope Z_scope.
Local Open Scope monad_scope.

Module VfsIo.

(** [(size_t)-1] and [(Uint64)-1]. *)
Abbreviation SIZE_ERR := 4294967295 (only parsing).
Abbreviation UINT64_MAX := 18446744073709551615 (only parsing).

Section io.
Context {E : Type} {FS : Filesystems E}.
Context (junk : Z).

Definition io_flags (Mode : Z) : Z := if flag Mode VFS_OPENFLAG_NONBLOCK then VFS_IOFLAG_NOBLOCK else 0.

(** The value returned and the bytes stored in the caller's buffer. *)
Definition VFS_Read (FD Length : Z) : VM E (Z * list Z) :=
  do r <- VFS_GetHandle FD;
  match r with
  | None => ret (SIZE_ERR, [])
  | Some r =>
      do h <- hread r;
      if negb (flag (h_Mode h) VFS_OPENFLAG_READ) then ret (SIZE_ERR, []) else
      do n <- node_at (h_Node h);
      if flag (n_Flags n) VFS_FFLAG_DIRECTORY then ret (SIZE_ERR, []) else
      do ty <- type_of n;
      match option_map t_Read ty with
      | Some (Some Read) =>
          do x <- Read (h_Node h) (h_Position h) Length (io_flags (h_Mode h));
          if x.1 =? SIZE_ERR then ret (SIZE_ERR, x.2) else
          do h <- hread r;
          hwrite r (MkHandle (h_Node h) (h_Mount h) (u64 (h_Position h + x.1)) (h_Mode h));;;
          ret x
      | _ => ret (SIZE_ERR, [])
      end
  end.

(** Without a Read method this one returns 0. *)
Definition VFS_ReadAt (FD Offset Length : Z) : VM E (Z * list Z) :=
  do r <- VFS_GetHandle FD;
  match r with
  | None => ret (SIZE_ERR, [])
  | Some r =>
      do h <- hread r;
      if negb (flag (h_Mode h) VFS_OPENFLAG_READ) then ret (SIZE_ERR, []) else
      do n <- node_at (h_Node h);
      if flag (n_Flags n) VFS_FFLAG_DIRECTORY then ret (SIZE_ERR, []) else
      do ty <- type_of n;
      match option_map t_Read ty with
      | Some (Some Read) => Read (h_Node h) Offset Length (io_flags (h_Mode h))
      | _ => ret (0, [])
      end
  end.

(** The length to write: cut at the end of a file that cannot or may not grow. *)
Definition write_length (ty : tVFS_NodeType E) (node Offset Length : Z) : VM E Z :=
  do n <- node_at node;
  if u64 (Offset + Length) <=? n_Size n then ret Length else
  match t_Truncate ty with
  | None => ret Length
  | Some Truncate =>
      if flag (t_Flags ty) VFS_NODETYPEFLAG_NOAUTOEXPAND then ret (u32 (n_Size n - Offset)) else
      do x <- Truncate node (u64 (Offset + Length));
      if x =? u64 (Offset + Length) then ret Length else
      do n <- node_at node; ret (u32 (n_Size n - Offset))
  end.

Definition VFS_WriteAt (FD Offset Length : Z) (Buffer : list Z) : VM E Z :=
  do r <- VFS_GetHandle FD;
  match r with
  | None => ret SIZE_ERR
  | Some r =>
      do h <- hread r;
      if negb (flag (h_Mode h) VFS_OPENFLAG_WRITE) then set_errno EBADF;;; ret SIZE_ERR else
      do n <- node_at (h_Node h);
      if flag (n_Flags n) VFS_FFLAG_DIRECTORY then set_errno EISDIR;;; ret SIZE_ERR else
      do ty <- type_of n;
      match ty with
      | Some ty =>
          match t_Write ty with
          | None => set_errno EINTERNAL;;; ret 0
          | Some Write =>
              if negb (n_Size n =? UINT64_MAX) && (n_Size n <? Offset) then ret 0 else
              do len <- write_length ty (h_Node h) Offset Length;
              Write (h_Node h) Offset len Buffer (io_flags (h_Mode h))
          end
      | None => set_errno EINTERNAL;;; ret 0
      end
  end.

Definition VFS_Write (FD Length : Z) (Buffer : list Z) : VM E Z :=
  do r <- VFS_GetHandle FD;
  match r with
  | None => set_errno EBADF;;; ret SIZE_ERR
  | Some r =>
      do h <- hread r;
      do x <- VFS_WriteAt FD (h_Position h) Length Buffer;
      if x =? SIZE_ERR then ret SIZE_ERR else
      do h <- hread r;
      do n <- node_at (h_Node h);
      do ty <- type_of n;
      match ty with
      | None => halt SFault
      | Some ty =>
          (if flag (t_Flags ty) VFS_NODETYPEFLAG_STREAM then ret tt
           else hwrite r (MkHandle (h_Node h) (h_Mount h) (u64 (h_Position h + x)) (h_Mode h)));;;
          ret x
      end
  end.

Definition VFS_Tell (FD : Z) : VM E Z :=
  do r <- VFS_GetHandle FD;
  match r with
  | None => ret UINT64_MAX
  | Some r => do h <- hread r; ret (h_Position h)
  end.

Definition VFS_Seek (FD Offset Whence : Z) : VM E Z :=
  do r <- VFS_GetHandle FD;
  match r with
  | None => ret (-1)
  | Some r =>
      do h <- hread r;
      do n <- node_at (h_Node h);
      do ty <- type_of n;
      match ty with
      | None => halt SFault
      | Some ty =>
          let pos p := hwrite r (MkHandle (h_Node h) (h_Mount h) (u64 p) (h_Mode h));;; ret 0 in
          if flag (t_Flags ty) VFS_NODETYPEFLAG_STREAM then ret (-1) else
          if Whence =? 0 then pos (h_Position h + Offset) else
          if Whence <? 0 then
            if n_Size n =? UINT64_MAX then ret (-1) else pos (n_Size n - Offset)
          else pos Offset
      end
  end.

Definition VFS_Truncate (FD Size : Z) : VM E Z :=
  do r <- VFS_GetHandle FD;
  match r with
  | None => set_errno EBADF;;; ret UINT64_MAX
  | Some r =>
      do h <- hread r;
      do n <- node_at (h_Node h);
      do ty <- type_of n;
      match ty with
      | None => halt SFault
      | Some ty =>
          match t_Truncate ty with
          | None => set_errno ENOTIMPL;;; ret UINT64_MAX
          | Some f => f (h_Node h) Size
          end
      end
  end.

Definition VFS_IOCtl (FD ID : Z) : VM E Z :=
  do r <- VFS_GetHandle FD;
  match r with
  | None => set_errno EINVAL;;; ret (-1)
  | Some r =>
      do h <- hread r;
      do n <- node_at (h_Node h);
      do ty <- type_of n;
      match option_map t_IOCtl ty with
      | Some (Some f) => f (h_Node h) ID
      | _ => set_errno EINVAL;;; ret (-1)
      end
  end.

(** The fields of [tFInfo] the model has values for. *)
Record tFInfo := MkInfo { f_mount : Z; f_inode : Z; f_uid : Z; f_gid : Z; f_size : Z; f_numacls : Z;
  f_flags : Z; f_acls : list tVFS_ACL }.

(** A negative [MaxACLs] makes the copy's size wrap. *)
Definition VFS_FInfo (FD MaxACLs : Z) : VM E (Z * option tFInfo) :=
  do r <- VFS_GetHandle FD;
  match r with
  | None => ret (-1, None)
  | Some r =>
      do h <- hread r;
      do m <- (if h_Mount h =? 0 then ret 0 else do x <- mount_at (h_Mount h); ret (Identifier x));
      do n <- node_at (h_Node h);
      let max := if MaxACLs <? n_NumACLs n then MaxACLs else n_NumACLs n in
      do acls <- lift (rd (n_ACLs n) 0 max);
      ret (max, Some (MkInfo m (n_Inode n) (n_UID n) (n_GID n) (n_Size n) (n_NumACLs n)
        (Z.lor (if flag (n_Flags n) VFS_FFLAG_DIRECTORY then 16 else 0)
               (if flag (n_Flags n) VFS_FFLAG_SYMLINK then 32 else 0)) acls))
  end.

Definition VFS_GetACL (FD : Z) (Dest : tVFS_ACL) : VM E (tVFS_ACL * Z) :=
  do r <- VFS_GetHandle FD;
  match r with
  | None => ret (Dest, -1)
  | Some r =>
      do h <- hread r;
      do n <- node_at (h_Node h);
      lift (GetACL_node (n_ACLs n) (n_NumACLs n) Dest)
  end.

(** ** dir.c *)

(** The offset of the last slash, looking for each from after the one before;
    0 if there is none after the first character. *)
Fixpoint last_slash (fuel : nat) (absPath : list Z) (pos : Z) : option Z :=
  match fuel with
  | O => None
  | S fuel' =>
      next ← strpos (drop (Z.to_nat (pos + 1)) absPath) cSLASH;
      if next =? -1 then Some pos else last_slash fuel' absPath (pos + next + 1)
  end.

Definition VFS_MkNod (Path : list Z) (Flags : Z) : VM E Z :=
  do a <- GetAbsPath junk Path;
  match a with
  | None => halt SFault
  | Some absPath =>
      do oldpos <- lift (last_slash (S (length absPath)) absPath 0);
      do dir <- lift (set absPath oldpos 0);
      let name := drop (Z.to_nat (oldpos + 1)) absPath in
      do p <- (if oldpos =? 0 then VFS_ParsePath junk [cSLASH; 0] false else VFS_ParsePath junk dir false);
      let parent := p_node p in
      let fail : VM E Z :=
        (if parent =? 0 then ret tt else _CloseNode parent;;; _DereferenceMount (p_mount p));;; ret (-1) in
      if parent =? 0 then set_errno ENOENT;;; fail else
      do acl <- CheckACL parent (Z.lor VFS_PERM_EXEC VFS_PERM_WRITE);
      if negb (acl : bool) then set_errno EACCES;;; fail else
      do n <- node_at parent;
      do ty <- type_of n;
      match option_map t_MkNod ty with
      | Some (Some MkNod) =>
          do r <- MkNod parent name Flags;
          _CloseNode r;;;
          _DereferenceMount (p_mount p);;;
          _CloseNode parent;;;
          ret (b2z (r =? 0))
      | _ => set_errno ENOTDIR;;; fail
      end
  end.

Definition VFS_MkDir (Path : list Z) : VM E Z := VFS_MkNod Path VFS_FFLAG_DIRECTORY.

Definition VFS_Symlink (Name Link : list Z) : VM E Z :=
  do a <- GetAbsPath junk Link;
  match a with
  | None => set_errno EINVAL;;; ret (-1)
  | Some realLink =>
      do r <- VFS_MkNod Name VFS_FFLAG_SYMLINK;
      if negb (r =? 0) then ret (-2) else
      do fp <- VFS_Open junk Name (Z.lor VFS_OPENFLAG_WRITE VFS_OPENFLAG_NOLINK);
      if fp =? -1 then ret (-3) else
      do n <- lift (strlen realLink);
      VFS_Write fp n realLink;;;
      VFS_Close fp;;;
      ret 1
  end.

(** Positive values of ReadDir skip entries; the loop ends with the first entry or
    error. *)
Fixpoint readdir_loop (fuel : nat) (r : href) (ReadDir : Z -> Z -> VM E (Z * list Z)) : VM E (Z * list Z) :=
  match fuel with
  | O => halt SLoop
  | S fuel' =>
      do h <- hread r;
      do x <- ReadDir (h_Node h) (i32 (h_Position h));
      do h <- hread r;
      hwrite r (MkHandle (h_Node h) (h_Mount h)
        (u64 (h_Position h + (if 0 <? x.1 then x.1 else 1))) (h_Mode h));;;
      if 0 <? x.1 then readdir_loop fuel' r ReadDir else ret x
  end.

Definition VFS_ReadDir (fuel : nat) (FD : Z) : VM E (Z * list Z) :=
  do r <- VFS_GetHandle FD;
  match r with
  | None => ret (0, [])
  | Some r =>
      do h <- hread r;
      do n <- node_at (h_Node h);
      do ty <- type_of n;
      match option_map t_ReadDir ty with
      | Some (Some ReadDir) =>
          do x <- readdir_loop fuel r ReadDir;
          ret (if x.1 <? 0 then (0, x.2) else (1, x.2))
      | _ => ret (0, [])
      end
  end.

End io.
End VfsIo.
Export VfsIo.
