(* ===== verification/VfsMount.v ===== *)
(** Mounting and unmounting ([KernelLand/Kernel/vfs/mount.c]) and the driver list
    ([main.c]). *)
From S2P Require Import Prelude CString VfsAcl VfsPath VfsState VfsOpen VfsIo.

Local Open Scope Z_scope.
Local Open Scope monad_scope.

Module VfsMount.
Section mount.
Context {E : Type} {FS : Filesystems E}.
Context (junk : Z).

(** A registered driver. *)
Definition driver (d : Z) : VM E (tVFS_Driver E) := lift (fsdrv d).

Fixpoint fs_by_name (l : list Z) (Name : list Z) : VM E Z :=
  match l with
  | [] => ret 0
  | d :: l' =>
      do x <- driver d;
      do c <- lift (strcmp (d_Name x) Name);
      if c =? 0 then ret d else fs_by_name l' Name
  end.
Definition VFS_GetFSByName (Name : list Z) : VM E Z := do s <- get_state; fs_by_name (v_drivers s) Name.

(** The text of the drivers file: the names, one to a line.  The buffer is not
    checked. *)
Fixpoint driver_lines (l : list Z) : VM E (list Z) :=
  match l with
  | [] => ret []
  | d :: l' =>
      do x <- driver d; do n <- lift (str_of (d_Name x)); do rest <- driver_lines l';
      ret (n ++ cLF :: rest)
  end.
Definition VFS_UpdateDriverFile : VM E unit :=
  do s <- get_state; do t <- driver_lines (v_drivers s);
  do b <- alloc_ok;
  if (b : bool) then modify (upd_driverfile (t ++ [0])) else halt SFault.

Definition VFS_AddDriver (Info : Z) : VM E Z :=
  if Info =? 0 then ret (-1) else
  modify (fun s => upd_drivers (Info :: v_drivers s) s);;;
  VFS_UpdateDriverFile;;;
  ret 0.

(** Asking each driver about the device: the first of the highest ranks. *)
Fixpoint detect_fs (l : list Z) (fd best bestrank : Z) : VM E Z :=
  match l with
  | [] => ret best
  | d :: l' =>
      do x <- driver d;
      match d_Detect x with
      | None => detect_fs l' fd best bestrank
      | Some f =>
          do rank <- f fd;
          if rank =? 0 then detect_fs l' fd best bestrank else
          if (best =? 0) || (bestrank <? rank) then detect_fs l' fd d rank
          else detect_fs l' fd best bestrank
      end
  end.

Definition select_fs (Device Filesystem : list Z) : VM E (Z + Z) :=
  do c <- lift (get Filesystem 0);
  if negb (c =? 0) then
    do fs <- VFS_GetFSByName Filesystem;
    if fs =? 0 then ret (inl (- ENOENT)) else ret (inr fs)
  else
    do fd <- VFS_Open junk Device VFS_OPENFLAG_READ;
    if fd =? -1 then ret (inl (- ENOENT)) else
    do s <- get_state;
    do best <- detect_fs (v_drivers s) fd 0 0;
    VFS_Close fd;;;
    if best =? 0 then ret (inl (-1)) else ret (inr best).

(** The two loops over the options.  Both continue with [strchr(str, ',')], which
    finds the same comma again; in the second the comma has become the end of
    the string. *)
Fixpoint count_args (fuel : nat) (str : list Z) (nArg : Z) : VM E Z :=
  match fuel with
  | O => halt SLoop
  | S fuel' =>
      do c <- lift (strchr str cCOMMA);
      match c with
      | None => ret (nArg + 1)
      | Some ofs => count_args fuel' (drop (Z.to_nat ofs) str) (nArg + 1)
      end
  end.

Fixpoint split_args (fuel : nat) (str : list Z) : VM E (list (list Z)) :=
  match fuel with
  | O => halt SLoop
  | S fuel' =>
      do c <- lift (strchr str cCOMMA);
      match c with
      | None => ret [str]
      | Some ofs =>
          do str' <- lift (set str ofs 0);
          do l <- split_args fuel' (drop (Z.to_nat ofs) str');
          ret (str' :: l)
      end
  end.

(** The text of the mounts file. *)
Fixpoint mount_lines (l : list Z) : VM E (list Z) :=
  match l with
  | [] => ret []
  | m :: l' =>
      do x <- mount_at m;
      do d <- driver (m_Filesystem x);
      do a <- lift (str_of (m_Device x)); do b <- lift (str_of (MountPoint x));
      do c <- lift (str_of (d_Name d)); do o <- lift (str_of (m_Options x));
      do rest <- mount_lines l';
      ret (a ++ cTAB :: b ++ cTAB :: c ++ cTAB :: o ++ cLF :: rest)
  end.
Definition VFS_UpdateMountFile : VM E unit :=
  do s <- get_state; do t <- mount_lines (v_list s);
  do b <- alloc_ok;
  if (b : bool) then modify (upd_mountfile (t ++ [0])) else halt SFault.

(** The reference the lookup of the mount point took on its mount; without any
    mounts [parent_mnt] is not set. *)
Definition drop_parent (parent : option Z) : VM E unit :=
  match parent with None => halt SFault | Some p => _DereferenceMount p end.

(** The mount point must exist and not be a mount already; [inl] is an error. *)
Definition check_mountpoint (mp : list Z) : VM E (Z + option Z) :=
  do s <- get_state;
  match v_list s with
  | [] => ret (inr None)
  | _ =>
      do p <- VFS_ParsePath junk mp false;
      if p_node p =? 0 then ret (inl (-1)) else
      do n <- node_at (p_node p);
      do ty <- type_of n;
      match ty with
      | None => halt SFault
      | Some ty =>
          match t_Close ty with Some f => f (p_node p) | None => ret tt end;;;
          do x <- mount_at (p_mount p);
          if RootNode x =? p_node p then ret (inl (-1)) else ret (inr (Some (p_mount p)))
      end
  end.

Definition VFS_Mount (Device mp Filesystem Options : list Z) : VM E Z :=
  do fs <- select_fs Device Filesystem;
  match fs with
  | inl e => ret e
  | inr fs =>
      do parent <- check_mountpoint mp;
      match parent with
      | inl e => ret e
      | inr parent =>
          do b <- alloc_ok;
          if negb (b : bool) then drop_parent parent;;; ret (-2) else
          do mnt <- new_address;
          do mountLen <- lift (strlen mp);
          let mlen := if (mountLen =? 1) && (path_at junk mp 0 =? cSLASH) then 0 else mountLen in
          do nArg <- count_args (S (length Options)) Options 0;
          do args <- split_args (S (length Options)) Options;
          do d <- driver fs;
          do root <- d_InitDevice d Device args;
          if root =? 0 then drop_parent parent;;; ret (-2) else
          do s <- get_state;
          modify (upd_ident (u32 (v_ident s + 1)));;;
          put_mount mnt (MkMount mp mlen (v_ident s) Device Options fs root 0);;;
          do s <- get_state;
          (if v_root s =? 0 then modify (upd_root mnt) else ret tt);;;
          modify (fun s => upd_list (v_list s ++ [mnt]) s);;;
          VFS_UpdateMountFile;;;
          ret 0
      end
  end.

(** The search for the mount a mount point lies in takes the first of the list
    that is a prefix. *)
Fixpoint find_parent (l : list Z) (mp : list Z) : VM E Z :=
  match l with
  | [] => ret 0
  | m :: l' =>
      do x <- mount_at m;
      do c <- lift (strncmp (MountPoint x) mp (MountPointLen x));
      if negb (c =? 0) then find_parent l' mp else
      if negb (path_at junk mp (MountPointLen x) =? cSLASH) then find_parent l' mp else ret m
  end.

Definition VFS_int_Unmount (Mount : Z) : VM E unit :=
  do s <- get_state;
  do x <- mount_at Mount;
  (if Mount =? v_root s then ret tt else
   do p <- find_parent (v_list s) (MountPoint x);
   if p =? 0 then ret tt else _DereferenceMount p);;;
  do d <- driver (m_Filesystem x);
  match d_Unmount d with Some f => f (RootNode x) | None => ret tt end;;;
  modify (fun s => upd_mounts (delete Mount (v_mounts s)) s).

(** The mount with the name; [inl] is the value to return. *)
Fixpoint unmount_find (l : list Z) (mp : list Z) : VM E (Z + Z) :=
  match l with
  | [] => ret (inl ENOENT)
  | m :: l' =>
      do x <- mount_at m;
      do c <- lift (strcmp mp (MountPoint x));
      if negb (c =? 0) then unmount_find l' mp else
      if negb (OpenHandleCount x =? 0) then ret (inl EBUSY) else ret (inr m)
  end.

Definition VFS_Unmount (mp : list Z) : VM E Z :=
  do s <- get_state;
  do r <- unmount_find (v_list s) mp;
  match r with
  | inl e => ret e
  | inr m =>
      modify (fun s => upd_list (filter (fun x => x <> m) (v_list s)) s);;;
      VFS_int_Unmount m;;;
      VFS_UpdateMountFile;;;
      ret 0
  end.

(** Every mount without open handles, in order. *)
Fixpoint unmount_loop (l : list Z) (n : Z) : VM E Z :=
  match l with
  | [] => ret n
  | m :: l' =>
      do x <- mount_at m;
      ASSERT (0 <=? OpenHandleCount x);;;
      if 0 <? OpenHandleCount x then unmount_loop l' n else
      modify (fun s => upd_list (filter (fun y => y <> m) (v_list s)) s);;;
      VFS_int_Unmount m;;;
      unmount_loop l' (n + 1)
  end.

Definition VFS_UnmountAll : VM E Z :=
  do s <- get_state;
  match v_list s with
  | [] => ret (-1)
  | l => do n <- unmount_loop l 0; VFS_UpdateMountFile;;; ret n
  end.

(** [VFS_GetTruePath]: the mount stays referenced. *)
Definition VFS_GetTruePath (Path : list Z) : VM E (option (list Z)) :=
  do a <- GetAbsPath junk Path;
  match a with
  | None => ret None
  | Some tmp =>
      do p <- VFS_ParsePath junk tmp true;
      if p_node p =? 0 then ret None else
      do n <- node_at (p_node p);
      do ty <- type_of n;
      match ty with
      | None => halt SFault
      | Some ty => match t_Close ty with Some f => f (p_node p) | None => ret tt end;;; ret (p_true p)
      end
  end.

End mount.
End VfsMount.
Export VfsMount.
