(* ===== verification/VfsInv.v ===== *)
(** The accounting of mounts: how many open handles there are on each mount, the
    invariant that a mount's count covers them, and the effect of the VFS's
    building blocks on it.  Filesystem methods enter through the class
    [QuietFS]. *)
From S2P Require Import Prelude CString VfsAcl VfsPath VfsState VfsOpen VfsIo VfsMount.

Local Open Scope Z_scope.
Local Open Scope monad_scope.

(** ** Computations that do not go wrong

    [safe c s Q]: if [c] returns, [Q] holds; if it stops, it is not for a failed
    ASSERT nor for the use of a freed mount. *)
Definition good_stop (e : stop) : Prop := e <> SAssert /\ e <> SFreed.

Definition safe {E A} (c : VM E A) (s : vfs E) (Q : A -> vfs E -> Prop) : Prop :=
  match c s with Ok a s' => Q a s' | Stop e => good_stop e end.

Section safe.
Context {E : Type}.
Implicit Types (s : vfs E).

Lemma good_fault : good_stop SFault.
Proof. by split. Qed.

Lemma safe_ret {A} (a : A) s Q : Q a s -> safe (ret a) s Q.
Proof. done. Qed.

Lemma safe_halt {A} e s (Q : A -> vfs E -> Prop) : good_stop e -> safe (halt e) s Q.
Proof. done. Qed.

Lemma safe_bind {A B} (c : VM E A) (k : A -> VM E B) s Q :
  safe c s (fun a s' => safe (k a) s' Q) -> safe (bind c k) s Q.
Proof. unfold safe, bind. by destruct (c s). Qed.

Lemma safe_mono {A} (c : VM E A) s (P Q : A -> vfs E -> Prop) :
  safe c s P -> (forall a s', P a s' -> Q a s') -> safe c s Q.
Proof. unfold safe. destruct (c s); naive_solver. Qed.

Lemma safe_get s (Q : vfs E -> vfs E -> Prop) : Q s s -> safe get_state s Q.
Proof. done. Qed.

Lemma safe_modify f s (Q : unit -> vfs E -> Prop) : Q tt (f s) -> safe (modify f) s Q.
Proof. done. Qed.

Lemma safe_lift {A} (o : option A) s (Q : A -> vfs E -> Prop) :
  (forall a, o = Some a -> Q a s) -> safe (lift o) s Q.
Proof. destruct o; simpl; intros H; [by apply H|apply good_fault]. Qed.

Lemma safe_node p s (Q : tVFS_Node -> vfs E -> Prop) :
  (forall n, v_nodes s !! p = Some n -> Q n s) -> safe (node_at p) s Q.
Proof. unfold safe, node_at. destruct (_ !! _); intros H; [by apply H|apply good_fault]. Qed.
End safe.

(** ** Handles on a mount *)
Definition counted (m : Z) (h : tVFS_Handle) : Prop := h_Node h <> 0 /\ h_Mount h = m.
#[export] Instance counted_dec m h : Decision (counted m h) := _.

Definition cnt (m : Z) (l : list tVFS_Handle) : Z := len (filter (counted m) l).

Section cnt.
Implicit Types (l k : list tVFS_Handle).

Lemma cnt_app m l k : cnt m (l ++ k) = cnt m l + cnt m k.
Proof. unfold cnt. by rewrite filter_app, len_app. Qed.

Lemma cnt_cons m h l : cnt m (h :: l) = (if decide (counted m h) then 1 else 0) + cnt m l.
Proof. unfold cnt. rewrite filter_cons. case_decide; [by rewrite len_cons|lia]. Qed.

Lemma cnt_nonneg m l : 0 <= cnt m l.
Proof. apply len_nonneg. Qed.

Lemma cnt_closed m l : Forall (fun h => h_Node h = 0) l -> cnt m l = 0.
Proof.
  induction 1 as [|h l Hh _ IH]; [done|]. rewrite cnt_cons, IH, decide_False; [done|]. unfold counted. naive_solver.
Qed.

#[global] Instance cnt_perm m : Proper ((≡ₚ) ==> (=)) (cnt m).
Proof. intros l k H. unfold cnt, len. by rewrite H. Qed.
End cnt.

(** ** The invariant

    [cr m] are references to the mount [m] held by the running operation (negative
    for a handle whose reference has been given back already).  The root mount
    also carries one for every mount in it. *)
Definition kids (list : list Z) (root m : Z) : Z := if m =? root then len list - 1 else 0.

Record MI (cr : Z -> Z) (mounts : gmap Z tVFS_Mount) (list : list Z) (root next : Z) (H : Datatypes.list tVFS_Handle) : Prop := {
  mi_count : forall m, m ∈ list -> exists x, mounts !! m = Some x /\
    cnt m H + kids list root m + cr m <= OpenHandleCount x /\ get (MountPoint x) 0 = Some cSLASH;
  mi_live : forall h, h ∈ H -> h_Node h <> 0 -> h_Mount h = 0 \/ h_Mount h ∈ list;
  mi_cr : forall m, cr m <> 0 -> m ∈ list;
  mi_nodup : NoDup list;
  mi_root : (list = [] /\ root = 0) \/
    (exists rest x, list = root :: rest /\ mounts !! root = Some x /\ MountPointLen x = 0);
  mi_addr : forall m, m ∈ list -> 0 < m < next;
  mi_next : 0 < next }.

Definition no_credit : Z -> Z := fun _ => 0.
Definition credit (cr : Z -> Z) (m n : Z) : Z -> Z := fun x => if x =? m then cr x + n else cr x.

Section MI.
Implicit Types (cr : Z -> Z) (l : list Z) (H : list tVFS_Handle).

#[global] Instance MI_perm cr mounts l root next : Proper ((≡ₚ) ==> impl) (MI cr mounts l root next).
Proof.
  intros H K HP [H1 H2 H3 H4 H5 H6 H7]. split; try done.
  - intros m Hm. destruct (H1 m Hm) as (x & ? & ? & ?). exists x. by rewrite <- HP.
  - intros h Hh. apply H2. by rewrite HP.
Qed.

(** Giving up references. *)
Lemma MI_weaken cr cr' mounts l root next H : (forall m, cr' m <= cr m) -> (forall m, cr' m <> 0 -> m ∈ l) ->
  MI cr mounts l root next H -> MI cr' mounts l root next H.
Proof.
  intros Hle Hin [H1 H2 H3 H4 H5 H6 H7]. split; try done.
  intros m Hm. destruct (H1 m Hm) as (x & ? & ? & ?). exists x. split_and!; try done. specialize (Hle m). lia.
Qed.

Lemma MI_ext cr cr' mounts l root next H : (forall m, cr' m = cr m) ->
  MI cr mounts l root next H -> MI cr' mounts l root next H.
Proof.
  intros He Hi. eapply MI_weaken; [| |exact Hi]; [intros m; rewrite He; lia|].
  intros m. rewrite He. apply Hi.
Qed.

Lemma MI_next cr mounts l root next next' H : next <= next' ->
  MI cr mounts l root next H -> MI cr mounts l root next' H.
Proof. intros Hle [H1 H2 H3 H4 H5 H6 H7]. split; try done; [|lia]. intros m Hm. specialize (H6 m Hm). lia. Qed.

(** Changing a count. *)
Lemma MI_count cr mounts l root next H m x n : MI cr mounts l root next H -> m ∈ l -> mounts !! m = Some x ->
  i32 (OpenHandleCount x + n) = OpenHandleCount x + n ->
  MI (credit cr m n) (<[m := set_count (OpenHandleCount x + n) x]> mounts) l root next H.
Proof.
  intros [H1 H2 H3 H4 H5 H6 H7] Hm Hx Hint. split; try done.
  - intros k Hk. destruct (H1 k Hk) as (y & Hy & Hc & Hs). unfold credit. destruct (Z.eqb_spec k m) as [->|Hne].
    + rewrite lookup_insert_eq. simplify_eq. eexists. split; [done|]. simpl. rewrite Hint. split; [lia|done].
    + rewrite lookup_insert_ne by done. by exists y.
  - intros k. unfold credit. destruct (Z.eqb_spec k m) as [->|]; [done|]. apply H3.
  - destruct H5 as [?|(rest & y & -> & Hy & Hl)]; [by left|right]. destruct (decide (m = root)) as [->|].
    + rewrite Hy in Hx. simplify_eq. eexists _, _. split; [done|]. rewrite lookup_insert_eq. split; [done|done].
    + exists rest, y. by rewrite lookup_insert_ne.
Qed.

(** Replacing a handle by another one. *)
Lemma MI_swap cr mounts l root next H h h' : MI cr mounts l root next (h :: H) ->
  (h_Node h' <> 0 -> h_Mount h' = 0 \/ h_Mount h' ∈ l) ->
  (h_Node h <> 0 -> h_Mount h <> 0 -> h_Mount h ∈ l) ->
  let cr1 := if bool_decide (h_Node h = 0 \/ h_Mount h = 0) then cr else credit cr (h_Mount h) 1 in
  let cr2 := if bool_decide (h_Node h' = 0 \/ h_Mount h' = 0) then cr1 else credit cr1 (h_Mount h') (-1) in
  MI cr2 mounts l root next (h' :: H).
Proof.
  intros [H1 H2 H3 H4 H5 H6 H7] Hh' Hh cr1 cr2.
  assert (forall m, m ∈ l -> cnt m (h' :: H) + cr2 m <= cnt m (h :: H) + cr m) as Hc.
  { intros m Hm. rewrite !cnt_cons. subst cr2 cr1. unfold credit. specialize (H6 m Hm).
    repeat (case_bool_decide || case_decide || case_if); unfold counted in *; subst; try lia; naive_solver lia. }
  split; try done.
  - intros m Hm. destruct (H1 m Hm) as (x & ? & ? & ?). exists x. specialize (Hc m Hm). split_and!; [done|lia|done].
  - intros k. rewrite elem_of_cons. intros [->|Hk]; [done|]. apply H2. by apply elem_of_cons; right.
  - intros m. subst cr2 cr1. unfold credit.
    repeat (case_bool_decide || case_if); subst; try apply H3; intros; try (apply Hh || apply Hh'); naive_solver.
Qed.
End MI.

(** ** States *)
Section handles.
Context {E : Type}.
Implicit Types (s : vfs E).

(** Every handle of the system. *)
Definition handles s : list tVFS_Handle :=
  default [] (v_user s) ++ default [] (v_kern s) ++ concat (v_others s) ++ concat (map_to_list (v_saved s)).*2.

(** The accounting with respect to a list of handles. *)
Definition vinv (cr : Z -> Z) (H : list tVFS_Handle) s : Prop :=
  MI cr (v_mounts s) (v_list s) (v_root s) (v_next s) H.

(** What lookups leave alone ... *)
Record same_tables s s' : Prop := {
  st_list : v_list s' = v_list s; st_root : v_root s' = v_root s;
  st_user : v_user s' = v_user s; st_kern : v_kern s' = v_kern s;
  st_others : v_others s' = v_others s; st_saved : v_saved s' = v_saved s;
  st_maxfd : v_maxfd s' = v_maxfd s }.

(** ... and what filesystem methods leave alone. *)
Record quiet s s' : Prop := {
  q_tables : same_tables s s'; q_mounts : v_mounts s' = v_mounts s; q_next : v_next s <= v_next s' }.

#[global] Instance same_tables_preorder : PreOrder same_tables.
Proof. split; [by split|]. intros a b c [] []. split; congruence. Qed.
#[global] Instance quiet_preorder : PreOrder quiet.
Proof. split; [intros a; split; [reflexivity|done|lia]|]. intros a b c [] []. split; [by etrans|congruence|lia]. Qed.

Lemma handles_same s s' : same_tables s s' -> handles s' = handles s.
Proof. intros []. unfold handles. congruence. Qed.

Lemma vinv_quiet cr H s s' : quiet s s' -> vinv cr H s -> vinv cr H s'.
Proof. intros [[Hl Hr _ _ _ _ _] Hm Hn] Hi. unfold vinv in *. rewrite Hl, Hr, Hm. by eapply MI_next. Qed.

Lemma quiet_errno e s : quiet s (upd_errno e s).
Proof. split; [by split|done|simpl; lia]. Qed.
Lemma quiet_node p n s : quiet s (upd_nodes (<[p := n]> (v_nodes s)) s).
Proof. split; [by split|done|simpl; lia]. Qed.
Lemma quiet_alloc l s : quiet s (upd_alloc l s).
Proof. split; [by split|done|simpl; lia]. Qed.
Lemma quiet_next s : quiet s (upd_next (v_next s + 1) s).
Proof. split; [by split|done|simpl; lia]. Qed.
End handles.

#[export] Hint Resolve quiet_errno quiet_node quiet_alloc quiet_next good_fault : acess.
#[export] Hint Extern 1 (quiet _ _) => reflexivity : acess.
#[export] Hint Extern 1 (same_tables _ _) => reflexivity : acess.

(** [quiet_op c]: whatever the state, [c] changes nothing the VFS accounts for. *)
Definition quiet_op {E A} (c : VM E A) : Prop := forall s, safe c s (fun _ s' => quiet s s').

(** What the VFS relies on from the methods of node types: they work on nodes and
    on the filesystem's own data, and leave mounts and handle tables to the
    VFS. *)
Class QuietFS (E : Type) {FS : Filesystems E} : Prop := {
  quiet_types : forall t ty, types t = Some ty ->
    (forall f, t_Reference ty = Some f -> forall p, quiet_op (f p)) /\
    (forall f, t_Close ty = Some f -> forall p, quiet_op (f p)) /\
    (forall f, t_IOCtl ty = Some f -> forall p i, quiet_op (f p i)) /\
    (forall f, t_Read ty = Some f -> forall p o n fl, quiet_op (f p o n fl)) /\
    (forall f, t_Write ty = Some f -> forall p o n b fl, quiet_op (f p o n b fl)) /\
    (forall f, t_Truncate ty = Some f -> forall p n, quiet_op (f p n)) /\
    (forall f, t_FindDir ty = Some f -> forall p n fl, quiet_op (f p n fl)) /\
    (forall f, t_ReadDir ty = Some f -> forall p i, quiet_op (f p i)) /\
    (forall f, t_MkNod ty = Some f -> forall p n fl, quiet_op (f p n fl)) }.

Section quiet.
Context {E : Type} {FS : Filesystems E} {QFS : QuietFS E}.
Implicit Types (s : vfs E).

Lemma quiet_bind {A B} (c : VM E A) (k : A -> VM E B) : quiet_op c -> (forall a, quiet_op (k a)) -> quiet_op (bind c k).
Proof.
  intros Hc Hk s. apply safe_bind. eapply safe_mono; [apply Hc|]. intros a s' Hq. cbn beta.
  eapply safe_mono; [apply Hk|]. intros b s'' Hq'. exact (transitivity Hq Hq').
Qed.

Lemma quiet_ret {A} (a : A) : quiet_op (E := E) (ret a).
Proof. intros s. apply safe_ret. reflexivity. Qed.
Lemma quiet_halt {A} e : good_stop e -> quiet_op (A := A) (E := E) (halt e).
Proof. intros He s. by apply safe_halt. Qed.
Lemma quiet_get : quiet_op (E := E) get_state.
Proof. intros s. apply safe_get. reflexivity. Qed.
Lemma quiet_set_errno e : quiet_op (E := E) (set_errno e).
Proof. intros s. apply safe_modify. auto with acess. Qed.
Lemma quiet_lift {A} (o : option A) : quiet_op (E := E) (lift o).
Proof. intros s. apply safe_lift. reflexivity. Qed.
Lemma quiet_node_at p : quiet_op (E := E) (node_at p).
Proof. intros s. apply safe_node. reflexivity. Qed.
Lemma quiet_put_node p n : quiet_op (E := E) (put_node p n).
Proof. intros s. apply safe_modify. auto with acess. Qed.
Lemma quiet_alloc_ok : quiet_op (E := E) alloc_ok.
Proof. intros s. unfold safe, alloc_ok. destruct (v_alloc s); auto with acess. Qed.
Lemma quiet_new_address : quiet_op (E := E) new_address.
Proof. intros s. unfold safe, new_address. auto with acess. Qed.
Lemma quiet_type_of n : quiet_op (E := E) (type_of n).
Proof. unfold type_of. case_if; [apply quiet_ret|]. destruct (types _); [apply quiet_ret|apply quiet_halt, good_fault]. Qed.
Lemma quiet_hread r : quiet_op (E := E) (hread r).
Proof. intros s. unfold safe, hread. destruct (table r s); [|apply good_fault]. destruct (get _ _); [reflexivity|apply good_fault]. Qed.

(** A method of the type of a node. *)
Lemma type_of_some n s ty : match type_of n s with Ok (Some t) _ => t = ty | _ => False end -> types (n_Type n) = Some ty.
Proof. unfold type_of. case_if; [done|]. destruct (types (n_Type n)) eqn:E'; [|done]. simpl. congruence. Qed.

Lemma quiet_close_node p : quiet_op (_CloseNode p).
Proof.
  unfold _CloseNode. case_if; [apply quiet_ret|]. apply quiet_bind; [apply quiet_node_at|]. intros n s.
  apply safe_bind. unfold type_of. case_if; [apply safe_ret; apply quiet_ret|].
  destruct (types (n_Type n)) as [ty|] eqn:Ht; [|apply good_fault]. apply safe_ret.
  destruct (t_Close ty) as [f|] eqn:Hf; [|apply quiet_ret]. destruct (quiet_types _ _ Ht) as (_ & Hc & _).
  by apply Hc.
Qed.

Lemma quiet_reference_node p : quiet_op (_ReferenceNode p).
Proof.
  unfold _ReferenceNode. apply quiet_bind; [apply quiet_node_at|]. intros n. case_if; [apply quiet_ret|].
  destruct (types (n_Type n)) as [ty|] eqn:Ht; [|apply quiet_ret].
  destruct (t_Reference ty) as [f|] eqn:Hf; [|apply quiet_put_node]. destruct (quiet_types _ _ Ht) as (Hc & _).
  by apply Hc.
Qed.

Lemma quiet_CheckACL p perm : quiet_op (E := E) (CheckACL p perm).
Proof.
  unfold CheckACL. apply quiet_bind; [apply quiet_node_at|]. intros n. apply quiet_bind; [apply quiet_get|]. intros s.
  destruct (VFS_CheckACL _ _ _ _ _); [apply quiet_ret|apply quiet_halt, good_fault].
Qed.
End quiet.

#[export] Hint Resolve quiet_ret quiet_get quiet_set_errno quiet_lift quiet_node_at quiet_put_node quiet_alloc_ok
  quiet_new_address quiet_type_of quiet_hread quiet_close_node quiet_reference_node quiet_CheckACL : acess.

(** [quietly] decomposes a computation made of quiet steps. *)
Ltac quietly :=
  repeat match goal with
  | |- quiet_op (bind _ _) => apply quiet_bind; [|intros ?]
  | |- quiet_op (halt _) => apply quiet_halt; try apply good_fault; try (by split)
  | |- quiet_op (if ?b then _ else _) => destruct b eqn:?
  | |- quiet_op (let '(_, _) := ?x in _) => destruct x
  | |- quiet_op (match ?x with _ => _ end) => destruct x eqn:?
  | |- quiet_op _ => solve [auto with acess]
  end.

(** A type some node has. *)
Definition known {E} {FS : Filesystems E} (ty : tVFS_NodeType E) : Prop := exists k, types k = Some ty.

Section methods.
Context {E : Type} {FS : Filesystems E} {QFS : QuietFS E}.
Implicit Types (s : vfs E) (ty : tVFS_NodeType E).

Lemma safe_type n s (Q : option (tVFS_NodeType E) -> vfs E -> Prop) :
  (forall o, (forall ty, o = Some ty -> known ty) -> Q o s) -> safe (type_of n) s Q.
Proof.
  intros H. unfold type_of. case_if; [by apply safe_ret, H|]. destruct (types _) eqn:Ht; [|apply good_fault].
  apply safe_ret, H. intros ty [= <-]. by eexists.
Qed.

Lemma quiet_bind_type {B} n (k : option (tVFS_NodeType E) -> VM E B) :
  (forall o, (forall ty, o = Some ty -> known ty) -> quiet_op (k o)) -> quiet_op (bind (type_of n) k).
Proof. intros H s. apply safe_bind, safe_type. intros o Ho. by apply H. Qed.

Lemma quiet_method ty : known ty ->
  (forall f, t_Reference ty = Some f -> forall p, quiet_op (f p)) /\
  (forall f, t_Close ty = Some f -> forall p, quiet_op (f p)) /\
  (forall f, t_IOCtl ty = Some f -> forall p i, quiet_op (f p i)) /\
  (forall f, t_Read ty = Some f -> forall p o n fl, quiet_op (f p o n fl)) /\
  (forall f, t_Write ty = Some f -> forall p o n b fl, quiet_op (f p o n b fl)) /\
  (forall f, t_Truncate ty = Some f -> forall p n, quiet_op (f p n)) /\
  (forall f, t_FindDir ty = Some f -> forall p n fl, quiet_op (f p n fl)) /\
  (forall f, t_ReadDir ty = Some f -> forall p i, quiet_op (f p i)) /\
  (forall f, t_MkNod ty = Some f -> forall p n fl, quiet_op (f p n fl)).
Proof. intros [k Hk]. by apply (quiet_types k). Qed.
End methods.

(** [method] closes [quiet_op] of a method found in a node's type. *)
Ltac method :=
  match goal with
  | Hk : forall ty, ?o = Some ty -> known ty, Hm : option_map _ ?o = Some (Some _) |- _ =>
      destruct o as [?ty|]; [|discriminate Hm]; cbn [option_map] in Hm; injection Hm as Hm;
      specialize (Hk _ eq_refl); method
  | Hk : forall ty, Some ?o = Some ty -> known ty |- _ => specialize (Hk _ eq_refl); method
  | Hk : known ?ty |- quiet_op _ =>
      let H := fresh in pose proof (quiet_method ty Hk) as H;
      destruct H as (?&?&?&?&?&?&?&?&?); eauto
  end.

Ltac quietly ::=
  repeat match goal with
  | |- quiet_op (bind (type_of _) _) => apply quiet_bind_type; intros ? ?
  | |- quiet_op (bind _ _) => apply quiet_bind; [|intros ?]
  | |- quiet_op (halt _) => apply quiet_halt; try apply good_fault; try (by split)
  | |- quiet_op (if ?b then _ else _) => destruct b eqn:?
  | |- quiet_op (let '(_, _) := ?x in _) => destruct x
  | |- quiet_op (match ?x with _ => _ end) => destruct x eqn:?; subst
  | |- quiet_op _ => solve [auto with acess]
  | |- quiet_op _ => solve [method]
  end.

Section lookups.
Context {E : Type} {FS : Filesystems E} {QFS : QuietFS E}.
Context (junk : Z).
Implicit Types (s : vfs E).

Lemma quiet_walk fuel : forall Path ofs cur tp, quiet_op (walk fuel Path ofs cur tp).
Proof.
  induction fuel as [|fuel IH]; intros Path ofs cur tp; cbn [walk]; [apply quiet_halt; by split|].
  quietly; apply IH.
Qed.

Lemma quiet_follow src buf node ofs ns : quiet_op (follow_link src buf node ofs ns).
Proof. unfold follow_link. quietly. Qed.

Lemma quiet_GetAbsPath Path : quiet_op (E := E) (GetAbsPath junk Path).
Proof. unfold GetAbsPath. quietly. Qed.

Lemma quiet_memfile Path : quiet_op (E := E) (VFS_MemFile_Create Path).
Proof. unfold VFS_MemFile_Create. quietly. Qed.
End lookups.
#[export] Hint Resolve quiet_walk quiet_follow quiet_GetAbsPath quiet_memfile : acess.
