(* ===== verification/VfsSafe.v ===== *)
(** Every operation of the VFS keeps the accounting of mounts ([VfsInv]): path
    lookup, opening and closing, reading and writing, duplicating, saving and
    restoring handles, mounting and unmounting. *)
From S2P Require Import Prelude CString VfsAcl VfsPath VfsState VfsOpen VfsIo VfsMount VfsInv.

Local Open Scope Z_scope.
Local Open Scope monad_scope.

(** [step]: one bind, its first part by the given lemma. *)
Ltac sstep tac := apply safe_bind; eapply safe_mono; [tac|]; cbn beta.
Ltac quiet_first :=
  match goal with |- safe ?c ?s _ =>
    let H := fresh in assert (quiet_op c) as H by (quietly; auto with acess); exact (H s) end.
Tactic Notation "qstep" simple_intropattern(a) ident(s1) ident(Hq) :=
  apply safe_bind; eapply safe_mono; [quiet_first|]; cbn beta; intros a s1 Hq.

(** [qt] chains quiet steps. *)
Ltac qt :=
  match goal with
  | |- quiet ?a ?a => reflexivity
  | H : quiet ?a ?b |- quiet ?a ?b => exact H
  | H : quiet ?b ?c |- quiet ?a ?c => transitivity b; [qt|exact H]
  end.

Section mounts.
Context {E : Type} {FS : Filesystems E} {QFS : QuietFS E}.
Context (junk : Z).
Implicit Types (s : vfs E) (cr : Z -> Z) (H : list tVFS_Handle).

Definition nonneg cr : Prop := forall m, 0 <= cr m.

Lemma kids_nonneg cr H s m : vinv cr H s -> m ∈ v_list s -> 0 <= kids (v_list s) (v_root s) m.
Proof.
  intros Hi Hm. unfold kids. case_if; [|lia]. destruct (v_list s); [by apply not_elem_of_nil in Hm|].
  rewrite len_cons. pose proof (len_nonneg l). lia.
Qed.

Lemma vinv_ext cr cr' H s : (forall m, cr' m = cr m) -> vinv cr H s -> vinv cr' H s.
Proof. apply MI_ext. Qed.

Lemma credit_0 cr m n k : n + k = 0 -> forall x, cr x = credit (credit cr m n) m k x.
Proof. intros Hn x. unfold credit. case_if; lia. Qed.

Lemma nonneg_credit cr m n : nonneg cr -> 0 <= n -> nonneg (credit cr m n).
Proof. intros Hc Hn x. unfold credit. specialize (Hc x). case_if; lia. Qed.

(** Dropping a reference nobody gives back. *)
Lemma vinv_leak cr m H s : vinv (credit cr m 1) H s -> (forall x, cr x <> 0 -> x ∈ v_list s) -> vinv cr H s.
Proof. intros Hi Hs. eapply MI_weaken; [|done|exact Hi]. intros x. unfold credit. case_if; lia. Qed.

Lemma safe_mount cr H s m (Q : tVFS_Mount -> vfs E -> Prop) : vinv cr H s -> m = 0 \/ m ∈ v_list s ->
  (forall x, m ∈ v_list s -> v_mounts s !! m = Some x -> 0 < m -> Q x s) -> safe (mount_at m) s Q.
Proof.
  intros Hi Hm HQ. unfold safe, mount_at. case_if; [apply good_fault|]. destruct Hm as [?|Hm]; [lia|].
  destruct (mi_count _ _ _ _ _ _ Hi m Hm) as (x & Hx & _). rewrite Hx. apply HQ; try done.
  by apply (mi_addr _ _ _ _ _ _ Hi).
Qed.

(** The outcome of changing counts only. *)
Definition counts_to s (cr' : Z -> Z) H s' : Prop := same_tables s s' /\ v_next s' = v_next s /\ vinv cr' H s'.

Lemma put_count_spec cr H s m x n : vinv cr H s -> m ∈ v_list s -> v_mounts s !! m = Some x ->
  safe (bind (int_result (OpenHandleCount x + n)) (fun k => put_mount m (set_count k x))) s (fun _ s' => counts_to s (credit cr m n) H s').
Proof.
  intros Hi Hm Hx. apply safe_bind. unfold int_result. destruct (Z.eqb_spec (i32 (OpenHandleCount x + n)) (OpenHandleCount x + n)) as [Hint|]; [|by split].
  apply safe_ret, safe_modify. split; [by split|]. split; [done|]. by apply MI_count.
Qed.

Lemma inc_spec cr H s m : vinv cr H s -> m = 0 \/ m ∈ v_list s ->
  safe (mount_inc m) s (fun _ s' => counts_to s (credit cr m 1) H s' /\ m ∈ v_list s).
Proof.
  intros Hi Hm. unfold mount_inc. apply safe_bind, (safe_mount cr H); [done..|]. intros x Hml Hx _.
  eapply safe_mono; [by apply (put_count_spec cr H s m x 1)|]. done.
Qed.

Lemma dec_spec cr H s m : vinv cr H s -> m = 0 \/ m ∈ v_list s ->
  safe (mount_dec m) s (fun _ s' => counts_to s (credit cr m (-1)) H s').
Proof.
  intros Hi Hm. unfold mount_dec. apply safe_bind, (safe_mount cr H); [done..|]. intros x Hml Hx _.
  eapply safe_mono; [apply (put_count_spec cr H s m x (-1)); done|]. done.
Qed.

Lemma deref_spec cr H s m : vinv cr H s -> m = 0 \/ m ∈ v_list s ->
  (m ∈ v_list s -> 1 <= cnt m H + kids (v_list s) (v_root s) m + cr m) ->
  safe (_DereferenceMount m) s (fun _ s' => counts_to s (credit cr m (-1)) H s').
Proof.
  intros Hi Hm Hc. unfold _DereferenceMount. apply safe_bind, (safe_mount cr H); [done..|]. intros x Hml Hx _.
  destruct (mi_count _ _ _ _ _ _ Hi m Hml) as (y & Hy & Hle & _). simplify_eq. specialize (Hc Hml).
  rewrite (proj2 (Z.ltb_lt 0 _)) by lia. apply safe_bind, safe_ret. by apply dec_spec.
Qed.

(** Giving back a reference just taken. *)
Lemma deref_back cr H s m : nonneg cr -> vinv (credit cr m 1) H s -> m ∈ v_list s ->
  safe (_DereferenceMount m) s (fun _ s' => counts_to s cr H s').
Proof.
  intros Hn Hi Hm. eapply safe_mono; [apply (deref_spec (credit cr m 1) H); [done|by right|]|].
  - intros _. pose proof (cnt_nonneg m H). pose proof (kids_nonneg _ _ _ _ Hi Hm). unfold credit. rewrite Z.eqb_refl.
    specialize (Hn m). lia.
  - intros _ s' (Ht & Hx & Hv). split_and!; [done|done|]. eapply vinv_ext; [|exact Hv]. by apply credit_0.
Qed.

(** ** Path lookup *)
Lemma find_mount_spec cr H s Path l : forall longest, vinv cr H s -> l ⊆ v_list s -> longest ∈ v_list s ->
  safe (find_mount junk Path l longest) s (fun r s' => s' = s /\ r.1 ∈ v_list s).
Proof.
  induction l as [|m l IH]; intros longest Hi Hl Hlo; cbn [find_mount]; [by apply safe_ret|].
  assert (m ∈ v_list s) as Hm by (apply Hl; by left). assert (l ⊆ v_list s) as Hl' by (intros y Hy; apply Hl; by right).
  apply safe_bind, (safe_mount cr H); [done|by right|]. intros x _ Hx _. case_if; [by apply IH|].
  apply safe_bind, (safe_mount cr H); [done|by right|]. intros y _ Hy _. case_if; [by apply IH|].
  apply safe_bind, safe_lift. intros c Hc. case_if; [by apply IH|]. case_if; [by apply safe_ret|by apply IH].
Qed.

Definition pcr cr (r : parsed) : Z -> Z :=
  if bool_decide (p_node r = 0 \/ p_mount r = 0) then cr else credit cr (p_mount r) 1.

(** What a lookup promises. *)
Definition looked_up cr H s (r : parsed) s' : Prop :=
  same_tables s s' /\ v_next s <= v_next s' /\ vinv (pcr cr r) H s' /\
  (p_node r <> 0 -> p_mount r = 0 \/ p_mount r ∈ v_list s).

Lemma looked_found cr H s s' p tp m : same_tables s s' -> v_next s <= v_next s' -> vinv (credit cr m 1) H s' ->
  m ∈ v_list s -> (forall x, cr x <> 0 -> x ∈ v_list s) -> looked_up cr H s (MkParsed p tp m) s'.
Proof.
  intros Ht Hn Hi Hm Hs. split_and!; [done|done| |by right]. unfold pcr. cbn. case_bool_decide; [|done].
  eapply vinv_leak; [exact Hi|]. destruct Ht as [Hl _ _ _ _ _ _]. by rewrite Hl.
Qed.

Lemma looked_trans cr H s s1 r s2 : same_tables s s1 -> v_next s <= v_next s1 -> looked_up cr H s1 r s2 -> looked_up cr H s r s2.
Proof.
  intros Ht Hn (Ht2 & Hn2 & Hi & Hm). split_and!; [by etrans|lia|done|]. destruct Ht as [Hl _ _ _ _ _ _]. by rewrite <- Hl.
Qed.

Lemma parse_error_spec cr H s m cur : nonneg cr -> vinv (credit cr m 1) H s -> m ∈ v_list s ->
  safe (parse_error m cur) s (fun r s' => looked_up cr H s r s').
Proof.
  intros Hn Hi Hm. unfold parse_error. qstep _ s1 Hq. pose proof (vinv_quiet _ _ _ _ Hq Hi) as Hi1.
  destruct Hq as [Ht Hmo Hnx]. sstep ltac:(eapply (deref_back cr H); [done|exact Hi1|destruct Ht as [-> _ _ _ _ _ _]; done]).
  intros _ s2 (Ht2 & Hn2 & Hi2). apply safe_ret. split_and!; [by etrans|lia|done|done].
Qed.

Lemma looked_after cr H s s1 (c : VM E parsed) : quiet s s1 ->
  safe c s1 (fun r s' => looked_up cr H s1 r s') -> safe c s1 (fun r s' => looked_up cr H s r s').
Proof. intros [Ht _ Hn] Hc. eapply safe_mono; [exact Hc|]. intros r s'. by apply looked_trans. Qed.

Lemma in_list_quiet s s' m : quiet s s' -> m ∈ v_list s -> m ∈ v_list s'.
Proof. intros [[-> _ _ _ _ _ _] _ _]. done. Qed.

Lemma support cr H s : vinv cr H s -> forall x, cr x <> 0 -> x ∈ v_list s.
Proof. intros Hi. apply (mi_cr _ _ _ _ _ _ Hi). Qed.

Lemma support_credit cr m H s : nonneg cr -> vinv (credit cr m 1) H s -> forall x, cr x <> 0 -> x ∈ v_list s.
Proof.
  intros Hn Hi x Hx. apply (support _ _ _ Hi). unfold credit. specialize (Hn x). case_if; lia.
Qed.

(** An error after some quiet steps. *)
Lemma error_after cr H s s1 m cur : nonneg cr -> vinv (credit cr m 1) H s -> m ∈ v_list s -> quiet s s1 ->
  safe (parse_error m cur) s1 (fun r s' => looked_up cr H s r s').
Proof.
  intros Hn Hi Hm Hq. apply looked_after; [done|]. apply parse_error_spec; [done|by eapply vinv_quiet|by eapply in_list_quiet].
Qed.

Lemma errno_error cr H s s1 m cur e : nonneg cr -> vinv (credit cr m 1) H s -> m ∈ v_list s -> quiet s s1 ->
  safe (set_errno e;;; parse_error m cur) s1 (fun r s' => looked_up cr H s r s').
Proof.
  intros Hn Hi Hm Hq. qstep _ s2 Hq2. apply error_after; try done. by etrans.
Qed.

Lemma parse_last_spec cr H s Path m cur ofs tp : nonneg cr -> vinv (credit cr m 1) H s -> m ∈ v_list s ->
  safe (parse_last Path m cur ofs tp) s (fun r s' => looked_up cr H s r s').
Proof.
  intros Hn Hi Hm. unfold parse_last. qstep n s1 Hq1. apply safe_bind, safe_type. intros ty Hty.
  destruct (option_map t_FindDir ty) as [[f|]|] eqn:Hf; [|by apply errno_error..].
  qstep tmp s2 Hq2. case_if; [apply errno_error; try done; qt|]. qstep _ s3 Hq3.
  assert (quiet s s3) as Hq by qt. pose proof (support_credit _ _ _ _ Hn Hi) as Hsup.
  destruct tp as [t|].
  - qstep b s4 Hq4. case_if; [apply errno_error; try done; qt|]. qstep name s5 Hq5. apply safe_ret.
    assert (quiet s s5) as Hq' by qt. apply looked_found; try done; [apply Hq'|apply Hq'|by eapply vinv_quiet].
  - apply safe_ret. apply looked_found; try done; [apply Hq|apply Hq|by eapply vinv_quiet].
Qed.

Lemma looked_root cr H s s1 p tp m : vinv cr H s -> quiet s s1 -> m = 0 \/ m ∈ v_list s ->
  safe (_ReferenceMount m;;; ret (MkParsed p tp m)) s1 (fun r s' => looked_up cr H s r s').
Proof.
  intros Hi Hq Hm. apply safe_bind. eapply safe_mono; [apply (inc_spec cr H)|].
  - by eapply vinv_quiet.
  - destruct Hm; [by left|right; by eapply in_list_quiet].
  - intros _ s2 [(Ht & Hn & Hv) Hml]. apply safe_ret. destruct Hq as [Ht1 _ Hn1]. apply looked_found; [by etrans|lia|done| |].
    + destruct Ht1 as [<- _ _ _ _ _ _]. done.
    + by apply (support _ _ _ Hi).
Qed.

Lemma quiet_truepath (want : bool) (mp : list Z) :
  quiet_op (E := E) (if want then do b <- alloc_ok; if (b : bool) then do p <- lift (str_of mp); ret (Some p)
                     else halt SFault else ret None).
Proof. quietly. Qed.

Lemma root_live cr H s : vinv cr H s -> v_root s = 0 \/ v_root s ∈ v_list s.
Proof. intros Hi. destruct (mi_root _ _ _ _ _ _ Hi) as [[_ ?]|(rest & x & -> & _)]; [by left|right; by left]. Qed.

Lemma parse_restart_spec fuel : forall cr H s src buf n want, nonneg cr -> vinv cr H s ->
  safe (parse_restart junk fuel src buf n want) s (fun r s' => looked_up cr H s r s').
Proof.
  induction fuel as [|fuel IH]; intros cr H s src buf n want Hn Hi; cbn [parse_restart]; [apply safe_halt; by split|].
  apply safe_bind, safe_get. case_if.
  { apply safe_bind, (safe_mount cr H); [done|by eapply root_live|]. intros x Hml Hx _.
    qstep tp s1 Hq1. apply looked_root; [done|done|by right]. }
  destruct (v_list s) as [|m0 l] eqn:Hl.
  { apply safe_ret. split_and!; [reflexivity|lia|done|done]. }
  destruct (root_live _ _ _ Hi) as [Hr|Hr].
  { destruct (mi_root _ _ _ _ _ _ Hi) as [[Hl0 _]|(rest & x & Hl0 & _)]; [congruence|].
    pose proof (mi_addr _ _ _ _ _ _ Hi (v_root s)) as Ha. rewrite Hl0 in Ha. specialize (Ha ltac:(by left)). lia. }
  rewrite <- Hl. sstep ltac:(eapply (find_mount_spec cr H); [done|done|done]). intros [m exact] s' [-> Hm].
  cbn [fst] in Hm. apply safe_bind, (safe_mount cr H); [done|by right|]. intros x _ Hx _.
  destruct exact. { qstep tp s1 Hq1. apply looked_root; [done|done|by right]. }
  sstep ltac:(eapply (inc_spec cr H); [done|by right]). intros _ s1 [(Ht1 & Hn1 & Hi1) _].
  assert (m ∈ v_list s1) as Hm1 by (by destruct Ht1 as [-> _ _ _ _ _ _]).
  eapply safe_mono; [|intros r s'; apply (looked_trans cr H s s1); [done|lia]].
  qstep tp s2 Hq2. qstep r s3 Hq3. qstep _ s4 Hq4. qstep w s5 Hq5. assert (quiet s1 s5) as Hq by qt.
  destruct w as [cur|cur ofs ns|cur ofs tp'].
  - by apply error_after.
  - qstep nd s6 Hq6. apply safe_bind, safe_type. intros ty Hty. destruct (option_map t_Read ty) as [[f|]|]; [|apply errno_error; try done; qt..].
    case_if; [apply errno_error; try done; qt|]. qstep nb s7 Hq7. destruct nb as [nb|]; [|apply errno_error; try done; qt].
    assert (quiet s1 s7) as Hq1 by qt.
    sstep ltac:(eapply (deref_back cr H); [done|by eapply vinv_quiet|by eapply in_list_quiet]). intros _ s8 (Ht8 & Hn8 & Hi8).
    eapply safe_mono; [by apply (IH cr H)|]. intros r' s'. apply looked_trans; [etrans; [apply Hq1|done]|].
    destruct Hq1 as [_ _ ?]. lia.
  - apply looked_after; [done|]. apply parse_last_spec; [done|by eapply vinv_quiet|by eapply in_list_quiet].
Qed.

Lemma ParsePath_spec cr H s Path want : nonneg cr -> vinv cr H s ->
  safe (VFS_ParsePath junk Path want) s (fun r s' => looked_up cr H s r s').
Proof.
  intros Hn Hi. unfold VFS_ParsePath. apply safe_bind, safe_get. case_if; [|by apply parse_restart_spec].
  qstep tp s1 Hq1. qstep p s2 Hq2. apply safe_ret. assert (quiet s s2) as Hq by qt.
  split_and!; [apply Hq|apply Hq| |by left]. unfold pcr. cbn. rewrite bool_decide_true by (by right). by eapply vinv_quiet.
Qed.
End mounts.
