(* ===== verification/VfsTables.v ===== *)
(** Handle tables: what reading and writing a slot does to the list of all handles,
    and the specification of handle allocation. *)
From S2P Require Import Prelude CString VfsAcl VfsPath VfsState VfsOpen VfsIo VfsMount VfsInv VfsSafe.

Local Open Scope Z_scope.
Local Open Scope monad_scope.

Section MI_handles.
Implicit Types (cr : Z -> Z) (l : list Z) (H : list tVFS_Handle).

Lemma MI_drop cr mounts l root next h H : MI cr mounts l root next (h :: H) -> MI cr mounts l root next H.
Proof.
  intros [H1 H2 H3 H4 H5 H6 H7]. split; try done.
  - intros m Hm. destruct (H1 m Hm) as (x & ? & Hc & ?). exists x. split_and!; try done. rewrite cnt_cons in Hc. case_decide; lia.
  - intros k Hk. apply H2. by right.
Qed.

Lemma MI_drop_app cr mounts l root next K H : MI cr mounts l root next (K ++ H) -> MI cr mounts l root next H.
Proof. induction K as [|h K IH]; [done|]. cbn [app]. intros Hi. by apply IH, (MI_drop _ _ _ _ _ h). Qed.

(** A reference taken by the operation for a mount, if there is one. *)
Definition pm cr (m : Z) : Z -> Z := if m =? 0 then cr else credit cr m 1.

(** A new handle takes over the reference. *)
Lemma MI_add cr mounts l root next h H m : MI (pm cr m) mounts l root next H -> (forall x, cr x <> 0 -> x ∈ l) ->
  h_Mount h = m -> m = 0 \/ m ∈ l -> MI cr mounts l root next (h :: H).
Proof.
  intros [H1 H2 H3 H4 H5 H6 H7] Hsup Hhm Hm. split; try done.
  - intros k Hk. destruct (H1 k Hk) as (x & ? & Hc & ?). exists x. split_and!; try done. rewrite cnt_cons.
    specialize (H6 k Hk). unfold pm, credit, counted in *. repeat (case_decide || case_if_in Hc); try lia.
  - intros k. rewrite elem_of_cons. intros [->|Hk]; [intros _; by rewrite Hhm|by apply H2].
Qed.

Lemma MI_closed cr mounts l root next K H : Forall (fun h => h_Node h = 0) K ->
  MI cr mounts l root next H -> MI cr mounts l root next (K ++ H).
Proof.
  intros HK [H1 H2 H3 H4 H5 H6 H7]. split; try done.
  - intros k Hk. destruct (H1 k Hk) as (x & ? & Hc & ?). exists x. by rewrite cnt_app, cnt_closed.
  - intros h. rewrite elem_of_app. intros [Hh|Hh]; [|by apply H2]. rewrite Forall_forall in HK. intros Hn. by destruct Hn; apply HK.
Qed.
End MI_handles.

#[export] Instance href_eq_dec : EqDecision href.
Proof. solve_decision. Defined.

Section tables.
Context {E : Type}.
Implicit Types (s : vfs E) (r : href) (h : tVFS_Handle).

(** The handles other than the one in a slot. *)
Definition rest (r : href) s : list tVFS_Handle :=
  match r with
  | HUser i => delete (Z.to_nat i) (default [] (v_user s)) ++ default [] (v_kern s) ++ concat (v_others s) ++ concat (map_to_list (v_saved s)).*2
  | HKern i => default [] (v_user s) ++ delete (Z.to_nat i) (default [] (v_kern s)) ++ concat (v_others s) ++ concat (map_to_list (v_saved s)).*2
  end.

(** Slot [r] holds [h]. *)
Definition holds r s h : Prop := exists t, table r s = Some t /\ get t (hindex r) = Some h.

Lemma safe_hread r s (Q : tVFS_Handle -> vfs E -> Prop) :
  (forall h, holds r s h -> Q h s) -> safe (hread r) s Q.
Proof.
  intros H. unfold safe, hread. destruct (table r s) as [t|] eqn:Ht; [|apply good_fault].
  destruct (get t (hindex r)) eqn:Hg; [|apply good_fault]. apply H. by exists t.
Qed.

Lemma get_delete {A} (t : list A) i x : get t i = Some x -> t ≡ₚ x :: delete (Z.to_nat i) t.
Proof. unfold get. case_if; [|done]. apply delete_Permutation. Qed.

Lemma holds_split r s h : holds r s h -> handles s ≡ₚ h :: rest r s.
Proof.
  intros (t & Ht & Hg). apply get_delete in Hg. unfold handles, rest. destruct r as [i|i]; simpl in *; rewrite Ht; simpl.
  - rewrite Hg at 1. done.
  - rewrite Hg at 1. cbn [app]. by rewrite <- Permutation_middle.
Qed.

(** What matters besides the handles. *)
Record env s s' : Prop := {
  e_list : v_list s' = v_list s; e_root : v_root s' = v_root s; e_maxfd : v_maxfd s' = v_maxfd s;
  e_next : v_next s <= v_next s' }.
#[global] Instance env_preorder : PreOrder env.
Proof. split; [by split|]. intros a b c [] []. split; [congruence..|lia]. Qed.

(** Open slots keep their handles. *)
Definition keeps s s' : Prop := forall r h, holds r s h -> h_Node h <> 0 -> holds r s' h.
#[global] Instance keeps_preorder : PreOrder keeps.
Proof. split; [intros s r h; done|]. intros a b c H1 H2 r h ??. by apply H2; [apply H1|]. Qed.

Lemma same_env s s' : same_tables s s' -> v_next s <= v_next s' -> env s s'.
Proof. intros [] ?. by split. Qed.
Lemma quiet_env s s' : quiet s s' -> env s s'.
Proof. intros []. by apply same_env. Qed.

Lemma table_same r s s' : same_tables s s' -> table r s' = table r s.
Proof. intros []. by destruct r. Qed.
Lemma holds_same r s s' h : same_tables s s' -> holds r s' h <-> holds r s h.
Proof. intros Ht. unfold holds. by rewrite (table_same _ _ _ Ht). Qed.
Lemma rest_same r s s' : same_tables s s' -> rest r s' = rest r s.
Proof. intros []. unfold rest. destruct r; congruence. Qed.
Lemma same_keeps s s' : same_tables s s' -> keeps s s'.
Proof. intros Ht r h. by rewrite (holds_same r s s'). Qed.

(** Writing a slot changes that slot. *)
Record wrote r h s s' : Prop := {
  w_mounts : v_mounts s' = v_mounts s; w_env : env s s'; w_next : v_next s' = v_next s;
  w_rest : rest r s' = rest r s; w_holds : holds r s' h;
  w_other : forall r' h', r' <> r -> holds r' s' h' <-> holds r' s h' }.

Lemma safe_hwrite r s h h' (Q : unit -> vfs E -> Prop) : holds r s h ->
  (forall s', wrote r h' s s' -> Q tt s') -> safe (hwrite r h') s Q.
Proof.
  intros (t & Ht & Hg) HQ. unfold safe, hwrite. rewrite Ht.
  assert (0 <= hindex r < len t) as Hi.
  { unfold get in Hg. case_if_in Hg; [|done]. apply lookup_lt_Some in Hg. unfold len. lia. }
  destruct (set_ok t (hindex r) h' Hi) as (t' & Hset & Hlen & Hget). rewrite Hset. apply HQ.
  assert (delete (Z.to_nat (hindex r)) t' = delete (Z.to_nat (hindex r)) t) as Hdel.
  { unfold set in Hset. case_if_in Hset; [|done]. injection Hset as <-. apply list_eq. intros i.
    destruct (decide (i < Z.to_nat (hindex r))%nat).
    - rewrite !list_lookup_delete_lt by lia. by rewrite list_lookup_insert_ne by lia.
    - rewrite !list_lookup_delete_ge by lia. by rewrite list_lookup_insert_ne by lia. }
  assert (table r (upd_table r t' s) = Some t') as Ht' by (by destruct r).
  split.
  - by destruct r.
  - by destruct r.
  - by destruct r.
  - unfold rest. destruct r; simpl in *; rewrite Ht; simpl; by rewrite Hdel.
  - exists t'. split; [done|]. by rewrite Hget, Z.eqb_refl.
  - intros r' k Hr. unfold holds. destruct r as [i|i], r' as [j|j]; simpl in *; try done;
      (split; intros (u & Hu & Hk); simplify_eq; eexists; (split; [done|]); cbn [hindex] in *;
       rewrite Hget in *; destruct (Z.eqb_spec j i); congruence).
Qed.

Lemma wrote_handles r h s s' : wrote r h s s' -> handles s' ≡ₚ h :: rest r s.
Proof. intros [_ _ _ <- Hh _]. by apply holds_split. Qed.

Lemma vinv_wrote cr H r h s s' : wrote r h s s' -> vinv cr H s -> vinv cr H s'.
Proof. unfold vinv. intros [Hm [Hl Hr _ _] Hn _ _ _]. by rewrite Hm, Hn, Hl, Hr. Qed.

Lemma keeps_wrote r h h0 s s' : wrote r h s s' -> holds r s h0 -> h_Node h0 = 0 -> keeps s s'.
Proof.
  intros Hw Hh0 H0 r' k Hk Hn. destruct (decide (r' = r)) as [->|Hne].
  - destruct Hh0 as (t & Ht & Hg), Hk as (t' & Ht' & Hg'). congruence.
  - by apply (w_other _ _ _ _ Hw).
Qed.

(** The whole of what an operation promises. *)
Definition inv s : Prop := vinv no_credit (handles s) s /\ 0 <= v_maxfd s < 1073741824.

Lemma vinv_handles cr s s' : same_tables s s' -> vinv cr (handles s) s' -> vinv cr (handles s') s'.
Proof. intros Ht. by rewrite (handles_same _ _ Ht). Qed.
End tables.

(** ** Descriptors *)
Section slots.
Context {E : Type} {FS : Filesystems E} {QFS : QuietFS E}.
Implicit Types (s : vfs E).

Lemma flag_bit x k : 0 <= k -> flag x (2 ^ k) = Z.testbit x k.
Proof.
  intros Hk. unfold flag. destruct (Z.testbit x k) eqn:Hb.
  - apply negb_true_iff, Z.eqb_neq. intros H0. apply (f_equal (fun y => Z.testbit y k)) in H0.
    rewrite Z.land_spec, Hb, Z.pow2_bits_true, Z.bits_0 in H0 by done. done.
  - apply negb_false_iff, Z.eqb_eq. apply Z.bits_inj'. intros i Hi. rewrite Z.land_spec, Z.bits_0.
    destruct (decide (i = k)) as [->|]; [by rewrite Hb|]. rewrite Z.pow2_bits_false by done. apply andb_false_r.
Qed.

Lemma kernel_fd i : 0 <= i < 128 ->
  flag (Z.lor i VFS_KERNEL_FLAG) VFS_KERNEL_FLAG = true /\ Z.land (Z.lor i VFS_KERNEL_FLAG) (VFS_KERNEL_FLAG - 1) = i /\
  0 <= Z.lor i VFS_KERNEL_FLAG.
Proof.
  intros Hi. rewrite Z.lor_comm. assert (Z.lor (1 * 2 ^ 30) i = 1 * 2 ^ 30 + i) as Hl by (apply lor_disjoint; lia).
  change (1 * 2 ^ 30) with VFS_KERNEL_FLAG in Hl. split_and!.
  - change VFS_KERNEL_FLAG with (2 ^ 30) at 2. rewrite flag_bit by lia. rewrite Z.lor_spec. done.
  - rewrite Hl. change (VFS_KERNEL_FLAG - 1) with (2 ^ 30 - 1). rewrite land_low by lia.
    change VFS_KERNEL_FLAG with (1 * 2 ^ 30). rewrite Z.add_comm, Z_mod_plus_full. apply Z.mod_small. lia.
  - rewrite Hl. lia.
Qed.

Lemma user_fd i : 0 <= i < VFS_KERNEL_FLAG -> flag i VFS_KERNEL_FLAG = false.
Proof.
  intros Hi. change VFS_KERNEL_FLAG with (2 ^ 30). rewrite flag_bit by lia.
  rewrite <- (Z.mod_small i (2 ^ 30)) by lia. apply Z.mod_pow2_bits_high. lia.
Qed.

(** The slot of a number VFS_AllocHandle returns. *)
Definition fd_slot (u : bool) (i : Z) : href := if u then HUser i else HKern i.
Definition slot_fd (u : bool) (i : Z) : Z := if u then i else Z.lor i VFS_KERNEL_FLAG.

Lemma slot_back (u : bool) i s : 0 <= i -> (if u then i < v_maxfd s /\ v_maxfd s < VFS_KERNEL_FLAG else i < 128) ->
  slot (slot_fd u i) s = Ok (Some (fd_slot u i)) s /\ 0 <= slot_fd u i.
Proof.
  intros Hi Hu. unfold slot. destruct u; simpl.
  - rewrite (proj2 (Z.ltb_ge i 0)) by lia. rewrite user_fd by lia. unfold bind, get_state.
    rewrite (proj2 (Z.leb_gt _ _)) by lia. done.
  - destruct (kernel_fd i) as (-> & -> & H0); [lia|]. rewrite (proj2 (Z.ltb_ge _ 0)) by lia.
    by rewrite (proj2 (Z.leb_gt _ _)) by lia.
Qed.

Lemma safe_slot FD s (Q : option href -> vfs E -> Prop) : (forall o, Q o s) -> safe (slot FD) s Q.
Proof.
  intros HQ. unfold slot. case_if; [by apply safe_ret|]. case_if.
  - case_if; by apply safe_ret.
  - apply safe_bind, safe_get. case_if; by apply safe_ret.
Qed.

Lemma safe_GetHandle FD s (Q : option href -> vfs E -> Prop) : Q None s ->
  (forall r h, slot FD s = Ok (Some r) s -> holds r s h -> h_Node h <> 0 -> Q (Some r) s) -> safe (VFS_GetHandle FD) s Q.
Proof.
  intros HN HS. unfold VFS_GetHandle. unfold safe at 1, bind. 
  assert (exists o, slot FD s = Ok o s) as [o Ho].
  { pose proof (safe_slot FD s (fun _ s' => s' = s) ltac:(done)) as H. unfold safe in H. 
    unfold slot in *. destruct (FD <? 0); [by eexists|]. destruct (flag FD VFS_KERNEL_FLAG).
    - destruct (_ <=? _); by eexists.
    - unfold bind, get_state. destruct (_ <=? _); by eexists. }
  rewrite Ho. destruct o as [r|]; [|done]. change (safe (do h <- hread r; if h_Node h =? 0 then ret None else ret (Some r)) s Q).
  apply safe_bind, safe_hread. intros h Hh. case_if; [by apply safe_ret|]. apply safe_ret. by eapply HS.
Qed.

Lemma free_slot_spec t k i : free_slot t k = Some i -> exists h, k <= i /\ t !! Z.to_nat (i - k) = Some h /\ h_Node h = 0.
Proof.
  revert k. induction t as [|h t IH]; intros k; simpl; [done|]. case_if.
  - intros [= <-]. exists h. split_and!; [lia| |done]. by rewrite Z.sub_diag.
  - intros (h' & ? & Hl & ?)%IH. exists h'. split_and!; [lia| |done].
    replace (Z.to_nat (i - k)) with (S (Z.to_nat (i - (k + 1)))) by lia. done.
Qed.

Lemma quiet_map_pages n e : good_stop e -> quiet_op (E := E) (map_pages n e).
Proof. intros He. induction n as [|n IH]; cbn [map_pages]; [apply quiet_ret|]. quietly; done. Qed.

(** Mapping a table adds closed handles. *)
Lemma map_table_spec u cr s : vinv cr (handles s) s -> safe (map_table u) s (fun _ s' =>
  vinv cr (handles s') s' /\ env s s' /\ keeps s s').
Proof.
  intros Hi. unfold map_table. apply safe_bind, safe_get. destruct u.
  - destruct (v_user s) as [t|] eqn:Hu; [apply safe_ret; split_and!; [done|reflexivity|reflexivity]|].
    apply safe_bind. eapply safe_mono; [apply quiet_map_pages; by split|]. cbn beta. intros _ s1 Hq. apply safe_modify.
    pose proof (vinv_quiet _ _ _ _ Hq Hi) as Hi1. pose proof (quiet_env _ _ Hq) as [He1 He2 He3 He4]. destruct Hq as [Ht _ _].
    rewrite <- (handles_same _ _ Ht) in Hi1. assert (v_user s1 = None) as Hu1 by (destruct Ht; congruence).
    split_and!; [|by split|].
    + eapply MI_perm; [|apply (MI_closed _ _ _ _ _ (replicate (Z.to_nat (v_maxfd s)) zero_handle)); [|exact Hi1]];
        [|by apply Forall_replicate].
      unfold handles. simpl. rewrite Hu1. simpl. done.
    + intros [i|i] h (t & Htb & Hg) Hn; simpl in Htb; [congruence|]. exists t. simpl. split; [|done]. destruct Ht; congruence.
  - destruct (v_kern s) as [t|] eqn:Hu; [apply safe_ret; split_and!; [done|reflexivity|reflexivity]|].
    apply safe_bind. eapply safe_mono; [apply quiet_map_pages; by split|]. cbn beta. intros _ s1 Hq. apply safe_modify.
    pose proof (vinv_quiet _ _ _ _ Hq Hi) as Hi1. pose proof (quiet_env _ _ Hq) as [He1 He2 He3 He4]. destruct Hq as [Ht _ _].
    rewrite <- (handles_same _ _ Ht) in Hi1. assert (v_kern s1 = None) as Hu1 by (destruct Ht; congruence).
    split_and!; [|by split|].
    + eapply MI_perm; [|apply (MI_closed _ _ _ _ _ (replicate (Z.to_nat 128) zero_handle)); [|exact Hi1]]; [|by apply Forall_replicate].
      unfold handles. cbn [v_user v_kern v_others v_saved upd_kern]. rewrite Hu1. cbn [default from_option id app].
      by rewrite Permutation_app_swap_app.
    + intros [i|i] h (t & Htb & Hg) Hn; simpl in Htb; [|congruence]. exists t. simpl. split; [|done]. destruct Ht; congruence.
Qed.

(** A handle is allocated in a slot that was free, with whatever mount was left in it. *)
Definition allocated (u : bool) Node Mode cr s (fd : Z) s' : Prop :=
  env s s' /\ keeps s s' /\
  ((fd = -1 /\ vinv cr (handles s') s') \/
   (exists i h, fd = slot_fd u i /\ 0 <= fd /\ slot fd s' = Ok (Some (fd_slot u i)) s' /\
      holds (fd_slot u i) s' h /\ h_Node h = Node /\ h_Mode h = Mode /\ h_Position h = 0 /\
      (forall k, holds (fd_slot u i) s k -> h_Node k = 0) /\
      vinv cr (rest (fd_slot u i) s') s')).

Lemma AllocHandle_spec u Node Mode cr s : vinv cr (handles s) s -> 0 <= v_maxfd s < VFS_KERNEL_FLAG ->
  safe (VFS_AllocHandle u Node Mode) s (allocated u Node Mode cr s).
Proof.
  intros Hi Hmax. unfold VFS_AllocHandle. sstep ltac:(by apply map_table_spec). intros _ s1 (Hi1 & He1 & Hk1).
  apply safe_bind, safe_get. destruct (free_slot _ _) as [i|] eqn:Hf.
  2: { apply safe_ret. split_and!; [done|done|by left]. }
  apply free_slot_spec in Hf as (h & Hi0 & Hl & Hn0). rewrite Z.sub_0_r in Hl.
  apply safe_bind, safe_hread. intros h1 Hh1.
  assert ((if u then i < v_maxfd s1 else i < 128) /\ h_Node h1 = 0) as [Hlt Hn1].
  { rewrite lookup_take_Some in Hl. destruct Hl as [Hl Hlt]. split; [destruct u; lia|].
    destruct Hh1 as (t & Ht & Hg). replace (table (if u then HUser 0 else HKern 0) s1) with (Some t) in Hl
      by (rewrite <- Ht; by destruct u). simpl in Hl. unfold get in Hg. destruct u; simpl in Hg; case_if_in Hg; congruence. }
  apply safe_bind. eapply safe_hwrite; [exact Hh1|]. intros s2 Hw. apply safe_ret.
  assert (env s s2) as He by (etrans; [exact He1|apply (w_env _ _ _ _ Hw)]).
  split_and!; [done|etrans; [exact Hk1|by eapply keeps_wrote]|]. right. exists i. eexists.
  destruct (slot_back u i s2) as [Hsl Hpos]; [done|destruct u; [|done]; rewrite (e_maxfd _ _ (w_env _ _ _ _ Hw)); destruct He1; lia|].
  split_and!; [by destruct u|by destruct u|exact Hsl|exact (w_holds _ _ _ _ Hw)|done|done|done| |].
  { intros k Hk. destruct (decide (h_Node k = 0)) as [|Hne]; [done|]. specialize (Hk1 _ _ Hk Hne).
    destruct Hh1 as (t1 & Ht1 & Hg1), Hk1 as (t2 & Ht2 & Hg2). unfold fd_slot in *. congruence. }
  unfold fd_slot. rewrite (w_rest _ _ _ _ Hw). eapply vinv_wrote; [exact Hw|]. eapply MI_drop, MI_perm; [|exact Hi1].
  by apply holds_split.
Qed.
End slots.
