(* ===== verification/VfsOps.v ===== *)
(** The operations on files and handles keep the accounting of mounts. *)
From S2P Require Import Prelude CString VfsAcl VfsPath VfsState VfsOpen VfsIo VfsMount VfsInv VfsSafe VfsTables.

Local Open Scope Z_scope.
Local Open Scope monad_scope.

(** [ek] chains environments and kept slots. *)
Ltac ek :=
  match goal with
  | |- env ?a ?a => reflexivity
  | |- keeps ?a ?a => reflexivity
  | H : env ?b ?c |- env ?a ?c => transitivity b; [ek|exact H]
  | H : quiet ?b ?c |- env ?a ?c => transitivity b; [ek|by apply quiet_env]
  | H : keeps ?b ?c |- keeps ?a ?c => transitivity b; [ek|exact H]
  | H : quiet ?b ?c |- keeps ?a ?c => transitivity b; [ek|by apply same_keeps, q_tables]
  end.

Section ops.
Context {E : Type} {FS : Filesystems E} {QFS : QuietFS E}.
Context (junk : Z).
Implicit Types (s : vfs E) (cr : Z -> Z).

(** The accounting at the start and end of an operation that holds [cr]. *)
Record good cr s : Prop := {
  g_inv : vinv cr (handles s) s; g_nonneg : nonneg cr; g_max : 0 <= v_maxfd s < VFS_KERNEL_FLAG }.

(** An operation that keeps it. *)
Definition fine {A} (c : VM E A) : Prop := forall cr s, good cr s -> safe c s (fun _ s' => good cr s' /\ env s s').
Definition finek {A} (c : VM E A) : Prop :=
  forall cr s, good cr s -> safe c s (fun _ s' => good cr s' /\ env s s' /\ keeps s s').

Lemma finek_fine {A} (c : VM E A) : finek c -> fine c.
Proof. intros H cr s Hg. eapply safe_mono; [by apply H|]. naive_solver. Qed.

Lemma good_env cr s s' : good cr s -> env s s' -> vinv cr (handles s') s' -> good cr s'.
Proof. intros [Hi Hn Hm] He Hi'. split; [done|done|]. destruct He. lia. Qed.

Lemma good_quiet cr s s' : good cr s -> quiet s s' -> good cr s'.
Proof.
  intros Hg Hq. apply (good_env _ s); [done|by apply quiet_env|]. apply (vinv_handles _ s); [apply Hq|].
  eapply vinv_quiet; [done|apply Hg].
Qed.

Lemma fine_quiet {A} (c : VM E A) : quiet_op c -> finek c.
Proof.
  intros Hc cr s Hg. eapply safe_mono; [apply Hc|]. intros a s' Hq. cbn beta in Hq.
  split_and!; [by eapply good_quiet|by apply quiet_env|by apply same_keeps, q_tables].
Qed.

Lemma fine_bind {A B} (c : VM E A) (k : A -> VM E B) : fine c -> (forall a, fine (k a)) -> fine (bind c k).
Proof.
  intros Hc Hk cr s Hg. sstep ltac:(by apply Hc). intros a s1 [Hg1 He1].
  eapply safe_mono; [by apply Hk|]. intros b s2 [Hg2 He2]. split; [done|]. exact (transitivity He1 He2).
Qed.

Lemma finek_bind {A B} (c : VM E A) (k : A -> VM E B) : finek c -> (forall a, finek (k a)) -> finek (bind c k).
Proof.
  intros Hc Hk cr s Hg. sstep ltac:(by apply Hc). intros a s1 (Hg1 & He1 & Hk1).
  eapply safe_mono; [by apply Hk|]. intros b s2 (Hg2 & He2 & Hk2).
  split_and!; [done|exact (transitivity He1 He2)|exact (transitivity Hk1 Hk2)].
Qed.

Lemma safe_set_errno e s (Q : unit -> vfs E -> Prop) : Q tt (upd_errno e s) -> safe (set_errno e) s Q.
Proof. apply safe_modify. Qed.

(** ** Creating a handle *)

(** Reference given back by nobody. *)
Lemma good_leak cr m s : good cr s \/ (nonneg cr /\ good (pm cr m) s) -> good cr s.
Proof.
  intros [?|[Hn [Hi _ Hm]]]; [done|]. split; [|done|done]. unfold pm in Hi. case_if_in Hi; [done|].
  eapply vinv_leak; [exact Hi|]. by eapply support_credit.
Qed.

Lemma pm_nonneg cr m : nonneg cr -> nonneg (pm cr m).
Proof. intros Hn. unfold pm. case_if; [done|]. apply nonneg_credit; [done|lia]. Qed.

Lemma pm_support cr m H s : nonneg cr -> vinv (pm cr m) H s -> forall x, cr x <> 0 -> x ∈ v_list s.
Proof. intros Hn. unfold pm. case_if; [apply support|by apply support_credit]. Qed.

Lemma holds_fun r s h h' : holds (E := E) r s h -> holds r s h' -> h = h'.
Proof. intros (t & Ht & Hg) (t' & Ht' & Hg'). congruence. Qed.

Lemma CreateHandle_spec cr s Node m Mode : nonneg cr -> good (pm cr m) s -> m = 0 \/ m ∈ v_list s ->
  safe (VFS_int_CreateHandle Node m Mode) s (fun _ s' => good cr s' /\ env s s' /\ keeps s s').
Proof.
  intros Hn Hg Hm. unfold VFS_int_CreateHandle. qstep acl s1 Hq1. pose proof (good_quiet _ _ _ Hg Hq1) as Hg1.
  assert (forall s', quiet s s' -> good cr s' /\ env s s' /\ keeps s s') as Hfail.
  { intros s' Hq. split_and!; [|by apply quiet_env|by apply same_keeps, q_tables]. apply (good_leak _ m). right.
    split; [done|]. exact (good_quiet _ _ _ Hg Hq). }
  case_if. { qstep _ s2 Hq2. qstep _ s3 Hq3. apply safe_ret, Hfail. qt. }
  qstep n s2 Hq2. case_if. { qstep _ s3 Hq3. apply safe_ret, Hfail. qt. }
  assert (quiet s s2) as Hq by qt. pose proof (good_quiet _ _ _ Hg Hq) as Hg2.
  sstep ltac:(apply (AllocHandle_spec _ _ _ (pm cr m)); [apply Hg2|apply Hg2]). intros fd s3 (He3 & Hk3 & Hfd).
  assert (env s s3) as He by (etrans; [by apply quiet_env|done]).
  assert (keeps s s3) as Hk by (etrans; [by apply same_keeps, q_tables|done]).
  destruct Hfd as [[-> Hi3]|(i & h & -> & Hpos & Hsl & Hh & Hnode & Hmode & _ & Hfree & Hi3)].
  - rewrite (proj2 (Z.ltb_lt (-1) 0)) by lia. qstep _ s4 Hq4. apply safe_ret.
    assert (good (pm cr m) s3) as Hg3 by (by eapply good_env; [exact Hg|..]).
    split_and!; [|etrans; [exact He|by apply quiet_env]|etrans; [exact Hk|by apply same_keeps, q_tables]].
    apply (good_leak _ m). right. split; [done|]. exact (good_quiet _ _ _ Hg3 Hq4).
  - rewrite (proj2 (Z.ltb_ge _ 0)) by lia. apply safe_bind, safe_GetHandle; [apply good_fault|].
    intros r h0 Hsl' Hh0 Hn0. rewrite Hsl in Hsl'. injection Hsl' as <-. apply safe_bind, safe_hread. intros h1 Hh1.
    apply safe_bind. eapply safe_hwrite; [exact Hh1|]. intros s4 Hw. apply safe_ret.
    pose proof (w_env _ _ _ _ Hw) as He4. assert (env s s4) as He' by (etrans; [exact He|done]).
    assert (keeps s s4) as Hk4.
    { intros r' k Hk' Hkn. destruct (decide (r' = fd_slot (flag Mode VFS_OPENFLAG_USER) i)) as [->|Hne].
      - destruct Hkn. apply Hfree. by apply (holds_same _ _ _ _ (q_tables _ _ Hq)).
      - apply (w_other _ _ _ _ Hw); [done|]. by apply Hk. }
    split_and!; [|done|done]. apply (good_env cr s); [|done|].
    + apply (good_leak _ m). right. split; done.
    + eapply MI_perm; [symmetry; by apply (wrote_handles _ _ _ _ Hw)|]. 
      destruct He4 as [Hl4 Hr4 _ _]. rewrite Hl4, Hr4, (w_mounts _ _ _ _ Hw), (w_next _ _ _ _ Hw).
      eapply (MI_add _ _ _ _ _ _ _ m); [exact Hi3| |done|].
      * eapply pm_support; [exact Hn|]. exact Hi3.
      * destruct He as [Hl _ _ _]. by rewrite Hl.
Qed.

(** ** References to mounts *)

Lemma counts_good cr cr' s s' : good cr s -> nonneg cr' -> counts_to s cr' (handles s) s' ->
  good cr' s' /\ env s s' /\ keeps s s'.
Proof.
  intros Hg Hn (Ht & Hnx & Hi). pose proof (same_env _ _ Ht ltac:(lia)) as He.
  split_and!; [|done|by apply same_keeps]. split; [by apply (vinv_handles _ s)|done|]. destruct He, Hg. lia.
Qed.

Lemma ref_good cr s m : good cr s -> m = 0 \/ m ∈ v_list s ->
  safe (_ReferenceMount m) s (fun _ s' => good (pm cr m) s' /\ env s s' /\ keeps s s' /\ m <> 0 /\ m ∈ v_list s).
Proof.
  intros Hg Hm. eapply safe_mono; [apply (inc_spec cr (handles s)); [apply Hg|done]|]. intros _ s' [Hc Hml].
  pose proof (mi_addr _ _ _ _ _ _ (g_inv _ _ Hg) m Hml).
  destruct (counts_good cr (credit cr m 1) s s') as (? & ? & ?); [done|apply nonneg_credit; [apply Hg|lia]|done|].
  unfold pm. rewrite (proj2 (Z.eqb_neq m 0)) by lia. split_and!; try done. lia.
Qed.

Lemma deref_good cr s m : nonneg cr -> good (pm cr m) s -> m = 0 \/ m ∈ v_list s ->
  safe (_DereferenceMount m) s (fun _ s' => good cr s' /\ env s s' /\ keeps s s').
Proof.
  intros Hn Hg Hm. destruct (decide (m = 0)) as [->|Hne].
  { unfold _DereferenceMount. apply safe_bind. unfold safe, mount_at. apply good_fault. }
  destruct Hm as [?|Hm]; [done|]. pose proof Hg as Hg'. unfold pm in Hg. rewrite (proj2 (Z.eqb_neq m 0)) in Hg by done.
  eapply safe_mono; [apply (deref_back cr (handles s)); [done|apply Hg|done]|]. intros ? s' Hc.
  by apply (counts_good (credit cr m 1)).
Qed.

(** ** Lookup *)
Definition found cr s (node m : Z) s' : Prop :=
  good (if node =? 0 then cr else pm cr m) s' /\ env s s' /\ keeps s s' /\ (node <> 0 -> m = 0 \/ m ∈ v_list s').

Lemma ParsePath_good cr s Path want : good cr s ->
  safe (VFS_ParsePath junk Path want) s (fun r s' => found cr s (p_node r) (p_mount r) s').
Proof.
  intros Hg. eapply safe_mono; [apply (ParsePath_spec junk cr (handles s)); apply Hg|].
  intros r s' (Ht & Hnx & Hi & Hm). pose proof (same_env _ _ Ht Hnx) as He.
  split_and!; [|done|by apply same_keeps|destruct He as [-> _ _ _]; done].
  split; [|case_if; [apply Hg|apply pm_nonneg, Hg]|destruct He, Hg; lia].
  apply (vinv_handles _ s); [done|]. unfold pcr, pm in *. 
  destruct (Z.eqb_spec (p_node r) 0), (Z.eqb_spec (p_mount r) 0);
    first [rewrite bool_decide_true in Hi by tauto; done|rewrite bool_decide_false in Hi by tauto; done].
Qed.

Lemma open_create_spec cr s absPath : good cr s ->
  safe (open_create junk absPath) s (fun o s' => env s s' /\ keeps s s' /\
    match o with None => good cr s' | Some (node, m) => good (pm cr m) s' /\ (m = 0 \/ m ∈ v_list s') end).
Proof.
  intros Hg. pose proof (g_nonneg _ _ Hg) as Hn. unfold open_create. apply safe_bind, safe_lift. intros f Hf.
  destruct f as [ofs|]; [|apply good_fault]. apply safe_bind, safe_lift. intros dir Hdir.
  sstep ltac:(by apply ParsePath_good). intros p s1 (Hg1 & He1 & Hk1 & Hm1). case_if.
  { qstep _ s2 Hq2. apply safe_ret. split_and!; [etrans; [done|by apply quiet_env]|etrans; [done|by apply same_keeps, q_tables]|].
    exact (good_quiet _ _ _ Hg1 Hq2). }
  specialize (Hm1 ltac:(done)).
  assert (forall s2, quiet s1 s2 -> safe (_CloseNode (p_node p);;; _DereferenceMount (p_mount p);;; ret None) s2
    (fun (o : option (Z * Z)) s' => env s s' /\ keeps s s' /\ match o with None => good cr s' | Some (node, m) => good (pm cr m) s' /\ (m = 0 \/ m ∈ v_list s') end)) as Hfail.
  { intros s2 Hq2. qstep _ s3 Hq3. assert (quiet s1 s3) as Hq by qt. pose proof (quiet_env _ _ Hq) as He3.
    sstep ltac:(apply (deref_good cr); [done|exact (good_quiet _ _ _ Hg1 Hq)|destruct He3 as [-> _ _ _]; done]).
    intros _ s4 (Hg4 & He4 & Hk4). apply safe_ret.
    split_and!; [etrans; [exact He1|etrans; done]|etrans; [exact Hk1|etrans; [by apply same_keeps, q_tables|done]]|done]. }
  qstep acl s2 Hq2. case_if. { qstep _ s3 Hq3. apply Hfail. qt. }
  qstep n s3 Hq3. apply safe_bind, safe_type. intros ty Hty.
  destruct (option_map t_MkNod ty) as [[MkNod|]|] eqn:Hmk; [|qstep _ s4 Hq4; apply Hfail; qt..].
  qstep node s4 Hq4. case_if. { qstep _ s5 Hq5. apply Hfail. qt. }
  assert (quiet s1 s4) as Hq by qt. pose proof (quiet_env _ _ Hq) as He4. pose proof (good_quiet _ _ _ Hg1 Hq) as Hg4.
  sstep ltac:(apply (ref_good (pm cr (p_mount p))); [done|destruct He4 as [-> _ _ _]; done]).
  intros _ s5 (Hg5 & He5 & Hk5 & Hmne & Hml). qstep _ s6 Hq6. pose proof (good_quiet _ _ _ Hg5 Hq6) as Hg6.
  pose proof (quiet_env _ _ Hq6) as He6. assert (env s4 s6) as He46 by (by etrans).
  sstep ltac:(apply (deref_good (pm cr (p_mount p))); [by apply pm_nonneg|done|right; by rewrite (e_list _ _ He46)]).
  intros _ s7 (Hg7 & He7 & Hk7). apply safe_ret. assert (env s4 s7) as He47 by (by etrans).
  split_and!; [etrans; [exact He1|etrans; [exact He4|done]]| |done|right; by rewrite (e_list _ _ He47)].
  etrans; [exact Hk1|]. etrans; [by apply same_keeps, q_tables|]. etrans; [exact Hk5|].
  etrans; [apply same_keeps; by apply q_tables|done].
Qed.

Lemma open_link_spec cr s node m : nonneg cr -> good (pm cr m) s -> m = 0 \/ m ∈ v_list s ->
  safe (open_link junk node m) s (fun o s' => env s s' /\ keeps s s' /\
    match o with None => good cr s' | Some (node, m) => good (pm cr m) s' /\ (m = 0 \/ m ∈ v_list s') end).
Proof.
  intros Hn Hg Hm. unfold open_link. qstep n s1 Hq1.
  assert (forall s2, quiet s s2 -> safe (_DereferenceMount m;;; _CloseNode node;;; ret None) s2
    (fun (o : option (Z * Z)) s' => env s s' /\ keeps s s' /\ match o with None => good cr s' | Some (node, m) => good (pm cr m) s' /\ (m = 0 \/ m ∈ v_list s') end)) as Hfail.
  { intros s2 Hq. pose proof (quiet_env _ _ Hq) as He.
    sstep ltac:(apply (deref_good cr); [done|exact (good_quiet _ _ _ Hg Hq)|by rewrite (e_list _ _ He)]).
    intros _ s3 (Hg3 & He3 & Hk3). qstep _ s4 Hq4. apply safe_ret.
    split_and!; [etrans; [exact He|etrans; [done|by apply quiet_env]]| |exact (good_quiet _ _ _ Hg3 Hq4)].
    etrans; [by apply same_keeps, q_tables|etrans; [done|by apply same_keeps, q_tables]]. }
  case_if; [by apply Hfail|]. apply safe_bind, safe_type. intros ty Hty.
  destruct (option_map t_Read ty) as [[Read|]|] eqn:Hrd; [|by apply Hfail..].
  qstep x s2 Hq2. qstep buf s3 Hq3. qstep tmppath s4 Hq4. qstep _ s5 Hq5. assert (quiet s s5) as Hq by qt.
  pose proof (quiet_env _ _ Hq) as He.
  sstep ltac:(apply (deref_good cr); [done|exact (good_quiet _ _ _ Hg Hq)|by rewrite (e_list _ _ He)]).
  intros _ s6 (Hg6 & He6 & Hk6). sstep ltac:(by apply ParsePath_good). intros p s7 (Hg7 & He7 & Hk7 & Hm7).
  assert (env s s7) as He07 by (etrans; [exact He|by etrans]).
  assert (keeps s s7) as Hk07 by (etrans; [by apply same_keeps, q_tables|by etrans]). case_if.
  - qstep _ s8 Hq8. apply safe_ret.
    split_and!; [etrans; [done|by apply quiet_env]|etrans; [exact Hk07|by apply same_keeps, q_tables]|].
    exact (good_quiet _ _ _ Hg7 Hq8).
  - apply safe_ret. split_and!; [done|done|done|by apply Hm7].
Qed.

Lemma fine_OpenEx Path Flags Mode : finek (VFS_OpenEx junk Path Flags Mode).
Proof.
  intros cr s Hg. pose proof (g_nonneg _ _ Hg) as Hn. unfold VFS_OpenEx. qstep a s1 Hq1.
  pose proof (good_quiet _ _ _ Hg Hq1) as Hg1. destruct a as [absPath|]; [|apply safe_ret; split_and!; [done|ek|ek]].
  sstep ltac:(by apply ParsePath_good). intros p s2 (Hg2 & He2 & Hk2 & Hm2).
  apply safe_bind. apply (safe_mono _ _ (fun o s' => env s s' /\ keeps s s' /\
    match o with None => good cr s' | Some (node, m) => good (pm cr m) s' /\ (m = 0 \/ m ∈ v_list s') end)).
  { case_if.
    - rewrite H in Hg2. cbn in Hg2. eapply safe_mono; [by apply open_create_spec|].
      intros o s3 (He3 & Hk3 & Ho). split_and!; [ek|ek|done].
    - case_if; [qstep _ s3 Hq3; apply safe_ret; split_and!; [ek|ek|exact (good_quiet _ _ _ Hg2 Hq3)]|].
      apply safe_ret. split_and!; [ek|ek|done|]. by apply Hm2. }
  intros o s3 (He3 & Hk3 & Ho). destruct o as [[node m]|]; [|apply safe_ret; split_and!; [done|ek|ek]].
  destruct Ho as [Hg3 Hm3]. qstep n s4 Hq4. pose proof (good_quiet _ _ _ Hg3 Hq4) as Hg4.
  pose proof (quiet_env _ _ Hq4) as He4. assert (m = 0 \/ m ∈ v_list s4) as Hm4 by (by rewrite (e_list _ _ He4)).
  apply safe_bind. apply (safe_mono _ _ (fun o s' => env s s' /\ keeps s s' /\
    match o with None => good cr s' | Some (node, m) => good (pm cr m) s' /\ (m = 0 \/ m ∈ v_list s') end)).
  { case_if.
    - eapply safe_mono; [by apply (open_link_spec cr)|]. intros o s5 (He5 & Hk5 & Ho). split_and!; [ek|ek|done].
    - apply safe_ret. split_and!; [ek|ek|done|done]. }
  intros o s5 (He5 & Hk5 & Ho). destruct o as [[node' m']|]; [|apply safe_ret; split_and!; [done|ek|ek]].
  destruct Ho as [Hg5 Hm5]. eapply safe_mono; [by apply (CreateHandle_spec cr)|].
  intros fd s6 (Hg6 & He6 & Hk6). split_and!; [done|ek|ek].
Qed.

(** The mount of an open handle. *)
Lemma open_mount cr s r h : good cr s -> holds r s h -> h_Node h <> 0 -> h_Mount h = 0 \/ h_Mount h ∈ v_list s.
Proof.
  intros Hg Hh Hn. apply (mi_live _ _ _ _ _ _ (g_inv _ _ Hg)); [|done].
  rewrite (holds_split _ _ _ Hh). by left.
Qed.

Lemma fine_OpenChild FD Name Mode : finek (VFS_OpenChild FD Name Mode).
Proof.
  intros cr s Hg. pose proof (g_nonneg _ _ Hg) as Hn. unfold VFS_OpenChild. apply safe_bind, safe_GetHandle.
  { qstep _ s1 Hq1. apply safe_ret. split_and!; [exact (good_quiet _ _ _ Hg Hq1)|ek|ek]. }
  intros r h Hsl Hh Hno. apply safe_bind, safe_hread. intros h1 Hh1. rewrite (holds_fun _ _ _ _ Hh1 Hh). clear h1 Hh1.
  pose proof (open_mount _ _ _ _ Hg Hh Hno) as Hm.
  assert (forall e s1, quiet s s1 -> safe (set_errno e;;; ret (-1)) s1 (fun _ s' => good cr s' /\ env s s' /\ keeps s s')) as Hfail.
  { intros e s1 Hq1. qstep _ s2 Hq2. apply safe_ret. assert (quiet s s2) as Hq by qt.
    split_and!; [exact (good_quiet _ _ _ Hg Hq)|by apply quiet_env|by apply same_keeps, q_tables]. }
  qstep n s1 Hq1. case_if; [by apply Hfail|]. apply safe_bind, safe_type. intros ty Hty.
  destruct (option_map t_FindDir ty) as [[f|]|] eqn:Hf; [|by apply Hfail..].
  qstep node s2 Hq2. case_if; [apply Hfail; qt|]. assert (quiet s s2) as Hq by qt. pose proof (quiet_env _ _ Hq) as He.
  sstep ltac:(apply (ref_good cr); [exact (good_quiet _ _ _ Hg Hq)|by rewrite (e_list _ _ He)]).
  intros _ s3 (Hg3 & He3 & Hk3 & Hm0 & Hml). eapply safe_mono; [apply (CreateHandle_spec cr); [done|done|right; by rewrite (e_list _ _ He3)]|].
  intros fd s4 (Hg4 & He4 & Hk4). split_and!; [done|ek|]. etrans; [|exact Hk4]. etrans; [|exact Hk3]. by apply same_keeps, q_tables.
Qed.

(** ** Closing *)
Lemma close_mount cr s r h : good cr s -> holds r s h -> h_Node h <> 0 ->
  safe (if h_Mount h =? 0 then ret tt else _DereferenceMount (h_Mount h)) s (fun _ s' =>
    same_tables s s' /\ v_next s' = v_next s /\
    vinv (if h_Mount h =? 0 then cr else credit cr (h_Mount h) (-1)) (handles s) s').
Proof.
  intros Hg Hh Hn. pose proof (open_mount _ _ _ _ Hg Hh Hn) as Hm. case_if.
  - apply safe_ret. split_and!; [reflexivity|done|apply Hg].
  - destruct Hm as [?|Hm]; [done|]. eapply safe_mono; [apply (deref_spec cr (handles s)); [apply Hg|by right|]|done].
    intros _. rewrite (holds_split _ _ _ Hh), cnt_cons, decide_True by done.
    pose proof (cnt_nonneg (h_Mount h) (rest r s)). pose proof (kids_nonneg _ _ _ _ (g_inv _ _ Hg) Hm).
    pose proof (g_nonneg _ _ Hg (h_Mount h)). lia.
Qed.

Lemma good_set cr s s' s2 r h h' : good cr s -> holds r s h -> same_tables s s' -> v_next s' = v_next s ->
  vinv (if bool_decide (h_Node h' = 0 \/ h_Mount h' = 0)
        then if bool_decide (h_Node h = 0 \/ h_Mount h = 0) then cr else credit cr (h_Mount h) (-1)
        else credit (if bool_decide (h_Node h = 0 \/ h_Mount h = 0) then cr else credit cr (h_Mount h) (-1)) (h_Mount h') 1)
    (handles s) s' ->
  (h_Node h' <> 0 -> h_Mount h' = 0 \/ h_Mount h' ∈ v_list s) -> wrote r h' s' s2 -> good cr s2.
Proof.
  intros Hg Hh Ht Hnx Hi Hlive Hw. assert (env s s2) as He.
  { etrans; [apply (same_env _ s'); [done|lia]|]. apply (w_env _ _ _ _ Hw). }
  apply (good_env cr s); [done|done|]. eapply MI_perm; [symmetry; apply (wrote_handles _ _ _ _ Hw)|].
  rewrite (rest_same _ _ _ Ht). pose proof (w_env _ _ _ _ Hw) as [Hl Hr _ _].
  rewrite Hl, Hr, (w_mounts _ _ _ _ Hw), (w_next _ _ _ _ Hw).
  eapply MI_perm in Hi; [|apply (holds_split _ _ _ Hh)]. pose proof (st_list _ _ Ht) as Hl'.
  assert (h_Node h <> 0 -> h_Mount h <> 0 -> h_Mount h ∈ v_list s) as Hhl.
  { intros ? ?. by destruct (open_mount _ _ _ _ Hg Hh). }
  apply (MI_swap _ _ _ _ _ _ h h') in Hi; [|by rewrite Hl'|by rewrite Hl'].
  eapply MI_ext; [|exact Hi]. intros m. unfold credit. repeat (case_bool_decide || case_if); lia.
Qed.

Lemma fine_Close FD : fine (VFS_Close FD).
Proof.
  intros cr s Hg. unfold VFS_Close. apply safe_bind, safe_GetHandle.
  { apply safe_set_errno. split; [exact (good_quiet _ _ _ Hg (quiet_errno _ _))|by split]. }
  intros r h Hsl Hh Hno. apply safe_bind, safe_hread. intros h1 Hh1. rewrite (holds_fun _ _ _ _ Hh1 Hh). clear h1 Hh1.
  qstep _ s1 Hq1. pose proof (good_quiet _ _ _ Hg Hq1) as Hg1.
  assert (holds r s1 h) as Hh1 by (by apply (holds_same _ _ _ _ (q_tables _ _ Hq1))).
  sstep ltac:(by apply (close_mount cr s1 r)). intros _ s2 (Ht2 & Hn2 & Hi2).
  assert (holds r s2 h) as Hh2 by (by apply (holds_same _ _ _ _ Ht2)).
  apply safe_bind, safe_hread. intros h2 Hh2'. rewrite (holds_fun _ _ _ _ Hh2' Hh2). clear h2 Hh2'.
  eapply safe_hwrite; [exact Hh2|]. intros s3 Hw. split.
  - refine (good_set cr s1 s2 s3 r h _ _ _ _ _ _ _ Hw); [done|done|done|done| |intros Hf; by destruct Hf]. cbn [h_Node]. rewrite bool_decide_true by (by left).
    destruct (Z.eqb_spec (h_Mount h) 0); [rewrite bool_decide_true by tauto|rewrite bool_decide_false by tauto]; done.
  - etrans; [by apply quiet_env|]. etrans; [apply (same_env _ s2); [done|lia]|]. apply (w_env _ _ _ _ Hw).
Qed.

(** ** Duplicating *)
Lemma slot_env FD o s s' : v_maxfd s' = v_maxfd s -> slot FD s = Ok o s -> slot (E := E) FD s' = Ok o s'.
Proof.
  intros Hm. unfold slot. destruct (FD <? 0); [by intros [= ->]|]. destruct (flag FD _).
  - destruct (_ <=? _); by intros [= <-].
  - unfold bind, get_state. rewrite Hm. destruct (_ <=? _); by intros [= <-].
Qed.

(** The second half of VFS_DuplicateFD: slot [rd], which was free, has been filled
    with the node. *)
Lemma dup_finish cr s s1 r rd d src : good cr s -> env s s1 -> nonneg cr ->
  vinv cr (rest rd s1) s1 -> holds r s src -> h_Node src <> 0 -> holds r s1 src -> r <> rd -> slot d s1 = Ok (Some rd) s1 ->
  safe (_ReferenceMount (h_Mount src);;; _ReferenceNode (h_Node src);;;
        do x <- VFS_GetHandle d;
        match x with None => halt SFault | Some x => do src <- hread r; hwrite x src;;; ret d end) s1
    (fun _ s' => good cr s' /\ env s s').
Proof.
  intros Hg He Hn Hi Hr0 Hno Hr Hne Hsl. pose proof (open_mount _ _ _ _ Hg Hr0 Hno) as Hm. rewrite <- (e_list _ _ He) in Hm.
  sstep ltac:(by apply (inc_spec cr (rest rd s1))). intros _ s2 [(Ht2 & Hn2 & Hi2) Hml].
  qstep _ s3 Hq3. assert (same_tables s1 s3) as Ht by (etrans; [exact Ht2|apply Hq3]).
  pose proof (vinv_quiet _ _ _ _ Hq3 Hi2) as Hi3. apply safe_bind, safe_GetHandle; [apply good_fault|].
  intros rd' hd Hsl' Hhd _. rewrite (slot_env _ _ s1 s3 (st_maxfd _ _ Ht) Hsl) in Hsl'. injection Hsl' as <-.
  apply safe_bind, safe_hread. intros src' Hsrc'. apply (holds_same _ _ _ _ Ht) in Hsrc'.
  rewrite (holds_fun _ _ _ _ Hsrc' Hr). clear src' Hsrc'. apply safe_bind. eapply safe_hwrite; [exact Hhd|].
  intros s4 Hw. apply safe_ret. assert (env s s4) as He4.
  { etrans; [exact He|]. etrans; [apply (same_env _ s3); [done|destruct Hq3; lia]|]. apply (w_env _ _ _ _ Hw). }
  split; [|done]. apply (good_env cr s); [done|done|]. eapply MI_perm; [symmetry; apply (wrote_handles _ _ _ _ Hw)|].
  rewrite (rest_same _ _ _ Ht). pose proof (w_env _ _ _ _ Hw) as [Hl Hrt _ _].
  rewrite Hl, Hrt, (w_mounts _ _ _ _ Hw), (w_next _ _ _ _ Hw). pose proof (mi_addr _ _ _ _ _ _ Hi _ Hml).
  eapply (MI_add _ _ _ _ _ _ _ (h_Mount src)); [|eapply support_credit; [exact Hn|exact Hi3]|done|right; by rewrite (st_list _ _ Ht)].
  unfold pm. rewrite (proj2 (Z.eqb_neq _ 0)) by lia. exact Hi3.
Qed.

Lemma safe_SetHandle cr s FD Node Mode : good cr s ->
  (forall r h, slot FD s = Ok (Some r) s -> holds r s h -> h_Node h = 0) ->
  safe (VFS_SetHandle FD Node Mode) s (fun _ s1 => env s s1 /\
    ((s1 = s /\ slot FD s = Ok None s) \/
     exists r, slot FD s1 = Ok (Some r) s1 /\ vinv cr (rest r s1) s1 /\ (forall k, holds r s k -> h_Node k = 0) /\
       forall r' h, r' <> r -> holds r' s h -> holds r' s1 h)).
Proof.
  intros Hg Hfree. unfold VFS_SetHandle. apply safe_bind. unfold safe at 1.
  destruct (slot FD s) as [o s0|e] eqn:Hsl.
  2: { exfalso. revert Hsl. unfold slot, bind, get_state. destruct (_ <? _); [done|]. destruct (flag FD _); destruct (_ <=? _); done. }
  assert (s0 = s) as ->.
  { revert Hsl. unfold slot, bind, get_state. destruct (_ <? _); [by intros [= _ <-]|]. destruct (flag FD _); destruct (_ <=? _); by intros [= _ <-]. }
  destruct o as [r|]; [|apply safe_ret; split; [reflexivity|by left]].
  apply safe_bind, safe_hread. intros h Hh. apply safe_bind. eapply safe_hwrite; [exact Hh|]. intros s1 Hw. apply safe_ret.
  pose proof (w_env _ _ _ _ Hw) as He. split; [done|]. right. exists r. split_and!.
  - by apply (slot_env _ _ s); [apply He|].
  - rewrite (w_rest _ _ _ _ Hw). eapply vinv_wrote; [exact Hw|]. eapply MI_drop, MI_perm; [by apply holds_split|apply Hg].
  - intros k Hk. by eapply Hfree.
  - intros r' k Hne Hk. by apply (w_other _ _ _ _ Hw).
Qed.

Lemma slot_None_GetHandle d s : slot d s = Ok None s -> VFS_GetHandle (E := E) d s = Ok None s.
Proof. intros H. unfold VFS_GetHandle, bind. by rewrite H. Qed.

(** A slot VFS_GetHandle gives nothing for. *)
Lemma GetHandle_None d s : VFS_GetHandle (E := E) d s = Ok None s ->
  forall r h, slot d s = Ok (Some r) s -> holds r s h -> h_Node h = 0.
Proof.
  intros Hg r h Hsl (t & Ht & Hgt). unfold VFS_GetHandle, bind in Hg. rewrite Hsl in Hg. unfold hread in Hg.
  rewrite Ht, Hgt in Hg. destruct (h_Node h =? 0) eqn:E'; bools; [done|discriminate].
Qed.

Lemma safe_GetHandle_eq FD s (Q : option href -> vfs E -> Prop) : (VFS_GetHandle FD s = Ok None s -> Q None s) ->
  (forall r h, slot FD s = Ok (Some r) s -> holds r s h -> h_Node h <> 0 -> Q (Some r) s) -> safe (VFS_GetHandle FD) s Q.
Proof.
  intros HN HS. pose proof (safe_GetHandle FD s (fun o s' => s' = s /\ match o with None => True | Some r =>
    exists h, slot FD s = Ok (Some r) s /\ holds r s h /\ h_Node h <> 0 end)) as H. unfold safe in *.
  destruct (VFS_GetHandle FD s) as [o s0|e]; [|apply H; [by split|]; intros; split; [done|eauto]].
  destruct H as [-> Ho]; [by split|intros; split; [done|eauto]|]. destruct o as [r|]; [|by apply HN].
  destruct Ho as (h & ? & ? & ?). by eapply HS.
Qed.

Lemma dup_missing cr s s1 r d src : good cr s1 -> env s s1 -> h_Mount src = 0 \/ h_Mount src ∈ v_list s1 ->
  slot d s1 = Ok None s1 ->
  safe (_ReferenceMount (h_Mount src);;; _ReferenceNode (h_Node src);;;
        do x <- VFS_GetHandle d;
        match x with None => halt SFault | Some x => do src <- hread r; hwrite x src;;; ret d end) s1
    (fun _ s' => good cr s' /\ env s s').
Proof.
  intros Hg He Hm Hsl. sstep ltac:(by apply (ref_good cr)). intros _ s2 (Hg2 & He2 & _ & _). qstep _ s3 Hq3.
  apply safe_bind. unfold safe at 1. rewrite slot_None_GetHandle; [apply good_fault|].
  apply (slot_env _ _ s1); [|done]. destruct Hq3 as [[_ _ _ _ _ _ ->] _ _]. apply He2.
Qed.

Lemma fine_DuplicateFD SrcFD DstFD : fine (VFS_DuplicateFD SrcFD DstFD).
Proof.
  intros cr s Hg. pose proof (g_nonneg _ _ Hg) as Hn. unfold VFS_DuplicateFD.
  apply safe_bind, safe_GetHandle; [apply safe_ret; split; [done|reflexivity]|].
  intros r src Hsl Hr Hno. apply safe_bind, safe_hread. intros h1 Hh1. rewrite (holds_fun _ _ _ _ Hh1 Hr). clear h1 Hh1.
  pose proof (open_mount _ _ _ _ Hg Hr Hno) as Hm. apply safe_bind. case_if.
  - apply safe_bind. eapply safe_mono; [apply (AllocHandle_spec _ _ _ cr); apply Hg|]. intros d s1 (He1 & Hk1 & Hd).
    apply safe_ret. destruct Hd as [[-> Hi1]|(i & h & -> & Hpos & Hsl1 & Hh1 & _ & _ & _ & Hfree & Hi1)].
    + apply dup_missing; [by eapply good_env|done|by rewrite (e_list _ _ He1)|done].
    + eapply (dup_finish cr s); try done; [by apply Hk1|]. intros ->. by destruct Hno; apply Hfree.
  - apply safe_bind, safe_GetHandle_eq.
    2: { intros x h _ _ _. apply safe_ret. apply safe_ret. split; [done|reflexivity]. }
    intros Hnone. apply safe_bind. eapply safe_mono; [apply (safe_SetHandle cr); [done|by apply GetHandle_None]|].
    intros ? s1 [He1 [[-> Hsl1]|(rd & Hsl1 & Hi1 & Hfree & Hoth)]]; apply safe_ret.
    + by apply dup_missing.
    + assert (r <> rd) as Hne by (intros ->; by destruct Hno; apply Hfree).
      eapply (dup_finish cr s); try done. by apply Hoth.
Qed.

Lemma fine_Reopen FD Path Flags : fine (VFS_Reopen junk FD Path Flags).
Proof.
  intros cr s Hg. unfold VFS_Reopen. apply safe_bind, safe_GetHandle.
  { qstep _ s1 Hq1. apply safe_ret. split; [exact (good_quiet _ _ _ Hg Hq1)|by apply quiet_env]. }
  intros r h Hsl Hh Hno. sstep ltac:(by apply fine_OpenEx). intros newf s1 (Hg1 & He1 & Hk1).
  case_if; [by apply safe_ret|]. specialize (Hk1 _ _ Hh Hno). apply safe_bind, safe_hread. intros h1 Hh1.
  rewrite (holds_fun _ _ _ _ Hh1 Hk1). clear h1 Hh1. qstep _ s2 Hq2. pose proof (good_quiet _ _ _ Hg1 Hq2) as Hg2.
  assert (holds r s2 h) as Hh2 by (by apply (holds_same _ _ _ _ (q_tables _ _ Hq2))).
  pose proof (open_mount _ _ _ _ Hg2 Hh2 Hno) as Hm2. pose proof (close_mount cr s2 r h Hg2 Hh2 Hno) as Hcl.
  destruct (Z.eqb_spec (h_Mount h) 0) as [Hm0|Hm0].
  { apply safe_bind. unfold _DereferenceMount. apply safe_bind. unfold safe, mount_at. rewrite Hm0. apply good_fault. }
  sstep ltac:(exact Hcl). intros _ s3 (Ht3 & Hn3 & Hi3). assert (holds r s3 h) as Hh3 by (by apply (holds_same _ _ _ _ Ht3)).
  apply safe_bind, safe_GetHandle; [apply good_fault|]. intros r2 h2 _ Hr2 Hn2. apply safe_bind, safe_hread. intros h2' Hh2'.
  rewrite (holds_fun _ _ _ _ Hh2' Hr2). clear h2' Hh2'. apply safe_bind. eapply safe_hwrite; [exact Hh3|]. intros s4 Hw.
  qstep _ s5 Hq5.
  assert (h_Mount h2 = 0 \/ h_Mount h2 ∈ v_list s2) as Hm22.
  { apply (open_mount cr s2 r2); [done| |done]. by apply (holds_same _ _ _ _ Ht3). }
  assert (env s2 s5) as He25.
  { etrans; [apply (same_env _ s3); [done|lia]|]. etrans; [apply (w_env _ _ _ _ Hw)|by apply quiet_env]. }
  assert (vinv (credit cr (h_Mount h) (-1)) (h :: rest r s2) s5) as Hi5.
  { eapply vinv_quiet; [exact Hq5|]. eapply vinv_wrote; [exact Hw|]. eapply MI_perm; [|exact Hi3]. by apply holds_split. }
  sstep ltac:(apply (inc_spec (credit cr (h_Mount h) (-1)) (h :: rest r s2)); [done|by rewrite (e_list _ _ He25)]).
  intros _ s6 [(Ht6 & Hn6 & Hi6) Hml]. assert (env s2 s6) as He26 by (etrans; [exact He25|apply same_env; [done|lia]]).
  assert (good cr s6) as Hg6.
  { apply (good_env cr s2); [done|done|]. rewrite (handles_same _ _ Ht6), (handles_same _ _ (q_tables _ _ Hq5)).
    eapply MI_perm; [symmetry; apply (wrote_handles _ _ _ _ Hw)|]. rewrite (rest_same _ _ _ Ht3).
    pose proof (mi_addr _ _ _ _ _ _ Hi5 _ Hml) as Ha.
    apply (MI_swap _ _ _ _ _ _ h h2) in Hi6; [|by rewrite (e_list _ _ He26)|intros _ _; rewrite (e_list _ _ He26); by destruct Hm2].
    eapply MI_ext; [|exact Hi6]. intros m. unfold credit.
    rewrite (bool_decide_false (h_Node h = 0 \/ h_Mount h = 0)), (bool_decide_false (h_Node h2 = 0 \/ h_Mount h2 = 0)) by lia.
    repeat case_if; lia. }
  sstep ltac:(by apply fine_Close). intros _ s7 [Hg7 He7]. apply safe_ret. split; [done|]. ek.
Qed.

(** Writing the position or mode of a handle. *)
Lemma same_handle cr s s' r h h' : good cr s -> holds r s h -> h_Node h' = h_Node h -> h_Mount h' = h_Mount h ->
  wrote r h' s s' -> good cr s' /\ env s s'.
Proof.
  intros Hg Hh Hnode Hmnt Hw. pose proof (w_env _ _ _ _ Hw) as He. split; [|done].
  refine (good_set cr s s s' r h h' Hg Hh _ _ _ _ Hw); [reflexivity|done| |].
  - rewrite Hnode, Hmnt. destruct (bool_decide (h_Node h = 0 \/ h_Mount h = 0)); [apply Hg|].
    eapply vinv_ext; [|apply Hg]. intros m. unfold credit. repeat case_if; lia.
  - rewrite Hnode, Hmnt. intros. by apply (open_mount cr s r).
Qed.

Lemma fine_update r (f : tVFS_Handle -> tVFS_Handle) {B} (k : tVFS_Handle -> VM E B) :
  (forall h, h_Node (f h) = h_Node h /\ h_Mount (f h) = h_Mount h) -> (forall h, fine (k h)) ->
  fine (do h <- hread r; hwrite r (f h);;; k h).
Proof.
  intros Hf Hk cr s Hg. apply safe_bind, safe_hread. intros h Hh. apply safe_bind. eapply safe_hwrite; [exact Hh|].
  intros s1 Hw. destruct (Hf h) as [Hn Hm]. destruct (same_handle cr s s1 r h (f h)) as [Hg1 He1]; try done.
  eapply safe_mono; [by apply Hk|]. intros ? s2 [? He2]. split; [done|]. exact (transitivity He1 He2).
Qed.

Lemma fine_hwrite_after {A} r h (c : VM E A) (f : A -> tVFS_Handle) {B} (k : A -> B) cr s : good cr s -> holds r s h -> quiet_op c ->
  (forall a, h_Node (f a) = h_Node h /\ h_Mount (f a) = h_Mount h) ->
  safe (do a <- c; hwrite r (f a);;; ret (k a)) s (fun _ s' => good cr s' /\ env s s').
Proof.
  intros Hg Hh Hc Hf. sstep ltac:(apply Hc). intros a s1 Hq. pose proof (good_quiet _ _ _ Hg Hq) as Hg1.
  assert (holds r s1 h) as Hh1 by (by apply (holds_same _ _ _ _ (q_tables _ _ Hq))).
  apply safe_bind. eapply safe_hwrite; [exact Hh1|]. intros s2 Hw. apply safe_ret. destruct (Hf a).
  destruct (same_handle cr s1 s2 r h (f a)) as [Hg2 He2]; try done. split; [done|]. etrans; [by apply quiet_env|done].
Qed.

Lemma fine_ret {A} (a : A) : fine (ret a).
Proof. intros cr s Hg. apply safe_ret. split; [done|reflexivity]. Qed.
Lemma fine_q {A} (c : VM E A) : quiet_op c -> fine c.
Proof. intros. by apply finek_fine, fine_quiet. Qed.
Lemma fine_halt {A} : fine (A := A) (halt SFault).
Proof. intros cr s Hg. apply good_fault. Qed.
Lemma fine_GetHandle FD : fine (VFS_GetHandle FD).
Proof. intros cr s Hg. apply safe_GetHandle; intros; (split; [done|reflexivity]). Qed.
End ops.
#[export] Hint Resolve fine_ret fine_halt fine_GetHandle fine_Close fine_DuplicateFD fine_Reopen : acess.

Lemma fine_bind_type {E} {FS : Filesystems E} {B} n (k : option (tVFS_NodeType E) -> VM E B) :
  (forall o, (forall ty, o = Some ty -> known ty) -> fine (k o)) -> fine (bind (type_of n) k).
Proof. intros H cr s Hg. apply safe_bind, safe_type. intros o Ho. by apply H. Qed.

(** [finely] decomposes operations into quiet and accounted parts. *)
Ltac finely :=
  repeat match goal with
  | |- fine (bind (type_of _) _) => apply fine_bind_type; intros ? ?
  | |- fine (bind (hread _) (fun h => bind (hwrite _ _) _)) => apply fine_update; [intros ?; split; reflexivity|intros ?]
  | |- fine (bind _ _) => apply fine_bind; [|intros ?]
  | |- fine (if ?b then _ else _) => destruct b eqn:?
  | |- fine (let '(_, _) := ?x in _) => destruct x
  | |- fine (match ?x with _ => _ end) => destruct x eqn:?; subst
  | |- fine _ => solve [auto with acess]
  | |- fine _ => solve [apply fine_q; quietly; auto with acess]
  end.

Section io_ops.
Context {E : Type} {FS : Filesystems E} {QFS : QuietFS E}.
Context (junk : Z).
Implicit Types (s : vfs E).

Lemma fine_Open Path Flags : fine (VFS_Open junk Path Flags).
Proof. by apply finek_fine, fine_OpenEx. Qed.

Lemma fine_Read FD Length : fine (VFS_Read FD Length).
Proof. unfold VFS_Read. finely. Qed.
Lemma fine_ReadAt FD Offset Length : fine (VFS_ReadAt FD Offset Length).
Proof. unfold VFS_ReadAt. finely. Qed.
Lemma quiet_write_length ty node Offset Length : known ty -> quiet_op (write_length ty node Offset Length).
Proof. intros Hk. unfold write_length. quietly. Qed.
Lemma fine_WriteAt FD Offset Length Buffer : fine (VFS_WriteAt FD Offset Length Buffer).
Proof.
  unfold VFS_WriteAt. finely. apply fine_q, quiet_write_length. by apply H.
Qed.

(** While a handle is known to be in its slot. *)
Definition fineh {A} (r : href) (h : tVFS_Handle) (c : VM E A) : Prop :=
  forall cr s, good cr s -> holds r s h -> safe c s (fun _ s' => good cr s' /\ env s s').

Lemma fine_hread {A} r (k : tVFS_Handle -> VM E A) : (forall h, fineh r h (k h)) -> fine (bind (hread r) k).
Proof. intros H cr s Hg. apply safe_bind, safe_hread. intros h Hh. by apply H. Qed.

Lemma fineh_bind {A B} r h (c : VM E A) (k : A -> VM E B) : quiet_op c -> (forall a, fineh r h (k a)) -> fineh r h (bind c k).
Proof.
  intros Hc Hk cr s Hg Hh. sstep ltac:(apply Hc). intros a s1 Hq.
  eapply safe_mono; [apply (Hk a cr s1); [exact (good_quiet _ _ _ Hg Hq)|by apply (holds_same _ _ _ _ (q_tables _ _ Hq))]|].
  intros b s2 [? He]. split; [done|]. etrans; [by apply quiet_env|exact He].
Qed.

Lemma fineh_bind_type {B} r h n (k : option (tVFS_NodeType E) -> VM E B) :
  (forall o, (forall ty, o = Some ty -> known ty) -> fineh r h (k o)) -> fineh r h (bind (type_of n) k).
Proof. intros H cr s Hg Hh. apply safe_bind, safe_type. intros o Ho. by apply H. Qed.

Lemma fineh_write {B} r h h' (k : VM E B) : h_Node h' = h_Node h -> h_Mount h' = h_Mount h -> fine k -> fineh r h (hwrite r h';;; k).
Proof.
  intros Hn Hm Hk cr s Hg Hh. apply safe_bind. eapply safe_hwrite; [exact Hh|]. intros s1 Hw.
  destruct (same_handle cr s s1 r h h') as [Hg1 He1]; try done. eapply safe_mono; [by apply Hk|].
  intros ? s2 [? He2]. split; [done|]. exact (transitivity He1 He2).
Qed.

Lemma fineh_fine {A} r h (c : VM E A) : fine c -> fineh r h c.
Proof. intros Hc cr s Hg _. by apply Hc. Qed.

Lemma fine_Write FD Length Buffer : fine (VFS_Write FD Length Buffer).
Proof.
  unfold VFS_Write. apply fine_bind; [apply fine_GetHandle|]. intros [r|]; [|finely].
  apply fine_bind; [apply fine_q, quiet_hread|]. intros h0. apply fine_bind; [apply fine_WriteAt|]. intros x.
  case_if; [apply fine_ret|]. apply fine_hread. intros h. apply fineh_bind; [apply quiet_node_at|]. intros n.
  apply fineh_bind_type. intros [ty|] Ht; [|apply fineh_fine, fine_halt].
  destruct (flag _ _); [apply fineh_fine; finely|]. by apply fineh_write; [| |apply fine_ret].
Qed.

Lemma fine_Tell FD : fine (VFS_Tell (E := E) FD).
Proof. unfold VFS_Tell. finely. Qed.

Lemma fine_Seek FD Offset Whence : fine (VFS_Seek FD Offset Whence).
Proof.
  unfold VFS_Seek. apply fine_bind; [apply fine_GetHandle|]. intros [r|]; [|finely]. apply fine_hread. intros h.
  apply fineh_bind; [apply quiet_node_at|]. intros n. apply fineh_bind_type. intros [ty|] Ht; [|apply fineh_fine, fine_halt].
  repeat case_if; first [apply fineh_fine, fine_ret | by apply fineh_write; [| |apply fine_ret]].
Qed.

Lemma fine_SetFDFlags FD Mask Value : fine (VFS_SetFDFlags (E := E) FD Mask Value).
Proof. unfold VFS_SetFDFlags. finely. Qed.

Lemma fine_Truncate FD Size : fine (VFS_Truncate FD Size).
Proof. unfold VFS_Truncate. finely. Qed.

Lemma fine_IOCtl FD ID : fine (VFS_IOCtl FD ID).
Proof. unfold VFS_IOCtl. finely. Qed.

Lemma fine_readdir fuel r f : (forall p i, quiet_op (f p i)) -> fine (readdir_loop (E := E) fuel r f).
Proof.
  intros Hf. induction fuel as [|fuel IH]; cbn [readdir_loop].
  { apply fine_q, quiet_halt. by split. }
  apply fine_bind; [apply fine_q, quiet_hread|]. intros h. apply fine_bind; [by apply fine_q|]. intros x.
  apply fine_update; [by intros|]. intros h'. case_if; [done|apply fine_ret].
Qed.

Lemma fine_ReadDir fuel FD : fine (VFS_ReadDir fuel FD).
Proof.
  unfold VFS_ReadDir. finely. apply fine_readdir. intros. method.
Qed.

Lemma fine_modify (f : vfs E -> vfs E) : (forall s, quiet s (f s)) -> fine (modify f).
Proof. intros Hf. apply fine_q. intros s. by apply safe_modify. Qed.

Lemma fine_check_dir Dest : fine (check_dir junk Dest).
Proof. unfold check_dir. finely. apply fine_Open. Qed.

Lemma fine_ChDir Dest : fine (VFS_ChDir junk Dest).
Proof.
  unfold VFS_ChDir. apply fine_bind; [apply fine_check_dir|]. intros [buf|]; [|apply fine_ret].
  apply fine_bind; [|intros; apply fine_ret]. apply fine_modify. intros s. split; [by split|done|simpl; lia].
Qed.

Lemma fine_ChRoot New : fine (VFS_ChRoot junk New).
Proof.
  unfold VFS_ChRoot. case_if; [apply fine_ret|]. apply fine_bind; [apply fine_check_dir|]. intros [buf|]; [|apply fine_ret].
  apply fine_bind; [|intros; apply fine_ret]. apply fine_modify. intros s. split; [by split|done|simpl; lia].
Qed.

(** ** Directories *)
Lemma fine_MkNod Path Flags : fine (VFS_MkNod junk Path Flags).
Proof.
  intros cr s Hg. pose proof (g_nonneg _ _ Hg) as Hn. unfold VFS_MkNod. qstep a s1 Hq1.
  destruct a as [absPath|]; [|apply good_fault]. qstep oldpos s2 Hq2. qstep dir s3 Hq3. assert (quiet s s3) as Hq by qt.
  pose proof (good_quiet _ _ _ Hg Hq) as Hg3. apply safe_bind.
  apply (safe_mono _ _ (fun p s' => found cr s3 (p_node p) (p_mount p) s')).
  { case_if; by apply ParsePath_good. }
  intros p s4 (Hg4 & He4 & Hk4 & Hm4). assert (env s s4) as He by ek.
  assert (forall e s5, quiet s4 s5 -> safe (set_errno e;;; (if p_node p =? 0 then ret tt else _CloseNode (p_node p);;; _DereferenceMount (p_mount p));;; ret (-1)) s5
    (fun _ s' => good cr s' /\ env s s')) as Hfail.
  { intros e s5 Hq5. qstep _ s6 Hq6. assert (quiet s4 s6) as Hq46 by qt. pose proof (good_quiet _ _ _ Hg4 Hq46) as Hg6.
    pose proof (quiet_env _ _ Hq46) as He46. assert (env s s6) as He06 by (by etrans). case_if.
    - apply safe_bind, safe_ret, safe_ret. by split.
    - apply safe_bind. qstep _ s7 Hq7. pose proof (good_quiet _ _ _ Hg6 Hq7) as Hg7. pose proof (quiet_env _ _ Hq7) as He7.
      eapply safe_mono; [apply (deref_good cr); [done|done|rewrite (e_list _ _ He7), (e_list _ _ He46); by apply Hm4]|].
      intros _ s8 (Hg8 & He8 & _). apply safe_ret. split; [done|]. etrans; [exact He06|]. by etrans. }
  case_if; [by apply Hfail|].
  specialize (Hm4 Heqb).
  qstep acl s5 Hq5. case_if; [by apply Hfail|]. qstep n s6 Hq6. apply safe_bind, safe_type. intros ty Hty.
  destruct (option_map t_MkNod ty) as [[f|]|] eqn:Hf; [|apply Hfail; qt..].
  qstep x s7 Hq7. qstep _ s8 Hq8. assert (quiet s4 s8) as Hq48 by qt. pose proof (quiet_env _ _ Hq48) as He48.
  sstep ltac:(apply (deref_good cr); [done|exact (good_quiet _ _ _ Hg4 Hq48)|by rewrite (e_list _ _ He48)]).
  intros _ s9 (Hg9 & He9 & _). qstep _ s10 Hq10. apply safe_ret. split; [exact (good_quiet _ _ _ Hg9 Hq10)|].
  etrans; [exact He|]. etrans; [exact He48|]. etrans; [exact He9|by apply quiet_env].
Qed.

Lemma fine_Symlink Name Link : fine (VFS_Symlink junk Name Link).
Proof. unfold VFS_Symlink. finely; first [apply fine_MkNod|apply fine_Open|apply fine_Write]. Qed.
End io_ops.
