(* ===== verification/VfsSystem.v ===== *)
(** The VFS as a system: every operation a process or the kernel performs, the
    invariant of mounts and handles through any sequence of them, and what it
    means for unmounting. *)
From S2P Require Import Prelude CString VfsAcl VfsPath VfsState VfsOpen VfsIo VfsMount VfsInv VfsSafe VfsTables VfsOps.

Local Open Scope Z_scope.
Local Open Scope monad_scope.

(** What the VFS relies on from drivers: they may open and close files of their own
    (the device), but keep the accounting, and leave the mount list alone. *)
Class FineDrivers (E : Type) {FS : Filesystems E} : Prop := {
  fine_drivers : forall d x, fsdrv d = Some x ->
    (forall f, d_Detect x = Some f -> forall fd, fine (f fd)) /\
    (forall dev args, fine (d_InitDevice x dev args)) /\
    (forall f, d_Unmount x = Some f -> forall p, fine (f p)) /\
    (forall f, d_GetNodeFromINode x = Some f -> forall p i, quiet_op (f p i)) }.

(** Changing credits and handles together. *)
Lemma MI_change cr cr' mounts l root next H K : MI cr mounts l root next H ->
  (forall m, m ∈ l -> cnt m K + cr' m <= cnt m H + cr m) ->
  (forall h, h ∈ K -> h_Node h <> 0 -> h_Mount h = 0 \/ h_Mount h ∈ l) ->
  (forall m, cr' m <> 0 -> m ∈ l) -> MI cr' mounts l root next K.
Proof.
  intros [H1 H2 H3 H4 H5 H6 H7] Hc Hlive Hsup. split; try done.
  intros m Hm. destruct (H1 m Hm) as (x & ? & ? & ?). exists x. specialize (Hc m Hm). split_and!; [done|lia|done].
Qed.

Section arrays.
Context {E : Type} {FS : Filesystems E} {QFS : QuietFS E}.
Implicit Types (s : vfs E) (cr : Z -> Z) (l H : list tVFS_Handle).

Definition live_in (L : list Z) l : Prop := forall h, h ∈ l -> h_Node h <> 0 -> h_Mount h = 0 \/ h_Mount h ∈ L.
Definition add_cnt (k : Z) cr l : Z -> Z := fun m => cr m + k * cnt m l.

Lemma live_cons L h l : live_in L (h :: l) -> (h_Node h <> 0 -> h_Mount h = 0 \/ h_Mount h ∈ L) /\ live_in L l.
Proof. intros Hl. split; [apply Hl; by left|]. intros k Hk. apply Hl. by right. Qed.

Lemma reference_all_spec l : forall cr H s, vinv cr H s -> live_in (v_list s) l ->
  safe (reference_all l) s (fun _ s' => same_tables s s' /\ v_next s <= v_next s' /\ vinv (add_cnt 1 cr l) H s').
Proof.
  induction l as [|h l IH]; intros cr H s Hi Hl; cbn [reference_all].
  { apply safe_ret. split_and!; [reflexivity|lia|]. eapply vinv_ext; [|exact Hi]. intros m. unfold add_cnt. change (cnt m []) with 0. lia. }
  apply live_cons in Hl as [Hh Hl]. apply safe_bind. case_if.
  - apply safe_ret. eapply safe_mono; [by apply IH|]. intros _ s1 (Ht & Hn & Hi1). split_and!; try done.
    eapply vinv_ext; [|exact Hi1]. intros m. unfold add_cnt. rewrite cnt_cons, decide_False; [lia|]. by intros [? _].
  - qstep _ s1 Hq1. pose proof (vinv_quiet _ _ _ _ Hq1 Hi) as Hi1. pose proof (st_list _ _ (q_tables _ _ Hq1)) as Hl1.
    eapply safe_mono; [apply (inc_spec cr H); [done|rewrite Hl1; by apply Hh]|]. intros _ s2 [(Ht2 & Hn2 & Hi2) Hml].
    eapply safe_mono; [apply (IH _ H s2 Hi2); by rewrite (st_list _ _ Ht2), Hl1|]. intros _ s3 (Ht3 & Hn3 & Hi3).
    split_and!; [etrans; [apply Hq1|by etrans]|destruct Hq1; lia|]. eapply vinv_ext; [|exact Hi3]. intros m.
    unfold add_cnt, credit. rewrite cnt_cons. destruct (Z.eqb_spec m (h_Mount h)) as [->|Hne].
    + rewrite decide_True by done. lia.
    + rewrite decide_False by (intros [_ ?]; done). lia.
Qed.

Lemma release_all_spec chk l : forall cr H s, vinv cr H s -> live_in (v_list s) l ->
  (forall m, m ∈ v_list s -> cnt m l <= cnt m H + cr m) ->
  safe (release_all chk l) s (fun _ s' => same_tables s s' /\ v_next s <= v_next s' /\ vinv (add_cnt (-1) cr l) H s').
Proof.
  induction l as [|h l IH]; intros cr H s Hi Hl Hc; cbn [release_all].
  { apply safe_ret. split_and!; [reflexivity|lia|]. eapply vinv_ext; [|exact Hi]. intros m. unfold add_cnt. change (cnt m []) with 0. lia. }
  apply live_cons in Hl as [Hh Hl]. apply safe_bind. case_if.
  - apply safe_ret. eapply safe_mono; [apply (IH cr H s Hi Hl)|].
    + intros m Hm. specialize (Hc m Hm). rewrite cnt_cons in Hc. case_decide; lia.
    + intros _ s1 (Ht & Hn & Hi1). split_and!; try done.
      eapply vinv_ext; [|exact Hi1]. intros m. unfold add_cnt. rewrite cnt_cons, decide_False; [lia|]. by intros [? _].
  - qstep _ s1 Hq1. pose proof (vinv_quiet _ _ _ _ Hq1 Hi) as Hi1. pose proof (st_list _ _ (q_tables _ _ Hq1)) as Hl1.
    apply safe_bind, (safe_mount cr H); [done|rewrite Hl1; by apply Hh|]. intros x Hml Hx _.
    destruct (mi_count _ _ _ _ _ _ Hi1 _ Hml) as (y & Hy & Hle & _). simplify_eq.
    assert (0 < OpenHandleCount x) as Hpos.
    { rewrite Hl1 in Hml. specialize (Hc _ Hml). rewrite cnt_cons, decide_True in Hc by done.
      pose proof (cnt_nonneg (h_Mount h) l). rewrite <- Hl1 in Hml. pose proof (kids_nonneg _ _ _ _ Hi1 Hml). lia. }
    apply safe_bind. apply (safe_mono _ _ (fun _ s' => s' = s1)).
    { destruct chk; [|by apply safe_ret]. rewrite (proj2 (Z.ltb_lt 0 _)) by lia. by apply safe_ret. }
    intros _ s' ->. eapply safe_mono; [apply (dec_spec cr H); [done|by right]|]. intros _ s2 (Ht2 & Hn2 & Hi2).
    eapply safe_mono; [apply (IH _ H s2 Hi2)|].
    + by rewrite (st_list _ _ Ht2), Hl1.
    + intros m. rewrite (st_list _ _ Ht2), Hl1. intros Hm. specialize (Hc m Hm). rewrite cnt_cons in Hc. unfold credit.
      destruct (Z.eqb_spec m (h_Mount h)) as [->|Hne]; [rewrite decide_True in Hc by done; lia|].
      rewrite decide_False in Hc by (intros [_ ?]; done). lia.
    + intros _ s3 (Ht3 & Hn3 & Hi3). split_and!; [etrans; [apply Hq1|by etrans]|destruct Hq1; lia|].
      eapply vinv_ext; [|exact Hi3]. intros m. unfold add_cnt, credit. rewrite cnt_cons.
      destruct (Z.eqb_spec m (h_Mount h)) as [->|Hne].
      * rewrite decide_True by done. lia.
      * rewrite decide_False by (intros [_ ?]; done). lia.
Qed.

Lemma good_live cr s : good cr s -> live_in (v_list s) (handles s).
Proof. intros Hg h. apply (mi_live _ _ _ _ _ _ (g_inv _ _ Hg)). Qed.

Lemma live_sub L l k : (forall h, h ∈ k -> h ∈ l) -> live_in L l -> live_in L k.
Proof. intros Hs Hl h Hh. apply Hl. by apply Hs. Qed.

Lemma add_cnt_support k cr l H s : vinv cr H s -> live_in (v_list s) l -> (forall m, m = 0 -> cnt m l = 0) ->
  forall m, add_cnt k cr l m <> 0 -> m ∈ v_list s.
Proof.
  intros Hi Hl H0 m. unfold add_cnt. destruct (decide (cr m = 0)) as [Hc|Hc]; [|intros _; by apply (support _ _ _ Hi)].
  rewrite Hc. intros Hk. assert (cnt m l <> 0) as Hcn by lia. unfold cnt in Hcn.
  destruct (filter (counted m) l) as [|h t] eqn:Hf; [done|]. assert (h ∈ filter (counted m) l) as Hin by (rewrite Hf; by left).
  apply list_elem_of_filter in Hin as [[Hn <-] Hin]. destruct (Hl h Hin Hn) as [He|]; [|done].
  rewrite (H0 _ He) in Hk. lia.
Qed.
End arrays.

(** ** Processes

    [VFS_ReferenceUserHandles] as part of the clone, whose copy of the table is a
    new process's; a context switch exchanges tables; an exit closes one. *)
Section processes.
Context {E : Type} {FS : Filesystems E} {QFS : QuietFS E}.
Implicit Types (s : vfs E) (cr : Z -> Z).

Definition fork : VM E unit :=
  VFS_ReferenceUserHandles;;;
  modify (fun s => match v_user s with
                   | None => s
                   | Some t => upd_others (take (Z.to_nat (v_maxfd s)) t :: v_others s) s
                   end).

Definition switch (i : nat) : VM E unit :=
  modify (fun s => match v_others s !! i with
                   | None => s
                   | Some t => upd_user (Some t) (upd_others (<[i := default [] (v_user s)]> (v_others s)) s)
                   end).

Lemma user_handles s t : v_user s = Some t -> handles s = t ++ default [] (v_kern s) ++ concat (v_others s) ++ concat (map_to_list (v_saved s)).*2.
Proof. unfold handles. by intros ->. Qed.

Lemma cnt_take m n (l : list tVFS_Handle) : cnt m (take n l) <= cnt m l.
Proof. rewrite <- (take_drop n l) at 2. rewrite cnt_app. pose proof (cnt_nonneg m (drop n l)). lia. Qed.

Lemma elem_take {A} n (l : list A) x : x ∈ take n l -> x ∈ l.
Proof. intros H. rewrite <- (take_drop n l). apply elem_of_app. by left. Qed.

(** The end of an operation whose last step only rearranges tables. *)
Lemma good_tables cr s s' : good cr s -> v_mounts s' = v_mounts s -> v_list s' = v_list s -> v_root s' = v_root s ->
  v_next s' = v_next s -> v_maxfd s' = v_maxfd s -> (forall m, m ∈ v_list s -> cnt m (handles s') <= cnt m (handles s)) ->
  live_in (v_list s) (handles s') -> good cr s' /\ env s s'.
Proof.
  intros Hg Hm Hl Hr Hn Hx Hc Hlive. assert (env s s') as He by (split; [done|done|done|lia]). split; [|done].
  apply (good_env cr s); [done|done|]. unfold vinv. rewrite Hm, Hl, Hr, Hn. eapply MI_change; [apply Hg| |done|].
  - intros m Hml. specialize (Hc m Hml). lia.
  - apply (support _ _ _ (g_inv _ _ Hg)).
Qed.

Lemma fine_fork : fine fork.
Proof.
  intros cr s Hg. unfold fork, VFS_ReferenceUserHandles. apply safe_bind, safe_bind, safe_get.
  destruct (v_user s) as [t|] eqn:Hu.
  2: { apply safe_ret, safe_modify. rewrite Hu. split; [done|reflexivity]. }
  assert (live_in (v_list s) (take (Z.to_nat (v_maxfd s)) t)) as Hlive.
  { eapply live_sub; [|by apply (good_live cr s)]. intros h Hh%elem_take. rewrite (user_handles _ _ Hu). apply elem_of_app. by left. }
  eapply safe_mono; [apply (reference_all_spec _ cr (handles s)); [apply Hg|done]|].
  intros _ s1 (Ht & Hnx & Hi). apply safe_modify. rewrite (st_user _ _ Ht), Hu, (st_maxfd _ _ Ht).
  set (k := take (Z.to_nat (v_maxfd s)) t) in *. set (s2 := upd_others _ _).
  assert (env s s2) as He by (destruct Ht; by split). split; [|done]. apply (good_env cr s); [done|done|].
  assert (handles s2 ≡ₚ k ++ handles s) as Hp.
  { unfold handles. subst s2. cbn [v_user v_kern v_others v_saved upd_others]. rewrite (st_user _ _ Ht), (st_kern _ _ Ht),
      (st_others _ _ Ht), (st_saved _ _ Ht). cbn [concat]. rewrite <- !app_assoc.
    rewrite (Permutation_app_swap_app (default [] (v_kern s)) k), (Permutation_app_swap_app (default [] (v_user s)) k). done. }
  eapply MI_perm; [symmetry; exact Hp|]. eapply MI_change; [exact Hi| | |].
  - intros m Hm. rewrite cnt_app. unfold add_cnt. lia.
  - intros h. rewrite elem_of_app. cbn [v_list s2 upd_others]. rewrite (st_list _ _ Ht). intros [Hh|Hh]; [by apply Hlive|by apply (good_live cr s)].
  - cbn [v_list s2 upd_others]. rewrite (st_list _ _ Ht). apply (support _ _ _ (g_inv _ _ Hg)).
Qed.

Lemma concat_insert {A} (L : list (list A)) i t u : L !! i = Some t -> t ++ concat (<[i := u]> L) ≡ₚ u ++ concat L.
Proof.
  revert i. induction L as [|x L IH]; intros [|i] Hi; simpl in *; [done..|simplify_eq|].
  - by rewrite (Permutation_app_swap_app t u).
  - rewrite (Permutation_app_swap_app t x), (Permutation_app_swap_app u x). by rewrite IH.
Qed.

Lemma fine_switch i : fine (switch i).
Proof.
  intros cr s Hg. apply safe_modify. destruct (v_others s !! i) as [t|] eqn:Ho; [|split; [done|reflexivity]].
  assert (handles (upd_user (Some t) (upd_others (<[i := default [] (v_user s)]> (v_others s)) s)) ≡ₚ handles s) as Hp.
  { unfold handles. cbn [v_user v_kern v_others v_saved upd_others upd_user default from_option id].
    rewrite (Permutation_app_swap_app t (default [] (v_kern s))), (Permutation_app_swap_app (default [] (v_user s)) (default [] (v_kern s))).
    f_equiv. rewrite !app_assoc. f_equiv. by apply concat_insert. }
  apply good_tables; try done.
  - intros m _. by rewrite Hp.
  - eapply live_sub; [|by apply (good_live cr s)]. intros h. by rewrite Hp.
Qed.

Lemma quiet_close_all l : quiet_op (close_all l).
Proof. induction l as [|h l IH]; cbn [close_all]; quietly; apply IH. Qed.

Lemma close_all_closed l s : safe (close_all l) s (fun k _ => Forall (fun h => h_Node h = 0) k).
Proof.
  revert s. induction l as [|h l IH]; intros s; cbn [close_all]; [apply safe_ret; constructor|].
  qstep _ s1 Hq1. sstep ltac:(apply IH). intros k s2 Hk. apply safe_ret. by constructor.
Qed.

Lemma safe_and {A} (c : VM E A) s P Q : safe c s P -> safe c s Q -> safe c s (fun a s' => P a s' /\ Q a s').
Proof. unfold safe. by destruct (c s). Qed.

Lemma fine_CloseAll i : fine (VFS_CloseAllUserHandles i).
Proof.
  intros cr s Hg. unfold VFS_CloseAllUserHandles. apply safe_bind, safe_get. case_if; [by split|].
  destruct (v_others s !! i) as [t|] eqn:Ho; [|apply fine_ret; done].
  sstep ltac:(apply safe_and; [apply quiet_close_all|apply close_all_closed]). intros k s1 [Hq Hk].
  pose proof (good_quiet _ _ _ Hg Hq) as Hg1. apply safe_modify. rewrite <- (st_others _ _ (q_tables _ _ Hq)) in Ho.
  set (s2 := upd_others _ _). assert (t ++ handles s2 ≡ₚ k ++ handles s1) as Hp.
  { unfold handles, s2. cbn [v_user v_kern v_others v_saved upd_others].
    rewrite (Permutation_app_swap_app t (default [] (v_user s1))), (Permutation_app_swap_app t (default [] (v_kern s1))),
      (Permutation_app_swap_app k (default [] (v_user s1))), (Permutation_app_swap_app k (default [] (v_kern s1))). do 2 f_equiv. rewrite !app_assoc. f_equiv. by apply concat_insert. }
  destruct (good_tables cr s1 s2) as [Hg2 He2]; try done.
  - intros m _. assert (cnt m (t ++ handles s2) = cnt m (k ++ handles s1)) as Hc by (by rewrite Hp).
    rewrite !cnt_app, (cnt_closed m k Hk) in Hc. pose proof (cnt_nonneg m t). lia.
  - intros h Hh Hn. assert (h ∈ k ++ handles s1) as Hin by (rewrite <- Hp; apply elem_of_app; by right).
    apply elem_of_app in Hin as [Hin|Hin]; [|by apply (good_live cr s1)]. rewrite Forall_forall in Hk. by destruct Hn; apply Hk.
  - split; [done|]. etrans; [by apply quiet_env|done].
Qed.
End processes.

(** ** Saved arrays of handles *)
Section saved.
Context {E : Type} {FS : Filesystems E} {QFS : QuietFS E}.
Implicit Types (s : vfs E) (cr : Z -> Z).

Lemma save_fds_spec FDs s : safe (save_fds FDs) s (fun o s' => s' = s /\
  match o with None => True | Some l => forall h, h ∈ l -> h_Node h <> 0 -> h ∈ handles s end).
Proof.
  induction FDs as [|fd FDs IH]; cbn [save_fds].
  { apply safe_ret. split; [done|]. intros h Hh. by apply not_elem_of_nil in Hh. }
  case_if.
  - sstep ltac:(exact IH). intros [l|] s1 [-> Hl]; apply safe_ret; (split; [done|]); [|done].
    intros h. simpl. rewrite elem_of_cons. intros [->|Hh] Hn; [done|by apply Hl].
  - apply safe_bind, safe_GetHandle; [by apply safe_ret|]. intros r h _ Hr _. apply safe_bind, safe_hread. intros x Hx.
    sstep ltac:(exact IH). intros [l|] s1 [-> Hl]; apply safe_ret; (split; [done|]); [|done].
    intros k. simpl. rewrite elem_of_cons. intros [->|Hk] Hn; [|by apply Hl].
    rewrite (holds_split _ _ _ Hx). by left.
Qed.

Definition saved_handles (m : gmap Z (list tVFS_Handle)) : list tVFS_Handle := concat (map_to_list m).*2.

Lemma saved_delete (m : gmap Z (list tVFS_Handle)) p l : m !! p = Some l ->
  saved_handles m ≡ₚ l ++ saved_handles (delete p m).
Proof.
  intros Hp. unfold saved_handles. rewrite <- (insert_delete_id m p l Hp) at 1.
  rewrite map_to_list_insert by apply lookup_delete_eq. done.
Qed.

Lemma saved_insert (m : gmap Z (list tVFS_Handle)) p l :
  saved_handles (<[p := l]> m) ≡ₚ l ++ saved_handles (delete p m).
Proof.
  unfold saved_handles. rewrite <- insert_delete_eq. rewrite map_to_list_insert by apply lookup_delete_eq. done.
Qed.

Lemma cnt_saved_delete x (m : gmap Z (list tVFS_Handle)) p : cnt x (saved_handles (delete p m)) <= cnt x (saved_handles m).
Proof.
  destruct (m !! p) as [l|] eqn:Hp; [|by rewrite delete_id].
  rewrite (saved_delete _ _ _ Hp), cnt_app. pose proof (cnt_nonneg x l). lia.
Qed.

Lemma elem_saved_delete h (m : gmap Z (list tVFS_Handle)) p : h ∈ saved_handles (delete p m) -> h ∈ saved_handles m.
Proof.
  intros Hh. destruct (m !! p) as [l|] eqn:Hp; [|by rewrite delete_id in Hh].
  rewrite (saved_delete _ _ _ Hp). apply elem_of_app. by right.
Qed.

Lemma handles_parts s : handles s = default [] (v_user s) ++ default [] (v_kern s) ++ concat (v_others s) ++ saved_handles (v_saved s).
Proof. done. Qed.

(** The array is no longer than the table: no part of it is left unset. *)
Lemma fine_Save junk NumFDs FDs cr s : good cr s -> NumFDs <= v_maxfd s ->
  safe (VFS_SaveHandles junk NumFDs FDs) s (fun _ s' => good cr s' /\ env s s').
Proof.
  intros Hg Hle. unfold VFS_SaveHandles. apply safe_bind, safe_get.
  destruct (v_user s) as [t|] eqn:Hu; [|apply safe_ret; split; [done|reflexivity]].
  qstep b s1 Hq1. pose proof (good_quiet _ _ _ Hg Hq1) as Hg1. case_if; [apply safe_ret; split; [done|by apply quiet_env]|].
  rewrite Z.min_l by lia. set (n := Z.to_nat NumFDs). apply safe_bind.
  apply (safe_mono _ _ (fun o s' => s' = s1 /\ match o with None => True | Some l => forall h, h ∈ l -> h_Node h <> 0 -> h ∈ handles s1 end)).
  { destruct FDs as [fds|]; [apply save_fds_spec|]. apply safe_ret. split; [done|]. intros h Hh%elem_take _.
    rewrite (handles_same _ _ (q_tables _ _ Hq1)), (user_handles _ _ Hu). apply elem_of_app. by left. }
  intros o s1' [-> Hl]. destruct o as [l|]; [|apply safe_ret; split; [done|by apply quiet_env]].
  assert (live_in (v_list s1) l) as Hlive by (intros h Hh Hn; apply (good_live cr s1 Hg1); [by apply Hl|done]).
  sstep ltac:(apply (reference_all_spec l cr (handles s1)); [apply Hg1|done]). intros _ s2 (Ht2 & Hn2 & Hi2).
  qstep p s3 Hq3. apply safe_bind, safe_modify. apply safe_ret. rewrite Z.sub_diag. cbn [Z.to_nat replicate].
  rewrite app_nil_r. set (s4 := upd_saved _ _). assert (same_tables s1 s3) as Ht by (etrans; [done|apply Hq3]).
  assert (env s1 s4) as He by (destruct Ht; split; try done; destruct Hq3; simpl; lia).
  split; [|etrans; [by apply quiet_env|done]]. apply (good_env cr s1); [done|done|].
  pose proof (vinv_quiet _ _ _ _ Hq3 Hi2) as Hi3. cbn [v_list] in *.
  assert (handles s4 ≡ₚ l ++ default [] (v_user s1) ++ default [] (v_kern s1) ++ concat (v_others s1) ++ saved_handles (delete p (v_saved s1))) as Hp.
  { rewrite handles_parts. subst s4. cbn [v_user v_kern v_others v_saved upd_saved]. destruct Ht as [_ _ -> -> -> -> _].
    rewrite saved_insert, !app_assoc, (Permutation_app_comm (_ ++ _) l), !app_assoc. done. }
  eapply MI_perm; [symmetry; exact Hp|]. eapply MI_change; [exact Hi3| | |].
  - intros m _. rewrite handles_parts, !cnt_app. unfold add_cnt. pose proof (cnt_saved_delete m (v_saved s1) p). lia.
  - cbn [v_list s4 upd_saved]. rewrite (st_list _ _ Ht). intros h. rewrite !elem_of_app. intros Hh. 
    destruct Hh as [Hh|Hh]; [by apply Hlive|]. apply (good_live cr s1 Hg1). rewrite handles_parts, !elem_of_app.
    destruct Hh as [?|[?|[?|Hh%elem_saved_delete]]]; tauto.
  - cbn [v_list s4 upd_saved]. rewrite (st_list _ _ Ht). apply (support _ _ _ (g_inv _ _ Hg1)).
Qed.

Lemma saved_in s p l : v_saved s !! p = Some l -> forall h, h ∈ l -> h ∈ handles s.
Proof. intros Hp h Hh. rewrite handles_parts, (saved_delete _ _ _ Hp), !elem_of_app. tauto. Qed.

Lemma cnt_saved s p l m : v_saved s !! p = Some l -> cnt m l <= cnt m (handles s).
Proof.
  intros Hp. rewrite handles_parts, (saved_delete _ _ _ Hp), !cnt_app.
  pose proof (cnt_nonneg m (default [] (v_user s))). pose proof (cnt_nonneg m (default [] (v_kern s))).
  pose proof (cnt_nonneg m (concat (v_others s))). pose proof (cnt_nonneg m (saved_handles (delete p (v_saved s)))). lia.
Qed.

Lemma fine_FreeSaved NumFDs Handles : fine (VFS_FreeSavedHandles NumFDs Handles).
Proof.
  intros cr s Hg. pose proof (g_nonneg _ _ Hg) as Hnn. unfold VFS_FreeSavedHandles. case_if; [by apply fine_ret|]. apply safe_bind, safe_get.
  destruct (v_saved s !! Handles) as [l|] eqn:Hs; [|apply good_fault]. set (k := take (Z.to_nat NumFDs) l).
  assert (live_in (v_list s) k) as Hlive.
  { eapply live_sub; [|by apply (good_live cr s)]. intros h Hh%elem_take. by eapply saved_in. }
  sstep ltac:(apply (release_all_spec true k cr (handles s)); [apply Hg|done|]).
  { intros m _. pose proof (cnt_take m (Z.to_nat NumFDs) l). pose proof (cnt_saved _ _ _ m Hs). specialize (Hnn m). subst k. lia. }
  intros _ s1 (Ht & Hn & Hi). apply safe_modify. set (s2 := upd_saved _ _).
  assert (env s s2) as He by (destruct Ht; by split). split; [|done]. apply (good_env cr s); [done|done|].
  assert (v_list s2 = v_list s) as Hl2 by apply He. eapply MI_change; [exact Hi| | |].
  - intros m _. unfold add_cnt. rewrite !handles_parts, (saved_delete _ _ _ Hs). subst s2. cbn [v_user v_kern v_others v_saved upd_saved].
    destruct Ht as [_ _ -> -> -> -> _]. rewrite !cnt_app. pose proof (cnt_take m (Z.to_nat NumFDs) l). subst k. lia.
  - change (v_list s1) with (v_list s2). rewrite Hl2. eapply live_sub; [|by apply (good_live cr s)]. intros h.
    rewrite !handles_parts, !elem_of_app. subst s2. cbn [v_user v_kern v_others v_saved upd_saved].
    destruct Ht as [_ _ -> -> -> -> _]. intros [?|[?|[?|?%elem_saved_delete]]]; tauto.
  - change (v_list s1) with (v_list s2). rewrite Hl2. apply (support _ _ _ (g_inv _ _ Hg)).
Qed.

(** The new user table, once the old handles have been released: [cr1] is short of
    what the old table still counts for. *)
Lemma restore_tail cr cr1 H s s1 l n t : good cr s -> live_in (v_list s) (take n l) ->
  same_tables s (upd_user (v_user s) s1) -> v_next s <= v_next s1 ->
  (forall m, cnt m (default [] (v_kern s)) + cnt m (concat (v_others s)) + cnt m (saved_handles (v_saved s)) + cr m <= cnt m H + cr1 m) ->
  vinv cr1 H s1 ->
  let T := take n l ++ ((fun h => MkHandle 0 (h_Mount h) (h_Position h) (h_Mode h)) <$> drop n t) in
  safe (modify (upd_user (Some T));;; reference_all (take n l)) s1 (fun _ s' => good cr s' /\ env s s').
Proof.
  intros Hg Hlive Ht Hn Hc Hi T. apply safe_bind, safe_modify. set (s2 := upd_user (Some T) s1).
  destruct Ht as [Ha Hb _ Hk Ho Hsv Hx]. cbn in Ha, Hb, Hk, Ho, Hsv, Hx.
  assert (v_list s2 = v_list s) as Hl2 by exact Ha.
  eapply safe_mono; [apply (reference_all_spec _ cr1 H s2); [exact Hi|by rewrite Hl2]|]. intros _ s3 (Ht3 & Hn3 & Hi3).
  assert (env s s3) as He.
  { destruct Ht3 as [Ha3 Hb3 _ _ _ _ Hc3]. subst s2. cbn in *. split; [congruence..|lia]. }
  split; [|done]. apply (good_env cr s); [done|done|]. rewrite (handles_same _ _ Ht3), handles_parts. subst s2.
  cbn [v_user v_kern v_others v_saved upd_user default from_option id]. rewrite Hk, Ho, Hsv.
  eapply MI_change; [exact Hi3| | |].
  - intros m _. unfold add_cnt. subst T. rewrite !cnt_app. specialize (Hc m).
    rewrite (cnt_closed m (_ <$> _)) by (apply Forall_fmap, Forall_true; done). lia.
  - rewrite (e_list _ _ He). intros h. subst T. rewrite !elem_of_app. intros [[Hh|Hh]|Hh]; [by apply Hlive| |].
    + apply list_elem_of_fmap in Hh as (x & -> & _). intros Hf. by destruct Hf.
    + apply (good_live cr s Hg). rewrite handles_parts, !elem_of_app. tauto.
  - rewrite (e_list _ _ He). apply (support _ _ _ (g_inv _ _ Hg)).
Qed.

Lemma fine_Restore NumFDs Handles : fine (VFS_RestoreHandles NumFDs Handles).
Proof.
  intros cr s Hg. pose proof (g_nonneg _ _ Hg) as Hnn. unfold VFS_RestoreHandles. case_if; [by apply fine_ret|]. apply safe_bind, safe_get.
  destruct (v_saved s !! Handles) as [l|] eqn:Hs; [|apply good_fault]. set (n := Z.to_nat (Z.min NumFDs (v_maxfd s))).
  assert (live_in (v_list s) (take n l)) as Hlive.
  { eapply live_sub; [|by apply (good_live cr s)]. intros h Hh%elem_take. by eapply saved_in. }
  destruct (v_user s) as [t|] eqn:Hu.
  - assert (live_in (v_list s) (take n t)) as Hlt.
    { eapply live_sub; [|by apply (good_live cr s)]. intros h Hh%elem_take. rewrite (user_handles _ _ Hu). apply elem_of_app. by left. }
    sstep ltac:(apply (release_all_spec false (take n t) cr (handles s)); [apply Hg|done|]).
    { intros m _. rewrite (user_handles _ _ Hu), cnt_app. pose proof (cnt_take m n t). specialize (Hnn m).
      match goal with |- context [cnt m t + cnt m ?r] => pose proof (cnt_nonneg m r) end. lia. }
    intros _ s1 (Ht & Hn & Hi). apply safe_bind, safe_get. rewrite (st_user _ _ Ht), Hu.
    eapply (restore_tail cr _ (handles s) s s1); [done|done| |done| |exact Hi].
    + destruct Ht. by split.
    + intros m. unfold add_cnt. rewrite (user_handles _ _ Hu), !cnt_app. fold (saved_handles (v_saved s)).
      pose proof (cnt_take m n t). lia.
  - apply safe_bind. destruct (Z.min NumFDs (v_maxfd s) <=? 0).
    + case_if; [|apply good_fault]. apply safe_ret, safe_bind, safe_get. rewrite Hu. apply safe_ret. split; [done|reflexivity].
    + qstep b s1 Hq1. pose proof (good_quiet _ _ _ Hg Hq1) as Hg1. destruct b.
      * apply safe_modify, safe_bind, safe_get. cbn [v_user upd_user].
        eapply (restore_tail cr cr (handles s) s); [done|done| |apply Hq1| |].
        -- destruct Hq1 as [[] _ _]. by split.
        -- intros m. rewrite handles_parts, Hu. cbn [default from_option id app]. rewrite !cnt_app. lia.
        -- apply (vinv_quiet cr (handles s) s s1); [done|apply Hg].
      * apply safe_ret, safe_bind, safe_get. rewrite (st_user _ _ (q_tables _ _ Hq1)), Hu. apply safe_ret.
        split; [done|by apply quiet_env].
Qed.
End saved.

(** ** Mounting and unmounting *)
Section mounting.
Context {E : Type} {FS : Filesystems E} {QFS : QuietFS E} {FD : FineDrivers E}.
Context (junk : Z).
Implicit Types (s : vfs E) (cr : Z -> Z).

Lemma safe_driver d s (Q : tVFS_Driver E -> vfs E -> Prop) : (forall x, fsdrv d = Some x -> Q x s) -> safe (driver d) s Q.
Proof. intros H. apply safe_lift. apply H. Qed.

Lemma fine_fs_by_name l Name : fine (fs_by_name (E := E) l Name).
Proof. induction l as [|d l IH]; cbn [fs_by_name]; [apply fine_ret|]. unfold driver. finely. Qed.

Lemma fine_detect l fd : forall best rank, fine (detect_fs l fd best rank).
Proof.
  induction l as [|d l IH]; intros best rank; cbn [detect_fs]; [apply fine_ret|]. intros cr s Hg.
  apply safe_bind, safe_driver. intros x Hx. destruct (d_Detect x) as [f|] eqn:Hf; [|by apply IH].
  destruct (fine_drivers _ _ Hx) as (Hd & _). sstep ltac:(by apply (Hd f Hf)). intros r s1 [Hg1 He1].
  assert (forall b k, safe (detect_fs l fd b k) s1 (fun _ s' => good cr s' /\ env s s')) as Hk.
  { intros b k. eapply safe_mono; [by apply IH|]. intros ? s2 [? He2]. split; [done|]. exact (transitivity He1 He2). }
  repeat case_if; apply Hk.
Qed.

Lemma fine_select_fs Device Filesystem : fine (select_fs junk Device Filesystem).
Proof.
  unfold select_fs, VFS_GetFSByName. finely; first [apply fine_fs_by_name|apply fine_Open|apply fine_detect].
Qed.

Lemma fine_OpenInode Mount Inode Mode : fine (VFS_OpenInode Mount Inode Mode).
Proof.
  intros cr s Hg. pose proof (g_nonneg _ _ Hg) as Hn. unfold VFS_OpenInode, VFS_GetMountByIdent.
  apply safe_bind, safe_bind, safe_get, safe_bind.
  apply (safe_mono _ _ (fun m s' => s' = s /\ (m = 0 \/ m ∈ v_list s))).
  { assert (v_list s ⊆ v_list s) as Hsub by done. revert Hsub. generalize (v_list s) at 1 3.
    induction l as [|m l IH]; intros Hsub; cbn [mount_by_ident]; [apply safe_ret; split; [done|by left]|].
    assert (m ∈ v_list s) as Hm by (apply Hsub; by left).
    apply safe_bind, (safe_mount cr (handles s)); [apply Hg|by right|]. intros x _ _ _.
    case_if; [apply safe_ret; split; [done|by right]|]. apply IH. intros y Hy. apply Hsub. by right. }
  intros m s0 [-> Hm]. apply safe_bind. destruct (Z.eqb_spec m 0) as [->|Hne].
  { apply safe_ret, safe_ret. rewrite Z.eqb_refl. qstep _ s1 Hq1. apply safe_ret. split; [exact (good_quiet _ _ _ Hg Hq1)|by apply quiet_env]. }
  eapply safe_mono; [by apply (ref_good cr)|]. intros _ s1 (Hg1 & He1 & _ & _ & Hml). apply safe_ret.
  rewrite (proj2 (Z.eqb_neq m 0)) by done. rewrite <- (e_list _ _ He1) in Hml.
  apply safe_bind, (safe_mount (pm cr m) (handles s1)); [apply Hg1|by right|]. intros x _ Hx _.
  destruct (fsdrv (m_Filesystem x)) as [d|] eqn:Hd; [|apply good_fault].
  assert (forall s2, quiet s1 s2 -> safe (set_errno ENOENT;;; ret (-1)) s2 (fun _ s' => good cr s' /\ env s s')) as Hfail.
  { intros s2 Hq2. qstep _ s3 Hq3. apply safe_ret. assert (quiet s1 s3) as Hq by qt. split; [|etrans; [exact He1|by apply quiet_env]].
    apply (good_leak _ m). right. split; [done|exact (good_quiet _ _ _ Hg1 Hq)]. }
  destruct (d_GetNodeFromINode d) as [f|] eqn:Hf; [|by apply Hfail].
  destruct (fine_drivers _ _ Hd) as (_ & _ & _ & Hq). apply safe_bind. eapply safe_mono; [by apply (Hq f Hf)|]. cbn beta.
  intros node s2 Hq2. case_if; [by apply Hfail|]. pose proof (quiet_env _ _ Hq2) as He2.
  eapply safe_mono; [apply (CreateHandle_spec cr); [done|exact (good_quiet _ _ _ Hg1 Hq2)|right; by rewrite (e_list _ _ He2)]|].
  intros fd s3 (Hg3 & He3 & _). split; [done|]. etrans; [exact He1|]. by etrans.
Qed.

(** The mount point's own mount stays referenced. *)
Lemma check_mountpoint_spec cr s mp : good cr s -> safe (check_mountpoint junk mp) s (fun o s' => env s s' /\
  match o with
  | inl _ => good cr s'
  | inr None => good cr s' /\ v_list s = []
  | inr (Some p) => good (pm cr p) s' /\ p ∈ v_list s'
  end).
Proof.
  intros Hg. pose proof (g_nonneg _ _ Hg) as Hn. unfold check_mountpoint. apply safe_bind, safe_get.
  destruct (v_list s) as [|m l] eqn:Hl; [apply safe_ret; split; [reflexivity|done]|].
  sstep ltac:(by apply ParsePath_good). intros p s1 (Hg1 & He1 & _ & Hm1). case_if; [apply safe_ret; by split|].
  specialize (Hm1 Heqb). qstep n s2 Hq2. apply safe_bind, safe_type. intros [ty|] Hty; [|apply good_fault].
  assert (quiet_op (match t_Close ty with Some f => f (p_node p) | None => ret tt end)) as Hqc by quietly.
  sstep ltac:(apply Hqc). intros ? s3 Hq3. assert (quiet s1 s3) as Hq by qt. pose proof (good_quiet _ _ _ Hg1 Hq) as Hg3.
  pose proof (quiet_env _ _ Hq) as He3. rewrite <- (e_list _ _ He3) in Hm1.
  apply safe_bind, (safe_mount (pm cr (p_mount p)) (handles s3)); [apply Hg3|done|]. intros x Hml Hx _.
  assert (env s s3) as He by (by etrans). case_if; apply safe_ret; (split; [done|]); [|done].
  apply (good_leak _ (p_mount p)). right. by split.
Qed.

Lemma quiet_count_args fuel : forall str n, quiet_op (E := E) (count_args fuel str n).
Proof. induction fuel as [|fuel IH]; intros str n; cbn [count_args]; quietly; apply IH. Qed.
Lemma quiet_split_args fuel : forall str, quiet_op (E := E) (split_args fuel str).
Proof. induction fuel as [|fuel IH]; intros str; cbn [split_args]; quietly; apply IH. Qed.
#[local] Hint Resolve quiet_count_args quiet_split_args : acess.

(** A handle is on no mount that is not in the list. *)
Lemma cnt_unlisted cr s m : good cr s -> m ∉ v_list s -> m <> 0 -> cnt m (handles s) = 0.
Proof.
  intros Hg Hm H0. unfold cnt. destruct (filter (counted m) (handles s)) as [|h l] eqn:Hf; [done|].
  assert (h ∈ filter (counted m) (handles s)) as Hin by (rewrite Hf; by left).
  apply list_elem_of_filter in Hin as [[Hn <-] Hin]. by destruct (good_live cr s Hg h Hin Hn).
Qed.

Lemma no_nonneg : nonneg no_credit.
Proof. intros m. unfold no_credit. lia. Qed.

Lemma MI_first mounts root next H m x : MI no_credit mounts [] root next H -> 0 < m < next -> cnt m H = 0 ->
  get (MountPoint x) 0 = Some cSLASH -> OpenHandleCount x = 0 -> MountPointLen x = 0 ->
  MI no_credit (<[m := x]> mounts) [m] m next H.
Proof.
  intros [H1 H2 H3 H4 H5 H6 H7] Hm Hc Hs H0 Hlen. split; try done.
  - intros k Hk. apply list_elem_of_singleton in Hk as ->. exists x. rewrite lookup_insert_eq. split_and!; [done| |done].
    unfold kids, no_credit. rewrite Z.eqb_refl. change (len [m]) with 1. lia.
  - intros h Hh Hn. destruct (H2 h Hh Hn) as [|Hf]; [by left|]. by apply not_elem_of_nil in Hf.
  - apply NoDup_singleton.
  - right. exists [], x. by rewrite lookup_insert_eq.
  - intros k Hk. apply list_elem_of_singleton in Hk as ->. done.
Qed.

Lemma MI_more mounts l root next H m x : MI (credit no_credit root 1) mounts l root next H -> l <> [] -> m ∉ l ->
  0 < m < next -> cnt m H = 0 -> get (MountPoint x) 0 = Some cSLASH -> OpenHandleCount x = 0 ->
  MI no_credit (<[m := x]> mounts) (l ++ [m]) root next H.
Proof.
  intros [H1 H2 H3 H4 H5 H6 H7] Hne Hm Hma Hc Hs H0. destruct H5 as [[? _]|(rest & y & Hl & Hy & Hylen)]; [done|].
  assert (root ∈ l) as Hr by (rewrite Hl; by left). assert (m <> root) as Hmr by (intros ->; done).
  split; try done.
  - intros k Hk. apply elem_of_app in Hk as [Hk|Hk].
    + destruct (H1 k Hk) as (z & Hz & Hcz & Hsz). exists z. rewrite lookup_insert_ne by (intros ->; done). split_and!; [done| |done].
      unfold kids, credit, no_credit in *. rewrite len_app. change (len [m]) with 1. destruct (k =? root); lia.
    + apply list_elem_of_singleton in Hk as ->. exists x. rewrite lookup_insert_eq. split_and!; [done| |done].
      unfold kids, no_credit. rewrite (proj2 (Z.eqb_neq m root)) by done. lia.
  - intros h Hh Hn. destruct (H2 h Hh Hn) as [|Hf]; [by left|right]. apply elem_of_app. by left.
  - apply NoDup_app. split_and!; [done| |apply NoDup_singleton]. intros k Hk Hk'. apply list_elem_of_singleton in Hk' as ->. done.
  - right. exists (rest ++ [m]), y. rewrite lookup_insert_ne by done. by rewrite Hl.
  - intros k Hk. apply elem_of_app in Hk as [Hk|Hk]; [by apply H6|]. apply list_elem_of_singleton in Hk as ->. done.
Qed.

(** The mounts this development vouches for: at an absolute path, the first of
    them the root, and the others directly in the root filesystem. *)
Definition mount_allowed s (Device mp Filesystem : list Z) : Prop :=
  get mp 0 = Some cSLASH /\ (v_list s = [] -> strlen mp = Some 1) /\
  forall fs s1 p s2, select_fs junk Device Filesystem s = Ok (inr fs) s1 ->
    check_mountpoint junk mp s1 = Ok (inr (Some p)) s2 -> p = v_root s.

(** The text of the mounts file is read off the list. *)
Lemma mount_lines_safe l : forall cr H s, vinv cr H s -> l ⊆ v_list s -> safe (mount_lines l) s (fun _ s' => s' = s).
Proof.
  induction l as [|m l IH]; intros cr H s Hi Hl; cbn [mount_lines]; [by apply safe_ret|].
  apply safe_bind, (safe_mount cr H); [done|right; apply Hl; by left|]. intros x _ _ _.
  apply safe_bind, safe_driver. intros d _. do 4 (apply safe_bind, safe_lift; intros ? _).
  sstep ltac:(apply (IH cr H); [done|intros k Hk; apply Hl; by right]). intros r s' ->. by apply safe_ret.
Qed.

Lemma quiet_mountfile x s : quiet s (upd_mountfile x s).
Proof. split; [by split|done|apply Z.le_refl]. Qed.

Lemma fine_UpdateMountFile : fine VFS_UpdateMountFile.
Proof.
  intros cr s Hg. unfold VFS_UpdateMountFile. apply safe_bind, safe_get.
  sstep ltac:(by apply (mount_lines_safe _ cr (handles s)); [apply Hg|]). intros t s1 ->. qstep b s2 Hq2.
  case_if; [|apply good_fault]. apply safe_modify. assert (quiet s (upd_mountfile (t ++ [0]) s2)) as Hq by (etrans; [done|apply quiet_mountfile]).
  split; [by eapply good_quiet|by apply quiet_env].
Qed.

Lemma UpdateMountFile_then {A} (a : A) s : good no_credit s ->
  safe (VFS_UpdateMountFile;;; ret a) s (fun r s' => r = a /\ good no_credit s' /\ v_list s' = v_list s).
Proof.
  intros Hg. sstep ltac:(by apply fine_UpdateMountFile). intros _ s1 [Hg1 He1]. apply safe_ret. split_and!; [done|done|apply He1].
Qed.

(** The registration of a new mount. *)
Definition register_mount (mnt : Z) (x : Z -> tVFS_Mount) : VM E Z :=
  do s <- get_state;
  modify (upd_ident (u32 (v_ident s + 1)));;;
  put_mount mnt (x (v_ident s));;;
  do s <- get_state;
  (if v_root s =? 0 then modify (upd_root mnt) else ret tt);;;
  modify (fun s => upd_list (v_list s ++ [mnt]) s);;;
  VFS_UpdateMountFile;;;
  ret 0.

Lemma register_spec s mnt x (first : bool) : good (if first then no_credit else pm no_credit (v_root s)) s ->
  (if first then v_list s = [] else v_list s <> []) ->
  mnt ∉ v_list s -> 0 < mnt < v_next s ->
  (forall i, get (MountPoint (x i)) 0 = Some cSLASH /\ OpenHandleCount (x i) = 0 /\ (first = true -> MountPointLen (x i) = 0)) ->
  safe (register_mount mnt x) s (fun _ s' => good no_credit s').
Proof.
  intros Hg Hf Hm Hma Hx. pose proof (cnt_unlisted _ s mnt Hg Hm ltac:(lia)) as Hc. destruct Hg as [Hi _ Hmax].
  unfold register_mount. apply safe_bind, safe_get, safe_bind, safe_modify, safe_bind, safe_modify, safe_bind, safe_get.
  cbn [v_root upd_mounts upd_ident]. destruct (Hx (v_ident s)) as (Hs & H0 & Hlen). apply safe_bind.
  destruct (mi_root _ _ _ _ _ _ Hi) as [[Hl Hr]|(rest & y & Hl & Hy & _)]; destruct first; try congruence.
  - rewrite Hr. rewrite Z.eqb_refl. apply safe_modify, safe_bind, safe_modify.
    eapply safe_mono; [apply UpdateMountFile_then|naive_solver]. split; [|apply no_nonneg|exact Hmax]. unfold vinv. cbn [v_mounts v_list v_root v_next upd_list upd_root upd_mounts upd_ident].
    rewrite Hl. cbn [app]. unfold vinv in Hi. rewrite Hl in Hi. eapply MI_first; [exact Hi|done|exact Hc|done|done|by apply Hlen].
  - assert (0 < v_root s < v_next s) as Hra by (apply (mi_addr _ _ _ _ _ _ Hi); rewrite Hl; by left).
    rewrite (proj2 (Z.eqb_neq (v_root s) 0)) by lia. apply safe_ret, safe_bind, safe_modify.
    eapply safe_mono; [apply UpdateMountFile_then|naive_solver]. split; [|apply no_nonneg|exact Hmax]. unfold vinv. cbn [v_mounts v_list v_root v_next upd_list upd_root upd_mounts upd_ident].
    unfold pm in Hi. rewrite (proj2 (Z.eqb_neq (v_root s) 0)) in Hi by lia. by apply MI_more.
Qed.

Lemma safe_eq {A} (c : VM E A) s (Q : A -> vfs E -> Prop) : safe c s Q -> safe c s (fun a s' => Q a s' /\ c s = Ok a s').
Proof. unfold safe. by destruct (c s). Qed.

Lemma VFS_Mount_safe s Device mp Filesystem Options : good no_credit s -> mount_allowed s Device mp Filesystem ->
  safe (VFS_Mount junk Device mp Filesystem Options) s (fun _ s' => good no_credit s').
Proof.
  intros Hg (Hslash & Hfirst & Hroot). unfold VFS_Mount.
  sstep ltac:(apply safe_eq; by apply fine_select_fs). intros o s1 [[Hg1 He1] Heq1]. destruct o as [e|fs]; [by apply safe_ret|].
  sstep ltac:(apply safe_eq; by apply (check_mountpoint_spec no_credit)). intros o s2 [[He2 Ho] Heq2].
  destruct o as [e|parent]; [by apply safe_ret|]. assert (env s s2) as He02 by (by etrans).
  set (c := match parent with None => no_credit | Some p => pm no_credit p end).
  assert (good c s2 /\ match parent with None => v_list s2 = [] | Some p => p ∈ v_list s2 /\ p = v_root s2 end) as [Hg2 Hp].
  { subst c. destruct parent as [p|]; destruct Ho as [Hgo Ho]; (split; [done|]).
    - split; [done|]. rewrite (e_root _ _ He02). by eapply Hroot.
    - by rewrite (e_list _ _ He2). }
  assert (forall s3, good c s3 -> env s2 s3 -> safe (drop_parent parent;;; ret (-2)) s3 (fun _ s' => good no_credit s')) as Hdrop.
  { intros s3 Hg3 He3. apply safe_bind. subst c. destruct parent as [p|]; [|apply good_fault]. cbn [drop_parent].
    eapply safe_mono; [apply (deref_good no_credit); [apply no_nonneg|done|right; rewrite (e_list _ _ He3); apply Hp]|].
    intros _ s4 (Hg4 & _). by apply safe_ret. }
  qstep b s3 Hq3. pose proof (good_quiet _ _ _ Hg2 Hq3) as Hg3. pose proof (quiet_env _ _ Hq3) as He3.
  case_if; [by apply Hdrop|]. apply safe_bind. unfold new_address, safe at 1. set (mnt := v_next s3).
  pose proof (quiet_next s3) as Hq4. set (s4 := upd_next (v_next s3 + 1) s3) in *. pose proof (good_quiet _ _ _ Hg3 Hq4) as Hg4.
  apply safe_bind, safe_lift. intros mountLen Hlen. qstep nArg s6 Hq6. qstep args s7 Hq7.
  assert (quiet s4 s7) as Hq47 by qt. pose proof (good_quiet _ _ _ Hg4 Hq47) as Hg7.
  apply safe_bind, safe_driver. intros d Hd. destruct (fine_drivers _ _ Hd) as (_ & Hinit & _).
  sstep ltac:(apply (Hinit Device args c s7 Hg7)). intros root s8 [Hg8 He8].
  assert (env s4 s8) as He48 by (etrans; [by apply quiet_env|done]).
  assert (env s2 s8) as He28 by (etrans; [exact He3|etrans; [by apply quiet_env|done]]).
  case_if; [by apply Hdrop|].
  apply (register_spec s8 mnt (fun i => MkMount mp (if (mountLen =? 1) && (path_at junk mp 0 =? cSLASH) then 0 else mountLen)
    i Device Options fs root 0) (match parent with None => true | Some _ => false end)).
  - subst c. destruct parent as [p|]; [|done]. destruct Hp as [_ ->]. by rewrite (e_root _ _ He28).
  - rewrite (e_list _ _ He28). destruct parent as [p|]; [|done]. destruct Hp as [Hp _]. intros Hnil. rewrite Hnil in Hp.
    by apply not_elem_of_nil in Hp.
  - rewrite (e_list _ _ He48). subst s4. cbn [v_list upd_next]. intros Hin.
    pose proof (mi_addr _ _ _ _ _ _ (g_inv _ _ Hg3) mnt Hin). subst mnt. lia.
  - pose proof (mi_next _ _ _ _ _ _ (g_inv _ _ Hg3)). pose proof (e_next _ _ He48) as Hnx. subst s4 mnt. cbn in Hnx. lia.
  - intros i. cbn [MountPoint OpenHandleCount MountPointLen]. split_and!; [done|done|]. destruct parent as [p|]; [done|]. intros _.
    assert (v_list s = []) as Hl0 by (rewrite <- (e_list _ _ He02); done). specialize (Hfirst Hl0). rewrite Hlen in Hfirst.
    injection Hfirst as ->. unfold path_at. rewrite Hslash. done.
Qed.

(** ** Unmounting *)
Lemma unmount_find_spec cr s l mp : good cr s -> l ⊆ v_list s ->
  safe (unmount_find (E := E) l mp) s (fun o s' => s' = s /\
    match o with inl e => e <> 0 | inr m => m ∈ v_list s /\ exists x, v_mounts s !! m = Some x /\ OpenHandleCount x = 0 end).
Proof.
  intros Hg. induction l as [|m l IH]; intros Hl; cbn [unmount_find]; [by apply safe_ret|].
  assert (m ∈ v_list s) as Hm by (apply Hl; by left).
  apply safe_bind, (safe_mount cr (handles s)); [apply Hg|by right|]. intros x _ Hx _. apply safe_bind, safe_lift. intros c Hc.
  case_if; [apply IH; intros y Hy; apply Hl; by right|].
  case_if; apply safe_ret; (split; [done|]); [done|]. split; [done|]. by exists x.
Qed.

Lemma filter_out (l : list Z) m : NoDup l -> m ∈ l -> len l = len (filter (fun y => y <> m) l) + 1.
Proof.
  induction l as [|x l IH]; intros Hnd Hm; [by apply not_elem_of_nil in Hm|]. apply NoDup_cons in Hnd as [Hx Hnd].
  rewrite filter_cons. destruct (decide (x = m)) as [->|Hne].
  - rewrite decide_False by (intros Hf; by apply Hf). rewrite len_cons.
    assert (forall k : list Z, m ∉ k -> filter (fun y => y <> m) k = k) as Hid.
    { clear. induction k as [|y k IHk]; [done|]. rewrite elem_of_cons. intros Hk. rewrite filter_cons, decide_True by (intros ->; tauto).
      rewrite IHk; [done|tauto]. }
    rewrite (Hid l Hx). lia.
  - rewrite decide_True by done. rewrite !len_cons. apply elem_of_cons in Hm as [->|Hm]; [done|]. rewrite (IH Hnd Hm). lia.
Qed.

(** The list without a mount nobody uses; the root gets a reference back. *)
Lemma MI_remove mounts l root next H m x : MI no_credit mounts l root next H -> m ∈ l -> m <> root ->
  mounts !! m = Some x -> OpenHandleCount x = 0 ->
  MI (credit no_credit root 1) mounts (filter (fun y => y <> m) l) root next H.
Proof.
  intros [H1 H2 H3 H4 H5 H6 H7] Hm Hmr Hx H0. destruct H5 as [[-> _]|(rest & y & Hl & Hy & Hylen)]; [by apply not_elem_of_nil in Hm|].
  assert (root ∈ filter (fun y => y <> m) l) as Hr by (apply list_elem_of_filter; split; [done|rewrite Hl; by left]).
  assert (cnt m H = 0) as Hc0.
  { destruct (H1 m Hm) as (x' & Hx' & Hc & _). simplify_eq. unfold kids, no_credit in Hc.
    rewrite (proj2 (Z.eqb_neq m root)) in Hc by done. pose proof (cnt_nonneg m H). lia. }
  assert (len l = len (filter (fun y => y <> m) l) + 1) as Hlen by (by apply filter_out).
  split.
  - intros k [Hk Hkl]%list_elem_of_filter. destruct (H1 k Hkl) as (z & Hz & Hcz & Hsz). exists z. split_and!; [done| |done].
    unfold kids, credit, no_credit in *. destruct (k =? root); lia.
  - intros h Hh Hn. destruct (H2 h Hh Hn) as [|Hf]; [by left|right]. apply list_elem_of_filter. split; [|done].
    intros Heq. assert (h ∈ filter (counted m) H) as Hin by (by apply list_elem_of_filter). unfold cnt in Hc0.
    destruct (filter (counted m) H); [by apply not_elem_of_nil in Hin|]. rewrite len_cons in Hc0. pose proof (len_nonneg l0). lia.
  - intros k. unfold credit, no_credit. destruct (Z.eqb_spec k root) as [->|]; [done|lia].
  - by apply NoDup_filter.
  - right. exists (filter (fun y => y <> m) rest), y. split; [|done]. rewrite Hl, filter_cons_True by done. done.
  - intros k [_ Hk]%list_elem_of_filter. by apply H6.
  - done.
Qed.

Lemma MI_forget mounts l root next H m cr : MI cr mounts l root next H -> m ∉ l -> MI cr (delete m mounts) l root next H.
Proof.
  intros [H1 H2 H3 H4 H5 H6 H7] Hm. split; try done.
  - intros k Hk. destruct (H1 k Hk) as (x & Hx & ?). exists x. by rewrite lookup_delete_ne by (intros ->; done).
  - destruct H5 as [?|(rest & x & Hl & Hx & ?)]; [by left|right]. exists rest, x.
    rewrite lookup_delete_ne; [done|]. intros ->. apply Hm. rewrite Hl. by left.
Qed.

(** The root is the first mount that is a prefix of an absolute path. *)
Lemma find_parent_root cr s mp : good cr s -> v_list s <> [] -> get mp 0 = Some cSLASH ->
  find_parent junk (v_list s) mp s = Ok (v_root s) s.
Proof.
  intros Hg Hne Hs. destruct (mi_root _ _ _ _ _ _ (g_inv _ _ Hg)) as [[? _]|(rest & x & Hl & Hx & Hlen)]; [done|].
  pose proof (mi_addr _ _ _ _ _ _ (g_inv _ _ Hg) (v_root s)) as Ha. rewrite Hl in Ha |- *. specialize (Ha ltac:(by left)).
  cbn [find_parent]. unfold bind at 1, mount_at. rewrite (proj2 (Z.eqb_neq _ 0)), Hx by lia. unfold path_at, strncmp. by rewrite Hlen, Hs.
Qed.

Lemma int_Unmount_safe s m x : good (credit no_credit (v_root s) 1) s -> v_list s <> [] -> m ∉ v_list s -> m <> 0 ->
  v_mounts s !! m = Some x -> get (MountPoint x) 0 = Some cSLASH -> m <> v_root s ->
  safe (VFS_int_Unmount junk m) s (fun _ s' => good no_credit s' /\ v_list s' = v_list s).
Proof.
  intros Hg Hne Hm H0 Hx Hs Hmr. unfold VFS_int_Unmount. apply safe_bind, safe_get, safe_bind.
  unfold mount_at at 1, safe at 1. rewrite (proj2 (Z.eqb_neq m 0)), Hx by done. apply safe_bind.
  rewrite (proj2 (Z.eqb_neq m (v_root s))) by done. apply safe_bind. unfold safe at 1. rewrite (find_parent_root _ _ _ Hg Hne Hs).
  destruct (root_live _ _ _ (g_inv _ _ Hg)) as [Hr|Hr].
  { destruct (mi_root _ _ _ _ _ _ (g_inv _ _ Hg)) as [[? _]|(rest & y & Hl & _)]; [done|].
    pose proof (mi_addr _ _ _ _ _ _ (g_inv _ _ Hg) (v_root s)) as Ha. rewrite Hl in Ha. specialize (Ha ltac:(by left)). lia. }
  pose proof (mi_addr _ _ _ _ _ _ (g_inv _ _ Hg) _ Hr) as Hra. rewrite (proj2 (Z.eqb_neq (v_root s) 0)) by lia.
  eapply safe_mono; [apply (deref_good no_credit); [apply no_nonneg| |by right]|].
  { unfold pm. by rewrite (proj2 (Z.eqb_neq (v_root s) 0)) by lia. }
  intros _ s1 (Hg1 & He1 & _). apply safe_bind, safe_driver. intros d Hd. destruct (fine_drivers _ _ Hd) as (_ & _ & Hun & _).
  apply safe_bind. apply (safe_mono _ _ (fun _ s' => good no_credit s' /\ env s1 s')).
  { destruct (d_Unmount d) as [f|] eqn:Hf; [by apply (Hun f eq_refl)|by apply fine_ret]. }
  intros _ s2 [Hg2 He2]. apply safe_modify. split; [|cbn; by rewrite (e_list _ _ He2), (e_list _ _ He1)].
  split; [|apply no_nonneg|apply Hg2]. apply MI_forget; [apply Hg2|]. change (m ∉ v_list s2). by rewrite (e_list _ _ He2), (e_list _ _ He1).
Qed.

Lemma VFS_Unmount_safe s mp : good no_credit s ->
  (forall m, unmount_find (v_list s) mp s = Ok (inr m) s -> m <> v_root s) ->
  safe (VFS_Unmount junk mp) s (fun r s' => good no_credit s' /\
    (r = 0 -> exists m, v_list s' = filter (fun y => y <> m) (v_list s) /\ m ∈ v_list s /\ cnt m (handles s) = 0)).
Proof.
  intros Hg Hroot. unfold VFS_Unmount. apply safe_bind, safe_get.
  sstep ltac:(apply safe_eq; by apply (unmount_find_spec no_credit)). intros o s0 [[-> Ho] Heq].
  destruct o as [e|m]; [apply safe_ret; by split|].
  destruct Ho as (Hm & x & Hx & H0). specialize (Hroot m Heq). destruct Hg as [Hi Hnn Hmax].
  pose proof (MI_remove _ _ _ _ _ m x Hi Hm Hroot Hx H0) as Hi1.
  destruct (mi_count _ _ _ _ _ _ Hi m Hm) as (x' & Hx' & Hc & Hs). rewrite Hx in Hx'. injection Hx' as <-.
  assert (cnt m (handles s) = 0) as Hc0.
  { unfold kids, no_credit in Hc. rewrite (proj2 (Z.eqb_neq m _)) in Hc by done. pose proof (cnt_nonneg m (handles s)). lia. }
  pose proof (mi_addr _ _ _ _ _ _ Hi m Hm) as Hma. apply safe_bind, safe_modify. set (s1 := upd_list _ s).
  sstep ltac:(apply (int_Unmount_safe s1 m x)).
  - split; [exact Hi1|apply nonneg_credit; [done|lia]|done].
  - intros Hnil. destruct (mi_root _ _ _ _ _ _ Hi) as [[Hl _]|(rest & y & Hl & _)]; [rewrite Hl in Hm; by apply not_elem_of_nil in Hm|].
    cbn in Hnil. rewrite Hl, filter_cons_True in Hnil by done. done.
  - cbn. rewrite list_elem_of_filter. tauto.
  - lia.
  - done.
  - done.
  - done.
  - intros _ s2 [Hg2 Hl2]. eapply safe_mono; [by apply UpdateMountFile_then|]. intros r s3 (-> & Hg3 & Hl3). split; [done|].
    intros _. exists m. by rewrite Hl3, Hl2.
Qed.
End mounting.

(** ** The system *)
Module VfsSys.

Inductive op :=
  | OOpen (path : list Z) (flags mode : Z)
  | OOpenChild (fd : Z) (name : list Z) (mode : Z)
  | OOpenInode (mount inode mode : Z)
  | OReopen (fd : Z) (path : list Z) (flags : Z)
  | OClose (fd : Z)
  | ODup (src dst : Z)
  | OSetFlags (fd mask value : Z)
  | ORead (fd length : Z)
  | OReadAt (fd offset length : Z)
  | OWrite (fd length : Z) (buf : list Z)
  | OWriteAt (fd offset length : Z) (buf : list Z)
  | OSeek (fd offset whence : Z)
  | OTruncate (fd size : Z)
  | OIOCtl (fd id : Z)
  | OReadDir (fuel : nat) (fd : Z)
  | OMkNod (path : list Z) (flags : Z)
  | OSymlink (name link : list Z)
  | OChDir (path : list Z)
  | OChRoot (path : list Z)
  | OFork
  | OSwitch (i : nat)
  | OExit (i : nat)
  | OSave (n : Z) (fds : option (list Z))
  | ORestore (n p : Z)
  | OFreeSaved (n p : Z)
  | OMount (device mp fs options : list Z)
  | OUnmount (mp : list Z).

Section sys.
Context {E : Type} {FS : Filesystems E}.
Context (junk : Z).

Definition ignore {A} (c : VM E A) : VM E unit := c;;; ret tt.

Definition perform (o : op) : VM E unit :=
  match o with
  | OOpen p f m => ignore (VFS_OpenEx junk p f m)
  | OOpenChild fd n m => ignore (VFS_OpenChild fd n m)
  | OOpenInode mt i m => ignore (VFS_OpenInode mt i m)
  | OReopen fd p f => ignore (VFS_Reopen junk fd p f)
  | OClose fd => VFS_Close fd
  | ODup a b => ignore (VFS_DuplicateFD a b)
  | OSetFlags fd a b => ignore (VFS_SetFDFlags fd a b)
  | ORead fd n => ignore (VFS_Read fd n)
  | OReadAt fd a n => ignore (VFS_ReadAt fd a n)
  | OWrite fd n b => ignore (VFS_Write fd n b)
  | OWriteAt fd a n b => ignore (VFS_WriteAt fd a n b)
  | OSeek fd a w => ignore (VFS_Seek fd a w)
  | OTruncate fd n => ignore (VFS_Truncate fd n)
  | OIOCtl fd i => ignore (VFS_IOCtl fd i)
  | OReadDir n fd => ignore (VFS_ReadDir n fd)
  | OMkNod p f => ignore (VFS_MkNod junk p f)
  | OSymlink n l => ignore (VFS_Symlink junk n l)
  | OChDir p => ignore (VFS_ChDir junk p)
  | OChRoot p => ignore (VFS_ChRoot junk p)
  | OFork => fork
  | OSwitch i => switch i
  | OExit i => VFS_CloseAllUserHandles i
  | OSave n fds => ignore (VFS_SaveHandles (MkHandle junk junk junk junk) n fds)
  | ORestore n p => VFS_RestoreHandles n p
  | OFreeSaved n p => VFS_FreeSavedHandles n p
  | OMount d m f o => ignore (VFS_Mount junk d m f o)
  | OUnmount m => ignore (VFS_Unmount junk m)
  end.

(** The operations covered: mounts directly in the root filesystem, which itself
    stays, and saved arrays within the size of the table. *)
Definition allowed (s : vfs E) (o : op) : Prop :=
  match o with
  | OMount d m f _ => mount_allowed junk s d m f
  | OUnmount mp => forall m, unmount_find (v_list s) mp s = Ok (inr m) s -> m <> v_root s
  | OSave n _ => n <= v_maxfd s
  | _ => True
  end.

Inductive reaches : vfs E -> list op -> vfs E -> Prop :=
  | reaches_nil s : reaches s [] s
  | reaches_cons s o ops s1 s2 : allowed s o -> perform o s = Ok tt s1 -> reaches s1 ops s2 -> reaches s (o :: ops) s2.

End sys.
End VfsSys.
Export VfsSys.

Section sys_inv.
Context {E : Type} {FS : Filesystems E} {QFS : QuietFS E} {FD : FineDrivers E}.
Context (junk : Z).
Implicit Types (s : vfs E).

Lemma fine_ignore {A} (c : VM E A) : fine c -> fine (ignore c).
Proof. intros Hc. unfold ignore. apply fine_bind; [done|]. intros. apply fine_ret. Qed.

Lemma safe_ignore {A} (c : VM E A) s (P : vfs E -> Prop) : safe c s (fun _ s' => P s') -> safe (ignore c) s (fun _ s' => P s').
Proof. intros Hc. unfold ignore. sstep ltac:(exact Hc). intros a s1 Hs. by apply safe_ret. Qed.

Lemma fine_keeps_good {A} (c : VM E A) s : fine c -> good no_credit s -> safe c s (fun _ s' => good no_credit s').
Proof. intros Hc Hg. eapply safe_mono; [by apply Hc|]. naive_solver. Qed.

Lemma perform_good o s : good no_credit s -> allowed junk s o -> safe (perform junk o) s (fun _ s' => good no_credit s').
Proof.
  intros Hg Ha. destruct o; cbn [perform allowed] in *;
    try (apply fine_keeps_good; [|done]; try apply fine_ignore;
         first [ apply finek_fine, fine_OpenEx | apply finek_fine, fine_OpenChild | apply fine_OpenInode | apply fine_Reopen
               | apply fine_Close | apply fine_DuplicateFD | apply fine_SetFDFlags | apply fine_Read | apply fine_ReadAt
               | apply fine_Write | apply fine_WriteAt | apply fine_Seek | apply fine_Truncate | apply fine_IOCtl
               | apply fine_ReadDir | apply fine_MkNod | apply fine_Symlink | apply fine_ChDir | apply fine_ChRoot
               | apply fine_fork | apply fine_switch | apply fine_CloseAll | apply fine_Restore | apply fine_FreeSaved ]; fail).
  - apply safe_ignore. eapply safe_mono; [by apply (fine_Save _ _ _ no_credit)|]. naive_solver.
  - apply safe_ignore. by apply VFS_Mount_safe.
  - apply safe_ignore. eapply safe_mono; [by apply VFS_Unmount_safe|]. naive_solver.
Qed.

Lemma reaches_good s ops s' : good no_credit s -> reaches junk s ops s' -> good no_credit s'.
Proof.
  intros Hg Hr. induction Hr as [|s o ops s1 s2 Ha Hp Hr IH]; [done|]. apply IH.
  pose proof (perform_good o s Hg Ha) as Hs. unfold safe in Hs. by rewrite Hp in Hs.
Qed.
End sys_inv.
