(* ===== verification/VfsRam.v ===== *)
(** The root filesystem, [KernelLand/Kernel/vfs/fs/root.c]: a pool of 64 files
    in memory, directories as linked lists through it, and its methods as the
    VFS calls them.  The second half gives it the meaning of a tree of named
    files: every method is the corresponding operation on the tree.

    The address of [RootFS_Files[i]], and of the node inside it, is [i + 1]. *)
From S2P Require Import Prelude CString VfsAcl VfsPath VfsState VfsOpen VfsIo VfsMount VfsInv.

Local Open Scope Z_scope.
Local Open Scope monad_scope.

Module RootFS.

Abbreviation MAX_FILES := 64 (only parsing).
Abbreviation MAX_FILE_SIZE := 10485760 (only parsing).
Abbreviation NAME_SIZE := 32 (only parsing).
Abbreviation gRootFS_DirType := 1 (only parsing).
Abbreviation gRootFS_FileType := 2 (only parsing).
Abbreviation gRootFS_Info := 1 (only parsing).

(** The union [Data]: a pointer to the first child, or the bytes behind the
    pointer realloc returned.  NULL is [FirstChild 0]. *)
Inductive ramdata := FirstChild (p : Z) | Bytes (b : list Z).
Record tRamFS_File := MkFile { r_Next : Z; r_Parent : Z; r_Name : list Z; r_Data : ramdata }.

Definition ramfs := list tRamFS_File.

Definition RootFS_DirACLs : list tVFS_ACL :=
  [MkACL 0 0 0 VFS_PERM_ALL; MkACL 1 0 0 VFS_PERM_ALL;
   MkACL 0 VFS_ACLENT_ALL 0 (Z.lxor VFS_PERM_ALL VFS_PERM_WRITE)].
Definition RootFS_FileACLs : list tVFS_ACL :=
  [MkACL 0 0 0 (Z.lxor VFS_PERM_ALL VFS_PERM_EXEC); MkACL 1 0 0 (Z.lxor VFS_PERM_ALL VFS_PERM_EXEC);
   MkACL 0 VFS_ACLENT_ALL 0 VFS_PERM_READ].

Section ops.
(** What memory from realloc holds. *)
Context (junk : Z).

Definition file_at (p : Z) : VM ramfs tRamFS_File := fun s =>
  match get (v_ext s) (p - 1) with Some f => Ok f s | None => Stop SFault end.
Definition put_file (p : Z) (f : tRamFS_File) : VM ramfs unit := fun s =>
  match set (v_ext s) (p - 1) f with Some l => Ok tt (upd_ext l s) | None => Stop SFault end.

Definition with_Next (x : Z) (f : tRamFS_File) := MkFile x (r_Parent f) (r_Name f) (r_Data f).
Definition with_Data (x : ramdata) (f : tRamFS_File) := MkFile (r_Next f) (r_Parent f) (r_Name f) x.

(** [Node->ImplPtr]. *)
Definition impl (Node : Z) : VM ramfs Z := do n <- node_at Node; ret (n_ImplPtr n).

(** [Data.FirstChild]; a file's buffer is no file of the pool. *)
Definition first_child (p : Z) : VM ramfs Z :=
  do f <- file_at p; match r_Data f with FirstChild c => ret c | Bytes _ => halt SFault end.
(** [Data.Bytes]. *)
Definition bytes (p : Z) : VM ramfs (list Z) :=
  do f <- file_at p;
  match r_Data f with FirstChild c => if c =? 0 then ret [] else halt SFault | Bytes b => ret b end.

Definition Root_InitDevice (Device : list Z) (Options : list (list Z)) : VM ramfs Z :=
  do c <- lift (strcmp Device [114; 111; 111; 116; 0]);
  if negb (c =? 0) then ret 0 else
  do f <- file_at 1;
  do name <- lift (wr (r_Name f) 0 [cSLASH; 0]);
  put_file 1 (MkFile (r_Next f) (r_Parent f) name (r_Data f));;;
  do n <- node_at 1;
  put_node 1 (MkNode gRootFS_DirType (n_Inode n) 1 (n_ReferenceCount n) (n_Size n) VFS_FFLAG_DIRECTORY
    (n_UID n) (n_GID n) 3 RootFS_DirACLs);;;
  ret 1.

Definition Root_GetByINode (RootNode Inode : Z) : VM ramfs Z :=
  if MAX_FILES <=? Inode then ret 0 else
  do f <- file_at (Inode + 1);
  do c <- lift (get (r_Name f) 0);
  if c =? 0 then ret 0 else ret (Inode + 1).

(** The first file of the pool with an empty name; 0 for NULL. *)
Fixpoint alloc_file (l : ramfs) (i : Z) : option Z :=
  match l with
  | [] => Some 0
  | f :: l' => c ← get (r_Name f) 0; if c =? 0 then Some (i + 1) else alloc_file l' (i + 1)
  end.
Definition Root_int_AllocFile : VM ramfs Z :=
  do s <- get_state;
  do p <- lift (alloc_file (v_ext s) 0);
  if p =? 0 then ret 0 else
  do n <- node_at p;
  put_node p (MkNode (n_Type n) (p - 1) (n_ImplPtr n) (n_ReferenceCount n) (n_Size n) (n_Flags n)
    (n_UID n) (n_GID n) (n_NumACLs n) (n_ACLs n));;;
  ret p.

(** The loops over the children.  A list through the pool without a cycle has at
    most MAX_FILES entries. *)
Fixpoint last_child (fuel : nat) (child prev : Z) (Name : list Z) : VM ramfs (option Z) :=
  if child =? 0 then ret (Some prev) else
  match fuel with
  | O => halt SLoop
  | S fuel' =>
      do f <- file_at child;
      do c <- lift (strcmp (r_Name f) Name);
      if c =? 0 then ret None else last_child fuel' (r_Next f) child Name
  end.

Definition Root_MkNod (Node : Z) (Name : list Z) (Flags : Z) : VM ramfs Z :=
  do parent <- impl Node;
  do n <- lift (strlen Name);
  if NAME_SIZE <? n + 1 then set_errno EINVAL;;; ret 0 else
  do first <- first_child parent;
  do prev <- last_child (Z.to_nat MAX_FILES) first 0 Name;
  match prev with
  | None => set_errno EEXIST;;; ret 0
  | Some prev =>
      do child <- Root_int_AllocFile;
      do f <- file_at child;
      do name <- lift (strcpy (r_Name f) Name);
      put_file child (MkFile 0 parent name.1 (FirstChild 0));;;
      do n <- node_at child;
      let dir := flag Flags VFS_FFLAG_DIRECTORY in
      put_node child (MkNode (if dir then gRootFS_DirType else gRootFS_FileType) (n_Inode n) child
        (n_ReferenceCount n) 0 Flags (n_UID n) (n_GID n) 3
        (if dir || flag Flags VFS_FFLAG_SYMLINK then RootFS_DirACLs else RootFS_FileACLs));;;
      (if prev =? 0 then do f <- file_at parent; put_file parent (with_Data (FirstChild child) f)
       else do f <- file_at prev; put_file prev (with_Next child f));;;
      do n <- node_at parent;
      put_node parent (MkNode (n_Type n) (n_Inode n) (n_ImplPtr n) (n_ReferenceCount n) (u64 (n_Size n + 1))
        (n_Flags n) (n_UID n) (n_GID n) (n_NumACLs n) (n_ACLs n));;;
      ret child
  end.

Fixpoint find_child (fuel : nat) (child : Z) (Name : list Z) : VM ramfs Z :=
  if child =? 0 then ret 0 else
  match fuel with
  | O => halt SLoop
  | S fuel' =>
      do f <- file_at child;
      do c <- lift (strcmp (r_Name f) Name);
      if c =? 0 then ret child else find_child fuel' (r_Next f) Name
  end.

Definition Root_FindDir (Node : Z) (Name : list Z) (Flags : Z) : VM ramfs Z :=
  do parent <- impl Node;
  do first <- first_child parent;
  find_child (Z.to_nat MAX_FILES) first Name.

(** [for( ; child && Pos--; child = child->Next )] *)
Fixpoint nth_child (fuel : nat) (child Pos : Z) : VM ramfs Z :=
  if child =? 0 then ret 0 else
  if Pos =? 0 then ret child else
  match fuel with
  | O => halt SLoop
  | S fuel' => do f <- file_at child; nth_child fuel' (r_Next f) (i32 (Pos - 1))
  end.

(** The buffer of FILENAME_MAX bytes holds more than a name: strncpy stores the
    name and its terminator. *)
Definition Root_ReadDir (Node Pos : Z) : VM ramfs (Z * list Z) :=
  do parent <- impl Node;
  do first <- first_child parent;
  do child <- nth_child (Z.to_nat MAX_FILES) first Pos;
  if child =? 0 then ret (- ENOENT, []) else
  do f <- file_at child;
  do name <- lift (str_of (r_Name f));
  ret (0, name ++ [0]).

Definition Root_Read (Node Offset Length Flags : Z) : VM ramfs (Z * list Z) :=
  do n <- node_at Node;
  if n_Size n <? Offset then ret (0, []) else
  let l1 := if n_Size n <? Length then u32 (n_Size n) else Length in
  let l2 := if n_Size n <? u64 (Offset + l1) then u32 (n_Size n - Offset) else l1 in
  do b <- bytes (n_ImplPtr n);
  do d <- lift (rd b Offset l2);
  ret (l2, d).

(** The end of Root_Write, once the buffer is as long as [Offset + Length]. *)
Definition write_bytes (file Offset Length : Z) (Buffer : list Z) : VM ramfs Z :=
  do b <- bytes file;
  do d <- lift (rd Buffer 0 Length);
  do b <- lift (wr b Offset d);
  do f <- file_at file;
  (if Length =? 0 then ret tt else put_file file (with_Data (Bytes b) f));;;
  ret Length.

Definition Root_Write (Node Offset Length : Z) (Buffer : list Z) (Flags : Z) : VM ramfs Z :=
  do n <- node_at Node;
  let file := n_ImplPtr n in
  if n_Size n <? Offset then ret SIZE_ERR else
  let cut := MAX_FILE_SIZE <? u64 (Offset + Length) in
  let Length := if cut then u32 (MAX_FILE_SIZE - Offset) else Length in
  (if cut && negb (Length <=? MAX_FILE_SIZE) then halt SPanic else ret tt);;;
  if n_Size n <? u64 (Offset + Length) then
    let newsize := u32 (Offset + Length) in
    do b <- bytes file;
    do ok <- alloc_ok;
    if negb (ok : bool) then ret SIZE_ERR else
    do f <- file_at file;
    put_file file (with_Data (Bytes (take (Z.to_nat newsize) b ++ replicate (Z.to_nat newsize - length b) junk)) f);;;
    put_node Node (MkNode (n_Type n) (n_Inode n) (n_ImplPtr n) (n_ReferenceCount n) (u64 (Offset + Length))
      (n_Flags n) (n_UID n) (n_GID n) (n_NumACLs n) (n_ACLs n));;;
    write_bytes file Offset Length Buffer
  else write_bytes file Offset Length Buffer.

End ops.

(** [gRootFS_DirType], [gRootFS_FileType] and [gRootFS_Info]. *)
Definition dir_type : tVFS_NodeType ramfs :=
  MkType 0 None None None None None None (Some Root_FindDir) (Some Root_ReadDir) (Some Root_MkNod).
Definition file_type (junk : Z) : tVFS_NodeType ramfs :=
  MkType 0 None None None (Some Root_Read) (Some (Root_Write junk)) None None None None.
Definition rootfs_info : tVFS_Driver ramfs :=
  MkDriver [114; 111; 111; 116; 102; 115; 0] None Root_InitDevice None (Some Root_GetByINode).

Definition rootfs (junk : Z) : Filesystems ramfs := {|
  types t := if t =? gRootFS_DirType then Some dir_type else
             if t =? gRootFS_FileType then Some (file_type junk) else None;
  fsdrv d := if d =? gRootFS_Info then Some rootfs_info else None |}.

End RootFS.
Export RootFS.

(** ** The tree

    What the pool means: to every used file its flags and, for a directory, the
    names and addresses of its entries in order, for another file its bytes. *)
Module RootTree.

Inductive adata := ADir (l : list (list Z * Z)) | AFile (b : list Z).
Record anode := MkA { a_flags : Z; a_data : adata }.
Abbreviation tree := (gmap Z anode) (only parsing).

(** The entry with a name; 0 if there is none. *)
Fixpoint entry (l : list (list Z * Z)) (name : list Z) : Z :=
  match l with
  | [] => 0
  | (n, c) :: l' => if decide (n = name) then c else entry l' name
  end.

(** The bytes with [d] written at [o]. *)
Definition splice (b : list Z) (o : Z) (d : list Z) : list Z :=
  take (Z.to_nat o) b ++ d ++ drop (Z.to_nat o + length d) b.

Definition new_node (Flags : Z) : anode :=
  MkA Flags (if flag Flags VFS_FFLAG_DIRECTORY then ADir [] else AFile []).

(** The methods of the filesystem as relations between trees: the operation, its
    result and the tree after it.  [ok] says whether memory is available. *)
Inductive rop :=
  | RFind (dir : Z) (name : list Z)
  | RMkNod (dir : Z) (name : list Z) (Flags : Z)
  | RReadDir (dir : Z) (Pos : Z)
  | RRead (file Offset Length : Z)
  | RWrite (file Offset : Z) (data : list Z).
Inductive rres := VNode (p : Z) | VData (n : Z) (b : list Z) | VLen (n : Z).

Inductive tstep (a : tree) : bool -> rop -> rres -> tree -> Prop :=
  | TFind ok d fl l name : a !! d = Some (MkA fl (ADir l)) ->
      tstep a ok (RFind d name) (VNode (entry l name)) a
  | TExists ok d fl l name Flags : a !! d = Some (MkA fl (ADir l)) -> len name < NAME_SIZE -> entry l name <> 0 ->
      tstep a ok (RMkNod d name Flags) (VNode 0) a
  | TTooLong ok d name Flags : NAME_SIZE <= len name -> tstep a ok (RMkNod d name Flags) (VNode 0) a
  | TMkNod ok d fl l name Flags c : a !! d = Some (MkA fl (ADir l)) -> len name < NAME_SIZE -> entry l name = 0 ->
      a !! c = None -> 0 < c <= MAX_FILES ->
      tstep a ok (RMkNod d name Flags) (VNode c)
        (<[d := MkA fl (ADir (l ++ [(name, c)]))]> (<[c := new_node Flags]> a))
  | TReadDir ok d fl l Pos name c : a !! d = Some (MkA fl (ADir l)) -> l !! Z.to_nat Pos = Some (name, c) ->
      tstep a ok (RReadDir d Pos) (VData 0 (name ++ [0])) a
  | TReadEnd ok d fl l Pos : a !! d = Some (MkA fl (ADir l)) -> l !! Z.to_nat Pos = None ->
      tstep a ok (RReadDir d Pos) (VData (- ENOENT) []) a
  | TRead ok f fl b o n : a !! f = Some (MkA fl (AFile b)) ->
      tstep a ok (RRead f o n) (VData (len (sub o n b)) (sub o n b)) a
  | TWrite ok f fl b o d : a !! f = Some (MkA fl (AFile b)) -> o <= len b -> o + len d <= MAX_FILE_SIZE ->
      ok = true \/ o + len d <= len b ->
      tstep a ok (RWrite f o d) (VLen (len d)) (<[f := MkA fl (AFile (splice b o d))]> a)
  | TCut ok f fl b o d : a !! f = Some (MkA fl (AFile b)) -> o <= len b -> MAX_FILE_SIZE < o + len d ->
      ok = true \/ MAX_FILE_SIZE <= len b ->
      tstep a ok (RWrite f o d) (VLen (MAX_FILE_SIZE - o))
        (<[f := MkA fl (AFile (splice b o (take (Z.to_nat (MAX_FILE_SIZE - o)) d)))]> a)
  | THole ok f fl b o d : a !! f = Some (MkA fl (AFile b)) -> len b < o ->
      tstep a ok (RWrite f o d) (VLen SIZE_ERR) a
  | TNoMem f fl b o d : a !! f = Some (MkA fl (AFile b)) -> o <= len b -> len b < Z.min (o + len d) MAX_FILE_SIZE ->
      tstep a false (RWrite f o d) (VLen SIZE_ERR) a.

(** The calls that perform an operation. *)
Definition run (junk : Z) (o : rop) : VM ramfs rres :=
  match o with
  | RFind d name => do p <- Root_FindDir d (name ++ [0]) 0; ret (VNode p)
  | RMkNod d name Flags => do p <- Root_MkNod d (name ++ [0]) Flags; ret (VNode p)
  | RReadDir d Pos => do x <- Root_ReadDir d Pos; ret (VData x.1 x.2)
  | RRead f o n => do x <- Root_Read f o n 0; ret (VData x.1 x.2)
  | RWrite f o d => do n <- Root_Write junk f o (len d) d 0; ret (VLen n)
  end.

End RootTree.
Export RootTree.

(** ** The pool as a tree *)
Section pool.
Implicit Types (ext : ramfs) (l : list (list Z * Z)) (a : tree) (s : vfs ramfs).

(** [l] is the list of children that starts at [c]. *)
Fixpoint dir_list ext (par c : Z) l : Prop :=
  match l with
  | [] => c = 0
  | (nm, k) :: l' => c = k /\ 0 < k <= MAX_FILES /\ exists f, get ext (k - 1) = Some f /\
      str_of (r_Name f) = Some nm /\ r_Parent f = par /\ dir_list ext par (r_Next f) l'
  end.

Definition asize (x : anode) : Z := match a_data x with ADir l => len l | AFile b => len b end.
Definition atype (x : anode) : Z := match a_data x with ADir _ => gRootFS_DirType | AFile _ => gRootFS_FileType end.
Definition node_is (n : tVFS_Node) (p : Z) (x : anode) : Prop :=
  n_ImplPtr n = p /\ n_Type n = atype x /\ n_Size n = asize x /\ n_Flags n = a_flags x.
Definition file_is ext (p : Z) (f : tRamFS_File) (x : anode) : Prop :=
  match a_data x with
  | ADir l => exists c, r_Data f = FirstChild c /\ dir_list ext p c l
  | AFile b => len b <= MAX_FILE_SIZE /\ (r_Data f = Bytes b \/ b = [] /\ r_Data f = FirstChild 0)
  end.

Record tree_of (nodes : gmap Z tVFS_Node) ext a : Prop := {
  t_len : len ext = MAX_FILES;
  t_nodes : forall p, 0 < p <= MAX_FILES -> is_Some (nodes !! p);
  t_dom : forall p x, a !! p = Some x -> 0 < p <= MAX_FILES;
  t_used : forall p f, get ext (p - 1) = Some f -> len (r_Name f) = NAME_SIZE /\
    exists c, get (r_Name f) 0 = Some c /\ (c = 0 <-> a !! p = None);
  t_node : forall p x, a !! p = Some x -> exists f n, get ext (p - 1) = Some f /\ nodes !! p = Some n /\
    node_is n p x /\ file_is ext p f x;
  t_kids : forall p fl l, a !! p = Some (MkA fl (ADir l)) -> NoDup l.*1 /\ forall c, c ∈ l.*2 -> is_Some (a !! c) }.

Definition is_tree s a : Prop := tree_of (v_nodes s) (v_ext s) a.

(** *** Lists of children *)
Lemma entry_in l name : entry l name <> 0 -> (name, entry l name) ∈ l.
Proof.
  induction l as [|[n c] l IH]; cbn [entry]; [done|]. case_decide; [subst; intros; by left|].
  intros H'. right. by apply IH.
Qed.

Lemma dir_list_name ext par l : forall c nm k, dir_list ext par c l -> (nm, k) ∈ l ->
  0 < k <= MAX_FILES /\ exists f, get ext (k - 1) = Some f /\ str_of (r_Name f) = Some nm /\ r_Parent f = par.
Proof.
  induction l as [|[n d] l IH]; intros c nm k; [by intros _ ?%not_elem_of_nil|]. cbn [dir_list].
  intros (-> & Hr & f & Hf & Hn & Hp & Hl) [Heq|Hin]%elem_of_cons.
  - simplify_eq. split; [done|]. by exists f.
  - by eapply IH.
Qed.

(** The same children: a change that keeps their names, parents and links. *)
Lemma dir_list_frame ext ext' par l : forall c, dir_list ext par c l ->
  (forall k f, k ∈ l.*2 -> get ext (k - 1) = Some f -> exists f', get ext' (k - 1) = Some f' /\
     r_Name f' = r_Name f /\ r_Parent f' = r_Parent f /\ r_Next f' = r_Next f) ->
  dir_list ext' par c l.
Proof.
  induction l as [|[n d] l IH]; intros c; cbn [dir_list]; [done|]. intros (-> & Hr & f & Hf & Hn & Hp & Hl) Hfr.
  destruct (Hfr d f) as (f' & Hf' & E1 & E2 & E3); [by left|done|]. split; [done|]. split; [done|]. exists f'.
  rewrite E1, E2, E3. split_and!; try done. apply IH; [done|]. intros k g Hk. apply Hfr. by right.
Qed.

Lemma dir_list_distinct ext par l : forall c, dir_list ext par c l -> NoDup l.*1 -> NoDup l.*2.
Proof.
  induction l as [|[n d] l IH]; intros c; [intros; constructor|]. cbn [dir_list fmap list_fmap fst snd].
  intros (-> & Hr & f & Hf & Hn & Hp & Hl) [Hni Hnd]%NoDup_cons. apply NoDup_cons. split; [|by eapply IH].
  intros ([nm k] & Hk & Hin)%list_elem_of_fmap. cbn in Hk. subst k. destruct (dir_list_name _ _ _ _ _ _ Hl Hin) as (_ & f' & Hf' & Hn' & _).
  rewrite Hf in Hf'. injection Hf' as <-. rewrite Hn in Hn'. injection Hn' as <-. apply Hni. apply list_elem_of_fmap. by exists (n, d).
Qed.

Lemma dir_list_short ext par l c : dir_list ext par c l -> NoDup l.*1 -> (length l <= 64)%nat.
Proof.
  intros Hl Hnd. rewrite <- (length_fmap snd l).
  assert (l.*2 ⊆+ (Z.of_nat <$> seq 1 64)) as Hsub.
  { apply NoDup_submseteq; [by eapply dir_list_distinct|]. intros k ([nm k'] & -> & Hin)%list_elem_of_fmap.
    destruct (dir_list_name _ _ _ _ _ _ Hl Hin) as (Hr & _). apply list_elem_of_fmap. exists (Z.to_nat k').
    split; [cbn; lia|]. apply elem_of_seq. cbn. lia. }
  apply submseteq_length in Hsub. rewrite (length_fmap Z.of_nat), length_seq in Hsub. exact Hsub.
Qed.

Lemma compare_name f nm name : str_of (r_Name f) = Some nm -> Forall (fun c => c <> 0) name ->
  exists v, strcmp (r_Name f) (name ++ [0]) = Some v /\ (v =? 0) = bool_decide (nm = name).
Proof.
  intros Hn Hs. destruct (strcmp_str _ _ _ _ Hn (str_of_app name [] Hs)) as (v & Hv & Hiff). exists v. split; [done|].
  case_bool_decide; [apply Z.eqb_eq|apply Z.eqb_neq]; tauto.
Qed.

(** *** The loops *)
Lemma file_ok p f s : get (v_ext s) (p - 1) = Some f -> file_at p s = Ok f s.
Proof. intros Hf. unfold file_at. by rewrite Hf. Qed.

Lemma find_child_spec par name l : Forall (fun c => c <> 0) name -> forall fuel c s, dir_list (v_ext s) par c l ->
  (length l <= fuel)%nat -> find_child fuel c (name ++ [0]) s = Ok (entry l name) s.
Proof.
  intros Hs. induction l as [|[n d] l IH]; intros fuel c s; cbn [dir_list].
  - intros -> _. by destruct fuel.
  - intros (-> & Hr & f & Hf & Hn & Hp & Hl) Hfuel. destruct fuel as [|fuel]; [simpl in Hfuel; lia|]. cbn [find_child].
    rewrite (proj2 (Z.eqb_neq d 0)) by lia. unfold bind at 1. rewrite (file_ok _ _ _ Hf).
    destruct (compare_name f n name Hn Hs) as (v & Hv & Hb). rewrite Hv. cbn [lift]. rewrite bind_ret, Hb. cbn [entry].
    case_bool_decide; case_decide; try done. apply IH; [done|simpl in Hfuel; lia].
Qed.

Lemma last_from {A} (l : list A) : forall d x, List.last (d :: l) x = List.last l d.
Proof. induction l as [|e l IH]; intros d x; [done|]. change (List.last (e :: l) x = List.last (e :: l) d). by rewrite !IH. Qed.

Lemma last_child_spec par name l : Forall (fun c => c <> 0) name -> forall fuel c prev s, dir_list (v_ext s) par c l ->
  (length l <= fuel)%nat ->
  last_child fuel c prev (name ++ [0]) s = Ok (if entry l name =? 0 then Some (List.last l.*2 prev) else None) s.
Proof.
  intros Hs. induction l as [|[n d] l IH]; intros fuel c prev s; cbn [dir_list].
  - intros -> _. by destruct fuel.
  - intros (-> & Hr & f & Hf & Hn & Hp & Hl) Hfuel. destruct fuel as [|fuel]; [simpl in Hfuel; lia|]. cbn [last_child].
    rewrite (proj2 (Z.eqb_neq d 0)) by lia. unfold bind at 1. rewrite (file_ok _ _ _ Hf).
    destruct (compare_name f n name Hn Hs) as (v & Hv & Hb). rewrite Hv. cbn [lift]. rewrite bind_ret, Hb. cbn [entry].
    case_bool_decide; case_decide; try done. { by rewrite (proj2 (Z.eqb_neq d 0)) by lia. }
    rewrite IH by (done || simpl in Hfuel; lia). f_equal. case_match; [|done]. f_equal.
    symmetry. apply last_from.
Qed.

Lemma nth_child_spec par l : forall fuel c Pos s, dir_list (v_ext s) par c l ->
  (length l <= fuel)%nat -> 0 <= Pos < 2147483648 ->
  nth_child fuel c Pos s = Ok (default 0 (snd <$> l !! Z.to_nat Pos)) s.
Proof.
  induction l as [|[n d] l IH]; intros fuel c Pos s; cbn [dir_list].
  - intros -> _ _. by destruct fuel.
  - intros (-> & Hr & f & Hf & Hn & Hp & Hl) Hfuel HP. destruct fuel as [|fuel]; [simpl in Hfuel; lia|]. cbn [nth_child].
    rewrite (proj2 (Z.eqb_neq d 0)) by lia. destruct (Z.eqb_spec Pos 0) as [->|Hne]; [done|].
    unfold bind at 1. rewrite (file_ok _ _ _ Hf), i32_small by lia. rewrite IH by (done || simpl in Hfuel; lia).
    do 2 f_equal. replace (Z.to_nat Pos) with (S (Z.to_nat (Pos - 1))) by lia. done.
Qed.

(** *** Directories *)
Lemma tree_dir s a d fl l : is_tree s a -> a !! d = Some (MkA fl (ADir l)) ->
  exists c, impl d s = Ok d s /\ first_child d s = Ok c s /\ dir_list (v_ext s) d c l /\ (length l <= 64)%nat /\ NoDup l.*1.
Proof.
  intros Ht Hd. destruct (t_node _ _ _ Ht _ _ Hd) as (f & n & Hf & Hn & (Hi & _) & (c & Hc & Hl)).
  destruct (t_kids _ _ _ Ht _ _ _ Hd) as [Hnd _]. exists c. unfold impl, first_child, bind, node_at.
  rewrite Hn, (file_ok _ _ _ Hf), Hc, Hi. split_and!; try done. by eapply dir_list_short.
Qed.

Lemma FindDir_spec s a d fl l name : is_tree s a -> a !! d = Some (MkA fl (ADir l)) ->
  Forall (fun c => c <> 0) name -> Root_FindDir d (name ++ [0]) 0 s = Ok (entry l name) s.
Proof.
  intros Ht Hd Hs. destruct (tree_dir _ _ _ _ _ Ht Hd) as (c & Hi & Hc & Hl & Hlen & _). unfold Root_FindDir.
  rewrite (bind_Ok _ _ _ _ _ Hi), (bind_Ok _ _ _ _ _ Hc). by eapply find_child_spec.
Qed.

Lemma ReadDir_spec s a d fl l Pos : is_tree s a -> a !! d = Some (MkA fl (ADir l)) -> 0 <= Pos < 2147483648 ->
  Root_ReadDir d Pos s = Ok (match l !! Z.to_nat Pos with Some (n, _) => (0, n ++ [0]) | None => (- ENOENT, []) end) s.
Proof.
  intros Ht Hd HP. destruct (tree_dir _ _ _ _ _ Ht Hd) as (c & Hi & Hc & Hl & Hlen & _). unfold Root_ReadDir.
  rewrite (bind_Ok _ _ _ _ _ Hi), (bind_Ok _ _ _ _ _ Hc), (bind_Ok _ _ _ _ _ (nth_child_spec _ _ _ _ _ _ Hl Hlen HP)).
  destruct (l !! Z.to_nat Pos) as [[n k]|] eqn:Hk; [|done]. cbn [fmap option_fmap option_map snd default id].
  apply list_elem_of_lookup_2 in Hk. destruct (dir_list_name _ _ _ _ _ _ Hl Hk) as (Hr & f & Hf & Hn & _).
  rewrite (proj2 (Z.eqb_neq k 0)) by lia. unfold bind at 1. rewrite (file_ok _ _ _ Hf), Hn. done.
Qed.

(** *** Making files *)
Lemma alloc_file_spec ext : (forall i f, get ext i = Some f -> exists c, get (r_Name f) 0 = Some c) -> forall i, 0 <= i ->
  exists p, alloc_file ext i = Some p /\
    ((p = 0 /\ forall j f, get ext j = Some f -> get (r_Name f) 0 <> Some 0) \/
     (exists f, i < p /\ get ext (p - i - 1) = Some f /\ get (r_Name f) 0 = Some 0)).
Proof.
  induction ext as [|f ext IH]; intros Hn i Hi; cbn [alloc_file].
  { exists 0. split; [done|]. left. split; [done|]. intros j f. unfold get. case_match; [|done]. by rewrite lookup_nil. }
  assert (forall j, 0 <= j -> get (f :: ext) (j + 1) = get ext j) as Hsh.
  { intros j Hj. unfold get. rewrite !(proj2 (Z.leb_le 0 _)) by lia. by replace (Z.to_nat (j + 1)) with (S (Z.to_nat j)) by lia. }
  destruct (Hn 0 f eq_refl) as [c Hc]. rewrite Hc. cbn [mbind option_bind]. destruct (Z.eqb_spec c 0) as [->|Hne].
  { exists (i + 1). split; [done|]. right. exists f. split_and!; [lia| |done]. by replace (i + 1 - i - 1) with 0 by lia. }
  destruct (IH) with (i := i + 1) as (p & Hp & Hcase); [|lia|].
  { intros j g Hg. apply (Hn (j + 1)). rewrite Hsh; [done|]. unfold get in Hg. by destruct (Z.leb_spec 0 j). }
  exists p. split; [done|]. destruct Hcase as [[-> Hall]|(g & Hlt & Hg & H0)].
  - left. split; [done|]. intros j g Hg. destruct (Z.eqb_spec j 0) as [->|]; [injection Hg as <-; congruence|].
    assert (0 <= j) by (unfold get in Hg; by destruct (Z.leb_spec 0 j)). replace j with ((j - 1) + 1) in Hg by lia.
    rewrite Hsh in Hg by lia. by eapply Hall.
  - right. exists g. split_and!; [lia| |done]. replace (p - i - 1) with ((p - (i + 1) - 1) + 1) by lia. by rewrite Hsh by lia.
Qed.

(** While files are left one is found. *)
Lemma free_file s a : is_tree s a -> (size a < 64)%nat -> exists c f,
  alloc_file (v_ext s) 0 = Some c /\ 0 < c <= MAX_FILES /\ get (v_ext s) (c - 1) = Some f /\ a !! c = None.
Proof.
  intros Ht Hsz. destruct (alloc_file_spec (v_ext s)) with (i := 0) as (p & Hp & Hcase); [|lia|].
  { intros i f Hf. destruct (t_used _ _ _ Ht (i + 1) f) as (_ & c & Hc & _); [by replace (i + 1 - 1) with i by lia|by exists c]. }
  destruct Hcase as [[-> Hall]|(f & Hlt & Hf & H0)].
  - exfalso. assert ((list_to_set (Z.of_nat <$> seq 1 64) : gset Z) ⊆ dom a) as Hsub.
    { intros k. rewrite elem_of_list_to_set. intros (j & -> & Hj)%list_elem_of_fmap. apply elem_of_seq in Hj. apply elem_of_dom.
      destruct (get_ok (v_ext s) (Z.of_nat j - 1)) as [f Hf]; [rewrite (t_len _ _ _ Ht); lia|].
      destruct (t_used _ _ _ Ht _ _ Hf) as (_ & c & Hc & Hiff). destruct (a !! Z.of_nat j) eqn:Hj'; [done|].
      exfalso. apply (Hall _ _ Hf). rewrite Hc. f_equal. by apply Hiff. }
    apply subseteq_size in Hsub. rewrite size_dom, size_list_to_set in Hsub by (apply NoDup_fmap; [apply _|apply NoDup_seq]).
    rewrite length_fmap, length_seq in Hsub. lia.
  - replace (p - 0 - 1) with (p - 1) in Hf by lia. exists p, f. split; [done|].
    assert (p <= MAX_FILES) as Hle.
    { pose proof (t_len _ _ _ Ht) as Hlen. unfold get in Hf. rewrite (proj2 (Z.leb_le _ _)) in Hf by lia. apply lookup_lt_Some in Hf. unfold len in Hlen. lia. }
    split_and!; [lia|lia|done|]. destruct (t_used _ _ _ Ht _ _ Hf) as (_ & c & Hc & Hiff). apply Hiff. congruence.
Qed.

Lemma put_file_ok s p f : len (v_ext s) = MAX_FILES -> 0 < p <= MAX_FILES -> exists ext,
  put_file p f s = Ok tt (upd_ext ext s) /\ len ext = MAX_FILES /\
  forall k, get ext (k - 1) = if k =? p then Some f else get (v_ext s) (k - 1).
Proof.
  intros Ht Hp. destruct (set_ok (v_ext s) (p - 1) f) as (ext & He & Hlen & Hget); [lia|]. exists ext. unfold put_file. rewrite He.
  split_and!; [done|lia|]. intros k. rewrite Hget. by replace (k - 1 =? p - 1) with (k =? p) by (destruct (Z.eqb_spec k p), (Z.eqb_spec (k - 1) (p - 1)); lia).
Qed.

Lemma last_kid ext par l c : dir_list ext par c l -> (List.last l.*2 0 = 0 /\ l = []) \/ (0 < List.last l.*2 0 /\ List.last l.*2 0 ∈ l.*2).
Proof.
  intros Hl. destruct (decide (l = [])) as [->|Hne]; [by left|right].
  destruct (List.exists_last Hne) as (l' & [n k] & ->). rewrite fmap_app. cbn [fmap list_fmap snd]. rewrite List.last_last.
  destruct (dir_list_name _ _ _ _ n k Hl) as (Hr & _); [apply elem_of_app; right; by left|]. split; [lia|].
  apply elem_of_app. right. by left.
Qed.

(** Appending a child. *)
Lemma dir_list_snoc ext ext' par nm k fk l : forall c, dir_list ext par c l -> NoDup l.*2 ->
  (forall j f, j ∈ l.*2 -> get ext (j - 1) = Some f -> exists f', get ext' (j - 1) = Some f' /\ r_Name f' = r_Name f /\
     r_Parent f' = r_Parent f /\ r_Next f' = if j =? List.last l.*2 0 then k else r_Next f) ->
  0 < k <= MAX_FILES -> get ext' (k - 1) = Some fk -> str_of (r_Name fk) = Some nm -> r_Parent fk = par -> r_Next fk = 0 ->
  dir_list ext' par (match l with [] => k | _ => c end) (l ++ [(nm, k)]).
Proof.
  induction l as [|[n d] l IH]; intros c; cbn [dir_list app].
  { intros _ _ _ Hk Hfk Hn Hp H0. split; [done|]. split; [done|]. by exists fk. }
  intros (-> & Hr & f & Hf & Hn & Hp & Hl) Hnd Hfr Hk Hfk Hnk Hpk H0. split; [done|]. split; [done|].
  cbn [fmap list_fmap snd] in Hnd, Hfr. apply NoDup_cons in Hnd as [Hni Hnd].
  destruct (Hfr d f) as (f' & Hf' & E1 & E2 & E3); [by left|done|]. exists f'. rewrite E1, E2. split_and!; try done.
  assert (r_Next f' = match l with [] => k | _ => r_Next f end) as ->.
  { rewrite E3, last_from. destruct l as [|[n' d'] l]; [by rewrite Z.eqb_refl|].
    rewrite (proj2 (Z.eqb_neq _ _)); [done|]. intros Heq. apply Hni. rewrite Heq. cbn [fmap list_fmap snd].
    destruct (last_kid _ _ _ _ Hl) as [[_ ?]|[_ Hin]]; [done|]. cbn [fmap list_fmap snd] in Hin. rewrite last_from in Hin |- *. exact Hin. }
  apply IH; try done. intros j g Hj Hg. destruct (Hfr j g) as (g' & Hg' & F1 & F2 & F3); [by right|done|]. exists g'.
  split_and!; try done. rewrite F3, last_from. destruct l as [|[n' d'] l]; [by apply not_elem_of_nil in Hj|].
  cbn [fmap list_fmap snd]. by rewrite !last_from.
Qed.

(** What changes when [c] becomes the last child of [d]: its own file and node, the
    link to it, and the directory's size. *)
Record grown (nodes : gmap Z tVFS_Node) ext (d c : Z) (nm : list Z) (x : anode) (prev : Z)
    (nodes' : gmap Z tVFS_Node) ext' : Prop := {
  gr_len : len ext' = MAX_FILES;
  gr_file : exists fc, get ext' (c - 1) = Some fc /\ str_of (r_Name fc) = Some nm /\ len (r_Name fc) = NAME_SIZE /\
    r_Parent fc = d /\ r_Next fc = 0 /\ r_Data fc = FirstChild 0;
  gr_other : forall k f, k <> c -> get ext (k - 1) = Some f -> exists f', get ext' (k - 1) = Some f' /\
    r_Name f' = r_Name f /\ r_Parent f' = r_Parent f /\ r_Next f' = (if k =? prev then c else r_Next f) /\
    r_Data f' = (if (prev =? 0) && (k =? d) then FirstChild c else r_Data f);
  gr_back : forall k f', k <> c -> get ext' (k - 1) = Some f' -> is_Some (get ext (k - 1));
  gr_node : exists n, nodes' !! c = Some n /\ node_is n c x;
  gr_dir : exists n n', nodes !! d = Some n /\ nodes' !! d = Some n' /\ n_ImplPtr n' = n_ImplPtr n /\ n_Type n' = n_Type n /\
    n_Flags n' = n_Flags n /\ n_Size n' = u64 (n_Size n + 1);
  gr_same : forall k, k <> c -> k <> d -> nodes' !! k = nodes !! k }.

Lemma entry_none ext par l nm : forall c, dir_list ext par c l -> entry l nm = 0 -> nm ∉ l.*1.
Proof.
  induction l as [|[m j] l IH]; intros c; cbn [dir_list entry]; [intros _ _; apply not_elem_of_nil|].
  intros (-> & Hr & f & _ & _ & _ & Hl). case_decide; [lia|]. intros Hent. cbn [fmap list_fmap fst].
  apply not_elem_of_cons. split; [done|]. by eapply IH.
Qed.
End pool.

Section grown.
Context (nodes nodes' : gmap Z tVFS_Node) (ext ext' : ramfs) (a : tree) (d fl c Flags prev : Z) (l : list (list Z * Z)) (nm : list Z).
Hypothesis Ht : tree_of nodes ext a.
Hypothesis Hd : a !! d = Some (MkA fl (ADir l)).
Hypothesis Hc : a !! c = None.
Hypothesis Hcr : 0 < c <= MAX_FILES.
Hypothesis Hnm : nm <> [].
Hypothesis Hent : entry l nm = 0.
Hypothesis Hprev : prev = List.last l.*2 0.
Hypothesis Hg : grown nodes ext d c nm (new_node Flags) prev nodes' ext'.

Let a' : tree := <[d := MkA fl (ADir (l ++ [(nm, c)]))]> (<[c := new_node Flags]> a).

Lemma grown_apart : d <> c.
Proof. congruence. Qed.

Lemma grown_at k : a' !! k = if decide (k = d) then Some (MkA fl (ADir (l ++ [(nm, c)])))
  else if decide (k = c) then Some (new_node Flags) else a !! k.
Proof.
  unfold a'. destruct (decide (k = d)) as [->|]; [by rewrite lookup_insert_eq|]. rewrite lookup_insert_ne by done.
  destruct (decide (k = c)) as [->|]; [by rewrite lookup_insert_eq|]. by rewrite lookup_insert_ne.
Qed.

Lemma grown_has k : is_Some (a !! k) -> is_Some (a' !! k).
Proof. rewrite grown_at. by repeat case_decide. Qed.

Lemma grown_used k f' : get ext' (k - 1) = Some f' -> len (r_Name f') = NAME_SIZE /\
  exists ch, get (r_Name f') 0 = Some ch /\ (ch = 0 <-> a' !! k = None).
Proof.
  pose proof grown_apart. intros Hf'. rewrite grown_at. destruct (decide (k = c)) as [->|].
  - destruct (gr_file _ _ _ _ _ _ _ _ _ Hg) as (fc & Hfc & Hfcn & Hfcl & _). rewrite Hf' in Hfc. injection Hfc as <-.
    split; [done|]. rewrite decide_False by done.
    destruct (str_of_split _ _ Hfcn) as (r & Hr & Hnn). destruct nm as [|ch nm']; [done|]. exists ch. rewrite Hr. split; [done|].
    apply Forall_cons_1 in Hnn as [? _]. by split.
  - destruct (gr_back _ _ _ _ _ _ _ _ _ Hg k f') as [f Hf]; [done|done|].
    destruct (gr_other _ _ _ _ _ _ _ _ _ Hg k f) as (f2 & Hf2 & E1 & _); [done|done|]. rewrite Hf' in Hf2. injection Hf2 as <-.
    rewrite E1. destruct (t_used _ _ _ Ht _ _ Hf) as (Hl & ch & Hch & Hiff). split; [done|]. exists ch. split; [done|].
    rewrite Hiff. case_decide; [subst; by rewrite Hd|done].
Qed.

(** The directory itself ... *)
Lemma grown_dir : exists f n, get ext' (d - 1) = Some f /\ nodes' !! d = Some n /\
  node_is n d (MkA fl (ADir (l ++ [(nm, c)]))) /\ file_is ext' d f (MkA fl (ADir (l ++ [(nm, c)]))).
Proof.
  destruct (t_node _ _ _ Ht _ _ Hd) as (fd & nd & Hfd & Hnd & (J1 & J2 & J3 & J4) & (c0 & Hc0 & Hdl)).
  destruct (t_kids _ _ _ Ht _ _ _ Hd) as [Hnames Hkids]. pose proof (dir_list_short _ _ _ _ Hdl Hnames) as Hshort.
  destruct (gr_dir _ _ _ _ _ _ _ _ _ Hg) as (n & n' & Hn & Hn' & I1 & I2 & I3 & I4). rewrite Hnd in Hn. injection Hn as <-.
  destruct (gr_other _ _ _ _ _ _ _ _ _ Hg d fd) as (fd' & Hfd' & _ & _ & _ & Hdata); [apply grown_apart|done|].
  destruct (gr_file _ _ _ _ _ _ _ _ _ Hg) as (fc & Hfc & Hfcn & Hfcl & Hfcp & Hfcx & Hfcd).
  exists fd', n'. split_and!; try done.
  { unfold node_is. rewrite I1, I2, I3, I4, J1, J2, J3, J4. unfold asize. cbn [a_data a_flags]. split_and!; try done.
    rewrite len_app, u64_small by (unfold len in *; lia). done. }
  exists (match l with [] => c | _ => c0 end). split.
  { rewrite Hdata, Hprev, Hc0. rewrite Z.eqb_refl. destruct (last_kid _ _ _ _ Hdl) as [[-> ->]|[Hpos _]]; [done|].
    rewrite (proj2 (Z.eqb_neq _ 0)) by lia. destruct l; [cbn in Hpos; lia|done]. }
  apply (dir_list_snoc ext _ _ _ _ fc); try done; [by eapply dir_list_distinct|]. intros j f Hj Hf.
  destruct (gr_other _ _ _ _ _ _ _ _ _ Hg j f) as (f' & Hf' & E1 & E2 & E3 & _); [|done|exists f'; by rewrite E3, Hprev].
  intros ->. destruct (Hkids _ Hj). congruence.
Qed.

(** ... and every other file: no other directory has [prev] for a child. *)
Lemma grown_others k x : a !! k = Some x -> k <> d -> exists f n, get ext' (k - 1) = Some f /\ nodes' !! k = Some n /\
  node_is n k x /\ file_is ext' k f x.
Proof.
  intros Hx Hkd. destruct (t_node _ _ _ Ht _ _ Hx) as (f & n & Hf & Hn & Hni & Hfi). assert (k <> c) by congruence.
  destruct (gr_other _ _ _ _ _ _ _ _ _ Hg k f) as (f' & Hf' & E1 & E2 & E3 & E4); [done|done|].
  exists f', n. rewrite (gr_same _ _ _ _ _ _ _ _ _ Hg) by done. split_and!; try done.
  rewrite (proj2 (Z.eqb_neq k d)), andb_false_r in E4 by done. unfold file_is in *. rewrite E4. destruct x as [flx [lx|b]]; [|done].
  destruct Hfi as (cx & Hcx & Hlx). exists cx. split; [done|]. eapply dir_list_frame; [exact Hlx|]. intros j g Hj Hg'.
  destruct (t_kids _ _ _ Ht _ _ _ Hx) as [_ Hkx]. destruct (Hkx _ Hj) as [y Hy].
  destruct (gr_other _ _ _ _ _ _ _ _ _ Hg j g) as (g' & Hg2 & F1 & F2 & F3 & _); [congruence|done|]. exists g'. split_and!; try done.
  rewrite F3. destruct (Z.eqb_spec j prev) as [Hjp|]; [|done]. exfalso.
  destruct (t_node _ _ _ Ht _ _ Hd) as (_ & _ & _ & _ & _ & (c0 & _ & Hdl)).
  destruct (last_kid _ _ _ _ Hdl) as [[Hl0 _]|[_ Hin]]; [destruct (t_dom _ _ _ Ht _ _ Hy); lia|]. rewrite <- Hprev, <- Hjp in Hin.
  apply list_elem_of_fmap in Hin as ([m1 j1] & -> & Hin). apply list_elem_of_fmap in Hj as ([m2 j2] & Hj2 & Hin2). cbn in Hj2. subst j2.
  destruct (dir_list_name _ _ _ _ _ _ Hdl Hin) as (_ & g1 & G1 & _ & P1).
  destruct (dir_list_name _ _ _ _ _ _ Hlx Hin2) as (_ & g2 & G2 & _ & P2). cbn in *. congruence.
Qed.

Lemma grown_kids k flk lk : a' !! k = Some (MkA flk (ADir lk)) -> NoDup lk.*1 /\ forall j, j ∈ lk.*2 -> is_Some (a' !! j).
Proof.
  rewrite grown_at. case_decide as Hk.
  - intros [= <- <-]. destruct (t_kids _ _ _ Ht _ _ _ Hd) as [Hnames Hkids].
    destruct (t_node _ _ _ Ht _ _ Hd) as (_ & _ & _ & _ & _ & (c0 & _ & Hdl)). rewrite !fmap_app. split.
    + apply NoDup_app. split_and!; [done| |apply NoDup_singleton]. intros m Hm ->%list_elem_of_singleton.
      by apply (entry_none _ _ _ _ _ Hdl Hent).
    + intros j. rewrite elem_of_app. intros [Hj|Hj]; [by apply grown_has, Hkids|]. apply list_elem_of_singleton in Hj as ->.
      rewrite grown_at. cbn. rewrite decide_False by (intros ?; by apply grown_apart). by rewrite decide_True.
  - case_decide.
    + unfold new_node. case_match; [|done]. intros [= <- <-]. split; [constructor|]. by intros ? ?%not_elem_of_nil.
    + intros Hx. destruct (t_kids _ _ _ Ht _ _ _ Hx) as [Hn Hks]. split; [done|]. intros j Hj. by apply grown_has, Hks.
Qed.

Lemma grown_tree : tree_of nodes' ext' a'.
Proof.
  split.
  - apply Hg.
  - intros k Hk. destruct (decide (k = c)) as [->|Hkc]; [destruct (gr_node _ _ _ _ _ _ _ _ _ Hg) as (n & -> & _); by eexists|].
    destruct (decide (k = d)) as [->|Hkd]; [destruct (gr_dir _ _ _ _ _ _ _ _ _ Hg) as (n & n' & _ & -> & _); by eexists|].
    rewrite (gr_same _ _ _ _ _ _ _ _ _ Hg) by done. by apply (t_nodes _ _ _ Ht).
  - intros k x. rewrite grown_at. case_decide as Hk; [intros _; rewrite Hk; by apply (t_dom _ _ _ Ht _ _ Hd)|]. case_decide as Hk2; [by rewrite Hk2|apply (t_dom _ _ _ Ht)].
  - apply grown_used.
  - intros k x. rewrite grown_at. case_decide as Hk; [rewrite Hk; intros [= <-]; apply grown_dir|]. case_decide as Hk2; [|intros Hx; by apply grown_others].
    rewrite Hk2. intros [= <-]. destruct (gr_node _ _ _ _ _ _ _ _ _ Hg) as (n & Hn & Hni).
    destruct (gr_file _ _ _ _ _ _ _ _ _ Hg) as (fc & Hfc & _ & _ & _ & _ & Hfcd). exists fc, n. split_and!; try done.
    unfold new_node, file_is. cbn [a_data]. destruct (flag _ _); [exists 0; by split|]. split; [done|]. by right.
  - apply grown_kids.
Qed.
End grown.

Section methods.
Context (junk : Z).
Implicit Types (a : tree) (s : vfs ramfs).

Lemma AllocFile_spec s a c f : is_tree s a -> alloc_file (v_ext s) 0 = Some c -> 0 < c <= MAX_FILES -> a !! c = None ->
  get (v_ext s) (c - 1) = Some f -> exists n, Root_int_AllocFile s = Ok c (upd_nodes (<[c := n]> (v_nodes s)) s).
Proof.
  intros Ht Hc Hr Ha Hf. unfold Root_int_AllocFile. rewrite bind_get, Hc. cbn [lift]. rewrite bind_ret, (proj2 (Z.eqb_neq c 0)) by lia.
  destruct (t_nodes _ _ _ Ht c Hr) as [n Hn]. unfold bind at 1, node_at. rewrite Hn. by eexists.
Qed.

Lemma node_ok p n s : v_nodes s !! p = Some n -> node_at p s = Ok n s.
Proof. intros Hn. unfold node_at. by rewrite Hn. Qed.

(** The step that links the child. *)
Lemma link_spec s prev d c : len (v_ext s) = MAX_FILES -> 0 < d <= MAX_FILES -> 0 <= prev <= MAX_FILES -> exists ext,
  (if prev =? 0 then do f <- file_at d; put_file d (with_Data (FirstChild c) f)
   else do f <- file_at prev; put_file prev (with_Next c f)) s = Ok tt (upd_ext ext s) /\ len ext = MAX_FILES /\
  forall k, get ext (k - 1) = (fun f => MkFile (if k =? prev then c else r_Next f) (r_Parent f) (r_Name f)
     (if (prev =? 0) && (k =? d) then FirstChild c else r_Data f)) <$> get (v_ext s) (k - 1).
Proof.
  intros Hl Hd Hp. destruct (Z.eqb_spec prev 0) as [->|Hne].
  - destruct (get_ok (v_ext s) (d - 1)) as [f Hf]; [lia|]. destruct (put_file_ok s d (with_Data (FirstChild c) f) Hl Hd) as (ext & He & Hl' & Hg).
    exists ext. rewrite (bind_Ok _ _ _ _ _ (file_ok _ _ _ Hf)). split_and!; [done|done|]. intros k. rewrite Hg. cbn [andb].
    destruct (Z.eqb_spec k d) as [->|].
    + rewrite Hf. cbn. by rewrite (proj2 (Z.eqb_neq d 0)) by lia.
    + destruct (get (v_ext s) (k - 1)) as [g|] eqn:Hk; [|done]. cbn. destruct (Z.eqb_spec k 0) as [->|]; [done|]. by destruct g.
  - destruct (get_ok (v_ext s) (prev - 1)) as [f Hf]; [lia|]. destruct (put_file_ok s prev (with_Next c f) Hl) as (ext & He & Hl' & Hg); [lia|].
    exists ext. rewrite (bind_Ok _ _ _ _ _ (file_ok _ _ _ Hf)). split_and!; [done|done|]. intros k. rewrite Hg. cbn [andb].
    destruct (Z.eqb_spec k prev) as [->|]; [by rewrite Hf|]. destruct (get (v_ext s) (k - 1)) as [[]|]; done.
Qed.

(** The part of Root_MkNod that changes something. *)
Lemma add_child_spec s a d fl l name Flags c f : is_tree s a -> a !! d = Some (MkA fl (ADir l)) ->
  Forall (fun c => c <> 0) name -> name <> [] -> len name < NAME_SIZE -> entry l name = 0 ->
  0 < c <= MAX_FILES -> a !! c = None -> get (v_ext s) (c - 1) = Some f -> is_Some (v_nodes s !! c) ->
  let prev := List.last l.*2 0 in
  let dir := flag Flags VFS_FFLAG_DIRECTORY in
  wp (do f <- file_at c;
      do nm <- lift (strcpy (r_Name f) (name ++ [0]));
      put_file c (MkFile 0 d nm.1 (FirstChild 0));;;
      do n <- node_at c;
      put_node c (MkNode (if dir then gRootFS_DirType else gRootFS_FileType) (n_Inode n) c
        (n_ReferenceCount n) 0 Flags (n_UID n) (n_GID n) 3
        (if dir || flag Flags VFS_FFLAG_SYMLINK then RootFS_DirACLs else RootFS_FileACLs));;;
      (if prev =? 0 then do f <- file_at d; put_file d (with_Data (FirstChild c) f)
       else do f <- file_at prev; put_file prev (with_Next c f));;;
      do n <- node_at d;
      put_node d (MkNode (n_Type n) (n_Inode n) (n_ImplPtr n) (n_ReferenceCount n) (u64 (n_Size n + 1))
        (n_Flags n) (n_UID n) (n_GID n) (n_NumACLs n) (n_ACLs n));;;
      ret c) s (fun r s' => r = c /\ v_alloc s' = v_alloc s /\
        is_tree s' (<[d := MkA fl (ADir (l ++ [(name, c)]))]> (<[c := new_node Flags]> a))).
Proof.
  intros Ht Hd Hs Hne Hlen Hent Hr Hac Hf [n0 Hn0] prev dir. pose proof (t_dom _ _ _ Ht _ _ Hd) as Hdr.
  assert (d <> c) as Hdc by congruence.
  destruct (t_node _ _ _ Ht _ _ Hd) as (fd & nd & Hfd & Hndn & _ & (c0 & _ & Hdl)). destruct (t_used _ _ _ Ht _ _ Hf) as (Hfl & _).
  assert (0 <= prev <= MAX_FILES) as Hpr.
  { destruct (last_kid _ _ _ _ Hdl) as [[? _]|[_ Hin]]; [lia|]. destruct (proj2 (t_kids _ _ _ Ht _ _ _ Hd) _ Hin) as [x Hx].
    destruct (t_dom _ _ _ Ht _ _ Hx). lia. }
  assert (prev <> c) as Hpc.
  { destruct (last_kid _ _ _ _ Hdl) as [[? _]|[_ Hin]]; [lia|]. destruct (proj2 (t_kids _ _ _ Ht _ _ _ Hd) _ Hin) as [x Hx]. subst prev. congruence. }
  pose proof (str_of_app name [] Hs) as Hstr.
  assert (strcpy (r_Name f) (name ++ [0]) = Some (name ++ 0 :: drop (S (length name)) (r_Name f), len name)) as Hcp
    by (apply (strcpy_str _ _ Hstr); unfold len in *; lia).
  unfold wp. rewrite (bind_Ok _ _ _ _ _ (file_ok _ _ _ Hf)), Hcp. cbn [lift]. rewrite bind_ret. cbn [fst].
  set (fc := MkFile 0 d _ (FirstChild 0)). destruct (put_file_ok s c fc (t_len _ _ _ Ht) Hr) as (ext1 & Hp1 & Hl1 & Hg1).
  rewrite (bind_Ok _ _ _ _ _ Hp1), (bind_Ok _ _ _ _ _ (node_ok c n0 (upd_ext ext1 s) Hn0)). set (nc := MkNode (if dir then _ else _) _ _ _ _ _ _ _ _ _).
  rewrite (bind_Ok (put_node c nc) _ _ tt _ eq_refl). set (s3 := upd_nodes _ _).
  destruct (link_spec s3 prev d c Hl1 Hdr Hpr) as (ext2 & Hp2 & Hl2 & Hg2). rewrite (bind_Ok _ _ _ _ _ Hp2).
  assert (v_nodes (upd_ext ext2 s3) !! d = Some nd) as Hnd3 by (cbn; by rewrite lookup_insert_ne).
  rewrite (bind_Ok _ _ _ _ _ (node_ok d nd _ Hnd3)). cbn beta iota delta [bind put_node modify ret].
  split_and!; [done|done|]. unfold is_tree. cbn [v_nodes v_ext upd_nodes upd_ext s3].
  apply (grown_tree (v_nodes s) _ (v_ext s) _ a d fl c Flags prev l name); try done. split.
  - done.
  - exists fc. rewrite Hg2. cbn [v_ext s3 upd_nodes upd_ext]. rewrite Hg1, Z.eqb_refl. cbn.
    rewrite (proj2 (Z.eqb_neq c prev)), (proj2 (Z.eqb_neq c d)), andb_false_r by done. split_and!; try done.
    + by apply str_of_app.
    + rewrite len_app, len_cons. unfold len in *. rewrite length_drop. lia.
  - intros k g Hkc Hk. rewrite Hg2. cbn [v_ext s3 upd_nodes upd_ext]. rewrite Hg1, (proj2 (Z.eqb_neq k c)), Hk by done. eexists. split; [done|]. done.
  - intros k g Hkc. rewrite Hg2. cbn [v_ext s3 upd_nodes upd_ext]. rewrite Hg1, (proj2 (Z.eqb_neq k c)) by done. 
    destruct (get (v_ext s) (k - 1)); [intros _; eexists; reflexivity|done].
  - exists nc. rewrite lookup_insert_ne, lookup_insert_eq by done. split; [done|]. unfold node_is, new_node, atype, asize. cbn. fold dir. by destruct dir.
  - exists nd. eexists. rewrite lookup_insert_eq. by split_and!.
  - intros k ??. by rewrite !lookup_insert_ne.
Qed.

Lemma MkNod_spec s a d fl l name Flags : is_tree s a -> a !! d = Some (MkA fl (ADir l)) ->
  Forall (fun c => c <> 0) name -> name <> [] -> len name < NAME_SIZE -> entry l name = 0 -> (size a < 64)%nat ->
  exists c s', Root_MkNod d (name ++ [0]) Flags s = Ok c s' /\ a !! c = None /\ 0 < c <= MAX_FILES /\ v_alloc s' = v_alloc s /\
    is_tree s' (<[d := MkA fl (ADir (l ++ [(name, c)]))]> (<[c := new_node Flags]> a)).
Proof.
  intros Ht Hd Hs Hne Hlen Hent Hsz. destruct (tree_dir _ _ _ _ _ Ht Hd) as (c0 & Hi & Hc0 & Hl & Hsh & Hnd).
  destruct (free_file _ _ Ht Hsz) as (c & f & Hal & Hr & Hf & Hac). destruct (AllocFile_spec _ _ _ _ Ht Hal Hr Hac Hf) as [n0 HA].
  pose proof (str_of_app name [] Hs) as Hstr.
  unfold Root_MkNod. rewrite (bind_Ok _ _ _ _ _ Hi), (strlen_str _ _ Hstr). cbn [lift]. rewrite bind_ret.
  rewrite (proj2 (Z.ltb_ge NAME_SIZE _)) by lia.
  rewrite (bind_Ok _ _ _ _ _ Hc0), (bind_Ok _ _ _ _ _ (last_child_spec d name l Hs _ _ 0 _ Hl Hsh)), Hent, Z.eqb_refl.
  rewrite (bind_Ok _ _ _ _ _ HA). set (s1 := upd_nodes _ s).
  assert (is_tree s1 a) as Ht1.
  { destruct Ht as [T1 T2 T3 T4 T5 T6]. split; try done.
    - intros p Hp. cbn. destruct (decide (p = c)) as [->|]; [by rewrite lookup_insert_eq|]. rewrite lookup_insert_ne by done. by apply T2.
    - intros p x Hx. destruct (T5 p x Hx) as (g & n & ? & ? & ? & ?). exists g, n. cbn. rewrite lookup_insert_ne by congruence. done. }
  destruct (wp_inv _ _ _ (add_child_spec s1 a d fl l name Flags c f Ht1 Hd Hs Hne Hlen Hent Hr Hac Hf
    (ltac:(cbn; rewrite lookup_insert_eq; by eexists)))) as (r & s' & Heq & -> & Hall & Ht').
  exists c, s'. split; [exact Heq|do 2 (split; [done|]); by split].
Qed.

(** *** Contents *)
Lemma take_of_sub {A} (o n : Z) (b : list A) : take (Z.to_nat (len (sub o n b))) (drop (Z.to_nat o) b) = sub o n b.
Proof. unfold len, sub. rewrite Nat2Z.id, length_take, <- take_take. f_equal. by apply take_ge. Qed.

Lemma tree_file s a p fl b : is_tree s a -> a !! p = Some (MkA fl (AFile b)) -> exists f n,
  0 < p <= MAX_FILES /\ len b <= MAX_FILE_SIZE /\ get (v_ext s) (p - 1) = Some f /\ v_nodes s !! p = Some n /\
  node_is n p (MkA fl (AFile b)) /\ bytes p s = Ok b s.
Proof.
  intros Ht Hp. destruct (t_node _ _ _ Ht _ _ Hp) as (f & n & Hf & Hn & Hni & Hb & Hd). exists f, n.
  split; [by apply (t_dom _ _ _ Ht _ _ Hp)|]. split_and!; try done. unfold bytes. rewrite (bind_Ok _ _ _ _ _ (file_ok _ _ _ Hf)).
  by destruct Hd as [->|[-> ->]].
Qed.

Lemma Read_spec s a p fl b o n : is_tree s a -> a !! p = Some (MkA fl (AFile b)) -> 0 <= o -> 0 <= n < 4294967296 ->
  Root_Read p o n 0 s = Ok (len (sub o n b), sub o n b) s.
Proof.
  intros Ht Hp Ho Hn. destruct (tree_file _ _ _ _ _ Ht Hp) as (f & nd & _ & Hmax & Hf & Hnd & (Hi & _ & Hsz & _) & Hb).
  unfold Root_Read. rewrite (bind_Ok _ _ _ _ _ (node_ok _ _ _ Hnd)), Hsz, Hi. unfold asize. cbn [a_data].
  pose proof (len_nonneg b) as Hb0. assert (len (sub o n b) = Z.max 0 (Z.min n (len b - o))) as Hls.
  { unfold sub. rewrite len_take, len_drop by lia. lia. }
  destruct (Z.ltb_spec (len b) o) as [Hlt|Hge].
  { assert (sub o n b = []) as -> by (apply len_0; lia). done. }
  rewrite (bind_Ok _ _ _ _ _ Hb). rewrite !u32_small by lia. set (l1 := if len b <? n then len b else n).
  assert (l1 = Z.min n (len b)) as Hl1 by (subst l1; destruct (Z.ltb_spec (len b) n); lia). rewrite u64_small by lia.
  set (l2 := if len b <? o + l1 then len b - o else l1).
  assert (l2 = len (sub o n b)) as Hl2 by (subst l2; destruct (Z.ltb_spec (len b) (o + l1)); lia).
  rewrite Hl2, rd_ok by lia. cbn [lift]. rewrite bind_ret. do 2 f_equal. unfold sub at 1.
  apply take_of_sub.
Qed.

(** A file with other bytes. *)
Lemma tree_write s a p fl b b' f n' ext nodes : is_tree s a -> a !! p = Some (MkA fl (AFile b)) ->
  get (v_ext s) (p - 1) = Some f -> len b' <= MAX_FILE_SIZE -> len ext = MAX_FILES ->
  (forall k, get ext (k - 1) = if k =? p then Some (with_Data (Bytes b') f) else get (v_ext s) (k - 1)) ->
  nodes !! p = Some n' -> node_is n' p (MkA fl (AFile b')) -> (forall k, k <> p -> nodes !! k = v_nodes s !! k) ->
  tree_of nodes ext (<[p := MkA fl (AFile b')]> a).
Proof.
  intros Ht Hp Hf Hb' Hlen Hget Hn' Hni Hsame.
  assert (forall k, (<[p := MkA fl (AFile b')]> a) !! k = if k =? p then Some (MkA fl (AFile b')) else a !! k) as Hat.
  { intros k. destruct (Z.eqb_spec k p) as [->|]; [by rewrite lookup_insert_eq|by rewrite lookup_insert_ne]. }
  destruct Ht as [T1 T2 T3 T4 T5 T6]. split.
  - done.
  - intros k Hk. destruct (decide (k = p)) as [->|]; [by eexists|]. rewrite Hsame by done. by apply T2.
  - intros k x. rewrite Hat. destruct (Z.eqb_spec k p) as [->|]; [intros _; by apply (T3 _ _ Hp)|apply T3].
  - intros k g. rewrite Hget, Hat. destruct (Z.eqb_spec k p) as [->|]; [intros [= <-]|apply T4].
    destruct (T4 _ _ Hf) as (Hl & c & Hc & Hiff). split; [done|]. exists c. split; [done|]. rewrite Hiff, Hp. by split.
  - intros k x. rewrite Hat. destruct (Z.eqb_spec k p) as [->|Hkp].
    + intros [= <-]. exists (with_Data (Bytes b') f), n'. rewrite Hget, Z.eqb_refl. split_and!; try done. split; [done|]. by left.
    + intros Hx. destruct (T5 _ _ Hx) as (g & n & Hg & Hn & Hni' & Hfi). exists g, n.
      rewrite Hget, (proj2 (Z.eqb_neq k p)), Hsame by done. split_and!; try done. unfold file_is in *. destruct (a_data x); [|done].
      destruct Hfi as (c & Hc & Hl). exists c. split; [done|]. eapply dir_list_frame; [exact Hl|]. intros j h _ Hh.
      rewrite Hget. destruct (Z.eqb_spec j p) as [->|]; [|by exists h]. rewrite Hf in Hh. injection Hh as <-. by eexists.
  - intros k flk l. rewrite Hat. destruct (Z.eqb_spec k p); [done|]. intros Hx. destruct (T6 _ _ _ Hx) as [? Hk]. split; [done|].
    intros c Hc. rewrite Hat. case_match; [done|by apply Hk].
Qed.

Lemma write_bytes_spec s p b0 f o n d : 0 < p <= MAX_FILES -> len (v_ext s) = MAX_FILES -> get (v_ext s) (p - 1) = Some f ->
  bytes p s = Ok b0 s -> 0 <= o -> 0 < n <= len d -> o + n <= len b0 -> exists ext,
  write_bytes p o n d s = Ok n (upd_ext ext s) /\ len ext = MAX_FILES /\
  (forall k, get ext (k - 1) = if k =? p then Some (with_Data (Bytes (splice b0 o (take (Z.to_nat n) d))) f) else get (v_ext s) (k - 1)).
Proof.
  intros Hp Hl Hf Hb Ho Hn Hon. unfold write_bytes. rewrite (bind_Ok _ _ _ _ _ Hb), rd_ok by lia. cbn [lift]. rewrite bind_ret.
  change (sub 0 n d) with (take (Z.to_nat n) (drop 0 d)). rewrite drop_0.
  assert (len (take (Z.to_nat n) d) = n) as Hlt by (rewrite len_take by lia; lia). rewrite wr_ok by lia. cbn [lift]. rewrite bind_ret.
  rewrite (bind_Ok _ _ _ _ _ (file_ok _ _ _ Hf)), (proj2 (Z.eqb_neq n 0)) by lia.
  destruct (put_file_ok s p (with_Data (Bytes (splice b0 o (take (Z.to_nat n) d))) f) Hl Hp) as (ext & He & Hle & Hg).
  exists ext. split_and!; try done. exact (bind_Ok _ _ _ _ _ He).
Qed.

(** Writing [n] of the bytes, the length after the cut at MAX_FILE_SIZE. *)
Lemma write_grown_spec s a p fl b f o n d : is_tree s a -> a !! p = Some (MkA fl (AFile b)) -> get (v_ext s) (p - 1) = Some f ->
  0 <= o <= len b -> 0 <= n <= len d -> o + n <= MAX_FILE_SIZE -> o + n <= len b ->
  exists s', write_bytes p o n d s = Ok n s' /\ v_alloc s' = v_alloc s /\
    is_tree s' (<[p := MkA fl (AFile (splice b o (take (Z.to_nat n) d)))]> a).
Proof.
  intros Ht Hp Hf Ho Hn Hmax Hfit. destruct (tree_file _ _ _ _ _ Ht Hp) as (f' & nd & Hpr & Hbl & Hf' & Hnd & Hni & Hb).
  destruct (decide (n = 0)) as [->|Hn0].
  - exists s. unfold write_bytes. rewrite (bind_Ok _ _ _ _ _ Hb), rd_ok by lia. cbn [lift]. rewrite bind_ret. change (sub 0 0 d) with (@nil Z).
    rewrite wr_ok by (change (len []) with 0; lia). cbn [lift]. rewrite bind_ret, (bind_Ok _ _ _ _ _ (file_ok _ _ _ Hf)).
    split_and!; [done|done|]. unfold splice. change (take (Z.to_nat 0) d) with (@nil Z). cbn [app length].
    rewrite Nat.add_0_r, take_drop, insert_id; done.
  - destruct (write_bytes_spec s p b f o n d) as (ext & He & Hle & Hg); try done; try lia; [apply (t_len _ _ _ Ht)|].
    exists (upd_ext ext s). split_and!; [done|done|]. eapply (tree_write s a p fl b _ f nd); try done.
    + unfold splice. rewrite !len_app, len_take by lia. unfold len in *. rewrite length_drop, length_take. lia.
    + destruct Hni as (I1 & I2 & I3 & I4). split_and!; try done. rewrite I3. unfold asize, splice. cbn [a_data].
      rewrite !len_app, len_take by lia. unfold len in *. rewrite length_drop, length_take. lia.
Qed.

(** The extension of the buffer, as a file with unspecified bytes at the end. *)
Lemma grow_spec s a p fl b f nd newsize : is_tree s a -> a !! p = Some (MkA fl (AFile b)) -> get (v_ext s) (p - 1) = Some f ->
  v_nodes s !! p = Some nd -> len b <= newsize <= MAX_FILE_SIZE ->
  let b' := take (Z.to_nat newsize) b ++ replicate (Z.to_nat newsize - length b) junk in
  exists ext, put_file p (with_Data (Bytes b') f) s = Ok tt (upd_ext ext s) /\ len b' = newsize /\
    get ext (p - 1) = Some (with_Data (Bytes b') f) /\
    is_tree (upd_nodes (<[p := MkNode (n_Type nd) (n_Inode nd) (n_ImplPtr nd) (n_ReferenceCount nd) newsize
      (n_Flags nd) (n_UID nd) (n_GID nd) (n_NumACLs nd) (n_ACLs nd)]> (v_nodes s)) (upd_ext ext s)) (<[p := MkA fl (AFile b')]> a).
Proof.
  intros Ht Hp Hf Hnd Hsz b'. destruct (tree_file _ _ _ _ _ Ht Hp) as (f' & nd' & Hpr & Hbl & Hf' & Hnd' & (I1 & I2 & I3 & I4) & Hb).
  assert (len b' = newsize) as Hlb. { subst b'. rewrite len_app, len_take by (pose proof (len_nonneg b); lia). unfold len. rewrite length_replicate. unfold len in Hsz. lia. }
  destruct (put_file_ok s p (with_Data (Bytes b') f) (t_len _ _ _ Ht) Hpr) as (ext & He & Hle & Hg).
  exists ext. split_and!; [done|done|by rewrite Hg, Z.eqb_refl|]. rewrite Hnd in Hnd'. injection Hnd' as <-.
  eapply (tree_write s a p fl b _ f); try done; [lia| | |].
  - cbn. by rewrite lookup_insert_eq.
  - unfold node_is, asize, atype in *. cbn in *. split_and!; try done.
  - intros k Hk. cbn. by rewrite lookup_insert_ne.
Qed.

Lemma Write_spec s a p fl b o d : is_tree s a -> a !! p = Some (MkA fl (AFile b)) -> 0 <= o -> len d < 4294967296 ->
  exists r s' a', Root_Write junk p o (len d) d 0 s = Ok r s' /\ tstep a (default true (head (v_alloc s))) (RWrite p o d) (VLen r) a' /\ is_tree s' a'.
Proof.
  intros Ht Hp Ho Hd. destruct (tree_file _ _ _ _ _ Ht Hp) as (f & nd & Hpr & Hbl & Hf & Hnd & (I1 & I2 & I3 & I4) & Hb).
  pose proof (len_nonneg d) as Hd0. unfold asize in I3. cbn [a_data] in I3.
  unfold Root_Write. rewrite (bind_Ok _ _ _ _ _ (node_ok _ _ _ Hnd)), I1, I3. cbv zeta.
  destruct (Z.ltb_spec (len b) o) as [Hlt|Hge]. { exists SIZE_ERR, s, a. split_and!; try done. by eapply THole. }
  rewrite (u64_small (o + len d)), (u32_small (MAX_FILE_SIZE - o)) by lia.
  set (cut := MAX_FILE_SIZE <? o + len d). set (n := if cut then MAX_FILE_SIZE - o else len d).
  assert (n = Z.min (len d) (MAX_FILE_SIZE - o)) as Hn by (subst n cut; destruct (Z.ltb_spec MAX_FILE_SIZE (o + len d)); lia).
  rewrite (bind_Ok _ _ _ tt s) by (by rewrite (proj2 (Z.leb_le n _)), andb_false_r by lia).
  rewrite (u64_small (o + n)), (u32_small (o + n)) by lia.
  set (ok := default true (head (v_alloc s))).
  assert (forall s', is_tree s' (<[p := MkA fl (AFile (splice b o (take (Z.to_nat n) d)))]> a) -> ok = true \/ o + n <= len b ->
    exists a', tstep a ok (RWrite p o d) (VLen n) a' /\ is_tree s' a') as Hdone.
  { intros s' Ht' Hok. eexists. split; [|exact Ht']. destruct (decide (o + len d <= MAX_FILE_SIZE)) as [Hle|Hgt].
    - replace n with (len d) by lia. rewrite take_ge by (unfold len; lia). eapply TWrite; try done. destruct Hok; [by left|right; lia].
    - replace n with (MAX_FILE_SIZE - o) by lia. eapply TCut; try done; [lia|]. destruct Hok; [by left|right; lia]. }
  destruct (Z.ltb_spec (len b) (o + n)) as [Hgrow|Hfit].
  - rewrite (bind_Ok _ _ _ _ _ Hb). assert (exists s1, alloc_ok s = Ok ok s1 /\ v_ext s1 = v_ext s /\ v_nodes s1 = v_nodes s) as (s1 & Ha & E1 & E2).
    { subst ok. unfold alloc_ok. destruct (v_alloc s); by eexists. }
    rewrite (bind_Ok _ _ _ _ _ Ha). assert (is_tree s1 a) as Ht1 by (unfold is_tree; by rewrite E1, E2). rewrite <- E1 in Hf. rewrite <- E2 in Hnd.
    destruct ok eqn:Hok; cbn [negb].
    2:{ exists SIZE_ERR, s1, a. split_and!; try done. eapply TNoMem; try done. lia. }
    rewrite (bind_Ok _ _ _ _ _ (file_ok _ _ _ Hf)).
    destruct (grow_spec s1 a p fl b f nd (o + n) Ht1 Hp Hf Hnd) as (ext & He & Hlb & Hfx & Ht2); [lia|]. set (b' := take _ b ++ _) in *.
    rewrite (bind_Ok _ _ _ _ _ He), I1 in *. cbv zeta. rewrite (bind_Ok (put_node _ _) _ _ tt _ eq_refl). set (s2 := upd_nodes _ _) in *.
    destruct (write_grown_spec s2 _ p fl b' _ o n d Ht2 (lookup_insert_eq _ _ _) Hfx) as (s3 & Hw & _ & Ht3); [lia..|].
    exists n, s3. rewrite insert_insert_eq in Ht3.
    replace (splice b' o (take (Z.to_nat n) d)) with (splice b o (take (Z.to_nat n) d)) in Ht3.
    { destruct (Hdone s3 Ht3) as (a' & ? & ?); [by left|]. by exists a'. }
    unfold splice, b'. unfold len in *. f_equal; [|f_equal].
    + rewrite (take_ge b (Z.to_nat (o + n))) by lia. by rewrite take_app_le by lia.
    + rewrite !drop_ge; [done| |];
      rewrite ?length_app, ?length_take, ?length_replicate; lia.
  - destruct (write_grown_spec s a p fl b f o n d) as (s' & Hw & _ & Ht'); try done; [lia..|].
    exists n, s'. destruct (Hdone s' Ht') as (a' & ? & ?); [by right|]. by exists a'.
Qed.
End methods.

(** ** The filesystem is the tree *)
Module RootProps.

(** The static pool at boot, and a VFS that knows the driver and has no mounts. *)
Definition zero_file : tRamFS_File := MkFile 0 0 (replicate 32 0) (FirstChild 0).
Definition zero_node : tVFS_Node := MkNode 0 0 0 0 0 0 0 0 0 [].
Definition boot_nodes : gmap Z tVFS_Node := list_to_map ((fun i => (Z.of_nat i, zero_node)) <$> seq 1 64).
Definition boot (uid maxfd : Z) (alloc : list bool) : vfs ramfs :=
  MkVfs boot_nodes ∅ [] 0 0 None None [] ∅ [] maxfd uid uid None None 0 [gRootFS_Info] alloc 65 (replicate 64 zero_file) [] [].

Definition root_string : list Z := [114; 111; 111; 116].
Definition empty_tree : tree := {[ 1 := MkA VFS_FFLAG_DIRECTORY (ADir []) ]}.

(** The calls the VFS makes: on a directory or a file as it should be, with a
    proper name, and for a new file while the pool has one. *)
Definition proper (a : tree) (o : rop) : Prop :=
  match o with
  | RFind d name => (exists fl l, a !! d = Some (MkA fl (ADir l))) /\ Forall (fun c => c <> 0) name
  | RMkNod d name _ => (exists fl l, a !! d = Some (MkA fl (ADir l))) /\ Forall (fun c => c <> 0) name /\ name <> [] /\ (size a < 64)%nat
  | RReadDir d Pos => (exists fl l, a !! d = Some (MkA fl (ADir l))) /\ 0 <= Pos < 2147483648
  | RRead f o n => (exists fl b, a !! f = Some (MkA fl (AFile b))) /\ 0 <= o /\ 0 <= n < 4294967296
  | RWrite f o d => (exists fl b, a !! f = Some (MkA fl (AFile b))) /\ 0 <= o /\ len d < 4294967296
  end.

Lemma boot_node k : 0 < k <= MAX_FILES -> boot_nodes !! k = Some zero_node.
Proof.
  intros Hk. unfold boot_nodes. apply elem_of_list_to_map.
  - rewrite <- list_fmap_compose. apply NoDup_fmap; [intros x y; cbn; lia|apply NoDup_seq].
  - apply list_elem_of_fmap. exists (Z.to_nat k). split; [f_equal; lia|]. apply elem_of_seq. lia.
Qed.

Lemma pool_files k f : get (replicate 64 zero_file) k = Some f -> f = zero_file.
Proof. unfold get. case_match; [|done]. by intros [-> _]%lookup_replicate. Qed.

Definition root_file : tRamFS_File := MkFile 0 0 (cSLASH :: 0 :: replicate 30 0) (FirstChild 0).
Definition root_node : tVFS_Node := MkNode gRootFS_DirType 0 1 0 0 VFS_FFLAG_DIRECTORY 0 0 3 RootFS_DirACLs.

Lemma boot_tree uid maxfd alloc : exists s, Root_InitDevice (root_string ++ [0]) [] (boot uid maxfd alloc) = Ok 1 s /\
  is_tree s empty_tree /\ v_alloc s = alloc.
Proof.
  set (s0 := boot uid maxfd alloc). unfold Root_InitDevice. change (strcmp (root_string ++ [0]) [114; 111; 111; 116; 0]) with (Some 0). cbn [lift]. rewrite bind_ret.
  assert (get (v_ext s0) (1 - 1) = Some zero_file) as H1 by reflexivity.
  cbn [negb Z.eqb]. rewrite (bind_Ok _ _ _ _ _ (file_ok 1 zero_file s0 H1)).
  change (wr (r_Name zero_file) 0 [cSLASH; 0]) with (Some (cSLASH :: 0 :: replicate 30 0)). cbn [lift]. rewrite bind_ret.
  destruct (put_file_ok s0 1 root_file eq_refl) as (ext & He & Hl & Hg); [lia|]. change (MkFile _ _ _ _) with root_file. rewrite (bind_Ok _ _ _ _ _ He).
  rewrite (bind_Ok _ _ _ _ _ (node_ok 1 zero_node (upd_ext ext s0) (boot_node 1 ltac:(lia)))).
  eexists. split; [reflexivity|]. split; [|done]. unfold is_tree, modify. cbn [v_nodes v_ext upd_nodes upd_ext]. change (MkNode _ _ _ _ _ _ _ _ _ _) with root_node.
  assert (forall k x, empty_tree !! k = Some x -> k = 1 /\ x = MkA VFS_FFLAG_DIRECTORY (ADir [])) as Hone
    by (unfold empty_tree; intros k x [-> ->]%lookup_singleton_Some; done).
  split.
  - done.
  - intros k Hk. destruct (decide (k = 1)) as [->|]; [by rewrite lookup_insert_eq|]. rewrite lookup_insert_ne by done.
    change (v_nodes s0) with boot_nodes. by rewrite boot_node.
  - intros k x [-> _]%Hone. lia.
  - intros k f. rewrite Hg. destruct (Z.eqb_spec k 1) as [->|Hk]; [intros [= <-]|intros ->%pool_files].
    + split; [done|]. exists cSLASH. split; [done|]. unfold empty_tree. by rewrite lookup_singleton_eq.
    + split; [done|]. exists 0. split; [done|]. unfold empty_tree. by rewrite lookup_singleton_ne.
  - intros k x [-> ->]%Hone. exists root_file, root_node. rewrite Hg, lookup_insert_eq. split_and!; try done. by exists 0.
  - intros k fl l [_ [= -> ->]]%Hone. split; [constructor|]. by intros ? ?%not_elem_of_nil.
Qed.

Lemma MkNod_long s a d fl l name Flags : is_tree s a -> a !! d = Some (MkA fl (ADir l)) -> Forall (fun c => c <> 0) name ->
  NAME_SIZE <= len name \/ (len name < NAME_SIZE /\ entry l name <> 0) ->
  exists e, Root_MkNod d (name ++ [0]) Flags s = Ok 0 (upd_errno e s).
Proof.
  intros Ht Hd Hs Hcase. destruct (tree_dir _ _ _ _ _ Ht Hd) as (c & Hi & Hc & Hl & Hlen & _). unfold Root_MkNod.
  rewrite (bind_Ok _ _ _ _ _ Hi), (strlen_str _ _ (str_of_app name [] Hs)). cbn [lift]. rewrite bind_ret.
  destruct Hcase as [Hlong|[Hshort Hent]].
  - exists EINVAL. by rewrite (proj2 (Z.ltb_lt NAME_SIZE _)) by lia.
  - exists EEXIST. rewrite (proj2 (Z.ltb_ge NAME_SIZE _)), (bind_Ok _ _ _ _ _ Hc), (bind_Ok _ _ _ _ _ (last_child_spec d name l Hs _ _ 0 _ Hl Hlen)) by lia.
    by rewrite (proj2 (Z.eqb_neq _ 0)).
Qed.

Lemma run_simulates junk s a o : is_tree s a -> proper a o -> exists r s' a',
  run junk o s = Ok r s' /\ tstep a (default true (head (v_alloc s))) o r a' /\ is_tree s' a'.
Proof.
  intros Ht Ho. destruct o as [d name|d name Flags|d Pos|f o n|f o d]; cbn [proper run] in *.
  - destruct Ho as ((fl & l & Hd) & Hs). eexists _, _, _. rewrite (bind_Ok _ _ _ _ _ (FindDir_spec _ _ _ _ _ _ Ht Hd Hs)).
    split_and!; [done| |done]. by eapply TFind.
  - destruct Ho as ((fl & l & Hd) & Hs & Hne & Hsz). destruct (decide (len name < NAME_SIZE)) as [Hlt|Hge];
      [destruct (decide (entry l name = 0)) as [He|He]|].
    + destruct (MkNod_spec s a d fl l name Flags Ht Hd Hs Hne Hlt He Hsz) as (c & s' & Hm & Hc & Hr & _ & Ht').
      eexists _, _, _. rewrite (bind_Ok _ _ _ _ _ Hm). split_and!; [done| |exact Ht']. by eapply TMkNod.
    + destruct (MkNod_long s a d fl l name Flags Ht Hd Hs) as [e Hm]; [by right|]. eexists _, _, a. rewrite (bind_Ok _ _ _ _ _ Hm).
      split_and!; [done| |exact Ht]. by eapply TExists.
    + destruct (MkNod_long s a d fl l name Flags Ht Hd Hs) as [e Hm]; [left; lia|]. eexists _, _, a. rewrite (bind_Ok _ _ _ _ _ Hm).
      split_and!; [done| |exact Ht]. eapply TTooLong. lia.
  - destruct Ho as ((fl & l & Hd) & HP). eexists _, _, _. rewrite (bind_Ok _ _ _ _ _ (ReadDir_spec _ _ _ _ _ _ Ht Hd HP)).
    split_and!; [done| |done]. destruct (l !! Z.to_nat Pos) as [[nm c]|] eqn:Hk; [by eapply TReadDir|by eapply TReadEnd].
  - destruct Ho as ((fl & b & Hf) & Ho & Hn). eexists _, _, _. rewrite (bind_Ok _ _ _ _ _ (Read_spec _ _ _ _ _ _ _ Ht Hf Ho Hn)).
    split_and!; [done| |done]. by eapply TRead.
  - destruct Ho as ((fl & b & Hf) & Ho & Hn). destruct (Write_spec junk _ _ _ _ _ _ _ Ht Hf Ho Hn) as (r & s' & a' & Hw & Hst & Ht').
    exists (VLen r), s', a'. rewrite (bind_Ok _ _ _ _ _ Hw). by split_and!.
Qed.

(** C6: Refinement.  The root filesystem is a tree of named files: after
    Root_InitDevice the pool is the tree with an empty root directory, and from any pool that is a tree every
    proper call of FindDir, MkNod, ReadDir, Read or Write returns, with the result and the
    new tree the abstract operation allows: lookups find the entry with the name, a new file appears at the end of its directory
    and nothing else changes, a name that exists or is too long is refused, reads return the bytes there are, and a
    write replaces exactly the bytes at its offset, cut at MAX_FILE_SIZE. *)
Theorem rootfs_refines_tree junk :
  (forall uid maxfd alloc, exists s, Root_InitDevice (root_string ++ [0]) [] (boot uid maxfd alloc) = Ok 1 s /\ is_tree s empty_tree) /\
  (forall s a o, is_tree s a -> proper a o -> exists r s' a',
     run junk o s = Ok r s' /\ tstep a (default true (head (v_alloc s))) o r a' /\ is_tree s' a').
Proof.
  split; [|apply run_simulates]. intros uid maxfd alloc. destruct (boot_tree uid maxfd alloc) as (s & H1 & H2 & _). by exists s.
Qed.

Lemma rootfs_refines_tree_witness : exists s r s' a', is_tree s empty_tree /\ proper empty_tree (RMkNod 1 [97] 0) /\
  run 0 (RMkNod 1 [97] 0) s = Ok r s' /\ is_tree s' a'.
Proof.
  destruct (rootfs_refines_tree 0) as [Hb Hs]. destruct (Hb 0 16 []) as (s & _ & Ht).
  assert (proper empty_tree (RMkNod 1 [97] 0)) as Hp.
  { split_and!; [by eexists _, _|by repeat constructor|done|]. vm_compute. lia. }
  destruct (Hs s empty_tree (RMkNod 1 [97] 0) Ht Hp) as (r & s' & a' & H1 & _ & H2). by exists s, r, s', a'.
Defined.

End RootProps.
Export RootProps.
