(* ===== verification/VfsProps.v ===== *)
(** What the VFS and its root filesystem do together: the accounting of mounts over
    any history of operations, path lookup, and reading back what was written
    through a file descriptor. *)
From S2P Require Import Prelude CString VfsAcl VfsPath VfsState VfsOpen VfsIo VfsMount VfsInv VfsSafe VfsTables VfsOps VfsSystem VfsRam.

Local Open Scope Z_scope.
Local Open Scope monad_scope.

(** ** The root filesystem keeps to the interface *)
Section rootfs_quiet.
Lemma quiet_file_at p : quiet_op (file_at p).
Proof. intros s. unfold safe, file_at. destruct (get _ _); [reflexivity|apply good_fault]. Qed.
Lemma quiet_put_file p f : quiet_op (put_file p f).
Proof. intros s. unfold safe, put_file. destruct (set _ _ _); [|apply good_fault]. split; [by split|done|apply Z.le_refl]. Qed.
Hint Resolve quiet_file_at quiet_put_file : acess.
Lemma quiet_impl p : quiet_op (impl p).
Proof. unfold impl. quietly. Qed.
Lemma quiet_first_child p : quiet_op (first_child p).
Proof. unfold first_child. quietly. Qed.
Lemma quiet_bytes p : quiet_op (bytes p).
Proof. unfold bytes. quietly. Qed.
Lemma quiet_AllocFile : quiet_op Root_int_AllocFile.
Proof. unfold Root_int_AllocFile. quietly. Qed.
Hint Resolve quiet_impl quiet_first_child quiet_bytes quiet_AllocFile : acess.
Lemma quiet_last_child fuel : forall c prev Name, quiet_op (last_child fuel c prev Name).
Proof. induction fuel as [|fuel IH]; intros c prev Name; cbn [last_child]; quietly; auto. Qed.
Lemma quiet_find_child fuel : forall c Name, quiet_op (find_child fuel c Name).
Proof. induction fuel as [|fuel IH]; intros c Name; cbn [find_child]; quietly; auto. Qed.
Lemma quiet_nth_child fuel : forall c Pos, quiet_op (nth_child fuel c Pos).
Proof. induction fuel as [|fuel IH]; intros c Pos; cbn [nth_child]; quietly; auto. Qed.
Hint Resolve quiet_last_child quiet_find_child quiet_nth_child : acess.
Lemma quiet_write_bytes p o n b : quiet_op (write_bytes p o n b).
Proof. unfold write_bytes. quietly. Qed.
Hint Resolve quiet_write_bytes : acess.

#[export] Instance rootfs_quiet junk : QuietFS (FS := rootfs junk) ramfs.
Proof.
  split. intros t ty. cbn. repeat case_match; intros [= <-]; cbn; split_and!; intros f [= <-]; intros.
  - unfold Root_FindDir. quietly.
  - unfold Root_ReadDir. quietly.
  - unfold Root_MkNod. quietly.
  - unfold Root_Read. quietly.
  - unfold Root_Write. quietly.
Qed.

#[export] Instance rootfs_fine junk : FineDrivers (FS := rootfs junk) ramfs.
Proof.
  split. intros t d. cbn. repeat case_match; intros [= <-]; cbn; split_and!; try (by intros f [= <-]).
  - intros dev args. apply fine_q. unfold Root_InitDevice. quietly.
  - intros f [= <-] p i. unfold Root_GetByINode. quietly.
Qed.
End rootfs_quiet.

(** ** Mounts over a history *)
Section history.
Context {E : Type} {FS : Filesystems E} {QFS : QuietFS E} {FD : FineDrivers E}.
Context (junk : Z).
Implicit Types (s : vfs E).

(** C2: From a state whose mount counts are in order, over any history of VFS operations that return (opening,
    closing, duplicating, reading and writing files, creating nodes and links, fork, switch and exit of processes, saving
    handles of no more descriptors than the table has and restoring them, mounting directly in the root filesystem,
    unmounting mounts other than the root; no nested mounts and no marshalling of handles), with filesystems and drivers
    whose methods do not touch handles and mounts: every open handle is on no mount or on a listed, allocated one whose
    count covers its handles; no operation stops at a failed ASSERT or on a freed mount; and a successful unmount takes a
    mount nobody has open. A count is an int: an operation that would take one out of its range (signed overflow) stops
    there in the model, and the property says nothing of it. *)
Theorem mount_safety s0 ops s : good no_credit s0 -> reaches junk s0 ops s ->
  (forall h, h ∈ handles s -> h_Node h <> 0 -> h_Mount h = 0 \/
     (h_Mount h ∈ v_list s /\ exists x, v_mounts s !! h_Mount h = Some x /\ 0 < cnt (h_Mount h) (handles s) <= OpenHandleCount x)) /\
  (forall o, allowed junk s o -> perform junk o s <> Stop SAssert /\ perform junk o s <> Stop SFreed) /\
  (forall mp s', allowed junk s (OUnmount mp) -> VFS_Unmount junk mp s = Ok 0 s' ->
     exists m, m ∈ v_list s /\ v_list s' = filter (fun y => y <> m) (v_list s) /\
       forall h, h ∈ handles s -> h_Node h <> 0 -> h_Mount h <> m).
Proof.
  intros H0 Hr. pose proof (reaches_good junk _ _ _ H0 Hr) as Hg. clear H0 Hr.
  assert (forall h, h ∈ handles s -> h_Node h <> 0 -> 0 < cnt (h_Mount h) (handles s)) as Hcnt.
  { intros h Hh Hn. unfold cnt. assert (h ∈ filter (counted (h_Mount h)) (handles s)) as Hin by (by apply list_elem_of_filter).
    destruct (filter _ _) as [|h0 k]; [by apply not_elem_of_nil in Hin|]. rewrite len_cons. pose proof (len_nonneg k). lia. }
  split_and!.
  - intros h Hh Hn. destruct (mi_live _ _ _ _ _ _ (g_inv _ _ Hg) h Hh Hn) as [?|Hl]; [by left|right]. split; [done|].
    destruct (mi_count _ _ _ _ _ _ (g_inv _ _ Hg) _ Hl) as (x & Hx & Hc & _). exists x. split; [done|].
    pose proof (kids_nonneg _ _ _ _ (g_inv _ _ Hg) Hl). specialize (Hcnt h Hh Hn). unfold no_credit in Hc. lia.
  - intros o Ho. pose proof (perform_good junk o s Hg Ho) as Hp. unfold safe in Hp. destruct (perform junk o s) as [|e]; [done|].
    destruct Hp. split; congruence.
  - intros mp s' Ha Hu. pose proof (VFS_Unmount_safe junk s mp Hg Ha) as Hs. unfold safe in Hs. rewrite Hu in Hs.
    destruct Hs as [_ Hm]. destruct (Hm eq_refl) as (m & Hl & Hin & Hc). exists m. split_and!; [done|done|].
    intros h Hh Hn <-. specialize (Hcnt h Hh Hn). lia.
Qed.
End history.

Lemma boot_good uid maxfd alloc : 0 <= maxfd < VFS_KERNEL_FLAG -> good no_credit (boot uid maxfd alloc).
Proof.
  intros Hm. split; [|intros m; unfold no_credit; lia|done]. split; cbn.
  - by intros m ?%not_elem_of_nil.
  - by intros h ?%not_elem_of_nil.
  - done.
  - constructor.
  - by left.
  - by intros m ?%not_elem_of_nil.
  - lia.
Qed.

(** Mounting the root filesystem, creating /a and opening it. *)
#[local] Instance rootfs_0 : Filesystems ramfs := rootfs 0.
Definition after (o : op) (s : vfs ramfs) : vfs ramfs := match perform 0 o s with Ok _ s' => s' | Stop _ => s end.
Definition mount_root : op := OMount [114; 111; 111; 116; 0] [cSLASH; 0] [114; 111; 111; 116; 102; 115; 0] [0].
Definition booted1 : vfs ramfs := after mount_root (boot 0 4 []).
Definition booted2 : vfs ramfs := after (OMkNod [cSLASH; 97; 0] 0) booted1.
Definition booted : vfs ramfs := after (OOpen [cSLASH; 97; 0] 32774 0) booted2.

Definition finishes (o : op) (s : vfs ramfs) : bool := match perform 0 o s with Ok _ _ => true | Stop _ => false end.

Lemma after_step o s : finishes o s = true -> perform 0 o s = Ok tt (after o s).
Proof. unfold finishes, after. by destruct (perform 0 o s) as [[]|]. Qed.

Lemma mount_root_allowed : allowed 0 (boot 0 4 []) mount_root.
Proof. split; [done|]. split; [done|]. intros fs s1 p s2 H1 H2. vm_compute in H1. injection H1 as <- <-. vm_compute in H2. done. Qed.

Lemma first_reaches : reaches 0 (boot 0 4 []) [mount_root; OMkNod [cSLASH; 97; 0] 0; OOpen [cSLASH; 97; 0] 32774 0] booted.
Proof.
  apply (reaches_cons _ _ _ _ booted1); [apply mount_root_allowed|apply after_step; vm_compute; reflexivity|].
  apply (reaches_cons _ _ _ _ booted2); [done|apply after_step; vm_compute; reflexivity|].
  apply (reaches_cons _ _ _ _ booted); [done|apply after_step; vm_compute; reflexivity|].
  apply reaches_nil.
Qed.

Lemma mount_safety_witness : handles booted = [MkHandle 2 65 0 32774; zero_handle; zero_handle; zero_handle] /\
  exists x, v_mounts booted !! 65 = Some x /\ 0 < cnt 65 (handles booted) <= OpenHandleCount x.
Proof.
  assert (handles booted = [MkHandle 2 65 0 32774; zero_handle; zero_handle; zero_handle]) as Hh by (vm_compute; reflexivity).
  split; [exact Hh|].
  destruct (mount_safety 0 (boot 0 4 []) _ booted (boot_good 0 4 [] ltac:(lia)) first_reaches) as (Hl & _).
  destruct (Hl (MkHandle 2 65 0 32774)) as [H|(_ & x & Hx)].
  - rewrite Hh. by left.
  - done.
  - discriminate H.
  - exists x. exact Hx.
Defined.

(** ** Through a file descriptor *)
Section descriptors.
Context (junk : Z).
#[local] Instance the_rootfs : Filesystems ramfs := rootfs junk.
Implicit Types (s : vfs ramfs) (a : tree).

(** [fd] is an open descriptor: its slot holds the handle [h]. *)
Definition opened (fd : Z) (r : href) s (h : tVFS_Handle) : Prop :=
  slot fd s = Ok (Some r) s /\ holds r s h /\ h_Node h <> 0.

Lemma opened_read fd r s h : opened fd r s h -> VFS_GetHandle fd s = Ok (Some r) s /\ hread r s = Ok h s.
Proof.
  intros (Hs & (t & Ht & Hg) & Hn). assert (hread r s = Ok h s) as Hr by (unfold hread; by rewrite Ht, Hg). split; [|done].
  unfold VFS_GetHandle. rewrite (bind_Ok _ _ _ _ _ Hs), (bind_Ok _ _ _ _ _ Hr). by rewrite (proj2 (Z.eqb_neq _ 0)).
Qed.

Lemma opened_same fd r s s' h : opened fd r s h -> same_tables s s' -> opened fd r s' h.
Proof.
  intros (Hs & Hh & Hn) Ht. split_and!; [|by apply (holds_same _ s)|done]. eapply slot_env; [|exact Hs]. apply Ht.
Qed.

(** Storing a handle for the same node. *)
Lemma opened_write fd r s h h' : opened fd r s h -> h_Node h' <> 0 -> exists s', hwrite r h' s = Ok tt s' /\ opened fd r s' h' /\
  v_nodes s' = v_nodes s /\ v_ext s' = v_ext s /\ v_alloc s' = v_alloc s.
Proof.
  intros (Hs & (t & Ht & Hg) & Hn) Hn'. unfold hwrite. rewrite Ht.
  assert (0 <= hindex r < len t) as Hr.
  { unfold get in Hg. destruct (Z.leb_spec 0 (hindex r)); [|done]. apply lookup_lt_Some in Hg. unfold len. lia. }
  destruct (set_ok t (hindex r) h' Hr) as (t' & Ht' & _ & Hget). rewrite Ht'. exists (upd_table r t' s). split; [done|].
  assert (holds r (upd_table r t' s) h') as Hh. { exists t'. split; [by destruct r|]. by rewrite Hget, Z.eqb_refl. }
  assert (slot fd (upd_table r t' s) = Ok (Some r) (upd_table r t' s)) as Hs' by (eapply slot_env; [|exact Hs]; by destruct r).
  destruct r; by split_and!.
Qed.

Lemma quiet_run {A} (c : VM ramfs A) s x s' : quiet_op c -> c s = Ok x s' -> quiet s s'.
Proof. intros Hq Hc. specialize (Hq s). unfold safe in Hq. by rewrite Hc in Hq. Qed.

Lemma type_file n fl b p : node_is n p (MkA fl (AFile b)) -> forall s, type_of n s = Ok (Some (file_type junk)) s.
Proof. intros (_ & Ht & _) s. unfold type_of. rewrite Ht. done. Qed.

(** Writing at an offset inside the file or at its end, with memory. *)
Lemma WriteAt_spec s a fd r h p fl b o d : is_tree s a -> a !! p = Some (MkA fl (AFile b)) -> opened fd r s h -> h_Node h = p ->
  flag (h_Mode h) VFS_OPENFLAG_WRITE = true -> flag fl VFS_FFLAG_DIRECTORY = false -> 0 <= o <= len b ->
  o + len d <= MAX_FILE_SIZE -> default true (head (v_alloc s)) = true ->
  exists s', VFS_WriteAt fd o (len d) d s = Ok (len d) s' /\ opened fd r s' h /\ is_tree s' (<[p := MkA fl (AFile (splice b o d))]> a).
Proof.
  intros Ht Hp Hop Hh Hw Hfl Ho Hmax Hal. destruct (opened_read _ _ _ _ Hop) as [Hg Hr].
  destruct (tree_file _ _ _ _ _ Ht Hp) as (f & n & _ & Hbl & _ & Hn & Hni & _). pose proof Hni as (I1 & I2 & I3 & I4).
  pose proof (len_nonneg d). unfold asize in I3. cbn [a_data a_flags] in I3, I4.
  unfold VFS_WriteAt. rewrite (bind_Ok _ _ _ _ _ Hg), (bind_Ok _ _ _ _ _ Hr), Hw. cbn [negb].
  rewrite Hh, (bind_Ok _ _ _ _ _ (node_ok _ _ _ Hn)), I4, Hfl, (bind_Ok _ _ _ _ _ (type_file _ _ _ _ Hni s)). cbn [file_type t_Write].
  rewrite I3, (proj2 (Z.ltb_ge (len b) o)), andb_false_r by lia.
  rewrite (bind_Ok _ _ _ (len d) s).
  2:{ unfold write_length. rewrite (bind_Ok _ _ _ _ _ (node_ok _ _ _ Hn)). cbn [t_Truncate]. by case_match. }
  destruct (Write_spec junk s a p fl b o d Ht Hp) as (v & s' & a' & Hwr & Hst & Ht'); [lia..|].
  assert (quiet s s') as Hq.
  { eapply quiet_run; [|exact Hwr]. destruct (quiet_types (FS := the_rootfs) 2 (file_type junk) eq_refl) as (_ & _ & _ & _ & Hqw & _). by apply Hqw. }
  exists s'. assert (v = len d /\ a' = <[p := MkA fl (AFile (splice b o d))]> a) as [-> ->].
  { rewrite Hal in Hst. inversion Hst; subst; simplify_map_eq; split; try done; lia. }
  split_and!; [exact Hwr| |done]. eapply opened_same; [done|apply Hq].
Qed.

Lemma sub_splice b o d : 0 <= o <= len b -> sub o (len d) (splice b o d) = d.
Proof.
  intros Ho. unfold sub, splice, len in *. rewrite drop_app_length' by (rewrite length_take; lia).
  by rewrite Nat2Z.id, take_app_length.
Qed.

(** C13: Round trip through the VFS and the root filesystem.  On a descriptor open for reading and writing on a
    file of the root filesystem, VFS_Write at a position inside the file or at its end stores the data, VFS_Seek returns to the
    position and VFS_Read of as many bytes gives the data back; the file's contents are the old ones with the data in their place, every other
    file is as it was, and the position is after the data. *)
Theorem write_seek_read s a fd r h p fl b d : is_tree s a -> a !! p = Some (MkA fl (AFile b)) -> opened fd r s h -> h_Node h = p ->
  flag (h_Mode h) VFS_OPENFLAG_READ = true -> flag (h_Mode h) VFS_OPENFLAG_WRITE = true -> flag fl VFS_FFLAG_DIRECTORY = false ->
  0 <= h_Position h <= len b -> h_Position h + len d <= MAX_FILE_SIZE -> default true (head (v_alloc s)) = true ->
  exists s1 s2 s3, VFS_Write fd (len d) d s = Ok (len d) s1 /\ VFS_Seek fd (h_Position h) 1 s1 = Ok 0 s2 /\
    VFS_Read fd (len d) s2 = Ok (len d, d) s3 /\
    is_tree s3 (<[p := MkA fl (AFile (splice b (h_Position h) d))]> a) /\
    opened fd r s3 (MkHandle p (h_Mount h) (h_Position h + len d) (h_Mode h)).
Proof.
  intros Ht Hp Hop Hh Hrd Hwr Hfl Ho Hmax Hal. set (o := h_Position h) in *. pose proof (len_nonneg d).
  destruct (WriteAt_spec s a fd r h p fl b o d) as (s1 & Hw & Hop1 & Ht1); try done. set (a1 := <[p := _]> a) in *.
  assert (a1 !! p = Some (MkA fl (AFile (splice b o d)))) as Hp1 by apply lookup_insert_eq.
  destruct (opened_read _ _ _ _ Hop) as [Hg Hr]. destruct (opened_read _ _ _ _ Hop1) as [Hg1 Hr1].
  destruct (tree_file _ _ _ _ _ Ht1 Hp1) as (f1 & n1 & Hpr & _ & _ & Hn1 & Hni1 & _).
  set (hp x := MkHandle p (h_Mount h) x (h_Mode h)).
  destruct (opened_write fd r s1 h (hp (o + len d)) Hop1) as (s2 & Hw2 & Hop2 & E1 & E2 & E3); [cbn; lia|].
  assert (is_tree s2 a1) as Ht2 by (unfold is_tree; by rewrite E1, E2).
  destruct (opened_read _ _ _ _ Hop2) as [Hg2 Hr2].
  destruct (opened_write fd r s2 _ (hp o) Hop2) as (s3 & Hw3 & Hop3 & F1 & F2 & F3); [cbn; lia|].
  assert (is_tree s3 a1) as Ht3 by (unfold is_tree; by rewrite F1, F2).
  destruct (opened_read _ _ _ _ Hop3) as [Hg3 Hr3].
  destruct (opened_write fd r s3 _ (hp (o + len d)) Hop3) as (s4 & Hw4 & Hop4 & G1 & G2 & G3); [cbn; lia|].
  exists s2, s3, s4. split_and!; [| | | |done].
  - unfold VFS_Write. rewrite (bind_Ok _ _ _ _ _ Hg), (bind_Ok _ _ _ _ _ Hr). fold o. rewrite (bind_Ok _ _ _ _ _ Hw).
    rewrite (proj2 (Z.eqb_neq (len d) SIZE_ERR)) by lia. rewrite (bind_Ok _ _ _ _ _ Hr1), Hh, (bind_Ok _ _ _ _ _ (node_ok _ _ _ Hn1)).
    rewrite (bind_Ok _ _ _ _ _ (type_file _ _ _ _ Hni1 s1)). cbn [file_type t_Flags]. rewrite u64_small by lia.
    by rewrite (bind_Ok _ _ _ _ _ Hw2).
  - unfold VFS_Seek. rewrite (bind_Ok _ _ _ _ _ Hg2), (bind_Ok _ _ _ _ _ Hr2). cbn [h_Node hp]. rewrite <- E1 in Hn1.
    rewrite (bind_Ok _ _ _ _ _ (node_ok _ _ _ Hn1)), (bind_Ok _ _ _ _ _ (type_file _ _ _ _ Hni1 s2)). cbv zeta. rewrite !(u64_small o) by lia.
    exact (bind_Ok _ (fun _ => ret 0) _ _ _ Hw3).
  - unfold VFS_Read. rewrite (bind_Ok _ _ _ _ _ Hg3), (bind_Ok _ _ _ _ _ Hr3). cbn [h_Node h_Mode h_Position hp]. rewrite Hrd. cbn [negb].
    rewrite <- E1, <- F1 in Hn1. rewrite (bind_Ok _ _ _ _ _ (node_ok _ _ _ Hn1)). pose proof Hni1 as (_ & _ & _ & I4). cbn in I4. rewrite I4, Hfl.
    rewrite (bind_Ok _ _ _ _ _ (type_file _ _ _ _ Hni1 s3)). cbn [option_map file_type t_Read].
    pose proof (Read_spec s3 a1 p fl _ o (len d) Ht3 Hp1) as HR. rewrite sub_splice in HR by lia.
    assert (Root_Read p o (len d) (io_flags (h_Mode h)) s3 = Ok (len d, d) s3) as HR' by (apply HR; lia).
    rewrite (bind_Ok _ _ _ _ _ HR'). cbn [fst snd]. rewrite (proj2 (Z.eqb_neq (len d) SIZE_ERR)) by lia.
    rewrite (bind_Ok _ _ _ _ _ Hr3). cbn [h_Node h_Mode h_Position h_Mount hp]. rewrite u64_small by lia. by rewrite (bind_Ok _ _ _ _ _ Hw4).
  - unfold is_tree. by rewrite G1, G2.
Qed.
End descriptors.

(** A state with an empty file and a descriptor for it. *)
Lemma one_file : exists s a c, is_tree s a /\ a !! c = Some (MkA 0 (AFile [])) /\
  opened 0 (HUser 0) s (MkHandle c 0 0 6) /\ v_alloc s = [].
Proof.
  destruct (boot_tree 0 4 []) as (s1 & _ & Ht & Ha).
  assert (Forall (fun c => c <> 0) [97]) as Hs by (by repeat constructor).
  destruct (MkNod_spec s1 empty_tree 1 VFS_FFLAG_DIRECTORY [] [97] 0 Ht eq_refl Hs) as (c & s2 & _ & Hc & Hr & Ha2 & Ht2);
    [done|done|done|vm_compute; lia|].
  assert (c <> 1) as Hne by (intros ->; by vm_compute in Hc).
  exists (upd_maxfd 4 (upd_user (Some [MkHandle c 0 0 6]) s2)), (<[1 := MkA VFS_FFLAG_DIRECTORY (ADir [([97], c)])]> (<[c := new_node 0]> empty_tree)), c.
  split_and!; [done| | |by rewrite <- Ha, <- Ha2].
  - by rewrite lookup_insert_ne, lookup_insert_eq by done.
  - split_and!; [done|by exists [MkHandle c 0 0 6]|cbn; lia].
Qed.

Lemma write_seek_read_witness : exists s s1 s2 s3 : vfs ramfs, VFS_Write (FS := rootfs 0) 0 2 [104; 105] s = Ok 2 s1 /\
  VFS_Seek (FS := rootfs 0) 0 0 1 s1 = Ok 0 s2 /\ VFS_Read (FS := rootfs 0) 0 2 s2 = Ok (2, [104; 105]) s3.
Proof.
  destruct one_file as (s & a & c & Ht & Hc & Hop & Ha). exists s.
  destruct (write_seek_read 0 s a 0 (HUser 0) (MkHandle c 0 0 6) c 0 [] [104; 105]) as (s1 & s2 & s3 & H1 & H2 & H3 & _);
    [exact Ht|exact Hc|exact Hop|reflexivity|reflexivity|reflexivity|reflexivity|split; vm_compute; discriminate|vm_compute; discriminate|rewrite Ha; reflexivity|].
  exists s1, s2, s3. split; [exact H1|]. split; [exact H2|exact H3].
Defined.
