(* ===== verification/VfsLookup.v ===== *)
(** Path lookup: which mount a path belongs to, and that the walk over the path's
    elements is the walk over the tree of the root filesystem. *)
From S2P Require Import Prelude CString VfsAcl VfsPath VfsState VfsOpen VfsIo VfsMount VfsInv VfsSafe VfsTables VfsOps VfsSystem VfsRam VfsProps.

Local Open Scope Z_scope.
Local Open Scope monad_scope.

(** ** The walk over a tree *)
Module Lookup.

(** A file name: not empty, without slash or terminator. *)
Definition name_ok (n : list Z) : Prop := n <> [] /\ Forall (fun c => c <> 0 /\ c <> cSLASH) n.

(** The node at [n :: ns] below the directory [cur]. *)
Fixpoint resolve (a : tree) (cur : Z) (n : list Z) (ns : list (list Z)) : option Z :=
  match a !! cur with
  | Some (MkA _ (ADir l)) =>
      let c := entry l n in
      if c =? 0 then None else
      match ns with
      | [] => Some c
      | n' :: ns' =>
          match a !! c with
          | Some (MkA fl _) => if flag fl VFS_FFLAG_DIRECTORY then resolve a c n' ns' else None
          | None => None
          end
      end
  | _ => None
  end.

(** A tree without symbolic links whose directories are marked as such. *)
Definition plain (a : tree) : Prop := forall p x, a !! p = Some x ->
  flag (a_flags x) VFS_FFLAG_SYMLINK = false /\ (flag (a_flags x) VFS_FFLAG_DIRECTORY = true -> exists l, a_data x = ADir l).

End Lookup.
Export Lookup.

Section walk.
Context (junk : Z).
#[local] Instance walk_rootfs : Filesystems ramfs := rootfs junk.
Implicit Types (s : vfs ramfs) (a : tree).

Lemma strpos_name n r : Forall (fun c => c <> 0 /\ c <> cSLASH) n ->
  strpos (n ++ r) cSLASH = (fun k => if k =? -1 then -1 else k + len n) <$> strpos r cSLASH.
Proof.
  induction 1 as [|c n [Hc Hs] _ IH]; cbn [app strpos].
  - destruct (strpos r cSLASH) as [k|]; [|done]. cbn. destruct (Z.eqb_spec k (-1)); [congruence|]. f_equal. change (len []) with 0. lia.
  - rewrite (proj2 (Z.eqb_neq c 0)), (proj2 (Z.eqb_neq c cSLASH)) by done. rewrite IH. destruct (strpos r cSLASH) as [k|] eqn:Hk; [|done]. cbn.
    assert (-1 <= k) as Hk1.
    { clear -Hk. revert k Hk. induction r as [|d r IH]; cbn [strpos]; [done|]. intros k. repeat case_match; [by intros [= <-]|intros [= <-]; lia|].
      destruct (strpos r cSLASH) as [j|]; [|done]. cbn. specialize (IH j eq_refl). case_match; intros [= <-]; lia. }
    destruct (Z.eqb_spec k (-1)); [done|]. pose proof (len_nonneg n). rewrite len_cons. destruct (Z.eqb_spec (k + len n) (-1)); [lia|]. f_equal. lia.
Qed.

Lemma close_in_tree s a p : is_tree s a -> p = 0 \/ is_Some (a !! p) -> _CloseNode p s = Ok tt s.
Proof.
  intros Ht Hp. unfold _CloseNode. destruct (Z.eqb_spec p 0) as [->|Hne]; [done|]. destruct Hp as [?|[x Hx]]; [done|].
  destruct (t_node _ _ _ Ht _ _ Hx) as (f & n & _ & Hn & (_ & Hty & _) & _). rewrite (bind_Ok _ _ _ _ _ (node_ok _ _ _ Hn)).
  unfold type_of. rewrite Hty. unfold atype. by destruct (a_data x).
Qed.

Lemma acl_root s p perm n : v_uid s = 0 -> v_nodes s !! p = Some n -> CheckACL p perm s = Ok true s.
Proof. intros Hu Hn. unfold CheckACL. rewrite (bind_Ok _ _ _ _ _ (node_ok _ _ _ Hn)), bind_get, Hu. done. Qed.

(** What VFS_ParsePath does with the end of the walk. *)
Definition finish_walk (Path : list Z) (m : Z) (w : walked) : VM ramfs parsed :=
  match w with
  | WErr cur => parse_error m cur
  | WEnd cur ofs tp => parse_last Path m cur ofs tp
  | WLink _ _ _ => halt SLoop
  end.

Definition give_up_mount (m : Z) : VM ramfs parsed := _DereferenceMount m;;; ret not_found.

Lemma error_in_tree s a m p : is_tree s a -> p = 0 \/ is_Some (a !! p) -> parse_error m p s = give_up_mount m s.
Proof. intros Ht Hp. unfold parse_error. by rewrite (bind_Ok _ _ _ _ _ (close_in_tree _ _ _ Ht Hp)). Qed.

(** The directory step of the walk. *)
Lemma find_in_tree s a cur fl l name : is_tree s a -> a !! cur = Some (MkA fl (ADir l)) -> Forall (fun c => c <> 0) name ->
  exists n, node_at cur s = Ok n s /\ type_of n s = Ok (Some dir_type) s /\ Root_FindDir cur (name ++ [0]) 0 s = Ok (entry l name) s /\
    (entry l name = 0 \/ is_Some (a !! entry l name)).
Proof.
  intros Ht Hc Hs. destruct (t_node _ _ _ Ht _ _ Hc) as (f & n & _ & Hn & (_ & Hty & _) & _). exists n. split_and!.
  - by apply node_ok.
  - unfold type_of. by rewrite Hty.
  - by eapply FindDir_spec.
  - destruct (decide (entry l name = 0)); [by left|right]. apply (t_kids _ _ _ Ht _ _ _ Hc). apply list_elem_of_fmap.
    exists (name, entry l name). split; [done|]. by apply entry_in.
Qed.

Lemma last_in_tree s a Path m cur fl l ofs name : is_tree s a -> a !! cur = Some (MkA fl (ADir l)) -> Forall (fun c => c <> 0) name ->
  drop (Z.to_nat ofs) Path = name ++ [0] ->
  parse_last Path m cur ofs None s =
    (if entry l name =? 0 then give_up_mount m (upd_errno ENOENT s) else Ok (MkParsed (entry l name) None m) s).
Proof.
  intros Ht Hc Hs Hd. destruct (find_in_tree _ _ _ _ _ _ Ht Hc Hs) as (n & Hn & Hty & Hf & _). unfold parse_last.
  rewrite (bind_Ok _ _ _ _ _ Hn), (bind_Ok _ _ _ _ _ Hty), Hd. cbn [option_map dir_type t_FindDir]. rewrite (bind_Ok _ _ _ _ _ Hf).
  destruct (entry l name =? 0) eqn:He.
  - rewrite (bind_Ok (set_errno ENOENT) _ _ tt _ eq_refl). apply (error_in_tree _ a); [done|right; by eexists].
  - rewrite (bind_Ok _ _ _ _ _ (close_in_tree _ _ cur Ht (or_intror (mk_is_Some _ _ Hc)))). done.
Qed.

Lemma walk_tree a Path m ns : forall n fuel ofs cur fl l s, is_tree s a -> plain a -> v_uid s = 0 ->
  a !! cur = Some (MkA fl (ADir l)) -> Forall name_ok (n :: ns) -> 0 <= ofs ->
  drop (Z.to_nat ofs) Path = n ++ render ns ++ [0] -> (length ns < fuel)%nat ->
  exists w s' e, walk fuel Path ofs cur None s = Ok w s' /\ (forall c o k, w <> WLink c o k) /\
    finish_walk Path m w s' = match resolve a cur n ns with
                              | Some c => Ok (MkParsed c None m) s
                              | None => give_up_mount m (upd_errno e s)
                              end.
Proof.
  induction ns as [|n' ns IH]; intros n fuel ofs cur fl l s Ht Hpl Hu Hc Hok Ho Hd Hfuel; (destruct fuel as [|fuel]; [lia|]); cbn [walk];
    apply Forall_cons_1 in Hok as [[Hne Hn] Hok]; rewrite Hd, (strpos_name n _ Hn);
    assert (Forall (fun c => c <> 0) n) as Hn0 by (eapply Forall_impl; [exact Hn|]; naive_solver).
  - change (strpos (render [] ++ [0]) cSLASH) with (Some (-1)). cbn [fmap option_fmap option_map lift]. rewrite bind_ret. cbn [Z.eqb Pos.eqb].
    exists (WEnd cur ofs None), s, ENOENT. split; [done|]. split; [done|]. cbn [finish_walk resolve]. rewrite Hc.
    rewrite (last_in_tree s a Path m cur fl l ofs n Ht Hc Hn0 Hd). by case_match.
  - assert (0 < len n) as Hlen by (destruct n; [done|rewrite len_cons; pose proof (len_nonneg n); lia]).
    change (strpos (render (n' :: ns) ++ [0]) cSLASH) with (Some 0). cbn [fmap option_fmap option_map lift]. rewrite bind_ret.
    change (0 =? -1) with false. cbv iota.
    rewrite (proj2 (Z.eqb_neq (0 + len n) (-1))), (proj2 (Z.eqb_neq (0 + len n) 0)) by lia. cbn zeta.
    replace (sub ofs (0 + len n) Path) with n.
    2:{ unfold sub. rewrite Hd. unfold len. rewrite Z.add_0_l, Nat2Z.id. by rewrite take_app_length. }
    destruct (find_in_tree _ _ _ _ _ _ Ht Hc Hn0) as (nd & Hnd & Hty & Hf & Hkid).
    assert (v_nodes s !! cur = Some nd) as Hnd' by (unfold node_at in Hnd; destruct (v_nodes s !! cur); naive_solver).
    rewrite (bind_Ok _ _ _ _ _ (acl_root _ _ _ _ Hu Hnd')). cbn [negb].
    rewrite (bind_Ok _ _ _ _ _ Hnd), (bind_Ok _ _ _ _ _ Hty). cbn [t_FindDir dir_type]. rewrite (bind_Ok _ _ _ _ _ Hf).
    rewrite (bind_Ok _ _ _ _ _ (close_in_tree _ _ cur Ht (or_intror (mk_is_Some _ _ Hc)))). cbn [resolve]. rewrite Hc. cbv zeta.
    destruct (Z.eqb_spec (entry l n) 0) as [He|He].
    { exists (WErr 0), (upd_errno ENOENT s), ENOENT. split; [done|]. split; [done|]. cbn [finish_walk]. apply (error_in_tree _ a); [done|by left]. }
    destruct Hkid as [?|[x Hx]]; [done|]. rewrite Hx. destruct (t_node _ _ _ Ht _ _ Hx) as (g & nc & _ & Hnc & (_ & _ & _ & Hfl) & _).
    rewrite (bind_Ok _ _ _ _ _ (node_ok _ _ _ Hnc)), Hfl. destruct (Hpl _ _ Hx) as [-> Hdir]. destruct x as [flx dx]. cbn [a_flags a_data] in *.
    destruct (flag flx VFS_FFLAG_DIRECTORY); cbn [negb].
    + destruct (Hdir eq_refl) as [lx ->]. apply (IH n' fuel _ _ flx lx s); try done; [lia| |cbn in Hfuel; lia].
      replace (Z.to_nat (ofs + (0 + len n) + 1)) with (Z.to_nat ofs + (length n + 1))%nat by (unfold len; lia).
      rewrite <- drop_drop, Hd, <- drop_drop, drop_app_length. change (render (n' :: ns)) with (cSLASH :: n' ++ render ns).
      cbn [app drop]. by rewrite <- app_assoc.
    + eexists (WErr _), (upd_errno ENOTDIR s), ENOTDIR. split; [done|]. split; [done|]. cbn [finish_walk]. apply (error_in_tree _ a); [done|right; by eexists].
Qed.

Lemma tree_refcount s a p n f : is_tree s a -> v_nodes s !! p = Some n -> is_tree (upd_nodes (<[p := upd_refcount f n]> (v_nodes s)) s) a.
Proof.
  intros [T1 T2 T3 T4 T5 T6] Hn. split; try done.
  - intros q Hq. cbn. destruct (decide (q = p)) as [->|]; [by rewrite lookup_insert_eq|]. rewrite lookup_insert_ne by done. by apply T2.
  - intros q x Hx. destruct (T5 q x Hx) as (g & n' & Hg & Hn' & Hi & Hf). cbn. destruct (decide (q = p)) as [->|].
    + rewrite Hn in Hn'. injection Hn' as <-. exists g, (upd_refcount f n). by rewrite lookup_insert_eq.
    + exists g, n'. by rewrite lookup_insert_ne.
Qed.

Lemma render_cons n ns : render (n :: ns) = cSLASH :: n ++ render ns.
Proof. done. Qed.

Lemma render_length ns : (length ns <= length (render ns))%nat.
Proof. induction ns as [|k ns IH]; [done|]. rewrite render_cons. cbn [length]. rewrite length_app. lia. Qed.

(** The root mount, as the lookup finds it. *)
Definition on_root s (m : Z) (x : tVFS_Mount) : Prop :=
  v_list s = [m] /\ v_root s = m /\ m <> 0 /\ v_mounts s !! m = Some x /\ MountPointLen x = 0.

Lemma mount_ok {E} (s : vfs E) m x : v_mounts s !! m = Some x -> m <> 0 -> mount_at m s = Ok x s.
Proof. intros Hx Hm. unfold mount_at. by rewrite (proj2 (Z.eqb_neq m 0)), Hx. Qed.

Definition INT_MAX : Z := 2147483647.
Lemma int_result_ok {E B} (s : vfs E) n (k : Z -> VM E B) : -2147483648 <= n <= 2147483647 -> bind (int_result n) k s = k n s.
Proof. intros Hn. unfold int_result. rewrite i32_small, Z.eqb_refl by lia. apply bind_ret. Qed.

Lemma find_root s m x c1 r1 : on_root s m x -> find_mount junk (cSLASH :: c1 :: r1) [m] m s = Ok (m, false) s.
Proof.
  intros (Hl & Hr & Hm & Hx & Hlen). cbn [find_mount]. rewrite (bind_Ok _ _ _ _ _ (mount_ok _ _ _ Hx Hm)), Hlen. unfold path_at.
  change (get (cSLASH :: c1 :: r1) 0) with (Some cSLASH). cbn [default from_option]. unfold id. rewrite Z.eqb_refl. cbn [negb andb].
  rewrite (bind_Ok _ _ _ _ _ (mount_ok _ _ _ Hx Hm)), Hlen. done.
Qed.

(** VFS_ParsePath up to the walk, which starts at the root with its mount referenced. *)
Lemma parse_to_walk s a m x c1 r1 fl l : let Path := cSLASH :: c1 :: r1 in is_tree s a -> v_uid s = 0 -> on_root s m x -> RootNode x = 1 -> 0 <= OpenHandleCount x < INT_MAX ->
  c1 <> 0 -> a !! 1 = Some (MkA fl (ADir l)) ->
  exists s2, is_tree s2 a /\ v_uid s2 = 0 /\ v_mounts s2 = <[m := set_count (OpenHandleCount x + 1) x]> (v_mounts s) /\
    forall w s' , walk (S (length Path)) Path (0 + 1) 1 None s2 = Ok w s' -> (forall c o k, w <> WLink c o k) ->
      VFS_ParsePath junk Path false s = finish_walk Path m w s'.
Proof.
  intros Path Ht Hu Hr Hrn Hcnt Hc1 Hd. pose proof (find_root s m x c1 r1 Hr) as Hfm. destruct Hr as (Hl & Hroot & Hm & Hx & Hlen).
  set (s1 := upd_mounts (<[m := set_count (OpenHandleCount x + 1) x]> (v_mounts s)) s).
  assert (_ReferenceMount m s = Ok tt s1) as Hinc.
  { unfold _ReferenceMount, mount_inc. rewrite (bind_Ok _ _ _ _ _ (mount_ok _ _ _ Hx Hm)). unfold INT_MAX in Hcnt. by rewrite int_result_ok by lia. }
  destruct (t_node _ _ _ Ht _ _ Hd) as (f & nd & _ & Hnd & _). assert (v_nodes s1 !! 1 = Some nd) as Hnd1 by done.
  exists (upd_nodes (<[1 := upd_refcount (fun c => c + 1) nd]> (v_nodes s1)) s1).
  split_and!; [by apply (tree_refcount s1)|done|done|]. intros w s' Hw Hnl.
  unfold VFS_ParsePath. rewrite bind_get, Hu, Z.eqb_refl. cbn [andb]. unfold path_at at 1.
  change (get Path 0) with (Some cSLASH). cbn [default from_option id]. change (cSLASH =? cDOLLAR) with false. cbv iota.
  cbn [parse_restart path_mem]. rewrite bind_get. unfold path_at at 1 2.
  change (get Path 0) with (Some cSLASH). change (get Path 1) with (Some c1). cbn [default from_option].
  unfold id. rewrite Z.eqb_refl, (proj2 (Z.eqb_neq c1 0)) by done. cbn [andb]. rewrite Hl, Hroot.
  rewrite (bind_Ok _ _ _ _ _ Hfm), (bind_Ok _ _ _ _ _ (mount_ok _ _ _ Hx Hm)), (bind_Ok _ _ _ _ _ Hinc), bind_ret, Hrn, Hlen.
  rewrite (bind_Ok _ _ _ _ _ (node_ok _ _ _ Hnd1)), (bind_Ok (put_node 1 _) _ _ tt _ eq_refl).
  erewrite bind_Ok by exact Hw. destruct w; try done. by destruct (Hnl curNode ofs nextSlash).
Qed.

Lemma give_up_ok s m x : v_mounts s !! m = Some x -> m <> 0 -> 0 < OpenHandleCount x <= INT_MAX ->
  give_up_mount m s = Ok not_found (upd_mounts (<[m := set_count (OpenHandleCount x - 1) x]> (v_mounts s)) s).
Proof.
  intros Hx Hm Hc. unfold give_up_mount, _DereferenceMount, mount_dec. rewrite bind_assoc, (bind_Ok _ _ _ _ _ (mount_ok _ _ _ Hx Hm)). unfold ASSERT.
  rewrite (proj2 (Z.ltb_lt 0 _)) by lia. rewrite bind_assoc, bind_ret, bind_assoc, (bind_Ok _ _ _ _ _ (mount_ok _ _ _ Hx Hm)). unfold INT_MAX in Hc. rewrite bind_assoc. by rewrite int_result_ok by lia.
Qed.

(** C10: For root (uid 0), with the root filesystem as the only mount, no symbolic links in its tree and a mount count
    below INT_MAX, VFS_ParsePath of an absolute path /n1/.../nk of non-empty names gives the node that the names lead to
    in the tree, with one more reference on the mount, when every name but the last is a directory and all exist;
    otherwise it gives no node and the count is unchanged. Permission checks of other users, crossing into other mounts
    and following links are not covered by it. *)
Theorem ParsePath_resolves s a m x n ns : is_tree s a -> plain a -> v_uid s = 0 -> on_root s m x -> RootNode x = 1 -> 0 <= OpenHandleCount x < INT_MAX ->
  (exists fl l, a !! 1 = Some (MkA fl (ADir l))) -> Forall name_ok (n :: ns) ->
  exists s', VFS_ParsePath junk (render (n :: ns) ++ [0]) false s =
      Ok (match resolve a 1 n ns with Some c => MkParsed c None m | None => not_found end) s' /\
    is_tree s' a /\
    v_mounts s' = <[m := set_count (OpenHandleCount x + b2z (bool_decide (is_Some (resolve a 1 n ns)))) x]> (v_mounts s).
Proof.
  intros Ht Hpl Hu Hr Hrn Hcnt (fl & l & Hd) Hok. pose proof Hr as (_ & _ & Hm & _).
  assert (exists c r, render (n :: ns) ++ [0] = cSLASH :: c :: r /\ c <> 0) as (c1 & r1 & HP & Hc1).
  { apply Forall_cons_1 in Hok as [[Hne Hn] _]. destruct n as [|c n]; [done|]. apply Forall_cons_1 in Hn as [[? ?] _]. eexists _, _. split; [reflexivity|done]. }
  destruct (parse_to_walk s a m x c1 r1 fl l Ht Hu Hr Hrn Hcnt Hc1 Hd) as (s2 & Ht2 & Hu2 & Hm2 & Hgo). rewrite <- HP in Hgo.
  set (Path := render (n :: ns) ++ [0]) in *.
  assert (drop (Z.to_nat (0 + 1)) Path = n ++ render ns ++ [0]) as Hdrop by (subst Path; rewrite render_cons; cbn [app]; by rewrite <- app_assoc).
  destruct (walk_tree a Path m ns n (S (length Path)) (0 + 1) 1 fl l s2) as (w & s' & e & Hw & Hnl & Hfin); try done.
  { subst Path. rewrite render_cons, length_app. cbn [length]. rewrite length_app. pose proof (render_length ns). lia. }
  rewrite (Hgo _ _ Hw Hnl), Hfin. destruct (resolve a 1 n ns) as [c|].
  - exists s2. by split_and!.
  - assert (v_mounts (upd_errno e s2) !! m = Some (set_count (OpenHandleCount x + 1) x)) as Hx2 by (cbn; by rewrite Hm2, lookup_insert_eq).
    eexists. split; [apply (give_up_ok _ _ _ Hx2 Hm); cbn; unfold INT_MAX in *; rewrite i32_small by lia; lia|]. split; [exact Ht2|]. cbn. rewrite Hm2, insert_insert_eq.
    f_equal. unfold set_count, INT_MAX in *. cbn. rewrite (i32_small (OpenHandleCount x + 1)) by lia. do 2 f_equal. lia.
Qed.
End walk.

(** The root filesystem with one file, mounted. *)
Lemma mounted_file : exists (s : vfs ramfs) a c x, is_tree s a /\ plain a /\ v_uid s = 0 /\ on_root s 65 x /\ RootNode x = 1 /\
  OpenHandleCount x = 0 /\ (exists fl l, a !! 1 = Some (MkA fl (ADir l))) /\ resolve a 1 [97] [] = Some c /\ resolve a 1 [98] [] = None.
Proof.
  destruct (boot_tree 0 4 []) as (s1 & _ & Ht & _).
  assert (Forall (fun c => c <> 0) [97]) as Hs by (by repeat constructor).
  destruct (MkNod_spec s1 empty_tree 1 VFS_FFLAG_DIRECTORY [] [97] 0 Ht eq_refl Hs) as (c & s2 & _ & Hc & Hr & _ & Ht2);
    [done|done|done|vm_compute; lia|].
  set (x := MkMount [cSLASH; 0] 0 0 [] [] 1 1 0). set (a := <[1 := _]> _) in Ht2.
  exists (MkVfs (v_nodes s2) {[65 := x]} [65] 65 0 None None [] ∅ [] 4 0 0 None None 0 [1] [] 66 (v_ext s2) [] []), a, c, x.
  assert (a !! 1 = Some (MkA VFS_FFLAG_DIRECTORY (ADir [([97], c)]))) as H1 by apply lookup_insert_eq.
  split_and!; try done.
  - intros p y. subst a. rewrite !lookup_insert_Some. intros [[_ <-]|[_ [[_ <-]|[_ Hy]]]]; cbn; [split; [done|by eexists]|done|].
    unfold empty_tree in Hy. apply lookup_singleton_Some in Hy as [_ <-]. cbn. split; [done|by eexists].
  - by eexists _, _.
  - cbn [resolve]. rewrite H1. cbn [entry]. rewrite decide_True by done. by rewrite (proj2 (Z.eqb_neq c 0)) by lia.
  - cbn [resolve]. by rewrite H1.
Qed.

Lemma ParsePath_resolves_witness : exists (s s1 s2 : vfs ramfs) c,
  VFS_ParsePath (FS := rootfs 0) 0 [cSLASH; 97; 0] false s = Ok (MkParsed c None 65) s1 /\
  VFS_ParsePath (FS := rootfs 0) 0 [cSLASH; 98; 0] false s = Ok not_found s2.
Proof.
  destruct mounted_file as (s & a & c & x & Ht & Hpl & Hu & Hr & Hrn & Hc & Hd & H1 & H2).
  assert (forall ch, ch <> 0 -> ch <> cSLASH -> Forall name_ok [[ch]]) as Hok by (intros ch ??; repeat constructor; done).
  destruct (ParsePath_resolves 0 s a 65 x [97] []) as (s1 & E1 & _); [exact Ht|exact Hpl|exact Hu|exact Hr|exact Hrn|unfold INT_MAX; lia|exact Hd|by apply Hok|].
  destruct (ParsePath_resolves 0 s a 65 x [98] []) as (s2 & E2 & _); [exact Ht|exact Hpl|exact Hu|exact Hr|exact Hrn|unfold INT_MAX; lia|exact Hd|by apply Hok|].
  rewrite H1 in E1. rewrite H2 in E2. exists s, s1, s2, c. split; [exact E1|exact E2].
Defined.

(** ** The mount of a path *)
Section mounts.
Context {E : Type}.
Context (junk : Z).
Implicit Types (s : vfs E) (p : list Z).

(** The part of a mount point that is compared: nothing of the root's. *)
Definition prefix_of (x : tVFS_Mount) : list Z := take (Z.to_nat (MountPointLen x)) (MountPoint x).

(** [x] is mounted on [p] or above it. *)
Definition covers (x : tVFS_Mount) p : Prop := exists r, p = prefix_of x ++ r /\ (r = [] \/ head r = Some cSLASH).

(** The mount point is a string; only for the root is its length not that of the string. *)
Definition mount_ok_at (x : tVFS_Mount) : Prop := 0 <= MountPointLen x /\
  exists q, str_of (MountPoint x) = Some q /\ MountPointLen x <= len q.

Lemma strncmp_loop_prefix k : forall p mp q, Forall (fun c => c <> 0) p -> str_of mp = Some q -> (S k <= length q)%nat ->
  exists v, strncmp_loop (S k) (p ++ [0]) mp = Some v /\ (v = 0 <-> exists r, p = take (S k) q ++ r).
Proof.
  induction k as [|k IH]; intros p mp q Hp Hq Hk; (destruct mp as [|d mp]; [done|]); cbn [str_of] in Hq;
    (destruct (Z.eqb_spec d 0) as [->|Hd]; [injection Hq as <-; cbn in Hk; lia|]); apply fmap_Some in Hq as (q' & Hq & ->); cbn [take].
  - exists (default 0 (head (p ++ [0])) - d). destruct p as [|c p]; cbn; (split; [done|]).
    + split; [lia|]. by intros [r ?].
    + split; [intros; exists p; f_equal; lia|]. intros [r [= -> ->]]. lia.
  - destruct p as [|c p]; cbn [app strncmp_loop].
    + exists (0 - d). split; [done|]. split; [lia|]. by intros [r ?].
    + apply Forall_cons_1 in Hp as [Hc Hp]. rewrite (proj2 (Z.eqb_neq c 0)) by done. cbn [negb andb]. destruct (Z.eqb_spec c d) as [->|Hne].
      * destruct (IH p mp q' Hp Hq) as (v & Hv & Hiff); [cbn in Hk; lia|]. exists v. split; [done|]. rewrite Hiff.
        split; intros [r Hr]; exists r; [by rewrite Hr|by injection Hr].
      * exists (c - d). split; [done|]. split; [lia|]. intros [r [= ? ?]]. done.
Qed.

Lemma strncmp_prefix x p : Forall (fun c => c <> 0) p -> mount_ok_at x ->
  exists v, strncmp (p ++ [0]) (MountPoint x) (MountPointLen x) = Some v /\ (v = 0 <-> exists r, p = prefix_of x ++ r).
Proof.
  intros Hp (Hk & q & Hq & Hkq). unfold strncmp, prefix_of. destruct (Z.eqb_spec (MountPointLen x) 0) as [->|Hne].
  - exists 0. split; [done|]. split; [intros _; by exists p|done].
  - destruct (str_of_split _ _ Hq) as (r & -> & Hnn). replace (Z.to_nat (MountPointLen x)) with (S (Z.to_nat (MountPointLen x - 1))) by lia.
    rewrite take_app_le by (unfold len in Hkq; lia). apply strncmp_loop_prefix; [done|by apply str_of_app|unfold len in Hkq; lia].
Qed.

Lemma len_prefix x : mount_ok_at x -> len (prefix_of x) = MountPointLen x.
Proof.
  intros (Hk & q & Hq & Hkq). unfold prefix_of. destruct (str_of_split _ _ Hq) as (r & -> & _). rewrite len_take, len_app by lia.
  pose proof (len_nonneg (0 :: r)). lia.
Qed.

Lemma covers_len x p : mount_ok_at x -> covers x p -> MountPointLen x <= len p.
Proof. intros Hx (r & -> & _). rewrite len_app, (len_prefix _ Hx). pose proof (len_nonneg r). lia. Qed.

(** The character after the mount point. *)
Lemma path_after x p r : mount_ok_at x -> p = prefix_of x ++ r -> path_at junk (p ++ [0]) (MountPointLen x) = default 0 (head r).
Proof.
  intros Hx ->. unfold path_at, get. rewrite <- (len_prefix x Hx), (proj2 (Z.leb_le 0 _)) by apply len_nonneg.
  unfold len. rewrite Nat2Z.id, <- app_assoc, lookup_app_r, Nat.sub_diag by lia. by destruct r.
Qed.

Lemma find_mount_best s p l : Forall (fun c => c <> 0) p -> forall longest,
  (forall m, m ∈ longest :: l -> m <> 0 /\ exists x, v_mounts s !! m = Some x /\ mount_ok_at x) ->
  (forall x, v_mounts s !! longest = Some x -> covers x p) ->
  exists m x exact, find_mount junk (p ++ [0]) l longest s = Ok (m, exact) s /\ m ∈ longest :: l /\ v_mounts s !! m = Some x /\ covers x p /\
    (forall m' y, m' ∈ longest :: l -> v_mounts s !! m' = Some y -> covers y p -> MountPointLen y <= MountPointLen x) /\
    (exact = true -> prefix_of x = p).
Proof.
  intros Hp. induction l as [|k l IH]; intros longest Hall Hcov; cbn [find_mount].
  { destruct (Hall longest) as (_ & x & Hx & _); [by left|]. exists longest, x, false. split_and!; try done; [by left|by apply Hcov|].
    intros m' y ->%list_elem_of_singleton Hy _. simplify_eq. lia. }
  destruct (Hall longest) as (Hn0 & x0 & Hx0 & Ho0); [by left|]. destruct (Hall k) as (Hk0 & x & Hx & Ho); [right; by left|].
  rewrite (bind_Ok _ _ _ _ _ (mount_ok _ _ _ Hx Hk0)). set (c := path_at junk (p ++ [0]) (MountPointLen x)).
  assert (~ covers x p \/ MountPointLen x <= MountPointLen x0 -> exists m y exact,
    find_mount junk (p ++ [0]) l longest s = Ok (m, exact) s /\ m ∈ longest :: k :: l /\ v_mounts s !! m = Some y /\ covers y p /\
    (forall m' z, m' ∈ longest :: k :: l -> v_mounts s !! m' = Some z -> covers z p -> MountPointLen z <= MountPointLen y) /\
    (exact = true -> prefix_of y = p)) as Hskip.
  { intros Hno. destruct (IH longest) as (m & y & exact & Hf & Hm & Hy & Hc & Hmax & He); [|done|].
    { intros m' Hm'. apply Hall. set_solver. }
    exists m, y, exact. split_and!; try done; [set_solver|]. intros m' z Hm' Hz Hcz.
    destruct (decide (m' ∈ longest :: l)) as [Hin|Hni]; [by eapply Hmax|]. assert (m' = k) as -> by set_solver. rewrite Hx in Hz. injection Hz as <-.
    destruct Hno as [?|Hle]; [done|]. etrans; [exact Hle|]. apply (Hmax longest); [by left|done|by apply Hcov]. }
  destruct (negb (c =? cSLASH) && negb (c =? 0)) eqn:Hc.
  { apply Hskip. left. intros (r & Hr & Hcase). subst c. rewrite (path_after x p r Ho Hr) in Hc. destruct Hcase as [->|Hh]; [done|]. by rewrite Hh in Hc. }
  rewrite (bind_Ok _ _ _ _ _ (mount_ok _ _ _ Hx0 Hn0)). destruct (Z.ltb_spec (MountPointLen x) (MountPointLen x0)) as [Hlt|Hge]; [apply Hskip; right; lia|].
  destruct (strncmp_prefix x p Hp Ho) as (v & Hv & Hiff). rewrite Hv. cbn [lift]. rewrite bind_ret. destruct (Z.eqb_spec v 0) as [->|Hne]; cbn [negb].
  2:{ apply Hskip. left. intros (r & Hr & _). apply Hne, Hiff. by exists r. }
  destruct (proj1 Hiff eq_refl) as [r Hr]. assert (c = default 0 (head r)) as Hcr by (by apply path_after).
  assert (covers x p) as Hcx. { exists r. split; [done|]. destruct r as [|d r]; [by left|right]. cbn in Hcr |- *.
    assert (d <> 0) as Hd by (rewrite Hr in Hp; apply Forall_app in Hp as [_ Hp]; by apply Forall_cons_1 in Hp as [? _]). rewrite Hcr in Hc.
    rewrite (proj2 (Z.eqb_neq d 0)) in Hc by done. destruct (Z.eqb_spec d cSLASH) as [Hd2|Hd2]; [by rewrite Hd2|done]. }
  destruct (Z.eqb_spec c 0) as [Hc0|Hc0].
  - assert (r = []) as ->. { destruct r as [|d r]; [done|]. rewrite Hr in Hp. apply Forall_app in Hp as [_ Hp]. apply Forall_cons_1 in Hp as [? _]. cbn in Hcr. congruence. }
    rewrite app_nil_r in Hr. exists k, x, true. split_and!; try done; [set_solver|]. intros m' y Hm' Hy Hcy.
    destruct (Hall m' Hm') as (_ & y' & Hy' & Hoy). rewrite Hy in Hy'. injection Hy' as <-. rewrite <- (len_prefix x Ho), <- Hr. by apply covers_len.
  - destruct (IH k) as (m & y & exact & Hf & Hm & Hy & Hcy & Hmax & He).
    { intros m' Hm'. apply Hall. set_solver. }
    { intros y Hy. rewrite Hx in Hy. by injection Hy as <-. }
    exists m, y, exact. split_and!; try done; [set_solver|]. intros m' z Hm' Hz Hcz.
    destruct (decide (m' ∈ k :: l)) as [Hin|Hni]; [by eapply Hmax|]. assert (m' = longest) as -> by set_solver. rewrite Hx0 in Hz. injection Hz as <-.
    etrans; [exact Hge|]. apply (Hmax k); [by left|done|done].
Qed.
End mounts.

(** The mount of a path.  The search of VFS_ParsePath over the mount list, from the root mount, returns the mount
    whose mount point is the longest that is the path or an ancestor directory of it, whatever is in memory after the path's
    end, and reports an exact match only for the path itself. *)
Theorem find_mount_longest {E} junk (s : vfs E) p root y : Forall (fun c => c <> 0) p -> head p = Some cSLASH ->
  (forall m, m ∈ root :: v_list s -> m <> 0 /\ exists x, v_mounts s !! m = Some x /\ mount_ok_at x) ->
  v_mounts s !! root = Some y -> MountPointLen y = 0 ->
  exists m x exact, find_mount junk (p ++ [0]) (v_list s) root s = Ok (m, exact) s /\ m ∈ root :: v_list s /\ v_mounts s !! m = Some x /\ covers x p /\
    (forall m' z, m' ∈ v_list s -> v_mounts s !! m' = Some z -> covers z p -> MountPointLen z <= MountPointLen x) /\
    (exact = true -> prefix_of x = p).
Proof.
  intros Hp Hs Hall Hy H0. destruct (find_mount_best junk s p (v_list s) Hp root Hall) as (m & x & exact & H1 & H2 & H3 & H4 & H5 & H6).
  - intros x Hx. rewrite Hy in Hx. injection Hx as <-. exists p. unfold prefix_of. rewrite H0. by split; [|right].
  - exists m, x, exact. split_and!; try done. intros m' z Hm'. apply H5. by right.
Qed.

Lemma find_mount_longest_witness : find_mount (E := unit) 255 ([cSLASH; 97; cSLASH; 98] ++ [0]) [1; 2; 3] 1
  (MkVfs ∅ {[1 := MkMount [cSLASH; 0] 0 0 [] [] 1 1 0; 2 := MkMount [cSLASH; 97; 0] 2 1 [] [] 1 1 0; 3 := MkMount [cSLASH; 97; cSLASH; 99; 0] 4 2 [] [] 1 1 0]}
     [1; 2; 3] 1 0 None None [] ∅ [] 4 0 0 None None 0 [1] [] 66 tt [] []) =
  Ok (2, false) (MkVfs ∅ {[1 := MkMount [cSLASH; 0] 0 0 [] [] 1 1 0; 2 := MkMount [cSLASH; 97; 0] 2 1 [] [] 1 1 0; 3 := MkMount [cSLASH; 97; cSLASH; 99; 0] 4 2 [] [] 1 1 0]}
     [1; 2; 3] 1 0 None None [] ∅ [] 4 0 0 None None 0 [1] [] 66 tt [] []).
Proof.
  set (s := MkVfs _ _ _ _ _ _ _ _ _ _ _ _ _ _ _ _ _ _ _ _ _ _).
  destruct (find_mount_longest 255 s [cSLASH; 97; cSLASH; 98] 1 (MkMount [cSLASH; 0] 0 0 [] [] 1 1 0)) as (m & x & exact & H1 & _).
  - by repeat constructor.
  - reflexivity.
  - intros m Hm. assert (m = 1 \/ m = 2 \/ m = 3) as [-> | [-> | ->] ] by (cbn in Hm; set_solver); (split; [lia|]); eexists; (split; [reflexivity|]);
      (split; [cbn; lia|]); eexists; (split; [reflexivity|]); vm_compute; discriminate.
  - reflexivity.
  - reflexivity.
  - change (find_mount 255 ([cSLASH; 97; cSLASH; 98] ++ [0]) (v_list s) 1 s = Ok (2, false) s). rewrite H1. vm_compute in H1. by injection H1 as <- <-.
Defined.
