(* ===== verification/VfsMem.v ===== *)
(** Memory files ([KernelLand/Kernel/vfs/memfile.c]) and the paths that name them
    (VFS_GetMemPath of [main.c]). *)
From S2P Require Import Prelude CString Arith Number VfsAcl VfsPath VfsState VfsOpen VfsIo.

Local Open Scope Z_scope.
Local Open Scope monad_scope.

Module MemFile.

Abbreviation BITS := 32 (only parsing).

(** [itoa] into a buffer from an offset on. *)
Definition itoa_at (Dest : list Z) (ofs num : Z) : option (list Z) :=
  r ← itoa (drop (Z.to_nat ofs) Dest) num 16 (BITS / 4) c_0;
  Some (take (Z.to_nat ofs) Dest ++ r).

Definition VFS_GetMemPath (Dest : list Z) (Base Length : Z) : option (list Z) :=
  Dest ← set Dest 0 cDOLLAR;
  Dest ← itoa_at Dest 1 Base;
  Dest ← set Dest (BITS / 4 + 1) 58;
  Dest ← itoa_at Dest (BITS / 4 + 2) Length;
  set Dest (BITS / 2 + 2) 0.

(** Memory by address; [None] is not mapped. *)
Definition load (mem : gmap Z Z) (a n : Z) : option (list Z) := mapM (fun i => mem !! (a + i)) (seqZ 0 n).
Fixpoint store (mem : gmap Z Z) (a : Z) (d : list Z) : option (gmap Z Z) :=
  match d with
  | [] => Some mem
  | c :: d' => match mem !! a with Some _ => store (<[a := c]> mem) (a + 1) d' | None => None end
  end.

(** The length that is transferred; [None]: nothing is, and 0 is returned. *)
Definition mem_span (Node : tVFS_Node) (Offset Length : Z) : option Z :=
  if n_ImplPtr Node =? 0 then None else
  if n_Size Node <? Offset then None else
  let l1 := if n_Size Node <? Length then u32 (n_Size Node) else Length in
  Some (if n_Size Node <? u64 (Offset + l1) then u32 (n_Size Node - Offset) else l1).

Definition VFS_MemFile_Read (mem : gmap Z Z) (Node : tVFS_Node) (Offset Length : Z) : option (Z * list Z) :=
  match mem_span Node Offset Length with
  | None => Some (0, [])
  | Some n => d ← load mem (n_ImplPtr Node + Offset) n; Some (n, d)
  end.

Definition VFS_MemFile_Write (mem : gmap Z Z) (Node : tVFS_Node) (Offset Length : Z) (Buffer : list Z) : option (Z * gmap Z Z) :=
  match mem_span Node Offset Length with
  | None => Some (0, mem)
  | Some n => d ← rd Buffer 0 n; m ← store mem (n_ImplPtr Node + Offset) d; Some (n, m)
  end.

(** [Some None]: the node has been freed.  The count of a node made by
    VFS_MemFile_Create starts at 0. *)
Definition VFS_MemFile_Close (Node : tVFS_Node) : option tVFS_Node :=
  let Node := upd_refcount (fun c => i32 (c - 1)) Node in
  if n_ReferenceCount Node =? 0 then None else Some Node.

End MemFile.
Export MemFile.

Section hex.
Implicit Types (cs : list Z).

Lemma itoa_digits_short k : forall fuel num ds, (0 < k)%nat -> 0 <= num < 16 ^ Z.of_nat k -> num < 2 ^ 64 ->
  itoa_digits fuel num 16 = Some ds -> (length ds <= k)%nat.
Proof.
  induction k as [|k IH]; intros fuel num ds Hk Hn Hmax; [lia|]. destruct fuel as [|fuel]; [done|]. cbn [itoa_digits].
  destruct (16 - 1 <? num) eqn:E; bools.
  - rewrite divmod64U_spec by lia. cbn [mbind option_bind]. destruct (negb _); [done|]. destruct (get _ _); [|done]. cbn [mbind option_bind].
    intros (ds' & Hds & ->)%fmap_Some. cbn [length]. rewrite Nat2Z.inj_succ, Z.pow_succ_r in Hn by lia.
    assert (0 < k)%nat by (destruct k; [cbn in Hn; lia|lia]).
    assert (num / 16 < 16 ^ Z.of_nat k) by (apply Z.div_lt_upper_bound; lia).
    assert (0 <= num / 16 <= num) by (split; [apply Z.div_pos; lia|apply Z.div_le_upper_bound; lia]).
    apply le_n_S. eapply IH; [done| | |exact Hds]; lia.
  - destruct (get _ _); [|done]. cbn [mbind option_bind]. intros [= <-]. cbn. lia.
Qed.

Lemma digit_dec c : 48 <= c <= 57 -> digit_value 16 c = c - c_0.
Proof. intros Hc. unfold digit_value. repeat case_if; lia. Qed.
Lemma digit_hex c : 65 <= c <= 70 -> digit_value 16 c = c - c_A + 10.
Proof. intros Hc. unfold digit_value. repeat case_if; lia. Qed.

Lemma mem_hex_value cs r : Forall (uc_digit 16) cs -> forall acc, 0 <= acc -> value 16 cs acc < 4294967296 ->
  (forall c, head r = Some c -> ~ (c_0 <= c <= c_9) /\ ~ (c_A <= c <= c_F)) -> r <> [] ->
  mem_hex (cs ++ r) acc = Some (value 16 cs acc, r).
Proof.
  intros Hf. induction Hf as [|c cs [Hc Hd] Hf IH]; intros acc Ha Hv Hr Hne.
  - destruct r as [|c r]; [done|]. destruct (Hr c eq_refl) as [H1 H2]. cbn [app mem_hex].
    destruct ((c_0 <=? c) && (c <=? c_9)) eqn:E1; [bools; lia|]. destruct ((c_A <=? c) && (c <=? c_F)) eqn:E2; [bools; lia|]. done.
  - change (value 16 (c :: cs) acc) with (value 16 cs (acc * 16 + digit_value 16 c)) in *.
    assert (Forall (is_digit 16) cs) as Hdig by (eapply Forall_impl; [exact Hf|]; apply uc_is_digit).
    assert (acc * 16 + digit_value 16 c <= value 16 cs (acc * 16 + digit_value 16 c)) as Hge by (apply value_ge; [lia|lia|done]).
    cbn [app mem_hex]. apply uc_digit_chars in Hc. destruct Hc as [Hc|Hc].
    + rewrite (digit_dec c Hc) in *. rewrite (proj2 (Z.leb_le c_0 c)), (proj2 (Z.leb_le c c_9)) by lia. cbn [andb].
      rewrite (u32_small (acc * 16)), u32_small by lia. apply IH; (done || lia).
    + rewrite (digit_hex c Hc) in *. rewrite (proj2 (Z.leb_gt c c_9)), (proj2 (Z.leb_le c_A c)), (proj2 (Z.leb_le c c_F)), andb_false_r by lia. cbn [andb].
      rewrite (u32_small (acc * 16)), u32_small by lia. apply IH; (done || lia).
Qed.

(** The characters [itoa] writes for a word in eight places. *)
Lemma itoa_at_word Dest ofs num : 0 <= ofs -> 0 <= num < 4294967296 -> ofs + 9 <= len Dest -> exists cs,
  itoa_at Dest ofs num = Some (take (Z.to_nat ofs) Dest ++ cs ++ 0 :: drop (Z.to_nat ofs + 9) Dest) /\
  length cs = 8%nat /\ Forall (uc_digit 16) cs /\ value 16 cs 0 = num.
Proof.
  intros Ho Hn Hl. unfold itoa_at, itoa. set (D := drop (Z.to_nat ofs) Dest). assert (len D = len Dest - ofs) as HD by (subst D; rewrite len_drop by lia; lia).
  destruct (set_ok D 0 0) as (b1 & Hb1 & Hl1 & Hg1); [lia|]. rewrite Hb1. cbn [mbind option_bind Z.ltb Z.compare orb Pos.compare Pos.compare_cont].
  destruct (itoa_digits_value 64 num 16) as (ds & Hds & Hne & _ & Hf & Hv); [lia..|]. rewrite Hds. cbn [mbind option_bind].
  pose proof (itoa_digits_short 8 65 num ds ltac:(lia) ltac:(cbn; lia) ltac:(lia) Hds) as Hshort.
  set (cs := replicate (Z.to_nat (BITS / 4 - len ds)) c_0 ++ reverse ds).
  assert (length cs = 8%nat) as Hcs. { subst cs. rewrite length_app, length_replicate, length_reverse. unfold len. change (BITS / 4) with 8. lia. }
  exists cs. rewrite app_assoc. fold cs. rewrite wr_front by (rewrite len_app; unfold len in *; rewrite Hcs; cbn; lia). cbn [mbind option_bind].
  split_and!; [|done| |].
  - rewrite length_app, Hcs. cbn [length Nat.add]. rewrite <- !app_assoc. do 3 f_equal. cbn [app]. f_equal.
    rewrite <- (drop_drop Dest). fold D. unfold set in Hb1. destruct ((0 <=? 0) && (0 <? len D)) eqn:E; [|done]. injection Hb1 as <-. by rewrite drop_insert_lt by (cbn; lia).
  - subst cs. apply Forall_app. split; [apply Forall_replicate; split; [vm_compute; by left|vm_compute; discriminate]|by apply Forall_reverse].
  - subst cs. rewrite value_zeros; done.
Qed.
End hex.

Section memory.
Implicit Types (mem : gmap Z Z) (d : list Z).

Definition mapped mem (a n : Z) : Prop := forall i, a <= i < a + n -> is_Some (mem !! i).

Lemma store_ok d : forall mem a, mapped mem a (len d) -> exists mem', store mem a d = Some mem' /\
  (forall i, mem' !! i = if (a <=? i) && (i <? a + len d) then get d (i - a) else mem !! i).
Proof.
  induction d as [|c d IH]; intros mem a Hm; cbn [store].
  - exists mem. split; [done|]. intros i. change (len []) with 0. destruct (Z.leb_spec a i), (Z.ltb_spec i (a + 0)); try done; lia.
  - rewrite len_cons in Hm. pose proof (len_nonneg d). destruct (Hm a) as [x Hx]; [lia|]. rewrite Hx.
    destruct (IH (<[a := c]> mem) (a + 1)) as (mem' & Hs & Hg).
    { intros i Hi. rewrite lookup_insert_ne by lia. apply Hm. lia. }
    exists mem'. split; [done|]. intros i. rewrite Hg, len_cons.
    destruct (Z.leb_spec (a + 1) i), (Z.ltb_spec i (a + 1 + len d)), (Z.leb_spec a i), (Z.ltb_spec i (a + (1 + len d))); cbn [andb]; try lia;
      try (rewrite lookup_insert_ne by lia; done).
    + unfold get. rewrite !(proj2 (Z.leb_le 0 _)) by lia. by replace (Z.to_nat (i - a)) with (S (Z.to_nat (i - (a + 1)))) by lia.
    + replace i with a by lia. by rewrite Z.sub_diag, lookup_insert_eq.
Qed.

Lemma load_get mem a d : (forall i, 0 <= i < len d -> mem !! (a + i) = get d i) -> load mem a (len d) = Some d.
Proof.
  intros Hg. unfold load. apply mapM_Some. apply Forall2_same_length_lookup. split; [rewrite length_seqZ; unfold len; lia|].
  intros i x y Hx Hy. apply lookup_seqZ in Hx as [-> Hi]. rewrite Z.add_0_l. rewrite Hg by lia. by rewrite get_nat.
Qed.
End memory.

Module MemFileProps.

(** Round trip of memory paths.  The path VFS_GetMemPath writes for a base and a length is the
    string "$base:length" of 18 characters, and VFS_MemFile_Create reads the same base and length out of it. *)
Theorem GetMemPath_roundtrip Dest base length : 19 <= len Dest -> 0 <= base < 4294967296 -> 0 <= length < 4294967296 ->
  exists D p, VFS_GetMemPath Dest base length = Some D /\ str_of D = Some p /\ len p = 18 /\ head p = Some cDOLLAR /\
    mem_parse D = Some (Some (base, length)).
Proof.
  intros Hl Hb Hn. unfold VFS_GetMemPath. destruct Dest as [|d0 D0]; [unfold len in Hl; cbn in Hl; lia|]. rewrite len_cons in Hl.
  change (set (d0 :: D0) 0 cDOLLAR) with (if 0 <? len (d0 :: D0) then Some (cDOLLAR :: D0) else None). rewrite (proj2 (Z.ltb_lt 0 _)) by (rewrite len_cons; lia).
  cbn [mbind option_bind]. destruct (itoa_at_word (cDOLLAR :: D0) 1 base) as (cs & Hcs & Hlc & Hfc & Hvc); [lia|lia|rewrite len_cons; lia|].
  rewrite Hcs. cbn [mbind option_bind]. change (Z.to_nat 1) with 1%nat. cbn [take Nat.add drop app]. rewrite take_0. cbn [app].
  change (BITS / 4 + 1) with 9. change (BITS / 4 + 2) with 10. change (BITS / 2 + 2) with 18.
  assert (forall (X : list Z) k c R y, len X = k -> set (X ++ c :: R) k y = Some (X ++ y :: R)) as Hset by (intros X k c R y <-; apply set_middle).
  change (cDOLLAR :: cs ++ 0 :: drop 9 D0) with ((cDOLLAR :: cs) ++ 0 :: drop 9 D0). rewrite Hset by (rewrite len_cons; unfold len; rewrite Hlc; done).
  cbn [mbind option_bind]. set (D1 := (cDOLLAR :: cs) ++ 58 :: drop 9 D0).
  assert (take 10 D1 = (cDOLLAR :: cs) ++ [58]) as Ht1. { subst D1. rewrite take_app_ge by (cbn; lia). f_equal. cbn [List.length]. rewrite Hlc. done. }
  destruct (itoa_at_word D1 10 length) as (cl & Hcl & Hll & Hfl & Hvl); [lia|lia|subst D1; rewrite len_app, !len_cons; unfold len in *; rewrite length_drop, Hlc; lia|].
  rewrite Hcl. cbn [mbind option_bind]. change (Z.to_nat 10) with 10%nat. rewrite Ht1, <- app_assoc. cbn [app].
  set (R := drop _ D1). replace (cDOLLAR :: cs ++ 58 :: cl ++ 0 :: R) with ((cDOLLAR :: cs ++ 58 :: cl) ++ 0 :: R) by (cbn [app]; by rewrite <- app_assoc).
  assert (len (cDOLLAR :: cs ++ 58 :: cl) = 18) as H18 by (unfold len; cbn [List.length]; rewrite length_app; cbn [List.length]; lia).
  rewrite (Hset _ 18 0 R 0 H18). exists ((cDOLLAR :: cs ++ 58 :: cl) ++ 0 :: R), (cDOLLAR :: cs ++ 58 :: cl).
  assert (Forall (fun c => c <> 0) cs /\ Forall (fun c => c <> 0) cl) as [Hz1 Hz2].
  { split; (eapply Forall_impl; [eassumption|]); intros c [Hc%uc_digit_chars _]; lia. }
  split_and!; try done.
  - apply str_of_app. constructor; [done|]. apply Forall_app. split; [done|]. by constructor.
  - unfold mem_parse. cbn [app]. rewrite <- app_assoc. cbn [app].
    rewrite (mem_hex_value cs (58 :: cl ++ 0 :: R) Hfc 0), Hvc; [|lia|lia| |done]; [|intros c [= <-]; lia]. cbn [mbind option_bind negb Z.eqb Pos.eqb].
    rewrite (mem_hex_value cl (0 :: R) Hfl 0), Hvl; [done|lia|lia| |done]. intros c [= <-]. lia.
Qed.

Lemma GetMemPath_roundtrip_witness : exists D, VFS_GetMemPath (replicate 20 7) 0xC0100000 4096 = Some D /\ mem_parse D = Some (Some (0xC0100000, 4096)).
Proof.
  destruct (GetMemPath_roundtrip (replicate 20 7) 0xC0100000 4096) as (D & p & H1 & _ & _ & _ & H2); [vm_compute; discriminate|lia|lia|].
  exists D. split; [exact H1|exact H2].
Defined.

(** A memory file gives access to its memory and no more: a write at an offset inside it changes exactly
    the bytes written, cut at the end of the file, and reading them back gives them. *)
Lemma memfile_within mem Node Offset Length Buffer : n_ImplPtr Node <> 0 -> 0 <= n_Size Node < 4294967296 ->
  mapped mem (n_ImplPtr Node) (n_Size Node) -> 0 <= Offset <= n_Size Node -> 0 <= Length <= len Buffer -> Length < 4294967296 ->
  let n := Z.min Length (n_Size Node - Offset) in
  exists mem', VFS_MemFile_Write mem Node Offset Length Buffer = Some (n, mem') /\
    VFS_MemFile_Read mem' Node Offset Length = Some (n, take (Z.to_nat n) Buffer) /\
    forall i, ~ (n_ImplPtr Node + Offset <= i < n_ImplPtr Node + Offset + n) -> mem' !! i = mem !! i.
Proof.
  intros Hp Hs Hm Ho Hl Hlm n. assert (mem_span Node Offset Length = Some n) as Hspan.
  { unfold mem_span. rewrite (proj2 (Z.eqb_neq _ 0)), (proj2 (Z.ltb_ge _ _)) by lia. rewrite !u32_small by lia. subst n.
    destruct (Z.ltb_spec (n_Size Node) Length); rewrite u64_small by lia;
      match goal with |- context [n_Size Node <? ?x] => destruct (Z.ltb_spec (n_Size Node) x) end; f_equal; lia. }
  unfold VFS_MemFile_Write, VFS_MemFile_Read. rewrite Hspan. assert (0 <= n <= len Buffer) as Hnb by (subst n; lia). rewrite rd_ok by lia. cbn [mbind option_bind].
  change (sub 0 n Buffer) with (take (Z.to_nat n) (drop 0 Buffer)). rewrite drop_0. set (d := take (Z.to_nat n) Buffer).
  assert (len d = n) as Hd by (subst d; rewrite len_take by lia; lia).
  destruct (store_ok d mem (n_ImplPtr Node + Offset)) as (mem' & Hst & Hg); [intros i Hi; apply Hm; subst n; lia|]. rewrite Hst. exists mem'.
  split_and!; [done| |].
  - rewrite <- Hd, load_get; [done|]. intros i Hi. rewrite Hg. rewrite (proj2 (Z.leb_le _ _)), (proj2 (Z.ltb_lt _ _)) by lia. cbn [andb]. f_equal. lia.
  - intros i Hi. rewrite Hg, Hd. destruct (Z.leb_spec (n_ImplPtr Node + Offset) i), (Z.ltb_spec i (n_ImplPtr Node + Offset + n)); try done; lia.
Qed.

(** The node of a memory file is never freed by closing it: its count goes from 0 to -1. *)
Lemma memfile_close_leaks base size : exists n, VFS_MemFile_Close (MkNode gVFS_MemFileType base base 0 size 0 0 0 1 [gVFS_ACL_EveryoneRWX]) = Some n /\ n_ReferenceCount n = -1.
Proof. by eexists. Qed.

End MemFileProps.
