(* ===== verification/VfsFindings.v ===== *)
(** Inputs on which the VFS does not do what it means to: a file with an empty name
    in the root filesystem, mount options with a comma, a path through two
    symbolic links, and an open that fails after the lookup. *)
From S2P Require Import Prelude CString VfsAcl VfsPath VfsState VfsOpen VfsIo VfsMount VfsInv VfsSafe VfsTables VfsOps VfsSystem VfsRam VfsProps.

Local Open Scope Z_scope.
Local Open Scope monad_scope.

(** ** A file that is its own successor *)
Lemma find_child_loops s p f name : get (v_ext s) (p - 1) = Some f -> r_Next f = p -> p <> 0 ->
  (exists v, strcmp (r_Name f) name = Some v /\ v <> 0) -> forall fuel, find_child fuel p name s = Stop SLoop.
Proof.
  intros Hf Hn Hp (v & Hv & Hv0) fuel. induction fuel as [|fuel IH]; cbn [find_child]; rewrite (proj2 (Z.eqb_neq p 0)) by done; [done|].
  rewrite (bind_Ok _ _ _ _ _ (file_ok _ _ _ Hf)), Hv. cbn [lift]. rewrite bind_ret, (proj2 (Z.eqb_neq v 0)) by done. by rewrite Hn.
Qed.

#[local] Instance findings_rootfs : Filesystems ramfs := rootfs 0.

(** The root filesystem after VFS_MkNod("/") and VFS_MkNod("/b"). *)
Definition knotted : vfs ramfs := after (OMkNod [cSLASH; 98; 0] 0) (after (OMkNod [cSLASH; 0] 0) booted1).

(** Creating a file with the path / makes an entry with an empty name, which the pool still counts as free; the next file
    created takes the same place and becomes its own successor.  From then on no lookup of
    a name that is not in the directory ends, however long it runs. *)
Theorem rootfs_empty_name_loops fuel : exists first, first_child 1 knotted = Ok first knotted /\
  find_child fuel first [99; 0] knotted = Stop SLoop.
Proof.
  exists 2. split; [vm_compute; reflexivity|]. eapply find_child_loops.
  - vm_compute. reflexivity.
  - reflexivity.
  - done.
  - exists (-1). by vm_compute.
Qed.

(** ** Mount options *)
Lemma strchr_found str ch ofs : strchr str ch = Some (Some ofs) -> 0 <= ofs /\ exists r, drop (Z.to_nat ofs) str = ch :: r.
Proof.
  revert ofs. induction str as [|c str IH]; intros ofs; cbn [strchr]; [done|]. destruct (c =? 0); [done|].
  destruct (Z.eqb_spec c ch) as [->|]; [intros [= <-]; split; [lia|by exists str]|].
  destruct (strchr str ch) as [[o|]|]; cbn; [|done|done]. intros [= <-]. destruct (IH o eq_refl) as (Ho & r & Hr). split; [lia|].
  exists r. by replace (Z.to_nat (o + 1)) with (S (Z.to_nat o)) by lia.
Qed.

(** VFS_Mount never returns from options that contain a comma: the loop that counts the options continues at the comma it found, and
    finds it again. *)
Theorem mount_options_loop {E} str ofs nArg (s : vfs E) : strchr str cCOMMA = Some (Some ofs) -> forall fuel,
  count_args fuel str nArg s = Stop SLoop.
Proof.
  intros Hs fuel. revert str ofs nArg Hs. induction fuel as [|fuel IH]; intros str ofs nArg Hs; cbn [count_args]; [done|].
  rewrite Hs. cbn [lift]. rewrite bind_ret. destruct (strchr_found _ _ _ Hs) as (_ & r & Hr). rewrite Hr. by apply (IH _ 0).
Qed.

Lemma mount_options_loop_witness : count_args (E := unit) 1000 [97; cCOMMA; 98; 0] 0
  (MkVfs ∅ ∅ [] 0 0 None None [] ∅ [] 4 0 0 None None 0 [] [] 1 tt [] []) = Stop SLoop.
Proof. apply (mount_options_loop [97; cCOMMA; 98; 0] 1). reflexivity. Defined.

(** ** Nested symbolic links *)
Lemma copy_over_runs fuel : forall buf dst src, 0 <= src < dst -> (forall i, src <= i < dst -> exists c, get buf i = Some c /\ c <> 0) ->
  copy_over fuel buf dst src = None.
Proof.
  induction fuel as [|fuel IH]; intros buf dst src Hsd Hnz; cbn [copy_over]; [done|].
  destruct (Hnz src) as (c & Hc & Hc0); [lia|]. rewrite Hc. cbn [mbind option_bind]. rewrite (proj2 (Z.eqb_neq c 0)) by done.
  destruct (decide (dst < len buf)) as [Hin|Hout].
  - destruct (set_ok buf dst c) as (buf' & Hs & Hl & Hg); [lia|]. rewrite Hs. cbn [mbind option_bind]. apply IH; [lia|].
    intros i Hi. rewrite Hg. destruct (Z.eqb_spec i dst) as [->|]; [by exists c|]. apply Hnz. lia.
  - unfold set. by rewrite (proj2 (Z.ltb_ge dst (len buf))), andb_false_r by lia.
Qed.

(** Following a second symbolic link in one lookup: the link's target and the rest of the path are both in [path_buffer].  When the target is longer than
    the part of the path before the rest, appending the rest overwrites the terminator it would stop at and runs past the end of the buffer; when it is exactly as long, the rest is lost. *)
Theorem nested_link_overruns target r src : Forall (fun c => c <> 0) target -> 0 <= src ->
  (src < len target -> strcat_self (target ++ 0 :: r) src = None) /\
  (src = len target -> strcat_self (target ++ 0 :: r) src = Some (target ++ 0 :: r)).
Proof.
  intros Ht Hs. unfold strcat_self. rewrite (strlen_str _ _ (str_of_app target r Ht)). cbn [mbind option_bind]. split.
  - intros Hlt. apply copy_over_runs; [lia|]. intros i Hi. destruct (get_ok target i) as [c Hc]; [lia|]. exists c. split.
    + unfold get in *. destruct (Z.leb_spec 0 i); [|done]. by rewrite lookup_app_l by (by eapply lookup_lt_Some).
    + unfold get in Hc. destruct (Z.leb_spec 0 i); [|done]. exact (Forall_lookup_1 _ _ _ _ Ht Hc).
  - intros ->. cbn [copy_over]. rewrite get_middle. cbn [mbind option_bind Z.eqb]. apply set_middle.
Qed.

Lemma nested_link_overruns_witness : strcat_self [cSLASH; 97; cSLASH; 98; 0; 47; 120; 0] 2 = None /\ strcat_self [cSLASH; 97; cSLASH; 98; 0; 47; 120; 0] 4 = Some [cSLASH; 97; cSLASH; 98; 0; 47; 120; 0].
Proof.
  assert (Forall (fun c => c <> 0) [cSLASH; 97; cSLASH; 98]) as Hf by (by repeat constructor).
  split; [apply (nested_link_overruns [cSLASH; 97; cSLASH; 98] [47; 120; 0] 2 Hf); [lia|reflexivity]|].
  apply (nested_link_overruns [cSLASH; 97; cSLASH; 98] [47; 120; 0] 4 Hf); [lia|reflexivity].
Defined.

(** ** An open that is refused *)

(** A user who may not open / leaves a reference on its mount. *)
Lemma refused_open_leaks : let s := after (OOpen [cSLASH; 0] 32770 0) (after mount_root (boot 1000 4 [])) in
  handles s = [] /\ OpenHandleCount <$> v_mounts s !! v_root s = Some 1.
Proof. vm_compute. by split. Qed.
