(* ===== verification/Disk.v ===== *)
(** * Byte access to block devices ([KernelLand/Kernel/drvutil_disk.c])

    Drivers read and write whole blocks; [DrvUtil_ReadBlock] and [DrvUtil_WriteBlock]
    turn a request for any range of bytes into whole-block requests, with a
    temporary block at either end ([tmp0] is what the array on the stack holds before it is filled).  The driver's functions are parameters: a read
    takes the buffer and returns the number of blocks it read and the buffer after it, a write the number of
    blocks it took.  Widths are those of a 32-bit kernel: [size_t] and [Uint] are 32 bits,
    block numbers 64. *)
From S2P Require Import Prelude.

Local Open Scope Z_scope.
Local Open Scope monad_scope.

(** Reasons to stop: an access outside an object (or through NULL), a loop that outlives its fuel. *)
Inductive iostop := IoFault | IoLoop.

Section drvutil.
Context {S : Type}.
Abbreviation IO := (M S iostop).

Definition of_option {A} (x : option A) : IO A := match x with Some a => ret a | None => halt IoFault end.

Context (ReadBlocks : Z -> Z -> list Z -> IO (Z * list Z)) (WriteBlocks : Z -> Z -> list Z -> IO Z) (BlockSize : Z) (tmp0 : list Z).

(** Where a request falls: the bytes before the first whole block, the number of whole blocks and the bytes after them. *)
Definition split_request (offset Length : Z) : Z * Z * Z :=
  if negb (offset =? 0) then
    let leading := u32 (BlockSize - offset) in
    let leading := if Length <? leading then Length else leading in
    let num := u32 (Length - leading) / BlockSize in
    (leading, num, i32 (Length - num * BlockSize - leading))
  else (0, Length / BlockSize, Length mod BlockSize).

(** The whole blocks and the tail of a read; [at_] is the position reached in the buffer. *)
Definition read_tail (block at_ num tailings Length : Z) (Buffer : list Z) : IO (Z * list Z) :=
  if tailings =? 0 then ret (Length, Buffer)
  else
    do r <- ReadBlocks (u64 (block + num)) 1 tmp0;
    let '(ret_, tmp) := r in
    if negb (ret_ =? 1) then ret (u32 (at_ + num * BlockSize), Buffer)
    else
      do d <- of_option (rd tmp 0 tailings);
      do Buffer <- of_option (wr Buffer (at_ + num * BlockSize) d);
      ret (Length, Buffer).

Definition read_middle (block at_ num tailings Length : Z) (Buffer : list Z) : IO (Z * list Z) :=
  if num =? 0 then read_tail block at_ num tailings Length Buffer
  else
    do d <- of_option (rd Buffer at_ (u32 num * BlockSize));
    do r <- ReadBlocks block (u32 num) d;
    let '(ret_, d) := r in
    do Buffer <- of_option (wr Buffer at_ d);
    if negb (ret_ =? num) then ret (u32 (at_ + ret_ * BlockSize), Buffer)
    else read_tail block at_ num tailings Length Buffer.

(** The result is the value returned and the buffer. *)
Definition DrvUtil_ReadBlock (Start Length : Z) (Buffer : list Z) : IO (Z * list Z) :=
  if BlockSize =? 0 then halt IoFault
  else
    let block := Start / BlockSize in
    let offset := i32 (Start - block * BlockSize) in
    let '(leading, num, tailings) := split_request offset Length in
    if negb (offset =? 0) then
      do r <- ReadBlocks block 1 tmp0;
      let '(ret_, tmp) := r in
      if negb (ret_ =? 1) then ret (0, Buffer)
      else
        do d <- of_option (rd tmp offset leading);
        do Buffer <- of_option (wr Buffer 0 d);
        if leading =? Length then ret (leading, Buffer)
        else read_middle (u64 (block + 1)) leading num tailings Length Buffer
    else read_middle block 0 num tailings Length Buffer.

(** A write keeps [leading] as it was computed, also when the request starts on a block: [lead] is what the
    error paths add to their result. *)
Definition write_tail (block at_ lead num tailings Length : Z) (Buffer : list Z) : IO Z :=
  if tailings =? 0 then ret Length
  else
    do r <- ReadBlocks (u64 (block + num)) 1 tmp0;
    let '(ret_, tmp) := r in
    if negb (ret_ =? 1) then ret (u32 (lead + num * BlockSize))
    else
      do d <- of_option (rd Buffer (at_ + num * BlockSize) tailings);
      do tmp <- of_option (wr tmp 0 d);
      do w <- WriteBlocks (u64 (block + num)) 1 tmp;
      if negb (w =? 1) then ret (u32 (lead + num * BlockSize)) else ret Length.

Definition write_middle (block at_ lead num tailings Length : Z) (Buffer : list Z) : IO Z :=
  if num =? 0 then write_tail block at_ lead num tailings Length Buffer
  else
    do d <- of_option (rd Buffer at_ (u32 num * BlockSize));
    do w <- WriteBlocks block (u32 num) d;
    if negb (w =? num) then ret (u32 (lead + w * BlockSize))
    else write_tail block at_ lead num tailings Length Buffer.

Definition DrvUtil_WriteBlock (Start Length : Z) (Buffer : list Z) : IO Z :=
  if BlockSize =? 0 then halt IoFault
  else
    let block := Start / BlockSize in
    let offset := u32 (Start - block * BlockSize) in
    let '(leading, num, tailings) := split_request offset Length in
    if negb (offset =? 0) then
      do r <- ReadBlocks block 1 tmp0;
      let '(ret_, tmp) := r in
      if negb (ret_ =? 1) then ret 0
      else
        do d <- of_option (rd Buffer 0 leading);
        do tmp <- of_option (wr tmp offset d);
        do w <- WriteBlocks block 1 tmp;
        if negb (w =? 1) then ret 0
        else if leading =? Length then ret leading
        else write_middle (u64 (block + 1)) leading leading num tailings Length Buffer
    else write_middle block 0 (u32 (BlockSize - offset)) num tailings Length Buffer.
End drvutil.

(** ** What a driver promises

    [usable] holds of the states the driver works in.  [contents] is the device as a row of bytes.  A read of [n] blocks gives [k <= n] of them and stores those in the
    buffer; a write takes [k <= n] blocks, may spoil the others it was given and nothing else.  A device that is
    [reliable] completes every request inside it. *)
Class BlockReader (D : Type) (ReadBlocks : Z -> Z -> list Z -> M D iostop (Z * list Z)) (BlockSize : Z) := {
  contents : D -> list Z;
  usable : D -> Prop;
  reliable : D -> Prop;
  block_size : 0 < BlockSize < 2147483648;
  read_blocks : forall s b n buf, len buf = n * BlockSize -> usable s -> 0 <= b -> 0 < n -> (b + n) * BlockSize <= len (contents s) ->
    exists k d s', ReadBlocks b n buf s = Ok (k, d) s' /\ usable s' /\ contents s' = contents s /\ (reliable s -> reliable s' /\ k = n) /\
      0 <= k <= n /\ len d = n * BlockSize /\
      forall i, 0 <= i < k * BlockSize -> get d i = get (contents s) (b * BlockSize + i) }.

Class BlockWriter (D : Type) (ReadBlocks : Z -> Z -> list Z -> M D iostop (Z * list Z)) (WriteBlocks : Z -> Z -> list Z -> M D iostop Z)
    (BlockSize : Z) {BR : BlockReader D ReadBlocks BlockSize} := {
  write_blocks : forall s b n d, usable s -> 0 <= b -> 0 < n -> (b + n) * BlockSize <= len (contents s) -> len d = n * BlockSize ->
    exists k s', WriteBlocks b n d s = Ok k s' /\ usable s' /\ (reliable s -> reliable s' /\ k = n) /\ 0 <= k <= n /\
      len (contents s') = len (contents s) /\
      (forall i, 0 <= i < k * BlockSize -> get (contents s') (b * BlockSize + i) = get d i) /\
      forall i, i < b * BlockSize \/ (b + n) * BlockSize <= i -> get (contents s') i = get (contents s) i }.

Lemma mul_ge x b : 0 <= x -> 0 < b < 2147483648 -> x <= x * b.
Proof. intros. nia. Qed.

(** Parts of a request. *)
Lemma split_request_spec BlockSize offset Length : 0 < BlockSize < 2147483648 -> 0 <= offset < BlockSize -> 0 <= Length < 2147483648 ->
  exists lead num tail, split_request BlockSize offset Length = (lead, num, tail) /\ 0 <= lead /\ 0 <= num /\ 0 <= tail < BlockSize /\
    Length = lead + num * BlockSize + tail /\ (if offset =? 0 then lead = 0 else lead = Z.min (BlockSize - offset) Length) /\ num <= Length.
Proof.
  intros HB Ho HL. unfold split_request. destruct (Z.eqb_spec offset 0) as [->|Hne]; cbn [negb].
  - exists 0, (Length / BlockSize), (Length mod BlockSize). split_and!; try done; try lia.
    + apply Z.div_pos; lia.
    + apply Z.mod_pos_bound; lia.
    + apply Z.mod_pos_bound; lia.
    + pose proof (Z.div_mod Length BlockSize). lia.
    + apply Z.div_le_upper_bound; nia.
  - rewrite (u32_small (BlockSize - offset)) by lia.
    assert (exists lead, (if Length <? BlockSize - offset then Length else BlockSize - offset) = lead /\
      lead = Z.min (BlockSize - offset) Length /\ 0 <= lead <= Length) as (lead & -> & Hm & Hlead) by (eexists; split; [done|]; case_if; lia).
    rewrite u32_small by lia. set (num := (Length - lead) / BlockSize).
    pose proof (Z.div_mod (Length - lead) BlockSize). pose proof (Z.mod_pos_bound (Length - lead) BlockSize).
    assert (0 <= num) by (apply Z.div_pos; lia). fold num in H.
    exists lead, num, (Length - num * BlockSize - lead). rewrite i32_small by lia. split_and!; try done; try lia. nia.
Qed.

Definition device_size {D Rd BS} {BR : BlockReader D Rd BS} (s : D) : Prop := len (contents s) < 18446744073709551616.

Section reading.
Context {D : Type} {Rd : Z -> Z -> list Z -> M D iostop (Z * list Z)} {BS : Z} {BR : BlockReader D Rd BS}.
Implicit Types (s : D) (Buffer : list Z).

(** The first [r] bytes of the buffer are the device's from [Start] on. *)
Definition got s (Start r : Z) Buffer : Prop := forall i, 0 <= i < r -> get Buffer i = get (contents s) (Start + i).

Definition read_post s (Start Length : Z) Buffer (p : Z * list Z) s' : Prop :=
  0 <= p.1 <= Length /\ usable s' /\ contents s' = contents s /\ len p.2 = len Buffer /\ got s Start p.1 p.2 /\
  (forall i, Length <= i -> get p.2 i = get Buffer i) /\ (reliable s -> reliable s' /\ p.1 = Length).

(** Storing what was read behind what is there. *)
Lemma got_store s Start at_ k Buffer d : got s Start at_ Buffer -> 0 <= at_ -> 0 <= k <= len d -> at_ + len d <= len Buffer ->
  (forall i, 0 <= i < k -> get d i = get (contents s) (Start + at_ + i)) ->
  exists b', wr Buffer at_ d = Some b' /\ len b' = len Buffer /\ got s Start (at_ + k) b' /\ forall i, at_ + len d <= i -> get b' i = get Buffer i.
Proof.
  intros Hg Ha Hk Hl Hd. destruct (get_wr Buffer d at_ Ha Hl) as (b' & Hw & Hlen & Hget). exists b'. split_and!; [done|done| |].
  - intros i Hi. rewrite Hget. case_if.
    + rewrite Hd by lia. f_equal. lia.
    + apply andb_false_iff in Heqb as [?|?]; bools; [apply Hg|]; lia.
  - intros i Hi. rewrite Hget. case_if; [lia|done].
Qed.

Context (Start Length : Z) (Buffer0 tmp0 : list Z) (Htmp : len tmp0 = BS) (HL : 0 <= Length < 2147483648) (HS : 0 <= Start) (Hbuf : Length <= len Buffer0).

Lemma of_option_ok {A} (x : option A) a s : x = Some a -> of_option (S := D) x s = Ok a s.
Proof. by intros ->. Qed.

Lemma read_tail_spec s s0 block at_ num tail Buffer : device_size s0 -> usable s -> contents s = contents s0 -> (reliable s0 -> reliable s) -> Start + Length <= len (contents s) ->
  Start + Length <= (block + num) * BS + tail -> (0 < tail -> (block + num + 1) * BS <= len (contents s)) -> 0 <= block -> 0 <= num -> 0 <= at_ -> 0 <= tail < BS ->
  Length = at_ + num * BS + tail -> block * BS = Start + at_ -> got s0 Start (at_ + num * BS) Buffer -> len Buffer = len Buffer0 ->
  (forall i, Length <= i -> get Buffer i = get Buffer0 i) ->
  wp (read_tail Rd BS tmp0 block at_ num tail Length Buffer) s (read_post s0 Start Length Buffer0).
Proof.
  intros Hsz0 Hus Hc Hr Hin Hend Hfit Hb Hn Ha Ht HLe Hpos Hgot Hlen Hout. pose proof block_size as HBS. unfold device_size in *. rewrite <- Hc in Hsz0.
  pose proof (mul_ge num BS Hn HBS). pose proof (mul_ge block BS Hb HBS). pose proof (Z.mul_nonneg_nonneg block BS Hb ltac:(lia)). pose proof (Z.mul_nonneg_nonneg num BS Hn ltac:(lia)).
  unfold read_tail.
  destruct (Z.eqb_spec tail 0) as [->|Ht0].
  { apply wp_ret. split_and!; cbn [fst snd]; try done; try lia. by rewrite Z.add_0_r in HLe; subst Length. naive_solver. }
  destruct (read_blocks s (block + num) 1 tmp0) as (k & d & s' & Hrd & Hus' & Hc' & Hrel & Hk & Hd & Hget); [lia|done|lia..|].
  rewrite u64_small by lia. apply wp_bind. eapply wp_eq; [exact Hrd|]. cbn beta iota.
  destruct (Z.eqb_spec k 1) as [->|Hk1]; cbn [negb].
  - rewrite (rd_ok d 0 tail) by lia. apply wp_bind. eapply wp_eq; [by apply of_option_ok|].
    assert (len (sub 0 tail d) = tail) as Hsl by (apply len_sub; lia).
    destruct (got_store s0 Start (at_ + num * BS) tail Buffer (sub 0 tail d)) as (b' & Hw & Hl' & Hg' & Ho'); [done|lia..| |].
    { intros i Hi. rewrite get_sub by lia. rewrite Z.add_0_l, Hget by lia. rewrite Hc. f_equal. lia. }
    apply wp_bind. eapply wp_eq; [by apply of_option_ok|]. apply wp_ret. unfold read_post. cbn [fst snd].
    split_and!; try done; try lia; [congruence| | |naive_solver].
    + by rewrite <- HLe in Hg'.
    + intros i Hi. rewrite Ho' by lia. by apply Hout.
  - apply wp_ret. rewrite u32_small by lia. unfold read_post. cbn [fst snd]. split_and!; try done; try lia; [congruence|].
    intros Hs0. destruct (Hrel (Hr Hs0)). lia.
Qed.

Lemma read_middle_spec s s0 block at_ num tail Buffer : device_size s0 -> usable s -> contents s = contents s0 -> (reliable s0 -> reliable s) -> Start + Length <= len (contents s) ->
  (0 < tail -> (block + num + 1) * BS <= len (contents s)) -> 0 <= block -> 0 <= num <= Length -> 0 <= at_ -> 0 <= tail < BS ->
  Length = at_ + num * BS + tail -> block * BS = Start + at_ -> got s0 Start at_ Buffer -> len Buffer = len Buffer0 ->
  (forall i, Length <= i -> get Buffer i = get Buffer0 i) ->
  wp (read_middle Rd BS tmp0 block at_ num tail Length Buffer) s (read_post s0 Start Length Buffer0).
Proof.
  intros Hsz0 Hus Hc Hr Hin Hfit Hb Hn Ha Ht HLe Hpos Hgot Hlen Hout. pose proof block_size as HBS. unfold device_size in *. rewrite <- Hc in Hsz0.
  pose proof (mul_ge num BS ltac:(lia) HBS). unfold read_middle.
  destruct (Z.eqb_spec num 0) as [->|Hn0].
  { apply (read_tail_spec s s0); try done; try lia; try (unfold device_size; congruence). by rewrite Z.mul_0_l, Z.add_0_r. }
  destruct (read_blocks s block num (sub at_ (num * BS) Buffer)) as (k & d & s' & Hrd & Hus' & Hc' & Hrel & Hk & Hd & Hget); [rewrite len_sub; lia|done|lia..|].
  assert (k * BS <= num * BS) by (apply Z.mul_le_mono_nonneg_r; lia).
  rewrite (u32_small num), rd_ok by lia. apply wp_bind, wp_ret, wp_bind. eapply wp_eq; [exact Hrd|]. cbn beta iota.
  pose proof (Z.mul_nonneg_nonneg k BS ltac:(lia) ltac:(lia)).
  destruct (got_store s0 Start at_ (k * BS) Buffer d) as (b' & Hw & Hl' & Hg' & Ho'); [done|lia..| |].
  { intros i Hi. rewrite Hget by lia. rewrite Hc. f_equal. lia. }
  apply wp_bind. eapply wp_eq; [by apply of_option_ok|].
  assert (forall i, Length <= i -> get b' i = get Buffer0 i) as Hout' by (intros i Hi; rewrite Ho' by lia; by apply Hout).
  destruct (Z.eqb_spec k num) as [->|Hk1]; cbn [negb].
  - apply (read_tail_spec s' s0); try done; try (rewrite Hc'; done); try lia; try congruence; naive_solver.
  - assert (k * BS <= num * BS) by (apply Z.mul_le_mono_nonneg_r; lia). apply wp_ret. rewrite u32_small by lia. unfold read_post. cbn [fst snd].
    split_and!; try done; try lia; [congruence..|]. intros Hs0. destruct (Hrel (Hr Hs0)). lia.
Qed.

Lemma ReadBlock_spec s : device_size s -> usable s -> Start + Length <= len (contents s) -> (exists n, len (contents s) = n * BS) ->
  wp (DrvUtil_ReadBlock Rd BS tmp0 Start Length Buffer0) s (read_post s Start Length Buffer0).
Proof.
  intros Hsz0 Hus Hin [n Hsz]. pose proof block_size as HBS. pose proof Hsz0 as Hsz1. unfold device_size in Hsz1. unfold DrvUtil_ReadBlock.
  rewrite (proj2 (Z.eqb_neq BS 0)) by lia. set (block := Start / BS).
  pose proof (Z.div_mod Start BS) as Hdm. pose proof (Z.mod_pos_bound Start BS) as Hmb. fold block in Hdm.
  assert (0 <= block) as Hblk by (apply Z.div_pos; lia). pose proof (mul_ge block BS Hblk HBS).
  rewrite i32_small by lia. set (offset := Start - block * BS).
  assert (0 <= offset < BS) as Ho by lia.
  destruct (split_request_spec BS offset Length HBS Ho HL) as (lead & num & tail & -> & Hlead & Hnum & Htail & HLe & Hl0 & HnL).
  assert (forall x t, 0 < t < BS -> x * BS + t <= n * BS -> (x + 1) * BS <= n * BS) as Hup.
  { intros x t Htt Hx. apply Z.mul_le_mono_nonneg_r; [lia|]. enough (x < n) by lia. apply (Z.mul_lt_mono_pos_r BS); lia. }
  destruct (Z.eqb_spec offset 0) as [Ho0|Ho0]; cbn [negb].
  - subst lead. apply (read_middle_spec s s); try done; try lia.
    + intros Ht. rewrite Hsz. apply (Hup (block + num) tail); lia.
    + intros i ?. lia.
  - assert ((block + 1) * BS <= len (contents s)) as Hfit by (rewrite Hsz; apply (Hup block offset); lia).
    destruct (read_blocks s block 1 tmp0) as (k & d & s' & Hrd & Hus' & Hc' & Hrel & Hk & Hd & Hget); [lia|done|lia..|].
    apply wp_bind. eapply wp_eq; [exact Hrd|]. cbn beta iota. destruct (Z.eqb_spec k 1) as [->|Hk1]; cbn [negb].
    2:{ apply wp_ret. unfold read_post; cbn [fst snd]. split_and!; try done; try lia; [intros i ?; lia|]. intros Hs0. destruct (Hrel Hs0). lia. }
    rewrite rd_ok by lia. apply wp_bind. eapply wp_eq; [by apply of_option_ok|].
    destruct (got_store s Start 0 lead Buffer0 (sub offset lead d)) as (b' & Hw & Hl' & Hg' & Ho'); [intros i ?; lia|lia|rewrite len_sub; lia..| |].
    { intros i Hi. rewrite get_sub, Hget by lia. f_equal. lia. }
    rewrite len_sub in Ho' by lia. apply wp_bind. eapply wp_eq; [by apply of_option_ok|].
    destruct (Z.eqb_spec lead Length) as [->|HlL].
    + apply wp_ret. unfold read_post; cbn [fst snd]. split_and!; try done; try lia; naive_solver.
    + rewrite u64_small by lia. apply (read_middle_spec s' s); try done; try lia; try (rewrite Hc'; done); try (rewrite Hc'; lia).
      * naive_solver.
      * intros Ht. rewrite Hc', Hsz. apply (Hup (block + 1 + num) tail); lia.
      * intros i Hi. apply Ho'. lia.
Qed.
End reading.

Section writing.
Context {D : Type} {Rd : Z -> Z -> list Z -> M D iostop (Z * list Z)} {Wr : Z -> Z -> list Z -> M D iostop Z} {BS : Z}.
Context {BR : BlockReader D Rd BS} {BW : BlockWriter D Rd Wr BS}.
Context (Start Length : Z) (Buffer tmp0 : list Z) (s0 : D) (Htmp : len tmp0 = BS).
Implicit Types (s : D).

(** After [r] bytes were written in state [s]: they are in place; bytes outside the range are as they
    were, or at least those outside the blocks from [lo] to [hi] when the device has failed. *)
Record written (lo hi r : Z) (s : D) : Prop := {
  w_usable : usable s;
  w_len : len (contents s) = len (contents s0);
  w_stored : forall i, 0 <= i < r -> get (contents s) (Start + i) = get Buffer i;
  w_spoilt : forall i, i < lo \/ hi <= i -> get (contents s) i = get (contents s0) i;
  w_exact : reliable s0 -> reliable s /\ forall i, i < Start \/ Start + r <= i -> get (contents s) i = get (contents s0) i }.

(** [adds] is what the error paths return besides the bytes they count. *)
Definition write_post (lo hi adds r : Z) s : Prop :=
  (forall i, i < lo \/ hi <= i -> get (contents s) i = get (contents s0) i) /\
  (exists r', 0 <= r' <= Length /\ (r = Length /\ r' = Length \/ r = r' + adds) /\ forall i, 0 <= i < r' -> get (contents s) (Start + i) = get Buffer i) /\
  (reliable s0 -> reliable s /\ r = Length /\ written lo hi Length s).

Context (HL : 0 <= Length < 2147483648) (HS : 0 <= Start) (Hbuf : Length <= len Buffer) (Hsz0 : device_size s0) (Hus0 : usable s0).

Lemma written_post lo hi adds s : written lo hi Length s -> write_post lo hi adds Length s.
Proof. intros H. split_and!; [apply H|exists Length|]. { split_and!; [lia..|by left|apply H]. } intros Hr. split_and!; [by apply H|done|done]. Qed.

(** Storing a piece that starts where the last one ended. *)
Lemma written_more lo hi hi' r n s s' : written lo hi r s -> 0 <= r -> 0 <= n -> hi <= hi' -> len (contents s') = len (contents s) ->
  usable s' -> (reliable s -> reliable s') ->
  (forall i, Start + r <= i < Start + r + n -> get (contents s') i = get Buffer (i - Start)) ->
  (forall i, i < Start + r \/ Start + r + n <= i -> get (contents s') i = get (contents s) i) ->
  lo <= Start -> Start + r + n <= hi' -> written lo hi' (r + n) s'.
Proof.
  intros [W0 W1 W2 W3 W4] Hr Hn Hh Hl Hus Hrel Hin Hout Hlo Hhi. split.
  - done.
  - congruence.
  - intros i Hi. destruct (decide (i < r)).
    + rewrite Hout by lia. apply W2. lia.
    + rewrite Hin by lia. f_equal. lia.
  - intros i Hi. rewrite Hout by lia. apply W3. lia.
  - intros H0. destruct (W4 H0) as [Hs Hw]. split; [by apply Hrel|]. intros i Hi. rewrite Hout by lia. apply Hw. lia.
Qed.

(** A write of whole blocks that was refused in part. *)
Lemma written_failed lo hi hi' r b k n s s' : written lo hi r s -> 0 <= k <= n -> b * BS = Start + r -> lo <= b * BS -> hi <= hi' -> (b + n) * BS <= hi' -> 0 <= r ->
  (forall i, i < b * BS \/ (b + n) * BS <= i -> get (contents s') i = get (contents s) i) ->
  (forall i, 0 <= i < k * BS -> get (contents s') (b * BS + i) = get Buffer (r + i)) ->
  (forall i, 0 <= i < r + k * BS -> get (contents s') (Start + i) = get Buffer i) /\
  forall i, i < lo \/ hi' <= i -> get (contents s') i = get (contents s0) i.
Proof.
  intros [W0 W1 W2 W3 W4] Hk Hb Hlo Hh Hhi Hr Hout Hin. pose proof block_size. split.
  - intros i Hi. destruct (decide (i < r)).
    + rewrite Hout by lia. apply W2. lia.
    + specialize (Hin (i - r) ltac:(lia)). replace (b * BS + (i - r)) with (Start + i) in Hin by lia. rewrite Hin. f_equal. lia.
  - intros i Hi. rewrite Hout by lia. apply W3. lia.
Qed.

Lemma write_tail_spec s block at_ lead num tail lo hi : written lo ((block + num) * BS) (at_ + num * BS) s -> Start + Length <= len (contents s0) ->
  (0 < tail -> (block + num + 1) * BS <= hi) -> (block + num) * BS <= hi <= len (contents s0) -> 0 <= block -> 0 <= num -> 0 <= at_ -> 0 <= tail < BS -> 0 <= lead <= BS -> lo <= Start ->
  Length = at_ + num * BS + tail -> block * BS = Start + at_ ->
  wp (write_tail Rd Wr BS tmp0 block at_ lead num tail Length Buffer) s (write_post lo hi (lead - at_)).
Proof.
  intros HW Hin Hfit Hhi Hb Hn Ha Ht Hlead Hlo HLe Hpos. pose proof block_size as HBS. pose proof Hsz0 as Hsz1. unfold device_size in Hsz1. pose proof (w_len _ _ _ _ HW) as Hlen.
  pose proof (mul_ge num BS Hn HBS). pose proof (mul_ge block BS Hb HBS). unfold write_tail.
  destruct (Z.eqb_spec tail 0) as [->|Ht0].
  { apply wp_ret, written_post. rewrite HLe, Z.add_0_r. destruct HW as [W0 W1 W2 W3 W4]. split; try done. intros i ?. apply W3. lia. }
  assert (forall s', contents s' = contents s -> (reliable s0 -> False) -> write_post lo hi (lead - at_) (u32 (lead + num * BS)) s') as Herr.
  { intros s' Hc Hno. rewrite u32_small by lia. unfold write_post. rewrite Hc. split_and!; [|exists (at_ + num * BS)|done].
    - intros i ?. apply (w_spoilt _ _ _ _ HW). lia.
    - split_and!; [lia..|by right; lia|]. apply HW. }
  destruct (read_blocks s (block + num) 1 tmp0) as (k & d & s1 & Hrd & Hus1 & Hc1 & Hrel & Hk & Hd & Hget); [lia|apply HW|lia..|].
  rewrite u64_small by lia. apply wp_bind. eapply wp_eq; [exact Hrd|]. cbn beta iota.
  destruct (Z.eqb_spec k 1) as [->|Hk1]; cbn [negb].
  2:{ apply wp_ret, Herr; [done|]. intros Hs0. destruct (Hrel (proj1 (w_exact _ _ _ _ HW Hs0))). lia. }
  rewrite (rd_ok Buffer) by lia. apply wp_bind. eapply wp_eq; [by apply of_option_ok|].
  set (t := sub (at_ + num * BS) tail Buffer). assert (len t = tail) as Hlt by (apply len_sub; lia).
  destruct (get_wr d t 0) as (d' & Hw & Hl' & Hg'); [lia..|]. apply wp_bind. eapply wp_eq; [by apply of_option_ok|].
  destruct (write_blocks s1 (block + num) 1 d') as (k2 & s2 & Hwr & Hus2 & Hrel2 & Hk2 & Hl2 & Hin2 & Hout2); [done|lia|lia|rewrite Hc1; lia|lia|].
  apply wp_bind. eapply wp_eq; [exact Hwr|]. cbn beta. rewrite Hc1 in *.
  destruct (Z.eqb_spec k2 1) as [->|Hk1]; cbn [negb].
  - apply wp_ret, written_post. rewrite HLe. apply (written_more lo ((block + num) * BS) hi (at_ + num * BS) tail s s2); try done; try lia.
    + intros Hs. apply Hrel2. by apply Hrel.
    + intros i Hi. specialize (Hin2 (i - (block + num) * BS) ltac:(lia)).
      replace ((block + num) * BS + (i - (block + num) * BS)) with i in Hin2 by lia. rewrite Hin2, Hg'. case_if.
      * unfold t. rewrite get_sub by lia. f_equal. lia.
      * apply andb_false_iff in Heqb as [?|?]; bools; lia.
    + intros i Hi. destruct (decide (i < (block + num) * BS \/ (block + num + 1) * BS <= i)) as [|Hi2]; [by apply Hout2|].
      specialize (Hin2 (i - (block + num) * BS) ltac:(lia)).
      replace ((block + num) * BS + (i - (block + num) * BS)) with i in Hin2 by lia. rewrite Hin2, Hg'. case_if; [lia|].
      rewrite Hget by lia. f_equal. lia.
  - apply wp_ret. rewrite u32_small by lia. split_and!.
    + intros i Hi. rewrite Hout2 by lia. apply (w_spoilt _ _ _ _ HW). lia.
    + exists (at_ + num * BS). split_and!; [lia..|by right; lia|]. intros i Hi. rewrite Hout2 by lia. by apply (w_stored _ _ _ _ HW).
    + intros Hs0. destruct (Hrel2 (proj1 (Hrel (proj1 (w_exact _ _ _ _ HW Hs0))))). lia.
Qed.

Lemma write_middle_spec s block at_ lead num tail lo hi : written lo (block * BS) at_ s -> Start + Length <= len (contents s0) ->
  (0 < tail -> (block + num + 1) * BS <= hi) -> (block + num) * BS <= hi <= len (contents s0) -> 0 <= block -> 0 <= num <= Length -> 0 <= at_ -> 0 <= tail < BS ->
  0 <= lead <= BS -> lo <= Start -> Length = at_ + num * BS + tail -> block * BS = Start + at_ ->
  wp (write_middle Rd Wr BS tmp0 block at_ lead num tail Length Buffer) s (write_post lo hi (lead - at_)).
Proof.
  intros HW Hin Hfit Hhi Hb Hn Ha Ht Hlead Hlo HLe Hpos. pose proof block_size as HBS. pose proof Hsz0 as Hsz1. unfold device_size in Hsz1. pose proof (w_len _ _ _ _ HW) as Hlen.
  pose proof (mul_ge num BS ltac:(lia) HBS). unfold write_middle.
  destruct (Z.eqb_spec num 0) as [->|Hn0].
  { apply write_tail_spec; try done; try lia. by rewrite Z.mul_0_l, !Z.add_0_r. }
  rewrite (u32_small num), rd_ok by lia. apply wp_bind. eapply wp_eq; [by apply of_option_ok|].
  set (d := sub at_ (num * BS) Buffer). assert (len d = num * BS) as Hld by (apply len_sub; lia).
  destruct (write_blocks s block num d) as (k & s2 & Hwr & Hus2 & Hrel & Hk & Hl2 & Hin2 & Hout2); [apply HW|lia..|].
  assert (forall i, 0 <= i < k * BS -> get (contents s2) (block * BS + i) = get Buffer (at_ + i)) as Hin3.
  { intros i Hi. assert (k * BS <= num * BS) by (apply Z.mul_le_mono_nonneg_r; lia). rewrite Hin2 by lia. unfold d. by rewrite get_sub by lia. }
  apply wp_bind. eapply wp_eq; [exact Hwr|]. cbn beta. destruct (Z.eqb_spec k num) as [->|Hk1]; cbn [negb].
  - apply write_tail_spec; try done; try lia. apply (written_more lo (block * BS) _ at_ (num * BS) s s2); try done; try lia.
    + naive_solver.
    + intros i Hi. specialize (Hin3 (i - block * BS) ltac:(lia)). replace (block * BS + (i - block * BS)) with i in Hin3 by lia. rewrite Hin3. f_equal. lia.
    + intros i Hi. apply Hout2. lia.
  - apply wp_ret. assert (0 <= k * BS <= num * BS) by (split; [|apply Z.mul_le_mono_nonneg_r]; lia). rewrite u32_small by lia.
    destruct (written_failed lo (block * BS) hi at_ block k num s s2) as [Hst Hsp]; try done; try lia. split_and!; [done| |].
    + exists (at_ + k * BS). split_and!; [lia..|by right; lia|done].
    + intros Hs0. destruct (Hrel (proj1 (w_exact _ _ _ _ HW Hs0))). lia.
Qed.

Lemma written_none lo : written lo lo 0 s0.
Proof. split; [done|done|intros; lia|done|]. intros Hs. by split. Qed.

(** Bytes of blocks that the range does not meet. *)
Definition spared (i : Z) : Prop := i < Start / BS * BS \/ Start + Length <= i / BS * BS.

Lemma spared_above x t i : x * BS + t = Start + Length -> 0 <= t < BS -> spared i -> i < Start / BS * BS \/ (if t =? 0 then x else x + 1) * BS <= i.
Proof.
  intros Hx Ht [?|Hi]; [by left|right]. pose proof block_size. pose proof (Z.mul_div_le i BS). transitivity (i / BS * BS); [|lia].
  apply Z.mul_le_mono_nonneg_r; [lia|]. case_if; [apply (Z.mul_le_mono_pos_r _ _ BS); lia|].
  enough (x < i / BS) by lia. apply (Z.mul_lt_mono_pos_r BS); lia.
Qed.

(** What the call does: [wrote 0 r s] when the device fails, the bytes it counts being off by a block when the request starts on a
    block. *)
Definition wrote (r : Z) s : Prop :=
  (forall i, spared i -> get (contents s) i = get (contents s0) i) /\
  (exists r', 0 <= r' <= Length /\ (r = Length /\ r' = Length \/ r = r' + (if Start mod BS =? 0 then BS else 0)) /\
     forall i, 0 <= i < r' -> get (contents s) (Start + i) = get Buffer i) /\
  (reliable s0 -> reliable s /\ r = Length /\ len (contents s) = len (contents s0) /\
     forall i, get (contents s) i = if (Start <=? i) && (i <? Start + Length) then get Buffer (i - Start) else get (contents s0) i).

Lemma post_wrote lo hi r s : write_post lo hi (if Start mod BS =? 0 then BS else 0) r s -> (forall i, spared i -> i < lo \/ hi <= i) -> wrote r s.
Proof.
  intros (H1 & H2 & H3) Hsp. split_and!; [auto|done|]. intros Hr. destruct (H3 Hr) as (Hr' & -> & [W0 W1 W2 W3 W4]). split_and!; [done..|].
  destruct (W4 Hr) as [_ Hx]. intros i. case_if; [|apply Hx; apply andb_false_iff in Heqb as [?|?]; bools; lia].
  specialize (W2 (i - Start) ltac:(lia)). by replace (Start + (i - Start)) with i in W2 by lia.
Qed.

Lemma spared_first i : Start / BS * BS < Start + Length -> spared i -> i < Start / BS * BS \/ (Start / BS + 1) * BS <= i.
Proof.
  intros Hlt [?|Hi]; [by left|right]. pose proof block_size. pose proof (Z.mul_div_le i BS ltac:(lia)). transitivity (i / BS * BS); [|lia].
  apply Z.mul_le_mono_nonneg_r; [lia|]. enough (Start / BS < i / BS) by lia. apply (Z.mul_lt_mono_pos_r BS); lia.
Qed.

(** Rewriting the first block with [t] at [offset] in it. *)
Lemma first_written s2 d d' block offset lead : block * BS + offset = Start -> 0 <= offset -> 0 <= lead -> offset + lead <= BS -> lead <= len Buffer ->
  len (contents s2) = len (contents s0) -> usable s2 -> (reliable s0 -> reliable s2) ->
  (forall i, 0 <= i < BS -> get d i = get (contents s0) (block * BS + i)) ->
  (forall i, get d' i = if (offset <=? i) && (i <? offset + lead) then get (sub 0 lead Buffer) (i - offset) else get d i) ->
  (forall i, 0 <= i < BS -> get (contents s2) (block * BS + i) = get d' i) ->
  (forall i, i < block * BS \/ (block + 1) * BS <= i -> get (contents s2) i = get (contents s0) i) ->
  written (block * BS) ((block + 1) * BS) lead s2.
Proof.
  intros Hst Ho Hlead HB Hlb Hlen Hus Hrel Hd Hd' Hin Hout.
  assert (forall i, block * BS <= i < (block + 1) * BS ->
    get (contents s2) i = if (Start <=? i) && (i <? Start + lead) then get Buffer (i - Start) else get (contents s0) i) as Hblock.
  { intros i Hi. specialize (Hin (i - block * BS) ltac:(lia)). replace (block * BS + (i - block * BS)) with i in Hin by lia. rewrite Hin, Hd'.
    replace ((offset <=? i - block * BS) && (i - block * BS <? offset + lead)) with ((Start <=? i) && (i <? Start + lead)) by (apply eq_true_iff_eq; lia).
    case_if; [rewrite get_sub by lia|rewrite Hd by lia]; f_equal; lia. }
  apply (written_more (block * BS) (block * BS) _ 0 lead s0 s2); try done; try lia; [apply written_none|..].
  - intros i Hi. rewrite Hblock by lia. case_if; [done|]. apply andb_false_iff in Heqb as [?|?]; bools; lia.
  - intros i Hi. destruct (decide (i < block * BS \/ (block + 1) * BS <= i)) as [|Hni]; [by apply Hout|].
    rewrite Hblock by lia. case_if; [lia|done].
Qed.

Lemma refused_wrote s r : (forall i, i < Start / BS * BS \/ (Start / BS + 1) * BS <= i -> get (contents s) i = get (contents s0) i) -> r = 0 -> Start mod BS <> 0 ->
  (reliable s0 -> False) -> wrote r s.
Proof.
  intros Hs -> Ho Hno. pose proof block_size. pose proof (Z.div_mod Start BS ltac:(lia)). pose proof (Z.mod_pos_bound Start BS ltac:(lia)).
  split_and!; [|exists 0; split_and!; [lia..| |intros; lia]|done].
  - intros i Hi. apply Hs. apply spared_first; [lia|done].
  - right. by rewrite (proj2 (Z.eqb_neq _ 0)).
Qed.

(** The rest of a write after its first, partial block. *)
Lemma write_rest s2 lead num tail n : let block := Start / BS in written (block * BS) ((block + 1) * BS) lead s2 -> Start mod BS <> 0 ->
  lead = Z.min (BS - Start mod BS) Length -> Length = lead + num * BS + tail -> 0 <= num <= Length -> 0 <= tail < BS ->
  Start + Length <= len (contents s0) -> len (contents s0) = n * BS ->
  wp (if lead =? Length then ret lead else write_middle Rd Wr BS tmp0 (u64 (block + 1)) lead lead num tail Length Buffer) s2 wrote.
Proof.
  intros block HW Ho Hlead HLe Hnum Htail Hin Hsz. pose proof block_size as HBS. pose proof Hsz0 as Hsz1. unfold device_size in Hsz1.
  pose proof (Z.div_mod Start BS ltac:(lia)) as Hdm. pose proof (Z.mod_pos_bound Start BS ltac:(lia)) as Hmb. fold block in Hdm.
  assert (0 <= block) as Hblk by (apply Z.div_pos; lia). pose proof (mul_ge block BS Hblk HBS). pose proof (mul_ge num BS ltac:(lia) HBS).
  destruct (Z.eqb_spec lead Length) as [HlL|HlL].
  - apply wp_ret. rewrite HlL in *. apply (post_wrote (block * BS) ((block + 1) * BS)); [by apply written_post|].
    intros i. apply spared_first. lia.
  - rewrite u64_small by lia. set (hi := (if tail =? 0 then block + 1 + num else block + 1 + num + 1) * BS).
    assert (hi <= n * BS) as Hhi.
    { unfold hi. case_if; [lia|]. apply Z.mul_le_mono_nonneg_r; [lia|]. enough (block + 1 + num < n) by lia. apply (Z.mul_lt_mono_pos_r BS); lia. }
    eapply wp_mono; [apply (write_middle_spec s2 (block + 1) lead lead num tail (block * BS) hi); try done; try lia|].
    + unfold hi. intros. rewrite (proj2 (Z.eqb_neq tail 0)) by lia. lia.
    + unfold hi in *. split; [case_if|]; lia.
    + intros r s Hp. rewrite Z.sub_diag in Hp. apply (post_wrote (block * BS) hi); [by rewrite (proj2 (Z.eqb_neq _ 0))|].
      intros i. apply (spared_above (block + 1 + num) tail); lia.
Qed.

Lemma WriteBlock_spec : Start + Length <= len (contents s0) -> (exists n, len (contents s0) = n * BS) ->
  wp (DrvUtil_WriteBlock Rd Wr BS tmp0 Start Length Buffer) s0 wrote.
Proof.
  intros Hin [n Hsz]. pose proof block_size as HBS. pose proof Hsz0 as Hsz1. unfold device_size in Hsz1. unfold DrvUtil_WriteBlock.
  rewrite (proj2 (Z.eqb_neq BS 0)) by lia. set (block := Start / BS).
  pose proof (Z.div_mod Start BS ltac:(lia)) as Hdm. pose proof (Z.mod_pos_bound Start BS ltac:(lia)) as Hmb. fold block in Hdm.
  assert (0 <= block) as Hblk by (apply Z.div_pos; lia). pose proof (mul_ge block BS Hblk HBS).
  rewrite u32_small by lia. set (offset := Start - block * BS). assert (Start mod BS = offset) as Hoff by lia.
  assert (0 <= offset < BS) as Ho by lia.
  destruct (split_request_spec BS offset Length HBS Ho HL) as (lead & num & tail & -> & Hlead & Hnum & Htail & HLe & Hl0 & HnL).
  assert (forall x t, 0 < t < BS -> x * BS + t <= n * BS -> (x + 1) * BS <= n * BS) as Hup.
  { intros x t Htt Hx. apply Z.mul_le_mono_nonneg_r; [lia|]. enough (x < n) by lia. apply (Z.mul_lt_mono_pos_r BS); lia. }
  pose proof spared_above as Hsp. fold block in Hsp. pose proof (mul_ge num BS Hnum HBS).
  destruct (Z.eqb_spec offset 0) as [Ho0|Ho0]; cbn [negb].
  - subst lead. set (hi := (if tail =? 0 then block + num else block + num + 1) * BS).
    assert (hi <= n * BS) as Hhi by (unfold hi; case_if; [lia|apply (Hup (block + num) tail); lia]).
    eapply wp_mono; [apply (write_middle_spec s0 block 0 (u32 (BS - offset)) num tail (block * BS) hi); rewrite ?u32_small by lia; try done; try lia|].
    + apply written_none.
    + unfold hi. intros. rewrite (proj2 (Z.eqb_neq tail 0)) by lia. lia.
    + unfold hi in *. split; [case_if|]; lia.
    + intros r s Hp. rewrite u32_small in Hp by lia. replace (BS - offset - 0) with BS in Hp by lia.
      apply (post_wrote (block * BS) hi); [by rewrite Hoff, Ho0|]. intros i. apply Hsp; lia.
  - assert ((block + 1) * BS <= len (contents s0)) as Hfit by (rewrite Hsz; apply (Hup block offset); lia).
    destruct (read_blocks s0 block 1 tmp0) as (k & d & s1 & Hrd & Hus1 & Hc1 & Hrel & Hk & Hd & Hget); [lia|done|lia..|].
    apply wp_bind. eapply wp_eq; [exact Hrd|]. cbn beta iota. destruct (Z.eqb_spec k 1) as [->|Hk1]; cbn [negb].
    2:{ apply wp_ret, refused_wrote; [by rewrite Hc1|done|lia|]. intros Hs0. destruct (Hrel Hs0). lia. }
    rewrite rd_ok by lia. apply wp_bind. eapply wp_eq; [by apply of_option_ok|].
    assert (len (sub 0 lead Buffer) = lead) as Hlt by (apply len_sub; lia).
    destruct (get_wr d (sub 0 lead Buffer) offset) as (d' & Hw & Hl' & Hg'); [lia..|]. apply wp_bind. eapply wp_eq; [by apply of_option_ok|].
    destruct (write_blocks s1 block 1 d') as (k2 & s2 & Hwr & Hus2 & Hrel2 & Hk2 & Hl2 & Hin2 & Hout2); [done|lia|lia|rewrite Hc1; lia|lia|].
    apply wp_bind. eapply wp_eq; [exact Hwr|]. cbn beta. rewrite Hc1, Hlt in *. destruct (Z.eqb_spec k2 1) as [->|Hk1]; cbn [negb].
    2:{ apply wp_ret, refused_wrote; [done|done|lia|]. intros Hs0. destruct (Hrel2 (proj1 (Hrel Hs0))). lia. }
    rewrite !Z.mul_1_l in *. assert (written (block * BS) ((block + 1) * BS) lead s2) as HW.
    { apply (first_written s2 d d' block offset lead); try done; try lia. naive_solver. }
    apply (write_rest s2 lead num tail n); try done; try lia.
Qed.
End writing.

(** ** A device in memory *)
Definition mem_read (BS b n : Z) (buf : list Z) : M (list Z) iostop (Z * list Z) := fun m =>
  if (0 <=? b) && (0 <=? n) && ((b + n) * BS <=? len m) then Ok (n, sub (b * BS) (n * BS) m) m else Ok (0, buf) m.
Definition mem_write (BS b n : Z) (d : list Z) : M (list Z) iostop Z := fun m =>
  if (0 <=? b) && (0 <=? n) && ((b + n) * BS <=? len m) && (n * BS <=? len d) then
    Ok n (default m (wr m (b * BS) (sub 0 (n * BS) d))) else Ok 0 m.

Section memory_device.
Context (BS : Z) (HB : 0 < BS < 2147483648).

Lemma mem_read_blocks m b n buf : len buf = n * BS -> True -> 0 <= b -> 0 < n -> (b + n) * BS <= len m ->
  exists k d m', mem_read BS b n buf m = Ok (k, d) m' /\ True /\ m' = m /\ (True -> True /\ k = n) /\ 0 <= k <= n /\ len d = n * BS /\
    forall i, 0 <= i < k * BS -> get d i = get m (b * BS + i).
Proof.
  intros Hl _ Hb Hn Hin. unfold mem_read. replace (_ && _) with true by (symmetry; lia).
  assert (0 <= b * BS /\ 0 <= n * BS) as [? ?] by (split; apply Z.mul_nonneg_nonneg; lia).
  exists n, (sub (b * BS) (n * BS) m), m. split_and!; try done; try lia; [rewrite len_sub; lia|]. intros i Hi. by rewrite get_sub by lia.
Qed.

#[export] Instance mem_reader : BlockReader (list Z) (mem_read BS) BS := {|
  contents m := m; usable _ := True; reliable _ := True; block_size := HB; read_blocks := mem_read_blocks |}.

#[export] Instance mem_writer : BlockWriter (list Z) (mem_read BS) (mem_write BS) BS.
Proof.
  split. intros m b n d _ Hb Hn Hin Hl. cbn [contents mem_reader] in *. unfold mem_write. replace (_ && _) with true by (symmetry; lia).
  assert (0 <= b * BS /\ 0 <= n * BS) as [? ?] by (split; apply Z.mul_nonneg_nonneg; lia).
  destruct (get_wr m (sub 0 (n * BS) d) (b * BS)) as (m' & Hw & Hlen & Hg); [lia|rewrite len_sub; lia|]. rewrite len_sub in Hg by lia.
  exists n, m'. rewrite Hw. cbn. split_and!; try done; try lia.
  - intros i Hi. rewrite Hg. replace (_ && _) with true by (symmetry; lia). rewrite get_sub by lia. f_equal. lia.
  - intros i Hi. rewrite Hg. case_if; [lia|done].
Qed.
End memory_device.

Module DiskProps.
Section any_device.
Context {D : Type} {Rd : Z -> Z -> list Z -> M D iostop (Z * list Z)} {Wr : Z -> Z -> list Z -> M D iostop Z} {BS : Z}.
Context {BR : BlockReader D Rd BS} {BW : BlockWriter D Rd Wr BS}.

(** C33: Reading any range of bytes of a block device, whatever its alignment: DrvUtil_ReadBlock returns; the bytes it counts are the device's from Start on, nothing behind
    the range is touched in the buffer, the device's contents are unchanged; and when the device completes its requests the whole range is read.  A device
    that fails in the middle gives the bytes before the failure. *)
Theorem DrvUtil_ReadBlock_reads s Start Length Buffer tmp0 : usable s -> device_size s -> (exists n, len (contents s) = n * BS) -> len tmp0 = BS ->
  0 <= Start -> 0 <= Length < 2147483648 -> Start + Length <= len (contents s) -> Length <= len Buffer ->
  exists r Buffer' s', DrvUtil_ReadBlock Rd BS tmp0 Start Length Buffer s = Ok (r, Buffer') s' /\ 0 <= r <= Length /\
    contents s' = contents s /\ len Buffer' = len Buffer /\ (forall i, 0 <= i < r -> get Buffer' i = get (contents s) (Start + i)) /\
    (forall i, Length <= i -> get Buffer' i = get Buffer i) /\ (reliable s -> r = Length).
Proof.
  intros Hus Hds Hw Ht HS HL Hin Hb. pose proof (ReadBlock_spec Start Length Buffer tmp0 Ht HL HS Hb s Hds Hus Hin Hw) as Hr.
  apply wp_inv in Hr as ([r b'] & s' & Heq & Hr0 & _ & Hsame & Hlen & Hgot & Hrest & Hrel). exists r, b', s'. split_and!; try done; [apply Hr0..|].
  intros Hs. by apply Hrel.
Qed.

End any_device.

Lemma four_bytes : 0 < 4 < 2147483648.
Proof. lia. Qed.

Lemma DrvUtil_ReadBlock_reads_witness : exists Buffer' m', DrvUtil_ReadBlock (mem_read 4) 4 [0; 0; 0; 0] 3 6 [0; 0; 0; 0; 0; 0; 99] [1; 2; 3; 4; 5; 6; 7; 8; 9; 10; 11; 12] = Ok (6, Buffer') m' /\
  get Buffer' 0 = Some 4 /\ get Buffer' 5 = Some 9 /\ get Buffer' 6 = Some 99.
Proof.
  destruct (DrvUtil_ReadBlock_reads (BR := mem_reader 4 four_bytes) [1; 2; 3; 4; 5; 6; 7; 8; 9; 10; 11; 12] 3 6 [0; 0; 0; 0; 0; 0; 99] [0; 0; 0; 0])
    as (r & b' & m' & Heq & _ & _ & _ & Hg & Hk & Hr); [done|done|by exists 3|done|lia|lia|done|done|].
  rewrite (Hr I) in Heq, Hg. exists b', m'. split; [exact Heq|].
  split; [rewrite (Hg 0) by lia; reflexivity|]. split; [rewrite (Hg 5) by lia; reflexivity|rewrite (Hk 6) by lia; reflexivity].
Defined.


(** A write of one whole block that the device refuses is reported as a block written. *)
Lemma refused_block_counted {D} (Rd : Z -> Z -> list Z -> M D iostop (Z * list Z)) BS tmp0 Buffer s : 0 < BS < 2147483648 -> len Buffer = BS ->
  DrvUtil_WriteBlock Rd (fun _ _ _ => ret 0) BS tmp0 0 BS Buffer s = Ok BS s.
Proof.
  intros HB Hl. unfold DrvUtil_WriteBlock. rewrite (proj2 (Z.eqb_neq BS 0)) by lia. rewrite Zdiv_0_l. cbv zeta.
  change (u32 (0 - 0 * BS)) with 0. unfold split_request. change (negb (0 =? 0)) with false. cbv iota. rewrite Z.div_same, Z.mod_same by lia.
  unfold write_middle. change (1 =? 0) with false. change (u32 1) with 1. cbv iota. rewrite rd_ok by lia. unfold bind, of_option, ret. cbn [negb Z.eqb].
  f_equal. rewrite Z.sub_0_r, (u32_small BS) by lia. rewrite Z.mul_0_l, Z.add_0_r. apply u32_small. lia.
Qed.
End DiskProps.
