(* ===== verification/IoCache.v ===== *)
(** * The block cache ([KernelLand/Kernel/drv/iocache.c])

    A cache keeps sectors of one device in pages of 4096 bytes, on a list sorted by their place on the
    device; each page has a bit per sector for "present" and for "dirty".  The state is one cache with what it uses: the
    clock, memory, and the device its Write callback reaches.  Calls run under the cache's mutex and
    are taken as one step. *)
From S2P Require Import Prelude Disk.

Local Open Scope Z_scope.
Local Open Scope monad_scope.

Definition PAGE_SIZE := 4096.

Inductive eIOCache_Modess := IOCACHE_WRITEBACK | IOCACHE_DELAYWRITE | IOCACHE_VIRTUAL.
#[export] Instance mode_dec : EqDecision eIOCache_Modess.
Proof. solve_decision. Defined.

(** A page with the memory it describes ([BasePhys] mapped). *)
Record tIOCache_PageInfo := MkPage {
  CacheNext : Z; LastAccess : Z; BaseOffset : Z; PresentSectors : Z; DirtySectors : Z; p_data : list Z }.

(** [Pages] is the address of the first page, 0 for NULL; [c_store] holds the pages the cache allocated. *)
Record tIOCache := MkCache {
  c_addr : Z; SectorSize : Z; c_Mode : eIOCache_Modess; CacheSize : Z; CacheUsed : Z; Pages : Z; c_store : gmap Z tIOCache_PageInfo }.

(** [i_cache] is the cache while it exists; [i_list] the list from gIOCache_Caches; [i_global] the list from
    gIOCache_GlobalPages; [i_alloc] decides the coming allocations. *)
Record io (D : Type) := MkIo {
  i_cache : option tIOCache; i_list : list Z; i_global : list Z; i_now : Z; i_next : Z; i_alloc : list bool; i_dev : D }.
Arguments MkIo {D}. Arguments i_cache {D} i. Arguments i_list {D} i. Arguments i_global {D} i. Arguments i_now {D} i.
Arguments i_next {D} i. Arguments i_alloc {D} i. Arguments i_dev {D} i.

Definition set_next (n : Z) (p : tIOCache_PageInfo) := MkPage n (LastAccess p) (BaseOffset p) (PresentSectors p) (DirtySectors p) (p_data p).
Definition set_access (t : Z) (p : tIOCache_PageInfo) := MkPage (CacheNext p) t (BaseOffset p) (PresentSectors p) (DirtySectors p) (p_data p).
Definition set_data (d : list Z) (p : tIOCache_PageInfo) := MkPage (CacheNext p) (LastAccess p) (BaseOffset p) (PresentSectors p) (DirtySectors p) d.
Definition set_present (x : Z) (p : tIOCache_PageInfo) := MkPage (CacheNext p) (LastAccess p) (BaseOffset p) x (DirtySectors p) (p_data p).
Definition set_dirty (x : Z) (p : tIOCache_PageInfo) := MkPage (CacheNext p) (LastAccess p) (BaseOffset p) (PresentSectors p) x (p_data p).

Section iocache.
Context {D : Type} (DevWrite : Z -> list Z -> M D iostop Z) (junk : Z -> Z -> Z).
Abbreviation IO := (M (io D) iostop).

Definition on_dev {A} (c : M D iostop A) : IO A := fun s =>
  match c (i_dev s) with
  | Ok a d => Ok a (MkIo (i_cache s) (i_list s) (i_global s) (i_now s) (i_next s) (i_alloc s) d)
  | Stop e => Stop e end.

Definition the_cache : IO tIOCache := fun s => match i_cache s with Some c => Ok c s | None => Stop IoFault end.
Definition put_cache (c : tIOCache) : IO unit := fun s =>
  Ok tt (MkIo (Some c) (i_list s) (i_global s) (i_now s) (i_next s) (i_alloc s) (i_dev s)).
Definition now : IO Z := fun s => Ok (i_now s) s.

Definition page_at (p : Z) : IO tIOCache_PageInfo := do c <- the_cache; of_option (c_store c !! p).
Definition put_page (p : Z) (x : tIOCache_PageInfo) : IO unit :=
  do c <- the_cache;
  put_cache (MkCache (c_addr c) (SectorSize c) (c_Mode c) (CacheSize c) (CacheUsed c) (Pages c) (<[p := x]> (c_store c))).

(** The CacheNext field at a list position; 0 is the head in the cache, whose address the code casts to a page. *)
Definition next_of (p : Z) : IO Z :=
  if p =? 0 then (do c <- the_cache; ret (Pages c)) else (do x <- page_at p; ret (CacheNext x)).
Definition set_next_of (p n : Z) : IO unit :=
  if p =? 0 then
    (do c <- the_cache; put_cache (MkCache (c_addr c) (SectorSize c) (c_Mode c) (CacheSize c) (CacheUsed c) n (c_store c)))
  else (do x <- page_at p; put_page p (set_next n x)).

(** IOCache_Create; the callback and its ID are the device of the state. *)
Definition IOCache_Create (Sector_Size Cache_Size : Z) : IO Z := fun s =>
  if Cache_Size <? 1 then Ok 0 s
  else if Sector_Size <? 512 then Ok 0 s
  else if PAGE_SIZE <? Sector_Size then Ok 0 s
  else match i_alloc s with
       | false :: l => Ok 0 (MkIo (i_cache s) (i_list s) (i_global s) (i_now s) (i_next s) l (i_dev s))
       | l => Ok (i_next s) (MkIo (Some (MkCache (i_next s) Sector_Size IOCACHE_WRITEBACK Cache_Size 0 0 ∅))
                (i_next s :: i_list s) (i_global s) (i_now s) (i_next s + 1) (tail l) (i_dev s))
       end.

(** The place of a sector: base of its page on the device, offset in the page. *)
Definition sector_base (c : tIOCache) (Sector : Z) : Z := let a := u64 (Sector * SectorSize c) in a - a mod PAGE_SIZE.
Definition sector_offset (c : tIOCache) (Sector : Z) : Z := u64 (Sector * SectorSize c) mod PAGE_SIZE.
Definition sector_mask (c : tIOCache) (offset : Z) : Z := Z.shiftl 1 (offset / SectorSize c).

(** The page (0 if none) and the position before the place it would have. *)
Fixpoint getpage_loop (fuel : nat) (page prev wanted_base : Z) : IO (Z * Z) :=
  if page =? 0 then ret (0, prev) else
  match fuel with
  | O => halt IoLoop
  | S fuel =>
      do x <- page_at page;
      if BaseOffset x <? wanted_base then getpage_loop fuel (CacheNext x) page wanted_base
      else if wanted_base <? BaseOffset x then ret (0, prev)
      else ret (page, prev)
  end.

Definition IOCache_int_GetPage (Sector : Z) : IO (Z * Z) :=
  do c <- the_cache; getpage_loop (S (size (c_store c))) (Pages c) 0 (sector_base c Sector).

(** The sector when it is cached: the value returned and the buffer. *)
Definition IOCache_Read (Sector : Z) : IO (Z * option (list Z)) :=
  do c <- the_cache;
  if CacheSize c =? 0 then ret (-1, None)
  else
    do g <- IOCache_int_GetPage Sector;
    let '(page, _) := g in
    if page =? 0 then ret (0, None)
    else
      do x <- page_at page;
      if Z.land (PresentSectors x) (sector_mask c (sector_offset c Sector)) =? 0 then ret (0, None)
      else
        do t <- now;
        put_page page (set_access t x) ;;;
        do d <- of_option (rd (p_data x) (sector_offset c Sector) (SectorSize c));
        ret (1, Some d).

(** Writing back every sector of a page. *)
Fixpoint flush_sectors (n : nat) (base ss : Z) (data : list Z) (i : Z) : IO unit :=
  match n with
  | O => ret tt
  | S n =>
      do d <- of_option (rd data (i * ss) ss);
      on_dev (DevWrite (base / ss + i) d) ;;;
      flush_sectors n base ss data (i + 1)
  end.
Definition flush_page (c : tIOCache) (x : tIOCache_PageInfo) : IO unit :=
  if negb (DirtySectors x =? 0) && negb (bool_decide (c_Mode c = IOCACHE_VIRTUAL)) then
    flush_sectors (Z.to_nat (PAGE_SIZE / SectorSize c)) (BaseOffset x) (SectorSize c) (p_data x) 0
  else ret tt.

(** The least recently used page, the page before it (0 if none was seen) and the last position. *)
Fixpoint oldest_loop (fuel : nat) (ent prev oldest oldestPrev : Z) : IO (Z * Z * Z) :=
  if ent =? 0 then ret (oldest, oldestPrev, prev) else
  match fuel with
  | O => halt IoLoop
  | S fuel =>
      do x <- page_at ent;
      do o <- page_at oldest;
      if LastAccess x <? LastAccess o then oldest_loop fuel (CacheNext x) ent ent prev
      else oldest_loop fuel (CacheNext x) ent oldest oldestPrev
  end.

(** Allocating a page: its descriptor and its memory. *)
Definition new_page : IO Z := fun s =>
  match i_alloc s with
  | false :: _ => Stop IoFault
  | l => Ok (i_next s) (MkIo (i_cache s) (i_list s) (i_next s :: i_global s) (i_now s) (i_next s + 1) (tail l) (i_dev s))
  end.
Definition fresh_data (a : Z) : list Z := junk a <$> seqZ 0 PAGE_SIZE.

Definition evict (prev : Z) : IO (Z * Z * list Z) :=
  do c <- the_cache;
  do r <- oldest_loop (S (size (c_store c))) (Pages c) prev (Pages c) 0;
  let '(oldest, oldestPrev, prev) := r in
  do x <- page_at oldest;
  set_next_of oldestPrev (CacheNext x) ;;;
  flush_page c x ;;;
  ret (oldest, prev, p_data x).

Definition IOCache_Add (Sector : Z) (Buffer : list Z) : IO Z :=
  do c <- the_cache;
  if CacheSize c =? 0 then ret (-1)
  else
    do g <- IOCache_int_GetPage Sector;
    let '(page, prev) := g in
    let offset := sector_offset c Sector in
    if negb (page =? 0) then
      do x <- page_at page;
      let mask := sector_mask c offset in
      if Z.land (PresentSectors x) mask =? 0 then
        do b <- of_option (rd Buffer 0 (SectorSize c));
        do d <- of_option (wr (p_data x) offset b);
        put_page page (set_present (u32 (Z.lor (PresentSectors x) mask)) (set_data d x)) ;;;
        ret 1
      else ret 0
    else
      do r <- (if CacheUsed c <=? CacheSize c then (do p <- new_page; ret (p, prev, fresh_data p)) else evict prev);
      let '(page, prev, data) := r in
      do n <- next_of prev;
      do t <- now;
      do b <- of_option (rd Buffer 0 (SectorSize c));
      do d <- of_option (wr data offset b);
      put_page page (MkPage n t (sector_base c Sector) 0 0 d) ;;;
      set_next_of prev page ;;;
      ret 1.

Definition IOCache_Write (Sector : Z) (Buffer : list Z) : IO Z :=
  do c <- the_cache;
  if CacheSize c =? 0 then ret (-1)
  else
    do g <- IOCache_int_GetPage Sector;
    let '(page, _) := g in
    if page =? 0 then ret 0
    else
      do x <- page_at page;
      let offset := sector_offset c Sector in
      if Z.land (PresentSectors x) (sector_mask c offset) =? 0 then ret 0
      else
        do t <- now;
        do b <- of_option (rd Buffer 0 (SectorSize c));
        do d <- of_option (wr (p_data x) offset b);
        put_page page (set_access t (set_data d x)) ;;;
        (if bool_decide (c_Mode c = IOCACHE_WRITEBACK) then on_dev (DevWrite Sector b) ;;; ret tt
         else put_page page (set_dirty (u32 (Z.lor (DirtySectors x) (sector_mask c offset))) (set_access t (set_data d x)))) ;;;
        ret 1.

Fixpoint flush_loop (fuel : nat) (c : tIOCache) (page : Z) : IO unit :=
  if page =? 0 then ret tt else
  match fuel with
  | O => halt IoLoop
  | S fuel => do x <- page_at page; flush_page c x ;;; flush_loop fuel c (CacheNext x)
  end.

Definition IOCache_Flush : IO unit :=
  do c <- the_cache;
  if bool_decide (c_Mode c = IOCACHE_VIRTUAL) then ret tt
  else if CacheSize c =? 0 then ret tt
  else flush_loop (S (size (c_store c))) c (Pages c).

(** Unlinking from the list of caches. *)
Fixpoint unlink (a : Z) (l : list Z) : list Z :=
  match l with [] => [] | x :: l => if x =? a then l else x :: unlink a l end.

Definition IOCache_Destroy : IO unit :=
  IOCache_Flush ;;;
  do c <- the_cache;
  fun s => Ok tt (MkIo None (unlink (c_addr c) (i_list s)) (i_global s) (i_now s) (i_next s) (i_alloc s) (i_dev s)).
End iocache.

(** ** The list of pages as a sequence *)
Fixpoint chain (st : gmap Z tIOCache_PageInfo) (p : Z) (l : list Z) : Prop :=
  match l with
  | [] => p = 0
  | a :: l => p = a /\ a <> 0 /\ exists x, st !! a = Some x /\ chain st (CacheNext x) l
  end.

Definition first (l : list Z) : Z := default 0 (head l).
Definition final (l : list Z) : Z := default 0 (last l).

Section chains.
Implicit Types (st : gmap Z tIOCache_PageInfo) (l k : list Z).

Lemma page_chain_first st p l : chain st p l -> p = first l.
Proof. destruct l; cbn; naive_solver. Qed.

Lemma chain_frame st st' p l : chain st p l -> (forall a x, a ∈ l -> st !! a = Some x -> exists x', st' !! a = Some x' /\ CacheNext x' = CacheNext x) -> chain st' p l.
Proof.
  revert p. induction l as [|a l IH]; intros p; cbn; [done|]. intros (-> & Ha & x & Hx & Hc) Hf. split_and!; [done..|].
  destruct (Hf a x) as (x' & Hx' & Hn); [by left|done|]. exists x'. split; [done|]. rewrite Hn. apply IH; [done|]. intros b y Hb. apply Hf. by right.
Qed.

Lemma chain_in st p l a : chain st p l -> a ∈ l -> a <> 0 /\ is_Some (st !! a).
Proof.
  revert p. induction l as [|b l IH]; intros p; cbn; [by intros _ ?%not_elem_of_nil|].
  intros (-> & Hb & x & Hx & Hc) [-> | Hin]%elem_of_cons; [by eauto|]. by eapply IH.
Qed.

Lemma chain_app st p l k : chain st p (l ++ k) <-> chain st p (l ++ k) /\ chain st (first k) k.
Proof.
  split; [|by intros []]. intros H. split; [done|]. revert p H. induction l as [|a l IH]; intros p; cbn.
  - intros H. by rewrite <- (page_chain_first _ _ _ H).
  - intros (_ & _ & x & _ & H). by eapply IH.
Qed.

(** Linking [a] in between [l] and [k]. *)
Lemma chain_link st p l k a x : chain st p (l ++ k) -> NoDup (l ++ k) -> a ∉ l ++ k -> a <> 0 -> CacheNext x = first k ->
  let st1 := <[a := x]> st in
  chain (match last l with Some b => match st !! b with Some y => <[b := set_next a y]> st1 | None => st1 end | None => st1 end)
        (if decide (l = []) then a else p) (l ++ a :: k).
Proof.
  intros Hc Hnd Ha Ha0 Hx st1.
  assert (chain st1 (first k) k) as Hk.
  { eapply chain_frame; [exact (proj2 (proj1 (chain_app _ _ _ _) Hc))|]. intros b y Hb Hy. exists y. split; [|done].
    unfold st1. rewrite lookup_insert_ne; [done|]. intros ->. apply Ha. apply elem_of_app. by right. }
  revert p Hc. induction l as [|b l IH] using rev_ind; intros p Hc.
  - cbn. split_and!; [done..|]. exists x. unfold st1. rewrite lookup_insert_eq. split; [done|]. by rewrite Hx.
  - clear IH. rewrite decide_False by (by destruct l). rewrite last_snoc.
    assert (is_Some (st !! b)) as [y Hy] by (eapply chain_in; [exact Hc|]; set_solver). rewrite Hy.
    assert (a <> b) as Hab by (intros ->; apply Ha; set_solver). rewrite <- app_assoc in *. cbn [app] in *.
    revert p Hc Hnd Ha. induction l as [|c l IHl]; intros p; cbn [app chain].
    + intros (-> & Hb0 & y' & Hy' & Hck) Hnd Ha. split_and!; [done..|]. exists (set_next a y). rewrite lookup_insert_eq. split; [done|]. cbn [CacheNext set_next].
      split_and!; [done..|]. exists x. unfold st1. rewrite lookup_insert_ne, lookup_insert_eq by done. split; [done|]. rewrite Hx.
      eapply chain_frame; [exact Hk|]. intros c z Hc Hz. exists z. split; [|done].
      rewrite lookup_insert_ne; [exact Hz|]. intros <-. apply NoDup_cons in Hnd as [Hn _]. done.
    + intros (-> & Hc0 & z & Hz & Hck) [Hnc Hnd]%NoDup_cons Ha. split_and!; [done..|]. exists z.
      assert (c <> b /\ c <> a) as [? ?] by (split; intros ->; [apply Hnc|apply Ha]; set_solver).
      unfold st1. rewrite !lookup_insert_ne by done. split; [done|]. apply IHl; [done|done|]. set_solver.
Qed.
End chains.

(** ** Sectors and bits *)
Lemma or_bit x j i : 0 <= j < 8 -> 0 <= x < 4294967296 -> 0 <= i ->
  Z.testbit (u32 (Z.lor x (Z.shiftl 1 j))) i = Z.testbit x i || (i =? j).
Proof.
  intros Hj Hx Hi. assert (0 <= Z.lor x (Z.shiftl 1 j) < 2 ^ 32) as Hr.
  { split; [apply Z.lor_nonneg; split; [lia|apply Z.shiftl_nonneg; lia]|].
    destruct (decide (Z.lor x (Z.shiftl 1 j) = 0)) as [->|Hne]; [lia|]. apply Z.log2_lt_pow2.
    { assert (0 <= Z.lor x (Z.shiftl 1 j)) by (apply Z.lor_nonneg; split; [lia|apply Z.shiftl_nonneg; lia]). lia. }
    rewrite Z.log2_lor by (first [lia|apply Z.shiftl_nonneg; lia]). apply Z.max_lub_lt.
    - destruct (decide (x = 0)) as [->|]; [done|]. apply Z.log2_lt_pow2; lia.
    - rewrite Z.log2_shiftl by lia. cbn. lia. }
  rewrite u32_small by lia. rewrite Z.lor_spec, Z.shiftl_spec by lia. f_equal. destruct (Z.eqb_spec i j) as [->|Hne].
  - by rewrite Z.sub_diag.
  - destruct (decide (i < j)); [by rewrite Z.testbit_neg_r by lia|]. apply (Z.bits_above_log2 1); [lia|cbn; lia].
Qed.

Lemma u32_lor_range x y : 0 <= u32 (Z.lor x y) < 4294967296.
Proof. apply u32_range. Qed.

Section coherence.
Context {D : Type} {Rd : Z -> Z -> list Z -> M D iostop (Z * list Z)} {Wr : Z -> Z -> list Z -> M D iostop Z} {SS : Z}.
Context {BR : BlockReader D Rd SS} {BW : BlockWriter D Rd Wr SS} (junk : Z -> Z -> Z).
Context (Hss : 512 <= SS <= 4096) (Hdiv : (SS | 4096)).
Implicit Types (s : io D) (x : tIOCache_PageInfo) (dev : D) (st : gmap Z tIOCache_PageInfo).

Definition dev_write (b : Z) (d : list Z) : M D iostop Z := Wr b 1 d.

(** A page whose present sectors are the device's. *)
Record page_ok dev x : Prop := {
  po_base : 0 <= BaseOffset x; po_align : BaseOffset x mod 4096 = 0; po_len : len (p_data x) = 4096; po_clean : DirtySectors x = 0;
  po_bits : 0 <= PresentSectors x < 4294967296;
  po_data : forall j, 0 <= j < 4096 / SS -> Z.testbit (PresentSectors x) j = true -> forall i, 0 <= i < SS ->
    get (p_data x) (j * SS + i) = get (contents dev) (BaseOffset x + j * SS + i) }.

Definition base st a : Z := match st !! a with Some x => BaseOffset x | None => 0 end.

(** The cache is well formed and holds what is on the device. *)
Record cache_ok (c : tIOCache) (next : Z) dev (l : list Z) : Prop := {
  co_size : SectorSize c = SS; co_mode : c_Mode c = IOCACHE_WRITEBACK; co_cap : 1 <= CacheSize c; co_used : CacheUsed c = 0;
  co_chain : chain (c_store c) (Pages c) l;
  co_sorted : StronglySorted (fun a b => base (c_store c) a < base (c_store c) b) l;
  co_fresh : forall a, is_Some (c_store c !! a) -> 0 < a < next; co_next : 0 < next;
  co_pages : forall a x, a ∈ l -> c_store c !! a = Some x -> page_ok dev x }.

Definition coherent s : Prop := exists c l, i_cache s = Some c /\ cache_ok c (i_next s) (i_dev s) l /\ reliable (i_dev s) /\ usable (i_dev s) /\
  device_size (i_dev s) /\ Forall (eq true) (i_alloc s).

(** Where a sector of the device is. *)
Record place (c : tIOCache) (Sector j : Z) : Prop := {
  pl_offset : sector_offset c Sector = j * SS; pl_base : sector_base c Sector + j * SS = Sector * SS; pl_mask : sector_mask c (sector_offset c Sector) = Z.shiftl 1 j;
  pl_j : 0 <= j < 4096 / SS; pl_8 : 0 <= j < 8; pl_aligned : sector_base c Sector mod 4096 = 0; pl_low : 0 <= sector_base c Sector; pl_in : 0 <= j * SS <= 4096 - SS }.

Lemma sector_place c Sector dev : SectorSize c = SS -> device_size dev -> 0 <= Sector -> (Sector + 1) * SS <= len (contents dev) -> exists j, place c Sector j.
Proof.
  intros Hs Hd Hn Hin. unfold device_size in Hd. destruct Hdiv as [q Hq]. exists (Sector mod q).
  assert (0 < q <= 8) as Hq8 by nia. pose proof (Z.mod_pos_bound Sector q ltac:(lia)) as Hm. pose proof (Z.div_mod Sector q ltac:(lia)) as Hdm.
  assert (u64 (Sector * SS) = Sector * SS) as Hu by (apply u64_small; nia).
  assert (sector_offset c Sector = Sector mod q * SS) as Ho.
  { unfold sector_offset, PAGE_SIZE. rewrite Hs, Hu, Hq. rewrite Z.mul_mod_distr_r by lia. done. }
  assert (4096 / SS = q) as Hqd by (rewrite Hq; apply Z.div_mul; lia).
  assert (sector_base c Sector = Sector * SS - Sector mod q * SS) as Hb.
  { unfold sector_base. cbv zeta. fold (sector_offset c Sector). rewrite Ho, Hs, Hu. done. }
  split.
  - done.
  - rewrite Hb. lia.
  - unfold sector_mask. rewrite Ho, Hs, Z.div_mul by lia. done.
  - rewrite Hqd. lia.
  - lia.
  - rewrite Hb. replace (Sector * SS - Sector mod q * SS) with (Sector / q * (q * SS)) by nia. rewrite <- Hq. apply Z.mod_mul. lia.
  - rewrite Hb, <- Z.mul_sub_distr_r. pose proof (Z.mod_le Sector q Hn ltac:(lia)). apply Z.mul_nonneg_nonneg; lia.
  - split; [apply Z.mul_nonneg_nonneg; lia|]. replace (4096 - SS) with ((q - 1) * SS) by lia. apply Z.mul_le_mono_nonneg_r; lia.
Qed.

Lemma sorted_NoDup st l : StronglySorted (fun a b => base st a < base st b) l -> NoDup l.
Proof.
  induction 1 as [|a l Hs IH Hf]; constructor; [|done]. intros Hin. rewrite Forall_forall in Hf. specialize (Hf a Hin). lia.
Qed.

Lemma sorted_base st st' l : (forall a, base st' a = base st a) -> StronglySorted (fun a b => base st a < base st b) l ->
  StronglySorted (fun a b => base st' a < base st' b) l.
Proof. intros Hb. induction 1 as [|a l Hs IH Hf]; constructor; [done|]. eapply Forall_impl; [done|]. intros b. cbn. by rewrite !Hb. Qed.

Lemma page_at_ok s c a x : i_cache s = Some c -> c_store c !! a = Some x -> page_at a s = Ok x s.
Proof. intros Hc Hx. unfold page_at, bind, the_cache. rewrite Hc. unfold of_option. by rewrite Hx. Qed.

(** The search stops at the page or at its place. *)
Lemma getpage_spec s c wb : i_cache s = Some c -> forall l2 l1 fuel, chain (c_store c) (first l2) l2 ->
  StronglySorted (fun a b => base (c_store c) a < base (c_store c) b) l2 -> (length l2 <= fuel)%nat -> (forall a, a ∈ l1 -> base (c_store c) a < wb) ->
  exists page prev, getpage_loop fuel (first l2) (final l1) wb s = Ok (page, prev) s /\
    ((page ∈ l2 /\ page <> 0 /\ base (c_store c) page = wb) \/
     (page = 0 /\ exists k1 k2, l1 ++ l2 = k1 ++ k2 /\ prev = final k1 /\ (forall a, a ∈ k1 -> base (c_store c) a < wb) /\ forall a, a ∈ k2 -> wb < base (c_store c) a)).
Proof.
  intros Hc. induction l2 as [|a l2 IH]; intros l1 fuel Hch Hs Hf H1.
  - exists 0, (final l1). split; [by destruct fuel|]. right. split; [done|]. exists l1, []. split_and!; [done..|]. by intros a ?%not_elem_of_nil.
  - cbn [chain first head default from_option] in Hch. destruct Hch as (_ & Ha & x & Hx & Hch). destruct fuel as [|fuel]; [cbn in Hf; lia|].
    apply StronglySorted_inv in Hs as [Hs Hall]. rewrite Forall_forall in Hall.
    assert (base (c_store c) a = BaseOffset x) as Hb by (unfold base; by rewrite Hx).
    change (first (a :: l2)) with a. cbn [getpage_loop]. rewrite (proj2 (Z.eqb_neq a 0)) by done. rewrite (bind_Ok _ _ _ _ _ (page_at_ok _ _ _ _ Hc Hx)).
    destruct (BaseOffset x <? wb) eqn:E1; bools.
    + pose proof (page_chain_first _ _ _ Hch) as Hn. rewrite Hn in *.
      destruct (IH (l1 ++ [a]) fuel) as (page & prev & Hg & Hr); [done|done|cbn in Hf; lia| |].
      { intros b [Hb'|Hb']%elem_of_app; [by apply H1|]. apply list_elem_of_singleton in Hb' as ->. lia. }
      exists page, prev. unfold final in Hg at 1. rewrite last_snoc in Hg. split; [exact Hg|].
      rewrite <- app_assoc in Hr. destruct Hr as [(? & ? & ?)|?]; [left; split_and!; [by right|done..]|by right].
    + destruct (wb <? BaseOffset x) eqn:E2; bools.
      * exists 0, (final l1). split; [done|]. right. split; [done|]. exists l1, (a :: l2). split_and!; [done..|].
        intros b [-> | Hb']%elem_of_cons; [lia|]. specialize (Hall b Hb'). lia.
      * exists a, (final l1). split; [done|]. left. split_and!; [by left|done|lia].
Qed.

Lemma chain_size (c : tIOCache) l : chain (c_store c) (Pages c) l -> NoDup l -> (length l <= size (c_store c))%nat.
Proof.
  intros Hc Hn. rewrite <- size_dom. rewrite <- (size_list_to_set (C := gset Z) l Hn). apply subseteq_size.
  intros a Ha. apply elem_of_list_to_set in Ha. apply elem_of_dom. by eapply chain_in.
Qed.

Lemma GetPage_spec s c l Sector : i_cache s = Some c -> cache_ok c (i_next s) (i_dev s) l ->
  exists page prev, IOCache_int_GetPage Sector s = Ok (page, prev) s /\
    ((page ∈ l /\ page <> 0 /\ exists x, c_store c !! page = Some x /\ BaseOffset x = sector_base c Sector) \/
     (page = 0 /\ exists k1 k2, l = k1 ++ k2 /\ prev = final k1 /\ (forall a, a ∈ k1 -> base (c_store c) a < sector_base c Sector) /\
        forall a, a ∈ k2 -> sector_base c Sector < base (c_store c) a)).
Proof.
  intros Hc Hok. pose proof (co_chain _ _ _ _ Hok) as Hch. pose proof (sorted_NoDup _ _ (co_sorted _ _ _ _ Hok)) as Hnd.
  pose proof (chain_size _ _ Hch Hnd). pose proof (page_chain_first _ _ _ Hch) as Hfirst. rewrite Hfirst in Hch.
  destruct (getpage_spec s c (sector_base c Sector) Hc l [] (S (size (c_store c))) Hch (co_sorted _ _ _ _ Hok)) as (page & prev & Hg & Hr); [lia|by intros a ?%not_elem_of_nil|].
  exists page, prev. split.
  - unfold IOCache_int_GetPage, bind at 1, the_cache. rewrite Hc, Hfirst. exact Hg.
  - destruct Hr as [(Hin & Hne & Hb)|Hr]; [left|by right]. split_and!; [done..|].
    destruct (chain_in _ _ _ _ Hch Hin) as [_ [x Hx]]. exists x. split; [done|]. unfold base in Hb. by rewrite Hx in Hb.
Qed.

Definition with_page (c : tIOCache) (a : Z) (x : tIOCache_PageInfo) : tIOCache :=
  MkCache (c_addr c) (SectorSize c) (c_Mode c) (CacheSize c) (CacheUsed c) (Pages c) (<[a := x]> (c_store c)).

Lemma put_page_ok s c a x : i_cache s = Some c ->
  put_page a x s = Ok tt (MkIo (Some (with_page c a x)) (i_list s) (i_global s) (i_now s) (i_next s) (i_alloc s) (i_dev s)).
Proof. intros Hc. unfold put_page, bind, the_cache. by rewrite Hc. Qed.

(** Changing the contents of a page, not its place. *)
Lemma update_ok c next dev dev' l a x x' : cache_ok c next dev l -> c_store c !! a = Some x -> CacheNext x' = CacheNext x -> BaseOffset x' = BaseOffset x ->
  page_ok dev' x' -> (forall b y, b ∈ l -> b <> a -> c_store c !! b = Some y -> page_ok dev y -> page_ok dev' y) -> cache_ok (with_page c a x') next dev' l.
Proof.
  intros [] Hx Hn Hb Hp Hother. split; cbn [with_page c_store SectorSize c_Mode CacheSize CacheUsed Pages]; try done.
  - eapply chain_frame; [done|]. intros b y Hin Hy. destruct (decide (b = a)) as [->|].
    + exists x'. rewrite lookup_insert_eq. split; [done|]. congruence.
    + exists y. by rewrite lookup_insert_ne.
  - assert (forall b, base (<[a := x']> (c_store c)) b = base (c_store c) b) as Hbase.
    { intros b. unfold base. destruct (decide (b = a)) as [->|]; [by rewrite lookup_insert_eq, Hx, Hb|by rewrite lookup_insert_ne]. }
    by apply (sorted_base (c_store c)).
  - intros b. destruct (decide (b = a)) as [->|]; [intros _; apply co_fresh0; by rewrite Hx|]. by rewrite lookup_insert_ne; auto.
  - intros b y Hin. destruct (decide (b = a)) as [->|]; [rewrite lookup_insert_eq; by intros [= <-]|].
    rewrite lookup_insert_ne by done. intros Hy. by eapply Hother; eauto.
Qed.

Lemma page_ok_access dev x t : page_ok dev x -> page_ok dev (set_access t x).
Proof. by intros []. Qed.

Lemma dev_sector dev x c Sector j : page_ok dev x -> place c Sector j -> BaseOffset x = sector_base c Sector -> Z.testbit (PresentSectors x) j = true ->
  forall i, 0 <= i < SS -> get (p_data x) (sector_offset c Sector + i) = get (contents dev) (Sector * SS + i).
Proof. intros Hok Hpl Hb Hbit i Hi. rewrite (pl_offset _ _ _ Hpl), (po_data _ _ Hok j) by (first [apply Hpl|done]). f_equal. rewrite <- (pl_base _ _ _ Hpl), Hb. lia. Qed.

(** Reading: the sector as it is on the device, or nothing. *)
Lemma Cache_Read_spec s Sector : coherent s -> 0 <= Sector -> (Sector + 1) * SS <= len (contents (i_dev s)) ->
  wp (IOCache_Read Sector) s (fun r s' => i_dev s' = i_dev s /\ coherent s' /\
    ((r = (0, None) /\ s' = s) \/ r = (1, Some (sub (Sector * SS) SS (contents (i_dev s)))))).
Proof.
  intros (c & l & Hc & Hok & Hrel & Hus & Hsz & Hal) Hn Hin. destruct (sector_place c Sector (i_dev s)) as [j Hpl]; [apply Hok|done..|].
  destruct (GetPage_spec s c l Sector Hc Hok) as (page & prev & Hg & Hr). pose proof (co_cap _ _ _ _ Hok). pose proof (pl_in _ _ _ Hpl).
  unfold IOCache_Read. apply wp_bind. eapply wp_eq; [by unfold the_cache; rewrite Hc|]. rewrite (proj2 (Z.eqb_neq (CacheSize c) 0)) by lia.
  apply wp_bind. eapply wp_eq; [exact Hg|]. cbn beta iota. assert (coherent s) as Hco by (by exists c, l).
  destruct Hr as [(Hinl & Hne & x & Hx & Hbase)|[-> _]]; [|by apply wp_ret; auto].
  rewrite (proj2 (Z.eqb_neq page 0)) by done. apply wp_bind. eapply wp_eq; [exact (page_at_ok _ _ _ _ Hc Hx)|]. rewrite (pl_mask _ _ _ Hpl).
  pose proof (co_pages _ _ _ _ Hok page x Hinl Hx) as Hpok.
  destruct (Z.land (PresentSectors x) (Z.shiftl 1 j) =? 0) eqn:Ebit; bools; [by apply wp_ret; auto|].
  rewrite mask_bit in Ebit by apply Hpl. apply not_false_is_true in Ebit.
  apply wp_bind, wp_bind. eapply wp_eq; [exact (put_page_ok _ _ _ _ Hc)|]. rewrite (co_size _ _ _ _ Hok), (pl_offset _ _ _ Hpl).
  rewrite rd_ok by (rewrite ?(po_len _ _ Hpok); lia). apply wp_bind, wp_ret, wp_ret. split_and!; [done| |right; do 2 f_equal].
  - exists (with_page c page (set_access (i_now s) x)), l. split_and!; try done. cbn [i_next i_dev].
    eapply update_ok; [done..|by apply page_ok_access|done].
  - apply list_eq_get; rewrite ?len_sub by (rewrite ?(po_len _ _ Hpok); lia); [done|].
    intros i Hi. rewrite !get_sub by lia. rewrite <- (dev_sector _ _ _ _ _ Hpok Hpl Hbase Ebit i) by lia. by rewrite (pl_offset _ _ _ Hpl).
Qed.

Lemma sorted_inj st l a b : StronglySorted (fun a b => base st a < base st b) l -> a ∈ l -> b ∈ l -> base st a = base st b -> a = b.
Proof.
  induction 1 as [|c l Hs IH Hf]; [by intros ?%not_elem_of_nil|]. rewrite Forall_forall in Hf.
  intros [-> | Ha]%elem_of_cons [-> | Hb]%elem_of_cons He; [done|specialize (Hf b Hb)|specialize (Hf a Ha)|auto]; lia.
Qed.

Lemma page_ok_dev dev dev' y : page_ok dev y -> (forall i, BaseOffset y <= i < BaseOffset y + 4096 -> get (contents dev') i = get (contents dev) i) -> page_ok dev' y.
Proof.
  intros [] Hsame. split; try done. intros j Hj Hbit i Hi. rewrite po_data0 by done. symmetry. apply Hsame.
  assert (j * SS + SS <= 4096) by (destruct Hdiv as [q Hq]; rewrite Hq in Hj; rewrite Z.div_mul in Hj by lia; nia). nia.
Qed.

Lemma aligned_apart a b : a mod 4096 = 0 -> b mod 4096 = 0 -> a <> b -> a + 4096 <= b \/ b + 4096 <= a.
Proof. intros. assert (a = 4096 * (a / 4096) /\ b = 4096 * (b / 4096)) by (pose proof (Z.div_mod a 4096); pose proof (Z.div_mod b 4096); lia). lia. Qed.

(** The bytes of a sector in its page after they were replaced, and the others. *)
Lemma page_ok_store dev dev' x c Sector j b d pres t : page_ok dev x -> place c Sector j -> BaseOffset x = sector_base c Sector -> len b = SS ->
  wr (p_data x) (j * SS) b = Some d ->
  (forall i, get (contents dev') i = if (Sector * SS <=? i) && (i <? Sector * SS + SS) then get b (i - Sector * SS) else get (contents dev) i) ->
  0 <= pres < 4294967296 -> (forall k, 0 <= k < 4096 / SS -> Z.testbit pres k = true -> k = j \/ Z.testbit (PresentSectors x) k = true) ->
  page_ok dev' (MkPage (CacheNext x) t (BaseOffset x) pres (DirtySectors x) d).
Proof.
  intros [] Hpl Hb Hlb Hw Hdev Hpres Hbits. pose proof (pl_in _ _ _ Hpl). pose proof (pl_base _ _ _ Hpl).
  destruct (get_wr (p_data x) b (j * SS)) as (d' & Hw' & Hld & Hget); [lia|lia|]. assert (d' = d) as -> by congruence.
  split; cbn [BaseOffset p_data PresentSectors DirtySectors]; try done; [lia|]. intros k Hk Hbit i Hi. rewrite Hget, Hdev.
  destruct (decide (k = j)) as [->|Hne].
  - replace (_ && _) with true by (symmetry; lia). replace (_ && _) with true by (symmetry; lia). f_equal. lia.
  - assert (k + 1 <= j \/ j + 1 <= k) as Hkj by lia.
    assert ((k + 1) * SS <= j * SS \/ (j + 1) * SS <= k * SS) by (destruct Hkj; [left|right]; apply Z.mul_le_mono_nonneg_r; lia).
    replace (_ && _) with false by (symmetry; lia). replace (_ && _) with false by (symmetry; lia).
    destruct (Hbits k Hk Hbit); [done|]. by apply po_data0.
Qed.

(** Writing: a cached sector is changed in the cache and on the device; one that is not cached is not written at all. *)
Lemma Cache_Write_spec s Sector Buffer : coherent s -> 0 <= Sector -> (Sector + 1) * SS <= len (contents (i_dev s)) -> SS <= len Buffer ->
  wp (IOCache_Write dev_write Sector Buffer) s (fun r s' => coherent s' /\ len (contents (i_dev s')) = len (contents (i_dev s)) /\
    ((r = 0 /\ s' = s) \/
     (r = 1 /\ forall i, get (contents (i_dev s')) i =
        if (Sector * SS <=? i) && (i <? Sector * SS + SS) then get Buffer (i - Sector * SS) else get (contents (i_dev s)) i))).
Proof.
  intros (c & l & Hc & Hok & Hrel & Hus & Hsz & Hal) Hn Hin Hbuf. destruct (sector_place c Sector (i_dev s)) as [j Hpl]; [apply Hok|done..|].
  destruct (GetPage_spec s c l Sector Hc Hok) as (page & prev & Hg & Hr). pose proof (co_cap _ _ _ _ Hok). pose proof (pl_in _ _ _ Hpl).
  unfold IOCache_Write. apply wp_bind. eapply wp_eq; [by unfold the_cache; rewrite Hc|]. rewrite (proj2 (Z.eqb_neq (CacheSize c) 0)) by lia.
  apply wp_bind. eapply wp_eq; [exact Hg|]. cbn beta iota. assert (coherent s) as Hco by (by exists c, l).
  destruct Hr as [(Hinl & Hne & x & Hx & Hbase)|[-> _]]; [|by apply wp_ret; auto].
  rewrite (proj2 (Z.eqb_neq page 0)) by done. apply wp_bind. eapply wp_eq; [exact (page_at_ok _ _ _ _ Hc Hx)|].
  rewrite (pl_mask _ _ _ Hpl). pose proof (co_pages _ _ _ _ Hok page x Hinl Hx) as Hpok.
  destruct (Z.land (PresentSectors x) (Z.shiftl 1 j) =? 0) eqn:Ebit; bools; [by apply wp_ret; auto|].
  rewrite mask_bit in Ebit by apply Hpl. apply not_false_is_true in Ebit.
  apply wp_bind. eapply wp_eq; [done|]. cbn beta. rewrite (co_size _ _ _ _ Hok), rd_ok by lia. apply wp_bind, wp_ret. rewrite (pl_offset _ _ _ Hpl).
  assert (len (sub 0 SS Buffer) = SS) as Hlb by (apply len_sub; lia).
  destruct (get_wr (p_data x) (sub 0 SS Buffer) (j * SS)) as (d & Hw & _ & _); [lia|rewrite (po_len _ _ Hpok); lia|].
  rewrite Hw. apply wp_bind, wp_ret, wp_bind. eapply wp_eq; [exact (put_page_ok _ _ _ _ Hc)|]. rewrite bool_decide_true by apply Hok.
  destruct (write_blocks (i_dev s) Sector 1 (sub 0 SS Buffer)) as (k & dev' & Hwr & Hus' & Hrel' & Hk & Hlen & Hsec & Hout); [done|lia..|].
  destruct (Hrel' Hrel) as [Hr' ->]. apply wp_bind, wp_bind. eapply wp_eq; [unfold on_dev, dev_write; cbn [i_dev]; by rewrite Hwr|]. apply wp_ret, wp_ret.
  cbn [i_dev i_cache i_list i_global i_now i_next i_alloc].
  assert (forall i, get (contents dev') i = if (Sector * SS <=? i) && (i <? Sector * SS + SS) then get (sub 0 SS Buffer) (i - Sector * SS) else get (contents (i_dev s)) i) as Hnew.
  { intros i. case_if; [|apply Hout; apply andb_false_iff in Heqb as [?|?]; bools; lia].
    specialize (Hsec (i - Sector * SS) ltac:(lia)). by replace (Sector * SS + (i - Sector * SS)) with i in Hsec by lia. }
  split_and!; [|done|right; split; [done|]].
  - exists (with_page c page (set_access (i_now s) (set_data d x))), l. cbn [i_dev i_cache i_next i_alloc]. split_and!; try done; [|unfold device_size in *; congruence].
    eapply update_ok; [done..| |].
    + eapply (page_ok_store _ _ x c Sector j _ d); try done; [apply Hpok|by right].
    + intros b y Hb Hby Hy Hyok. apply (page_ok_dev (i_dev s)); [done|]. intros i Hi. apply Hout.
      assert (BaseOffset y <> BaseOffset x).
      { intros He. apply Hby. apply (sorted_inj (c_store c) l); [apply Hok|done..|]. unfold base. by rewrite Hx, Hy. }
      pose proof (aligned_apart _ _ (po_align _ _ Hyok) (po_align _ _ Hpok) ltac:(done)). pose proof (pl_base _ _ _ Hpl). lia.
  - intros i. rewrite Hnew. case_if; [|done]. by rewrite get_sub by lia.
Qed.

(** ** Adding a page *)

Lemma fresh_len a : len (fresh_data junk a) = 4096.
Proof. unfold fresh_data, len. rewrite length_fmap, length_seqZ. reflexivity. Qed.

Definition linked (c : tIOCache) (k1 : list Z) (a : Z) (x : tIOCache_PageInfo) : tIOCache :=
  let st := <[a := x]> (c_store c) in
  MkCache (c_addr c) (SectorSize c) (c_Mode c) (CacheSize c) (CacheUsed c) (if decide (k1 = []) then a else Pages c)
    (match last k1 with Some b => match c_store c !! b with Some y => <[b := set_next a y]> st | None => st end | None => st end).

Lemma linked_page c k1 a x b y : c_store c !! a = None -> c_store (linked c k1 a x) !! b = Some y ->
  (b = a /\ y = x) \/ (b <> a /\ exists y0, c_store c !! b = Some y0 /\ BaseOffset y = BaseOffset y0 /\ PresentSectors y = PresentSectors y0 /\
     DirtySectors y = DirtySectors y0 /\ p_data y = p_data y0).
Proof.
  intros Ha. unfold linked. cbn [c_store].
  assert (forall b y, <[a := x]> (c_store c) !! b = Some y -> (b = a /\ y = x) \/ (b <> a /\ c_store c !! b = Some y)) as Hst.
  { intros b' y'. destruct (decide (b' = a)) as [->|]; [rewrite lookup_insert_eq; naive_solver|rewrite lookup_insert_ne by done; naive_solver]. }
  destruct (last k1) as [e|]; [destruct (c_store c !! e) as [z|] eqn:Hz|].
  - destruct (decide (b = e)) as [->|].
    + rewrite lookup_insert_eq. intros [= <-]. right. split; [intros ->; congruence|]. by exists z.
    + rewrite lookup_insert_ne by done. intros [?|[? ?]]%Hst; [by left|right]. split; [done|]. by exists y.
  - intros [?|[? ?]]%Hst; [by left|right]. split; [done|]. by exists y.
  - intros [?|[? ?]]%Hst; [by left|right]. split; [done|]. by exists y.
Qed.

Lemma linked_base c k1 a x b : c_store c !! a = None -> base (c_store (linked c k1 a x)) b = if decide (b = a) then BaseOffset x else base (c_store c) b.
Proof.
  intros Ha. unfold base at 1. destruct (c_store (linked c k1 a x) !! b) as [y|] eqn:Hy.
  - destruct (linked_page c k1 a x b y Ha Hy) as [[-> ->]|(Hne & y0 & Hy0 & Hb & _)]; [by rewrite decide_True|].
    rewrite decide_False by done. unfold base. by rewrite Hy0.
  - assert (forall st, st !! b = None -> <[a := x]> st !! b = None \/ b = a) as Hst by (intros st ?; destruct (decide (b = a)); [by right|left; by rewrite lookup_insert_ne]).
    unfold linked in Hy. cbn [c_store] in Hy. unfold base.
    assert (b <> a /\ c_store c !! b = None) as [Hne Hb].
    { destruct (decide (b = a)) as [->|Hne].
      - exfalso. destruct (last k1) as [e|]; [destruct (c_store c !! e) as [z|] eqn:Hz|]; [|by rewrite lookup_insert_eq in Hy..].
        destruct (decide (a = e)) as [->|]; [congruence|]. by rewrite lookup_insert_ne, lookup_insert_eq in Hy by done.
      - split; [done|]. destruct (last k1) as [e|]; [destruct (c_store c !! e) as [z|] eqn:Hz|]; [|by rewrite lookup_insert_ne in Hy by done..].
        destruct (decide (b = e)) as [->|]; [by rewrite lookup_insert_eq in Hy|]. by rewrite !lookup_insert_ne in Hy by done. }
    by rewrite decide_False, Hb.
Qed.

(** A page linked at its place keeps the cache in order. *)
Lemma linked_ok c next dev k1 k2 x : cache_ok c next dev (k1 ++ k2) -> page_ok dev x -> CacheNext x = first k2 ->
  (forall b, b ∈ k1 -> base (c_store c) b < BaseOffset x) -> (forall b, b ∈ k2 -> BaseOffset x < base (c_store c) b) ->
  cache_ok (linked c k1 next x) (next + 1) dev (k1 ++ next :: k2).
Proof.
  intros Hok Hx Hn H1 H2. pose proof (co_next _ _ _ _ Hok) as Hpos.
  assert (c_store c !! next = None) as Hnone.
  { destruct (c_store c !! next) as [y|] eqn:Hy; [|done]. pose proof (co_fresh _ _ _ _ Hok next ltac:(by rewrite Hy)). lia. }
  assert (next ∉ k1 ++ k2) as Hnin by (intros Hin; destruct (chain_in _ _ _ _ (co_chain _ _ _ _ Hok) Hin) as [_ [y Hy]]; congruence).
  pose proof (sorted_NoDup _ _ (co_sorted _ _ _ _ Hok)) as Hnd.
  pose proof (fun b => linked_base c k1 next x b Hnone) as Hbase.
  destruct Hok. split; try done.
  - apply (chain_link (c_store c) (Pages c)); try done. lia.
  - assert (StronglySorted (fun a b => base (c_store (linked c k1 next x)) a < base (c_store (linked c k1 next x)) b) (k1 ++ k2)) as Hs.
    { clear -co_sorted0 Hnin Hbase. assert (forall b, b ∈ k1 ++ k2 -> base (c_store (linked c k1 next x)) b = base (c_store c) b) as He.
      { intros b Hb. rewrite Hbase, decide_False; [done|]. by intros ->. }
      clear Hbase Hnin. induction co_sorted0 as [|a l Hs IH Hf]; constructor; [apply IH; intros; apply He; by right|].
      rewrite Forall_forall in *. intros b Hb. rewrite !He by (by constructor). by apply Hf. }
    apply StronglySorted_app in Hs as (Hcross & Hs1 & Hs2). apply StronglySorted_app. split_and!; [|done|].
    + intros b1 b2 Hb1 [-> | Hb2]%elem_of_cons; [|by apply Hcross]. rewrite !Hbase.
      rewrite decide_False, decide_True; [by apply H1|done|]. intros ->. apply Hnin, elem_of_app. by left.
    + constructor; [done|]. apply Forall_forall. intros b Hb. rewrite !Hbase.
      rewrite decide_True, decide_False; [by apply H2| |done]. intros ->. apply Hnin, elem_of_app. by right.
  - intros b [y Hy]. destruct (linked_page c k1 next x b y Hnone Hy) as [[-> ->]|(Hne & y0 & Hy0 & _)]; [lia|].
    specialize (co_fresh0 b ltac:(by rewrite Hy0)). lia.
  - lia.
  - intros b y Hb Hy. destruct (linked_page c k1 next x b y Hnone Hy) as [[-> ->]|(Hne & y0 & Hy0 & E1 & E2 & E3 & E4)]; [done|].
    assert (page_ok dev y0) as [] by (apply (co_pages0 b); [set_solver|done]). split; rewrite ?E1, ?E2, ?E3, ?E4; done.
Qed.

Lemma wp_assoc {T E A B C} (c1 : M T E A) (c2 : A -> M T E B) (c3 : B -> M T E C) (t : T) Q :
  wp (bind (bind c1 c2) c3) t Q -> wp (bind c1 (fun a => bind (c2 a) c3)) t Q.
Proof. unfold wp. by rewrite bind_assoc. Qed.

(** The cache stays coherent with a device whose bytes are the same. *)
Lemma coherent_dev s dev : coherent s -> contents dev = contents (i_dev s) -> reliable dev -> usable dev ->
  coherent (MkIo (i_cache s) (i_list s) (i_global s) (i_now s) (i_next s) (i_alloc s) dev).
Proof.
  intros (c & l & Hc & Hok & Hrel & Hus & Hsz & Hal) Hsame Hr Hu. exists c, l. unfold device_size in *. cbn [i_cache i_next i_dev i_alloc]. rewrite Hsame.
  split_and!; try done. destruct Hok. split; try done. intros a x Ha Hx. apply (page_ok_dev (i_dev s)); [by eapply co_pages0|]. intros i _. by rewrite Hsame.
Qed.

(** The pointer writes that link a page are [linked]. *)
Lemma link_page s c k1 k2 a x : i_cache s = Some c -> chain (c_store c) (Pages c) (k1 ++ k2) -> a ∉ k1 ++ k2 ->
  wp (put_page a x ;;; set_next_of (final k1) a) s (fun _ s' =>
    s' = MkIo (Some (linked c k1 a x)) (i_list s) (i_global s) (i_now s) (i_next s) (i_alloc s) (i_dev s)).
Proof.
  intros Hc Hch Hnin. apply wp_bind. eapply wp_eq; [by apply put_page_ok|]. unfold set_next_of, final.
  destruct k1 as [|b k1 _] using rev_ind; [done|]. rewrite last_snoc. change (default 0 (Some b)) with b.
  assert (b ∈ (k1 ++ [b]) ++ k2) as Hb by set_solver. destruct (chain_in _ _ _ _ Hch Hb) as [Hb0 [y Hy]].
  rewrite (proj2 (Z.eqb_neq b 0)) by done. assert (b <> a) as Hba by (by intros ->).
  apply wp_bind. eapply wp_eq; [eapply page_at_ok; [done|]; cbn [with_page c_store]; by rewrite lookup_insert_ne|].
  eapply wp_eq; [by apply put_page_ok|]. unfold linked, with_page. cbn [c_store c_addr SectorSize c_Mode CacheSize CacheUsed Pages i_list i_global i_now i_next i_alloc i_dev].
  rewrite last_snoc, Hy, decide_False; [done|]. by destruct k1.
Qed.

Lemma next_of_spec s c k1 k2 : i_cache s = Some c -> chain (c_store c) (Pages c) (k1 ++ k2) -> next_of (final k1) s = Ok (first k2) s.
Proof.
  intros Hc Hch. unfold next_of, final. destruct k1 as [|b k1 _] using rev_ind.
  - cbn. unfold bind, the_cache. rewrite Hc. by rewrite (page_chain_first _ _ _ Hch).
  - rewrite last_snoc. change (default 0 (Some b)) with b. assert (b ∈ (k1 ++ [b]) ++ k2) as Hb by set_solver.
    destruct (chain_in _ _ _ _ Hch Hb) as [Hb0 [y Hy]]. rewrite (proj2 (Z.eqb_neq b 0)) by done.
    rewrite (bind_Ok _ _ _ _ _ (page_at_ok _ _ _ _ Hc Hy)). unfold ret. f_equal.
    rewrite <- app_assoc in Hch. apply chain_app in Hch as [_ Hch]. cbn in Hch. destruct Hch as (_ & _ & y' & Hy' & Hch).
    assert (y' = y) as <- by congruence. exact (page_chain_first _ _ _ Hch).
Qed.

Lemma device_bytes dev Sector b : 0 <= Sector -> b = sub (Sector * SS) SS (contents dev) ->
  forall i, get (contents dev) i = if (Sector * SS <=? i) && (i <? Sector * SS + SS) then get b (i - Sector * SS) else get (contents dev) i.
Proof.
  intros Hn -> i. case_if; [|done]. rewrite get_sub by nia. f_equal. lia.
Qed.

Lemma new_page_ok s : Forall (eq true) (i_alloc s) -> exists al, Forall (eq true) al /\
  new_page s = Ok (i_next s) (MkIo (i_cache s) (i_list s) (i_next s :: i_global s) (i_now s) (i_next s + 1) al (i_dev s)).
Proof.
  intros Hal. unfold new_page. destruct (i_alloc s) as [|[] al]; [by exists []|exists al; by inversion Hal|by inversion Hal].
Qed.

(** Adding a sector with the device's bytes.  A new page is added without marking the sector as present. *)
Lemma Cache_Add_spec s Sector Buffer : coherent s -> 0 <= Sector -> (Sector + 1) * SS <= len (contents (i_dev s)) -> SS <= len Buffer ->
  sub 0 SS Buffer = sub (Sector * SS) SS (contents (i_dev s)) ->
  wp (IOCache_Add dev_write junk Sector Buffer) s (fun r s' => coherent s' /\ i_dev s' = i_dev s /\ (r = 0 \/ r = 1)).
Proof.
  intros (c & l & Hc & Hok & Hrel & Hus & Hsz & Hal) Hn Hin Hbuf Hsame. destruct (sector_place c Sector (i_dev s)) as [j Hpl]; [apply Hok|done..|].
  destruct (GetPage_spec s c l Sector Hc Hok) as (page & prev & Hg & Hr). pose proof (co_cap _ _ _ _ Hok). pose proof (pl_in _ _ _ Hpl).
  pose proof (pl_8 _ _ _ Hpl). pose proof (device_bytes (i_dev s) Sector _ Hn Hsame) as Hdev.
  assert (len (sub 0 SS Buffer) = SS) as Hlb by (apply len_sub; lia).
  unfold IOCache_Add. apply wp_bind. eapply wp_eq; [by unfold the_cache; rewrite Hc|]. rewrite (proj2 (Z.eqb_neq (CacheSize c) 0)) by lia.
  apply wp_bind. eapply wp_eq; [exact Hg|]. cbn beta iota zeta. rewrite (co_size _ _ _ _ Hok), rd_ok by lia. rewrite (pl_mask _ _ _ Hpl), (pl_offset _ _ _ Hpl).
  destruct Hr as [(Hinl & Hne & x & Hx & Hbase)|(-> & k1 & k2 & Hl & -> & Hk1 & Hk2)].
  - rewrite (proj2 (Z.eqb_neq page 0)) by done. cbn [negb]. apply wp_bind. eapply wp_eq; [exact (page_at_ok _ _ _ _ Hc Hx)|].
    pose proof (co_pages _ _ _ _ Hok page x Hinl Hx) as Hpok.
    destruct (Z.land (PresentSectors x) (Z.shiftl 1 j) =? 0) eqn:Ebit; bools; [|apply wp_ret; split_and!; [by exists c, l|done|by left]].
    destruct (get_wr (p_data x) (sub 0 SS Buffer) (j * SS)) as (d & Hw & _ & _); [lia|rewrite (po_len _ _ Hpok); lia|].
    apply wp_bind, wp_ret, wp_bind. eapply wp_eq; [by apply of_option_ok|]. apply wp_bind. eapply wp_eq; [exact (put_page_ok _ _ _ _ Hc)|]. apply wp_ret.
    split_and!; [|done|by right]. eexists (with_page c page _), l. split_and!; try done. cbn [i_next i_dev].
    eapply update_ok; [done..| |done]. eapply (page_ok_store _ _ x c Sector j _ d); try done; [apply u32_range|].
    intros k Hk Hbit. rewrite or_bit in Hbit by (first [lia|apply Hpok]). apply orb_true_iff in Hbit as [?|?]; bools; auto.
  - cbn [Z.eqb negb]. rewrite (co_used _ _ _ _ Hok), (proj2 (Z.leb_le 0 (CacheSize c))) by lia. subst l.
    destruct (new_page_ok s Hal) as (al & Hal' & Hnew). apply wp_bind, wp_bind. eapply wp_eq; [exact Hnew|]. apply wp_ret. cbn beta iota. pose proof (co_chain _ _ _ _ Hok) as Hch.
    apply wp_bind. eapply wp_eq; [by eapply next_of_spec; [|exact Hch]|]. apply wp_bind. eapply wp_eq; [done|]. cbn beta.
    destruct (get_wr (fresh_data junk (i_next s)) (sub 0 SS Buffer) (j * SS)) as (d & Hw & Hld & _); [lia|rewrite fresh_len; lia|].
    apply wp_bind, wp_ret, wp_bind. eapply wp_eq; [by apply of_option_ok|]. 
    set (x := MkPage (first k2) (i_now s) (sector_base c Sector) 0 0 d).
    assert (i_next s ∉ k1 ++ k2) as Hnin.
    { intros Hin'. destruct (chain_in _ _ _ _ Hch Hin') as [_ Hs']. pose proof (co_fresh _ _ _ _ Hok _ Hs'). lia. }
    assert (cache_ok (linked c k1 (i_next s) x) (i_next s + 1) (i_dev s) (k1 ++ i_next s :: k2)) as Hok'.
    { apply linked_ok; try done. split; cbn [x BaseOffset p_data PresentSectors DirtySectors]; try done.
      - apply Hpl.
      - apply Hpl.
      - intros k _ Hk. by rewrite Z.bits_0 in Hk. }
    eapply (wp_assoc (put_page (i_next s) x)). apply wp_bind. eapply wp_mono; [by apply (link_page _ c k1 k2 (i_next s) x)|].
    intros _ s' ->. apply wp_ret. split_and!; [|done|by right]. by exists (linked c k1 (i_next s) x), (k1 ++ i_next s :: k2).
Qed.
End coherence.
