(* ===== verification/Lvm.v ===== *)
(** * The logical volume manager ([KernelLand/Modules/Storage/LVM])

    Volumes on a device, read and written through the block cache ([volumes.c]), their partitions from the
    master boot record ([mbr.c]), and the files of the volume directory ([main.c]).  The device's Read and Write
    are parameters over the device state [D]; the cache and the device are the state [io D] of
    [IoCache], and a volume is a value the operations take. *)
From S2P Require Import Prelude CString Arith Number Format Disk IoCache.

Local Open Scope Z_scope.
Local Open Scope monad_scope.

Record tLVM_SubVolume := MkSub { FirstBlock : Z; sv_BlockCount : Z; sv_Name : list Z; sv_Refs : Z }.

(** [CacheHandle]: whether IOCache_Create gave a cache. *)
Record tLVM_Vol := MkVol {
  v_BlockSize : Z; v_BlockCount : Z; nSubVolumes : Z; SubVolumes : list (option tLVM_SubVolume); CacheHandle : bool; v_Name : list Z; v_Refs : Z }.

Section lvm.
Context {D : Type} (DevRead : Z -> Z -> list Z -> M D iostop (Z * list Z)) (DevWrite : Z -> Z -> list Z -> M D iostop Z) (junk : Z -> Z -> Z).
Abbreviation IO := (M (io D) iostop).

Definition LVM_int_CacheWriteback (Sector : Z) (Buffer : list Z) : M D iostop Z := DevWrite Sector 1 Buffer.

(** ** Volume input and output ([volumes.c]) *)
Section volume.
Context (BlockSize BlockNum : Z).

(** One call of IOCache_Read with Dest at block [done] of the buffer. *)
Definition try_cached (done : Z) (dest : list Z) : IO (Z * list Z) :=
  do r <- IOCache_Read (u64 (BlockNum + done));
  match r.2 with
  | Some d => do dest <- of_option (wr dest (done * BlockSize) d); ret (r.1, dest)
  | None => ret (r.1, dest)
  end.

(** The two inner loops; [n] is BlockCount - done. *)
Fixpoint cached_run (n : nat) (done : Z) (dest : list Z) : IO (Z * list Z) :=
  match n with
  | O => ret (done, dest)
  | S n =>
      do r <- try_cached done dest;
      if r.1 =? 1 then cached_run n (done + 1) r.2 else ret (done, r.2)
  end.
Fixpoint uncached_run (n : nat) (done : Z) (dest : list Z) : IO (Z * list Z) :=
  match n with
  | O => ret (done, dest)
  | S n =>
      do r <- try_cached done dest;
      if r.1 =? 0 then uncached_run n (done + 1) r.2 else ret (done, r.2)
  end.

Fixpoint add_blocks (count : nat) (first_uncached : Z) (dest : list Z) : IO unit :=
  match count with
  | O => ret tt
  | S count =>
      do b <- of_option (rd dest (first_uncached * BlockSize) (len dest - first_uncached * BlockSize));
      IOCache_Add LVM_int_CacheWriteback junk (u64 (BlockNum + first_uncached)) b ;;;
      add_blocks count (first_uncached + 1) dest
  end.

Fixpoint read_loop (fuel : nat) (BlockCount done : Z) (dest : list Z) : IO (Z * list Z) :=
  if BlockCount <=? done then ret (done, dest) else
  match fuel with
  | O => halt IoLoop
  | S fuel =>
      do r <- cached_run (Z.to_nat (BlockCount - done)) done dest;
      let first_uncached := r.1 in
      do r <- uncached_run (Z.to_nat (BlockCount - first_uncached)) first_uncached r.2;
      let '(done, dest) := r in
      let count := done - first_uncached in
      if count =? 0 then read_loop fuel BlockCount done dest
      else
        do b <- of_option (rd dest (first_uncached * BlockSize) (count * BlockSize));
        do r <- on_dev (DevRead (u64 (BlockNum + first_uncached)) count b);
        do dest <- of_option (wr dest (first_uncached * BlockSize) r.2);
        add_blocks (Z.to_nat count) first_uncached dest ;;;
        read_loop fuel BlockCount done dest
  end.

Fixpoint write_loop (count : nat) (BlockNum done : Z) (src : list Z) : IO Z :=
  match count with
  | O => ret done
  | S count =>
      do b <- of_option (rd src (done * BlockSize) (len src - done * BlockSize));
      IOCache_Write LVM_int_CacheWriteback BlockNum b ;;;
      write_loop count (u64 (BlockNum + 1)) (done + 1) src
  end.
End volume.

Definition LVM_int_ReadVolume (Volume : tLVM_Vol) (BlockNum BlockCount : Z) (Dest : list Z) : IO (Z * list Z) :=
  if CacheHandle Volume then read_loop (v_BlockSize Volume) BlockNum (S (Z.to_nat BlockCount)) BlockCount 0 Dest
  else on_dev (DevRead BlockNum BlockCount Dest).

Definition LVM_int_WriteVolume (Volume : tLVM_Vol) (BlockNum BlockCount : Z) (Src : list Z) : IO Z :=
  if CacheHandle Volume then write_loop (v_BlockSize Volume) (Z.to_nat BlockCount) BlockNum 0 Src
  else on_dev (DevWrite BlockNum BlockCount Src).

Definition LVM_int_DrvUtil_ReadBlock (Argument : tLVM_Vol) (Address Count : Z) (Buffer : list Z) : IO (Z * list Z) :=
  LVM_int_ReadVolume Argument Address Count Buffer.
Definition LVM_int_DrvUtil_WriteBlock (Argument : tLVM_Vol) (Address Count : Z) (Buffer : list Z) : IO Z :=
  LVM_int_WriteVolume Argument Address Count Buffer.

(** ** The files ([main.c]) *)

(** The part of a request that lies in a volume of [byte_size] bytes. *)
Definition clip (byte_size Offset Length : Z) : Z :=
  let Length := if byte_size <? Length then u32 byte_size else Length in
  if byte_size <? u64 (Offset + Length) then u32 (byte_size - Offset) else Length.

Context (tmp0 : Z -> list Z).

Definition LVM_Vol_Read (vol : tLVM_Vol) (Offset Length : Z) (Buffer : list Z) : IO (Z * list Z) :=
  let byte_size := u64 (v_BlockCount vol * v_BlockSize vol) in
  if byte_size <? Offset then ret (0, Buffer)
  else DrvUtil_ReadBlock (LVM_int_DrvUtil_ReadBlock vol) (v_BlockSize vol) (tmp0 (v_BlockSize vol)) Offset (clip byte_size Offset Length) Buffer.

Definition LVM_Vol_Write (vol : tLVM_Vol) (Offset Length : Z) (Buffer : list Z) : IO Z := ret 0.

Definition LVM_SubVol_Read (vol : tLVM_Vol) (sv : tLVM_SubVolume) (Offset Length : Z) (Buffer : list Z) : IO (Z * list Z) :=
  let byte_size := u64 (sv_BlockCount sv * v_BlockSize vol) in
  if byte_size <? Offset then ret (0, Buffer)
  else DrvUtil_ReadBlock (LVM_int_DrvUtil_ReadBlock vol) (v_BlockSize vol) (tmp0 (v_BlockSize vol))
         (u64 (Offset + FirstBlock sv * v_BlockSize vol)) (clip byte_size Offset Length) Buffer.

Definition LVM_SubVol_Write (vol : tLVM_Vol) (sv : tLVM_SubVolume) (Offset Length : Z) (Buffer : list Z) : IO Z :=
  let byte_size := u64 (sv_BlockCount sv * v_BlockSize vol) in
  if byte_size <? Offset then ret 0
  else DrvUtil_WriteBlock (LVM_int_DrvUtil_ReadBlock vol) (LVM_int_DrvUtil_WriteBlock vol) (v_BlockSize vol) (tmp0 (v_BlockSize vol))
         (u64 (Offset + FirstBlock sv * v_BlockSize vol)) (clip byte_size Offset Length) Buffer.

(** ** Partition tables ([mbr.c]) *)
Record part := MkPart { Boot : Z; StartHi : Z; SystemID : Z; LengthHi : Z; LBAStart : Z; LBALength : Z }.

Definition le16 (m : list Z) (o : Z) : option Z := a ← get m o; b ← get m (o + 1); Some (a + b * 256).
Definition le32 (m : list Z) (o : Z) : option Z := a ← le16 m o; b ← le16 m (o + 2); Some (a + b * 65536).

(** Entry [i] of the table, in the packed layout of tMBR. *)
Definition Parts (mbr : list Z) (i : Z) : option part :=
  let o := 446 + 16 * i in
  b ← get mbr o; sh ← le16 mbr (o + 2); id ← get mbr (o + 4); lh ← le16 mbr (o + 6);
  ls ← le32 mbr (o + 8); ll ← le32 mbr (o + 12); Some (MkPart b sh id lh ls ll).

(** Base and length of an entry, None for an unknown Boot byte; the shift of the high halves is by 16. *)
Definition extent (p : part) : option (Z * Z) :=
  if (Boot p =? 0) || (Boot p =? 128) then Some (LBAStart p, LBALength p)
  else if (Boot p =? 1) || (Boot p =? 129) then
    Some (u32 (Z.lor (Z.shiftl (StartHi p) 16) (LBAStart p)), u32 (Z.lor (Z.shiftl (LengthHi p) 16) (LBALength p)))
  else None.
Definition is_ext (p : part) : bool := (SystemID p =? 15) || (SystemID p =? 5).

Definition U64_ERR : Z := 18446744073709551615.

Definition LVM_MBR_Detect (Volume : tLVM_Vol) (mbr : list Z) : IO Z :=
  do r <- LVM_int_ReadVolume Volume 0 1 mbr;
  if negb (r.1 =? 0) then ret (-1)
  else do f <- of_option (le16 r.2 510); ret (if negb (f =? 43605) then 0 else 1).

(** The four entries of a sub-table: the link, whether a partition was found, and its base and length; None is the
    error return. *)
Fixpoint ext_scan (mbr : list Z) (Addr : Z) (ix : list Z) (link : Z) (found : bool) (out : Z * Z) : option (option (Z * bool * (Z * Z))) :=
  match ix with
  | [] => Some (Some (link, found, out))
  | i :: ix =>
      p ← Parts mbr i;
      if SystemID p =? 0 then ext_scan mbr Addr ix link found out
      else match extent p with
           | None => Some None
           | Some (base, length) =>
               if is_ext p then
                 if negb (link =? 0) then Some None else ext_scan mbr Addr ix base found out
               else if found then Some None
               else ext_scan mbr Addr ix link true (u64 (Addr + base), length)
           end
  end.

(** The next link with the partition's base and length; [mbr0] is the structure on the stack. *)
Definition LVM_MBR_int_ReadExt (Volume : tLVM_Vol) (mbr0 : list Z) (Addr : Z) (out : Z * Z) : IO (Z * (Z * Z)) :=
  do r <- LVM_int_ReadVolume Volume Addr 1 mbr0;
  if negb (r.1 =? 0) then ret (U64_ERR, out)
  else
    do e <- of_option (ext_scan r.2 Addr [0; 1; 2; 3] 0 false out);
    match e with
    | None => ret (U64_ERR, out)
    | Some (link, found, out') => if found then ret (link, out') else ret (U64_ERR, out')
    end.

(** The first pass over the primary table: the extended partition and the others, in order. *)
Fixpoint primary (mbr : list Z) (ix : list Z) (extendedLBA : Z) (acc : list (Z * Z)) : option (Z * list (Z * Z)) :=
  match ix with
  | [] => Some (extendedLBA, acc)
  | i :: ix =>
      p ← Parts mbr i;
      if SystemID p =? 0 then primary mbr ix extendedLBA acc
      else match extent p with
           | None => primary mbr ix extendedLBA acc
           | Some (base, length) =>
               if is_ext p then primary mbr ix (if extendedLBA =? 0 then base else extendedLBA) acc
               else primary mbr ix extendedLBA (acc ++ [(base, length)])
           end
  end.

Fixpoint count_ext (fuel : nat) (Volume : tLVM_Vol) (mbr0 : list Z) (extendedLBA n : Z) : IO Z :=
  if extendedLBA =? 0 then ret n else
  match fuel with
  | O => halt IoLoop
  | S fuel =>
      do r <- LVM_MBR_int_ReadExt Volume mbr0 extendedLBA (0, 0);
      if r.1 =? U64_ERR then ret n else count_ext fuel Volume mbr0 r.1 (n + 1)
  end.

(** The loop over extended partitions is bounded by the volume's blocks. *)
Definition LVM_MBR_CountSubvolumes (Volume : tLVM_Vol) (mbr0 FirstSector : list Z) : IO Z :=
  do e <- of_option (primary FirstSector [0; 1; 2; 3] 0 []);
  let '(extendedLBA, parts) := e in
  count_ext (S (Z.to_nat (v_BlockCount Volume))) Volume mbr0 extendedLBA (len parts).

Definition malloc_ok : IO bool := fun s =>
  let b := default true (head (i_alloc s)) in
  Ok b (MkIo (i_cache s) (i_list s) (i_global s) (i_now s) (i_next s) (tail (i_alloc s)) (i_dev s)).

Definition fmt_i : list Z := [37; 105; 0].
Definition LVM_int_SetSubvolume_Anon (Volume : tLVM_Vol) (Index First Count : Z) : IO tLVM_Vol :=
  if (Index <? 0) || (nSubVolumes Volume <=? Index) then ret Volume
  else
    do old <- of_option (get (SubVolumes Volume) Index);
    match old with
    | Some _ => ret Volume
    | None =>
        do n <- of_option (snprintf None 0 fmt_i [AInt Index]);
        do b <- malloc_ok;
        if negb b then ret Volume
        else
          do nm <- of_option (sprintf (Some (replicate (Z.to_nat (n.2 + 1)) 0)) fmt_i [AInt Index]);
          do subs <- of_option (set (SubVolumes Volume) Index (Some (MkSub First Count (default [] nm.1) 0)));
          ret (MkVol (v_BlockSize Volume) (v_BlockCount Volume) (nSubVolumes Volume) subs (CacheHandle Volume) (v_Name Volume) (v_Refs Volume))
    end.

Fixpoint set_parts (Volume : tLVM_Vol) (j : Z) (parts : list (Z * Z)) : IO tLVM_Vol :=
  match parts with
  | [] => ret Volume
  | (base, length) :: parts => do v <- LVM_int_SetSubvolume_Anon Volume j base length; set_parts v (j + 1) parts
  end.

Fixpoint set_ext (fuel : nat) (Volume : tLVM_Vol) (mbr0 : list Z) (extendedLBA j : Z) (out : Z * Z) : IO tLVM_Vol :=
  if extendedLBA =? 0 then ret Volume else
  match fuel with
  | O => halt IoLoop
  | S fuel =>
      do r <- LVM_MBR_int_ReadExt Volume mbr0 extendedLBA out;
      if r.1 =? U64_ERR then ret Volume
      else do v <- LVM_int_SetSubvolume_Anon Volume j r.2.1 r.2.2; set_ext fuel v mbr0 r.1 (j + 1) r.2
  end.

Definition LVM_MBR_PopulateSubvolumes (Volume : tLVM_Vol) (mbr0 FirstSector : list Z) : IO tLVM_Vol :=
  do e <- of_option (primary FirstSector [0; 1; 2; 3] 0 []);
  let '(extendedLBA, parts) := e in
  do v <- set_parts Volume 0 parts;
  set_ext (S (Z.to_nat (v_BlockCount Volume))) v mbr0 extendedLBA (len parts) (0, 0).

(** ** Adding a volume ([volumes.c]); [heap0] is the memory malloc gives for the first block. *)
Definition LVM_AddVolume (mbr0 heap0 : list Z) (Name : list Z) (BlockSize BlockCount : Z) : IO (option tLVM_Vol) :=
  if (BlockCount =? 0) || (BlockSize =? 0) then ret None
  else
    do b <- malloc_ok;
    if negb b then ret None
    else
      do r <- on_dev (DevRead 0 1 heap0);
      let '(n, first_block) := r in
      if negb (n =? 1) then ret None
      else
        do count <- LVM_MBR_CountSubvolumes (MkVol BlockSize BlockCount 0 [] false Name 0) mbr0 first_block;
        do b <- malloc_ok;
        if negb b then ret None
        else
          do h <- IOCache_Create BlockSize 1024;
          let real_vol := MkVol BlockSize BlockCount count (replicate (Z.to_nat count) None) (negb (h =? 0)) Name 0 in
          do v <- LVM_MBR_PopulateSubvolumes real_vol mbr0 first_block;
          ret (Some v).
End lvm.

(** ** The volume directory ([main.c]); the volumes in the order of their list. *)
Definition s_ROOT : list Z := [82; 79; 79; 84; 0].

Definition LVM_Root_ReadDir (vols : list tLVM_Vol) (ID : Z) : Z * option (list Z) :=
  if ID <? 0 then (-5, None)
  else match get vols ID with Some vol => (0, Some (v_Name vol)) | None => (-13, None) end.

Fixpoint LVM_Root_FindDir (vols : list tLVM_Vol) (Name : list Z) (i : Z) : option (option Z * list tLVM_Vol) :=
  match vols with
  | [] => Some (None, [])
  | vol :: vols =>
      c ← strcmp (v_Name vol) Name;
      if c =? 0 then
        Some (Some i, MkVol (v_BlockSize vol) (v_BlockCount vol) (nSubVolumes vol) (SubVolumes vol) (CacheHandle vol) (v_Name vol) (v_Refs vol + 1) :: vols)
      else r ← LVM_Root_FindDir vols Name (i + 1); Some (r.1, vol :: r.2)
  end.

(** Names in a volume; a slot that was not filled is a NULL pointer. *)
Definition LVM_Vol_ReadDir (vol : tLVM_Vol) (ID : Z) : option (Z * list Z) :=
  if (ID <? 0) || (nSubVolumes vol + 1 <=? ID) then Some (-5, [])
  else if ID =? 0 then Some (0, s_ROOT)
  else sv ← get (SubVolumes vol) (ID - 1); sv ← sv; Some (0, sv_Name sv).

Inductive vol_entry := ENone | ERoot | ESub (i : Z).
Fixpoint find_sub (subs : list (option tLVM_SubVolume)) (Name : list Z) (i : Z) : option vol_entry :=
  match subs with
  | [] => Some ENone
  | None :: _ => None
  | Some sv :: subs => c ← strcmp (sv_Name sv) Name; if c =? 0 then Some (ESub i) else find_sub subs Name (i + 1)
  end.
Definition LVM_Vol_FindDir (vol : tLVM_Vol) (Name : list Z) : option vol_entry :=
  c ← strcmp s_ROOT Name; if c =? 0 then Some ERoot else find_sub (take (Z.to_nat (nSubVolumes vol)) (SubVolumes vol)) Name 0.

(** LVM_Cleanup: sub-volumes nobody has open are dropped, and volumes without others.  [prev] is the volume the
    loop passed last: none, one still there, or one already freed, through which the code would write.  A dropped volume's cache and device are
    given up by IOCache_Destroy and the type's Cleanup. *)
Definition drop_sub (sv : option tLVM_SubVolume) : option tLVM_SubVolume :=
  match sv with Some x => if sv_Refs x =? 0 then None else Some x | None => None end.
Definition drop_subs (vol : tLVM_Vol) : tLVM_Vol :=
  MkVol (v_BlockSize vol) (v_BlockCount vol) (nSubVolumes vol) (drop_sub <$> SubVolumes vol) (CacheHandle vol) (v_Name vol) (v_Refs vol).

Fixpoint cleanup_loop (vols : list tLVM_Vol) (prev : option bool) : option (list tLVM_Vol) :=
  match vols with
  | [] => Some []
  | vol :: vols =>
      if bool_decide (Forall (fun sv => sv = None) (SubVolumes (drop_subs vol))) then
        match prev with Some false => None | _ => cleanup_loop vols (Some false) end
      else r ← cleanup_loop vols (Some true); Some (drop_subs vol :: r)
  end.
Definition LVM_Cleanup (vols : list tLVM_Vol) : option (list tLVM_Vol * Z) :=
  r ← cleanup_loop vols None; Some (r, if bool_decide (r = []) then 0 else 9).

Definition LVM_CloseNode (sv : tLVM_SubVolume) : tLVM_SubVolume := MkSub (FirstBlock sv) (sv_BlockCount sv) (sv_Name sv) (sv_Refs sv - 1).
