(* ===== verification/LvmProps.v ===== *)
(** * Volumes give what is on the device

    Reading through the volume manager, the byte-range functions and the block cache gives the bytes of the device, and
    what becomes of writes. *)
From S2P Require Import Prelude CString Arith Number Format Disk IoCache Lvm.

Local Open Scope Z_scope.
Local Open Scope monad_scope.

Section volume_reads.
Context {D : Type} {DevRead : Z -> Z -> list Z -> M D iostop (Z * list Z)} {DevWrite : Z -> Z -> list Z -> M D iostop Z} {SS : Z}.
Context {BR : BlockReader D DevRead SS} {BW : BlockWriter D DevRead DevWrite SS} (junk : Z -> Z -> Z).
Context (Hss : 512 <= SS <= 4096) (Hdiv : (SS | 4096)).
Implicit Types (s : io D) (dest : list Z).

Abbreviation coherent := (coherent (SS := SS) (BR := BR)).
Abbreviation bytes s := (contents (i_dev s)).

(** The first [done] blocks of the buffer are those of the device from [b] on. *)
Definition filled (C : list Z) (b done : Z) dest : Prop := forall i, 0 <= i < done * SS -> get dest i = get C (b * SS + i).

Context (C : list Z) (b count : Z) (Hb : 0 <= b) (Hin : (b + count) * SS <= len C) (HC : len C < 18446744073709551616).

Definition fine s : Prop := coherent s /\ bytes s = C.

Lemma in_block done : 0 <= done < count -> 0 <= u64 (b + done) /\ (u64 (b + done) + 1) * SS <= len C /\ u64 (b + done) = b + done.
Proof.
  intros Hd. pose proof (mul_ge (b + count) SS ltac:(lia) ltac:(lia)). assert ((b + done + 1) * SS <= (b + count) * SS) by (apply Z.mul_le_mono_nonneg_r; lia).
  rewrite u64_small by lia. lia.
Qed.

Lemma try_cached_spec s done dest : fine s -> 0 <= done < count -> len dest = count * SS ->
  wp (try_cached SS b done dest) s (fun r s' => fine s' /\ ((r = (0, dest) /\ s' = s) \/
    (r.1 = 1 /\ len r.2 = len dest /\ (forall i, i < done * SS -> get r.2 i = get dest i) /\
     forall i, done * SS <= i < (done + 1) * SS -> get r.2 i = get C (b * SS + i)))).
Proof.
  intros [Hco HC'] Hd Hlen. destruct (in_block done Hd) as (H0 & H1 & Hu). unfold try_cached. rewrite Hu in *.
  apply wp_bind. eapply wp_mono; [apply (IoCache.Cache_Read_spec Hss Hdiv s (b + done) Hco); [done|by rewrite HC']|].
  intros r s' (Hdev & Hco' & Hr). assert (fine s') as Hf by (split; [done|congruence]).
  destruct Hr as [[-> ->]| ->]; cbn [fst snd]; [apply wp_ret; auto|].
  assert ((done + 1) * SS <= count * SS) by (apply Z.mul_le_mono_nonneg_r; lia). rewrite HC'.
  assert (0 <= (b + done) * SS) by (apply Z.mul_nonneg_nonneg; lia).
  destruct (get_wr dest (sub ((b + done) * SS) SS C) (done * SS)) as (d & Hw & Hl & Hg); [lia|rewrite len_sub; lia|].
  apply wp_bind. eapply wp_eq; [by rewrite Hw|]. apply wp_ret. cbn [fst snd]. rewrite len_sub in Hg by lia.
  split; [done|right]. split_and!; [done|done|..].
  - intros i Hi. rewrite Hg. by rewrite (proj2 (Z.leb_gt (done * SS) i)) by lia.
  - intros i Hi. rewrite Hg. replace (_ && _) with true by (symmetry; lia). rewrite get_sub by lia. f_equal. lia.
Qed.

Lemma cached_run_spec n : forall s done dest, fine s -> 0 <= done -> done + Z.of_nat n = count -> len dest = count * SS -> filled C b done dest ->
  wp (cached_run SS b n done dest) s (fun r s' => fine s' /\ done <= r.1 <= count /\ len r.2 = count * SS /\ filled C b r.1 r.2 /\
    (r.1 < count -> try_cached SS b r.1 r.2 s' = Ok (0, r.2) s')).
Proof.
  induction n as [|n IH]; intros s done dest Hf Hd Hn Hlen Hfill; cbn [cached_run].
  - apply wp_ret. cbn [fst snd]. split_and!; try done; try lia; intros; exfalso; lia.
  - pose proof (try_cached_spec s done dest Hf ltac:(lia) Hlen) as Ht. apply wp_inv in Ht as (r & s' & Heq & Hf' & Hr).
    apply wp_bind. eapply wp_eq; [exact Heq|]. destruct Hr as [[-> ->]|(H1 & Hl & Hlow & Hnew)].
    + cbn [fst snd Z.eqb]. apply wp_ret. cbn [fst snd]. split_and!; try done; lia.
    + rewrite H1. cbn [Z.eqb Pos.eqb]. eapply wp_mono; [apply IH; try done; try lia|].
      { intros i Hi. destruct (decide (i < done * SS)); [rewrite Hlow by lia; apply Hfill; lia|apply Hnew; lia]. }
      intros r' s'' (? & ? & ? & ? & ?). split_and!; try done; lia.
Qed.

Lemma uncached_run_spec n : forall s first done dest, fine s -> 0 <= first <= done -> done + Z.of_nat n = count -> len dest = count * SS -> filled C b first dest ->
  wp (uncached_run SS b n done dest) s (fun r s' => fine s' /\ done <= r.1 <= count /\ len r.2 = count * SS /\ filled C b first r.2 /\
    (done < count -> try_cached SS b done dest s = Ok (0, dest) s -> done < r.1)).
Proof.
  induction n as [|n IH]; intros s first done dest Hf Hd Hn Hlen Hfill; cbn [uncached_run].
  - apply wp_ret. cbn [fst snd]. split_and!; try done; try lia; intros; exfalso; lia.
  - pose proof (try_cached_spec s done dest Hf ltac:(lia) Hlen) as Ht. apply wp_inv in Ht as (r & s' & Heq & Hf' & Hr).
    apply wp_bind. eapply wp_eq; [exact Heq|]. destruct Hr as [[-> ->]|(H1 & Hl & Hlow & Hnew)].
    + cbn [fst snd Z.eqb]. eapply wp_mono; [apply (IH s first (done + 1) dest); try done; lia|].
      intros r' s'' (? & ? & ? & ? & ?). split_and!; try done; lia.
    + rewrite H1. cbn [Z.eqb]. apply wp_ret. cbn [fst snd]. split_and!; try done; try lia.
      * intros i Hi. rewrite Hlow; [by apply Hfill|]. assert (first * SS <= done * SS) by (apply Z.mul_le_mono_nonneg_r; lia). lia.
      * intros _ Heq0. rewrite Heq in Heq0. injection Heq0 as -> _. done.
Qed.

Lemma add_blocks_spec n : forall s first dest, fine s -> 0 <= first -> first + Z.of_nat n <= count -> len dest = count * SS ->
  (forall i, first * SS <= i < (first + Z.of_nat n) * SS -> get dest i = get C (b * SS + i)) ->
  wp (add_blocks DevWrite junk SS b n first dest) s (fun _ s' => fine s').
Proof.
  induction n as [|n IH]; intros s first dest Hf Hfst Hn Hlen Hd; cbn [add_blocks]; [by apply wp_ret|].
  destruct (in_block first ltac:(lia)) as (H0 & H1 & Hu). rewrite Hu in *. destruct Hf as [Hco HC'].
  assert ((first + 1) * SS <= count * SS) by (apply Z.mul_le_mono_nonneg_r; lia).
  assert (0 <= (b + first) * SS) by (apply Z.mul_nonneg_nonneg; lia).
  rewrite rd_ok by lia. apply wp_bind, wp_ret, wp_bind.
  eapply wp_mono; [eapply (IoCache.Cache_Add_spec junk Hss Hdiv s (b + first)); [done|done|by rewrite HC'|rewrite len_sub; lia|]|].
  - rewrite HC'. apply list_eq_get; [rewrite !len_sub; try lia; rewrite len_sub; lia|].
    intros i Hi. rewrite len_sub in Hi by (rewrite ?len_sub; lia). rewrite !get_sub by lia.
    rewrite Hd by nia. f_equal. lia.
  - intros _ s' (Hco' & Hdev & _). apply IH; try lia.
    + split; [done|congruence].
    + intros i Hi. apply Hd. nia.
Qed.

Lemma read_loop_spec fuel : forall s done dest, fine s -> 0 <= done <= count -> count - done <= Z.of_nat fuel -> len dest = count * SS -> filled C b done dest ->
  wp (read_loop DevRead DevWrite junk SS b fuel count done dest) s (fun r s' => fine s' /\ r.1 = count /\ len r.2 = count * SS /\ filled C b count r.2).
Proof.
  induction fuel as [|fuel IH]; intros s done dest Hf Hd Hfuel Hlen Hfill; cbn [read_loop]; (destruct (Z.leb_spec count done); [assert (done = count) as -> by lia; by apply wp_ret|]); [lia|].
  apply wp_bind. eapply wp_mono; [apply (cached_run_spec (Z.to_nat (count - done)) s done dest); try done; lia|].
  intros [first dest1] s1 (Hf1 & Hd1 & Hl1 & Hfill1 & Hstop). cbn [fst snd] in *.
  apply wp_bind. eapply wp_mono; [apply (uncached_run_spec (Z.to_nat (count - first)) s1 first first dest1); try done; lia|].
  intros [done2 dest2] s2 (Hf2 & Hd2 & Hl2 & Hfill2 & Hmore). cbn [fst snd] in *. cbv zeta.
  destruct (Z.eqb_spec (done2 - first) 0) as [Hz|Hz].
  { assert (first = count) as ->. { destruct (decide (first < count)) as [Hlt|]; [|lia]. specialize (Hmore Hlt (Hstop Hlt)). lia. }
    apply IH; try done; [lia|lia|]. by replace done2 with count by lia. }
  set (k := done2 - first) in *. assert (first * SS + k * SS <= count * SS) by (rewrite <- Z.mul_add_distr_r; apply Z.mul_le_mono_nonneg_r; lia).
  assert (0 <= first * SS /\ 0 <= k * SS) as [? ?] by (split; apply Z.mul_nonneg_nonneg; lia).
  rewrite rd_ok by lia. apply wp_bind, wp_ret. destruct (in_block first ltac:(lia)) as (_ & _ & Hu). rewrite Hu in *.
  destruct Hf2 as [Hco2 HC2]. pose proof Hco2 as (c & l & _ & _ & Hrel & Hus & _).
  destruct (read_blocks (i_dev s2) (b + first) k (sub (first * SS) (k * SS) dest2)) as (k' & d & dev & Hrd & Hus' & Hsame & Hr' & _ & Hld & Hdata);
    [rewrite len_sub; lia|done|lia|lia|rewrite HC2; lia|]. destruct (Hr' Hrel) as [Hrel' ->].
  apply wp_bind. eapply wp_eq; [unfold on_dev; by rewrite Hrd|]. cbn [snd].
  destruct (get_wr dest2 d (first * SS)) as (dest3 & Hw & Hl3 & Hg3); [lia|lia|]. apply wp_bind. eapply wp_eq; [by rewrite Hw|].
  set (s3 := MkIo _ _ _ _ _ _ dev). assert (fine s3) as Hf3 by (split; [by apply coherent_dev|cbn; congruence]).
  assert (filled C b done2 dest3) as Hfill3.
  { intros i Hi. rewrite Hg3, Hld. case_if.
    - rewrite Hdata, HC2 by lia. f_equal. lia.
    - apply andb_false_iff in Heqb0 as [?|?]; bools; [apply Hfill2; lia|lia]. }
  apply wp_bind. eapply wp_mono; [apply (add_blocks_spec (Z.to_nat k) s3 first dest3); try done; try lia|].
  - intros i Hi. apply Hfill3. lia.
  - intros u s4 Hf4. apply IH; try done; try lia.
Qed.
End volume_reads.

(** ** The volume as a block device *)
Section volume_device.
Context {D : Type} {DevRead : Z -> Z -> list Z -> M D iostop (Z * list Z)} {DevWrite : Z -> Z -> list Z -> M D iostop Z} {SS : Z}.
Context {BR : BlockReader D DevRead SS} {BW : BlockWriter D DevRead DevWrite SS} (junk : Z -> Z -> Z).
Context (Hss : 512 <= SS <= 4096) (Hdiv : (SS | 4096)).
Implicit Types (s : io D) (vol : tLVM_Vol).

Abbreviation coherent := (coherent (SS := SS) (BR := BR)).
Abbreviation bytes s := (contents (i_dev s)).

Lemma coherent_size s : coherent s -> len (bytes s) < 18446744073709551616.
Proof. by intros (? & ? & _ & _ & _ & _ & ? & _). Qed.

(** A read of whole blocks through the cache. *)
Lemma ReadVolume_spec vol s b n buf : v_BlockSize vol = SS -> CacheHandle vol = true -> coherent s -> 0 <= b -> 0 <= n -> (b + n) * SS <= len (bytes s) -> len buf = n * SS ->
  wp (LVM_int_ReadVolume DevRead DevWrite junk vol b n buf) s (fun r s' => coherent s' /\ bytes s' = bytes s /\ r.1 = n /\ len r.2 = n * SS /\
    forall i, 0 <= i < n * SS -> get r.2 i = get (bytes s) (b * SS + i)).
Proof.
  intros Hv Hc Hco Hb Hn Hin Hlen. unfold LVM_int_ReadVolume. rewrite Hc, Hv.
  eapply wp_mono; [eapply (read_loop_spec junk Hss Hdiv (bytes s) b n); try done; try lia; [by apply coherent_size|intros i ?; lia]|].
  intros r s' ([Hco' Hb'] & Hr & Hl & Hf). by split_and!.
Qed.

Lemma volume_blocks vol (Hv : v_BlockSize vol = SS) (Hc : CacheHandle vol = true) s b n buf : len buf = n * SS -> coherent s -> 0 <= b -> 0 < n -> (b + n) * SS <= len (bytes s) ->
  exists k d s', LVM_int_DrvUtil_ReadBlock DevRead DevWrite junk vol b n buf s = Ok (k, d) s' /\ coherent s' /\ bytes s' = bytes s /\ (True -> True /\ k = n) /\
    0 <= k <= n /\ len d = n * SS /\ forall i, 0 <= i < k * SS -> get d i = get (bytes s) (b * SS + i).
Proof.
  intros Hlen Hus Hb Hn Hin. pose proof (ReadVolume_spec vol s b n buf Hv Hc Hus Hb ltac:(lia) Hin Hlen) as Hr.
  apply wp_inv in Hr as ([k d] & s' & Heq & Hco & Hsame & Hk & Hl & Hd). cbn [fst snd] in *. subst k. exists n, d, s'. split_and!; try done; lia.
Qed.

Lemma volume_block_size : 0 < SS < 2147483648.
Proof. lia. Qed.

(** The volume's read callback does what the byte-range functions need of a driver. *)
Instance volume_reader vol (Hv : v_BlockSize vol = SS) (Hc : CacheHandle vol = true) : BlockReader (io D) (LVM_int_DrvUtil_ReadBlock DevRead DevWrite junk vol) SS := {|
  contents s := bytes s; usable := coherent; reliable _ := True; block_size := volume_block_size; read_blocks := volume_blocks vol Hv Hc |}.

Lemma clip_spec size Offset Length : 0 <= Offset <= size -> size < 9223372036854775808 -> 0 <= Length < 2147483648 -> clip size Offset Length = Z.min Length (size - Offset).
Proof.
  intros Ho Hs HL. unfold clip. destruct (Z.ltb_spec size Length) as [H1|H1].
  - rewrite (u32_small size), u64_small by lia. case_if; [rewrite u32_small|]; lia.
  - rewrite u64_small by lia. case_if; [rewrite u32_small|]; lia.
Qed.

(** ** Histories of a volume *)

(** A new cache. *)
Lemma Create_coherent s : 0 < i_next s -> reliable (i_dev s) -> usable (i_dev s) -> device_size (i_dev s) -> Forall (eq true) (i_alloc s) ->
  wp (IOCache_Create SS 1024) s (fun h s' => h <> 0 /\ coherent s' /\ i_dev s' = i_dev s).
Proof.
  intros Hn Hr Hu Hd Ha. unfold IOCache_Create, wp. change (1024 <? 1) with false. rewrite (proj2 (Z.ltb_ge SS 512)) by lia. unfold PAGE_SIZE.
  rewrite (proj2 (Z.ltb_ge 4096 SS)) by lia.
  assert (forall al, Forall (eq true) al -> coherent (MkIo (Some (MkCache (i_next s) SS IOCACHE_WRITEBACK 1024 0 0 ∅)) (i_next s :: i_list s) (i_global s) (i_now s) (i_next s + 1) al (i_dev s))) as Hco.
  { intros al Hal. eexists _, []. cbn [i_cache i_next i_dev i_alloc]. split_and!; try done.
    split; cbn; try done; try lia; [apply SSorted_nil|intros a [x Hx]; by rewrite lookup_empty in Hx]. }
  destruct (i_alloc s) as [|[] al]; [| |by inversion Ha]; (split_and!; [lia|apply Hco|done]); by inversion Ha.
Qed.

Inductive vop := VRead (BlockNum BlockCount : Z) (Dest : list Z) | VWrite (BlockNum BlockCount : Z) (Src : list Z).

Definition vrun vol (o : vop) : M (io D) iostop Z :=
  match o with
  | VRead b n d => do r <- LVM_int_ReadVolume DevRead DevWrite junk vol b n d; ret r.1
  | VWrite b n d => LVM_int_WriteVolume DevWrite vol b n d
  end.

(** Requests inside the device, with buffers of their size. *)
Definition proper s (o : vop) : Prop :=
  match o with VRead b n d | VWrite b n d => 0 <= b /\ 0 <= n < 2147483648 /\ (b + n) * SS <= len (bytes s) /\ len d = n * SS end.

Inductive vreaches vol (s0 : io D) : list vop -> io D -> Prop :=
  | vreaches_nil : vreaches vol s0 [] s0
  | vreaches_step ops o s r s' : vreaches vol s0 ops s -> proper s o -> vrun vol o s = Ok r s' -> vreaches vol s0 (ops ++ [o]) s'.

Lemma write_loop_spec n : forall s b dn src, coherent s -> 0 <= b -> 0 <= dn -> (b + Z.of_nat n) * SS <= len (bytes s) -> (dn + Z.of_nat n) * SS <= len src ->
  wp (write_loop DevWrite SS n b dn src) s (fun r s' => coherent s' /\ r = dn + Z.of_nat n /\ len (bytes s') = len (bytes s)).
Proof.
  induction n as [|n IH]; intros s b dn src Hco Hb Hd Hin Hlen; cbn [write_loop]; [apply wp_ret; split_and!; [done|lia|done]|].
  pose proof (coherent_size s Hco). pose proof (mul_ge (b + Z.of_nat (S n)) SS ltac:(lia) ltac:(lia)).
  assert (0 <= dn * SS) by (apply Z.mul_nonneg_nonneg; lia).
  assert ((dn + 1) * SS <= (dn + Z.of_nat (S n)) * SS /\ (b + 1) * SS <= (b + Z.of_nat (S n)) * SS) as [? ?] by (split; apply Z.mul_le_mono_nonneg_r; lia).
  rewrite rd_ok by lia. apply wp_bind, wp_ret, wp_bind.
  eapply wp_mono; [apply (IoCache.Cache_Write_spec Hss Hdiv s b); [done|done|lia|rewrite len_sub; lia]|].
  intros _ s' (Hco' & Hl & _). rewrite u64_small by lia. eapply wp_mono; [apply IH; [done|lia|lia|rewrite Hl|]; lia|].
  intros r s'' (? & -> & Hl'). split_and!; [done|lia|congruence].
Qed.

(** Every proper request returns, with all its blocks counted. *)
Lemma vrun_spec vol s o : v_BlockSize vol = SS -> CacheHandle vol = true -> coherent s -> proper s o ->
  wp (vrun vol o) s (fun r s' => coherent s' /\ r = match o with VRead _ n _ | VWrite _ n _ => n end).
Proof.
  intros Hv Hc Hco. destruct o as [b n d|b n d]; intros (Hb & Hn & Hin & Hl); cbn [vrun].
  - apply wp_bind. eapply wp_mono; [by apply (ReadVolume_spec vol s b n d); try lia|]. intros r s' (? & _ & ? & _). by apply wp_ret.
  - unfold LVM_int_WriteVolume. rewrite Hc, Hv. eapply wp_mono; [apply (write_loop_spec (Z.to_nat n)); [done|lia..]|].
    intros r s' (? & -> & _). split; [done|lia].
Qed.

Lemma vreaches_coherent vol s0 ops s : v_BlockSize vol = SS -> CacheHandle vol = true -> coherent s0 -> vreaches vol s0 ops s -> coherent s.
Proof.
  intros Hv Hc H0. induction 1 as [|ops o s r s' Hr IH Hp Hrun]; [done|]. pose proof (vrun_spec vol s o Hv Hc IH Hp) as Hw.
  apply wp_inv in Hw as (r' & s'' & Heq & Hco & _). congruence.
Qed.

(** C20: From a new cache on a device that completes its requests, of sectors of 512 to 4096 bytes dividing 4096, with
    memory for every page the cache asks for (no page is ever evicted, since the code never counts the pages in use):
    after any history of reads and writes of whole blocks within the volume, cached sectors equal the device, the page
    list is sorted, aligned and clean, and every such request returns with all blocks counted. (Device errors, other
    sector sizes and the code that would replace pages are outside: see the findings.) *)
Theorem cache_coherent vol s0 s1 h ops s : v_BlockSize vol = SS -> CacheHandle vol = true -> 0 < i_next s0 -> reliable (i_dev s0) -> usable (i_dev s0) ->
  device_size (i_dev s0) -> Forall (eq true) (i_alloc s0) -> IOCache_Create SS 1024 s0 = Ok h s1 -> vreaches vol s1 ops s ->
  (forall o, proper s o -> exists s', vrun vol o s = Ok (match o with VRead _ n _ | VWrite _ n _ => n end) s') /\
  (forall Sector, 0 <= Sector -> (Sector + 1) * SS <= len (bytes s) ->
     exists r s', IOCache_Read Sector s = Ok r s' /\ (r = (0, None) \/ r = (1, Some (sub (Sector * SS) SS (bytes s))))) /\
  exists c l, i_cache s = Some c /\ chain (c_store c) (Pages c) l /\ NoDup l /\
    StronglySorted (fun a b => base (c_store c) a < base (c_store c) b) l /\
    forall a x, a ∈ l -> c_store c !! a = Some x -> BaseOffset x mod 4096 = 0 /\ len (p_data x) = 4096 /\ DirtySectors x = 0.
Proof.
  intros Hv Hc Hn Hr Hu Hd Ha Hcr Hreach. pose proof (Create_coherent s0 Hn Hr Hu Hd Ha) as Hw. unfold wp in Hw. rewrite Hcr in Hw.
  destruct Hw as (_ & Hco1 & _). pose proof (vreaches_coherent vol s1 ops s Hv Hc Hco1 Hreach) as Hco. split_and!.
  - intros o Ho. pose proof (vrun_spec vol s o Hv Hc Hco Ho) as Hw. apply wp_inv in Hw as (r & s' & Heq & _ & ->). by exists s'.
  - intros Sector H0 H1. pose proof (IoCache.Cache_Read_spec Hss Hdiv s Sector Hco H0 H1) as Hw. apply wp_inv in Hw as (r & s' & Heq & _ & _ & Hres).
    exists r, s'. split; [done|]. destruct Hres as [[-> _]| ->]; auto.
  - destruct Hco as (c & l & Hcc & Hok & _). exists c, l. pose proof (sorted_NoDup _ _ (co_sorted _ _ _ _ Hok)). split_and!; [done|apply Hok|done|apply Hok|].
    intros a x Hin Hx. destruct (co_pages _ _ _ _ Hok a x Hin Hx). by split_and!.
Qed.

(** A volume and a partition of it that lies on the device. *)
Record on_device vol (sv : tLVM_SubVolume) s : Prop := {
  od_size : v_BlockSize vol = SS; od_cached : CacheHandle vol = true; od_first : 0 <= FirstBlock sv; od_count : 0 <= sv_BlockCount sv;
  od_in : (FirstBlock sv + sv_BlockCount sv) * SS <= len (bytes s); od_whole : exists n, len (bytes s) = n * SS;
  od_len : len (bytes s) < 9223372036854775808 }.

(** C19: On a device that completes its requests, of sectors of 512 to 4096 bytes dividing 4096, with memory for every
    page the cache asks for and a coherent cache (no page is ever evicted, since the code never counts the pages in use):
    reading less than 2 GiB of a partition through byte ranges, volume manager and cache gives the bytes of the device,
    cut at the end of the partition, and leaves device and coherence as they were. (A device that fails is outside: its
    errors are cached as data, see the findings.) *)
Theorem subvolume_reads_device vol sv s Offset Length Buffer tmp0 : coherent s -> on_device vol sv s -> len (tmp0 SS) = SS ->
  0 <= Offset -> 0 <= Length < 2147483648 -> Length <= len Buffer ->
  let size := sv_BlockCount sv * SS in
  exists r Buffer' s', LVM_SubVol_Read DevRead DevWrite junk tmp0 vol sv Offset Length Buffer s = Ok (r, Buffer') s' /\
    r = (if size <? Offset then 0 else Z.min Length (size - Offset)) /\ len Buffer' = len Buffer /\ coherent s' /\ bytes s' = bytes s /\
    forall i, 0 <= i -> get Buffer' i = if i <? r then get (bytes s) (FirstBlock sv * SS + Offset + i) else get Buffer i.
Proof.
  intros Hco [] Htmp Ho HL Hbuf size. unfold LVM_SubVol_Read. rewrite od_size0.
  pose proof (Z.mul_nonneg_nonneg _ SS od_first0 ltac:(lia)). pose proof (Z.mul_nonneg_nonneg _ SS od_count0 ltac:(lia)).
  rewrite (u64_small (sv_BlockCount sv * SS)) by lia. fold size. destruct (size <? Offset) eqn:E; bools.
  { exists 0, Buffer, s. split_and!; try done. intros i Hi. by rewrite (proj2 (Z.ltb_ge i 0)). }
  rewrite (clip_spec size) by lia. rewrite u64_small by lia. set (L := Z.min Length (size - Offset)).
  pose proof (ReadBlock_spec (BR := volume_reader vol od_size0 od_cached0) (Offset + FirstBlock sv * SS) L Buffer (tmp0 SS) Htmp) as Hr.
  specialize (Hr ltac:(lia) ltac:(lia) ltac:(lia) s). 
  assert (device_size (BR := volume_reader vol od_size0 od_cached0) s) as Hds by (unfold device_size; cbn; lia).
  specialize (Hr Hds Hco ltac:(cbn; lia) od_whole0). apply wp_inv in Hr as ([r b'] & s' & Heq & Hr0 & Hus & Hsame & Hlen & Hgot & Hrest & Hrel).
  destruct (Hrel I) as [_ Hrl]. cbn [fst snd] in *. subst r. exists L, b', s'. split_and!; try done.
  intros i Hi. destruct (Z.ltb_spec i L).
  - rewrite (Hgot i) by lia. cbn. f_equal. lia.
  - apply Hrest. lia.
Qed.

(** ** Writes to sectors that are not cached *)
Lemma write_missed W Sector B s s' : IOCache_Read Sector s = Ok (0, None) s' -> IOCache_Write W Sector B s = Ok 0 s'.
Proof.
  unfold IOCache_Read, IOCache_Write, bind, the_cache. destruct (i_cache s) as [c|]; [|done]. destruct (CacheSize c =? 0); [done|].
  destruct (IOCache_int_GetPage Sector s) as [ [page prev] s1|]; [|done]. destruct (page =? 0); [by intros [= <-]|].
  destruct (page_at page s1) as [x s2|]; [|done]. destruct (Z.land _ _ =? 0); [by intros [= <-]|]. intros H. exfalso. revert H.
  destruct (now s2) as [t s3|]; [|done]. destruct (put_page _ _ s3) as [? s4|]; [|done]. by destruct (of_option _ s4).
Qed.

(** Sectors that are not cached, whatever else is. *)
Lemma write_loop_missed s n : forall b dn src, 0 <= b -> b + Z.of_nat n < 18446744073709551616 ->
  (forall x, b <= x < b + Z.of_nat n -> IOCache_Read x s = Ok (0, None) s) ->
  0 <= dn -> (dn + Z.of_nat n) * SS <= len src -> write_loop DevWrite SS n b dn src s = Ok (dn + Z.of_nat n) s.
Proof.
  induction n as [|n IH]; intros b dn src Hb Hw Hmiss Hd Hlen; cbn [write_loop]; [by rewrite Z.add_0_r|].
  assert (0 <= dn * SS <= len src) by (split; [apply Z.mul_nonneg_nonneg; lia|nia]).
  rewrite rd_ok by lia. unfold bind at 1, of_option at 1, ret at 1. rewrite (bind_Ok _ _ _ 0 s) by (apply write_missed, Hmiss; lia).
  rewrite u64_small, IH; try lia; [f_equal; lia|]. intros x Hx. apply Hmiss. lia.
Qed.

(** C40: Writing whole blocks of a partition none of which IOCache_Read finds in the cache, whatever else is cached,
    reports every byte written and stores nothing, neither on the device nor in the cache. *)
Theorem subvolume_write_lost vol sv s o k Buffer tmp0 : v_BlockSize vol = SS -> CacheHandle vol = true ->
  (forall b, FirstBlock sv + o <= b < FirstBlock sv + o + k -> IOCache_Read b s = Ok (0, None) s) ->
  0 <= FirstBlock sv -> 0 <= o -> 0 < k -> o + k <= sv_BlockCount sv -> (FirstBlock sv + sv_BlockCount sv) * SS < 9223372036854775808 -> k * SS < 2147483648 ->
  k * SS <= len Buffer ->
  LVM_SubVol_Write DevRead DevWrite junk tmp0 vol sv (o * SS) (k * SS) Buffer s = Ok (k * SS) s.
Proof.
  intros Hv Hch Hmiss Hf Ho Hk Hin Hsz Hk31 Hbuf. unfold LVM_SubVol_Write. rewrite Hv.
  assert (0 <= FirstBlock sv * SS /\ 0 <= o * SS /\ 0 <= k * SS) as (? & ? & ?) by (split_and!; apply Z.mul_nonneg_nonneg; lia).
  assert ((o + k) * SS <= sv_BlockCount sv * SS) by (apply Z.mul_le_mono_nonneg_r; lia).
  rewrite (u64_small (sv_BlockCount sv * SS)) by lia. rewrite (proj2 (Z.ltb_ge _ (o * SS))) by lia. rewrite clip_spec by lia. rewrite Z.min_l by lia.
  rewrite u64_small by lia. replace (o * SS + FirstBlock sv * SS) with ((o + FirstBlock sv) * SS) by lia.
  unfold DrvUtil_WriteBlock. rewrite (proj2 (Z.eqb_neq SS 0)) by lia. rewrite Z.div_mul by lia. rewrite Z.sub_diag. change (u32 0) with 0. cbv zeta.
  unfold split_request. change (negb (0 =? 0)) with false. cbv iota. rewrite Z.div_mul, Z.mod_mul by lia. unfold write_middle.
  assert (k <= k * SS) by (apply mul_ge; lia). rewrite (proj2 (Z.eqb_neq k 0)) by lia. rewrite (u32_small k) by lia. rewrite rd_ok by lia.
  unfold bind at 1, of_option at 1, ret at 1. unfold LVM_int_DrvUtil_WriteBlock, LVM_int_WriteVolume at 1. rewrite Hch, Hv.
  assert (FirstBlock sv + sv_BlockCount sv <= (FirstBlock sv + sv_BlockCount sv) * SS) by (apply mul_ge; lia).
  rewrite (bind_Ok _ _ _ (0 + Z.of_nat (Z.to_nat k)) s)
    by (apply write_loop_missed; try lia; [intros x Hx; apply Hmiss; lia|rewrite len_sub by lia; lia]).
  rewrite Z.add_0_l, Z2Nat.id, Z.eqb_refl by lia. done.
Qed.
End volume_device.

(** ** The partitions of a new volume *)
Section partitions.
Context {D : Type} {DevRead : Z -> Z -> list Z -> M D iostop (Z * list Z)} {DevWrite : Z -> Z -> list Z -> M D iostop Z}.
Context {BR : BlockReader D DevRead 512} {BW : BlockWriter D DevRead DevWrite 512} (junk : Z -> Z -> Z).
Implicit Types (s : io D) (vol : tLVM_Vol).

Abbreviation coherent := (coherent (SS := 512) (BR := BR)).
Abbreviation bytes s := (contents (i_dev s)).
Lemma sector_size : 512 <= 512 <= 4096.
Proof. lia. Qed.
Lemma sector_divides : (512 | 4096).
Proof. by exists 8. Qed.

Lemma primary_len mbr ix : forall e acc e' parts, primary mbr ix e acc = Some (e', parts) -> len parts <= len acc + len ix.
Proof.
  induction ix as [|i ix IH]; intros e acc e' parts; cbn [primary].
  - intros [= _ <-]. unfold len at 3. cbn. lia.
  - rewrite len_cons. destruct (Parts mbr i) as [p|]; cbn [mbind option_bind]; [|done]. destruct (SystemID p =? 0); [intros H%IH; lia|].
    destruct (extent p) as [[b l]|]; [|intros H%IH; lia]. destruct (is_ext p); intros H%IH; [lia|]. rewrite len_app, len_cons in H. unfold len at 3 in H. cbn in H. lia.
Qed.

(** Reading a sub-table succeeds with one block, which the code takes for an error. *)
Lemma ReadExt_fails vol mbr0 Addr out s s' n d : LVM_int_ReadVolume DevRead DevWrite junk vol Addr 1 mbr0 s = Ok (n, d) s' -> n <> 0 ->
  LVM_MBR_int_ReadExt DevRead DevWrite junk vol mbr0 Addr out s = Ok (U64_ERR, out) s'.
Proof.
  intros Hr Hn. unfold LVM_MBR_int_ReadExt. rewrite (bind_Ok _ _ _ _ _ Hr). cbn [fst snd]. by rewrite (proj2 (Z.eqb_neq n 0)).
Qed.

Lemma malloc_ok_true s : Forall (eq true) (i_alloc s) -> exists al, Forall (eq true) al /\
  malloc_ok s = Ok true (MkIo (i_cache s) (i_list s) (i_global s) (i_now s) (i_next s) al (i_dev s)).
Proof.
  intros Ha. exists (tail (i_alloc s)). unfold malloc_ok. destruct (i_alloc s) as [|b al]; [by split|]. inversion Ha; subst. by split.
Qed.

Lemma coherent_alloc s al : coherent s -> Forall (eq true) al -> coherent (MkIo (i_cache s) (i_list s) (i_global s) (i_now s) (i_next s) al (i_dev s)).
Proof. intros (c & l & ? & ? & ? & ? & ? & ?) Hal. exists c, l. by split_and!. Qed.

Lemma coherent_allocs s : coherent s -> Forall (eq true) (i_alloc s).
Proof. by intros (c & l & ? & ? & ? & ? & ? & ?). Qed.

(** The decimal name of a slot. *)
Lemma slot_name j : 0 <= j < 4 -> exists nm, snprintf None 0 fmt_i [AInt j] = Some (None, 1) /\
  sprintf (Some (replicate (Z.to_nat (1 + 1)) 0)) fmt_i [AInt j] = Some (Some nm, 1).
Proof.
  intros Hj. assert (j = 0 \/ j = 1 \/ j = 2 \/ j = 3) as [-> |[-> |[-> | ->] ] ] by lia; eexists; split; reflexivity.
Qed.

Lemma set_slot vol s j First Count : coherent s -> 0 <= j < 4 -> j < nSubVolumes vol -> get (SubVolumes vol) j = Some None ->
  exists subs nm s', LVM_int_SetSubvolume_Anon vol j First Count s =
    Ok (MkVol (v_BlockSize vol) (v_BlockCount vol) (nSubVolumes vol) subs (CacheHandle vol) (v_Name vol) (v_Refs vol)) s' /\
    set (SubVolumes vol) j (Some (MkSub First Count nm 0)) = Some subs /\ coherent s' /\ bytes s' = bytes s.
Proof.
  intros Hco Hj Hn Hg. unfold LVM_int_SetSubvolume_Anon. replace (_ || _) with false by (symmetry; lia).
  destruct (slot_name j Hj) as (nm & H1 & H2). destruct (malloc_ok_true s (coherent_allocs s Hco)) as (al & Hal & Hm).
  rewrite Hg. unfold bind at 1, of_option at 1, ret at 1. rewrite H1. unfold bind at 1, of_option at 1, ret at 1.
  rewrite (bind_Ok _ _ _ _ _ Hm). cbn [negb snd]. rewrite H2. unfold bind at 1, of_option at 1, ret at 1. cbn [fst default].
  destruct (set_ok (SubVolumes vol) j (Some (MkSub First Count nm 0))) as (subs & Hs & _ & _).
  { unfold get in Hg. destruct (Z.leb_spec 0 j); [|done]. apply lookup_lt_Some in Hg. unfold len. lia. }
  exists subs, nm. eexists. split_and!; [cbn; rewrite Hs; done|done|by apply coherent_alloc|done].
Qed.

(** Slots from [j] on are filled with the entries. *)
Lemma set_parts_spec parts : forall vol s j, coherent s -> 0 <= j -> j + len parts <= 4 -> len (SubVolumes vol) = nSubVolumes vol -> j + len parts = nSubVolumes vol ->
  (forall i, j <= i < nSubVolumes vol -> get (SubVolumes vol) i = Some None) ->
  wp (set_parts vol j parts) s (fun v s' => coherent s' /\ bytes s' = bytes s /\ v_BlockSize v = v_BlockSize vol /\ v_BlockCount v = v_BlockCount vol /\
    CacheHandle v = CacheHandle vol /\ nSubVolumes v = nSubVolumes vol /\ len (SubVolumes v) = len (SubVolumes vol) /\
    (forall i, i < j -> get (SubVolumes v) i = get (SubVolumes vol) i) /\
    forall i p, get parts i = Some p -> exists sv, get (SubVolumes v) (j + i) = Some (Some sv) /\ (FirstBlock sv, sv_BlockCount sv) = p).
Proof.
  induction parts as [|[base length] parts IH]; intros vol s j Hco Hj H4 Hlen Hn Hfree; cbn [set_parts].
  - apply wp_ret. split_and!; try done. intros i p. unfold get. by destruct (0 <=? i).
  - rewrite len_cons in H4, Hn. pose proof (len_nonneg parts).
    destruct (set_slot vol s j base length Hco) as (subs & nm & s' & Heq & Hset & Hco' & Hb'); [lia|lia|apply Hfree; lia|].
    destruct (set_ok (SubVolumes vol) j (Some (MkSub base length nm 0))) as (subs' & Hset' & Hl' & Hg'); [lia|]. assert (subs' = subs) as -> by congruence.
    apply wp_bind. eapply wp_eq; [exact Heq|]. eapply wp_mono; [apply IH; cbn [nSubVolumes SubVolumes]; try done; try lia|].
    + intros i Hi. rewrite Hg', (proj2 (Z.eqb_neq i j)) by lia. apply Hfree. lia.
    + cbn [nSubVolumes SubVolumes v_BlockSize v_BlockCount CacheHandle]. intros v s'' (Hc'' & Hb'' & E1 & E2 & E3 & E4 & E5 & Hlow & Hnew).
      split_and!; try done; try congruence.
      * intros i Hi. rewrite Hlow, Hg', (proj2 (Z.eqb_neq i j)) by lia. done.
      * intros i p Hp. destruct (decide (i = 0)) as [->|Hne].
        { injection Hp as <-. rewrite Z.add_0_r, Hlow, Hg', Z.eqb_refl by lia. by eexists. }
        assert (0 <= i) by (unfold get in Hp; destruct (Z.leb_spec 0 i); [done|discriminate]).
        destruct (Hnew (i - 1) p) as (sv & Hsv & Hp'); [|exists sv; by replace (j + i) with (j + 1 + (i - 1)) by lia].
        unfold get in *. rewrite (proj2 (Z.leb_le 0 i)) in Hp by lia. rewrite (proj2 (Z.leb_le 0 (i - 1))) by lia.
        replace (Z.to_nat i) with (S (Z.to_nat (i - 1))) in Hp by lia. done.
Qed.

(** A device ready for a volume. *)
Record ready s : Prop := {
  rdy_next : 0 < i_next s; rdy_rel : reliable (i_dev s); rdy_use : usable (i_dev s); rdy_size : device_size (i_dev s); rdy_alloc : Forall (eq true) (i_alloc s) }.

Lemma ready_malloc s : ready s -> exists s', malloc_ok s = Ok true s' /\ ready s' /\ i_dev s' = i_dev s.
Proof. intros []. destruct (malloc_ok_true s rdy_alloc0) as (al & Hal & Hm). eexists. split; [exact Hm|]. by split. Qed.

Lemma ready_read s b buf : ready s -> 0 <= b -> (b + 1) * 512 <= len (bytes s) -> len buf = 512 ->
  exists d s', on_dev (DevRead b 1 buf) s = Ok (1, d) s' /\ ready s' /\ bytes s' = bytes s /\ d = sub (b * 512) 512 (bytes s).
Proof.
  intros [] Hb Hin Hl. destruct (read_blocks (i_dev s) b 1 buf) as (k & d & dev & Hrd & Hus & Hsame & Hr & _ & Hld & Hd); [lia|done|lia|lia|lia|].
  destruct (Hr rdy_rel0) as [Hrel ->]. eexists d, _. split; [unfold on_dev; by rewrite Hrd|]. split_and!; [|done|].
  - split; try done. unfold device_size in *. cbn. by rewrite Hsame.
  - apply list_eq_get; [rewrite len_sub; lia|]. intros i Hi. rewrite Hd, get_sub by lia. done.
Qed.

Lemma count_ext_none vol mbr0 e n f s : ready s -> CacheHandle vol = false -> len mbr0 = 512 -> (e = 0 \/ 0 <= e /\ (e + 1) * 512 <= len (bytes s)) ->
  wp (count_ext DevRead DevWrite junk (S f) vol mbr0 e n) s (fun r s' => r = n /\ ready s' /\ bytes s' = bytes s).
Proof.
  intros Hr Hc Hm He. cbn [count_ext]. destruct (Z.eqb_spec e 0) as [->|Hne]; [by apply wp_ret|]. destruct He as [|[He0 He]]; [done|].
  destruct (ready_read s e mbr0 Hr He0 He Hm) as (d & s' & Hrd & Hr' & Hb' & _). apply wp_bind. eapply wp_eq.
  - apply (ReadExt_fails vol mbr0 e (0, 0) s s' 1 d); [|done]. unfold LVM_int_ReadVolume. by rewrite Hc.
  - cbn [fst]. rewrite Z.eqb_refl. by apply wp_ret.
Qed.

Lemma set_ext_none vol mbr0 e j out f s : coherent s -> v_BlockSize vol = 512 -> CacheHandle vol = true -> len mbr0 = 512 -> (e = 0 \/ 0 <= e /\ (e + 1) * 512 <= len (bytes s)) ->
  wp (set_ext DevRead DevWrite junk (S f) vol mbr0 e j out) s (fun v s' => v = vol /\ coherent s' /\ bytes s' = bytes s).
Proof.
  intros Hco Hv Hc Hm He. cbn [set_ext]. destruct (Z.eqb_spec e 0) as [->|Hne]; [by apply wp_ret|]. destruct He as [|[He0 He]]; [done|].
  pose proof (ReadVolume_spec junk sector_size sector_divides vol s e 1 mbr0 Hv Hc Hco He0 ltac:(lia) He ltac:(lia)) as Hr.
  apply wp_inv in Hr as ([n d] & s' & Hrd & Hco' & Hb' & Hn & _). cbn [fst] in Hn. subst n.
  apply wp_bind. eapply wp_eq; [by apply (ReadExt_fails vol mbr0 e out s s' 1 d)|]. cbn [fst]. rewrite Z.eqb_refl. by apply wp_ret.
Qed.

(** Adding a volume: on a working device of 512-byte sectors with memory to spare, LVM_AddVolume returns a volume with one partition per primary entry of the
    partition table in its first sector, in the table's order, with the entry's first block and length, and a coherent cache.  A chain of extended partitions is
    not followed: its first link is read successfully, which the code takes for an error. *)
Theorem AddVolume_partitions s mbr0 heap0 Name BlockCount e parts : ready s -> len mbr0 = 512 -> len heap0 = 512 -> 512 <= len (bytes s) -> BlockCount <> 0 ->
  primary (sub 0 512 (bytes s)) [0; 1; 2; 3] 0 [] = Some (e, parts) -> (e = 0 \/ 0 <= e /\ (e + 1) * 512 <= len (bytes s)) ->
  exists v s', LVM_AddVolume DevRead DevWrite junk mbr0 heap0 Name 512 BlockCount s = Ok (Some v) s' /\ coherent s' /\ bytes s' = bytes s /\
    nSubVolumes v = len parts /\ len (SubVolumes v) = len parts /\
    forall i p, get parts i = Some p -> exists sv, get (SubVolumes v) i = Some (Some sv) /\ (FirstBlock sv, sv_BlockCount sv) = p.
Proof.
  intros Hr Hm Hh Hb Hbc Hp He. pose proof (primary_len _ _ _ _ _ _ Hp) as Hpl. change (len [] + len [0; 1; 2; 3]) with 4 in Hpl. pose proof (len_nonneg parts).
  assert (wp (LVM_AddVolume DevRead DevWrite junk mbr0 heap0 Name 512 BlockCount) s (fun r s' => exists v, r = Some v /\ coherent s' /\ bytes s' = bytes s /\
    nSubVolumes v = len parts /\ len (SubVolumes v) = len parts /\
    forall i p, get parts i = Some p -> exists sv, get (SubVolumes v) i = Some (Some sv) /\ (FirstBlock sv, sv_BlockCount sv) = p)) as Hwp.
  2:{ apply wp_inv in Hwp as (r & s' & Heq & v & -> & Hv). by exists v, s'. }
  unfold LVM_AddVolume. rewrite (proj2 (Z.eqb_neq BlockCount 0)) by done. cbn [orb Z.eqb].
  destruct (ready_malloc s Hr) as (s1 & Hm1 & Hr1 & Hd1). apply wp_bind. eapply wp_eq; [exact Hm1|]. cbn [negb].
  destruct (ready_read s1 0 heap0 Hr1) as (d & s2 & Hrd & Hr2 & Hb2 & ->); [lia|rewrite Hd1; lia|done|].
  apply wp_bind. eapply wp_eq; [exact Hrd|]. cbn [Z.eqb negb]. cbv iota beta.
  assert (sub (0 * 512) 512 (bytes s1) = sub 0 512 (bytes s)) as -> by (by rewrite Hd1). rewrite Hd1 in Hb2.
  change (negb (1 =? 1)) with false. cbv iota.
  apply wp_bind. unfold LVM_MBR_CountSubvolumes at 1. rewrite Hp. apply wp_bind, wp_ret.
  eapply wp_mono; [apply count_ext_none; [done|done|done|by rewrite Hb2]|]. intros n s3 (-> & Hr3 & Hb3).
  destruct (ready_malloc s3 Hr3) as (s4 & Hm4 & Hr4 & Hd4). apply wp_bind. eapply wp_eq; [exact Hm4|]. cbn [negb].
  apply wp_bind. eapply wp_mono; [apply (Create_coherent (DevRead := DevRead) sector_size s4); apply Hr4|]. intros h s5 (Hh0 & Hco5 & Hd5).
  assert (bytes s5 = bytes s) as Hb5 by (rewrite Hd5, Hd4; congruence).
  rewrite (proj2 (Z.eqb_neq h 0)) by done. cbn [negb]. apply wp_bind. unfold LVM_MBR_PopulateSubvolumes. rewrite Hp. apply wp_bind, wp_ret, wp_bind.
  eapply wp_mono; [apply (set_parts_spec parts _ s5 0); cbn [SubVolumes nSubVolumes]; try done; try lia|].
  - unfold len at 1. rewrite length_replicate. lia.
  - intros i Hi. unfold get. rewrite (proj2 (Z.leb_le 0 i)) by lia. apply lookup_replicate_2. lia.
  - cbn [SubVolumes nSubVolumes v_BlockSize v_BlockCount CacheHandle]. intros v s6 (Hco6 & Hb6 & E1 & E2 & E3 & E4 & E5 & _ & Hnew).
    eapply wp_mono; [apply set_ext_none; [done|done|done|done|rewrite Hb6, Hb5; done]|]. intros v' s7 (-> & Hco7 & Hb7). apply wp_ret. exists v.
    split_and!; try done; [congruence|rewrite E5; unfold len at 1; rewrite length_replicate; lia].
Qed.
End partitions.

(** ** A volume in memory *)
Lemma size_512 : 0 < 512 < 2147483648.
Proof. lia. Qed.
#[local] Instance mem512 : BlockReader (list Z) (mem_read 512) 512 := mem_reader 512 size_512.
#[local] Instance mem512w : BlockWriter (list Z) (mem_read 512) (mem_write 512) 512 := mem_writer 512 size_512.

(** A table with one partition, of two sectors from the second on. *)
Definition table : list Z := replicate 446 0 ++ [128; 0; 0; 0; 131; 0; 0; 0; 1; 0; 0; 0; 2; 0; 0; 0] ++ replicate 48 0 ++ [85; 170].
Definition blank : io (list Z) := MkIo None [] [] 0 1 [] (table ++ replicate 1024 7).
Definition cached : io (list Z) :=
  MkIo (Some (MkCache 1 512 IOCACHE_WRITEBACK 1024 0 0 ∅)) [1] [] 0 2 [] (table ++ replicate 1024 7).
Definition volume : tLVM_Vol := MkVol 512 3 1 [Some (MkSub 1 2 [48; 0] 0)] true [118; 0] 0.
Definition scratch (n : Z) : list Z := replicate (Z.to_nat n) 0.

Lemma disk_len : len (table ++ replicate 1024 7) = 1536.
Proof. reflexivity. Qed.

Lemma blank_ready : ready blank.
Proof. by split. Qed.

Lemma cached_coherent : coherent (SS := 512) cached.
Proof.
  destruct blank_ready. pose proof (Create_coherent (DevRead := mem_read 512) sector_size blank rdy_next0 rdy_rel0 rdy_use0 rdy_size0 rdy_alloc0) as Hw.
  apply wp_inv in Hw as (h & s' & Heq & _ & Hco & _). unfold IOCache_Create in Heq. cbn [Z.ltb Z.compare Pos.compare Pos.compare_cont blank i_alloc] in Heq. by injection Heq as <- <-.
Qed.

Lemma subvolume_reads_device_witness : exists Buffer' s', LVM_SubVol_Read (mem_read 512) (mem_write 512) (fun _ _ => 0) scratch volume (MkSub 1 2 [48; 0] 0) 500 600 (replicate 600 0) cached = Ok (524, Buffer') s' /\
  get Buffer' 0 = get (table ++ replicate 1024 7) 1012 /\ get Buffer' 530 = Some 0.
Proof.
  destruct (subvolume_reads_device (DevRead := mem_read 512) (DevWrite := mem_write 512) (fun _ _ => 0) sector_size sector_divides volume (MkSub 1 2 [48; 0] 0) cached 500 600 (replicate 600 0) scratch)
    as (r & b' & s' & Heq & Hr & Hl & _ & _ & Hg).
  - exact cached_coherent.
  - split; cbn [FirstBlock sv_BlockCount]; try done; try lia. by exists 3.
  - reflexivity.
  - lia.
  - lia.
  - reflexivity.
  - assert (r = 524) as -> by (rewrite Hr; reflexivity). exists b', s'. split; [exact Heq|]. split.
    + rewrite (Hg 0) by lia. reflexivity.
    + rewrite (Hg 530) by lia. reflexivity.
Defined.

Lemma cache_coherent_witness : exists s', vrun (DevRead := mem_read 512) (DevWrite := mem_write 512) (fun _ _ => 0) volume (VRead 0 1 (replicate 512 0)) cached = Ok 1 s'.
Proof.
  destruct blank_ready.
  destruct (cache_coherent (DevRead := mem_read 512) (DevWrite := mem_write 512) (fun _ _ => 0) sector_size sector_divides volume blank cached 1 [] cached)
    as (H & _); [reflexivity|reflexivity|done|done|done|done|done|reflexivity|apply vreaches_nil|].
  destruct (H (VRead 0 1 (replicate 512 0))) as [s' Hs'].
  - unfold proper. change (contents (i_dev cached)) with (table ++ replicate 1024 7). rewrite disk_len. repeat split; lia.
  - exists s'. exact Hs'.
Defined.

Lemma subvolume_write_lost_witness : LVM_SubVol_Write (mem_read 512) (mem_write 512) (fun _ _ => 0) scratch volume (MkSub 1 2 [48; 0] 0) (1 * 512) (1 * 512) (replicate 512 9) cached = Ok (1 * 512) cached.
Proof.
  apply (subvolume_write_lost (DevRead := mem_read 512) (DevWrite := mem_write 512) (fun _ _ => 0) sector_size volume (MkSub 1 2 [48; 0] 0) cached); cbn [FirstBlock sv_BlockCount]; first [reflexivity|lia|done|intros b _; reflexivity].
Defined.

Lemma AddVolume_partitions_witness : exists v s', LVM_AddVolume (mem_read 512) (mem_write 512) (fun _ _ => 0) (replicate 512 0) (replicate 512 0) [118; 0] 512 3 blank = Ok (Some v) s' /\
  exists sv, get (SubVolumes v) 0 = Some (Some sv) /\ (FirstBlock sv, sv_BlockCount sv) = (1, 2).
Proof.
  destruct (AddVolume_partitions (DevRead := mem_read 512) (DevWrite := mem_write 512) (fun _ _ => 0) blank (replicate 512 0) (replicate 512 0) [118; 0] 3 0 [(1, 2)])
    as (v & s' & Heq & _ & _ & _ & _ & Hp); [exact blank_ready|reflexivity|reflexivity| |lia|vm_compute; reflexivity|left; reflexivity|].
  - change (contents (i_dev blank)) with (table ++ replicate 1024 7). rewrite disk_len. lia.
  - exists v, s'. split; [exact Heq|]. exact (Hp 0 (1, 2) eq_refl).
Defined.
