(* ===== verification/Chains.v ===== *)
(** * Linked lists

    What the kernel's singly linked lists share: a list that starts at an address, follows a link field
    from object to object and ends at a given address (NULL for a whole list).  The link field is a
    partial function of the address, so that one set of lemmas serves timers, messages, routes and
    connections alike. *)
From S2P Require Import Prelude.

Local Open Scope Z_scope.
Set Default Proof Using "Type".

(** The first and the last address of a list, 0 when it is empty. *)
Definition first (l : list Z) : Z := default 0 (head l).
Definition final (l : list Z) : Z := default 0 (last l).

Lemma final_in (l : list Z) : l <> [] -> final l ∈ l.
Proof.
  destruct l as [|a l _] using rev_ind; [done|]. intros _. unfold final. rewrite last_snoc. cbn. set_solver.
Qed.

Lemma final_ne (l k : list Z) a : NoDup (l ++ a :: k) -> a <> 0 -> final l <> a.
Proof.
  intros Hnd Ha E. destruct (decide (l = [])) as [->|Hl]; [cbn in E; congruence|]. apply NoDup_app in Hnd as (_ & Hd & _).
  apply (Hd a); [rewrite <- E; by apply final_in|set_solver].
Qed.

Lemma final_snoc (l : list Z) a : final (l ++ [a]) = a.
Proof. unfold final. by rewrite last_snoc. Qed.

Lemma first_app (l k : list Z) : l <> [] -> first (l ++ k) = first l.
Proof. by destruct l. Qed.

(** [lseg nxt p l q]: from [p] the links run through [l] and arrive at [q]. *)
Fixpoint lseg (nxt : Z -> option Z) (p : Z) (l : list Z) (q : Z) : Prop :=
  match l with
  | [] => p = q
  | a :: l => p = a /\ a <> 0 /\ exists n, nxt a = Some n /\ lseg nxt n l q
  end.

Definition chain (nxt : Z -> option Z) (p : Z) (l : list Z) : Prop := lseg nxt p l 0.

(** The list at [p], walked for at most [n] links. *)
Fixpoint walk (nxt : Z -> option Z) (n : nat) (p : Z) : option (list Z) :=
  if p =? 0 then Some [] else
  match n with
  | O => None
  | S n => match nxt p with Some q => option_map (cons p) (walk nxt n q) | None => None end
  end.

Lemma lseg_app nxt p l k q : lseg nxt p (l ++ k) q <-> exists r, lseg nxt p l r /\ lseg nxt r k q.
Proof.
  revert p. induction l as [|a l IH]; intros p; cbn [app lseg]; [naive_solver|].
  setoid_rewrite IH. naive_solver.
Qed.

Section chains.
Context {nxt nxt' : Z -> option Z}.
Implicit Types (l k : list Z) (p q a : Z).

Lemma lseg_ext p l q : lseg nxt p l q -> (forall a, a ∈ l -> nxt' a = nxt a) -> lseg nxt' p l q.
Proof.
  revert p. induction l as [|a l IH]; intros p; cbn [lseg]; [done|].
  intros (-> & Ha & n & Hn & Hl) He. split_and!; try done. exists n. split; [rewrite He; [done|set_solver]|].
  apply IH; [done|]. intros b Hb. apply He. set_solver.
Qed.

Lemma lseg_in p l q a : lseg nxt p l q -> a ∈ l -> a <> 0 /\ is_Some (nxt a).
Proof.
  revert p. induction l as [|b l IH]; intros p; cbn [lseg]; [set_solver|].
  intros (-> & Hb & n & Hn & Hl) [->|Ha]%elem_of_cons; [by rewrite Hn|eauto].
Qed.

Lemma chain_first p l : chain nxt p l -> p = first l.
Proof. destruct l; cbn; naive_solver. Qed.

Lemma chain_nil p : chain nxt p [] <-> p = 0.
Proof. done. Qed.

Lemma chain_zero l : chain nxt 0 l -> l = [].
Proof. destruct l; [done|]. intros (<- & ? & _). done. Qed.

Lemma chain_mid p l k : chain nxt p (l ++ k) -> lseg nxt p l (first k) /\ chain nxt (first k) k.
Proof. intros (r & Hl & Hk)%lseg_app. by rewrite <- (chain_first r k Hk). Qed.

Lemma chain_join p l k : lseg nxt p l (first k) -> chain nxt (first k) k -> chain nxt p (l ++ k).
Proof. intros. apply lseg_app. eauto. Qed.

(** The link out of a segment changes, the others do not. *)
Lemma lseg_relink p l r r' : lseg nxt p l r -> NoDup l ->
  (forall a, a ∈ l -> a <> final l -> nxt' a = nxt a) -> (l <> [] -> nxt' (final l) = Some r') ->
  lseg nxt' (if l is [] then r' else p) l r'.
Proof.
  destruct l as [|a l _] using rev_ind; [done|]. intros (m & Hl & (-> & Ha & _))%lseg_app Hnd He Hf.
  unfold final in He, Hf. rewrite last_snoc in He, Hf. cbn [default] in He, Hf.
  apply NoDup_app in Hnd as (_ & Hd & _).
  assert (lseg nxt' p (l ++ [a]) r') as Hr.
  { apply lseg_app. exists a. split.
    - eapply lseg_ext; [exact Hl|]. intros b Hb. apply He; [set_solver|]. intros ->. apply (Hd _ Hb). set_solver.
    - split_and!; [done..|]. exists r'. split; [|done]. apply Hf. by destruct l. }
  destruct (l ++ [a]) eqn:E; [by destruct l|done].
Qed.

Lemma walk_chain p l : forall n, (length l <= n)%nat -> chain nxt p l -> walk nxt n p = Some l.
Proof.
  revert p. induction l as [|a l IH]; intros p n Hn.
  - intros ->. by destruct n.
  - intros (-> & Ha & q & Hq & Hl). destruct n as [|n]; [cbn in Hn; lia|]. cbn [walk].
    rewrite (proj2 (Z.eqb_neq a 0) Ha), Hq, (IH q n); [done|cbn in Hn; lia|done].
Qed.
End chains.

(** A chain through objects without repetition is no longer than the store. *)
Lemma nodup_size {T} (m : gmap Z T) l : NoDup l -> (forall a, a ∈ l -> is_Some (m !! a)) -> (length l <= size m)%nat.
Proof.
  intros Hnd Hin. rewrite <- size_dom, <- (size_list_to_set (C := gset Z) l) by done.
  apply subseteq_size. intros a Ha%elem_of_list_to_set. by apply elem_of_dom, Hin.
Qed.
