(* ===== verification/Timers.v ===== *)
(** * Kernel timers ([KernelLand/Kernel/time.c])

    Timers wait on a list sorted by the time after which they fire.  [Timer_CallTimers], called on every
    clock interrupt, takes the due ones off it: a timer without callback posts an event to its thread, one
    with a callback goes to a work queue, linked through the same [Next] field, from which the callback
    thread takes it.  Every operation runs under [gTimers_ListLock] and is taken as one step; the clock is
    read anew at each call of [now], which gives [clock n] the n-th time. *)
From S2P Require Import Prelude Chains.

Local Open Scope Z_scope.
Local Open Scope monad_scope.

Record tTimer := MkTimer { Next : Z; FiresAfter : Z; Callback : Z; Argument : Z; bActive : bool }.

(** What the timers do to the rest of the kernel, in order: [Threads_PostEvent], the call of a callback,
    [Threads_ClearEvent] and [Threads_WaitEvents] (for [THREAD_EVENT_TIMER]). *)
Inductive effect :=
  | PostEvent (timer thread : Z)
  | RunCallback (timer cb arg : Z)
  | ClearEvent (thread : Z)
  | WaitEvents (thread : Z).
#[export] Instance effect_dec : EqDecision effect.
Proof. solve_decision. Defined.

(** [q_Head], [q_Tail]: the work queue's list; [t_reads]: how often the clock was read; [t_rands]: how often
    the random number generator was stepped; [t_alloc] decides the coming allocations, which start at [t_next]. *)
Record tm := MkTm {
  gTimers : Z; q_Head : Z; q_Tail : Z; t_mem : gmap Z tTimer; t_reads : nat; t_rands : nat;
  t_next : Z; t_alloc : list bool; t_log : list effect }.

Inductive tstop := TFault | TAssert | TLoop.

Definition set_Next (n : Z) (t : tTimer) := MkTimer n (FiresAfter t) (Callback t) (Argument t) (bActive t).
Definition set_FiresAfter (f : Z) (t : tTimer) := MkTimer (Next t) f (Callback t) (Argument t) (bActive t).
Definition set_bActive (b : bool) (t : tTimer) := MkTimer (Next t) (FiresAfter t) (Callback t) (Argument t) b.

Definition upd_timers (p : Z) (s : tm) := MkTm p (q_Head s) (q_Tail s) (t_mem s) (t_reads s) (t_rands s) (t_next s) (t_alloc s) (t_log s).
Definition upd_queue (h t : Z) (s : tm) := MkTm (gTimers s) h t (t_mem s) (t_reads s) (t_rands s) (t_next s) (t_alloc s) (t_log s).
Definition upd_mem (m : gmap Z tTimer) (s : tm) := MkTm (gTimers s) (q_Head s) (q_Tail s) m (t_reads s) (t_rands s) (t_next s) (t_alloc s) (t_log s).
Definition upd_log (l : list effect) (s : tm) := MkTm (gTimers s) (q_Head s) (q_Tail s) (t_mem s) (t_reads s) (t_rands s) (t_next s) (t_alloc s) l.

Section timers.
Context (clock : nat -> Z) (junk : tTimer) (ThreadTimer : Z -> Z).
Abbreviation TM := (M tm tstop).

Definition modify (f : tm -> tm) : TM unit := fun s => Ok tt (f s).
Definition now : TM Z := fun s =>
  Ok (clock (t_reads s)) (MkTm (gTimers s) (q_Head s) (q_Tail s) (t_mem s) (S (t_reads s)) (t_rands s) (t_next s) (t_alloc s) (t_log s)).
Definition rand : TM unit := fun s =>
  Ok tt (MkTm (gTimers s) (q_Head s) (q_Tail s) (t_mem s) (t_reads s) (S (t_rands s)) (t_next s) (t_alloc s) (t_log s)).
Definition emit (e : effect) : TM unit := modify (fun s => upd_log (t_log s ++ [e]) s).
Definition ASSERT (b : bool) : TM unit := if b then ret tt else halt TAssert.

Definition timer_at (p : Z) : TM tTimer := fun s => match t_mem s !! p with Some t => Ok t s | None => Stop TFault end.
Definition put_timer (p : Z) (t : tTimer) : TM unit := modify (fun s => upd_mem (<[p := t]> (t_mem s)) s).
Definition on_timer (p : Z) (f : tTimer -> tTimer) : TM unit := do t <- timer_at p; put_timer p (f t).
(** [*prev_next = v]: the list head (0) or the link of a timer. *)
Definition set_prev_next (prev v : Z) : TM unit :=
  if prev =? 0 then modify (upd_timers v) else on_timer prev (set_Next v).

(** The work queue's list; waking the callback thread is the concern of the scheduler's model. *)
Definition Queue_Add (p : Z) : TM unit :=
  do s <- get_state;
  (if negb (q_Tail s =? 0) then on_timer (q_Tail s) (set_Next p);;; modify (upd_queue (q_Head s) p)
   else modify (upd_queue p p));;;
  on_timer p (set_Next 0).
Definition Queue_Get : TM Z :=
  do s <- get_state;
  if q_Head s =? 0 then ret 0 else
  do t <- timer_at (q_Head s);
  modify (upd_queue (Next t) (if q_Tail s =? q_Head s then 0 else q_Tail s));;;
  ret (q_Head s).

(** One round of the callback thread's loop; [false] when it sleeps for work. *)
Definition Timer_CallbackThread : TM bool :=
  do timer <- Queue_Get;
  if timer =? 0 then ret false else
  do t <- timer_at timer;
  ASSERT (negb (Callback t =? 0));;;
  put_timer timer (set_bActive false t);;;
  emit (RunCallback timer (Callback t) (Argument t));;;
  ret true.

(** The body of the loop over due timers. *)
Definition fire (timer : Z) (t : tTimer) : TM unit :=
  ASSERT (negb (timer =? Next t));;;
  modify (upd_timers (Next t));;;
  if negb (Callback t =? 0) then Queue_Add timer
  else
    ASSERT (negb (Argument t =? 0));;;
    emit (PostEvent timer (Argument t));;;
    on_timer timer (set_bActive false).

Fixpoint call_loop (fuel : nat) : TM unit :=
  match fuel with
  | O => halt TLoop
  | S fuel =>
      do s <- get_state;
      if gTimers s =? 0 then ret tt else
      do t <- timer_at (gTimers s);
      do n <- now;
      if FiresAfter t <? n then fire (gTimers s) t;;; call_loop fuel else ret tt
  end.

Definition Timer_CallTimers : TM unit :=
  rand;;; do s <- get_state; call_loop (S (size (t_mem s))).

Definition Time_InitTimer (cur Timer cb arg : Z) : TM unit :=
  do t <- timer_at Timer;
  put_timer Timer (MkTimer (Next t) 0 cb (if cb =? 0 then cur else arg) false).

(** The loop of [Time_ScheduleTimer]: the place before the first timer that fires later, [None] when the
    timer is on the list already.  The assertion compares the link followed with the next one. *)
Fixpoint schedule_loop (fuel : nat) (Timer fa prev t : Z) : TM (option (Z * Z)) :=
  if t =? 0 then ret (Some (prev, 0)) else
  match fuel with
  | O => halt TLoop
  | S fuel =>
      ASSERT (negb (prev =? t));;;
      do x <- timer_at t;
      if t =? Timer then ret None else
      if fa <? FiresAfter x then ret (Some (prev, t)) else schedule_loop fuel Timer fa t (Next x)
  end.

Definition Time_ScheduleTimer (Timer Delta : Z) : TM unit :=
  if Timer =? 0 then ret tt else
  do t <- timer_at Timer;
  if bActive t then ret tt else
  do n <- now;
  let fa := i64 (n + Delta) in
  put_timer Timer (set_FiresAfter fa t);;;
  do s <- get_state;
  do place <- schedule_loop (size (t_mem s)) Timer fa 0 (gTimers s);
  match place with
  | None => ret tt
  | Some (prev, t) =>
      on_timer Timer (set_Next t);;;
      set_prev_next prev Timer;;;
      on_timer Timer (set_bActive true)
  end.

(** [true] when the timer was on the list. *)
Fixpoint remove_loop (fuel : nat) (Timer prev t : Z) : TM bool :=
  if t =? 0 then ret false else
  match fuel with
  | O => halt TLoop
  | S fuel =>
      ASSERT (negb (prev =? t));;;
      do x <- timer_at t;
      if t =? Timer then set_prev_next prev (Next x);;; ret true else remove_loop fuel Timer t (Next x)
  end.

Definition Time_RemoveTimer (Timer : Z) : TM unit :=
  if Timer =? 0 then ret tt else
  do s <- get_state;
  do found <- remove_loop (size (t_mem s)) Timer 0 (gTimers s);
  if (found : bool) then on_timer Timer (set_bActive false) else ret tt.

Definition malloc_timer : TM Z := fun s =>
  match t_alloc s with
  | false :: l => Ok 0 (MkTm (gTimers s) (q_Head s) (q_Tail s) (t_mem s) (t_reads s) (t_rands s) (t_next s) l (t_log s))
  | l => Ok (t_next s) (MkTm (gTimers s) (q_Head s) (q_Tail s) (<[t_next s := junk]> (t_mem s)) (t_reads s) (t_rands s) (t_next s + 1) (tail l) (t_log s))
  end.

Definition Time_AllocateTimer (cur cb arg : Z) : TM Z :=
  do p <- malloc_timer;
  if p =? 0 then ret 0 else Time_InitTimer cur p cb arg;;; ret p.

Definition Time_CreateTimer (cur Delta cb arg : Z) : TM Z :=
  do p <- malloc_timer;
  if p =? 0 then ret 0 else Time_InitTimer cur p cb arg;;; Time_ScheduleTimer p Delta;;; ret p.

(** [Time_FreeTimer]: [false] while it has to yield and look again, because the callback has not started. *)
Definition Time_FreeTimer (Timer : Z) : TM bool :=
  if Timer =? 0 then ret true else
  Time_RemoveTimer Timer;;;
  do t <- timer_at Timer;
  if bActive t then ret false else
  modify (fun s => upd_mem (delete Timer (t_mem s)) s);;; ret true.

Definition Time_ScheduleEvent (cur Delay : Z) : TM unit :=
  Time_RemoveTimer (ThreadTimer cur);;;
  Time_InitTimer cur (ThreadTimer cur) 0 0;;;
  Time_ScheduleTimer (ThreadTimer cur) Delay.

Definition Time_Delay (cur Delay : Z) : TM unit :=
  emit (ClearEvent cur);;;
  Time_ScheduleEvent cur Delay;;;
  emit (WaitEvents cur).
End timers.
