(* ===== verification/TimerProps.v ===== *)
(** * Theorems about the timers

    The timer list is sorted and complete: it and the callback queue hold exactly the active timers.  A
    tick fires exactly the due timers in order, and a scheduled timer that nobody removes has fired after
    the first tick past its time (and once the callback thread has worked off its queue). *)
From S2P Require Import Prelude Chains Timers.

Local Open Scope Z_scope.
Local Open Scope monad_scope.

(** One step that runs by computation. *)
Ltac now_run := apply wp_bind; eapply wp_eq; [reflexivity|]; cbn beta.

(** ** The invariant *)
Definition nx (m : gmap Z tTimer) (a : Z) : option Z := Next <$> m !! a.
Definition dl (m : gmap Z tTimer) (a : Z) : Z := default 0 (FiresAfter <$> m !! a).
(** An initialised timer names a callback or a thread. *)
Definition ready (t : tTimer) : Prop := Callback t = 0 -> Argument t <> 0.

(** [pend] waits, [queue] is due and waits for the callback thread. *)
Record good (s : tm) (pend queue : list Z) : Prop := {
  g_pend : chain (nx (t_mem s)) (gTimers s) pend;
  g_queue : chain (nx (t_mem s)) (q_Head s) queue;
  g_tail : q_Tail s = final queue;
  g_nodup : NoDup (pend ++ queue);
  g_active : forall p t, t_mem s !! p = Some t -> bActive t = true <-> p ∈ pend ++ queue;
  g_sorted : StronglySorted Z.le (dl (t_mem s) <$> pend);
  g_ready : forall p t, p ∈ pend -> t_mem s !! p = Some t -> ready t;
  g_call : forall p t, p ∈ queue -> t_mem s !! p = Some t -> Callback t <> 0;
  g_addr : t_mem s !! 0 = None;
  g_fresh : 0 < t_next s /\ forall a, t_next s <= a -> t_mem s !! a = None }.

Lemma nx_insert m p t a : nx (<[p := t]> m) a = if decide (a = p) then Some (Next t) else nx m a.
Proof. unfold nx. case_decide; [subst; by rewrite lookup_insert_eq|]. by rewrite lookup_insert_ne. Qed.

Lemma dl_insert m p t a : dl (<[p := t]> m) a = if decide (a = p) then FiresAfter t else dl m a.
Proof. unfold dl. case_decide; [subst; by rewrite lookup_insert_eq|]. by rewrite lookup_insert_ne. Qed.

Lemma fmap_agree (f g : Z -> Z) (l : list Z) : (forall a, a ∈ l -> f a = g a) -> f <$> l = g <$> l.
Proof. intros H. apply list_fmap_ext. intros i x Hx. apply H. by eapply list_elem_of_lookup_2. Qed.

Section runs.
Implicit Types (s : tm) (l pend queue : list Z) (p : Z) (t : tTimer).

Lemma bind_at p t s {B} (k : tTimer -> M tm tstop B) : t_mem s !! p = Some t -> bind (timer_at p) k s = k t s.
Proof. intros H. unfold bind, timer_at. by rewrite H. Qed.

Lemma bind_on p f t s {B} (k : unit -> M tm tstop B) : t_mem s !! p = Some t ->
  bind (on_timer p f) k s = k tt (upd_mem (<[p := f t]> (t_mem s)) s).
Proof. intros H. unfold on_timer. rewrite bind_assoc, (bind_at _ t) by done. done. Qed.

Lemma on_run p f t s : t_mem s !! p = Some t -> on_timer p f s = Ok tt (upd_mem (<[p := f t]> (t_mem s)) s).
Proof. intros H. unfold on_timer. by rewrite (bind_at _ t). Qed.

Lemma chain_mem s p l a : chain (nx (t_mem s)) p l -> a ∈ l -> a <> 0 /\ exists t, t_mem s !! a = Some t.
Proof.
  intros Hc Ha. destruct (lseg_in _ _ _ _ Hc Ha) as [H0 [n Hn] ]. split; [done|].
  unfold nx in Hn. apply fmap_Some in Hn as (t & Ht & _). eauto.
Qed.

Lemma good_mem s pend queue a : good s pend queue -> a ∈ pend ++ queue -> a <> 0 /\ exists t, t_mem s !! a = Some t /\ bActive t = true.
Proof.
  intros Hg Ha. assert (a <> 0 /\ exists t, t_mem s !! a = Some t) as (H0 & t & Ht).
  { apply elem_of_app in Ha as [Ha|Ha]; [eapply (chain_mem s (gTimers s))|eapply (chain_mem s (q_Head s))]; try done; apply Hg. }
  split; [done|]. exists t. split; [done|]. by apply (g_active _ _ _ Hg a).
Qed.

(** There is room for a walk over either list. *)
Lemma good_size s pend queue : good s pend queue -> (length (pend ++ queue) <= size (t_mem s))%nat.
Proof.
  intros Hg. apply nodup_size; [apply Hg|]. intros a Ha.
  destruct (good_mem _ _ _ _ Hg Ha) as (_ & t & Ht & _). by exists t.
Qed.

(** A timer that is not waiting can be linked in front of those that fire later. *)
Lemma schedule_loop_spec s p fa : forall l2 l1 fuel, chain (nx (t_mem s)) (first l2) l2 -> NoDup (l1 ++ l2) -> p ∉ l2 ->
  (length l2 <= fuel)%nat -> Forall (fun a => dl (t_mem s) a <= fa) l1 -> StronglySorted Z.le (dl (t_mem s) <$> l2) ->
  exists k1 k2, l1 ++ l2 = k1 ++ k2 /\ schedule_loop fuel p fa (final l1) (first l2) s = Ok (Some (final k1, first k2)) s /\
    Forall (fun a => dl (t_mem s) a <= fa) k1 /\ Forall (fun a => fa < dl (t_mem s) a) k2.
Proof.
  induction l2 as [|a l2 IH]; intros l1 fuel Hc Hnd Hp Hf Hle Hs.
  { exists l1, []. split_and!; [done| |done|constructor]. by destruct fuel. }
  destruct Hc as (_ & Ha & n & Hn & Hc). unfold nx in Hn. apply fmap_Some in Hn as (x & Hx & ->).
  destruct fuel as [|fuel]; [cbn in Hf; lia|]. cbn [schedule_loop first head default from_option].
  change (id a) with a. rewrite (proj2 (Z.eqb_neq a 0) Ha).
  assert (final l1 <> a) as Hfa by (by eapply final_ne).
  rewrite (proj2 (Z.eqb_neq _ _) Hfa). cbn [negb ASSERT]. rewrite bind_ret, (bind_at _ x) by done.
  rewrite (proj2 (Z.eqb_neq a p)) by set_solver.
  assert (dl (t_mem s) a = FiresAfter x) as Hd by (unfold dl; by rewrite Hx).
  rewrite fmap_cons in Hs. apply StronglySorted_inv in Hs as [Hs Hge].
  case_if.
  - exists l1, (a :: l2). split_and!; try done. rewrite Forall_fmap in Hge. constructor; [lia|].
    eapply Forall_impl; [exact Hge|]. cbn. intros; lia.
  - pose proof (chain_first _ _ Hc) as En. rewrite En in *.
    destruct (IH (l1 ++ [a]) fuel) as (k1 & k2 & E & Hr & H1 & H2); [exact Hc|by rewrite <- app_assoc|set_solver|cbn in Hf; lia| |exact Hs|].
    + apply Forall_app. split; [done|]. constructor; [lia|constructor].
    + exists k1, k2. rewrite <- app_assoc in E. rewrite final_snoc in Hr. done.
Qed.

(** Changing one object of a store: the chain keeps, when the object is not on it or keeps its link. *)
Lemma chain_insert m p l a t : chain (nx m) a l -> (p ∈ l -> nx m p = Some (Next t)) -> chain (nx (<[p := t]> m)) a l.
Proof.
  intros Hc Hp. eapply lseg_ext; [exact Hc|]. intros b Hb. rewrite nx_insert. case_decide; [|done]. subst. symmetry. auto.
Qed.

(** Writing the link in front of a place, the list head for an empty front. *)
Lemma set_prev_next_run s l1 v (x : tTimer) : (l1 <> [] -> t_mem s !! final l1 = Some x /\ final l1 <> 0) ->
  set_prev_next (final l1) v s = Ok tt (if l1 is [] then upd_timers v s else upd_mem (<[final l1 := set_Next v x]> (t_mem s)) s).
Proof.
  intros H. unfold set_prev_next. destruct l1 as [|a l1]; [done|]. destruct H as [Hx H0]; [done|].
  rewrite (proj2 (Z.eqb_neq _ 0) H0). by apply on_run.
Qed.

(** What is in a timer apart from its link. *)
Definition body (m : gmap Z tTimer) (a : Z) : option tTimer := set_Next 0 <$> m !! a.

Lemma body_insert m p t a : body (<[p := t]> m) a = if decide (a = p) then Some (set_Next 0 t) else body m a.
Proof. unfold body. case_decide; [subst; by rewrite lookup_insert_eq|]. by rewrite lookup_insert_ne. Qed.

Lemma body_relink m p v t a : m !! p = Some t -> body (<[p := set_Next v t]> m) a = body m a.
Proof. intros Ht. rewrite body_insert. case_decide; [subst; unfold body; by rewrite Ht|done]. Qed.

Lemma body_some m m' a t' : body m' a = body m a -> m' !! a = Some t' ->
  exists t, m !! a = Some t /\ set_Next 0 t = set_Next 0 t'.
Proof. unfold body. intros E H. rewrite H in E. destruct (m !! a) as [t|]; [|done]. injection E as E. exists t. unfold set_Next. split; [done|]. naive_solver congruence. Qed.

Lemma body_dl m m' a : body m' a = body m a -> dl m' a = dl m a.
Proof. unfold body, dl. destruct (m' !! a), (m !! a); cbn; unfold set_Next; cbn; congruence. Qed.

(** The invariant after an operation that changes one timer [p], links apart. *)
Lemma good_change s s' pend queue pend' queue' p : good s pend queue ->
  (forall a, a <> p -> body (t_mem s') a = body (t_mem s) a) ->
  chain (nx (t_mem s')) (gTimers s') pend' -> chain (nx (t_mem s')) (q_Head s') queue' -> q_Tail s' = final queue' ->
  NoDup (pend' ++ queue') ->
  (forall a, a <> p -> (a ∈ pend' -> a ∈ pend) /\ (a ∈ queue' -> a ∈ queue) /\ (a ∈ pend ++ queue -> a ∈ pend' ++ queue')) ->
  (forall t', t_mem s' !! p = Some t' -> (bActive t' = true <-> p ∈ pend' ++ queue') /\ (p ∈ pend' -> ready t') /\ (p ∈ queue' -> Callback t' <> 0)) ->
  StronglySorted Z.le (dl (t_mem s') <$> pend') -> p <> 0 -> t_next s <= t_next s' -> p < t_next s' -> good s' pend' queue'.
Proof.
  intros Hg Hb Hp Hq Ht Hnd Hi Hpt Hs H0 Hn Hpn.
  assert (forall a t', a <> p -> t_mem s' !! a = Some t' -> exists t, t_mem s !! a = Some t /\ set_Next 0 t = set_Next 0 t') as Hold
    by (intros a t' Ha; apply body_some; auto).
  assert (forall a, a <> p -> t_mem s !! a = None -> t_mem s' !! a = None) as Hnone.
  { intros a Ha E. destruct (t_mem s' !! a) as [t'|] eqn:E'; [|done]. destruct (Hold a t' Ha E') as (t & Et & _). congruence. }
  destruct Hg. constructor; try done.
  - intros a t' E. destruct (decide (a = p)) as [->|Ha]; [by apply Hpt|].
    destruct (Hold a t' Ha E) as (t & Et & Eb). unfold set_Next in Eb. injection Eb as _ _ _ <-. rewrite (g_active0 a t Et).
    destruct (Hi a Ha) as (? & ? & ?). set_solver.
  - intros a t' Hin E. destruct (decide (a = p)) as [->|Ha]; [by apply Hpt|].
    destruct (Hold a t' Ha E) as (t & Et & Eb). unfold set_Next in Eb. injection Eb as _ Ec Ea _. unfold ready. rewrite <- Ec, <- Ea.
    apply (g_ready0 a t); [by apply Hi|done].
  - intros a t' Hin E. destruct (decide (a = p)) as [->|Ha]; [by apply Hpt|].
    destruct (Hold a t' Ha E) as (t & Et & Eb). unfold set_Next in Eb. injection Eb as _ Ec _ _. rewrite <- Ec.
    apply (g_call0 a t); [by apply Hi|done].
  - by apply Hnone.
  - split; [lia|]. intros a Hle. apply Hnone; [lia|]. apply g_fresh0. lia.
Qed.

(** Linking [p] in at a place of the waiting list. *)
Lemma timer_link s k1 k2 p t' m' : chain (nx (t_mem s)) (gTimers s) (k1 ++ k2) -> NoDup (k1 ++ k2) -> p ∉ k1 ++ k2 -> p <> 0 ->
  m' !! p = Some t' -> Next t' = first k2 ->
  (forall a, a <> p -> a <> final k1 -> m' !! a = t_mem s !! a) -> (k1 <> [] -> nx m' (final k1) = Some p) ->
  chain (nx m') (if k1 is [] then p else gTimers s) (k1 ++ p :: k2).
Proof.
  intros Hc Hnd Hp H0 Ht Hn Hs Hf. apply chain_mid in Hc as [H1 H2]. apply NoDup_app in Hnd as (Hnd & Hd & _).
  apply lseg_app. exists p. split.
  - eapply lseg_relink; [exact H1|exact Hnd| |exact Hf]. intros a Ha Hfa. unfold nx. rewrite Hs; [done|set_solver|done].
  - cbn [lseg]. split_and!; [done..|]. exists (first k2). split; [unfold nx; rewrite Ht; cbn; by rewrite Hn|].
    eapply lseg_ext; [exact H2|]. intros a Ha. unfold nx. rewrite Hs; [done|set_solver|].
    intros ->. destruct (decide (k1 = [])) as [->|Hk]; [|apply (Hd (final k1)); [by apply final_in|done] ].
    destruct (lseg_in _ _ _ _ H2 Ha) as [Hz _]. by apply Hz.
Qed.

Lemma timers_sorted_insert f k1 k2 p x : f p = x -> StronglySorted Z.le (f <$> k1 ++ k2) -> Forall (fun a => f a <= x) k1 ->
  Forall (fun a => x < f a) k2 -> StronglySorted Z.le (f <$> k1 ++ p :: k2).
Proof.
  intros <- Hs H1 H2. rewrite fmap_app in *. apply StronglySorted_app in Hs as (Ha & Hb & Hc). apply StronglySorted_app.
  rewrite fmap_cons, Forall_forall in *. split_and!; [|done|].
  - intros x1 x2 Hx1 Hx2. apply elem_of_cons in Hx2 as [->|Hx2]; [|by apply Ha].
    apply list_elem_of_fmap in Hx1 as (a & -> & Ha'). by apply H1.
  - constructor; [done|]. rewrite Forall_forall in *. intros y (a & -> & Ha')%list_elem_of_fmap. specialize (H2 a Ha'). lia.
Qed.
End runs.

Section specs.
Implicit Types (s : tm) (l pend queue : list Z) (p : Z) (t : tTimer).

(** The state after the clock was read once. *)
Definition ticked s : tm := MkTm (gTimers s) (q_Head s) (q_Tail s) (t_mem s) (S (t_reads s)) (t_rands s) (t_next s) (t_alloc s) (t_log s).

(** Writing the link in front of a place of the waiting list leaves everything else. *)
Lemma prev_next_spec s k1 v : (k1 <> [] -> exists x, t_mem s !! final k1 = Some x /\ final k1 <> 0) ->
  exists s', set_prev_next (final k1) v s = Ok tt s' /\ gTimers s' = (if k1 is [] then v else gTimers s) /\
    (forall a, a <> final k1 \/ k1 = [] -> t_mem s' !! a = t_mem s !! a) /\ (k1 <> [] -> nx (t_mem s') (final k1) = Some v) /\
    (forall a, body (t_mem s') a = body (t_mem s) a) /\ upd_mem ∅ (upd_timers 0 s') = upd_mem ∅ (upd_timers 0 s).
Proof.
  intros H. destruct (decide (k1 = [])) as [->|Hk].
  - exists (upd_timers v s). split_and!; done.
  - destruct (H Hk) as (x & Hx & H0). eexists. split; [by apply (set_prev_next_run _ _ _ x)|].
    assert (forall A (y z : A), (if k1 is [] then y else z) = z) as E by (intros; by destruct k1). rewrite !E.
    split_and!; try done.
    + intros a [Ha|?]; [|done]. cbn. by apply lookup_insert_ne.
    + intros _. unfold nx. cbn. by rewrite lookup_insert_eq.
    + intros a. cbn. by apply body_relink.
Qed.

Lemma same_rest s s' : upd_mem ∅ (upd_timers 0 s') = upd_mem ∅ (upd_timers 0 s) ->
  q_Head s' = q_Head s /\ q_Tail s' = q_Tail s /\ t_next s' = t_next s /\ t_log s' = t_log s.
Proof. destruct s, s'. unfold upd_mem, upd_timers. cbn. by intros [= -> -> _ _ -> _ ->]. Qed.

(** Scheduling an inactive timer puts it behind those that fire no later. *)
Lemma Schedule_spec (clock : nat -> Z) s pend queue p t Delta : good s pend queue -> t_mem s !! p = Some t -> bActive t = false -> ready t ->
  let fa := i64 (clock (t_reads s) + Delta) in
  wp (Time_ScheduleTimer clock p Delta) s (fun _ s' => exists k1 k2, pend = k1 ++ k2 /\ good s' (k1 ++ p :: k2) queue /\
    (forall a, a <> p -> body (t_mem s') a = body (t_mem s) a) /\
    body (t_mem s') p = Some (MkTimer 0 fa (Callback t) (Argument t) true) /\
    Forall (fun a => dl (t_mem s) a <= fa) k1 /\ Forall (fun a => fa < dl (t_mem s) a) k2 /\ t_log s' = t_log s).
Proof.
  intros Hg Ht Hact Hr fa. unfold Time_ScheduleTimer.
  assert (p <> 0) as H0 by (intros ->; by rewrite (g_addr _ _ _ Hg) in Ht).
  assert (p ∉ pend ++ queue) as Hout by (rewrite <- (g_active _ _ _ Hg p t Ht); by rewrite Hact).
  rewrite (proj2 (Z.eqb_neq p 0) H0). apply wp_bind. eapply wp_eq; [unfold timer_at; by rewrite Ht|]. cbn beta. rewrite Hact.
  now_run. cbn zeta. fold fa. now_run. fold (ticked s).
  set (s1 := upd_mem (<[p := set_FiresAfter fa t]> (t_mem (ticked s))) (ticked s)).
  assert (t_mem s1 !! p = Some (set_FiresAfter fa t)) as Hp1 by apply lookup_insert_eq.
  assert (forall a, a ∈ pend -> dl (t_mem s1) a = dl (t_mem s) a) as Hd1.
  { intros a Ha. cbn. rewrite dl_insert. case_decide; [set_solver|done]. }
  assert (chain (nx (t_mem s1)) (gTimers s1) pend) as Hc1 by (apply chain_insert; [apply Hg|intros; set_solver]).
  pose proof (g_nodup _ _ _ Hg) as Hnd.
  destruct (schedule_loop_spec s1 p fa pend [] (size (t_mem s1))) as (k1 & k2 & E & Hrun & H1 & H2).
  - by rewrite <- (chain_first _ _ Hc1).
  - apply NoDup_app in Hnd as [Hnd _]. exact Hnd.
  - set_solver.
  - pose proof (good_size _ _ _ Hg) as Hsz. rewrite length_app in Hsz.
    assert (size (t_mem s1) = size (t_mem s)) by (apply map_size_insert_Some; by eexists). lia.
  - constructor.
  - rewrite (fmap_agree _ _ _ Hd1). apply Hg.
  - cbn [app] in E. assert (Forall (fun a => dl (t_mem s) a <= fa) k1 /\ Forall (fun a => fa < dl (t_mem s) a) k2) as [H1' H2'].
    { rewrite !Forall_forall in *. split; intros a Ha; rewrite <- Hd1 by set_solver; auto. }
    clear H1 H2. rename H1' into H1, H2' into H2. apply wp_bind, wp_get, wp_bind. eapply wp_eq; [rewrite (chain_first _ _ Hc1); exact Hrun|]. cbn beta iota.
    apply wp_bind. eapply wp_eq; [by apply on_run|].
    match goal with |- wp _ ?x _ => set (s2 := x) end.
    assert (forall a, a <> p -> t_mem s2 !! a = t_mem s !! a) as Hm2 by (intros; cbn; by rewrite !lookup_insert_ne).
    destruct (prev_next_spec s2 k1 p) as (s3 & Hr3 & Hg3 & Hm3 & Hn3 & Hb3 & He3).
    { intros Hk. destruct (good_mem s pend queue (final k1)) as (Hz & x & Hx & _); [done|pose proof (final_in _ Hk); set_solver|].
      exists x. split; [|done]. rewrite Hm2; [done|]. intros Ep. apply Hout. rewrite E, <- Ep. pose proof (final_in _ Hk). set_solver. }
    destruct (same_rest _ _ He3) as (Hqh & Hqt & Hnx & Hlog).
    assert (final k1 <> p \/ k1 = []) as Hfk.
    { destruct (decide (k1 = [])) as [|Hk]; [by right|left]. intros Ep. apply Hout. rewrite E, <- Ep. pose proof (final_in _ Hk). set_solver. }
    assert (t_mem s3 !! p = Some (set_Next (first k2) (set_FiresAfter fa t))) as Hp3.
    { rewrite Hm3 by naive_solver. apply lookup_insert_eq. }
    apply wp_bind. eapply wp_eq; [exact Hr3|]. cbn beta. eapply wp_eq; [by apply on_run|]. cbn beta. unfold set_bActive. cbn.
    exists k1, k2. split; [done|]. 
    assert (forall a, a <> p -> body (<[p:=set_bActive true (set_Next (first k2) (set_FiresAfter fa t))]> (t_mem s3)) a = body (t_mem s) a) as Hbo.
    { intros a Ha. rewrite body_insert, decide_False by done. rewrite Hb3. unfold body. by rewrite Hm2. }
    split_and!; [|exact Hbo| | | |by rewrite Hlog].
    + apply (good_change s _ pend queue _ _ p Hg).
      * exact Hbo.
      * cbn [upd_mem t_mem gTimers]. rewrite Hg3. eapply (timer_link s1); [by rewrite <- E|rewrite <- E; by apply NoDup_app in Hnd as [? _]|set_solver|done|apply lookup_insert_eq|done| |].
        -- intros a Ha Hf. rewrite lookup_insert_ne, Hm3, Hm2 by naive_solver. cbn. by rewrite lookup_insert_ne.
        -- intros Hk. rewrite nx_insert, decide_False by naive_solver. by apply Hn3.
      * cbn [upd_mem t_mem q_Head]. rewrite Hqh. eapply lseg_ext; [apply Hg|]. intros a Ha.
        rewrite nx_insert, decide_False by set_solver. unfold nx. rewrite Hm3, Hm2; [done|set_solver|].
        destruct (decide (k1 = [])) as [|Hk]; [by right|left]. intros ->. apply NoDup_app in Hnd as (_ & Hd & _).
        apply (Hd (final k1)); [rewrite E; pose proof (final_in _ Hk); set_solver|done].
      * cbn. rewrite Hqt. apply Hg.
      * rewrite <- app_assoc. cbn [app]. apply NoDup_Permutation_proper with (p :: (k1 ++ k2) ++ queue); [solve_Permutation|].
        constructor; [by rewrite <- E|by rewrite <- E].
      * intros a Ha. rewrite E. set_solver.
      * intros t'. cbn. rewrite lookup_insert_eq. intros [= <-]. cbn. split_and!; [set_solver|done|set_solver].
      * cbn [upd_mem t_mem]. apply (timers_sorted_insert _ _ _ _ fa).
        -- rewrite dl_insert, decide_True; done.
        -- rewrite <- E. rewrite (fmap_agree _ (dl (t_mem s))); [apply Hg|]. intros a Ha. apply body_dl, Hbo. set_solver.
        -- rewrite Forall_forall in *. intros a Ha. rewrite (body_dl (t_mem s)) by (apply Hbo; set_solver). by apply H1.
        -- rewrite Forall_forall in *. intros a Ha. rewrite (body_dl (t_mem s)) by (apply Hbo; set_solver). by apply H2.
      * done.
      * cbn. rewrite Hnx. cbn. lia.
      * cbn. rewrite Hnx. cbn. destruct (decide (p < t_next s)); [done|]. 
        by rewrite (proj2 (g_fresh _ _ _ Hg)) in Ht by lia.
    + rewrite body_insert, decide_True by done. done.
    + done.
    + done.
Qed.

(** The timer is unlinked when it is waiting, and nothing happens otherwise. *)
Lemma remove_loop_absent s p : forall l2 l1 fuel, chain (nx (t_mem s)) (first l2) l2 -> NoDup (l1 ++ l2) -> p ∉ l2 ->
  (length l2 <= fuel)%nat -> remove_loop fuel p (final l1) (first l2) s = Ok false s.
Proof.
  induction l2 as [|a l2 IH]; intros l1 fuel Hc Hnd Hp Hf; [by destruct fuel|].
  destruct Hc as (_ & Ha & n & Hn & Hc). unfold nx in Hn. apply fmap_Some in Hn as (x & Hx & ->).
  destruct fuel as [|fuel]; [cbn in Hf; lia|]. cbn [remove_loop first head default from_option]. change (id a) with a.
  rewrite (proj2 (Z.eqb_neq a 0) Ha), (proj2 (Z.eqb_neq (final l1) a)).
  2: { intros E. destruct (decide (l1 = [])) as [->|H1]; [cbn in E; congruence|]. apply NoDup_app in Hnd as (_ & Hd & _).
       apply (Hd a); [rewrite <- E; by apply final_in|set_solver]. }
  cbn [negb ASSERT]. rewrite bind_ret, (bind_at _ x) by done. rewrite (proj2 (Z.eqb_neq a p)) by set_solver.
  rewrite (chain_first _ _ Hc). rewrite <- (final_snoc l1 a) at 1. pose proof (chain_first _ _ Hc) as En. rewrite En in Hc.
  apply IH; [done|by rewrite <- app_assoc|set_solver|cbn in Hf; lia].
Qed.

Lemma remove_loop_found s p x k2 : t_mem s !! p = Some x -> forall l2 l1 fuel, chain (nx (t_mem s)) (first (l2 ++ p :: k2)) (l2 ++ p :: k2) ->
  NoDup (l1 ++ l2 ++ p :: k2) -> (length (l2 ++ p :: k2) <= fuel)%nat ->
  remove_loop fuel p (final l1) (first (l2 ++ p :: k2)) s = (set_prev_next (final (l1 ++ l2)) (Next x);;; ret true) s.
Proof.
  intros Hp. induction l2 as [|a l2 IH]; intros l1 fuel; cbn [app].
  - intros (_ & H0 & _) Hnd Hf. destruct fuel as [|fuel]; [cbn in Hf; lia|]. cbn [remove_loop first head default from_option]. change (id p) with p.
    rewrite (proj2 (Z.eqb_neq p 0) H0), (proj2 (Z.eqb_neq (final l1) p)) by (by eapply final_ne).
    cbn [negb ASSERT]. rewrite bind_ret, (bind_at _ x) by done. by rewrite Z.eqb_refl, app_nil_r.
  - intros (_ & Ha & n & Hn & Hc) Hnd Hf. unfold nx in Hn. apply fmap_Some in Hn as (y & Hy & ->).
    destruct fuel as [|fuel]; [cbn in Hf; lia|]. cbn [remove_loop first head default from_option]. change (id a) with a.
    rewrite (proj2 (Z.eqb_neq a 0) Ha), (proj2 (Z.eqb_neq (final l1) a)) by (by eapply final_ne).
    cbn [negb ASSERT]. rewrite bind_ret, (bind_at _ y) by done. rewrite (proj2 (Z.eqb_neq a p)).
    2: { intros ->. apply NoDup_app in Hnd as (_ & _ & Hnd). apply NoDup_cons in Hnd as [Hnd _]. set_solver. }
    pose proof (chain_first _ _ Hc) as En. rewrite En in *. rewrite <- (final_snoc l1 a) at 1. rewrite IH; [|exact Hc| |cbn in Hf; lia].
    + by rewrite <- app_assoc.
    + by rewrite <- app_assoc.
Qed.

Lemma chain_unlink s k1 k2 p x m' : chain (nx (t_mem s)) (gTimers s) (k1 ++ p :: k2) -> NoDup (k1 ++ p :: k2) -> t_mem s !! p = Some x ->
  (forall a, a <> p -> a <> final k1 \/ k1 = [] -> m' !! a = t_mem s !! a) -> (k1 <> [] -> nx m' (final k1) = Some (Next x)) ->
  chain (nx m') (if k1 is [] then Next x else gTimers s) (k1 ++ k2).
Proof.
  intros (r & H1 & (-> & H0 & n & Hn & H2))%lseg_app Hnd Hx Hs Hf. unfold nx in Hn. rewrite Hx in Hn. injection Hn as <-.
  apply NoDup_app in Hnd as (Hnd & Hd & [Hp _]%NoDup_cons). apply lseg_app. exists (Next x). split.
  - eapply lseg_relink; [exact H1|exact Hnd| |exact Hf]. intros a Ha Hfa. unfold nx. rewrite Hs; [done| |by left].
    intros ->. apply (Hd p Ha). set_solver.
  - eapply lseg_ext; [exact H2|]. intros a Ha. unfold nx. rewrite Hs; [done| |].
    + by intros ->.
    + destruct (decide (k1 = [])) as [|Hk]; [by right|left]. intros ->. apply (Hd (final k1)); [by apply final_in|set_solver].
Qed.

Lemma below_next s pend queue p t : good s pend queue -> t_mem s !! p = Some t -> p <> 0 /\ p < t_next s.
Proof.
  intros Hg Ht. split; [intros ->; by rewrite (g_addr _ _ _ Hg) in Ht|].
  destruct (decide (p < t_next s)); [done|]. by rewrite (proj2 (g_fresh _ _ _ Hg)) in Ht by lia.
Qed.

Lemma sorted_without f k1 k2 (p : Z) : StronglySorted Z.le (f <$> k1 ++ p :: k2) -> StronglySorted Z.le (f <$> k1 ++ k2).
Proof.
  rewrite !fmap_app, fmap_cons. rewrite !StronglySorted_app. intros (H1 & H2 & [H3 _]%StronglySorted_inv). split_and!; try done.
  intros x y Hx Hy. apply H1; [done|]. by right.
Qed.

Lemma Remove_spec s pend queue p t : good s pend queue -> t_mem s !! p = Some t ->
  wp (Time_RemoveTimer p) s (fun _ s' => t_log s' = t_log s /\ (forall a, a <> p -> body (t_mem s') a = body (t_mem s) a) /\
    (((p ∉ pend) /\ s' = s) \/ (exists k1 k2, pend = k1 ++ p :: k2 /\ good s' (k1 ++ k2) queue /\
      body (t_mem s') p = Some (set_bActive false (set_Next 0 t))))).
Proof.
  intros Hg Ht. destruct (below_next _ _ _ _ _ Hg Ht) as [H0 Hlt]. unfold Time_RemoveTimer. rewrite (proj2 (Z.eqb_neq p 0) H0).
  pose proof (g_pend _ _ _ Hg) as Hc. pose proof (g_nodup _ _ _ Hg) as Hnd.
  pose proof (good_size _ _ _ Hg) as Hsz. rewrite length_app in Hsz.
  apply wp_bind, wp_get. pose proof (chain_first _ _ Hc) as Ef.
  destruct (decide (p ∈ pend)) as [(k1 & k2 & ->)%list_elem_of_split|Hp].
  2: { apply wp_bind. eapply wp_eq.
       { rewrite Ef in *. apply (remove_loop_absent s p pend []); [done|by apply NoDup_app in Hnd as [? _]|done|lia]. }
       cbn beta iota. apply wp_ret. split_and!; [done|done|by left]. }
  assert (NoDup (k1 ++ p :: k2)) as Hnp by (by apply NoDup_app in Hnd as [? _]).
  destruct (prev_next_spec s k1 (Next t)) as (s3 & Hr3 & Hg3 & Hm3 & Hn3 & Hb3 & He3).
  { intros Hk. destruct (chain_mem s _ _ (final k1) Hc) as (Hz & x & Hx); [pose proof (final_in _ Hk); set_solver|]. eauto. }
  destruct (same_rest _ _ He3) as (Hqh & Hqt & Hnx & Hlog).
  assert (t_mem s3 !! p = Some t) as Hp3 by (rewrite Hm3; [done|]; left; intros E; by apply (final_ne k1 k2 p)).
  apply wp_bind. eapply wp_eq.
  { rewrite Ef in *. rewrite (remove_loop_found s p t k2 Ht k1 []); [|done..|lia]. cbn [app]. rewrite (bind_Ok _ _ _ _ _ Hr3). done. }
  cbn beta iota. eapply wp_eq; [by apply on_run|]. cbn beta.
  assert (forall a, a <> p -> body (<[p := set_bActive false t]> (t_mem s3)) a = body (t_mem s) a) as Hbo.
  { intros a Ha. rewrite body_insert, decide_False by done. apply Hb3. }
  split_and!; [done|exact Hbo|]. right. exists k1, k2. split; [done|]. split.
  2: { cbn [upd_mem t_mem]. rewrite body_insert, decide_True; done. }
  assert (forall a, a ∈ k1 ++ k2 -> a <> p) as Hne.
  { intros a Ha ->. apply NoDup_app in Hnp as (_ & Hd & [Hq _]%NoDup_cons). apply elem_of_app in Ha as [Ha|Ha]; [|done].
    apply (Hd p Ha). set_solver. }
  assert (p ∉ queue) as Hpq by (apply NoDup_app in Hnd as (_ & Hd & _); apply Hd; set_solver).
  apply (good_change s _ (k1 ++ p :: k2) queue _ _ p Hg); try done.
  - cbn [upd_mem t_mem gTimers]. rewrite Hg3. apply (chain_unlink s k1 k2 p t); try done.
    + intros a Ha Hf. rewrite lookup_insert_ne by done. by apply Hm3.
    + intros Hk. rewrite nx_insert, decide_False; [by apply Hn3|]. by eapply final_ne.
  - cbn [upd_mem t_mem q_Head]. rewrite Hqh. eapply lseg_ext; [apply Hg|]. intros a Ha.
    rewrite nx_insert, decide_False by set_solver. unfold nx. rewrite Hm3; [done|].
    destruct (decide (k1 = [])) as [|Hk]; [by right|left]. intros ->. apply NoDup_app in Hnd as (_ & Hd & _).
    apply (Hd (final k1)); [pose proof (final_in _ Hk); set_solver|done].
  - cbn. rewrite Hqt. apply Hg.
  - eapply sublist_NoDup; [exact Hnd|]. apply sublist_app; [|done]. apply sublist_app; [done|]. by constructor.
  - intros a Ha. set_solver.
  - intros t'. cbn. rewrite lookup_insert_eq. intros [= <-]. cbn. assert (p ∉ k1 ++ k2) by (intros Hin; by apply (Hne p)). set_solver.
  - cbn [upd_mem t_mem]. rewrite (fmap_agree _ (dl (t_mem s))); [eapply sorted_without, Hg|]. intros a Ha. apply body_dl, Hbo. by apply Hne.
  - cbn. lia.
  - cbn. lia.
Qed.

(** Appending to the work queue, for a timer on neither list. *)
Lemma Queue_Add_run s queue p t : chain (nx (t_mem s)) (q_Head s) queue -> q_Tail s = final queue -> NoDup queue -> p ∉ queue -> p <> 0 ->
  t_mem s !! p = Some t ->
  exists s', Queue_Add p s = Ok tt s' /\ chain (nx (t_mem s')) (q_Head s') (queue ++ [p]) /\ q_Tail s' = p /\
    (forall a, body (t_mem s') a = body (t_mem s) a) /\ (forall a, a ∉ queue ++ [p] -> t_mem s' !! a = t_mem s !! a) /\
    gTimers s' = gTimers s /\ t_reads s' = t_reads s /\ t_next s' = t_next s /\ t_log s' = t_log s.
Proof.
  intros Hc Ht Hnd Hp H0 Hx. unfold Queue_Add. rewrite bind_get, Ht. destruct (decide (queue = [])) as [->|Hq].
  - cbn [final last default from_option]. rewrite Z.eqb_refl. cbn [negb].
    eexists. split; [unfold bind at 1; cbn [modify]; by apply on_run|]. cbn. split_and!; try done.
    + exists 0. split; [|done]. rewrite nx_insert. by rewrite decide_True.
    + intros a. by apply body_relink.
    + intros a Ha. apply lookup_insert_ne. set_solver.
  - pose proof (final_in _ Hq) as Hfin. destruct (chain_mem s _ _ _ Hc Hfin) as (Hf0 & y & Hy).
    rewrite (proj2 (Z.eqb_neq _ 0) Hf0). cbn [negb]. rewrite bind_assoc, (bind_on _ _ y) by done.
    eexists. split; [unfold bind at 1; cbn [modify]; apply (on_run _ _ t); cbn; rewrite lookup_insert_ne by set_solver; done|].
    cbn. split_and!; try done.
    + apply lseg_app. exists p. split.
      * pose proof (lseg_relink (nxt' := nx (<[p:=set_Next 0 t]> (<[final queue:=set_Next p y]> (t_mem s)))) _ _ _ p Hc Hnd) as Hr.
        destruct queue as [|b queue]; [done|]. apply Hr.
        -- intros a Ha Hfa. rewrite !nx_insert, !decide_False; [done|done|set_solver].
        -- intros _. rewrite nx_insert, decide_False by set_solver. by rewrite nx_insert, decide_True.
      * cbn. split_and!; try done. exists 0. by rewrite nx_insert, decide_True.
    + intros a. rewrite body_relink by (rewrite lookup_insert_ne by set_solver; done). by apply body_relink.
    + intros a Ha. rewrite !lookup_insert_ne; [done|set_solver|set_solver].
Qed.

(** The event a due timer posts, if it has no callback. *)
Definition event_of (m : gmap Z tTimer) (a : Z) : option effect :=
  t ← m !! a; if Callback t =? 0 then Some (PostEvent a (Argument t)) else None.
Definition queued (m : gmap Z tTimer) (a : Z) : option Z :=
  t ← m !! a; if Callback t =? 0 then None else Some a.

Lemma body_event m m' a : body m' a = body m a -> event_of m' a = event_of m a /\ queued m' a = queued m a.
Proof.
  unfold body, event_of, queued. destruct (m' !! a) as [x|], (m !! a) as [y|]; cbn; try done.
  unfold set_Next. intros [= _ -> -> _]. done.
Qed.

(** A due timer leaves the waiting list: to the queue, or with its event posted. *)
Lemma fire_spec s pend queue p t : good s (p :: pend) queue -> t_mem s !! p = Some t ->
  wp (fire p t) s (fun _ s' => good s' pend (queue ++ option_list (queued (t_mem s) p)) /\
    t_log s' = t_log s ++ option_list (event_of (t_mem s) p) /\ t_reads s' = t_reads s /\
    (forall a, a <> p -> body (t_mem s') a = body (t_mem s) a) /\
    body (t_mem s') p = Some (set_bActive (negb (Callback t =? 0)) (set_Next 0 t))).
Proof.
  intros Hg Ht. pose proof (g_pend _ _ _ Hg) as (Eg & H0 & n & Hn & Hc). unfold nx in Hn. rewrite Ht in Hn. injection Hn as <-.
  pose proof (g_nodup _ _ _ Hg) as Hnd. cbn [app] in Hnd. apply NoDup_cons in Hnd as [Hp Hnd].
  destruct (below_next _ _ _ _ _ Hg Ht) as [_ Hlt]. pose proof (g_active _ _ _ Hg p t Ht) as Hact.
  pose proof (g_sorted _ _ _ Hg) as Hs. rewrite fmap_cons in Hs. apply StronglySorted_inv in Hs as [Hs _].
  unfold fire. rewrite (proj2 (Z.eqb_neq p (Next t))).
  2: { intros E. rewrite E in Hp. apply Hp. rewrite (chain_first _ _ Hc) in E |- *. destruct pend as [|b pend]; [cbn in E; congruence|set_solver]. }
  now_run. now_run.
  assert (event_of (t_mem s) p = if Callback t =? 0 then Some (PostEvent p (Argument t)) else None) as -> by (unfold event_of; by rewrite Ht).
  assert (queued (t_mem s) p = if Callback t =? 0 then None else Some p) as -> by (unfold queued; by rewrite Ht).
  destruct (Callback t =? 0) eqn:Ecb; bools; cbn [negb].
  - rewrite (proj2 (Z.eqb_neq _ 0)) by (apply (g_ready _ _ _ Hg p t); [set_solver|done|done]). now_run. now_run.
    eapply wp_eq; [by apply on_run|]. cbn [upd_mem upd_log upd_timers t_log t_mem t_reads option_list].
    assert (forall a, a <> p -> body (<[p := set_bActive false t]> (t_mem s)) a = body (t_mem s) a) as Hbo by (intros; rewrite body_insert, decide_False; done).
    rewrite app_nil_r. split_and!; [|done|done|exact Hbo|rewrite body_insert, decide_True; done].
    apply (good_change s _ (p :: pend) queue _ _ p Hg); cbn; try done; try lia.
    + apply chain_insert; [done|]. set_solver.
    + apply chain_insert; [apply Hg|]. set_solver.
    + apply Hg.
    + set_solver.
    + intros t'. rewrite lookup_insert_eq. intros [= <-]. cbn. set_solver.
    + rewrite (fmap_agree _ (dl (t_mem s))); [done|]. intros a Ha. apply body_dl, Hbo. set_solver.
  - cbn [option_list]. rewrite app_nil_r.
    destruct (Queue_Add_run (upd_timers (Next t) s) queue p t) as (s' & Hr & Hq & Htl & Hb & Hm & Hgt & Hrd & Hnx & Hlog); cbn; try done.
    + apply Hg. + apply Hg. + by apply NoDup_app in Hnd as (_ & _ & ?). + set_solver.
    + cbn in Hm, Hb, Hgt, Hrd, Hnx, Hlog. eapply wp_eq; [exact Hr|]. cbn beta. split_and!; [|by rewrite Hlog|by rewrite Hrd|by intros; rewrite Hb|].
      2: { rewrite Hb. unfold body. rewrite Ht. cbn. unfold set_bActive, set_Next. cbn. do 2 f_equal. apply Hact. set_solver. }
      apply (good_change s _ (p :: pend) queue _ _ p Hg); try done; try lia.
      * rewrite Hgt. eapply lseg_ext; [exact Hc|]. intros a Ha. unfold nx. rewrite Hm; [done|].
        apply NoDup_app in Hnd as (_ & Hd & _). specialize (Hd a Ha). set_solver.
      * by rewrite final_snoc.
      * rewrite app_assoc. apply NoDup_app. split_and!; [done| |apply NoDup_singleton]. intros a Ha. set_solver.
      * set_solver.
      * intros t' Ht'. pose proof (Hb p) as Hbp. destruct (body_some _ _ _ _ Hbp Ht') as (t0 & Et0 & Eb). rewrite Ht in Et0. injection Et0 as <-.
        unfold set_Next in Eb. injection Eb as _ <- _ <-. rewrite Hact. set_solver.
      * rewrite (fmap_agree _ (dl (t_mem s))); [done|]. intros a Ha. by apply body_dl.
Qed.

(** The loop takes the due timers off the front, reading the clock for each. *)
Lemma call_loop_spec (clock : nat -> Z) : forall pend fuel s queue, good s pend queue -> (length pend < fuel)%nat ->
  wp (call_loop clock fuel) s (fun _ s' => exists fired rest, pend = fired ++ rest /\
    good s' rest (queue ++ omap (queued (t_mem s)) fired) /\ t_log s' = t_log s ++ omap (event_of (t_mem s)) fired /\
    (forall i p, fired !! i = Some p -> dl (t_mem s) p < clock (t_reads s + i)%nat) /\
    (forall p, head rest = Some p -> clock (t_reads s + length fired)%nat <= dl (t_mem s) p) /\
    (forall a, a ∉ fired -> body (t_mem s') a = body (t_mem s) a) /\
    (forall a t, a ∈ fired -> t_mem s !! a = Some t -> body (t_mem s') a = Some (set_bActive (negb (Callback t =? 0)) (set_Next 0 t)))).
Proof.
  induction pend as [|p pend IH]; intros fuel s queue Hg Hf; (destruct fuel as [|fuel]; [lia|]); cbn [call_loop]; apply wp_bind, wp_get.
  - pose proof (g_pend _ _ _ Hg) as Hc. change (gTimers s = 0) in Hc. rewrite Hc, Z.eqb_refl. apply wp_ret.
    exists [], []. cbn. rewrite !app_nil_r. split_and!; try done. intros a t Ha. set_solver.
  - pose proof (g_pend _ _ _ Hg) as (Ep & H0 & n & Hn & _). unfold nx in Hn. apply fmap_Some in Hn as (t & Ht & _). subst p.
    rewrite (proj2 (Z.eqb_neq _ 0) H0). apply wp_bind. eapply wp_eq; [unfold timer_at; by rewrite Ht|]. cbn beta.
    now_run. fold (ticked s). assert (good (ticked s) (gTimers s :: pend) queue) as Hg1 by (by destruct Hg).
    assert (dl (t_mem s) (gTimers s) = FiresAfter t) as Hdl by (unfold dl; by rewrite Ht).
    case_if.
    + apply wp_bind. eapply wp_mono; [by apply (fire_spec (ticked s) pend queue)|]. cbn beta. intros _ s1 (Hgd & Hlg & Hrd & Hbo & Hbp).
      eapply wp_mono; [apply IH; [exact Hgd|cbn in Hf; lia]|]. cbn beta.
      intros _ s2 (fired & rest & -> & Hg2 & Hl2 & Hdue & Hrest & Hb2 & Hf2). cbn [ticked t_mem t_log t_reads] in *.
      pose proof (g_nodup _ _ _ Hg) as Hnd. cbn [app] in Hnd. apply NoDup_cons in Hnd as [Hnin _].
      assert (forall a, a ∈ fired ++ rest -> body (t_mem s1) a = body (t_mem s) a) as Hsame by (intros a Ha; apply Hbo; set_solver).
      assert (omap (queued (t_mem s1)) fired = omap (queued (t_mem s)) fired /\ omap (event_of (t_mem s1)) fired = omap (event_of (t_mem s)) fired) as [Eq Ee].
      { split; apply list_omap_ext, Forall_Forall2_diag, Forall_forall; intros a Ha; apply body_event, Hsame; set_solver. }
      exists (gTimers s :: fired), rest. split_and!; [done|..].
      * cbn [omap list_omap]. rewrite Eq in Hg2. destruct (queued (t_mem s) (gTimers s)); cbn [option_list] in Hg2; [by rewrite <- app_assoc in Hg2|by rewrite app_nil_r in Hg2].
      * rewrite Hl2, Hlg, Ee. cbn [omap list_omap]. destruct (event_of (t_mem s) (gTimers s)); cbn [option_list]; [by rewrite <- app_assoc|by rewrite app_nil_r].
      * intros [|i] q; cbn [lookup list_lookup].
        -- intros [= <-]. rewrite Nat.add_0_r. lia.
        -- intros Hq. rewrite <- (body_dl (t_mem s) (t_mem s1)) by (apply Hsame; apply elem_of_app; left; by eapply list_elem_of_lookup_2).
           specialize (Hdue i q Hq). rewrite Hrd in Hdue. by replace (t_reads s + S i)%nat with (S (t_reads s) + i)%nat by lia.
      * intros q Hq. rewrite <- (body_dl (t_mem s) (t_mem s1)) by (apply Hsame; destruct rest; set_solver). specialize (Hrest q Hq). rewrite Hrd in Hrest.
        cbn [length]. by replace (t_reads s + S (length fired))%nat with (S (t_reads s) + length fired)%nat by lia.
      * intros a Ha. rewrite Hb2 by set_solver. apply Hbo. set_solver.
      * intros a t0 [->|Ha]%elem_of_cons Et0.
        -- rewrite Hb2 by set_solver. congruence.
        -- pose proof (Hsame a ltac:(set_solver)) as Eb. unfold body in Eb. rewrite Et0 in Eb. apply fmap_Some in Eb as (t1 & Et1 & Eb1).
           rewrite (Hf2 a t1 Ha Et1). unfold set_Next in Eb1. injection Eb1 as E1 E2 E3 E4. unfold set_bActive, set_Next. cbn. by rewrite E1, E2, E3.
    + apply wp_ret. exists [], (gTimers s :: pend). cbn [omap list_omap app]. rewrite !app_nil_r. split_and!; try done.
      * intros q [= <-]. cbn. rewrite Nat.add_0_r. lia.
      * intros a t0 Ha. set_solver.
Qed.

(** The callback thread takes the oldest due timer and calls it. *)
Lemma Callback_spec s pend queue : good s pend queue ->
  wp Timer_CallbackThread s (fun b s' => match queue with
    | [] => b = false /\ s' = s
    | p :: queue' => b = true /\ good s' pend queue' /\ exists t, t_mem s !! p = Some t /\ Callback t <> 0 /\
        t_log s' = t_log s ++ [RunCallback p (Callback t) (Argument t)] /\ (forall a, a <> p -> body (t_mem s') a = body (t_mem s) a) end).
Proof.
  intros Hg. unfold Timer_CallbackThread. apply wp_bind. unfold Queue_Get. apply wp_bind, wp_get.
  pose proof (g_queue _ _ _ Hg) as Hc. destruct queue as [|p queue].
  { change (q_Head s = 0) in Hc. rewrite Hc, Z.eqb_refl. apply wp_ret. by apply wp_ret. }
  destruct Hc as (Eq & H0 & n & Hn & Hc). unfold nx in Hn. apply fmap_Some in Hn as (t & Ht & ->). rewrite Eq in *.
  rewrite (proj2 (Z.eqb_neq _ 0) H0). apply wp_bind. eapply wp_eq; [unfold timer_at; by rewrite Ht|]. cbn beta.
  now_run. apply wp_ret. rewrite (proj2 (Z.eqb_neq _ 0) H0).
  apply wp_bind. eapply wp_eq; [unfold timer_at; cbn; by rewrite Ht|]. cbn beta.
  assert (Callback t <> 0) as Hcb by (apply (g_call _ _ _ Hg p t); [set_solver|done]).
  rewrite (proj2 (Z.eqb_neq _ 0) Hcb). now_run. now_run. now_run. apply wp_ret.
  assert (forall a, a <> p -> body (<[p := set_bActive false t]> (t_mem s)) a = body (t_mem s) a) as Hbo by (intros; rewrite body_insert, decide_False; done).
  split; [done|]. split; [|by exists t].
  pose proof (g_nodup _ _ _ Hg) as Hnd. rewrite <- Permutation_middle in Hnd. apply NoDup_cons in Hnd as [Hp Hnd].
  destruct (below_next _ _ _ _ _ Hg Ht) as [_ Hlt].
  apply (good_change s _ pend (p :: queue) _ _ p Hg); cbn; try done; try lia.
  - apply chain_insert; [apply Hg|]. set_solver.
  - apply chain_insert; [exact Hc|]. set_solver.
  - rewrite (g_tail _ _ _ Hg). destruct queue as [|b queue]; [cbn; by rewrite Z.eqb_refl|].
    rewrite (proj2 (Z.eqb_neq _ _)); [done|]. intros E. apply Hp. rewrite <- E. apply elem_of_app. right.
    change (final (p :: b :: queue)) with (final (b :: queue)). by apply final_in.
  - set_solver.
  - intros t'. rewrite lookup_insert_eq. intros [= <-]. cbn. set_solver.
  - rewrite (fmap_agree _ (dl (t_mem s))); [apply Hg|]. intros a Ha. apply body_dl, Hbo. set_solver.
Qed.

(** Writing an inactive timer, an old one or a new one. *)
Lemma put_inactive s s' pend queue p t' : good s pend queue -> p ∉ pend ++ queue -> p <> 0 ->
  t_mem s' !! p = Some t' -> bActive t' = false -> (forall a, a <> p -> t_mem s' !! a = t_mem s !! a) ->
  gTimers s' = gTimers s -> q_Head s' = q_Head s -> q_Tail s' = q_Tail s -> t_next s <= t_next s' -> p < t_next s' -> good s' pend queue.
Proof.
  intros Hg Hp H0 Ht Hb Hm E1 E2 E3 Hn Hlt.
  apply (good_change s _ pend queue _ _ p Hg); try done.
  - intros a Ha. unfold body. by rewrite Hm.
  - rewrite E1. eapply lseg_ext; [apply Hg|]. intros a Ha. unfold nx. rewrite Hm; [done|set_solver].
  - rewrite E2. eapply lseg_ext; [apply Hg|]. intros a Ha. unfold nx. rewrite Hm; [done|set_solver].
  - rewrite E3. apply Hg.
  - apply Hg.
  - intros t0. rewrite Ht. intros [= <-]. rewrite Hb. set_solver.
  - rewrite (fmap_agree _ (dl (t_mem s))); [apply Hg|]. intros a Ha. unfold dl. rewrite Hm; [done|set_solver].
Qed.

(** Taking away a timer that is on neither list. *)
Lemma drop_inactive s pend queue p : good s pend queue -> p ∉ pend ++ queue -> good (upd_mem (delete p (t_mem s)) s) pend queue.
Proof.
  intros Hg Hp. assert (forall a, a ∈ pend ++ queue -> delete p (t_mem s) !! a = t_mem s !! a) as Hm
    by (intros a Ha; apply lookup_delete_ne; set_solver).
  assert (forall a t, delete p (t_mem s) !! a = Some t -> t_mem s !! a = Some t) as Hin by (intros a t; by intros [_ ?]%lookup_delete_Some).
  destruct Hg. constructor; cbn; try done.
  - eapply lseg_ext; [exact g_pend0|]. intros a Ha. unfold nx. rewrite Hm; [done|set_solver].
  - eapply lseg_ext; [exact g_queue0|]. intros a Ha. unfold nx. rewrite Hm; [done|set_solver].
  - intros a t Ha%Hin. by apply g_active0.
  - rewrite (fmap_agree _ (dl (t_mem s))); [done|]. intros a Ha. unfold dl. rewrite Hm; [done|set_solver].
  - intros a t Ha Hl%Hin. by eapply g_ready0.
  - intros a t Ha Hl%Hin. by eapply g_call0.
  - by rewrite lookup_delete_None; right.
  - split; [apply g_fresh0|]. intros a Ha. rewrite lookup_delete_None; right. by apply g_fresh0.
Qed.
End specs.

(** ** Histories *)
Inductive op :=
  | Tick
  | CallbackRound
  | Schedule (p Delta : Z)
  | Remove (p : Z)
  | Init (cur p cb arg : Z)
  | Allocate (cur cb arg : Z)
  | Create (cur Delta cb arg : Z)
  | Free (p : Z)
  | Event (cur Delay : Z)
  | Delay (cur Delta : Z).

(** The kernel's state before any timer is used: threads have their timers, none is active. *)
Definition at_start (s : tm) : Prop := gTimers s = 0 /\ q_Head s = 0 /\ q_Tail s = 0 /\
  (forall p t, t_mem s !! p = Some t -> bActive t = false) /\ t_mem s !! 0 = None /\ 0 < t_next s /\ (forall a, t_next s <= a -> t_mem s !! a = None).

Lemma start_good s : at_start s -> good s [] [].
Proof.
  intros (E1 & E2 & E3 & Ha & H0 & Hn & Hf). constructor; try done.
  - constructor. - intros p t Ht. rewrite (Ha p t Ht). set_solver. - constructor. - set_solver. - set_solver.
Qed.

Section system.
Context (clock : nat -> Z) (junk : tTimer) (ThreadTimer : Z -> Z).
Implicit Types (s : tm) (pend queue : list Z) (p : Z) (t : tTimer) (o : op).

Definition ignore {A} (c : M tm tstop A) : M tm tstop unit := c;;; ret tt.
Definition perform o : M tm tstop unit :=
  match o with
  | Tick => Timer_CallTimers clock
  | CallbackRound => ignore Timer_CallbackThread
  | Schedule p d => Time_ScheduleTimer clock p d
  | Remove p => Time_RemoveTimer p
  | Init cur p cb arg => Time_InitTimer cur p cb arg
  | Allocate cur cb arg => ignore (Time_AllocateTimer junk cur cb arg)
  | Create cur d cb arg => ignore (Time_CreateTimer clock junk cur d cb arg)
  | Free p => ignore (Time_FreeTimer p)
  | Event cur d => Time_ScheduleEvent clock ThreadTimer cur d
  | Delay cur d => Time_Delay clock ThreadTimer cur d
  end.

Definition exists_timer s p (P : tTimer -> Prop) : Prop := exists t, t_mem s !! p = Some t /\ P t.
(** How clients use timers: those they schedule are initialised, those they initialise are not active, those
    they remove or free exist; a thread that waits exists, and its own timer has no callback. *)
Definition allowed s o : Prop :=
  match o with
  | Tick | CallbackRound | Allocate _ _ _ => True
  | Schedule p _ => p = 0 \/ exists_timer s p ready
  | Remove p | Free p => p = 0 \/ exists_timer s p (fun _ => True)
  | Init _ p _ _ => exists_timer s p (fun t => bActive t = false)
  | Create cur _ cb arg => ready (MkTimer 0 0 cb (if cb =? 0 then cur else arg) false)
  | Event cur _ | Delay cur _ => cur <> 0 /\ exists_timer s (ThreadTimer cur) (fun t => Callback t = 0)
  end.

(** The operations that stop or reuse a timer. *)
Definition touches o p : bool :=
  match o with
  | Remove q | Free q | Init _ q _ _ => q =? p
  | Event cur _ | Delay cur _ => ThreadTimer cur =? p
  | _ => false
  end.

Inductive runs : list op -> tm -> tm -> Prop :=
  | runs_nil s : runs [] s s
  | runs_cons o (l : list op) s s1 s2 : allowed s o -> perform o s = Ok tt s1 -> runs l s1 s2 -> runs (o :: l) s s2.

(** What the firing of a timer does in the end. *)
Definition outcome p t : effect :=
  if Callback t =? 0 then PostEvent p (Argument t) else RunCallback p (Callback t) (Argument t).

Definition same_use t t' : Prop := FiresAfter t' = FiresAfter t /\ Callback t' = Callback t /\ Argument t' = Argument t.

(** What an operation does to the lists and to an active timer it does not touch. *)
Definition step_ok s pend queue s' (touched : Z -> bool) : Prop := exists pend' queue' k,
  good s' pend' queue' /\ t_log s' = t_log s ++ k /\
  forall p t, touched p = false -> p ∈ pend ++ queue -> t_mem s !! p = Some t ->
    outcome p t ∈ k \/ (p ∈ pend' ++ queue' /\ exists_timer s' p (same_use t) /\ (p ∈ queue -> p ∈ queue')).

Lemma body_same m m' p t t' : body m p = Some (set_Next 0 t) -> body m' p = Some (set_Next 0 t') -> same_use t t' ->
  exists x, m' !! p = Some x /\ same_use t x.
Proof.
  unfold body. intros _ (x & Hx & E)%fmap_Some. exists x. split; [done|]. unfold set_Next in E. injection E as E1 E2 E3 _.
  unfold same_use in *. by rewrite <- E1, <- E2, <- E3.
Qed.

Lemma body_kept m m' p t : body m' p = body m p -> m !! p = Some t -> exists x, m' !! p = Some x /\ same_use t x.
Proof.
  intros E Ht. apply (body_same m m' p t t); unfold body in *; [by rewrite Ht|by rewrite E, Ht|done].
Qed.

(** An operation on the timer [q] that leaves the others as they were. *)
Lemma step_other s s' pend queue pend' queue' q k (touched : Z -> bool) : good s' pend' queue' ->
  t_log s' = t_log s ++ k -> (forall a, a <> q -> body (t_mem s') a = body (t_mem s) a) ->
  (forall a, a <> q -> (a ∈ pend -> a ∈ pend') /\ (a ∈ queue -> a ∈ queue')) -> (touched q = true \/ q ∉ pend ++ queue) ->
  step_ok s pend queue s' touched.
Proof.
  intros Hg Hl Hb Hi Hq. exists pend', queue', k. split_and!; [done..|]. intros p t Hp Hin Ht. right.
  assert (p <> q) as Hpq by (intros ->; destruct Hq as [Hq|Hq]; [by rewrite Hp in Hq|done]).
  destruct (Hi p Hpq). split_and!; [set_solver| |done]. apply (body_kept (t_mem s)); [by apply Hb|done].
Qed.

Lemma step_same s pend queue touched : good s pend queue -> step_ok s pend queue s touched.
Proof. intros. apply (step_other s s pend queue pend queue 0 []); try done; [by rewrite app_nil_r|]. right. intros Hin. by destruct (good_mem _ _ _ _ H Hin). Qed.

Abbreviation sok s pend queue o := (fun (_ : unit) s' => step_ok s pend queue s' (touches o)).

Lemma tick_step s pend queue : good s pend queue -> wp (perform Tick) s (fun _ s' => step_ok s pend queue s' (touches Tick)).
Proof.
  intros Hg. cbn [perform]. unfold Timer_CallTimers. apply wp_bind. eapply wp_eq; [reflexivity|]. cbn beta. apply wp_bind, wp_get.
  set (s0 := MkTm _ _ _ _ _ _ _ _ _). assert (good s0 pend queue) as Hg0 by (by destruct Hg).
  eapply wp_mono; [apply (call_loop_spec clock pend _ s0 queue Hg0)|].
  { pose proof (good_size _ _ _ Hg0) as Hsz. rewrite length_app in Hsz. lia. }
  cbn beta. intros _ s' (fired & rest & -> & Hg' & Hl & _ & _ & Hb & Hf). exists rest, (queue ++ omap (queued (t_mem s0)) fired), (omap (event_of (t_mem s0)) fired).
  split_and!; [done..|]. intros p t _ Hin Ht. change (t_mem s0) with (t_mem s) in *.
  destruct (decide (p ∈ fired)) as [Hp|Hp].
  - assert (p ∉ queue) as Hq by (pose proof (g_nodup _ _ _ Hg) as (_ & Hd & _)%NoDup_app; apply Hd; set_solver).
    unfold outcome. destruct (Callback t =? 0) eqn:Ec.
    + left. apply list_elem_of_omap. exists p. split; [done|]. unfold event_of. rewrite Ht. cbn. by rewrite Ec.
    + right. split_and!; [|by apply (body_same (t_mem s) _ p t (set_bActive (negb (Callback t =? 0)) t)); [unfold body; rewrite Ht|by apply Hf|]|done].
      apply elem_of_app. right. apply elem_of_app. right. apply list_elem_of_omap. exists p. split; [done|]. unfold queued. rewrite Ht. cbn. by rewrite Ec.
  - right. split_and!; [set_solver| |set_solver]. apply (body_kept (t_mem s)); [by apply Hb|done].
Qed.

Lemma callback_step s pend queue : good s pend queue -> wp (perform CallbackRound) s (sok s pend queue CallbackRound).
Proof.
  intros Hg. apply wp_bind. eapply wp_mono; [by apply Callback_spec|]. cbn beta. intros b s' H. apply wp_ret.
  destruct queue as [|q queue]; [destruct H as [_ ->]; by apply step_same|].
  destruct H as (_ & Hg' & x & Hx & Hcb & Hl & Hb). exists pend, queue, [RunCallback q (Callback x) (Argument x)].
  split_and!; [done..|]. intros p t _ Hin Ht. destruct (decide (p = q)) as [->|Hne].
  - left. rewrite Ht in Hx. injection Hx as <-. unfold outcome. rewrite (proj2 (Z.eqb_neq _ 0) Hcb). set_solver.
  - right. split_and!; [set_solver| |set_solver]. apply (body_kept (t_mem s)); [by apply Hb|done].
Qed.

Lemma schedule_step s pend queue p d : good s pend queue -> p = 0 \/ exists_timer s p ready -> wp (perform (Schedule p d)) s (sok s pend queue (Schedule p d)).
Proof.
  intros Hg [->|(t & Ht & Hr)]; [by apply wp_ret, step_same|]. cbn [perform].
  destruct (bActive t) eqn:Hb.
  - unfold Time_ScheduleTimer. destruct (below_next _ _ _ _ _ Hg Ht) as [H0 _]. rewrite (proj2 (Z.eqb_neq p 0) H0).
    apply wp_bind. eapply wp_eq; [unfold timer_at; by rewrite Ht|]. cbn beta. rewrite Hb. by apply wp_ret, step_same.
  - eapply wp_mono; [by apply (Schedule_spec clock s pend queue p t)|]. cbn beta zeta. intros _ s' (k1 & k2 & -> & Hg' & Hbo & _ & _ & _ & Hl).
    apply (step_other s s' _ _ _ _ p [] _ Hg'); [by rewrite app_nil_r|done|set_solver|]. right.
    rewrite <- (g_active _ _ _ Hg p t Ht). by rewrite Hb.
Qed.

Lemma remove_step s pend queue p (touched : Z -> bool) : good s pend queue -> p = 0 \/ exists_timer s p (fun _ => True) -> touched p = true ->
  wp (Time_RemoveTimer p) s (fun _ s' => step_ok s pend queue s' touched).
Proof.
  intros Hg [->|(t & Ht & _)] Hp; [by apply wp_ret, step_same|].
  eapply wp_mono; [by apply (Remove_spec s pend queue p t)|]. cbn beta. intros _ s' (Hl & Hbo & [ [_ ->]|(k1 & k2 & -> & Hg' & _) ]); [by apply step_same|].
  apply (step_other s s' _ _ _ _ p [] _ Hg'); [by rewrite app_nil_r|done|set_solver|by left].
Qed.

Lemma init_run s pend queue cur p cb arg t : good s pend queue -> t_mem s !! p = Some t -> bActive t = false ->
  exists s' t', Time_InitTimer cur p cb arg s = Ok tt s' /\ good s' pend queue /\ t_log s' = t_log s /\
    t_mem s' !! p = Some t' /\ t' = MkTimer (Next t) 0 cb (if cb =? 0 then cur else arg) false /\
    (forall a, a <> p -> t_mem s' !! a = t_mem s !! a).
Proof.
  intros Hg Ht Hb. eexists _, _. split; [unfold Time_InitTimer; rewrite (bind_at _ t) by done; reflexivity|].
  destruct (below_next _ _ _ _ _ Hg Ht) as [H0 Hlt].
  assert (p ∉ pend ++ queue) as Hp by (rewrite <- (g_active _ _ _ Hg p t Ht); by rewrite Hb).
  split_and!; [|done|apply lookup_insert_eq|done|intros; by apply lookup_insert_ne].
  apply (put_inactive s _ pend queue p (MkTimer (Next t) 0 cb (if cb =? 0 then cur else arg) false)); cbn; try done; [apply lookup_insert_eq|intros; by apply lookup_insert_ne].
Qed.

(** A new timer, or none. *)
Lemma alloc_run s pend queue cur cb arg : good s pend queue ->
  (exists s', malloc_timer junk s = Ok 0 s' /\ good s' pend queue /\ t_log s' = t_log s /\ t_mem s' = t_mem s) \/
  (exists s0 s', malloc_timer junk s = Ok (t_next s) s0 /\ t_next s <> 0 /\ Time_InitTimer cur (t_next s) cb arg s0 = Ok tt s' /\
    good s' pend queue /\ t_log s' = t_log s /\ (t_next s ∉ pend ++ queue) /\
    t_mem s' !! t_next s = Some (MkTimer (Next junk) 0 cb (if cb =? 0 then cur else arg) false) /\
    (forall a, a <> t_next s -> t_mem s' !! a = t_mem s !! a)).
Proof.
  intros Hg. destruct (g_fresh _ _ _ Hg) as [Hn Hfr].
  assert (t_next s ∉ pend ++ queue) as Hout.
  { intros Hin. destruct (good_mem _ _ _ _ Hg Hin) as (_ & x & Hx & _). by rewrite Hfr in Hx by lia. }
  unfold malloc_timer. destruct (t_alloc s) as [|[] l] eqn:Ea; [right|right|left].
  3: { eexists. split; [done|]. split; [by destruct Hg|done]. }
  all: eexists _, _; split_and!; [done|lia|unfold Time_InitTimer; rewrite (bind_at _ junk) by (cbn; apply lookup_insert_eq); reflexivity
    |..]; cbn; try done; try (apply lookup_insert_eq); try (intros; by rewrite !lookup_insert_ne);
    apply (put_inactive s _ pend queue (t_next s) (MkTimer (Next junk) 0 cb (if cb =? 0 then cur else arg) false)); cbn; try done; try lia; try (apply lookup_insert_eq); try done; intros; by rewrite !lookup_insert_ne.
Qed.

Lemma allocate_step s pend queue cur cb arg : good s pend queue -> wp (perform (Allocate cur cb arg)) s (sok s pend queue (Allocate cur cb arg)).
Proof.
  intros Hg. apply wp_bind. unfold Time_AllocateTimer. apply wp_bind.
  destruct (alloc_run s pend queue cur cb arg Hg) as [(s' & Hr & Hg' & Hl & Hm)|(s0 & s' & Hr & H0 & Hi & Hg' & Hl & Hout & _ & Hm)];
    (eapply wp_eq; [exact Hr|]); cbn beta.
  - rewrite Z.eqb_refl. apply wp_ret, wp_ret. apply (step_other s s' _ _ _ _ 0 [] _ Hg'); [by rewrite app_nil_r|by rewrite Hm|set_solver|].
    right. intros Hin. by destruct (good_mem _ _ _ _ Hg Hin).
  - rewrite (proj2 (Z.eqb_neq _ 0) H0). apply wp_bind. eapply wp_eq; [exact Hi|]. cbn beta. apply wp_ret, wp_ret.
    apply (step_other s s' _ _ _ _ (t_next s) [] _ Hg'); [by rewrite app_nil_r|intros a Ha; unfold body; by rewrite Hm|set_solver|by right].
Qed.

Lemma create_step s pend queue cur d cb arg : good s pend queue -> allowed s (Create cur d cb arg) ->
  wp (perform (Create cur d cb arg)) s (sok s pend queue (Create cur d cb arg)).
Proof.
  intros Hg Hr0. apply wp_bind. unfold Time_CreateTimer. apply wp_bind.
  destruct (alloc_run s pend queue cur cb arg Hg) as [(s' & Hr & Hg' & Hl & Hm)|(s0 & s' & Hr & H0 & Hi & Hg' & Hl & Hout & Hp & Hm)];
    (eapply wp_eq; [exact Hr|]); cbn beta.
  - rewrite Z.eqb_refl. apply wp_ret, wp_ret. apply (step_other s s' _ _ _ _ 0 [] _ Hg'); [by rewrite app_nil_r|by rewrite Hm|set_solver|].
    right. intros Hin. by destruct (good_mem _ _ _ _ Hg Hin).
  - rewrite (proj2 (Z.eqb_neq _ 0) H0). apply wp_bind. eapply wp_eq; [exact Hi|]. cbn beta. apply wp_bind.
    eapply wp_mono; [by apply (Schedule_spec clock s' pend queue (t_next s) _ d Hg' Hp)|]. cbn beta zeta.
    intros _ s2 (k1 & k2 & -> & Hg2 & Hbo & _ & _ & _ & Hl2). apply wp_ret, wp_ret.
    apply (step_other s s2 _ _ _ _ (t_next s) [] _ Hg2); [by rewrite app_nil_r, Hl2|intros a Ha; rewrite Hbo by done; unfold body; by rewrite Hm|set_solver|by right].
Qed.

(** After [Time_RemoveTimer] a timer is inactive unless it waits for the callback thread. *)
Lemma removed_run s pend queue p t : good s pend queue -> t_mem s !! p = Some t -> p ∉ queue ->
  exists s' pend' t', Time_RemoveTimer p s = Ok tt s' /\ good s' pend' queue /\ t_log s' = t_log s /\
    (forall a, a <> p -> body (t_mem s') a = body (t_mem s) a) /\ (forall a, a <> p -> a ∈ pend -> a ∈ pend') /\
    t_mem s' !! p = Some t' /\ bActive t' = false.
Proof.
  intros Hg Ht Hq. destruct (wp_inv _ _ _ (Remove_spec s pend queue p t Hg Ht)) as ([] & s' & Hr & Hl & Hbo & [ [Hp ->]|(k1 & k2 & -> & Hg' & Hbp) ]).
  - exists s, pend, t. split_and!; try done. destruct (bActive t) eqn:E; [|done]. apply (g_active _ _ _ Hg p t Ht) in E. set_solver.
  - unfold body in Hbp. apply fmap_Some in Hbp as (t' & Ht' & E). exists s', (k1 ++ k2), t'. split_and!; try done; [set_solver|].
    unfold set_bActive, set_Next in E. by injection E as _ _ _ <-.
Qed.

Lemma free_step s pend queue p : good s pend queue -> p = 0 \/ exists_timer s p (fun _ => True) -> wp (perform (Free p)) s (sok s pend queue (Free p)).
Proof.
  intros Hg [->|(t & Ht & _)]; [by apply wp_bind, wp_ret, wp_ret, step_same|]. destruct (below_next _ _ _ _ _ Hg Ht) as [H0 _].
  apply wp_bind. unfold Time_FreeTimer. rewrite (proj2 (Z.eqb_neq p 0) H0). apply wp_bind.
  assert (touches (Free p) p = true) as Htp by apply Z.eqb_refl.
  destruct (decide (p ∈ queue)) as [Hq|Hq].
  - eapply wp_mono; [by apply (Remove_spec s pend queue p t)|]. cbn beta. intros _ s' (Hl & Hbo & [ [_ ->]|(k1 & k2 & -> & _) ]).
    + apply wp_bind. eapply wp_eq; [unfold timer_at; by rewrite Ht|]. cbn beta.
      rewrite (proj2 (g_active _ _ _ Hg p t Ht)) by set_solver. by apply wp_ret, wp_ret, step_same.
    + pose proof (g_nodup _ _ _ Hg) as (_ & Hd & _)%NoDup_app. exfalso. apply (Hd p); set_solver.
  - destruct (removed_run s pend queue p t Hg Ht Hq) as (s' & pend' & t' & Hr & Hg' & Hl & Hbo & Hpi & Ht' & Hb). eapply wp_eq; [exact Hr|]. cbn beta.
    apply wp_bind. eapply wp_eq; [unfold timer_at; by rewrite Ht'|]. cbn beta. rewrite Hb. now_run. apply wp_ret, wp_ret.
    eapply (step_other s _ _ _ pend' queue p []); [|by rewrite app_nil_r| |set_solver|by left].
    + apply drop_inactive; [done|]. rewrite <- (g_active _ _ _ Hg' p t' Ht'). by rewrite Hb.
    + intros a Ha. cbn. unfold body. rewrite lookup_delete_ne by done. by apply Hbo.
Qed.

Lemma event_run s pend queue cur d : good s pend queue -> cur <> 0 -> exists_timer s (ThreadTimer cur) (fun t => Callback t = 0) ->
  exists s' pend', Time_ScheduleEvent clock ThreadTimer cur d s = Ok tt s' /\ good s' pend' queue /\ t_log s' = t_log s /\
    (forall a, a <> ThreadTimer cur -> body (t_mem s') a = body (t_mem s) a) /\ (forall a, a <> ThreadTimer cur -> a ∈ pend -> a ∈ pend') /\
    (ThreadTimer cur ∈ pend') /\ exists r, body (t_mem s') (ThreadTimer cur) = Some (MkTimer 0 (i64 (clock r + d)) 0 cur true).
Proof.
  intros Hg Hc (t & Ht & Hcb). set (p := ThreadTimer cur) in *.
  assert (p ∉ queue) as Hq by (intros Hin; by apply (g_call _ _ _ Hg p t Hin Ht)).
  destruct (removed_run s pend queue p t Hg Ht Hq) as (s1 & pend1 & t1 & Hr1 & Hg1 & Hl1 & Hb1 & Hp1 & Ht1 & Ha1).
  destruct (init_run s1 pend1 queue cur p 0 0 t1 Hg1 Ht1 Ha1) as (s2 & t2 & Hr2 & Hg2 & Hl2 & Ht2 & E2 & Hm2).
  pose proof (Schedule_spec clock s2 pend1 queue p t2 d Hg2 Ht2) as Hs3. cbn zeta in Hs3.
  apply wp_inv in Hs3 as ([] & s3 & Hr3 & k1 & k2 & -> & Hg3 & Hbo3 & Hb3 & _ & _ & Hl3); [|by rewrite E2|rewrite E2; intros _; done].
  exists s3, (k1 ++ p :: k2). split_and!.
  - unfold Time_ScheduleEvent. fold p. rewrite (bind_Ok _ _ _ _ _ Hr1), (bind_Ok _ _ _ _ _ Hr2). exact Hr3.
  - done.
  - congruence.
  - intros a Ha. rewrite Hbo3, <- Hb1 by done. unfold body. by rewrite Hm2.
  - intros a Ha Hin. specialize (Hp1 a Ha Hin). set_solver.
  - set_solver.
  - exists (t_reads s2). rewrite Hb3, E2. done.
Qed.

Lemma event_step s pend queue cur d : good s pend queue -> allowed s (Event cur d) -> wp (perform (Event cur d)) s (sok s pend queue (Event cur d)).
Proof.
  intros Hg [Hc Ht]. destruct (event_run s pend queue cur d Hg Hc Ht) as (s' & pend' & Hr & Hg' & Hl & Hb & Hp & _). eapply wp_eq; [exact Hr|].
  apply (step_other s s' _ _ pend' queue (ThreadTimer cur) []); [done|by rewrite app_nil_r|done|naive_solver|left; apply Z.eqb_refl].
Qed.

Lemma good_log s l pend queue : good s pend queue -> good (upd_log l s) pend queue.
Proof. by destruct 1. Qed.

Lemma delay_step s pend queue cur d : good s pend queue -> allowed s (Delay cur d) -> wp (perform (Delay cur d)) s (sok s pend queue (Delay cur d)).
Proof.
  intros Hg [Hc Ht]. cbn [perform]. unfold Time_Delay. now_run.
  destruct (event_run (upd_log (t_log s ++ [ClearEvent cur]) s) pend queue cur d (good_log _ _ _ _ Hg) Hc Ht) as (s' & pend' & Hr & Hg' & Hl & Hb & Hp & _).
  apply wp_bind. eapply wp_eq; [exact Hr|]. cbn beta. eapply wp_eq; [reflexivity|].
  eapply (step_other s _ _ _ pend' queue (ThreadTimer cur) [ClearEvent cur; WaitEvents cur]); [by apply good_log| |done|naive_solver|left; apply Z.eqb_refl].
  cbn. rewrite Hl. cbn. by rewrite <- app_assoc.
Qed.

Lemma perform_step s pend queue o : good s pend queue -> allowed s o -> wp (perform o) s (sok s pend queue o).
Proof.
  intros Hg Ha. destruct o.
  - by apply tick_step.
  - by apply callback_step.
  - by apply schedule_step.
  - by apply remove_step; [| |apply Z.eqb_refl].
  - destruct Ha as (t & Ht & Hb). destruct (init_run s pend queue cur p cb arg t Hg Ht Hb) as (s' & t' & Hr & Hg' & Hl & _ & _ & Hm).
    eapply wp_eq; [exact Hr|]. apply (step_other s s' _ _ _ _ p [] _ Hg'); [by rewrite app_nil_r|intros a Ha; unfold body; by rewrite Hm|done|left; apply Z.eqb_refl].
  - by apply allocate_step.
  - by apply create_step.
  - by apply free_step.
  - by apply event_step.
  - by apply delay_step.
Qed.

(** A timer that was active at the start of a run and that nobody touches has fired or is on the way. *)
Definition underway s0 p t s : Prop := exists pend queue k, good s pend queue /\ t_log s = t_log s0 ++ k /\
  (outcome p t ∈ k \/ (p ∈ pend ++ queue /\ exists_timer s p (same_use t))).

Lemma runs_underway l s0 s p t s' : runs l s s' -> Forall (fun o => touches o p = false) l -> underway s0 p t s -> underway s0 p t s'.
Proof.
  induction 1 as [|o l s s1 s2 Ha Hr _ IH]; intros Hl Hu; [done|]. inversion Hl; subst. apply IH; [done|].
  destruct Hu as (pend & queue & k & Hg & Hk & Hs). destruct (wp_inv _ _ _ (perform_step s pend queue o Hg Ha)) as ([] & s1' & Hr' & pend' & queue' & k' & Hg' & Hk' & Hp).
  rewrite Hr in Hr'. injection Hr' as <-. exists pend', queue', (k ++ k'). split_and!; [done|rewrite Hk', Hk; by rewrite app_assoc|].
  destruct Hs as [Hs|(Hin & x & Hx & Hsame)]; [left; set_solver|].
  assert (outcome p x = outcome p t) as Eo by (unfold outcome; destruct Hsame as (_ & -> & ->); done).
  destruct (Hp p x) as [Ho|(Hin' & (y & Hy & Hys) & _)]; [done..|left; rewrite <- Eo; set_solver|right].
  split; [done|]. exists y. split; [done|]. unfold same_use in *. naive_solver congruence.
Qed.

Lemma runs_good l s s' pend queue : runs l s s' -> good s pend queue -> exists pend' queue', good s' pend' queue'.
Proof.
  intros Hr. revert pend queue. induction Hr as [|o l s s1 s2 Ha Hr _ IH]; intros pend queue Hg; [eauto|].
  destruct (wp_inv _ _ _ (perform_step s pend queue o Hg Ha)) as ([] & s1' & Hr' & pend' & queue' & k' & Hg' & _).
  rewrite Hr in Hr'. injection Hr' as <-. eauto.
Qed.

(** Every waiting timer whose time has passed is taken by the next tick. *)
Lemma tick_takes s pend queue p : (forall n, clock n <= clock (S n)) -> good s pend queue -> p ∈ pend -> dl (t_mem s) p < clock (t_reads s) ->
  wp (perform Tick) s (fun _ s' => exists pend' queue' k, good s' pend' queue' /\ t_log s' = t_log s ++ k /\
    forall t, t_mem s !! p = Some t -> if Callback t =? 0 then PostEvent p (Argument t) ∈ k else p ∈ queue' /\ exists_timer s' p (same_use t)).
Proof.
  intros Hmono Hg Hp Hdl. cbn [perform]. unfold Timer_CallTimers. apply wp_bind. eapply wp_eq; [reflexivity|]. cbn beta. apply wp_bind, wp_get.
  set (s0 := MkTm _ _ _ _ _ _ _ _ _). assert (good s0 pend queue) as Hg0 by (by destruct Hg).
  eapply wp_mono; [apply (call_loop_spec clock pend _ s0 queue Hg0)|].
  { pose proof (good_size _ _ _ Hg0) as Hsz. rewrite length_app in Hsz. lia. }
  cbn beta. intros _ s' (fired & rest & -> & Hg' & Hl & _ & Hrest & Hb & Hf). change (t_mem s0) with (t_mem s) in *. change (t_reads s0) with (t_reads s) in *.
  exists rest, (queue ++ omap (queued (t_mem s)) fired), (omap (event_of (t_mem s)) fired). split_and!; [done..|]. intros t Ht.
  assert (p ∈ fired) as Hin.
  { apply elem_of_app in Hp as [Hp|Hp]; [done|exfalso]. destruct rest as [|q rest]; [set_solver|]. specialize (Hrest q eq_refl).
    assert (forall k, clock (t_reads s) <= clock (t_reads s + k)) as Hm.
    { induction k as [|k IH]; [rewrite Nat.add_0_r; lia|]. rewrite Nat.add_succ_r. specialize (Hmono (t_reads s + k)%nat). lia. }
    specialize (Hm (length fired)). pose proof (g_sorted _ _ _ Hg) as Hs. rewrite fmap_app in Hs.
    apply StronglySorted_app in Hs as (_ & _ & Hs). rewrite fmap_cons in Hs. apply StronglySorted_inv in Hs as [_ Hs].
    apply elem_of_cons in Hp as [->|Hp]; [lia|]. rewrite Forall_fmap, Forall_forall in Hs. specialize (Hs p Hp). cbn in Hs. lia. }
  destruct (Callback t =? 0) eqn:Ec.
  - apply list_elem_of_omap. exists p. split; [done|]. unfold event_of. rewrite Ht. cbn. by rewrite Ec.
  - split.
    + apply elem_of_app. right. apply list_elem_of_omap. exists p. split; [done|]. unfold queued. rewrite Ht. cbn. by rewrite Ec.
    + apply (body_same (t_mem s) _ p t (set_bActive (negb (Callback t =? 0)) t)); [unfold body; by rewrite Ht|by apply Hf|done].
Qed.

(** The callback thread reaches every timer in its queue. *)
Lemma rounds_reach : forall queue s pend p t, good s pend queue -> p ∈ queue -> exists_timer s p (same_use t) ->
  exists n s' k, runs (replicate n CallbackRound) s s' /\ t_log s' = t_log s ++ k /\ outcome p t ∈ k.
Proof.
  induction queue as [|q queue IH]; intros s pend p t Hg Hp (x & Hx & Hs); [set_solver|].
  destruct (wp_inv _ _ _ (Callback_spec s pend (q :: queue) Hg)) as (b & s1 & Hr & -> & Hg1 & y & Hy & Hcb & Hl & Hbo).
  assert (perform CallbackRound s = Ok tt s1) as Hr1 by (cbn [perform]; unfold ignore; by rewrite (bind_Ok _ _ _ _ _ Hr)).
  destruct (decide (p = q)) as [->|Hne].
  - exists 1%nat, s1, [RunCallback q (Callback y) (Argument y)]. split_and!; [|done|].
    + cbn [replicate]. by econstructor; [|exact Hr1|constructor].
    + rewrite Hx in Hy. injection Hy as <-. destruct Hs as (_ & E1 & E2). unfold outcome. rewrite <- E1, <- E2, (proj2 (Z.eqb_neq _ 0) Hcb). set_solver.
  - destruct (body_kept (t_mem s) (t_mem s1) p x (Hbo p Hne) Hx) as (z & Hz & Hzs).
    destruct (IH s1 pend p t Hg1) as (n & s' & k & Hr' & Hl' & Hk); [set_solver|exists z; split; [done|unfold same_use in *; naive_solver congruence]|].
    exists (S n), s'. eexists. split_and!; [by econstructor|rewrite Hl', Hl; by rewrite <- app_assoc|set_solver].
Qed.
End system.

(** ** Theorems *)
Module TimerTheorems.
Section theorems.
Context (clock : nat -> Z) (junk : tTimer) (ThreadTimer : Z -> Z).

(** The waiting timers and the due ones, as the links run. *)
Definition waiting (s : tm) : option (list Z) := walk (nx (t_mem s)) (size (t_mem s)) (gTimers s).
Definition due (s : tm) : option (list Z) := walk (nx (t_mem s)) (size (t_mem s)) (q_Head s).

Lemma good_lists s pend queue : good s pend queue -> waiting s = Some pend /\ due s = Some queue.
Proof.
  intros Hg. pose proof (good_size _ _ _ Hg) as Hsz. rewrite length_app in Hsz.
  split; apply walk_chain; try lia; apply Hg.
Qed.

(** After any history of timer operations, the waiting list is sorted by firing time, it and the
    callback queue together hold each active timer once and nothing else, and every call returns.  A tick then fires
    exactly the timers at the front of the list whose time is before the clock reading made for each,
    stopping at the first that is not: those without callback post their event, in order, and those with
    one are appended to the callback queue, in order; the rest keep waiting. *)
Theorem timers_tick s0 hist s : at_start s0 -> runs clock junk ThreadTimer hist s0 s ->
  exists pend queue, waiting s = Some pend /\ due s = Some queue /\
    StronglySorted Z.le (dl (t_mem s) <$> pend) /\ NoDup (pend ++ queue) /\
    (forall p t, t_mem s !! p = Some t -> bActive t = true <-> p ∈ pend ++ queue) /\
    (forall o, allowed ThreadTimer s o -> exists s', perform clock junk ThreadTimer o s = Ok tt s') /\
    exists s' fired rest, Timer_CallTimers clock s = Ok tt s' /\ pend = fired ++ rest /\ waiting s' = Some rest /\
      due s' = Some (queue ++ omap (queued (t_mem s)) fired) /\ t_log s' = t_log s ++ omap (event_of (t_mem s)) fired /\
      (forall i p, fired !! i = Some p -> dl (t_mem s) p < clock (t_reads s + i)) /\
      (forall p, head rest = Some p -> clock (t_reads s + length fired) <= dl (t_mem s) p).
Proof.
  intros Hst Hr. destruct (runs_good _ _ _ _ _ _ [] [] Hr (start_good _ Hst)) as (pend & queue & Hg). exists pend, queue.
  destruct (good_lists _ _ _ Hg) as [-> ->]. split_and!; try done; try apply Hg.
  - intros o Ho. destruct (wp_inv _ _ _ (perform_step clock junk ThreadTimer s pend queue o Hg Ho)) as ([] & s' & H & _). eauto.
  - set (s1 := MkTm (gTimers s) (q_Head s) (q_Tail s) (t_mem s) (t_reads s) (S (t_rands s)) (t_next s) (t_alloc s) (t_log s)).
    assert (good s1 pend queue) as Hg1 by (by destruct Hg).
    pose proof (good_size _ _ _ Hg) as Hsz. rewrite length_app in Hsz.
    destruct (wp_inv _ _ _ (call_loop_spec clock pend (S (size (t_mem s1))) s1 queue Hg1 ltac:(cbn; lia))) as ([] & s' & Hrun & fired & rest & E & Hg' & Hl & Hd & He & _).
    exists s', fired, rest. destruct (good_lists _ _ _ Hg') as [-> ->]. split_and!; try done.
Qed.

(** C21: Every scheduled timer fires.  Take a timer that is active after some history and let the system run on with
    any operations except those that remove, free or reuse it; as soon as the clock has passed its firing
    time, a tick and then finitely many rounds of the callback thread have the effect of the timer in the log: the event posted
    to its thread (already by the tick), or its callback called with its argument. *)
Theorem timer_fires s0 hist s p t l s' : (forall n, clock n <= clock (S n)) -> at_start s0 ->
  runs clock junk ThreadTimer hist s0 s -> t_mem s !! p = Some t -> bActive t = true ->
  runs clock junk ThreadTimer l s s' -> Forall (fun o => touches ThreadTimer o p = false) l -> FiresAfter t < clock (t_reads s') ->
  exists n s2, runs clock junk ThreadTimer (Tick :: replicate n CallbackRound) s' s2 /\ (Callback t = 0 -> n = O) /\
    outcome p t ∈ drop (length (t_log s)) (t_log s2).
Proof.
  intros Hmono Hst Hh Ht Ha Hr Hl Hdue. destruct (runs_good _ _ _ _ _ _ [] [] Hh (start_good _ Hst)) as (pend & queue & Hg).
  assert (underway s p t s) as Hu.
  { exists pend, queue, []. rewrite app_nil_r. split_and!; [done..|right]. split; [by apply (g_active _ _ _ Hg p t)|by exists t]. }
  apply (runs_underway clock junk ThreadTimer l s s p t s' Hr Hl) in Hu as (pend' & queue' & k & Hg' & Hk & Hu).
  destruct (wp_inv _ _ _ (perform_step clock junk ThreadTimer s' pend' queue' Tick Hg' I)) as ([] & s1 & Ht1 & pend1 & queue1 & k1 & Hg1 & Hk1 & Hs1).
  assert (forall n s2 k2, runs clock junk ThreadTimer (replicate n CallbackRound) s1 s2 -> t_log s2 = t_log s1 ++ k2 ->
    (Callback t = 0 -> n = O) -> outcome p t ∈ k ++ k1 ++ k2 ->
    exists n s2, runs clock junk ThreadTimer (Tick :: replicate n CallbackRound) s' s2 /\ (Callback t = 0 -> n = O) /\ outcome p t ∈ drop (length (t_log s)) (t_log s2)) as Hfin.
  { intros n s2 k2 Hr2 Hk2 Hn Hin. exists n, s2. split_and!; [by econstructor|done|].
    rewrite Hk2, Hk1, Hk, <- !app_assoc. by rewrite drop_app_length. }
  destruct Hu as [Hu|(Hin & x & Hx & Hsame)].
  { apply (Hfin O s1 []); [constructor|by rewrite app_nil_r|done|set_solver]. }
  assert (outcome p x = outcome p t /\ Callback x = Callback t) as [Eo Ec] by (unfold outcome; destruct Hsame as (_ & -> & ->); done).
  apply elem_of_app in Hin as [Hin|Hin].
  - destruct (wp_inv _ _ _ (tick_takes clock junk ThreadTimer s' pend' queue' p Hmono Hg' Hin ltac:(unfold dl; rewrite Hx; cbn; destruct Hsame as [-> _]; done)))
      as ([] & s1' & Ht1' & pend2 & queue2 & k2 & Hg2 & Hk2 & Hs2). rewrite Ht1 in Ht1'. injection Ht1' as <-. specialize (Hs2 x Hx).
    assert (k2 = k1) as -> by (rewrite Hk1 in Hk2; by apply app_inv_head in Hk2).
    destruct (Callback x =? 0) eqn:Ecb; bools.
    + apply (Hfin O s1 []); [constructor|by rewrite app_nil_r|done|]. rewrite <- Eo. unfold outcome. rewrite (proj2 (Z.eqb_eq _ 0) Ecb). set_solver.
    + destruct Hs2 as [Hq Hxs]. destruct (rounds_reach clock junk ThreadTimer queue2 s1 pend2 p x Hg2 Hq Hxs) as (n & s2 & k2 & Hr2 & Hk3 & Hin2).
      apply (Hfin n s2 k2); [done|done|congruence|rewrite <- Eo; set_solver].
  - assert (Callback x <> 0) as Hcx by (by eapply (g_call _ _ _ Hg')).
    destruct (Hs1 p x eq_refl ltac:(set_solver) Hx) as [Ho|(_ & Hxs & Hq)]; [apply (Hfin O s1 []); [constructor|by rewrite app_nil_r|done|rewrite <- Eo; set_solver]|].
    destruct (rounds_reach clock junk ThreadTimer queue1 s1 pend1 p x Hg1 (Hq Hin) Hxs) as (n & s2 & k2 & Hr2 & Hk3 & Hin2).
    apply (Hfin n s2 k2); [done|done|congruence|rewrite <- Eo; set_solver].
Qed.
End theorems.

(** A clock that advances by ten at each reading, one thread, a timer with a callback and one without. *)
Definition clock10 (n : nat) : Z := Z.of_nat n * 10.
Definition tt_at (cur : Z) : Z := cur + 1000.
Definition zero_timer : tTimer := MkTimer 0 0 0 0 false.
Definition start1 : tm := MkTm 0 0 0 {[1001 := zero_timer]} 0 0 2000 [] [].
Definition then_do (o : op) (s : tm) : tm := match perform clock10 zero_timer tt_at o s with Ok _ s' => s' | Stop _ => s end.
Definition created : tm := then_do (Create 1 50 7 9) start1.
Definition ticking : tm := then_do Tick (then_do Tick (then_do Tick (then_do (Event 1 20) created))).

Lemma start1_ok : at_start start1.
Proof.
  unfold at_start. cbn. split_and!; try done.
  - intros p t [_ <-]%lookup_singleton_Some. done.
  - intros a Ha. apply lookup_singleton_None. lia.
Qed.

Lemma created_runs : runs clock10 zero_timer tt_at [Create 1 50 7 9] start1 created.
Proof. econstructor; [by intros ?|vm_compute; reflexivity|constructor]. Qed.

Lemma ticking_runs : runs clock10 zero_timer tt_at [Event 1 20; Tick; Tick; Tick] created ticking.
Proof.
  econstructor; [split; [done|]; exists zero_timer; split; vm_compute; reflexivity|vm_compute; reflexivity|].
  do 3 (econstructor; [done|vm_compute; reflexivity|]). constructor.
Qed.

Lemma timers_tick_witness : exists pend queue s' fired rest, waiting created = Some pend /\ due created = Some queue /\
  Timer_CallTimers clock10 created = Ok tt s' /\ pend = fired ++ rest /\ waiting s' = Some rest.
Proof.
  destruct (timers_tick clock10 zero_timer tt_at start1 [Create 1 50 7 9] created start1_ok created_runs)
    as (pend & queue & Hp & Hq & _ & _ & _ & _ & s' & fired & rest & Hr & E & Hw & _).
  exists pend, queue, s', fired, rest. exact (conj Hp (conj Hq (conj Hr (conj E Hw)))).
Defined.

Lemma timer_fires_witness : exists n s2, runs clock10 zero_timer tt_at (Tick :: replicate n CallbackRound) ticking s2 /\
  RunCallback 2000 7 9 ∈ drop (length (t_log created)) (t_log s2).
Proof.
  destruct (timer_fires clock10 zero_timer tt_at start1 [Create 1 50 7 9] created 2000 (MkTimer 0 50 7 9 true) [Event 1 20; Tick; Tick; Tick] ticking
    ltac:(intros n; unfold clock10; lia) start1_ok created_runs ltac:(vm_compute; reflexivity) eq_refl ticking_runs
    ltac:(repeat constructor) ltac:(vm_compute; reflexivity)) as (n & s2 & Hr & _ & Hin).
  exists n, s2. exact (conj Hr Hin).
Defined.
End TimerTheorems.
