(* ===== verification/NetAddr.v ===== *)
(** * Addresses and checksums of the IP stack
    ([KernelLand/Modules/IPStack/main.c], [ipv4.c])

    An address is its bytes in network order, 4 or 16 of them.  Comparison under a prefix length and the
    broadcast test are related to the address as a big-endian number; the Internet checksum to sums modulo 65535. *)
From S2P Require Import Prelude CString Arith.

Local Open Scope Z_scope.

(** ** The operations *)
Definition AF_INET4 := 4.
Definition AF_INET6 := 6.

Definition IPStack_GetAddressSize (AddressType : Z) : Z :=
  if AddressType =? -1 then 16 else if AddressType =? 0 then 0 else
  if AddressType =? AF_INET4 then 4 else if AddressType =? AF_INET6 then 16 else 0.

(** A byte of the mask has its high [CheckBits % 8] bits set. *)
Definition IPStack_CompareAddress (AddressType : Z) (addr1 addr2 : list Z) (CheckBits : Z) : option bool :=
  let size := IPStack_GetAddressSize AddressType in
  let CheckBits := if CheckBits <? 0 then size * 8 else CheckBits in
  let CheckBits := if size * 8 <? CheckBits then size * 8 else CheckBits in
  if CheckBits =? 0 then Some true else
  c ← memcmp addr1 addr2 (Z.to_nat (CheckBits / 8));
  if negb (c =? 0) then Some false else
  if CheckBits mod 8 =? 0 then Some true else
  let mask := u8 (Z.shiftl 0xFF (8 - CheckBits mod 8)) in
  a ← get addr1 (CheckBits / 8);
  b ← get addr2 (CheckBits / 8);
  Some (Z.land a mask =? Z.land b mask).

Inductive net_error := NetAssert | NetFault.

Fixpoint all_ones (n : nat) (addr : list Z) (addrsize : Z) (i : Z) : option bool :=
  match n with
  | O => Some true
  | S n => b ← get addr (addrsize - i - 1); if negb (b =? 0xFF) then Some false else all_ones n addr addrsize (i + 1)
  end.

(** [inl]: the assertions; the last byte is read also when its mask is empty. *)
Definition IPStack_AddressIsBroadcast (AddrType : Z) (addr : list Z) (SubnetBits : Z) : net_error + bool :=
  let addrsize := IPStack_GetAddressSize AddrType in
  if negb (0 <=? SubnetBits) || negb (SubnetBits <=? addrsize * 8) then inl NetAssert else
  let host_bits := addrsize * 8 - SubnetBits in
  match all_ones (Z.to_nat (host_bits / 8)) addr addrsize 0 with
  | None => inl NetFault
  | Some false => inr false
  | Some true =>
      let mask := Z.shiftr 0xFF (8 - host_bits mod 8) in
      match get addr (addrsize - host_bits / 8 - 1) with
      | None => inl NetFault
      | Some b => inr (Z.land b mask =? mask)
      end
  end.

Definition IPv4_Netmask (FixedBits : Z) : Z :=
  if FixedBits =? 0 then 0 else
  if FixedBits <? 32 then u32 (Z.shiftl (Z.shiftr 0xFFFFFFFF (32 - FixedBits)) (32 - FixedBits)) else 0xFFFFFFFF.

(** [words[i]] of a little-endian machine; [ntohs] is [SwapEndian16]. *)
Definition word_at (Buf : list Z) (i : Z) : option Z :=
  lo ← get Buf (2 * i); hi ← get Buf (2 * i + 1); Some (lo + 256 * hi).

Fixpoint sum_words (n : nat) (Buf : list Z) (i sum : Z) : option Z :=
  match n with
  | O => Some sum
  | S n => w ← word_at Buf i; sum_words n Buf (i + 1) (u32 (sum + SwapEndian16 w))
  end.

(** [while( sum >> 16 )] *)
Fixpoint fold_sum (fuel : nat) (sum : Z) : option Z :=
  if Z.shiftr sum 16 =? 0 then Some sum else
  match fuel with
  | O => None
  | S fuel => fold_sum fuel (u32 (Z.land sum 0xFFFF + Z.shiftr sum 16))
  end.

(** [Buf] is the memory at the address; an odd length reads one byte more. *)
Definition IPv4_Checksum (Buf : list Z) (Length : Z) : option Z :=
  sum ← sum_words (Z.to_nat (Length / 2)) Buf 0 0;
  sum ← (if Z.odd Length then w ← word_at Buf (Length / 2); Some (u32 (sum + SwapEndian16 (Z.land w 0xFF))) else Some sum);
  sum ← fold_sum 3 sum;
  Some (u16 (Z.lnot sum)).

(** ** Addresses as numbers *)
Definition bytes (l : list Z) : Prop := Forall (fun b => 0 <= b < 256) l.
Definition be_val (l : list Z) : Z := foldl (fun v b => v * 256 + b) 0 l.

(** The first [n] bits agree. *)
Definition same_prefix (n : Z) (a b : list Z) : Prop := be_val a / 2 ^ (8 * len a - n) = be_val b / 2 ^ (8 * len b - n).

Lemma be_val_app l k : be_val (l ++ k) = be_val l * 256 ^ len k + be_val k.
Proof.
  revert l. induction k as [|b k IH] using rev_ind; intros l.
  - rewrite app_nil_r. change (len (@nil Z)) with 0. change (be_val []) with 0. lia.
  - unfold be_val in *. rewrite app_assoc, !foldl_app. cbn [foldl]. rewrite <- foldl_app, IH, len_app.
    change (len [b]) with 1. rewrite Z.pow_add_r by (try apply len_nonneg; lia). lia.
Qed.

Lemma be_val_range l : bytes l -> 0 <= be_val l < 256 ^ len l.
Proof.
  intros H. induction l as [|b l IH] using rev_ind; [split; [done|]; reflexivity|]. apply Forall_app in H as [Hl Hb]. inversion Hb; subst.
  rewrite be_val_app, len_app. change (len [b]) with 1. rewrite Z.pow_add_r by (try apply len_nonneg; lia).
  specialize (IH Hl). rewrite !Z.pow_1_r. change (be_val [b]) with (0 * 256 + b). lia.
Qed.

Lemma be_val_inj l k : length l = length k -> bytes l -> bytes k -> be_val l = be_val k -> l = k.
Proof.
  revert k. induction l as [|b l IH] using rev_ind; intros k Hlen Hl Hk E.
  - by destruct k.
  - destruct k as [|c k _] using rev_ind; [rewrite length_app in Hlen; cbn in Hlen; lia|].
    rewrite !length_app in Hlen. cbn in Hlen. apply Forall_app in Hl as [Hl Hb], Hk as [Hk Hc]. inversion Hb; inversion Hc; subst.
    rewrite !be_val_app in E. change (be_val [b]) with (0 * 256 + b) in E. change (be_val [c]) with (0 * 256 + c) in E.
    change (len [b]) with 1 in E. change (len [c]) with 1 in E.
    assert (be_val l = be_val k /\ b = c) as [El ->] by lia. f_equal. apply IH; [lia|done|done|done].
Qed.

(** A number in two parts, divided at or above the border. *)
Lemma div_parts hi lo m n : 0 <= lo < 2 ^ m -> 0 <= n -> 0 <= m -> (hi * 2 ^ m + lo) / 2 ^ (m + n) = hi / 2 ^ n.
Proof.
  intros Hlo Hn Hm. rewrite Z.pow_add_r by lia. rewrite <- Z.div_div by (try apply Z.pow_nonzero; try apply Z.pow_pos_nonneg; lia).
  f_equal. rewrite Z.div_add_l by (apply Z.pow_nonzero; lia). rewrite Z.div_small by lia. lia.
Qed.

Lemma pow256 n : 0 <= n -> 256 ^ n = 2 ^ (8 * n).
Proof. intros. change 256 with (2 ^ 8). by rewrite <- Z.pow_mul_r by lia. Qed.

Lemma memcmp_spec a b : forall n, (n <= length a)%nat -> (n <= length b)%nat ->
  exists c, memcmp a b n = Some c /\ (c = 0 <-> take n a = take n b).
Proof.
  revert b. induction a as [|x a IH]; intros b n Ha Hb.
  - destruct n; [|cbn in Ha; lia]. by exists 0.
  - destruct n as [|n]; [by exists 0|]. destruct b as [|y b]; [cbn in Hb; lia|]. cbn [memcmp take].
    destruct (x =? y) eqn:E; bools; cbn [negb].
    + subst. destruct (IH b n) as (c & Hc & Hi); [cbn in *; lia..|]. exists c. split; [done|]. rewrite Hi. split; [by intros ->|by intros [=]].
    + exists (x - y). split; [done|]. split; [lia|]. intros [= ? ?]. lia.
Qed.

Lemma top_bits b k : 0 <= b < 256 -> 0 < k < 8 -> Z.land b (u8 (Z.shiftl 0xFF (8 - k))) = b / 2 ^ (8 - k) * 2 ^ (8 - k).
Proof.
  intros Hb Hk. assert (u8 (Z.shiftl 255 (8 - k)) = (2 ^ k - 1) * 2 ^ (8 - k)) as ->.
  { assert (k = 1 \/ k = 2 \/ k = 3 \/ k = 4 \/ k = 5 \/ k = 6 \/ k = 7) as H by lia.
    repeat destruct H as [-> | H]; [..|rewrite H]; reflexivity. }
  rewrite land_field by lia. f_equal. apply Z.mod_small. split; [apply Z.div_pos; [lia|apply Z.pow_pos_nonneg; lia]|].
  apply Z.div_lt_upper_bound; [apply Z.pow_pos_nonneg; lia|]. rewrite <- Z.pow_add_r by lia. replace (8 - k + k) with 8 by lia. change (2 ^ 8) with 256. lia.
Qed.

Lemma bytes_get a i b : bytes a -> get a i = Some b -> 0 <= b < 256.
Proof. unfold get. intros Ha Hb. case_if_in Hb; [|done]. exact (Forall_lookup_1 _ _ _ _ Ha Hb). Qed.

(** The prefix of [8 q + k] bits: [q] bytes and [k] bits of the next. *)
Lemma prefix_val a q k : bytes a -> 0 <= q -> 0 <= k < 8 -> 8 * q + k <= 8 * len a ->
  be_val a / 2 ^ (8 * len a - (8 * q + k)) =
    be_val (take (Z.to_nat q) a) * 2 ^ k + default 0 (get a q) / 2 ^ (8 - k).
Proof.
  intros Ha Hq Hk Hle. destruct (decide (k = 0)) as [->|Hk0].
  - rewrite <- (take_drop (Z.to_nat q) a) at 1. rewrite be_val_app, pow256 by apply len_nonneg.
    rewrite len_drop by lia. replace (8 * len a - (8 * q + 0)) with (8 * Z.max 0 (len a - q) + 0) by lia.
    rewrite div_parts; [|rewrite <- pow256, <- (len_drop q a) by lia; apply be_val_range, Forall_drop, Ha|lia|lia].
    rewrite Z.pow_0_r, Z.div_1_r. replace (default 0 (get a q) / 2 ^ (8 - 0)) with 0; [lia|].
    symmetry. apply Z.div_small. destruct (get a q) as [b|] eqn:E; [|cbn; lia]. exact (bytes_get _ _ _ Ha E).
  - destruct (get_ok a q) as [b Hb]; [lia|]. rewrite Hb. cbn [default from_option]. change (id b) with b.
    assert (a = take (Z.to_nat q) a ++ b :: drop (S (Z.to_nat q)) a) as Ea.
    { symmetry. apply take_drop_middle. unfold get in Hb. case_if_in Hb; done. }
    assert (0 <= b < 256) as Hbr by (exact (bytes_get _ _ _ Ha Hb)).
    set (t := drop (S (Z.to_nat q)) a) in *. set (h := take (Z.to_nat q) a) in *.
    assert (len h = q) as Hh by (unfold h; rewrite len_take by lia; lia).
    assert (len a = q + 1 + len t) as Hl by (rewrite Ea at 1; rewrite len_app, len_cons; lia).
    assert (bytes t) as Ht by (apply Forall_drop, Ha).
    rewrite Ea at 1. change (b :: t) with ([b] ++ t). rewrite app_assoc, be_val_app, pow256 by apply len_nonneg.
    replace (8 * len a - (8 * q + k)) with (8 * len t + (8 - k)) by lia.
    rewrite div_parts; [|rewrite <- pow256 by apply len_nonneg; by apply be_val_range|lia|pose proof (len_nonneg t); lia].
    rewrite be_val_app. change (be_val [b]) with (0 * 256 + b). change (256 ^ len [b]) with (2 ^ 8).
    replace (2 ^ 8) with (2 ^ k * 2 ^ (8 - k)) by (rewrite <- Z.pow_add_r by lia; f_equal; lia).
    rewrite Z.mul_0_l, Z.add_0_l, Z.mul_assoc. rewrite Z.div_add_l by (apply Z.pow_nonzero; lia). done.
Qed.

Definition address (ty : Z) (a : list Z) : Prop := (ty = AF_INET4 \/ ty = AF_INET6) /\ len a = IPStack_GetAddressSize ty /\ bytes a.
(** The prefix length the code uses for [CheckBits]. *)
Definition prefix_len (ty n : Z) : Z := let size := IPStack_GetAddressSize ty in if n <? 0 then 8 * size else Z.min n (8 * size).

Lemma address_size ty a : address ty a -> 0 < len a /\ len a = IPStack_GetAddressSize ty /\ bytes a.
Proof. intros ([-> | ->] & -> & Hb); cbn; repeat split; try done; lia. Qed.

Lemma byte_split p p' b b' k : 0 <= k -> 0 <= b < 2 ^ k -> 0 <= b' < 2 ^ k -> p * 2 ^ k + b = p' * 2 ^ k + b' <-> p = p' /\ b = b'.
Proof.
  intros Hk Hb Hb'. split; [|by intros [-> ->]]. intros E. assert (p = p') as ->; [|lia].
  pose proof (Z.pow_pos_nonneg 2 k ltac:(lia) Hk) as Hp. nia.
Qed.

Lemma top_range b k : 0 <= b < 256 -> 0 <= k < 8 -> 0 <= b / 2 ^ (8 - k) < 2 ^ k.
Proof.
  intros Hb Hk. pose proof (Z.pow_pos_nonneg 2 (8 - k) ltac:(lia) ltac:(lia)). split; [apply Z.div_pos; lia|].
  apply Z.div_lt_upper_bound; [lia|]. rewrite <- Z.pow_add_r by lia. replace (8 - k + k) with 8 by lia. change (2 ^ 8) with 256. lia.
Qed.

Lemma CompareAddress_spec ty a b n : address ty a -> address ty b ->
  exists r, IPStack_CompareAddress ty a b n = Some r /\ (r = true <-> same_prefix (prefix_len ty n) a b).
Proof.
  intros Ha Hb. destruct (address_size _ _ Ha) as (Hpos & Hla & Hba), (address_size _ _ Hb) as (_ & Hlb & Hbb).
  unfold IPStack_CompareAddress, prefix_len. rewrite <- Hla in *. cbv zeta.
  set (c := if n <? 0 then len a * 8 else n).
  assert ((if len a * 8 <? c then len a * 8 else c) = (if n <? 0 then 8 * len a else Z.min n (8 * len a))) as ->
    by (unfold c; repeat case_if; lia).
  set (m := if n <? 0 then 8 * len a else Z.min n (8 * len a)). assert (0 <= m <= 8 * len a) as Hm by (unfold m; case_if; lia). clearbody m. clear c n.
  assert (m = 8 * (m / 8) + m mod 8) as Em by (apply Z.div_mod; lia). assert (0 <= m mod 8 < 8) as Hk by (apply Z.mod_pos_bound; lia).
  assert (0 <= m / 8 <= len a) as Hq by (split; [apply Z.div_pos; lia|apply Z.div_le_upper_bound; lia]).
  unfold same_prefix. set (q := m / 8) in *. set (k := m mod 8) in *.
  assert (forall x, bytes x -> len x = len a -> be_val x / 2 ^ (8 * len x - m) =
    be_val (take (Z.to_nat q) x) * 2 ^ k + default 0 (get x q) / 2 ^ (8 - k)) as Hpv
    by (intros x Hx Hl; rewrite Em at 1; apply prefix_val; [done|lia..]).
  rewrite (Hpv a Hba eq_refl), (Hpv b Hbb Hlb).
  case_if.
  { exists true. split; [done|]. split; [|done]. intros _. assert (q = 0 /\ k = 0) as [-> ->] by (unfold q, k in *; lia). cbn [Z.to_nat take].
    rewrite !Z.div_small; [done|..]; (destruct (get _ 0) as [x|] eqn:E; [|cbn; lia]); cbn; [exact (bytes_get _ _ _ Hbb E)|exact (bytes_get _ _ _ Hba E)]. }
  destruct (memcmp_spec a b (Z.to_nat q)) as (c & -> & Hc); [unfold len in *; lia..|]. cbn [mbind option_bind].
  assert (forall x : option Z, (forall y, x = Some y -> 0 <= y < 256) -> 0 <= default 0 x / 2 ^ (8 - k) < 2 ^ k) as Htop.
  { intros [y|] Hy; cbn; [apply top_range; [by apply Hy|lia]|]. rewrite Z.div_0_l by (apply Z.pow_nonzero; lia). split; [lia|apply Z.pow_pos_nonneg; lia]. }
  assert (be_val (take (Z.to_nat q) a) = be_val (take (Z.to_nat q) b) <-> c = 0) as Hbe.
  { rewrite Hc. split; [|by intros ->]. apply be_val_inj; [rewrite !length_take; unfold len in *; lia|by apply Forall_take|by apply Forall_take]. }
  match goal with |- exists r, ?X = _ /\ (_ <-> ?A = ?B) =>
    assert (A = B <-> c = 0 /\ default 0 (get a q) / 2 ^ (8 - k) = default 0 (get b q) / 2 ^ (8 - k)) as Hiff;
    [|enough (exists r, X = Some r /\ (r = true <-> c = 0 /\ default 0 (get a q) / 2 ^ (8 - k) = default 0 (get b q) / 2 ^ (8 - k))) as (r & Hr1 & Hr2);
      [exists r; rewrite Hiff; done|] ] end.
  { rewrite byte_split; [by rewrite Hbe|lia|apply Htop; intros y; by apply bytes_get|apply Htop; intros y; by apply bytes_get]. }
  clear Hiff.
  destruct (c =? 0) eqn:Ec; bools; cbn [negb]; [|exists false; split; [done|]; split; [done|lia]].
  destruct (k =? 0) eqn:Ek; bools.
  - exists true. split; [done|]. split; [intros _|done]. split; [done|]. rewrite Ek.
    rewrite !Z.div_small; [done|..]; (destruct (get _ q) as [x|] eqn:E; [|cbn; lia]); cbn; [exact (bytes_get _ _ _ Hbb E)|exact (bytes_get _ _ _ Hba E)].
  - destruct (get_ok a q) as [x Hx]; [lia|]. destruct (get_ok b q) as [y Hy]; [lia|]. rewrite Hx, Hy. cbn [mbind option_bind default from_option].
    change (id x) with x. change (id y) with y.
    pose proof (bytes_get _ _ _ Hba Hx). pose proof (bytes_get _ _ _ Hbb Hy).
    exists (Z.land x (u8 (Z.shiftl 255 (8 - k))) =? Z.land y (u8 (Z.shiftl 255 (8 - k)))). split; [done|].
    rewrite Z.eqb_eq, !top_bits by lia. pose proof (Z.pow_pos_nonneg 2 (8 - k) ltac:(lia) ltac:(lia)). split; [|by intros [_ ->]].
    intros E. split; [done|]. by apply Z.mul_cancel_r in E; [|lia].
Qed.

(** ** The Internet checksum *)
(** The sum of the big-endian words, the last padded with a zero byte. *)
Fixpoint words_sum (l : list Z) : Z :=
  match l with
  | a :: b :: l => a * 256 + b + words_sum l
  | [a] => a * 256
  | [] => 0
  end.

(** One's complement addition: carries are added back in. *)
Definition ones (s : Z) : Z := if s =? 0 then 0 else (s - 1) mod 65535 + 1.

Lemma ones_range s : 0 <= s -> 0 <= ones s <= 65535.
Proof. unfold ones. intros. case_if; [lia|]. dlia. Qed.

Lemma ones_small s : 0 <= s < 65536 -> ones s = s.
Proof. unfold ones. intros. case_if; [lia|]. rewrite Z.mod_small; lia. Qed.

(** Adding the high half to the low half keeps the value. *)
Lemma ones_carry s : 0 <= s -> ones (s mod 65536 + s / 65536) = ones s.
Proof.
  intros Hs. unfold ones. destruct (s =? 0) eqn:E; bools; [by subst|].
  assert (s mod 65536 + s / 65536 <> 0) as Hne by dlia. rewrite (proj2 (Z.eqb_neq _ 0) Hne). f_equal.
  rewrite (Z.div_mod s 65536) at 3 by lia.
  replace (65536 * (s / 65536) + s mod 65536 - 1) with (s mod 65536 + s / 65536 - 1 + (s / 65536) * 65535) by lia.
  by rewrite Z.mod_add by lia.
Qed.

Lemma ones_add s t : 0 <= s -> 0 <= t -> ones (ones s + t) = ones (s + t).
Proof.
  intros Hs Ht. destruct (decide (s = 0)) as [->|Hne]; [done|].
  assert (ones s = (s - 1) mod 65535 + 1) as -> by (unfold ones; by rewrite (proj2 (Z.eqb_neq s 0) Hne)). unfold ones.
  rewrite !(proj2 (Z.eqb_neq _ 0)) by dlia. f_equal.
  replace ((s - 1) mod 65535 + 1 + t - 1) with ((s - 1) mod 65535 + t) by lia. rewrite Z.add_mod_idemp_l by lia. f_equal. lia.
Qed.

Lemma fold_sum_spec s : 0 <= s < 4294967296 -> fold_sum 3 s = Some (ones s).
Proof.
  assert (forall fuel x, 0 <= x < 65536 -> fold_sum fuel x = Some (ones x)) as Hend.
  { intros fuel x Hx. destruct fuel; cbn [fold_sum]; rewrite Z.shiftr_div_pow2, Z.div_small by lia; cbn; by rewrite ones_small. }
  assert (forall fuel x, 0 <= x < 4294967296 -> fold_sum (S fuel) x = if x <? 65536 then Some (ones x) else fold_sum fuel (x mod 65536 + x / 65536)) as Hstep.
  { intros fuel x Hx. case_if; [apply Hend; lia|]. cbn [fold_sum]. rewrite Z.shiftr_div_pow2 by lia. change (2 ^ 16) with 65536.
    rewrite (proj2 (Z.eqb_neq _ 0)) by dlia. change 65535 with (2 ^ 16 - 1). rewrite land_low by lia. change (2 ^ 16) with 65536.
    rewrite u32_small by dlia. done. }
  intros Hs. rewrite Hstep by lia. case_if; [done|]. rewrite Hstep by dlia. rewrite <- (ones_carry s) by lia.
  case_if; [done|]. rewrite Hend by dlia. f_equal. apply ones_carry. dlia.
Qed.

Lemma swap_word lo hi : 0 <= lo < 256 -> 0 <= hi < 256 -> SwapEndian16 (lo + 256 * hi) = lo * 256 + hi.
Proof.
  intros. rewrite SwapEndian16_bytes by lia. dlia.
Qed.

Lemma sum_words_spec Buf : bytes Buf -> forall n i sum, 0 <= i -> 2 * (i + Z.of_nat n) <= len Buf -> 0 <= sum -> sum + 65535 * Z.of_nat n < 4294967296 ->
  exists r, sum_words n Buf i sum = Some r /\ r = sum + words_sum (sub (2 * i) (2 * Z.of_nat n) Buf) /\ sum <= r <= sum + 65535 * Z.of_nat n.
Proof.
  intros Hb. induction n as [|n IH]; intros i sum Hi Hlen Hs Hbd.
  - exists sum. split; [done|]. unfold sub. change (Z.to_nat (2 * Z.of_nat 0)) with O. rewrite take_0. cbn [words_sum]. lia.
  - destruct (get_ok Buf (2 * i)) as [lo Hlo]; [lia|]. destruct (get_ok Buf (2 * i + 1)) as [hi Hhi]; [lia|].
    pose proof (bytes_get _ _ _ Hb Hlo) as Rlo. pose proof (bytes_get _ _ _ Hb Hhi) as Rhi.
    cbn [sum_words]. unfold word_at. rewrite Hlo, Hhi. cbn [mbind option_bind]. rewrite swap_word, u32_small by lia.
    destruct (IH (i + 1) (sum + (lo * 256 + hi))) as (r & -> & -> & Hr); [lia..|]. eexists. split; [done|]. split; [|lia].
    replace (sub (2 * i) (2 * Z.of_nat (S n)) Buf) with (lo :: hi :: sub (2 * (i + 1)) (2 * Z.of_nat n) Buf); [cbn [words_sum]; lia|].
    unfold sub. replace (Z.to_nat (2 * Z.of_nat (S n))) with (S (S (Z.to_nat (2 * Z.of_nat n)))) by lia.
    unfold get in Hlo, Hhi. case_if_in Hlo; [|done]. case_if_in Hhi; [|done].
    rewrite (drop_S _ _ _ Hlo). cbn [take]. f_equal.
    replace (S (Z.to_nat (2 * i))) with (Z.to_nat (2 * i + 1)) by lia. rewrite (drop_S _ _ _ Hhi). cbn [take]. do 3 f_equal. lia.
Qed.

Lemma words_sum_app l k : (exists n, length l = (2 * n)%nat) -> words_sum (l ++ k) = words_sum l + words_sum k.
Proof.
  intros [n Hn]. revert l Hn. induction n as [|n IH]; intros l Hn.
  - destruct l; [done|cbn in Hn; lia].
  - destruct l as [|a [|b l] ]; [cbn in Hn; lia..|]. cbn [app words_sum]. rewrite IH by (cbn in Hn; lia). lia.
Qed.

Lemma words_sum_range l : bytes l -> 0 <= words_sum l <= 65535 * ((len l + 1) / 2).
Proof.
  enough (forall n l, (length l <= n)%nat -> bytes l -> 0 <= words_sum l <= 65535 * ((len l + 1) / 2)) as H by eauto.
  clear l. induction n as [|n IH]; intros l Hn Hb; (destruct l as [|a [|b l] ]; [by split; vm_compute| |]); try (cbn in Hn; lia).
  - inversion Hb; subst. cbn [words_sum]. change ((len [a] + 1) / 2) with 1. lia.
  - inversion Hb as [|? ? Ha Hb']; subst. inversion Hb' as [|? ? Hb0 Hl]; subst. specialize (IH l ltac:(cbn in Hn; lia) Hl).
    cbn [words_sum]. rewrite !len_cons. replace (1 + (1 + len l) + 1) with (len l + 1 + 1 * 2) by lia. rewrite Z.div_add by lia. lia.
Qed.

(** The checksum is the complement of the one's complement sum. *)
Lemma Checksum_spec Buf L : bytes Buf -> 0 <= L <= 131068 -> L + L mod 2 <= len Buf ->
  IPv4_Checksum Buf L = Some (65535 - ones (words_sum (take (Z.to_nat L) Buf))).
Proof.
  intros Hb HL Hlen. unfold IPv4_Checksum. assert (L = 2 * (L / 2) + L mod 2) as EL by (apply Z.div_mod; lia).
  assert (0 <= L / 2) as Hq by (apply Z.div_pos; lia).
  destruct (sum_words_spec Buf Hb (Z.to_nat (L / 2)) 0 0) as (r & -> & Er & Hr); [lia|dlia|lia|dlia|]. cbn [mbind option_bind].
  rewrite Z.mul_0_r, Z2Nat.id in Er by lia. change (sub 0 (2 * (L / 2)) Buf) with (take (Z.to_nat (2 * (L / 2))) Buf) in Er.
  assert (forall s, 0 <= s < 4294967296 -> (sum ← fold_sum 3 s; Some (u16 (Z.lnot sum))) = Some (65535 - ones s)) as Hend.
  { intros s Hs. rewrite fold_sum_spec by done. cbn [mbind option_bind]. f_equal. pose proof (ones_range s ltac:(lia)). unfold Z.lnot. dlia. }
  assert (L mod 2 = if Z.odd L then 1 else 0) as Eo by apply Zmod_odd.
  destruct (Z.odd L).
  - destruct (get_ok Buf (2 * (L / 2))) as [lo Hlo]; [lia|]. destruct (get_ok Buf (2 * (L / 2) + 1)) as [hi Hhi]; [lia|].
    pose proof (bytes_get _ _ _ Hb Hlo) as Rlo. pose proof (bytes_get _ _ _ Hb Hhi) as Rhi.
    unfold word_at. rewrite Hlo, Hhi. cbn [mbind option_bind]. change 255 with (2 ^ 8 - 1). rewrite land_low by lia. change (2 ^ 8) with 256.
    replace ((lo + 256 * hi) mod 256) with (lo + 256 * 0) by dlia. rewrite swap_word by lia. rewrite u32_small by dlia.
    rewrite Hend by dlia. do 3 f_equal. replace (Z.to_nat L) with (S (Z.to_nat (2 * (L / 2)))) by lia.
    unfold get in Hlo. case_if_in Hlo; [|done]. rewrite (take_S_r _ _ _ Hlo), words_sum_app.
    + cbn [words_sum]. lia.
    + exists (Z.to_nat (L / 2)). rewrite length_take. unfold len in *. lia.
  - cbn [mbind option_bind]. rewrite Hend by dlia. do 3 f_equal. rewrite Er, Z.add_0_l. do 2 f_equal. lia.
Qed.

(** Filling the checksum field. *)
Lemma checksum_fills x y : bytes (x ++ [0; 0] ++ y) -> (exists n, length x = (2 * n)%nat) ->
  0 < words_sum (x ++ [0; 0] ++ y) -> let c := 65535 - ones (words_sum (x ++ [0; 0] ++ y)) in
  ones (words_sum (x ++ [c / 256; c mod 256] ++ y)) = 65535.
Proof.
  intros Hb Hx. cbv zeta. rewrite !(words_sum_app x) by done.
  change (words_sum ([0; 0] ++ y)) with (0 * 256 + 0 + words_sum y).
  replace (words_sum x + (0 * 256 + 0 + words_sum y)) with (words_sum x + words_sum y) by lia.
  set (s := words_sum x + words_sum y). intros Hpos. set (c := 65535 - ones s).
  change (words_sum ([c / 256; c mod 256] ++ y)) with (c / 256 * 256 + c mod 256 + words_sum y).
  replace (words_sum x + (c / 256 * 256 + c mod 256 + words_sum y)) with (s + c) by (unfold s; dlia).
  rewrite <- ones_add by (unfold c; pose proof (ones_range s); lia). unfold c.
  replace (ones s + (65535 - ones s)) with 65535 by lia. reflexivity.
Qed.

Module NetAddrProps.
(** The Internet checksum works.  For a packet with a zeroed checksum field at an even offset, [IPv4_Checksum]
    returns the complement of the one's complement sum of its big-endian words; storing it in the field, high
    byte first, makes the checksum of the whole packet 0, and any packet whose sum is not that of zeroes checks like this. *)
Theorem checksum_verifies x y : bytes (x ++ [0; 0] ++ y) -> (exists n, length x = (2 * n)%nat) -> len (x ++ [0; 0] ++ y) <= 131068 ->
  Z.even (len y) = true -> 0 < words_sum (x ++ [0; 0] ++ y) ->
  exists c, IPv4_Checksum (x ++ [0; 0] ++ y) (len (x ++ [0; 0] ++ y)) = Some c /\ 0 <= c < 65536 /\
    c = 65535 - ones (words_sum (x ++ [0; 0] ++ y)) /\
    IPv4_Checksum (x ++ [c / 256; c mod 256] ++ y) (len (x ++ [0; 0] ++ y)) = Some 0.
Proof.
  intros Hb Hx Hlen Hev Hpos. set (L := len (x ++ [0; 0] ++ y)) in *.
  assert (L mod 2 = 0) as HL.
  { unfold L. rewrite !len_app. destruct Hx as [n Hn]. apply Z.even_spec in Hev as [m Hm]. unfold len in *. rewrite Hn, Hm. change (Z.of_nat (length [0; 0])) with 2.
    replace (Z.of_nat (2 * n) + (2 + 2 * m)) with ((Z.of_nat n + 1 + m) * 2) by lia. apply Z.mod_mul. lia. }
  pose proof (len_nonneg (x ++ [0; 0] ++ y)) as HL0. fold L in HL0.
  assert (forall p, len p = L -> bytes p -> IPv4_Checksum p L = Some (65535 - ones (words_sum p))) as Hck.
  { intros p Hp Hbp. rewrite Checksum_spec by (try done; lia). rewrite <- Hp. unfold len. rewrite Nat2Z.id. by rewrite take_ge. }
  pose proof (ones_range (words_sum (x ++ [0; 0] ++ y)) ltac:(lia)) as Hr.
  eexists. split; [by apply Hck|]. set (c := 65535 - ones (words_sum (x ++ [0; 0] ++ y))). split; [lia|]. split; [done|].
  rewrite Hck; [unfold c; rewrite checksum_fills; done|unfold L; rewrite !len_app; done|].
  apply Forall_app in Hb as [Hbx Hby]. apply Forall_app in Hby as [_ Hby].
  apply Forall_app. split; [done|]. apply Forall_app. split; [|done]. assert (0 <= c < 65536) by (unfold c; lia). repeat constructor; dlia.
Qed.

Definition sample_header : list Z := [69; 0; 0; 40; 0; 1; 0; 0; 32; 6].
Lemma checksum_verifies_witness : exists c, IPv4_Checksum (sample_header ++ [0; 0] ++ [10; 2; 0; 10; 10; 2; 0; 1]) 20 = Some c /\
  IPv4_Checksum (sample_header ++ [c / 256; c mod 256] ++ [10; 2; 0; 10; 10; 2; 0; 1]) 20 = Some 0.
Proof.
  destruct (checksum_verifies sample_header [10; 2; 0; 10; 10; 2; 0; 1] ltac:(repeat constructor; lia) ltac:(by exists 5%nat) ltac:(vm_compute; congruence)
    eq_refl ltac:(vm_compute; reflexivity)) as (c & H1 & _ & _ & H2).
  exists c. exact (conj H1 H2).
Defined.

(** The broadcast test reads the byte before the address for a /0 network. *)
Lemma broadcast_reads_before : IPStack_AddressIsBroadcast AF_INET4 [255; 255; 255; 255] 0 = inl NetFault.
Proof. reflexivity. Qed.
End NetAddrProps.
