(* ===== verification/Routing.v ===== *)
(** * Routes ([KernelLand/Modules/IPStack/routing.c])

    Explicit routes are on a list with a tail pointer; every interface has an implicit route to its own
    network inside its structure, filled in when it is first used.  The state holds both lists with the
    objects at their addresses. *)
From S2P Require Import Prelude Chains CString Number Format NetAddr.

Local Open Scope Z_scope.
Local Open Scope monad_scope.

Definition DEFAUTL_METRIC := 30.
Definition EACCES := 8.
Definition EINVAL := 5.
Definition EEXIST := 14.

(** [Network] and [NextHop] point to addresses stored with the route. *)
Record tRoute := MkRoute {
  rt_Next : Z; rt_Inode : Z; rt_Refs : Z; rt_Interface : Z; AddressType : Z; Network : list Z; rt_SubnetBits : Z; NextHop : list Z; Metric : Z }.
Record tInterface := MkIface {
  if_Next : Z; if_Type : Z; if_Address : list Z; if_SubnetBits : Z; if_Route : tRoute; if_Name : list Z }.

Record net := MkNet {
  gIP_Routes : Z; gIP_RoutesEnd : Z; giIP_NextRouteId : Z; n_routes : gmap Z tRoute;
  gIP_Interfaces : Z; n_ifaces : gmap Z tInterface; n_next : Z; n_errno : Z; n_uid : Z }.

Inductive nstop := NFault | NLoop.
Abbreviation NM := (M net nstop).

(** A route pointer: an explicit route, or the route inside an interface. *)
Inductive rptr := RExplicit (a : Z) | RIface (i : Z).
#[export] Instance rptr_dec : EqDecision rptr.
Proof. solve_decision. Defined.

Definition lift {A} (o : option A) : NM A := fun s => match o with Some a => Ok a s | None => Stop NFault end.
Definition route_at (a : Z) : NM tRoute := fun s => match n_routes s !! a with Some r => Ok r s | None => Stop NFault end.
Definition iface_at (i : Z) : NM tInterface := fun s => match n_ifaces s !! i with Some r => Ok r s | None => Stop NFault end.
Definition put_route (a : Z) (r : tRoute) : NM unit := fun s =>
  Ok tt (MkNet (gIP_Routes s) (gIP_RoutesEnd s) (giIP_NextRouteId s) (<[a := r]> (n_routes s)) (gIP_Interfaces s) (n_ifaces s) (n_next s) (n_errno s) (n_uid s)).
Definition put_iface (i : Z) (x : tInterface) : NM unit := fun s =>
  Ok tt (MkNet (gIP_Routes s) (gIP_RoutesEnd s) (giIP_NextRouteId s) (n_routes s) (gIP_Interfaces s) (<[i := x]> (n_ifaces s)) (n_next s) (n_errno s) (n_uid s)).
Definition set_routes (h e : Z) : NM unit := fun s =>
  Ok tt (MkNet h e (giIP_NextRouteId s) (n_routes s) (gIP_Interfaces s) (n_ifaces s) (n_next s) (n_errno s) (n_uid s)).
Definition set_errno (e : Z) : NM unit := fun s =>
  Ok tt (MkNet (gIP_Routes s) (gIP_RoutesEnd s) (giIP_NextRouteId s) (n_routes s) (gIP_Interfaces s) (n_ifaces s) (n_next s) e (n_uid s)).
Definition free_route (a : Z) : NM unit := fun s =>
  Ok tt (MkNet (gIP_Routes s) (gIP_RoutesEnd s) (giIP_NextRouteId s) (delete a (n_routes s)) (gIP_Interfaces s) (n_ifaces s) (n_next s) (n_errno s) (n_uid s)).
(** [calloc] and the number of the next route. *)
Definition new_route (r : Z -> tRoute) : NM Z := fun s =>
  Ok (n_next s) (MkNet (gIP_Routes s) (gIP_RoutesEnd s) (i32 (giIP_NextRouteId s + 1)) (<[n_next s := r (giIP_NextRouteId s)]> (n_routes s))
    (gIP_Interfaces s) (n_ifaces s) (n_next s + 1) (n_errno s) (n_uid s)).

Definition set_Next (n : Z) (r : tRoute) := MkRoute n (rt_Inode r) (rt_Refs r) (rt_Interface r) (AddressType r) (Network r) (rt_SubnetBits r) (NextHop r) (Metric r).

(** ** Names of routes *)
(** The name "type:address:subnet:metric"; the address is filled in when [want] gives the room for it.  The
    code does not test what it is given for subnet and metric when [want] is empty. *)
Definition sep (Name : list Z) (ofs : Z) : option bool := c ← get Name ofs; Some (c =? 58).
Definition tail_at (Name : list Z) (ofs : Z) : list Z := drop (Z.to_nat ofs) Name.

Definition _Route_ParseRouteName (Name : list Z) (want : bool) : option (option (Z * list Z * Z * Z)) :=
  '(ilen, ty) ← ParseInt Name;
  if ilen =? 0 then Some None else
  ty ← ty;
  let ofs := ilen in
  b ← sep Name ofs; if negb b then Some None else
  let ofs := ofs + 1 in
  let addrlen := IPStack_GetAddressSize ty in
  addr ← (if want then '(d, n) ← UnHex (replicate (Z.to_nat addrlen) 0) addrlen (tail_at Name ofs); Some (if n =? addrlen then Some d else None)
          else Some (Some []));
  match addr with
  | None => Some None
  | Some addr =>
      let ofs := ofs + addrlen * 2 in
      b ← sep Name ofs; if negb b then Some None else
      let ofs := ofs + 1 in
      '(ilen, bits) ← ParseInt (tail_at Name ofs);
      if ilen =? 0 then Some None else
      bits ← bits;
      let ofs := ofs + ilen in
      b ← sep Name ofs; if negb b then Some None else
      let ofs := ofs + 1 in
      '(ilen, metric) ← ParseInt (tail_at Name ofs);
      if ilen =? 0 then Some None else
      metric ← metric;
      let ofs := ofs + ilen in
      c ← get Name ofs;
      if negb (c =? 0) then Some None else Some (Some (ty, addr, bits, metric))
  end.

(** ** The table *)
Fixpoint exact_loop (fuel : nat) (rt : Z) (ty : Z) (net : list Z) (bits metric : Z) : NM Z :=
  if rt =? 0 then ret 0 else
  match fuel with
  | O => halt NLoop
  | S fuel =>
      do r <- route_at rt;
      if negb (AddressType r =? ty) then exact_loop fuel (rt_Next r) ty net bits metric else
      if negb (Metric r =? metric) then exact_loop fuel (rt_Next r) ty net bits metric else
      if negb (rt_SubnetBits r =? bits) then exact_loop fuel (rt_Next r) ty net bits metric else
      do eq <- lift (IPStack_CompareAddress ty (Network r) net (-1));
      if negb (eq : bool) then exact_loop fuel (rt_Next r) ty net bits metric else ret rt
  end.
Definition _Route_FindExactRoute (ty : Z) (net : list Z) (bits metric : Z) : NM Z :=
  do s <- get_state; exact_loop (size (n_routes s)) (gIP_Routes s) ty net bits metric.

(** The network with the bits outside the prefix cleared. *)
Definition clear_bits (net : list Z) (size bits : Z) : option (list Z) :=
  let i := Z.quot bits 8 in
  d ← (if negb (Z.rem bits 8 =? 0) then
         b ← get net i; d ← set net i (Z.land b (u8 (Z.lnot (Z.shiftl 1 (8 - Z.rem bits 8) - 1)))); Some (d, i + 1)
       else Some (net, i));
  let '(net, i) := d in
  wr net i (replicate (Z.to_nat (size - i)) 0).

Definition IPStack_Route_Create (AddrType : Z) (net : list Z) (SubnetBits metric : Z) : NM Z :=
  let size := IPStack_GetAddressSize AddrType in
  if size =? 0 then ret 0 else
  do network <- lift (rd net 0 size);
  do network <- lift (clear_bits network size SubnetBits);
  do rt <- new_route (fun id => MkRoute 0 id 0 0 AddrType network SubnetBits (replicate (Z.to_nat size) 0) metric);
  do s <- get_state;
  (if negb (gIP_RoutesEnd s =? 0) then
     do e <- route_at (gIP_RoutesEnd s);
     put_route (gIP_RoutesEnd s) (set_Next rt e);;; set_routes (gIP_Routes s) rt
   else set_routes rt rt);;;
  ret rt.

Definition IPStack_RouteDir_MkNod (Name : list Z) (Flags : Z) : NM Z :=
  do s <- get_state;
  if negb (Flags =? 0) then set_errno EINVAL;;; ret 0 else
  if negb (n_uid s =? 0) then set_errno EACCES;;; ret 0 else
  do p <- lift (_Route_ParseRouteName Name false);
  match p with
  | None => set_errno EINVAL;;; ret 0
  | Some (ty, _, _, _) =>
      if ty <=? 0 then set_errno EINVAL;;; ret 0 else
      do p <- lift (_Route_ParseRouteName Name true);
      match p with
      | None => halt NFault (* the results are used uninitialised *)
      | Some (_, addr, bits, metric) =>
          do rt <- _Route_FindExactRoute ty addr bits metric;
          if negb (rt =? 0) then set_errno EEXIST;;; ret 0 else
          do rt <- IPStack_Route_Create ty addr bits metric;
          do r <- route_at rt;
          put_route rt (MkRoute (rt_Next r) (rt_Inode r) (rt_Refs r + 1) (rt_Interface r) (AddressType r) (Network r) (rt_SubnetBits r) (NextHop r) (Metric r));;;
          ret rt
      end
  end.

(** The route before [rt]; 0 for the list head. *)
Fixpoint prev_loop (fuel : nat) (r rt prev : Z) : NM Z :=
  if (r =? 0) || (r =? rt) then ret prev else
  match fuel with
  | O => halt NLoop
  | S fuel => do x <- route_at r; prev_loop fuel (rt_Next x) rt r
  end.

Definition IPStack_RouteDir_Unlink (OldName : list Z) : NM Z :=
  do s <- get_state;
  if negb (n_uid s =? 0) then ret (- EACCES) else
  do p <- lift (_Route_ParseRouteName OldName false);
  match p with
  | None => ret (- EINVAL)
  | Some (ty, _, _, _) =>
      if ty <=? 0 then ret (- EINVAL) else
      do p <- lift (_Route_ParseRouteName OldName true);
      match p with
      | None => halt NFault
      | Some (_, addr, bits, metric) =>
          do rt <- _Route_FindExactRoute ty addr bits metric;
          do prev <- prev_loop (size (n_routes s)) (gIP_Routes s) rt 0;
          do x <- route_at rt;
          (if negb (prev =? 0) then do y <- route_at prev; put_route prev (set_Next (rt_Next x) y)
           else set_routes (rt_Next x) (gIP_RoutesEnd s));;;
          free_route rt;;;
          ret 0
      end
  end.

(** ** Choosing a route *)
(** The candidate replaces the best so far unless that is more direct, or as direct with a smaller metric. *)
Definition keeps_best (best rt : tRoute) : bool :=
  (rt_SubnetBits rt <? rt_SubnetBits best) || ((rt_SubnetBits best =? rt_SubnetBits rt) && (Metric best <? Metric rt)).

Definition fill_route (i : Z) (x : tInterface) (size : Z) : NM tRoute :=
  let r := if_Route x in
  do net <- lift (rd (if_Address x) 0 size);
  let r' := MkRoute (rt_Next r) (rt_Inode r) (rt_Refs r) (rt_Interface r) (AddressType r) net (if_SubnetBits x) (replicate (Z.to_nat size) 0) DEFAUTL_METRIC in
  put_iface i (MkIface (if_Next x) (if_Type x) (if_Address x) (if_SubnetBits x) r' (if_Name x));;; ret r'.

Fixpoint iface_loop (fuel : nat) (iface ty : Z) (Address : list Z) (best : option (Z * tRoute)) : NM (option (Z * tRoute)) :=
  if iface =? 0 then ret best else
  match fuel with
  | O => halt NLoop
  | S fuel =>
      do x <- iface_at iface;
      if negb (if_Type x =? ty) then iface_loop fuel (if_Next x) ty Address best else
      do m <- lift (IPStack_CompareAddress ty (if_Address x) Address (if_SubnetBits x));
      if negb (m : bool) then iface_loop fuel (if_Next x) ty Address best else
      do r <- (if rt_Interface (if_Route x) =? 0 then
                 do r <- fill_route iface x (IPStack_GetAddressSize ty);
                 let r' := MkRoute (rt_Next r) (rt_Inode r) (rt_Refs r) iface (AddressType r) (Network r) (rt_SubnetBits r) (NextHop r) (Metric r) in
                 put_iface iface (MkIface (if_Next x) (if_Type x) (if_Address x) (if_SubnetBits x) r' (if_Name x));;; ret r'
               else ret (if_Route x));
      match best with
      | Some (b, br) => if keeps_best br r then iface_loop fuel (if_Next x) ty Address best else iface_loop fuel (if_Next x) ty Address (Some (iface, r))
      | None => iface_loop fuel (if_Next x) ty Address (Some (iface, r))
      end
  end.
Definition _Route_FindInterfaceRoute (ty : Z) (Address : list Z) : NM (option Z) :=
  do s <- get_state;
  do b <- iface_loop (size (n_ifaces s)) (gIP_Interfaces s) ty Address None;
  ret (fst <$> b).

Fixpoint route_loop (fuel : nat) (rt ty iface : Z) (Address : list Z) (best : option (Z * tRoute)) : NM (option (Z * tRoute)) :=
  if rt =? 0 then ret best else
  match fuel with
  | O => halt NLoop
  | S fuel =>
      do r <- route_at rt;
      if negb (iface =? 0) && negb (rt_Interface r =? 0) && negb (rt_Interface r =? iface) then route_loop fuel (rt_Next r) ty iface Address best else
      if negb (AddressType r =? ty) then route_loop fuel (rt_Next r) ty iface Address best else
      do m <- lift (IPStack_CompareAddress ty (Network r) Address (rt_SubnetBits r));
      if negb (m : bool) then route_loop fuel (rt_Next r) ty iface Address best else
      match best with
      | Some (b, br) => if keeps_best br r then route_loop fuel (rt_Next r) ty iface Address best else route_loop fuel (rt_Next r) ty iface Address (Some (rt, r))
      | None => route_loop fuel (rt_Next r) ty iface Address (Some (rt, r))
      end
  end.

Definition IPStack_FindRoute (ty Interface : Z) (Address : list Z) : NM (option rptr) :=
  do other <- (if Interface =? 0 then ret false else do x <- iface_at Interface; ret (negb (ty =? if_Type x)));
  if (other : bool) then ret None else
  do s <- get_state;
  do best <- route_loop (size (n_routes s)) (gIP_Routes s) ty Interface Address None;
  match best with
  | Some (rt, _) => ret (Some (RExplicit rt))
  | None =>
      if Interface =? 0 then do i <- _Route_FindInterfaceRoute ty Address; ret (RIface <$> i)
      else
        do x <- iface_at Interface;
        do r <- fill_route Interface x (IPStack_GetAddressSize ty);
        do m <- lift (IPStack_CompareAddress ty (Network r) Address (rt_SubnetBits r));
        ret (if (m : bool) then Some (RIface Interface) else None)
  end.

(** ** The best route *)
Section choice.
Implicit Types (x y : Z * tRoute) (l : list (Z * tRoute)).

(** No route is better: longer prefix first, then smaller metric. *)
Definition no_better (r r' : tRoute) : Prop := rt_SubnetBits r' < rt_SubnetBits r \/ (rt_SubnetBits r' = rt_SubnetBits r /\ Metric r <= Metric r').

Definition choose (best : option (Z * tRoute)) x : option (Z * tRoute) :=
  match best with Some b => if keeps_best b.2 x.2 then best else Some x | None => Some x end.

Lemma keeps_best_true b r : keeps_best b r = true -> no_better b r.
Proof. unfold keeps_best, no_better. intros [H|H]%orb_prop; bools; lia. Qed.

Lemma keeps_best_false b r : keeps_best b r = false -> no_better r b.
Proof.
  unfold keeps_best, no_better. intros H. bools. destruct (decide (rt_SubnetBits b < rt_SubnetBits r)); [by left|right].
  apply andb_false_iff in H0 as [H0|H0]; bools; lia.
Qed.

Lemma no_better_trans a b c : no_better a b -> no_better b c -> no_better a c.
Proof. unfold no_better. lia. Qed.

Lemma no_better_refl a : no_better a a.
Proof. unfold no_better. lia. Qed.

(** Going through a list, the choice ends with the last of the best. *)
Lemma choose_spec l : forall best, match foldl choose best l with
  | None => best = None /\ l = []
  | Some x => (x ∈ l \/ best = Some x) /\ (forall y, y ∈ l -> no_better x.2 y.2) /\ (forall b, best = Some b -> no_better x.2 b.2) end.
Proof.
  induction l as [|y l IH]; intros best; cbn [foldl].
  - destruct best as [b|]; [|done]. split_and!; [by right|set_solver|]. intros ? [= <-]. apply no_better_refl.
  - specialize (IH (choose best y)). destruct (foldl choose (choose best y) l) as [x|].
    2: { destruct IH as [H _]. unfold choose in H. destruct best; [by case_if_in H|done]. }
    destruct IH as (Hin & Hl & Hb).
    assert (exists c, choose best y = Some c /\ no_better c.2 y.2 /\ (forall b, best = Some b -> no_better c.2 b.2) /\ (c = y \/ best = Some c)) as (c & Hc & Hy & Hcb & Hcc).
    { unfold choose. destruct best as [b|]; [|exists y; split_and!; [done|apply no_better_refl|done|by left] ]. destruct (keeps_best b.2 y.2) eqn:E.
      - exists b. split_and!; [done|by apply keeps_best_true|intros ? [= <-]; apply no_better_refl|by right].
      - exists y. split_and!; [done|apply no_better_refl|intros ? [= <-]; by apply keeps_best_false|by left]. }
    rewrite Hc in *. specialize (Hb c eq_refl). split_and!.
    + destruct Hin as [Hin|[= <-] ]; [left; set_solver|]. destruct Hcc as [-> | ->]; [left; set_solver|by right].
    + intros z [-> |Hz]%elem_of_cons; [by eapply no_better_trans|auto].
    + intros b Hbb. eapply no_better_trans; [exact Hb|]. by apply Hcb.
Qed.
End choice.

(** ** Looking up an address *)
Section lookup.
Context (ty : Z) (Address : list Z).
Hypothesis (Haddr : address ty Address).
Implicit Types (s : net) (r : tRoute) (l : list (Z * tRoute)).

Definition rnx (m : gmap Z tRoute) (a : Z) : option Z := rt_Next <$> m !! a.

(** The routes of the table in order. *)
Definition table s (l : list (Z * tRoute)) : Prop :=
  chain (rnx (n_routes s)) (gIP_Routes s) (l.*1) /\ NoDup (l.*1) /\ (forall a r, (a, r) ∈ l -> n_routes s !! a = Some r) /\
  (forall a r, (a, r) ∈ l -> AddressType r = ty -> address ty (Network r)).

(** The route leads to the address, through the interface if one is given. *)
Definition leads (iface : Z) r : Prop :=
  (iface = 0 \/ rt_Interface r = 0 \/ rt_Interface r = iface) /\ AddressType r = ty /\ same_prefix (prefix_len ty (rt_SubnetBits r)) (Network r) Address.
#[export] Instance leads_dec iface r : Decision (leads iface r).
Proof. unfold leads, same_prefix. apply _. Defined.

Lemma route_loop_spec s iface : forall l p best fuel, chain (rnx (n_routes s)) p (l.*1) -> (forall a r, (a, r) ∈ l -> n_routes s !! a = Some r) ->
  (forall a r, (a, r) ∈ l -> AddressType r = ty -> address ty (Network r)) -> (length l <= fuel)%nat ->
  route_loop fuel p ty iface Address best s = Ok (foldl choose best (filter (fun x => leads iface x.2) l)) s.
Proof.
  induction l as [|[a r] l IH]; intros p best fuel Hc Hm Ha Hf; cbn [fmap list_fmap fst] in Hc.
  - change (p = 0) in Hc. subst. by destruct fuel.
  - destruct Hc as (-> & H0 & n & Hn & Hc). pose proof (Hm a r ltac:(set_solver)) as Hr. unfold rnx in Hn. rewrite Hr in Hn. injection Hn as <-.
    destruct fuel as [|fuel]; [cbn in Hf; lia|]. cbn [route_loop]. rewrite (proj2 (Z.eqb_neq a 0) H0).
    assert (forall b, route_loop fuel (rt_Next r) ty iface Address b s = Ok (foldl choose b (filter (fun x => leads iface x.2) l)) s) as Hrec.
    { intros b. apply IH; [done|intros; apply Hm; set_solver|intros b' r' Hin; apply (Ha b' r'); set_solver|cbn in Hf; lia]. }
    unfold bind at 1, route_at. rewrite Hr, filter_cons.
    destruct (negb (iface =? 0) && negb (rt_Interface r =? 0) && negb (rt_Interface r =? iface)) eqn:Ei.
    { rewrite decide_False; [apply Hrec|]. unfold leads. cbn. bools. intros ([?|[?|?] ] & _); lia. }
    destruct (AddressType r =? ty) eqn:Et; bools; cbn [negb]; [|rewrite decide_False; [apply Hrec|]; unfold leads; cbn; naive_solver].
    destruct (CompareAddress_spec ty (Network r) Address (rt_SubnetBits r) (Ha a r ltac:(set_solver) Et) Haddr) as (m & Hcmp & Hm').
    unfold bind at 1, lift. rewrite Hcmp.
    assert ((iface = 0 \/ rt_Interface r = 0 \/ rt_Interface r = iface)) as Hif.
    { apply andb_false_iff in Ei as [Ei|Ei]; [apply andb_false_iff in Ei as [Ei|Ei]|]; bools; auto. }
    destruct m; cbn [negb].
    + rewrite decide_True by (split_and!; [done|done|by apply Hm']). cbn [foldl choose].
      destruct best as [ [b br]|]; cbn [choose snd]; [|apply Hrec]. destruct (keeps_best br r); apply Hrec.
    + rewrite decide_False; [apply Hrec|]. intros (_ & _ & Hp). by apply Hm' in Hp.
Qed.

Lemma table_size s l : table s l -> (length l <= size (n_routes s))%nat.
Proof.
  intros (Hc & Hnd & Hm & _). rewrite <- (length_fmap fst l). apply nodup_size; [done|]. intros a Ha.
  apply list_elem_of_fmap in Ha as ([b r] & -> & Hin). exists r. by apply Hm.
Qed.

(** The interfaces in order, and the route each stands for. *)
Definition inx (m : gmap Z tInterface) (a : Z) : option Z := if_Next <$> m !! a.
Definition ifaces s (l : list (Z * tInterface)) : Prop :=
  chain (inx (n_ifaces s)) (gIP_Interfaces s) (l.*1) /\ NoDup (l.*1) /\ (forall a x, (a, x) ∈ l -> n_ifaces s !! a = Some x) /\
  (forall a x, (a, x) ∈ l -> if_Type x = ty -> address ty (if_Address x)).
Definition own_route (i : Z) (x : tInterface) : tRoute :=
  let r := if_Route x in
  if rt_Interface r =? 0 then MkRoute (rt_Next r) (rt_Inode r) (rt_Refs r) i (AddressType r) (if_Address x) (if_SubnetBits x)
    (replicate (Z.to_nat (IPStack_GetAddressSize ty)) 0) DEFAUTL_METRIC else r.
(** The address is on the interface's network. *)
Definition on_link (x : tInterface) : Prop := if_Type x = ty /\ same_prefix (prefix_len ty (if_SubnetBits x)) (if_Address x) Address.
#[export] Instance on_link_dec x : Decision (on_link x).
Proof. unfold on_link, same_prefix. apply _. Defined.

Definition same_table s s' : Prop := n_routes s' = n_routes s /\ gIP_Routes s' = gIP_Routes s /\ gIP_RoutesEnd s' = gIP_RoutesEnd s.

Lemma rd_all (a : list Z) : len a = IPStack_GetAddressSize ty -> rd a 0 (IPStack_GetAddressSize ty) = Some a.
Proof.
  intros <-. rewrite rd_ok by (pose proof (len_nonneg a); lia). f_equal. unfold sub, len. rewrite Nat2Z.id, drop_0. by rewrite take_ge.
Qed.

Lemma iface_loop_spec : forall (l : list (Z * tInterface)) s p best fuel, chain (inx (n_ifaces s)) p (l.*1) -> NoDup (l.*1) ->
  (forall a x, (a, x) ∈ l -> n_ifaces s !! a = Some x) -> (forall a x, (a, x) ∈ l -> if_Type x = ty -> address ty (if_Address x)) -> (length l <= fuel)%nat ->
  exists s', iface_loop fuel p ty Address best s = Ok (foldl choose best ((fun x => (x.1, own_route x.1 x.2)) <$> filter (fun x => on_link x.2) l)) s' /\ same_table s s'.
Proof.
  induction l as [|[a x] l IH]; intros s p best fuel Hc Hnd Hm Ha Hf; cbn [fmap list_fmap fst] in Hc, Hnd.
  - change (p = 0) in Hc. subst. exists s. by destruct fuel.
  - destruct Hc as (-> & H0 & n & Hn & Hc). apply NoDup_cons in Hnd as [Hal Hnd].
    pose proof (Hm a x ltac:(set_solver)) as Hx. unfold inx in Hn. rewrite Hx in Hn. injection Hn as <-.
    destruct fuel as [|fuel]; [cbn in Hf; lia|]. cbn [iface_loop]. rewrite (proj2 (Z.eqb_neq a 0) H0).
    assert (forall s1 b, (forall c, c <> a -> n_ifaces s1 !! c = n_ifaces s !! c) -> same_table s s1 ->
      exists s', iface_loop fuel (if_Next x) ty Address b s1 = Ok (foldl choose b ((fun x => (x.1, own_route x.1 x.2)) <$> filter (fun x => on_link x.2) l)) s' /\ same_table s s') as Hrec.
    { intros s1 b Hs1 Hst. destruct (IH s1 (if_Next x) b fuel) as (s' & Hr & Hst').
      - eapply lseg_ext; [exact Hc|]. intros c Hin. unfold inx. rewrite Hs1; [done|]. by intros ->.
      - done.
      - intros c y Hin. rewrite Hs1; [apply Hm; set_solver|]. intros ->. apply Hal. apply list_elem_of_fmap. by exists (a, y).
      - intros c y Hin. apply (Ha c y). set_solver.
      - cbn in Hf. lia.
      - exists s'. split; [done|]. unfold same_table in *. naive_solver congruence. }
    unfold bind at 1, iface_at. rewrite Hx, filter_cons.
    assert (same_table s s) as Hss by done.
    destruct (if_Type x =? ty) eqn:Et; bools; cbn [negb]; [|rewrite decide_False; [by apply Hrec|]; unfold on_link; cbn; naive_solver].
    pose proof (Ha a x ltac:(set_solver) Et) as Hax. destruct (CompareAddress_spec ty (if_Address x) Address (if_SubnetBits x) Hax Haddr) as (m & Hcmp & Hm').
    unfold bind at 1, lift. rewrite Hcmp. destruct m; cbn [negb]; [|rewrite decide_False; [by apply Hrec|]; intros [_ Hp]; by apply Hm' in Hp].
    rewrite decide_True by (split; [done|by apply Hm']). rewrite fmap_cons. cbn [foldl fst snd].
    assert (exists s1, (if rt_Interface (if_Route x) =? 0 then
                 do r <- fill_route a x (IPStack_GetAddressSize ty);
                 let r' := MkRoute (rt_Next r) (rt_Inode r) (rt_Refs r) a (AddressType r) (Network r) (rt_SubnetBits r) (NextHop r) (Metric r) in
                 put_iface a (MkIface (if_Next x) (if_Type x) (if_Address x) (if_SubnetBits x) r' (if_Name x));;; ret r'
               else ret (if_Route x)) s = Ok (own_route a x) s1 /\ (forall c, c <> a -> n_ifaces s1 !! c = n_ifaces s !! c) /\ same_table s s1) as (s1 & Hr1 & Hs1 & Hst1).
    { unfold own_route. destruct (rt_Interface (if_Route x) =? 0); [|by exists s].
      unfold fill_route. eexists. split; [unfold bind, lift; rewrite rd_all by apply Hax; reflexivity|]. split; [|done].
      intros c Hca. cbn. by rewrite !lookup_insert_ne. }
    rewrite (bind_Ok _ _ _ _ _ Hr1). destruct best as [ [b br]|]; cbn [choose snd]; [|by apply Hrec].
    destruct (keeps_best br (own_route a x)); by apply Hrec.
Qed.
End lookup.

Module RoutingProps.
(** C36: Looking up a route.  Given the explicit routes and the interfaces in list order, [IPStack_FindRoute] always
    returns.  If explicit routes lead to the address (through the given interface, or one of them bound to none), it is one of
    them to which none is preferable: none has a longer prefix, and of those as long none has a smaller metric.
    Otherwise it is the route of an interface on whose network the address lies: the given one, or, with none
    given, the preferable one.  NULL is returned exactly when no such route exists. *)
Theorem FindRoute_best s ty Interface Address l ifs : address ty Address -> table ty s l -> ifaces ty s ifs ->
  (Interface = 0 \/ exists x, (Interface, x) ∈ ifs /\ if_Type x = ty) ->
  exists res s', IPStack_FindRoute ty Interface Address s = Ok res s' /\ same_table s s' /\
    match res with
    | Some (RExplicit a) => exists r, (a, r) ∈ l /\ leads ty Address Interface r /\
        forall a' r', (a', r') ∈ l -> leads ty Address Interface r' -> no_better r r'
    | Some (RIface i) => (forall a' r', (a', r') ∈ l -> ~ leads ty Address Interface r') /\ exists x, (i, x) ∈ ifs /\ on_link ty Address x /\
        (Interface = 0 \/ Interface = i) /\ (Interface = 0 -> forall i' x', (i', x') ∈ ifs -> on_link ty Address x' -> no_better (own_route ty i x) (own_route ty i' x'))
    | None => (forall a' r', (a', r') ∈ l -> ~ leads ty Address Interface r') /\
        (forall i' x', (i', x') ∈ ifs -> Interface = 0 \/ Interface = i' -> ~ on_link ty Address x')
    end.
Proof.
  intros Haddr Ht (Hic & Hind & Him & Hia) Hi. pose proof Ht as (Hc & Hnd & Hm & Ha). pose proof (table_size _ _ _ Ht) as Hsz. unfold IPStack_FindRoute.
  assert ((if Interface =? 0 then ret false else do x <- iface_at Interface; ret (negb (ty =? if_Type x))) s = Ok false s) as H0.
  { destruct Hi as [->|(x & Hx & Hty)]; [done|]. case_if; [done|]. unfold bind, iface_at. rewrite (Him _ _ Hx), Hty, Z.eqb_refl. done. }
  rewrite (bind_Ok _ _ _ _ _ H0), bind_get.
  rewrite (bind_Ok _ _ _ _ _ (route_loop_spec ty Address Haddr s Interface l (gIP_Routes s) None (size (n_routes s)) Hc Hm Ha Hsz)).
  pose proof (choose_spec (filter (fun x => leads ty Address Interface x.2) l) None) as Hch.
  destruct (foldl choose None _) as [ [a r]|].
  { destruct Hch as ([Hin|?] & Hbest & _); [|done]. apply list_elem_of_filter in Hin as [Hl Hin].
    eexists _, _. split_and!; [done|done|]. exists r. split_and!; [done..|]. intros a' r' Hin' Hl'. apply (Hbest (a', r')).
    apply list_elem_of_filter. done. }
  destruct Hch as [_ Hnil].
  assert (forall a' r', (a', r') ∈ l -> ~ leads ty Address Interface r') as Hnone.
  { intros a' r' Hin Hl. assert ((a', r') ∈ filter (fun x => leads ty Address Interface x.2) l) as Hf by by apply list_elem_of_filter.
    rewrite Hnil in Hf. set_solver. }
  destruct (Interface =? 0) eqn:EI; bools.
  - subst. unfold _Route_FindInterfaceRoute. rewrite bind_assoc, bind_get.
    destruct (iface_loop_spec ty Address Haddr ifs s (gIP_Interfaces s) None (size (n_ifaces s)) Hic Hind Him Hia) as (s' & Hr & Hst).
    { rewrite <- (length_fmap fst ifs). apply nodup_size; [done|]. intros b Hb. apply list_elem_of_fmap in Hb as ([c x] & -> & Hin). exists x. by apply Him. }
    rewrite (bind_assoc _ _ _ s), (bind_Ok _ _ _ _ _ Hr). eexists _, s'. split_and!; [done|done|].
    pose proof (choose_spec ((fun x => (x.1, own_route ty x.1 x.2)) <$> filter (fun x => on_link ty Address x.2) ifs) None) as Hci.
    destruct (foldl choose None _) as [ [i r]|]; cbn [fmap option_fmap option_map fst].
    + destruct Hci as ([Hin|?] & Hbest & _); [|done]. apply list_elem_of_fmap in Hin as ([i0 x] & [= -> ->] & [Hx Hin]%list_elem_of_filter).
      split; [done|]. exists x. split_and!; [done|done|by left|]. intros _ i' x' Hin' Hx'. apply (Hbest (i', own_route ty i' x')).
      apply list_elem_of_fmap. exists (i', x'). split; [done|]. by apply list_elem_of_filter.
    + destruct Hci as [_ Hci]. apply fmap_nil_inv in Hci. split; [done|]. intros i' x' Hin _ Hx.
      assert ((i', x') ∈ filter (fun x => on_link ty Address x.2) ifs) as Hf by by apply list_elem_of_filter. rewrite Hci in Hf. set_solver.
  - destruct Hi as [?|(x & Hx & Hty)]; [lia|]. pose proof (Hia _ _ Hx Hty) as Hax.
    destruct (CompareAddress_spec ty (if_Address x) Address (if_SubnetBits x) Hax Haddr) as (m & Hcmp & Hm').
    unfold bind at 1, iface_at. rewrite (Him _ _ Hx). unfold fill_route. rewrite bind_assoc. unfold bind at 1, lift at 1. rewrite rd_all by apply Hax.
    cbn [put_iface bind ret Network rt_SubnetBits]. unfold lift. rewrite Hcmp. eexists _, _. split_and!; [done|done|]. destruct m.
    + split; [done|]. exists x. split_and!; [done|split; [done|by apply Hm']|by right|lia].
    + split; [done|]. intros i' x' Hin [?|<-] [_ Hp]; [lia|]. assert (x' = x) as -> by (pose proof (Him _ _ Hin); pose proof (Him _ _ Hx); congruence).
      by apply Hm' in Hp.
Qed.

(** Two explicit routes to 10.0.0.0/8 and 10.2.0.0/16 and an interface on 192.168.1.0/24. *)
Definition ip (a b c d : Z) : list Z := [a; b; c; d].
Definition rt8 : tRoute := MkRoute 2 1 0 7 4 (ip 10 0 0 0) 8 (ip 192 168 1 1) 5.
Definition rt16 : tRoute := MkRoute 0 2 0 7 4 (ip 10 2 0 0) 16 (ip 192 168 1 2) 40.
Definition if7 : tInterface := MkIface 0 4 (ip 192 168 1 9) 24 (MkRoute 0 0 0 0 0 (ip 0 0 0 0) 0 (ip 0 0 0 0) 0) [48; 0].
Definition net1 : net := MkNet 1 2 3 (<[1 := rt8]> {[2 := rt16]}) 7 {[7 := if7]} 3 0 0.

Lemma ip_address a b c d : bytes (ip a b c d) -> address 4 (ip a b c d).
Proof. intros H. split_and!; [by left|done|done]. Qed.

Lemma net1_table : table 4 net1 [(1, rt8); (2, rt16)].
Proof.
  split_and!.
  - cbn. split_and!; [done..|]. exists 2. split_and!; [done..|]. exists 0. done.
  - repeat constructor; set_solver.
  - intros a r H. repeat (apply elem_of_cons in H as [ [= -> ->]|H]; [done|]). set_solver.
  - intros a r H _. repeat (apply elem_of_cons in H as [ [= -> ->]|H]; [apply ip_address; repeat constructor; lia|]). set_solver.
Qed.

Lemma net1_ifaces : ifaces 4 net1 [(7, if7)].
Proof.
  split_and!.
  - cbn. split_and!; [done..|]. exists 0. done.
  - repeat constructor; set_solver.
  - intros a r H. repeat (apply elem_of_cons in H as [ [= -> ->]|H]; [done|]). set_solver.
  - intros a r H _. repeat (apply elem_of_cons in H as [ [= -> ->]|H]; [apply ip_address; repeat constructor; lia|]). set_solver.
Qed.

Lemma FindRoute_best_witness : exists res s', IPStack_FindRoute 4 0 (ip 10 2 3 4) net1 = Ok res s' /\ res = Some (RExplicit 2).
Proof.
  destruct (FindRoute_best net1 4 0 (ip 10 2 3 4) [(1, rt8); (2, rt16)] [(7, if7)] (ip_address 10 2 3 4 ltac:(repeat constructor; lia)) net1_table net1_ifaces (or_introl eq_refl))
    as (res & s' & Hr & _).
  exists res, s'. split; [exact Hr|]. vm_compute in Hr. injection Hr as <- _. reflexivity.
Defined.

(** "4:0A020000:16:40" and "4:0A030000:16:40" *)
Definition name16 : list Z := [52; 58; 48; 65; 48; 50; 48; 48; 48; 48; 58; 49; 54; 58; 52; 48; 0].
Definition name16b : list Z := [52; 58; 48; 65; 48; 51; 48; 48; 48; 48; 58; 49; 54; 58; 52; 48; 0].

(** Deleting the last route leaves [gIP_RoutesEnd] at the freed memory, which the next creation writes to;
    deleting a route that does not exist dereferences NULL. *)
Lemma unlink_leaves_end : exists s', IPStack_RouteDir_Unlink name16 net1 = Ok 0 s' /\ n_routes s' !! gIP_RoutesEnd s' = None /\
  IPStack_RouteDir_MkNod name16b 0 s' = Stop NFault /\ IPStack_RouteDir_Unlink name16b net1 = Stop NFault.
Proof. eexists. split; [vm_compute; reflexivity|]. split_and!; vm_compute; reflexivity. Qed.
End RoutingProps.
