(* ===== verification/Tcp.v ===== *)
(** * TCP ([KernelLand/Modules/IPStack/tcp.c])

    Connections and listeners are objects at addresses, on the listener list, on each listener's list of
    connections and on the list of outbound connections.  Header fields are held in host order (the code
    converts at each access); a received segment comes with its bytes.  What the code does to the rest of the
    kernel (segments sent, marks on VFS nodes, timers, semaphores) is recorded in order. *)
From S2P Require Import Prelude Chains Adt CString Number Arith NetAddr.
Export RingBuffer.

Local Open Scope Z_scope.
Local Open Scope monad_scope.

Definition TCP_MIN_DYNPORT := 0xC000.
Definition TCP_MAX_PACKET_SIZE := 1024.
Definition TCP_WINDOW_SIZE := 0x2000.
Definition TCP_RECIEVE_BUFFER_SIZE := 0x8000.
Definition TCP_DACK_THRESHOLD := 4096.
Definition TCP_DACK_TIMEOUT := 100.

Definition TCP_FLAG_FIN := 0x01.
Definition TCP_FLAG_SYN := 0x02.
Definition TCP_FLAG_RST := 0x04.
Definition TCP_FLAG_PSH := 0x08.
Definition TCP_FLAG_ACK := 0x10.
Definition flag (fs f : Z) : bool := negb (Z.land fs f =? 0).

Record tTCPHeader := MkHdr {
  SourcePort : Z; DestPort : Z; SequenceNumber : Z; AcknowlegementNumber : Z; DataOffset : Z; Flags : Z;
  WindowSize : Z; Checksum : Z; UrgentPointer : Z }.
Definition sizeof_TCPHeader := 20.

Inductive eTCPConnectionState :=
  | TCP_ST_CLOSED | TCP_ST_SYN_SENT | TCP_ST_SYN_RCVD | TCP_ST_ESTABLISHED
  | TCP_ST_FIN_WAIT1 | TCP_ST_FIN_WAIT2 | TCP_ST_CLOSING | TCP_ST_TIME_WAIT
  | TCP_ST_FORCE_CLOSE | TCP_ST_CLOSE_WAIT | TCP_ST_LAST_ACK | TCP_ST_FINISHED.
#[export] Instance state_dec : EqDecision eTCPConnectionState.
Proof. solve_decision. Defined.
(** [State > TCP_ST_ESTABLISHED] *)
Definition past_established (st : eTCPConnectionState) : bool :=
  match st with TCP_ST_CLOSED | TCP_ST_SYN_SENT | TCP_ST_SYN_RCVD | TCP_ST_ESTABLISHED => false | _ => true end.

(** [Future] is the memory behind the structure: [FuturePacketData] (the window) and after it
    [FuturePacketValidBytes] (a bit for each of its bytes). *)
Record tTCPConnection := MkConn {
  c_Next : Z; c_Prev : Z; c_Server : Z; State : eTCPConnectionState; LocalPort : Z; RemotePort : Z; c_Interface : Z;
  c_ImplInt : Z; c_Refs : Z; NextSequenceSend : Z; NextSequenceRcv : Z; LastACKSequence : Z;
  RecievedBuffer : tRingBuffer; HighestSequenceRcvd : Z; Future : list Z; RemoteIP : list Z }.

Record tTCPListener := MkListener {
  l_Next : Z; l_Port : Z; l_Interface : Z; NextID : Z; WaitingConnections : Z; Connections : Z; NewConnections : Z; ConnectionsTail : Z }.

(** Nodes are named by the address of their connection or listener. *)
Inductive effect :=
  | Sent (iface : Z) (dest : list Z) (hdr : tTCPHeader) (data : list Z)
  | MarkAvaliable (node : Z) (b : bool) | MarkFull (node : Z) (b : bool) | MarkError (node : Z) (b : bool)
  | AllocateTimer (conn : Z) | ScheduleTimer (conn delay : Z) | RemoveTimer (conn : Z) | FreeTimer (conn : Z)
  | SelectNode (node : Z).

Record tcp := MkTcp {
  gTCP_Listeners : Z; gTCP_OutbountCons : Z; gaTCP_PortBitmap : list Z; giTCP_NextOutPort : Z;
  conns : gmap Z tTCPConnection; listeners : gmap Z tTCPListener;
  t_next : Z; t_rands : list Z; t_uid : Z; t_errno : Z; t_out : list effect }.

Inductive tstop := TFault | TAssert | TLoop.
Abbreviation TCP := (M tcp tstop).

Definition lift {A} (o : option A) : TCP A := fun s => match o with Some a => Ok a s | None => Stop TFault end.
Definition ASSERT (b : bool) : TCP unit := if b then ret tt else halt TAssert.
Definition conn_at (c : Z) : TCP tTCPConnection := fun s => match conns s !! c with Some x => Ok x s | None => Stop TFault end.
Definition listener_at (l : Z) : TCP tTCPListener := fun s => match listeners s !! l with Some x => Ok x s | None => Stop TFault end.
Definition upd_conns (m : gmap Z tTCPConnection) (s : tcp) :=
  MkTcp (gTCP_Listeners s) (gTCP_OutbountCons s) (gaTCP_PortBitmap s) (giTCP_NextOutPort s) m (listeners s) (t_next s) (t_rands s) (t_uid s) (t_errno s) (t_out s).
Definition upd_out (o : list effect) (s : tcp) :=
  MkTcp (gTCP_Listeners s) (gTCP_OutbountCons s) (gaTCP_PortBitmap s) (giTCP_NextOutPort s) (conns s) (listeners s) (t_next s) (t_rands s) (t_uid s) (t_errno s) o.
Definition put_conn (c : Z) (x : tTCPConnection) : TCP unit := fun s => Ok tt (upd_conns (<[c := x]> (conns s)) s).
Definition on_conn (c : Z) (f : tTCPConnection -> tTCPConnection) : TCP unit := do x <- conn_at c; put_conn c (f x).
Definition put_listener (l : Z) (x : tTCPListener) : TCP unit := fun s =>
  Ok tt (MkTcp (gTCP_Listeners s) (gTCP_OutbountCons s) (gaTCP_PortBitmap s) (giTCP_NextOutPort s) (conns s) (<[l := x]> (listeners s)) (t_next s) (t_rands s) (t_uid s) (t_errno s) (t_out s)).
Definition set_lists (l o : Z) : TCP unit := fun s =>
  Ok tt (MkTcp l o (gaTCP_PortBitmap s) (giTCP_NextOutPort s) (conns s) (listeners s) (t_next s) (t_rands s) (t_uid s) (t_errno s) (t_out s)).
Definition set_ports (bm : list Z) (n : Z) : TCP unit := fun s =>
  Ok tt (MkTcp (gTCP_Listeners s) (gTCP_OutbountCons s) bm n (conns s) (listeners s) (t_next s) (t_rands s) (t_uid s) (t_errno s) (t_out s)).
Definition set_errno (e : Z) : TCP unit := fun s =>
  Ok tt (MkTcp (gTCP_Listeners s) (gTCP_OutbountCons s) (gaTCP_PortBitmap s) (giTCP_NextOutPort s) (conns s) (listeners s) (t_next s) (t_rands s) (t_uid s) e (t_out s)).
Definition emit (e : effect) : TCP unit := fun s => Ok tt (upd_out (t_out s ++ [e]) s).
(** [rand()], the coming values given. *)
Definition rand : TCP Z := fun s =>
  Ok (default 0 (head (t_rands s))) (MkTcp (gTCP_Listeners s) (gTCP_OutbountCons s) (gaTCP_PortBitmap s) (giTCP_NextOutPort s) (conns s) (listeners s) (t_next s) (tail (t_rands s)) (t_uid s) (t_errno s) (t_out s)).
Definition new_address : TCP Z := fun s =>
  Ok (t_next s) (MkTcp (gTCP_Listeners s) (gTCP_OutbountCons s) (gaTCP_PortBitmap s) (giTCP_NextOutPort s) (conns s) (listeners s) (t_next s + 1) (t_rands s) (t_uid s) (t_errno s) (t_out s)).
Definition free_conn (c : Z) : TCP unit := fun s => Ok tt (upd_conns (delete c (conns s)) s).

Definition set_State (st : eTCPConnectionState) (c : tTCPConnection) := MkConn (c_Next c) (c_Prev c) (c_Server c) st (LocalPort c) (RemotePort c) (c_Interface c) (c_ImplInt c) (c_Refs c) (NextSequenceSend c) (NextSequenceRcv c) (LastACKSequence c) (RecievedBuffer c) (HighestSequenceRcvd c) (Future c) (RemoteIP c).
Definition set_Rcv (n : Z) (c : tTCPConnection) := MkConn (c_Next c) (c_Prev c) (c_Server c) (State c) (LocalPort c) (RemotePort c) (c_Interface c) (c_ImplInt c) (c_Refs c) (NextSequenceSend c) n (LastACKSequence c) (RecievedBuffer c) (HighestSequenceRcvd c) (Future c) (RemoteIP c).
Definition set_Send (n : Z) (c : tTCPConnection) := MkConn (c_Next c) (c_Prev c) (c_Server c) (State c) (LocalPort c) (RemotePort c) (c_Interface c) (c_ImplInt c) (c_Refs c) n (NextSequenceRcv c) (LastACKSequence c) (RecievedBuffer c) (HighestSequenceRcvd c) (Future c) (RemoteIP c).
Definition set_LastACK (n : Z) (c : tTCPConnection) := MkConn (c_Next c) (c_Prev c) (c_Server c) (State c) (LocalPort c) (RemotePort c) (c_Interface c) (c_ImplInt c) (c_Refs c) (NextSequenceSend c) (NextSequenceRcv c) n (RecievedBuffer c) (HighestSequenceRcvd c) (Future c) (RemoteIP c).
Definition set_Highest (n : Z) (c : tTCPConnection) := MkConn (c_Next c) (c_Prev c) (c_Server c) (State c) (LocalPort c) (RemotePort c) (c_Interface c) (c_ImplInt c) (c_Refs c) (NextSequenceSend c) (NextSequenceRcv c) (LastACKSequence c) (RecievedBuffer c) n (Future c) (RemoteIP c).
Definition set_Buffer (b : tRingBuffer) (c : tTCPConnection) := MkConn (c_Next c) (c_Prev c) (c_Server c) (State c) (LocalPort c) (RemotePort c) (c_Interface c) (c_ImplInt c) (c_Refs c) (NextSequenceSend c) (NextSequenceRcv c) (LastACKSequence c) b (HighestSequenceRcvd c) (Future c) (RemoteIP c).
Definition set_Future (f : list Z) (c : tTCPConnection) := MkConn (c_Next c) (c_Prev c) (c_Server c) (State c) (LocalPort c) (RemotePort c) (c_Interface c) (c_ImplInt c) (c_Refs c) (NextSequenceSend c) (NextSequenceRcv c) (LastACKSequence c) (RecievedBuffer c) (HighestSequenceRcvd c) f (RemoteIP c).
Definition set_links (n p : Z) (c : tTCPConnection) := MkConn n p (c_Server c) (State c) (LocalPort c) (RemotePort c) (c_Interface c) (c_ImplInt c) (c_Refs c) (NextSequenceSend c) (NextSequenceRcv c) (LastACKSequence c) (RecievedBuffer c) (HighestSequenceRcvd c) (Future c) (RemoteIP c).
Definition set_ports_ip (lp rp : Z) (ip : list Z) (c : tTCPConnection) := MkConn (c_Next c) (c_Prev c) (c_Server c) (State c) lp rp (c_Interface c) (c_ImplInt c) (c_Refs c) (NextSequenceSend c) (NextSequenceRcv c) (LastACKSequence c) (RecievedBuffer c) (HighestSequenceRcvd c) (Future c) ip.
Definition set_Refs (n : Z) (c : tTCPConnection) := MkConn (c_Next c) (c_Prev c) (c_Server c) (State c) (LocalPort c) (RemotePort c) (c_Interface c) (c_ImplInt c) n (NextSequenceSend c) (NextSequenceRcv c) (LastACKSequence c) (RecievedBuffer c) (HighestSequenceRcvd c) (Future c) (RemoteIP c).

(** ** Sending *)
(** The header as it is sent, and the checksum over pseudo header, header and data. *)
Definition be16 (v : Z) : list Z := [v / 256 mod 256; v mod 256].
Definition be32 (v : Z) : list Z := be16 (v / 65536) ++ be16 v.
Definition header_bytes (h : tTCPHeader) : list Z :=
  be16 (SourcePort h) ++ be16 (DestPort h) ++ be32 (SequenceNumber h) ++ be32 (AcknowlegementNumber h) ++
  [DataOffset h; Flags h] ++ be16 (WindowSize h) ++ be16 (Checksum h) ++ be16 (UrgentPointer h).

Definition IP4PROT_TCP := 6.
(** The buffer of the partial checksum. *)
Definition pseudo (AddrType : Z) (l r : list Z) (packlen : Z) : list Z :=
  l ++ r ++ (if AddrType =? 4 then be32 (Z.lor packlen (Z.shiftl IP4PROT_TCP 16)) else be32 packlen ++ be32 IP4PROT_TCP).

(** [Data] may be followed by a byte that an odd length reads. *)
Definition TCP_int_CalculateChecksum (AddrType : Z) (LAddr RAddr : list Z) (HeaderLength : Z) (Header : list Z) (DataLength : Z) (Data : list Z) : option Z :=
  let packlen := HeaderLength + DataLength in
  let size := IPStack_GetAddressSize AddrType in
  if negb (AddrType =? 4) && negb (AddrType =? 6) then Some 0 else
  l ← rd LAddr 0 size;
  r ← rd RAddr 0 size;
  let buf := pseudo AddrType l r packlen in
  a ← IPv4_Checksum buf (len buf);
  b ← IPv4_Checksum Header HeaderLength;
  c ← IPv4_Checksum Data DataLength;
  IPv4_Checksum (be16 (u16 (Z.lnot a)) ++ be16 (u16 (Z.lnot b)) ++ be16 (u16 (Z.lnot c))) 6.

Section stack.
(** The type and the address of an interface; the byte after a buffer; an uninitialised header field. *)
Context (IfType : Z -> Z) (IfAddress : Z -> list Z) (after : Z) (junk : Z).

Definition set_Checksum (c : Z) (h : tTCPHeader) := MkHdr (SourcePort h) (DestPort h) (SequenceNumber h) (AcknowlegementNumber h) (DataOffset h) (Flags h) (WindowSize h) c (UrgentPointer h).

Definition TCP_int_SendPacket (Interface : Z) (Dest : list Z) (Header : tTCPHeader) (Length : Z) (Data : list Z) : TCP unit :=
  let Header := set_Checksum 0 Header in
  do c <- lift (TCP_int_CalculateChecksum (IfType Interface) (IfAddress Interface) Dest sizeof_TCPHeader (header_bytes Header) Length (Data ++ [after]));
  if negb (IfType Interface =? 4) && negb (IfType Interface =? 6) then ret tt else
  do d <- lift (rd Dest 0 (IPStack_GetAddressSize (IfType Interface)));
  emit (Sent Interface d (set_Checksum c Header) (take (Z.to_nat Length) Data)).

Definition TCP_SendPacket (Conn : Z) (Header : tTCPHeader) (Length : Z) (Data : list Z) : TCP unit :=
  do c <- conn_at Conn; TCP_int_SendPacket (c_Interface c) (RemoteIP c) Header Length Data.

Definition header_words : Z := Z.shiftl (sizeof_TCPHeader / 4) 4.

Definition TCP_int_SendRSTTo (Interface : Z) (Address : list Z) (Length : Z) (Header : tTCPHeader) : TCP unit :=
  let data_len := u32 (Length - Z.shiftr (DataOffset Header) 4 * 4) in
  let ack := u32 (SequenceNumber Header + data_len) in
  let '(fl, seq) := if flag (Flags Header) TCP_FLAG_ACK then (TCP_FLAG_RST, AcknowlegementNumber Header) else (Z.lor TCP_FLAG_RST TCP_FLAG_ACK, 0) in
  TCP_int_SendPacket Interface Address (MkHdr (DestPort Header) (SourcePort Header) seq ack header_words fl 0 0 0) 0 [].

Definition TCP_INT_SendACK (Connection : Z) : TCP unit :=
  do c <- conn_at Connection;
  TCP_SendPacket Connection (MkHdr (LocalPort c) (RemotePort c) (NextSequenceSend c) (NextSequenceRcv c) header_words TCP_FLAG_ACK TCP_WINDOW_SIZE 0 0) 0 [];;;
  on_conn Connection (fun c => set_LastACK (NextSequenceRcv c) c).

Definition TCP_int_SendDelayedACK (ConnPtr : Z) : TCP unit := TCP_INT_SendACK ConnPtr.

(** ** Receiving data *)
Definition write_ring (Connection : Z) (Data : list Z) (Length : Z) : TCP unit :=
  do c <- conn_at Connection;
  do r <- lift (RingBuffer_Write (RecievedBuffer c) Data Length);
  put_conn Connection (set_Buffer r.2 c).

(** [Data] is the memory at the payload. *)
Definition TCP_INT_AppendRecieved (Connection : Z) (Data : list Z) (Length0 : Z) : TCP Z :=
  do c <- conn_at Connection;
  let b := RecievedBuffer c in
  if Space b <? u32 (Length b + Length0) then emit (MarkAvaliable Connection true);;; ret 1 else
  write_ring Connection Data Length0;;;
  emit (MarkAvaliable Connection true);;;
  ret 0.

(** The memory behind the connection: a byte of the window, a byte of the bitmap. *)
Definition fdata (index : Z) : Z := index.
Definition fvalid (byte : Z) : Z := TCP_WINDOW_SIZE + byte.
Definition future_get (Connection i : Z) : TCP Z := do c <- conn_at Connection; lift (get (Future c) i).
Definition future_set (Connection i v : Z) : TCP unit :=
  do c <- conn_at Connection; do f <- lift (set (Future c) i v); put_conn Connection (set_Future f c).
Definition wrap_past (index : Z) : Z := if TCP_WINDOW_SIZE <? index then index - TCP_WINDOW_SIZE else index.

(** The length of the run of valid bytes. *)
Fixpoint run_loop (fuel : nat) (Connection length i index : Z) : TCP Z :=
  if negb (i <? length) then ret length else
  match fuel with
  | O => halt TLoop
  | S fuel =>
      let bit := index mod 8 in
      do byte <- future_get Connection (fvalid (index / 8));
      if Z.land byte (Z.shiftl 1 bit) =? 0 then ret i else
      if byte =? 0xFF then run_loop fuel Connection length (i + (8 - bit - 1) + 1) (wrap_past (index + (8 - bit)))
      else run_loop fuel Connection length (i + 1) (wrap_past (index + 1))
  end.

(** Marking the bytes taken as invalid: up to a byte border, by whole bytes, and the rest, whose bit is
    cleared in the data instead of the bitmap. *)
Fixpoint mark_head (fuel : nat) (Connection index runlength : Z) : TCP (Z * Z) :=
  match fuel with
  | O => ret (index, runlength)
  | S fuel =>
      if (index mod 8 =? 0) || negb (0 <? runlength) then ret (index, runlength) else
      future_set Connection (fdata index) 0;;;
      do b <- future_get Connection (fvalid (index / 8));
      future_set Connection (fvalid (index / 8)) (Z.land b (u8 (Z.lnot (Z.shiftl 1 (index mod 8)))));;;
      mark_head fuel Connection (wrap_past (index + 1)) (runlength - 1)
  end.
Fixpoint mark_bytes (fuel : nat) (Connection index runlength : Z) : TCP (Z * Z) :=
  if negb (7 <? runlength) then ret (index, runlength) else
  match fuel with
  | O => halt TLoop
  | S fuel =>
      future_set Connection (fdata index) 0;;;
      future_set Connection (fvalid (index / 8)) 0;;;
      mark_bytes fuel Connection (wrap_past (index + 8)) (runlength - 8)
  end.
Fixpoint mark_tail (fuel : nat) (Connection index runlength : Z) : TCP unit :=
  match fuel with
  | O => ret tt
  | S fuel =>
      if negb (0 <? runlength) then ret tt else
      future_set Connection (fdata index) 0;;;
      do b <- future_get Connection (fdata (index / 8));
      future_set Connection (fdata (index / 8)) (Z.land b (u8 (Z.lnot (Z.shiftl 1 (index mod 8)))));;;
      mark_tail fuel Connection (wrap_past (index + 1)) (runlength - 1)
  end.

Definition TCP_INT_UpdateRecievedFromFuture (Connection : Z) : TCP unit :=
  do c <- conn_at Connection;
  let length := u32 (HighestSequenceRcvd c - NextSequenceRcv c) in
  let index := NextSequenceRcv c mod TCP_WINDOW_SIZE in
  if HighestSequenceRcvd c =? NextSequenceRcv c then ret tt else
  do runlength <- run_loop (Z.to_nat length) Connection length 0 index;
  let runlength := u32 runlength in
  put_conn Connection (set_Rcv (u32 (NextSequenceRcv c + runlength)) c);;;
  (if runlength <? TCP_WINDOW_SIZE - index then
     write_ring Connection (drop (Z.to_nat index) (Future c)) runlength
   else
     let endLen := TCP_WINDOW_SIZE - index in
     write_ring Connection (drop (Z.to_nat index) (Future c)) endLen;;;
     write_ring Connection (Future c) (u32 (endLen - runlength)));;;
  do x <- mark_head 8 Connection index runlength;
  do x <- mark_bytes (Z.to_nat (runlength / 8)) Connection x.1 x.2;
  mark_tail 8 Connection x.1 x.2.

(** The loop that stores an out-of-order segment; the index after it. *)
Fixpoint store_loop (n : nat) (Connection : Z) (data : list Z) (i index max : Z) : TCP Z :=
  match n with
  | O => ret index
  | S n =>
      do b <- future_get Connection (fvalid (index / 8));
      future_set Connection (fvalid (index / 8)) (Z.lor b (u8 (Z.shiftl 1 (index mod 8))));;;
      do d <- lift (get data i);
      future_set Connection (fdata index) d;;;
      let index := if index + 1 =? TCP_WINDOW_SIZE then 0 else index + 1 in
      if index =? max then ret index else store_loop n Connection data (i + 1) index max
  end.

Definition TCP_int_FreeTCB (Connection : Z) : TCP unit :=
  do c <- conn_at Connection;
  ASSERT (bool_decide (State c = TCP_ST_FINISHED));;;
  ASSERT (c_Refs c =? 0);;;
  (if negb (c_Server c =? 0) then
     do srv <- listener_at (c_Server c);
     (if negb (c_Prev c =? 0) then on_conn (c_Prev c) (fun p => set_links (c_Next c) (c_Prev p) p)
      else put_listener (c_Server c) (MkListener (l_Next srv) (l_Port srv) (l_Interface srv) (NextID srv) (WaitingConnections srv) (c_Next c) (NewConnections srv) (ConnectionsTail srv)));;;
     do srv <- listener_at (c_Server c);
     (if negb (c_Next c =? 0) then on_conn (c_Next c) (fun n => set_links (c_Next n) (c_Prev c) n)
      else
        ASSERT (ConnectionsTail srv =? Connection);;;
        put_listener (c_Server c) (MkListener (l_Next srv) (l_Port srv) (l_Interface srv) (NextID srv) (WaitingConnections srv) (Connections srv) (NewConnections srv) (c_Prev c)))
   else
     (if negb (c_Prev c =? 0) then on_conn (c_Prev c) (fun p => set_links (c_Next c) (c_Prev p) p)
      else do s <- get_state; set_lists (gTCP_Listeners s) (c_Next c));;;
     (if negb (c_Next c =? 0) then on_conn (c_Next c) (fun n => set_links (c_Next n) (c_Prev c) n) else ret tt));;;
  emit (FreeTimer Connection);;;
  free_conn Connection.

(** ** The state machine *)
(** A data segment in [TCP_ST_ESTABLISHED]: in sequence, in the window, or neither. *)
Definition in_sequence (Connection : Z) (payload : list Z) (dataLen : Z) : TCP Z :=
  do rv <- TCP_INT_AppendRecieved Connection payload (u32 dataLen);
  if negb (rv =? 0) then ret 0 else
  on_conn Connection (fun c =>
    let h := if HighestSequenceRcvd c =? NextSequenceRcv c then u32 (HighestSequenceRcvd c + dataLen) else HighestSequenceRcvd c in
    set_Rcv (u32 (NextSequenceRcv c + dataLen)) (set_Highest h c));;;
  TCP_INT_UpdateRecievedFromFuture Connection;;;
  do c <- conn_at Connection;
  (if TCP_DACK_THRESHOLD <? u32 (NextSequenceRcv c - LastACKSequence c) then
     TCP_INT_SendACK Connection;;; emit (RemoveTimer Connection) else ret tt);;;
  emit (ScheduleTimer Connection TCP_DACK_TIMEOUT);;;
  ret 0.

Definition in_window (Connection : Z) (payload : list Z) (dataLen sequence_num : Z) : TCP Z :=
  do c <- conn_at Connection;
  let index := sequence_num mod TCP_WINDOW_SIZE in
  let max := NextSequenceRcv c mod TCP_WINDOW_SIZE in
  do b <- future_get Connection (fvalid (index / 8));
  (if Z.land b (Z.shiftl 1 (index mod 8)) =? 0 then TCP_INT_SendACK Connection else ret tt);;;
  do index <- store_loop (Z.to_nat dataLen) Connection payload 0 index max;
  on_conn Connection (fun c =>
    let rel_highest := u32 (HighestSequenceRcvd c - NextSequenceRcv c) in
    let rel_this := u32 (index - NextSequenceRcv c) in
    if rel_highest <? rel_this then set_Highest index c else c);;;
  ret 0.

Definition established (Connection : Z) (Header : tTCPHeader) (payload : list Z) (dataLen : Z) : TCP Z :=
  do c <- conn_at Connection;
  if flag (Flags Header) TCP_FLAG_RST then
    put_conn Connection (set_State TCP_ST_FORCE_CLOSE c);;; emit (MarkError Connection true);;; ret 0 else
  if flag (Flags Header) TCP_FLAG_FIN then
    emit (MarkError Connection true);;;
    put_conn Connection (set_Rcv (u32 (NextSequenceRcv c + 1)) c);;;
    TCP_INT_SendACK Connection;;;
    on_conn Connection (set_State TCP_ST_CLOSE_WAIT);;; ret 0 else
  if dataLen =? 0 then
    if Flags Header =? TCP_FLAG_ACK then ret 0 else
    let h := if HighestSequenceRcvd c =? NextSequenceRcv c then u32 (HighestSequenceRcvd c + 1) else HighestSequenceRcvd c in
    put_conn Connection (set_Rcv (u32 (NextSequenceRcv c + 1)) (set_Highest h c));;;
    TCP_INT_SendACK Connection;;; ret 0 else
  let sequence_num := SequenceNumber Header in
  if sequence_num =? NextSequenceRcv c then in_sequence Connection payload dataLen else
  if u32 (sequence_num - NextSequenceRcv c) <? TCP_WINDOW_SIZE then in_window Connection payload dataLen sequence_num else
  TCP_INT_SendACK Connection;;; ret 0.

(** [packet] is the segment from its header on, [Length] its length. *)
Definition TCP_INT_HandleConnectionPacket (Connection : Z) (Header : tTCPHeader) (packet : list Z) (Length : Z) : TCP Z :=
  do c <- conn_at Connection;
  if bool_decide (State c = TCP_ST_FINISHED) then ret 1 else
  if bool_decide (State c = TCP_ST_FORCE_CLOSE) then ret 1 else
  (if flag (Flags Header) TCP_FLAG_SYN then
     (if negb (LastACKSequence c =? NextSequenceRcv c) then TCP_INT_SendACK Connection else ret tt);;;
     on_conn Connection (fun c =>
       let seq := SequenceNumber Header in
       let h := if HighestSequenceRcvd c =? 0 then seq else HighestSequenceRcvd c in
       set_LastACK seq (set_Highest h (set_Rcv seq c)))
   else ret tt);;;
  let offset := Z.shiftr (DataOffset Header) 4 * 4 in
  let dataLen := i32 (Length - offset) in
  do c <- conn_at Connection;
  let set st := on_conn Connection (set_State st) in
  let has := flag (Flags Header) in
  match State c with
  | TCP_ST_CLOSED => ret 0
  | TCP_ST_SYN_SENT =>
      if has TCP_FLAG_SYN then
        on_conn Connection (fun c =>
          let h := if HighestSequenceRcvd c =? NextSequenceRcv c then u32 (HighestSequenceRcvd c + 1) else HighestSequenceRcvd c in
          set_Rcv (u32 (NextSequenceRcv c + 1)) (set_Highest h c));;;
        (if has TCP_FLAG_ACK then set TCP_ST_ESTABLISHED;;; emit (MarkFull Connection false) else set TCP_ST_SYN_RCVD);;;
        TCP_INT_SendACK Connection;;; ret 0
      else ret 0
  | TCP_ST_SYN_RCVD =>
      if has TCP_FLAG_RST then set TCP_ST_FORCE_CLOSE;;; emit (MarkError Connection true);;; ret 0 else
      if has TCP_FLAG_ACK then set TCP_ST_ESTABLISHED;;; emit (MarkFull Connection false);;; ret 0 else ret 0
  | TCP_ST_ESTABLISHED => established Connection Header (drop (Z.to_nat offset) packet) dataLen
  | TCP_ST_CLOSE_WAIT => ret 0
  | TCP_ST_LAST_ACK =>
      if has TCP_FLAG_ACK then set TCP_ST_FINISHED;;; TCP_int_FreeTCB Connection;;; ret 0 else ret 0
  | TCP_ST_FIN_WAIT1 =>
      if has TCP_FLAG_FIN then
        set TCP_ST_CLOSING;;; emit (MarkError Connection true);;; TCP_INT_SendACK Connection;;; ret 0 else
      if has TCP_FLAG_ACK then set TCP_ST_FIN_WAIT2;;; emit (MarkError Connection true);;; ret 0 else ret 0
  | TCP_ST_FIN_WAIT2 =>
      if has TCP_FLAG_FIN then set TCP_ST_TIME_WAIT;;; TCP_INT_SendACK Connection;;; ret 0 else ret 0
  | TCP_ST_CLOSING =>
      if has TCP_FLAG_ACK then set TCP_ST_TIME_WAIT;;; emit (MarkError Connection true);;; ret 0 else ret 0
  | TCP_ST_TIME_WAIT => ret 0
  | TCP_ST_FINISHED => ret 0
  | TCP_ST_FORCE_CLOSE => ret 1
  end.

(** ** Ports *)
Definition port_used (bm : list Z) (p : Z) : option bool := w ← get bm (p / 32); Some (negb (Z.land w (Z.shiftl 1 (p mod 32)) =? 0)).
Definition port_mark (bm : list Z) (p : Z) : option (list Z) := w ← get bm (p / 32); set bm (p / 32) (u32 (Z.lor w (Z.shiftl 1 (p mod 32)))).

(** [ret] is 16 bits wide, [giTCP_NextOutPort] an [int]; the latter is brought back only when the loop, not the first
    increment, takes it to 0x10000. *)
Fixpoint port_loop (fuel : nat) (bm : list Z) (p next : Z) : option (option (Z * Z)) :=
  u ← port_used bm p;
  if negb (u : bool) then Some (Some (p, next)) else
  match fuel with
  | O => Some None
  | S fuel =>
      let p := u16 (p + 1) in
      let next := i32 (next + 1) in
      if next =? 0x10000 then port_loop fuel bm TCP_MIN_DYNPORT TCP_MIN_DYNPORT else port_loop fuel bm p next
  end.
Definition TCP_GetUnusedPort (fuel : nat) : TCP Z :=
  do s <- get_state;
  do r <- lift (port_loop fuel (gaTCP_PortBitmap s) (u16 (giTCP_NextOutPort s)) (i32 (giTCP_NextOutPort s + 1)));
  match r with
  | None => halt TLoop
  | Some (p, next) => do bm <- lift (port_mark (gaTCP_PortBitmap s) p); set_ports bm next;;; ret p
  end.

Definition TCP_AllocatePort (Port : Z) : TCP Z :=
  do s <- get_state;
  do u <- lift (port_used (gaTCP_PortBitmap s) Port);
  if (u : bool) then ret 0 else
  do bm <- lift (port_mark (gaTCP_PortBitmap s) Port); set_ports bm (giTCP_NextOutPort s);;; ret 1.

Definition TCP_DeallocatePort (Port : Z) : TCP Z :=
  do s <- get_state;
  do u <- lift (port_used (gaTCP_PortBitmap s) Port);
  if negb (u : bool) then ret 0 else
  do w <- lift (get (gaTCP_PortBitmap s) (Port / 32));
  do bm <- lift (set (gaTCP_PortBitmap s) (Port / 32) (Z.land w (u32 (Z.lnot (Z.shiftl 1 (Port mod 32))))));
  set_ports bm (giTCP_NextOutPort s);;; ret 1.

(** ** Connections *)
Definition TCP_int_CreateConnection (Interface : Z) (st : eTCPConnectionState) : TCP Z :=
  do a <- new_address;
  do rb <- lift (RingBuffer_Create true TCP_RECIEVE_BUFFER_SIZE);
  put_conn a (MkConn 0 0 0 st 0xFFFF 0xFFFF Interface 0 1 0 0 0 rb 0 (replicate (Z.to_nat (TCP_WINDOW_SIZE + TCP_WINDOW_SIZE / 8)) 0)
    (replicate (Z.to_nat 16) 0));;;
  emit (AllocateTimer a);;; ret a.

(** A SYN to a listener: a half-open connection at the end of its list, answered with SYN-ACK. *)
Definition open_from (Interface Server : Z) (Address : list Z) (Header : tTCPHeader) : TCP unit :=
  do conn <- TCP_int_CreateConnection Interface TCP_ST_SYN_RCVD;
  do srv <- listener_at Server;
  ASSERT ((IfType Interface =? 4) || (IfType Interface =? 6));;;
  do isn <- rand;
  let rcv := u32 (SequenceNumber Header + 1) in
  do ip <- lift (rd Address 0 (IPStack_GetAddressSize (IfType Interface)));
  do c <- conn_at conn;
  do ip <- lift (wr (RemoteIP c) 0 ip);
  on_conn conn (fun c => set_ports_ip (l_Port srv) (SourcePort Header) ip
    (set_LastACK (SequenceNumber Header) (set_Send (u32 isn) (set_Highest rcv (set_Rcv rcv c)))));;;
  on_conn conn (fun c => MkConn 0 (ConnectionsTail srv) Server (State c) (LocalPort c) (RemotePort c) (c_Interface c) (NextID srv) (c_Refs c)
    (NextSequenceSend c) (NextSequenceRcv c) (LastACKSequence c) (RecievedBuffer c) (HighestSequenceRcvd c) (Future c) (RemoteIP c));;;
  (if negb (Connections srv =? 0) then
     ASSERT (negb (ConnectionsTail srv =? 0));;; on_conn (ConnectionsTail srv) (fun c => set_links conn (c_Prev c) c)
   else ASSERT (ConnectionsTail srv =? 0));;;
  put_listener Server (MkListener (l_Next srv) (l_Port srv) (l_Interface srv) (i32 (NextID srv + 1)) (WaitingConnections srv + 1)
    (if Connections srv =? 0 then conn else Connections srv) (if NewConnections srv =? 0 then conn else NewConnections srv) conn);;;
  emit (MarkAvaliable Server true);;;
  do c <- conn_at conn;
  TCP_SendPacket conn (MkHdr (l_Port srv) (SourcePort Header) (NextSequenceSend c) (NextSequenceRcv c) header_words (Z.lor TCP_FLAG_ACK TCP_FLAG_SYN)
    (WindowSize Header) (Checksum Header) (UrgentPointer Header)) 0 [];;;
  on_conn conn (fun c => set_Send (u32 (NextSequenceSend c + 1)) c).

Definition TCP_INT_HandleServerPacket (Interface Server : Z) (Address : list Z) (Header : tTCPHeader) (Length : Z) : TCP Z :=
  if flag (Flags Header) TCP_FLAG_RST then ret 0 else
  if flag (Flags Header) TCP_FLAG_ACK then TCP_int_SendRSTTo Interface Address Length Header;;; ret 0 else
  if negb (flag (Flags Header) TCP_FLAG_SYN) then ret 0 else
  open_from Interface Server Address Header;;; ret 0.

(** The connection of a list a segment belongs to, 0 if none. *)
Fixpoint match_conn (fuel : nat) (conn Interface : Z) (Address : list Z) (SrcPort : Z) : TCP Z :=
  if conn =? 0 then ret 0 else
  match fuel with
  | O => halt TLoop
  | S fuel =>
      do c <- conn_at conn;
      if negb (c_Interface c =? Interface) then match_conn fuel (c_Next c) Interface Address SrcPort else
      if negb (RemotePort c =? SrcPort) then match_conn fuel (c_Next c) Interface Address SrcPort else
      do eq <- lift (IPStack_CompareAddress (IfType (c_Interface c)) (RemoteIP c) Address (-1));
      if negb (eq : bool) then match_conn fuel (c_Next c) Interface Address SrcPort else ret conn
  end.

Fixpoint match_server (fuel : nat) (srv Interface Port : Z) : TCP Z :=
  if srv =? 0 then ret 0 else
  match fuel with
  | O => halt TLoop
  | S fuel =>
      do l <- listener_at srv;
      if l_Port l =? 0 then match_server fuel (l_Next l) Interface Port else
      if negb (l_Interface l =? 0) && negb (l_Interface l =? Interface) then match_server fuel (l_Next l) Interface Port else
      if negb (l_Port l =? Port) then match_server fuel (l_Next l) Interface Port else ret srv
  end.

Definition TCP_GetPacket (Interface : Z) (Address : list Z) (hdr : tTCPHeader) (Buffer : list Z) (Length : Z) : TCP unit :=
  do s <- get_state;
  do srv <- match_server (S (size (listeners s))) (gTCP_Listeners s) Interface (DestPort hdr);
  if negb (srv =? 0) then
    do l <- listener_at srv;
    do conn <- match_conn (S (size (conns s))) (Connections l) Interface Address (SourcePort hdr);
    do done <- (if conn =? 0 then ret false else do r <- TCP_INT_HandleConnectionPacket conn hdr Buffer Length; ret (r =? 0));
    if (done : bool) then ret tt else
    do _ <- TCP_INT_HandleServerPacket Interface srv Address hdr Length; ret tt
  else
    do conn <- match_conn (S (size (conns s))) (gTCP_OutbountCons s) Interface Address (SourcePort hdr);
    do done <- (if conn =? 0 then ret false else do r <- TCP_INT_HandleConnectionPacket conn hdr Buffer Length; ret (r =? 0));
    if (done : bool) then ret tt else
    if flag (Flags hdr) TCP_FLAG_RST then ret tt else TCP_int_SendRSTTo Interface Address Length hdr.

Definition TCP_IPError (Interface : Z) (Address : list Z) (hdr : tTCPHeader) (Length : Z) : TCP unit :=
  if Length <? sizeof_TCPHeader then ret tt else
  do s <- get_state;
  do conn <- match_conn (S (size (conns s))) (gTCP_OutbountCons s) Interface Address (SourcePort hdr);
  if conn =? 0 then ret tt else emit (MarkError conn true).

(** ** Servers *)
Definition TCP_Server_Init (Interface : Z) : TCP Z :=
  do a <- new_address;
  do s <- get_state;
  put_listener a (MkListener (gTCP_Listeners s) 0 Interface 0 0 0 0 0);;;
  set_lists a (gTCP_OutbountCons s);;; ret a.

(** The name of the next new connection; [None] while there is none and the caller sleeps. *)
Definition TCP_Server_ReadDir (srv : Z) : TCP (option (list Z)) :=
  do l <- listener_at srv;
  if WaitingConnections l =? 0 then ret None else
  do c <- conn_at (NewConnections l);
  put_listener srv (MkListener (l_Next l) (l_Port l) (l_Interface l) (NextID l) (WaitingConnections l - 1) (Connections l) (c_Next c) (ConnectionsTail l));;;
  (if c_Next c =? 0 then emit (MarkAvaliable srv false) else ret tt);;;
  do name <- lift (itoa (replicate (Z.to_nat 256) 0) (c_ImplInt c) 16 8 48);
  ret (Some name).

Fixpoint find_id (fuel : nat) (conn id : Z) : TCP Z :=
  if conn =? 0 then ret 0 else
  match fuel with
  | O => halt TLoop
  | S fuel => do c <- conn_at conn; if c_ImplInt c =? id then ret conn else find_id fuel (c_Next c) id
  end.

Definition TCP_Server_FindDir (srv : Z) (Name : list Z) : TCP Z :=
  do l <- listener_at srv;
  do id <- lift (atoi (Some Name));
  do c0 <- lift (get Name 0);
  if negb (c0 =? 0) then
    do tmp <- lift (itoa (replicate 9 0) (u64 id.1) 16 8 48);
    do d <- lift (strcmp tmp Name);
    if negb (d =? 0) then ret 0 else
    do s <- get_state; find_id (S (size (conns s))) (Connections l) id.1
  else if negb (NewConnections l =? 0) then
    do c <- conn_at (NewConnections l);
    put_listener srv (MkListener (l_Next l) (l_Port l) (l_Interface l) (NextID l) (WaitingConnections l) (Connections l) (c_Next c) (ConnectionsTail l));;;
    emit (MarkAvaliable srv (negb (c_Next c =? 0)));;; ret (NewConnections l)
  else emit (MarkAvaliable srv false);;; ret 0.

(** [Data]: [None] for NULL, the value for readable memory. *)
Definition TCP_Server_IOCtl (fuel : nat) (srv ID : Z) (Data : option (option Z)) : TCP Z :=
  if negb (ID =? 4) then ret 0 else
  do l <- listener_at srv;
  match Data with
  | None => ret (l_Port l)
  | Some Data =>
      if negb (l_Port l =? 0) then ret (-1) else
      match Data with
      | None => ret (-1)
      | Some port =>
          do s <- get_state;
          if negb (t_uid s =? 0) && negb (port =? 0) && (port <? 1024) then ret (-1) else
          do p <- (if port =? 0 then TCP_GetUnusedPort fuel else do _ <- TCP_AllocatePort port; ret port);
          put_listener srv (MkListener (l_Next l) p (l_Interface l) (NextID l) (WaitingConnections l) (Connections l) (NewConnections l) (ConnectionsTail l));;;
          ret p
      end
  end.

Definition TCP_Server_Close (srv : Z) : TCP unit := fun s =>
  Ok tt (MkTcp (gTCP_Listeners s) (gTCP_OutbountCons s) (gaTCP_PortBitmap s) (giTCP_NextOutPort s) (conns s) (delete srv (listeners s)) (t_next s) (t_rands s) (t_uid s) (t_errno s) (t_out s)).

(** ** Clients *)
Definition TCP_Client_Init (Interface : Z) : TCP Z :=
  do conn <- TCP_int_CreateConnection Interface TCP_ST_CLOSED;
  do s <- get_state;
  on_conn conn (set_links (gTCP_OutbountCons s) 0);;;
  (if negb (gTCP_OutbountCons s =? 0) then on_conn (gTCP_OutbountCons s) (fun c => set_links (c_Next c) conn c) else ret tt);;;
  set_lists (gTCP_Listeners s) conn;;; ret conn.

(** The bytes read, -1 with none at the end of a closed connection or when the wait fails; [ready] is the
    result of [VFS_SelectNode]. *)
Definition EWOULDBLOCK := 20.
Definition TCP_Client_Read (conn Length0 : Z) (Buffer : list Z) (ready : bool) : TCP (Z * list Z) :=
  do c <- conn_at conn;
  if past_established (State c) then
    do r <- lift (RingBuffer_Read Buffer (RecievedBuffer c) Length0);
    put_conn conn (set_Buffer r.2 c);;;
    if r.1.1 =? 0 then emit (MarkAvaliable conn false);;; set_errno 0;;; ret (-1, r.1.2) else ret (r.1.1, r.1.2)
  else
    emit (SelectNode conn);;;
    if negb ready then set_errno EWOULDBLOCK;;; ret (-1, Buffer) else
    do c <- conn_at conn;
    do r <- lift (RingBuffer_Read Buffer (RecievedBuffer c) Length0);
    put_conn conn (set_Buffer r.2 c);;;
    (if (r.1.1 =? 0) || (Length r.2 =? 0) then emit (MarkAvaliable conn false) else ret tt);;;
    ret (r.1.1, r.1.2).

Definition TCP_INT_SendDataPacket (Connection : Z) (Length : Z) (Data : list Z) : TCP unit :=
  emit (RemoveTimer Connection);;;
  do c <- conn_at Connection;
  TCP_SendPacket Connection (MkHdr (LocalPort c) (RemotePort c) (NextSequenceSend c) (NextSequenceRcv c) header_words (Z.lor TCP_FLAG_PSH TCP_FLAG_ACK) TCP_WINDOW_SIZE junk 0) Length Data;;;
  on_conn Connection (fun c => set_Send (u32 (NextSequenceSend c + Length)) c).

(** [do ... while( rem > 0 )] *)
Fixpoint send_loop (fuel : nat) (conn rem : Z) (Buffer : list Z) : TCP unit :=
  match fuel with
  | O => halt TLoop
  | S fuel =>
      let n := if rem <? TCP_MAX_PACKET_SIZE then rem else TCP_MAX_PACKET_SIZE in
      TCP_INT_SendDataPacket conn n Buffer;;;
      if 0 <? rem - n then send_loop fuel conn (rem - n) (drop (Z.to_nat n) Buffer) else ret tt
  end.

Definition TCP_Client_Write (conn Length : Z) (Buffer : list Z) (ready : bool) : TCP Z :=
  do c <- conn_at conn;
  if past_established (State c) then emit (MarkError conn true);;; set_errno 0;;; ret (-1) else
  emit (SelectNode conn);;;
  if negb ready then set_errno EWOULDBLOCK;;; ret (-1) else
  send_loop (S (Z.to_nat (Length / TCP_MAX_PACKET_SIZE))) conn Length Buffer;;;
  ret Length.

Definition TCP_StartConnection (Conn : Z) : TCP unit :=
  on_conn Conn (set_State TCP_ST_SYN_SENT);;;
  do isn <- rand;
  on_conn Conn (set_Send (u32 isn));;;
  do c <- conn_at Conn;
  TCP_SendPacket Conn (MkHdr (LocalPort c) (RemotePort c) (NextSequenceSend c) 0 header_words TCP_FLAG_SYN TCP_WINDOW_SIZE 0 0) 0 [];;;
  on_conn Conn (fun c => set_State TCP_ST_SYN_SENT (set_Send (u32 (NextSequenceSend c + 1)) c)).

(** A connect up to the wait for the answer, and what follows it. *)
Definition connect_start (fuel : nat) (conn : Z) : TCP bool :=
  do c <- conn_at conn;
  (if LocalPort c =? 0xFFFF then
     do p <- TCP_GetUnusedPort fuel; put_conn conn (set_ports_ip p (RemotePort c) (RemoteIP c) c) else ret tt);;;
  if RemotePort c =? 0xFFFF then ret false else
  TCP_StartConnection conn;;; emit (SelectNode conn);;; ret true.
Definition connect_end (conn : Z) : TCP Z :=
  do c <- conn_at conn; if bool_decide (State c = TCP_ST_SYN_SENT) then ret 0 else ret 1.

(** The other controls; [Data] is [None] for NULL, [Some None] for unreadable memory. *)
Definition TCP_Client_IOCtl (conn ID : Z) (Data : option (option (list Z))) : TCP Z :=
  do c <- conn_at conn;
  do s <- get_state;
  let port l := match l with [a; b] => a + 256 * b | _ => 0 end in
  let closed := bool_decide (State c = TCP_ST_CLOSED) in
  if ID =? 4 then
    match Data with
    | None => ret (LocalPort c)
    | Some d =>
        if negb closed then ret (-1) else
        match d with
        | None => ret (-1)
        | Some l =>
            if negb (t_uid s =? 0) && (port l <? 1024) then ret (-1) else
            put_conn conn (set_ports_ip (port l) (RemotePort c) (RemoteIP c) c);;; ret (port l)
        end
    end else
  if ID =? 5 then
    match Data with
    | None => ret (RemotePort c)
    | Some d =>
        if negb closed then ret (-1) else
        match d with
        | None => ret (-1)
        | Some l => put_conn conn (set_ports_ip (LocalPort c) (port l) (RemoteIP c) c);;; ret (port l)
        end
    end else
  if ID =? 6 then
    if negb closed then ret (-1) else
    if (IfType (c_Interface c) =? 4) || (IfType (c_Interface c) =? 6) then
      match Data with
      | Some (Some l) => do ip <- lift (wr (RemoteIP c) 0 l); put_conn conn (set_ports_ip (LocalPort c) (RemotePort c) ip c);;; ret 0
      | _ => ret (-1)
      end
    else ret 0 else
  if ID =? 8 then ret (Length (RecievedBuffer c)) else ret 0.

(** Closing; [true] when the caller yields until the state has left [TCP_ST_FIN_WAIT1]. *)
Definition TCP_Client_Close (conn : Z) : TCP bool :=
  do c <- conn_at conn;
  ASSERT (negb (c_Refs c =? 0));;;
  put_conn conn (set_Refs (c_Refs c - 1) c);;;
  if 1 <? c_Refs c then ret false else
  (if bool_decide (State c = TCP_ST_CLOSE_WAIT \/ State c = TCP_ST_ESTABLISHED) then
     TCP_SendPacket conn (MkHdr (LocalPort c) (RemotePort c) (NextSequenceSend c) 0 header_words TCP_FLAG_FIN (SwapEndian16 TCP_WINDOW_SIZE) junk junk) 0 []
   else ret tt);;;
  emit (RemoveTimer conn);;;
  match State c with
  | TCP_ST_CLOSED => TCP_int_FreeTCB conn;;; ret false
  | TCP_ST_FORCE_CLOSE => on_conn conn (set_State TCP_ST_FINISHED);;; TCP_int_FreeTCB conn;;; ret false
  | TCP_ST_CLOSE_WAIT => on_conn conn (set_State TCP_ST_LAST_ACK);;; ret false
  | TCP_ST_ESTABLISHED => on_conn conn (set_State TCP_ST_FIN_WAIT1);;; ret true
  | _ => ret false
  end.

End stack.

(** ** Helpers for sequence numbers *)
Definition WrapBetween (Lower Value Higher MaxValue : Z) : bool :=
  let wrap x := if MaxValue <? 0xFFFFFFFF then x mod (MaxValue + 1) else x in
  let Lower := wrap Lower in
  let Value := wrap Value in
  let Higher := wrap Higher in
  if Lower <? Higher then (Lower <? Value) && (Value <? Higher) else
  if Lower <? Value then true else if Value <? Higher then true else false.

Definition GetRelative (Base Value : Z) : Z := if Value <? Base then u32 (Value - Base + 0xFFFFFFFF) else u32 (Value - Base).
