(* ===== verification/TcpProps.v ===== *)
(** * Theorems about TCP

    The checksum of what is sent; the handshake; the byte stream: what one side writes the other reads, in
    order, while segments arrive in order; the state machine; ports; and what goes wrong otherwise. *)
From S2P Require Import Prelude Chains Adt CString Number Arith NetAddr Tcp.

Local Open Scope Z_scope.
Local Open Scope monad_scope.

(** ** Sequence numbers *)
Definition word32 (x : Z) : Prop := 0 <= x < 4294967296.
Lemma u32_plus x y : u32 (u32 x + y) = u32 (x + y).
Proof. unfold u32. rewrite Zplus_mod_idemp_l. done. Qed.
Lemma u32_in x : word32 (u32 x).
Proof. unfold word32. dlia. Qed.

(** ** What is sent *)
Implicit Types (h : tTCPHeader) (s : tcp).

Lemma be16_bytes v : bytes (be16 v).
Proof. repeat constructor; dlia. Qed.
Lemma be32_bytes v : bytes (be32 v).
Proof. apply Forall_app. split; apply be16_bytes. Qed.

Definition header_ok h : Prop := 0 <= DataOffset h < 256 /\ 0 <= Flags h < 256.

Lemma header_len h : len (header_bytes h) = 20.
Proof. done. Qed.

Lemma header_is_bytes h : header_ok h -> bytes (header_bytes h).
Proof.
  intros [H1 H2]. unfold header_bytes. repeat (apply Forall_app; split); try apply be16_bytes; try apply be32_bytes.
  apply Forall_cons. split; [lia|]. apply Forall_cons. split; [lia|]. by apply Forall_nil.
Qed.

Lemma checksum_some Buf L : bytes Buf -> 0 <= L <= 131068 -> L + L mod 2 <= len Buf ->
  exists c, IPv4_Checksum Buf L = Some c /\ 0 <= c < 65536 /\ u16 (Z.lnot c) = ones (words_sum (take (Z.to_nat L) Buf)).
Proof.
  intros Hb HL Hlen. eexists. split; [by apply Checksum_spec|].
  assert (bytes (take (Z.to_nat L) Buf)) as Ht by by apply Forall_take.
  pose proof (words_sum_range _ Ht) as Hr. pose proof (ones_range (words_sum (take (Z.to_nat L) Buf)) ltac:(lia)).
  split; [lia|]. unfold Z.lnot. dlia.
Qed.

Lemma be16_sum v : 0 <= v < 65536 -> words_sum (be16 v) = v.
Proof. intros. unfold be16. cbn [words_sum]. dlia. Qed.

Definition inet (ty : Z) : Prop := ty = 4 \/ ty = 6.

Lemma rd_whole (l : list Z) n : n = len l -> rd l 0 n = Some l.
Proof.
  intros ->. rewrite rd_ok by (pose proof (len_nonneg l); lia). f_equal. unfold sub, len. rewrite Nat2Z.id, drop_0. by rewrite take_ge.
Qed.

Lemma ones3 a b c : 0 <= a -> 0 <= b -> 0 <= c -> ones (ones a + (ones b + ones c)) = ones (a + b + c).
Proof.
  intros Ha Hb Hc. pose proof (ones_range a Ha). pose proof (ones_range b Hb). pose proof (ones_range c Hc).
  rewrite ones_add by lia. replace (a + (ones b + ones c)) with (ones b + (a + ones c)) by lia. rewrite ones_add by lia.
  replace (b + (a + ones c)) with (ones c + (a + b)) by lia. rewrite ones_add by lia. f_equal. lia.
Qed.

Lemma three_words a b c : 0 <= a < 65536 -> 0 <= b < 65536 -> 0 <= c < 65536 ->
  IPv4_Checksum (be16 a ++ be16 b ++ be16 c) 6 = Some (65535 - ones (a + (b + c))).
Proof.
  intros Ha Hb Hc. rewrite Checksum_spec; [|repeat (apply Forall_app; split); apply be16_bytes|lia|done].
  rewrite take_ge by done. rewrite !words_sum_app by (by exists 1%nat). by rewrite !be16_sum by lia.
Qed.

Lemma three_binds (X Y W : option Z) a b c (f : Z -> Z -> Z -> option Z) : X = Some a -> Y = Some b -> W = Some c ->
  (x ← X; y ← Y; w ← W; f x y w) = f a b c.
Proof. by intros -> -> ->. Qed.
Lemma two_binds (X Y : option (list Z)) a b (f : list Z -> list Z -> option Z) : X = Some a -> Y = Some b -> (x ← X; y ← Y; f x y) = f a b.
Proof. by intros -> ->. Qed.

Lemma pseudo_bytes ty l r n : bytes l -> bytes r -> bytes (pseudo ty l r n).
Proof.
  intros Hl Hr. unfold pseudo. apply Forall_app. split; [done|]. apply Forall_app. split; [done|].
  destruct (ty =? 4); [apply be32_bytes|apply Forall_app; split; apply be32_bytes].
Qed.

Lemma CalculateChecksum_spec ty l r h Data L : inet ty -> bytes l -> bytes r -> bytes Data -> header_ok h ->
  len l = IPStack_GetAddressSize ty -> len r = IPStack_GetAddressSize ty -> 0 <= L <= 65000 -> L + L mod 2 <= len Data ->
  TCP_int_CalculateChecksum ty l r 20 (header_bytes h) L Data =
    Some (65535 - ones (words_sum (pseudo ty l r (20 + L)) + words_sum (header_bytes h) + words_sum (take (Z.to_nat L) Data))).
Proof.
  intros Hty Hl Hr Hd Hh Hll Hlr HL HLd. unfold TCP_int_CalculateChecksum.
  replace (negb (ty =? 4) && negb (ty =? 6)) with false by (symmetry; destruct Hty as [-> | ->]; done).
  etransitivity; [apply (two_binds _ _ l r); by apply rd_whole|]. cbv beta zeta.
  assert (bytes (pseudo ty l r (20 + L))) as Hp by by apply pseudo_bytes.
  assert (len (pseudo ty l r (20 + L)) = 12 \/ len (pseudo ty l r (20 + L)) = 40) as Hlp.
  { unfold pseudo. rewrite !len_app, Hll, Hlr. destruct Hty as [-> | ->]; [by left|by right]. }
  destruct (checksum_some (pseudo ty l r (20 + L)) (len (pseudo ty l r (20 + L)))) as (a & Ea & Ha & Hsa);
    [done|lia|destruct Hlp as [-> | ->]; [change (12 mod 2) with 0|change (40 mod 2) with 0]; lia|].
  destruct (checksum_some (header_bytes h) 20) as (b & Eb & Hb & Hsb); [by apply header_is_bytes|lia|by rewrite header_len|].
  destruct (checksum_some Data L) as (c & Ec & Hc & Hsc); [done|lia|done|].
  etransitivity; [apply (three_binds _ _ _ a b c (fun a b c => IPv4_Checksum (be16 (u16 (Z.lnot a)) ++ be16 (u16 (Z.lnot b)) ++ be16 (u16 (Z.lnot c))) 6)); assumption|]. cbv beta.
  rewrite Hsa, Hsb, Hsc. assert (forall x : list Z, take (Z.to_nat (len x)) x = x) as Htk by (intros x; unfold len; rewrite Nat2Z.id; by apply take_ge).
  rewrite Htk. rewrite <- (header_len h) at 2. rewrite Htk.
  set (A := words_sum (pseudo ty l r (20 + L))). set (B := words_sum (header_bytes h)). set (C := words_sum (take (Z.to_nat L) Data)).
  assert (0 <= A /\ 0 <= B /\ 0 <= C) as (HA & HB & HC).
  { split_and!; [apply words_sum_range, Hp|apply words_sum_range, header_is_bytes, Hh|apply words_sum_range, Forall_take, Hd]. }
  pose proof (ones_range A HA). pose proof (ones_range B HB). pose proof (ones_range C HC).
  rewrite three_words by lia. by rewrite ones3.
Qed.

(** The checksum field in the sum of the header. *)
Lemma header_sum h ck : 0 <= ck < 65536 -> words_sum (header_bytes (set_Checksum ck h)) = words_sum (header_bytes (set_Checksum 0 h)) + ck.
Proof.
  intros Hc. unfold header_bytes, be32, be16. cbn [set_Checksum app words_sum SourcePort DestPort SequenceNumber AcknowlegementNumber DataOffset Flags WindowSize Checksum UrgentPointer].
  change (0 / 256 mod 256) with 0. change (0 mod 256) with 0.
  assert (ck / 256 mod 256 * 256 + ck mod 256 = ck) by dlia. lia.
Qed.

Lemma header_sum_pos h : header_ok h -> DataOffset h = header_words -> 0 < words_sum (header_bytes (set_Checksum 0 h)).
Proof.
  intros [_ Hf] Hd. unfold header_bytes.
  assert (forall x y, (exists n, length x = (2 * n)%nat) -> bytes x -> words_sum y <= words_sum (x ++ y)) as Hle.
  { intros x y Hx Hbx. rewrite words_sum_app by done. pose proof (words_sum_range _ Hbx). lia. }
  do 4 (eapply Z.lt_le_trans; [|apply Hle; [first [by exists 1%nat|by exists 2%nat]|apply be16_bytes || apply be32_bytes] ]).
  rewrite words_sum_app by (by exists 1%nat). cbn [words_sum set_Checksum DataOffset Flags].
  assert (bytes (be16 (WindowSize h) ++ be16 0 ++ be16 (UrgentPointer h))) as Hb by (repeat (apply Forall_app; split); apply be16_bytes).
  pose proof (words_sum_range _ Hb). rewrite Hd. change header_words with 80. cbn [set_Checksum WindowSize Checksum UrgentPointer]. lia.
Qed.

Section sending.
Context (IfType : Z -> Z) (IfAddress : Z -> list Z) (after : Z) (junk : Z).

(** An interface the stack can send through. *)
Definition iface_ok (i : Z) : Prop := inet (IfType i) /\ bytes (IfAddress i) /\ len (IfAddress i) = IPStack_GetAddressSize (IfType i).
Definition dest_of (i : Z) (ip : list Z) : list Z := take (Z.to_nat (IPStack_GetAddressSize (IfType i))) ip.

Lemma Checksum_rd ty l r hl hb dl d : inet ty -> IPStack_GetAddressSize ty <= len r ->
  TCP_int_CalculateChecksum ty l r hl hb dl d = TCP_int_CalculateChecksum ty l (take (Z.to_nat (IPStack_GetAddressSize ty)) r) hl hb dl d.
Proof.
  intros Hty Hr. assert (rd r 0 (IPStack_GetAddressSize ty) = rd (take (Z.to_nat (IPStack_GetAddressSize ty)) r) 0 (IPStack_GetAddressSize ty)) as E.
  { assert (0 <= IPStack_GetAddressSize ty) by (destruct Hty as [-> | ->]; done).
    rewrite (rd_whole (take _ r)) by (rewrite len_take; lia). rewrite rd_ok by lia. done. }
  unfold TCP_int_CalculateChecksum. by rewrite E.
Qed.

Lemma SendPacket_run s i Dest h L Data : iface_ok i -> bytes Dest -> IPStack_GetAddressSize (IfType i) <= len Dest -> header_ok h ->
  bytes Data -> 0 <= after < 256 -> 0 <= L <= len Data -> L <= 65000 ->
  exists c, TCP_int_SendPacket IfType IfAddress after i Dest h L Data s =
    Ok tt (upd_out (t_out s ++ [Sent i (dest_of i Dest) (set_Checksum c h) (take (Z.to_nat L) Data)]) s) /\
    c = 65535 - ones (words_sum (pseudo (IfType i) (IfAddress i) (dest_of i Dest) (20 + L)) + words_sum (header_bytes (set_Checksum 0 h)) + words_sum (take (Z.to_nat L) Data)).
Proof.
  intros (Hty & Hba & Hla) Hbd Hld Hh Hdata Haf HL HL2.
  assert (0 <= IPStack_GetAddressSize (IfType i)) as Hsz by (destruct Hty as [-> | ->]; done).
  assert (TCP_int_CalculateChecksum (IfType i) (IfAddress i) Dest sizeof_TCPHeader (header_bytes (set_Checksum 0 h)) L (Data ++ [after]) =
    Some (65535 - ones (words_sum (pseudo (IfType i) (IfAddress i) (dest_of i Dest) (20 + L)) + words_sum (header_bytes (set_Checksum 0 h)) + words_sum (take (Z.to_nat L) Data)))) as Hc.
  { rewrite Checksum_rd by done. unfold sizeof_TCPHeader. rewrite (CalculateChecksum_spec (IfType i) _ _ (set_Checksum 0 h)); try done.
    - do 4 f_equal. rewrite take_app_le; [done|]. unfold len in *. lia.
    - by apply Forall_take.
    - apply Forall_app. split; [done|]. by apply Forall_cons.
    - unfold dest_of. rewrite len_take; lia.
    - lia.
    - rewrite len_app. change (len [after]) with 1. dlia. }
  eexists. split; [|reflexivity]. unfold TCP_int_SendPacket. cbv zeta. unfold bind at 1, lift at 1. rewrite Hc.
  replace (negb (IfType i =? 4) && negb (IfType i =? 6)) with false by (symmetry; destruct Hty as [-> | ->]; done).
  unfold bind at 1, lift at 1. rewrite rd_ok by lia. reflexivity.
Qed.

(** ** A connection *)
Record conn_ok (c : tTCPConnection) : Prop := {
  k_iface : iface_ok (c_Interface c);
  k_remote : bytes (RemoteIP c) /\ len (RemoteIP c) = 16;
  k_buffer : RingBuffer.ok (RecievedBuffer c);
  k_seq : word32 (NextSequenceRcv c) /\ word32 (NextSequenceSend c) }.

(** Only connections and the record of effects change. *)
Definition framed s s' : Prop := upd_out [] (upd_conns ∅ s') = upd_out [] (upd_conns ∅ s).

Lemma framed_refl s : framed s s.
Proof. done. Qed.
Lemma framed_trans s1 s2 s3 : framed s1 s2 -> framed s2 s3 -> framed s1 s3.
Proof. unfold framed. congruence. Qed.

Lemma bind_inv {A B} (m : M tcp tstop A) (f : A -> M tcp tstop B) s b s' : bind m f s = Ok b s' -> exists a s1, m s = Ok a s1 /\ f a s1 = Ok b s'.
Proof. unfold bind. destruct (m s) as [a s1|]; [|done]. by exists a, s1. Qed.
Lemma listener_inv l s x s' : listener_at l s = Ok x s' -> s' = s /\ listeners s !! l = Some x.
Proof. unfold listener_at. case_match; [|done]. by intros [= <- <-]. Qed.

Lemma bind_conn k c s {B} (f : tTCPConnection -> M tcp tstop B) : conns s !! k = Some c -> bind (conn_at k) f s = f c s.
Proof. intros H. unfold bind, conn_at. by rewrite H. Qed.
Lemma on_conn_run k f c s : conns s !! k = Some c -> on_conn k f s = Ok tt (upd_conns (<[k := f c]> (conns s)) s).
Proof. intros H. unfold on_conn. by rewrite (bind_conn _ c). Qed.

Lemma on_conn_to k f c x s : conns s !! k = Some c -> f c = x -> on_conn k f s = Ok tt (upd_conns (<[k := x]> (conns s)) s).
Proof. intros H <-. by apply on_conn_run. Qed.

Lemma remote_len c : conn_ok c -> IPStack_GetAddressSize (IfType (c_Interface c)) <= len (RemoteIP c).
Proof. intros [ [ [E|E] _] [_ ->] _ _]; rewrite E; done. Qed.

(** The header of a segment that carries no data. *)
Definition ctl (c : tTCPConnection) (fl ack ck : Z) : tTCPHeader :=
  MkHdr (LocalPort c) (RemotePort c) (NextSequenceSend c) ack header_words fl TCP_WINDOW_SIZE ck 0.

Lemma SendACK_run s k c : 0 <= after < 256 -> conns s !! k = Some c -> conn_ok c ->
  exists s' ck, TCP_INT_SendACK IfType IfAddress after k s = Ok tt s' /\ framed s s' /\
    conns s' = <[k := set_LastACK (NextSequenceRcv c) c]> (conns s) /\
    t_out s' = t_out s ++ [Sent (c_Interface c) (dest_of (c_Interface c) (RemoteIP c)) (ctl c TCP_FLAG_ACK (NextSequenceRcv c) ck) []].
Proof.
  intros Haf Hk Hc. pose proof (remote_len _ Hc) as Hrl. destruct Hc as [Hi [Hrb Hrl'] Hb Hs].
  destruct (SendPacket_run s (c_Interface c) (RemoteIP c) (ctl c TCP_FLAG_ACK (NextSequenceRcv c) 0) 0 []) as (ck & Hrun & _);
    try done; try lia; [by apply Forall_nil|].
  eexists _, ck. split.
  { unfold TCP_INT_SendACK. rewrite (bind_conn _ c) by done. unfold TCP_SendPacket. rewrite bind_assoc, (bind_conn _ c) by done.
    rewrite (bind_Ok _ _ _ _ _ Hrun). by rewrite (on_conn_run _ _ c). }
  done.
Qed.

(** ** Segments in sequence *)
Definition acks (n : Z) (e : effect) : Prop :=
  match e with Sent i d h data => AcknowlegementNumber h = n /\ data = [] /\ Flags h = TCP_FLAG_ACK | _ => True end.
Definition is_ack_of (c : tTCPConnection) : effect -> Prop := acks (NextSequenceRcv c).

(** What receiving data changes of a connection. *)
Definition evolves (c c' : tTCPConnection) : Prop := exists l n m b, c' = set_LastACK l (set_Rcv n (set_Highest m (set_Buffer b c))).

Lemma evolves_refl c : evolves c c.
Proof. exists (LastACKSequence c), (NextSequenceRcv c), (HighestSequenceRcvd c), (RecievedBuffer c). by destruct c. Qed.
Lemma evolves_trans c1 c2 c3 : evolves c1 c2 -> evolves c2 c3 -> evolves c1 c3.
Proof. intros (l & n & h & b & ->) (l' & n' & h' & b' & ->). by exists l', n', h', b'. Qed.

(** The receiving half of a connection, seen from outside: the bytes not read yet and the number of the next one. *)
Record stream := MkStream { queue : list Z; expected : Z }.
Definition stream_of (c : tTCPConnection) : stream := MkStream (contents (RecievedBuffer c)) (NextSequenceRcv c).

Definition in_sync (c : tTCPConnection) : Prop := conn_ok c /\ State c = TCP_ST_ESTABLISHED /\ HighestSequenceRcvd c = NextSequenceRcv c.

(** From [c] to [c'], still in step with the peer, the stream now [st]. *)
Record received (c c' : tTCPConnection) (st : stream) : Prop := {
  r_evolves : evolves c c'; r_sync : in_sync c'; r_space : Space (RecievedBuffer c') = Space (RecievedBuffer c); r_stream : stream_of c' = st }.

Lemma buffer_len c : conn_ok c -> Length (RecievedBuffer c) = len (contents (RecievedBuffer c)).
Proof. intros Hc. symmetry. apply contents_len, Hc. Qed.

Lemma Append_run s k c payload n : conns s !! k = Some c -> conn_ok c -> 0 < n < 2147483648 -> n <= len payload ->
  if Space (RecievedBuffer c) <? len (contents (RecievedBuffer c)) + n then
    TCP_INT_AppendRecieved k payload n s = Ok 1 (upd_out (t_out s ++ [MarkAvaliable k true]) s)
  else exists b, TCP_INT_AppendRecieved k payload n s = Ok 0 (upd_out (t_out s ++ [MarkAvaliable k true]) (upd_conns (<[k := set_Buffer b c]> (conns s)) s)) /\
    RingBuffer.ok b /\ Space b = Space (RecievedBuffer c) /\ contents b = contents (RecievedBuffer c) ++ take (Z.to_nat n) payload.
Proof.
  intros Hk Hc Hn Hp. pose proof (buffer_len _ Hc) as Hl. pose proof (k_buffer _ Hc) as Hb. pose proof Hb as (HS & _ & HL & _).
  unfold TCP_INT_AppendRecieved. rewrite (bind_conn _ c) by done. rewrite Hl in *. rewrite u32_small by lia.
  destruct (Space (RecievedBuffer c) <? len (contents (RecievedBuffer c)) + n) eqn:E; bools; [done|].
  destruct (RingBuffer.write_law (RecievedBuffer c) payload n Hb ltac:(lia) Hp) as (b & Hw & Hbo & Hsp & Hcon).
  exists b. rewrite Z.min_l in Hcon, Hw by lia. split; [|done].
  unfold write_ring. rewrite bind_assoc, (bind_conn _ c) by done. unfold bind at 1, lift. rewrite Hw. done.
Qed.

Lemma Update_sync s k c : conns s !! k = Some c -> HighestSequenceRcvd c = NextSequenceRcv c -> TCP_INT_UpdateRecievedFromFuture k s = Ok tt s.
Proof. intros Hk H. unfold TCP_INT_UpdateRecievedFromFuture. rewrite (bind_conn _ c) by done. cbv zeta. by rewrite H, Z.eqb_refl. Qed.

(** The end of a step that takes data: perhaps an acknowledgement at once, and the timer. *)
Definition finish_data (k : Z) : M tcp tstop Z :=
  do c <- conn_at k;
  (if TCP_DACK_THRESHOLD <? u32 (NextSequenceRcv c - LastACKSequence c) then
     TCP_INT_SendACK IfType IfAddress after k;;; emit (RemoveTimer k) else ret tt);;;
  emit (ScheduleTimer k TCP_DACK_TIMEOUT);;; ret 0.

Lemma finish_data_run s k c : 0 <= after < 256 -> conns s !! k = Some c -> conn_ok c ->
  exists s' c' eff, finish_data k s = Ok 0 s' /\ framed s s' /\ conns s' = <[k := c']> (conns s) /\
    (c' = c \/ c' = set_LastACK (NextSequenceRcv c) c) /\ t_out s' = t_out s ++ eff /\ Forall (is_ack_of c) eff.
Proof.
  intros Haf Hk Hc. unfold finish_data. rewrite (bind_conn _ c) by done.
  destruct (TCP_DACK_THRESHOLD <? _).
  - destruct (SendACK_run s k c Haf Hk Hc) as (s1 & ck & Hrun & Hf & Hcs & Ho).
    rewrite !bind_assoc, (bind_Ok _ _ _ _ _ Hrun).
    eexists _, _, [Sent _ _ _ _; RemoveTimer k; ScheduleTimer k TCP_DACK_TIMEOUT]. split; [reflexivity|]. split; [exact Hf|].
    split; [exact Hcs|]. split; [by right|]. split; [cbn; rewrite Ho, <- !app_assoc; reflexivity|]. by repeat constructor.
  - eexists _, c, [ScheduleTimer k TCP_DACK_TIMEOUT]. split; [reflexivity|]. split; [done|]. split; [symmetry; by apply insert_id|].
    split; [by left|]. split; [done|]. by repeat constructor.
Qed.

(** A segment that is the next one: taken whole, or dropped without an acknowledgement when it does not fit. *)
Lemma in_sequence_run s k c payload n : 0 <= after < 256 -> conns s !! k = Some c -> in_sync c -> 0 < n < 2147483648 -> n <= len payload ->
  exists s' c' eff, in_sequence IfType IfAddress after k payload n s = Ok 0 s' /\ framed s s' /\ conns s' = <[k := c']> (conns s) /\
    t_out s' = t_out s ++ eff /\ Forall (is_ack_of c') eff /\
    received c c' (if Space (RecievedBuffer c) <? len (contents (RecievedBuffer c)) + n then stream_of c
      else MkStream (contents (RecievedBuffer c) ++ take (Z.to_nat n) payload) (u32 (NextSequenceRcv c + n))).
Proof.
  intros Haf Hk Hsync. pose proof Hsync as (Hc & Hst & Hhi). intros Hn Hp. pose proof (Append_run s k c payload n Hk Hc Hn Hp) as Ha.
  unfold in_sequence. rewrite (u32_small n) by lia. destruct (Space (RecievedBuffer c) <? _) eqn:E.
  - rewrite (bind_Ok _ _ _ _ _ Ha). eexists _, c, [MarkAvaliable k true]. split; [reflexivity|]. split; [done|].
    split; [symmetry; by apply insert_id|]. split; [done|]. split; [by repeat constructor|]. split; [apply evolves_refl|done..].
  - destruct Ha as (b & Ha & Hb & Hsp & Hcon). rewrite (bind_Ok _ _ _ _ _ Ha).
    set (s1 := upd_out _ _) in *. change (negb (0 =? 0)) with false. cbv iota.
    set (cb := set_Buffer b c) in *.
    assert (conns s1 !! k = Some cb) as Hk1 by apply lookup_insert_eq.
    set (cn := set_Rcv (u32 (NextSequenceRcv c + n)) (set_Highest (u32 (NextSequenceRcv c + n)) cb)).
    erewrite bind_Ok; [|apply (on_conn_to _ _ cb cn); [done|]; cbn; by rewrite Hhi, Z.eqb_refl].
    set (s2 := upd_conns _ s1).
    assert (conns s2 !! k = Some cn) as Hk2 by apply lookup_insert_eq.
    rewrite (bind_Ok _ _ _ _ _ (Update_sync s2 k cn Hk2 eq_refl)).
    assert (conn_ok cn) as Hcn. { destruct Hc as [Hi Hr _ [_ Hs] ]. split; try done. split; [apply u32_in|done]. }
    destruct (finish_data_run s2 k cn Haf Hk2 Hcn) as (s3 & c' & eff & Hrun & Hf & Hcs & Hor & Ho & Hack).
    exists s3, c', (MarkAvaliable k true :: eff). split; [exact Hrun|]. split; [exact Hf|].
    split. { rewrite Hcs. unfold s2, s1. cbn [conns upd_conns upd_out]. by rewrite !insert_insert_eq. }
    split. { rewrite Ho. unfold s2, s1. cbn [t_out upd_conns upd_out]. by rewrite <- app_assoc. }
    split. { constructor; [done|]. destruct Hor as [-> | ->]; exact Hack. }
    assert (in_sync c') as Hs'. { destruct Hor as [-> | ->]; split_and!; try done. destruct Hcn. by split. }
    split; [|done|by destruct Hor as [-> | ->]|destruct Hor as [-> | ->]; unfold stream_of; cbn; by rewrite Hcon].
    destruct Hor as [-> | ->]; [exists (LastACKSequence c)|exists (u32 (NextSequenceRcv c + n))]; by exists (u32 (NextSequenceRcv c + n)), (u32 (NextSequenceRcv c + n)), b.
Qed.

(** ** Any segment of an open connection *)
Definition data_offset h : Z := Z.shiftr (DataOffset h) 4 * 4.
Definition payload_of h (packet : list Z) (L : Z) : list Z := sub (data_offset h) (L - data_offset h) packet.

(** A segment as it should be, with none of SYN, FIN and RST. *)
Record plain h (packet : list Z) (L : Z) : Prop := {
  p_off : 0 <= data_offset h <= L; p_len : L <= len packet; p_max : L <= 65535;
  p_syn : flag (Flags h) TCP_FLAG_SYN = false; p_fin : flag (Flags h) TCP_FLAG_FIN = false; p_rst : flag (Flags h) TCP_FLAG_RST = false }.

(** A segment that has data has the data that comes next, or is outside the window. *)
Definition not_ahead (next : Z) h (data : list Z) : Prop :=
  data = [] \/ SequenceNumber h = next \/ TCP_WINDOW_SIZE <= u32 (SequenceNumber h - next).

(** What a segment does to the stream: the next data are taken when there is room; an empty segment that is
    not a bare acknowledgement counts as one byte. *)
Definition accept (cap : Z) (st : stream) h (data : list Z) : stream :=
  if len data =? 0 then if Flags h =? TCP_FLAG_ACK then st else MkStream (queue st) (u32 (expected st + 1))
  else if (SequenceNumber h =? expected st) && (len (queue st) + len data <=? cap) then MkStream (queue st ++ data) (u32 (expected st + len data))
  else st.

Lemma Ack_received s k c : 0 <= after < 256 -> conns s !! k = Some c -> in_sync c ->
  exists s' c' eff, TCP_INT_SendACK IfType IfAddress after k s = Ok tt s' /\ framed s s' /\ conns s' = <[k := c']> (conns s) /\
    t_out s' = t_out s ++ eff /\ Forall (is_ack_of c') eff /\ received c c' (stream_of c).
Proof.
  intros Haf Hk (Hc & Hst & Hhi). destruct (SendACK_run s k c Haf Hk Hc) as (s1 & ck & Hrun & Hf & Hcs & Ho).
  eexists _, _, _. split; [exact Hrun|]. split; [exact Hf|]. split; [exact Hcs|]. split; [exact Ho|].
  split; [by repeat constructor|]. split; [by exists (NextSequenceRcv c), (NextSequenceRcv c), (HighestSequenceRcvd c), (RecievedBuffer c); destruct c| |done..].
  split_and!; [|done..]. destruct Hc. by split.
Qed.

Lemma Handle_plain s k c h packet L : 0 <= after < 256 -> conns s !! k = Some c -> in_sync c -> plain h packet L ->
  not_ahead (NextSequenceRcv c) h (payload_of h packet L) ->
  exists s' c' eff, TCP_INT_HandleConnectionPacket IfType IfAddress after k h packet L s = Ok 0 s' /\ framed s s' /\ conns s' = <[k := c']> (conns s) /\
    t_out s' = t_out s ++ eff /\ Forall (is_ack_of c') eff /\
    received c c' (accept (Space (RecievedBuffer c)) (stream_of c) h (payload_of h packet L)).
Proof.
  intros Haf Hk Hsync [Ho Hl Hm Hs Hf Hr] Hna. pose proof Hsync as (Hc & Hst & Hhi).
  unfold TCP_INT_HandleConnectionPacket. rewrite (bind_conn _ c) by done. rewrite Hst, Hs. cbn [bool_decide]. rewrite !bool_decide_eq_false_2 by done.
  rewrite bind_ret, (bind_conn _ c) by done. rewrite Hst. unfold established. rewrite (bind_conn _ c) by done. rewrite Hr, Hf.
  fold (data_offset h). cbv zeta. rewrite i32_small by lia.
  assert (len (payload_of h packet L) = L - data_offset h) as Hpl by (unfold payload_of; rewrite len_sub; lia).
  unfold accept. rewrite Hpl. cbn [queue expected stream_of].
  destruct (L - data_offset h =? 0) eqn:E0; bools.
  { destruct (Flags h =? TCP_FLAG_ACK).
    - exists s, c, []. rewrite insert_id by done. rewrite app_nil_r. split_and!; try done. split; [apply evolves_refl|done..].
    - rewrite Hhi, Z.eqb_refl. set (c1 := set_Rcv _ _). unfold put_conn at 1.
      set (s1 := upd_conns (<[k := c1]> (conns s)) s). rewrite (bind_Ok _ _ s tt s1) by done.
      destruct (Ack_received s1 k c1) as (s2 & c2 & eff & Hrun & Hf2 & Hcs & Hou & Hack & Hrec);
        [done|apply lookup_insert_eq|split_and!; [destruct Hc as [? ? ? [? ?] ]; split; try done; split; [apply u32_in|done]|done..]|].
      exists s2, c2, eff. rewrite (bind_Ok _ _ _ _ _ Hrun). split; [done|]. split; [exact Hf2|].
      split; [rewrite Hcs; apply insert_insert_eq|]. split; [exact Hou|]. split; [done|]. destruct Hrec as [He Hsy Hsp Hst2]. split; done. }
  assert (SequenceNumber h = NextSequenceRcv c \/ TCP_WINDOW_SIZE <= u32 (SequenceNumber h - NextSequenceRcv c)) as Hna2.
  { destruct Hna as [E|E]; [|done]. rewrite E in Hpl. change (len (@nil Z)) with 0 in Hpl. lia. }
  destruct (SequenceNumber h =? NextSequenceRcv c) eqn:Es; bools; cbn [andb].
  { destruct (in_sequence_run s k c (drop (Z.to_nat (data_offset h)) packet) (L - data_offset h)) as (s' & c' & eff & Hrun & H);
      [done..|lia|rewrite len_drop; lia|]. exists s', c', eff. split; [exact Hrun|]. unfold payload_of, sub.
    replace (len (contents (RecievedBuffer c)) + (L - data_offset h) <=? Space (RecievedBuffer c)) with
      (negb (Space (RecievedBuffer c) <? len (contents (RecievedBuffer c)) + (L - data_offset h))) by (rewrite Z.leb_antisym; done).
    by destruct (Space (RecievedBuffer c) <? _). }
  destruct (u32 (SequenceNumber h - NextSequenceRcv c) <? TCP_WINDOW_SIZE) eqn:Ew; bools; [lia|].
  destruct (Ack_received s k c Haf Hk Hsync) as (s' & c' & eff & Hrun & H). rewrite (bind_Ok _ _ _ _ _ Hrun). by exists s', c', eff.
Qed.

(** ** Reading *)
Lemma Read_run s k c n Buffer : conns s !! k = Some c -> in_sync c -> 0 <= n -> n <= len Buffer ->
  let m := Z.min n (len (contents (RecievedBuffer c))) in
  exists s' c' eff, TCP_Client_Read k n Buffer true s = Ok (m, take (Z.to_nat m) (contents (RecievedBuffer c)) ++ drop (Z.to_nat m) Buffer) s' /\
    framed s s' /\ conns s' = <[k := c']> (conns s) /\ t_out s' = t_out s ++ eff /\ Forall (is_ack_of c') eff /\
    received c c' (MkStream (drop (Z.to_nat m) (contents (RecievedBuffer c))) (NextSequenceRcv c)).
Proof.
  intros Hk Hsync Hn HB m. pose proof Hsync as (Hc & Hst & Hhi).
  destruct (RingBuffer.read_law Buffer (RecievedBuffer c) n (k_buffer _ Hc) Hn HB) as (b & Hr & Hb & Hsp & Hcon). fold m in Hr, Hcon.
  unfold TCP_Client_Read. rewrite (bind_conn _ c) by done. rewrite Hst. cbn [past_established negb].
  unfold emit at 1. erewrite bind_Ok by reflexivity. rewrite (bind_conn _ c) by done. unfold bind at 1, lift. rewrite Hr.
  unfold put_conn at 1. erewrite bind_Ok by reflexivity. cbn [fst snd].
  set (c' := set_Buffer b c).
  assert (received c c' (MkStream (drop (Z.to_nat m) (contents (RecievedBuffer c))) (NextSequenceRcv c))) as Hrec.
  { split; [by exists (LastACKSequence c), (NextSequenceRcv c), (HighestSequenceRcvd c), b| |done|unfold stream_of; cbn; by rewrite Hcon].
    split_and!; [|done..]. destruct Hc. by split. }
  destruct ((m =? 0) || (Length b =? 0)).
  - eexists _, c', [SelectNode k; MarkAvaliable k false]. split; [reflexivity|]. split; [done|]. split; [done|].
    split; [cbn; by rewrite <- app_assoc|]. split; [by repeat constructor|done].
  - eexists _, c', [SelectNode k]. split; [reflexivity|]. split; [done|]. split; [done|]. split; [done|]. split; [by repeat constructor|done].
Qed.

(** ** Histories of a connection *)
Inductive event := Arrives (h : tTCPHeader) (packet : list Z) (L : Z) | Reads (n : Z).

Definition perform (k : Z) (e : event) : M tcp tstop (list Z) :=
  match e with
  | Arrives h packet L => do _ <- TCP_INT_HandleConnectionPacket IfType IfAddress after k h packet L; ret []
  | Reads n => do r <- TCP_Client_Read k n (replicate (Z.to_nat n) 0) true; ret (take (Z.to_nat r.1) r.2)
  end.
Fixpoint perform_all (k : Z) (es : list event) : M tcp tstop (list (list Z)) :=
  match es with [] => ret [] | e :: es => do o <- perform k e; do os <- perform_all k es; ret (o :: os) end.

(** The specification: a queue of at most [cap] bytes. *)
Definition spec (cap : Z) (st : stream) (e : event) : list Z * stream :=
  match e with
  | Arrives h packet L => ([], accept cap st h (payload_of h packet L))
  | Reads n => (take (Z.to_nat n) (queue st), MkStream (drop (Z.to_nat n) (queue st)) (expected st))
  end.
Fixpoint spec_all (cap : Z) (st : stream) (es : list event) : list (list Z * stream) :=
  match es with [] => [] | e :: es => spec cap st e :: spec_all cap (spec cap st e).2 es end.
Fixpoint allowed (cap : Z) (st : stream) (es : list event) : Prop :=
  match es with
  | [] => True
  | e :: es =>
      match e with Arrives h packet L => plain h packet L /\ not_ahead (expected st) h (payload_of h packet L) | Reads n => 0 <= n end /\
      allowed cap (spec cap st e).2 es
  end.

Lemma perform_run s k c e : 0 <= after < 256 -> conns s !! k = Some c -> in_sync c -> allowed (Space (RecievedBuffer c)) (stream_of c) [e] ->
  let r := spec (Space (RecievedBuffer c)) (stream_of c) e in
  exists s' c' eff, perform k e s = Ok r.1 s' /\ framed s s' /\ conns s' = <[k := c']> (conns s) /\ t_out s' = t_out s ++ eff /\
    Forall (acks (expected r.2)) eff /\ received c c' r.2.
Proof.
  intros Haf Hk Hsync [Hal _]. destruct e as [h packet L|n].
  - destruct Hal as [Hp Hna]. destruct (Handle_plain s k c h packet L Haf Hk Hsync Hp Hna) as (s' & c' & eff & Hrun & Hf & Hcs & Ho & Hack & Hrec).
    exists s', c', eff. unfold perform. rewrite (bind_Ok _ _ _ _ _ Hrun). split_and!; try done.
    cbn [spec snd]. rewrite <- (r_stream _ _ _ Hrec). exact Hack.
  - destruct (Read_run s k c n (replicate (Z.to_nat n) 0) Hk Hsync Hal) as (s' & c' & eff & Hrun & Hf & Hcs & Ho & Hack & Hrec);
      [unfold len; rewrite length_replicate; lia|].
    set (m := Z.min n _) in *. set (q := contents (RecievedBuffer c)) in *.
    assert (take (Z.to_nat m) q = take (Z.to_nat n) q /\ drop (Z.to_nat m) q = drop (Z.to_nat n) q) as [Et Ed].
    { destruct (Z.le_gt_cases n (len q)); [by replace m with n by lia|]. unfold len in *.
      rewrite !take_ge, !drop_ge by lia. done. }
    exists s', c', eff. unfold perform. rewrite (bind_Ok _ _ _ _ _ Hrun). cbn [spec fst snd queue expected stream_of].
    fold q. rewrite <- Et, <- Ed. split_and!; try done.
    + unfold ret. f_equal. rewrite take_app_le by (rewrite length_take; unfold len in *; lia). rewrite take_take. f_equal. lia.
    + replace (NextSequenceRcv c) with (NextSequenceRcv c'); [exact Hack|]. by injection (r_stream _ _ _ Hrec).
Qed.

(** ** Writing *)
(** The segments among the effects. *)
Definition sent (eff : list effect) : list (tTCPHeader * list Z) :=
  omap (fun e => match e with Sent _ _ h data => Some (h, data) | _ => None end) eff.

(** Segments of at most the maximal size that carry [data], numbered from [seq]. *)
Definition data_header (lp rp seq : Z) h : Prop :=
  SourcePort h = lp /\ DestPort h = rp /\ SequenceNumber h = seq /\ DataOffset h = header_words /\ Flags h = Z.lor TCP_FLAG_PSH TCP_FLAG_ACK.
Fixpoint carries (lp rp seq : Z) (ps : list (tTCPHeader * list Z)) (data : list Z) : Prop :=
  match ps with
  | [] => data = []
  | (h, d) :: ps => data_header lp rp seq h /\ 0 < len d <= TCP_MAX_PACKET_SIZE /\
      exists rest, data = d ++ rest /\ carries lp rp (u32 (seq + len d)) ps rest
  end.

Lemma SendData_run s k c n Data : 0 <= after < 256 -> conns s !! k = Some c -> conn_ok c -> bytes Data -> 0 <= n <= len Data -> n <= 65000 ->
  exists s' i d h, TCP_INT_SendDataPacket IfType IfAddress after junk k n Data s = Ok tt s' /\ framed s s' /\
    conns s' = <[k := set_Send (u32 (NextSequenceSend c + n)) c]> (conns s) /\
    t_out s' = t_out s ++ [RemoveTimer k; Sent i d h (take (Z.to_nat n) Data)] /\
    data_header (LocalPort c) (RemotePort c) (NextSequenceSend c) h.
Proof.
  intros Haf Hk Hc Hd Hn Hn2. pose proof (remote_len _ Hc) as Hrl. destruct Hc as [Hi [Hrb Hrl'] Hb Hs].
  unfold TCP_INT_SendDataPacket. unfold emit at 1. erewrite bind_Ok by reflexivity.
  set (s1 := upd_out _ s). rewrite (bind_conn _ c) by done. set (h := MkHdr _ _ _ _ _ _ _ _ _).
  destruct (SendPacket_run s1 (c_Interface c) (RemoteIP c) h n Data) as (ck & Hrun & _); try done.
  unfold TCP_SendPacket. rewrite bind_assoc, (bind_conn _ c) by done. rewrite (bind_Ok _ _ _ _ _ Hrun).
  rewrite (on_conn_run _ _ c) by done. eexists _, _, _, _. split; [reflexivity|]. split; [done|]. split; [done|].
  split; [cbn; by rewrite <- app_assoc|done].
Qed.

Lemma send_loop_run k fuel : forall s c L Buffer, 0 <= after < 256 -> conns s !! k = Some c -> conn_ok c -> bytes Buffer ->
  0 < L <= len Buffer -> L / TCP_MAX_PACKET_SIZE < Z.of_nat fuel ->
  exists s' eff, send_loop IfType IfAddress after junk fuel k L Buffer s = Ok tt s' /\ framed s s' /\
    conns s' = <[k := set_Send (u32 (NextSequenceSend c + L)) c]> (conns s) /\ t_out s' = t_out s ++ eff /\
    carries (LocalPort c) (RemotePort c) (NextSequenceSend c) (sent eff) (take (Z.to_nat L) Buffer).
Proof.
  unfold TCP_MAX_PACKET_SIZE. induction fuel as [|fuel IH]; intros s c L Buffer Haf Hk Hc HB HL Hfuel; [dlia|].
  cbn [send_loop]. unfold TCP_MAX_PACKET_SIZE. set (n := if L <? 1024 then L else 1024).
  assert (n = Z.min L 1024) as Hn by (unfold n; destruct (L <? 1024) eqn:E; bools; lia). clearbody n.
  destruct (SendData_run s k c n Buffer) as (s1 & i & d & h & Hrun & Hf & Hcs & Ho & Hh); try done; [lia..|].
  rewrite (bind_Ok _ _ _ _ _ Hrun).
  assert (len (take (Z.to_nat n) Buffer) = n) as Hln by (rewrite len_take; lia).
  destruct (0 <? L - n) eqn:E; bools.
  - set (c1 := set_Send (u32 (NextSequenceSend c + n)) c) in *.
    destruct (IH s1 c1 (L - n) (drop (Z.to_nat n) Buffer)) as (s2 & eff & Hrun2 & Hf2 & Hcs2 & Ho2 & Hca2); try done.
    + rewrite Hcs. apply lookup_insert_eq.
    + destruct Hc as [? ? ? [? ?] ]. split; try done. split; [done|apply u32_in].
    + by apply Forall_drop.
    + rewrite len_drop; lia.
    + assert (n = 1024) as -> by lia. dlia.
    + exists s2, ([RemoveTimer k; Sent i d h (take (Z.to_nat n) Buffer)] ++ eff). split; [exact Hrun2|].
      split; [by eapply framed_trans|]. split.
      { rewrite Hcs2, Hcs, insert_insert_eq. f_equal. unfold c1, set_Send. cbn. f_equal. rewrite u32_plus. f_equal. lia. }
      split; [by rewrite Ho2, Ho, <- app_assoc|]. cbn [sent omap list_omap app carries]. split; [done|]. unfold TCP_MAX_PACKET_SIZE. split; [lia|].
      exists (take (Z.to_nat (L - n)) (drop (Z.to_nat n) Buffer)). split.
      { rewrite take_take_drop. f_equal. lia. }
      rewrite Hln. exact Hca2.
  - assert (L = n) as -> by lia. eexists s1, [_; _]. split; [done|]. split; [done|]. split; [done|]. split; [exact Ho|].
    cbn [sent omap list_omap carries]. split; [done|]. unfold TCP_MAX_PACKET_SIZE. split; [lia|]. exists []. by rewrite app_nil_r.
Qed.

(** ** Finding the connection of a segment *)
Definition find_connection (Interface : Z) (Address : list Z) (DstPort SrcPort : Z) : M tcp tstop Z :=
  do s <- get_state;
  do srv <- match_server (S (size (listeners s))) (gTCP_Listeners s) Interface DstPort;
  do first <- (if negb (srv =? 0) then do l <- listener_at srv; ret (Connections l) else ret (gTCP_OutbountCons s));
  match_conn IfType (S (size (conns s))) first Interface Address SrcPort.

Lemma match_server_pure fuel : forall srv i p s r s', match_server fuel srv i p s = Ok r s' -> s' = s.
Proof.
  induction fuel as [|fuel IH]; intros srv i p s r s'; cbn [match_server]; destruct (srv =? 0); try (by intros [= <- <-]).
  unfold bind, listener_at. destruct (listeners s !! srv); [|done]. repeat case_match; try apply IH; unfold ret; intros; by simplify_eq.
Qed.
Lemma match_conn_pure fuel : forall k i a p s r s', match_conn IfType fuel k i a p s = Ok r s' -> s' = s.
Proof.
  induction fuel as [|fuel IH]; intros k i a p s r s'; cbn [match_conn]; destruct (k =? 0); try (by intros [= <- <-]).
  unfold bind, conn_at, lift. destruct (conns s !! k); [|done]. destruct (IPStack_CompareAddress _ _ _ _) as [ []|]; repeat case_match; try apply IH; unfold ret; intros; by simplify_eq.
Qed.

Lemma GetPacket_connection s s' i a h packet L k : find_connection i a (DestPort h) (SourcePort h) s = Ok k s -> k <> 0 ->
  TCP_INT_HandleConnectionPacket IfType IfAddress after k h packet L s = Ok 0 s' ->
  TCP_GetPacket IfType IfAddress after i a h packet L s = Ok tt s'.
Proof.
  intros Hf Hk Hrun. unfold find_connection in Hf. unfold TCP_GetPacket. rewrite bind_get in Hf. rewrite bind_get. apply Z.eqb_neq in Hk.
  apply bind_inv in Hf as (srv & s1 & Es & Hf). pose proof (match_server_pure _ _ _ _ _ _ _ Es) as ->.
  apply bind_inv in Hf as (first & s1 & El & Hf). rewrite (bind_Ok _ _ _ _ _ Es). destruct (negb (srv =? 0)).
  - apply bind_inv in El as (l & s2 & El & [= <- <-]). pose proof (listener_inv _ _ _ _ El) as [-> _].
    rewrite (bind_Ok _ _ _ _ _ El), (bind_Ok _ _ _ _ _ Hf), Hk, bind_assoc, (bind_Ok _ _ _ _ _ Hrun). done.
  - injection El as <- <-. rewrite (bind_Ok _ _ _ _ _ Hf), Hk, bind_assoc, (bind_Ok _ _ _ _ _ Hrun). done.
Qed.

(** The lookup sees of a connection only where it is linked and who its peer is. *)
Definition who (c : tTCPConnection) := (c_Next c, c_Interface c, RemotePort c, RemoteIP c).

Lemma match_conn_who fuel s s' : (forall j, who <$> conns s !! j = who <$> conns s' !! j) ->
  forall k i a p r, match_conn IfType fuel k i a p s = Ok r s -> match_conn IfType fuel k i a p s' = Ok r s'.
Proof.
  intros Hw. induction fuel as [|fuel IH]; intros k i a p r; cbn [match_conn]; destruct (k =? 0); try (by intros [= <-]).
  unfold bind, conn_at, lift. specialize (Hw k). destruct (conns s !! k) as [c|], (conns s' !! k) as [c'|]; try done.
  cbn in Hw. injection Hw as -> -> -> ->. destruct (IPStack_CompareAddress _ _ _ _) as [ []|]; repeat case_match; try apply IH; unfold ret; intros; by simplify_eq.
Qed.
(** And of a listener only where it is linked and what it listens to. *)
Definition what (l : tTCPListener) := (l_Next l, l_Port l, l_Interface l).
Lemma match_server_same fuel s s' : (forall j, what <$> listeners s !! j = what <$> listeners s' !! j) ->
  forall l i p r, match_server fuel l i p s = Ok r s -> match_server fuel l i p s' = Ok r s'.
Proof.
  intros Hw. induction fuel as [|fuel IH]; intros l i p r; cbn [match_server]; destruct (l =? 0); try (by intros [= <-]).
  unfold bind, listener_at. specialize (Hw l). destruct (listeners s !! l) as [x|], (listeners s' !! l) as [x'|]; try done.
  cbn in Hw. injection Hw as -> -> ->. repeat case_match; try apply IH; unfold ret; intros; by simplify_eq.
Qed.

Lemma framed_fields s s' : framed s s' -> listeners s' = listeners s /\ gTCP_Listeners s' = gTCP_Listeners s /\ gTCP_OutbountCons s' = gTCP_OutbountCons s.
Proof. unfold framed, upd_out, upd_conns. intros [=]. done. Qed.

Lemma find_connection_same s s' i a dp sp r k c c' :
  listeners s' = listeners s /\ gTCP_Listeners s' = gTCP_Listeners s /\ gTCP_OutbountCons s' = gTCP_OutbountCons s -> conns s !! k = Some c -> conns s' = <[k := c']> (conns s) -> who c' = who c ->
  find_connection i a dp sp s = Ok r s -> find_connection i a dp sp s' = Ok r s'.
Proof.
  intros (Hl & Hg & Hob) Hk Hcs Hw. unfold find_connection. rewrite !bind_get, Hl, Hg, Hob.
  assert (size (conns s') = size (conns s)) as -> by (rewrite Hcs; apply map_size_insert_Some; by eexists).
  assert (forall j, who <$> conns s !! j = who <$> conns s' !! j) as Hwho.
  { intros j. rewrite Hcs. destruct (decide (j = k)) as [->|]; [by rewrite lookup_insert_eq, Hk; cbn; rewrite Hw|by rewrite lookup_insert_ne]. }
  intros H. apply bind_inv in H as (srv & s1 & Es & H). pose proof (match_server_pure _ _ _ _ _ _ _ Es) as ->.
  erewrite bind_Ok; [|apply (match_server_same _ s); [intros j; by rewrite Hl|exact Es] ].
  apply bind_inv in H as (first & s1 & El & H). destruct (negb (srv =? 0)).
  - apply bind_inv in El as (l & s2 & El & [= <- <-]). apply listener_inv in El as [-> El].
    unfold bind, listener_at, ret. rewrite Hl, El. by apply (match_conn_who _ s).
  - injection El as <- <-. rewrite bind_ret. by apply (match_conn_who _ s).
Qed.

Lemma find_connection_stable s s' i a dp sp r k c c' : framed s s' -> conns s !! k = Some c -> conns s' = <[k := c']> (conns s) -> who c' = who c ->
  find_connection i a dp sp s = Ok r s -> find_connection i a dp sp s' = Ok r s'.
Proof. intros Hf. by apply find_connection_same, framed_fields. Qed.

Lemma match_server_port fuel : forall srv i p r s, match_server fuel srv i p s = Ok r s -> r <> 0 -> exists l, listeners s !! r = Some l /\ l_Port l = p.
Proof.
  induction fuel as [|fuel IH]; intros srv i p r s; cbn [match_server]; destruct (srv =? 0); try (by intros [= <-]).
  unfold bind, listener_at. destruct (listeners s !! srv) as [l|] eqn:El; [|done]. repeat case_match; try apply IH.
  intros [= <-] _. bools. by exists l.
Qed.

(** ** Delivering *)
Fixpoint deliver (Interface : Z) (Address : list Z) (ps : list (tTCPHeader * list Z)) : M tcp tstop unit :=
  match ps with
  | [] => ret tt
  | (h, d) :: ps => TCP_GetPacket IfType IfAddress after Interface Address h (header_bytes h ++ d) (20 + len d);;; deliver Interface Address ps
  end.

Lemma evolves_who c c' : evolves c c' -> who c' = who c.
Proof. by intros (l & n & m & b & ->). Qed.

Lemma received_trans c c1 c2 st1 st2 : received c c1 st1 -> received c1 c2 st2 -> received c c2 st2.
Proof. intros [H1 _ H2 _] [K1 K2 K3 K4]. split; [by eapply evolves_trans|done|congruence|done]. Qed.

Lemma deliver_run k i a lp rp ps : forall s c data, 0 <= after < 256 -> conns s !! k = Some c -> in_sync c -> k <> 0 ->
  find_connection i a rp lp s = Ok k s -> carries lp rp (NextSequenceRcv c) ps data ->
  len (contents (RecievedBuffer c)) + len data <= Space (RecievedBuffer c) ->
  exists s' c', deliver i a ps s = Ok tt s' /\ framed s s' /\ conns s' = <[k := c']> (conns s) /\
    find_connection i a rp lp s' = Ok k s' /\ 
    received c c' (MkStream (contents (RecievedBuffer c) ++ data) (u32 (NextSequenceRcv c + len data))).
Proof.
  induction ps as [|[h d] ps IH]; intros s c data Haf Hk Hsync Hk0 Hfind Hca Hroom.
  - cbn in Hca. subst data. exists s, c. rewrite insert_id by done. split_and!; try done. split; [apply evolves_refl|done..|].
    unfold stream_of. rewrite app_nil_r. change (len (@nil Z)) with 0. rewrite Z.add_0_r, u32_small; [done|]. apply Hsync.
  - destruct Hca as ((Hsp & Hdp & Hseq & Hoff & Hfl) & Hld & rest & -> & Hca). rewrite len_app in Hroom.
    pose proof (len_nonneg rest) as Hrest. unfold TCP_MAX_PACKET_SIZE in Hld.
    assert (data_offset h = 20) as Hdo by (unfold data_offset; rewrite Hoff; done).
    assert (payload_of h (header_bytes h ++ d) (20 + len d) = d) as Hpay.
    { unfold payload_of, sub. rewrite Hdo. rewrite drop_app_length' by done. apply take_ge. unfold len. lia. }
    destruct (Handle_plain s k c h (header_bytes h ++ d) (20 + len d)) as (s1 & c1 & eff & Hrun & Hf & Hcs & Ho & Hack & Hrec); try done.
    + split; try (by rewrite Hfl); try lia. rewrite len_app, header_len. lia.
    + right. by left.
    + rewrite Hpay in Hrec.
      assert (accept (Space (RecievedBuffer c)) (stream_of c) h d = MkStream (contents (RecievedBuffer c) ++ d) (u32 (NextSequenceRcv c + len d))) as Hacc.
      { unfold accept. rewrite (proj2 (Z.eqb_neq _ _)) by lia. cbn [stream_of expected queue]. rewrite Hseq, Z.eqb_refl. cbn [andb].
        by rewrite (proj2 (Z.leb_le _ _)) by lia. }
      rewrite Hacc in Hrec. pose proof (r_stream _ _ _ Hrec) as Hst. injection Hst as Hq Hn.
      assert (find_connection i a rp lp s1 = Ok k s1) as Hfind1. { eapply find_connection_stable; try done. apply evolves_who, Hrec. }
      rewrite <- Hn in Hca.
      destruct (IH s1 c1 rest) as (s2 & c2 & Hrun2 & Hf2 & Hcs2 & Hfind2 & Hrec2); try done.
      * rewrite Hcs. apply lookup_insert_eq.
      * apply Hrec.
      * rewrite Hq, len_app, (r_space _ _ _ Hrec). lia.
      * exists s2, c2. split. { cbn [deliver]. erewrite bind_Ok; [exact Hrun2|]. apply (GetPacket_connection _ _ _ _ _ _ _ k); [by rewrite Hsp, Hdp|done..]. }
        split; [by eapply framed_trans|]. split; [by rewrite Hcs2, Hcs, insert_insert_eq|]. split; [done|].
        eapply received_trans; [exact Hrec|]. rewrite Hq, Hn, u32_plus in Hrec2. rewrite len_app, app_assoc, Z.add_assoc. exact Hrec2.
Qed.

(** ** Opening a connection *)
Definition links s (k : Z) : option Z := c_Next <$> conns s !! k.
(** The connections of a listener, in order; the next object is new. *)
Record server_ok s (srv : Z) (l : tTCPListener) (ks : list Z) : Prop := {
  v_listener : listeners s !! srv = Some l;
  v_chain : chain (links s) (Connections l) ks;
  v_nodup : NoDup ks;
  v_tail : ConnectionsTail l = final ks;
  v_fresh : 0 < t_next s /\ forall k, t_next s <= k -> conns s !! k = None }.

Definition opened (i srv : Z) (a : list Z) (rb : tRingBuffer) (l : tTCPListener) (isn : Z) h : tTCPConnection :=
  let rcv := u32 (SequenceNumber h + 1) in
  MkConn 0 (ConnectionsTail l) srv TCP_ST_SYN_RCVD (l_Port l) (SourcePort h) i (NextID l) 1 (u32 isn) rcv (SequenceNumber h) rb rcv
    (replicate (Z.to_nat (TCP_WINDOW_SIZE + TCP_WINDOW_SIZE / 8)) 0) (dest_of i a ++ drop (Z.to_nat (IPStack_GetAddressSize (IfType i))) (replicate (Z.to_nat 16) 0)).

(** The peer of a connection. *)
Definition peer (c : tTCPConnection) := (c_Interface c, RemotePort c, RemoteIP c).

Lemma replicate_bytes n : bytes (replicate n 0).
Proof. apply Forall_replicate. lia. Qed.

Lemma opened_ok i srv a rb l isn h : iface_ok i -> bytes a -> IPStack_GetAddressSize (IfType i) <= len a -> RingBuffer.ok rb -> conn_ok (opened i srv a rb l isn h).
Proof.
  intros Hi Ha Hl Hrb. split; [done| |done|split; apply u32_in]. cbn [RemoteIP opened].
  split; [apply Forall_app; split; [by apply Forall_take|apply Forall_drop, replicate_bytes]|].
  assert (0 <= IPStack_GetAddressSize (IfType i) <= 16) by (destruct Hi as [ [-> | ->] _]; done).
  rewrite len_app, len_drop by lia. unfold dest_of. rewrite len_take by lia. change (len (replicate (Z.to_nat 16) 0)) with 16. lia.
Qed.

Lemma Create_run s i st : exists rb, RingBuffer.ok rb /\ contents rb = [] /\ Space rb = TCP_RECIEVE_BUFFER_SIZE /\
  TCP_int_CreateConnection i st s = Ok (t_next s)
    (upd_out (t_out s ++ [AllocateTimer (t_next s)]) (upd_conns (<[t_next s := MkConn 0 0 0 st 0xFFFF 0xFFFF i 0 1 0 0 0 rb 0
      (replicate (Z.to_nat (TCP_WINDOW_SIZE + TCP_WINDOW_SIZE / 8)) 0) (replicate (Z.to_nat 16) 0)]> (conns s))
      (MkTcp (gTCP_Listeners s) (gTCP_OutbountCons s) (gaTCP_PortBitmap s) (giTCP_NextOutPort s) (conns s) (listeners s) (t_next s + 1) (t_rands s) (t_uid s) (t_errno s) (t_out s)))).
Proof.
  destruct (RingBufferProps.create_ok TCP_RECIEVE_BUFFER_SIZE) as (rb & Hrb & Hok & Hcon & Hsp); [unfold TCP_RECIEVE_BUFFER_SIZE; lia|].
  exists rb. split_and!; try done. unfold TCP_int_CreateConnection, new_address. erewrite bind_Ok by reflexivity.
  unfold bind at 1, lift at 1. rewrite Hrb. done.
Qed.

(** The answer to a SYN. *)
Definition syn_ack (l : tTCPListener) (isn : Z) h (h' : tTCPHeader) : Prop :=
  SourcePort h' = l_Port l /\ DestPort h' = SourcePort h /\ SequenceNumber h' = u32 isn /\ AcknowlegementNumber h' = u32 (SequenceNumber h + 1) /\
  DataOffset h' = header_words /\ Flags h' = Z.lor TCP_FLAG_ACK TCP_FLAG_SYN.

(** Hanging a new connection behind the last one. *)
Lemma link_tail s s4 l ks b cb : conns s4 = <[b := cb]> (conns s) -> chain (links s) (Connections l) ks -> NoDup ks ->
  ConnectionsTail l = final ks -> conns s !! b = None -> b <> 0 -> c_Next cb = 0 ->
  exists m, (if negb (Connections l =? 0) then
       ASSERT (negb (ConnectionsTail l =? 0));;; on_conn (ConnectionsTail l) (fun c => set_links b (c_Prev c) c)
     else ASSERT (ConnectionsTail l =? 0)) s4 = Ok tt (upd_conns m s4) /\
    m !! b = Some cb /\ (forall k, k <> b -> peer <$> m !! k = peer <$> conns s !! k) /\
    chain (fun k => c_Next <$> m !! k) (if Connections l =? 0 then b else Connections l) (ks ++ [b]) /\ NoDup (ks ++ [b]).
Proof.
  intros H4 Hch Hnd Htl Hfr Hb0 Hcb.
  assert (b ∉ ks) as Hbk. { intros Hin. destruct (lseg_in _ _ _ _ Hch Hin) as [_ [n Hn] ]. unfold links in Hn. by rewrite Hfr in Hn. }
  assert (NoDup (ks ++ [b])) as Hnd'. { apply NoDup_app. split; [done|]. split; [set_solver|apply NoDup_singleton]. }
  pose proof (chain_first _ _ Hch) as Hfirst. rewrite Htl. destruct (decide (ks = [])) as [->|Hks].
  - cbn in Hfirst. rewrite Hfirst. change (final []) with 0. cbn [Z.eqb negb]. exists (conns s4). split_and!; try done.
    + unfold ASSERT, ret. f_equal. by destruct s4.
    + rewrite H4. apply lookup_insert_eq.
    + intros k Hk. by rewrite H4, lookup_insert_ne.
    + cbn. split_and!; try done. exists 0. rewrite H4, lookup_insert_eq. cbn. by rewrite Hcb.
  - pose proof (final_in ks Hks) as Hin. destruct (lseg_in _ _ _ _ Hch Hin) as [Ht0 [n Hn] ]. unfold links in Hn.
    destruct (conns s !! final ks) as [ct|] eqn:Ect; [|done].
    assert (Connections l <> 0) as Hc0. { rewrite Hfirst. destruct ks as [|k ks]; [done|]. apply (lseg_in _ _ _ k Hch). set_solver. }
    assert (final ks <> b) as Htb by congruence.
    rewrite (proj2 (Z.eqb_neq _ _) Hc0), (proj2 (Z.eqb_neq _ _) Ht0). cbn [negb]. unfold ASSERT. rewrite bind_ret.
    rewrite (on_conn_run _ _ ct) by (by rewrite H4, lookup_insert_ne). eexists. split; [reflexivity|]. rewrite H4.
    split; [by rewrite lookup_insert_ne, lookup_insert_eq|]. split; [|split; [|done] ].
    + intros k Hk. destruct (decide (k = final ks)) as [->|]; [by rewrite lookup_insert_eq, Ect|]. by rewrite !lookup_insert_ne.
    + apply lseg_app. exists b. split.
      * replace (Connections l) with (if ks is [] then b else Connections l) by (by destruct ks).
        eapply lseg_relink; [exact Hch|done| |].
        -- intros k Hk Hkf. assert (k <> b) by (by intros ->). by rewrite !lookup_insert_ne.
        -- intros _. by rewrite lookup_insert_eq.
      * cbn. split_and!; try done. exists 0. rewrite lookup_insert_ne, lookup_insert_eq by done. cbn. by rewrite Hcb.
Qed.

Lemma open_from_run s i srv l ks a h : 0 <= after < 256 -> server_ok s srv l ks -> iface_ok i -> bytes a ->
  IPStack_GetAddressSize (IfType i) <= len a ->
  let b := t_next s in let isn := default 0 (head (t_rands s)) in
  exists s' rb l' d h', open_from IfType IfAddress after i srv a h s = Ok tt s' /\ syn_ack l isn h h' /\
    t_out s' = t_out s ++ [AllocateTimer b; MarkAvaliable srv true; Sent i d h' [] ] /\
    RingBuffer.ok rb /\ contents rb = [] /\ Space rb = TCP_RECIEVE_BUFFER_SIZE /\
    conns s' !! b = Some (set_Send (u32 (u32 isn + 1)) (opened i srv a rb l isn h)) /\
    (forall k, k <> b -> peer <$> conns s' !! k = peer <$> conns s !! k) /\
    listeners s' = <[srv := l']> (listeners s) /\ l_Port l' = l_Port l /\ l_Interface l' = l_Interface l /\ l_Next l' = l_Next l /\
    gTCP_Listeners s' = gTCP_Listeners s /\ server_ok s' srv l' (ks ++ [b]).
Proof.
  intros Haf [Hl Hch Hnd Htl [Hpos Hnew] ] Hi Ha Hla b isn.
  assert (conns s !! b = None) as Hfr by (apply Hnew; lia). assert (b <> 0) as Hb0 by lia.
  destruct (Create_run s i TCP_ST_SYN_RCVD) as (rb & Hrb & Hcon & Hsp & Hcr). fold b in Hcr.
  unfold open_from. rewrite (bind_Ok _ _ _ _ _ Hcr). set (s1 := upd_out _ _) in *. set (c0 := MkConn _ _ _ _ _ _ _ _ _ _ _ _ _ _ _ _) in *.
  unfold bind at 1, listener_at. change (listeners s1) with (listeners s). rewrite Hl.
  replace ((IfType i =? 4) || (IfType i =? 6)) with true by (destruct Hi as [ [-> | ->] _]; done).
  unfold ASSERT at 1. rewrite bind_ret. unfold rand at 1. erewrite bind_Ok by reflexivity.
  change (t_rands s1) with (t_rands s). fold isn. set (s2 := MkTcp _ _ _ _ _ _ _ _ _ _ _).
  assert (0 <= IPStack_GetAddressSize (IfType i) <= 16) as Hsz by (destruct Hi as [ [-> | ->] _]; done).
  unfold bind at 1, lift at 1. rewrite rd_ok by lia.
  assert (conns s2 !! b = Some c0) as Hc2 by apply lookup_insert_eq. rewrite (bind_conn _ c0) by done.
  change (RemoteIP c0) with (replicate (Z.to_nat 16) 0). unfold sub. rewrite drop_0. fold (dest_of i a).
  assert (len (dest_of i a) = IPStack_GetAddressSize (IfType i)) as Hld by (unfold dest_of; rewrite len_take; lia).
  unfold bind at 1, lift at 1. rewrite wr_front by (rewrite Hld; change (len (replicate (Z.to_nat 16) 0)) with 16; lia).
  replace (length (dest_of i a)) with (Z.to_nat (IPStack_GetAddressSize (IfType i))) by (rewrite <- Hld; unfold len; lia).
  erewrite bind_Ok by (apply (on_conn_run _ _ c0 s2 Hc2)). set (s3 := upd_conns _ s2).
  erewrite bind_Ok; [|eapply (on_conn_to _ _ _ (opened i srv a rb l isn h)); [apply lookup_insert_eq|reflexivity] ].
  set (s4 := upd_conns _ s3). set (cb := opened i srv a rb l isn h) in *.
  assert (conns s4 = <[b := cb]> (conns s)) as H4 by (unfold s4, s3, s2, s1; cbn; by rewrite !insert_insert_eq).
  destruct (link_tail s s4 l ks b cb) as (m & Hlink & Hmb & Hpeer & Hch' & Hnd'); try done.
  rewrite (bind_Ok _ _ _ _ _ Hlink). unfold put_listener at 1. erewrite bind_Ok by reflexivity. unfold emit at 1. erewrite bind_Ok by reflexivity.
  set (l' := MkListener _ _ _ _ _ _ _ _). set (s5 := upd_out _ _). rewrite (bind_conn _ cb) by exact Hmb.
  assert (conn_ok cb) as Hok by (apply opened_ok; done). pose proof (remote_len _ Hok) as Hrl. set (h' := MkHdr _ _ _ _ _ _ _ _ _).
  destruct (SendPacket_run s5 (c_Interface cb) (RemoteIP cb) h' 0 []) as (ck & Hrun & _); try done; [apply Hok|by constructor|].
  unfold TCP_SendPacket. rewrite bind_assoc, (bind_conn _ cb) by exact Hmb. rewrite (bind_Ok _ _ _ _ _ Hrun).
  rewrite (on_conn_run _ _ cb) by exact Hmb. eexists _, rb, l', _, (set_Checksum ck h'). split; [reflexivity|]. split; [done|].
  split; [cbn; rewrite <- !app_assoc; reflexivity|]. split_and!; try done.
  - cbn. by rewrite lookup_insert_eq.
  - intros k Hk. cbn. rewrite lookup_insert_ne by done. by apply Hpeer.
  - split; try done.
    + apply lookup_insert_eq.
    + cbn [Connections l']. eapply lseg_ext; [exact Hch'|]. intros k Hk. unfold links. cbn.
      destruct (decide (k = b)) as [->|]; [by rewrite lookup_insert_eq, Hmb|by rewrite lookup_insert_ne].
    + cbn [ConnectionsTail l']. by rewrite final_snoc.
    + cbn. split; [lia|]. intros k Hk. rewrite lookup_insert_ne by lia. specialize (Hpeer k ltac:(lia)).
      rewrite (Hnew k) in Hpeer by lia. by destruct (m !! k).
Qed.

(** ** The handshake *)
(** A connection of somebody else. *)
Definition stranger s (i : Z) (a : list Z) (p k : Z) : Prop :=
  exists c, conns s !! k = Some c /\
    (c_Interface c <> i \/ RemotePort c <> p \/ IPStack_CompareAddress (IfType (c_Interface c)) (RemoteIP c) a (-1) = Some false).

Lemma stranger_peer s s' i a p k : peer <$> conns s' !! k = peer <$> conns s !! k -> stranger s i a p k -> stranger s' i a p k.
Proof.
  intros Hp (c & Hc & H). rewrite Hc in Hp. destruct (conns s' !! k) as [c'|] eqn:E; [|done]. injection Hp as E1 E2 E3.
  exists c'. by rewrite E1, E2, E3.
Qed.

Lemma match_conn_skip s i a p q ks : forall first fuel, lseg (links s) first ks q -> Forall (stranger s i a p) ks -> (length ks <= fuel)%nat ->
  match_conn IfType fuel first i a p s = match_conn IfType (fuel - length ks) q i a p s.
Proof.
  induction ks as [|k ks IH]; intros first fuel Hseg Hst Hf; cbn [length] in *.
  - cbn in Hseg. subst. by rewrite Nat.sub_0_r.
  - destruct Hseg as (-> & Hk & n & Hn & Hseg). destruct fuel as [|fuel]; [lia|].
    apply Forall_cons in Hst as [(c & Hc & Hx) Hst]. unfold links in Hn. rewrite Hc in Hn. injection Hn as <-.
    cbn [match_conn Nat.sub]. rewrite (proj2 (Z.eqb_neq _ _) Hk), (bind_conn _ c) by done.
    rewrite <- (IH (c_Next c) fuel) by (done || lia).
    destruct (c_Interface c =? i) eqn:E1; bools; [|done]. cbn [negb]. destruct (RemotePort c =? p) eqn:E2; bools; [|done]. cbn [negb].
    destruct Hx as [?|[?|Hx] ]; [done..|]. unfold bind, lift. by rewrite Hx.
Qed.

Lemma same_address ty a x : inet ty -> IPStack_GetAddressSize ty <= len a ->
  IPStack_CompareAddress ty (take (Z.to_nat (IPStack_GetAddressSize ty)) a ++ x) a (-1) = Some true.
Proof.
  intros Hty Hla. set (n := Z.to_nat (IPStack_GetAddressSize ty)).
  assert (n <= length a)%nat as Hn by (unfold n, len in *; destruct Hty as [-> | ->]; cbn in *; lia).
  destruct (memcmp_spec (take n a ++ x) a n) as (c & Hc & Hc0); [rewrite length_app, length_take; lia|done|].
  rewrite take_app_length' in Hc0 by (rewrite length_take; lia). pose proof (proj2 Hc0 eq_refl) as ->. subst n.
  destruct Hty as [-> | ->].
  - change (match memcmp (take (Z.to_nat 4) a ++ x) a (Z.to_nat 4) with Some c => if negb (c =? 0) then Some false else Some true | None => None end = Some true).
    change (IPStack_GetAddressSize 4) with 4 in Hc. by rewrite Hc.
  - change (match memcmp (take (Z.to_nat 16) a ++ x) a (Z.to_nat 16) with Some c => if negb (c =? 0) then Some false else Some true | None => None end = Some true).
    change (IPStack_GetAddressSize 6) with 16 in Hc. by rewrite Hc.
Qed.

Lemma match_conn_found s i a p k c fuel : k <> 0 -> (0 < fuel)%nat -> conns s !! k = Some c -> c_Interface c = i -> RemotePort c = p ->
  IPStack_CompareAddress (IfType i) (RemoteIP c) a (-1) = Some true -> match_conn IfType fuel k i a p s = Ok k s.
Proof.
  intros Hk Hf Hc Hi Hp Heq. destruct fuel as [|fuel]; [lia|]. cbn [match_conn].
  rewrite (proj2 (Z.eqb_neq _ _) Hk), (bind_conn _ c) by done. rewrite Hi, Hp, !Z.eqb_refl. cbn [negb]. unfold bind, lift. by rewrite Heq.
Qed.

(** The listener a segment finds, and the connections it has. *)
Definition finds_server s (i p srv : Z) : Prop := srv <> 0 /\ match_server (S (size (listeners s))) (gTCP_Listeners s) i p s = Ok srv s.

Lemma chain_stored s srv l ks : server_ok s srv l ks -> (length ks <= size (conns s))%nat.
Proof.
  intros [_ Hch Hnd _ _]. apply nodup_size; [done|]. intros k Hk. destruct (lseg_in _ _ _ _ Hch Hk) as [_ [n Hn] ].
  unfold links in Hn. destruct (conns s !! k); [by eexists|done].
Qed.

(** A SYN opens a connection that later segments of the same peer find. *)
Lemma syn_run s i srv l ks a h packet L : 0 <= after < 256 -> server_ok s srv l ks -> finds_server s i (DestPort h) srv ->
  Forall (stranger s i a (SourcePort h)) ks -> iface_ok i -> bytes a -> IPStack_GetAddressSize (IfType i) <= len a -> Flags h = TCP_FLAG_SYN ->
  let b := t_next s in let isn := default 0 (head (t_rands s)) in
  exists s' rb d h', TCP_GetPacket IfType IfAddress after i a h packet L s = Ok tt s' /\ syn_ack l isn h h' /\ b <> 0 /\
    sent [AllocateTimer b; MarkAvaliable srv true; Sent i d h' [] ] = [(h', [])] /\
    t_out s' = t_out s ++ [AllocateTimer b; MarkAvaliable srv true; Sent i d h' [] ] /\
    RingBuffer.ok rb /\ contents rb = [] /\ Space rb = TCP_RECIEVE_BUFFER_SIZE /\
    conns s' !! b = Some (set_Send (u32 (u32 isn + 1)) (opened i srv a rb l isn h)) /\
    find_connection i a (DestPort h) (SourcePort h) s' = Ok b s'.
Proof.
  intros Haf Hsrv [Hs0 Hfs] Hstr Hi Ha Hla Hfl b isn.
  destruct (open_from_run s i srv l ks a h Haf Hsrv Hi Ha Hla) as (s' & rb & l' & d & h' & Hrun & Hsa & Ho & Hrb & Hcon & Hsp & Hb & Hpeer & Hls & Hp & Hif & Hnx & Hg & Hsrv').
  fold b in Hb, Ho, Hsrv', Hpeer. fold isn in Hsa, Hb. pose proof (chain_stored _ _ _ _ Hsrv) as Hsz. pose proof (chain_stored _ _ _ _ Hsrv') as Hsz'.
  assert (b <> 0) as Hb0 by (destruct Hsrv as [_ _ _ _ [? _] ]; lia).
  pose proof Hsrv as [Hl Hch _ _ _]. pose proof Hsrv' as [Hl' Hch' _ _ _].
  exists s', rb, d, h'. split; [|split; [done|split; [done|split; [done|] ] ] ].
  - unfold TCP_GetPacket. rewrite bind_get, (bind_Ok _ _ _ _ _ Hfs), (proj2 (Z.eqb_neq _ _) Hs0). cbn [negb].
    unfold bind at 1, listener_at at 1. rewrite Hl.
    erewrite bind_Ok by (rewrite (match_conn_skip _ _ _ _ 0 ks) by (done || lia); by destruct (S (size (conns s)) - length ks)%nat).
    cbn [Z.eqb]. rewrite bind_ret. unfold TCP_INT_HandleServerPacket. rewrite Hfl.
    change (flag TCP_FLAG_SYN TCP_FLAG_RST) with false. change (flag TCP_FLAG_SYN TCP_FLAG_ACK) with false. change (flag TCP_FLAG_SYN TCP_FLAG_SYN) with true.
    cbv iota. cbn [negb]. by rewrite bind_assoc, (bind_Ok _ _ _ _ _ Hrun).
  - split_and!; try done. unfold find_connection. rewrite bind_get.
    erewrite bind_Ok; [|apply (match_server_same _ s)].
    2: { intros j. rewrite Hls. destruct (decide (j = srv)) as [->|]; [|by rewrite lookup_insert_ne].
         rewrite lookup_insert_eq, Hl. cbn. unfold what. by rewrite Hnx, Hp, Hif. }
    2: { rewrite Hg, Hls, map_size_insert_Some by (by eexists). exact Hfs. }
    rewrite (proj2 (Z.eqb_neq _ _) Hs0). cbn [negb]. rewrite bind_assoc. unfold bind at 1, listener_at at 1. rewrite Hl', bind_ret.
    rewrite length_app in Hsz'. cbn [length] in Hsz'. apply lseg_app in Hch' as (q & Hch' & Hq). destruct Hq as (-> & _ & _).
    rewrite (match_conn_skip _ _ _ _ b ks); [|done| |lia].
    + eapply match_conn_found; try done; [lia|]. cbn [RemoteIP set_Send opened]. by apply same_address, Hla; apply Hi.
    + apply Forall_forall. intros k Hk. rewrite Forall_forall in Hstr. eapply stranger_peer; [|by apply Hstr].
      apply Hpeer. intros ->. destruct (lseg_in _ _ _ _ Hch Hk) as [_ [n Hn] ]. unfold links in Hn.
      destruct Hsrv as [_ _ _ _ [_ Hnew] ]. by rewrite (Hnew b) in Hn by lia.
Qed.

Lemma Start_run s k c : 0 <= after < 256 -> conns s !! k = Some c -> conn_ok c ->
  let isn := default 0 (head (t_rands s)) in
  exists s' d ck, TCP_StartConnection IfType IfAddress after k s = Ok tt s' /\
    conns s' = <[k := set_State TCP_ST_SYN_SENT (set_Send (u32 (u32 isn + 1)) c)]> (conns s) /\
    t_out s' = t_out s ++ [Sent (c_Interface c) d (MkHdr (LocalPort c) (RemotePort c) (u32 isn) 0 header_words TCP_FLAG_SYN TCP_WINDOW_SIZE ck 0) [] ] /\
    listeners s' = listeners s /\ gTCP_Listeners s' = gTCP_Listeners s /\ gTCP_OutbountCons s' = gTCP_OutbountCons s.
Proof.
  intros Haf Hk Hc isn. pose proof (remote_len _ Hc) as Hrl. destruct Hc as [Hi [Hrb Hrl'] Hb Hs]. unfold TCP_StartConnection.
  rewrite (bind_Ok _ _ _ _ _ (on_conn_run k _ c s Hk)). unfold rand at 1. erewrite bind_Ok by reflexivity. cbn [t_rands upd_conns]. fold isn.
  set (s1 := MkTcp _ _ _ _ _ _ _ _ _ _ _). assert (conns s1 !! k = Some (set_State TCP_ST_SYN_SENT c)) as Hk1 by apply lookup_insert_eq.
  rewrite (bind_Ok _ _ _ _ _ (on_conn_run k _ _ s1 Hk1)). set (c2 := set_Send (u32 isn) (set_State TCP_ST_SYN_SENT c)). set (s2 := upd_conns _ s1).
  assert (conns s2 !! k = Some c2) as Hk2 by apply lookup_insert_eq. rewrite (bind_conn _ c2) by done. set (h := MkHdr _ _ _ _ _ _ _ _ _).
  destruct (SendPacket_run s2 (c_Interface c) (RemoteIP c) h 0 []) as (ck & Hrun & _); try done; [by constructor|].
  unfold TCP_SendPacket. rewrite bind_assoc, (bind_conn _ c2) by done. rewrite (bind_Ok _ _ _ _ _ Hrun).
  rewrite (on_conn_run _ _ c2) by done. eexists _, _, ck. split; [reflexivity|]. split; [cbn; by rewrite !insert_insert_eq|]. done.
Qed.

(** The SYN-ACK: the connection is open and in step, and answers. *)
Lemma synack_run s k c h packet L : 0 <= after < 256 -> conns s !! k = Some c -> conn_ok c -> State c = TCP_ST_SYN_SENT ->
  NextSequenceRcv c = 0 -> LastACKSequence c = 0 -> HighestSequenceRcvd c = 0 -> Flags h = Z.lor TCP_FLAG_ACK TCP_FLAG_SYN ->
  exists s' c' d ck, TCP_INT_HandleConnectionPacket IfType IfAddress after k h packet L s = Ok 0 s' /\ framed s s' /\
    conns s' = <[k := c']> (conns s) /\ who c' = who c /\ in_sync c' /\ NextSequenceSend c' = NextSequenceSend c /\ LocalPort c' = LocalPort c /\
    stream_of c' = MkStream (contents (RecievedBuffer c)) (u32 (SequenceNumber h + 1)) /\
    t_out s' = t_out s ++ [MarkFull k false; Sent (c_Interface c) d (ctl c TCP_FLAG_ACK (u32 (SequenceNumber h + 1)) ck) [] ].
Proof.
  intros Haf Hk Hc Hst Hr Hla Hhi Hfl. unfold TCP_INT_HandleConnectionPacket. rewrite (bind_conn _ c) by done.
  rewrite Hst, Hfl, Hr, Hla. change (flag (Z.lor TCP_FLAG_ACK TCP_FLAG_SYN) TCP_FLAG_SYN) with true. change (flag (Z.lor TCP_FLAG_ACK TCP_FLAG_SYN) TCP_FLAG_ACK) with true.
  rewrite !bool_decide_eq_false_2 by done. cbv iota. cbn [Z.eqb negb].
  set (seq := SequenceNumber h). set (c1 := set_LastACK seq (set_Highest seq (set_Rcv seq c))).
  rewrite bind_assoc, bind_ret. erewrite bind_Ok; [|eapply (on_conn_to _ _ c c1); [done|cbn; by rewrite Hhi] ]. set (s1 := upd_conns _ s).
  assert (conns s1 !! k = Some c1) as Hk1 by apply lookup_insert_eq. rewrite (bind_conn _ c1) by done. change (State c1) with (State c). rewrite Hst.
  set (c2 := set_Rcv (u32 (seq + 1)) (set_Highest (u32 (seq + 1)) c1)).
  erewrite bind_Ok; [|eapply (on_conn_to _ _ c1 c2); [done|cbn; by rewrite Z.eqb_refl] ]. set (s2 := upd_conns _ s1).
  assert (conns s2 !! k = Some c2) as Hk2 by apply lookup_insert_eq. rewrite bind_assoc.
  rewrite (bind_Ok _ _ _ _ _ (on_conn_run k _ c2 s2 Hk2)). unfold emit at 1. erewrite bind_Ok by reflexivity.
  set (c3 := set_State TCP_ST_ESTABLISHED c2). set (s3 := upd_out _ _). assert (conns s3 !! k = Some c3) as Hk3 by apply lookup_insert_eq.
  assert (conn_ok c3) as Hc3. { destruct Hc as [? ? ? [? ?] ]. split; [done..|split; [apply u32_in|done] ]. }
  destruct (SendACK_run s3 k c3 Haf Hk3 Hc3) as (s4 & ck & Hrun & Hf & Hcs & Ho). rewrite (bind_Ok _ _ _ _ _ Hrun).
  exists s4, (set_LastACK (NextSequenceRcv c3) c3). eexists _, ck. split; [reflexivity|]. split; [exact Hf|].
  split; [rewrite Hcs; cbn; by rewrite !insert_insert_eq|]. split; [done|].
  split; [split; [destruct Hc3; by split|done] |]. split_and!; try done. rewrite Ho. cbn. by rewrite <- app_assoc.
Qed.

(** The ACK of the SYN-ACK. *)
Lemma ack_run s k c h packet L : conns s !! k = Some c -> conn_ok c -> State c = TCP_ST_SYN_RCVD ->
  HighestSequenceRcvd c = NextSequenceRcv c -> Flags h = TCP_FLAG_ACK ->
  exists s', TCP_INT_HandleConnectionPacket IfType IfAddress after k h packet L s = Ok 0 s' /\ framed s s' /\
    conns s' = <[k := set_State TCP_ST_ESTABLISHED c]> (conns s) /\ in_sync (set_State TCP_ST_ESTABLISHED c).
Proof.
  intros Hk Hc Hst Hhi Hfl. unfold TCP_INT_HandleConnectionPacket. rewrite (bind_conn _ c) by done. rewrite Hst, Hfl.
  change (flag TCP_FLAG_ACK TCP_FLAG_SYN) with false. change (flag TCP_FLAG_ACK TCP_FLAG_ACK) with true. change (flag TCP_FLAG_ACK TCP_FLAG_RST) with false.
  rewrite !bool_decide_eq_false_2 by done. cbv iota. rewrite bind_ret, (bind_conn _ c) by done. rewrite Hst.
  rewrite (bind_Ok _ _ _ _ _ (on_conn_run k _ c s Hk)). eexists. split; [reflexivity|]. split; [done|]. split; [done|].
  split; [destruct Hc; by split|done].
Qed.

(** ** Control segments *)
Definition at_state s (k : Z) (st : eTCPConnectionState) : Prop := exists c, conns s !! k = Some c /\ conn_ok c /\ State c = st.

Lemma on_at s k st st' f : at_state s k st -> (forall c, conn_ok c -> State c = st -> conn_ok (f c) /\ State (f c) = st') ->
  wp (on_conn k f) s (fun _ s' => at_state s' k st').
Proof.
  intros (c & Hk & Hc & Hst) Hf. destruct (Hf c Hc Hst). eapply wp_eq; [by apply on_conn_run|]. exists (f c). split; [apply lookup_insert_eq|done].
Qed.
Lemma set_at s k st st' : at_state s k st -> wp (on_conn k (set_State st')) s (fun _ s' => at_state s' k st').
Proof. intros H. eapply on_at; [exact H|]. intros c Hc _. split; [destruct Hc; by split|done]. Qed.
Lemma emit_at s k st e : at_state s k st -> wp (emit e) s (fun _ s' => at_state s' k st).
Proof. intros H. by eapply wp_eq. Qed.
Lemma ack_at s k st : 0 <= after < 256 -> at_state s k st -> wp (TCP_INT_SendACK IfType IfAddress after k) s (fun _ s' => at_state s' k st).
Proof.
  intros Haf (c & Hk & Hc & Hst). destruct (SendACK_run s k c Haf Hk Hc) as (s' & ck & Hrun & _ & Hcs & _).
  eapply wp_eq; [exact Hrun|]. eexists. split; [rewrite Hcs; apply lookup_insert_eq|]. split; [destruct Hc; by split|done].
Qed.
Lemma conn_at_at s k st Q : at_state s k st -> (forall c, conns s !! k = Some c -> conn_ok c -> State c = st -> Q c s) -> wp (conn_at k) s Q.
Proof. intros (c & Hk & Hc & Hst) HQ. eapply wp_eq; [unfold conn_at; by rewrite Hk|]. by apply HQ. Qed.
Lemma put_at s k st c st' : at_state s k st -> conn_ok c -> State c = st' -> wp (put_conn k c) s (fun _ s' => at_state s' k st').
Proof. intros _ Hc Hst. eapply wp_eq; [done|]. exists c. split; [apply lookup_insert_eq|done]. Qed.

End sending.

(** The state after a control segment. *)
Definition next_state (st : eTCPConnectionState) (fl : Z) : eTCPConnectionState :=
  match st with
  | TCP_ST_SYN_SENT => if flag fl TCP_FLAG_SYN then if flag fl TCP_FLAG_ACK then TCP_ST_ESTABLISHED else TCP_ST_SYN_RCVD else st
  | TCP_ST_SYN_RCVD => if flag fl TCP_FLAG_RST then TCP_ST_FORCE_CLOSE else if flag fl TCP_FLAG_ACK then TCP_ST_ESTABLISHED else st
  | TCP_ST_ESTABLISHED => if flag fl TCP_FLAG_RST then TCP_ST_FORCE_CLOSE else if flag fl TCP_FLAG_FIN then TCP_ST_CLOSE_WAIT else st
  | TCP_ST_FIN_WAIT1 => if flag fl TCP_FLAG_FIN then TCP_ST_CLOSING else if flag fl TCP_FLAG_ACK then TCP_ST_FIN_WAIT2 else st
  | TCP_ST_FIN_WAIT2 => if flag fl TCP_FLAG_FIN then TCP_ST_TIME_WAIT else st
  | TCP_ST_CLOSING => if flag fl TCP_FLAG_ACK then TCP_ST_TIME_WAIT else st
  | _ => st
  end.
Definition dead (st : eTCPConnectionState) : bool := bool_decide (st = TCP_ST_FINISHED \/ st = TCP_ST_FORCE_CLOSE).

Ltac seq_ok := intros ? [ ? ? ? [? ?] ] ?; split; [split; [done..|split; first [apply u32_in|done] ]|done].
Ltac at_step :=
  first [ done | by split | by apply ack_at | by apply emit_at | eapply set_at; eassumption
        | apply wp_bind; eapply wp_mono; [solve [at_step]|]; intros [] ? ?; at_step ].

Section control.
Context (IfType : Z -> Z) (IfAddress : Z -> list Z) (after : Z).

Lemma syn_part s k st h : 0 <= after < 256 -> at_state IfType IfAddress s k st -> word32 (SequenceNumber h) ->
  wp (do c <- conn_at k;
      if flag (Flags h) TCP_FLAG_SYN then
        (if negb (LastACKSequence c =? NextSequenceRcv c) then TCP_INT_SendACK IfType IfAddress after k else ret tt);;;
        on_conn k (fun c => let seq := SequenceNumber h in
          let m := if HighestSequenceRcvd c =? 0 then seq else HighestSequenceRcvd c in set_LastACK seq (set_Highest m (set_Rcv seq c)))
      else ret tt) s (fun _ s' => at_state IfType IfAddress s' k st).
Proof.
  intros Haf Hat Hseq. apply wp_bind. eapply conn_at_at; [exact Hat|]. intros c Hk Hc Hst. destruct (flag _ _); [|by apply wp_ret].
  apply wp_bind. eapply (wp_mono _ _ (fun _ s' => at_state IfType IfAddress s' k st)); [destruct (negb _); [by apply ack_at|by apply wp_ret]|].
  intros [] s1 H1. eapply on_at; [exact H1|]. seq_ok.
Qed.

Lemma established_ctl s k h payload : 0 <= after < 256 -> at_state IfType IfAddress s k TCP_ST_ESTABLISHED ->
  wp (established IfType IfAddress after k h payload 0) s (fun r s' => at_state IfType IfAddress s' k (next_state TCP_ST_ESTABLISHED (Flags h)) /\ r = 0).
Proof.
  intros Haf Hat. unfold established, next_state. apply wp_bind. eapply conn_at_at; [exact Hat|]. intros c Hk Hc Hst.
  assert (forall n m, word32 n -> conn_ok IfType IfAddress (set_Rcv n (set_Highest m c))) as Hset by (intros; destruct Hc as [? ? ? [? ?] ]; by split).
  destruct (flag (Flags h) TCP_FLAG_RST).
  { apply wp_bind. eapply wp_mono; [eapply put_at; [exact Hat|by destruct Hc|done]|]. intros [] s1 H1. at_step. }
  destruct (flag (Flags h) TCP_FLAG_FIN).
  { apply wp_bind. eapply wp_mono; [by apply emit_at|]. intros [] s1 H1. apply wp_bind.
    eapply wp_mono; [eapply put_at; [exact H1|apply (Hset _ (HighestSequenceRcvd c)), u32_in|done]|]. intros [] s2 H2. at_step. }
  cbn [Z.eqb]. destruct (Flags h =? TCP_FLAG_ACK); [done|]. cbv zeta.
  apply wp_bind. eapply wp_mono; [eapply put_at; [exact Hat|apply Hset, u32_in|done]|]. intros [] s1 H1. at_step.
Qed.
End control.

(** ** Ports *)
Definition bitmap_ok (bm : list Z) : Prop := len bm = 2048 /\ forall i w, get bm i = Some w -> 0 <= w < 2 ^ 32.
Definition port (p : Z) : Prop := 0 <= p < 65536.

Lemma port_bit bm p : bitmap_ok bm -> port p -> exists w, get bm (p / 32) = Some w /\ 0 <= w < 2 ^ 32 /\ port_used bm p = Some (Z.testbit w (p mod 32)).
Proof.
  intros [Hl Hw] Hp. unfold port in Hp. destruct (get_ok bm (p / 32)) as [w Hg]; [rewrite Hl; dlia|]. exists w. split; [done|]. split; [by eapply Hw|].
  unfold port_used. rewrite Hg. cbn [mbind option_bind]. f_equal.
  assert (0 <= p mod 32) as Hm by dlia. pose proof (mask_bit w (p mod 32) Hm) as [H1 H2].
  destruct (Z.testbit w (p mod 32)).
  - destruct (Z.land _ _ =? 0) eqn:E; bools; [by specialize (H1 E)|done].
  - by rewrite H2.
Qed.

Lemma port_mark_run bm p : bitmap_ok bm -> port p -> exists bm', port_mark bm p = Some bm' /\ bitmap_ok bm' /\
  forall q, port q -> port_used bm' q = if q =? p then Some true else port_used bm q.
Proof.
  intros Hbm Hp. pose proof Hbm as [Hl Hw]. destruct (port_bit bm p Hbm Hp) as (w & Hg & Hwr & Hu). unfold port_mark. rewrite Hg. cbn [mbind option_bind].
  assert (0 <= p / 32 < 2048 /\ 0 <= p mod 32 < 32) as [Hi Hm] by (unfold port in Hp; split; dlia).
  set (v := u32 (Z.lor w (Z.shiftl 1 (p mod 32)))).
  assert (0 <= v < 2 ^ 32) as Hv by apply u32_in.
  destruct (set_ok bm (p / 32) v) as (bm' & Hset & Hlen & Hget); [by rewrite Hl|]. exists bm'. split; [done|].
  assert (bitmap_ok bm') as Hbm'. { split; [congruence|]. intros i x. rewrite Hget. case_match; [intros [= <-]; done|apply Hw]. }
  split; [done|]. intros q Hq. destruct (port_bit bm' q Hbm' Hq) as (w' & Hg' & _ & ->). rewrite Hget in Hg'.
  destruct (q / 32 =? p / 32) eqn:Eq; bools.
  - injection Hg' as <-. unfold v, u32. change 4294967296 with (2 ^ 32). assert (0 <= q mod 32 < 32) as Hqm by dlia.
    rewrite Z.mod_pow2_bits_low, Z.lor_spec, Z.shiftl_1_l, Z.pow2_bits_eqb by lia.
    destruct (q =? p) eqn:Eqp; bools; [subst; by rewrite Z.eqb_refl, orb_true_r|].
    rewrite (proj2 (Z.eqb_neq (p mod 32) (q mod 32))) by dlia. rewrite orb_false_r.
    destruct (port_bit bm q Hbm Hq) as (w2 & Hg2 & _ & ->). rewrite Eq, Hg in Hg2. by injection Hg2 as ->.
  - destruct (q =? p) eqn:Eqp; bools; [subst; done|]. destruct (port_bit bm q Hbm Hq) as (w2 & Hg2 & _ & ->). congruence.
Qed.

(** Walking up to a free port. *)
Lemma port_loop_up bm q : bitmap_ok bm -> port_used bm q = Some false -> q < 0xFFFF -> forall fuel p next, 0 <= p <= q -> p <= next <= p + 1 ->
  q - p < Z.of_nat fuel -> exists r next', port_loop fuel bm p next = Some (Some (r, next')) /\ p <= r <= q /\ port_used bm r = Some false /\ r <= next' <= r + 1.
Proof.
  intros Hbm Hq Hq2. induction fuel as [|fuel IH]; intros p next Hp Hn Hf; [lia|]. cbn [port_loop].
  destruct (port_bit bm p Hbm) as (w & _ & _ & Hu); [unfold port; lia|]. rewrite Hu. cbn [mbind option_bind].
  destruct (Z.testbit w (p mod 32)); cbn [negb]; [|exists p, next; split_and!; (done || lia)].
  assert (p <> q) by (intros ->; congruence).
  replace (u16 (p + 1)) with (p + 1) by dlia. rewrite (i32_small (next + 1)) by lia. rewrite (proj2 (Z.eqb_neq (next + 1) 0x10000)) by lia.
  destruct (IH (p + 1) (next + 1)) as (r & next' & Hr & ? & ? & ?); [lia..|]. exists r, next'. split_and!; (done || lia).
Qed.

(** From anywhere among the dynamic ports: up to the top, then from the bottom. *)
Lemma port_loop_any bm q : bitmap_ok bm -> port_used bm q = Some false -> TCP_MIN_DYNPORT <= q < 0xFFFF -> forall fuel p next,
  TCP_MIN_DYNPORT <= p < 0x10000 -> next = p + 1 -> next < 0x10000 \/ port_used bm p = Some false -> 0x10000 - p + (0x10000 - TCP_MIN_DYNPORT) < Z.of_nat fuel ->
  exists r next', port_loop fuel bm p next = Some (Some (r, next')) /\ TCP_MIN_DYNPORT <= r < 0x10000 /\ port_used bm r = Some false.
Proof.
  unfold TCP_MIN_DYNPORT. intros Hbm Hq Hq2. induction fuel as [|fuel IH]; intros p next Hp -> Hor Hf; [lia|]. cbn [port_loop].
  destruct (port_bit bm p Hbm) as (w & _ & _ & Hu); [unfold port; lia|]. rewrite Hu. cbn [mbind option_bind].
  destruct (Z.testbit w (p mod 32)); cbn [negb]; [|exists p, (p + 1); split_and!; (done || lia)].
  destruct Hor as [Hor|Hor]; [|congruence].
  replace (u16 (p + 1)) with (p + 1) by dlia. rewrite (i32_small (p + 1 + 1)) by lia. destruct (p + 1 + 1 =? 0x10000) eqn:E; bools.
  - destruct (port_loop_up bm q Hbm Hq ltac:(lia) fuel 0xC000 0xC000) as (r & n' & Hr & ? & ? & _); [lia..|]. exists r, n'. split_and!; (done || lia).
  - apply IH; lia.
Qed.

(** The pseudo header of the standards: RFC 793 for IPv4 (addresses, a zero byte, protocol 6, the length of the segment in two bytes),
    RFC 8200 for IPv6 (addresses, the length in four bytes, three zero bytes, next header 6). *)
Definition rfc_pseudo (AddrType : Z) (src dst : list Z) (n : Z) : list Z :=
  src ++ dst ++ (if AddrType =? 4 then [0; 6; n / 256; n mod 256] else [0; 0; n / 256; n mod 256; 0; 0; 0; 6]).
Lemma rfc_pseudo_eq ty l r n : 0 <= n < 65536 -> pseudo ty l r n = rfc_pseudo ty l r n.
Proof.
  intros Hn. unfold pseudo, rfc_pseudo. do 2 f_equal. assert (Z.lor n (Z.shiftl IP4PROT_TCP 16) = 393216 + n) as ->.
  { change (Z.shiftl IP4PROT_TCP 16) with (6 * 2 ^ 16). rewrite Z.lor_comm. rewrite lor_disjoint by lia. reflexivity. }
  destruct (ty =? 4); unfold be32, be16; cbn [app]; repeat (apply (f_equal2 cons); [dlia|]); reflexivity.
Qed.

Module TcpTheorems.

(** C37: A segment of up to 65000 bytes sent through an IPv4 or IPv6 interface goes out once with its fields and data,
    and with a checksum for which the one's complement sum over the standard's pseudo header (addresses, protocol 6,
    length; RFC 793 and RFC 8200), the header and the data is 0xFFFF; the kernel's own function gives 0 over it at the
    receiver. *)
Theorem segment_checks IfType IfAddress after beyond s i Dest h L Data : iface_ok IfType IfAddress i -> bytes Dest ->
  IPStack_GetAddressSize (IfType i) <= len Dest -> header_ok h -> DataOffset h = header_words -> bytes Data ->
  0 <= after < 256 -> 0 <= beyond < 256 -> 0 <= L <= len Data -> L <= 65000 ->
  exists ck, let h' := set_Checksum ck h in let data := take (Z.to_nat L) Data in
    TCP_int_SendPacket IfType IfAddress after i Dest h L Data s = Ok tt (upd_out (t_out s ++ [Sent i (dest_of IfType i Dest) h' data]) s) /\
    ones (words_sum (rfc_pseudo (IfType i) (IfAddress i) (dest_of IfType i Dest) (20 + L) ++ header_bytes h' ++ data)) = 65535 /\
    TCP_int_CalculateChecksum (IfType i) (IfAddress i) (dest_of IfType i Dest) 20 (header_bytes h') L (data ++ [beyond]) = Some 0.
Proof.
  intros Hi Hbd Hld Hh Hdo Hdata Haf Hbe HL HL2.
  destruct (SendPacket_run IfType IfAddress after s i Dest h L Data) as (ck & Hrun & Hck); try done.
  exists ck. split; [exact Hrun|]. pose proof Hi as (Hty & Hba & Hla).
  assert (0 <= IPStack_GetAddressSize (IfType i)) as Hsz by (destruct Hty as [-> | ->]; done).
  set (data := take (Z.to_nat L) Data) in *. assert (len data = L) as Hlen by (unfold data; rewrite len_take; lia).
  assert (bytes data) as Hbdata by by apply Forall_take. assert (bytes (dest_of IfType i Dest)) as Hbdst by by apply Forall_take.
  set (X := words_sum (pseudo _ _ _ _)) in Hck. set (H := words_sum (header_bytes _)) in Hck.
  assert (0 < H) as HH by by apply header_sum_pos.
  assert (0 <= X) as HX by (apply words_sum_range, pseudo_bytes; done).
  pose proof (words_sum_range _ Hbdata) as [HD _]. pose proof (ones_range (X + H + words_sum data)) as Ho.
  assert (ones (X + H + words_sum data + ck) = 65535) as Hones.
  { rewrite <- ones_add by lia. rewrite Hck. replace (ones (X + H + words_sum data) + (65535 - ones (X + H + words_sum data))) with 65535 by lia. reflexivity. }
  split.
  { rewrite <- rfc_pseudo_eq by lia. rewrite words_sum_app, words_sum_app by (first [by exists 10%nat|unfold pseudo; rewrite !length_app; unfold len in *; unfold dest_of; rewrite length_take; destruct Hty as [E4|E4]; rewrite E4 in *; cbn in *; [exists 6%nat|exists 20%nat]; lia]).
    rewrite header_sum by lia. fold X H. rewrite <- Hones. f_equal. lia. }
  rewrite (CalculateChecksum_spec (IfType i) _ _ (set_Checksum ck h)); try done.
  - rewrite header_sum by lia. fold X H. replace (take (Z.to_nat L) (data ++ [beyond])) with data by (rewrite take_app_le by (unfold len in *; lia); unfold data; rewrite take_take; f_equal; lia).
    replace (X + (H + ck) + words_sum data) with (X + H + words_sum data + ck) by lia. by rewrite Hones.
  - apply Forall_app. split; [done|]. by apply Forall_cons.
  - unfold dest_of. rewrite len_take; lia.
  - lia.
  - rewrite len_app, Hlen. change (len [beyond]) with 1. dlia.
Qed.

Lemma segment_checks_witness : exists ck, TCP_int_CalculateChecksum 4 [10; 0; 0; 1] [10; 0; 0; 2] 20
  (header_bytes (set_Checksum ck (MkHdr 80 0xC000 5 6 header_words 0x18 100 0 0))) 3 ([1; 2; 3] ++ [255]) = Some 0.
Proof.
  destruct (segment_checks (fun _ => 4) (fun _ => [10; 0; 0; 1]) 0 255 (MkTcp 0 0 [] 0 ∅ ∅ 1 [] 0 0 []) 1 [10; 0; 0; 2] (MkHdr 80 0xC000 5 6 header_words 0x18 100 0 0) 3 [1; 2; 3])
    as (ck & _ & _ & Hck); try done; [|by repeat constructor..|].
  - split; [by left|]. split; [by repeat constructor|done].
  - exists ck. exact Hck.
Defined.


(** C23: Over any history of reads and of segments without SYN, FIN and RST, none of whose data lie ahead in the window
    of the data expected, the receiving half of an established connection refines a bounded byte queue, and every
    acknowledgement names the byte the queue then expects. In the queue an empty segment other than a bare ACK counts as
    one byte, as it does in the code. (FIN with data: fin_data_dropped.) *)
Theorem tcp_stream IfType IfAddress after k es : forall s c, 0 <= after < 256 ->
  conns s !! k = Some c -> in_sync IfType IfAddress c -> allowed (Space (RecievedBuffer c)) (stream_of c) es ->
  let rs := spec_all (Space (RecievedBuffer c)) (stream_of c) es in
  exists s' c' effs, perform_all IfType IfAddress after k es s = Ok (rs.*1) s' /\ conns s' !! k = Some c' /\
    in_sync IfType IfAddress c' /\ stream_of c' = default (stream_of c) (last (rs.*2)) /\
    t_out s' = t_out s ++ concat effs /\ Forall2 (fun st eff => Forall (acks (expected st)) eff) (rs.*2) effs.
Proof.
  induction es as [|e es IH]; intros s c Haf Hk Hsync Hal rs.
  - exists s, c, []. cbn. rewrite app_nil_r. by split_and!.
  - destruct Hal as [He Hes].
    destruct (perform_run IfType IfAddress after s k c e Haf Hk Hsync) as (s1 & c1 & eff & Hrun & Hf & Hcs & Ho & Hack & [Hev Hsy Hsp Hst]); [by split|].
    rewrite <- Hst, <- Hsp in Hes.
    destruct (IH s1 c1 Haf) as (s2 & c2 & effs & Hrun2 & Hk2 & Hsy2 & Hst2 & Ho2 & Hack2); [rewrite Hcs; apply lookup_insert_eq|done..|].
    exists s2, c2, (eff :: effs). subst rs. cbn [spec_all perform_all]. rewrite (bind_Ok _ _ _ _ _ Hrun), (bind_Ok _ _ _ _ _ Hrun2).
    rewrite Hst, Hsp in *. cbn [fmap list_fmap concat]. split_and!; try done.
    + rewrite Hst2. rewrite last_cons. by destruct (last _).
    + by rewrite Ho2, Ho, <- app_assoc.
    + by constructor.
Qed.

(** C22: What one end of an established connection writes, when it fits the free space of the other end's receive
    buffer and the other machine finds that end for the segments, is cut into segments that, delivered once each and in
    order, are read back there as the same bytes behind what was queued; both ends again agree on the next sequence
    number. (The code ignores the peer's window and never sends again, so larger writes are not covered.) *)
Theorem tcp_roundtrip ITa IAa ITb IAb after junk sA a ca sB b cb i addr L Buffer : 0 <= after < 256 ->
  conns sA !! a = Some ca -> conn_ok ITa IAa ca -> State ca = TCP_ST_ESTABLISHED ->
  conns sB !! b = Some cb -> in_sync ITb IAb cb -> b <> 0 -> find_connection ITb i addr (RemotePort ca) (LocalPort ca) sB = Ok b sB ->
  NextSequenceSend ca = NextSequenceRcv cb -> bytes Buffer -> 0 < L <= len Buffer ->
  let q := contents (RecievedBuffer cb) in len q + L <= Space (RecievedBuffer cb) ->
  exists sA' ca' eff sB' sB'' cb', TCP_Client_Write ITa IAa after junk a L Buffer true sA = Ok L sA' /\ t_out sA' = t_out sA ++ eff /\
    deliver ITb IAb after i addr (sent eff) sB = Ok tt sB' /\
    TCP_Client_Read b (len q + L) (replicate (Z.to_nat (len q + L)) 0) true sB' = Ok (len q + L, q ++ take (Z.to_nat L) Buffer) sB'' /\
    conns sA' !! a = Some ca' /\ conns sB'' !! b = Some cb' /\ conn_ok ITa IAa ca' /\ in_sync ITb IAb cb' /\
    NextSequenceSend ca' = NextSequenceRcv cb' /\ find_connection ITb i addr (RemotePort ca') (LocalPort ca') sB'' = Ok b sB''.
Proof.
  intros Haf Ha Hca Hsa Hb Hcb Hb0 Hfind Hseq HB HL q Hroom.
  destruct (send_loop_run ITa IAa after junk a (S (Z.to_nat (L / TCP_MAX_PACKET_SIZE))) (upd_out (t_out sA ++ [SelectNode a]) sA) ca L Buffer)
    as (sA' & eff & Hw & _ & HcA & HoA & Hcar); try done; [unfold TCP_MAX_PACKET_SIZE in *; dlia|].
  assert (len (take (Z.to_nat L) Buffer) = L) as Hlen by (rewrite len_take; lia).
  rewrite Hseq in Hcar.
  destruct (deliver_run ITb IAb after b i addr _ _ _ sB cb _ Haf Hb Hcb Hb0 Hfind Hcar) as (sB' & cb1 & Hd & Hf1 & HcB & Hfind1 & Hrec); [fold q; lia|].
  assert (conns sB' !! b = Some cb1) as Hb1 by (rewrite HcB; apply lookup_insert_eq).
  pose proof (r_stream _ _ _ _ _ Hrec) as Hst. injection Hst as Hq Hn. rewrite Hlen in Hn. fold q in Hq.
  assert (len (contents (RecievedBuffer cb1)) = len q + L) as Hlq by (rewrite Hq, len_app; lia).
  pose proof (len_nonneg q).
  destruct (Read_run ITb IAb sB' b cb1 (len q + L) (replicate (Z.to_nat (len q + L)) 0) Hb1 (r_sync _ _ _ _ _ Hrec))
    as (sB'' & cb2 & eff2 & Hr & Hf2 & HcB2 & _ & _ & Hrec2); [lia|unfold len; rewrite length_replicate; lia|].
  rewrite Hlq, Z.min_id in Hr. rewrite Hq in Hr.
  eexists sA', _, (SelectNode a :: eff), sB', sB'', cb2. split.
  { unfold TCP_Client_Write. rewrite (bind_conn _ ca) by done. rewrite Hsa. cbn [past_established negb]. unfold emit.
    erewrite bind_Ok by reflexivity. by rewrite (bind_Ok _ _ _ _ _ Hw). }
  split; [rewrite HoA; cbn; by rewrite <- app_assoc|]. split; [exact Hd|]. split.
  { rewrite Hr. f_equal. f_equal. rewrite take_ge, drop_ge, app_nil_r; [done|rewrite length_replicate; lia|].
    rewrite length_app. unfold len in *. lia. }
  split; [rewrite HcA; apply lookup_insert_eq|]. split; [rewrite HcB2; apply lookup_insert_eq|].
  split; [destruct Hca as [? ? ? [? ?] ]; split; [done..|split; [done|apply u32_in] ]|].
  split; [apply Hrec2|].
  pose proof (r_stream _ _ _ _ _ Hrec2) as Hst2. injection Hst2 as _ Hn2.
  split; [rewrite Hn2, Hn, <- Hseq; done|]. cbn.
  eapply find_connection_stable; try done. apply evolves_who with (1 := r_evolves _ _ _ _ _ Hrec2).
Qed.

(** A connection with a buffer of eight bytes, alone on the outbound list of its machine; its peer sends from
    port 80. *)
Definition small_conn (lp rp snd rcv : Z) : tTCPConnection :=
  MkConn 0 0 0 TCP_ST_ESTABLISHED lp rp 1 0 1 snd rcv rcv (RingBuffer.mk 0 0 8 (replicate 8 0)) rcv [] ([10; 0; 0; 2] ++ replicate 12 0).
Definition small_world (c : tTCPConnection) : tcp := MkTcp 0 5 [] TCP_MIN_DYNPORT {[5 := c]} ∅ 6 [] 0 0 [].
Definition small_type (_ : Z) : Z := 4.
Definition small_addr (_ : Z) : list Z := [10; 0; 0; 1].

Lemma small_ok lp rp snd rcv : word32 snd -> word32 rcv -> in_sync small_type small_addr (small_conn lp rp snd rcv).
Proof.
  intros Hs Hr. split_and!; [|done..]. split; [split_and!; [by left| |done]|split; [|done]| |by split]; try by repeat constructor.
Qed.

Definition small_history : list event :=
  let h n := MkHdr 80 0xC000 n 7 header_words 0x18 100 0 0 in
  [Arrives (h 1000) (header_bytes (h 1000) ++ [1; 2; 3]) 23; Arrives (h 1000) (header_bytes (h 1000) ++ [1; 2; 3]) 23; Reads 2;
   Arrives (h 1003) (header_bytes (h 1003) ++ replicate 8 9) 28; Arrives (h 1003) (header_bytes (h 1003) ++ [4; 5]) 22; Reads 9].

Lemma tcp_stream_witness : exists s' c', perform_all small_type small_addr 0 5 small_history (small_world (small_conn 0xC000 80 7 1000)) =
    Ok [ []; []; [1; 2]; []; []; [3; 4; 5] ] s' /\ conns s' !! 5 = Some c' /\ stream_of c' = MkStream [] 1005.
Proof.
  destruct (tcp_stream small_type small_addr 0 5 small_history (small_world (small_conn 0xC000 80 7 1000)) (small_conn 0xC000 80 7 1000))
    as (s' & c' & effs & Hrun & Hk & _ & Hst & _); [lia|done|apply small_ok; by split| |].
  - cbn [allowed small_history]. split_and!; try done.
    all: try (split; vm_compute; try done; by split).
    all: try (right; left; reflexivity).
    right. right. vm_compute. done.
  - exists s', c'. split; [exact Hrun|]. split; [exact Hk|exact Hst].
Defined.

(** C24: The three-way handshake: a fresh connection is started towards a listening port none of whose connections is
    to the same peer, the client's lookup giving it for the peer's segments beforehand (so no earlier outbound connection
    to the same host and port: local_port_ignored). SYN, SYN-ACK and ACK delivered in turn leave both sides established
    and in step, the new server side found by its machine, and the client's lookup as it was. *)
Theorem tcp_connect ITa IAa ITb IAb after sA a ca sB srv l ks ia addrB ib addrA : 0 <= after < 256 ->
  conns sA !! a = Some ca -> conn_ok ITa IAa ca -> a <> 0 ->
  NextSequenceRcv ca = 0 /\ LastACKSequence ca = 0 /\ HighestSequenceRcvd ca = 0 ->
  find_connection ITa ia addrB (LocalPort ca) (RemotePort ca) sA = Ok a sA ->
  server_ok sB srv l ks -> finds_server sB ib (RemotePort ca) srv -> Forall (stranger ITb sB ib addrA (LocalPort ca)) ks ->
  iface_ok ITb IAb ib -> bytes addrA -> IPStack_GetAddressSize (ITb ib) <= len addrA ->
  exists sA1 e1 sB1 e2 sA2 e3 sB2 ca' cb', let b := t_next sB in
    TCP_StartConnection ITa IAa after a sA = Ok tt sA1 /\ t_out sA1 = t_out sA ++ e1 /\
    deliver ITb IAb after ib addrA (sent e1) sB = Ok tt sB1 /\ t_out sB1 = t_out sB ++ e2 /\
    deliver ITa IAa after ia addrB (sent e2) sA1 = Ok tt sA2 /\ t_out sA2 = t_out sA1 ++ e3 /\
    deliver ITb IAb after ib addrA (sent e3) sB1 = Ok tt sB2 /\
    conns sA2 !! a = Some ca' /\ conns sB2 !! b = Some cb' /\ in_sync ITa IAa ca' /\ in_sync ITb IAb cb' /\
    NextSequenceSend ca' = NextSequenceRcv cb' /\ NextSequenceSend cb' = NextSequenceRcv ca' /\
    Space (RecievedBuffer cb') = TCP_RECIEVE_BUFFER_SIZE /\ contents (RecievedBuffer cb') = [] /\ b <> 0 /\
    find_connection ITb ib addrA (RemotePort ca') (LocalPort ca') sB2 = Ok b sB2 /\
    find_connection ITa ia addrB (RemotePort cb') (LocalPort cb') sA2 = Ok a sA2.
Proof.
  intros Haf Ha Hca Ha0 (Hr & Hla & Hhi) Hfa Hsrv Hfs Hstr Hib HaddrA HlA.
  destruct (Start_run ITa IAa after sA a ca Haf Ha Hca) as (sA1 & d1 & ck1 & Hrun1 & HcA1 & Ho1 & Hfld).
  set (h1 := MkHdr _ _ _ _ _ _ _ _ _) in Ho1.
  destruct (syn_run ITb IAb after sB ib srv l ks addrA h1 (header_bytes h1 ++ []) (20 + len (@nil Z))) as (sB1 & rb & d2 & h2 & Hrun2 & Hsa & Hb0 & Hs2 & Ho2 & Hrb & Hcon & Hsp & HcB1 & Hfb);
    try done. set (b := t_next sB) in *.
  destruct Hsa as (Hsp2 & Hdp2 & Hseq2 & _ & _ & Hfl2).
  assert (l_Port l = RemotePort ca) as Hlp.
  { destruct Hfs as [Hs0 Hfs]. destruct (match_server_port _ _ _ _ _ _ Hfs Hs0) as (l0 & Hl0 & <-). destruct Hsrv as [Hl _ _ _ _]. congruence. }
  set (ca1 := set_State _ _) in HcA1. assert (conns sA1 !! a = Some ca1) as Ha1 by (rewrite HcA1; apply lookup_insert_eq).
  assert (conn_ok ITa IAa ca1) as Hca1. { destruct Hca as [? ? ? [? ?] ]. split; [done..|split; [done|apply u32_in] ]. }
  assert (find_connection ITa ia addrB (LocalPort ca) (RemotePort ca) sA1 = Ok a sA1) as Hfa1 by (by eapply find_connection_same).
  destruct (synack_run ITa IAa after sA1 a ca1 h2 (header_bytes h2 ++ []) (20 + len (@nil Z))) as (sA2 & ca2 & d3 & ck3 & Hrun3 & Hf3 & HcA2 & Hwho & Hsy2 & Hsnd & Hlp2 & Hst2 & Ho3); try done.
  set (h3 := ctl _ _ _ _) in Ho3. set (cb1 := set_Send _ _) in HcB1.
  assert (conn_ok ITb IAb cb1) as Hcb1. { destruct (opened_ok ITb IAb ib srv addrA rb l (default 0 (head (t_rands sB))) h1) as [? ? ? [? ?] ]; try done. split; [done..|split; [done|apply u32_in] ]. }
  destruct (ack_run ITb IAb after sB1 b cb1 h3 (header_bytes h3 ++ []) (20 + len (@nil Z))) as (sB2 & Hrun4 & Hf4 & HcB2 & Hsy4); try done.
  exists sA1, [Sent (c_Interface ca) d1 h1 [] ], sB1, [AllocateTimer b; MarkAvaliable srv true; Sent ib d2 h2 [] ], sA2, [MarkFull a false; Sent (c_Interface ca1) d3 h3 [] ], sB2, ca2, (set_State TCP_ST_ESTABLISHED cb1).
  injection Hst2 as Hq2 Hn2. injection Hwho as Hnx Hif Hrp Hip. rewrite Hrp, Hlp2.
  split; [done|]. split; [done|]. split; [cbn [sent omap list_omap deliver]; by rewrite (bind_Ok _ _ _ _ _ Hrun2)|]. split; [done|]. split.
  { rewrite Hs2. cbn [deliver]. erewrite bind_Ok; [reflexivity|]. apply (GetPacket_connection _ _ _ _ _ _ _ _ _ _ a); try done. by rewrite Hdp2, Hsp2, Hlp. }
  split; [done|]. split.
  { cbn [sent omap list_omap deliver]. erewrite bind_Ok; [reflexivity|]. apply (GetPacket_connection _ _ _ _ _ _ _ _ _ _ b); try done. }
  split; [rewrite HcA2; apply lookup_insert_eq|]. split; [rewrite HcB2; apply lookup_insert_eq|]. split_and!; try done.
  - rewrite Hn2, Hseq2. done.
  - by eapply find_connection_stable.
  - cbn. rewrite Hlp. eapply find_connection_stable; try done. unfold who. by rewrite Hnx, Hif, Hrp, Hip.
Qed.

Lemma tcp_roundtrip_witness : exists sA' eff sB' sB'',
  TCP_Client_Write small_type small_addr 0 0 5 6 [104; 101; 108; 108; 111; 33] true (small_world (small_conn 0xC000 80 500 1000)) = Ok 6 sA' /\
  t_out sA' = [] ++ eff /\ deliver small_type small_addr 0 1 [10; 0; 0; 2] (sent eff) (small_world (small_conn 80 0xC000 1000 500)) = Ok tt sB' /\
  TCP_Client_Read 5 6 (replicate 6 0) true sB' = Ok (6, [104; 101; 108; 108; 111; 33]) sB''.
Proof.
  destruct (tcp_roundtrip small_type small_addr small_type small_addr 0 0 (small_world (small_conn 0xC000 80 500 1000)) 5 (small_conn 0xC000 80 500 1000)
    (small_world (small_conn 80 0xC000 1000 500)) 5 (small_conn 80 0xC000 1000 500) 1 [10; 0; 0; 2] 6 [104; 101; 108; 108; 111; 33])
    as (sA' & ca' & eff & sB' & sB'' & cb' & Hw & Ho & Hd & Hr & _);
    [lia|reflexivity|apply small_ok; by split|reflexivity|reflexivity|apply small_ok; by split|lia|vm_compute; reflexivity|reflexivity|by repeat constructor|by split|
     by vm_compute|].
  exists sA', eff, sB', sB''. split_and!; [exact Hw|exact Ho|exact Hd|exact Hr].
Defined.

Definition fresh_conn : tTCPConnection := set_State TCP_ST_CLOSED (small_conn 0xC000 80 0 0).
Definition small_server : tcp :=
  MkTcp 3 0 [] TCP_MIN_DYNPORT {[7 := small_conn 80 99 1 1]} {[3 := MkListener 0 80 0 1 0 7 0 7]} 8 [77] 0 0 [].

Lemma tcp_connect_witness : exists sA2 sB2 ca' cb', conns sA2 !! 5 = Some ca' /\ conns sB2 !! 8 = Some cb' /\
  State ca' = TCP_ST_ESTABLISHED /\ State cb' = TCP_ST_ESTABLISHED /\ NextSequenceSend ca' = NextSequenceRcv cb'.
Proof.
  destruct (tcp_connect small_type small_addr small_type small_addr 0 (small_world fresh_conn) 5 fresh_conn small_server 3 (MkListener 0 80 0 1 0 7 0 7) [7] 1 [10; 0; 0; 2] 1 [10; 0; 0; 2])
    as (sA1 & e1 & sB1 & e2 & sA2 & e3 & sB2 & ca' & cb' & _ & _ & _ & _ & _ & _ & _ & Ha & Hb & [_ [Hsa _] ] & [_ [Hsb _] ] & Hs & _); try done.
  - destruct (small_ok 0xC000 80 0 0) as [ [? ? ? ?] _]; [by split..|]. by split.
  - split; try done.
    + cbn. split_and!; try done. by exists 0.
    + apply NoDup_singleton.
    + split; [done|]. intros k Hk. cbn in Hk |- *. apply lookup_singleton_ne. lia.
  - apply Forall_singleton. exists (small_conn 80 99 1 1). split; [done|]. right. by left.
  - split; [by left|]. split; [by repeat constructor|done].
  - by repeat constructor.
  - by exists sA2, sB2, ca', cb'.
Defined.

(** C25: A segment without data, whatever its flags, takes a connection to the state its table of flags and states
    gives, keeps it well formed, and is refused only by a dead connection; an ACK in TCP_ST_LAST_ACK, which finishes and
    frees the connection, is excluded. *)
Theorem tcp_state_machine IfType IfAddress after s k st h packet L : 0 <= after < 256 -> at_state IfType IfAddress s k st ->
  word32 (SequenceNumber h) -> L = data_offset h -> 0 <= L <= len packet ->
  ~ (st = TCP_ST_LAST_ACK /\ flag (Flags h) TCP_FLAG_ACK = true) ->
  wp (TCP_INT_HandleConnectionPacket IfType IfAddress after k h packet L) s
    (fun r s' => at_state IfType IfAddress s' k (next_state st (Flags h)) /\ r = b2z (dead st)).
Proof.
  intros Haf Hat Hseq HL Hlen Hla. unfold TCP_INT_HandleConnectionPacket. apply wp_bind. eapply conn_at_at; [exact Hat|]. intros c Hk Hc Hst. rewrite Hst.
  destruct (decide (st = TCP_ST_FINISHED)) as [->|H1]; [by apply wp_ret|]. destruct (decide (st = TCP_ST_FORCE_CLOSE)) as [->|H2]; [by apply wp_ret|].
  rewrite !bool_decide_eq_false_2 by done.
  assert (dead st = false) as -> by (unfold dead; apply bool_decide_eq_false_2; naive_solver).
  pose proof (syn_part IfType IfAddress after s k st h Haf Hat Hseq) as Hsyn. unfold wp at 1 in Hsyn. rewrite (bind_conn _ c) in Hsyn by done.
  apply wp_bind. eapply wp_mono; [exact Hsyn|]. intros [] s1 Hat1. clear Hsyn Hk Hc Hst c.
  apply wp_bind. eapply conn_at_at; [exact Hat1|]. intros c Hk Hc Hst. rewrite Hst. fold (data_offset h). rewrite <- HL, Z.sub_diag.
  destruct st; try done; cbn [next_state]; change (b2z false) with 0.
  - destruct (flag (Flags h) TCP_FLAG_SYN); [|done].
    apply wp_bind. eapply wp_mono; [eapply on_at; [exact Hat1|]; seq_ok|]. intros [] s2 H3.
    destruct (flag (Flags h) TCP_FLAG_ACK); at_step.
  - repeat case_match; try done; at_step.
  - by apply established_ctl.
  - repeat case_match; try done; at_step.
  - repeat case_match; try done; at_step.
  - repeat case_match; try done; at_step.
  - destruct (flag (Flags h) TCP_FLAG_ACK) eqn:E; [|done]. by destruct Hla.
Qed.

Lemma tcp_state_machine_witness : exists s' c', TCP_INT_HandleConnectionPacket small_type small_addr 0 5
    (MkHdr 80 0xC000 1000 7 header_words 0x11 100 0 0) (replicate 20 0) 20 (small_world (small_conn 0xC000 80 7 1000)) = Ok 0 s' /\
  conns s' !! 5 = Some c' /\ State c' = TCP_ST_CLOSE_WAIT.
Proof.
  destruct (wp_inv _ _ _ (tcp_state_machine small_type small_addr 0 (small_world (small_conn 0xC000 80 7 1000)) 5 TCP_ST_ESTABLISHED
    (MkHdr 80 0xC000 1000 7 header_words 0x11 100 0 0) (replicate 20 0) 20 ltac:(lia)
    (ex_intro _ _ (conj eq_refl (conj (proj1 (small_ok 0xC000 80 7 1000 ltac:(by split) ltac:(by split))) eq_refl)))
    ltac:(by split) eq_refl ltac:(by split) ltac:(by intros [? _])))
    as (r & s' & Hrun & (c' & Hk & _ & Hst) & ->).
  exists s', c'. split; [exact Hrun|]. by split.
Defined.

(** A free dynamic port is found.  While some dynamic port (below the last) is free, the search that starts at
    the next one to try returns, and returns a dynamic port that was free and is now taken; no other port
    changes, and an attempt to take the same port is then refused. *)
Theorem unused_port s q fuel : bitmap_ok (gaTCP_PortBitmap s) -> TCP_MIN_DYNPORT <= giTCP_NextOutPort s < 0xFFFF ->
  TCP_MIN_DYNPORT <= q < 0xFFFF -> port_used (gaTCP_PortBitmap s) q = Some false -> (Z.to_nat 0x8001 <= fuel)%nat ->
  exists p s', TCP_GetUnusedPort fuel s = Ok p s' /\ TCP_MIN_DYNPORT <= p < 0x10000 /\ port_used (gaTCP_PortBitmap s) p = Some false /\
    (forall r, port r -> port_used (gaTCP_PortBitmap s') r = if r =? p then Some true else port_used (gaTCP_PortBitmap s) r) /\
    bitmap_ok (gaTCP_PortBitmap s') /\ TCP_AllocatePort p s' = Ok 0 s'.
Proof.
  intros Hbm Hnext Hq Hfree Hfuel. unfold TCP_MIN_DYNPORT in *.
  destruct (port_loop_any _ q Hbm Hfree Hq fuel (giTCP_NextOutPort s) (giTCP_NextOutPort s + 1)) as (p & next & Hrun & Hp & Hpf); [unfold TCP_MIN_DYNPORT; lia..|].
  destruct (port_mark_run _ p Hbm) as (bm' & Hm & Hbm' & Hother); [unfold port, TCP_MIN_DYNPORT in *; lia|].
  unfold TCP_GetUnusedPort. rewrite bind_get. replace (u16 (giTCP_NextOutPort s)) with (giTCP_NextOutPort s) by dlia.
  rewrite (i32_small (giTCP_NextOutPort s + 1)) by lia. unfold bind at 1, lift at 1. rewrite Hrun. unfold bind at 1, lift at 1. rewrite Hm.
  eexists p, _. split; [reflexivity|]. split; [exact Hp|]. split; [done|]. split; [exact Hother|]. split; [exact Hbm'|].
  unfold TCP_AllocatePort. rewrite bind_get. unfold bind at 1, lift at 1. cbn [gaTCP_PortBitmap].
  rewrite Hother, Z.eqb_refl by (unfold port, TCP_MIN_DYNPORT in *; lia). done.
Qed.

Lemma unused_port_witness : exists p s', TCP_GetUnusedPort (Z.to_nat 0x8001) (MkTcp 0 0 (replicate (Z.to_nat 2048) 0) 0xC005 ∅ ∅ 1 [] 0 0 []) = Ok p s' /\
  port_used (gaTCP_PortBitmap s') p = Some true /\ TCP_AllocatePort p s' = Ok 0 s'.
Proof.
  destruct (unused_port (MkTcp 0 0 (replicate (Z.to_nat 2048) 0) 0xC005 ∅ ∅ 1 [] 0 0 []) 0xC005 (Z.to_nat 0x8001)) as (p & s' & Hrun & Hp & _ & Hother & _ & Hal).
  - split; [done|]. intros i w Hg. unfold get in Hg. cbn [gaTCP_PortBitmap] in Hg. case_match; [|done]. apply lookup_replicate in Hg as [-> _]. done.
  - by split.
  - by split.
  - reflexivity.
  - lia.
  - exists p, s'. split; [exact Hrun|]. split; [|exact Hal]. unfold TCP_MIN_DYNPORT in Hp. rewrite Hother by (split; lia). by rewrite Z.eqb_refl.
Defined.
End TcpTheorems.

(** ** What goes wrong *)
Module TcpFindings.

(** Closing a connection that was never connected trips the assertion that a freed connection is finished. *)
Lemma close_unconnected IfType IfAddress after junk s k c : conns s !! k = Some c -> State c = TCP_ST_CLOSED -> c_Refs c = 1 ->
  TCP_Client_Close IfType IfAddress after junk k s = Stop TAssert.
Proof.
  intros Hk Hst Hr. unfold TCP_Client_Close. rewrite (bind_conn _ c) by done. rewrite Hr, Hst. cbn [Z.eqb negb]. unfold ASSERT at 1.
  rewrite bind_ret. unfold put_conn at 1. erewrite bind_Ok by reflexivity. change (1 <? 1) with false. cbv iota.
  rewrite bool_decide_eq_false_2 by naive_solver. rewrite bind_ret. unfold emit at 1. erewrite bind_Ok by reflexivity.
  unfold TCP_int_FreeTCB. rewrite bind_assoc. erewrite bind_conn; [|apply lookup_insert_eq]. cbn [State set_Refs]. rewrite Hst. done.
Qed.

(** A closed listener stays on the list: the next segment that arrives reads freed memory. *)
Lemma closed_listener_read IfType IfAddress after s srv l i a h packet L : gTCP_Listeners s = srv -> srv <> 0 -> listeners s !! srv = Some l ->
  (do _ <- TCP_Server_Close srv; TCP_GetPacket IfType IfAddress after i a h packet L) s = Stop TFault.
Proof.
  intros Hg H0 Hl. unfold TCP_Server_Close. erewrite bind_Ok by reflexivity. unfold TCP_GetPacket. rewrite bind_get.
  cbn [gTCP_Listeners listeners conns]. rewrite Hg. cbn [match_server]. rewrite (proj2 (Z.eqb_neq _ _) H0).
  unfold bind at 1 2, listener_at. cbn [listeners]. by rewrite lookup_delete_eq.
Qed.

(** Two connections to the same port of the same host are not told apart: the lookup does not see the local
    port of an outbound connection. *)
Lemma local_port_ignored IfType s i a dp dp' sp : gTCP_Listeners s = 0 -> find_connection IfType i a dp sp s = find_connection IfType i a dp' sp s.
Proof. intros Hg. unfold find_connection. rewrite !bind_get, Hg. by destruct (size (listeners s)). Qed.

Lemma past_bitmap (f : list Z) : len f = 9216 -> get f (fvalid (8192 / 8)) = None.
Proof.
  intros Hf. change (fvalid (8192 / 8)) with (Z.of_nat (Z.to_nat 9216)). rewrite get_nat. apply lookup_ge_None. unfold len in Hf. lia.
Qed.

(** A byte of the window that has arrived. *)
Definition arrived (f : list Z) (j : Z) : Prop := exists b, get f (fvalid (j / 8)) = Some b /\ Z.land b (Z.shiftl 1 (j mod 8)) <> 0.

Lemma run_past k c s n : forall index i fuel, conns s !! k = Some c -> len (Future c) = TCP_WINDOW_SIZE + TCP_WINDOW_SIZE / 8 ->
  0 <= index <= TCP_WINDOW_SIZE -> (forall j, index <= j < TCP_WINDOW_SIZE -> arrived (Future c) j) ->
  i + (TCP_WINDOW_SIZE - index) < n -> TCP_WINDOW_SIZE - index < Z.of_nat fuel -> run_loop fuel k n i index s = Stop TFault.
Proof.
  unfold TCP_WINDOW_SIZE. enough (forall m index i fuel, (Z.to_nat (8192 - index) <= m)%nat -> conns s !! k = Some c -> len (Future c) = 9216 ->
    0 <= index <= 8192 -> (forall j, index <= j < 8192 -> arrived (Future c) j) ->
    i + (8192 - index) < n -> 8192 - index < Z.of_nat fuel -> run_loop fuel k n i index s = Stop TFault) as H by (intros; by eapply H).
  induction m as [|m IH]; intros index i fuel Hm Hk Hlen Hi Har Hn Hf; (destruct fuel as [|fuel]; [lia|]); cbn [run_loop];
    rewrite (proj2 (Z.ltb_lt i n)) by lia; cbn [negb]; unfold future_get; rewrite bind_assoc, (bind_conn _ c) by done; unfold bind at 1, lift.
  { assert (index = 8192) as -> by lia. by rewrite past_bitmap. }
  destruct (decide (index = 8192)) as [->|Hne]; [by rewrite past_bitmap|].
  destruct (Har index) as (b & Hb & Hbit); [lia|]. rewrite Hb, (proj2 (Z.eqb_neq _ _) Hbit).
  assert (0 <= index mod 8 < 8) by (apply Z.mod_pos_bound; lia). assert (index = 8 * (index / 8) + index mod 8) by (apply Z.div_mod; lia).
  unfold wrap_past, TCP_WINDOW_SIZE. rewrite !(proj2 (Z.ltb_ge 8192 _)) by lia.
  destruct (b =? 0xFF); (apply IH; [lia|done|done|lia| |lia|lia]); intros j Hj; apply Har; lia.
Qed.

(** When the bytes after the next one have arrived up to the end of the window and more are expected, the search
    for the end of the run reads past the bitmap: the index is brought back only after it has passed the end. *)
Theorem future_run_past_end s k c : conns s !! k = Some c -> len (Future c) = TCP_WINDOW_SIZE + TCP_WINDOW_SIZE / 8 ->
  let index := NextSequenceRcv c mod TCP_WINDOW_SIZE in
  (forall j, index <= j < TCP_WINDOW_SIZE -> arrived (Future c) j) ->
  TCP_WINDOW_SIZE - index < u32 (HighestSequenceRcvd c - NextSequenceRcv c) ->
  TCP_INT_UpdateRecievedFromFuture k s = Stop TFault.
Proof.
  intros Hk Hlen index Har Hlt. unfold TCP_INT_UpdateRecievedFromFuture. rewrite (bind_conn _ c) by done. fold index.
  assert (0 <= index < TCP_WINDOW_SIZE) by (apply Z.mod_pos_bound; unfold TCP_WINDOW_SIZE; lia).
  destruct (HighestSequenceRcvd c =? NextSequenceRcv c) eqn:E; bools.
  { rewrite E, Z.sub_diag in Hlt. change (u32 0) with 0 in Hlt. lia. }
  unfold bind at 1. by rewrite (run_past k c s _ index 0) by (done || lia).
Qed.

(** The last port, when it is the first one tried, is handed out without bringing the counter back: the next
    search starts at port 0. *)
Lemma port_zero s bm fuel : gaTCP_PortBitmap s = bm -> giTCP_NextOutPort s = 0xFFFF -> bitmap_ok bm ->
  port_used bm 0xFFFF = Some false -> port_used bm 0 = Some false ->
  exists s1 s2, TCP_GetUnusedPort fuel s = Ok 0xFFFF s1 /\ TCP_GetUnusedPort fuel s1 = Ok 0 s2.
Proof.
  intros Hb Hn Hbm Hl H0. destruct (port_mark_run bm 0xFFFF Hbm) as (bm1 & Hm1 & Hbm1 & Hu1); [by split|].
  destruct (port_mark_run bm1 0 Hbm1) as (bm2 & Hm2 & _); [by split|].
  unfold TCP_GetUnusedPort. rewrite bind_get, Hb, Hn. change (u16 0xFFFF) with 0xFFFF. change (i32 (0xFFFF + 1)) with 0x10000.
  unfold bind at 1, lift at 1. assert (port_loop fuel bm 0xFFFF 0x10000 = Some (Some (0xFFFF, 0x10000))) as -> by (destruct fuel; cbn [port_loop]; by rewrite Hl).
  unfold bind at 1, lift at 1. rewrite Hm1. eexists _, _. split; [reflexivity|]. rewrite bind_get. cbn [gaTCP_PortBitmap giTCP_NextOutPort].
  change (u16 0x10000) with 0. unfold bind at 1, lift at 1.
  assert (forall n, port_loop fuel bm1 0 n = Some (Some (0, n))) as -> by (intros n; destruct fuel; cbn [port_loop]; rewrite Hu1 by (by split); by rewrite H0).
  unfold bind at 1, lift at 1. rewrite Hm2. reflexivity.
Qed.

(** A FIN with data in order: the data are dropped and the FIN is acknowledged as if the segment were empty, so
    the peer is told that only the first byte of the segment has arrived. *)
Lemma fin_data_dropped : let h := MkHdr 80 0xC000 1000 7 header_words 0x11 100 0 0 in
  exists s' c', TCP_INT_HandleConnectionPacket TcpTheorems.small_type TcpTheorems.small_addr 0 5 h (header_bytes h ++ [1; 2; 3]) 23 (TcpTheorems.small_world (TcpTheorems.small_conn 0xC000 80 7 1000)) = Ok 0 s' /\
    conns s' !! 5 = Some c' /\ State c' = TCP_ST_CLOSE_WAIT /\ contents (RecievedBuffer c') = [] /\ NextSequenceRcv c' = 1001.
Proof. eexists _, _. split; [vm_compute; reflexivity|]. split; [reflexivity|]. by split_and!. Qed.

End TcpFindings.
