(* ===== verification/NetBuf.v ===== *)
(** * Packet buffers ([KernelLand/Modules/IPStack/buffer.c])

    A buffer is a sequence of parts, each a header and a footer of a layer: the headers stand in the reverse of the order
    in which the parts were added, the footers follow in that order.  [Data] is the memory from the pointer on. *)
From S2P Require Import Prelude.

Local Open Scope Z_scope.

Record subbuffer := MkSub { Data : list Z; PreLength : Z; PostLength : Z; Cb : option Z }.
Record tIPStackBuffer := MkBuffer { MaxSubBufffers : Z; SubBuffers : list subbuffer; TotalLength : Z }.

Definition IPStack_Buffer_CreateBuffer (MaxBuffers : Z) : tIPStackBuffer := MkBuffer MaxBuffers [] 0.

(** The callbacks that are called, with what they are given. *)
Definition IPStack_Buffer_ClearBuffer (b : tIPStackBuffer) : list (Z * Z * Z * list Z) * tIPStackBuffer :=
  (omap (fun x => match Cb x with Some c => Some (c, PreLength x, PostLength x, Data x) | None => None end) (SubBuffers b), MkBuffer (MaxSubBufffers b) [] (TotalLength b)).
Definition IPStack_Buffer_DestroyBuffer (b : tIPStackBuffer) : list (Z * Z * Z * list Z) := (IPStack_Buffer_ClearBuffer b).1.

Definition IPStack_Buffer_AppendSubBuffer (b : tIPStackBuffer) (HeaderLen FooterLen : Z) (data : list Z) (cb : option Z) : tIPStackBuffer :=
  if len (SubBuffers b) =? MaxSubBufffers b then b else
  MkBuffer (MaxSubBufffers b) (SubBuffers b ++ [MkSub data HeaderLen FooterLen cb]) (u32 (TotalLength b + u32 (HeaderLen + FooterLen))).

Definition IPStack_Buffer_GetLength (b : tIPStackBuffer) : Z := TotalLength b.

(** [for( int i = Buffer->nSubBuffers; i -- && rem_space != 0; )]: the space left and what was copied. *)
Fixpoint get_headers (subs : list subbuffer) (rem_space : Z) : option (Z * list Z) :=
  match subs with
  | [] => Some (rem_space, [])
  | x :: subs =>
      if rem_space =? 0 then Some (rem_space, []) else
      let n := Z.min (PreLength x) rem_space in
      d ← rd (Data x) 0 n;
      '(r, l) ← get_headers subs (rem_space - n); Some (r, d ++ l)
  end.
Fixpoint get_footers (subs : list subbuffer) (rem_space : Z) : option (Z * list Z) :=
  match subs with
  | [] => Some (rem_space, [])
  | x :: subs =>
      if rem_space =? 0 then Some (rem_space, []) else
      if PostLength x =? 0 then get_footers subs rem_space else
      let n := Z.min (PostLength x) rem_space in
      d ← rd (Data x) (PreLength x) n;
      '(r, l) ← get_footers subs (rem_space - n); Some (r, d ++ l)
  end.
(** The bytes copied; their number is what the function returns. *)
Definition IPStack_Buffer_GetData (b : tIPStackBuffer) (MaxBytes : Z) : option (list Z) :=
  '(r, l) ← get_headers (rev (SubBuffers b)) MaxBytes;
  '(_, k) ← get_footers (SubBuffers b) r; Some (l ++ k).

(** The block of [TotalLength] bytes; what is not copied into it is as [malloc] left it ([fill]). *)
Definition IPStack_Buffer_CompactBuffer (fill : Z -> list Z) (b : tIPStackBuffer) : option (list Z) :=
  d ← IPStack_Buffer_GetData b (TotalLength b); Some (d ++ fill (TotalLength b - len d)).

(** The parts one after the other: the next index, and the bytes of this one.  Slots of the array past the parts are 0. *)
Fixpoint next_footer (fuel : nat) (b : tIPStackBuffer) (Index : Z) : option (option (Z * list Z)) :=
  let n := len (SubBuffers b) in
  match fuel with
  | O => None
  | S fuel =>
      if MaxSubBufffers b <=? Index then None else
      let post := match get (SubBuffers b) Index with Some x => PostLength x | None => 0 end in
      if post =? 0 then if Index =? n then Some None else next_footer fuel b (Index + 1)
      else x ← get (SubBuffers b) Index; d ← rd (Data x) (PreLength x) (PostLength x); Some (Some (Index + 1 + n, d))
  end.
Definition IPStack_Buffer_GetBuffer (b : tIPStackBuffer) (Index : Z) : option (option (Z * list Z)) :=
  let n := len (SubBuffers b) in
  let Index := if Index =? -1 then 0 else Index in
  if n * 2 <=? Index then Some None else
  if n <=? Index then next_footer (S (length (SubBuffers b))) b (Index - n) else
  x ← get (SubBuffers b) (n - Index - 1); d ← rd (Data x) 0 (PreLength x); Some (Some (Index + 1, d)).

(** ** The bytes of a buffer *)
Definition header (x : subbuffer) : list Z := sub 0 (PreLength x) (Data x).
Definition footer (x : subbuffer) : list Z := sub (PreLength x) (PostLength x) (Data x).
Definition packet (b : tIPStackBuffer) : list Z := concat (header <$> rev (SubBuffers b)) ++ concat (footer <$> SubBuffers b).

(** Every part's bytes are there, and the length is their sum. *)
Definition sub_ok (x : subbuffer) : Prop := 0 <= PreLength x /\ 0 <= PostLength x /\ PreLength x + PostLength x <= len (Data x).
Record buf_ok (b : tIPStackBuffer) : Prop := {
  bo_subs : Forall sub_ok (SubBuffers b); bo_max : len (SubBuffers b) <= MaxSubBufffers b;
  bo_len : TotalLength b = len (packet b) /\ len (packet b) < 4294967296 }.

Lemma part_header_len x : sub_ok x -> len (header x) = PreLength x.
Proof. intros (H1 & H2 & H3). apply len_sub; lia. Qed.
Lemma part_footer_len x : sub_ok x -> len (footer x) = PostLength x.
Proof. intros (H1 & H2 & H3). apply len_sub; lia. Qed.

Lemma get_headers_all subs : Forall sub_ok subs -> forall r, len (concat (header <$> subs)) <= r -> get_headers subs r = Some (r - len (concat (header <$> subs)), concat (header <$> subs)).
Proof.
  induction 1 as [|x subs Hx _ IH]; intros r Hr; cbn [get_headers fmap list_fmap concat] in *; [change (len (@nil Z)) with 0; by rewrite Z.sub_0_r|].
  pose proof (part_header_len x Hx) as Hh. rewrite len_app in *. pose proof (len_nonneg (header x)). pose proof (len_nonneg (concat (header <$> subs))) as Hc. destruct Hx as (H1 & H2 & H3).
  destruct (r =? 0) eqn:E; bools.
  - subst r. assert (header x = []) as -> by (apply length_zero_iff_nil; unfold len in *; lia). assert (concat (header <$> subs) = []) as -> by (apply length_zero_iff_nil; unfold len in *; lia). done.
  - rewrite Z.min_l by lia. rewrite rd_ok by lia. fold (header x). cbn [mbind option_bind]. rewrite IH by lia. cbn [mbind option_bind]. do 2 f_equal. lia.
Qed.
Lemma get_footers_all subs : Forall sub_ok subs -> forall r, len (concat (footer <$> subs)) <= r -> get_footers subs r = Some (r - len (concat (footer <$> subs)), concat (footer <$> subs)).
Proof.
  induction 1 as [|x subs Hx _ IH]; intros r Hr; cbn [get_footers fmap list_fmap concat] in *; [change (len (@nil Z)) with 0; by rewrite Z.sub_0_r|].
  pose proof (part_footer_len x Hx) as Hh. rewrite len_app in *. pose proof (len_nonneg (footer x)). pose proof (len_nonneg (concat (footer <$> subs))) as Hc. destruct Hx as (H1 & H2 & H3).
  destruct (r =? 0) eqn:E; bools.
  - subst r. assert (footer x = []) as -> by (apply length_zero_iff_nil; unfold len in *; lia). assert (concat (footer <$> subs) = []) as -> by (apply length_zero_iff_nil; unfold len in *; lia). done.
  - destruct (PostLength x =? 0) eqn:E0; bools.
    + assert (footer x = []) as -> by (apply length_zero_iff_nil; unfold len in *; lia). rewrite IH by lia. done.
    + rewrite Z.min_l by lia. rewrite rd_ok by lia. fold (footer x). cbn [mbind option_bind]. rewrite IH by lia. cbn [mbind option_bind]. do 2 f_equal. lia.
Qed.
Lemma GetData_all b : buf_ok b -> IPStack_Buffer_GetData b (TotalLength b) = Some (packet b).
Proof.
  intros [H1 _ [H3 _] ]. unfold IPStack_Buffer_GetData. unfold packet in *. rewrite len_app in H3. pose proof (len_nonneg (concat (footer <$> SubBuffers b))).
  rewrite get_headers_all by (try apply Forall_rev; try done; lia). cbn [mbind option_bind]. rewrite get_footers_all by (try done; lia). done.
Qed.
Lemma Compact_all fill b : buf_ok b -> fill 0 = [] -> IPStack_Buffer_CompactBuffer fill b = Some (packet b).
Proof.
  intros H Hf. unfold IPStack_Buffer_CompactBuffer. rewrite (GetData_all b H). cbn [mbind option_bind]. destruct (bo_len _ H) as [-> _]. by rewrite Z.sub_diag, Hf, app_nil_r.
Qed.
Lemma Create_ok n : 0 <= n -> buf_ok (IPStack_Buffer_CreateBuffer n).
Proof. intros. by split. Qed.
(** A part added surrounds what is there. *)
Lemma Append_ok b pre post data cb : buf_ok b -> len (SubBuffers b) < MaxSubBufffers b -> 0 <= pre -> 0 <= post -> pre + post <= len data -> len (packet b) + (pre + post) < 4294967296 ->
  let b' := IPStack_Buffer_AppendSubBuffer b pre post data cb in
  buf_ok b' /\ packet b' = sub 0 pre data ++ packet b ++ sub pre post data /\ len (SubBuffers b') = len (SubBuffers b) + 1 /\ MaxSubBufffers b' = MaxSubBufffers b /\ TotalLength b' = TotalLength b + (pre + post).
Proof.
  intros [H1 H2 [H3 H3'] ] Hm Hp Hq Hd Hmax b'. unfold b', IPStack_Buffer_AppendSubBuffer. rewrite (proj2 (Z.eqb_neq _ _)) by lia. pose proof (len_nonneg (packet b)).
  assert (sub_ok (MkSub data pre post cb)) as Hs by done. rewrite (u32_small (pre + post)) by lia. rewrite u32_small by lia.
  assert (packet (MkBuffer (MaxSubBufffers b) (SubBuffers b ++ [MkSub data pre post cb]) (TotalLength b + (pre + post))) = sub 0 pre data ++ packet b ++ sub pre post data) as Ep.
  { unfold packet. cbn [SubBuffers]. rewrite rev_app_distr, !fmap_app, !concat_app. cbn [rev app fmap list_fmap concat header footer Data PreLength PostLength]. rewrite !app_nil_r, <- !app_assoc. done. }
  split; [split|].
  - cbn [SubBuffers]. apply Forall_app. split; [done|by apply Forall_singleton].
  - cbn [SubBuffers MaxSubBufffers]. rewrite len_app. change (len [MkSub data pre post cb]) with 1. lia.
  - rewrite Ep. cbn [TotalLength]. rewrite !len_app, !len_sub by lia. lia.
  - split; [done|]. cbn [SubBuffers MaxSubBufffers TotalLength]. rewrite len_app. done.
Qed.
