(* ===== verification/Net.v ===== *)
(** * The packet path of the IP stack
    ([KernelLand/Modules/IPStack/link.c], [hwaddr_cache.c], [arp.c], [ipv4.c], [icmp.c], [firewall.c])

    A frame sent is recorded with its adapter; a frame received is handed to the layer registered for its type, which
    sees the memory from its header on: what follows the block of the frame in the heap is part of the state.  Waiting
    for another thread is a parameter: what is done to the state meanwhile, and what the wait returns. *)
From S2P Require Import Prelude CString Arith NetAddr Routing NetBuf.

Local Open Scope Z_scope.
Local Open Scope monad_scope.

(** ** State *)
(** Functions that are called through pointers. *)
Inductive tPacketCallback := IPv4_int_GetPacket_cb | ARP_int_GetPacket_cb | OtherType (n : Z).
Inductive tIPRxCallback := ICMP_GetPacket_cb | UDP_GetPacket_cb | OtherRx (n : Z).
Inductive tIPErrorCallback := UDP_IPError_cb | OtherErr (n : Z).

Record tHWAddrCachedAddr := MkCached { WaitingCount : Z; WaitingSem : Z; L3Addr : list Z; HWAddr : list Z }.
(** [hc_list]: the entries from [First] on. *)
Record tHWAddrCache := MkCache { nAddrs : Z; hc_list : list Z; hc_ents : gmap Z tHWAddrCachedAddr; hc_next : Z }.
Definition MaxSize := 64.

(** [Modules] holds the match functions of a rule. *)
Record tRule := MkRule {
  PacketCount : Z; ByteCount : Z; bInvertSource : bool; r_Source : list Z; SourceMask : Z; bInvertDest : bool; r_Dest : list Z; DestMask : Z;
  Modules : list (option (Z -> list Z -> list Z -> Z -> Z -> Z -> list Z -> Z)); Target : list Z }.
Record tChain := MkChain { Rules : list tRule; ch_Name : list Z }.

Record tUDPPacket := MkPacket { pk_Next : Z; pk_Port : Z; pk_AddrType : Z; pk_Addr : list Z; pk_Data : list Z }.
Record tUDPChannel := MkChannel {
  ch_Next : Z; ch_Interface : Z; LocalPort : Z; rm_Port : Z; rm_AddrType : Z; rm_Addr : list Z; RemoteMask : Z; Queue : Z; QueueEnd : Z; ch_avail : bool }.
Record udp_state := MkUdp { gpUDP_Channels : Z; u_chans : gmap Z tUDPChannel; u_packets : gmap Z tUDPPacket; gUDP_Ports : list Z; u_next : Z; u_errno : Z }.

Inductive event :=
  | Sent (Adapter : Z) (Frame : list Z)
  | CalledType (n Adapter : Z) (From : list Z) (Length : Z)
  | CalledRx (n Interface : Z) (Address : list Z) (Length : Z)
  | CalledErr (n Interface : Z) (Mode : Z) (Address : list Z) (Length : Z).

(** [st_beyond]: the bytes after a block of the heap; [st_hwaddr]: the hardware address of each adapter. *)
Record stack := MkStack {
  st_net : net; st_adapter : gmap Z Z; st_hwaddr : gmap Z (list Z); cache_v4 : tHWAddrCache; cache_v6 : tHWAddrCache;
  gaRegisteredTypes : list (Z * option tPacketCallback); gaIPv4_Callbacks : gmap Z (tIPRxCallback * option tIPErrorCallback);
  gapFirewall_Chains : gmap Z (list tChain); st_udp : udp_state; gICMP_PingSlots : list (Z * bool); st_out : list event; st_beyond : list Z }.

Inductive sstop := SFault | SAssert | SLoop | SBlock | SNet (e : nstop).
Abbreviation SM := (M stack sstop).

Definition sopt {A} (x : option A) : SM A := match x with Some a => ret a | None => halt SFault end.
Definition ASSERT (b : bool) : SM unit := if b then ret tt else halt SAssert.
Definition on_net {A} (c : NM A) : SM A := fun s =>
  match c (st_net s) with
  | Ok a n => Ok a (MkStack n (st_adapter s) (st_hwaddr s) (cache_v4 s) (cache_v6 s) (gaRegisteredTypes s) (gaIPv4_Callbacks s) (gapFirewall_Chains s) (st_udp s) (gICMP_PingSlots s) (st_out s) (st_beyond s))
  | Stop e => Stop (SNet e)
  end.
Definition emit (e : event) : SM unit := fun s =>
  Ok tt (MkStack (st_net s) (st_adapter s) (st_hwaddr s) (cache_v4 s) (cache_v6 s) (gaRegisteredTypes s) (gaIPv4_Callbacks s) (gapFirewall_Chains s) (st_udp s) (gICMP_PingSlots s) (st_out s ++ [e]) (st_beyond s)).
Definition set_types (l : list (Z * option tPacketCallback)) : SM unit := fun s =>
  Ok tt (MkStack (st_net s) (st_adapter s) (st_hwaddr s) (cache_v4 s) (cache_v6 s) l (gaIPv4_Callbacks s) (gapFirewall_Chains s) (st_udp s) (gICMP_PingSlots s) (st_out s) (st_beyond s)).
Definition set_callbacks (m : gmap Z (tIPRxCallback * option tIPErrorCallback)) : SM unit := fun s =>
  Ok tt (MkStack (st_net s) (st_adapter s) (st_hwaddr s) (cache_v4 s) (cache_v6 s) (gaRegisteredTypes s) m (gapFirewall_Chains s) (st_udp s) (gICMP_PingSlots s) (st_out s) (st_beyond s)).
Definition set_chains (m : gmap Z (list tChain)) : SM unit := fun s =>
  Ok tt (MkStack (st_net s) (st_adapter s) (st_hwaddr s) (cache_v4 s) (cache_v6 s) (gaRegisteredTypes s) (gaIPv4_Callbacks s) m (st_udp s) (gICMP_PingSlots s) (st_out s) (st_beyond s)).
Definition set_pings (l : list (Z * bool)) : SM unit := fun s =>
  Ok tt (MkStack (st_net s) (st_adapter s) (st_hwaddr s) (cache_v4 s) (cache_v6 s) (gaRegisteredTypes s) (gaIPv4_Callbacks s) (gapFirewall_Chains s) (st_udp s) l (st_out s) (st_beyond s)).
Definition set_udp (u : udp_state) : SM unit := fun s =>
  Ok tt (MkStack (st_net s) (st_adapter s) (st_hwaddr s) (cache_v4 s) (cache_v6 s) (gaRegisteredTypes s) (gaIPv4_Callbacks s) (gapFirewall_Chains s) u (gICMP_PingSlots s) (st_out s) (st_beyond s)).
Definition adapter_of (Interface : Z) : SM Z := fun s => match st_adapter s !! Interface with Some a => Ok a s | None => Stop SFault end.
Definition hwaddr_of (Adapter : Z) : SM (list Z) := fun s => match st_hwaddr s !! Adapter with Some a => Ok a s | None => Stop SFault end.

(** 16-bit fields in network order. *)
Definition net16 (v : Z) : list Z := [v / 256 mod 256; v mod 256].
Definition ntohs_at (m : list Z) (o : Z) : option Z := a ← get m o; b ← get m (o + 1); Some (a * 256 + b).

(** ** The link layer *)
Definition sizeof_EthernetHeader := 14.

Fixpoint type_slot (l : list (Z * option tPacketCallback)) (i ty : Z) : option (option Z) :=
  match l with
  | [] => Some None
  | (t, cb) :: l => if t =? ty then None else match cb with None => Some (Some i) | Some _ => type_slot l (i + 1) ty end
  end.
Definition Link_RegisterType (ty : Z) (Callback : tPacketCallback) : SM unit :=
  do s <- get_state;
  match type_slot (gaRegisteredTypes s) 0 ty with
  | None => ret tt
  | Some (Some i) => do l <- sopt (set (gaRegisteredTypes s) i (ty, Some Callback)); set_types l
  | Some None => set_types (gaRegisteredTypes s ++ [(ty, Some Callback)])
  end.

(** The adapter is given the bytes of the buffer; the buffer is destroyed. *)
Definition Adapter_SendPacket (Adapter : Z) (Buffer : tIPStackBuffer) : SM unit :=
  do d <- sopt (IPStack_Buffer_GetData Buffer (TotalLength Buffer)); emit (Sent Adapter d).

Definition Link_SendPacket (Adapter ty : Z) (To : list Z) (Buffer : tIPStackBuffer) : SM unit :=
  let length := IPStack_Buffer_GetLength Buffer in
  let ofs := Z.land (4 - Z.land length 3) 3 in
  do src <- hwaddr_of Adapter;
  let buf := To ++ src ++ net16 ty ++ replicate (Z.to_nat (ofs + 4)) 0 in
  Adapter_SendPacket Adapter (IPStack_Buffer_AppendSubBuffer Buffer sizeof_EthernetHeader ofs buf None).

(** ** The cache of hardware addresses *)
Definition cMAC_BROADCAST : list Z := [255; 255; 255; 255; 255; 255].
Definition cMAC_ZERO : list Z := [0; 0; 0; 0; 0; 0].
Definition UINT_MAX := 0xFFFFFFFF.
Definition INT_MAX := 0x7FFFFFFF.

Definition HWCache_int_GetCache (AddrType : Z) : SM tHWAddrCache := fun s =>
  if AddrType =? 4 then Ok (cache_v4 s) s else if AddrType =? 6 then Ok (cache_v6 s) s else Stop SFault.
Definition put_cache (AddrType : Z) (c : tHWAddrCache) : SM unit := fun s =>
  if AddrType =? 4 then Ok tt (MkStack (st_net s) (st_adapter s) (st_hwaddr s) c (cache_v6 s) (gaRegisteredTypes s) (gaIPv4_Callbacks s) (gapFirewall_Chains s) (st_udp s) (gICMP_PingSlots s) (st_out s) (st_beyond s))
  else if AddrType =? 6 then Ok tt (MkStack (st_net s) (st_adapter s) (st_hwaddr s) (cache_v4 s) c (gaRegisteredTypes s) (gaIPv4_Callbacks s) (gapFirewall_Chains s) (st_udp s) (gICMP_PingSlots s) (st_out s) (st_beyond s))
  else Stop SFault.
Definition put_ent (ca : Z) (e : tHWAddrCachedAddr) (c : tHWAddrCache) : tHWAddrCache := MkCache (nAddrs c) (hc_list c) (<[ca := e]> (hc_ents c)) (hc_next c).
Definition ent_of (c : tHWAddrCache) (ca : Z) : SM tHWAddrCachedAddr := sopt (hc_ents c !! ca).
Definition waiting (n : Z) (e : tHWAddrCachedAddr) : tHWAddrCachedAddr := MkCached n (WaitingSem e) (L3Addr e) (HWAddr e).

Fixpoint memiszero (mem : list Z) (length : nat) : option bool :=
  match length with
  | O => Some true
  | S length => match mem with [] => None | b :: mem => if negb (b =? 0) then Some false else memiszero mem length end
  end.

(** The first entry with this address. *)
Fixpoint find_addr (ents : gmap Z tHWAddrCachedAddr) (l : list Z) (addr : list Z) (addrsize : nat) : option (option Z) :=
  match l with
  | [] => Some None
  | ca :: l => e ← ents !! ca; c ← memcmp (L3Addr e) addr addrsize; if c =? 0 then Some (Some ca) else find_addr ents l addr addrsize
  end.

(** ARP requests and replies have the same layout. *)
Definition arp_packet (op : Z) (SourceMac SourceIP DestMac DestIP : list Z) : list Z :=
  net16 1 ++ net16 0x0800 ++ [6; 4] ++ net16 op ++ SourceMac ++ SourceIP ++ DestMac ++ DestIP.
Definition sizeof_ArpRequest4 := 28.
Definition ARP_Request4 (Interface : Z) (Address : list Z) : SM unit :=
  do x <- on_net (iface_at Interface);
  do a <- adapter_of Interface;
  do mac <- hwaddr_of a;
  do ip <- sopt (rd (if_Address x) 0 4);
  let req := arp_packet 1 mac ip cMAC_BROADCAST Address in
  Link_SendPacket a 0x0806 cMAC_BROADCAST (IPStack_Buffer_AppendSubBuffer (IPStack_Buffer_CreateBuffer 3) sizeof_ArpRequest4 0 req None).

(** Where the packet is to be sent: a hardware address, or the address to ask for. *)
Definition next_hop (Interface : Z) (x : tInterface) (DestAddr : list Z) : SM (list Z + list Z) :=
  let ty := if_Type x in
  let addrsize := IPStack_GetAddressSize ty in
  do local <- sopt (IPStack_CompareAddress ty DestAddr (if_Address x) (if_SubnetBits x));
  if negb (local : bool) then
    do route <- on_net (IPStack_FindRoute ty Interface DestAddr);
    match route with
    | None => ret (inl cMAC_ZERO)
    | Some p =>
        do r <- match p with RExplicit a => on_net (route_at a) | RIface i => do y <- on_net (iface_at i); ret (if_Route y) end;
        do zero <- sopt (memiszero (NextHop r) (Z.to_nat addrsize));
        ret (inr (if (zero : bool) then DestAddr else NextHop r))
    end
  else match IPStack_AddressIsBroadcast ty DestAddr (if_SubnetBits x) with
       | inl NetAssert => halt SAssert
       | inl NetFault => halt SFault
       | inr true => ret (inl cMAC_BROADCAST)
       | inr false => ret (inr DestAddr)
       end.

Section waits.
(** A wait on the semaphore of an entry: what happens to the state meanwhile, and the number of items taken. *)
Context (Semaphore_Wait : Z -> Z -> SM Z).

(** The count of waiting threads taken down again, and the address read. *)
Definition after_wait (ty ca : Z) : SM (list Z) :=
  do c <- HWCache_int_GetCache ty;
  do e <- ent_of c ca;
  ASSERT (0 <? WaitingCount e);;;
  put_cache ty (put_ent ca (waiting (WaitingCount e - 1) e) c);;; ret (HWAddr e).

(** An entry that is there: moved to the front; when its address is still asked for, the reply is waited for. *)
Definition resolve_cached (ty ca : Z) : SM (list Z) :=
  do c <- HWCache_int_GetCache ty;
  let c := MkCache (nAddrs c) (ca :: filter (fun k => k <> ca) (hc_list c)) (hc_ents c) (hc_next c) in
  put_cache ty c;;;
  do e <- ent_of c ca;
  if 0 <? WaitingCount e then
    ASSERT (negb (WaitingCount e =? UINT_MAX));;;
    put_cache ty (put_ent ca (waiting (WaitingCount e + 1) e) c);;;
    do _ <- Semaphore_Wait ty ca; after_wait ty ca
  else ret (HWAddr e).

(** A new entry at the front; the request is sent and the reply waited for.  With all entries in use the code
    reads through the pointer that is NULL after the search. *)
Definition resolve_new (Interface ty : Z) (DestAddr : list Z) : SM (list Z) :=
  do c <- HWCache_int_GetCache ty;
  if MaxSize <=? nAddrs c then halt SFault else
  let ca := hc_next c in
  do addr <- sopt (rd DestAddr 0 (IPStack_GetAddressSize ty));
  put_cache ty (MkCache (nAddrs c + 1) (ca :: hc_list c) (<[ca := MkCached 1 0 addr cMAC_ZERO]> (hc_ents c)) (ca + 1));;;
  (if ty =? 4 then ARP_Request4 Interface addr else halt SAssert);;;
  do rv <- Semaphore_Wait ty ca;
  do m <- after_wait ty ca; ret (if rv =? 1 then m else cMAC_ZERO).

Definition HWCache_Resolve (Interface : Z) (DestAddr : list Z) : SM (list Z) :=
  do x <- on_net (iface_at Interface);
  do hop <- next_hop Interface x DestAddr;
  match hop with
  | inl mac => ret mac
  | inr DestAddr =>
      do c <- HWCache_int_GetCache (if_Type x);
      do ca <- sopt (find_addr (hc_ents c) (hc_list c) DestAddr (Z.to_nat (IPStack_GetAddressSize (if_Type x))));
      match ca with
      | Some ca => resolve_cached (if_Type x) ca
      | None => resolve_new Interface (if_Type x) DestAddr
      end
  end.
End waits.

(** The last entry nobody waits on. *)
Definition last_unused (c : tHWAddrCache) : option Z := last (filter (fun ca => WaitingCount <$> hc_ents c !! ca = Some 0) (hc_list c)).
Definition HWCache_Set (AddrType : Z) (addr mac : list Z) : SM unit :=
  do c <- HWCache_int_GetCache AddrType;
  let n := Z.to_nat (IPStack_GetAddressSize AddrType) in
  do hit <- sopt (find_addr (hc_ents c) (hc_list c) addr n);
  match hit with
  | Some ca =>
      do e <- ent_of c ca;
      if 0 <? WaitingCount e then put_cache AddrType (put_ent ca (MkCached (WaitingCount e) (i32 (WaitingSem e + INT_MAX)) (L3Addr e) mac) c) else ret tt
  | None =>
      if nAddrs c <? MaxSize then
        let ca := hc_next c in
        put_cache AddrType (MkCache (nAddrs c + 1) (hc_list c ++ [ca]) (<[ca := MkCached 0 0 (take n addr) mac]> (hc_ents c)) (ca + 1))
      else match last_unused c with
           | Some ca => do e <- ent_of c ca; put_cache AddrType (put_ent ca (MkCached (WaitingCount e) (WaitingSem e) (take n addr) mac) c)
           | None => ret tt
           end
  end.

(** ** Interfaces of an adapter *)
Definition addr4 (x : tInterface) : option (list Z) := rd (if_Address x) 0 4.
Fixpoint interface_loop (fuel : nat) (iface Adapter : Z) (Address : list Z) (Broadcast : bool) (zero_iface : option Z) : SM (option Z) :=
  if iface =? 0 then ret (if Broadcast then zero_iface else None) else
  match fuel with
  | O => halt SLoop
  | S fuel =>
      do x <- on_net (iface_at iface);
      do a <- adapter_of iface;
      if negb (a =? Adapter) || negb (if_Type x =? 4) then interface_loop fuel (if_Next x) Adapter Address Broadcast zero_iface else
      do this <- sopt (addr4 x);
      if bool_decide (Address = this) then ret (Some iface) else
      if be_val this =? 0 then interface_loop fuel (if_Next x) Adapter Address Broadcast (match zero_iface with Some z => Some z | None => Some iface end) else
      if negb Broadcast then interface_loop fuel (if_Next x) Adapter Address Broadcast zero_iface else
      let netmask := IPv4_Netmask (if_SubnetBits x) in
      if (Z.land (be_val Address) netmask =? Z.land (be_val this) netmask) && (Z.land (be_val Address) (u32 (Z.lnot netmask)) =? Z.land 0xFFFFFFFF (u32 (Z.lnot netmask)))
      then ret (Some iface) else interface_loop fuel (if_Next x) Adapter Address Broadcast zero_iface
  end.
Definition IPv4_GetInterface (Adapter : Z) (Address : list Z) (Broadcast : bool) : SM (option Z) :=
  do s <- get_state; interface_loop (size (n_ifaces (st_net s))) (gIP_Interfaces (st_net s)) Adapter Address Broadcast None.

(** ** ARP packets *)
Definition ARP_int_GetPacket (Adapter : Z) (From : list Z) (Length : Z) (Buffer : list Z) : SM unit :=
  if Length <? sizeof_ArpRequest4 then ret tt else
  do ty <- sopt (ntohs_at Buffer 2);
  do hwsize <- sopt (get Buffer 4);
  do swsize <- sopt (get Buffer 5);
  do op <- sopt (ntohs_at Buffer 6);
  do SourceMac <- sopt (rd Buffer 8 6);
  do SourceIP <- sopt (rd Buffer 14 4);
  do DestIP <- sopt (rd Buffer 24 4);
  if negb (ty =? 0x0800) then ret tt else
  if negb (hwsize =? 6) then ret tt else
  if op =? 1 then
    if negb (swsize =? 4) then ret tt else
    do iface <- IPv4_GetInterface Adapter DestIP false;
    match iface with
    | None => ret tt
    | Some i =>
        HWCache_Set 4 SourceIP SourceMac;;;
        do x <- on_net (iface_at i);
        do ip <- sopt (rd (if_Address x) 0 4);
        do mac <- hwaddr_of Adapter;
        let req := take 6 Buffer ++ net16 2 ++ mac ++ ip ++ SourceMac ++ SourceIP in
        Link_SendPacket Adapter 0x0806 SourceMac (IPStack_Buffer_AppendSubBuffer (IPStack_Buffer_CreateBuffer 3) sizeof_ArpRequest4 0 req None)
    end
  else if op =? 2 then if swsize =? 4 then HWCache_Set 4 SourceIP From else ret tt
  else ret tt.

(** ** The firewall *)
Definition MAX_ADDRTYPE := 9.
Definition ACCEPT : list Z := [65; 67; 67; 69; 80; 84].
Definition DROP : list Z := [68; 82; 79; 80].
Definition RETURN : list Z := [82; 69; 84; 85; 82; 78].
Definition INPUT : list Z := [73; 78; 80; 85; 84].
Definition FORWARD : list Z := [70; 79; 82; 87; 65; 82; 68].

Definition rule_at (ty c j : Z) : SM tRule := do s <- get_state; do cs <- sopt (gapFirewall_Chains s !! ty); do ch <- sopt (get cs c); sopt (get (Rules ch) j).
Definition count_rule (ty c j Length : Z) : SM unit :=
  do s <- get_state;
  do cs <- sopt (gapFirewall_Chains s !! ty);
  do ch <- sopt (get cs c);
  do r <- sopt (get (Rules ch) j);
  let r := MkRule (i32 (PacketCount r + 1)) (i32 (ByteCount r + Length)) (bInvertSource r) (r_Source r) (SourceMask r) (bInvertDest r) (r_Dest r) (DestMask r) (Modules r) (Target r) in
  do rs <- sopt (set (Rules ch) j r);
  do cs <- sopt (set cs c (MkChain rs (ch_Name ch)));
  set_chains (<[ty := cs]> (gapFirewall_Chains s)).

(** The first module that does not just match. *)
Fixpoint do_modules (ms : list (option (Z -> list Z -> list Z -> Z -> Z -> Z -> list Z -> Z))) (ty : Z) (Src Dest : list Z) (Proto Flags Length : Z) (data : list Z) : Z :=
  match ms with
  | [] => 0
  | None :: ms => do_modules ms ty Src Dest Proto Flags Length data
  | Some f :: ms => let rv := f ty Src Dest Proto Flags Length data in if negb (rv =? 0) then rv else do_modules ms ty Src Dest Proto Flags Length data
  end.
(** [test]: the chain of the target applied to the packet. *)
Definition IPTables_DoRule (test : list Z -> SM Z) (ty c j : Z) (Src Dest : list Z) (Proto Flags Length : Z) (data : list Z) : SM Z :=
  do r <- rule_at ty c j;
  do m <- sopt (IPStack_CompareAddress ty Src (r_Source r) (SourceMask r));
  if Bool.eqb (negb m) (negb (bInvertSource r)) then ret (-1) else
  do m <- sopt (IPStack_CompareAddress ty Dest (r_Dest r) (DestMask r));
  if Bool.eqb (negb m) (negb (bInvertDest r)) then ret (-1) else
  let rv := do_modules (Modules r) ty Src Dest Proto Flags Length data in
  if negb (rv =? 0) then ret rv else
  count_rule ty c j Length;;; test (Target r).

Fixpoint chain_index (l : list tChain) (name : list Z) (i : Z) : option Z :=
  match l with [] => None | c :: l => if bool_decide (ch_Name c = name) then Some i else chain_index l name (i + 1) end.
Fixpoint rule_loop (n : nat) (do_rule : Z -> SM Z) (j : Z) : SM Z :=
  match n with
  | O => ret 0
  | S n => do rv <- do_rule j; if rv =? -1 then rule_loop n do_rule (j + 1) else if rv =? -2 then ret (-1) else ret rv
  end.
Fixpoint IPTables_TestChain (fuel : nat) (RuleName : list Z) (ty : Z) (Src Dest : list Z) (Proto Flags Length : Z) (data : list Z) : SM Z :=
  match fuel with
  | O => halt SLoop
  | S fuel =>
      if MAX_ADDRTYPE <=? ty then ret (-1) else
      if bool_decide (RuleName = []) then ret (-1) else
      if bool_decide (RuleName = ACCEPT) then ret 0 else
      if bool_decide (RuleName = DROP) then ret 1 else
      if bool_decide (RuleName = RETURN) then ret (-2) else
      do s <- get_state;
      let cs := default [] (gapFirewall_Chains s !! ty) in
      match chain_index cs RuleName 0 with
      | None => ret (-1)
      | Some c =>
          do ch <- sopt (get cs c);
          rule_loop (length (Rules ch)) (fun j => IPTables_DoRule (fun target => IPTables_TestChain fuel target ty Src Dest Proto Flags Length data) ty c j Src Dest Proto Flags Length data) 0
      end
  end.
(** Chains lead to chains at most as often as there are chains, unless they lead round in a circle. *)
Definition test_chain (RuleName : list Z) (Src Dest : list Z) (Proto Length : Z) (data : list Z) : SM Z :=
  do s <- get_state; IPTables_TestChain (S (S (length (default [] (gapFirewall_Chains s !! 4))))) RuleName 4 Src Dest Proto 0 Length data.

(** ** IPv4 *)
Definition DEFAULT_TTL := 32.
Definition IP4PROT_ICMP := 1.
Definition IP4PROT_UDP := 17.
Definition IPV4_BUFFERS := 3.
Definition IPV4_ETHERNET_ID := 0x0800.
Definition sizeof_IPv4Header := 20.
Definition IPERR_MISC := 0.
Definition IPERR_PORT_UNREACHABLE := 2.

Definition IPv4_RegisterCallback (ID : Z) (RxCallback : tIPRxCallback) (ErrCallback : option tIPErrorCallback) : SM Z :=
  if (ID <? 0) || (255 <? ID) then ret 0 else
  do s <- get_state;
  match gaIPv4_Callbacks s !! ID with
  | Some _ => ret 0
  | None => set_callbacks (<[ID := (RxCallback, ErrCallback)]> (gaIPv4_Callbacks s));;; ret 1
  end.

Definition ipv4_header (TotalLen ID Protocol Checksum : Z) (Source Destination : list Z) : list Z :=
  [0x45; 0] ++ net16 TotalLen ++ net16 ID ++ [0; 0; DEFAULT_TTL; Protocol] ++ net16 Checksum ++ Source ++ Destination.

Section sends.
Context (Semaphore_Wait : Z -> Z -> SM Z).

(** 1 when the packet is sent. *)
Definition IPv4_SendPacket (Iface : Z) (Address : list Z) (Protocol ID : Z) (Buffer : tIPStackBuffer) : SM Z :=
  let length := IPStack_Buffer_GetLength Buffer in
  do to <- HWCache_Resolve Semaphore_Wait Iface Address;
  if bool_decide (to = cMAC_ZERO) then ret 0 else
  do x <- on_net (iface_at Iface);
  do src <- sopt (rd (if_Address x) 0 4);
  do csum <- sopt (IPv4_Checksum (ipv4_header (u16 (sizeof_IPv4Header + length)) (u16 ID) (u8 Protocol) 0 src Address) sizeof_IPv4Header);
  let hdr := ipv4_header (u16 (sizeof_IPv4Header + length)) (u16 ID) (u8 Protocol) csum src Address in
  do a <- adapter_of Iface;
  Link_SendPacket a IPV4_ETHERNET_ID to (IPStack_Buffer_AppendSubBuffer Buffer sizeof_IPv4Header 0 hdr None);;; ret 1.

(** [Buf]: what the ICMP message quotes. *)
Definition IPv4_HandleError (Iface Mode Length : Z) (Buf : list Z) : SM unit :=
  if Length <? sizeof_IPv4Header then ret tt else
  do b0 <- sopt (get Buf 0);
  if negb (Z.shiftr b0 4 =? 4) then ret tt else
  do total <- sopt (ntohs_at Buf 2);
  do proto <- sopt (get Buf 9);
  do src <- sopt (rd Buf 12 4);
  let dataLength := u32 (Z.min Length total - sizeof_IPv4Header) in
  do s <- get_state;
  match gaIPv4_Callbacks s !! proto with
  | Some (_, Some (OtherErr n)) => emit (CalledErr n Iface Mode src (i32 dataLength))
  | _ => ret tt
  end.

(** ** ICMP *)
Definition ICMP_ECHOREPLY := 0.
Definition ICMP_UNREACHABLE := 3.
Definition ICMP_ECHOREQ := 8.
Definition sizeof_ICMPHeader := 8.
Definition PING_SLOTS := 64.
Definition word_le (m : list Z) (o : Z) : option Z := a ← get m o; b ← get m (o + 1); Some (a + 256 * b).

Definition ICMP_GetPacket (Interface : Z) (Address : list Z) (Length : Z) (Buffer : list Z) : SM unit :=
  do ty <- sopt (get Buffer 0);
  do code <- sopt (get Buffer 1);
  do id <- sopt (word_le Buffer 4);
  do seq <- sopt (ntohs_at Buffer 6);
  if ty =? ICMP_ECHOREPLY then
    if negb (code =? 0) then ret tt else
    do s <- get_state;
    do p <- sopt (get (gICMP_PingSlots s) id);
    do l <- sopt (set (gICMP_PingSlots s) id (p.1, true)); set_pings l
  else if ty =? ICMP_UNREACHABLE then
    IPv4_HandleError Interface (if code =? 3 then IPERR_PORT_UNREACHABLE else IPERR_MISC) (u32 (SwapEndian16 (u16 Length) - sizeof_ICMPHeader)) (drop (Z.to_nat sizeof_ICMPHeader) Buffer)
  else if ty =? ICMP_ECHOREQ then
    if negb (code =? 0) then ret tt else
    let hdr := [ICMP_ECHOREPLY; 0; 0; 0] ++ drop 4 Buffer in
    do csum <- sopt (IPv4_Checksum hdr (u32 (Z.quot Length 2)));
    let hdr := [ICMP_ECHOREPLY; 0] ++ net16 csum ++ drop 4 Buffer in
    do _ <- IPv4_SendPacket Interface Address IP4PROT_ICMP seq (IPStack_Buffer_AppendSubBuffer (IPStack_Buffer_CreateBuffer (1 + IPV4_BUFFERS)) Length 0 hdr None); ret tt
  else ret tt.

(** [wait]: what happens until the reply is there or the time is up; [elapsed]: how long it took. *)
Definition ping_text : list Z := [65; 99; 101; 115; 115; 50; 32; 73; 80; 47; 84; 67; 80; 32; 83; 116; 97; 99; 107; 32; 49; 46; 48; 0].
Definition free_slot (l : list (Z * bool)) : option Z := match list_find (fun p => p.1 = 0) l with Some (i, _) => Some (Z.of_nat i) | None => None end.
Definition ICMP_Ping (wait : SM unit) (elapsed Interface : Z) (Addr : list Z) : SM Z :=
  do s <- get_state;
  match free_slot (gICMP_PingSlots s) with
  | None => halt SBlock
  | Some i =>
      do l <- sopt (set (gICMP_PingSlots s) i (Interface, false));
      set_pings l;;;
      let rest := [i mod 256; i / 256; (65535 - i) mod 256; (65535 - i) / 256] ++ ping_text in
      do csum <- sopt (IPv4_Checksum ([ICMP_ECHOREQ; 0; 0; 0] ++ rest) 32);
      let buf := [ICMP_ECHOREQ; 0] ++ net16 csum ++ rest in
      do _ <- IPv4_SendPacket Interface Addr IP4PROT_ICMP i (IPStack_Buffer_AppendSubBuffer (IPStack_Buffer_CreateBuffer (1 + IPV4_BUFFERS)) 32 0 buf None);
      wait;;;
      do s <- get_state;
      do p <- sopt (get (gICMP_PingSlots s) i);
      ret (if (p.2 : bool) then elapsed else -1)
  end.
End sends.
