(* ===== verification/Udp.v ===== *)
(** * UDP and the receiving side of the packet path
    ([KernelLand/Modules/IPStack/udp.c], [IPv4_int_GetPacket] of [ipv4.c], [Link_HandlePacket] of [link.c])

    Channels and the packets they hold are objects at addresses; the channels form a list, the packets of a channel
    a list with a pointer to its end. *)
From S2P Require Import Prelude CString Arith NetAddr Routing NetBuf Net.

Local Open Scope Z_scope.
Local Open Scope monad_scope.

Definition UDP_ALLOC_BASE := 0xC000.
Definition sizeof_UDPHeader := 8.
Definition VFS_IOFLAG_NOBLOCK := 1.
Definition EWOULDBLOCK := 20.

(** ** State *)
Definition udp_of : SM udp_state := do s <- get_state; ret (st_udp s).
Definition chan_at (c : Z) : SM tUDPChannel := do u <- udp_of; sopt (u_chans u !! c).
Definition upacket_at (p : Z) : SM tUDPPacket := do u <- udp_of; sopt (u_packets u !! p).
Definition put_chan (c : Z) (x : tUDPChannel) : SM unit := do u <- udp_of; set_udp (MkUdp (gpUDP_Channels u) (<[c := x]> (u_chans u)) (u_packets u) (gUDP_Ports u) (u_next u) (u_errno u)).
Definition put_upacket (p : Z) (x : tUDPPacket) : SM unit := do u <- udp_of; set_udp (MkUdp (gpUDP_Channels u) (u_chans u) (<[p := x]> (u_packets u)) (gUDP_Ports u) (u_next u) (u_errno u)).
Definition free_upacket (p : Z) : SM unit := do u <- udp_of; set_udp (MkUdp (gpUDP_Channels u) (u_chans u) (delete p (u_packets u)) (gUDP_Ports u) (u_next u) (u_errno u)).
Definition set_ports (l : list Z) : SM unit := do u <- udp_of; set_udp (MkUdp (gpUDP_Channels u) (u_chans u) (u_packets u) l (u_next u) (u_errno u)).
Definition set_uerrno (e : Z) : SM unit := do u <- udp_of; set_udp (MkUdp (gpUDP_Channels u) (u_chans u) (u_packets u) (gUDP_Ports u) (u_next u) e).
Definition new_upacket (x : tUDPPacket) : SM Z := do u <- udp_of; set_udp (MkUdp (gpUDP_Channels u) (u_chans u) (<[u_next u := x]> (u_packets u)) (gUDP_Ports u) (u_next u + 1) (u_errno u));;; ret (u_next u).
Definition with_queue (q e : Z) (avail : bool) (x : tUDPChannel) : tUDPChannel :=
  MkChannel (ch_Next x) (ch_Interface x) (LocalPort x) (rm_Port x) (rm_AddrType x) (rm_Addr x) (RemoteMask x) q e avail.
Definition with_next (n : Z) (x : tUDPChannel) : tUDPChannel :=
  MkChannel n (ch_Interface x) (LocalPort x) (rm_Port x) (rm_AddrType x) (rm_Addr x) (RemoteMask x) (Queue x) (QueueEnd x) (ch_avail x).
Definition with_local (p : Z) (x : tUDPChannel) : tUDPChannel :=
  MkChannel (ch_Next x) (ch_Interface x) p (rm_Port x) (rm_AddrType x) (rm_Addr x) (RemoteMask x) (Queue x) (QueueEnd x) (ch_avail x).
Definition with_remote (p ty : Z) (a : list Z) (m : Z) (x : tUDPChannel) : tUDPChannel :=
  MkChannel (ch_Next x) (ch_Interface x) (LocalPort x) p ty a m (Queue x) (QueueEnd x) (ch_avail x).

(** ** Receiving *)
(** Whether a channel takes a packet. *)
Definition matches (x : tUDPChannel) (Interface ty : Z) (Address : list Z) (DestPort SourcePort : Z) : option bool :=
  if negb (ch_Interface x =? 0) && negb (ch_Interface x =? Interface) then Some false else
  if negb (LocalPort x =? DestPort) then Some false else
  if negb (rm_Port x =? 0) && negb (rm_Port x =? SourcePort) then Some false else
  if RemoteMask x =? 0 then Some true else
  if negb (rm_AddrType x =? ty) then Some false else IPStack_CompareAddress ty Address (rm_Addr x) (RemoteMask x).

(** The packet at the end of the queue, or what the pointer to the end says. *)
Definition enqueue (chan : Z) (x : tUDPChannel) (pack : Z) : SM unit :=
  if negb (Queue x =? 0) then
    do e <- upacket_at (QueueEnd x);
    put_upacket (QueueEnd x) (MkPacket pack (pk_Port e) (pk_AddrType e) (pk_Addr e) (pk_Data e));;; put_chan chan (with_queue (Queue x) (QueueEnd x) true x)
  else put_chan chan (with_queue pack pack true x).

Fixpoint UDP_int_ScanList (fuel : nat) (chan Interface ty : Z) (Address Buffer : list Z) : SM Z :=
  if chan =? 0 then ret 0 else
  match fuel with
  | O => halt SLoop
  | S fuel =>
      do x <- chan_at chan;
      do dport <- sopt (ntohs_at Buffer 2);
      do sport <- sopt (ntohs_at Buffer 0);
      do hit <- sopt (matches x Interface ty Address dport sport);
      if negb (hit : bool) then UDP_int_ScanList fuel (ch_Next x) Interface ty Address Buffer else
      do len <- sopt (ntohs_at Buffer 4);
      do addr <- sopt (rd Address 0 (IPStack_GetAddressSize ty));
      do data <- sopt (rd Buffer sizeof_UDPHeader len);
      do pack <- new_upacket (MkPacket 0 sport ty addr data);
      enqueue chan x pack;;; ret 1
  end.
Definition UDP_GetPacket (Interface : Z) (Address : list Z) (Length : Z) (Buffer : list Z) : SM unit :=
  do x <- on_net (iface_at Interface);
  do u <- udp_of;
  do _ <- UDP_int_ScanList (size (u_chans u)) (gpUDP_Channels u) Interface (if_Type x) Address Buffer; ret tt.

Section waits.
Context (Semaphore_Wait : Z -> Z -> SM Z).

(** A packet to the protocol above. *)
Definition rx_call (cb : tIPRxCallback) (iface : Z) (Source : list Z) (dataLength : Z) (data : list Z) : SM unit :=
  match cb with
  | ICMP_GetPacket_cb => ICMP_GetPacket Semaphore_Wait iface Source dataLength data
  | UDP_GetPacket_cb => UDP_GetPacket iface Source dataLength data
  | OtherRx n => emit (CalledRx n iface Source dataLength)
  end.
Definition IPv4_int_GetPacket (Adapter : Z) (From : list Z) (Length : Z) (Buffer : list Z) : SM unit :=
  if Length <? sizeof_IPv4Header then ret tt else
  do b0 <- sopt (get Buffer 0);
  if negb (Z.shiftr b0 4 =? 4) then ret tt else
  do hdrVal <- sopt (ntohs_at Buffer 10);
  do zeroed <- sopt (wr Buffer 10 [0; 0]);
  do compVal <- sopt (IPv4_Checksum zeroed (Z.land b0 15 * 4));
  if negb (hdrVal =? compVal) then ret tt else
  do total <- sopt (ntohs_at Buffer 2);
  if Length <? total then ret tt else
  do Protocol <- sopt (get Buffer 9);
  do Source <- sopt (rd Buffer 12 4);
  do Destination <- sopt (rd Buffer 16 4);
  let dataLength := total - sizeof_IPv4Header in
  let data := drop (Z.to_nat sizeof_IPv4Header) Buffer in
  do iface <- IPv4_GetInterface Adapter Destination true;
  do TTL <- sopt (get Buffer 8);
  match iface with
  | None =>
      if TTL =? 0 then ret tt else
      do _ <- test_chain FORWARD Source Destination Protocol (u32 dataLength) data; ret tt
  | Some i =>
      do rv <- test_chain INPUT Source Destination Protocol (u32 dataLength) data;
      if negb (rv =? 0) && negb (rv =? -1) then ret tt else
      do x <- on_net (iface_at i);
      do local <- sopt (IPStack_CompareAddress 4 Source (if_Address x) (if_SubnetBits x));
      (if (local : bool) then HWCache_Set 4 Source From else ret tt);;;
      do s <- get_state;
      match gaIPv4_Callbacks s !! Protocol with
      | None => ret tt
      | Some (cb, _) => rx_call cb i Source dataLength data
      end
  end.

(** A frame to the layer registered last for its type. *)
Definition type_call (cb : tPacketCallback) (Adapter : Z) (From : list Z) (Length : Z) (data : list Z) : SM unit :=
  match cb with
  | IPv4_int_GetPacket_cb => IPv4_int_GetPacket Adapter From Length data
  | ARP_int_GetPacket_cb => ARP_int_GetPacket Adapter From Length data
  | OtherType n => emit (CalledType n Adapter From Length)
  end.
Definition find_type (l : list (Z * option tPacketCallback)) (ty : Z) : option (option tPacketCallback) := snd <$> (snd <$> list_find (fun p => p.1 = ty) (rev l)).
Definition Link_HandlePacket (Adapter : Z) (Buffer : tIPStackBuffer) : SM Z :=
  do s <- get_state;
  do data <- sopt (IPStack_Buffer_CompactBuffer (fun n => take (Z.to_nat n) (st_beyond s)) Buffer);
  if len data <? sizeof_EthernetHeader then ret 1 else
  do ty <- sopt (ntohs_at data 12);
  do From <- sopt (rd data 6 6);
  match find_type (gaRegisteredTypes s) ty with
  | None => ret 1
  | Some cb => do cb <- sopt cb; type_call cb Adapter From (len data - sizeof_EthernetHeader) (drop (Z.to_nat sizeof_EthernetHeader) (data ++ st_beyond s));;; ret 0
  end.

(** ** Checksums *)
Definition _add_ones_complement16 (a b : Z) : Z := u16 (a + b + (if 0xFFFF - a <? b then 1 else 0)).
Fixpoint partial_words (n : nat) (ret_ : Z) (Data : list Z) : option Z :=
  match n with
  | O => Some ret_
  | S n => w ← ntohs_at Data 0; partial_words n (_add_ones_complement16 ret_ w) (drop 2 Data)
  end.
Definition UDP_int_PartialChecksum (Prev Len : Z) (Data : list Z) : option Z :=
  r ← partial_words (Z.to_nat (Len / 2)) Prev Data;
  if Len mod 2 =? 1 then b ← get Data (Len - 1); Some (_add_ones_complement16 r (b * 256)) else Some r.
Definition UDP_int_FinaliseChecksum (Value : Z) : Z := let v := u16 (Z.lnot Value) in if v =? 0 then 0xFFFF else v.

Definition udp_header (Source Dest Length Checksum : Z) : list Z := net16 Source ++ net16 Dest ++ net16 Length ++ net16 Checksum.
Definition UDP_int_MakeChecksum (x : tInterface) (Dest Hdr : list Z) (Len : Z) (Data : list Z) : option Z :=
  let addrsize := IPStack_GetAddressSize (if_Type x) in
  if negb (if_Type x =? 4) then Some 0 else
  length ← rd Hdr 4 2;
  c ← UDP_int_PartialChecksum 0 addrsize (if_Address x);
  c ← UDP_int_PartialChecksum c addrsize Dest;
  c ← UDP_int_PartialChecksum c 4 ([0; IP4PROT_UDP] ++ length);
  c ← UDP_int_PartialChecksum c sizeof_UDPHeader Hdr;
  c ← UDP_int_PartialChecksum c Len Data;
  Some (UDP_int_FinaliseChecksum c).

(** ** Sending *)
Definition UDP_SendPacketTo (Channel AddrType : Z) (Address : list Z) (Port : Z) (Data : list Z) (Length : Z) : SM unit :=
  do ch <- chan_at Channel;
  do other <- (if ch_Interface ch =? 0 then ret false else do x <- on_net (iface_at (ch_Interface ch)); ret (negb (if_Type x =? AddrType)));
  if (other : bool) then ret tt else
  let hdr c := udp_header (LocalPort ch) Port (u16 (sizeof_UDPHeader + Length)) c in
  do x <- on_net (iface_at (ch_Interface ch));
  do csum <- sopt (UDP_int_MakeChecksum x Address (hdr 0) Length Data);
  if AddrType =? 4 then
    let b := IPStack_Buffer_CreateBuffer (2 + IPV4_BUFFERS) in
    let b := IPStack_Buffer_AppendSubBuffer b Length 0 Data None in
    let b := IPStack_Buffer_AppendSubBuffer b sizeof_UDPHeader 0 (hdr csum) None in
    ASSERT (negb (ch_Interface ch =? 0));;;
    do addr <- sopt (rd Address 0 4);
    do _ <- IPv4_SendPacket Semaphore_Wait (ch_Interface ch) addr IP4PROT_UDP 0 b; ret tt
  else ret tt.

(** ** Channels *)
Definition UDP_Channel_Init (Interface : Z) : SM Z :=
  do u <- udp_of;
  let c := u_next u in
  set_udp (MkUdp c (<[c := MkChannel (gpUDP_Channels u) Interface 0 0 0 [] 0 0 0 false]> (u_chans u)) (u_packets u) (gUDP_Ports u) (c + 1) (u_errno u));;; ret c.

(** The packet at the head of the queue; with none there the call waits. *)
Definition UDP_Channel_WaitForPacket (chan VFSFlags : Z) : SM (option Z) :=
  do x <- chan_at chan;
  if Queue x =? 0 then halt SBlock else
  if negb (ch_avail x) then
    if negb (Z.land VFSFlags VFS_IOFLAG_NOBLOCK =? 0) then set_uerrno EWOULDBLOCK;;; ret None else halt SBlock
  else
    do p <- upacket_at (Queue x);
    put_chan chan (if pk_Next p =? 0 then with_queue 0 0 false x else with_queue (pk_Next p) (QueueEnd x) true x);;; ret (Some (Queue x)).

(** What the buffer holds; its length is the result. *)
Definition UDP_Channel_Read (chan Length Flags : Z) : SM (list Z) :=
  do x <- chan_at chan;
  if LocalPort x =? 0 then ret [] else
  do r <- UDP_Channel_WaitForPacket chan Flags;
  match r with
  | None => ret []
  | Some p =>
      do pk <- upacket_at p;
      let addrlen := IPStack_GetAddressSize (pk_AddrType pk) in
      let ofs := 4 + addrlen in
      free_upacket p;;;
      if Length <? ofs then ret [] else
      let Length := if ofs + len (pk_Data pk) <? Length then ofs + len (pk_Data pk) else Length in
      ret ([pk_Port pk mod 256; pk_Port pk / 256; pk_AddrType pk mod 256; pk_AddrType pk / 256] ++ take (Z.to_nat addrlen) (pk_Addr pk) ++ take (Z.to_nat (Length - ofs)) (pk_Data pk))
  end.
(** [Buffer]: the memory of the caller; [Length]: how much of it is the packet. *)
Definition UDP_Channel_Write (chan Length : Z) (Buffer : list Z) : SM Z :=
  do x <- chan_at chan;
  if LocalPort x =? 0 then ret 0 else
  do port <- sopt (word_le Buffer 0);
  do ty <- sopt (word_le Buffer 2);
  let ofs := 2 + 2 + IPStack_GetAddressSize ty in
  UDP_SendPacketTo chan ty (drop 4 Buffer) port (drop (Z.to_nat ofs) Buffer) (u32 (Length - ofs));;; ret Length.

(** ** Ports *)
Fixpoint claimed (fuel : nat) (ch Channel Interface Port : Z) : SM bool :=
  if ch =? 0 then ret false else
  match fuel with
  | O => halt SLoop
  | S fuel =>
      do x <- chan_at ch;
      if (ch =? Channel) || (negb (ch_Interface x =? 0) && negb (ch_Interface x =? Interface)) || negb (LocalPort x =? Port)
      then claimed fuel (ch_Next x) Channel Interface Port else ret true
  end.
(** 0 when the port is the channel's. *)
Definition UDP_int_ClaimPort (Channel Port : Z) : SM Z :=
  do x <- chan_at Channel;
  do u <- udp_of;
  do taken <- claimed (size (u_chans u)) (gpUDP_Channels u) Channel (ch_Interface x) Port;
  if (taken : bool) then ret 1 else put_chan Channel (with_local Port x);;; ret 0.

(** The lowest clear bit of a word that is not full. *)
Fixpoint clear_bit (n : nat) (w i : Z) : Z := match n with O => i | S n => if Z.testbit w i then clear_bit n w (i + 1) else i end.
Fixpoint port_loop (n : nat) (Channel base : Z) : SM Z :=
  match n with
  | O => ret 0
  | S n =>
      do u <- udp_of;
      do w <- sopt (get (gUDP_Ports u) (base / 32));
      if w =? 0xFFFFFFFF then port_loop n Channel (base + 32) else
      let i := clear_bit 32 w 0 in
      do l <- sopt (set (gUDP_Ports u) (base / 32) (Z.lor w (u32 (Z.shiftl 1 i))));
      set_ports l;;;
      do rv <- UDP_int_ClaimPort Channel (base + i);
      if rv =? 0 then ret (base + i) else port_loop n Channel (base + 32)
  end.
Definition UDP_int_AllocatePort (Channel : Z) : SM Z := port_loop (Z.to_nat ((0x10000 - UDP_ALLOC_BASE) / 32)) Channel UDP_ALLOC_BASE.
Definition UDP_int_FreePort (Port : Z) : SM unit :=
  do u <- udp_of;
  do w <- sopt (get (gUDP_Ports u) (Port / 32));
  do l <- sopt (set (gUDP_Ports u) (Port / 32) (Z.land w (u32 (Z.lnot (Z.shiftl 1 (Port mod 32)))))); set_ports l.

(** [getset_localport]; [Data] is the port asked for; [root]: the caller is the superuser. *)
Definition ioctl_localport (chan : Z) (Data : option Z) (root : bool) : SM Z :=
  match Data with
  | None => do x <- chan_at chan; ret (LocalPort x)
  | Some req_port =>
      if negb (req_port =? 0) && (req_port <? 1024) && negb root then ret (-1) else
      do rv <- (if req_port =? 0 then do _ <- UDP_int_AllocatePort chan; ret 0 else UDP_int_ClaimPort chan req_port);
      if negb (rv =? 0) then ret 0 else do x <- chan_at chan; ret (LocalPort x)
  end.
Definition ioctl_remoteport (chan : Z) (Data : option Z) : SM Z :=
  do x <- chan_at chan;
  match Data with
  | None => ret (rm_Port x)
  | Some p => put_chan chan (with_remote p (rm_AddrType x) (rm_Addr x) (RemoteMask x) x);;; ret p
  end.
Definition ioctl_remotemask (chan : Z) (Data : option Z) : SM Z :=
  do x <- chan_at chan;
  match Data with
  | None => ret (RemoteMask x)
  | Some mask =>
      if ch_Interface x =? 0 then ret (-1) else
      do i <- on_net (iface_at (ch_Interface x));
      if IPStack_GetAddressSize (if_Type i) * 8 <? mask then ret (-1) else
      put_chan chan (with_remote (rm_Port x) (rm_AddrType x) (rm_Addr x) mask x);;; ret mask
  end.
Definition ioctl_remoteaddr (chan : Z) (Data : list Z) : SM Z :=
  do x <- chan_at chan;
  if ch_Interface x =? 0 then ret (-1) else
  do i <- on_net (iface_at (ch_Interface x));
  do a <- sopt (rd Data 0 (IPStack_GetAddressSize (if_Type i)));
  put_chan chan (with_remote (rm_Port x) (if_Type i) a (RemoteMask x) x);;; ret 0.
(** [sendto] and [recvfrom]: the end point and the buffer. *)
Definition ioctl_sendto (chan ty : Z) (Address : list Z) (Port : Z) (buf : list Z) (buflen : Z) : SM Z := UDP_SendPacketTo chan ty Address Port buf buflen;;; ret buflen.
Definition ioctl_recvfrom (chan buflen : Z) : SM (option (Z * Z * list Z * list Z)) :=
  do r <- UDP_Channel_WaitForPacket chan 0;
  match r with
  | None => ret None
  | Some p => do pk <- upacket_at p; free_upacket p;;; ret (Some (pk_Port pk, pk_AddrType pk, pk_Addr pk, take (Z.to_nat (Z.min buflen (len (pk_Data pk)))) (pk_Data pk)))
  end.

(** ** Closing *)
Fixpoint find_prev (fuel : nat) (prev chan : Z) : SM (option Z) :=
  match fuel with
  | O => halt SLoop
  | S fuel => do x <- chan_at prev; if ch_Next x =? 0 then ret None else if ch_Next x =? chan then ret (Some prev) else find_prev fuel (ch_Next x) chan
  end.
Fixpoint free_queue (fuel : nat) (p : Z) : SM unit :=
  if p =? 0 then ret tt else
  match fuel with
  | O => halt SLoop
  | S fuel => do pk <- upacket_at p; free_upacket p;;; free_queue fuel (pk_Next pk)
  end.
Definition UDP_Channel_Close (chan : Z) : SM unit :=
  do x <- chan_at chan;
  do u <- udp_of;
  (if gpUDP_Channels u =? chan then set_udp (MkUdp (ch_Next x) (u_chans u) (u_packets u) (gUDP_Ports u) (u_next u) (u_errno u))
   else
     do p <- find_prev (size (u_chans u)) (gpUDP_Channels u) chan;
     match p with None => ret tt | Some p => do y <- chan_at p; put_chan p (with_next (ch_Next x) y) end);;;
  do u <- udp_of;
  free_queue (S (size (u_packets u))) (Queue x);;;
  do u <- udp_of;
  set_udp (MkUdp (gpUDP_Channels u) (delete chan (u_chans u)) (u_packets u) (gUDP_Ports u) (u_next u) (u_errno u)).
End waits.
