(* ===== verification/NetProps.v ===== *)
(** * Datagrams from channel to channel

    The layers composed: what a channel sends is a frame; a frame received is what a channel reads.  Hardware addresses are
    learnt from ARP replies. *)
From S2P Require Import Prelude Chains CString Arith NetAddr Routing NetBuf Net Udp.

Local Open Scope Z_scope.
Local Open Scope monad_scope.
Implicit Types (s r : stack) (W : Z -> Z -> SM Z).

(** ** Lifting *)
Definition sent s (e : event) : stack :=
  MkStack (st_net s) (st_adapter s) (st_hwaddr s) (cache_v4 s) (cache_v6 s) (gaRegisteredTypes s) (gaIPv4_Callbacks s) (gapFirewall_Chains s) (st_udp s) (gICMP_PingSlots s) (st_out s ++ [e]) (st_beyond s).
Definition with_cache s (c : tHWAddrCache) : stack :=
  MkStack (st_net s) (st_adapter s) (st_hwaddr s) c (cache_v6 s) (gaRegisteredTypes s) (gaIPv4_Callbacks s) (gapFirewall_Chains s) (st_udp s) (gICMP_PingSlots s) (st_out s) (st_beyond s).
Definition with_udp s (u : udp_state) : stack :=
  MkStack (st_net s) (st_adapter s) (st_hwaddr s) (cache_v4 s) (cache_v6 s) (gaRegisteredTypes s) (gaIPv4_Callbacks s) (gapFirewall_Chains s) u (gICMP_PingSlots s) (st_out s) (st_beyond s).

Lemma iface_run s i x : n_ifaces (st_net s) !! i = Some x -> on_net (iface_at i) s = Ok x s.
Proof. intros H. unfold on_net, iface_at. rewrite H. by destruct s. Qed.
Lemma sopt_bind {A B} (o : option A) a (k : A -> SM B) s : o = Some a -> bind (sopt o) k s = k a s.
Proof. by intros ->. Qed.
Lemma adapter_run s i a : st_adapter s !! i = Some a -> adapter_of i s = Ok a s.
Proof. intros H. unfold adapter_of. by rewrite H. Qed.
Lemma hwaddr_run s a m : st_hwaddr s !! a = Some m -> hwaddr_of a s = Ok m s.
Proof. intros H. unfold hwaddr_of. by rewrite H. Qed.
Lemma udp_run {B} (k : udp_state -> SM B) s : bind udp_of k s = k (st_udp s) s.
Proof. done. Qed.
Lemma chan_run s c x : u_chans (st_udp s) !! c = Some x -> chan_at c s = Ok x s.
Proof. intros H. unfold chan_at. rewrite udp_run, H. done. Qed.
Lemma put_cache_run s c : put_cache 4 c s = Ok tt (with_cache s c).
Proof. done. Qed.
Lemma get_cache_run {B} s (k : tHWAddrCache -> SM B) : bind (HWCache_int_GetCache 4) k s = k (cache_v4 s) s.
Proof. done. Qed.

(** ** 16-bit fields *)
Lemma net16_bytes v : bytes (net16 v).
Proof. unfold net16. repeat constructor; apply Z.mod_pos_bound; lia. Qed.
Lemma net16_val v : 0 <= v < 65536 -> v / 256 mod 256 * 256 + v mod 256 = v.
Proof. intros. dlia. Qed.

(** ** Sending *)
Definition pad_len (n : Z) : Z := Z.land (4 - Z.land n 3) 3.
Lemma pad_len_range n : 0 <= pad_len n <= 3.
Proof. unfold pad_len. change 3 with (2 ^ 2 - 1) at 2 4. rewrite land_low by lia. change (2 ^ 2) with 4. dlia. Qed.
Definition padding (n : Z) : list Z := replicate (Z.to_nat (pad_len n)) 0.

Lemma sub_app_at {A} (a b c : list A) n k : len a = n -> len b = k -> sub n k (a ++ b ++ c) = b.
Proof. intros <- <-. apply sub_app. Qed.
Lemma sub_front {A} (a b : list A) n : len a = n -> sub 0 n (a ++ b) = a.
Proof. intros <-. unfold sub, len. rewrite Nat2Z.id, drop_0. apply take_app_length. Qed.

Lemma link_send_run s a ty To hw b : st_hwaddr s !! a = Some hw -> len hw = 6 -> len To = 6 -> buf_ok b -> len (SubBuffers b) < MaxSubBufffers b -> len (packet b) < 4294967000 ->
  Link_SendPacket a ty To b s = Ok tt (sent s (Sent a (To ++ hw ++ net16 ty ++ packet b ++ padding (len (packet b))))).
Proof.
  intros Hhw Lhw LTo Hb Hroom Hmax. unfold Link_SendPacket. rewrite (bind_Ok _ _ _ _ _ (hwaddr_run s a hw Hhw)). unfold IPStack_Buffer_GetLength. rewrite (proj1 (bo_len _ Hb)). fold (pad_len (len (packet b))).
  pose proof (pad_len_range (len (packet b))) as Hp. set (p := pad_len (len (packet b))) in *. set (hdr := To ++ hw ++ net16 ty). set (buf := To ++ hw ++ net16 ty ++ replicate (Z.to_nat (p + 4)) 0).
  assert (len hdr = 14) as Lh by (unfold hdr; rewrite !len_app, LTo, Lhw; done). assert (buf = hdr ++ replicate (Z.to_nat (p + 4)) 0) as Eb by (unfold buf, hdr; by rewrite <- !app_assoc).
  assert (len (replicate (Z.to_nat (p + 4)) 0) = p + 4) as Lr by (unfold len; rewrite length_replicate; lia).
  destruct (Append_ok b 14 p buf None Hb Hroom ltac:(lia) ltac:(lia)) as (Hok & Hpk & _); [rewrite Eb, len_app; lia|lia|].
  unfold Adapter_SendPacket. change sizeof_EthernetHeader with 14. rewrite (GetData_all _ Hok). unfold sopt. rewrite bind_ret. unfold emit, sent. do 5 f_equal. rewrite Hpk, Eb, sub_front by done.
  replace (sub 14 p (hdr ++ replicate (Z.to_nat (p + 4)) 0)) with (padding (len (packet b))); [unfold hdr; by rewrite <- !app_assoc|].
  unfold padding. fold p. replace (Z.to_nat (p + 4)) with (Z.to_nat p + 4)%nat by lia. rewrite replicate_add. symmetry. apply sub_app_at; [done|]. unfold len. rewrite length_replicate. lia.
Qed.

(** The interface a packet leaves by. *)
Record sends_by s i (x : tInterface) a hw : Prop := {
  sb_if : n_ifaces (st_net s) !! i = Some x; sb_addr : if_Type x = 4 /\ address 4 (if_Address x);
  sb_adapter : st_adapter s !! i = Some a; sb_hw : st_hwaddr s !! a = Some hw /\ len hw = 6 }.

Lemma address4 a : address 4 a -> len a = 4 /\ bytes a.
Proof. intros (_ & H & Hb). by split. Qed.
Lemma rd_self {A} (l : list A) n : len l = n -> rd l 0 n = Some l.
Proof. intros <-. pose proof (len_nonneg l). rewrite rd_ok by lia. f_equal. unfold sub, len. rewrite Nat2Z.id, drop_0. apply firstn_all. Qed.
Lemma ipv4_header_len t id p c src dst : len src = 4 -> len dst = 4 -> len (ipv4_header t id p c src dst) = 20.
Proof. intros H1 H2. unfold ipv4_header. rewrite !len_app, H1, H2. done. Qed.
Lemma ipv4_header_bytes t id p c src dst : 0 <= p < 256 -> bytes src -> bytes dst -> bytes (ipv4_header t id p c src dst).
Proof.
  intros Hp Hs Hd. unfold ipv4_header. apply Forall_app. split; [repeat constructor; lia|]. apply Forall_app. split; [apply net16_bytes|]. apply Forall_app. split; [apply net16_bytes|].
  apply Forall_app. split; [repeat constructor; unfold DEFAULT_TTL; lia|]. apply Forall_app. split; [apply net16_bytes|]. apply Forall_app. by split.
Qed.
(** The checksum of a header. *)
Definition header_sum (t id p : Z) (src dst : list Z) : Z := 65535 - ones (words_sum (ipv4_header t id p 0 src dst)).
Lemma header_sum_run t id p src dst rest : 0 <= p < 256 -> address 4 src -> address 4 dst -> bytes rest -> IPv4_Checksum (ipv4_header t id p 0 src dst ++ rest) 20 = Some (header_sum t id p src dst).
Proof.
  intros Hp [Ls Bs]%address4 [Ld Bd]%address4 Hr. pose proof (ipv4_header_len t id p 0 src dst Ls Ld) as Hl. rewrite Checksum_spec.
  - unfold header_sum. do 4 f_equal. unfold len in Hl. rewrite take_app_le by lia. apply take_ge. lia.
  - apply Forall_app. split; [by apply ipv4_header_bytes|done].
  - lia.
  - rewrite len_app, Hl. pose proof (len_nonneg rest). change (20 + 20 mod 2) with 20. lia.
Qed.
Lemma words_sum_nonneg l : bytes l -> 0 <= words_sum l.
Proof.
  induction l as [l IH] using (well_founded_ind (Wf_nat.well_founded_ltof _ (@length Z))). intros Hb. destruct l as [|x [|y l] ]; [done| |].
  - apply Forall_cons in Hb as [Hx _]. cbn [words_sum]. lia.
  - apply Forall_cons in Hb as [Hx Hb]. apply Forall_cons in Hb as [Hy Hb]. cbn [words_sum]. assert (0 <= words_sum l) by (apply IH; [unfold Wf_nat.ltof; cbn; lia|done]). lia.
Qed.
Lemma header_sum_range t id p src dst : 0 <= p < 256 -> address 4 src -> address 4 dst -> 0 <= header_sum t id p src dst < 65536.
Proof.
  intros Hp [Ls Bs]%address4 [Ld Bd]%address4. unfold header_sum. pose proof (ones_range (words_sum (ipv4_header t id p 0 src dst)) (words_sum_nonneg _ (ipv4_header_bytes t id p 0 src dst Hp Bs Bd))). lia.
Qed.

(** An IPv4 packet as it stands in a frame. *)
Definition ip_frame (to hw : list Z) (id p : Z) (src dst body : list Z) : list Z :=
  to ++ hw ++ net16 IPV4_ETHERNET_ID ++ ipv4_header (20 + len body) id p (header_sum (20 + len body) id p src dst) src dst ++ body ++ padding (20 + len body).

Lemma ipv4_send_run W s s' i x a hw dst p id b mac : HWCache_Resolve W i dst s = Ok mac s' -> mac <> cMAC_ZERO -> len mac = 6 -> sends_by s' i x a hw -> address 4 dst -> 0 <= p < 256 -> 0 <= id < 65536 ->
  buf_ok b -> len (SubBuffers b) + 1 < MaxSubBufffers b -> len (packet b) <= 65515 ->
  IPv4_SendPacket W i dst p id b s = Ok 1 (sent s' (Sent a (ip_frame mac hw id p (if_Address x) dst (packet b)))).
Proof.
  intros Hres Hmac Lmac [Hif [Hty Hsrc] Had [Hhw Lhw] ] Hdst Hp Hid Hb Hroom Hmax. pose proof (address4 _ Hsrc) as [Ls Bs]. pose proof (address4 _ Hdst) as [Ld Bd]. pose proof (len_nonneg (packet b)) as Hnn.
  unfold IPv4_SendPacket, IPStack_Buffer_GetLength. rewrite (proj1 (bo_len _ Hb)). rewrite (bind_Ok _ _ _ _ _ Hres). rewrite bool_decide_false by done. rewrite (bind_Ok _ _ _ _ _ (iface_run s' i x Hif)).
  rewrite (sopt_bind _ _ _ _ (rd_self _ 4 Ls)). change sizeof_IPv4Header with 20. rewrite (u16_small (20 + _)), (u16_small id), (u8_small p) by lia.
  pose proof (header_sum_run (20 + len (packet b)) id p (if_Address x) dst [] Hp Hsrc Hdst (Forall_nil_2 _)) as Hcs. rewrite app_nil_r in Hcs. rewrite (sopt_bind _ _ _ _ Hcs). rewrite (bind_Ok _ _ _ _ _ (adapter_run s' i a Had)).
  set (hdr := ipv4_header (20 + len (packet b)) id p (header_sum (20 + len (packet b)) id p (if_Address x) dst) (if_Address x) dst). assert (len hdr = 20) as Lhdr by (by apply ipv4_header_len).
  destruct (Append_ok b 20 0 hdr None Hb ltac:(lia) ltac:(lia) ltac:(lia) ltac:(lia) ltac:(lia)) as (Hok & Hpk & Hn & Hmx & _).
  assert (packet (IPStack_Buffer_AppendSubBuffer b 20 0 hdr None) = hdr ++ packet b) as Epk.
  { rewrite Hpk. replace (sub 0 20 hdr) with hdr; [by rewrite app_nil_r|]. symmetry. rewrite <- Lhdr. unfold sub, len. rewrite Nat2Z.id, drop_0. apply firstn_all. }
  rewrite (bind_Ok _ _ _ _ _ (link_send_run s' a IPV4_ETHERNET_ID mac hw _ Hhw Lhw Lmac Hok ltac:(lia) ltac:(rewrite Epk, len_app; lia))). unfold ret. do 4 f_equal. unfold ip_frame. rewrite Epk, len_app, Lhdr. fold hdr. by rewrite <- !app_assoc.
Qed.

(** ** UDP packets *)
Lemma ntohs_some (m : list Z) o : 0 <= o -> o + 2 <= len m -> exists v, ntohs_at m o = Some v.
Proof. intros H1 H2. unfold ntohs_at. destruct (get_ok m o ltac:(lia)) as [a ->]. destruct (get_ok m (o + 1) ltac:(lia)) as [b ->]. cbn. by eexists. Qed.
Lemma partial_words_some n : forall p d, 2 * Z.of_nat n <= len d -> exists v, partial_words n p d = Some v.
Proof.
  induction n as [|n IH]; intros p d Hd; cbn [partial_words]; [by eexists|]. destruct (ntohs_some d 0 ltac:(lia) ltac:(lia)) as [w ->]. cbn [mbind option_bind]. apply IH. unfold len in *. rewrite length_drop. lia.
Qed.
Lemma partial_some p L d : 0 <= L <= len d -> exists v, UDP_int_PartialChecksum p L d = Some v.
Proof.
  intros HL. unfold UDP_int_PartialChecksum. destruct (partial_words_some (Z.to_nat (L / 2)) p d ltac:(dlia)) as [v ->]. cbn [mbind option_bind]. destruct (L mod 2 =? 1) eqn:E; bools; [|by eexists].
  destruct (get_ok d (L - 1) ltac:(dlia)) as [b ->]. cbn. by eexists.
Qed.
Lemma udp_header_len a b c d : len (udp_header a b c d) = 8.
Proof. done. Qed.
Lemma make_checksum_some x dst sp dp L c d : if_Type x = 4 -> address 4 (if_Address x) -> address 4 dst -> 0 <= L <= len d -> exists v, UDP_int_MakeChecksum x dst (udp_header sp dp c 0) L d = Some v.
Proof.
  intros Hty [Ls _]%address4 [Ld _]%address4 HL. unfold UDP_int_MakeChecksum. rewrite Hty. change (IPStack_GetAddressSize 4) with 4. cbn [Z.eqb negb Pos.eqb].
  change (rd (udp_header sp dp c 0) 4 2) with (Some (net16 c)). cbn [mbind option_bind].
  destruct (partial_some 0 4 (if_Address x) ltac:(lia)) as [v1 ->]. cbn [mbind option_bind]. destruct (partial_some v1 4 dst ltac:(lia)) as [v2 ->]. cbn [mbind option_bind].
  destruct (partial_some v2 4 ([0; IP4PROT_UDP] ++ net16 c) ltac:(done)) as [v3 ->]. cbn [mbind option_bind]. destruct (partial_some v3 sizeof_UDPHeader (udp_header sp dp c 0) ltac:(done)) as [v4 ->]. cbn [mbind option_bind].
  destruct (partial_some v4 L d HL) as [v5 ->]. cbn [mbind option_bind]. by eexists.
Qed.

Definition udp_body (sp dp c : Z) (data : list Z) : list Z := udp_header sp dp (8 + len data) c ++ data.
Lemma udp_send_run W s s' c ch x a hw dst port data mac : u_chans (st_udp s) !! c = Some ch -> n_ifaces (st_net s) !! ch_Interface ch = Some x -> ch_Interface ch <> 0 ->
  HWCache_Resolve W (ch_Interface ch) dst s = Ok mac s' -> mac <> cMAC_ZERO -> len mac = 6 -> sends_by s' (ch_Interface ch) x a hw -> address 4 dst -> len data <= 65507 ->
  exists uc, UDP_SendPacketTo W c 4 dst port data (len data) s = Ok tt (sent s' (Sent a (ip_frame mac hw 0 17 (if_Address x) dst (udp_body (LocalPort ch) port uc data)))).
Proof.
  intros Hch Hif Hnz Hres Hmac Lmac Hsb Hdst Hmax. pose proof (sb_addr _ _ _ _ _ Hsb) as [Hty Hsrc]. pose proof (len_nonneg data) as Hnn.
  destruct (make_checksum_some x dst (LocalPort ch) port (len data) (8 + len data) data Hty Hsrc Hdst ltac:(lia)) as [uc Huc]. exists uc. pose proof (address4 _ Hdst) as [Ld Bd].
  unfold UDP_SendPacketTo. rewrite (bind_Ok _ _ _ _ _ (chan_run s c ch Hch)). rewrite (proj2 (Z.eqb_neq _ 0)) by done. rewrite bind_assoc, (bind_Ok _ _ _ _ _ (iface_run s _ x Hif)), bind_ret. rewrite Hty. cbn [Z.eqb Pos.eqb negb].
  rewrite (bind_Ok _ _ _ _ _ (iface_run s _ x Hif)). change sizeof_UDPHeader with 8. rewrite (u16_small (8 + len data)) by lia. rewrite (sopt_bind _ _ _ _ Huc). unfold ASSERT. rewrite bind_ret.
  rewrite (sopt_bind _ _ _ _ (rd_self dst 4 Ld)).
  set (b0 := IPStack_Buffer_CreateBuffer (2 + IPV4_BUFFERS)). set (b1 := IPStack_Buffer_AppendSubBuffer b0 (len data) 0 data None). set (h := udp_header (LocalPort ch) port (8 + len data) uc). set (b2 := IPStack_Buffer_AppendSubBuffer b1 8 0 h None).
  destruct (Append_ok b0 (len data) 0 data None (Create_ok (2 + IPV4_BUFFERS) ltac:(done)) ltac:(done) ltac:(lia) ltac:(lia) ltac:(lia)) as (Hok1 & Hp1 & Hn1 & Hm1 & _); [change (packet b0) with (@nil Z); change (len (@nil Z)) with 0; lia|].
  fold b1 in Hok1, Hp1, Hn1, Hm1. change (packet b0) with (@nil Z) in Hp1. cbn [app] in Hp1. rewrite app_nil_r in Hp1. assert (packet b1 = data) as E1 by (rewrite Hp1; unfold sub, len; rewrite Nat2Z.id, drop_0; apply firstn_all).
  change (len (SubBuffers b0)) with 0 in Hn1. change (MaxSubBufffers b0) with 5 in Hm1.
  destruct (Append_ok b1 8 0 h None Hok1 ltac:(lia) ltac:(lia) ltac:(lia) ltac:(done) ltac:(rewrite E1; lia)) as (Hok2 & Hp2 & Hn2 & Hm2 & _). fold b2 in Hok2, Hp2, Hn2, Hm2.
  assert (packet b2 = udp_body (LocalPort ch) port uc data) as E2 by (rewrite Hp2, E1; change (sub 0 8 h) with h; change (sub 8 0 h) with (@nil Z); by rewrite app_nil_r).
  assert (len (packet b2) = 8 + len data) as L2 by (rewrite E2; unfold udp_body; by rewrite len_app).
  rewrite (bind_Ok _ _ _ _ _ (ipv4_send_run W s s' _ x a hw dst 17 0 b2 mac Hres Hmac Lmac Hsb Hdst ltac:(lia) ltac:(lia) Hok2 ltac:(lia) ltac:(lia))). by rewrite E2.
Qed.

(** ** The cache *)
Definition ent_ok (m : gmap Z tHWAddrCachedAddr) ca : Prop := exists e, m !! ca = Some e /\ len (L3Addr e) = 4 /\ len (HWAddr e) = 6.
Record cache_ok (c : tHWAddrCache) : Prop := {
  co_ents : Forall (ent_ok (hc_ents c)) (hc_list c); co_next : Forall (fun ca => ca < hc_next c) (hc_list c); co_count : nAddrs c = len (hc_list c) /\ NoDup (hc_list c) }.

Lemma with_same s : with_cache s (cache_v4 s) = s.
Proof. by destruct s. Qed.
Lemma find_addr_spec m l addr : Forall (ent_ok m) l -> len addr = 4 ->
  exists h, find_addr m l addr 4 = Some h /\ match h with Some ca => ca ∈ l /\ (exists e, m !! ca = Some e /\ L3Addr e = addr) | None => forall ca e, ca ∈ l -> m !! ca = Some e -> L3Addr e <> addr end.
Proof.
  intros Hl La. induction Hl as [|ca l (e & He & L4 & _) Hl IH]; cbn [find_addr]; [exists None; split; [done|]; intros ca e Hin; by apply not_elem_of_nil in Hin|].
  rewrite He. cbn [mbind option_bind]. destruct (memcmp_spec (L3Addr e) addr 4) as (v & -> & Hv); [unfold len in *; lia|unfold len in *; lia|]. cbn [mbind option_bind].
  rewrite !take_ge in Hv by (unfold len in *; lia). destruct (v =? 0) eqn:E; bools.
  - exists (Some ca). split; [done|]. split; [apply elem_of_cons; by left|]. exists e. split; [done|by apply Hv].
  - destruct IH as (r & -> & Hr). exists r. split; [done|]. destruct r as [cb|]; [destruct Hr as [Hin Hr]; split; [apply elem_of_cons; by right|done]|].
    intros cb e' [->|Hin]%elem_of_cons He'; [|by eapply Hr]. assert (e' = e) as -> by congruence. intros Heq. by apply E, Hv.
Qed.
Lemma ent_ok_put m ca e cb : len (L3Addr e) = 4 -> len (HWAddr e) = 6 -> ent_ok m cb -> ent_ok (<[ca := e]> m) cb.
Proof. intros L4 L6 (e' & He' & H1 & H2). destruct (decide (cb = ca)) as [->|Hne]; [exists e; by rewrite lookup_insert_eq|exists e'; by rewrite lookup_insert_ne]. Qed.
Lemma put_ent_ok c ca e : cache_ok c -> len (L3Addr e) = 4 -> len (HWAddr e) = 6 -> cache_ok (put_ent ca e c).
Proof. intros [H1 H2 H3] L4 L6. split; [|done|done]. eapply Forall_impl; [exact H1|]. intros cb Hcb. by apply ent_ok_put. Qed.
Lemma new_ent_ok c ca e l : cache_ok c -> ca = hc_next c -> len (L3Addr e) = 4 -> len (HWAddr e) = 6 -> l ≡ₚ ca :: hc_list c -> cache_ok (MkCache (nAddrs c + 1) l (<[ca := e]> (hc_ents c)) (ca + 1)).
Proof.
  intros [H1 H2 [H3 H4] ] -> L4 L6 Hp. split; cbn [hc_list hc_ents hc_next nAddrs].
  - rewrite Hp. apply Forall_cons. split; [exists e; by rewrite lookup_insert_eq|]. eapply Forall_impl; [exact H1|]. intros cb Hcb. by apply ent_ok_put.
  - rewrite Hp. apply Forall_cons. split; [lia|]. eapply Forall_impl; [exact H2|]. cbn. lia.
  - split; [unfold len in *; rewrite Hp; cbn; lia|]. rewrite Hp. apply NoDup_cons. split; [|done]. intros Hin. rewrite Forall_forall in H2. specialize (H2 _ Hin). lia.
Qed.
Lemma set_run s addr mac : cache_ok (cache_v4 s) -> len addr = 4 -> len mac = 6 -> exists c', HWCache_Set 4 addr mac s = Ok tt (with_cache s c') /\ cache_ok c'.
Proof.
  intros Hc La Lm. unfold HWCache_Set. rewrite get_cache_run. change (Z.to_nat (IPStack_GetAddressSize 4)) with 4%nat. destruct (find_addr_spec _ _ addr (co_ents _ Hc) La) as (r & Hr & Hcase). rewrite (sopt_bind _ _ _ _ Hr).
  assert (take 4 addr = addr) as Et by (apply take_ge; unfold len in La; lia). destruct r as [ca|].
  - destruct Hcase as (Hin & e & He & Eaddr). unfold ent_of. rewrite (sopt_bind _ _ _ _ He). destruct (0 <? WaitingCount e).
    + eexists. split; [reflexivity|]. apply put_ent_ok; cbn; [done|congruence|done].
    + exists (cache_v4 s). by rewrite with_same.
  - destruct (nAddrs (cache_v4 s) <? MaxSize).
    + eexists. split; [reflexivity|]. apply new_ent_ok; cbn; [done|done|by rewrite Et|done|]. by rewrite Permutation_app_comm.
    + destruct (last_unused (cache_v4 s)) as [ca|] eqn:El; [|exists (cache_v4 s); by rewrite with_same].
      assert (ca ∈ hc_list (cache_v4 s)) as Hin by (unfold last_unused in El; apply last_Some_elem_of in El; by apply list_elem_of_filter in El as [_ ?]).
      pose proof (proj1 (Forall_forall _ _) (co_ents _ Hc) ca Hin) as (e & He & L4 & L6). unfold ent_of. rewrite (sopt_bind _ _ _ _ He). eexists. split; [reflexivity|]. apply put_ent_ok; cbn; [done|by rewrite Et|done].
Qed.
(** An address of the local network that is in the cache and not asked for. *)
Definition on_link (x : tInterface) dst : Prop := IPStack_CompareAddress 4 dst (if_Address x) (if_SubnetBits x) = Some true /\ IPStack_AddressIsBroadcast 4 dst (if_SubnetBits x) = inr false.
Lemma next_hop_local s i x dst : if_Type x = 4 -> on_link x dst -> next_hop i x dst s = Ok (inr dst) s.
Proof. intros Hty [H1 H2]. unfold next_hop. rewrite Hty, H1. unfold sopt. rewrite bind_ret. cbn [negb]. by rewrite H2. Qed.
Definition bumped ca (c : tHWAddrCache) : tHWAddrCache := MkCache (nAddrs c) (ca :: filter (fun k => k <> ca) (hc_list c)) (hc_ents c) (hc_next c).
Lemma resolve_hit W s i x dst ca e : n_ifaces (st_net s) !! i = Some x -> if_Type x = 4 -> on_link x dst -> find_addr (hc_ents (cache_v4 s)) (hc_list (cache_v4 s)) dst 4 = Some (Some ca) ->
  hc_ents (cache_v4 s) !! ca = Some e -> WaitingCount e = 0 -> HWCache_Resolve W i dst s = Ok (HWAddr e) (with_cache s (bumped ca (cache_v4 s))).
Proof.
  intros Hif Hty Hon Hfind He Hw. unfold HWCache_Resolve. rewrite (bind_Ok _ _ _ _ _ (iface_run s i x Hif)), (bind_Ok _ _ _ _ _ (next_hop_local s i x dst Hty Hon)). rewrite Hty, get_cache_run.
  change (Z.to_nat (IPStack_GetAddressSize 4)) with 4%nat. rewrite (sopt_bind _ _ _ _ Hfind). unfold resolve_cached. rewrite get_cache_run. rewrite (bind_Ok _ _ _ _ _ (put_cache_run s _)). unfold ent_of. cbn [hc_ents]. rewrite (sopt_bind _ _ _ _ He), Hw. done.
Qed.

(** ** Receiving *)
Abbreviation if_next s := (fun i => if_Next <$> n_ifaces (st_net s) !! i).
Abbreviation ch_next s := (fun c => ch_Next <$> u_chans (st_udp s) !! c).

Lemma interface_run s a i x k bc zero : n_ifaces (st_net s) !! i = Some x -> if_Type x = 4 -> len (if_Address x) = 4 -> st_adapter s !! i = Some a ->
  forall l start fuel, lseg (if_next s) start (l ++ i :: k) 0 -> (forall j, j ∈ l -> exists a', st_adapter s !! j = Some a' /\ a' <> a) -> (length l < fuel)%nat ->
  interface_loop fuel start a (if_Address x) bc zero s = Ok (Some i) s.
Proof.
  intros Hi Hty La Ha. induction l as [|j l IH]; intros start fuel Hl Hother Hf; (destruct fuel as [|fuel]; [lia|]); cbn [app lseg] in Hl; destruct Hl as (-> & Hnz & n & Hn & Hl); cbn [interface_loop]; rewrite (proj2 (Z.eqb_neq _ 0)) by done.
  - rewrite (bind_Ok _ _ _ _ _ (iface_run s i x Hi)), (bind_Ok _ _ _ _ _ (adapter_run s i a Ha)). rewrite Z.eqb_refl, Hty. cbn [negb orb Z.eqb Pos.eqb]. unfold addr4. rewrite (sopt_bind _ _ _ _ (rd_self _ 4 La)). by rewrite bool_decide_true.
  - destruct (n_ifaces (st_net s) !! j) as [y|] eqn:Ej; [|done]. cbn in Hn. injection Hn as Hn. destruct (Hother j ltac:(apply elem_of_cons; by left)) as (a' & Ha' & Hne).
    rewrite (bind_Ok _ _ _ _ _ (iface_run s j y Ej)), (bind_Ok _ _ _ _ _ (adapter_run s j a' Ha')). rewrite (proj2 (Z.eqb_neq a' a)) by done. cbn [negb orb]. rewrite Hn. apply IH; [done|intros j' Hj'; apply Hother, elem_of_cons; by right|cbn in Hf; lia].
Qed.

(** The host a packet is for: the interface, and no rules of the firewall for what comes in. *)
Record host s a i (x : tInterface) : Prop := {
  ho_if : n_ifaces (st_net s) !! i = Some x; ho_addr : if_Type x = 4 /\ address 4 (if_Address x); ho_adapter : st_adapter s !! i = Some a;
  ho_list : exists l k, lseg (if_next s) (gIP_Interfaces (st_net s)) (l ++ i :: k) 0 /\ NoDup (l ++ i :: k) /\ forall j, j ∈ l -> exists a', st_adapter s !! j = Some a' /\ a' <> a;
  ho_rules : chain_index (default [] (gapFirewall_Chains s !! 4)) INPUT 0 = None; ho_cache : cache_ok (cache_v4 s) }.
Lemma lseg_nodup_size {T} (m : gmap Z T) (f : T -> Z) p l : lseg (fun i => f <$> m !! i) p l 0 -> NoDup l -> (length l <= size m)%nat.
Proof. intros Hl Hnd. apply nodup_size; [done|]. intros i Hi. destruct (lseg_in _ _ _ _ Hl Hi) as [_ Hs]. by apply fmap_is_Some in Hs. Qed.
Lemma get_interface_run s a i x bc : host s a i x -> IPv4_GetInterface a (if_Address x) bc s = Ok (Some i) s.
Proof.
  intros [H1 [H2 H2'] H3 (l & k & H4 & H5 & H6) _ _]. unfold IPv4_GetInterface. rewrite bind_get. pose proof (lseg_nodup_size _ _ _ _ H4 H5) as Hsz. rewrite length_app in Hsz. cbn in Hsz.
  apply (interface_run s a i x k bc None H1 H2 (proj1 (address4 _ H2')) H3 l); [done|done|lia].
Qed.
Lemma input_open s src dst p L d : chain_index (default [] (gapFirewall_Chains s !! 4)) INPUT 0 = None -> test_chain INPUT src dst p L d s = Ok (-1) s.
Proof. intros H. unfold test_chain. rewrite bind_get. cbn [IPTables_TestChain]. cbn [MAX_ADDRTYPE Z.leb Z.compare Pos.compare Pos.compare_cont bool_decide decide_rel]. rewrite !bool_decide_false by done. rewrite bind_get, H. done. Qed.

Lemma ipv4_recv_run W s a i x From L id p src body rest cb e : host s a i x -> len From = 6 -> address 4 src -> 0 <= p < 256 -> bytes (body ++ rest) -> 20 + len body <= L -> 20 + len body < 65536 -> gaIPv4_Callbacks s !! p = Some (cb, e) ->
  exists c', cache_ok c' /\ IPv4_int_GetPacket W a From L (ipv4_header (20 + len body) id p (header_sum (20 + len body) id p src (if_Address x)) src (if_Address x) ++ body ++ rest) s = rx_call W cb i src (len body) (body ++ rest) (with_cache s c').
Proof.
  intros Hh LF Hsrc Hp Hb HL Hmax Hcb. pose proof (ho_addr _ _ _ _ Hh) as [Hty Hdst]. pose proof (address4 _ Hsrc) as [Ls Bs]. pose proof (address4 _ Hdst) as [Ld Bd]. pose proof (len_nonneg body) as Hnn. set (t := 20 + len body) in *.
  set (dst := if_Address x) in *. set (c := header_sum t id p src dst). assert (0 <= c < 65536) as Hc by (by apply header_sum_range). set (B := ipv4_header t id p c src dst ++ body ++ rest).
  assert (len B = 20 + len (body ++ rest)) as LB by (unfold B; rewrite len_app, ipv4_header_len by done; done). pose proof (len_nonneg (body ++ rest)) as Hnr.
  assert (ntohs_at B 10 = Some c) as E10 by (rewrite <- (net16_val c) by done; reflexivity). assert (ntohs_at B 2 = Some t) as E2 by (rewrite <- (net16_val t) by lia; reflexivity).
  assert (wr B 10 [0; 0] = Some (ipv4_header t id p 0 src dst ++ body ++ rest)) as Ewr by (rewrite wr_ok by (change (len [0; 0]) with 2; lia); reflexivity).
  assert (rd B 12 4 = Some src) as Esrc by (rewrite rd_ok by lia; f_equal; unfold B, ipv4_header; rewrite <- !app_assoc; apply (sub_app_at ([69; 0] ++ net16 t ++ net16 id ++ [0; 0; DEFAULT_TTL; p] ++ net16 c)); done).
  assert (rd B 16 4 = Some dst) as Edst.
  { rewrite rd_ok by lia; f_equal. unfold B, ipv4_header. rewrite <- !app_assoc. apply (sub_app_at ([69; 0] ++ net16 t ++ net16 id ++ [0; 0; DEFAULT_TTL; p] ++ net16 c ++ src)); [rewrite !len_app, Ls; done|done]. }
  assert (drop 20 B = body ++ rest) as Edrop by (unfold B; pose proof (ipv4_header_len t id p c src dst Ls Ld) as Hl; unfold len in Hl; rewrite drop_app_ge, Nat.sub_diag || rewrite drop_app_ge by lia; replace (20 - length (ipv4_header t id p c src dst))%nat with 0%nat by lia; done).
  unfold IPv4_int_GetPacket. change sizeof_IPv4Header with 20. rewrite (proj2 (Z.ltb_ge L 20)) by lia. rewrite (sopt_bind (get B 0) 69) by done. change (negb (Z.shiftr 69 4 =? 4)) with false. cbv iota.
  rewrite (sopt_bind _ _ _ _ E10), (sopt_bind _ _ _ _ Ewr). change (Z.land 69 15 * 4) with 20. rewrite (sopt_bind _ _ _ _ (header_sum_run t id p src dst (body ++ rest) Hp Hsrc Hdst Hb)). fold c. rewrite Z.eqb_refl. cbn [negb].
  rewrite (sopt_bind _ _ _ _ E2). rewrite (proj2 (Z.ltb_ge L t)) by lia. rewrite (sopt_bind (get B 9) p) by done. rewrite (sopt_bind _ _ _ _ Esrc), (sopt_bind _ _ _ _ Edst). rewrite (bind_Ok _ _ _ _ _ (get_interface_run s a i x true Hh)).
  rewrite (sopt_bind (get B 8) 32) by done. rewrite (bind_Ok _ _ _ _ _ (input_open s _ _ _ _ _ (ho_rules _ _ _ _ Hh))). cbn [Z.eqb negb andb Pos.eqb]. rewrite (bind_Ok _ _ _ _ _ (iface_run s i x (ho_if _ _ _ _ Hh))).
  change (Z.to_nat 20) with 20%nat. rewrite Edrop. replace (t - 20) with (len body) by lia.
  destruct (CompareAddress_spec 4 src dst (if_SubnetBits x) Hsrc Hdst) as (local & Hcmp & _). rewrite (sopt_bind _ _ _ _ Hcmp). destruct local.
  - destruct (set_run s src From (ho_cache _ _ _ _ Hh) Ls LF) as (c' & Hset & Hok). exists c'. split; [done|]. rewrite (bind_Ok _ _ _ _ _ Hset), bind_get. change (gaIPv4_Callbacks (with_cache s c')) with (gaIPv4_Callbacks s). by rewrite Hcb.
  - exists (cache_v4 s). split; [apply Hh|]. rewrite bind_ret, bind_get, Hcb. by rewrite with_same.
Qed.

Lemma link_recv_run W s a b to hw ty D cb : 0 <= ty < 65536 -> buf_ok b -> packet b = to ++ hw ++ net16 ty ++ D -> len to = 6 -> len hw = 6 -> find_type (gaRegisteredTypes s) ty = Some (Some cb) ->
  Link_HandlePacket W a b s = (type_call W cb a hw (len D) (D ++ st_beyond s);;; ret 0) s.
Proof.
  intros Hrange Hb Hp Lto Lhw Hty. unfold Link_HandlePacket. rewrite bind_get. rewrite (sopt_bind _ _ _ _ (Compact_all _ b Hb eq_refl)), Hp. pose proof (len_nonneg D) as Hnn. change sizeof_EthernetHeader with 14.
  assert (len (to ++ hw ++ net16 ty ++ D) = 14 + len D) as Hl by (rewrite !len_app, Lto, Lhw; change (len (net16 ty)) with 2; lia). rewrite Hl. rewrite (proj2 (Z.ltb_ge _ 14)) by lia.
  assert (ntohs_at (to ++ hw ++ net16 ty ++ D) 12 = Some ty) as E12.
  { do 6 (destruct to as [|? to]; [discriminate Lto|]). destruct to; [|rewrite !len_cons in Lto; pose proof (len_nonneg to); lia]. do 6 (destruct hw as [|? hw]; [discriminate Lhw|]). destruct hw; [|rewrite !len_cons in Lhw; pose proof (len_nonneg hw); lia].
    transitivity (Some (ty / 256 mod 256 * 256 + ty mod 256)); [reflexivity|by rewrite net16_val]. }
  rewrite (sopt_bind _ _ _ _ E12). rewrite (sopt_bind (rd _ 6 6) hw) by (rewrite rd_ok by lia; f_equal; apply (sub_app_at to); done). rewrite Hty. unfold sopt. rewrite bind_ret. replace (14 + len D - 14) with (len D) by lia.
  change (Z.to_nat 14) with 14%nat. replace (drop 14 ((to ++ hw ++ net16 ty ++ D) ++ st_beyond s)) with (D ++ st_beyond s); [done|].
  replace ((to ++ hw ++ net16 ty ++ D) ++ st_beyond s) with ((to ++ hw ++ net16 ty) ++ D ++ st_beyond s) by (by rewrite <- !app_assoc).
  assert (length (to ++ hw ++ net16 ty) = 14%nat) as L14 by (unfold len in *; rewrite !length_app; cbn; lia). rewrite drop_app_ge, L14, Nat.sub_diag by lia. done.
Qed.

(** What the queue of a channel is given: the number of the packet in the store. *)
Definition queued (u : udp_state) c (x : tUDPChannel) (pk : tUDPPacket) : udp_state :=
  MkUdp (gpUDP_Channels u) (<[c := with_queue (u_next u) (u_next u) true x]> (u_chans u)) (<[u_next u := pk]> (u_packets u)) (gUDP_Ports u) (u_next u + 1) (u_errno u).
Lemma scan_run s i ty Address Buffer sp dp n addr data c x k : u_chans (st_udp s) !! c = Some x -> Queue x = 0 -> matches x i ty Address dp sp = Some true ->
  ntohs_at Buffer 0 = Some sp -> ntohs_at Buffer 2 = Some dp -> ntohs_at Buffer 4 = Some n -> rd Address 0 (IPStack_GetAddressSize ty) = Some addr -> rd Buffer 8 n = Some data ->
  forall l start fuel, lseg (ch_next s) start (l ++ c :: k) 0 -> (forall d y, d ∈ l -> u_chans (st_udp s) !! d = Some y -> matches y i ty Address dp sp = Some false) -> (length l < fuel)%nat ->
  UDP_int_ScanList fuel start i ty Address Buffer s = Ok 1 (with_udp s (queued (st_udp s) c x (MkPacket 0 sp ty addr data))).
Proof.
  intros Hx Hq Hm E0 E2 E4 Ea Ed. induction l as [|d l IH]; intros start fuel Hl Hother Hf; (destruct fuel as [|fuel]; [lia|]); cbn [app lseg] in Hl; destruct Hl as (-> & Hnz & nx & Hn & Hl); cbn [UDP_int_ScanList]; rewrite (proj2 (Z.eqb_neq _ 0)) by done.
  - rewrite (bind_Ok _ _ _ _ _ (chan_run s c x Hx)). rewrite (sopt_bind _ _ _ _ E2), (sopt_bind _ _ _ _ E0), (sopt_bind _ _ _ _ Hm). cbn [negb]. rewrite (sopt_bind _ _ _ _ E4), (sopt_bind _ _ _ _ Ea). change sizeof_UDPHeader with 8. rewrite (sopt_bind _ _ _ _ Ed).
    unfold new_upacket, enqueue. rewrite Hq. done.
  - destruct (u_chans (st_udp s) !! d) as [y|] eqn:Ey; [|done]. cbn in Hn. injection Hn as Hn. rewrite (bind_Ok _ _ _ _ _ (chan_run s d y Ey)). rewrite (sopt_bind _ _ _ _ E2), (sopt_bind _ _ _ _ E0).
    rewrite (sopt_bind _ _ _ _ (Hother d y ltac:(apply elem_of_cons; by left) Ey)). cbn [negb]. rewrite Hn. apply IH; [done|intros d' y' Hd'; apply Hother, elem_of_cons; by right|cbn in Hf; lia].
Qed.

(** The channel a packet is for: the first on the list that takes it, with nothing queued. *)
Record listener s i (x : tInterface) c (ch : tUDPChannel) src sp dp : Prop := {
  li_chan : u_chans (st_udp s) !! c = Some ch; li_queue : Queue ch = 0; li_match : matches ch i 4 src dp sp = Some true;
  li_list : exists l k, lseg (ch_next s) (gpUDP_Channels (st_udp s)) (l ++ c :: k) 0 /\ NoDup (l ++ c :: k) /\ forall d y, d ∈ l -> u_chans (st_udp s) !! d = Some y -> matches y i 4 src dp sp = Some false;
  li_fresh : u_packets (st_udp s) !! u_next (st_udp s) = None }.

Lemma udp_recv_run s i x c ch src sp dp uc data rest n : n_ifaces (st_net s) !! i = Some x -> if_Type x = 4 -> listener s i x c ch src sp dp -> len src = 4 -> 0 <= sp < 65536 -> 0 <= dp < 65536 -> 8 + len data < 65536 -> 8 <= len rest ->
  UDP_GetPacket i src n (udp_body sp dp uc data ++ rest) s = Ok tt (with_udp s (queued (st_udp s) c ch (MkPacket 0 sp 4 src (data ++ take 8 rest)))).
Proof.
  intros Hif Hty [H1 H2 H3 (l & k & H4 & H5 & H6) H7] Ls Hsp Hdp Hmax Hrest. pose proof (len_nonneg data) as Hnn. unfold UDP_GetPacket. rewrite (bind_Ok _ _ _ _ _ (iface_run s i x Hif)), udp_run, Hty. set (B := udp_body sp dp uc data ++ rest).
  pose proof (lseg_nodup_size _ _ _ _ H4 H5) as Hsz. rewrite length_app in Hsz. cbn in Hsz.
  assert (len B = 8 + len data + len rest) as LB by (unfold B, udp_body; rewrite !len_app, udp_header_len; lia).
  assert (ntohs_at B 0 = Some sp) as E0 by (rewrite <- (net16_val sp) by done; reflexivity). assert (ntohs_at B 2 = Some dp) as E2 by (rewrite <- (net16_val dp) by done; reflexivity).
  assert (ntohs_at B 4 = Some (8 + len data)) as E4 by (rewrite <- (net16_val (8 + len data)) by lia; reflexivity).
  assert (rd B 8 (8 + len data) = Some (data ++ take 8 rest)) as Ed.
  { rewrite rd_ok by lia. f_equal. unfold B, udp_body, sub. rewrite <- app_assoc. change (Z.to_nat 8) with 8%nat. change (drop 8 (udp_header sp dp (8 + len data) uc ++ data ++ rest)) with (data ++ rest).
    unfold len in *. rewrite take_app_ge by lia. do 2 f_equal. lia. }
  rewrite (bind_Ok _ _ _ _ _ (scan_run s i 4 src B sp dp (8 + len data) src _ c ch k H1 H2 H3 E0 E2 E4 (rd_self _ 4 Ls) Ed l _ (size (u_chans (st_udp s))) H4 H6 ltac:(lia))). done.
Qed.

Definition le16 (v : Z) : list Z := [v mod 256; v / 256].
Lemma udp_read_run s c x pk n flags : u_chans (st_udp s) !! c = Some x -> LocalPort x <> 0 -> Queue x <> 0 -> ch_avail x = true -> u_packets (st_udp s) !! Queue x = Some pk -> pk_Next pk = 0 -> pk_AddrType pk = 4 -> len (pk_Addr pk) = 4 ->
  8 + len (pk_Data pk) <= n -> exists s', UDP_Channel_Read c n flags s = Ok (le16 (pk_Port pk) ++ le16 4 ++ pk_Addr pk ++ pk_Data pk) s' /\ u_chans (st_udp s') = <[c := with_queue 0 0 false x]> (u_chans (st_udp s)) /\
    u_packets (st_udp s') = delete (Queue x) (u_packets (st_udp s)) /\ st_out s' = st_out s.
Proof.
  intros Hx Hp Hq Ha Hpk Hnx Hty La Hn. pose proof (len_nonneg (pk_Data pk)) as Hnn. unfold UDP_Channel_Read. rewrite (bind_Ok _ _ _ _ _ (chan_run s c x Hx)). rewrite (proj2 (Z.eqb_neq _ 0)) by done.
  assert (UDP_Channel_WaitForPacket c flags s = (put_chan c (with_queue 0 0 false x);;; ret (Some (Queue x))) s) as Ew.
  { unfold UDP_Channel_WaitForPacket. rewrite (bind_Ok _ _ _ _ _ (chan_run s c x Hx)). rewrite (proj2 (Z.eqb_neq _ 0)) by done. rewrite Ha. cbn [negb]. unfold upacket_at. rewrite bind_assoc, udp_run, (sopt_bind _ _ _ _ Hpk), Hnx. done. }
  unfold put_chan in Ew. rewrite bind_assoc, udp_run in Ew. cbn in Ew. rewrite (bind_Ok _ _ _ _ _ Ew). unfold upacket_at. rewrite bind_assoc, udp_run. cbn [st_udp u_packets]. rewrite (sopt_bind _ _ _ _ Hpk). rewrite Hty. change (IPStack_GetAddressSize 4) with 4.
  unfold free_upacket. rewrite bind_assoc, udp_run. cbn [st_udp u_packets]. rewrite (proj2 (Z.ltb_ge n (4 + 4))) by lia. eexists. split.
  - unfold bind at 1. cbn [set_udp]. unfold ret. f_equal. unfold len in *. rewrite take_ge by lia. rewrite (take_ge (pk_Data pk)); [done|]. destruct (Z.ltb_spec (4 + 4 + Z.of_nat (length (pk_Data pk))) n); lia.
  - done.
Qed.

(** A hardware address that is known: the entry is there and nobody waits for it. *)
Definition known s dst mac : Prop := exists ca e, find_addr (hc_ents (cache_v4 s)) (hc_list (cache_v4 s)) dst 4 = Some (Some ca) /\ hc_ents (cache_v4 s) !! ca = Some e /\ WaitingCount e = 0 /\ HWAddr e = mac.

Lemma known_resolves W s i x dst mac : n_ifaces (st_net s) !! i = Some x -> if_Type x = 4 -> on_link x dst -> known s dst mac ->
  exists c', HWCache_Resolve W i dst s = Ok mac (with_cache s c').
Proof. intros Hif Hty Hon (ca & e & Hf & He & Hw & <-). eexists. by apply (resolve_hit W s i x dst ca e). Qed.
Lemma matches_port x i ty src dp sp : matches x i ty src dp sp = Some true -> LocalPort x = dp.
Proof. unfold matches. destruct (negb (ch_Interface x =? 0) && _); [done|]. destruct (Z.eqb_spec (LocalPort x) dp); [done|]. done. Qed.
Lemma listener_cache s c0 i x c ch src sp dp : listener s i x c ch src sp dp -> listener (with_cache s c0) i x c ch src sp dp.
Proof. by intros []. Qed.

(** A frame with a UDP packet to a host, up to the channel. *)
Lemma udp_frame_run W s a i x c ch b to hw src sp uc data : host s a i x -> find_type (gaRegisteredTypes s) IPV4_ETHERNET_ID = Some (Some IPv4_int_GetPacket_cb) -> gaIPv4_Callbacks s !! 17 = Some (UDP_GetPacket_cb, None) ->
  listener s i x c ch src sp (LocalPort ch) -> 0 <= sp < 65536 -> 0 <= LocalPort ch < 65536 -> address 4 src -> bytes data -> bytes (st_beyond s) -> 8 <= len (st_beyond s) -> len to = 6 -> len hw = 6 -> len data <= 65507 ->
  buf_ok b -> packet b = ip_frame to hw 0 17 src (if_Address x) (udp_body sp (LocalPort ch) uc data) ->
  exists c' rest, cache_ok c' /\ Link_HandlePacket W a b s = Ok 0 (with_udp (with_cache s c') (queued (st_udp s) c ch (MkPacket 0 sp 4 src (data ++ rest)))) /\ len rest = 8.
Proof.
  intros Hh Hty Hcb Hli Hsp Hdp Hsrc Hdata Hbey Lbey Lto Lhw Hmax Hb Hpk. pose proof (len_nonneg data) as Hnn. set (body := udp_body sp (LocalPort ch) uc data) in *.
  assert (len body = 8 + len data) as Lb by (unfold body, udp_body; by rewrite len_app). assert (bytes body) as Bb by (unfold body, udp_body, udp_header; repeat (apply Forall_app; split); try apply net16_bytes; done).
  set (rest := padding (20 + len body) ++ st_beyond s). assert (bytes rest) as Br by (apply Forall_app; split; [apply Forall_replicate; lia|done]).
  assert (len (padding (20 + len body)) = pad_len (20 + len body)) as Lpad by (unfold padding, len; rewrite length_replicate; pose proof (pad_len_range (20 + len body)); unfold len in *; lia).
  pose proof (pad_len_range (20 + len body)) as Hpad. assert (8 <= len rest) as Lr by (unfold rest; rewrite len_app; lia).
  rewrite (link_recv_run W s a b to hw IPV4_ETHERNET_ID _ _ ltac:(done) Hb Hpk Lto Lhw Hty). cbn [type_call]. pose proof (proj2 (ho_addr _ _ _ _ Hh)) as Hdst. pose proof (address4 _ Hsrc) as [Ls _]. pose proof (address4 _ Hdst) as [Ld _].
  destruct (ipv4_recv_run W s a i x hw (len (ipv4_header (20 + len body) 0 17 (header_sum (20 + len body) 0 17 src (if_Address x)) src (if_Address x) ++ body ++ padding (20 + len body))) 0 17 src body rest UDP_GetPacket_cb None Hh Lhw Hsrc
    ltac:(lia) ltac:(apply Forall_app; by split) ltac:(rewrite !len_app, ipv4_header_len by done; lia) ltac:(lia) Hcb) as (c' & Hc' & Hrun).
  exists c', (take 8 rest). split; [done|]. split; [|unfold len in *; rewrite length_take; lia].
  rewrite <- !app_assoc. fold rest. unfold bind at 1. rewrite Hrun. cbn [rx_call].
  unfold body at 2. rewrite (udp_recv_run (with_cache s c') i x c ch src sp (LocalPort ch) uc data rest _ (ho_if _ _ _ _ Hh) (proj1 (ho_addr _ _ _ _ Hh)) (listener_cache _ _ _ _ _ _ _ _ _ Hli) Ls Hsp Hdp ltac:(lia) Lr). done.
Qed.

(** A channel that can send to [dst], and a host that takes packets from [src] with a channel for them. *)
Record sender s c (ch : tUDPChannel) (x : tInterface) a hw dst mac : Prop := {
  sn_chan : u_chans (st_udp s) !! c = Some ch; sn_iface : ch_Interface ch <> 0; sn_port : 0 <= LocalPort ch < 65536; sn_by : sends_by s (ch_Interface ch) x a hw;
  sn_dst : address 4 dst /\ on_link x dst; sn_known : known s dst mac; sn_mac : mac <> cMAC_ZERO /\ len mac = 6 }.
Record receiver s a i (x : tInterface) c (ch : tUDPChannel) src sp : Prop := {
  rc_host : host s a i x; rc_type : find_type (gaRegisteredTypes s) IPV4_ETHERNET_ID = Some (Some IPv4_int_GetPacket_cb); rc_udp : gaIPv4_Callbacks s !! 17 = Some (UDP_GetPacket_cb, None);
  rc_listener : listener s i x c ch src sp (LocalPort ch); rc_port : 0 < LocalPort ch < 65536; rc_next : 0 < u_next (st_udp s); rc_beyond : bytes (st_beyond s) /\ 8 <= len (st_beyond s) }.

Lemma sends_by_cache s i x a hw c : sends_by s i x a hw -> sends_by (with_cache s c) i x a hw.
Proof. by intros []. Qed.
Lemma send_known W s c ch x a hw dst mac port data : sender s c ch x a hw dst mac -> len data <= 65507 ->
  exists uc c', UDP_SendPacketTo W c 4 dst port data (len data) s = Ok tt (sent (with_cache s c') (Sent a (ip_frame mac hw 0 17 (if_Address x) dst (udp_body (LocalPort ch) port uc data)))).
Proof.
  intros [H1 H2 _ H3 [H4 H4'] H5 [H6 H6'] ] Hmax. destruct (known_resolves W s (ch_Interface ch) x dst mac (sb_if _ _ _ _ _ H3) (proj1 (sb_addr _ _ _ _ _ H3)) H4' H5) as [c' Hres].
  destruct (udp_send_run W s _ c ch x a hw dst port data mac H1 (sb_if _ _ _ _ _ H3) H2 Hres H6 H6' (sends_by_cache _ _ _ _ _ _ H3) H4 Hmax) as [uc Hrun]. by exists uc, c'.
Qed.
Lemma receive_read W s a i x c ch src sp b to hw uc data n flags : receiver s a i x c ch src sp -> address 4 src -> 0 <= sp < 65536 -> bytes data -> len to = 6 -> len hw = 6 -> len data <= 65507 ->
  buf_ok b -> packet b = ip_frame to hw 0 17 src (if_Address x) (udp_body sp (LocalPort ch) uc data) -> 16 + len data <= n ->
  exists s1 s2 extra, Link_HandlePacket W a b s = Ok 0 s1 /\ UDP_Channel_Read c n flags s1 = Ok (le16 sp ++ le16 4 ++ src ++ data ++ extra) s2 /\ len extra = 8 /\
    u_chans (st_udp s2) = <[c := with_queue 0 0 false ch]> (u_chans (st_udp s)) /\ u_packets (st_udp s2) = u_packets (st_udp s) /\ st_out s2 = st_out s.
Proof.
  intros [H1 H2 H3 H4 H5 H6 [H7 H7'] ] Hsrc Hsp Hdata Lto Lhw Hmax Hb Hpk Hn. pose proof (len_nonneg data) as Hnn.
  destruct (udp_frame_run W s a i x c ch b to hw src sp uc data H1 H2 H3 H4 Hsp ltac:(lia) Hsrc Hdata H7 H7' Lto Lhw Hmax Hb Hpk) as (c' & extra & _ & Hrun & Lx).
  set (pk := MkPacket 0 sp 4 src (data ++ extra)) in *. set (s1 := with_udp (with_cache s c') (queued (st_udp s) c ch pk)) in *.
  destruct (udp_read_run s1 c (with_queue (u_next (st_udp s)) (u_next (st_udp s)) true ch) pk n flags) as (s2 & Hread & Ec & Ep & Eo); [apply lookup_insert_eq|cbn; lia|cbn; lia|done|apply lookup_insert_eq|done|done|apply (address4 _ Hsrc)|cbn; rewrite len_app; lia|].
  exists s1, s2, extra. split; [exact Hrun|]. split; [exact Hread|]. split; [done|]. split; [|split; [|exact Eo] ].
  - rewrite Ec. apply insert_insert_eq.
  - rewrite Ep. cbn. apply delete_insert_id, (li_fresh _ _ _ _ _ _ _ _ H4).
Qed.

(** ** ARP *)
Definition ARP_ETHERNET_ID := 0x0806.
Definition arp_frame (to hw : list Z) (op : Z) (smac sip dmac dip : list Z) : list Z := to ++ hw ++ net16 ARP_ETHERNET_ID ++ arp_packet op smac sip dmac dip.
Lemma arp_packet_len op smac sip dmac dip : len smac = 6 -> len sip = 4 -> len dmac = 6 -> len dip = 4 -> len (arp_packet op smac sip dmac dip) = 28.
Proof. intros H1 H2 H3 H4. unfold arp_packet. rewrite !len_app, H1, H2, H3, H4. done. Qed.
Lemma arp_send_run s a hw to p : st_hwaddr s !! a = Some hw -> len hw = 6 -> len to = 6 -> len p = 28 ->
  Link_SendPacket a ARP_ETHERNET_ID to (IPStack_Buffer_AppendSubBuffer (IPStack_Buffer_CreateBuffer 3) sizeof_ArpRequest4 0 p None) s = Ok tt (sent s (Sent a (to ++ hw ++ net16 ARP_ETHERNET_ID ++ p))).
Proof.
  intros Hhw Lhw Lto Lp. destruct (Append_ok (IPStack_Buffer_CreateBuffer 3) 28 0 p None (Create_ok 3 ltac:(done)) ltac:(done) ltac:(lia) ltac:(lia) ltac:(lia) ltac:(done)) as (Hok & Hp & Hn & Hm & _).
  set (b := IPStack_Buffer_AppendSubBuffer (IPStack_Buffer_CreateBuffer 3) 28 0 p None) in *. change sizeof_ArpRequest4 with 28. fold b.
  assert (packet b = p) as Ep. { rewrite Hp. change (packet (IPStack_Buffer_CreateBuffer 3)) with (@nil Z). cbn [app]. rewrite <- Lp. unfold sub, len. rewrite Nat2Z.id, drop_0, firstn_all. apply app_nil_r. }
  rewrite (link_send_run s a ARP_ETHERNET_ID to hw b Hhw Lhw Lto Hok ltac:(rewrite Hn, Hm; done) ltac:(rewrite Ep, Lp; done)), Ep, Lp. change (padding 28) with (@nil Z). by rewrite app_nil_r.
Qed.
Lemma arp_request_run s i x a hw dst : sends_by s i x a hw -> len dst = 4 -> ARP_Request4 i dst s = Ok tt (sent s (Sent a (arp_frame cMAC_BROADCAST hw 1 hw (if_Address x) cMAC_BROADCAST dst))).
Proof.
  intros [Hif [Hty Hsrc] Had [Hhw Lhw] ] Ld. pose proof (address4 _ Hsrc) as [Ls _]. unfold ARP_Request4. rewrite (bind_Ok _ _ _ _ _ (iface_run s i x Hif)), (bind_Ok _ _ _ _ _ (adapter_run s i a Had)), (bind_Ok _ _ _ _ _ (hwaddr_run s a hw Hhw)).
  rewrite (sopt_bind _ _ _ _ (rd_self _ 4 Ls)). rewrite (arp_send_run s a hw cMAC_BROADCAST _ Hhw Lhw eq_refl) by (by apply arp_packet_len). done.
Qed.

(** The fields of an ARP packet as they are read. *)
Lemma arp_fields op smac sip dmac dip rest (B := arp_packet op smac sip dmac dip ++ rest) : len smac = 6 -> len sip = 4 -> len dmac = 6 -> len dip = 4 -> 0 <= op < 65536 ->
  ntohs_at B 2 = Some 0x0800 /\ get B 4 = Some 6 /\ get B 5 = Some 4 /\ ntohs_at B 6 = Some op /\ rd B 8 6 = Some smac /\ rd B 14 4 = Some sip /\ rd B 24 4 = Some dip /\ take 6 B = net16 1 ++ net16 0x0800 ++ [6; 4].
Proof.
  intros H1 H2 H3 H4 Hop. assert (len B = 28 + len rest) as LB by (unfold B; rewrite len_app, arp_packet_len by done; done). pose proof (len_nonneg rest). set (h := net16 1 ++ net16 0x0800 ++ [6; 4] ++ net16 op).
  assert (forall p q t : list Z, B = (h ++ p) ++ q ++ t -> rd B (8 + len p) (len q) = Some q) as Hrd.
  { intros p q t E. pose proof (len_nonneg p). pose proof (len_nonneg q). pose proof (len_nonneg t). assert (len B = 8 + len p + len q + len t) as L by (rewrite E, !len_app; change (len h) with 8; lia). rewrite rd_ok by lia. f_equal. rewrite E. apply sub_app_at; [rewrite len_app; done|done]. }
  split; [done|]. split; [done|]. split; [done|]. split; [rewrite <- (net16_val op) by done; done|]. split; [|split; [|split; [|done] ] ].
  - rewrite <- H1. apply (Hrd [] smac (sip ++ dmac ++ dip ++ rest)). unfold B, arp_packet, h. by rewrite <- !app_assoc.
  - rewrite <- H2. replace 14 with (8 + len smac) by lia. apply (Hrd smac sip (dmac ++ dip ++ rest)). unfold B, arp_packet, h. by rewrite <- !app_assoc.
  - rewrite <- H4. replace 24 with (8 + len (smac ++ sip ++ dmac)) by (rewrite !len_app; lia). apply (Hrd (smac ++ sip ++ dmac) dip rest). unfold B, arp_packet, h. by rewrite <- !app_assoc.
Qed.

Lemma arp_answer_run s a i x L smac sip dmac mac rest : host s a i x -> st_hwaddr s !! a = Some mac -> len mac = 6 -> len smac = 6 -> len sip = 4 -> len dmac = 6 -> 28 <= L -> forall From,
  exists c', cache_ok c' /\ ARP_int_GetPacket a From L (arp_packet 1 smac sip dmac (if_Address x) ++ rest) s = Ok tt (sent (with_cache s c') (Sent a (arp_frame smac mac 2 mac (if_Address x) smac sip))).
Proof.
  intros Hh Hmac Lmac Ls Lsip Ldm HL From. pose proof (address4 _ (proj2 (ho_addr _ _ _ _ Hh))) as [Ld _]. destruct (arp_fields 1 smac sip dmac (if_Address x) rest Ls Lsip Ldm Ld ltac:(lia)) as (E2 & E4 & E5 & E6 & E8 & E14 & E24 & Et).
  unfold ARP_int_GetPacket. change sizeof_ArpRequest4 with 28. rewrite (proj2 (Z.ltb_ge L 28)) by lia. rewrite (sopt_bind _ _ _ _ E2), (sopt_bind _ _ _ _ E4), (sopt_bind _ _ _ _ E5), (sopt_bind _ _ _ _ E6), (sopt_bind _ _ _ _ E8), (sopt_bind _ _ _ _ E14), (sopt_bind _ _ _ _ E24).
  cbn [Z.eqb Pos.eqb negb]. rewrite (bind_Ok _ _ _ _ _ (get_interface_run s a i x false Hh)). destruct (set_run s sip smac (ho_cache _ _ _ _ Hh) Lsip Ls) as (c' & Hset & Hok). exists c'. split; [done|]. rewrite (bind_Ok _ _ _ _ _ Hset).
  rewrite (bind_Ok _ _ _ _ _ (iface_run (with_cache s c') i x (ho_if _ _ _ _ Hh))), (sopt_bind _ _ _ _ (rd_self _ 4 Ld)), (bind_Ok _ _ _ _ _ (hwaddr_run (with_cache s c') a mac Hmac)). rewrite Et.
  change (Link_SendPacket a 2054 smac) with (Link_SendPacket a ARP_ETHERNET_ID smac). change ((net16 1 ++ net16 2048 ++ [6; 4]) ++ net16 2 ++ mac ++ if_Address x ++ smac ++ sip) with (arp_packet 2 mac (if_Address x) smac sip).
  rewrite (arp_send_run (with_cache s c') a mac smac _ Hmac Lmac Ls) by (by apply arp_packet_len). done.
Qed.
Lemma arp_reply_run s a L smac sip dmac dip rest From : len smac = 6 -> len sip = 4 -> len dmac = 6 -> len dip = 4 -> 28 <= L ->
  ARP_int_GetPacket a From L (arp_packet 2 smac sip dmac dip ++ rest) s = HWCache_Set 4 sip From s.
Proof.
  intros Ls Lsip Ldm Ld HL. destruct (arp_fields 2 smac sip dmac dip rest Ls Lsip Ldm Ld ltac:(lia)) as (E2 & E4 & E5 & E6 & E8 & E14 & E24 & _).
  unfold ARP_int_GetPacket. change sizeof_ArpRequest4 with 28. rewrite (proj2 (Z.ltb_ge L 28)) by lia. rewrite (sopt_bind _ _ _ _ E2), (sopt_bind _ _ _ _ E4), (sopt_bind _ _ _ _ E5), (sopt_bind _ _ _ _ E6), (sopt_bind _ _ _ _ E8), (sopt_bind _ _ _ _ E14), (sopt_bind _ _ _ _ E24). done.
Qed.
Lemma find_addr_head m ca l addr e : m !! ca = Some e -> L3Addr e = addr -> len addr = 4 -> find_addr m (ca :: l) addr 4 = Some (Some ca).
Proof.
  intros He Ea La. cbn [find_addr]. rewrite He. cbn [mbind option_bind]. destruct (memcmp_spec (L3Addr e) addr 4) as (v & -> & Hv); [unfold len in *; rewrite Ea; lia|unfold len in *; lia|]. cbn [mbind option_bind]. rewrite (proj2 Hv) by (by rewrite Ea). done.
Qed.
Definition arp_type s : Prop := find_type (gaRegisteredTypes s) ARP_ETHERNET_ID = Some (Some ARP_int_GetPacket_cb).
Lemma arp_frame_run W s a b to hw op smac sip dmac dip : buf_ok b -> packet b = arp_frame to hw op smac sip dmac dip -> len to = 6 -> len hw = 6 -> arp_type s -> len smac = 6 -> len sip = 4 -> len dmac = 6 -> len dip = 4 ->
  Link_HandlePacket W a b s = (ARP_int_GetPacket a hw 28 (arp_packet op smac sip dmac dip ++ st_beyond s);;; ret 0) s.
Proof. intros Hb Hp Lto Lhw Hty H1 H2 H3 H4. rewrite (link_recv_run W s a b to hw ARP_ETHERNET_ID _ _ ltac:(done) Hb Hp Lto Lhw Hty). cbn [type_call]. by rewrite arp_packet_len. Qed.

(** An address nobody has asked for: asked for, and the reply that comes in the wait is the result. *)
Lemma resolve_ask W W0 s i x a hw dst mac b : sends_by s i x a hw -> len dst = 4 -> on_link x dst -> cache_ok (cache_v4 s) -> (forall ca e, ca ∈ hc_list (cache_v4 s) -> hc_ents (cache_v4 s) !! ca = Some e -> L3Addr e <> dst) ->
  nAddrs (cache_v4 s) < MaxSize -> arp_type s -> len mac = 6 -> buf_ok b -> packet b = arp_frame hw mac 2 mac dst hw (if_Address x) -> (forall ca r, W 4 ca r = (do _ <- Link_HandlePacket W0 a b; ret 1) r) ->
  exists s', HWCache_Resolve W i dst s = Ok mac s' /\ st_out s' = st_out s ++ [Sent a (arp_frame cMAC_BROADCAST hw 1 hw (if_Address x) cMAC_BROADCAST dst)] /\ st_net s' = st_net s /\ known s' dst mac.
Proof.
  intros Hby Ld Hon Hc Hnew Hroom Hty Lmac Hb Hp HW. destruct Hby as [Hif [Ht Hsrc] Had [Hhw Lhw] ] eqn:Eby. pose proof (address4 _ Hsrc) as [Lsrc _]. clear Eby.
  unfold HWCache_Resolve. rewrite (bind_Ok _ _ _ _ _ (iface_run s i x Hif)), (bind_Ok _ _ _ _ _ (next_hop_local s i x dst Ht Hon)). rewrite Ht, get_cache_run. change (Z.to_nat (IPStack_GetAddressSize 4)) with 4%nat.
  destruct (find_addr_spec _ _ dst (co_ents _ Hc) Ld) as (hit & Hhit & Hcase). rewrite (sopt_bind _ _ _ _ Hhit). destruct hit as [ca|]; [destruct Hcase as (Hin & e & He & Ee); by destruct (Hnew ca e Hin He)|].
  unfold resolve_new. rewrite get_cache_run. rewrite (proj2 (Z.leb_gt _ _)) by done. change (IPStack_GetAddressSize 4) with 4. rewrite (sopt_bind _ _ _ _ (rd_self _ 4 Ld)). rewrite (bind_Ok _ _ _ _ _ (put_cache_run s _)). cbn [Z.eqb Pos.eqb].
  set (ca := hc_next (cache_v4 s)). set (c1 := MkCache _ _ _ _). rewrite (bind_Ok _ _ _ _ _ (arp_request_run (with_cache s c1) i x a hw dst (sends_by_cache _ _ _ _ _ c1 Hby) Ld)).
  assert (hc_ents c1 !! ca = Some (MkCached 1 0 dst cMAC_ZERO)) as He1 by apply lookup_insert_eq.
  set (s2 := sent (with_cache s c1) _). assert (W 4 ca s2 = Ok 1 (with_cache s2 (put_ent ca (MkCached 1 (i32 (0 + INT_MAX)) dst mac) c1))) as Ew.
  { rewrite HW. unfold bind at 1. rewrite (arp_frame_run W0 s2 a b hw mac 2 mac dst hw (if_Address x) Hb Hp Lhw Lmac Hty Lmac Ld Lhw Lsrc). unfold bind at 1. rewrite arp_reply_run by (done || lia). unfold HWCache_Set. rewrite get_cache_run. change (cache_v4 s2) with c1.
    change (Z.to_nat (IPStack_GetAddressSize 4)) with 4%nat. rewrite (sopt_bind _ _ _ _ (find_addr_head (hc_ents c1) ca (hc_list (cache_v4 s)) dst _ He1 eq_refl Ld)). unfold ent_of. rewrite (sopt_bind _ _ _ _ He1). reflexivity. }
  rewrite (bind_Ok _ _ _ _ _ Ew). unfold after_wait. rewrite bind_assoc, get_cache_run. cbn [cache_v4 with_cache]. unfold ent_of. cbn [put_ent hc_ents]. rewrite bind_assoc, (sopt_bind _ _ _ _ (lookup_insert_eq _ _ _)). cbn [WaitingCount Z.ltb Z.compare ASSERT]. eexists. split; [reflexivity|].
  split; [done|]. split; [done|]. exists ca, (MkCached 0 (i32 (0 + INT_MAX)) dst mac). split; [eapply find_addr_head; [apply lookup_insert_eq|done|done]|]. split; [apply lookup_insert_eq|done].
Qed.

(** Two hosts of one network; each has a channel, and the first knows the hardware address of the second. *)
Definition ip_a : list Z := [192; 168; 1; 9].
Definition ip_b : list Z := [192; 168; 1; 20].
Definition mac_a : list Z := [2; 0; 0; 0; 0; 1].
Definition mac_b : list Z := [2; 0; 0; 0; 0; 2].
Definition iface_of (ip : list Z) : tInterface := MkIface 0 4 ip 24 (MkRoute 0 0 0 0 0 [0; 0; 0; 0] 0 [0; 0; 0; 0] 0) [48; 0].
Definition chan_of (port : Z) : tUDPChannel := MkChannel 0 7 port 0 0 [] 0 0 0 false.
Definition host_of (ip mac : list Z) (port : Z) (cache : tHWAddrCache) : stack :=
  MkStack (MkNet 0 0 1 ∅ 7 {[7 := iface_of ip]} 8 0 0) {[7 := 1]} {[1 := mac]} cache (MkCache 0 [] ∅ 1) [(IPV4_ETHERNET_ID, Some IPv4_int_GetPacket_cb); (ARP_ETHERNET_ID, Some ARP_int_GetPacket_cb)]
    {[17 := (UDP_GetPacket_cb, None)]} ∅ (MkUdp 3 {[3 := chan_of port]} ∅ [] 4 0) [] [] (replicate 16 170).
Definition no_cache : tHWAddrCache := MkCache 0 [] ∅ 1.
Definition cache_b : tHWAddrCache := MkCache 1 [1] {[1 := MkCached 0 0 ip_b mac_b]} 2.

Lemma ip_ok a b c d : 0 <= a < 256 -> 0 <= b < 256 -> 0 <= c < 256 -> 0 <= d < 256 -> address 4 [a; b; c; d].
Proof. intros. split; [by left|]. split; [done|]. repeat (apply Forall_cons_2; [done|]). apply Forall_nil_2. Qed.
Lemma no_cache_ok : cache_ok no_cache.
Proof. split; [done|done|]. split; [done|apply NoDup_nil_2]. Qed.
Lemma host_by a b c d mac port cache : 0 <= a < 256 -> 0 <= b < 256 -> 0 <= c < 256 -> 0 <= d < 256 -> len mac = 6 -> sends_by (host_of [a; b; c; d] mac port cache) 7 (iface_of [a; b; c; d]) 1 mac.
Proof. intros. split; [done|split; [done|by apply ip_ok]|done|done]. Qed.
Lemma host_ok a b c d mac port : 0 <= a < 256 -> 0 <= b < 256 -> 0 <= c < 256 -> 0 <= d < 256 -> host (host_of [a; b; c; d] mac port no_cache) 1 7 (iface_of [a; b; c; d]).
Proof.
  intros. split; [done|split; [done|by apply ip_ok]|done| |done|apply no_cache_ok]. exists [], []. split; [|split; [repeat constructor; apply not_elem_of_nil|intros j Hj; by apply not_elem_of_nil in Hj] ]. split; [done|]. split; [done|]. exists 0. done.
Qed.
Lemma host_receiver src sp : receiver (host_of ip_b mac_b 4000 no_cache) 1 7 (iface_of ip_b) 3 (chan_of 4000) src sp.
Proof.
  split; [by apply host_ok|done|done| |done|done|split; [by apply Forall_replicate|done] ]. split; [done|done|done| |done].
  exists [], []. split; [|split; [repeat constructor; apply not_elem_of_nil|intros d y Hd; by apply not_elem_of_nil in Hd] ]. split; [done|]. split; [done|]. exists 0. done.
Qed.
Lemma host_sender : sender (host_of ip_a mac_a 5000 cache_b) 3 (chan_of 5000) (iface_of ip_a) 1 mac_a ip_b mac_b.
Proof. split; [done|done|done|by apply host_by|split; [by apply ip_ok|by split]| |done]. exists 1, (MkCached 0 0 ip_b mac_b). done. Qed.
Definition no_wait : Z -> Z -> SM Z := fun _ _ => halt SBlock.

Module NetTheorems.
(** C26: A datagram of up to 65507 bytes sent from a channel to an on-link IPv4 host whose hardware address is known
    leaves as one frame that, given in any buffer to a receiving host that has no INPUT chain and whose channel for the
    port is the first to take it and has an empty queue, is queued there and read with the sender's port and address and
    the data as sent (and eight bytes beyond), the queue being empty again. (Non-empty queues lose datagrams:
    third_packet_drops_second, stale_queue_end.) *)
Theorem udp_delivered W s c ch x a hw dst mac data : sender s c ch x a hw dst mac -> bytes data -> len data <= 65507 -> forall port,
  exists s' f, UDP_SendPacketTo W c 4 dst port data (len data) s = Ok tt s' /\ st_out s' = st_out s ++ [Sent a f] /\
    forall W' r a' i y d dh b n flags, receiver r a' i y d dh (if_Address x) (LocalPort ch) -> if_Address y = dst -> LocalPort dh = port -> buf_ok b -> packet b = f -> 16 + len data <= n ->
    exists r1 r2 extra, Link_HandlePacket W' a' b r = Ok 0 r1 /\ UDP_Channel_Read d n flags r1 = Ok (le16 (LocalPort ch) ++ le16 4 ++ if_Address x ++ data ++ extra) r2 /\ len extra = 8 /\
      u_chans (st_udp r2) = <[d := with_queue 0 0 false dh]> (u_chans (st_udp r)) /\ u_packets (st_udp r2) = u_packets (st_udp r) /\ st_out r2 = st_out r.
Proof.
  intros Hs Hdata Hmax port. destruct (send_known W s c ch x a hw dst mac port data Hs Hmax) as (uc & c' & Hrun). eexists _, _. split; [exact Hrun|]. split; [reflexivity|].
  intros W' r a' i y d dh b n flags Hr <- <- Hb Hpk Hn. eapply receive_read; [exact Hr| | |done| | |done|done|exact Hpk|done].
  - apply (sb_addr _ _ _ _ _ (sn_by _ _ _ _ _ _ _ _ Hs)).
  - apply Hs.
  - apply (proj2 (sn_mac _ _ _ _ _ _ _ _ Hs)).
  - apply (proj2 (sb_hw _ _ _ _ _ (sn_by _ _ _ _ _ _ _ _ Hs))).
Qed.
Lemma udp_delivered_witness : exists s' f, UDP_SendPacketTo no_wait 3 4 ip_b 4000 [104; 105] 2 (host_of ip_a mac_a 5000 cache_b) = Ok tt s' /\ st_out s' = [Sent 1 f] /\
  forall b, buf_ok b -> packet b = f -> exists r1 r2 extra, Link_HandlePacket no_wait 1 b (host_of ip_b mac_b 4000 no_cache) = Ok 0 r1 /\ UDP_Channel_Read 3 100 0 r1 = Ok (le16 5000 ++ [4; 0] ++ ip_a ++ [104; 105] ++ extra) r2 /\ len extra = 8.
Proof.
  destruct (udp_delivered no_wait (host_of ip_a mac_a 5000 cache_b) 3 (chan_of 5000) (iface_of ip_a) 1 mac_a ip_b mac_b [104; 105] host_sender ltac:(by repeat constructor) ltac:(done) 4000) as (s' & f & Hsend & Hout & Hrecv). exists s', f. split; [exact Hsend|]. split; [exact Hout|].
  intros b Hb Hp. destruct (Hrecv no_wait (host_of ip_b mac_b 4000 no_cache) 1 7 (iface_of ip_b) 3 (chan_of 4000) b 100 0 (host_receiver _ _) eq_refl eq_refl Hb Hp ltac:(done)) as (r1 & r2 & extra & H1 & H2 & H3 & _). by exists r1, r2, extra.
Defined.

(** C27: With fewer than 64 cached entries, an on-link IPv4 address whose hardware address is not cached is asked for;
    the host that has the address answers, the answer handled during the wait is what the lookup returns, and later
    lookups send nothing. (With 64 entries the lookup faults: full_cache_faults.) *)
Theorem arp_resolves s i x a hw dst : sends_by s i x a hw -> address 4 dst -> on_link x dst -> cache_ok (cache_v4 s) -> (forall ca e, ca ∈ hc_list (cache_v4 s) -> hc_ents (cache_v4 s) !! ca = Some e -> L3Addr e <> dst) ->
  nAddrs (cache_v4 s) < MaxSize -> arp_type s ->
  exists req, forall W' r a' j y mac b, host r a' j y -> if_Address y = dst -> st_hwaddr r !! a' = Some mac -> len mac = 6 -> arp_type r -> buf_ok b -> packet b = req ->
    exists r' rep, Link_HandlePacket W' a' b r = Ok 0 r' /\ st_out r' = st_out r ++ [Sent a' rep] /\
      forall W W0 b', buf_ok b' -> packet b' = rep -> (forall ca st, W 4 ca st = (do _ <- Link_HandlePacket W0 a b'; ret 1) st) ->
      exists s', HWCache_Resolve W i dst s = Ok mac s' /\ st_out s' = st_out s ++ [Sent a req] /\ forall W2, exists s2, HWCache_Resolve W2 i dst s' = Ok mac s2 /\ st_out s2 = st_out s'.
Proof.
  intros Hby Hdst Hon Hc Hnew Hroom Hty. pose proof (address4 _ Hdst) as [Ld _]. pose proof (address4 _ (proj2 (sb_addr _ _ _ _ _ Hby))) as [Ls _]. pose proof (proj2 (sb_hw _ _ _ _ _ Hby)) as Lhw.
  exists (arp_frame cMAC_BROADCAST hw 1 hw (if_Address x) cMAC_BROADCAST dst). intros W' r a' j y mac b Hh <- Hmac Lmac Hty' Hb Hp. rewrite (arp_frame_run W' r a' b _ _ _ _ _ _ _ Hb Hp eq_refl Lhw Hty' Lhw Ls eq_refl Ld).
  destruct (arp_answer_run r a' j y 28 hw (if_Address x) cMAC_BROADCAST mac (st_beyond r) Hh Hmac Lmac Lhw Ls eq_refl ltac:(lia) hw) as (c' & _ & Hans). rewrite (bind_Ok _ _ _ _ _ Hans). eexists _, _. split; [reflexivity|]. split; [reflexivity|].
  intros W W0 b' Hb' Hp' HW. destruct (resolve_ask W W0 s i x a hw (if_Address y) mac b' Hby Ld Hon Hc Hnew Hroom Hty Lmac Hb' Hp' HW) as (s' & Hres & Hout & Hnet & Hkn). exists s'. split; [exact Hres|]. split; [exact Hout|].
  intros W2. destruct (known_resolves W2 s' i x (if_Address y) mac) as [c2 Hr]; [rewrite Hnet; apply Hby|apply Hby|done|done|]. exists (with_cache s' c2). by split.
Qed.
Lemma arp_resolves_witness : exists req, forall b, buf_ok b -> packet b = req ->
  exists r' rep, Link_HandlePacket no_wait 1 b (host_of ip_b mac_b 4000 no_cache) = Ok 0 r' /\ st_out r' = [Sent 1 rep] /\
    forall b', buf_ok b' -> packet b' = rep -> exists s', HWCache_Resolve (fun _ _ => do _ <- Link_HandlePacket no_wait 1 b'; ret 1) 7 ip_b (host_of ip_a mac_a 5000 no_cache) = Ok mac_b s' /\ st_out s' = [Sent 1 req].
Proof.
  destruct (arp_resolves (host_of ip_a mac_a 5000 no_cache) 7 (iface_of ip_a) 1 mac_a ip_b) as (req & H); [by apply host_by|by apply ip_ok|by split|apply no_cache_ok|intros ca e Hca; by apply not_elem_of_nil in Hca|done|done|]. exists req.
  intros b Hb Hp. destruct (H no_wait (host_of ip_b mac_b 4000 no_cache) 1 7 (iface_of ip_b) mac_b b ltac:(by apply host_ok) eq_refl eq_refl eq_refl eq_refl Hb Hp) as (r' & rep & H1 & H2 & H3). exists r', rep. split; [exact H1|]. split; [exact H2|].
  intros b' Hb' Hp'. destruct (H3 (fun _ _ => do _ <- Link_HandlePacket no_wait 1 b'; ret 1) no_wait b' Hb' Hp') as (s' & H4 & H5 & _); [done|]. by exists s'.
Defined.
End NetTheorems.
