(* ===== verification/UdpProps.v ===== *)
(** * Local ports of UDP channels

    Channels are opened, bound, used and closed in any order: the list of channels stays a list of exactly the open ones, and
    no two channels of one interface ever hold the same port. *)
From S2P Require Import Prelude Chains NetAddr Routing NetBuf Net Udp NetProps.

Local Open Scope Z_scope.
Local Open Scope monad_scope.
Implicit Types (s r : stack) (u : udp_state).

(** ** The invariant *)
Abbreviation unext u := (fun c => ch_Next <$> u_chans u !! c).
Record udp_inv u : Prop := {
  ui_list : exists l, chain (unext u) (gpUDP_Channels u) l /\ NoDup l /\ (forall c, c ∈ l <-> is_Some (u_chans u !! c));
  ui_next : 0 < u_next u /\ forall c, is_Some (u_chans u !! c) -> c < u_next u;
  ui_ports : forall c d x y, u_chans u !! c = Some x -> u_chans u !! d = Some y -> c <> d -> LocalPort x <> 0 -> LocalPort x = LocalPort y -> ch_Interface x <> ch_Interface y }.

(** What the invariant sees of a channel. *)
Definition view (x : tUDPChannel) : Z * Z * Z := (ch_Next x, ch_Interface x, LocalPort x).
Record same u u' : Prop := { sm_head : gpUDP_Channels u' = gpUDP_Channels u; sm_view : forall c, view <$> u_chans u' !! c = view <$> u_chans u !! c; sm_next : u_next u <= u_next u' }.
#[export] Instance same_preorder : PreOrder same.
Proof. split; [split; done|]. intros u1 u2 u3 [H1 H2 H3] [H4 H5 H6]. split; [congruence|intros c; by rewrite H5|lia]. Qed.
Lemma view_some u u' c x : same u u' -> u_chans u' !! c = Some x -> exists y, u_chans u !! c = Some y /\ view x = view y.
Proof. intros [_ H _] Hx. specialize (H c). rewrite Hx in H. destruct (u_chans u !! c) as [y|]; [|done]. cbn in H. exists y. split; [done|]. congruence. Qed.
Lemma uview_next u u' c : same u u' -> unext u' c = unext u c.
Proof. intros [_ H _]. specialize (H c). cbn. destruct (u_chans u' !! c), (u_chans u !! c); cbn in *; try done. unfold view in H. congruence. Qed.
Lemma view_is_some u u' c : same u u' -> is_Some (u_chans u' !! c) <-> is_Some (u_chans u !! c).
Proof. intros [_ H _]. specialize (H c). by rewrite <- (fmap_is_Some view), H, fmap_is_Some. Qed.

Lemma inv_same u u' : udp_inv u -> same u u' -> udp_inv u'.
Proof.
  intros [(l & H1 & H2 & H3) [H4 H4'] H5] Hs. split.
  - exists l. split; [|split; [done|] ].
    + rewrite (sm_head _ _ Hs). eapply lseg_ext; [exact H1|]. intros c _. by apply uview_next.
    + intros c. by rewrite H3, (view_is_some u u' c Hs).
  - pose proof (sm_next _ _ Hs). split; [lia|]. intros c Hc%(view_is_some u u' c Hs). specialize (H4' c Hc). lia.
  - intros c d x y Hx Hy Hne Hp Heq. destruct (view_some u u' c x Hs Hx) as (x0 & Hx0 & Ex). destruct (view_some u u' d y Hs Hy) as (y0 & Hy0 & Ey). unfold view in *.
    injection Ex as E1 E2 E3. injection Ey as E4 E5 E6. rewrite E2, E5. eapply H5; [exact Hx0|exact Hy0|done|congruence|congruence].
Qed.

(** ** Steps that leave the list and the ports alone *)
Definition quiet {A} (c : SM A) : Prop := forall s a s', c s = Ok a s' -> u_chans (st_udp s') = u_chans (st_udp s) /\ gpUDP_Channels (st_udp s') = gpUDP_Channels (st_udp s) /\ u_next (st_udp s) <= u_next (st_udp s').
Definition keeps {A} (c : SM A) : Prop := forall s a s', c s = Ok a s' -> same (st_udp s) (st_udp s').

Lemma sbind_inv {A B} (c : SM A) (k : A -> SM B) s b s' : bind c k s = Ok b s' -> exists a s1, c s = Ok a s1 /\ k a s1 = Ok b s'.
Proof. unfold bind. destruct (c s) as [a s1|]; [|done]. intros H. by exists a, s1. Qed.
Lemma quiet_keeps {A} (c : SM A) : quiet c -> keeps c.
Proof. intros H s a s' Hr. destruct (H s a s' Hr) as (E1 & E2 & E3). split; [done|by rewrite E1|done]. Qed.
Lemma uquiet_bind {A B} (c : SM A) (k : A -> SM B) : quiet c -> (forall a, quiet (k a)) -> quiet (bind c k).
Proof. intros Hc Hk s b s' (a & s1 & H1 & H2)%sbind_inv. destruct (Hc _ _ _ H1) as (E1 & E2 & E3), (Hk a _ _ _ H2) as (E4 & E5 & E6). rewrite E4, E5. split; [done|]. split; [done|lia]. Qed.
Lemma keeps_bind {A B} (c : SM A) (k : A -> SM B) : keeps c -> (forall a, keeps (k a)) -> keeps (bind c k).
Proof. intros Hc Hk s b s' (a & s1 & H1 & H2)%sbind_inv. transitivity (st_udp s1); [by eapply Hc|by eapply Hk]. Qed.
Lemma quiet_pure {A} (c : SM A) : (forall s a s', c s = Ok a s' -> st_udp s' = st_udp s) -> quiet c.
Proof. intros H s a s' Hr. by rewrite (H s a s' Hr). Qed.
Lemma uquiet_ret {A} (a : A) : quiet (ret a).
Proof. apply quiet_pure. intros s b s' H. unfold ret in H. congruence. Qed.
Lemma uquiet_halt {A} e : quiet (halt e : SM A).
Proof. intros s a s' H. discriminate H. Qed.
Lemma quiet_sopt {A} (o : option A) : quiet (sopt o).
Proof. destruct o; [apply uquiet_ret|apply uquiet_halt]. Qed.
Lemma quiet_on_net {A} (c : NM A) : quiet (on_net c).
Proof. apply quiet_pure. intros s a s'. unfold on_net. destruct (c (st_net s)); [|done]. intros [= <- <-]. done. Qed.
Lemma quiet_udp_of : quiet udp_of.
Proof. apply quiet_pure. intros s a s' H. unfold udp_of in H. rewrite bind_get in H. unfold ret in H. congruence. Qed.
Lemma quiet_chan c : quiet (chan_at c).
Proof. apply uquiet_bind; [apply quiet_udp_of|intros u; apply quiet_sopt]. Qed.
Lemma quiet_upacket p : quiet (upacket_at p).
Proof. apply uquiet_bind; [apply quiet_udp_of|intros u; apply quiet_sopt]. Qed.
Lemma quiet_put_upacket p x : quiet (put_upacket p x).
Proof. intros s a s' H. unfold put_upacket in H. rewrite udp_run in H. injection H as <- <-. cbn. split; [done|]. split; [done|lia]. Qed.
Lemma quiet_free_upacket p : quiet (free_upacket p).
Proof. intros s a s' H. unfold free_upacket in H. rewrite udp_run in H. injection H as <- <-. cbn. split; [done|]. split; [done|lia]. Qed.
Lemma quiet_new_upacket x : quiet (new_upacket x).
Proof. intros s a s' H. unfold new_upacket in H. rewrite udp_run in H. unfold ret, set_udp, bind in H. injection H as <- <-. cbn. split; [done|]. split; [done|lia]. Qed.
Lemma quiet_ports l : quiet (set_ports l).
Proof. intros s a s' H. unfold set_ports in H. rewrite udp_run in H. injection H as <- <-. cbn. split; [done|]. split; [done|lia]. Qed.
Lemma quiet_uerrno e : quiet (set_uerrno e).
Proof. intros s a s' H. unfold set_uerrno in H. rewrite udp_run in H. injection H as <- <-. cbn. split; [done|]. split; [done|lia]. Qed.

Create HintDb quiet.
#[export] Hint Resolve uquiet_ret uquiet_halt quiet_sopt quiet_on_net quiet_udp_of quiet_chan quiet_upacket quiet_put_upacket quiet_free_upacket quiet_new_upacket quiet_ports quiet_uerrno : quiet.
Ltac quiet := repeat first [ solve [eauto 2 with quiet] | apply uquiet_bind; [|intros ?] | match goal with |- quiet (if ?b then _ else _) => destruct b | |- quiet (match ?o with _ => _ end) => destruct o end ].

(** A channel replaced by one with the same place in the list. *)
Lemma put_same s c x y a s' : u_chans (st_udp s) !! c = Some x -> view y = view x -> put_chan c y s = Ok a s' -> same (st_udp s) (st_udp s').
Proof.
  intros Hx Hv H. unfold put_chan in H. rewrite udp_run in H. injection H as <- <-. cbn. split; cbn; [done| |lia]. intros d. destruct (decide (d = c)) as [->|Hne]; [rewrite lookup_insert_eq, Hx; cbn; by rewrite Hv|by rewrite lookup_insert_ne].
Qed.
Lemma chan_inv s c x s' : chan_at c s = Ok x s' -> u_chans (st_udp s) !! c = Some x /\ s' = s.
Proof. unfold chan_at. rewrite udp_run. destruct (u_chans (st_udp s) !! c); [|done]. unfold sopt, ret. intros [= -> ->]. done. Qed.
(** What keeps the list and the ports while the channel [c] is [x]. *)
Definition holds {A} c x (m : SM A) : Prop := forall s a s', u_chans (st_udp s) !! c = Some x -> m s = Ok a s' -> same (st_udp s) (st_udp s').
Lemma keeps_chan {A} c (k : tUDPChannel -> SM A) : (forall x, holds c x (k x)) -> keeps (bind (chan_at c) k).
Proof. intros Hk s b s' (x & s1 & [Hx ->]%chan_inv & H)%sbind_inv. by eapply Hk. Qed.
Lemma holds_bind {A B} c x (m : SM A) (k : A -> SM B) : quiet m -> (forall a, holds c x (k a)) -> holds c x (bind m k).
Proof. intros Hm Hk s b s' Hx (a & s1 & H1 & H2)%sbind_inv. destruct (Hm _ _ _ H1) as (E & _). transitivity (st_udp s1); [by eapply quiet_keeps|]. eapply Hk; [by rewrite E|exact H2]. Qed.
Lemma holds_end {A B} c x (m : SM A) (k : A -> SM B) : holds c x m -> (forall a, keeps (k a)) -> holds c x (bind m k).
Proof. intros Hm Hk s b s' Hx (a & s1 & H1 & H2)%sbind_inv. transitivity (st_udp s1); [by eapply Hm|by eapply Hk]. Qed.
Lemma holds_put c x y : view y = view x -> holds c x (put_chan c y).
Proof. intros Hv s a s' Hx H. by eapply put_same. Qed.
Lemma holds_keeps {A} c x (m : SM A) : keeps m -> holds c x m.
Proof. intros Hm s a s' _ H. by eapply Hm. Qed.
Lemma holds_quiet {A} c x (m : SM A) : quiet m -> holds c x m.
Proof. intros Hm. by apply holds_keeps, quiet_keeps. Qed.
Ltac holds := repeat first
  [ solve [apply holds_put; done] | match goal with |- holds _ _ (put_chan _ (if ?b then _ else _)) => destruct b end | solve [apply holds_quiet; quiet] | solve [apply quiet_keeps; quiet] | solve [apply holds_keeps; eauto 2] | apply holds_bind; [solve [quiet]|intros ?] | apply holds_end; [|intros ?] | apply keeps_chan; intros ?
  | match goal with |- holds _ _ (if ?b then _ else _) => destruct b | |- holds _ _ (match ?o with _ => _ end) => destruct o | |- keeps (match ?o with _ => _ end) => destruct o | |- keeps (if ?b then _ else _) => destruct b end | apply keeps_bind; [|intros ?] ].

Lemma holds_enqueue c x p : holds c x (enqueue c x p).
Proof. unfold enqueue. holds. Qed.
Lemma keeps_scan fuel : forall c i ty A B, keeps (UDP_int_ScanList fuel c i ty A B).
Proof.
  induction fuel as [|fuel IH]; intros c i ty A B; cbn [UDP_int_ScanList]; (destruct (c =? 0); [apply quiet_keeps, uquiet_ret|]); [apply quiet_keeps, uquiet_halt|]. holds. apply holds_enqueue.
Qed.
Lemma keeps_receive i A L B : keeps (UDP_GetPacket i A L B).
Proof. unfold UDP_GetPacket. holds. apply keeps_scan. Qed.
Lemma keeps_wait c f : keeps (UDP_Channel_WaitForPacket c f).
Proof. unfold UDP_Channel_WaitForPacket. holds.
Qed.
Lemma keeps_read c n f : keeps (UDP_Channel_Read c n f).
Proof. unfold UDP_Channel_Read. apply keeps_chan. intros x. apply holds_keeps. destruct (LocalPort x =? 0); [holds|]. apply keeps_bind; [apply keeps_wait|]. intros [p|]; holds. Qed.
Lemma keeps_recvfrom c n : keeps (ioctl_recvfrom c n).
Proof. unfold ioctl_recvfrom. apply keeps_bind; [apply keeps_wait|]. intros [p|]; holds. Qed.
Lemma keeps_remoteport c d : keeps (ioctl_remoteport c d).
Proof. unfold ioctl_remoteport. holds. Qed.
Lemma keeps_remotemask c d : keeps (ioctl_remotemask c d).
Proof. unfold ioctl_remotemask. holds. Qed.
Lemma keeps_remoteaddr c d : keeps (ioctl_remoteaddr c d).
Proof. unfold ioctl_remoteaddr. holds. Qed.

(** ** Claiming a port *)
(** Another channel, of the same interface or of any, that holds the port. *)
Definition holder u c i port d (y : tUDPChannel) : Prop := u_chans u !! d = Some y /\ d <> c /\ (ch_Interface y = 0 \/ ch_Interface y = i) /\ LocalPort y = port.
Lemma claimed_run s c i port l : forall fuel p, chain (unext (st_udp s)) p l -> (length l <= fuel)%nat ->
  exists b : bool, claimed fuel p c i port s = Ok b s /\ (b = true <-> exists d y, d ∈ l /\ holder (st_udp s) c i port d y).
Proof.
  induction l as [|d l IH]; intros fuel p Hl Hf.
  - hnf in Hl. subst p. exists false. split; [by destruct fuel|]. split; [done|]. intros (d & y & Hin & _). by apply not_elem_of_nil in Hin.
  - destruct Hl as (-> & Hnz & n & Hn & Hl). destruct fuel as [|fuel]; [cbn in Hf; lia|]. cbn [claimed]. rewrite (proj2 (Z.eqb_neq _ 0)) by done. destruct (u_chans (st_udp s) !! d) as [y|] eqn:Ey; [|done]. injection Hn as Hn.
    rewrite (bind_Ok _ _ _ _ _ (chan_run s d y Ey)), Hn. assert (length l <= fuel)%nat as Hf' by (cbn in Hf; lia). destruct (IH fuel n Hl Hf') as (b & Hb & Hiff).
    assert (((d =? c) || negb (ch_Interface y =? 0) && negb (ch_Interface y =? i) || negb (LocalPort y =? port)) = false <-> holder (st_udp s) c i port d y) as Hd.
    { unfold holder. rewrite Ey. destruct (Z.eqb_spec d c), (Z.eqb_spec (ch_Interface y) 0), (Z.eqb_spec (ch_Interface y) i), (Z.eqb_spec (LocalPort y) port); cbn; naive_solver. }
    destruct (_ || negb (LocalPort y =? port)).
    + exists b. split; [done|]. rewrite Hiff. split; intros (e & z & Hin & He); exists e, z; (split; [|done]); [apply elem_of_cons; by right|]. apply elem_of_cons in Hin as [->|Hin]; [|done].
      destruct He as (E & He). assert (z = y) as -> by congruence. destruct Hd as [_ Hd]. discriminate Hd. by split.
    + exists true. split; [done|]. split; [|done]. intros _. exists d, y. split; [apply elem_of_cons; by left|by apply Hd].
Qed.
Definition rebound u c port (x : tUDPChannel) : udp_state := MkUdp (gpUDP_Channels u) (<[c := with_local port x]> (u_chans u)) (u_packets u) (gUDP_Ports u) (u_next u) (u_errno u).
Lemma claim_run s c x port : udp_inv (st_udp s) -> u_chans (st_udp s) !! c = Some x ->
  ((exists d y, holder (st_udp s) c (ch_Interface x) port d y) /\ UDP_int_ClaimPort c port s = Ok 1 s) \/
  ((forall d y, ~ holder (st_udp s) c (ch_Interface x) port d y) /\ UDP_int_ClaimPort c port s = Ok 0 (with_udp s (rebound (st_udp s) c port x))).
Proof.
  intros [(l & H1 & H2 & H3) _ _] Hx. unfold UDP_int_ClaimPort. rewrite (bind_Ok _ _ _ _ _ (chan_run s c x Hx)), udp_run.
  assert (length l <= size (u_chans (st_udp s)))%nat as Hsz by (apply nodup_size; [done|]; intros d Hd; by apply H3). destruct (claimed_run s c (ch_Interface x) port l _ _ H1 Hsz) as (b & Hb & Hiff). rewrite (bind_Ok _ _ _ _ _ Hb). destruct b.
  - left. split; [|done]. destruct Hiff as [Hd _]. destruct (Hd eq_refl) as (d & y & _ & Hh). by exists d, y.
  - right. split; [|done]. intros d y Hh. destruct Hiff as [_ Hd]. discriminate Hd. exists d, y. split; [|done]. apply H3. rewrite (proj1 Hh). by eexists.
Qed.
Lemma rebound_inv u c x port : udp_inv u -> u_chans u !! c = Some x -> (forall d y, ~ holder u c (ch_Interface x) port d y) -> udp_inv (rebound u c port x).
Proof.
  intros [(l & H1 & H2 & H3) [H4 H4'] H5] Hx Hno. assert (forall d, unext (rebound u c port x) d = unext u d) as En.
  { intros d. cbn. destruct (decide (d = c)) as [->|Hne]; [by rewrite lookup_insert_eq, Hx|by rewrite lookup_insert_ne]. }
  assert (forall d, is_Some (u_chans (rebound u c port x) !! d) <-> is_Some (u_chans u !! d)) as Ed by (intros d; by rewrite <- (fmap_is_Some ch_Next), (En d), fmap_is_Some).
  split.
  - exists l. split; [eapply lseg_ext; [exact H1|]; intros d _; apply En|]. split; [done|]. intros d. by rewrite H3, Ed.
  - split; [done|]. intros d Hd%Ed. by apply H4'.
  - intros d e y z Hy Hz Hne Hp Heq. cbn [rebound u_chans] in Hy, Hz. apply lookup_insert_Some in Hy as [ [<- <-]|[Hdc Hy] ]; apply lookup_insert_Some in Hz as [ [<- <-]|[Hec Hz] ]; cbn in *.
    + done.
    + intros E. apply (Hno e z). split; [done|]. split; [done|]. split; [by right|done].
    + intros E. apply (Hno d y). split; [done|]. split; [done|]. split; [by right|congruence].
    + by apply (H5 d e y z).
Qed.

(** A step that keeps the invariant, whatever it returns. *)
Definition stable {A} (c : SM A) : Prop := forall s a s', udp_inv (st_udp s) -> c s = Ok a s' -> udp_inv (st_udp s').
Lemma keeps_stable {A} (c : SM A) : keeps c -> stable c.
Proof. intros Hc s a s' Hi H. eapply inv_same; [exact Hi|by eapply Hc]. Qed.
Lemma quiet_stable {A} (c : SM A) : quiet c -> stable c.
Proof. intros Hc. by apply keeps_stable, quiet_keeps. Qed.
Lemma stable_bind {A B} (c : SM A) (k : A -> SM B) : stable c -> (forall a, stable (k a)) -> stable (bind c k).
Proof. intros Hc Hk s b s' Hi (a & s1 & H1 & H2)%sbind_inv. eapply Hk; [by eapply Hc|exact H2]. Qed.
Lemma stable_claim c port : stable (UDP_int_ClaimPort c port).
Proof.
  intros s rv s' Hi H. destruct (u_chans (st_udp s) !! c) as [x|] eqn:Hx; [|unfold UDP_int_ClaimPort, bind in H; unfold chan_at in H; rewrite udp_run, Hx in H; discriminate H].
  destruct (claim_run s c x port Hi Hx) as [ [_ E]|[Hno E] ]; rewrite E in H; injection H as <- <-; [done|]. cbn [st_udp with_udp]. by apply rebound_inv.
Qed.
Lemma stable_ports n : forall c base, stable (port_loop n c base).
Proof.
  induction n as [|n IH]; intros c base; cbn [port_loop]; [apply quiet_stable; quiet|]. apply stable_bind; [apply quiet_stable; quiet|]. intros u. apply stable_bind; [apply quiet_stable; quiet|]. intros w. destruct (w =? _); [apply IH|].
  apply stable_bind; [apply quiet_stable; quiet|]. intros l. apply stable_bind; [apply quiet_stable; quiet|]. intros _. apply stable_bind; [apply stable_claim|]. intros rv. destruct (rv =? 0); [apply quiet_stable; quiet|apply IH].
Qed.
Lemma stable_localport c d root : stable (ioctl_localport c d root).
Proof.
  unfold ioctl_localport. destruct d as [port|]; [|apply quiet_stable; quiet]. destruct (_ && _); [apply quiet_stable; quiet|]. apply stable_bind.
  - destruct (port =? 0); [|apply stable_claim]. apply stable_bind; [apply stable_ports|]. intros p. apply quiet_stable; quiet.
  - intros rv. apply quiet_stable. quiet.
Qed.

(** ** Opening and closing *)
Lemma stable_init i : stable (UDP_Channel_Init i).
Proof.
  intros s c s' [(l & H1 & H2 & H3) [H4 H4'] H5] H. unfold UDP_Channel_Init in H. rewrite udp_run in H. set (u := st_udp s) in *. unfold bind, set_udp, ret in H. injection H as <- <-. cbn [st_udp].
  assert (u_chans u !! u_next u = None) as Hn by (apply eq_None_not_Some; intros Hs; specialize (H4' _ Hs); lia). assert (u_next u ∉ l) as Hl by (intros [? Hs]%H3; congruence). split; cbn [u_chans gpUDP_Channels u_next].
  - exists (u_next u :: l). split; [|split; [by apply NoDup_cons|] ].
    + split; [done|]. split; [lia|]. exists (gpUDP_Channels u). rewrite lookup_insert_eq. split; [done|]. eapply lseg_ext; [exact H1|]. intros d Hd. cbn. by rewrite lookup_insert_ne by (intros <-; done).
    + intros d. rewrite elem_of_cons, H3, lookup_insert_is_Some. destruct (decide (u_next u = d)); naive_solver.
  - split; [lia|]. intros d. rewrite lookup_insert_is_Some. intros [<- |[_ Hd] ]; [lia|]. specialize (H4' d Hd). lia.
  - intros d e y z Hy Hz Hne Hp Heq. apply lookup_insert_Some in Hy as [ [<- <-]|[Hdc Hy] ]; [done|]. apply lookup_insert_Some in Hz as [ [<- <-]|[Hec Hz] ]; [done|]. by apply (H5 d e y z).
Qed.

Lemma gone_inv u u' l : udp_inv u -> chain (unext u') (gpUDP_Channels u') l -> NoDup l -> (forall d, d ∈ l <-> is_Some (u_chans u' !! d)) -> (forall d y, u_chans u' !! d = Some y -> exists x, u_chans u !! d = Some x /\ ch_Interface y = ch_Interface x /\ LocalPort y = LocalPort x) ->
  u_next u <= u_next u' -> udp_inv u'.
Proof.
  intros [_ [H4 H4'] H5] H1 H2 H3 Hold Hn. split; [by exists l| |].
  - split; [lia|]. intros d [y Hy]. destruct (Hold d y Hy) as (x & Hx & _). specialize (H4' d (mk_is_Some _ _ Hx)). lia.
  - intros d e y z Hy Hz Hne Hp Heq. destruct (Hold d y Hy) as (y0 & Hy0 & E1 & E2), (Hold e z Hz) as (z0 & Hz0 & E3 & E4). rewrite E1, E3. apply (H5 d e y0 z0); congruence.
Qed.
Lemma find_prev_run s c k prev l1 : forall fuel p, chain (unext (st_udp s)) p (l1 ++ prev :: c :: k) -> NoDup (l1 ++ prev :: c :: k) -> (length l1 < fuel)%nat -> find_prev fuel p c s = Ok (Some prev) s.
Proof.
  induction l1 as [|d l1 IH]; intros fuel p Hl Hnd Hf; (destruct fuel as [|fuel]; [lia|]); destruct Hl as (-> & Hnz & n & Hn & Hl); cbn [find_prev].
  - destruct (u_chans (st_udp s) !! prev) as [y|] eqn:Ey; [|done]. injection Hn as Hn. rewrite (bind_Ok _ _ _ _ _ (chan_run s prev y Ey)), Hn. destruct Hl as (-> & Hc & _). rewrite (proj2 (Z.eqb_neq c 0)) by done. by rewrite Z.eqb_refl.
  - destruct (u_chans (st_udp s) !! d) as [y|] eqn:Ey; [|done]. injection Hn as Hn. rewrite (bind_Ok _ _ _ _ _ (chan_run s d y Ey)), Hn. cbn [app] in Hnd. apply NoDup_cons in Hnd as [Hd Hnd].
    assert (n <> 0 /\ n <> c) as [Hn0 Hnc].
    { destruct l1 as [|e l1]; destruct Hl as (-> & Hnz' & _); (split; [done|]); intros ->.
      - apply NoDup_cons in Hnd as [Hin _]. apply Hin, elem_of_cons. by left.
      - cbn [app] in Hnd. apply NoDup_cons in Hnd as [Hin _]. apply Hin, elem_of_app. right. apply elem_of_cons. right. apply elem_of_cons. by left. }
    rewrite (proj2 (Z.eqb_neq n 0)), (proj2 (Z.eqb_neq n c)) by done. apply IH; [done|done|cbn in Hf; lia].
Qed.
Lemma quiet_free_queue fuel : forall p, quiet (free_queue fuel p).
Proof. induction fuel as [|fuel IH]; intros p; cbn [free_queue]; quiet. Qed.

(** The list without the channel. *)
Definition unlinked u (x : tUDPChannel) l1 : udp_state :=
  if bool_decide (l1 = []) then MkUdp (ch_Next x) (u_chans u) (u_packets u) (gUDP_Ports u) (u_next u) (u_errno u)
  else MkUdp (gpUDP_Channels u) (match u_chans u !! final l1 with Some y => <[final l1 := with_next (ch_Next x) y]> (u_chans u) | None => u_chans u end) (u_packets u) (gUDP_Ports u) (u_next u) (u_errno u).
Definition gone u c : udp_state := MkUdp (gpUDP_Channels u) (delete c (u_chans u)) (u_packets u) (gUDP_Ports u) (u_next u) (u_errno u).
Lemma unlinked_inv u u2 c x l1 k : udp_inv u -> u_chans u !! c = Some x -> chain (unext u) (gpUDP_Channels u) (l1 ++ c :: k) -> NoDup (l1 ++ c :: k) -> (forall d, d ∈ l1 ++ c :: k <-> is_Some (u_chans u !! d)) ->
  u_chans u2 = u_chans (unlinked u x l1) -> gpUDP_Channels u2 = gpUDP_Channels (unlinked u x l1) -> u_next u <= u_next u2 -> udp_inv (gone u2 c).
Proof.
  intros Hi Hx Hc Hnd Hdom E1 E2 E3. apply NoDup_app in Hnd as (Hn1 & Hn2 & [Hn3 Hn4]%NoDup_cons). apply lseg_app in Hc as (p & Hl1 & -> & Hc0 & n & Hn & Hk). rewrite Hx in Hn. injection Hn as <-.
  assert (forall d, d ∈ l1 -> d <> c) as Hdc by (intros d Hd ->; apply (Hn2 c Hd), elem_of_cons; by left). assert (forall d, u_chans u2 !! d = if decide (l1 <> [] /\ d = final l1) then with_next (ch_Next x) <$> u_chans u !! d else u_chans u !! d) as Eu.
  { intros d. rewrite E1. unfold unlinked. destruct (decide (l1 = [])) as [->|Hl]; [rewrite bool_decide_true by done; cbn [u_chans]; by rewrite decide_False by (intros [? _]; done)|]. rewrite bool_decide_false by done. cbn [u_chans].
    destruct (u_chans u !! final l1) as [y|] eqn:Ey.
    - destruct (decide (d = final l1)) as [->|Hne]; [rewrite decide_True by done; by rewrite lookup_insert_eq, Ey|rewrite decide_False by tauto; by rewrite lookup_insert_ne].
    - destruct (decide (l1 <> [] /\ d = final l1)) as [ [_ ->]|]; [by rewrite Ey|done]. }
  apply (gone_inv u (gone u2 c) (l1 ++ k)); [done| | | | |cbn; lia].
  - cbn [gone gpUDP_Channels u_chans]. rewrite E2. assert (forall d, d ∈ l1 -> d <> final l1 -> ch_Next <$> delete c (u_chans u2) !! d = ch_Next <$> u_chans u !! d) as E4.
    { intros d Hd Hne. rewrite lookup_delete_ne, Eu by (intros ->; by apply (Hdc d)). by rewrite decide_False by tauto. }
    assert (l1 <> [] -> ch_Next <$> delete c (u_chans u2) !! final l1 = Some (ch_Next x)) as E5.
    { intros Hl. pose proof (final_in l1 Hl) as Hin. rewrite lookup_delete_ne, Eu by (intros ->; by apply (Hdc (final l1))). rewrite decide_True by done. destruct (proj1 (Hdom (final l1)) ltac:(apply elem_of_app; by left)) as [y ->]. done. }
    pose proof (lseg_relink (nxt' := fun d => ch_Next <$> delete c (u_chans u2) !! d) _ _ _ (ch_Next x) Hl1 Hn1 E4 E5) as Hr.
    apply lseg_app. exists (ch_Next x). split.
    + unfold unlinked. destruct l1 as [|d0 l1]; [done|]. rewrite bool_decide_false by done. exact Hr.
    + eapply lseg_ext; [exact Hk|]. intros d Hd. cbn. assert (d ∉ l1) as Hd1 by (intros Hin; apply (Hn2 d Hin), elem_of_cons; by right). rewrite lookup_delete_ne, Eu by (intros <-; done).
      rewrite decide_False by (intros [Hl ->]; by apply Hd1, final_in). done.
  - apply NoDup_app. split; [done|]. split; [|done]. intros d Hd Hin. apply (Hn2 d Hd), elem_of_cons. by right.
  - intros d. cbn. assert (is_Some (u_chans u2 !! d) <-> is_Some (u_chans u !! d)) as Es by (rewrite Eu; destruct (decide _); [apply fmap_is_Some|done]). rewrite lookup_delete_is_Some, Es, <- Hdom, !elem_of_app, elem_of_cons. specialize (Hdc d). split; [|naive_solver].
    intros [Hd|Hd]; (split; [|tauto]); [intros <-; by apply Hdc|intros <-; done].
  - intros d y Hy. cbn in Hy. apply lookup_delete_Some in Hy as [_ Hy]. rewrite Eu in Hy. destruct (decide _); [|by exists y]. apply fmap_Some in Hy as (z & Hz & ->). by exists z.
Qed.
Lemma unlink_run s c x l1 k : udp_inv (st_udp s) -> u_chans (st_udp s) !! c = Some x -> chain (unext (st_udp s)) (gpUDP_Channels (st_udp s)) (l1 ++ c :: k) -> NoDup (l1 ++ c :: k) -> (forall d, d ∈ l1 ++ c :: k <-> is_Some (u_chans (st_udp s) !! d)) ->
  (if gpUDP_Channels (st_udp s) =? c then set_udp (MkUdp (ch_Next x) (u_chans (st_udp s)) (u_packets (st_udp s)) (gUDP_Ports (st_udp s)) (u_next (st_udp s)) (u_errno (st_udp s)))
   else do p <- find_prev (size (u_chans (st_udp s))) (gpUDP_Channels (st_udp s)) c; match p with None => ret tt | Some p => do y <- chan_at p; put_chan p (with_next (ch_Next x) y) end) s = Ok tt (with_udp s (unlinked (st_udp s) x l1)).
Proof.
  intros Hi Hx Hc Hnd Hdom. destruct l1 as [|d0 l1 _] using rev_ind; [destruct Hc as (-> & _); by rewrite Z.eqb_refl|]. pose proof Hc as Hc0. rewrite <- app_assoc in Hc, Hnd, Hdom. cbn [app] in Hc, Hnd, Hdom.
  assert (gpUDP_Channels (st_udp s) <> c) as Hne.
  { intros E. rewrite E in Hc. destruct l1 as [|e l1]; cbn [app] in Hnd; destruct Hc as (<- & _); apply NoDup_cons in Hnd as [Hin _]; apply Hin; [apply elem_of_cons; by left|]. apply elem_of_app. right. apply elem_of_cons. right. apply elem_of_cons. by left. }
  rewrite (proj2 (Z.eqb_neq _ c)) by done. assert (length (l1 ++ d0 :: c :: k) <= size (u_chans (st_udp s)))%nat as Hsz by (apply nodup_size; [done|]; intros d Hd; by apply Hdom). rewrite length_app in Hsz. cbn in Hsz.
  rewrite (bind_Ok _ _ _ _ _ (find_prev_run s c k d0 l1 (size (u_chans (st_udp s))) _ Hc Hnd ltac:(lia))). destruct (proj1 (Hdom d0) ltac:(apply elem_of_app; right; apply elem_of_cons; by left)) as [y Hy]. rewrite (bind_Ok _ _ _ _ _ (chan_run s d0 y Hy)).
  unfold unlinked. rewrite bool_decide_false by (by destruct l1). rewrite final_snoc, Hy. done.
Qed.
Lemma stable_close c : stable (UDP_Channel_Close c).
Proof.
  intros s a s' Hi. unfold UDP_Channel_Close. intros (x & s1 & [Hx ->]%chan_inv & H)%sbind_inv. rewrite udp_run in H. pose proof Hi as [(l & H1 & H2 & H3) _ _]. assert (c ∈ l) as (l1 & k & ->)%list_elem_of_split by (apply H3; by eexists).
  rewrite (bind_Ok _ _ _ _ _ (unlink_run s c x l1 k Hi Hx H1 H2 H3)), udp_run in H. apply sbind_inv in H as (t & s2 & Hq & H). destruct (quiet_free_queue _ _ _ _ _ Hq) as (E1 & E2 & E3). rewrite udp_run in H. injection H as <- <-. cbn [st_udp].
  apply (unlinked_inv (st_udp s) (st_udp s2) c x l1 k Hi Hx H1 H2 H3); [exact E1|exact E2|]. cbn in E3. unfold unlinked in E3. destruct (bool_decide _); exact E3.
Qed.

(** ** Histories *)
Inductive udp_op :=
  | OpInit (Interface : Z) | OpLocalPort (chan : Z) (Data : option Z) (root : bool) | OpRemotePort (chan : Z) (Data : option Z) | OpRemoteMask (chan : Z) (Data : option Z) | OpRemoteAddr (chan : Z) (Data : list Z)
  | OpPacket (Interface : Z) (Address : list Z) (Length : Z) (Buffer : list Z) | OpRead (chan Length Flags : Z) | OpRecvFrom (chan buflen : Z) | OpClose (chan : Z).
Definition run_op (o : udp_op) : SM unit :=
  match o with
  | OpInit i => do _ <- UDP_Channel_Init i; ret tt
  | OpLocalPort c d root => do _ <- ioctl_localport c d root; ret tt
  | OpRemotePort c d => do _ <- ioctl_remoteport c d; ret tt
  | OpRemoteMask c d => do _ <- ioctl_remotemask c d; ret tt
  | OpRemoteAddr c d => do _ <- ioctl_remoteaddr c d; ret tt
  | OpPacket i A L B => UDP_GetPacket i A L B
  | OpRead c n f => do _ <- UDP_Channel_Read c n f; ret tt
  | OpRecvFrom c n => do _ <- ioctl_recvfrom c n; ret tt
  | OpClose c => UDP_Channel_Close c
  end.
Inductive udp_reach s : stack -> Prop :=
  | reach_start : udp_reach s s
  | reach_step s1 o s2 : udp_reach s s1 -> run_op o s1 = Ok tt s2 -> udp_reach s s2.
Lemma stable_op o : stable (run_op o).
Proof.
  destruct o; cbn [run_op]; lazymatch goal with |- stable (bind _ _) => apply stable_bind; [|intros ?; apply quiet_stable; quiet] | _ => idtac end.
  - apply stable_init.
  - apply stable_localport.
  - apply keeps_stable, keeps_remoteport.
  - apply keeps_stable, keeps_remotemask.
  - apply keeps_stable, keeps_remoteaddr.
  - apply keeps_stable, keeps_receive.
  - apply keeps_stable, keeps_read.
  - apply keeps_stable, keeps_recvfrom.
  - apply stable_close.
Qed.
Definition udp_start s : Prop := gpUDP_Channels (st_udp s) = 0 /\ u_chans (st_udp s) = ∅ /\ 0 < u_next (st_udp s).
Lemma udp_start_inv s : udp_start s -> udp_inv (st_udp s).
Proof.
  intros (H1 & H2 & H3). split.
  - exists []. rewrite H1, H2. split; [done|]. split; [apply NoDup_nil_2|]. intros c. rewrite lookup_empty. split; [by intros ?%not_elem_of_nil|by intros [? ?] ].
  - split; [done|]. intros c. rewrite H2, lookup_empty. by intros [? ?].
  - intros c d x y. by rewrite H2, lookup_empty.
Qed.
Lemma udp_reach_inv s s' : udp_start s -> udp_reach s s' -> udp_inv (st_udp s').
Proof. intros Hs. induction 1 as [|s1 o s2 _ IH Ho]; [by apply udp_start_inv|]. by eapply stable_op. Qed.

(** A host without channels. *)
Definition quiet_host : stack :=
  with_udp (host_of ip_a mac_a 0 no_cache) (MkUdp 0 ∅ ∅ (replicate 2048 0) 1 0).
Lemma quiet_host_start : udp_start quiet_host.
Proof. done. Qed.
Fixpoint run_ops (l : list udp_op) : SM unit := match l with [] => ret tt | o :: l => run_op o;;; run_ops l end.
Definition after (l : list udp_op) : stack := match run_ops l quiet_host with Ok _ s => s | Stop _ => quiet_host end.
Lemma run_reach l : forall s0 s s', udp_reach s0 s -> run_ops l s = Ok tt s' -> udp_reach s0 s'.
Proof.
  induction l as [|o l IH]; intros s0 s s' Hr H; cbn [run_ops] in H; [injection H as <-; exact Hr|]. apply sbind_inv in H as ([] & s1 & H1 & H2). eapply IH; [|exact H2]. by eapply reach_step.
Qed.

Module UdpTheorems.
(** C28: From a host without channels, whatever has been opened, bound, received, read and closed, two open channels of
    one interface never hold the same port; UDP_int_ClaimPort returns 1 exactly when another channel of the interface, or
    of all, holds the port, with nothing changed, and otherwise 0 with the port the channel's and nothing else changed
    (its doc comment has the result the other way round). *)
Theorem ports_exclusive s s' : udp_start s -> udp_reach s s' -> let u := st_udp s' in
  (forall c d x y, u_chans u !! c = Some x -> u_chans u !! d = Some y -> c <> d -> LocalPort x <> 0 -> LocalPort x = LocalPort y -> ch_Interface x <> ch_Interface y) /\
  (forall c x port, u_chans u !! c = Some x ->
    ((exists d y, holder u c (ch_Interface x) port d y) /\ UDP_int_ClaimPort c port s' = Ok 1 s') \/
    ((forall d y, ~ holder u c (ch_Interface x) port d y) /\ UDP_int_ClaimPort c port s' = Ok 0 (with_udp s' (rebound u c port x)))).
Proof. intros Hs Hr u. pose proof (udp_reach_inv s s' Hs Hr) as Hi. split; [apply Hi|]. intros c x port Hx. by apply claim_run. Qed.
Lemma ports_exclusive_witness : let s := after [OpInit 7; OpLocalPort 1 (Some 5000) true; OpInit 7] in udp_reach quiet_host s /\ UDP_int_ClaimPort 2 5000 s = Ok 1 s.
Proof.
  intros s. assert (udp_reach quiet_host s) as Hr by (eapply (run_reach [OpInit 7; OpLocalPort 1 (Some 5000) true; OpInit 7]); [apply reach_start|reflexivity]).
  split; [exact Hr|]. destruct (ports_exclusive _ _ quiet_host_start Hr) as [_ Hc]. destruct (Hc 2 (MkChannel 1 7 0 0 0 [] 0 0 0 false) 5000 eq_refl) as [ [_ E]|[Hno _] ]; [exact E|].
  destruct (Hno 1 (MkChannel 0 7 5000 0 0 [] 0 0 0 false)). split; [reflexivity|]. split; [discriminate|]. split; [right; reflexivity|reflexivity].
Defined.
End UdpTheorems.
