(* ===== verification/NetFindings.v ===== *)
(** * Findings in the packet path

    Concrete runs in which the code does not do what it means to: queues of UDP channels, ports, the cache of hardware
    addresses, ICMP. *)
From S2P Require Import Prelude Chains NetAddr Routing NetBuf Net Udp NetProps UdpProps.

Local Open Scope Z_scope.
Local Open Scope monad_scope.
Implicit Types (s : stack).

(** A datagram of one byte from port 9 to port 5000: the length field says 9. *)
Definition datagram (v : Z) : list Z := udp_header 9 5000 9 0 ++ [v] ++ replicate 16 0.
Definition deliver (v : Z) : udp_op := OpPacket 7 ip_b 9 (datagram v).
Definition bound : list udp_op := [OpInit 7; OpLocalPort 1 (Some 5000) true].
Definition stops {A} (e : sstop) (r : res stack sstop A) : bool := match r with Stop e' => match e, e' with SFault, (SFault | SNet NFault) => true | SBlock, SBlock => true | SAssert, SAssert => true | _, _ => false end | Ok _ _ => false end.
Definition first_byte (r : res stack sstop (list Z)) : option Z := match r with Ok l _ => get l 8 | Stop _ => None end.

Module NetFindings.
(** The pointer to the end of the queue is not moved: the third packet takes the place of the second. *)
Lemma third_packet_drops_second :
  let s := after (bound ++ [deliver 65; deliver 66; deliver 67]) in first_byte (UDP_Channel_Read 1 100 0 s) = Some 65 /\ first_byte ((UDP_Channel_Read 1 100 0;;; UDP_Channel_Read 1 100 0) s) = Some 67.
Proof. vm_compute. done. Qed.
(** After two packets and one read the pointer to the end is to a packet that has been freed; the next packet is written there. *)
Lemma stale_queue_end : stops SFault (run_op (deliver 67) (after (bound ++ [deliver 65; deliver 66; OpRead 1 100 0]))) = true.
Proof. vm_compute. done. Qed.
(** A channel of all interfaces takes a port that a channel of one interface holds; the other way round it is refused. *)
Lemma wildcard_takes_port :
  (match UDP_int_ClaimPort 2 5000 (after (bound ++ [OpInit 0])) with Ok rv _ => rv | Stop _ => -1 end = 0) /\
  (match UDP_int_ClaimPort 2 5000 (after [OpInit 0; OpLocalPort 1 (Some 5000) true; OpInit 7]) with Ok rv _ => rv | Stop _ => -1 end = 1).
Proof. vm_compute. done. Qed.
(** A port that was given out stays marked when its channel is closed. *)
Lemma closed_port_not_reused :
  match ioctl_localport 2 (Some 0) true (after [OpInit 7; OpLocalPort 1 (Some 0) true; OpClose 1; OpInit 7]) with Ok p _ => p | Stop _ => -1 end = UDP_ALLOC_BASE + 1.
Proof. vm_compute. done. Qed.
(** A channel of no interface cannot send: the interface is read before it is tested. *)
Lemma send_without_interface : stops SFault (UDP_SendPacketTo no_wait 1 4 ip_b 9 [1] 1 (after [OpInit 0; OpLocalPort 1 (Some 5000) true])) = true.
Proof. vm_compute. done. Qed.

(** A request that nobody answers in time leaves an entry with the address 0 that no later reply fills in. *)
Definition timed_out : Z -> Z -> SM Z := fun _ _ => ret 0.
Lemma timeout_is_forever :
  match (do m <- HWCache_Resolve timed_out 7 ip_b; HWCache_Set 4 ip_b mac_b;;; do m' <- HWCache_Resolve timed_out 7 ip_b; ret (m, m')) quiet_host with Ok p _ => p | Stop _ => ([], []) end = (cMAC_ZERO, cMAC_ZERO).
Proof. vm_compute. done. Qed.
(** A host that has changed its hardware address is not found again. *)
Lemma changed_address_ignored :
  match (HWCache_Set 4 ip_b mac_b;;; HWCache_Set 4 ip_b mac_a;;; HWCache_Resolve no_wait 7 ip_b) quiet_host with Ok m _ => m | Stop _ => [] end = mac_b.
Proof. vm_compute. done. Qed.
(** With all entries of the cache taken a new address is read through NULL. *)
Definition full_cache : tHWAddrCache := MkCache 64 (seqZ 1 64) (list_to_map ((fun i => (i, MkCached 0 0 [10; 0; 0; i] mac_a)) <$> seqZ 1 64)) 65.
Lemma full_cache_faults : stops SFault (HWCache_Resolve timed_out 7 ip_b (with_cache quiet_host full_cache)) = true.
Proof. vm_compute. done. Qed.

(** An echo reply with an identifier past the table of pings is written past its end. *)
Definition pings (n : nat) : stack := match set_pings (replicate n (7, false) ++ replicate (64 - n) (0, false)) quiet_host with Ok _ s => s | Stop _ => quiet_host end.
Lemma echo_reply_past_end : stops SFault (ICMP_GetPacket no_wait 7 ip_b 8 [ICMP_ECHOREPLY; 0; 0; 0; 64; 0; 0; 0] (pings 0)) = true.
Proof. vm_compute. done. Qed.
(** Slots of pings are not given back: the sixty-fifth ping waits for one for ever. *)
Lemma no_more_pings : stops SBlock (ICMP_Ping no_wait (ret tt) 1 7 ip_b (pings 64)) = true.
Proof. vm_compute. done. Qed.
End NetFindings.
