(* ===== verification/Mm.v ===== *)
(** * Physical and virtual memory of x86
    ([KernelLand/Kernel/arch/x86/mm_phys.c], [mm_virt.c])

    Physical memory is a finite map from page numbers to pages, a page a finite map from word indexes to 32-bit
    words (a word never written is 0).  The page directory of the current address space is the page in CR3; the
    arrays [gaPageDir], [gaPageTable], [gaTmpDir] and [gaTmpTable] are what the fractal mapping shows of it: the
    words of the directory, and those of the table a present directory entry names.  Translation buffers are taken
    to be in step (the code invalidates them), and each function to run with its lock held. *)
From S2P Require Import Prelude Pmemmap.

Local Open Scope Z_scope.
Local Open Scope monad_scope.

(** ** State *)
Record mm := MkMm {
  giPhysAlloc : Z; giPageCount : Z; giLastPossibleFree : Z; giTotalMemorySize : Z;
  gaSuperBitmap : gmap Z Z; gaPageBitmap : gmap Z Z; gaPageReferences : gmap Z Z; gbReferences : bool; gaPageNodes : gmap Z Z;
  mem : gmap Z (gmap Z Z); CR3 : Z; giMM_ZeroPage : Z; gTempMappings : Z; gWorkerStacks : gmap Z Z; giLastUsedWorker : Z;
  m_warnings : Z }.

(** A page fault inside the kernel or an access outside an array, a panic, a loop that does not end, a thread
    that sleeps. *)
Inductive mstop := MFault | MPanic | MLoop | MSleep | MAssert.
Abbreviation MM := (M mm mstop).

Definition upd_phys (al lpf : Z) (sb pb rf nd : gmap Z Z) (s : mm) := MkMm al (giPageCount s) lpf (giTotalMemorySize s) sb pb rf (gbReferences s) nd
  (mem s) (CR3 s) (giMM_ZeroPage s) (gTempMappings s) (gWorkerStacks s) (giLastUsedWorker s) (m_warnings s).
Definition upd_mem (m : gmap Z (gmap Z Z)) (s : mm) := MkMm (giPhysAlloc s) (giPageCount s) (giLastPossibleFree s) (giTotalMemorySize s) (gaSuperBitmap s) (gaPageBitmap s)
  (gaPageReferences s) (gbReferences s) (gaPageNodes s) m (CR3 s) (giMM_ZeroPage s) (gTempMappings s) (gWorkerStacks s) (giLastUsedWorker s) (m_warnings s).
Definition upd_misc (zero temp : Z) (ws : gmap Z Z) (lw warn : Z) (s : mm) := MkMm (giPhysAlloc s) (giPageCount s) (giLastPossibleFree s) (giTotalMemorySize s) (gaSuperBitmap s)
  (gaPageBitmap s) (gaPageReferences s) (gbReferences s) (gaPageNodes s) (mem s) (CR3 s) zero temp ws lw warn.

Definition modify (f : mm -> mm) : MM unit := fun s => Ok tt (f s).
Definition gets {A} (f : mm -> A) : MM A := fun s => Ok (f s) s.
Definition ASSERT (b : bool) : MM unit := if b then ret tt else halt MAssert.
(** The text is not kept, only that there was one. *)
Definition Warning : MM unit := modify (fun s => upd_misc (giMM_ZeroPage s) (gTempMappings s) (gWorkerStacks s) (giLastUsedWorker s) (m_warnings s + 1) s).

(** An array of [n] words. *)
Definition at_index (n : Z) (get : mm -> gmap Z Z) (i : Z) : MM Z :=
  fun s => if (0 <=? i) && (i <? n) then Ok (default 0 (get s !! i)) s else Stop MFault.
Definition set_super (i v : Z) : MM unit := fun s =>
  if (0 <=? i) && (i <? 1024) then Ok tt (upd_phys (giPhysAlloc s) (giLastPossibleFree s) (<[i := v]> (gaSuperBitmap s)) (gaPageBitmap s) (gaPageReferences s) (gaPageNodes s) s) else Stop MFault.
Definition set_bitmap (i v : Z) : MM unit := fun s =>
  if (0 <=? i) && (i <? 32768) then Ok tt (upd_phys (giPhysAlloc s) (giLastPossibleFree s) (gaSuperBitmap s) (<[i := v]> (gaPageBitmap s)) (gaPageReferences s) (gaPageNodes s) s) else Stop MFault.
Definition super (i : Z) : MM Z := at_index 1024 gaSuperBitmap i.
Definition bitmap (i : Z) : MM Z := at_index 32768 gaPageBitmap i.
Definition set_free (lpf : Z) : MM unit := modify (fun s => upd_phys (giPhysAlloc s) lpf (gaSuperBitmap s) (gaPageBitmap s) (gaPageReferences s) (gaPageNodes s) s).
Definition add_alloc (n : Z) : MM unit := modify (fun s => upd_phys (u64 (giPhysAlloc s + n)) (giLastPossibleFree s) (gaSuperBitmap s) (gaPageBitmap s) (gaPageReferences s) (gaPageNodes s) s).

Definition ONES := 0xFFFFFFFF.
Definition bit (w i : Z) : bool := negb (Z.land w (Z.shiftl 1 i) =? 0).
Definition set_bit (w i : Z) : Z := Z.lor w (u32 (Z.shiftl 1 i)).
Definition clear_bit (w i : Z) : Z := Z.land w (u32 (Z.lnot (Z.shiftl 1 i))).
Definition page_of (PAddr : Z) : Z := Z.shiftr PAddr 12.

(** ** The tables as the fractal mapping shows them *)
Definition PF_PRESENT := 0x01.
Definition PF_WRITE := 0x02.
Definition PF_USER := 0x04.
Definition PF_COW := 0x200.
Definition PF_WATCHED := 0x800.
Definition has (e f : Z) : bool := negb (Z.land e f =? 0).
Definition frame (e : Z) : Z := Z.land e 0xFFFFF000.

Definition word (m : gmap Z (gmap Z Z)) (page i : Z) : Z := default 0 (default ∅ (m !! page) !! i).
Definition put_word (m : gmap Z (gmap Z Z)) (page i v : Z) : gmap Z (gmap Z Z) := <[page := <[i := v]> (default ∅ (m !! page))]> m.

Definition PAGE_DIR_SLOT := 0x3F0.
Definition TMP_DIR_SLOT := 0x3F1.

Definition gaPageDir (i : Z) : MM Z := gets (fun s => word (mem s) (page_of (CR3 s)) i).
Definition set_PageDir (i v : Z) : MM unit := modify (fun s => upd_mem (put_word (mem s) (page_of (CR3 s)) i v) s).
(** The table of a directory entry; without one the access faults. *)
Definition table_of (e : Z) : MM Z := if has e PF_PRESENT then ret (page_of e) else halt MFault.
Definition gaPageTable (n : Z) : MM Z :=
  do e <- gaPageDir (Z.shiftr n 10); do t <- table_of e; gets (fun s => word (mem s) t (Z.land n 0x3FF)).
Definition set_PageTable (n v : Z) : MM unit :=
  do e <- gaPageDir (Z.shiftr n 10); do t <- table_of e; modify (fun s => upd_mem (put_word (mem s) t (Z.land n 0x3FF) v) s).

Definition gpTmpCR3 : MM Z := gaPageDir TMP_DIR_SLOT.
Definition GET_TEMP_MAPPING (cr3 : Z) : MM unit :=
  do e <- gpTmpCR3; if e =? 0 then set_PageDir TMP_DIR_SLOT (Z.lor cr3 3) else halt MLoop.
Definition REL_TEMP_MAPPING : MM unit := set_PageDir TMP_DIR_SLOT 0.
Definition gaTmpDir (i : Z) : MM Z := do e <- gpTmpCR3; do t <- table_of e; gets (fun s => word (mem s) t i).
Definition set_TmpDir (i v : Z) : MM unit := do e <- gpTmpCR3; do t <- table_of e; modify (fun s => upd_mem (put_word (mem s) t i v) s).
Definition gaTmpTable (n : Z) : MM Z :=
  do e <- gaTmpDir (Z.shiftr n 10); do t <- table_of e; gets (fun s => word (mem s) t (Z.land n 0x3FF)).
Definition set_TmpTable (n v : Z) : MM unit :=
  do e <- gaTmpDir (Z.shiftr n 10); do t <- table_of e; modify (fun s => upd_mem (put_word (mem s) t (Z.land n 0x3FF) v) s).

Definition MM_GetPhysAddr (Addr : Z) : MM Z :=
  do d <- gaPageDir (Z.shiftr Addr 22);
  if negb (has d PF_PRESENT) then ret 0 else
  do e <- gaPageTable (Z.shiftr Addr 12);
  if negb (has e PF_PRESENT) then ret 0 else ret (Z.lor (frame e) (Z.land Addr 0xFFF)).

(** The arrays that are mapped on demand. *)
Definition MM_PAGENODE_BASE := 0xE0000000.
Definition MM_REFCOUNT_BASE := 0xE4000000.
Definition ref_addr (p : Z) : Z := u32 (MM_REFCOUNT_BASE + 4 * p).
Definition node_addr (p : Z) : Z := u32 (MM_PAGENODE_BASE + 4 * p).
Definition refs_mapped (p : Z) : MM bool := do a <- MM_GetPhysAddr (ref_addr p); ret (negb (a =? 0)).
Definition nodes_mapped (p : Z) : MM bool := do a <- MM_GetPhysAddr (node_addr p); ret (negb (a =? 0)).
Definition get_ref (p : Z) : MM Z := do b <- refs_mapped p; if (b : bool) then gets (fun s => default 0 (gaPageReferences s !! p)) else halt MFault.
Definition set_ref (p v : Z) : MM unit :=
  do b <- refs_mapped p;
  if (b : bool) then modify (fun s => upd_phys (giPhysAlloc s) (giLastPossibleFree s) (gaSuperBitmap s) (gaPageBitmap s) (<[p := v]> (gaPageReferences s)) (gaPageNodes s) s) else halt MFault.
Definition set_node (p v : Z) : MM unit :=
  do b <- nodes_mapped p;
  if (b : bool) then modify (fun s => upd_phys (giPhysAlloc s) (giLastPossibleFree s) (gaSuperBitmap s) (gaPageBitmap s) (gaPageReferences s) (<[p := v]> (gaPageNodes s)) s) else halt MFault.

(** [for( i = from; i < from + n; i ++ ) body] *)
Fixpoint for_ (n : nat) (i : Z) (body : Z -> MM unit) : MM unit :=
  match n with O => ret tt | S n => body i;;; for_ n (i + 1) body end.

(** ** Allocating pages *)
Definition addrClasses : list Z := [0; 16; 20; 24; 32; 64].
(** [1UL << n]: a count outside the width is taken modulo 32, as the processor does. *)
Definition shl1 (n : Z) : Z := u32 (Z.shiftl 1 (n mod 32)).
Definition class_at (i : nat) : Z := default 0 (addrClasses !! i).

Fixpoint scan_free (fuel : nat) (indx last : Z) : MM Z :=
  if negb (indx <? last) then ret indx else
  match fuel with
  | O => halt MLoop
  | S fuel =>
      do sup <- super (Z.shiftr indx 10);
      if sup =? ONES then scan_free fuel (indx + 1024) last else
      do w <- bitmap (Z.shiftr indx 5);
      if w =? ONES then scan_free fuel (indx + 32) last else
      if bit w (Z.land indx 31) then scan_free fuel (indx + 1) last else ret indx
  end.

(** [for( i = numAddrClasses; i -- > 1; )]: the class the loop stopped in, 0 if none, and the index. *)
Fixpoint class_scan (i : nat) (indx : Z) : MM (Z * Z) :=
  match i with
  | O => ret (0, indx)
  | S i' =>
      let first := i32 (shl1 (class_at i' - 12)) in
      let last := i32 (shl1 (class_at i - 12) - 1) in
      do s <- get_state;
      if giLastPossibleFree s <? first then class_scan i' indx else
      let last := if giLastPossibleFree s <? last then i32 (giLastPossibleFree s) else last in
      do indx <- scan_free (Z.to_nat (last - first)) first last;
      if indx <? last then ret (Z.of_nat i, indx) else
      set_free first;;; class_scan i' indx
  end.

Definition MM_AllocPhys : MM Z :=
  do r <- class_scan 5 (-1);
  let indx := if r.1 <=? 1 then -1 else r.2 in
  if indx <? 0 then Warning;;; ret 0 else
  if 0xFFFFF <? indx then halt MPanic else
  do s <- get_state;
  if giPageCount s <=? indx then ret 0 else
  do m <- refs_mapped indx;
  (if (m : bool) then set_ref indx 1 else ret tt);;;
  do w <- bitmap (Z.shiftr indx 5);
  set_bitmap (Z.shiftr indx 5) (set_bit w (Z.land indx 31));;;
  add_alloc 1;;;
  do w <- bitmap (Z.shiftr indx 5);
  (if w =? ONES then do sup <- super (Z.shiftr indx 10); set_super (Z.shiftr indx 10) (set_bit sup (Z.land (Z.shiftr indx 5) 31)) else ret tt);;;
  ret (u32 (Z.shiftl indx 12)).

(** The next position below: [sidx --; if(sidx < 0) { sidx = 31; idx --; }] *)
Definition below (idx sidx : Z) : Z * Z := if sidx - 1 <? 0 then (idx - 1, 31) else (idx, sidx - 1).

Fixpoint find_page (fuel : nat) (idx sidx : Z) : MM (Z * Z) :=
  match fuel with
  | O => halt MLoop
  | S fuel =>
      do w <- bitmap idx;
      if w =? ONES then find_page fuel (idx - 1) 31 else
      if bit w sidx then
        let '(idx, sidx) := below idx sidx in
        if idx <? 0 then ret (idx, sidx) else find_page fuel idx sidx
      else ret (idx, sidx)
  end.

(** The pages found free, and the position after them. *)
Fixpoint check_range (n : nat) (i idx sidx : Z) : MM (Z * (Z * Z)) :=
  match n with
  | O => ret (i, (idx, sidx))
  | S n =>
      do w <- bitmap idx;
      if bit w sidx then ret (i, (idx, sidx)) else
      let '(idx, sidx) := below idx sidx in
      if idx <? 0 then ret (i, (idx, sidx)) else check_range n (i + 1) idx sidx
  end.

Fixpoint range_scan (fuel : nat) (Pages idx sidx : Z) : MM (Z * Z) :=
  if idx <? 0 then ret (idx, sidx) else
  match fuel with
  | O => halt MLoop
  | S fuel =>
      do p <- find_page (Z.to_nat (idx * 32 + sidx + 2)) idx sidx;
      if p.1 <? 0 then ret p else
      do r <- check_range (Z.to_nat Pages) 0 p.1 p.2;
      if r.1 =? Pages then ret r.2 else range_scan fuel Pages r.2.1 r.2.2
  end.

Fixpoint mark_range (n : nat) (idx sidx : Z) : MM (Z * Z) :=
  match n with
  | O => ret (idx, sidx)
  | S n =>
      do m <- refs_mapped (idx * 32 + sidx);
      (if (m : bool) then set_ref (idx * 32 + sidx) 1 else ret tt);;;
      do w <- bitmap idx;
      set_bitmap idx (set_bit w sidx);;;
      add_alloc 1;;;
      if sidx + 1 =? 32 then mark_range n (idx + 1) 0 else mark_range n idx (sidx + 1)
  end.

Definition PHYS_BITS := 32.
Definition MM_AllocPhysRange (Pages MaxBits : Z) : MM Z :=
  if MaxBits <? 0 then ret 0 else
  let MaxBits := if PHYS_BITS <? MaxBits then PHYS_BITS else MaxBits in
  do s <- get_state;
  let sidx := i32 (if shl1 (MaxBits - 12) <? giLastPossibleFree s then shl1 (MaxBits - 12) else giLastPossibleFree s) in
  do p <- range_scan (Z.to_nat (sidx + 2)) Pages (Z.quot sidx 32) (Z.rem sidx 32);
  if p.1 <? 0 then Warning;;; ret 0 else
  do q <- mark_range (Z.to_nat Pages) p.1 p.2;
  do w <- bitmap q.1;
  (if w =? ONES then do sup <- super (Z.quot q.1 32); set_super (Z.quot q.1 32) (set_bit sup (Z.rem q.1 32)) else ret tt);;;
  ret (u32 (Z.lor (Z.shiftl q.1 17) (Z.shiftl q.2 12))).

(** ** References *)
Definition MM_DerefPhys (PAddr : Z) : MM unit :=
  let p := page_of PAddr in
  do s <- get_state;
  if giPageCount s <=? p then ret tt else
  do w <- bitmap (p / 32);
  if negb (bit w (p mod 32)) then Warning else
  (if giLastPossibleFree s <? p then set_free p else ret tt);;;
  do m <- refs_mapped p;
  do drop <- (if negb (m : bool) then ret true else do r <- get_ref p; set_ref p (i32 (r - 1));;; ret (i32 (r - 1) =? 0));
  if negb (drop : bool) then ret tt else
  add_alloc (-1);;;
  do w <- bitmap (p / 32);
  set_bitmap (p / 32) (clear_bit w (Z.land p 31));;;
  (if clear_bit w (Z.land p 31) =? 0 then
     do sup <- super (Z.shiftr p 10); set_super (Z.shiftr p 10) (clear_bit sup (Z.land (Z.shiftr p 5) 31)) else ret tt);;;
  do n <- nodes_mapped p;
  if (n : bool) then set_node p 0 else ret tt.

Definition MM_GetRefCount (PAddr : Z) : MM Z :=
  let p := page_of PAddr in
  do s <- get_state;
  if giPageCount s <=? p then ret (-1) else
  do m <- refs_mapped p;
  if negb (m : bool) then do w <- bitmap (p / 32); ret (b2z (bit w (p mod 32))) else get_ref p.

Definition MM_USER_MAX := 0xBC000000.
Definition MM_Map (VAddr PAddr : Z) : MM Z :=
  let pagenum := Z.shiftr VAddr 12 in
  if negb (Z.land PAddr 0xFFF =? 0) || negb (Z.land VAddr 0xFFF =? 0) then Warning;;; ret 0 else
  let user := if VAddr <? MM_USER_MAX then PF_USER else 0 in
  do d <- gaPageDir (Z.shiftr pagenum 10);
  do go <- (if d =? 0 then
              do tmp <- MM_AllocPhys;
              if tmp =? 0 then ret false else
              set_PageDir (Z.shiftr pagenum 10) (Z.lor (Z.lor tmp 3) user);;;
              modify (fun s => upd_mem (<[page_of tmp := ∅]> (mem s)) s);;; ret true
            else
              do e <- gaPageTable pagenum;
              if negb (e =? 0) then Warning;;; ret false else ret true);
  if negb (go : bool) then ret 0 else
  set_PageTable pagenum (Z.lor (Z.lor PAddr 3) user);;; ret 1.

Definition MM_Allocate (VAddr : Z) : MM Z :=
  do paddr <- MM_AllocPhys;
  do ok <- MM_Map VAddr paddr;
  if negb (ok =? 0) then ret paddr else
  MM_DerefPhys paddr;;;
  do paddr <- MM_GetPhysAddr VAddr;
  Warning;;;
  if negb (paddr =? 0) then ret paddr else ret 0.

(** Filling a new part of the reference counts from the bitmap. *)
Definition fill_refs (base : Z) : MM unit :=
  for_ 1024 0 (fun i => do w <- bitmap ((base + i) / 32); set_ref (base + i) (b2z (bit w ((base + i) mod 32)))).

Definition MM_RefPhys (PAddr : Z) : MM unit :=
  let p := page_of PAddr in
  do s <- get_state;
  if giPageCount s <=? p then ret tt else
  (if gbReferences s then
     do m <- refs_mapped p;
     (if negb (m : bool) then
        let base := Z.land p (u32 (Z.lnot 1023)) in
        do a <- MM_Allocate (ref_addr base);
        if a =? 0 then halt MPanic else fill_refs base
      else ret tt);;;
     do r <- get_ref p; set_ref p (i32 (r + 1))
   else ret tt);;;
  do w <- bitmap (p / 32);
  (if negb (bit w (Z.land p 31)) then add_alloc 1;;; set_bitmap (p / 32) (set_bit w (Z.land p 31)) else ret tt);;;
  do w <- bitmap (p / 32);
  if w =? ONES then do sup <- super (p / 1024); set_super (p / 1024) (set_bit sup (Z.land (p / 32) 31)) else ret tt.

Definition MM_SetPageNode (PAddr Node : Z) : MM Z :=
  do r <- MM_GetRefCount PAddr;
  if r =? 0 then ret 1 else
  let p := PAddr / 4096 in
  let page_ptr := Z.land (node_addr p) 0xFFFFF000 in
  do a <- MM_GetPhysAddr page_ptr;
  do ok <- (if a =? 0 then
              do b <- MM_Allocate page_ptr;
              if b =? 0 then Warning;;; ret false else
              let first := p - (node_addr p mod 4096) / 4 in
              for_ 1024 0 (fun i => set_node (first + i) 0);;; ret true
            else ret true);
  if negb (ok : bool) then ret (-1) else set_node p Node;;; ret 0.

(** The result and the node, when it is written. *)
Definition MM_GetPageNode (PAddr : Z) : MM (Z * option Z) :=
  do r <- MM_GetRefCount PAddr;
  if r =? 0 then ret (1, None) else
  let p := PAddr / 4096 in
  do n <- nodes_mapped p;
  if negb (n : bool) then ret (0, Some 0) else do s <- get_state; ret (0, Some (default 0 (gaPageNodes s !! p))).

(** ** Setting up *)
Definition is_ram (t : ePMemMapEntType) : bool := bool_decide (t = PMEMTYPE_FREE \/ t = PMEMTYPE_USED).
Definition max_addr (ents : list tPMemMapEnt) : Z :=
  foldl (fun m e => if is_ram (Type_ e) && (m <? ent_end e) then ent_end e else m) 0 ents.
Definition total_pages (ents : list tPMemMapEnt) : Z :=
  foldl (fun t e => if is_ram (Type_ e) then u64 (t + Z.shiftr (Length e) 12) else t) 0 ents.

Definition clear_page (p : Z) : MM unit := do w <- bitmap (p / 32); set_bitmap (p / 32) (clear_bit w (p mod 32)).
(** [while( startpg % 32 && pgcount )] *)
Fixpoint clear_head (fuel : nat) (startpg pgcount : Z) : MM (Z * Z) :=
  match fuel with
  | O => ret (startpg, pgcount)
  | S fuel => if (startpg mod 32 =? 0) || (pgcount =? 0) then ret (startpg, pgcount) else clear_page startpg;;; clear_head fuel (startpg + 1) (pgcount - 1)
  end.
Definition free_range (startpg pgcount : Z) : MM unit :=
  do h <- clear_head 32 startpg pgcount;
  for_ (Z.to_nat (h.2 / 32)) 0 (fun i => set_bitmap (h.1 / 32 + i) 0);;;
  for_ (Z.to_nat (h.2 mod 32)) (h.1 + (h.2 - h.2 mod 32)) clear_page.

Definition install_ent (e : tPMemMapEnt) : MM unit :=
  if bool_decide (Type_ e = PMEMTYPE_FREE) then
    let startpg := Start e / 4096 in
    let pgcount := Length e / 4096 in
    if 1048576 <? startpg then ret tt else
    let pgcount := if 1048576 <? u64 (startpg + pgcount) then 1048576 - startpg else pgcount in
    free_range startpg pgcount
  else if bool_decide (Type_ e = PMEMTYPE_USED) then add_alloc (Length e / 4096)
  else ret tt.
Fixpoint install_ents (ents : list tPMemMapEnt) : MM unit :=
  match ents with [] => ret tt | e :: ents => install_ent e;;; install_ents ents end.

Definition MM_Install (ents : list tPMemMapEnt) : MM unit :=
  let maxAddr := if 4294967296 <? max_addr ents then 4294967296 else max_addr ents in
  let count := Z.shiftr maxAddr 12 in
  modify (fun s => MkMm (giPhysAlloc s) count (u64 (count - 1)) (u64 (giTotalMemorySize s + total_pages ents)) (gaSuperBitmap s) (gaPageBitmap s) (gaPageReferences s)
    (gbReferences s) (gaPageNodes s) (mem s) (CR3 s) (giMM_ZeroPage s) (gTempMappings s) (gWorkerStacks s) (giLastUsedWorker s) (m_warnings s));;;
  for_ (Z.to_nat (count / 32)) 0 (fun i => set_bitmap i ONES);;;
  install_ents ents;;;
  for_ (Z.to_nat ((count + 31) / 32)) 0 (fun i =>
    do w <- bitmap i;
    if u32 (w + 1) =? 0 then do sup <- super (i / 32); set_super (i / 32) (set_bit sup (i mod 32)) else ret tt);;;
  modify (fun s => MkMm (giPhysAlloc s) (giPageCount s) (giLastPossibleFree s) (giTotalMemorySize s) (gaSuperBitmap s) (gaPageBitmap s) (gaPageReferences s)
    true (gaPageNodes s) (mem s) (CR3 s) (giMM_ZeroPage s) (gTempMappings s) (gWorkerStacks s) (giLastUsedWorker s) (m_warnings s)).
