(* ===== verification/MmVirt.v ===== *)
(** * Address spaces of x86 ([KernelLand/Kernel/arch/x86/mm_virt.c])

    The operations on the current address space, on another one through the temporary mapping, and the page
    fault handler, over the state of [Mm].  Copying a page copies the words of a physical page. *)
From S2P Require Import Prelude Mm.

Local Open Scope Z_scope.
Local Open Scope monad_scope.

Definition MM_PFLAG_RO := 0x01.
Definition MM_PFLAG_COW := 0x08.
Definition MM_PFLAG_KERNEL := 0x10.
Definition PAGE_SIZE := 4096.
Definition MM_KERNEL_STACKS := 0xF0000000.
Definition MM_KERNEL_STACKS_END := 0xFC000000.
Definition MM_KERNEL_STACK_SIZE := 0x8000.
Definition TEMP_MAP_ADDR := 0xFFEF0000.
Definition NUM_TEMP_PAGES := 16.
Definition HW_MAP_ADDR := 0xFE000000.
Definition HW_MAP_MAX := 0xFFEF0000.
Definition NUM_HW_PAGES := (HW_MAP_MAX - HW_MAP_ADDR) / 0x1000.
Definition KERNEL_BASE := 0xC0000000.
Definition WORKER_STACKS := 0x00100000.
Definition WORKER_STACK_SIZE := MM_KERNEL_STACK_SIZE.
Definition NUM_WORKER_STACKS := (0xB0000000 - WORKER_STACKS) / WORKER_STACK_SIZE.

(** The words of a physical page, replaced. *)
Definition set_page (p : Z) (ws : gmap Z Z) : MM unit := modify (fun s => upd_mem (<[p := ws]> (mem s)) s).
(** The physical page a virtual page is on; without one the access faults. *)
Definition page_at (VAddr : Z) : MM Z :=
  do d <- gaPageDir (Z.shiftr VAddr 22); do _ <- table_of d;
  do e <- gaPageTable (Z.shiftr VAddr 12); table_of e.
(** [memcpy( dst, src, 0x1000 )] of two page-aligned addresses *)
Definition copy_page (dst src : Z) : MM unit :=
  do d <- page_at dst; do p <- page_at src; do s <- get_state; set_page d (default ∅ (mem s !! p)).

(** ** Temporary mappings *)
Fixpoint temp_loop (n : nat) (i PAddr : Z) : MM (option Z) :=
  match n with
  | O => ret None
  | S n =>
      let pte := Z.shiftr TEMP_MAP_ADDR 12 + i in
      do e <- gaPageTable pte;
      if has e PF_PRESENT then temp_loop n (i + 1) PAddr else
      MM_RefPhys PAddr;;;
      set_PageTable pte (Z.lor PAddr 3);;;
      ret (Some (TEMP_MAP_ADDR + Z.shiftl i 12))
  end.
Definition set_temp (n : Z) : MM unit := modify (fun s => upd_misc (giMM_ZeroPage s) n (gWorkerStacks s) (giLastUsedWorker s) (m_warnings s) s).
Definition MM_MapTemp (PAddr : Z) : MM Z :=
  let PAddr := frame PAddr in
  do s <- get_state;
  if gTempMappings s =? 0 then halt MSleep else
  set_temp (gTempMappings s - 1);;;
  do r <- temp_loop 16 0 PAddr;
  match r with Some a => ret a | None => halt MPanic end.

Definition MM_FreeTemp (VAddr : Z) : MM unit :=
  let i := i32 (Z.shiftr VAddr 12) in
  if Z.shiftr TEMP_MAP_ADDR 12 <=? i then
    do e <- gaPageTable i;
    MM_DerefPhys (frame e);;;
    set_PageTable i 0;;;
    do s <- get_state; set_temp (gTempMappings s + 1)
  else ret tt.

(** ** Pages of the current space *)
Definition MM_DuplicatePage (VAddr : Z) : MM Z :=
  do d <- gaPageDir (Z.shiftr VAddr 22);
  if negb (has d PF_PRESENT) then ret 0 else
  do e <- gaPageTable (Z.shiftr VAddr 12);
  if negb (has e PF_PRESENT) then ret 0 else
  let VAddr := frame VAddr in
  do ret_ <- MM_AllocPhys;
  if ret_ =? 0 then ret 0 else
  do e <- gaPageTable (Z.shiftr VAddr 12);
  let wasRO := negb (has e PF_WRITE) in
  set_PageTable (Z.shiftr VAddr 12) (Z.land e (u32 (Z.lnot PF_WRITE)));;;
  do temp <- MM_MapTemp ret_;
  copy_page temp VAddr;;;
  MM_FreeTemp temp;;;
  (if negb wasRO then do e <- gaPageTable (Z.shiftr VAddr 12); set_PageTable (Z.shiftr VAddr 12) (Z.lor e PF_WRITE) else ret tt);;;
  ret ret_.

Inductive fault_result := Handled | SegFault.

(** A watched page is only made writable: the watchpoint's bitmap decides what is logged. *)
Definition MM_PageFault (Addr ErrorCode : Z) : MM fault_result :=
  let n := Z.shiftr Addr 12 in
  do d <- gaPageDir (Z.shiftr Addr 22);
  do e <- (if has d PF_PRESENT then gaPageTable n else ret 0);
  if has d PF_PRESENT && has e PF_PRESENT && has e PF_COW then
    do r <- MM_GetRefCount (frame e);
    (if r =? 1 then
       do e <- gaPageTable n;
       set_PageTable n (Z.lor (Z.land e (u32 (Z.lnot PF_COW))) (Z.lor PF_PRESENT PF_WRITE))
     else
       do paddr <- MM_DuplicatePage Addr;
       do e <- gaPageTable n;
       MM_DerefPhys (frame e);;;
       do e <- gaPageTable n;
       set_PageTable n (Z.land e PF_USER);;;
       do e <- gaPageTable n;
       set_PageTable n (Z.lor e (Z.lor paddr (Z.lor PF_PRESENT PF_WRITE))));;;
    ret Handled
  else if has d PF_PRESENT && has e PF_PRESENT && negb (has e PF_WRITE) && has e PF_WATCHED then
    do e <- gaPageTable n;
    set_PageTable n (Z.lor e PF_WRITE);;; ret Handled
  else if has ErrorCode 4 then ret SegFault else halt MPanic.

Definition MM_SetFlags (VAddr Flags Mask : Z) : MM unit :=
  let pagenum := Z.shiftr VAddr 12 in
  let dir := Z.shiftr pagenum 10 in
  do d <- gaPageDir dir;
  if negb (has d PF_PRESENT) then ret tt else
  do e <- gaPageTable pagenum;
  if negb (has e PF_PRESENT) then ret tt else
  let on f := do e <- gaPageTable pagenum; set_PageTable pagenum (Z.lor e f) in
  let off f := do e <- gaPageTable pagenum; set_PageTable pagenum (Z.land e (u32 (Z.lnot f))) in
  let dir_on f := do d <- gaPageDir dir; set_PageDir dir (Z.lor d f) in
  (if has Mask MM_PFLAG_RO then
     if has Flags MM_PFLAG_RO then off PF_WRITE else dir_on PF_WRITE;;; on PF_WRITE
   else ret tt);;;
  (if has Mask MM_PFLAG_KERNEL then
     if has Flags MM_PFLAG_KERNEL then off PF_USER else dir_on PF_USER;;; on PF_USER
   else ret tt);;;
  (if has Mask MM_PFLAG_COW then
     if has Flags MM_PFLAG_COW then off PF_WRITE;;; on PF_COW else off PF_COW;;; on PF_WRITE
   else ret tt).

Definition MM_GetFlags (VAddr : Z) : MM Z :=
  let pagenum := Z.shiftr VAddr 12 in
  do d <- gaPageDir (Z.shiftr pagenum 10);
  if negb (has d PF_PRESENT) then ret 0 else
  do e <- gaPageTable pagenum;
  if negb (has e PF_PRESENT) then ret 0 else
  ret (Z.lor (Z.lor (if has e PF_WRITE then 0 else MM_PFLAG_RO) (if has e PF_USER then 0 else MM_PFLAG_KERNEL)) (if has e PF_COW then MM_PFLAG_COW else 0)).

Definition set_zero (p : Z) : MM unit := modify (fun s => upd_misc p (gTempMappings s) (gWorkerStacks s) (giLastUsedWorker s) (m_warnings s) s).
Definition MM_AllocateZero (VAddr : Z) : MM unit :=
  do a <- MM_GetPhysAddr VAddr;
  if negb (a =? 0) then Warning else
  do s <- get_state;
  (if giMM_ZeroPage s =? 0 then
     do z <- MM_Allocate VAddr;
     set_zero z;;;
     MM_RefPhys z;;;
     do p <- page_at VAddr; set_page p ∅
   else
     do _ <- MM_Map VAddr (giMM_ZeroPage s);
     MM_RefPhys (giMM_ZeroPage s));;;
  MM_SetFlags VAddr MM_PFLAG_COW MM_PFLAG_COW.

Definition MM_Deallocate (VAddr : Z) : MM unit :=
  let pagenum := Z.shiftr VAddr 12 in
  do d <- gaPageDir (Z.shiftr pagenum 10);
  if d =? 0 then Warning else
  do e <- gaPageTable pagenum;
  if e =? 0 then Warning else
  set_PageTable pagenum 0;;;
  MM_DerefPhys (frame e).

(** [while( Size >= PAGE_SIZE )] *)
Fixpoint valid_loop (fuel : nat) (bIsUser : bool) (dir tab Size : Z) : MM Z :=
  if negb (PAGE_SIZE <=? Size) then ret 1 else
  match fuel with
  | O => halt MLoop
  | S fuel =>
      let dir' := if Z.land tab 1023 =? 0 then dir + 1 else dir in
      do ok <- (if Z.land tab 1023 =? 0 then do d <- gaPageDir dir'; ret (has d PF_PRESENT) else ret true);
      if negb (ok : bool) then ret 0 else
      do e <- gaPageTable tab;
      if negb (has e PF_PRESENT) then ret 0 else
      if bIsUser && negb (has e PF_USER) then ret 0 else
      valid_loop fuel bIsUser dir' (tab + 1) (Size - PAGE_SIZE)
  end.
Definition MM_IsValidBuffer (Addr Size : Z) : MM Z :=
  let Size := u32 (Size + Z.land Addr 0xFFF) in
  let Addr := frame Addr in
  let dir := Z.shiftr Addr 22 in
  let tab := Z.shiftr Addr 12 in
  do d <- gaPageDir dir;
  if negb (has d PF_PRESENT) then ret 0 else
  do e <- gaPageTable tab;
  if negb (has e PF_PRESENT) then ret 0 else
  valid_loop (Z.to_nat (Size / PAGE_SIZE)) (has e PF_USER) dir tab Size.

(** ** Other spaces *)
Definition MM_GetPageFromAS (cr3 Addr : Z) : MM Z :=
  GET_TEMP_MAPPING cr3;;;
  do d <- gaTmpDir (Z.shiftr Addr 22);
  do r <- (if has d PF_PRESENT then
             do e <- gaTmpTable (Z.shiftr Addr 12);
             if has e PF_PRESENT then
               let p := Z.lor (frame e) (Z.land Addr 0xFFF) in MM_RefPhys p;;; ret p
             else ret 0
           else ret 0);
  REL_TEMP_MAPPING;;; ret r.

Definition MM_MapTempFromProc (cr3 VAddr : Z) : MM Z :=
  do p <- MM_GetPageFromAS cr3 VAddr;
  if p =? 0 then ret 0 else MM_MapTemp p.

Definition MM_ClearUser : MM unit :=
  for_ (Z.to_nat (Z.shiftr MM_USER_MAX 22)) 0 (fun i =>
    do d <- gaPageDir i;
    if negb (has d PF_PRESENT) then set_PageDir i 0 else
    for_ 1024 0 (fun j =>
      do e <- gaPageTable (i * 1024 + j);
      (if has e PF_PRESENT then MM_DerefPhys (frame e) else ret tt);;;
      set_PageTable (i * 1024 + j) 0);;;
    MM_DerefPhys (frame d);;;
    set_PageDir i 0).

Definition kernel_stack_dir (i : Z) : bool := (Z.shiftr MM_KERNEL_STACKS 22 <? i) && (i <? Z.shiftr MM_KERNEL_STACKS_END 22).

Definition MM_ClearSpace (cr3 : Z) : MM unit :=
  do cur <- gaPageDir PAGE_DIR_SLOT;
  if cr3 =? frame cur then Warning else
  do r <- MM_GetRefCount cr3;
  if 1 <? r then MM_DerefPhys cr3 else
  GET_TEMP_MAPPING cr3;;;
  for_ 1024 0 (fun i =>
    do d <- gaTmpDir i;
    if negb (has d PF_PRESENT) then ret tt else
    (if (i <? 768) || kernel_stack_dir i then
       for_ 1024 0 (fun j => do e <- gaTmpTable (i * 1024 + j); if has e PF_PRESENT then MM_DerefPhys (frame e) else ret tt)
     else ret tt);;;
    (if negb (i =? PAGE_DIR_SLOT) then do d <- gaTmpDir i; MM_DerefPhys (frame d) else ret tt));;;
  MM_DerefPhys cr3;;;
  REL_TEMP_MAPPING.

(** A user page shared with the new space, read-only and copy-on-write in both when it could be written. *)
Definition clone_page (page : Z) : MM unit :=
  do e <- gaPageTable page;
  if negb (has e PF_PRESENT) then set_TmpTable page 0 else
  MM_RefPhys (frame e);;;
  do e <- gaPageTable page;
  if has e PF_WRITE then
    let e' := Z.lor (Z.land e (u32 (Z.lnot PF_WRITE))) PF_COW in
    set_TmpTable page e';;; set_PageTable page e'
  else set_TmpTable page e.

Definition clone_table (i : Z) : MM unit :=
  do d <- gaPageDir i;
  if negb (has d PF_PRESENT) then set_TmpDir i 0 else
  do t <- MM_AllocPhys;
  do d <- gaPageDir i;
  set_TmpDir i (Z.lor t (Z.land d 7));;;
  for_ 1024 (i * 1024) clone_page.

Definition clone_kernel (i : Z) : MM unit :=
  if i =? PAGE_DIR_SLOT then do t <- gpTmpCR3; set_TmpDir PAGE_DIR_SLOT t else
  if i =? TMP_DIR_SLOT then set_TmpDir TMP_DIR_SLOT 0 else
  do d <- gaPageDir i;
  if d =? 0 then set_TmpDir i 0 else
  MM_RefPhys (frame d);;;
  do d <- gaPageDir i; set_TmpDir i d.

Definition clone_stack_page (kStackBase page : Z) : MM unit :=
  do e <- gaPageTable page;
  if negb (has e PF_PRESENT) then set_TmpTable page 0 else
  if negb (Z.land (u32 (page * 4096)) (u32 (Z.lnot (MM_KERNEL_STACK_SIZE - 1))) =? kStackBase) then set_TmpTable page 0 else
  do p <- MM_AllocPhys;
  set_TmpTable page (Z.lor p 3);;;
  do e <- gaTmpTable page;
  do tmp <- MM_MapTemp (frame e);
  copy_page tmp (u32 (page * PAGE_SIZE));;;
  MM_FreeTemp tmp.

Definition clone_stacks (kStackBase i : Z) : MM unit :=
  do d <- gaPageDir i;
  if negb (has d PF_PRESENT) then set_TmpDir i 0 else
  if negb (i =? Z.shiftr kStackBase 22) then MM_DerefPhys (frame d);;; set_TmpDir i 0 else
  do p <- MM_AllocPhys;
  set_TmpDir i (Z.lor p 3);;;
  for_ 1024 (i * 1024) (clone_stack_page kStackBase).

(** [user]: [Threads_GetPID() != 0 && !bNoUserCopy]; [kStackBase] of the current thread. *)
Definition MM_Clone (user : bool) (kStackBase : Z) : MM Z :=
  do ret_ <- MM_AllocPhys;
  if ret_ =? 0 then ret 0 else
  GET_TEMP_MAPPING ret_;;;
  do t <- gpTmpCR3;
  set_page (page_of t) ∅;;;
  (if user then for_ 768 0 clone_table else ret tt);;;
  for_ 256 768 clone_kernel;;;
  for_ (Z.to_nat (Z.shiftr MM_KERNEL_STACKS_END 22 - Z.shiftr MM_KERNEL_STACKS 22)) (Z.shiftr MM_KERNEL_STACKS 22) (clone_stacks kStackBase);;;
  REL_TEMP_MAPPING;;;
  ret ret_.

(** ** Stacks *)
Fixpoint allocate_pages (n : nat) (addr : Z) : MM bool :=
  match n with
  | O => ret true
  | S n => do a <- MM_Allocate addr; if a =? 0 then Warning;;; ret false else allocate_pages n (addr + PAGE_SIZE)
  end.
Fixpoint kstack_loop (n : nat) (base : Z) : MM Z :=
  match n with
  | O => Warning;;; ret 0
  | S n =>
      do a <- MM_GetPhysAddr base;
      if negb (a =? 0) then kstack_loop n (base + MM_KERNEL_STACK_SIZE) else
      do ok <- allocate_pages (Z.to_nat (MM_KERNEL_STACK_SIZE / PAGE_SIZE)) base;
      if (ok : bool) then ret (base + MM_KERNEL_STACK_SIZE) else ret 0
  end.
Definition MM_NewKStack : MM Z := kstack_loop (Z.to_nat ((MM_KERNEL_STACKS_END - MM_KERNEL_STACKS) / MM_KERNEL_STACK_SIZE)) MM_KERNEL_STACKS.

(** [1 << base] counts modulo 32 on this machine. *)
Fixpoint worker_scan (fuel : nat) (base : Z) : MM Z :=
  if negb (base <? NUM_WORKER_STACKS) then ret base else
  match fuel with
  | O => halt MLoop
  | S fuel =>
      do w <- at_index ((NUM_WORKER_STACKS + 31) / 32) gWorkerStacks (base / 32);
      if w =? ONES then worker_scan fuel (Z.land (base + 31) (u32 (Z.lnot 31))) else
      if bit w (base mod 32) then worker_scan fuel (base + 1) else ret base
  end.
Fixpoint worker_pages (n : nat) (addr last : Z) : MM Z :=
  match n with
  | O => ret last
  | S n => do p <- MM_AllocPhys; set_TmpTable (Z.shiftr addr 12) (Z.lor p 3);;; worker_pages n (addr + 0x1000) p
  end.
(** [init]: the physical address of the first directory; [write]: what copying the contents onto the last page does. *)
Definition MM_NewWorkerStack (init : Z) (write : gmap Z Z -> gmap Z Z) : MM Z :=
  do s <- get_state;
  do base <- worker_scan (Z.to_nat NUM_WORKER_STACKS) (giLastUsedWorker s);
  if NUM_WORKER_STACKS <=? base then Warning;;; ret 0 else
  modify (fun s => upd_misc (giMM_ZeroPage s) (gTempMappings s) (<[base / 32 := set_bit (default 0 (gWorkerStacks s !! (base / 32))) (base mod 32)]> (gWorkerStacks s)) base (m_warnings s) s);;;
  let base := u32 (WORKER_STACKS + base * WORKER_STACK_SIZE) in
  GET_TEMP_MAPPING init;;;
  do d <- gaTmpDir (Z.shiftr base 22);
  (if d =? 0 then do p <- MM_AllocPhys; set_TmpDir (Z.shiftr base 22) (Z.lor p 3) else ret tt);;;
  do page <- worker_pages (Z.to_nat (WORKER_STACK_SIZE / 0x1000)) base 0;
  REL_TEMP_MAPPING;;;
  do tmp <- MM_MapTemp page;
  do t <- page_at tmp;
  do s <- get_state;
  set_page t (write (default ∅ (mem s !! t)));;;
  MM_FreeTemp tmp;;;
  ret (u32 (base + WORKER_STACK_SIZE)).

(** ** Device memory *)
Fixpoint hw_region (n : nat) (i j : Z) : MM Z :=
  match n with
  | O => ret j
  | S n =>
      if negb (i + j <? NUM_HW_PAGES) then ret j else
      do e <- gaPageTable (Z.shiftr HW_MAP_ADDR 12 + i + j);
      if has e PF_PRESENT then ret j else hw_region n i (j + 1)
  end.
Fixpoint hw_scan (n : nat) (i PAddr Number : Z) : MM Z :=
  match n with
  | O => ret 0
  | S n =>
      do e <- gaPageTable (Z.shiftr HW_MAP_ADDR 12 + i);
      if has e PF_PRESENT then hw_scan n (i + 1) PAddr Number else
      do j <- hw_region (Z.to_nat Number) i 0;
      if j =? Number then
        for_ (Z.to_nat Number) 0 (fun j =>
          MM_RefPhys (u32 (PAddr + Z.shiftl j 12));;;
          set_PageTable (Z.shiftr HW_MAP_ADDR 12 + i + j) (Z.lor (u32 (PAddr + Z.shiftl j 12)) 3));;;
        ret (HW_MAP_ADDR + Z.shiftl i 12)
      else hw_scan n (i + 1) PAddr Number
  end.
Definition MM_MapHWPages (PAddr Number : Z) : MM Z :=
  let PAddr := frame PAddr in
  if (PAddr <? 1048576) && (u32 (Number * PAGE_SIZE) <=? 1048576 - PAddr) then ret (KERNEL_BASE + PAddr) else
  hw_scan (Z.to_nat NUM_HW_PAGES) 0 PAddr Number.

(** The address and, when it is written, the physical address. *)
Definition MM_AllocDMA (Pages MaxBits : Z) : MM (Z * option Z) :=
  let MaxBits := if MaxBits =? -1 then PHYS_BITS else MaxBits in
  if MaxBits <? 12 then ret (0, None) else
  if (Pages =? 1) && (PHYS_BITS <=? MaxBits) then
    do phys <- MM_AllocPhys;
    if phys =? 0 then ret (0, Some phys) else
    do r <- MM_MapHWPages phys 1;
    if r =? 0 then MM_DerefPhys phys;;; ret (0, Some phys) else ret (r, Some phys)
  else
    do phys <- MM_AllocPhysRange Pages MaxBits;
    if phys =? 0 then ret (0, None) else
    do r <- MM_MapHWPages phys Pages;
    for_ (Z.to_nat Pages) 0 (fun i => MM_DerefPhys (u32 (phys + i * PAGE_SIZE)));;;
    if r =? 0 then ret (0, None) else ret (r, Some phys).

Definition MM_UnmapHWPages (VAddr Number : Z) : MM unit :=
  if (KERNEL_BASE <=? VAddr) && (VAddr <? KERNEL_BASE + 1048576) then ret tt else
  let pagenum := Z.shiftr VAddr 12 in
  if (VAddr <? HW_MAP_ADDR) || (HW_MAP_MAX <? u32 (VAddr + Number * 0x1000)) then ret tt else
  for_ (Z.to_nat Number) 0 (fun i =>
    do e <- gaPageTable (pagenum + i);
    MM_DerefPhys (frame e);;;
    set_PageTable (pagenum + i) 0).

(** ** Setting up *)
(** The directory is the current one while the system starts. *)
Definition MM_PreinitVirtual (dir : Z) : MM unit :=
  set_PageDir PAGE_DIR_SLOT (Z.lor dir 3);;; set_temp NUM_TEMP_PAGES.

Definition install_table (i : Z) : MM unit :=
  do d <- gaPageDir i;
  if negb (d =? 0) then ret tt else
  if kernel_stack_dir i then set_PageDir i 0 else
  do p <- MM_AllocPhys;
  set_PageDir i (Z.lor p 3);;;
  do d <- gaPageDir i; do t <- table_of d; set_page t ∅.

(** [UsertextBase], [UsertextEnd]: where the linker has put the code that user processes may run. *)
Definition MM_InstallVirtual (UsertextBase UsertextEnd : Z) : MM unit :=
  for_ (Z.to_nat (1024 - Z.shiftr KERNEL_BASE 22)) (Z.shiftr KERNEL_BASE 22) install_table;;;
  ASSERT (Z.land UsertextBase (PAGE_SIZE - 1) =? 0);;;
  for_ (Z.to_nat ((UsertextEnd - UsertextBase + PAGE_SIZE - 1) / PAGE_SIZE)) 0 (fun i => MM_SetFlags (UsertextBase + i * PAGE_SIZE) 0 MM_PFLAG_KERNEL);;;
  set_PageDir TMP_DIR_SLOT 0.

Definition MM_FinishVirtualInit : MM unit := set_PageDir 0 0.
