(* ===== verification/MmInv.v ===== *)
(** * The physical page allocator: invariant and operations

    A page has a reference count: what [gaPageReferences] holds where it is mapped, else the bit of the bitmap.
    Each operation of the allocator is shown to be an operation on these counts. *)
From S2P Require Import Prelude Mm.

Local Open Scope Z_scope.
Local Open Scope monad_scope.
Implicit Types (s : mm) (p q : Z).

(** ** Reading the tables *)
Definition pde s (i : Z) : Z := word (mem s) (page_of (CR3 s)) i.
Definition pte s (n : Z) : Z := word (mem s) (page_of (pde s (Z.shiftr n 10))) (Z.land n 0x3FF).
Definition present (e : Z) : bool := has e PF_PRESENT.
Definition phys s (a : Z) : Z :=
  if present (pde s (Z.shiftr a 22)) && present (pte s (Z.shiftr a 12)) then Z.lor (frame (pte s (Z.shiftr a 12))) (Z.land a 0xFFF) else 0.

Lemma gaPageTable_run s n : present (pde s (Z.shiftr n 10)) = true -> gaPageTable n s = Ok (pte s n) s.
Proof. unfold gaPageTable, gaPageDir, table_of, gets, bind, pte, pde. intros H. unfold present in H. by rewrite H. Qed.
Lemma set_PageTable_run s n v : present (pde s (Z.shiftr n 10)) = true ->
  set_PageTable n v s = Ok tt (upd_mem (put_word (mem s) (page_of (pde s (Z.shiftr n 10))) (Z.land n 0x3FF) v) s).
Proof. unfold set_PageTable, gaPageDir, table_of, gets, bind, pde. intros H. unfold present in H. by rewrite H. Qed.

Lemma shift_twice a : Z.shiftr (Z.shiftr a 12) 10 = Z.shiftr a 22.
Proof. by rewrite Z.shiftr_shiftr. Qed.

Lemma GetPhysAddr_run s a : MM_GetPhysAddr a s = Ok (phys s a) s.
Proof.
  unfold MM_GetPhysAddr, phys. unfold gaPageDir at 1, gets at 1. erewrite bind_Ok by reflexivity. fold (pde s (Z.shiftr a 22)).
  change (has (pde s (Z.shiftr a 22)) PF_PRESENT) with (present (pde s (Z.shiftr a 22))). destruct (present (pde s (Z.shiftr a 22))) eqn:E; [|done].
  cbn [negb andb]. erewrite bind_Ok by (apply gaPageTable_run; by rewrite shift_twice). unfold present. by destruct (has _ _).
Qed.

Definition rmapped s p : bool := negb (phys s (ref_addr p) =? 0).
Definition nmapped s p : bool := negb (phys s (node_addr p) =? 0).
Lemma refs_mapped_run s p : refs_mapped p s = Ok (rmapped s p) s.
Proof. unfold refs_mapped. by rewrite (bind_Ok _ _ _ _ _ (GetPhysAddr_run s _)). Qed.
Lemma nodes_mapped_run s p : nodes_mapped p s = Ok (nmapped s p) s.
Proof. unfold nodes_mapped. by rewrite (bind_Ok _ _ _ _ _ (GetPhysAddr_run s _)). Qed.

(** ** Bits *)
Definition MAXPAGE := 1048576.
Definition words_ok (m : gmap Z Z) : Prop := forall i w, m !! i = Some w -> 0 <= w < 4294967296.
Definition used (m : gmap Z Z) p : bool := Z.testbit (default 0 (m !! (p / 32))) (p mod 32).

Lemma bit_test w i : 0 <= i -> bit w i = Z.testbit w i.
Proof.
  intros Hi. unfold bit. destruct (mask_bit w i Hi) as [H1 H2]. destruct (Z.testbit w i).
  - destruct (Z.land _ _ =? 0) eqn:E; bools; [by specialize (H1 E)|done].
  - by rewrite H2.
Qed.

Lemma one_bit i : 0 <= i < 32 -> u32 (Z.shiftl 1 i) = 2 ^ i.
Proof.
  intros Hi. rewrite Z.shiftl_1_l. apply u32_small. split; [apply Z.pow_nonneg; lia|]. change 4294967296 with (2 ^ 32). apply Z.pow_lt_mono_r; lia.
Qed.
Lemma set_bit_test w i j : 0 <= i < 32 -> 0 <= j -> Z.testbit (set_bit w i) j = (i =? j) || Z.testbit w j.
Proof. intros Hi Hj. unfold set_bit. rewrite one_bit, Z.lor_spec, Z.pow2_bits_eqb by lia. apply orb_comm. Qed.
Lemma clear_bit_test w i j : 0 <= i < 32 -> 0 <= j < 32 -> Z.testbit (clear_bit w i) j = negb (i =? j) && Z.testbit w j.
Proof.
  intros Hi Hj. unfold clear_bit, u32. change 4294967296 with (2 ^ 32). rewrite Z.land_spec, Z.mod_pow2_bits_low, Z.lnot_spec by lia.
  rewrite Z.shiftl_1_l, Z.pow2_bits_eqb by lia. apply andb_comm.
Qed.

Lemma word_range n w : 0 <= n -> (forall j, n <= j -> Z.testbit w j = false) -> 0 <= w -> w < 2 ^ n.
Proof.
  intros Hn Hb Hw. destruct (Z.eq_dec w 0) as [->|Hne]; [by apply Z.pow_pos_nonneg|]. apply Z.log2_lt_pow2; [lia|].
  destruct (Z.lt_ge_cases (Z.log2 w) n) as [|Hge]; [done|]. specialize (Hb _ Hge). rewrite Z.bit_log2 in Hb by lia. done.
Qed.
Lemma word_bits w j : 0 <= w < 4294967296 -> 32 <= j -> Z.testbit w j = false.
Proof. intros Hw Hj. apply Z.testbit_false; [lia|]. rewrite Z.div_small; [done|]. split; [lia|]. eapply Z.lt_le_trans; [apply Hw|]. change 4294967296 with (2 ^ 32). apply Z.pow_le_mono_r; lia. Qed.
Lemma set_bit_range w i : 0 <= w < 4294967296 -> 0 <= i < 32 -> 0 <= set_bit w i < 4294967296.
Proof.
  intros Hw Hi. assert (0 <= set_bit w i) as H0 by (unfold set_bit; rewrite one_bit by lia; apply Z.lor_nonneg; split; [lia|apply Z.pow_nonneg; lia]).
  split; [done|]. change 4294967296 with (2 ^ 32). apply word_range; [lia| |done]. intros j Hj. rewrite set_bit_test, word_bits by lia.
  rewrite (proj2 (Z.eqb_neq i j)) by lia. done.
Qed.
Lemma clear_bit_range w i : 0 <= w < 4294967296 -> 0 <= clear_bit w i < 4294967296.
Proof.
  intros Hw. unfold clear_bit. pose proof (u32_range (Z.lnot (Z.shiftl 1 i))) as Hu.
  assert (0 <= Z.land w (u32 (Z.lnot (Z.shiftl 1 i)))) as H0 by (apply Z.land_nonneg; lia). split; [done|].
  change 4294967296 with (2 ^ 32). apply word_range; [lia| |done]. intros j Hj. by rewrite Z.land_spec, word_bits by lia.
Qed.
Lemma words_default m i : words_ok m -> 0 <= default 0 (m !! i) < 4294967296.
Proof. intros H. destruct (m !! i) as [w|] eqn:E; cbn; [by eapply H|lia]. Qed.
Lemma words_insert m i w : words_ok m -> 0 <= w < 4294967296 -> words_ok (<[i := w]> m).
Proof. intros H Hw j x [ [-> <-]|[_ Hx] ]%lookup_insert_Some; [done|by eapply H]. Qed.

Lemma used_set m p q : 0 <= p -> 0 <= q -> used (<[p / 32 := set_bit (default 0 (m !! (p / 32))) (p mod 32)]> m) q = (p =? q) || used m q.
Proof.
  intros Hp Hq. unfold used. destruct (decide (q / 32 = p / 32)) as [E|E].
  - rewrite E, lookup_insert_eq. cbn [default from_option id]. rewrite set_bit_test by dlia. f_equal. destruct (p =? q) eqn:Ep; bools; [subst; apply Z.eqb_refl|].
    apply Z.eqb_neq. dlia.
  - rewrite lookup_insert_ne by done. rewrite (proj2 (Z.eqb_neq p q)) by (intros ->; done). done.
Qed.
Lemma used_clear m p q : 0 <= p -> 0 <= q -> used (<[p / 32 := clear_bit (default 0 (m !! (p / 32))) (p mod 32)]> m) q = negb (p =? q) && used m q.
Proof.
  intros Hp Hq. unfold used. destruct (decide (q / 32 = p / 32)) as [E|E].
  - rewrite E, lookup_insert_eq. cbn [default from_option id]. rewrite clear_bit_test by dlia. f_equal. f_equal. destruct (p =? q) eqn:Ep; bools; [subst; apply Z.eqb_refl|].
    apply Z.eqb_neq. dlia.
  - rewrite lookup_insert_ne by done. rewrite (proj2 (Z.eqb_neq p q)) by (intros ->; done). done.
Qed.

Lemma low5 p : Z.land p 31 = p mod 32.
Proof. change 31 with (Z.ones 5). by rewrite Z.land_ones. Qed.
Lemma shr5 p : Z.shiftr p 5 = p / 32.
Proof. by rewrite Z.shiftr_div_pow2. Qed.
Lemma shr10 p : Z.shiftr p 10 = p / 1024.
Proof. by rewrite Z.shiftr_div_pow2. Qed.
Lemma shr12 p : Z.shiftr p 12 = p / 4096.
Proof. by rewrite Z.shiftr_div_pow2. Qed.

(** ** The invariant *)
Definition refc s p : Z := default 0 (gaPageReferences s !! p).
Definition usedp s p : bool := used (gaPageBitmap s) p.
(** The reference count of a page. *)
Definition rc s p : Z := if rmapped s p then refc s p else b2z (usedp s p).

Record pm_ok s : Prop := {
  pm_count : 0 <= giPageCount s <= MAXPAGE;
  pm_last : 0 <= giLastPossibleFree s < MAXPAGE;
  pm_words : words_ok (gaPageBitmap s) /\ words_ok (gaSuperBitmap s);
  pm_refs : forall p, 0 <= p < giPageCount s -> rmapped s p = true -> 0 <= refc s p < 2147483648 /\ (0 < refc s p <-> usedp s p = true) }.

(** What the allocator leaves alone: the tables, and whatever is not its own. *)
Definition outside s := (mem s, CR3 s, giPageCount s, gbReferences s, giMM_ZeroPage s, gTempMappings s, gWorkerStacks s, giLastUsedWorker s, giTotalMemorySize s).

Lemma phys_outside s s' a : outside s' = outside s -> phys s' a = phys s a.
Proof. intros [= E1 E2 _ _ _ _ _ _ _]. unfold phys, pte, pde. by rewrite E1, E2. Qed.
Lemma rmapped_outside s s' p : outside s' = outside s -> rmapped s' p = rmapped s p.
Proof. intros H. unfold rmapped. by rewrite (phys_outside _ _ _ H). Qed.

Lemma rc_range s p : pm_ok s -> 0 <= p < giPageCount s -> 0 <= rc s p < 2147483648 /\ (0 < rc s p <-> usedp s p = true).
Proof.
  intros Hok Hp. unfold rc. destruct (rmapped s p) eqn:E; [by apply (pm_refs _ Hok)|]. destruct (usedp s p); cbn; split; try lia; by split.
Qed.

(** ** Allocating *)
Lemma super_run s i : 0 <= i < 1024 -> super i s = Ok (default 0 (gaSuperBitmap s !! i)) s.
Proof. intros H. unfold super, at_index. by rewrite (proj2 (Z.leb_le 0 i)), (proj2 (Z.ltb_lt i 1024)) by lia. Qed.
Lemma bitmap_run s i : 0 <= i < 32768 -> bitmap i s = Ok (default 0 (gaPageBitmap s !! i)) s.
Proof. intros H. unfold bitmap, at_index. by rewrite (proj2 (Z.leb_le 0 i)), (proj2 (Z.ltb_lt i 32768)) by lia. Qed.
Lemma set_bitmap_run s i v : 0 <= i < 32768 -> set_bitmap i v s =
  Ok tt (upd_phys (giPhysAlloc s) (giLastPossibleFree s) (gaSuperBitmap s) (<[i := v]> (gaPageBitmap s)) (gaPageReferences s) (gaPageNodes s) s).
Proof. intros H. unfold set_bitmap. by rewrite (proj2 (Z.leb_le 0 i)), (proj2 (Z.ltb_lt i 32768)) by lia. Qed.
Lemma set_super_run s i v : 0 <= i < 1024 -> set_super i v s =
  Ok tt (upd_phys (giPhysAlloc s) (giLastPossibleFree s) (<[i := v]> (gaSuperBitmap s)) (gaPageBitmap s) (gaPageReferences s) (gaPageNodes s) s).
Proof. intros H. unfold set_super. by rewrite (proj2 (Z.leb_le 0 i)), (proj2 (Z.ltb_lt i 1024)) by lia. Qed.

Lemma scan_free_run s last : last <= MAXPAGE -> forall fuel indx, 0 <= indx -> last - indx <= Z.of_nat fuel ->
  exists r, scan_free fuel indx last s = Ok r s /\ indx <= r /\ (r < last -> usedp s r = false).
Proof.
  intros Hlast. induction fuel as [|fuel IH]; intros indx Hi Hf; cbn [scan_free].
  - rewrite (proj2 (Z.ltb_ge indx last)) by lia. exists indx. split_and!; [done|lia|lia].
  - destruct (indx <? last) eqn:E; bools; cbn [negb]; [|exists indx; split_and!; [done|lia|lia] ]. unfold MAXPAGE in *.
    rewrite (bind_Ok _ _ _ _ _ (super_run s (Z.shiftr indx 10) ltac:(rewrite shr10; dlia))). destruct (_ =? ONES).
    { destruct (IH (indx + 1024)) as (r & Hr & ? & ?); [lia..|]. exists r. split_and!; [done|lia|done]. }
    rewrite (bind_Ok _ _ _ _ _ (bitmap_run s (Z.shiftr indx 5) ltac:(rewrite shr5; dlia))). destruct (_ =? ONES).
    { destruct (IH (indx + 32)) as (r & Hr & ? & ?); [lia..|]. exists r. split_and!; [done|lia|done]. }
    rewrite bit_test, low5, shr5 by (rewrite low5; dlia). fold (used (gaPageBitmap s) indx). destruct (used (gaPageBitmap s) indx) eqn:Eu.
    + destruct (IH (indx + 1)) as (r & Hr & ? & ?); [lia..|]. exists r. split_and!; [done|lia|done].
    + exists indx. split_and!; [done|lia|]. done.
Qed.

Definition with_last (lpf : Z) s : mm := upd_phys (giPhysAlloc s) lpf (gaSuperBitmap s) (gaPageBitmap s) (gaPageReferences s) (gaPageNodes s) s.

(** The classes that count: their first page and the page after which they end. *)
Lemma class_bounds : Forall (fun '(i, f, l) => i32 (shl1 (class_at (i - 1) - 12)) = f /\ i32 (shl1 (class_at i - 12) - 1) = l)
  [(5%nat, 1048576, 1048575); (4%nat, 4096, 1048575); (3%nat, 256, 4095); (2%nat, 16, 255); (1%nat, 1048576, 15)].
Proof. repeat constructor. Qed.

Definition found s (r : Z * Z) : Prop := 1 < r.1 -> 16 <= r.2 < 1048575 /\ usedp s r.2 = false.

(** One class: either a page of it is found or the search goes on below. *)
Lemma class_step s i first last indx : i32 (shl1 (class_at i - 12)) = first -> i32 (shl1 (class_at (S i) - 12) - 1) = last ->
  16 <= first <= last -> last <= 1048575 -> 0 <= giLastPossibleFree s < MAXPAGE -> (1 <= i)%nat ->
  (forall lpf indx, 0 <= lpf < MAXPAGE -> exists r l, class_scan i indx (with_last lpf s) = Ok r (with_last l s) /\ 0 <= l < MAXPAGE /\ found s r) ->
  exists r l, class_scan (S i) indx s = Ok r (with_last l s) /\ 0 <= l < MAXPAGE /\ found s r.
Proof.
  intros Hf Hl Hb Hb2 Hlpf Hi IH. assert (with_last (giLastPossibleFree s) s = s) as Hself by (by destruct s). unfold MAXPAGE in *.
  cbn [class_scan]. rewrite Hf, Hl, bind_get. destruct (giLastPossibleFree s <? first) eqn:E1; bools.
  { destruct (IH (giLastPossibleFree s) indx) as (r & l & H); [lia|]. rewrite Hself in H. by exists r, l. }
  set (last' := if giLastPossibleFree s <? last then i32 (giLastPossibleFree s) else last).
  assert (last' = Z.min (giLastPossibleFree s) last) as Hl' by (unfold last'; destruct (giLastPossibleFree s <? last) eqn:E2; bools; [rewrite i32_small by lia|]; lia).
  destruct (scan_free_run s last' ltac:(unfold MAXPAGE; lia) (Z.to_nat (last' - first)) first) as (r & Hr & Hr1 & Hr2); [lia..|].
  rewrite (bind_Ok _ _ _ _ _ Hr). destruct (r <? last') eqn:E3; bools.
  - exists (Z.of_nat (S i), r), (giLastPossibleFree s). rewrite Hself. split; [done|]. split; [lia|]. intros _. cbn [fst snd]. split; [lia|]. by apply Hr2.
  - unfold set_free, modify. erewrite bind_Ok by reflexivity. destruct (IH first r) as (r' & l & H & ?); [lia|]. by exists r', l.
Qed.

Lemma with_last_twice a b s : with_last a (with_last b s) = with_last a s.
Proof. done. Qed.

Lemma class_scan_run s : 0 <= giLastPossibleFree s < MAXPAGE ->
  exists r l, class_scan 5 (-1) s = Ok r (with_last l s) /\ 0 <= l < MAXPAGE /\ found s r.
Proof.
  intros Hlpf. pose proof class_bounds as Hcb. rewrite !Forall_cons in Hcb. destruct Hcb as ([F5 L5] & [F4 L4] & [F3 L3] & [F2 L2] & [F1 L1] & _).
  assert (forall lpf indx, 0 <= lpf < MAXPAGE -> exists r l, class_scan 1 indx (with_last lpf s) = Ok r (with_last l s) /\ 0 <= l < MAXPAGE /\ found s r) as H1.
  { intros lpf indx Hl. unfold MAXPAGE in *. cbn [class_scan]. change (i32 (shl1 (class_at 0 - 12))) with 1048576. rewrite bind_get. cbn [giLastPossibleFree with_last upd_phys].
    rewrite (proj2 (Z.ltb_lt lpf 1048576)) by lia. exists (0, indx), lpf. split; [done|]. split; [lia|]. intros H. cbn in H. lia. }
  assert (forall i first last, i32 (shl1 (class_at i - 12)) = first -> i32 (shl1 (class_at (S i) - 12) - 1) = last -> 16 <= first <= last -> last <= 1048575 -> (1 <= i)%nat ->
    (forall lpf indx, 0 <= lpf < MAXPAGE -> exists r l, class_scan i indx (with_last lpf s) = Ok r (with_last l s) /\ 0 <= l < MAXPAGE /\ found s r) ->
    (forall lpf indx, 0 <= lpf < MAXPAGE -> exists r l, class_scan (S i) indx (with_last lpf s) = Ok r (with_last l s) /\ 0 <= l < MAXPAGE /\ found s r)) as Hstep.
  { intros i first last Hf Hl Hb Hb2 Hi IH lpf indx Hlp. destruct (class_step (with_last lpf s) i first last indx) as (r & l & H & ? & ?); try done. by exists r, l. }
  pose proof (Hstep 1%nat 16 255 F2 L2 ltac:(lia) ltac:(lia) ltac:(lia) H1) as H2. pose proof (Hstep 2%nat 256 4095 F3 L3 ltac:(lia) ltac:(lia) ltac:(lia) H2) as H3.
  pose proof (Hstep 3%nat 4096 1048575 F4 L4 ltac:(lia) ltac:(lia) ltac:(lia) H3) as H4.
  change (class_scan 5 (-1) s) with (bind get_state (fun s0 => if giLastPossibleFree s0 <? i32 (shl1 (class_at 4 - 12)) then class_scan 4 (-1) else
    let last := if giLastPossibleFree s0 <? i32 (shl1 (class_at 5 - 12) - 1) then i32 (giLastPossibleFree s0) else i32 (shl1 (class_at 5 - 12) - 1) in
    do indx <- scan_free (Z.to_nat (last - i32 (shl1 (class_at 4 - 12)))) (i32 (shl1 (class_at 4 - 12))) last;
    if indx <? last then ret (Z.of_nat 5, indx) else set_free (i32 (shl1 (class_at 4 - 12)));;; class_scan 4 indx) s).
  change (class_at (5 - 1)) with (class_at 4) in F5. rewrite bind_get, F5. unfold MAXPAGE in *. rewrite (proj2 (Z.ltb_lt _ _)) by lia.
  destruct (H4 (giLastPossibleFree s) (-1)) as (r & l & H); [done|]. replace (with_last (giLastPossibleFree s) s) with s in H by (by destruct s). by exists r, l.
Qed.

(** What an update of the allocator's own data does to the counts, when it concerns one page. *)
Lemma upd_page s p al lpf sb pb rf nd : pm_ok s -> 0 <= lpf < MAXPAGE -> words_ok pb -> words_ok sb ->
  (forall q, 0 <= q -> q <> p -> used pb q = usedp s q) -> (forall q, q <> p -> default 0 (rf !! q) = refc s q) ->
  (rmapped s p = true -> 0 <= default 0 (rf !! p) < 2147483648 /\ (0 < default 0 (rf !! p) <-> used pb p = true)) ->
  let s' := upd_phys al lpf sb pb rf nd s in
  pm_ok s' /\ outside s' = outside s /\ (forall q, 0 <= q -> q <> p -> rc s' q = rc s q) /\
  rc s' p = if rmapped s p then default 0 (rf !! p) else b2z (used pb p).
Proof.
  intros [Hc Hl Hw Hr] Hlpf Hpb Hsb Hus Hrf Hp s'. assert (outside s' = outside s) as Ho by done.
  assert (forall q, rmapped s' q = rmapped s q) as Hm by (intros q; by apply rmapped_outside).
  split; [|split; [done|split; [|unfold rc; by rewrite Hm] ] ].
  - split; try done. intros q Hq Hmq. rewrite Hm in Hmq. unfold refc, usedp. cbn [s' upd_phys gaPageReferences gaPageBitmap].
    destruct (decide (q = p)) as [->|Hne]; [by apply Hp|]. rewrite Hrf, Hus by (done || lia). by apply Hr.
  - intros q Hq Hne. unfold rc. rewrite Hm. unfold refc at 1, usedp at 1. cbn [s' upd_phys gaPageReferences gaPageBitmap]. by rewrite Hrf, Hus.
Qed.

Lemma set_ref_run s p v : rmapped s p = true -> set_ref p v s =
  Ok tt (upd_phys (giPhysAlloc s) (giLastPossibleFree s) (gaSuperBitmap s) (gaPageBitmap s) (<[p := v]> (gaPageReferences s)) (gaPageNodes s) s).
Proof. intros H. unfold set_ref. by rewrite (bind_Ok _ _ _ _ _ (refs_mapped_run s p)), H. Qed.
Lemma get_ref_run s p : rmapped s p = true -> get_ref p s = Ok (refc s p) s.
Proof. intros H. unfold get_ref. by rewrite (bind_Ok _ _ _ _ _ (refs_mapped_run s p)), H. Qed.

(** Setting the count of a mapped page, or nothing. *)
Lemma maybe_ref_run s p v : (do m <- refs_mapped p; if (m : bool) then set_ref p v else ret tt) s =
  Ok tt (upd_phys (giPhysAlloc s) (giLastPossibleFree s) (gaSuperBitmap s) (gaPageBitmap s) (if rmapped s p then <[p := v]> (gaPageReferences s) else gaPageReferences s) (gaPageNodes s) s).
Proof.
  rewrite (bind_Ok _ _ _ _ _ (refs_mapped_run s p)). destruct (rmapped s p) eqn:E; [by apply set_ref_run|]. unfold ret. f_equal. by destruct s.
Qed.

(** The end of an operation that has marked a page: the mark of its block. *)
Lemma maybe_super_run s w b i : 0 <= b < 1024 -> 0 <= i < 32 -> words_ok (gaSuperBitmap s) ->
  exists sb, (if w =? ONES then do sup <- super b; set_super b (set_bit sup i) else ret tt) s =
    Ok tt (upd_phys (giPhysAlloc s) (giLastPossibleFree s) sb (gaPageBitmap s) (gaPageReferences s) (gaPageNodes s) s) /\ words_ok sb.
Proof.
  intros Hb Hi Hw. destruct (w =? ONES).
  - rewrite (bind_Ok _ _ _ _ _ (super_run s b Hb)), set_super_run by done. eexists. split; [done|].
    apply words_insert; [done|]. apply set_bit_range; [by apply words_default|done].
  - exists (gaSuperBitmap s). split; [unfold ret; f_equal; by destruct s|done].
Qed.

Lemma outside_last l s : outside (with_last l s) = outside s.
Proof. done. Qed.

(** A page that was free, now with one reference; or none and no change of any count. *)
Definition allocated s s' (r : Z) : Prop :=
  pm_ok s' /\ outside s' = outside s /\
  ((r = 0 /\ forall q, rc s' q = rc s q) \/
   exists p, r = p * 4096 /\ 16 <= p < giPageCount s /\ rc s p = 0 /\ rc s' p = 1 /\ forall q, 0 <= q -> q <> p -> rc s' q = rc s q).

Lemma AllocPhys_run s : pm_ok s -> exists r s', MM_AllocPhys s = Ok r s' /\ allocated s s' r /\
  m_warnings s <= m_warnings s' /\ (r = 0 -> giPageCount s = MAXPAGE -> m_warnings s < m_warnings s').
Proof.
  intros Hok. destruct (class_scan_run s (pm_last _ Hok)) as ([c indx] & l & Hscan & Hl & Hfound).
  assert (forall q, rc (with_last l s) q = rc s q) as Hrc by done.
  assert (pm_ok (with_last l s)) as Hokl by (destruct Hok; by split).
  unfold MM_AllocPhys. rewrite (bind_Ok _ _ _ _ _ Hscan). cbn [fst snd]. cbv zeta. unfold found in Hfound. cbn [fst snd] in Hfound.
  destruct (c <=? 1) eqn:Ec; bools.
  { eexists _, _. split; [reflexivity|]. split; [|cbn; lia]. split; [by destruct Hokl|]. split; [done|]. left. done. }
  destruct (Hfound Ec) as [Hr Hfree]. rewrite (proj2 (Z.ltb_ge indx 0)), (proj2 (Z.ltb_ge 0xFFFFF indx)), bind_get by lia.
  cbn [giPageCount with_last upd_phys]. destruct (giPageCount s <=? indx) eqn:Eg; bools.
  { eexists _, _. split; [reflexivity|]. split; [|cbn; unfold MAXPAGE; lia]. split; [done|]. split; [done|]. left. done. }
  assert (0 <= indx / 32 < 32768 /\ 0 <= indx mod 32 < 32 /\ 0 <= indx / 1024 < 1024 /\ 0 <= (indx / 32) mod 32 < 32) as (Hb1 & Hb2 & Hb3 & Hb4).
  { assert (indx < 1048576) by lia. split_and!; dlia. }
  rewrite <- (bind_assoc (refs_mapped indx)). rewrite (bind_Ok _ _ _ _ _ (maybe_ref_run (with_last l s) indx 1)). rewrite shr5, shr10, !low5.
  rewrite (bind_Ok _ _ _ _ _ (bitmap_run _ (indx / 32) Hb1)), (bind_Ok _ _ _ _ _ (set_bitmap_run _ (indx / 32) _ Hb1)).
  unfold add_alloc at 1, modify at 1. erewrite bind_Ok by reflexivity. rewrite (bind_Ok _ _ _ _ _ (bitmap_run _ (indx / 32) Hb1)).
  set (s1 := upd_phys _ _ _ _ _ _ _). destruct (maybe_super_run s1 (default 0 (gaPageBitmap s1 !! (indx / 32))) (indx / 1024) ((indx / 32) mod 32) Hb3 Hb4 (proj2 (pm_words _ Hok))) as (sb & Hsb & Hsbw).
  rewrite (bind_Ok _ _ _ _ _ Hsb).
  replace (u32 (Z.shiftl indx 12)) with (indx * 4096) by (rewrite Z.shiftl_mul_pow2 by lia; rewrite u32_small; lia).
  eexists _, _. split; [reflexivity|]. split; [|cbn; lia].
  cbn [s1 giPhysAlloc giLastPossibleFree gaPageBitmap gaPageReferences gaPageNodes upd_phys with_last].
  match goal with |- allocated s (upd_phys ?al ?lpf ?sb ?pb ?rf ?nd _) _ =>
    destruct (upd_page s indx al lpf sb pb rf nd) as (H1 & H2 & H3 & H4); [done|done| |done| | | |] end.
  - apply words_insert; [apply Hok|]. apply set_bit_range; [apply words_default, Hok|done].
  - intros q Hq Hne. rewrite used_set by lia. by rewrite (proj2 (Z.eqb_neq indx q)) by lia.
  - intros q Hne. change (rmapped (with_last l s) indx) with (rmapped s indx). destruct (rmapped s indx); [by rewrite lookup_insert_ne|done].
  - intros Hm. change (rmapped (with_last l s) indx) with (rmapped s indx). rewrite Hm, lookup_insert_eq. cbn [default from_option id].
    rewrite used_set by lia. rewrite Z.eqb_refl. split; [lia|]. by split.
  - split; [exact H1|]. split; [exact H2|]. right. exists indx. split; [done|]. split; [lia|]. split.
    { unfold usedp in Hfree. destruct (rc_range s indx Hok ltac:(lia)) as [Hra Hru]. unfold usedp in Hru. rewrite Hfree in Hru.
      destruct (Z.lt_ge_cases 0 (rc s indx)) as [Hlt|]; [apply Hru in Hlt; done|lia]. }
    split; [etransitivity; [exact H4|]|exact H3]. change (rmapped (with_last l s) indx) with (rmapped s indx). destruct (rmapped s indx); [by rewrite lookup_insert_eq|].
    rewrite used_set, Z.eqb_refl by lia. done.
Qed.

(** ** Releasing *)
Lemma page_range PAddr : 0 <= PAddr -> 0 <= page_of PAddr.
Proof. intros H. unfold page_of. by apply Z.shiftr_nonneg. Qed.

Lemma clear_super_run s w b i : 0 <= b < 1024 -> 0 <= i < 32 -> words_ok (gaSuperBitmap s) ->
  exists sb, (if w =? 0 then do sup <- super b; set_super b (clear_bit sup i) else ret tt) s =
    Ok tt (upd_phys (giPhysAlloc s) (giLastPossibleFree s) sb (gaPageBitmap s) (gaPageReferences s) (gaPageNodes s) s) /\ words_ok sb.
Proof.
  intros Hb Hi Hw. destruct (w =? 0).
  - rewrite (bind_Ok _ _ _ _ _ (super_run s b Hb)), set_super_run by done. eexists. split; [done|].
    apply words_insert; [done|]. apply clear_bit_range. by apply words_default.
  - exists (gaSuperBitmap s). split; [unfold ret; f_equal; by destruct s|done].
Qed.
Lemma maybe_node_run s p : exists nd, (do n <- nodes_mapped p; if (n : bool) then set_node p 0 else ret tt) s =
  Ok tt (upd_phys (giPhysAlloc s) (giLastPossibleFree s) (gaSuperBitmap s) (gaPageBitmap s) (gaPageReferences s) nd s).
Proof.
  rewrite (bind_Ok _ _ _ _ _ (nodes_mapped_run s p)). destruct (nmapped s p) eqn:E.
  - unfold set_node. rewrite (bind_Ok _ _ _ _ _ (nodes_mapped_run s p)), E. by eexists.
  - exists (gaPageNodes s). unfold ret. f_equal. by destruct s.
Qed.

(** The last part: the page is free. *)
Lemma release_run s p : 0 <= p < MAXPAGE -> words_ok (gaPageBitmap s) -> words_ok (gaSuperBitmap s) ->
  exists al sb nd, (add_alloc (-1);;; do w <- bitmap (p / 32); set_bitmap (p / 32) (clear_bit w (Z.land p 31));;;
    (if clear_bit w (Z.land p 31) =? 0 then do sup <- super (Z.shiftr p 10); set_super (Z.shiftr p 10) (clear_bit sup (Z.land (Z.shiftr p 5) 31)) else ret tt);;;
    do n <- nodes_mapped p; if (n : bool) then set_node p 0 else ret tt) s =
  Ok tt (upd_phys al (giLastPossibleFree s) sb (<[p / 32 := clear_bit (default 0 (gaPageBitmap s !! (p / 32))) (p mod 32)]> (gaPageBitmap s)) (gaPageReferences s) nd s) /\ words_ok sb.
Proof.
  unfold MAXPAGE. intros Hp Hw Hs. assert (0 <= p / 32 < 32768 /\ 0 <= p mod 32 < 32 /\ 0 <= p / 1024 < 1024 /\ 0 <= (p / 32) mod 32 < 32) as (Hb1 & Hb2 & Hb3 & Hb4) by (split_and!; dlia).
  rewrite shr5, shr10, !low5. unfold add_alloc at 1, modify at 1. erewrite bind_Ok by reflexivity. set (s1 := upd_phys _ _ _ _ _ _ s).
  rewrite (bind_Ok _ _ _ _ _ (bitmap_run s1 (p / 32) Hb1)), (bind_Ok _ _ _ _ _ (set_bitmap_run _ (p / 32) _ Hb1)). set (s2 := upd_phys _ _ _ _ _ _ s1).
  destruct (clear_super_run s2 (clear_bit (default 0 (gaPageBitmap s1 !! (p / 32))) (p mod 32)) (p / 1024) ((p / 32) mod 32) Hb3 Hb4 Hs) as (sb & Hsb & Hsbw).
  rewrite (bind_Ok _ _ _ _ _ Hsb). destruct (maybe_node_run (upd_phys (giPhysAlloc s2) (giLastPossibleFree s2) sb (gaPageBitmap s2) (gaPageReferences s2) (gaPageNodes s2) s2) p) as (nd & Hnd).
  rewrite Hnd. by eexists _, sb, nd.
Qed.

Lemma set_last_run s p : exists l, (if giLastPossibleFree s <? p then set_free p else ret tt) s = Ok tt (with_last l s) /\ (l = p \/ l = giLastPossibleFree s).
Proof.
  destruct (_ <? _); [by exists p; auto|]. exists (giLastPossibleFree s). split; [|auto]. unfold ret. f_equal. by destruct s.
Qed.

(** One reference less; the page is free when it was the last. *)
Definition released s s' p : Prop :=
  pm_ok s' /\ outside s' = outside s /\ (forall q, 0 <= q -> q <> p -> rc s' q = rc s q) /\
  rc s' p = (if p <? giPageCount s then Z.max 0 (rc s p - 1) else rc s p).

Lemma rc_warn n s q : rc (upd_misc (giMM_ZeroPage s) (gTempMappings s) (gWorkerStacks s) (giLastUsedWorker s) n s) q = rc s q.
Proof. done. Qed.

Lemma DerefPhys_run s PAddr : pm_ok s -> 0 <= PAddr -> exists s', MM_DerefPhys PAddr s = Ok tt s' /\ released s s' (page_of PAddr) /\
  (0 < rc s (page_of PAddr) -> m_warnings s' = m_warnings s).
Proof.
  intros Hok HP. pose proof (page_range _ HP) as Hp. set (p := page_of PAddr) in *. unfold MM_DerefPhys. fold p. cbv zeta. rewrite bind_get.
  destruct (giPageCount s <=? p) eqn:Ec; bools.
  { exists s. split; [done|]. split; [|done]. unfold released. rewrite (proj2 (Z.ltb_ge _ _)) by done. done. }
  pose proof (pm_count _ Hok) as Hcount. assert (0 <= p < MAXPAGE) as Hpm by lia. unfold MAXPAGE in *.
  rewrite (bind_Ok _ _ _ _ _ (bitmap_run s (p / 32) ltac:(dlia))), bit_test by dlia. fold (used (gaPageBitmap s) p). fold (usedp s p).
  destruct (rc_range s p Hok ltac:(lia)) as [Hrc Hru].
  destruct (usedp s p) eqn:Eu; cbn [negb]; cycle 1.
  { assert (rc s p = 0) as Hz by (destruct (Z.lt_ge_cases 0 (rc s p)) as [Hlt|]; [by apply Hru in Hlt|lia]). eexists. split; [reflexivity|].
    split; [|rewrite Hz; lia]. split; [by destruct Hok|]. split; [done|]. split; [done|]. rewrite (proj2 (Z.ltb_lt _ _)), Hz by lia. exact Hz. }
  assert (0 < rc s p) as Hpos by (by apply Hru). destruct (set_last_run s p) as (l & Hl & Hll). rewrite (bind_Ok _ _ _ _ _ Hl).
  assert (0 <= l < MAXPAGE) as Hlr by (unfold MAXPAGE; destruct Hll as [-> | ->]; [lia|apply Hok]).
  rewrite (bind_Ok _ _ _ _ _ (refs_mapped_run _ p)). change (rmapped (with_last l s) p) with (rmapped s p). unfold rc in Hrc, Hpos.
  destruct (rmapped s p) eqn:Em; cbn [negb].
  - rewrite bind_assoc, (bind_Ok _ _ _ _ _ (get_ref_run (with_last l s) p Em)), bind_assoc, (bind_Ok _ _ _ _ _ (set_ref_run (with_last l s) p _ Em)), bind_ret.
    change (refc (with_last l s) p) with (refc s p). rewrite i32_small by lia. destruct (refc s p - 1 =? 0) eqn:Er; bools; cbn [negb].
    + set (s1 := upd_phys _ _ _ _ _ _ (with_last l s)). destruct (release_run s1 p Hpm (proj1 (pm_words _ Hok)) (proj2 (pm_words _ Hok))) as (al & sb & nd & Hrel & Hsb).
      rewrite Hrel. eexists. split; [reflexivity|]. split; [|done]. cbn [s1 gaPageBitmap gaPageReferences giLastPossibleFree with_last upd_phys].
      match goal with |- released s (upd_phys ?al ?lpf ?sb ?pb ?rf ?nd _) _ => destruct (upd_page s p al lpf sb pb rf nd) as (H1 & H2 & H3 & H4); try done end.
      * apply words_insert; [apply Hok|]. apply clear_bit_range, words_default, Hok.
      * intros q Hq Hne. rewrite used_clear by lia. by rewrite (proj2 (Z.eqb_neq p q)) by lia.
      * intros q Hne. by rewrite lookup_insert_ne.
      * intros _. rewrite lookup_insert_eq. cbn [default from_option id]. rewrite used_clear, Z.eqb_refl by lia. split; [lia|]. cbn. split; [lia|done].
      * split; [exact H1|]. split; [exact H2|]. split; [exact H3|]. etransitivity; [exact H4|]. rewrite Em, lookup_insert_eq, (proj2 (Z.ltb_lt _ _)) by lia.
        cbn [default from_option id]. unfold rc. rewrite Em. lia.
    + eexists. split; [reflexivity|]. split; [|done].
      match goal with |- released s (upd_phys ?al ?lpf ?sb ?pb ?rf ?nd _) _ => destruct (upd_page s p al lpf sb pb rf nd) as (H1 & H2 & H3 & H4); try done end.
      * apply Hok.
      * apply Hok.
      * intros q Hne. cbn [with_last upd_phys gaPageReferences]. by rewrite lookup_insert_ne.
      * intros _. rewrite lookup_insert_eq. cbn [default from_option id]. split; [lia|]. split; [done|lia].
      * split; [exact H1|]. split; [exact H2|]. split; [exact H3|]. etransitivity; [exact H4|]. rewrite Em, lookup_insert_eq, (proj2 (Z.ltb_lt _ _)) by lia.
        cbn [default from_option id]. unfold rc. rewrite Em. lia.
  - rewrite bind_ret. cbn [negb]. destruct (release_run (with_last l s) p Hpm (proj1 (pm_words _ Hok)) (proj2 (pm_words _ Hok))) as (al & sb & nd & Hrel & Hsb).
    rewrite Hrel. eexists. split; [reflexivity|]. split; [|done]. cbn [gaPageBitmap gaPageReferences giLastPossibleFree with_last upd_phys].
    match goal with |- released s (upd_phys ?al ?lpf ?sb ?pb ?rf ?nd _) _ => destruct (upd_page s p al lpf sb pb rf nd) as (H1 & H2 & H3 & H4); try done end.
    + apply words_insert; [apply Hok|]. apply clear_bit_range, words_default, Hok.
    + intros q Hq Hne. rewrite used_clear by lia. by rewrite (proj2 (Z.eqb_neq p q)) by lia.
    + rewrite Em. done.
    + split; [exact H1|]. split; [exact H2|]. split; [exact H3|]. etransitivity; [exact H4|]. rewrite Em, used_clear, Z.eqb_refl, (proj2 (Z.ltb_lt _ _)) by lia.
      unfold rc. rewrite Em, Eu. done.
Qed.

(** ** Words of physical memory *)
Lemma mask_high k p : 0 <= k <= 32 -> 0 <= p < 4294967296 -> Z.land p (Z.ldiff (Z.ones 32) (Z.ones k)) = p - p mod 2 ^ k.
Proof.
  intros Hk Hp. transitivity (Z.ldiff p (Z.ones k)).
  - apply Z.bits_inj'. intros n Hn. rewrite Z.land_spec, !Z.ldiff_spec. destruct (Z.lt_ge_cases n 32) as [Hlt|Hge].
    + rewrite (Z.ones_spec_low 32 n) by lia. done.
    + rewrite word_bits by lia. done.
  - rewrite Z.ldiff_ones_r, Z.shiftr_div_pow2, Z.shiftl_mul_pow2 by lia. pose proof (Z.div_mod p (2 ^ k) ltac:(apply Z.pow_nonzero; lia)). lia.
Qed.
Lemma frame_eq e : 0 <= e < 4294967296 -> frame e = e - e mod 4096.
Proof. intros He. unfold frame. change 0xFFFFF000 with (Z.ldiff (Z.ones 32) (Z.ones 12)). by rewrite mask_high by lia. Qed.
Lemma base_eq p : 0 <= p < 4294967296 -> Z.land p (u32 (Z.lnot 1023)) = p - p mod 1024.
Proof. intros He. change (u32 (Z.lnot 1023)) with (Z.ldiff (Z.ones 32) (Z.ones 10)). by rewrite mask_high by lia. Qed.

Lemma word_put m p i v q j : word (put_word m p i v) q j = if decide (q = p /\ j = i) then v else word m q j.
Proof.
  unfold word, put_word. destruct (decide (q = p)) as [->|Hq].
  - rewrite lookup_insert_eq. cbn [default from_option id]. destruct (decide (j = i)) as [->|Hj].
    + rewrite lookup_insert_eq. by rewrite decide_True.
    + rewrite lookup_insert_ne by done. by rewrite decide_False by tauto.
  - rewrite lookup_insert_ne by done. by rewrite decide_False by tauto.
Qed.
Lemma word_put_eq m p i v : word (put_word m p i v) p i = v.
Proof. rewrite word_put. by rewrite decide_True. Qed.
Lemma word_put_page m p i v q j : q <> p -> word (put_word m p i v) q j = word m q j.
Proof. intros H. rewrite word_put. by rewrite decide_False by tauto. Qed.
Lemma word_put_index m p i v q j : j <> i -> word (put_word m p i v) q j = word m q j.
Proof. intros H. rewrite word_put. by rewrite decide_False by tauto. Qed.

(** A frame with flags below it. *)
Lemma lor_low p f : 0 <= p -> 0 <= f < 4096 -> Z.lor (p * 4096) f = p * 4096 + f.
Proof.
  intros Hp Hf. rewrite <- Z.lxor_lor, <- Z.add_nocarry_lxor; try done; (apply Z.bits_inj'; intros n Hn; rewrite Z.land_spec, Z.bits_0;
  change 4096 with (2 ^ 12); rewrite <- Z.shiftl_mul_pow2 by lia; destruct (Z.lt_ge_cases n 12);
  [rewrite Z.shiftl_spec_low by done; done|];
  rewrite (Z.bits_above_log2 f n); [by rewrite andb_false_r|lia|]; destruct (Z.eq_dec f 0) as [->|]; [cbn; lia|]; apply Z.log2_lt_pow2; [lia|];
  apply Z.lt_le_trans with (2 ^ 12); [lia|apply Z.pow_le_mono_r; lia]).
Qed.
Lemma page_of_lor p f : 0 <= p -> 0 <= f < 4096 -> page_of (Z.lor (p * 4096) f) = p.
Proof. intros Hp Hf. rewrite lor_low by done. unfold page_of. rewrite shr12. dlia. Qed.
Lemma frame_lor p f : 0 <= p < MAXPAGE -> 0 <= f < 4096 -> frame (Z.lor (p * 4096) f) = p * 4096.
Proof. unfold MAXPAGE. intros Hp Hf. rewrite lor_low, frame_eq by lia. dlia. Qed.
Lemma present_odd e : present e = Z.odd e.
Proof. unfold present, has, PF_PRESENT. rewrite <- Z.bit0_odd. pose proof (bit_test e 0 ltac:(lia)) as H. unfold bit in H. exact H. Qed.
