(* ===== verification/MmRefs.v ===== *)
(** * Reference counts of pages that are mapped on demand

    Below [MM_REFCOUNT_BASE] nothing is mapped at first: the count of a page is its bit.  The first reference that
    is taken to a page of a group of 1024 allocates the page of their counts and fills it from the bits. *)
From S2P Require Import Prelude Mm MmInv.

Local Open Scope Z_scope.
Local Open Scope monad_scope.
Implicit Types (s : mm) (p q : Z).

(** The table of the counts' addresses: all of it is one directory entry's. *)
Definition REFS_DIR := 912.
Definition refs_page s : Z := page_of (pde s REFS_DIR).
Definition refs_entry s (i : Z) : Z := word (mem s) (refs_page s) i.
Record refs_ok s : Prop := {
  rk_on : gbReferences s = true;
  rk_dir : present (pde s REFS_DIR) = true;
  rk_sep : refs_page s <> page_of (CR3 s);
  rk_ent : forall i, refs_entry s i = 0 \/ (present (refs_entry s i) = true /\ frame (refs_entry s i) <> 0) }.

Lemma ref_addr_small p : 0 <= p < MAXPAGE -> ref_addr p = 3825205248 + 4 * p.
Proof. unfold MAXPAGE. intros Hp. unfold ref_addr, MM_REFCOUNT_BASE. rewrite u32_small; lia. Qed.
Lemma ref_addr_page p : 0 <= p < MAXPAGE -> Z.shiftr (ref_addr p) 12 = 933888 + p / 1024.
Proof. intros Hp. rewrite ref_addr_small, shr12 by done. unfold MAXPAGE in *. dlia. Qed.
Lemma ref_addr_dir p : 0 <= p < MAXPAGE -> Z.shiftr (ref_addr p) 22 = REFS_DIR.
Proof. intros Hp. rewrite <- shift_twice, ref_addr_page, shr10 by done. unfold MAXPAGE, REFS_DIR in *. dlia. Qed.
Lemma low10 p : Z.land p 0x3FF = p mod 1024.
Proof. change 0x3FF with (Z.ones 10). by rewrite Z.land_ones. Qed.
Lemma ref_addr_index p : 0 <= p < MAXPAGE -> Z.land (933888 + p / 1024) 0x3FF = p / 1024.
Proof. intros Hp. rewrite low10. unfold MAXPAGE in *. dlia. Qed.
Lemma ref_dir p : 0 <= p < MAXPAGE -> Z.shiftr (933888 + p / 1024) 10 = REFS_DIR.
Proof. intros Hp. rewrite <- ref_addr_page, shift_twice by done. by apply ref_addr_dir. Qed.
Lemma ref_pte s p : 0 <= p < MAXPAGE -> pte s (Z.shiftr (ref_addr p) 12) = refs_entry s (p / 1024).
Proof. intros Hp. unfold pte, refs_entry, refs_page. by rewrite ref_addr_page, ref_dir, ref_addr_index by done. Qed.

Lemma lor_zero a b : Z.lor a b = 0 -> a = 0.
Proof. intros H. by apply Z.lor_eq_0_iff in H as [-> _]. Qed.

Lemma rmapped_eq s p : refs_ok s -> 0 <= p < MAXPAGE -> rmapped s p = present (refs_entry s (p / 1024)).
Proof.
  intros Hok Hp. unfold rmapped, phys. rewrite ref_addr_dir, ref_pte, (rk_dir _ Hok) by done. cbn [andb].
  destruct (rk_ent _ Hok (p / 1024)) as [Hz|[Hpr Hfr] ]; [by rewrite Hz|]. rewrite Hpr. destruct (_ =? 0) eqn:E; bools; [|done].
  by apply lor_zero in E.
Qed.

(** ** Filling a group *)
Lemma fill_loop s base n : forall i refs, (0 <= i) -> i + Z.of_nat n <= 1024 -> 0 <= base -> base + 1024 <= MAXPAGE ->
  (forall j, 0 <= j < 1024 -> rmapped s (base + j) = true) ->
  exists refs', for_ n i (fun i => do w <- bitmap ((base + i) / 32); set_ref (base + i) (b2z (bit w ((base + i) mod 32))))
      (upd_phys (giPhysAlloc s) (giLastPossibleFree s) (gaSuperBitmap s) (gaPageBitmap s) refs (gaPageNodes s) s) =
    Ok tt (upd_phys (giPhysAlloc s) (giLastPossibleFree s) (gaSuperBitmap s) (gaPageBitmap s) refs' (gaPageNodes s) s) /\
    forall q, refs' !! q = if decide (base + i <= q < base + i + Z.of_nat n) then Some (b2z (usedp s q)) else refs !! q.
Proof.
  unfold MAXPAGE. induction n as [|n IH]; intros i refs Hi Hn Hb Hb2 Hm; cbn [for_].
  - exists refs. split; [done|]. intros q. by rewrite decide_False by lia.
  - rewrite bind_assoc, (bind_Ok _ _ _ _ _ (bitmap_run _ ((base + i) / 32) ltac:(dlia))). rewrite bit_test by dlia.
    erewrite bind_Ok by (apply set_ref_run; exact (Hm i ltac:(lia))).
    destruct (IH (i + 1) (<[base + i := b2z (usedp s (base + i))]> refs)) as (refs' & Hrun & Hq); [lia..|done|]. exists refs'. split; [exact Hrun|].
    intros q. rewrite Hq. destruct (decide (q = base + i)) as [->|Hne].
    + rewrite decide_False by lia. rewrite decide_True by lia. by rewrite lookup_insert_eq.
    + rewrite lookup_insert_ne by done. destruct (decide (base + (i + 1) <= q < _)); [by rewrite decide_True by lia|by rewrite decide_False by lia].
Qed.

(** ** Mapping the page of a group *)
Definition map_refs (i c : Z) s : mm := upd_mem (put_word (mem s) (refs_page s) i (Z.lor (c * 4096) 3)) s.

Lemma map_refs_pde i c s j : refs_ok s -> pde (map_refs i c s) j = pde s j.
Proof. intros Hok. unfold pde, map_refs. cbn [upd_mem mem CR3]. apply word_put_page. pose proof (rk_sep _ Hok). done. Qed.
Lemma map_refs_entry i c s j : refs_ok s -> refs_entry (map_refs i c s) j = if decide (j = i) then Z.lor (c * 4096) 3 else refs_entry s j.
Proof.
  intros Hok. unfold refs_entry. replace (refs_page (map_refs i c s)) with (refs_page s) by (unfold refs_page; by rewrite map_refs_pde).
  unfold map_refs. cbn [upd_mem mem]. rewrite word_put. destruct (decide (j = i)) as [->|Hj]; [by rewrite decide_True|by rewrite decide_False by tauto].
Qed.
Lemma present_lor3 c : 0 <= c -> present (Z.lor (c * 4096) 3) = true.
Proof. intros Hc. rewrite present_odd, lor_low by lia. replace (c * 4096 + 3) with (1 + 2 * (c * 2048 + 1)) by lia. by rewrite Z.odd_add_mul_2. Qed.
Lemma map_refs_ok i c s : refs_ok s -> 0 < c < MAXPAGE -> refs_ok (map_refs i c s).
Proof.
  intros Hok Hc. assert (refs_page (map_refs i c s) = refs_page s) as Hpg by (unfold refs_page; by rewrite map_refs_pde).
  split; [apply Hok|by rewrite map_refs_pde; [apply Hok|]|rewrite Hpg; apply Hok|]. intros j. rewrite map_refs_entry by done.
  destruct (decide (j = i)); [|apply Hok]. right. split; [by apply present_lor3; lia|]. rewrite frame_lor by lia. lia.
Qed.

Lemma refs_ok_outside s s' : outside s' = outside s -> refs_ok s -> refs_ok s'.
Proof.
  intros [= E1 E2 _ E4 _ _ _ _ _] [H1 H2 H3 H4]. unfold refs_entry, refs_page, pde in *. split; unfold refs_entry, refs_page, pde; rewrite ?E1, ?E2, ?E4; done.
Qed.

Lemma Map_refs_run s p c : refs_ok s -> 0 <= p < MAXPAGE -> p mod 1024 = 0 -> 0 <= c -> rmapped s p = false ->
  MM_Map (ref_addr p) (c * 4096) s = Ok 1 (map_refs (p / 1024) c s).
Proof.
  intros Hok Hp Hmod Hc Hm. rewrite rmapped_eq in Hm by done. unfold MM_Map. cbv zeta.
  replace (Z.land (c * 4096) 0xFFF) with 0 by (change 0xFFF with (Z.ones 12); rewrite Z.land_ones by lia; dlia).
  replace (Z.land (ref_addr p) 0xFFF) with 0 by (change 0xFFF with (Z.ones 12); rewrite Z.land_ones, ref_addr_small by done; dlia).
  cbn [Z.eqb negb orb]. replace (ref_addr p <? MM_USER_MAX) with false by (symmetry; apply Z.ltb_ge; rewrite ref_addr_small by done; unfold MM_USER_MAX; lia).
  rewrite ref_addr_page, ref_dir by done. unfold gaPageDir at 1, gets at 1. erewrite bind_Ok by reflexivity. fold (pde s REFS_DIR).
  destruct (pde s REFS_DIR =? 0) eqn:Ed; bools. { pose proof (rk_dir _ Hok) as H. by rewrite Ed in H. }
  rewrite bind_assoc, (bind_Ok _ _ _ _ _ (gaPageTable_run s _ ltac:(rewrite ref_dir by done; apply Hok))).
  rewrite <- ref_addr_page, ref_pte by done. destruct (rk_ent _ Hok (p / 1024)) as [Hz|[Hpr _] ]; [|congruence]. rewrite Hz. cbn [Z.eqb negb]. rewrite bind_ret. cbn [negb].
  rewrite ref_addr_page by done. rewrite (bind_Ok _ _ _ _ _ (set_PageTable_run s _ _ ltac:(rewrite ref_dir by done; apply Hok))).
  rewrite ref_dir, ref_addr_index, Z.lor_0_r by done. done.
Qed.

Lemma populate_rc s i c refs' : pm_ok s -> refs_ok s -> 0 < c < MAXPAGE -> 0 <= i < 1024 -> present (refs_entry s i) = false ->
  (forall q, refs' !! q = if decide (i * 1024 <= q < i * 1024 + 1024) then Some (b2z (usedp s q)) else gaPageReferences s !! q) ->
  let s' := upd_phys (giPhysAlloc s) (giLastPossibleFree s) (gaSuperBitmap s) (gaPageBitmap s) refs' (gaPageNodes s) (map_refs i c s) in
  pm_ok s' /\ refs_ok s' /\ (forall q, 0 <= q < MAXPAGE -> rc s' q = rc s q) /\ (forall q, i * 1024 <= q < i * 1024 + 1024 -> rmapped s' q = true).
Proof.
  intros Hok Hr Hc Hi Hno Hrefs s'. assert (refs_ok s') as Hr' by (eapply refs_ok_outside; [|by apply (map_refs_ok i c)]; done).
  assert (forall q, 0 <= q < MAXPAGE -> rmapped s' q = rmapped s q || bool_decide (i * 1024 <= q < i * 1024 + 1024)) as Hmap.
  { intros q Hq. rewrite !rmapped_eq by done. change (refs_entry s' (q / 1024)) with (refs_entry (map_refs i c s) (q / 1024)). rewrite map_refs_entry by done.
    destruct (decide (q / 1024 = i)) as [E|E].
    - rewrite present_lor3, bool_decide_true by dlia. by rewrite orb_true_r.
    - rewrite bool_decide_false by dlia. by rewrite orb_false_r. }
  assert (forall q, 0 <= q < MAXPAGE -> i * 1024 <= q < i * 1024 + 1024 -> rmapped s q = false) as Hun.
  { intros q Hq1 Hq2. rewrite rmapped_eq by done. by replace (q / 1024) with i by dlia. }
  assert (forall q, 0 <= q < MAXPAGE -> rmapped s' q = true -> refc s' q = rc s q) as Hrefc.
  { intros q Hq Hm. unfold refc, s'. cbn [upd_phys gaPageReferences]. rewrite Hrefs. unfold rc. destruct (decide _) as [Hin|Hout].
    - by rewrite (Hun q Hq Hin).
    - rewrite Hmap, bool_decide_false, orb_false_r in Hm by done. by rewrite Hm. }
  unfold MAXPAGE in *. split; [|split; [done|split] ].
  - pose proof (pm_count _ Hok) as K1. unfold MAXPAGE in K1. split; [apply Hok..|]. intros q Hq Hm. change (giPageCount s') with (giPageCount s) in Hq.
    rewrite Hrefc by (done || lia). exact (rc_range s q Hok Hq).
  - intros q Hq. unfold rc at 1. destruct (rmapped s' q) eqn:Em; [by apply Hrefc|]. unfold rc. rewrite Hmap in Em by done. apply orb_false_iff in Em as [Em _]. by rewrite Em.
  - intros q Hq. rewrite Hmap, bool_decide_true by lia. apply orb_true_r.
Qed.

(** What changes when the counts of a group become mapped: one page was taken for them. *)
Record populated s s' p c : Prop := {
  po_pm : pm_ok s'; po_refs : refs_ok s'; po_map : rmapped s' p = true;
  po_page : 16 <= c < giPageCount s /\ rc s c = 0 /\ rc s' c = 1;
  po_rc : forall q, 0 <= q < MAXPAGE -> q <> c -> rc s' q = rc s q;
  po_mem : outside s' = outside (map_refs (p / 1024) c s) }.

Lemma populate_run s p : pm_ok s -> refs_ok s -> 0 <= p < giPageCount s -> rmapped s p = false ->
  let code := do a <- MM_Allocate (ref_addr (p - p mod 1024)); if a =? 0 then halt MPanic else fill_refs (p - p mod 1024) in
  (exists s1, MM_AllocPhys s = Ok 0 s1 /\ code s = Stop MPanic) \/ exists c s', code s = Ok tt s' /\ populated s s' p c.
Proof.
  intros Hok Hr Hp Hm. pose proof (pm_count _ Hok) as Hcount. unfold MAXPAGE in Hcount. cbv zeta.
  destruct (AllocPhys_run s Hok) as (r & s1 & Halloc & (Hok1 & Hout & Hcase) & _). set (base := p - p mod 1024) in *.
  assert (0 <= base /\ base + 1024 <= MAXPAGE /\ base mod 1024 = 0 /\ base / 1024 = p / 1024 /\ base <= p < base + 1024) as (Hb1 & Hb2 & Hb3 & Hb4 & Hb5)
    by (unfold base, MAXPAGE; split_and!; dlia).
  pose proof (refs_ok_outside _ _ Hout Hr) as Hr1. assert (present (refs_entry s1 (p / 1024)) = false) as Hno1.
  { rewrite <- rmapped_eq by (done || unfold MAXPAGE; lia). by rewrite (rmapped_outside _ _ _ Hout). }
  assert (rmapped s1 base = false) as Hm1 by (rewrite rmapped_eq, Hb4 by (done || unfold MAXPAGE in *; lia); done).
  unfold MAXPAGE in *. unfold MM_Allocate. rewrite bind_assoc, (bind_Ok _ _ _ _ _ Halloc), bind_assoc.
  destruct Hcase as [ [-> _]|(c & -> & Hc & Hc0 & Hc1 & Hcq)].
  - left. exists s1. split; [done|]. change 0 with (0 * 4096) at 1. erewrite bind_Ok by (apply Map_refs_run; unfold MAXPAGE; done || lia). done.
  - right. exists c. erewrite bind_Ok by (apply Map_refs_run; unfold MAXPAGE; done || lia). cbn [Z.eqb negb Pos.eqb]. rewrite bind_ret, (proj2 (Z.eqb_neq (c * 4096) 0)) by lia.
    rewrite Hb4. set (s2 := map_refs (p / 1024) c s1).
    assert (refs_ok s2) as Hr2 by (apply map_refs_ok; [done|unfold MAXPAGE; lia]).
    destruct (fill_loop s2 base 1024 0 (gaPageReferences s2)) as (refs' & Hfill & Hrefs); unfold MAXPAGE; try lia.
    { intros j Hj. rewrite rmapped_eq by (done || unfold MAXPAGE; lia). unfold s2. rewrite map_refs_entry, decide_True by (done || dlia). apply present_lor3. lia. }
    exists (upd_phys (giPhysAlloc s2) (giLastPossibleFree s2) (gaSuperBitmap s2) (gaPageBitmap s2) refs' (gaPageNodes s2) s2).
    split. { etransitivity; [|exact Hfill]. unfold fill_refs. by f_equal. }
    destruct (populate_rc s1 (p / 1024) c refs') as (G1 & G2 & G3 & G4); unfold MAXPAGE; try done; try lia; try dlia.
    { intros q. rewrite Hrefs. replace (p / 1024 * 1024) with base by dlia. rewrite Z.add_0_r. done. }
    change (giPageCount s) with (giPageCount s) in Hc. split; [exact G1|exact G2|apply G4; dlia| | |].
    + split; [done|]. split; [done|]. etransitivity; [apply G3; unfold MAXPAGE; lia|done].
    + intros q Hq Hne. etransitivity; [apply G3; exact Hq|]. apply Hcq; lia.
    + unfold outside in *. injection Hout as E1 E2 E3 E4 E5 E6 E7 E8 E9. unfold s2, map_refs, refs_page, pde. cbn [upd_mem upd_phys mem CR3 giPageCount gbReferences giMM_ZeroPage gTempMappings gWorkerStacks giLastUsedWorker giTotalMemorySize].
      by rewrite E1, E2, E3, E4, E5, E6, E7, E8, E9.
Qed.

(** ** Taking a reference *)
Lemma count_run s p : pm_ok s -> 0 <= p < giPageCount s -> rmapped s p = true -> refc s p < 2147483647 ->
  exists s', (do r <- get_ref p; set_ref p (i32 (r + 1));;;
    do w <- bitmap (p / 32);
    (if negb (bit w (Z.land p 31)) then add_alloc 1;;; set_bitmap (p / 32) (set_bit w (Z.land p 31)) else ret tt);;;
    do w <- bitmap (p / 32);
    if w =? ONES then do sup <- super (p / 1024); set_super (p / 1024) (set_bit sup (Z.land (p / 32) 31)) else ret tt) s = Ok tt s' /\
  pm_ok s' /\ outside s' = outside s /\ rc s' p = rc s p + 1 /\ forall q, 0 <= q -> q <> p -> rc s' q = rc s q.
Proof.
  intros Hok Hp Hm Hlt. pose proof (pm_count _ Hok) as Hcount. unfold MAXPAGE in Hcount. destruct (pm_refs _ Hok p Hp Hm) as [Hrc Hru].
  assert (0 <= p / 32 < 32768 /\ 0 <= p mod 32 < 32 /\ 0 <= p / 1024 < 1024 /\ 0 <= (p / 32) mod 32 < 32) as (Hb1 & Hb2 & Hb3 & Hb4) by (split_and!; dlia).
  rewrite (bind_Ok _ _ _ _ _ (get_ref_run s p Hm)), (bind_Ok _ _ _ _ _ (set_ref_run s p _ Hm)), i32_small by lia. rewrite !low5.
  set (s1 := upd_phys _ _ _ _ _ _ s). rewrite (bind_Ok _ _ _ _ _ (bitmap_run s1 (p / 32) Hb1)), bit_test by lia.
  assert (exists al pb, (if negb (Z.testbit (default 0 (gaPageBitmap s1 !! (p / 32))) (p mod 32)) then add_alloc 1;;; set_bitmap (p / 32) (set_bit (default 0 (gaPageBitmap s1 !! (p / 32))) (p mod 32)) else ret tt) s1 =
    Ok tt (upd_phys al (giLastPossibleFree s) (gaSuperBitmap s) pb (gaPageReferences s1) (gaPageNodes s) s) /\ words_ok pb /\ used pb p = true /\ forall q, 0 <= q -> q <> p -> used pb q = usedp s q) as (al & pb & Hset & Hpb1 & Hpb2 & Hpb3).
  { fold (used (gaPageBitmap s1) p). change (used (gaPageBitmap s1) p) with (usedp s p). destruct (usedp s p) eqn:Eu; cbn [negb].
    - exists (giPhysAlloc s), (gaPageBitmap s). split_and!; [done|apply Hok|done|done].
    - unfold add_alloc, modify. erewrite bind_Ok by reflexivity. rewrite set_bitmap_run by done. eexists _, _. split; [reflexivity|].
      split; [apply words_insert; [apply Hok|]; apply set_bit_range; [apply words_default, Hok|done]|]. split; [rewrite used_set, Z.eqb_refl by lia; done|].
      intros q Hq Hne. rewrite used_set by lia. by rewrite (proj2 (Z.eqb_neq p q)) by lia. }
  rewrite (bind_Ok _ _ _ _ _ Hset). set (s2 := upd_phys al _ _ pb _ _ s). rewrite (bind_Ok _ _ _ _ _ (bitmap_run s2 (p / 32) Hb1)).
  destruct (maybe_super_run s2 (default 0 (gaPageBitmap s2 !! (p / 32))) (p / 1024) ((p / 32) mod 32) Hb3 Hb4 (proj2 (pm_words _ Hok))) as (sb & Hsb & Hsbw).
  rewrite Hsb. eexists. split; [reflexivity|]. cbn [s1 s2 giPhysAlloc giLastPossibleFree gaPageBitmap gaPageReferences gaPageNodes upd_phys].
  destruct (upd_page s p al (giLastPossibleFree s) sb pb (<[p := refc s p + 1]> (gaPageReferences s)) (gaPageNodes s)) as (H1 & H2 & H3 & H4); try done.
  - apply Hok.
  - intros q Hne. by rewrite lookup_insert_ne.
  - intros _. rewrite lookup_insert_eq, Hpb2. cbn [default from_option id]. split; [lia|]. split; [done|lia].
  - split; [exact H1|]. split; [exact H2|]. split; [|exact H3]. etransitivity; [exact H4|]. rewrite Hm, lookup_insert_eq. cbn [default from_option id]. unfold rc. by rewrite Hm.
Qed.

(** One reference more; [c] is the page taken for the counts of its group, if one was. *)
Record referenced s s' p (c : option Z) : Prop := {
  rf_pm : pm_ok s'; rf_refs : refs_ok s'; rf_map : rmapped s' p = true; rf_rc : rc s' p = rc s p + 1;
  rf_page : forall x, c = Some x -> rmapped s p = false /\ x <> p /\ 16 <= x < giPageCount s /\ rc s x = 0 /\ rc s' x = 1;
  rf_others : forall q, 0 <= q < MAXPAGE -> q <> p -> c <> Some q -> rc s' q = rc s q;
  rf_mem : outside s' = outside (match c with Some x => map_refs (p / 1024) x s | None => s end) }.

Lemma RefPhys_run s PAddr : pm_ok s -> refs_ok s -> 0 <= PAddr -> page_of PAddr < giPageCount s ->
  rmapped s (page_of PAddr) = true \/ 0 < rc s (page_of PAddr) -> rc s (page_of PAddr) < 2147483647 ->
  (exists s1, rmapped s (page_of PAddr) = false /\ MM_AllocPhys s = Ok 0 s1 /\ MM_RefPhys PAddr s = Stop MPanic) \/
  exists c s', MM_RefPhys PAddr s = Ok tt s' /\ referenced s s' (page_of PAddr) c.
Proof.
  intros Hok Hr HP Hlt Hpos Hmax. pose proof (page_range _ HP) as Hp. set (p := page_of PAddr) in *. pose proof (pm_count _ Hok) as Hcount. unfold MAXPAGE in Hcount.
  unfold MM_RefPhys. fold p. cbv zeta. rewrite bind_get, (proj2 (Z.leb_gt _ _)), (rk_on _ Hr) by lia. rewrite !bind_assoc, (bind_Ok _ _ _ _ _ (refs_mapped_run s p)).
  destruct (rmapped s p) eqn:Em; cbn [negb].
  - right. exists None. rewrite !bind_assoc, bind_ret, !bind_assoc. destruct (count_run s p Hok) as (s' & Hrun & H1 & H2 & H3 & H4); [lia|done|unfold rc in Hmax; by rewrite Em in Hmax|].
    exists s'. split; [exact Hrun|]. split; try done; [by eapply refs_ok_outside|by rewrite (rmapped_outside _ _ _ H2)|]. intros q Hq Hne _. apply H4; lia.
  - destruct Hpos as [|Hpos]; [done|]. rewrite base_eq by lia. rewrite !bind_assoc.
    destruct (populate_run s p Hok Hr ltac:(lia) Em) as [(s1 & Ha & Hstop)|(c & s1 & Hrun & [P1 P2 P3 P4 P5 P6])]; cbv zeta in *.
    + left. exists s1. split; [done|]. split; [done|]. rewrite <- bind_assoc. unfold bind at 1. rewrite Hstop. done.
    + right. exists (Some c). destruct P4 as (Hc & Hc0 & Hc1). assert (c <> p) as Hcp by (intros ->; lia).
      assert (rc s1 p = rc s p) as Hsame by (apply P5; [unfold MAXPAGE; lia|done]). assert (giPageCount s1 = giPageCount s) as Hgp by (by injection P6).
      destruct (count_run s1 p P1) as (s' & Hrun' & H1 & H2 & H3 & H4); [lia|done|unfold rc at 1 in Hsame; rewrite P3 in Hsame; lia|].
      exists s'. split. { rewrite <- bind_assoc. rewrite (bind_Ok _ _ _ _ _ Hrun). rewrite bind_assoc. exact Hrun'. }
      split; [done|by eapply refs_ok_outside|by rewrite (rmapped_outside _ _ _ H2)|lia| | |by rewrite H2, P6].
      * intros x [= <-]. split_and!; try done; try lia. rewrite H4 by lia. done.
      * intros q Hq Hne Hnc. rewrite H4 by lia. apply P5; [done|congruence].
Qed.
