(* ===== verification/MmSpace.v ===== *)
(** * The current address space as its operations change it

    What the operations of [mm_virt.c] do to the current space is followed in three views: the page table entries,
    the reference counts of the pages in use, and the words of the pages that are no tables. *)
From S2P Require Import Prelude Mm MmVirt MmInv MmRefs.

Local Open Scope Z_scope.
Local Open Scope monad_scope.
Implicit Types (s : mm) (p q : Z).

Definition dir_page s : Z := page_of (CR3 s).
Definition table s (i : Z) : Z := page_of (pde s i).
Definition data s q : gmap Z Z := default ∅ (mem s !! q).
(** A directory entry that names a table, the two of the fractal mapping apart. *)
Definition ok_dir s (i : Z) : Prop := 0 <= i < 1024 /\ i <> PAGE_DIR_SLOT /\ i <> TMP_DIR_SLOT /\ present (pde s i) = true.
Definition is_table s q : Prop := q = dir_page s \/ exists i, ok_dir s i /\ table s i = q.

(** The directory and the tables are pages in use, all different. *)
Record space_ok s : Prop := {
  sp_dir : forall q, is_table s q -> 0 <= q < giPageCount s /\ 0 < rc s q;
  sp_sep : forall i, ok_dir s i -> table s i <> dir_page s;
  sp_inj : forall i j, ok_dir s i -> ok_dir s j -> table s i = table s j -> i = j }.

(** The pages whose entries are followed. *)
Definition page_ok s (n : Z) : Prop := ok_dir s (Z.shiftr n 10) /\ Z.shiftr n 10 <> REFS_DIR.

Lemma page_split n m : Z.shiftr n 10 = Z.shiftr m 10 -> Z.land n 0x3FF = Z.land m 0x3FF -> n = m.
Proof. rewrite !shr10, !low10. intros. dlia. Qed.

(** The words of a table's page changed: the directory is as it was, and one entry of one table. *)
Section set_entry.
Context (s : mm) (n v : Z) (Hsp : space_ok s) (Hn : page_ok s n) (Hpm : pm_ok s) (Hrk : refs_ok s) (Hdir : ok_dir s REFS_DIR).
Let s' : mm := upd_mem (put_word (mem s) (table s (Z.shiftr n 10)) (Z.land n 0x3FF) v) s.

Lemma entry_pde i : pde s' i = pde s i.
Proof. unfold pde, s'. cbn [upd_mem mem CR3]. apply word_put_page. intros H. by apply (sp_sep _ Hsp _ (proj1 Hn)). Qed.
Lemma entry_pte m : page_ok s m -> pte s' m = if decide (m = n) then v else pte s m.
Proof.
  intros Hm. unfold pte. rewrite entry_pde. unfold s'. cbn [upd_mem mem]. rewrite word_put. destruct (decide (m = n)) as [->|Hne].
  - by rewrite decide_True.
  - rewrite decide_False; [done|]. intros [H1 H2]. apply Hne, page_split; [|done]. by apply (sp_inj _ Hsp); [apply Hm|apply Hn|].
Qed.
Lemma entry_refs i : refs_entry s' i = refs_entry s i.
Proof.
  unfold refs_entry, refs_page. rewrite entry_pde. unfold s'. cbn [upd_mem mem]. apply word_put_page. intros H.
  apply (proj2 Hn). symmetry. by apply (sp_inj _ Hsp); [|apply Hn|].
Qed.
Lemma entry_refs_ok : refs_ok s'.
Proof.
  split; [apply Hrk|by rewrite entry_pde; apply Hrk| |].
  - unfold refs_page. rewrite entry_pde. apply Hrk.
  - intros i. rewrite entry_refs. apply Hrk.
Qed.
Lemma entry_rmapped q : 0 <= q < MAXPAGE -> rmapped s' q = rmapped s q.
Proof. intros Hq. rewrite (rmapped_eq s'), (rmapped_eq s) by (done || apply entry_refs_ok). by rewrite entry_refs. Qed.
Lemma entry_rc q : 0 <= q < MAXPAGE -> rc s' q = rc s q.
Proof. intros Hq. unfold rc. by rewrite entry_rmapped. Qed.
Lemma entry_pm : pm_ok s'.
Proof.
  pose proof (pm_count _ Hpm). split; [apply Hpm..|]. intros q Hq. change (giPageCount s') with (giPageCount s) in Hq. rewrite entry_rmapped by lia.
  by apply (pm_refs _ Hpm).
Qed.
Lemma entry_data q : ~ is_table s q -> data s' q = data s q.
Proof. intros Hq. unfold data, s'. cbn [upd_mem mem]. unfold put_word. rewrite lookup_insert_ne; [done|]. intros <-. apply Hq. right. exists (Z.shiftr n 10). split; [apply Hn|done]. Qed.
End set_entry.

Lemma ok_dir_ext s s' i : (forall i, pde s' i = pde s i) -> ok_dir s' i <-> ok_dir s i.
Proof. intros H. unfold ok_dir. by rewrite H. Qed.
Lemma is_table_ext s s' q : CR3 s' = CR3 s -> (forall i, pde s' i = pde s i) -> is_table s' q <-> is_table s q.
Proof. intros HC H. unfold is_table, dir_page, table. rewrite HC. split; intros [->|(i & Hi & <-)]; auto; right; exists i; rewrite H; (split; [by apply (ok_dir_ext s s')|done]). Qed.
Lemma space_ext s s' : CR3 s' = CR3 s -> giPageCount s' = giPageCount s -> (forall i, pde s' i = pde s i) ->
  (forall q, is_table s q -> 0 < rc s q -> 0 < rc s' q) -> space_ok s -> space_ok s'.
Proof.
  intros HC HG HP HR [H1 H2 H3]. split.
  - intros q Hq. apply (is_table_ext s s') in Hq; [|done..]. destruct (H1 q Hq). rewrite HG. split; [done|]. by apply HR.
  - intros i Hi. apply (ok_dir_ext s s') in Hi; [|done]. unfold table, dir_page. rewrite HP, HC. by apply H2.
  - intros i j Hi Hj. apply (ok_dir_ext s s') in Hi; [|done]. apply (ok_dir_ext s s') in Hj; [|done]. unfold table. rewrite !HP. by apply H3.
Qed.

(** ** The views *)
Definition upd {A} (f : Z -> A) (k : Z) (v : A) : Z -> A := fun q => if decide (q = k) then v else f q.
Lemma upd_eq {A} (f : Z -> A) k v : upd f k v k = v.
Proof. unfold upd. by rewrite decide_True. Qed.
Lemma upd_ne {A} (f : Z -> A) k v q : q <> k -> upd f k v q = f q.
Proof. intros H. unfold upd. by rewrite decide_False. Qed.

Record change s0 s (pt rcs : Z -> Z) (dat : Z -> gmap Z Z) (temps : Z) : Prop := {
  ch_pm : pm_ok s; ch_refs : refs_ok s; ch_space : space_ok s;
  ch_dir : forall i, pde s i = pde s0 i; ch_cr3 : CR3 s = CR3 s0; ch_count : giPageCount s = giPageCount s0; ch_temps : gTempMappings s = temps;
  ch_pt : forall n, page_ok s0 n -> pte s n = pt n;
  ch_rc : forall q, 0 <= q < giPageCount s0 -> 0 < rcs q -> rc s q = rcs q;
  ch_dat : forall q, 0 <= q < giPageCount s0 -> 0 < rcs q -> ~ is_table s0 q -> data s q = dat q;
  ch_map : forall q, 0 <= q < MAXPAGE -> rmapped s0 q = true -> rmapped s q = true }.

Arguments ch_pm {_ _ _ _ _ _} _.
Arguments ch_refs {_ _ _ _ _ _} _.
Arguments ch_space {_ _ _ _ _ _} _.
Arguments ch_dir {_ _ _ _ _ _} _.
Arguments ch_cr3 {_ _ _ _ _ _} _.
Arguments ch_count {_ _ _ _ _ _} _.
Arguments ch_temps {_ _ _ _ _ _} _.
Arguments ch_pt {_ _ _ _ _ _} _.
Arguments ch_rc {_ _ _ _ _ _} _.
Arguments ch_dat {_ _ _ _ _ _} _.
Arguments ch_map {_ _ _ _ _ _} _.

Lemma change_refl s : pm_ok s -> refs_ok s -> space_ok s -> change s s (pte s) (rc s) (data s) (gTempMappings s).
Proof. intros. by split. Qed.

Lemma refs_dir_ok s : refs_ok s -> ok_dir s REFS_DIR.
Proof. intros H. split; [unfold REFS_DIR; lia|]. split; [done|]. split; [done|]. apply H. Qed.
Lemma change_page s0 s pt rcs dat t n : change s0 s pt rcs dat t -> page_ok s0 n -> page_ok s n.
Proof. intros H [H1 H2]. split; [|done]. apply (ok_dir_ext s0 s); [apply H|done]. Qed.
Lemma change_table s0 s pt rcs dat t q : change s0 s pt rcs dat t -> is_table s q <-> is_table s0 q.
Proof. intros H. apply is_table_ext; [apply (ch_cr3 H)|apply (ch_dir H)]. Qed.

(** Reading and writing an entry. *)
Lemma read_entry s0 s pt rcs dat t n : change s0 s pt rcs dat t -> page_ok s0 n -> gaPageTable n s = Ok (pt n) s.
Proof. intros H Hn. rewrite gaPageTable_run by (rewrite (ch_dir H); apply Hn). by rewrite (ch_pt H). Qed.
Lemma write_entry s0 s pt rcs dat t n v : change s0 s pt rcs dat t -> page_ok s0 n ->
  exists s', set_PageTable n v s = Ok tt s' /\ change s0 s' (upd pt n v) rcs dat t.
Proof.
  intros H Hn. pose proof (change_page _ _ _ _ _ _ _ H Hn) as Hn'. rewrite set_PageTable_run by apply Hn'. eexists. split; [reflexivity|].
  pose proof (ch_space H) as Hsp. pose proof (ch_pm H) as Hpm. pose proof (ch_refs H) as Hrk. pose proof (refs_dir_ok _ Hrk) as Hdir.
  pose proof (ch_count H) as Hgc. pose proof (pm_count _ Hpm) as Hcount. fold (table s (Z.shiftr n 10)).
  split; [by apply entry_pm|by apply entry_refs_ok| |intros i; rewrite entry_pde by done; apply (ch_dir H)|apply (ch_cr3 H)|exact Hgc|apply (ch_temps H)| | | |].
  - apply (space_ext s); [done|done|intros i; exact (entry_pde s n v Hsp Hn' i)| |done]. intros q Hq Hpos. destruct (sp_dir _ Hsp q Hq). by rewrite entry_rc by (done || lia).
  - intros m Hm. rewrite entry_pte by (done || by eapply change_page). unfold upd. destruct (decide (m = n)); [done|]. by apply (ch_pt H).
  - intros q Hq Hp. rewrite entry_rc by (done || lia). by apply (ch_rc H).
  - intros q Hq Hp Hnt. rewrite entry_data by (done || by rewrite (change_table _ _ _ _ _ _ _ H)). by apply (ch_dat H).
  - intros q Hq Hm. rewrite entry_rmapped by done. by apply (ch_map H).
Qed.

(** The operations that leave memory alone. *)
Lemma change_outside s0 s s' pt rcs rcs' dat dat' t : change s0 s pt rcs dat t -> pm_ok s' -> outside s' = outside s ->
  (forall q, 0 <= q < giPageCount s0 -> 0 < rcs' q -> rc s' q = rcs' q /\ (~ is_table s0 q -> data s q = dat' q)) -> (forall q, is_table s0 q -> 0 < rc s' q) ->
  change s0 s' pt rcs' dat' t.
Proof.
  intros H Hpm Hout Hrc Htab. assert (forall i, pde s' i = pde s i) as Hpde by (intros i; unfold pde; by injection Hout as -> -> _ _ _ _ _ _ _).
  assert (mem s' = mem s /\ CR3 s' = CR3 s /\ giPageCount s' = giPageCount s /\ gTempMappings s' = gTempMappings s) as (E1 & E2 & E3 & E4) by (by injection Hout as -> -> -> _ _ -> _ _ _).
  split; try done.
  - eapply refs_ok_outside; [done|apply (ch_refs H)].
  - apply (space_ext s); try done; [|apply (ch_space H)]. intros q Hq _. apply Htab. by rewrite <- (change_table _ _ _ _ _ _ _ H).
  - intros i. rewrite Hpde. apply (ch_dir H).
  - rewrite E2. apply (ch_cr3 H).
  - rewrite E3. apply (ch_count H).
  - rewrite E4. apply (ch_temps H).
  - intros n Hn. unfold pte. rewrite Hpde, E1. by apply (ch_pt H).
  - intros q Hq Hp. by apply Hrc.
  - intros q Hq Hp Hnt. unfold data. rewrite E1. by apply Hrc.
  - intros q Hq Hm. rewrite (rmapped_outside _ _ _ Hout). by apply (ch_map H).
Qed.

Lemma table_count s0 s pt rcs dat t q : change s0 s pt rcs dat t -> is_table s0 q -> 0 <= q < giPageCount s0 /\ 0 < rc s q.
Proof. intros H Hq. apply (change_table _ _ _ _ _ _ _ H) in Hq. destruct (sp_dir _ (ch_space H) q Hq) as [? ?]. by rewrite (ch_count H) in *. Qed.

Lemma alloc_page s0 s pt rcs dat t : change s0 s pt rcs dat t ->
  (exists s', MM_AllocPhys s = Ok 0 s' /\ change s0 s' pt rcs dat t) \/
  exists c d s', MM_AllocPhys s = Ok (c * 4096) s' /\ 16 <= c < giPageCount s0 /\ rcs c <= 0 /\ ~ is_table s0 c /\ change s0 s' pt (upd rcs c 1) (upd dat c d) t.
Proof.
  intros H. destruct (AllocPhys_run s (ch_pm H)) as (r & s' & Hrun & (Hpm & Hout & Hcase) & _). pose proof (ch_count H) as Hgc.
  destruct Hcase as [ [-> Hrc]|(c & -> & Hc & Hc0 & Hc1 & Hrc)].
  - left. exists s'. split; [done|]. eapply change_outside; [done|done|done| |].
    + intros q Hq Hp. rewrite Hrc. split; [by apply (ch_rc H)|by apply (ch_dat H)].
    + intros q Hq. rewrite Hrc. by eapply table_count.
  - right. exists c, (data s c), s'. split; [done|]. split; [lia|].
    assert (rcs c <= 0) as Hneg by (destruct (Z.le_gt_cases (rcs c) 0) as [|Hgt]; [done|]; pose proof (ch_rc H c ltac:(lia) ltac:(lia)); lia).
    assert (~ is_table s0 c) as Hnt by (intros Ht; destruct (table_count _ _ _ _ _ _ _ H Ht); lia). split; [done|]. split; [done|].
    eapply change_outside; [done|done|done| |].
    + intros q Hq Hp. unfold upd in *. destruct (decide (q = c)) as [->|Hne]; [done|]. rewrite Hrc by lia. split; [by apply (ch_rc H)|by apply (ch_dat H)].
    + intros q Hq. destruct (table_count _ _ _ _ _ _ _ H Hq). rewrite Hrc; [done|lia|by intros ->].
Qed.

Lemma page_of_mul p : page_of (p * 4096) = p.
Proof. unfold page_of. rewrite shr12. apply Z.div_mul. lia. Qed.

Lemma drop_page s0 s pt rcs dat t p : change s0 s pt rcs dat t -> 0 <= p < giPageCount s0 -> 0 < rcs p -> (is_table s0 p -> 1 < rcs p) ->
  exists s', MM_DerefPhys (p * 4096) s = Ok tt s' /\ change s0 s' pt (upd rcs p (rcs p - 1)) dat t.
Proof.
  intros H Hp Hpos Htab. destruct (DerefPhys_run s (p * 4096) (ch_pm H) ltac:(lia)) as (s' & Hrun & (Hpm & Hout & Hrc & Hrcp) & _).
  rewrite page_of_mul in *. pose proof (ch_count H) as Hgc. rewrite (ch_rc H p) in Hrcp by done. rewrite (proj2 (Z.ltb_lt _ _)) in Hrcp by lia.
  exists s'. split; [done|]. eapply change_outside; [done|done|done| |].
  - intros q Hq Hpq. unfold upd in *. destruct (decide (q = p)) as [->|Hne]; [split; [lia|by apply (ch_dat H)]|]. rewrite Hrc by (done || lia). split; [by apply (ch_rc H)|by apply (ch_dat H)].
  - intros q Hq. destruct (decide (q = p)) as [->|Hne]; [specialize (Htab Hq); lia|]. destruct (table_count _ _ _ _ _ _ _ H Hq). rewrite Hrc by (done || lia). done.
Qed.

(** A change of a table that is no followed one. *)
Lemma change_refs_page s0 s s' pt rcs rcs' dat t i x : change s0 s pt rcs dat t -> pm_ok s' -> refs_ok s' -> outside s' = outside (map_refs i x s) -> 0 <= x ->
  (forall q, 0 <= q < giPageCount s0 -> 0 < rcs' q -> rc s' q = rcs' q /\ 0 < rcs q) -> (forall q, is_table s0 q -> 0 < rc s' q) ->
  change s0 s' pt rcs' dat t.
Proof.
  intros H Hpm Hrk Hout Hx Hrc Htab. pose proof (ch_refs H) as Hr. pose proof (ch_space H) as Hsp. pose proof (refs_dir_ok _ Hr) as Hdir.
  assert (mem s' = mem (map_refs i x s) /\ CR3 s' = CR3 s /\ giPageCount s' = giPageCount s /\ gTempMappings s' = gTempMappings s) as (E1 & E2 & E3 & E4) by (by injection Hout as -> -> -> _ _ -> _ _ _).
  assert (forall i, pde s' i = pde s i) as Hpde by (intros j; rewrite <- (map_refs_pde i x s j) by done; unfold pde; by rewrite E1, E2).
  split; try done.
  - apply (space_ext s); try done. intros q Hq _. apply Htab. by rewrite <- (change_table _ _ _ _ _ _ _ H).
  - intros j. rewrite Hpde. apply (ch_dir H).
  - rewrite E2. apply (ch_cr3 H).
  - rewrite E3. apply (ch_count H).
  - rewrite E4. apply (ch_temps H).
  - intros n Hn. rewrite <- (ch_pt H n Hn). unfold pte. rewrite Hpde, E1. unfold map_refs. cbn [upd_mem mem]. apply word_put_page. intros Heq.
    pose proof (change_page _ _ _ _ _ _ _ H Hn) as [Hn1 Hn2]. apply Hn2. by apply (sp_inj _ Hsp).
  - intros q Hq Hp. by apply Hrc.
  - intros q Hq Hp Hnt. destruct (Hrc q Hq Hp) as [_ Hp']. rewrite <- (ch_dat H q Hq Hp' Hnt). unfold data. rewrite E1. unfold map_refs, put_word. cbn [upd_mem mem].
    rewrite lookup_insert_ne; [done|]. intros <-. apply Hnt. apply (change_table _ _ _ _ _ _ _ H). right. by exists REFS_DIR.
  - intros q Hq Hm. apply (ch_map H) in Hm; [|done]. rewrite rmapped_eq in Hm |- * by done.
    replace (refs_entry s' (q / 1024)) with (refs_entry (map_refs i x s) (q / 1024)) by (unfold refs_entry, refs_page; by rewrite Hpde, map_refs_pde, E1 by done).
    rewrite map_refs_entry by done. destruct (decide _); [by apply present_lor3|done].
Qed.

Lemma take_page s0 s pt rcs dat t p : change s0 s pt rcs dat t -> 0 <= p < giPageCount s0 -> 0 < rcs p < 2147483647 ->
  (rmapped s p = false /\ MM_RefPhys (p * 4096) s = Stop MPanic) \/
  exists s', MM_RefPhys (p * 4096) s = Ok tt s' /\ change s0 s' pt (upd rcs p (rcs p + 1)) dat t.
Proof.
  intros H Hp Hpos. pose proof (ch_count H) as Hgc. pose proof (pm_count _ (ch_pm H)) as Hcount. assert (rc s p = rcs p) as Hrcp by (apply (ch_rc H); lia).
  destruct (RefPhys_run s (p * 4096)) as [(s1 & Hun & _ & Hstop)|(c & s' & Hrun & [R1 R2 R3 R4 R5 R6 R7])]; rewrite ?page_of_mul in *;
    [apply H|apply (ch_refs H)|lia|lia|right; lia|lia|by left|]. right. exists s'. split; [done|].
  assert (forall q, is_table s0 q -> 0 < rc s' q) as Htab.
  { intros q Hq. destruct (table_count _ _ _ _ _ _ _ H Hq). destruct (decide (q = p)) as [->|Hne]; [lia|]. rewrite R6; [done|lia|done|].
    intros ->. destruct (R5 q eq_refl) as (_ & _ & _ & ? & _). lia. }
  assert (forall q, 0 <= q < giPageCount s0 -> 0 < upd rcs p (rcs p + 1) q -> rc s' q = upd rcs p (rcs p + 1) q /\ 0 < rcs q) as Hrc.
  { intros q Hq Hpq. unfold upd in *. destruct (decide (q = p)) as [->|Hne]; [lia|]. split; [|done]. rewrite R6; [by apply (ch_rc H)|lia|done|].
    intros ->. destruct (R5 q eq_refl) as (_ & _ & _ & Hz & _). rewrite (ch_rc H) in Hz by done. lia. }
  destruct c as [x|]; [eapply change_refs_page; try done; destruct (R5 x eq_refl) as (_ & _ & ? & _); lia|]. eapply change_outside; [done|done|done| |done]. intros q Hq Hpq. destruct (Hrc q Hq Hpq). split; [done|]. by apply (ch_dat H).
Qed.

Lemma change_misc s0 s pt rcs dat t zero temp ws lw warn : change s0 s pt rcs dat t -> change s0 (upd_misc zero temp ws lw warn s) pt rcs dat temp.
Proof. intros [H1 H2 H3 H4 H5 H6 H7 H8 H9 H10 H11]. split; try done; [by destruct H1|by destruct H2|by destruct H3]. Qed.

(** Writing a page that is no table. *)
Lemma write_page s0 s pt rcs dat t c ws : change s0 s pt rcs dat t -> ~ is_table s0 c -> exists s', set_page c ws s = Ok tt s' /\ change s0 s' pt rcs (upd dat c ws) t.
Proof.
  intros H Hc. eexists. split; [reflexivity|]. set (s' := upd_mem _ s). pose proof (refs_dir_ok _ (ch_refs H)) as Hdir.
  assert (forall q i, is_table s0 q -> word (mem s') q i = word (mem s) q i) as Hw.
  { intros q i Hq. unfold word, s'. cbn [upd_mem mem]. rewrite lookup_insert_ne; [done|]. by intros ->. }
  assert (forall q, is_table s q -> is_table s0 q) as Ht by (intros q; apply (change_table _ _ _ _ _ _ _ H)).
  assert (forall i, pde s' i = pde s i) as Hpde by (intros i; unfold pde; apply Hw, Ht; by left).
  assert (forall i, refs_entry s' i = refs_entry s i) as Hre by (intros i; unfold refs_entry, refs_page; rewrite Hpde; apply Hw, Ht; right; by exists REFS_DIR).
  assert (refs_ok s') as Hrk.
  { destruct (ch_refs H) as [K1 K2 K3 K4]. split; [done|by rewrite Hpde|unfold refs_page; by rewrite Hpde|intros i; rewrite Hre; apply K4]. }
  assert (forall q, 0 <= q < MAXPAGE -> rmapped s' q = rmapped s q) as Hm by (intros q Hq; rewrite !rmapped_eq by (done || apply (ch_refs H)); by rewrite Hre).
  assert (forall q, 0 <= q < MAXPAGE -> rc s' q = rc s q) as Hrc by (intros q Hq; unfold rc; by rewrite Hm).
  pose proof (pm_count _ (ch_pm H)) as Hcount. pose proof (ch_count H) as Hgc. split; try done; try first [exact (ch_cr3 H)|exact (ch_count H)|exact (ch_temps H)].
  - pose proof (ch_pm H) as Hpm. split; [apply Hpm..|]. intros q Hq. change (giPageCount s') with (giPageCount s) in Hq. rewrite Hm by lia. by apply (pm_refs _ Hpm).
  - apply (space_ext s); try done; [|apply (ch_space H)]. intros q Hq Hp. destruct (sp_dir _ (ch_space H) q Hq). by rewrite Hrc by lia.
  - intros i. rewrite Hpde. apply (ch_dir H).
  - intros n Hn. rewrite <- (ch_pt H n Hn). unfold pte. rewrite Hpde. apply Hw, Ht. right. exists (Z.shiftr n 10). split; [|done]. by apply (change_page _ _ _ _ _ _ _ H Hn).
  - intros q Hq Hp. rewrite Hrc by lia. by apply (ch_rc H).
  - intros q Hq Hp Hnt. unfold data, s', upd. cbn [upd_mem mem]. destruct (decide (q = c)) as [->|Hne]; [by rewrite lookup_insert_eq|]. rewrite lookup_insert_ne by done. by apply (ch_dat H).
  - intros q Hq Hq2. rewrite Hm by done. by apply (ch_map H).
Qed.
