(* ===== verification/MmCow.v ===== *)
(** * Temporary mappings, copies of pages and the page fault handler *)
From S2P Require Import Prelude Mm MmVirt MmInv MmRefs MmSpace.

Local Open Scope Z_scope.
Local Open Scope monad_scope.
Implicit Types (s : mm) (p q : Z).

Lemma change_ext s0 s pt pt' rcs rcs' dat dat' t : change s0 s pt rcs dat t -> (forall n, pt n = pt' n) -> (forall q, rcs q = rcs' q) -> (forall q, dat q = dat' q) ->
  change s0 s pt' rcs' dat' t.
Proof. intros [H1 H2 H3 H4 H5 H6 H7 H8 H9 H10 H11] E1 E2 E3. split; try done; intros q; rewrite <- ?E1, <- ?E2, <- ?E3; [apply H8|apply H9|apply H10]. Qed.

(** ** Bits of entries *)
Lemma has_test e i : 0 <= i -> has e (2 ^ i) = Z.testbit e i.
Proof. intros Hi. unfold has. rewrite <- Z.shiftl_1_l. by apply bit_test. Qed.
Lemma land_not_test e i j : 0 <= i < 32 -> 0 <= j < 32 -> Z.testbit (Z.land e (u32 (Z.lnot (2 ^ i)))) j = negb (i =? j) && Z.testbit e j.
Proof. intros Hi Hj. rewrite <- Z.shiftl_1_l. by apply (clear_bit_test e i j). Qed.
Lemma land_not_range e i : 0 <= e < 4294967296 -> 0 <= Z.land e (u32 (Z.lnot (2 ^ i))) < 4294967296.
Proof. intros He. rewrite <- Z.shiftl_1_l. by apply (clear_bit_range e i). Qed.
Lemma words_eq a b : 0 <= a < 4294967296 -> 0 <= b < 4294967296 -> (forall j, 0 <= j < 32 -> Z.testbit a j = Z.testbit b j) -> a = b.
Proof. intros Ha Hb H. apply Z.bits_inj'. intros j Hj. destruct (Z.lt_ge_cases j 32); [by apply H|]. by rewrite !word_bits. Qed.
Lemma clear_absent e i : 0 <= i < 32 -> 0 <= e < 4294967296 -> Z.testbit e i = false -> Z.land e (u32 (Z.lnot (2 ^ i))) = e.
Proof.
  intros Hi He Hb. apply words_eq; [by apply land_not_range|done|]. intros j Hj. rewrite land_not_test by done. destruct (i =? j) eqn:E; bools; [by subst|done].
Qed.
Lemma lor_range a b : 0 <= a < 4294967296 -> 0 <= b < 4294967296 -> 0 <= Z.lor a b < 4294967296.
Proof.
  intros Ha Hb. assert (0 <= Z.lor a b) by (apply Z.lor_nonneg; lia). split; [done|]. change 4294967296 with (2 ^ 32). apply word_range; [lia| |done].
  intros j Hj. by rewrite Z.lor_spec, !word_bits by lia.
Qed.
Lemma set_again e i : 0 <= i < 32 -> 0 <= e < 4294967296 -> Z.testbit e i = true -> Z.lor (Z.land e (u32 (Z.lnot (2 ^ i)))) (2 ^ i) = e.
Proof.
  intros Hi He Hb. assert (0 <= 2 ^ i < 4294967296) as Hp by (split; [apply Z.pow_nonneg; lia|]; change 4294967296 with (2 ^ 32); apply Z.pow_lt_mono_r; lia).
  apply words_eq; [apply lor_range; [by apply land_not_range|done]|done|]. intros j Hj. rewrite Z.lor_spec, land_not_test, Z.pow2_bits_eqb by lia.
  destruct (i =? j) eqn:E; bools; [subst; by rewrite Hb|by rewrite orb_false_r].
Qed.
Lemma present_test e : present e = Z.testbit e 0.
Proof. apply (has_test e 0). lia. Qed.

Lemma frame_page e : 0 <= e < 4294967296 -> frame e = page_of e * 4096.
Proof. intros He. rewrite frame_eq by done. unfold page_of. rewrite shr12. dlia. Qed.
Lemma frame_mul p : 0 <= p < MAXPAGE -> frame (p * 4096) = p * 4096.
Proof. unfold MAXPAGE. intros Hp. rewrite frame_eq by lia. dlia. Qed.
Lemma frame_shr V : 0 <= V < 4294967296 -> Z.shiftr (frame V) 12 = Z.shiftr V 12.
Proof. intros HV. rewrite frame_page by done. change (Z.shiftr (page_of V * 4096) 12) with (page_of (page_of V * 4096)). apply page_of_mul. Qed.

(** ** Temporary mappings *)
Definition TEMP_PAGE := 0xFFEF0.
Lemma temp_dir i : 0 <= i < 16 -> Z.shiftr (TEMP_PAGE + i) 10 = 1023.
Proof. intros Hi. rewrite shr10. unfold TEMP_PAGE. dlia. Qed.
Lemma temp_page_ok s i : present (pde s 1023) = true -> 0 <= i < 16 -> page_ok s (TEMP_PAGE + i).
Proof. intros H Hi. split; [|by rewrite temp_dir]. unfold ok_dir. rewrite temp_dir by done. by split_and!. Qed.

(** The entries of the slots, and the count of the free ones that the semaphore holds. *)
Definition slots (pt : Z -> Z) : list Z := (fun i => pt (TEMP_PAGE + i)) <$> seqZ 0 16.
Definition temps_ok (pt : Z -> Z) (t : Z) : Prop :=
  Forall (fun e => e = 0 \/ present e = true) (slots pt) /\ t = Z.of_nat (length (filter (fun e => e = 0) (slots pt))).

Lemma slots_elem pt e : e ∈ slots pt <-> exists i, 0 <= i < 16 /\ e = pt (TEMP_PAGE + i).
Proof.
  unfold slots. rewrite list_elem_of_fmap. split; intros (i & H1 & H2).
  - apply elem_of_seqZ in H2. exists i. split; [lia|done].
  - exists i. split; [done|]. apply elem_of_seqZ. lia.
Qed.
Lemma temps_slot pt t i : temps_ok pt t -> 0 <= i < 16 -> pt (TEMP_PAGE + i) = 0 \/ present (pt (TEMP_PAGE + i)) = true.
Proof. intros [H _] Hi. rewrite Forall_forall in H. apply H, slots_elem. by exists i. Qed.
Lemma temps_free pt t : temps_ok pt t -> t <> 0 -> exists i, 0 <= i < 16 /\ pt (TEMP_PAGE + i) = 0.
Proof.
  intros [_ ->] Hz. destruct (filter (fun e => e = 0) (slots pt)) as [|e l] eqn:E; [done|]. assert (e ∈ filter (fun e => e = 0) (slots pt)) as He by (rewrite E; by left).
  apply list_elem_of_filter in He as [-> (i & Hi & He)%slots_elem]. by exists i.
Qed.

Lemma set_temp_run s n : set_temp n s = Ok tt (upd_misc (giMM_ZeroPage s) n (gWorkerStacks s) (giLastUsedWorker s) (m_warnings s) s).
Proof. done. Qed.

Lemma temp_loop_run s0 s pt rcs dat t c : change s0 s pt rcs dat t -> present (pde s0 1023) = true -> 0 <= c < giPageCount s0 -> 0 < rcs c < 2147483647 ->
  (forall j, 0 <= j < 16 -> pt (TEMP_PAGE + j) = 0 \/ present (pt (TEMP_PAGE + j)) = true) ->
  forall n i, 0 <= i -> i + Z.of_nat n <= 16 -> (exists j, i <= j < i + Z.of_nat n /\ pt (TEMP_PAGE + j) = 0) ->
  (rmapped s c = false /\ temp_loop n i (c * 4096) s = Stop MPanic) \/
  exists k s', 0 <= k < 16 /\ pt (TEMP_PAGE + k) = 0 /\ temp_loop n i (c * 4096) s = Ok (Some (TEMP_MAP_ADDR + Z.shiftl k 12)) s' /\
    change s0 s' (upd pt (TEMP_PAGE + k) (Z.lor (c * 4096) 3)) (upd rcs c (rcs c + 1)) dat t.
Proof.
  intros H Hd Hc Hrc Hslots. induction n as [|n IH]; intros i Hi Hn (j & Hj & Hz); [lia|]. cbn [temp_loop]. change (Z.shiftr TEMP_MAP_ADDR 12) with TEMP_PAGE.
  pose proof (temp_page_ok s0 i Hd ltac:(lia)) as Hpg. rewrite (bind_Ok _ _ _ _ _ (read_entry _ _ _ _ _ _ _ H Hpg)). fold (present (pt (TEMP_PAGE + i))).
  destruct (present (pt (TEMP_PAGE + i))) eqn:Ep.
  - apply IH; [lia..|]. exists j. split; [|done]. destruct (decide (j = i)) as [->|]; [by rewrite Hz in Ep|lia].
  - destruct (Hslots i ltac:(lia)) as [He|He]; [|congruence]. destruct (take_page _ _ _ _ _ _ c H Hc Hrc) as [ [Hun Hstop]|(s1 & Hrun & H1)].
    + left. split; [done|]. unfold bind. by rewrite Hstop.
    + right. rewrite (bind_Ok _ _ _ _ _ Hrun). destruct (write_entry _ _ _ _ _ _ (TEMP_PAGE + i) (Z.lor (c * 4096) 3) H1 Hpg) as (s2 & Hw & H2).
      rewrite (bind_Ok _ _ _ _ _ Hw). exists i, s2. split; [lia|]. by split_and!.
Qed.

Lemma MapTemp_run s0 s pt rcs dat t c : change s0 s pt rcs dat t -> present (pde s0 1023) = true -> 0 <= c < giPageCount s0 -> 0 < rcs c < 2147483647 -> temps_ok pt t -> t <> 0 ->
  (rmapped s c = false /\ MM_MapTemp (c * 4096) s = Stop MPanic) \/
  exists k s', 0 <= k < 16 /\ pt (TEMP_PAGE + k) = 0 /\ MM_MapTemp (c * 4096) s = Ok (TEMP_MAP_ADDR + Z.shiftl k 12) s' /\
    change s0 s' (upd pt (TEMP_PAGE + k) (Z.lor (c * 4096) 3)) (upd rcs c (rcs c + 1)) dat (t - 1).
Proof.
  intros H Hd Hc Hrc Ht Hz. pose proof (ch_count H) as Hgc. pose proof (pm_count _ (ch_pm H)) as Hcount. unfold MM_MapTemp. cbv zeta. rewrite frame_mul by lia.
  rewrite bind_get, (ch_temps H), (proj2 (Z.eqb_neq t 0)) by done. rewrite !(bind_Ok _ _ _ _ _ (set_temp_run s (t - 1))).
  pose proof (change_misc _ _ _ _ _ _ (giMM_ZeroPage s) (t - 1) (gWorkerStacks s) (giLastUsedWorker s) (m_warnings s) H) as H1.
  destruct (temps_free _ _ Ht Hz) as (j & Hj & Hjz).
  destruct (temp_loop_run _ _ _ _ _ _ c H1 Hd Hc Hrc ltac:(intros; by eapply temps_slot) 16 0) as [ [Hno Hstop]|(k & s' & Hk & Hkz & Hrun & H2)]; [lia|lia|by exists j| |].
  - left. split; [done|]. unfold bind. by rewrite Hstop.
  - right. exists k, s'. split; [done|]. split; [done|]. split; [|done]. by rewrite (bind_Ok _ _ _ _ _ Hrun).
Qed.

Lemma FreeTemp_run s0 s pt rcs dat t c k : change s0 s pt rcs dat t -> present (pde s0 1023) = true -> 0 <= c < giPageCount s0 -> 0 < rcs c -> ~ is_table s0 c -> 0 <= k < 16 ->
  pt (TEMP_PAGE + k) = Z.lor (c * 4096) 3 ->
  exists s', MM_FreeTemp (TEMP_MAP_ADDR + Z.shiftl k 12) s = Ok tt s' /\ change s0 s' (upd pt (TEMP_PAGE + k) 0) (upd rcs c (rcs c - 1)) dat (t + 1).
Proof.
  intros H Hd Hc Hrc Hnt Hk He. pose proof (ch_count H) as Hgc. pose proof (pm_count _ (ch_pm H)) as Hcount. unfold MAXPAGE in Hcount. pose proof (temp_page_ok s0 k Hd Hk) as Hpg.
  unfold MM_FreeTemp. cbv zeta. replace (i32 (Z.shiftr (TEMP_MAP_ADDR + Z.shiftl k 12) 12)) with (TEMP_PAGE + k).
  2: { rewrite Z.shiftl_mul_pow2, shr12 by lia. unfold TEMP_PAGE, TEMP_MAP_ADDR. rewrite i32_small by dlia. dlia. }
  change (Z.shiftr TEMP_MAP_ADDR 12) with TEMP_PAGE. rewrite (proj2 (Z.leb_le _ _)) by lia.
  rewrite (bind_Ok _ _ _ _ _ (read_entry _ _ _ _ _ _ _ H Hpg)), He, frame_lor by (unfold MAXPAGE; lia).
  destruct (drop_page _ _ _ _ _ _ c H Hc Hrc ltac:(tauto)) as (s1 & Hdrop & H1). rewrite (bind_Ok _ _ _ _ _ Hdrop).
  destruct (write_entry _ _ _ _ _ _ _ 0 H1 Hpg) as (s2 & Hw & H2). rewrite (bind_Ok _ _ _ _ _ Hw), bind_get, set_temp_run, (ch_temps H2).
  eexists. split; [reflexivity|]. eapply change_misc. exact H2.
Qed.

(** ** Copying a page *)
Lemma page_at_run s0 s pt rcs dat t V : change s0 s pt rcs dat t -> page_ok s0 (Z.shiftr V 12) -> present (pt (Z.shiftr V 12)) = true ->
  page_at V s = Ok (page_of (pt (Z.shiftr V 12))) s.
Proof.
  intros H Hpg Hp. unfold page_at. unfold gaPageDir at 1, gets at 1. erewrite bind_Ok by reflexivity. cbv beta. fold (pde s (Z.shiftr V 22)).
  unfold table_of at 1. fold (present (pde s (Z.shiftr V 22))). rewrite (ch_dir H), <- shift_twice. rewrite (proj2 (proj2 (proj2 (proj1 Hpg)))), bind_ret.
  erewrite bind_Ok by (by eapply read_entry). unfold table_of. fold (present (pt (Z.shiftr V 12))). by rewrite Hp.
Qed.

Lemma copy_run s0 s pt rcs dat t dst src : change s0 s pt rcs dat t -> page_ok s0 (Z.shiftr dst 12) -> page_ok s0 (Z.shiftr src 12) ->
  present (pt (Z.shiftr dst 12)) = true -> present (pt (Z.shiftr src 12)) = true ->
  let c := page_of (pt (Z.shiftr dst 12)) in let o := page_of (pt (Z.shiftr src 12)) in
  ~ is_table s0 c -> ~ is_table s0 o -> 0 <= o < giPageCount s0 -> 0 < rcs o ->
  exists s', copy_page dst src s = Ok tt s' /\ change s0 s' pt rcs (upd dat c (dat o)) t.
Proof.
  intros H Hd Hs Pd Ps c o Hc Ho Hor Horc. unfold copy_page. erewrite bind_Ok by (by eapply page_at_run). erewrite bind_Ok by (by eapply page_at_run). rewrite bind_get.
  fold c o. fold (data s o). rewrite (ch_dat H o) by done. by apply write_page.
Qed.

(** What a copy does to the space: nothing but to a new page. *)
Section duplicate.
Context (s0 s : mm) (pt rcs : Z -> Z) (dat : Z -> gmap Z Z) (t V : Z).
Let n := Z.shiftr V 12.
Let o := page_of (pt n).
Context (H : change s0 s pt rcs dat t) (HV : 0 <= V < 4294967296) (Hpg : page_ok s0 n) (He : 0 <= pt n < 4294967296) (Hp : present (pt n) = true) (Hd : present (pde s0 1023) = true)
  (Ho : 0 <= o < giPageCount s0) (Horc : 0 < rcs o) (Hnt : ~ is_table s0 o) (Hts : temps_ok pt t) (Ht : t <> 0) (Hslot : Z.shiftr n 10 <> 1023).

Lemma not_slot k : 0 <= k < 16 -> TEMP_PAGE + k <> n.
Proof. intros Hk E. apply Hslot. rewrite <- E. by apply temp_dir. Qed.

(** The read-only state the page is copied in. *)
Let e := pt n.
Let ro := Z.land e (u32 (Z.lnot PF_WRITE)).
Lemma ro_present : present ro = true.
Proof. rewrite present_test. unfold ro. change PF_WRITE with (2 ^ 1). rewrite land_not_test by lia. rewrite present_test in Hp. unfold e. by rewrite Hp. Qed.
Lemma ro_page : page_of ro = o.
Proof.
  unfold o, page_of, ro. rewrite Z.shiftr_land. apply Z.bits_inj'. intros j Hj. rewrite Z.land_spec. rewrite !Z.shiftr_spec by done. change PF_WRITE with (2 ^ 1).
  fold e. destruct (Z.lt_ge_cases (j + 12) 32) as [Hlt|Hge].
  - pose proof (land_not_test e 1 (j + 12) ltac:(lia) ltac:(lia)) as Ht1. rewrite Z.land_spec in Ht1. rewrite Ht1. by rewrite (proj2 (Z.eqb_neq 1 (j + 12))) by lia.
  - by rewrite word_bits by done.
Qed.
Lemma rw_again : (if negb (has e PF_WRITE) then ro else Z.lor ro PF_WRITE) = e.
Proof.
  unfold ro. change PF_WRITE with (2 ^ 1). rewrite has_test by lia. destruct (Z.testbit e 1) eqn:E; cbn [negb]; [by apply set_again|by apply clear_absent].
Qed.

Lemma duplicate_run r : MM_DuplicatePage V s = r ->
  (exists s1, MM_AllocPhys s = Ok 0 s1 /\ r = Ok 0 s1 /\ change s0 s1 pt rcs dat t) \/
  exists c s1, MM_AllocPhys s = Ok (c * 4096) s1 /\ 16 <= c < giPageCount s0 /\ rcs c <= 0 /\ ~ is_table s0 c /\
    ((rmapped s0 c = false /\ r = Stop MPanic) \/ exists s', r = Ok (c * 4096) s' /\ change s0 s' pt (upd rcs c 1) (upd dat c (dat o)) t).
Proof.
  unfold MM_DuplicatePage. unfold gaPageDir at 1, gets at 1. erewrite bind_Ok by reflexivity. cbv beta. fold (pde s (Z.shiftr V 22)). fold (present (pde s (Z.shiftr V 22))).
  rewrite (ch_dir H), <- shift_twice. fold n. rewrite (proj2 (proj2 (proj2 (proj1 Hpg)))). cbn [negb].
  rewrite (bind_Ok _ _ _ _ _ (read_entry _ _ _ _ _ _ _ H Hpg)). fold (present (pt n)). rewrite Hp. cbn [negb]. cbv zeta. rewrite frame_shr by done. fold n.
  destruct (alloc_page _ _ _ _ _ _ H) as [(s1 & Ha & H1)|(c & d & s1 & Ha & Hc & Hc0 & Hcn & H1)]; rewrite (bind_Ok _ _ _ _ _ Ha).
  { intros <-. left. by exists s1. }
  rewrite (proj2 (Z.eqb_neq (c * 4096) 0)) by lia. intros Hr. right. exists c, s1. split; [done|]. split; [done|]. split; [done|]. split; [done|].
  assert (o <> c) as Hoc by (intros E; rewrite <- E in Hc0; lia). pose proof (pm_count _ (ch_pm H)) as Hcount. pose proof (ch_count H) as Hgc.
  rewrite (bind_Ok _ _ _ _ _ (read_entry _ _ _ _ _ _ _ H1 Hpg)) in Hr. fold e in Hr. fold ro in Hr.
  destruct (write_entry _ _ _ _ _ _ n ro H1 Hpg) as (s2 & Hw2 & H2). rewrite (bind_Ok _ _ _ _ _ Hw2) in Hr.
  assert (temps_ok (upd pt n ro) t) as Hts2.
  { assert (slots (upd pt n ro) = slots pt) as E; [|unfold temps_ok; by rewrite E]. apply list_fmap_ext. intros i k Hk%lookup_seqZ. apply upd_ne. apply not_slot. lia. }
  destruct (MapTemp_run _ _ _ _ _ _ c H2 Hd ltac:(lia) ltac:(rewrite upd_eq; lia) Hts2 Ht) as [ [Hun Hstop]|(k & s3 & Hk & Hkz & Hmap & H3)].
  { left. split; [|unfold bind in Hr; by rewrite Hstop in Hr]. destruct (rmapped s0 c) eqn:E; [|done]. apply (ch_map H2) in E; [congruence|unfold MAXPAGE in *; lia]. }
  right. rewrite (bind_Ok _ _ _ _ _ Hmap) in Hr. pose proof (not_slot k Hk) as Hkn. pose proof (temp_page_ok s0 k Hd Hk) as Hkpg.
  set (T := TEMP_MAP_ADDR + Z.shiftl k 12) in *. assert (Z.shiftr T 12 = TEMP_PAGE + k) as HT by (unfold T; rewrite Z.shiftl_mul_pow2, shr12 by lia; unfold TEMP_PAGE, TEMP_MAP_ADDR; dlia).
  set (pt3 := upd (upd pt n ro) (TEMP_PAGE + k) (Z.lor (c * 4096) 3)) in *. assert (pt3 n = ro) as Hn3 by (unfold pt3; rewrite upd_ne, upd_eq by done; done).
  assert (pt3 (TEMP_PAGE + k) = Z.lor (c * 4096) 3) as Hk3 by apply upd_eq.
  destruct (copy_run _ _ _ _ _ _ T (frame V) H3) as (s4 & Hcopy & H4); rewrite ?HT, ?frame_shr by done; fold n; rewrite ?Hn3, ?Hk3, ?ro_page, ?page_of_lor by lia; try done.
  { apply present_lor3. lia. }
  { apply ro_present. }
  { rewrite !upd_ne by done. done. }
  rewrite HT, frame_shr, Hk3 in H4 by done. fold n in H4. rewrite Hn3, ro_page, page_of_lor in H4 by lia. rewrite (bind_Ok _ _ _ _ _ Hcopy) in Hr.
  destruct (FreeTemp_run _ _ _ _ _ _ c k H4 Hd ltac:(lia) ltac:(rewrite !upd_eq; lia) Hcn Hk Hk3) as (s5 & Hfree & H5). fold T in Hfree. rewrite (bind_Ok _ _ _ _ _ Hfree) in Hr.
  set (pt5 := upd pt3 (TEMP_PAGE + k) 0) in *. assert (pt5 n = ro) as Hn5 by (unfold pt5; rewrite upd_ne by done; done).
  assert (forall m, upd pt5 n e m = pt m) as Hpt.
  { intros m. unfold upd, pt5, pt3. destruct (decide (m = n)) as [->|Hmn]; [done|]. unfold upd. destruct (decide (m = TEMP_PAGE + k)) as [->|Hmk]; [|by rewrite decide_False].
    rewrite upd_ne in Hkz by done. done. }
  assert (exists s6, (if negb (negb (has e PF_WRITE)) then do e <- gaPageTable n; set_PageTable n (Z.lor e PF_WRITE) else ret tt) s5 = Ok tt s6 /\
    change s0 s6 (upd pt5 n e) (upd (upd (upd rcs c 1) c (upd rcs c 1 c + 1)) c (upd (upd rcs c 1) c (upd rcs c 1 c + 1) c - 1)) (upd (upd dat c d) c (upd dat c d o)) (t - 1 + 1)) as (s6 & Hrw & H6).
  { pose proof rw_again as Hrw. destruct (has e PF_WRITE); cbn [negb] in *.
    - rewrite (bind_Ok _ _ _ _ _ (read_entry _ _ _ _ _ _ _ H5 Hpg)), Hn5, Hrw. by apply write_entry.
    - exists s5. split; [done|]. eapply change_ext; [exact H5| |done|done]. intros m. unfold upd. destruct (decide (m = n)) as [->|]; [|done]. congruence. }
  rewrite (bind_Ok _ _ _ _ _ Hrw) in Hr. exists s6. split; [done|]. replace t with (t - 1 + 1) by lia. eapply change_ext; [exact H6|done| |].
  - intros q. unfold upd. repeat destruct (decide _); congruence || lia.
  - intros q. unfold upd. repeat destruct (decide _); congruence.
Qed.
End duplicate.
