(* ===== verification/MmInstall.v ===== *)
(** * Setting up the page allocator from the memory map ([MM_Install]) *)
From S2P Require Import Prelude Pmemmap Mm MmInv.

Local Open Scope Z_scope.
Local Open Scope monad_scope.
Implicit Types (s : mm) (p q : Z).

Lemma for_inv (P : Z -> mm -> Prop) body n : forall i s, P i s ->
  (forall j s, i <= j < i + Z.of_nat n -> P j s -> exists s', body j s = Ok tt s' /\ P (j + 1) s') -> exists s', for_ n i body s = Ok tt s' /\ P (i + Z.of_nat n) s'.
Proof.
  induction n as [|n IH]; intros i s H Hb; cbn [for_].
  - exists s. split; [done|]. by rewrite Z.add_0_r.
  - destruct (Hb i s ltac:(lia) H) as (s1 & Hrun & H1). rewrite (bind_Ok _ _ _ _ _ Hrun). destruct (IH (i + 1) s1 H1) as (s' & Hr & H').
    { intros j x Hj. apply Hb. lia. }
    exists s'. split; [done|]. by replace (i + Z.of_nat (S n)) with (i + 1 + Z.of_nat n) by lia.
Qed.

(** The state with another bitmap, in which the pages in use are those of [f]; and another number of used pages. *)
Definition with_bitmap s s' (f : Z -> bool) : Prop := exists al pb,
  s' = upd_phys al (giLastPossibleFree s) (gaSuperBitmap s) pb (gaPageReferences s) (gaPageNodes s) s /\ words_ok pb /\ forall q, 0 <= q < MAXPAGE -> used pb q = f q.

Lemma with_bitmap_ext s s' f g : with_bitmap s s' f -> (forall q, 0 <= q < MAXPAGE -> f q = g q) -> with_bitmap s s' g.
Proof. intros (al & pb & -> & Hw & Hf) E. exists al, pb. split; [done|]. split; [done|]. intros q Hq. by rewrite Hf, E. Qed.

(** A word of the bitmap set to [w]. *)
Lemma word_run s s' f i w : with_bitmap s s' f -> 0 <= i < 32768 -> 0 <= w < 4294967296 ->
  exists s2, set_bitmap i w s' = Ok tt s2 /\ with_bitmap s s2 (fun q => if q / 32 =? i then Z.testbit w (q mod 32) else f q).
Proof.
  intros (al & pb & -> & Hw & Hf) Hi Hwr. rewrite set_bitmap_run by done. eexists. split; [reflexivity|]. eexists al, _. split; [reflexivity|]. split; [by apply words_insert|].
  intros q Hq. unfold used. cbn [upd_phys gaPageBitmap]. destruct (q / 32 =? i) eqn:E; bools; [subst; by rewrite lookup_insert_eq|]. rewrite lookup_insert_ne by done. by apply Hf.
Qed.

Lemma clear_page_run s s' f p : with_bitmap s s' f -> 0 <= p < MAXPAGE -> exists s2, clear_page p s' = Ok tt s2 /\ with_bitmap s s2 (fun q => f q && negb (q =? p)).
Proof.
  intros H Hp. pose proof H as (al & pb & Hs & Hw & Hf). unfold MAXPAGE in Hp. unfold clear_page.
  rewrite (bind_Ok _ _ _ _ _ (bitmap_run s' (p / 32) ltac:(dlia))). subst s'. cbn [upd_phys gaPageBitmap].
  destruct (word_run _ _ _ (p / 32) (clear_bit (default 0 (pb !! (p / 32))) (p mod 32)) H ltac:(dlia)) as (s2 & Hrun & H2); [apply clear_bit_range, words_default, Hw|].
  exists s2. split; [done|]. eapply with_bitmap_ext; [done|]. intros q Hq. cbv beta. destruct (q / 32 =? p / 32) eqn:E; bools.
  - rewrite clear_bit_test by dlia. rewrite <- E. fold (used pb q). rewrite Hf by done. rewrite andb_comm. f_equal. f_equal. destruct (q =? p) eqn:Eq; bools; [subst; apply Z.eqb_refl|].
    apply Z.eqb_neq. dlia.
  - rewrite (proj2 (Z.eqb_neq q p)) by (intros ->; done). by rewrite andb_true_r.
Qed.

Definition without (f : Z -> bool) (a b : Z) : Z -> bool := fun q => f q && negb (bool_decide (a <= q < b)).
Lemma without_empty f a : forall q, without f a a q = f q.
Proof. intros q. unfold without. rewrite bool_decide_false by lia. apply andb_true_r. Qed.
Lemma without_join f a b c q : a <= b <= c -> without (without f a b) b c q = without f a c q.
Proof. intros H. unfold without. repeat case_bool_decide; try lia; destruct (f q); done. Qed.
Lemma without_one f a q : without f a (a + 1) q = f q && negb (q =? a).
Proof. unfold without. destruct (q =? a) eqn:E; bools; [rewrite bool_decide_true by lia|rewrite bool_decide_false by lia]; done. Qed.
Lemma without_ext f g a b q : f q = g q -> without f a b q = without g a b q.
Proof. intros H. unfold without. by rewrite H. Qed.

Lemma clear_pages_run s s' f a n : with_bitmap s s' f -> 0 <= a -> a + Z.of_nat n <= MAXPAGE ->
  exists s2, for_ n a clear_page s' = Ok tt s2 /\ with_bitmap s s2 (without f a (a + Z.of_nat n)).
Proof.
  intros H Ha Hn. apply (for_inv (fun j x => with_bitmap s x (without f a j))).
  - eapply with_bitmap_ext; [done|]. intros q _. by rewrite without_empty.
  - intros j x Hj Hx. destruct (clear_page_run _ _ _ j Hx ltac:(lia)) as (x2 & Hrun & Hx2). exists x2. split; [done|].
    eapply with_bitmap_ext; [done|]. intros q _. cbn. rewrite <- without_one. apply without_join. lia.
Qed.

Lemma clear_head_run s fuel : forall s' f a c, with_bitmap s s' f -> 0 <= a -> 0 <= c -> a + c <= MAXPAGE -> (a mod 32 = 0 \/ 32 - a mod 32 <= Z.of_nat fuel) ->
  exists h c' s2, clear_head fuel a c s' = Ok (h, c') s2 /\ a <= h /\ 0 <= c' /\ h + c' = a + c /\ (h mod 32 = 0 \/ c' = 0) /\ with_bitmap s s2 (without f a h).
Proof.
  induction fuel as [|fuel IH]; intros s' f a c H Ha Hc Hac Hf; cbn [clear_head].
  - exists a, c, s'. split; [done|]. split_and!; try dlia. eapply with_bitmap_ext; [done|]. intros q _. by rewrite without_empty.
  - destruct ((a mod 32 =? 0) || (c =? 0)) eqn:E.
    + exists a, c, s'. split; [done|]. split_and!; try lia. eapply with_bitmap_ext; [done|]. intros q _. by rewrite without_empty.
    + apply orb_false_iff in E as [E1 E2]; bools. destruct (clear_page_run _ _ _ a H ltac:(lia)) as (s1 & Hrun & H1). rewrite (bind_Ok _ _ _ _ _ Hrun).
      destruct (IH s1 _ (a + 1) (c - 1) H1) as (h & c' & s2 & Hr & G1 & G2 & G3 & G4 & G5); try lia; [dlia|]. exists h, c', s2. split; [done|]. split_and!; try lia.
      eapply with_bitmap_ext; [done|]. intros q _. rewrite <- (without_join f a (a + 1) h) by lia. apply without_ext. cbn. by rewrite without_one.
Qed.

Lemma zero_words_run s s' f i n : with_bitmap s s' f -> 0 <= i -> i + Z.of_nat n <= 32768 ->
  exists s2, for_ n 0 (fun j => set_bitmap (i + j) 0) s' = Ok tt s2 /\ with_bitmap s s2 (without f (32 * i) (32 * (i + Z.of_nat n))).
Proof.
  intros H Hi Hn. destruct (for_inv (fun j x => with_bitmap s x (without f (32 * i) (32 * (i + j)))) (fun j => set_bitmap (i + j) 0) n 0 s') as (s2 & Hr & H2).
  - eapply with_bitmap_ext; [done|]. intros q _. cbv beta. by rewrite Z.add_0_r, without_empty.
  - intros j x Hj Hx. destruct (word_run _ _ _ (i + j) 0 Hx ltac:(lia) ltac:(lia)) as (x2 & Hrun & Hx2). exists x2. split; [done|].
    eapply with_bitmap_ext; [done|]. intros q Hq. cbv beta. rewrite Z.testbit_0_l. unfold without. destruct (q / 32 =? i + j) eqn:E; bools.
    + rewrite (bool_decide_true (32 * i <= q < 32 * (i + (j + 1)))) by dlia. by rewrite andb_false_r.
    + destruct (decide (32 * i <= q < 32 * (i + j))); [rewrite !bool_decide_true by lia|rewrite !bool_decide_false by dlia]; done.
  - exists s2. split; [done|]. by rewrite Z.add_0_l in H2.
Qed.

Lemma free_range_run s s' f a c : with_bitmap s s' f -> 0 <= a -> 0 <= c -> a + c <= MAXPAGE -> exists s2, free_range a c s' = Ok tt s2 /\ with_bitmap s s2 (without f a (a + c)).
Proof.
  intros H Ha Hc Hac. unfold free_range. destruct (clear_head_run s 32 _ _ a c H Ha Hc Hac ltac:(dlia)) as (h & c' & s1 & Hr1 & G1 & G2 & G3 & G4 & H1).
  rewrite (bind_Ok _ _ _ _ _ Hr1). cbn [fst snd]. unfold MAXPAGE in *.
  destruct (zero_words_run _ _ _ (h / 32) (Z.to_nat (c' / 32)) H1) as (s2 & Hr2 & H2); [dlia|dlia|]. rewrite (bind_Ok _ _ _ _ _ Hr2).
  destruct (clear_pages_run _ _ _ (h + (c' - c' mod 32)) (Z.to_nat (c' mod 32)) H2) as (s3 & Hr3 & H3); [dlia|unfold MAXPAGE; dlia|]. exists s3. split; [done|].
  eapply with_bitmap_ext; [done|]. intros q _. destruct G4 as [Hh|Hz].
  - rewrite !Z2Nat.id by dlia. replace (32 * (h / 32)) with h by dlia. replace (32 * (h / 32 + c' / 32)) with (h + (c' - c' mod 32)) by dlia.
    replace (h + (c' - c' mod 32) + c' mod 32) with (a + c) by lia. rewrite <- (without_join f a (h + (c' - c' mod 32))) by dlia. apply without_ext. apply without_join. dlia.
  - subst c'. change (0 mod 32) with 0. change (Z.of_nat (Z.to_nat 0)) with 0. change (Z.of_nat (Z.to_nat (0 / 32))) with 0. rewrite !Z.add_0_r, !without_empty. by replace h with (a + c) by lia.
Qed.

(** ** The whole map *)
(** The pages an entry makes free as the code rounds its start and length. *)
Definition ent_pages (e : tPMemMapEnt) (q : Z) : bool := bool_decide (Type_ e = PMEMTYPE_FREE) && bool_decide (Start e / 4096 <= q < Start e / 4096 + Length e / 4096).

Lemma install_ent_run s s' f e : with_bitmap s s' f -> ok_ent e -> exists s2, install_ent e s' = Ok tt s2 /\ with_bitmap s s2 (fun q => f q && negb (ent_pages e q)).
Proof.
  intros H (Hs & Hl & Hsl). change (2 ^ 64) with 18446744073709551616 in Hsl. unfold install_ent, ent_pages. destruct (bool_decide (Type_ e = PMEMTYPE_FREE)).
  - set (a := Start e / 4096). set (c := Length e / 4096). assert (0 <= a /\ 0 <= c /\ a + c < 18446744073709551616) as (Ha & Hc & Hac) by (unfold a, c; split_and!; dlia).
    cbv zeta. destruct (1048576 <? a) eqn:E1; bools.
    { exists s'. split; [done|]. eapply with_bitmap_ext; [done|]. unfold MAXPAGE. intros q Hq. cbv beta. rewrite bool_decide_false by lia. by rewrite andb_true_r. }
    rewrite u64_small by lia. destruct (1048576 <? a + c) eqn:E2; bools.
    + destruct (free_range_run _ _ _ a (1048576 - a) H) as (s2 & Hr & H2); [lia|lia|unfold MAXPAGE; lia|]. exists s2. split; [done|]. eapply with_bitmap_ext; [done|].
      unfold MAXPAGE. intros q Hq. unfold without. cbn [andb]. destruct (decide (a <= q)); [rewrite !bool_decide_true by lia|rewrite !bool_decide_false by lia]; done.
    + destruct (free_range_run _ _ _ a c H) as (s2 & Hr & H2); [lia|lia|unfold MAXPAGE; lia|]. exists s2. by split.
  - destruct (bool_decide (Type_ e = PMEMTYPE_USED)).
    + destruct H as (al & pb & -> & Hw & Hf). eexists. split; [reflexivity|]. eexists _, pb. split; [reflexivity|]. split; [done|]. intros q Hq. cbn. rewrite Hf by done. by rewrite andb_true_r.
    + exists s'. split; [done|]. eapply with_bitmap_ext; [done|]. intros q _. cbn. by rewrite andb_true_r.
Qed.

Lemma install_ents_run s ents : forall s' f, with_bitmap s s' f -> Forall ok_ent ents ->
  exists s2, install_ents ents s' = Ok tt s2 /\ with_bitmap s s2 (fun q => f q && negb (existsb (fun e => ent_pages e q) ents)).
Proof.
  induction ents as [|e ents IH]; intros s' f H Hok; cbn [install_ents existsb].
  - exists s'. split; [done|]. eapply with_bitmap_ext; [done|]. intros q _. cbn. by rewrite andb_true_r.
  - apply Forall_cons in Hok as [He Hok]. destruct (install_ent_run _ _ _ _ H He) as (s1 & Hr & H1). rewrite (bind_Ok _ _ _ _ _ Hr).
    destruct (IH _ _ H1 Hok) as (s2 & Hr2 & H2). exists s2. split; [done|]. eapply with_bitmap_ext; [done|]. intros q _. cbv beta. rewrite negb_orb. by rewrite andb_assoc.
Qed.

Lemma ones_bits j : 0 <= j < 32 -> Z.testbit ONES j = true.
Proof. intros Hj. change ONES with (Z.ones 32). by apply Z.ones_spec_low. Qed.

Lemma ones_words_run s s' f n : with_bitmap s s' f -> Z.of_nat n <= 32768 ->
  exists s2, for_ n 0 (fun i => set_bitmap i ONES) s' = Ok tt s2 /\ with_bitmap s s2 (fun q => bool_decide (q < 32 * Z.of_nat n) || f q).
Proof.
  intros H Hn. destruct (for_inv (fun j x => with_bitmap s x (fun q => bool_decide (q < 32 * j) || f q)) (fun i => set_bitmap i ONES) n 0 s') as (s2 & Hr & H2).
  - eapply with_bitmap_ext; [done|]. intros q Hq. cbv beta. by rewrite bool_decide_false by lia.
  - intros j x Hj Hx. destruct (word_run _ _ _ j ONES Hx ltac:(lia) ltac:(unfold ONES; lia)) as (x2 & Hrun & Hx2). exists x2. split; [done|].
    eapply with_bitmap_ext; [done|]. intros q Hq. cbv beta. destruct (q / 32 =? j) eqn:E; bools.
    + rewrite ones_bits, bool_decide_true by dlia. done.
    + destruct (decide (q < 32 * j)); [rewrite !bool_decide_true by lia|rewrite !bool_decide_false by dlia]; done.
  - exists s2. split; [done|]. by rewrite Z.add_0_l in H2.
Qed.

(** The marks of the blocks. *)
Lemma supers_run s n : Z.of_nat n <= 32768 -> words_ok (gaSuperBitmap s) ->
  exists sb, for_ n 0 (fun i => do w <- bitmap i; if u32 (w + 1) =? 0 then do sup <- super (i / 32); set_super (i / 32) (set_bit sup (i mod 32)) else ret tt) s =
    Ok tt (upd_phys (giPhysAlloc s) (giLastPossibleFree s) sb (gaPageBitmap s) (gaPageReferences s) (gaPageNodes s) s) /\ words_ok sb.
Proof.
  intros Hn Hw. destruct (for_inv (fun _ x => exists sb, x = upd_phys (giPhysAlloc s) (giLastPossibleFree s) sb (gaPageBitmap s) (gaPageReferences s) (gaPageNodes s) s /\ words_ok sb)
    (fun i => do w <- bitmap i; if u32 (w + 1) =? 0 then do sup <- super (i / 32); set_super (i / 32) (set_bit sup (i mod 32)) else ret tt) n 0 s) as (s2 & Hr & (sb & -> & Hsb)).
  - exists (gaSuperBitmap s). split; [by destruct s|done].
  - intros j x Hj (sb & -> & Hsb). rewrite (bind_Ok _ _ _ _ _ (bitmap_run _ j ltac:(lia))). destruct (_ =? 0).
    + rewrite (bind_Ok _ _ _ _ _ (super_run _ (j / 32) ltac:(dlia))), set_super_run by dlia. eexists. split; [reflexivity|]. eexists. split; [reflexivity|].
      apply words_insert; [done|]. apply set_bit_range; [by apply words_default|dlia].
    + eexists. split; [reflexivity|]. by exists sb.
  - by exists sb.
Qed.

(** A page is covered when all of its bytes are in one entry of type FREE. *)
Definition covered (ents : list tPMemMapEnt) (q : Z) : Prop := exists e, e ∈ ents /\ Type_ e = PMEMTYPE_FREE /\ Start e <= q * 4096 /\ (q + 1) * 4096 <= Start e + Length e.
(** Free memory starts on a page. *)
Definition free_aligned (e : tPMemMapEnt) : Prop := Type_ e = PMEMTYPE_FREE -> Start e mod 4096 = 0.
Lemma covered_pages ents q : Forall free_aligned ents -> Forall ok_ent ents -> existsb (fun e => ent_pages e q) ents = true <-> covered ents q.
Proof.
  intros Ha Hok. rewrite existsb_exists. setoid_rewrite <- list_elem_of_In. unfold covered, ent_pages. split; intros (e & He & H); exists e; (split; [done|]).
  - apply andb_true_iff in H as [H1%bool_decide_eq_true_1 H2%bool_decide_eq_true_1]. pose proof (proj1 (Forall_forall _ _) Ha e He H1) as Hal. split; [done|]. dlia.
  - destruct H as (H1 & H2 & H3). pose proof (proj1 (Forall_forall _ _) Ha e He H1) as Hal. apply andb_true_iff. split; apply bool_decide_eq_true_2; [done|]. dlia.
Qed.

(** C29: For a memory map with RAM in it whose ranges do not wrap and whose FREE ranges start on a page boundary: after
    MM_Install the allocator state is well formed, memory is counted up to the end of the last RAM range or 4 GiB, and a
    page below the last whole word of the bitmap is free exactly when all of it lies in a FREE range. (A FREE range that
    starts inside a page frees that page too: unaligned_frees_page.) *)
Theorem install_marks ents s : Forall ok_ent ents -> Forall free_aligned ents -> 4096 <= max_addr ents -> words_ok (gaPageBitmap s) -> words_ok (gaSuperBitmap s) -> (forall q, rmapped s q = false) ->
  exists s', MM_Install ents s = Ok tt s' /\ pm_ok s' /\ gbReferences s' = true /\ giPageCount s' = Z.min (max_addr ents) 4294967296 / 4096 /\
    forall q, 0 <= q < giPageCount s' / 32 * 32 -> usedp s' q = false <-> covered ents q.
Proof.
  intros Hents Hal Hmax Hpb Hsb Hm. unfold MM_Install. cbv zeta. set (count := Z.shiftr (if 4294967296 <? max_addr ents then 4294967296 else max_addr ents) 12).
  assert (count = Z.min (max_addr ents) 4294967296 / 4096) as Hcount by (unfold count; rewrite shr12; f_equal; destruct (4294967296 <? max_addr ents) eqn:E; bools; lia).
  assert (1 <= count <= 1048576) as Hcr by (rewrite Hcount; dlia). unfold modify at 1. erewrite bind_Ok by reflexivity. set (s1 := MkMm _ count _ _ _ _ _ _ _ _ _ _ _ _ _ _).
  assert (with_bitmap s1 s1 (usedp s1)) as H1 by (exists (giPhysAlloc s1), (gaPageBitmap s1); by split_and!).
  destruct (ones_words_run _ _ _ (Z.to_nat (count / 32)) H1) as (s2 & Hr2 & H2); [dlia|]. rewrite (bind_Ok _ _ _ _ _ Hr2).
  destruct (install_ents_run _ _ _ _ H2 Hents) as (s3 & Hr3 & (al & pb & -> & Hw3 & Hf3)). rewrite (bind_Ok _ _ _ _ _ Hr3).
  set (s3 := upd_phys al _ _ pb _ _ s1) in *. destruct (supers_run s3 (Z.to_nat ((count + 31) / 32))) as (sb & Hr4 & Hw4); [dlia|done|]. rewrite (bind_Ok _ _ _ _ _ Hr4).
  eexists. split; [reflexivity|]. split; [|split; [done|split; [done|] ] ].
  - split; [cbn; unfold MAXPAGE; lia|cbn; rewrite u64_small by lia; unfold MAXPAGE; lia|by split|]. intros q _ Hmq. change (rmapped s q = true) in Hmq. by rewrite Hm in Hmq.
  - cbn [giPageCount]. intros q Hq. rewrite <- covered_pages, <- negb_false_iff by done. match goal with |- usedp ?s0 q = false <-> _ => enough (usedp s0 q = negb (existsb (fun e => ent_pages e q) ents)) as -> by done end. unfold usedp. cbn [gaPageBitmap upd_phys]. change (used pb q = negb (existsb (fun e => ent_pages e q) ents)). rewrite Hf3 by (unfold MAXPAGE; change (0 <= q < count / 32 * 32) in Hq; dlia).
    rewrite bool_decide_true; [done|]. change (0 <= q < count / 32 * 32) in Hq. rewrite Z2Nat.id by dlia. lia.
Qed.

Definition boot : mm := MkMm 0 0 0 0 ∅ ∅ ∅ false ∅ ∅ 0 0 16 ∅ 0 0.
Definition boot_map : list tPMemMapEnt := [Ent 0 0x10000 PMEMTYPE_USED 0; Ent 0x10000 0x30000 PMEMTYPE_FREE 0].
Lemma install_marks_witness : exists s', MM_Install boot_map boot = Ok tt s' /\ pm_ok s' /\ giPageCount s' = 64 /\ usedp s' 15 = true /\ usedp s' 16 = false.
Proof.
  assert (Forall ok_ent boot_map) as H by (apply Forall_cons; split; [by vm_compute|]; apply Forall_cons; split; [by vm_compute|by apply Forall_nil]). assert (forall q, rmapped boot q = false) as Hm by (intros q; unfold rmapped, phys, pte, pde, word; by vm_compute).
  assert (words_ok ∅) as Hw by (intros i w; by rewrite lookup_empty).
  assert (Forall free_aligned boot_map) as Ha by (apply Forall_cons; split; [done|]; apply Forall_cons; split; [done|apply Forall_nil; done]).
  destruct (install_marks boot_map boot H Ha ltac:(by vm_compute) Hw Hw Hm) as (s' & H1 & H2 & _ & H3 & H4).
  exists s'. split; [exact H1|]. split; [exact H2|]. assert (giPageCount s' = 64) as H5 by (rewrite H3; by vm_compute). rewrite H5 in H4. split; [done|].
  change (64 / 32 * 32) with 64 in H4. split.
  - apply not_false_iff_true. rewrite (H4 15) by lia. intros (e & He & Ht & H6 & H7). apply elem_of_cons in He as [->|He]; [discriminate Ht|]. apply elem_of_cons in He as [->|He]; [cbn in H6; lia|by apply not_elem_of_nil in He].
  - apply H4; [lia|]. exists (Ent 0x10000 0x30000 PMEMTYPE_FREE 0). split; [apply elem_of_cons; right; apply elem_of_cons; by left|]. split; [reflexivity|]. cbn [Start Length]. lia.
Defined.

(** Of a FREE range that does not start on a page, the page its start lies in is made free, the half before it included. *)
Lemma unaligned_frees_page : match MM_Install [Ent 0 0x10000 PMEMTYPE_USED 0; Ent 0x11800 0x1000 PMEMTYPE_FREE 0; Ent 0x20000 0x20000 PMEMTYPE_FREE 0] boot with Ok _ s' => usedp s' 17 | Stop _ => true end = false.
Proof. vm_compute. reflexivity. Qed.
