(* ===== verification/MmProps.v ===== *)
(** * Properties of the memory manager

    The users of the page allocator as a transition system, and what the page fault handler does for a page that is
    shared until it is written. *)
From S2P Require Import Prelude Mm MmVirt MmInv MmRefs MmSpace MmCow.

Local Open Scope Z_scope.
Local Open Scope monad_scope.
Implicit Types (s : mm) (p q : Z).

(** ** The users of the allocator *)
(** The references held to each page, besides those of the allocator itself, and what a caller may do: release or
    duplicate a reference it holds. *)
Inductive user_step : (Z -> Z) * mm -> (Z -> Z) * mm -> Prop :=
  | user_alloc held s r s' : MM_AllocPhys s = Ok r s' -> user_step (held, s) (if r =? 0 then held else upd held (page_of r) (held (page_of r) + 1), s')
  | user_ref held s p s' : 0 <= p < giPageCount s -> 0 < held p < 2147483647 -> MM_RefPhys (p * 4096) s = Ok tt s' -> user_step (held, s) (upd held p (held p + 1), s')
  | user_deref held s p s' : 0 <= p < giPageCount s -> 0 < held p -> MM_DerefPhys (p * 4096) s = Ok tt s' -> user_step (held, s) (upd held p (held p - 1), s').

(** The count of a page is what is held, but for the pages of the counts. *)
Definition tracks (own : gset Z) (held : Z -> Z) s : Prop :=
  pm_ok s /\ refs_ok s /\ forall q, 0 <= q < giPageCount s -> 0 <= held q /\ if decide (q ∈ own) then held q = 0 /\ rc s q = 1 else rc s q = held q.

Lemma tracks_init s : pm_ok s -> refs_ok s -> tracks ∅ (rc s) s.
Proof. intros H1 H2. split; [done|]. split; [done|]. intros q Hq. rewrite decide_False by set_solver. destruct (rc_range s q H1 Hq). split; [lia|done]. Qed.

Lemma tracks_outside own held held' s s' : tracks own held s -> pm_ok s' -> outside s' = outside s ->
  (forall q, 0 <= q < giPageCount s -> (rc s' q = rc s q /\ held' q = held q) \/ ((q ∉ own) /\ 0 <= held' q /\ rc s' q = held' q)) -> tracks own held' s'.
Proof.
  intros (H1 & H2 & H3) Hpm Hout Hq. split; [done|]. split; [by eapply refs_ok_outside|]. replace (giPageCount s') with (giPageCount s) by (by injection Hout).
  intros q Hr. destruct (Hq q Hr) as [ [-> ->]|(Hno & H0 & Hrc)]; [by apply H3|]. by rewrite decide_False.
Qed.

Lemma tracks_held own held s p : tracks own held s -> 0 <= p < giPageCount s -> 0 < held p -> (p ∉ own) /\ rc s p = held p.
Proof. intros (_ & _ & H) Hp Hpos. destruct (H p Hp) as [_ Hc]. destruct (decide (p ∈ own)); [lia|done]. Qed.
Lemma tracks_free own held s p : tracks own held s -> 0 <= p < giPageCount s -> rc s p = 0 -> (p ∉ own) /\ held p = 0.
Proof. intros (_ & _ & H) Hp Hz. destruct (H p Hp) as [_ Hc]. destruct (decide (p ∈ own)); [lia|]. split; [done|]. lia. Qed.

Lemma tracks_step own held s held' s' : tracks own held s -> user_step (held, s) (held', s') ->
  giPageCount s' = giPageCount s /\ exists own', own ⊆ own' /\ tracks own' held' s'.
Proof.
  intros Ht Hs. pose proof Ht as (Hpm & Hrk & _). inversion Hs as [? ? r ? Ha|? ? p ? Hp Hpos Hrun|? ? p ? Hp Hpos Hrun]; subst.
  - destruct (AllocPhys_run s Hpm) as (r' & s1 & Ha' & (Hpm1 & Hout & Hcase) & _). rewrite Ha in Ha'. injection Ha' as <- <-. split; [by injection Hout|]. exists own. split; [done|].
    destruct Hcase as [ [-> Hrc]|(p & -> & Hp & Hz & H1 & Hrc)].
    + eapply tracks_outside; [done..|]. intros q Hq. left. by rewrite Hrc.
    + rewrite (proj2 (Z.eqb_neq (p * 4096) 0)), page_of_mul by lia. destruct (tracks_free own held s p Ht ltac:(lia) Hz) as [Hno Hh].
      eapply tracks_outside; [done..|]. intros q Hq. destruct (decide (q = p)) as [->|Hne]; [right; rewrite upd_eq; split_and!; [done|lia|lia]|]. left. rewrite Hrc by lia. by rewrite upd_ne.
  - destruct (tracks_held _ _ _ _ Ht Hp ltac:(lia)) as [Hno Hh].
    destruct (RefPhys_run s (p * 4096)) as [(s1 & _ & _ & Hstop)|(c & s1 & Hrun' & [R1 R2 R3 R4 R5 R6 R7])]; rewrite ?page_of_mul in *; try done; try lia; [congruence|].
    rewrite Hrun in Hrun'. injection Hrun' as <-. assert (giPageCount s' = giPageCount s) as Hgc by (destruct c; by injection R7). split; [done|].
    pose proof (pm_count _ Hpm) as Hcount. exists (match c with Some x => own ∪ {[x]} | None => own end). split; [destruct c; set_solver|]. split; [done|]. split; [done|]. rewrite Hgc. intros q Hq.
    destruct Ht as (_ & _ & Ht). destruct (Ht q Hq) as [H0 Hc]. destruct (decide (q = p)) as [->|Hne].
    + rewrite upd_eq. split; [lia|]. rewrite decide_False; [lia|]. destruct c as [x|]; [|done]. destruct (R5 x eq_refl) as (_ & ? & _). set_solver.
    + rewrite upd_ne by done. split; [done|]. destruct c as [x|]; [|rewrite R6 by (done || lia); exact Hc]. destruct (R5 x eq_refl) as (_ & _ & Hx & Hx0 & Hx1).
      destruct (decide (q = x)) as [->|Hqx].
      * rewrite decide_True by set_solver. split; [|done]. destruct (decide (x ∈ own)); lia.
      * rewrite R6 by (done || lia || congruence). destruct (decide (q ∈ own)); [by rewrite decide_True by set_solver|by rewrite decide_False by set_solver].
  - destruct (tracks_held _ _ _ _ Ht Hp Hpos) as [Hno Hh]. destruct (DerefPhys_run s (p * 4096) Hpm ltac:(lia)) as (s1 & Hrun' & (Hpm1 & Hout & Hrc & Hrcp) & _).
    rewrite page_of_mul in *. rewrite Hrun in Hrun'. injection Hrun' as <-. rewrite (proj2 (Z.ltb_lt _ _)) in Hrcp by lia. split; [by injection Hout|]. exists own. split; [done|].
    eapply tracks_outside; [done..|]. intros q Hq. destruct (decide (q = p)) as [->|Hne]; [right; rewrite upd_eq; split_and!; [done|lia|lia]|]. left. rewrite Hrc by lia. by rewrite upd_ne.
Qed.

Lemma tracks_steps own held s held' s' : tracks own held s -> rtc user_step (held, s) (held', s') ->
  giPageCount s' = giPageCount s /\ exists own', own ⊆ own' /\ tracks own' held' s'.
Proof.
  intros Ht Hs. remember (held, s) as x eqn:Ex. remember (held', s') as y eqn:Ey. revert own held s held' s' Ex Ey Ht.
  induction Hs as [|x [h1 s1] y H1 H2 IH]; intros own held s held' s' Ex Ey Ht; subst.
  - injection Ey as -> ->. split; [done|]. by exists own.
  - destruct (tracks_step _ _ _ _ _ Ht H1) as (Hg & o1 & Ho1 & Ht1). destruct (IH o1 h1 s1 held' s' eq_refl eq_refl Ht1) as (Hg2 & o2 & Ho2 & Ht2).
    split; [congruence|]. exists o2. split; [set_solver|done].
Qed.

Lemma GetRefCount_run s p : pm_ok s -> 0 <= p < giPageCount s -> MM_GetRefCount (p * 4096) s = Ok (rc s p) s.
Proof.
  intros Hpm Hp. pose proof (pm_count _ Hpm) as Hcount. unfold MAXPAGE in Hcount. unfold MM_GetRefCount. rewrite page_of_mul. cbv zeta. rewrite bind_get, (proj2 (Z.leb_gt _ _)) by lia.
  rewrite (bind_Ok _ _ _ _ _ (refs_mapped_run s p)). unfold rc. destruct (rmapped s p) eqn:E; cbn [negb].
  - by apply get_ref_run.
  - rewrite (bind_Ok _ _ _ _ _ (bitmap_run s (p / 32) ltac:(dlia))). rewrite bit_test by dlia. done.
Qed.

(** C4: After any history of single-page allocations (MM_AllocPhys), references taken (up to 2^31 - 1 a page) and
    references released by callers that release only what they hold, the next MM_AllocPhys yields nothing or a page nobody
    holds, counted once; the count reported of a held page is the references held and releasing one never fails.
    Allocations of ranges (MM_AllocPhysRange) are not in these histories: they do not mark their pages (range_not_marked).
    *)
Theorem phys_exclusive s0 held s : pm_ok s0 -> refs_ok s0 -> rtc user_step (rc s0, s0) (held, s) ->
  (exists r s', MM_AllocPhys s = Ok r s' /\
    (r = 0 \/ exists p, r = p * 4096 /\ 16 <= p < giPageCount s0 /\ held p = 0 /\ MM_GetRefCount r s' = Ok 1 s')) /\
  (forall p, 0 <= p < giPageCount s0 -> 0 < held p ->
    MM_GetRefCount (p * 4096) s = Ok (held p) s /\ exists s', MM_DerefPhys (p * 4096) s = Ok tt s' /\ rc s' p = held p - 1).
Proof.
  intros Hpm Hrk Hsteps. destruct (tracks_steps _ _ _ _ _ (tracks_init s0 Hpm Hrk) Hsteps) as (Hg & own & _ & Ht). pose proof Ht as (Hpm' & _ & _). rewrite <- Hg. split.
  - destruct (AllocPhys_run s Hpm') as (r & s' & Ha & (Hpm1 & Hout & Hcase) & _). exists r, s'. split; [done|].
    destruct Hcase as [ [-> _]|(p & -> & Hp & Hz & H1 & _)]; [by left|]. right. exists p. split; [done|]. split; [done|].
    destruct (tracks_free own held s p Ht ltac:(lia) Hz) as [_ Hh]. split; [done|]. assert (giPageCount s' = giPageCount s) as Hg' by (by injection Hout).
    rewrite GetRefCount_run by (done || lia). by rewrite H1.
  - intros p Hp Hpos. destruct (tracks_held _ _ _ _ Ht Hp Hpos) as [_ Hh]. split; [by rewrite GetRefCount_run, Hh|].
    destruct (DerefPhys_run s (p * 4096) Hpm' ltac:(lia)) as (s' & Hrun & (_ & _ & _ & Hrcp) & _). rewrite page_of_mul in *. exists s'. split; [done|].
    rewrite (proj2 (Z.ltb_lt _ _)) in Hrcp by lia. lia.
Qed.

(** ** Writing to a shared page *)
(** What the handler is called with: a page of a user's table that is present and to be copied when it is written. *)
Record shared s (Addr : Z) : Prop := {
  sh_pm : pm_ok s; sh_refs : refs_ok s; sh_space : space_ok s;
  sh_temps : present (pde s 1023) = true /\ temps_ok (pte s) (gTempMappings s) /\ gTempMappings s <> 0;
  sh_addr : 0 <= Addr < MM_USER_MAX;
  sh_dir : present (pde s (Z.shiftr Addr 22)) = true;
  sh_entry : let e := pte s (Z.shiftr Addr 12) in 0 <= e < 4294967296 /\ present e = true /\ has e PF_COW = true;
  sh_page : let o := page_of (pte s (Z.shiftr Addr 12)) in 0 <= o < giPageCount s /\ 0 < rc s o /\ ~ is_table s o }.

(** The page of the address is private, and nothing else has changed. *)
Record made_private s s' (Addr : Z) : Prop := {
  mp_ok : pm_ok s' /\ refs_ok s' /\ space_ok s' /\ gTempMappings s' = gTempMappings s;
  mp_entry : let e' := pte s' (Z.shiftr Addr 12) in
    present e' = true /\ has e' PF_WRITE = true /\ has e' PF_COW = false /\ has e' PF_USER = has (pte s (Z.shiftr Addr 12)) PF_USER;
  mp_page : let o := page_of (pte s (Z.shiftr Addr 12)) in let p := page_of (pte s' (Z.shiftr Addr 12)) in
    rc s' p = 1 /\ data s' p = data s o /\ (p <> o -> rc s p <= 0 /\ rc s' o = rc s o - 1);
  mp_entries : forall n, page_ok s n -> n <> Z.shiftr Addr 12 -> pte s' n = pte s n;
  mp_others : forall q, 0 <= q < giPageCount s -> 0 < rc s q -> ~ is_table s q ->
    data s' q = data s q /\ (q <> page_of (pte s (Z.shiftr Addr 12)) -> rc s' q = rc s q) }.

Lemma user_page s Addr : 0 <= Addr < MM_USER_MAX -> present (pde s (Z.shiftr Addr 22)) = true -> page_ok s (Z.shiftr Addr 12) /\ Z.shiftr (Z.shiftr Addr 12) 10 <> 1023.
Proof.
  unfold MM_USER_MAX. intros HA Hd. rewrite <- shift_twice in Hd. assert (0 <= Z.shiftr (Z.shiftr Addr 12) 10 < 752) as Hr by (rewrite shr10, shr12; dlia).
  split; [|lia]. split; [|unfold REFS_DIR; lia]. unfold ok_dir, PAGE_DIR_SLOT, TMP_DIR_SLOT. split_and!; done || lia.
Qed.

(** The start of the handler. *)
Lemma fault_start s Addr ErrorCode : shared s Addr -> MM_PageFault Addr ErrorCode s =
  (do r <- MM_GetRefCount (page_of (pte s (Z.shiftr Addr 12)) * 4096);
   (if r =? 1 then
      do e <- gaPageTable (Z.shiftr Addr 12);
      set_PageTable (Z.shiftr Addr 12) (Z.lor (Z.land e (u32 (Z.lnot PF_COW))) (Z.lor PF_PRESENT PF_WRITE))
    else
      do paddr <- MM_DuplicatePage Addr;
      do e <- gaPageTable (Z.shiftr Addr 12);
      MM_DerefPhys (frame e);;;
      do e <- gaPageTable (Z.shiftr Addr 12);
      set_PageTable (Z.shiftr Addr 12) (Z.land e PF_USER);;;
      do e <- gaPageTable (Z.shiftr Addr 12);
      set_PageTable (Z.shiftr Addr 12) (Z.lor e (Z.lor paddr (Z.lor PF_PRESENT PF_WRITE))));;;
   ret Handled) s.
Proof.
  intros [_ _ _ _ HA Hd (He & Hp & Hc) _]. unfold MM_PageFault. cbv zeta. unfold gaPageDir at 1, gets at 1. erewrite bind_Ok by reflexivity. cbv beta.
  fold (pde s (Z.shiftr Addr 22)). fold (present (pde s (Z.shiftr Addr 22))). rewrite Hd.
  rewrite (bind_Ok _ _ _ _ _ (gaPageTable_run s _ ltac:(by rewrite shift_twice))). fold (present (pte s (Z.shiftr Addr 12))). rewrite Hp, Hc. cbn [andb]. by rewrite frame_page.
Qed.

Lemma entry_bits e : 0 <= e < 4294967296 -> let e' := Z.lor (Z.land e (u32 (Z.lnot PF_COW))) (Z.lor PF_PRESENT PF_WRITE) in
  present e' = true /\ has e' PF_WRITE = true /\ has e' PF_COW = false /\ has e' PF_USER = has e PF_USER /\ page_of e' = page_of e.
Proof.
  intros He e'. assert (forall j, 0 <= j < 32 -> Z.testbit e' j = (negb (9 =? j) && Z.testbit e j) || Z.testbit 3 j) as Hb.
  { intros j Hj. unfold e'. rewrite Z.lor_spec. change PF_COW with (2 ^ 9). by rewrite land_not_test by lia. }
  rewrite present_test. change PF_WRITE with (2 ^ 1). change PF_COW with (2 ^ 9). change PF_USER with (2 ^ 2). rewrite !has_test, !Hb by lia.
  split; [apply orb_true_r|]. split; [apply orb_true_r|]. split; [done|]. split; [cbn; apply orb_false_r|]. unfold page_of.
  assert (0 <= e' < 4294967296) as He' by (apply lor_range; [change PF_COW with (2 ^ 9); by apply land_not_range|by vm_compute]).
  apply Z.bits_inj'. intros j Hj. rewrite !Z.shiftr_spec by done. destruct (Z.lt_ge_cases (j + 12) 32) as [Hlt|]; [|by rewrite !word_bits].
  rewrite Hb by lia. rewrite (proj2 (Z.eqb_neq 9 (j + 12))) by lia. rewrite (Z.bits_above_log2 3 (j + 12)) by (cbn; lia). apply orb_false_r.
Qed.

Lemma new_entry_bits e c : 0 <= c < MAXPAGE -> let e' := Z.lor (Z.land e PF_USER) (Z.lor (c * 4096) (Z.lor PF_PRESENT PF_WRITE)) in
  present e' = true /\ has e' PF_WRITE = true /\ has e' PF_COW = false /\ has e' PF_USER = has e PF_USER /\ page_of e' = c.
Proof.
  intros Hc e'. assert (e' = Z.lor (c * 4096) (Z.lor (Z.land e PF_USER) 3)) as He' by (unfold e'; change (Z.lor PF_PRESENT PF_WRITE) with 3; rewrite (Z.lor_assoc (Z.land e PF_USER)), (Z.lor_comm (Z.land e PF_USER)); by rewrite Z.lor_assoc).
  assert (forall j, 0 <= j < 12 -> Z.testbit (c * 4096) j = false) as Hlow by (intros j Hj; change 4096 with (2 ^ 12); rewrite <- Z.shiftl_mul_pow2 by lia; apply Z.shiftl_spec_low; lia).
  assert (forall j, 0 <= j < 12 -> Z.testbit e' j = (Z.testbit e j && Z.testbit 4 j) || Z.testbit 3 j) as Hb.
  { intros j Hj. rewrite He', !Z.lor_spec, Hlow, Z.land_spec by done. done. }
  rewrite present_test. change PF_WRITE with (2 ^ 1). change PF_COW with (2 ^ 9). change PF_USER with (2 ^ 2). rewrite !has_test, !Hb by lia.
  split; [apply orb_true_r|]. split; [apply orb_true_r|]. split; [cbn; by rewrite andb_false_r|]. split; [cbn; by rewrite andb_true_r, orb_false_r|].
  rewrite He'. apply page_of_lor; [lia|]. assert (0 <= Z.land e PF_USER < 8) as Hl.
  { split; [apply Z.land_nonneg; right; done|]. apply (word_range 3); [lia| |apply Z.land_nonneg; right; done]. intros j Hj. rewrite Z.land_spec. rewrite (Z.bits_above_log2 PF_USER j) by (unfold PF_USER; cbn; lia). apply andb_false_r. }
  split; [apply Z.lor_nonneg; split; [lia|done]|]. apply Z.lt_trans with 8; [|lia]. apply (word_range 3); [lia| |apply Z.lor_nonneg; split; [lia|done] ].
  intros j Hj. rewrite Z.lor_spec, Z.land_spec, (Z.bits_above_log2 PF_USER j), (Z.bits_above_log2 3 j) by (unfold PF_USER; cbn; lia). by rewrite andb_false_r.
Qed.

Section fault.
Context (s : mm) (Addr : Z) (Hsh : shared s Addr).
Let n := Z.shiftr Addr 12.
Let o := page_of (pte s n).

Lemma shared_start : change s s (pte s) (rc s) (data s) (gTempMappings s) /\ page_ok s n /\ Z.shiftr n 10 <> 1023.
Proof. destruct Hsh as [H1 H2 H3 _ HA Hd _ _]. split; [by apply change_refl|]. by apply user_page. Qed.

(** The only reference: the page is made writable where it is. *)
Lemma fault_sole ErrorCode : rc s o = 1 -> exists s', MM_PageFault Addr ErrorCode s = Ok Handled s' /\ made_private s s' Addr.
Proof.
  intros Hone. destruct shared_start as (H & Hpg & _). destruct Hsh as [Hpm _ _ _ _ _ (He & Hp & _) (Ho & Hrc & Hnt)]. fold n in He, Hp, Ho, Hrc, Hnt. fold o in Ho, Hrc, Hnt.
  rewrite fault_start by done. fold n. fold o. rewrite (bind_Ok _ _ _ _ _ (GetRefCount_run s o Hpm Ho)), Hone. cbn [Z.eqb Pos.eqb].
  rewrite bind_assoc, (bind_Ok _ _ _ _ _ (read_entry _ _ _ _ _ _ _ H Hpg)). set (e' := Z.lor _ (Z.lor PF_PRESENT PF_WRITE)).
  destruct (write_entry _ _ _ _ _ _ n e' H Hpg) as (s' & Hw & H'). rewrite (bind_Ok _ _ _ _ _ Hw). exists s'. split; [done|].
  destruct (entry_bits (pte s n) He) as (B1 & B2 & B3 & B4 & B5). fold e' in B1, B2, B3, B4, B5. assert (pte s' n = e') as Hn by (rewrite (ch_pt H' n Hpg); apply upd_eq).
  split; fold n; rewrite ?Hn; [split_and!; [apply (ch_pm H')|apply (ch_refs H')|apply (ch_space H')|apply (ch_temps H')]|by split_and!| | |].
  - cbv zeta. rewrite B5. fold o. split; [rewrite <- Hone; by apply (ch_rc H')|]. split; [by apply (ch_dat H')|done].
  - intros m Hm Hne. rewrite (ch_pt H' m Hm). by apply upd_ne.
  - intros q Hq Hpos Hq2. split; [by apply (ch_dat H')|]. intros _. by apply (ch_rc H').
Qed.

(** One of several: a copy takes its place. *)
Lemma fault_shared ErrorCode c s1 : rc s o <> 1 -> MM_AllocPhys s = Ok c s1 -> c <> 0 -> rmapped s (page_of c) = true ->
  exists s', MM_PageFault Addr ErrorCode s = Ok Handled s' /\ made_private s s' Addr.
Proof.
  intros Hone Ha Hc0 Hm. destruct shared_start as (H & Hpg & Hslot). destruct Hsh as [Hpm _ _ (Hd & Hts & Ht) HA _ (He & Hp & _) (Ho & Hrc & Hnt)].
  fold n in He, Hp, Ho, Hrc, Hnt. fold o in Ho, Hrc, Hnt. pose proof (pm_count _ Hpm) as Hcount. unfold MM_USER_MAX in HA.
  rewrite fault_start by done. fold n. fold o. rewrite (bind_Ok _ _ _ _ _ (GetRefCount_run s o Hpm Ho)), (proj2 (Z.eqb_neq _ _)) by done. rewrite bind_assoc.
  destruct (duplicate_run s s (pte s) (rc s) (data s) (gTempMappings s) Addr H ltac:(lia) Hpg He Hp Hd Ho Hrc Hnt Hts Ht Hslot _ eq_refl)
    as [(s2 & Ha2 & _)|(p & s2 & Ha2 & Hpr & Hp0 & Hpt & [ [Hun _]|(s3 & Hdup & H3)])]; rewrite Ha in Ha2; injection Ha2 as -> <-; [done|rewrite page_of_mul in Hm; congruence|].
  fold n o in H3. assert (p <> o) as Hpo by (intros ->; lia). rewrite (bind_Ok _ _ _ _ _ Hdup), !bind_assoc, (bind_Ok _ _ _ _ _ (read_entry _ _ _ _ _ _ _ H3 Hpg)), frame_page by done. fold o.
  destruct (drop_page _ _ _ _ _ _ o H3 Ho ltac:(by rewrite upd_ne) ltac:(tauto)) as (s4 & Hdr & H4). rewrite upd_ne in H4 by done. rewrite !bind_assoc, (bind_Ok _ _ _ _ _ Hdr), !bind_assoc.
  rewrite (bind_Ok _ _ _ _ _ (read_entry _ _ _ _ _ _ _ H4 Hpg)), !bind_assoc. destruct (write_entry _ _ _ _ _ _ n (Z.land (pte s n) PF_USER) H4 Hpg) as (s5 & Hw5 & H5).
  rewrite (bind_Ok _ _ _ _ _ Hw5), !bind_assoc, (bind_Ok _ _ _ _ _ (read_entry _ _ _ _ _ _ _ H5 Hpg)), upd_eq. set (e' := Z.lor (Z.land _ _) _).
  destruct (write_entry _ _ _ _ _ _ n e' H5 Hpg) as (s6 & Hw6 & H6). rewrite (bind_Ok _ _ _ _ _ Hw6). exists s6. split; [done|].
  destruct (new_entry_bits (pte s n) p ltac:(lia)) as (B1 & B2 & B3 & B4 & B5). fold e' in B1, B2, B3, B4, B5. assert (pte s6 n = e') as Hn by (rewrite (ch_pt H6 n Hpg); apply upd_eq).
  split; fold n; rewrite ?Hn; [split_and!; [apply (ch_pm H6)|apply (ch_refs H6)|apply (ch_space H6)|apply (ch_temps H6)]|by split_and!| | |].
  - cbv zeta. rewrite B5. fold o. split; [rewrite (ch_rc H6); rewrite ?upd_ne, ?upd_eq by done; lia|].
    split; [rewrite (ch_dat H6); rewrite ?upd_ne, ?upd_eq by done; try done; lia|]. intros _. split; [done|].
    rewrite (ch_rc H6); rewrite ?upd_eq; try done. rewrite ?upd_eq. lia.
  - intros m Hm' Hne. rewrite (ch_pt H6 m Hm'). by rewrite !upd_ne.
  - intros q Hq Hpos Hq2. assert (q <> p) as Hqp by (intros ->; lia). assert (0 < upd (upd (rc s) p 1) o (rc s o - 1) q) as Hup.
    { destruct (decide (q = o)) as [->|]; [rewrite upd_eq; lia|by rewrite !upd_ne]. }
    split; [rewrite (ch_dat H6) by done; by rewrite upd_ne|]. intros Hqo. rewrite (ch_rc H6) by done. by rewrite !upd_ne.
Qed.
End fault.

(** C5: When a page can be allocated for it, the page that holds the new page's count is already mapped and a
    temporary mapping is free, a write to a present copy-on-write page of user space is handled: the address has a private
    writable page of the same words (the old page itself when nobody else refers to it, otherwise a new page with one
    reference, the old one having one less); every other page in use, its count and every other entry of the space are
    unchanged. (Without memory: fault_without_memory.) *)
Theorem cow_fault s Addr ErrorCode c s1 : shared s Addr -> MM_AllocPhys s = Ok c s1 -> c <> 0 -> rmapped s (page_of c) = true ->
  exists s', MM_PageFault Addr ErrorCode s = Ok Handled s' /\ made_private s s' Addr.
Proof.
  intros Hsh Ha Hc Hm. destruct (Z.eq_dec (rc s (page_of (pte s (Z.shiftr Addr 12)))) 1); [by apply fault_sole|by eapply fault_shared].
Qed.

Lemma ok_run {A} (r : res mm mstop A) (P : A -> mm -> Prop) : match r with Ok a s => P a s | Stop _ => False end -> exists a s, r = Ok a s /\ P a s.
Proof. destruct r as [a s|]; [|done]. intros H. by exists a, s. Qed.

(** ** A small machine *)
(** 64 pages, the first 22 in use: a directory (16), its tables for the user, the counts and the temporary mappings
    (17 to 19), the counts (20), and a page that two spaces share (21). *)
Definition sample_mem : gmap Z (gmap Z Z) :=
  list_to_map [(16, list_to_map [(0, 0x11007); (912, 0x12003); (1008, 0x10003); (1023, 0x13003)]); (17, list_to_map [(5, 0x15205)]);
               (18, list_to_map [(0, 0x14003)]); (19, ∅); (21, list_to_map [(0, 42)])].
Definition sample : mm :=
  MkMm 22 64 63 64 ∅ {[0 := 0x3FFFFF]} (list_to_map (((fun p => (p, 1)) <$> seqZ 0 21) ++ [(21, 2)])) true ∅ sample_mem 0x10000 0 16 ∅ 0 0.

Lemma literal_lookup (l : list (Z * Z)) i : default 0 ((list_to_map l : gmap Z Z) !! i) = 0 \/ exists v, (i, v) ∈ l /\ default 0 ((list_to_map l : gmap Z Z) !! i) = v.
Proof. destruct (list_to_map l !! i) as [v|] eqn:E; [|by left]. right. exists v. split; [by apply elem_of_list_to_map_2|done]. Qed.

Lemma sample_refs : refs_ok sample.
Proof.
  split; [done|by vm_compute|by vm_compute|]. intros i. unfold refs_entry, word. replace (refs_page sample) with 18 by (by vm_compute).
  change (mem sample !! 18) with (Some (list_to_map [(0, 0x14003)] : gmap Z Z)). cbn [default from_option id].
  destruct (literal_lookup [(0, 0x14003)] i) as [H|(v & H & E)]; [by left|]. right. rewrite E. apply list_elem_of_singleton in H as [= _ ->]. by vm_compute.
Qed.

Lemma sample_pm : pm_ok sample.
Proof.
  split; [by vm_compute|by vm_compute| |].
  - split; intros i w; cbn [sample gaPageBitmap gaSuperBitmap]; [|by rewrite lookup_empty]. intros [_ <-]%lookup_singleton_Some. lia.
  - intros p Hp _. change (giPageCount sample) with 64 in Hp.
    assert (Forall (fun p => (0 <=? refc sample p) && (refc sample p <? 2147483648) && Bool.eqb (0 <? refc sample p) (usedp sample p)) (seqZ 0 64)) as H by (by apply (bool_decide_unpack _); vm_compute).
    rewrite Forall_forall in H. specialize (H p ltac:(apply elem_of_seqZ; lia)). apply andb_True in H as [H Hb]. apply andb_True in H as [H1 H2].
    apply Is_true_true, Z.leb_le in H1. apply Is_true_true, Z.ltb_lt in H2. apply Is_true_true, Bool.eqb_prop in Hb. split; [lia|]. rewrite <- Hb. symmetry. apply Z.ltb_lt.
Qed.

Lemma sample_dir i : ok_dir sample i -> i = 0 \/ i = 912 \/ i = 1023.
Proof.
  intros (_ & H1 & H2 & Hp). unfold pde, word in Hp. replace (page_of (CR3 sample)) with 16 in Hp by (by vm_compute).
  change (mem sample !! 16) with (Some (list_to_map [(0, 0x11007); (912, 0x12003); (1008, 0x10003); (1023, 0x13003)] : gmap Z Z)) in Hp. cbn [default from_option id] in Hp.
  destruct (literal_lookup [(0, 0x11007); (912, 0x12003); (1008, 0x10003); (1023, 0x13003)] i) as [H|(v & H & E)]; [by rewrite H in Hp|].
  repeat (apply elem_of_cons in H as [ [= -> _]|H]; [auto; try done|]). by apply elem_of_nil in H.
Qed.

Lemma sample_space : space_ok sample.
Proof.
  assert (forall i, ok_dir sample i -> i = 0 /\ table sample i = 17 \/ i = 912 /\ table sample i = 18 \/ i = 1023 /\ table sample i = 19) as Ht.
  { intros i [-> | [-> | ->] ]%sample_dir; [left|right; left|right; right]; by vm_compute. }
  split.
  - intros q [->|(i & Hi & <-)]; [by vm_compute|]. destruct (Ht i Hi) as [ [_ ->]|[ [_ ->]|[_ ->] ] ]; by vm_compute.
  - intros i Hi. destruct (Ht i Hi) as [ [_ ->]|[ [_ ->]|[_ ->] ] ]; by vm_compute.
  - intros i j Hi Hj. destruct (Ht i Hi) as [ [-> ->]|[ [-> ->]|[-> ->] ] ], (Ht j Hj) as [ [-> ->]|[ [-> ->]|[-> ->] ] ]; done.
Qed.

Lemma sample_shared : shared sample 0x5000.
Proof.
  split; [apply sample_pm|apply sample_refs|apply sample_space| |by vm_compute|by vm_compute|by vm_compute|].
  - split; [by vm_compute|]. split; [|done]. split; [|by vm_compute]. by apply (bool_decide_unpack _); vm_compute.
  - split; [by vm_compute|]. split; [by vm_compute|]. intros [H|(i & Hi & H)]; [by vm_compute in H|]. destruct (sample_dir i Hi) as [-> | [-> | ->] ]; by vm_compute in H.
Qed.

Lemma phys_exclusive_witness : exists s, rtc user_step (rc sample, sample) (upd (rc sample) 22 (rc sample 22 + 1), s) /\
  (exists r s', MM_AllocPhys s = Ok r s' /\ (r = 0 \/ exists p, r = p * 4096 /\ 16 <= p < 64 /\ upd (rc sample) 22 (rc sample 22 + 1) p = 0 /\ MM_GetRefCount r s' = Ok 1 s')).
Proof.
  destruct (MM_AllocPhys sample) as [r s|e] eqn:E; [|by vm_compute in E]. assert (r = 0x16000) as -> by (vm_compute in E; by injection E).
  assert (rtc user_step (rc sample, sample) (upd (rc sample) 22 (rc sample 22 + 1), s)) as H by (apply rtc_once; apply (user_alloc (rc sample) _ _ _ E)).
  exists s. split; [exact H|]. exact (proj1 (phys_exclusive sample _ s sample_pm sample_refs H)).
Defined.

Lemma cow_fault_witness : exists s', MM_PageFault 0x5000 7 sample = Ok Handled s' /\ made_private sample s' 0x5000 /\ page_of (pte s' 5) = 22.
Proof.
  destruct (MM_AllocPhys sample) as [r s|e] eqn:E; [|by vm_compute in E]. assert (r = 0x16000) as -> by (vm_compute in E; by injection E).
  destruct (cow_fault sample 0x5000 7 0x16000 s sample_shared E ltac:(done) ltac:(by vm_compute)) as (s' & H1 & H2). exists s'. split; [exact H1|]. split; [exact H2|].
  assert (match MM_PageFault 0x5000 7 sample with Ok _ x => page_of (pte x 5) = 22 | Stop _ => False end) as H by (by vm_compute). by rewrite H1 in H.
Defined.

(** ** Departures *)
(** A range is found from the top down, its marks start at the page below it, and its address is taken after the last
    mark: the first page handed out is still free. *)
Theorem range_not_marked : exists r s', MM_AllocPhysRange 2 32 sample = Ok r s' /\ page_of r = 63 /\
  usedp sample 62 = false /\ usedp sample 63 = false /\ usedp s' 61 = true /\ usedp s' 62 = true /\ usedp s' 63 = false.
Proof. apply ok_run. by vm_compute. Qed.

(** The machine without a free page. *)
Definition exhausted : mm := upd_phys 64 63 ∅ {[0 := ONES; 1 := ONES]} (gaPageReferences sample) ∅ sample.

(** Without memory, a write to a shared page is given physical page 0, writable; the caller is told that all is well. *)
Theorem fault_without_memory : exists s', MM_PageFault 0x5000 7 exhausted = Ok Handled s' /\
  page_of (pte s' 5) = 0 /\ has (pte s' 5) PF_WRITE = true /\ rc s' 21 = rc exhausted 21 - 1.
Proof. destruct (ok_run (MM_PageFault 0x5000 7 exhausted) (fun r s' => r = Handled /\ page_of (pte s' 5) = 0 /\ has (pte s' 5) PF_WRITE = true /\ rc s' 21 = rc exhausted 21 - 1)) as (r & s' & H & -> & Hs); [by vm_compute|by exists s']. Qed.

(** An allocation that fails leaves its address mapped, to physical page 0. *)
Theorem allocate_without_memory : exists s', MM_Allocate 0x6000 exhausted = Ok 0 s' /\ pte exhausted 6 = 0 /\ present (pte s' 6) = true /\ page_of (pte s' 6) = 0.
Proof. destruct (ok_run (MM_Allocate 0x6000 exhausted) (fun r s' => r = 0 /\ pte exhausted 6 = 0 /\ present (pte s' 6) = true /\ page_of (pte s' 6) = 0)) as (r & s' & H & -> & Hs); [by vm_compute|by exists s']. Qed.

(** The lowest class starts at page 16, and a full word of the bitmap is skipped by 32 pages from there: a free page of
    the next 16 is not found. *)
Definition one_free : mm := upd_phys 63 63 ∅ {[0 := ONES; 1 := 0xFFFFFEFF]} ∅ ∅ sample.
Theorem free_page_missed : usedp one_free 40 = false /\ exists s', MM_AllocPhys one_free = Ok 0 s'.
Proof.
  split; [by vm_compute|]. destruct (ok_run (MM_AllocPhys one_free) (fun r s' => r = 0)) as (r & s' & H & ->); [by vm_compute|by exists s'].
Qed.
