(* ===== verification/Fat.v ===== *)
(** * The FAT driver: tables, clusters, nodes and files
    ([KernelLand/Modules/Filesystems/FAT/fatio.c], [nodecache.c], [fat.c])

    A volume is the driver's record of it together with the bytes of its device; [VFS_ReadAt] and [VFS_WriteAt] on the
    device transfer what lies inside it.  Nodes are records in a store: 0 is the root of the volume, the others are
    cached ones, gone from the store once freed.  Each operation runs with the locks it takes held. *)
From S2P Require Import Prelude Arith CString Time.

Local Open Scope Z_scope.
Local Open Scope monad_scope.

(** ** Data *)
Inductive eFatType := FAT12 | FAT16 | FAT32.
#[export] Instance fat_type_eq : EqDecision eFatType.
Proof. solve_decision. Defined.

Record fat_bootsect := MkBoot {
  bps : Z; spc : Z; resvSectCount : Z; fatCount : Z; files_in_root : Z; totalSect16 : Z; mediaDesc : Z; fatSz16 : Z; totalSect32 : Z;
  label16 : list Z; fatSz32 : Z; rootClust : Z; label32 : list Z }.
Record tFAT_VolInfo := MkVol {
  fv_type : eFatType; fv_name : list Z; firstDataSect : Z; rootOffset : Z; RootSector : Z; ClusterCount : Z; bootsect : fat_bootsect; BytesPerCluster : Z }.

(** [n_Data]: the cache of long names, the number of an entry and 256 words each. *)
Record fnode := MkFNode {
  n_Inode : Z; n_ImplInt : Z; n_Size : Z; n_Flags : Z; n_readonly : bool; n_CTime : Z; n_MTime : Z; n_ATime : Z; n_dir : bool; n_refs : Z; n_Data : option (list (Z * list Z)) }.

(** [f_stack]: what uninitialised 16-bit words hold. *)
Record fat := MkFat { f_vol : tFAT_VolInfo; f_img : list Z; f_nodes : gmap Z fnode; f_cache : list Z; f_next : Z; f_stack : list Z }.

(** A bad pointer or index, a loop that does not end, a value that was never set, an object taken for one of another type. *)
Inductive fstop := FBadPtr | FLoop | FUninit | FCast.
Abbreviation FM := (M fat fstop).

Definition fopt {A} (x : option A) : FM A := match x with Some a => ret a | None => halt FBadPtr end.
Definition set_img (m : list Z) (s : fat) : fat := MkFat (f_vol s) m (f_nodes s) (f_cache s) (f_next s) (f_stack s).
Definition set_nodes (ns : gmap Z fnode) (c : list Z) (next : Z) (s : fat) : fat := MkFat (f_vol s) (f_img s) ns c next (f_stack s).
Definition the_vol : FM tFAT_VolInfo := fun s => Ok (f_vol s) s.
Definition node_at (n : Z) : FM fnode := fun s => match f_nodes s !! n with Some x => Ok x s | None => Stop FBadPtr end.
Definition put_node (n : Z) (x : fnode) : FM unit := fun s => Ok tt (set_nodes (<[n := x]> (f_nodes s)) (f_cache s) (f_next s) s).
Definition ROOT := 0.

(** ** The device *)
Fixpoint le (bs : list Z) : Z := match bs with [] => 0 | b :: bs => b + 256 * le bs end.
Fixpoint to_le (n : nat) (v : Z) : list Z := match n with O => [] | S n => v mod 256 :: to_le n (v / 256) end.

Definition clipped (m : list Z) (off n : Z) : list Z := take (Z.to_nat n) (drop (Z.to_nat off) m).
Definition over (m : list Z) (off : Z) (bs : list Z) : list Z :=
  take (Z.to_nat off) m ++ take (length (drop (Z.to_nat off) m)) bs ++ drop (Z.to_nat off + length bs) m.
Definition VFS_ReadAt (off n : Z) : FM (list Z) := fun s => Ok (clipped (f_img s) off n) s.
Definition VFS_WriteAt (off : Z) (bs : list Z) : FM Z := fun s => Ok (len (clipped (f_img s) off (len bs))) (set_img (over (f_img s) off bs) s).
(** A read whose bytes are all needed. *)
Definition read_full (off n : Z) : FM (list Z) := do b <- VFS_ReadAt off n; if len b =? n then ret b else halt FUninit.

(** ** The table *)
Definition EOC_FAT12 := 0x0FFF.
Definition EOC_FAT16 := 0xFFFF.
Definition EOC_FAT32 := 0x00FFFFFF.
Definition GETFATVALUE_EOC := 0xFFFFFFFF.

Definition FAT_int_GetFatValue (cluster : Z) : FM Z :=
  do v <- the_vol;
  let ofs := u32 (resvSectCount (bootsect v) * 512) in
  match fv_type v with
  | FAT12 =>
      do b <- VFS_ReadAt (u32 (ofs + cluster / 2 * 3)) 3;
      let val := if Z.odd cluster then Z.shiftr (le b) 12 else Z.land (le b) 0xFFF in
      ret (if val =? EOC_FAT12 then GETFATVALUE_EOC else val)
  | FAT16 =>
      do b <- VFS_ReadAt (u32 (ofs + cluster * 2)) 2;
      ret (if le b =? EOC_FAT16 then GETFATVALUE_EOC else le b)
  | FAT32 =>
      do b <- VFS_ReadAt (u32 (ofs + cluster * 4)) 4;
      ret (if le b =? EOC_FAT32 then GETFATVALUE_EOC else le b)
  end.

Definition block_size := 512 * 3.
Definition ents_per_block_12 := block_size * 2 / 3.

(** The four bytes at [block_ofs / 2 * 3] of the block and the 0 after it. *)
Definition valptr (sector_data : list Z) (block_ofs : Z) : option Z := b ← rd (sector_data ++ [0]) (block_ofs / 2 * 3) 4; Some (le b).
Definition set_valptr (sector_data : list Z) (block_ofs v : Z) : option (list Z) :=
  m ← wr (sector_data ++ [0]) (block_ofs / 2 * 3) (to_le 4 v); Some (take (length sector_data) m).

(** The first free entry of a block, marked as the end of a chain. *)
Fixpoint scan_block (fuel : nat) (block_ofs : Z) (sector_data : list Z) : option (Z * list Z) :=
  match fuel with
  | O => Some (block_ofs, sector_data)
  | S fuel =>
      v ← valptr sector_data block_ofs;
      let bitofs := 12 * (block_ofs mod 2) in
      if Z.land (Z.shiftr v bitofs) 0xFFF =? 0 then
        m ← set_valptr sector_data block_ofs (u32 (Z.lor v (Z.shiftl EOC_FAT12 bitofs))); Some (block_ofs, m)
      else scan_block fuel (block_ofs + 1) sector_data
  end.

(** The blocks in turn from [block] on: the block it stopped at, the entry, the bytes last read. *)
Fixpoint scan_blocks (fuel : nat) (base block_count first_block block : Z) : FM (Z * option Z * list Z) :=
  match fuel with
  | O => halt FLoop
  | S fuel =>
      do sector_data <- read_full (u32 (base + block * block_size)) block_size;
      do r <- fopt (scan_block (Z.to_nat ents_per_block_12) 0 sector_data);
      if negb (r.1 =? ents_per_block_12) then ret (block, Some r.1, r.2) else
      let block := if block + 1 =? block_count then 0 else block + 1 in
      if block =? first_block then ret (block, None, r.2) else scan_blocks fuel base block_count first_block block
  end.

(** The entry of [Previous], pointed at [next]. *)
Definition link12 (base Previous next : Z) : FM unit :=
  do b <- VFS_ReadAt (u32 (base + Z.shiftr Previous 1 * 3)) 3;
  let val := if Z.odd Previous then Z.lor (Z.land (le b) 0x000FFF) (u32 (Z.shiftl next 12)) else Z.lor (Z.land (le b) 0xFFF000) next in
  do _ <- VFS_WriteAt (u32 (base + Z.shiftr Previous 1 * 3)) (to_le 3 val); ret tt.

Definition NONE := 0xFFFFFFFF.
Definition FAT_int_AllocateCluster (Previous : Z) : FM Z :=
  do v <- the_vol;
  let base := u32 (resvSectCount (bootsect v) * 512) in
  match fv_type v with
  | FAT12 =>
      do block_count_12 <- fopt (DivUp (ClusterCount v) ents_per_block_12);
      let block := if Previous =? NONE then 0 else Previous / ents_per_block_12 in
      do r <- scan_blocks (S (Z.to_nat block_count_12)) base block_count_12 block block;
      let '(block, found, sector_data) := r in
      let ret_ := match found with Some block_ofs => u32 (block * ents_per_block_12 + block_ofs) | None => NONE end in
      (if ret_ =? 0 then ret tt else
       do _ <- VFS_WriteAt (u32 (base + block)) sector_data;
       if Previous =? NONE then ret tt else link12 base Previous ret_);;;
      ret ret_
  | FAT16 | FAT32 => ret NONE
  end.

Definition FAT_int_FreeCluster (Cluster : Z) : FM Z :=
  do v <- the_vol;
  if (Cluster <? 2) || (ClusterCount v <? Cluster) then ret NONE else
  let ofs := u32 (resvSectCount (bootsect v) * 512) in
  do r <- match fv_type v with
    | FAT12 =>
        do b <- VFS_ReadAt (u32 (ofs + Z.shiftr Cluster 1 * 3)) 3;
        let val := le b in
        let old := if Z.odd Cluster then Z.land (Z.shiftr val 12) 0xFFF else Z.land val 0xFFF in
        let val := if Z.odd Cluster then Z.land val 0xFFF else Z.land val 0xFFF000 in
        do _ <- VFS_WriteAt (u32 (ofs + Z.shiftr Cluster 1 * 3)) (to_le 3 val); ret old
    | FAT16 =>
        do b <- VFS_ReadAt (u32 (ofs + Cluster * 2)) 2;
        do _ <- VFS_WriteAt (u32 (ofs + Cluster * 2)) (to_le 2 0);
        do s <- get_state; ret (le b + 65536 * default 0 (get (f_stack s) 0))
    | FAT32 =>
        do b <- VFS_ReadAt (u32 (ofs + Cluster * 4)) 4;
        do _ <- VFS_WriteAt (u32 (ofs + Cluster * 2)) (to_le 4 0); ret (le b)
    end;
  if r =? 0 then ret NONE else
  let eoc := match fv_type v with FAT12 => EOC_FAT12 | FAT16 => EOC_FAT16 | FAT32 => EOC_FAT32 end in
  ret (if r =? eoc then NONE else r).

(** ** Clusters *)
Definition cluster_addr (v : tFAT_VolInfo) (Cluster : Z) : Z := u32 (u32 (firstDataSect v + u32 (Cluster - 2) * spc (bootsect v)) * bps (bootsect v)).
Definition FAT_int_ReadCluster (Cluster Length : Z) : FM (list Z) := do v <- the_vol; VFS_ReadAt (cluster_addr v Cluster) Length.
Definition FAT_int_WriteCluster (Cluster : Z) (Buffer : list Z) : FM unit :=
  do v <- the_vol; do b <- fopt (rd Buffer 0 (BytesPerCluster v)); do _ <- VFS_WriteAt (cluster_addr v Cluster) b; ret tt.
(** A cluster of which every byte is needed. *)
Definition whole_cluster (Cluster bpc : Z) : FM (list Z) := do b <- FAT_int_ReadCluster Cluster bpc; if len b =? bpc then ret b else halt FUninit.

(** [for( ; skip--; ) cluster = FAT_int_GetFatValue(cluster);]: the cluster reached, or the end of the chain and the
    last cluster before it. *)
Fixpoint skip_clusters (n : nat) (cluster : Z) : FM (bool * Z) :=
  match n with
  | O => ret (true, cluster)
  | S n => do next <- FAT_int_GetFatValue cluster; if next =? GETFATVALUE_EOC then ret (false, cluster) else skip_clusters n next
  end.

(** The address, or nothing; and the cluster, where it is told. *)
Definition FAT_int_GetAddress (Node Offset : Z) : FM (option Z * option Z) :=
  do n <- node_at Node;
  do v <- the_vol;
  let cluster := Z.land (n_Inode n) 0xFFFFFFF in
  if bool_decide (fv_type v <> FAT32) && (Node =? ROOT) then
    if files_in_root (bootsect v) * 32 <=? Offset then ret (None, None) else
    ret (Some (u64 ((resvSectCount (bootsect v) + RootSector v) * bps (bootsect v) + Offset)), None)
  else
    do r <- skip_clusters (Z.to_nat (Offset / BytesPerCluster v)) cluster;
    let '(ok, cluster) := r in
    if negb (ok : bool) then ret (None, Some cluster) else
    if u32 (ClusterCount v + 2) <? cluster then ret (None, Some cluster) else
    ret (Some (u64 (u32 (firstDataSect v * bps (bootsect v)) + u32 (u32 (cluster - 2) * BytesPerCluster v) + Offset mod BytesPerCluster v)), Some cluster).

(** ** Files *)
(** [for( ; count; count -- )]: what is read, the cluster after it, and whether the chain lasted. *)
Fixpoint read_clusters (count : nat) (cluster bpc : Z) (acc : list Z) : FM (bool * Z * list Z) :=
  match count with
  | O => ret (true, cluster, acc)
  | S count =>
      if cluster =? GETFATVALUE_EOC then ret (false, cluster, acc) else
      do b <- whole_cluster cluster bpc;
      do next <- FAT_int_GetFatValue cluster;
      read_clusters count next bpc (acc ++ b)
  end.

(** The bytes that are put in the buffer; as many are reported. *)
Definition FAT_Read (Node Offset Length : Z) : FM (list Z) :=
  do n <- node_at Node;
  do v <- the_vol;
  let bpc := BytesPerCluster v in
  if n_Size n <? Offset then ret [] else
  let cluster := Z.land (n_Inode n) 0xFFFFFFFF in
  let Length := if n_Size n <? u64 (Offset + Length) then u32 (n_Size n - Offset) else Length in
  do r <- skip_clusters (Z.to_nat (Offset / bpc)) cluster;
  let '(ok, cluster) := r in
  if negb (ok : bool) then ret [] else
  let Offset := Offset mod bpc in
  if i32 (i32 Offset + i32 Length) <=? bpc then
    do b <- whole_cluster cluster bpc; fopt (rd b Offset Length)
  else
    do r <- (if 0 <? Offset then
               do b <- whole_cluster cluster bpc;
               do head <- fopt (rd b Offset (bpc - Offset));
               do next <- FAT_int_GetFatValue cluster; ret (negb (next =? GETFATVALUE_EOC), next, head)
             else ret (true, cluster, []));
    let '(ok, cluster, acc) := r in
    if negb (ok : bool) then ret acc else
    let count := u32 (Length - len acc) / bpc in
    let final_bytes := u32 (Length - len acc) mod bpc in
    do r <- read_clusters (Z.to_nat count) cluster bpc acc;
    let '(ok, cluster, acc) := r in
    if negb (ok : bool) then ret acc else
    if 0 <? final_bytes then
      if cluster =? GETFATVALUE_EOC then ret acc else
      do b <- whole_cluster cluster bpc;
      do tail <- fopt (rd b 0 (Length - len acc)); ret (acc ++ tail)
    else ret acc.

Definition FAT_FLAG_DIRTY := 0x10000.
Definition FAT_FLAG_DELETE := 0x20000.
Definition node_with (size impl : Z) (n : fnode) : fnode := MkFNode (n_Inode n) impl size (n_Flags n) (n_readonly n) (n_CTime n) (n_MTime n) (n_ATime n) (n_dir n) (n_refs n) (n_Data n).

(** The end of a write: a file that has grown. *)
Definition grow (Node end_ : Z) : FM unit :=
  do n <- node_at Node;
  if n_Size n <? end_ then put_node Node (node_with end_ (Z.lor (n_ImplInt n) FAT_FLAG_DIRTY) n) else ret tt.

(** [while( Offset > disk->BytesPerCluster )] *)
Fixpoint seek_clusters (fuel : nat) (Offset cluster bpc : Z) : FM (option (Z * Z)) :=
  if negb (bpc <? Offset) then ret (Some (Offset, cluster)) else
  match fuel with
  | O => halt FLoop
  | S fuel =>
      do cluster <- FAT_int_GetFatValue cluster;
      if cluster =? GETFATVALUE_EOC then ret None else seek_clusters fuel (Offset - bpc) cluster bpc
  end.

(** The next cluster of the chain, a new one at its end; and whether it is new. *)
Definition next_cluster (cluster : Z) : FM (Z * bool) :=
  do t <- FAT_int_GetFatValue cluster;
  if t =? GETFATVALUE_EOC then do t <- FAT_int_AllocateCluster cluster; ret (t, true) else ret (t, false).

(** Part of a cluster replaced. *)
Definition modify_cluster (cluster bpc Offset : Z) (data : list Z) : FM unit :=
  do b <- whole_cluster cluster bpc; do b <- fopt (wr b Offset data); FAT_int_WriteCluster cluster b.

(** [while( remLength > disk->BytesPerCluster )]: what is left to write, where, and whether a cluster was added; nothing
    when none could be. *)
Fixpoint write_clusters (fuel : nat) (cluster bpc : Z) (Buffer : list Z) (bNew : bool) : FM (option (Z * bool) * list Z) :=
  if negb (bpc <? len Buffer) then ret (Some (cluster, bNew), Buffer) else
  match fuel with
  | O => halt FLoop
  | S fuel =>
      FAT_int_WriteCluster cluster Buffer;;;
      let Buffer := drop (Z.to_nat bpc) Buffer in
      do t <- next_cluster cluster;
      if t.1 =? 0 then ret (None, Buffer) else write_clusters fuel t.1 bpc Buffer (bNew || t.2)
  end.

(** [Buffer] holds the bytes to write. *)
Definition FAT_Write (Node Offset : Z) (Buffer : list Z) : FM Z :=
  do n <- node_at Node;
  do v <- the_vol;
  let bpc := BytesPerCluster v in
  let Length := len Buffer in
  let original_offset := Offset in
  if n_Size n <? Offset then ret 0 else
  do r <- seek_clusters (Z.to_nat (Offset / bpc)) Offset (Z.land (n_Inode n) 0xFFFFFFFF) bpc;
  match r with
  | None => ret 0
  | Some (Offset, cluster) =>
      do r <- (if Offset =? bpc then do t <- FAT_int_AllocateCluster cluster; ret (0, t) else ret (Offset, cluster));
      let '(Offset', cluster) := r in
      if (Offset =? bpc) && (cluster =? 0) then ret 0 else
      let Offset := Offset' in
      if Offset + Length <? bpc then
        modify_cluster cluster bpc Offset Buffer;;; grow Node (u64 (original_offset + Length));;; ret Length
      else
        do r <- (if 0 <? Offset then
                   modify_cluster cluster bpc Offset (take (Z.to_nat (bpc - Offset)) Buffer);;;
                   do t <- next_cluster cluster; ret (if t.1 =? 0 then None else Some t.1, drop (Z.to_nat (bpc - Offset)) Buffer)
                 else ret (Some cluster, Buffer));
        do r <- match r with
          | (None, Buffer) => ret (None, Buffer)
          | (Some cluster, Buffer) => write_clusters (Z.to_nat (len Buffer / bpc)) cluster bpc Buffer false
          end;
        match r with
        | (None, Buffer) => grow Node (u64 (original_offset + (Length - len Buffer)));;; ret (Length - len Buffer)
        | (Some (cluster, bNewCluster), Buffer) =>
            (if len Buffer =? 0 then ret tt else
             if (bNewCluster : bool) then do b <- fopt (wr (replicate (Z.to_nat bpc) 0) 0 Buffer); FAT_int_WriteCluster cluster b
             else modify_cluster cluster bpc 0 Buffer);;;
            grow Node (u64 (original_offset + Length));;; ret Length
        end
  end.

(** ** Mounting *)
Definition field (bs : list Z) (o n : Z) : Z := le (clipped bs o n).
Definition bootsect_of (bs : list Z) : fat_bootsect :=
  MkBoot (field bs 11 2) (field bs 13 1) (field bs 14 2) (field bs 16 1) (field bs 17 2) (field bs 19 2) (field bs 21 1) (field bs 22 2) (field bs 32 4)
    (clipped bs 43 11) (field bs 36 4) (field bs 44 4) (clipped bs 71 11).

Definition FAT_Detect (img : list Z) : Z :=
  let bs := bootsect_of img in
  if negb (len (clipped img 0 512) =? 512) then 0 else
  if (bps bs =? 0) || (spc bs =? 0) then 0 else
  if mediaDesc bs <? 0xF0 then 0 else 1.

Definition FAT16_MIN_SECTORS := 4085.
Definition FAT32_MIN_CLUSTERS := 65525.
(** [ ' ' ] in a label ends it. *)
Definition label_name (l : list Z) : list Z := ((fun c => if c =? 32 then 0 else c) <$> l) ++ [0].

(** The slot [gFAT_Disks[giFAT_PartCount]] is taken for granted; [time]: what [now()] returns. *)
Definition FAT_InitDevice (img stack : list Z) (time : Z) : option fat :=
  let bs := bootsect_of img in
  if (bps bs =? 0) || (spc bs =? 0) then None else
  let RootDirSectors := Z.quot (files_in_root bs * 32 + (bps bs - 1)) (bps bs) in
  let FATSz := if fatSz16 bs =? 0 then fatSz32 bs else fatSz16 bs in
  let TotSec := if totalSect16 bs =? 0 then totalSect32 bs else totalSect16 bs in
  let ClusterCount := u32 (TotSec - u32 (resvSectCount bs + u32 (fatCount bs * FATSz) + RootDirSectors)) / spc bs in
  let type := if ClusterCount <? FAT16_MIN_SECTORS then FAT12 else if ClusterCount <? FAT32_MIN_CLUSTERS then FAT16 else FAT32 in
  let name := label_name (if bool_decide (type = FAT32) then label32 bs else label16 bs) in
  let '(RootSector, rootOffset) := if bool_decide (type = FAT32) then (0, rootClust bs) else (u32 (FATSz * fatCount bs), u32 (FATSz * fatCount bs) / spc bs) in
  let v := MkVol type name (u32 (resvSectCount bs + u32 (fatCount bs * FATSz) + RootDirSectors)) rootOffset RootSector ClusterCount bs (spc bs * bps bs) in
  let root := MkFNode rootOffset 0 (u64 (-1)) 2 false time time time true 1 None in
  Some (MkFat v img {[ROOT := root]} [] 1 stack).

(** ** Times *)
Definition FAT_int_GetAcessTimestamp (Date Time MS : Z) : option Z :=
  t ← timestamp (Z.land Time 0x1F * 2) (Z.land (Z.shiftr Time 5) 0x3F) (Z.land (Z.shiftr Time 11) 0x1F)
        (Z.land Date 0x1F - 1) (Z.land (Z.shiftr Date 5) 0xF - 1) (1980 + Z.land (Z.shiftr Date 9) 0xFF);
  Some (i64 (MS * 10 + t)).
(** The date, the time and the part of a second. *)
Definition FAT_int_GetFATTimestamp (t : Z) : option (Z * Z * Z) :=
  d ← format_date t;
  Some (u16 (Z.lor (Z.lor (day d + 1) (Z.shiftl (month d + 1) 5)) (Z.shiftl (year d - 1980) 9)),
        u16 (Z.lor (Z.lor (Z.quot (sec d) 2) (Z.shiftl (mins d) 5)) (Z.shiftl (hrs d) 11)),
        u8 (Z.quot (ms d) 10 + Z.land (sec d) 1 * 100)).

(** ** Nodes *)
(** A directory entry is its 32 bytes. *)
Definition fe_name (e : list Z) : list Z := clipped e 0 11.
Definition fe_attrib (e : list Z) : Z := field e 11 1.
Definition fe_ctimems (e : list Z) : Z := field e 13 1.
Definition fe_ctime (e : list Z) : Z := field e 14 2.
Definition fe_cdate (e : list Z) : Z := field e 16 2.
Definition fe_adate (e : list Z) : Z := field e 18 2.
Definition fe_clusterHi (e : list Z) : Z := field e 20 2.
Definition fe_mtime (e : list Z) : Z := field e 22 2.
Definition fe_mdate (e : list Z) : Z := field e 24 2.
Definition fe_cluster (e : list Z) : Z := field e 26 2.
Definition fe_size (e : list Z) : Z := field e 28 4.
Definition ATTR_READONLY := 0x01.
Definition ATTR_DIRECTORY := 0x10.
Definition ATTR_LFN := 0x0F.
Definition has_flag (x f : Z) : bool := negb (Z.land x f =? 0).
Definition VFS_FFLAG_READONLY := 0x01.
Definition VFS_FFLAG_DIRECTORY := 0x02.

Definition add_ref (d : Z) (n : fnode) : fnode :=
  MkFNode (n_Inode n) (n_ImplInt n) (n_Size n) (n_Flags n) (n_readonly n) (n_CTime n) (n_MTime n) (n_ATime n) (n_dir n) (n_refs n + d) (n_Data n).

(** The first node of the cache for which [p] holds. *)
Fixpoint find_cached (p : fnode -> bool) (c : list Z) : FM (option Z) :=
  match c with
  | [] => ret None
  | k :: c => do n <- node_at k; if p n then ret (Some k) else find_cached p c
  end.
Definition ref_node (k : Z) : FM Z := do n <- node_at k; put_node k (add_ref 1 n);;; ret k.
(** A new node at the end of the cache. *)
Definition append_node (n : fnode) : FM Z := fun s =>
  Ok (f_next s) (set_nodes (<[f_next s := n]> (f_nodes s)) (f_cache s ++ [f_next s]) (f_next s + 1) s).

Definition FAT_int_GetNode (Cluster : Z) : FM (option Z) :=
  do v <- the_vol;
  if Cluster =? rootOffset v then ret (Some ROOT) else
  do s <- get_state;
  do r <- find_cached (fun n => Z.land (n_Inode n) 0xFFFFFFFF =? Cluster) (f_cache s);
  match r with Some k => do k <- ref_node k; ret (Some k) | None => ret None end.

Definition FAT_int_CreateIncompleteDirNode (Cluster : Z) : FM Z :=
  do v <- the_vol;
  if Cluster =? rootOffset v then ret ROOT else
  do s <- get_state;
  do r <- find_cached (fun n => Z.land (n_Inode n) 0xFFFFFFFF =? Cluster) (f_cache s);
  match r with
  | Some k => ref_node k
  | None => append_node (MkFNode Cluster 0 (u64 (-1)) 0 false 0 0 0 true 1 None)
  end.

Definition FAT_int_CacheNode (n : fnode) : FM Z :=
  do s <- get_state;
  do r <- find_cached (fun m => n_Inode m =? n_Inode n) (f_cache s);
  match r with
  | Some k => ref_node k
  | None => append_node (MkFNode (n_Inode n) (n_ImplInt n) (n_Size n) (n_Flags n) (n_readonly n) (n_CTime n) (n_MTime n) (n_ATime n) (n_dir n) 1 (n_Data n))
  end.

Definition entry_cluster (e : list Z) : Z := i32 (Z.lor (fe_cluster e) (Z.shiftl (fe_clusterHi e) 16)).
(** The data of the entry, put in a new node or in one that was incomplete. *)
Definition fill_node (p : fnode) (Entry : list Z) (old : option (Z * fnode)) : FM Z :=
  let dir := has_flag (fe_attrib Entry) ATTR_DIRECTORY in
  let ro := has_flag (fe_attrib Entry) ATTR_READONLY in
  do ct <- fopt (FAT_int_GetAcessTimestamp (fe_cdate Entry) (fe_ctime Entry) (fe_ctimems Entry));
  do mt <- fopt (FAT_int_GetAcessTimestamp (fe_mdate Entry) (fe_mtime Entry) 0);
  do at_ <- fopt (FAT_int_GetAcessTimestamp (fe_adate Entry) 0 0);
  let refs := match old with Some (_, n) => n_refs n | None => 0 end in
  let data := match old with Some (_, n) => n_Data n | None => None end in
  let n := MkFNode (u64 (Z.lor (entry_cluster Entry) (u64 (Z.shiftl (n_Inode p) 32)))) 0 (if dir then u64 (-1) else fe_size Entry)
    (Z.lor (if dir then VFS_FFLAG_DIRECTORY else 0) (if ro then VFS_FFLAG_READONLY else 0)) ro ct mt at_ dir refs data in
  match old with Some (k, _) => put_node k n;;; ret k | None => FAT_int_CacheNode n end.
Definition FAT_int_CreateNode (Parent : Z) (Entry : list Z) : FM Z :=
  do p <- node_at Parent;
  do r <- FAT_int_GetNode (u32 (entry_cluster Entry));
  do old <- match r with Some k => do n <- node_at k; ret (Some (k, n)) | None => ret None end;
  let complete := match old with Some (_, n) => negb (Z.shiftr (n_Inode n) 32 =? 0) | None => false end in
  match old with
  | Some (k, _) => if complete then ret k else fill_node p Entry old
  | None => fill_node p Entry old
  end.

(** 1 when the node is freed, -1 when it is not in the cache. *)
Definition FAT_int_DerefNode (Node : Z) : FM Z :=
  if Node =? ROOT then ret 0 else
  do n <- node_at Node;
  put_node Node (add_ref (-1) n);;;
  do s <- get_state;
  let here := bool_decide (Node ∈ f_cache s) in
  (fun s => Ok tt (set_nodes (f_nodes s) (filter (fun k => k <> Node) (f_cache s)) (f_next s) s));;;
  if negb here then ret (-1) else
  if n_refs n - 1 =? 0 then (fun s => Ok tt (set_nodes (delete Node (f_nodes s)) (f_cache s) (f_next s) s));;; ret 1 else ret 0.
