(* ===== verification/FatDir.v ===== *)
(** * The FAT driver: directories ([KernelLand/Modules/Filesystems/FAT/dir.c], [FAT_CloseFile] of [fat.c])

    A directory is a sequence of entries of 32 bytes, 16 to a sector; a long name is spread over entries in front of
    the one it belongs to.  Names are strings ended by 0; long names are words of 16 bits. *)
From S2P Require Import Prelude Arith CString Text Time Fat.

Local Open Scope Z_scope.
Local Open Scope monad_scope.

Definition cDOT := 46.
Definition cBLANK := 32.
Definition DELETED := 0xE5.
Definition FILENAME_MAX := 256.
Definition EINVAL := 5.
Definition ENOTFOUND := 10.
Definition ENOTIMPL := 12.
Definition ENOENT := 13.
Definition EEXIST := 14.
Definition EIO := 18.

(** ** Names *)
Fixpoint until_blank (l : list Z) : list Z := match l with [] => [] | c :: l => if c =? cBLANK then [] else c :: until_blank l end.
Definition FAT_int_ProperFilename (src : list Z) : list Z :=
  let ext := if default 0 (get src 8) =? cBLANK then [] else cDOT :: until_blank (clipped src 8 3) in
  until_blank (clipped src 0 8) ++ ext ++ [0].

(** The number of words before the end, the bytes they are cut to. *)
Fixpoint FAT_int_ConvertUTF16_to_UTF8 (Source : list Z) : option (list Z) :=
  match Source with
  | [] => None
  | w :: Source => if w =? 0 then Some [] else (cons (u8 w)) <$> FAT_int_ConvertUTF16_to_UTF8 Source
  end.
(** The code and the name. *)
Definition FAT_int_CreateName (ft : list Z) (LongFileName : option (list Z)) : option (Z * option (list Z)) :=
  match LongFileName with
  | Some ((w :: _) as lfn) =>
      if w =? 0 then Some (0, Some (FAT_int_ProperFilename (fe_name ft))) else
      name ← FAT_int_ConvertUTF16_to_UTF8 lfn;
      if FILENAME_MAX <? len name then Some (-1, None) else Some (0, Some (name ++ [0]))
  | Some [] => None
  | None => Some (0, Some (FAT_int_ProperFilename (fe_name ft)))
  end.

Fixpoint compare_loop (fuel : nat) (Str16 str8 : list Z) (pos16 pos8 : Z) : option Z :=
  match fuel with
  | O => None
  | S fuel =>
      w ← get Str16 pos16; c ← get str8 pos8;
      if (w =? 0) || (c =? 0) then Some (if w =? c then 0 else if w <? c then -1 else 1) else
      let '(cp16, pos16) := if has_flag w 0x8000 then (0, pos16) else (w, pos16 + 1) in
      '(cp8, n) ← ReadUTF8 (drop (Z.to_nat pos8) str8);
      if cp16 =? cp8 then compare_loop fuel Str16 str8 pos16 (pos8 + n) else Some (if cp16 <? cp8 then -1 else 1)
  end.
Definition FAT_int_CompareUTF16_UTF8 (Str16 Str8 : list Z) : option Z := compare_loop (S (length Str8)) Str16 Str8 0 0.

(** [Dest] has [room] words; the words before the final 0. *)
Fixpoint utf16_loop (fuel : nat) (Source : list Z) : option (list Z) :=
  match fuel with
  | O => None
  | S fuel =>
      c ← get Source 0;
      if c =? 0 then Some [] else
      '(cp, cpl) ← ReadUTF8 Source;
      rest ← utf16_loop fuel (drop (Z.to_nat cpl) Source);
      Some (if cp <? 0x8000 then cp :: rest else rest)
  end.
Definition FAT_int_ConvertUTF8_to_UTF16 (room : Z) (Source : list Z) : option (list Z) :=
  l ← utf16_loop (length Source) Source; if len l <? room then Some l else None.

(** ** Long names *)
(** Words of a long name entry, in the order of the name. *)
Definition lfn_words (e : list Z) : list Z :=
  (fun o => field e o 2) <$> [1; 3; 5; 7; 9; 14; 16; 18; 20; 22; 24; 28; 30].
(** The result and the buffer. *)
Definition FAT_int_ParseLFN (Entry Buffer : list Z) : option (Z * list Z) :=
  let id := field Entry 0 1 in
  let Buffer := if has_flag id 0x40 then replicate 256 0 else Buffer in
  let ofs := Z.land id 0x3F * 13 - 1 in
  if 255 <=? ofs then Some (-1, Buffer) else
  Buffer ← wr Buffer (ofs - 12) (lfn_words Entry);
  Some (if Z.land id 0x3F =? 1 then 1 else 0, Buffer).

(** ** Sectors *)
Definition FAT_int_ReadDirSector (Node Sector : Z) : FM (option (list Z)) :=
  do a <- FAT_int_GetAddress Node (Sector * 512);
  match a.1 with
  | None => ret None
  | Some addr => do b <- VFS_ReadAt addr 512; ret (if len b =? 512 then Some b else None)
  end.
Definition FAT_int_WriteDirSector (Node Sector : Z) (Buffer : list Z) : FM Z :=
  do a <- FAT_int_GetAddress Node (Sector * 512);
  match a.1 with
  | None => ret 1
  | Some addr => do n <- VFS_WriteAt addr Buffer; ret (if n =? 512 then 0 else 1)
  end.
Definition ent (sector : list Z) (i : Z) : list Z := clipped sector (i * 32) 32.
Definition first_char (e : list Z) : Z := field e 0 1.

(** As many entries as a chain without a loop can hold. *)
Definition ent_fuel (v : tFAT_VolInfo) : nat := Z.to_nat ((ClusterCount v + 4) * BytesPerCluster v / 32 + files_in_root (bootsect v) + 32).

Definition FAT_int_WriteDirEntry (Node ID : Z) (Entry : list Z) : FM Z :=
  do a <- FAT_int_GetAddress Node (u32 (ID * 32));
  match a.1 with
  | Some addr => do _ <- VFS_WriteAt addr Entry; ret 0
  | None =>
      do c <- FAT_int_AllocateCluster (default 0 a.2);
      if c =? NONE then ret 1 else
      do b <- FAT_int_GetAddress Node (u32 (ID * 32));
      do _ <- VFS_WriteAt (default 0 b.1) Entry; ret 0
  end.

(** ** Looking for an entry *)
Definition short_or_long (Name e lfn : list Z) : option bool :=
  a ← strucmp (FAT_int_ProperFilename (fe_name e)) Name;
  if a =? 0 then Some true else b ← FAT_int_CompareUTF16_UTF8 lfn Name; Some (b =? 0).

Fixpoint by_name (fuel : nat) (DirNode : Z) (Name : list Z) (i : Z) (fileinfo lfn : list Z) (lfnId : Z) : FM (option (Z * list Z)) :=
  match fuel with
  | O => halt FLoop
  | S fuel =>
      do sec <- (if i mod 16 =? 0 then FAT_int_ReadDirSector DirNode (i / 16) else ret (Some fileinfo));
      match sec with
      | None => ret None
      | Some fileinfo =>
          let e := ent fileinfo (i mod 16) in
          if first_char e =? 0 then ret None else
          if first_char e =? DELETED then by_name fuel DirNode Name (i + 1) fileinfo lfn lfnId else
          if fe_attrib e =? ATTR_LFN then
            do p <- fopt (FAT_int_ParseLFN e lfn);
            by_name fuel DirNode Name (i + 1) fileinfo p.2 (if p.1 =? 0 then lfnId else i + 1)
          else
            do lfn <- (if lfnId =? i then ret lfn else fopt (set lfn 0 0));
            do hit <- fopt (short_or_long Name e lfn);
            if (hit : bool) then ret (Some (i, e)) else by_name fuel DirNode Name (i + 1) fileinfo lfn lfnId
      end
  end.
(** The number of the entry and the entry. *)
Definition FAT_int_GetEntryByName (DirNode : Z) (Name : list Z) : FM (option (Z * list Z)) :=
  do v <- the_vol; do s <- get_state; by_name (ent_fuel v) DirNode Name 0 [] (f_stack s) (-1).

Fixpoint by_cluster (fuel : nat) (DirNode Cluster i sector : Z) (fileinfo : list Z) : FM (option (Z * list Z)) :=
  match fuel with
  | O => halt FLoop
  | S fuel =>
      do sec <- (if (i =? 0) || (i =? 16) then FAT_int_ReadDirSector DirNode sector else ret (Some fileinfo));
      match sec with
      | None => ret None
      | Some fileinfo =>
          let '(i, sector) := if (i =? 0) || (i =? 16) then (0, sector + 1) else (i, sector) in
          let e := ent fileinfo i in
          if first_char e =? 0 then ret None else
          if (first_char e =? DELETED) || (fe_attrib e =? ATTR_LFN) || negb (fe_cluster e =? Z.land Cluster 0xFFFF) || negb (fe_clusterHi e =? Z.land (Z.shiftr Cluster 16) 0xFFFF)
          then by_cluster fuel DirNode Cluster (i + 1) sector fileinfo
          else ret (Some (i, e))
      end
  end.
Definition FAT_int_GetEntryByCluster (DirNode Cluster : Z) : FM (option (Z * list Z)) :=
  do v <- the_vol; by_cluster (ent_fuel v) DirNode Cluster 0 0 [].

(** ** Closing *)
Fixpoint free_chain (fuel : nat) (cluster : Z) : FM unit :=
  if cluster =? NONE then ret tt else
  match fuel with
  | O => halt FLoop
  | S fuel => do next <- FAT_int_FreeCluster cluster; free_chain fuel next
  end.

(** Closing a changed file closes its directory again, which no write changes. *)
Fixpoint FAT_CloseFile (fuel : nat) (Node : Z) : FM unit :=
  match fuel with
  | O => halt FLoop
  | S fuel =>
      do n <- node_at Node;
      (if has_flag (n_ImplInt n) FAT_FLAG_DIRTY && negb (has_flag (n_ImplInt n) FAT_FLAG_DELETE) then
         do dirnode <- FAT_int_CreateIncompleteDirNode (Z.shiftr (n_Inode n) 32);
         do r <- FAT_int_GetEntryByCluster dirnode (Z.land (n_Inode n) 0xFFFFFFFF);
         match r with
         | None => halt FUninit
         | Some (id, ft) =>
             do _ <- FAT_int_WriteDirEntry dirnode id (take 28 ft ++ to_le 4 (n_Size n));
             FAT_CloseFile fuel dirnode;;;
             do n <- node_at Node; put_node Node (node_with (n_Size n) (Z.land (n_ImplInt n) (Z.lnot FAT_FLAG_DIRTY)) n)
         end
       else ret tt);;;
      do n <- node_at Node;
      do r <- FAT_int_DerefNode Node;
      if (r =? 1) && has_flag (n_ImplInt n) FAT_FLAG_DELETE then do v <- the_vol; free_chain (Z.to_nat (ClusterCount v + 3)) (u32 (n_Inode n)) else ret tt
  end.

Definition close (Node : Z) : FM unit := FAT_CloseFile 3 Node.

(** ** The cache of long names *)
Definition set_data (d : option (list (Z * list Z))) (n : fnode) : fnode :=
  MkFNode (n_Inode n) (n_ImplInt n) (n_Size n) (n_Flags n) (n_readonly n) (n_CTime n) (n_MTime n) (n_ATime n) (n_dir n) (n_refs n) d.
(** A new entry has only its first word set. *)
Definition new_lfn (stack : list Z) (ID : Z) : Z * list Z := (ID, 0 :: drop 1 stack).
Fixpoint index_of (p : Z * list Z -> bool) (l : list (Z * list Z)) (i : Z) : option Z :=
  match l with [] => None | x :: l => if p x then Some i else index_of p l (i + 1) end.
(** The index of the entry in the cache. *)
Definition FAT_int_GetLFN (Node ID : Z) : FM Z :=
  do n <- node_at Node;
  do s <- get_state;
  match n_Data n with
  | None => put_node Node (set_data (Some [new_lfn (f_stack s) ID]) n);;; ret 0
  | Some cache =>
      match index_of (fun x => x.1 =? ID) cache 0 with
      | Some i => ret i
      | None =>
          match index_of (fun x => x.1 =? -1) cache 0 with
          | Some i =>
              do x <- fopt (get cache i);
              do d <- fopt (set cache i (ID, 0 :: drop 1 x.2));
              put_node Node (set_data (Some d) n);;; ret i
          | None => put_node Node (set_data (Some (cache ++ [new_lfn (f_stack s) ID])) n);;; ret (len cache)
          end
      end
  end.
Definition FAT_int_DelLFN (Node ID : Z) : FM unit :=
  do n <- node_at Node;
  match n_Data n with
  | None => ret tt
  | Some cache => put_node Node (set_data (Some ((fun x : Z * list Z => if x.1 =? ID then (-1, x.2) else x) <$> cache)) n)
  end.

(** ** Reading a directory *)
Definition dot_entry (e : list Z) : bool :=
  let c i := field e i 1 in
  (c 0 =? cDOT) && ((c 1 =? cBLANK) || ((c 1 =? cDOT) && (c 2 =? cBLANK))).

(** The code (1: skip this one) and the name. *)
Definition FAT_ReadDir (Node ID : Z) : FM (Z * option (list Z)) :=
  do sec <- FAT_int_ReadDirSector Node (ID / 16);
  match sec with
  | None => ret (- EIO, None)
  | Some fileinfo =>
      let e := ent fileinfo (ID mod 16) in
      if first_char e =? 0 then
        do n <- node_at Node; put_node Node (node_with ID (n_ImplInt n) n);;; ret (- ENOENT, None)
      else if first_char e =? DELETED then ret (1, None)
      else if fe_attrib e =? ATTR_LFN then
        do i <- FAT_int_GetLFN Node (ID + Z.land (field e 0 1) 0x3F);
        do n <- node_at Node;
        do cache <- fopt (n_Data n);
        do x <- fopt (get cache i);
        do p <- fopt (FAT_int_ParseLFN e x.2);
        do d <- fopt (set cache i (x.1, p.2));
        put_node Node (set_data (Some d) n);;;
        ret (if p.1 <? 0 then - EIO else 1, None)
      else if has_flag (fe_attrib e) 0x08 then ret (1, None)
      else if dot_entry e then ret (1, None)
      else
        do i <- FAT_int_GetLFN Node ID;
        do n <- node_at Node;
        do cache <- fopt (n_Data n);
        do x <- fopt (get cache i);
        do r <- fopt (FAT_int_CreateName e (Some x.2));
        ret (0, r.2)
  end.

Definition FAT_FindDir (Node : Z) (Name : list Z) : FM (option Z) :=
  do c <- fopt (get Name 0);
  if c =? 0 then ret None else
  do r <- FAT_int_GetEntryByName Node Name;
  match r with
  | None => ret None
  | Some (_, e) => do k <- FAT_int_CreateNode Node e; ret (Some k)
  end.

Definition FAT_GetNodeFromINode (Inode : Z) : FM (option Z) :=
  do r <- FAT_int_GetNode (Z.land Inode 0xFFFFFFFF);
  do done_ <- match r with Some k => do n <- node_at k; ret (negb (Z.shiftr (n_Inode n) 32 =? 0)) | None => ret false end;
  if (done_ : bool) then ret r else
  do dirnode <- FAT_int_CreateIncompleteDirNode (Z.shiftr Inode 32);
  do e <- FAT_int_GetEntryByCluster dirnode (Z.land Inode 0xFFFFFFFF);
  match e with
  | None => halt FUninit
  | Some (_, ft) => do k <- FAT_int_CreateNode dirnode ft; close dirnode;;; ret (Some k)
  end.

(** ** Creating and removing entries *)
Definition is_valid_83_char (ch : Z) : bool :=
  isdigit ch || isupper ch || islower ch || bool_decide (ch ∈ [36; 37; 39; 45; 95; 64; 126; 96; 35; 33; 40; 41; 123; 125; 94; 35; 38]) || (128 <? ch).
Definition FAT_int_UnicodeTo83 (Input : Z) : Z :=
  let Input := toupper Input in
  let Input := if 256 <? Input then 95 else Input in
  if is_valid_83_char (u8 Input) then u8 Input else 95.

(** The characters up to [n] of them or a dot; the rest; nothing when one is not allowed. *)
Fixpoint valid_part (n : nat) (dot : bool) (Name : list Z) : option (option (list Z)) :=
  c ← get Name 0;
  match n with
  | O => Some (Some Name)
  | S n =>
      if (c =? 0) || (dot && (c =? cDOT)) then Some (Some Name) else
      if is_valid_83_char c then valid_part n dot (drop 1 Name) else Some None
  end.
Definition FAT_int_IsValid83Filename (Name : list Z) : option bool :=
  c ← get Name 0;
  if (c =? 0) || (c =? cDOT) then Some false else
  p ← valid_part 8 true Name;
  match p with
  | None => Some false
  | Some rest =>
      c ← get rest 0;
      if negb (c =? 0) && negb (c =? cDOT) then Some false else
      let rest := if c =? 0 then rest else drop 1 rest in
      q ← valid_part 3 false rest;
      match q with
      | None => Some false
      | Some rest => c ← get rest 0; Some (c =? 0)
      end
  end.

Definition FAT_int_MakeLFNChecksum (ShortName : list Z) : Z :=
  foldl (fun r c => u8 ((if Z.odd r then 0x80 else 0) + Z.shiftr r 1 + c)) 0 (take 11 ShortName).

(** Characters for the name field, up to [n] or a dot, and the rest of the name. *)
Fixpoint copy_part (n : nat) (f : Z -> Z) (dot : bool) (Name : list Z) : option (list Z * list Z) :=
  c ← get Name 0;
  match n with
  | O => Some ([], Name)
  | S n' =>
      if (c =? 0) || (dot && (c =? cDOT)) then Some ([], Name) else
      '(l, rest) ← copy_part n' f dot (drop 1 Name); Some (f c :: l, rest)
  end.
Definition pad (n : nat) (l : list Z) : list Z := l ++ replicate (n - length l) cBLANK.

Definition short_name (NewName : list Z) : option (list Z) :=
  '(base, rest) ← copy_part 8 id true NewName;
  c ← get rest 0;
  '(ext, _) ← copy_part 3 id false (if c =? 0 then rest else drop 1 rest);
  Some (pad 8 base ++ pad 3 ext).

Fixpoint skip_dots (Name : list Z) : list Z := match Name with c :: l => if c =? cDOT then skip_dots l else Name | [] => [] end.
Fixpoint to_dot (Name : list Z) : list Z := match Name with c :: l => if (c =? 0) || (c =? cDOT) then Name else to_dot l | [] => [] end.
(** The extension of a mangled name: its dots are left out. *)
Fixpoint mangle_ext (n : nat) (Name : list Z) : option (list Z) :=
  match Name with
  | [] => None
  | c :: l =>
      match n with
      | O => Some []
      | S n' =>
          if c =? 0 then Some [] else
          if c =? cDOT then mangle_ext n l else
          (cons (if is_valid_83_char c then toupper c else 95)) <$> mangle_ext n' l
      end
  end.
Definition mangled_name (NewName : list Z) : option (list Z) :=
  '(base, rest) ← copy_part 6 (fun c => if isalpha c || is_valid_83_char c then toupper c else 95) true (skip_dots NewName);
  ext ← mangle_ext 3 (to_dot rest);
  Some (pad 8 (base ++ [126; 49]) ++ pad 3 ext).

(** Whether the directory has an entry with this name field. *)
Fixpoint has_short (fuel : nat) (DirNode : Z) (name : list Z) (id : Z) (fileinfo : list Z) : FM bool :=
  match fuel with
  | O => halt FLoop
  | S fuel =>
      do sec <- (if id mod 16 =? 0 then FAT_int_ReadDirSector DirNode (id / 16) else ret (Some fileinfo));
      match sec with
      | None => ret false
      | Some fileinfo =>
          let e := ent fileinfo (id mod 16) in
          if first_char e =? 0 then ret false else
          if (first_char e =? DELETED) || (fe_attrib e =? ATTR_LFN) then has_short fuel DirNode name (id + 1) fileinfo else
          if bool_decide (fe_name e = name) then ret true else has_short fuel DirNode name (id + 1) fileinfo
      end
  end.
(** [while( bIsDuplicate )]: the digit at the end of the name counted up. *)
Fixpoint unique_short (fuel : nat) (DirNode : Z) (name : list Z) : FM (option (list Z)) :=
  match fuel with
  | O => halt FLoop
  | S fuel =>
      do v <- the_vol;
      do dup <- has_short (ent_fuel v) DirNode name 0 [];
      if negb (dup : bool) then ret (Some name) else
      do c <- fopt (get name 7);
      if c =? 57 then ret None else
      do name <- fopt (set name 7 (u8 (c + 1))); unique_short fuel DirNode name
  end.

(** Free entries for [nLFNEnt + 1]: the first and the last. *)
Fixpoint find_range (fuel : nat) (DirNode nLFNEnt id range_first : Z) (fileinfo : list Z) : FM (option (Z * Z)) :=
  match fuel with
  | O => halt FLoop
  | S fuel =>
      do sec <- (if id mod 16 =? 0 then FAT_int_ReadDirSector DirNode (id / 16) else ret (Some fileinfo));
      match sec with
      | None => ret None
      | Some fileinfo =>
          let e := ent fileinfo (id mod 16) in
          if first_char e =? 0 then ret (if id - range_first =? nLFNEnt then Some (range_first, id) else None) else
          if negb (first_char e =? DELETED) then find_range fuel DirNode nLFNEnt (id + 1) (id + 1) fileinfo else
          if id - range_first =? nLFNEnt then ret (Some (range_first, id)) else find_range fuel DirNode nLFNEnt (id + 1) range_first fileinfo
      end
  end.

(** 13 words of the long name from [ofs] on; its 0 is repeated. *)
Fixpoint lfn_part (n : nat) (lfn : list Z) (ofs : Z) : option (list Z) :=
  match n with
  | O => Some []
  | S n => wd ← get lfn ofs; (cons wd) <$> lfn_part n lfn (if wd =? 0 then ofs else ofs + 1)
  end.
Definition lfn_entry (lfn : list Z) (lfnid checksum : Z) : option (list Z) :=
  ws ← lfn_part 13 lfn ((lfnid - 1) * 13);
  let word i := to_le 2 (default 0 (get ws i)) in
  Some ([u8 (Z.lor 0x40 lfnid)] ++ word 0 ++ word 1 ++ word 2 ++ word 3 ++ word 4 ++ [ATTR_LFN; 0; checksum]
        ++ word 5 ++ word 6 ++ word 7 ++ word 8 ++ word 9 ++ word 10 ++ [0; 0] ++ word 11 ++ word 12).

Fixpoint insert_entries (fuel : nat) (DirNode id range_first range_last nLFNEnt checksum : Z) (lfn ft fileinfo : list Z) : FM (list Z) :=
  match fuel with
  | O => ret fileinfo
  | S fuel =>
      do fileinfo <- (if id mod 16 =? 0 then
                        (if id =? range_first then ret tt else do _ <- FAT_int_WriteDirSector DirNode ((id - 1) / 16) fileinfo; ret tt);;;
                        do sec <- FAT_int_ReadDirSector DirNode (id / 16); fopt sec
                      else ret fileinfo);
      do e <- (if id =? range_last then ret ft else fopt (lfn_entry lfn (nLFNEnt - (id - range_first)) checksum));
      do fileinfo <- fopt (wr fileinfo (id mod 16 * 32) e);
      insert_entries fuel DirNode (id + 1) range_first range_last nLFNEnt checksum lfn ft fileinfo
  end.

Definition entry_bytes (name : list Z) (attrib ctimems ctime cdate adate clusterHi mtime mdate cluster size : Z) : list Z :=
  name ++ [attrib; 0; ctimems] ++ to_le 2 ctime ++ to_le 2 cdate ++ to_le 2 adate ++ to_le 2 clusterHi ++ to_le 2 mtime ++ to_le 2 mdate ++ to_le 2 cluster ++ to_le 4 size.
(** The entry for a node under a name. *)
Definition node_entry (name : list Z) (n : fnode) : option (list Z) :=
  '(cdate, ctime, cms) ← FAT_int_GetFATTimestamp (n_CTime n);
  '(mdate, mtime, _) ← FAT_int_GetFATTimestamp (n_MTime n);
  '(adate, _, _) ← FAT_int_GetFATTimestamp (n_ATime n);
  Some (entry_bytes name (if has_flag (n_Flags n) VFS_FFLAG_DIRECTORY then ATTR_DIRECTORY else 0) cms ctime cdate adate
          (Z.land (Z.shiftr (n_Inode n) 16) 0xFFFF) mtime mdate (Z.land (n_Inode n) 0xFFFF) (u32 (n_Size n))).

Definition FAT_Link (DirNode : Z) (NewName : list Z) (NewNode : Z) : FM Z :=
  do dup <- FAT_int_GetEntryByName DirNode NewName;
  match dup with Some _ => ret EEXIST | None =>
  do ok <- fopt (FAT_int_IsValid83Filename NewName);
  do nm <- (if negb (ok : bool) then
              do lfn <- fopt (FAT_int_ConvertUTF8_to_UTF16 256 NewName);
              do n <- fopt (DivUp (len lfn) 13);
              do m <- fopt (mangled_name NewName);
              do u <- unique_short 10 DirNode m;
              ret (match u with Some name => Some (name, n, lfn ++ [0]) | None => None end)
            else do name <- fopt (short_name NewName); ret (Some (name, 0, [])));
  match nm with None => ret ENOTIMPL | Some (name, nLFNEnt, lfn) =>
  do n <- node_at NewNode;
  do ft <- fopt (node_entry name n);
  do v <- the_vol;
  do r <- find_range (ent_fuel v) DirNode nLFNEnt 0 0 [];
  match r with None => ret ENOTIMPL | Some (range_first, range_last) =>
  let checksum := if nLFNEnt =? 0 then 0 else FAT_int_MakeLFNChecksum name in
  do sec <- (if range_first mod 16 =? 0 then ret (Some []) else FAT_int_ReadDirSector DirNode (range_first / 16));
  do fileinfo <- fopt sec;
  do fileinfo <- insert_entries (Z.to_nat (range_last - range_first + 1)) DirNode range_first range_first range_last nLFNEnt checksum lfn ft fileinfo;
  do _ <- FAT_int_WriteDirSector DirNode (range_last / 16) fileinfo;
  ret 0
  end end end.

(** The node; it is marked for deletion when it could not be linked. *)
Definition FAT_Mknod (DirNode : Z) (Name : list Z) (Flags : Z) : FM Z :=
  do cluster <- FAT_int_AllocateCluster NONE;
  let ft := entry_bytes (replicate 11 0) (if has_flag Flags VFS_FFLAG_DIRECTORY then ATTR_DIRECTORY else 0) 0 0 0 0 (Z.shiftr cluster 16) 0 0 (Z.land cluster 0xFFFF) 0 in
  do newnode <- FAT_int_CreateNode DirNode ft;
  do rv <- FAT_Link DirNode Name newnode;
  (if rv =? 0 then ret tt else do n <- node_at newnode; put_node newnode (node_with (n_Size n) (Z.lor (n_ImplInt n) FAT_FLAG_DELETE) n));;;
  ret newnode.

(** The record of the volume is passed where the node of the directory is expected. *)
Definition FAT_Unlink (Node : Z) (OldName : list Z) : FM Z :=
  do r <- FAT_int_GetEntryByName Node OldName;
  match r with None => ret ENOTFOUND | Some _ => halt FCast end.
