(* ===== verification/FatFiles.v ===== *)
(** * Files of a FAT volume as sequences of bytes

    The clusters of a file are a chain in the table; its bytes are those of its clusters, one after the other, up to
    the size of its node.  Reading and writing are shown to be operations on those bytes. *)
From S2P Require Import Prelude Arith CString Time Fat.

Local Open Scope Z_scope.
Local Open Scope monad_scope.
Implicit Types (s : fat) (v : tFAT_VolInfo) (c x : Z) (cs : list Z).

(** ** Volumes *)
Definition fatv s c : Z := match FAT_int_GetFatValue c s with Ok r _ => r | Stop _ => 0 end.
Lemma GetFatValue_run s c : FAT_int_GetFatValue c s = Ok (fatv s c) s.
Proof. unfold fatv, FAT_int_GetFatValue, bind, the_vol, VFS_ReadAt, ret. by destruct (fv_type (f_vol s)). Qed.

Lemma bind_vol {B} (k : tFAT_VolInfo -> FM B) s : bind the_vol k s = k (f_vol s) s.
Proof. done. Qed.

(** Where the entry of a cluster is in the table, and how long it is. *)
Definition entry_at v c : Z * Z :=
  let ofs := resvSectCount (bootsect v) * 512 in
  match fv_type v with FAT12 => (ofs + c / 2 * 3, 3) | FAT16 => (ofs + c * 2, 2) | FAT32 => (ofs + c * 4, 4) end.
Definition data_start v : Z := firstDataSect v * bps (bootsect v).
Definition valid v x : Prop := 2 <= x < ClusterCount v + 2.

(** The table lies in front of the clusters, the clusters on the device, and the device below 2 GiB. *)
Record vol_ok s : Prop := {
  vo_bpc : 0 < bps (bootsect (f_vol s)) /\ 0 < spc (bootsect (f_vol s)) /\ BytesPerCluster (f_vol s) = spc (bootsect (f_vol s)) * bps (bootsect (f_vol s));
  vo_sign : 0 <= firstDataSect (f_vol s) /\ 0 <= resvSectCount (bootsect (f_vol s)) /\ 0 <= ClusterCount (f_vol s);
  vo_table : forall x, valid (f_vol s) x -> (entry_at (f_vol s) x).1 + (entry_at (f_vol s) x).2 <= data_start (f_vol s);
  vo_size : data_start (f_vol s) + ClusterCount (f_vol s) * BytesPerCluster (f_vol s) <= len (f_img s) < 2147483648 }.

Abbreviation bpc s := (BytesPerCluster (f_vol s)).
Definition addr v x : Z := data_start v + (x - 2) * BytesPerCluster v.
Definition clu s x : list Z := sub (addr (f_vol s) x) (bpc s) (f_img s).

Lemma vol_pos s : vol_ok s -> 0 < bpc s.
Proof. intros [ (H1 & H2 & ->) _ _ _]. nia. Qed.

Lemma addr_range s x : vol_ok s -> valid (f_vol s) x -> data_start (f_vol s) <= addr (f_vol s) x /\ addr (f_vol s) x + bpc s <= len (f_img s) /\ 0 <= data_start (f_vol s).
Proof.
  intros Hok Hx. pose proof (vol_pos s Hok) as Hp. destruct Hok as [ (H1 & H2 & H3) (H4 & _) _ H6]. unfold valid, addr, data_start in *. split_and!; nia.
Qed.
Lemma cluster_addr_eq s x : vol_ok s -> valid (f_vol s) x -> cluster_addr (f_vol s) x = addr (f_vol s) x.
Proof.
  intros Hok Hx. pose proof (addr_range s x Hok Hx) as Ha. pose proof (vol_pos s Hok) as Hp. destruct Hok as [ (H1 & H2 & H3) (H4 & _) _ H6]. unfold cluster_addr, addr, data_start, valid in *.
  rewrite H3 in *. set (v := f_vol s) in *. set (b := bps (bootsect v)) in *. set (k := spc (bootsect v)) in *. set (d := firstDataSect v) in *.
  assert (0 <= (x - 2) * k) by nia. assert (d + (x - 2) * k <= (d + (x - 2) * k) * b) by nia.
  assert ((d + (x - 2) * k) * b = d * b + (x - 2) * (k * b)) as E by ring. assert (x - 2 <= (x - 2) * k) by nia. assert (0 <= d * b) by nia.
  rewrite (u32_small (x - 2)) by lia. rewrite (u32_small (d + _)) by lia. rewrite u32_small by lia. exact E.
Qed.
Lemma clu_len s x : vol_ok s -> valid (f_vol s) x -> len (clu s x) = bpc s.
Proof. intros Hok Hx. destruct (addr_range s x Hok Hx) as (? & ? & ?). pose proof (vol_pos s Hok). apply len_sub; lia. Qed.

Lemma whole_cluster_run s x : vol_ok s -> valid (f_vol s) x -> whole_cluster x (bpc s) s = Ok (clu s x) s.
Proof.
  intros Hok Hx. unfold whole_cluster, FAT_int_ReadCluster, VFS_ReadAt, the_vol. unfold bind at 1 2. rewrite cluster_addr_eq by done.
  change (clipped (f_img s) (addr (f_vol s) x) (bpc s)) with (clu s x). rewrite clu_len by done. by rewrite Z.eqb_refl.
Qed.

(** ** Chains *)
Fixpoint chain s c cs : Prop :=
  match cs with
  | [] => c = GETFATVALUE_EOC
  | x :: cs => c = x /\ x <> GETFATVALUE_EOC /\ valid (f_vol s) x /\ chain s (fatv s x) cs
  end.
Lemma chain_drop s k : forall c cs, chain s c cs -> (k <= length cs)%nat -> exists c', chain s c' (drop k cs).
Proof.
  induction k as [|k IH]; intros c cs H Hk; [by exists c|]. destruct cs as [|x cs]; [cbn in Hk; lia|]. destruct H as (-> & _ & _ & H). apply (IH _ _ H). cbn in Hk. lia.
Qed.
Lemma skip_run s k : forall c cs, chain s c cs -> (0 < length cs)%nat -> (k <= length cs)%nat ->
  exists ok c', skip_clusters k c s = Ok (ok, c') s /\ if ok then chain s c' (drop k cs) /\ (k < length cs)%nat else k = length cs.
Proof.
  induction k as [|k IH]; intros c cs H Hpos Hk; cbn [skip_clusters]; [by exists true, c|]. destruct cs as [|x cs]; [cbn in Hk; lia|].
  destruct H as (-> & Hx & Hv & H). rewrite (bind_Ok _ _ _ _ _ (GetFatValue_run s x)). destruct (fatv s x =? GETFATVALUE_EOC) eqn:E; bools.
  - exists false, x. split; [done|]. destruct cs as [|y cs]; [cbn in *; lia|]. destruct H as (Hy & Hn & _). congruence.
  - destruct cs as [|y cs]; [cbn in H; congruence|]. destruct (IH _ _ H) as (ok & c' & Hr & Hc); [cbn; lia|cbn in *; lia|]. exists ok, c'. split; [done|]. destruct ok; [|cbn in *; lia].
    destruct Hc as [Hc1 Hc2]. split; [done|]. cbn in *. lia.
Qed.

Definition content s cs : list Z := concat (clu s <$> cs).
Lemma chain_valid s c cs : chain s c cs -> Forall (valid (f_vol s)) cs.
Proof. revert c. induction cs as [|x cs IH]; intros c H; [done|]. destruct H as (_ & _ & Hv & H). apply Forall_cons. split; [done|by eapply IH]. Qed.
Lemma content_len s cs : vol_ok s -> Forall (valid (f_vol s)) cs -> len (content s cs) = len cs * bpc s.
Proof.
  intros Hok. induction 1 as [|x cs Hx H IH]; [done|]. unfold content. cbn [fmap list_fmap concat]. rewrite len_app, len_cons. fold (content s cs). rewrite IH, clu_len by done. lia.
Qed.
Lemma content_app s cs ds : content s (cs ++ ds) = content s cs ++ content s ds.
Proof. unfold content. by rewrite fmap_app, concat_app. Qed.

(** ** Slices *)
Lemma sub_app_skip {A} (a b : list A) o n : 0 <= o -> sub (len a + o) n (a ++ b) = sub o n b.
Proof. intros Ho. unfold sub, len. rewrite drop_app_ge by lia. do 2 f_equal. lia. Qed.
Lemma sub_app_in {A} (a b : list A) o n : 0 <= o -> 0 <= n -> o + n <= len a -> sub o n (a ++ b) = sub o n a.
Proof. unfold sub, len. intros. rewrite drop_app_le by lia. apply take_app_le. rewrite length_drop. lia. Qed.
Lemma sub_join {A} (l : list A) o n m : 0 <= o -> 0 <= n -> 0 <= m -> sub o n l ++ sub (o + n) m l = sub o (n + m) l.
Proof.
  intros. unfold sub. replace (Z.to_nat (o + n)) with (Z.to_nat o + Z.to_nat n)%nat by lia. rewrite <- drop_drop. replace (Z.to_nat (n + m)) with (Z.to_nat n + Z.to_nat m)%nat by lia. apply take_take_drop.
Qed.
Lemma sub_all {A} (l : list A) : sub 0 (len l) l = l.
Proof. unfold sub, len. rewrite Nat2Z.id. cbn. apply firstn_all. Qed.
Lemma sub_nil {A} (l : list A) o : sub o 0 l = [].
Proof. done. Qed.

Lemma content_drop s cs k o n : vol_ok s -> Forall (valid (f_vol s)) cs -> (k <= length cs)%nat -> 0 <= o -> sub (Z.of_nat k * bpc s + o) n (content s cs) = sub o n (content s (drop k cs)).
Proof.
  intros Hok Hv Hk Ho. rewrite <- (take_drop k cs) at 1. rewrite content_app. replace (Z.of_nat k * bpc s) with (len (content s (take k cs))); [by apply sub_app_skip|].
  rewrite content_len by (done || by apply Forall_take). unfold len. rewrite length_take. f_equal. lia.
Qed.
Lemma content_take s cs k : vol_ok s -> Forall (valid (f_vol s)) cs -> (k <= length cs)%nat -> content s (take k cs) = sub 0 (Z.of_nat k * bpc s) (content s cs).
Proof.
  intros Hok Hv Hk. rewrite <- (take_drop k cs) at 2. rewrite content_app. pose proof (vol_pos s Hok).
  assert (len (content s (take k cs)) = Z.of_nat k * bpc s) as E by (rewrite content_len by (done || by apply Forall_take); unfold len; rewrite length_take; f_equal; lia).
  rewrite <- E. rewrite sub_app_in by (pose proof (len_nonneg (content s (take k cs))); lia). by rewrite sub_all.
Qed.

(** ** Reading *)
Lemma read_clusters_run s n : forall c cs acc, vol_ok s -> chain s c cs -> (n <= length cs)%nat ->
  exists c', read_clusters n c (bpc s) acc s = Ok (true, c', acc ++ content s (take n cs)) s /\ chain s c' (drop n cs).
Proof.
  induction n as [|n IH]; intros c cs acc Hok H Hn; cbn [read_clusters].
  - exists c. split; [|done]. by rewrite app_nil_r.
  - destruct cs as [|x cs]; [cbn in Hn; lia|]. destruct H as (-> & Hx & Hv & H). rewrite (proj2 (Z.eqb_neq _ _)) by done.
    rewrite (bind_Ok _ _ _ _ _ (whole_cluster_run s x Hok Hv)), (bind_Ok _ _ _ _ _ (GetFatValue_run s x)).
    destruct (IH _ _ (acc ++ clu s x) Hok H) as (c' & Hr & Hc); [cbn in Hn; lia|]. exists c'. split; [|done]. rewrite Hr. by rewrite <- app_assoc.
Qed.

(** From the middle of a chain: [o] into its first cluster, [L] bytes that it has. *)
Definition read_rest (cluster Offset Length bpc : Z) : FM (list Z) :=
  if i32 (i32 Offset + i32 Length) <=? bpc then
    do b <- whole_cluster cluster bpc; fopt (rd b Offset Length)
  else
    do r <- (if 0 <? Offset then
               do b <- whole_cluster cluster bpc;
               do head <- fopt (rd b Offset (bpc - Offset));
               do next <- FAT_int_GetFatValue cluster; ret (negb (next =? GETFATVALUE_EOC), next, head)
             else ret (true, cluster, []));
    let '(ok, cluster, acc) := r in
    if negb (ok : bool) then ret acc else
    let count := u32 (Length - len acc) / bpc in
    let final_bytes := u32 (Length - len acc) mod bpc in
    do r <- read_clusters (Z.to_nat count) cluster bpc acc;
    let '(ok, cluster, acc) := r in
    if negb (ok : bool) then ret acc else
    if 0 <? final_bytes then
      if cluster =? GETFATVALUE_EOC then ret acc else
      do b <- whole_cluster cluster bpc;
      do tail <- fopt (rd b 0 (Length - len acc)); ret (acc ++ tail)
    else ret acc.

(** Whole clusters and the rest: what follows the part of the first one. *)
Lemma read_tail_run s c cs acc R : vol_ok s -> chain s c cs -> 0 <= R < 4294967296 -> R <= len cs * bpc s ->
  (do r <- read_clusters (Z.to_nat (R / bpc s)) c (bpc s) acc;
   let '(ok, cluster, acc') := r in
   if negb (ok : bool) then ret acc' else
   if 0 <? R mod bpc s then
     if cluster =? GETFATVALUE_EOC then ret acc' else
     do b <- whole_cluster cluster (bpc s);
     do tail <- fopt (rd b 0 (len acc + R - len acc')); ret (acc' ++ tail)
   else ret acc') s = Ok (acc ++ sub 0 R (content s cs)) s.
Proof.
  intros Hok H HR Hc. pose proof (vol_pos s Hok) as Hp. set (n := Z.to_nat (R / bpc s)). assert (Z.of_nat n = R / bpc s) as En by (unfold n; apply Z2Nat.id, Z.div_pos; lia).
  pose proof (Z.div_mod R (bpc s) ltac:(lia)) as Hdm. pose proof (Z.mod_pos_bound R (bpc s) Hp) as Hmod. assert ((n <= length cs)%nat) as Hn by (unfold len in Hc; nia).
  destruct (read_clusters_run s n c cs acc Hok H Hn) as (c' & Hr & Hc'). rewrite (bind_Ok _ _ _ _ _ Hr). cbn [negb].
  pose proof (chain_valid _ _ _ H) as Hv. pose proof (content_take s cs n Hok Hv Hn) as Etake. pose proof (content_len s cs Hok Hv) as Hlen.
  destruct (0 <? R mod bpc s) eqn:E; bools.
  - destruct (drop n cs) as [|y ys] eqn:Ed.
    { exfalso. assert (length (drop n cs) = 0%nat) as L by (by rewrite Ed). rewrite length_drop in L. unfold len in Hc. nia. }
    destruct Hc' as (-> & Hy & Hvy & Hc'). rewrite (proj2 (Z.eqb_neq _ _)) by done. rewrite (bind_Ok _ _ _ _ _ (whole_cluster_run s y Hok Hvy)).
    rewrite len_app, Etake, len_sub by nia. replace (len acc + R - (len acc + Z.of_nat n * bpc s)) with (R mod bpc s) by lia.
    rewrite rd_ok by (rewrite ?clu_len by done; lia). unfold fopt. rewrite bind_ret. rewrite <- app_assoc. unfold ret. do 2 f_equal.
    replace (sub 0 (R mod bpc s) (clu s y)) with (sub 0 (R mod bpc s) (content s (drop n cs))).
    2: { rewrite Ed. unfold content. cbn [fmap list_fmap concat]. apply sub_app_in; [lia|lia|rewrite clu_len by done; lia]. }
    rewrite <- (content_drop s cs n 0) by (done || lia). rewrite Z.add_0_r. change (Z.of_nat n * bpc s) with (0 + Z.of_nat n * bpc s) at 2. rewrite sub_join by nia. f_equal. lia.
  - unfold ret. do 2 f_equal. rewrite Etake. f_equal. lia.
Qed.

Lemma read_rest_run s c cs o L : vol_ok s -> chain s c cs -> (0 < length cs)%nat -> 0 <= o < bpc s -> 0 <= L -> o + L <= len cs * bpc s -> o + L < 2147483648 ->
  read_rest c o L (bpc s) s = Ok (sub o L (content s cs)) s.
Proof.
  intros Hok H Hpos Ho HL Hc Hmax. pose proof (chain_valid _ _ _ H) as Hv. destruct cs as [|x cs]; [cbn in Hpos; lia|]. destruct H as (-> & Hx & Hvx & H). pose proof (clu_len s x Hok Hvx) as Hcl.
  assert (content s (x :: cs) = clu s x ++ content s cs) as Econ by done. unfold read_rest. rewrite !i32_small by (rewrite ?i32_small; lia). destruct (o + L <=? bpc s) eqn:E; bools.
  - rewrite (bind_Ok _ _ _ _ _ (whole_cluster_run s x Hok Hvx)), rd_ok by lia. rewrite Econ, sub_app_in by lia. done.
  - destruct (0 <? o) eqn:Eo; bools.
    + rewrite bind_assoc, (bind_Ok _ _ _ _ _ (whole_cluster_run s x Hok Hvx)), rd_ok by lia. unfold fopt at 1. rewrite bind_assoc, bind_ret, bind_assoc, (bind_Ok _ _ _ _ _ (GetFatValue_run s x)), bind_ret.
      assert (0 < length cs)%nat as Hcs by (rewrite len_cons in Hc; unfold len in Hc; nia). destruct cs as [|y ys]; [cbn in Hcs; lia|]. pose proof H as (Hy & Hyn & _).
      rewrite Hy, (proj2 (Z.eqb_neq _ _)) by done. cbn [negb]. set (acc := sub o (bpc s - o) (clu s x)). assert (len acc = bpc s - o) as Hacc by (apply len_sub; lia).
      rewrite u32_small by lia. pose proof (read_tail_run s _ (y :: ys) acc (L - len acc) Hok H ltac:(lia) ltac:(rewrite !len_cons in *; nia)) as Hr.
      replace (len acc + (L - len acc)) with L in Hr by lia. rewrite Hy in Hr. rewrite Hr. f_equal. rewrite Econ. unfold acc at 1.
      rewrite <- (sub_app_in (clu s x) (content s (y :: ys))) by lia. replace (sub 0 (L - len acc) (content s (y :: ys))) with (sub (o + (bpc s - o)) (L - len acc) (clu s x ++ content s (y :: ys))).
      * rewrite sub_join by lia. f_equal. lia.
      * replace (o + (bpc s - o)) with (len (clu s x) + 0) by lia. by apply sub_app_skip.
    + rewrite bind_ret. cbn [negb]. assert (o = 0) as -> by lia. change (len []) with 0. rewrite Z.sub_0_r, u32_small by lia.
      pose proof (read_tail_run s x (x :: cs) [] L Hok ltac:(by split_and!) ltac:(lia) ltac:(lia)) as Hr. cbn [app] in Hr. change (len [] + L) with L in Hr. exact Hr.
Qed.

Lemma FAT_Read_run s Node n cs Offset Length : vol_ok s -> f_nodes s !! Node = Some n -> chain s (Z.land (n_Inode n) 0xFFFFFFFF) cs -> (0 < length cs)%nat -> n_Size n <= len cs * bpc s ->
  0 <= Offset <= n_Size n -> n_Size n < 2147483648 -> 0 <= Length < 2147483648 ->
  FAT_Read Node Offset Length s = Ok (sub Offset (Z.min Length (n_Size n - Offset)) (content s cs)) s.
Proof.
  intros Hok Hn H Hpos Hsz Hoff Hmax HL. pose proof (vol_pos s Hok) as Hp. pose proof (chain_valid _ _ _ H) as Hv. unfold FAT_Read, node_at, the_vol. unfold bind at 1. rewrite Hn. unfold bind at 1.
  rewrite (proj2 (Z.ltb_ge _ _)) by lia. cbv zeta. rewrite u64_small by lia.
  set (L := if n_Size n <? Offset + Length then u32 (n_Size n - Offset) else Length).
  assert (L = Z.min Length (n_Size n - Offset)) as EL by (unfold L; destruct (n_Size n <? Offset + Length) eqn:E; bools; [rewrite u32_small by lia|]; lia).
  rewrite <- EL. set (k := Z.to_nat (Offset / bpc s)). assert (Z.of_nat k = Offset / bpc s) as Ek by (unfold k; apply Z2Nat.id, Z.div_pos; lia).
  pose proof (Z.div_mod Offset (bpc s) ltac:(lia)) as Hdm. pose proof (Z.mod_pos_bound Offset (bpc s) Hp) as Hmod. assert (k <= length cs)%nat as Hk by (unfold len in Hsz; nia).
  destruct (skip_run s k _ cs H Hpos Hk) as (ok & c' & Hr & Hcase). rewrite (bind_Ok _ _ _ _ _ Hr). destruct ok; cbn [negb].
  - destruct Hcase as [Hc Hlt]. fold (read_rest c' (Offset mod bpc s) L (bpc s)). rewrite (read_rest_run s c' (drop k cs)).
    + rewrite <- content_drop by (done || lia). do 3 f_equal. lia.
    + done.
    + done.
    + rewrite length_drop. lia.
    + lia.
    + lia.
    + unfold len in *. rewrite length_drop. nia.
    + lia.
  - subst k. unfold len in Hsz. assert (L = 0) as -> by nia. done.
Qed.

(** ** Writing clusters *)
Lemma over_in m a bs : 0 <= a -> a + len bs <= len m -> over m a bs = take (Z.to_nat a) m ++ bs ++ drop (Z.to_nat a + length bs) m.
Proof. intros Ha Hl. unfold over. rewrite (firstn_all2 bs); [done|]. rewrite length_drop. unfold len in *. lia. Qed.
Lemma over_len m a bs : 0 <= a -> a + len bs <= len m -> len (over m a bs) = len m.
Proof. intros Ha Hl. rewrite over_in by done. unfold len in *. rewrite !length_app, length_take, length_drop. lia. Qed.
Lemma over_hit m a bs : 0 <= a -> a + len bs <= len m -> sub a (len bs) (over m a bs) = bs.
Proof.
  intros Ha Hl. rewrite over_in by done. assert (len (take (Z.to_nat a) m) = a) as E by (unfold len in *; rewrite length_take; lia).
  rewrite <- E at 1. apply sub_app.
Qed.
Lemma over_before m a bs o n : 0 <= a -> a + len bs <= len m -> 0 <= o -> 0 <= n -> o + n <= a -> sub o n (over m a bs) = sub o n m.
Proof.
  intros Ha Hl Ho Hn Hon. rewrite over_in by done. assert (len (take (Z.to_nat a) m) = a) as E by (unfold len in *; rewrite length_take; lia).
  rewrite sub_app_in by lia. rewrite <- (take_drop (Z.to_nat a) m) at 2. by rewrite sub_app_in by lia.
Qed.
Lemma over_after m a bs o n : 0 <= a -> a + len bs <= len m -> 0 <= n -> a + len bs <= o -> sub o n (over m a bs) = sub o n m.
Proof.
  intros Ha Hl Hn Hon. pose proof (len_nonneg bs). rewrite over_in by done. assert (len (take (Z.to_nat a) m) = a) as E by (unfold len in *; rewrite length_take; lia).
  rewrite app_assoc. assert (len (take (Z.to_nat a) m ++ bs) = a + len bs) as E2 by (rewrite len_app; lia).
  replace o with (len (take (Z.to_nat a) m ++ bs) + (o - (a + len bs))) at 1 by lia. rewrite sub_app_skip by lia.
  unfold sub. rewrite drop_drop. do 2 f_equal. unfold len in *. lia.
Qed.

Lemma fatv_ext s s' x : vol_ok s -> valid (f_vol s) x -> f_vol s' = f_vol s ->
  sub (entry_at (f_vol s) x).1 (entry_at (f_vol s) x).2 (f_img s') = sub (entry_at (f_vol s) x).1 (entry_at (f_vol s) x).2 (f_img s) -> fatv s' x = fatv s x.
Proof.
  intros Hok Hx Hv Hsub. pose proof (vo_table _ Hok x Hx) as Ht. pose proof (vo_size _ Hok) as Hs. pose proof (vol_pos s Hok) as Hp. destruct (vo_sign _ Hok) as (_ & Hr & Hc). unfold valid in Hx.
  unfold fatv, FAT_int_GetFatValue, bind, the_vol, VFS_ReadAt, ret, entry_at in *. rewrite Hv. set (v := f_vol s) in *. set (ofs := resvSectCount (bootsect v) * 512) in *.
  assert (0 <= ofs) by (unfold ofs; lia). assert (0 <= ClusterCount v * BytesPerCluster v) by nia. unfold clipped. destruct (fv_type v); cbn [fst snd] in *; unfold sub in Hsub;
    rewrite (u32_small ofs) by dlia; rewrite u32_small by dlia; by rewrite Hsub.
Qed.

Definition gput (g : Z -> list Z) x b : Z -> list Z := fun y => if decide (y = x) then b else g y.
(** The volume with other contents of its clusters. *)
Record disk s0 s (g : Z -> list Z) : Prop := {
  dk_vol : f_vol s = f_vol s0; dk_nodes : f_nodes s = f_nodes s0; dk_cache : f_cache s = f_cache s0 /\ f_next s = f_next s0 /\ f_stack s = f_stack s0;
  dk_len : len (f_img s) = len (f_img s0);
  dk_fat : forall x, valid (f_vol s0) x -> fatv s x = fatv s0 x;
  dk_clu : forall x, valid (f_vol s0) x -> clu s x = g x }.
Lemma disk_refl s : disk s s (clu s).
Proof. by split. Qed.
Lemma disk_ok s0 s g : vol_ok s0 -> disk s0 s g -> vol_ok s.
Proof. intros [H1 H2 H3 H4] [E1 _ _ E4 _ _]. split; rewrite E1, ?E4; done. Qed.

Lemma clusters_apart s x y : vol_ok s -> valid (f_vol s) x -> valid (f_vol s) y -> y <> x -> addr (f_vol s) y + bpc s <= addr (f_vol s) x \/ addr (f_vol s) x + bpc s <= addr (f_vol s) y.
Proof. intros Hok Hx Hy Hne. pose proof (vol_pos s Hok). unfold addr. destruct (Z.lt_total y x) as [H0|[H0|H0] ]; [left; nia|done|right; nia]. Qed.

Lemma write_cluster_run s0 s g x B : vol_ok s0 -> disk s0 s g -> valid (f_vol s0) x -> bpc s0 <= len B ->
  exists s', FAT_int_WriteCluster x B s = Ok tt s' /\ disk s0 s' (gput g x (sub 0 (bpc s0) B)).
Proof.
  intros Hok0 Hd Hx HB. pose proof (disk_ok _ _ _ Hok0 Hd) as Hok. pose proof (vol_pos s0 Hok0) as Hp. destruct Hd as [E1 E2 E3 E4 E5 E6]. rewrite <- E1 in Hx.
  destruct (addr_range s x Hok Hx) as (A1 & A2 & A3). assert (len (sub 0 (bpc s0) B) = bpc s0) as Hlb by (apply len_sub; lia).
  unfold FAT_int_WriteCluster. rewrite bind_vol. replace (bpc s) with (bpc s0) by (by rewrite E1). rewrite rd_ok by lia. unfold fopt. rewrite bind_ret. unfold VFS_WriteAt, bind. cbv beta.
  rewrite cluster_addr_eq by done. eexists. split; [reflexivity|]. set (b := sub 0 (bpc s0) B) in *. set (a := addr (f_vol s) x) in *.
  assert (a + len b <= len (f_img s)) as Hab by (rewrite Hlb, <- E1; done). split; try done.
  - unfold set_img. cbn [f_img]. rewrite over_len by lia. done.
  - intros y Hy. rewrite <- E5 by done. rewrite <- E1 in Hy. apply fatv_ext; [done|done|done|]. unfold set_img. cbn [f_img]. pose proof (vo_table _ Hok y Hy). apply over_before; try lia.
    + destruct (vo_sign _ Hok) as (_ & ? & _). unfold valid in Hy. unfold entry_at. destruct (fv_type (f_vol s)); cbn; dlia.
    + unfold entry_at. destruct (fv_type (f_vol s)); cbn; lia.
  - intros y Hy. unfold gput. rewrite <- E1 in Hy. unfold clu, set_img. cbn [f_img f_vol]. destruct (decide (y = x)) as [->|Hne].
    + fold a. replace (bpc s) with (len b) by (rewrite Hlb, E1; done). apply over_hit; lia.
    + rewrite <- E6 by (by rewrite <- E1). unfold clu. destruct (addr_range s y Hok Hy) as (B1 & B2 & B3). pose proof (vol_pos s Hok).
      destruct (clusters_apart s x y Hok Hx Hy Hne) as [Hlt|Hgt]; [fold a in Hlt; apply over_before; lia|fold a in Hgt; apply over_after; [lia|lia|lia|]; rewrite Hlb, <- E1; lia].
Qed.

Definition gcontent (g : Z -> list Z) cs : list Z := concat (g <$> cs).
Definition sized (b : Z) v (g : Z -> list Z) : Prop := forall x, valid v x -> len (g x) = b.
Lemma gcontent_same g g' cs : (forall x, x ∈ cs -> g' x = g x) -> gcontent g' cs = gcontent g cs.
Proof.
  intros H. unfold gcontent. f_equal. apply list_fmap_ext. intros i x Hx. apply H. by apply list_elem_of_lookup_2 in Hx.
Qed.
Lemma disk_sized s0 s g : vol_ok s0 -> disk s0 s g -> sized (bpc s0) (f_vol s0) g.
Proof. intros Hok Hd x Hx. rewrite <- (dk_clu _ _ _ Hd x Hx). rewrite clu_len; [by rewrite (dk_vol _ _ _ Hd)|by eapply disk_ok|by rewrite (dk_vol _ _ _ Hd)]. Qed.

(** A part of a cluster. *)
Definition patch (b : list Z) (o : Z) (d : list Z) : list Z := take (Z.to_nat o) b ++ d ++ drop (Z.to_nat o + length d) b.
Lemma patch_len b o d : 0 <= o -> o + len d <= len b -> len (patch b o d) = len b.
Proof. intros. unfold patch, len in *. rewrite !length_app, length_take, length_drop. lia. Qed.

Lemma modify_cluster_run s0 s g x o d : vol_ok s0 -> disk s0 s g -> valid (f_vol s0) x -> 0 <= o -> o + len d <= bpc s0 ->
  exists s', modify_cluster x (bpc s0) o d s = Ok tt s' /\ disk s0 s' (gput g x (patch (g x) o d)).
Proof.
  intros Hok Hd Hx Ho Hod. pose proof (disk_ok _ _ _ Hok Hd) as Hoks. pose proof (disk_sized _ _ _ Hok Hd x Hx) as Hl. unfold modify_cluster.
  pose proof (whole_cluster_run s x Hoks ltac:(by rewrite (dk_vol _ _ _ Hd))) as Hw. rewrite (dk_vol _ _ _ Hd) in Hw. rewrite (bind_Ok _ _ _ _ _ Hw).
  rewrite (dk_clu _ _ _ Hd) by done. rewrite wr_ok by lia. unfold fopt. rewrite bind_ret. fold (patch (g x) o d).
  destruct (write_cluster_run s0 s g x (patch (g x) o d) Hok Hd Hx) as (s' & Hr & Hd'); [rewrite patch_len by lia; lia|]. exists s'. split; [done|].
  replace (sub 0 (bpc s0) (patch (g x) o d)) with (patch (g x) o d) in Hd'; [done|]. rewrite <- Hl, <- (patch_len (g x) o d) by lia. by rewrite sub_all.
Qed.

Lemma next_run s0 s g x cs : disk s0 s g -> chain s0 x (x :: cs) -> (0 < length cs)%nat ->
  exists y, next_cluster x s = Ok (y, false) s /\ chain s0 y cs /\ y <> 0.
Proof.
  intros Hd (_ & Hx & Hv & H) Hcs. destruct cs as [|y cs]; [cbn in Hcs; lia|]. exists y. pose proof H as (Hy & Hyn & Hyv & _). unfold next_cluster.
  rewrite (bind_Ok _ _ _ _ _ (GetFatValue_run s x)), (dk_fat _ _ _ Hd) by done. rewrite Hy, (proj2 (Z.eqb_neq _ _)) by done. split; [done|]. rewrite Hy in H. split; [done|]. unfold valid in Hyv. lia.
Qed.

(** The end of a write, from the start of a cluster on. *)
Definition finish (cluster bpc : Z) (bNewCluster : bool) (Buffer : list Z) : FM unit :=
  if len Buffer =? 0 then ret tt else
  if (bNewCluster : bool) then do b <- fopt (wr (replicate (Z.to_nat bpc) 0) 0 Buffer); FAT_int_WriteCluster cluster b
  else modify_cluster cluster bpc 0 Buffer.

Lemma write_tail_run s0 : vol_ok s0 -> forall cs s g c B fuel, disk s0 s g -> chain s0 c cs -> NoDup cs -> (0 < length cs)%nat -> len B <= len cs * bpc s0 -> len B / bpc s0 <= Z.of_nat fuel ->
  exists y B' s1 s' g', write_clusters fuel c (bpc s0) B false s = Ok (Some (y, false), B') s1 /\ finish y (bpc s0) false B' s1 = Ok tt s' /\ disk s0 s' g' /\
    gcontent g' cs = B ++ drop (length B) (gcontent g cs) /\ forall z, z ∉ cs -> g' z = g z.
Proof.
  intros Hok. pose proof (vol_pos s0 Hok) as Hp. induction cs as [|x cs IH]; intros s g c B fuel Hd Hch Hnd Hpos HB Hf; [cbn in Hpos; lia|].
  pose proof Hch as (-> & Hx & Hv & Hrest). apply NoDup_cons in Hnd as [Hnin Hnd]. pose proof (disk_sized _ _ _ Hok Hd x Hv) as Hsz.
  assert (forall h, gcontent h (x :: cs) = h x ++ gcontent h cs) as Econ by done. pose proof (len_nonneg B) as HB0.
  assert (forall h b, gcontent (gput h x b) (x :: cs) = b ++ gcontent h cs) as Eput.
  { intros h b. rewrite Econ. unfold gput at 1. rewrite decide_True by done. f_equal. apply gcontent_same. intros z Hz. unfold gput. rewrite decide_False; [done|]. by intros ->. }
  assert (write_clusters fuel x (bpc s0) B false s = if negb (bpc s0 <? len B) then Ok (Some (x, false), B) s else
    match fuel with O => Stop FLoop | S fuel => (FAT_int_WriteCluster x B;;; do t <- next_cluster x; if t.1 =? 0 then ret (None, drop (Z.to_nat (bpc s0)) B) else write_clusters fuel t.1 (bpc s0) (drop (Z.to_nat (bpc s0)) B) (false || t.2)) s end) as Estep.
  { destruct fuel; cbn [write_clusters]; by destruct (bpc s0 <? len B). }
  rewrite Estep. destruct (bpc s0 <? len B) eqn:E; bools; cbn [negb].
  - destruct fuel as [|fuel]; [exfalso; assert (1 <= len B / bpc s0) by (apply Z.div_le_lower_bound; lia); lia|].
    destruct (write_cluster_run s0 s g x B Hok Hd Hv ltac:(lia)) as (s1 & Hw & Hd1). rewrite (bind_Ok _ _ _ _ _ Hw). rewrite len_cons in HB.
    assert (0 < length cs)%nat as Hcs by (destruct cs as [|? ?]; [change (len (@nil Z)) with 0 in HB; lia|cbn [length]; lia]). destruct (next_run s0 s1 _ x cs Hd1 Hch Hcs) as (y & Hn & Hch2 & Hy0). rewrite (bind_Ok _ _ _ _ _ Hn). cbn [fst snd orb].
    rewrite (proj2 (Z.eqb_neq y 0)) by done. set (B1 := drop (Z.to_nat (bpc s0)) B) in *. assert (len B1 = len B - bpc s0) as HB1 by (unfold B1; rewrite len_drop by lia; lia).
    destruct (IH s1 _ y B1 fuel Hd1 Hch2 Hnd Hcs) as (z & B' & s2 & s3 & g' & Hr & Hfin & Hd3 & Hcon & Hout); [nia| |].
    { rewrite HB1. replace (len B - bpc s0) with (len B + (-1) * bpc s0) by lia. rewrite Z.div_add by lia. lia. }
    exists z, B', s2, s3, g'. split; [done|]. split; [done|]. split; [done|]. split.
    + rewrite !Econ. rewrite (Hout x Hnin). unfold gput at 1. rewrite decide_True by done. rewrite Hcon.
      replace (gcontent (gput g x (sub 0 (bpc s0) B)) cs) with (gcontent g cs) by (symmetry; apply gcontent_same; intros w Hw'; unfold gput; rewrite decide_False; [done|by intros ->]).
      rewrite app_assoc. f_equal; [unfold sub, B1; cbn; apply take_drop|]. rewrite drop_app_ge; [f_equal; unfold len in *; lia|unfold len in *; lia].
    + intros w Hw'. rewrite not_elem_of_cons in Hw'. destruct Hw' as [H1 H2]. rewrite Hout by done. unfold gput. by rewrite decide_False.
  - exists x, B, s. destruct (len B =? 0) eqn:E0; bools.
    + assert (B = []) as -> by (by apply nil_length_inv; unfold len in E0; lia). exists s, g. split; [done|]. split; [done|]. split; [done|]. split; [done|]. done.
    + destruct (modify_cluster_run s0 s g x 0 B Hok Hd Hv) as (s' & Hr & Hd'); [lia|lia|]. exists s', (gput g x (patch (g x) 0 B)). split; [done|].
      split; [unfold finish; rewrite (proj2 (Z.eqb_neq _ _)) by done; done|]. split; [done|]. split.
      * rewrite Eput, Econ. unfold patch. change (Z.to_nat 0) with 0%nat. rewrite take_0. cbn [app]. rewrite <- app_assoc. f_equal. rewrite drop_app_le; [done|unfold len in *; lia].
      * intros w Hw'. rewrite not_elem_of_cons in Hw'. unfold gput. by rewrite decide_False by tauto.
Qed.

Lemma seek_run s k : forall Off c cs, vol_ok s -> chain s c cs -> (k < length cs)%nat -> 0 <= Off -> (Off = 0 \/ Off mod bpc s <> 0) -> Off / bpc s = Z.of_nat k ->
  exists c', seek_clusters k Off c (bpc s) s = Ok (Some (Off mod bpc s, c')) s /\ chain s c' (drop k cs).
Proof.
  induction k as [|k IH]; intros Off c cs Hok H Hk HO Hm Hd; pose proof (vol_pos s Hok) as Hp; pose proof (Z.div_mod Off (bpc s) ltac:(lia)) as Hdm; pose proof (Z.mod_pos_bound Off (bpc s) Hp) as Hmb; cbn [seek_clusters].
  - rewrite (proj2 (Z.ltb_ge _ _)) by lia. exists c. split; [|done]. cbn [negb]. unfold ret. do 3 f_equal. lia.
  - rewrite (proj2 (Z.ltb_lt _ _)) by nia. cbn [negb]. destruct cs as [|x cs]; [cbn in Hk; lia|]. destruct H as (-> & Hx & Hv & H). rewrite (bind_Ok _ _ _ _ _ (GetFatValue_run s x)).
    assert (0 < length cs)%nat as Hcs by (cbn in Hk; lia). destruct cs as [|y cs]; [cbn in Hcs; lia|]. pose proof H as (Hy & Hyn & _). assert (fatv s x <> GETFATVALUE_EOC) as Hne by congruence. rewrite (proj2 (Z.eqb_neq _ _)) by done.
    assert ((Off - bpc s) mod bpc s = Off mod bpc s) as Em by (replace (Off - bpc s) with (Off + (-1) * bpc s) by lia; apply Z.mod_add; lia).
    assert ((Off - bpc s) / bpc s = Z.of_nat k) as Ed by (replace (Off - bpc s) with (Off + (-1) * bpc s) by lia; rewrite Z.div_add by lia; lia).
    destruct (IH (Off - bpc s) (fatv s x) (y :: cs) Hok H) as (c' & Hr & Hc); [cbn in *; lia|nia|destruct Hm; [nia|right; congruence]|done|]. exists c'. rewrite Em in Hr. by split.
Qed.

Definition grown Node (n : fnode) (end_ : Z) s : fat :=
  if n_Size n <? end_ then set_nodes (<[Node := node_with end_ (Z.lor (n_ImplInt n) FAT_FLAG_DIRTY) n]> (f_nodes s)) (f_cache s) (f_next s) s else s.
Lemma grow_run Node n end_ s : f_nodes s !! Node = Some n -> grow Node end_ s = Ok tt (grown Node n end_ s).
Proof. intros H. unfold grow, node_at, grown. unfold bind at 1. rewrite H. by destruct (n_Size n <? end_). Qed.

(** The part of a write after the search: [c] is the cluster, [o] the offset in it. *)
Definition write_rest (Node original_offset c o bpc : Z) (Buffer : list Z) : FM Z :=
  let Length := len Buffer in
  if o + Length <? bpc then
    modify_cluster c bpc o Buffer;;; grow Node (u64 (original_offset + Length));;; ret Length
  else
    do r <- (if 0 <? o then
               modify_cluster c bpc o (take (Z.to_nat (bpc - o)) Buffer);;;
               do t <- next_cluster c; ret (if t.1 =? 0 then None else Some t.1, drop (Z.to_nat (bpc - o)) Buffer)
             else ret (Some c, Buffer));
    do r <- match r with
      | (None, Buffer) => ret (None, Buffer)
      | (Some cluster, Buffer) => write_clusters (Z.to_nat (len Buffer / bpc)) cluster bpc Buffer false
      end;
    match r with
    | (None, Buffer) => grow Node (u64 (original_offset + (Length - len Buffer)));;; ret (Length - len Buffer)
    | (Some (cluster, bNewCluster), Buffer) => finish cluster bpc bNewCluster Buffer;;; grow Node (u64 (original_offset + Length));;; ret Length
    end.

Lemma patch_app_r (a b d : list Z) o : 0 <= o -> patch (a ++ b) (len a + o) d = a ++ patch b o d.
Proof.
  intros Ho. unfold patch, len. rewrite take_app_ge by lia. rewrite <- app_assoc. f_equal. replace (Z.to_nat (Z.of_nat (length a) + o) - length a)%nat with (Z.to_nat o) by lia. do 2 f_equal.
  rewrite drop_app_ge by lia. f_equal. lia.
Qed.

Lemma write_rest_run s0 Node n c cs o orig B : vol_ok s0 -> chain s0 c cs -> NoDup cs -> (0 < length cs)%nat -> f_nodes s0 !! Node = Some n -> 0 <= o < bpc s0 -> o + len B < len cs * bpc s0 ->
  exists s1 g', write_rest Node orig c o (bpc s0) B s0 = Ok (len B) (grown Node n (u64 (orig + len B)) s1) /\ disk s0 s1 g' /\
    gcontent g' cs = patch (content s0 cs) o B /\ forall z, z ∉ cs -> g' z = clu s0 z.
Proof.
  intros Hok Hch Hnd Hpos Hn Ho HB. pose proof (vol_pos s0 Hok) as Hp. destruct cs as [|x cs]; [cbn in Hpos; lia|]. pose proof Hch as (-> & Hx & Hv & Hrest). pose proof (disk_refl s0) as Hd.
  pose proof (clu_len s0 x Hok Hv) as Hl. pose proof (len_nonneg B) as HB0. pose proof Hnd as [Hnin Hnd']%NoDup_cons.
  assert (content s0 (x :: cs) = clu s0 x ++ content s0 cs) as Econ by done.
  assert (forall b, gcontent (gput (clu s0) x b) (x :: cs) = b ++ content s0 cs) as Eput.
  { intros b. unfold gcontent. cbn [fmap list_fmap concat]. unfold gput at 1. rewrite decide_True by done. f_equal. apply (gcontent_same (clu s0)). intros z Hz. unfold gput. rewrite decide_False; [done|]. by intros ->. }
  assert (forall b z, z ∉ x :: cs -> gput (clu s0) x b z = clu s0 z) as Eother by (intros b z Hz; rewrite not_elem_of_cons in Hz; unfold gput; by rewrite decide_False by tauto).
  unfold write_rest. cbv zeta. destruct (o + len B <? bpc s0) eqn:E; bools.
  - destruct (modify_cluster_run s0 s0 _ x o B Hok Hd Hv) as (s1 & Hr & Hd1); [lia|lia|]. rewrite (bind_Ok _ _ _ _ _ Hr).
    rewrite (bind_Ok _ _ _ _ _ (grow_run Node n _ s1 ltac:(by rewrite (dk_nodes _ _ _ Hd1)))). exists s1, (gput (clu s0) x (patch (clu s0 x) o B)). split; [done|]. split; [done|]. split; [|by apply Eother].
    rewrite Eput, Econ. unfold patch. rewrite take_app_le, drop_app_le by (unfold len in *; lia). by rewrite <- !app_assoc.
  - destruct (0 <? o) eqn:Eo; bools.
    + set (B0 := take (Z.to_nat (bpc s0 - o)) B). set (B1 := drop (Z.to_nat (bpc s0 - o)) B). assert (len B0 = bpc s0 - o /\ len B1 = len B - (bpc s0 - o)) as [HB1 HB2] by (unfold B0, B1; rewrite len_take, len_drop by lia; lia).
      destruct (modify_cluster_run s0 s0 _ x o B0 Hok Hd Hv) as (s1 & Hr & Hd1); [lia|lia|]. rewrite !bind_assoc, (bind_Ok _ _ _ _ _ Hr). rewrite len_cons in HB.
      assert (0 < length cs)%nat as Hcs by (destruct cs as [|? ?]; [change (len (@nil Z)) with 0 in HB; lia|cbn [length]; lia]).
      destruct (next_run s0 s1 _ x cs Hd1 Hch Hcs) as (y & Hnx & Hch2 & Hy0). rewrite !bind_assoc, (bind_Ok _ _ _ _ _ Hnx), bind_ret. cbn [fst snd]. rewrite (proj2 (Z.eqb_neq y 0)) by done.
      destruct (write_tail_run s0 Hok cs s1 _ y B1 (Z.to_nat (len B1 / bpc s0)) Hd1 Hch2 Hnd' Hcs) as (z & B' & s2 & s3 & g' & Hw & Hfin & Hd3 & Hcon & Hout); [nia|rewrite Z2Nat.id; [lia|apply Z.div_pos; lia]|].
      rewrite (bind_Ok _ _ _ _ _ Hw), (bind_Ok _ _ _ _ _ Hfin), (bind_Ok _ _ _ _ _ (grow_run Node n _ s3 ltac:(by rewrite (dk_nodes _ _ _ Hd3)))).
      exists s3, g'. split; [done|]. split; [done|]. split.
      * assert (gcontent g' (x :: cs) = g' x ++ gcontent g' cs) as -> by done. rewrite Hcon, (Hout x Hnin). unfold gput at 1. rewrite decide_True by done.
        replace (gcontent (gput (clu s0) x (patch (clu s0 x) o B0)) cs) with (content s0 cs) by (symmetry; apply (gcontent_same (clu s0)); intros w Hw'; unfold gput; rewrite decide_False; [done|by intros ->]).
        rewrite Econ. unfold patch. rewrite take_app_le by (unfold len in *; lia). rewrite (drop_ge (clu s0 x)) by (unfold len in *; lia). rewrite app_nil_r, <- app_assoc. f_equal.
        rewrite app_assoc. f_equal; [apply take_drop|]. rewrite drop_app_ge by (unfold len in *; lia). f_equal. unfold len in *. lia.
      * intros w Hw'. rewrite Hout by (rewrite not_elem_of_cons in Hw'; tauto). by apply Eother.
    + rewrite bind_ret. assert (o = 0) as -> by lia.
      destruct (write_tail_run s0 Hok (x :: cs) s0 _ x B (Z.to_nat (len B / bpc s0)) Hd Hch Hnd ltac:(cbn; lia)) as (z & B' & s2 & s3 & g' & Hw & Hfin & Hd3 & Hcon & Hout); [lia|rewrite Z2Nat.id; [lia|apply Z.div_pos; lia]|].
      rewrite (bind_Ok _ _ _ _ _ Hw), (bind_Ok _ _ _ _ _ Hfin), (bind_Ok _ _ _ _ _ (grow_run Node n _ s3 ltac:(by rewrite (dk_nodes _ _ _ Hd3)))).
      exists s3, g'. split; [done|]. split; [done|]. split; [|done]. rewrite Hcon. done.
Qed.

Lemma FAT_Write_run s Node n cs Off B : vol_ok s -> f_nodes s !! Node = Some n -> chain s (Z.land (n_Inode n) 0xFFFFFFFF) cs -> NoDup cs -> (0 < length cs)%nat -> 0 <= Off <= n_Size n ->
  (Off = 0 \/ Off mod bpc s <> 0) -> Off + len B < len cs * bpc s -> n_Size n < 2147483648 ->
  exists s1 g', FAT_Write Node Off B s = Ok (len B) (grown Node n (u64 (Off + len B)) s1) /\ disk s s1 g' /\ gcontent g' cs = patch (content s cs) Off B /\ forall z, z ∉ cs -> g' z = clu s z.
Proof.
  intros Hok Hn Hch Hnd Hpos HO Hm Hcap Hmax. pose proof (vol_pos s Hok) as Hp. pose proof (chain_valid _ _ _ Hch) as Hv. pose proof (len_nonneg B) as HB0.
  pose proof (Z.div_mod Off (bpc s) ltac:(lia)) as Hdm. pose proof (Z.mod_pos_bound Off (bpc s) Hp) as Hmod. set (k := Z.to_nat (Off / bpc s)).
  assert (Z.of_nat k = Off / bpc s) as Ek by (unfold k; apply Z2Nat.id, Z.div_pos; lia). assert (k < length cs)%nat as Hk by (unfold len in Hcap at 2; nia).
  destruct (seek_run s k Off _ cs Hok Hch Hk ltac:(lia) Hm ltac:(lia)) as (c' & Hseek & Hc').
  unfold FAT_Write, node_at. unfold bind at 1. rewrite Hn. rewrite bind_vol. cbv zeta. rewrite (proj2 (Z.ltb_ge _ _)) by lia. fold k. rewrite (bind_Ok _ _ _ _ _ Hseek). rewrite (proj2 (Z.eqb_neq (Off mod bpc s) (bpc s))) by lia.
  rewrite bind_ret. cbn [andb].
  destruct (write_rest_run s Node n c' (drop k cs) (Off mod bpc s) Off B) as (s1 & g' & Hr & Hd & Hcon & Hout); try done.
  - rewrite <- (take_drop k cs) in Hnd. by apply NoDup_app in Hnd as (_ & _ & Hnd).
  - rewrite length_drop. lia.
  - unfold len at 2. rewrite length_drop. unfold len in Hcap at 2. nia.
  - exists s1, g'. split; [exact Hr|]. split; [done|].
    assert (forall z, z ∈ take k cs -> z ∉ drop k cs) as Hdis by (rewrite <- (take_drop k cs) in Hnd; apply NoDup_app in Hnd as (_ & Hnd & _); exact Hnd).
    split.
    + rewrite <- (take_drop k cs) at 1 2. unfold gcontent, content. rewrite !fmap_app, !concat_app. fold (gcontent g' (take k cs)). fold (gcontent g' (drop k cs)). fold (content s (take k cs)). fold (content s (drop k cs)). rewrite Hcon.
      replace (gcontent g' (take k cs)) with (content s (take k cs)) by (symmetry; apply (gcontent_same (clu s)); intros z Hz; apply Hout, Hdis, Hz).
      assert (len (content s (take k cs)) = Z.of_nat k * bpc s) as E by (rewrite content_len by (done || by apply Forall_take); unfold len; rewrite length_take; f_equal; lia).
      replace Off with (len (content s (take k cs)) + Off mod bpc s) at 2 by (rewrite E, Ek; lia). by rewrite patch_app_r by lia.
    + intros z Hz. apply Hout. intros Hin. apply Hz. rewrite <- (take_drop k cs). apply elem_of_app. by right.
Qed.

(** ** A file *)
Record file s Node cs (f : list Z) : Prop := {
  fl_vol : vol_ok s; fl_cs : (0 < length cs)%nat /\ NoDup cs /\ len f <= len cs * bpc s /\ len f < 2147483648;
  fl_node : exists n, f_nodes s !! Node = Some n /\ n_Size n = len f /\ chain s (Z.land (n_Inode n) 0xFFFFFFFF) cs;
  fl_bytes : f = sub 0 (len f) (content s cs) }.

Lemma sub_sub {A} (l : list A) o m N : 0 <= o -> 0 <= m -> o + m <= N -> sub o m (sub 0 N l) = sub o m l.
Proof. intros. unfold sub. rewrite Z2Nat.inj_0, drop_0, !take_drop_commute, take_take. do 2 f_equal. lia. Qed.

Lemma file_read s Node cs f Off L : file s Node cs f -> 0 <= Off <= len f -> 0 <= L < 2147483648 -> FAT_Read Node Off L s = Ok (sub Off (Z.min L (len f - Off)) f) s.
Proof.
  intros [Hok (Hpos & _ & Hcap & Hmax) (n & Hn & Hsz & Hch) Hb] HO HL. pose proof (chain_valid _ _ _ Hch) as Hv. rewrite (FAT_Read_run s Node n cs) by (done || rewrite ?Hsz; lia). rewrite Hsz. f_equal.
  rewrite Hb at 3. by rewrite sub_sub by lia.
Qed.

Lemma chain_disk s0 s g : disk s0 s g -> forall cs c, chain s0 c cs -> chain s c cs.
Proof.
  intros Hd. induction cs as [|x cs IH]; intros c H; [done|]. destruct H as (H1 & H2 & H3 & H4). split; [done|]. split; [done|]. rewrite (dk_vol _ _ _ Hd). split; [done|]. rewrite (dk_fat _ _ _ Hd) by done. by apply IH.
Qed.
Lemma content_disk s0 s g cs : disk s0 s g -> Forall (valid (f_vol s0)) cs -> content s cs = gcontent g cs.
Proof. intros Hd Hv. apply (gcontent_same g). intros x Hx. apply (dk_clu _ _ _ Hd). rewrite Forall_forall in Hv. by apply Hv. Qed.
(** A node that has changed leaves the device as it is. *)
Lemma fatv_nodes ns s x : fatv (set_nodes ns (f_cache s) (f_next s) s) x = fatv s x.
Proof. unfold fatv, FAT_int_GetFatValue, bind, the_vol, VFS_ReadAt, ret. cbn [set_nodes f_vol f_img]. by destruct (fv_type (f_vol s)). Qed.
Lemma chain_grown Node n e s c cs : chain s c cs -> chain (grown Node n e s) c cs.
Proof.
  unfold grown. destruct (n_Size n <? e); [|done]. revert c. induction cs as [|x cs IH]; intros c H; [done|]. destruct H as (H1 & H2 & H3 & H4). split; [done|]. split; [done|]. split; [done|]. rewrite fatv_nodes. by apply IH.
Qed.
Lemma grown_same Node n e s : f_vol (grown Node n e s) = f_vol s /\ f_img (grown Node n e s) = f_img s.
Proof. unfold grown. by destruct (n_Size n <? e). Qed.
Lemma content_grown Node n e s cs : content (grown Node n e s) cs = content s cs.
Proof. destruct (grown_same Node n e s) as [E1 E2]. unfold content. f_equal. apply list_fmap_ext. intros i x _. unfold clu. by rewrite E1, E2. Qed.

Lemma patch_sub l N o d : 0 <= o <= N -> N <= len l -> o + len d <= len l -> sub 0 (Z.max N (o + len d)) (patch l o d) = patch (sub 0 N l) o d.
Proof.
  intros Ho HN Hd. assert (0 <= len d) as H0 by apply len_nonneg. unfold patch, sub, len in *. rewrite Z2Nat.inj_0, !drop_0. rewrite take_take. replace (Z.to_nat o `min` Z.to_nat N)%nat with (Z.to_nat o) by lia.
  rewrite take_app_ge by (rewrite length_take; lia). f_equal. rewrite length_take. rewrite take_app_ge by lia. f_equal. rewrite take_drop_commute.
  destruct (Z.le_gt_cases (o + Z.of_nat (length d)) N); [do 2 f_equal; lia|]. rewrite !drop_ge by (rewrite length_take; lia). done.
Qed.

Lemma disk_content s0 s g cs ds : disk s0 s g -> Forall (valid (f_vol s0)) ds -> (forall z, z ∉ cs -> g z = clu s0 z) -> (forall z, z ∈ ds -> z ∉ cs) -> content s ds = content s0 ds.
Proof. intros Hd Hv Hg Hdis. rewrite (content_disk _ _ _ _ Hd Hv). apply gcontent_same. intros x Hx. by apply Hg, Hdis. Qed.

(** The clusters rewritten and the size raised: the bytes of the file have changed, those of no other. *)
Lemma file_written s s1 g' Node n cs f Off B : file s Node cs f -> f_nodes s !! Node = Some n -> 0 <= Off <= len f -> Off + len B <= len cs * bpc s -> Off + len B < 2147483648 ->
  disk s s1 g' -> gcontent g' cs = patch (content s cs) Off B -> (forall z, z ∉ cs -> g' z = clu s z) ->
  let s' := grown Node n (Off + len B) s1 in
  f_vol s' = f_vol s /\ file s' Node cs (patch f Off B) /\ forall Node' ds f', Node' <> Node -> (forall z, z ∈ ds -> z ∉ cs) -> file s Node' ds f' -> file s' Node' ds f'.
Proof.
  intros [Hok (Hpos & Hnd & Hcap & Hmax) (n' & Hn' & Hsz & Hch) Hb] Hn HO HB HB2 Hd Hcon Hout s'. assert (n' = n) as -> by congruence. pose proof (chain_valid _ _ _ Hch) as Hv. pose proof (content_len s cs Hok Hv) as Hcl. pose proof (len_nonneg B) as HB0.
  set (e := Off + len B) in *. destruct (grown_same Node n e s1) as [E1 E2]. assert (f_vol s' = f_vol s) as Evol by (unfold s'; rewrite E1; apply Hd). split; [done|].
  assert (vol_ok s') as Hok' by (pose proof (disk_ok _ _ _ Hok Hd) as [K1 K2 K3 K4]; unfold s'; split; rewrite E1, ?E2; done).
  assert (len (patch f Off B) = Z.max (len f) e) as Hlen by (unfold patch, e, len in *; rewrite !length_app, length_take, length_drop; lia).
  split; [split|].
  - done.
  - rewrite Evol. split_and!; try done; lia.
  - exists (if n_Size n <? e then node_with e (Z.lor (n_ImplInt n) FAT_FLAG_DIRTY) n else n). rewrite Hlen. unfold s', grown at 1. destruct (n_Size n <? e) eqn:E; bools.
    + cbn [set_nodes f_nodes]. rewrite lookup_insert_eq. split; [done|]. cbn [node_with n_Size n_Inode]. split; [lia|]. by apply chain_grown, (chain_disk _ _ _ Hd).
    + rewrite (dk_nodes _ _ _ Hd). split; [done|]. split; [lia|]. by apply chain_grown, (chain_disk _ _ _ Hd).
  - unfold s'. rewrite content_grown, (content_disk _ _ _ _ Hd Hv), Hcon, Hlen. unfold e. rewrite patch_sub by lia. by rewrite <- Hb.
  - intros Node' ds f' Hne Hdis [Hok2 Hcs2 (n2 & Hn2 & Hsz2 & Hch2) Hb2]. pose proof (chain_valid _ _ _ Hch2) as Hv2. split; [done|by rewrite Evol| |].
    + exists n2. split; [|split; [done|by apply chain_grown, (chain_disk _ _ _ Hd)] ]. unfold s', grown. destruct (n_Size n <? e); cbn [set_nodes f_nodes]; [rewrite lookup_insert_ne by done|]; by rewrite (dk_nodes _ _ _ Hd).
    + unfold s'. rewrite content_grown. by rewrite (disk_content _ _ _ _ _ Hd Hv2 Hout Hdis).
Qed.
Lemma file_write s Node cs f Off B : file s Node cs f -> 0 <= Off <= len f -> (Off = 0 \/ Off mod bpc s <> 0) -> Off + len B < len cs * bpc s -> Off + len B < 2147483648 ->
  exists s', FAT_Write Node Off B s = Ok (len B) s' /\ f_vol s' = f_vol s /\ file s' Node cs (patch f Off B) /\
    forall Node' ds f', Node' <> Node -> (forall z, z ∈ ds -> z ∉ cs) -> file s Node' ds f' -> file s' Node' ds f'.
Proof.
  intros Hf HO Hm HB HB2. pose proof Hf as [Hok (Hpos & Hnd & Hcap & Hmax) (n & Hn & Hsz & Hch) Hb]. pose proof (len_nonneg B) as HB0.
  destruct (FAT_Write_run s Node n cs Off B) as (s1 & g' & Hr & Hd & Hcon & Hout); try done; try lia. rewrite u64_small in Hr by lia. exists (grown Node n (Off + len B) s1). split; [done|].
  by apply (file_written s s1 g' Node n cs f Off B); try lia.
Qed.
