(* ===== verification/FatTable.v ===== *)
(** * The table of a FAT12 volume

    Two entries of 12 bits share three bytes.  Finding a free cluster, adding it to a chain and freeing a chain are
    shown to change the entries they name and no other. *)
From S2P Require Import Prelude Arith CString Time Fat FatDir FatFiles.

Local Open Scope Z_scope.
Local Open Scope monad_scope.
Implicit Types (s : fat) (m b : list Z) (c i j : Z).

(** ** Bytes *)
Definition bytes m : Prop := Forall (fun x => 0 <= x < 256) m.
Lemma le_range b : bytes b -> 0 <= le b < 256 ^ len b.
Proof.
  induction 1 as [|x b Hx _ IH]; [done|]. cbn [le]. rewrite len_cons. pose proof (len_nonneg b). rewrite Z.pow_add_r by lia. change (256 ^ 1) with 256. nia.
Qed.
Lemma le_to_le n v : 0 <= v < 256 ^ Z.of_nat n -> le (to_le n v) = v.
Proof.
  revert v. induction n as [|n IH]; intros v Hv; [change (256 ^ Z.of_nat 0) with 1 in Hv; cbn; lia|]. cbn [to_le le]. rewrite IH.
  - pose proof (Z.div_mod v 256 ltac:(lia)). lia.
  - rewrite Nat2Z.inj_succ, Z.pow_succ_r in Hv by lia. dlia.
Qed.
Lemma to_le_le b : bytes b -> to_le (length b) (le b) = b.
Proof.
  induction 1 as [|x b Hx _ IH]; [done|]. cbn [length to_le le]. rewrite (Z.mul_comm 256 (le b)), Z.mod_add, Z.div_add by lia.
  rewrite Z.mod_small, Z.div_small by lia. rewrite Z.add_0_l. by f_equal.
Qed.
Lemma to_le_bytes n v : bytes (to_le n v).
Proof. revert v. induction n as [|n IH]; intros v; [by apply Forall_nil|]. apply Forall_cons. split; [apply Z.mod_pos_bound; lia|apply IH]. Qed.
Lemma to_le_length n v : length (to_le n v) = n.
Proof. revert v. induction n as [|n IH]; intros v; [done|]. cbn. by rewrite IH. Qed.
Lemma to_le_len n v : len (to_le n v) = Z.of_nat n.
Proof. unfold len. by rewrite to_le_length. Qed.
Lemma le_app a b : le (a ++ b) = le a + 256 ^ len a * le b.
Proof.
  induction a as [|x a IH]; [change (len (@nil Z)) with 0; cbn; lia|]. cbn [app le]. rewrite IH, len_cons, Z.pow_add_r by (pose proof (len_nonneg a); lia). change (256 ^ 1) with 256. lia.
Qed.
Lemma bytes_sub m o n : bytes m -> bytes (sub o n m).
Proof. intros H. unfold sub. by apply Forall_take, Forall_drop. Qed.
Lemma bytes_over m a b : bytes m -> bytes b -> bytes (over m a b).
Proof. intros Hm Hb. unfold over. apply Forall_app. split; [by apply Forall_take|]. apply Forall_app. split; [by apply Forall_take|by apply Forall_drop]. Qed.

(** ** Entries *)
(** The three bytes of a pair of entries, and an entry of the pair. *)
Definition pair12 m base j : Z := le (sub (base + j * 3) 3 m).
Definition half (v c : Z) : Z := if Z.odd c then v / 4096 else v mod 4096.
Definition g12 m base c : Z := half (pair12 m base (c / 2)) c.

Lemma pair12_range m base j : bytes m -> 0 <= base -> 0 <= j -> base + j * 3 + 3 <= len m -> 0 <= pair12 m base j < 16777216.
Proof. intros Hb H1 H2 H3. pose proof (le_range _ (bytes_sub m (base + j * 3) 3 Hb)) as H. rewrite len_sub in H by lia. exact H. Qed.
Lemma half_range v c : 0 <= v < 16777216 -> 0 <= half v c < 4096.
Proof. intros Hv. unfold half. destruct (Z.odd c); dlia. Qed.

(** A pair replaced. *)
Definition set_pair m base j v : list Z := over m (base + j * 3) (to_le 3 v).
Lemma pair12_set m base j v i : 0 <= base -> 0 <= j -> 0 <= i -> base + j * 3 + 3 <= len m -> 0 <= v < 16777216 ->
  pair12 (set_pair m base j v) base i = if i =? j then v else pair12 m base i.
Proof.
  intros H1 H2 H3 H4 Hv. unfold pair12, set_pair. pose proof (to_le_len 3 v) as Hl. destruct (i =? j) eqn:E; bools.
  - subst. replace 3 with (len (to_le 3 v)) at 2. rewrite over_hit by lia. apply le_to_le. done.
  - f_equal. destruct (Z.lt_total i j) as [H|[H|H] ]; [apply over_before; lia|done|apply over_after; lia].
Qed.
Lemma g12_set m base j v c : 0 <= base -> 0 <= j -> 0 <= c -> base + j * 3 + 3 <= len m -> 0 <= v < 16777216 ->
  g12 (set_pair m base j v) base c = if c / 2 =? j then half v c else g12 m base c.
Proof. intros. unfold g12. rewrite pair12_set by (done || dlia). by destruct (c / 2 =? j). Qed.

(** The pair with one entry replaced. *)
Definition put_half (v c x : Z) : Z := if Z.odd c then v mod 4096 + x * 4096 else v / 4096 * 4096 + x.
Lemma put_half_range v c x : 0 <= v < 16777216 -> 0 <= x < 4096 -> 0 <= put_half v c x < 16777216.
Proof. intros. unfold put_half. destruct (Z.odd c); dlia. Qed.
Lemma same_pair c d : c / 2 = d / 2 -> Z.odd c = Z.odd d -> c = d.
Proof. intros H1 H2. rewrite (Z.div_mod c 2), (Z.div_mod d 2) by lia. rewrite !Zmod_odd, H1, H2. done. Qed.
Lemma half_put v c x d : 0 <= v < 16777216 -> 0 <= x < 4096 -> c / 2 = d / 2 -> half (put_half v c x) d = if d =? c then x else half v d.
Proof.
  intros Hv Hx Hcd. unfold half, put_half. destruct (d =? c) eqn:E; bools.
  - subst. destruct (Z.odd c); dlia.
  - destruct (Z.odd c) eqn:Ec, (Z.odd d) eqn:Ed; [exfalso; apply E; apply same_pair; congruence|dlia|dlia|exfalso; apply E; apply same_pair; congruence].
Qed.
Lemma g12_put m base c x d : bytes m -> 0 <= base -> 0 <= c -> 0 <= d -> base + c / 2 * 3 + 3 <= len m -> 0 <= x < 4096 ->
  g12 (set_pair m base (c / 2) (put_half (pair12 m base (c / 2)) c x)) base d = if d =? c then x else g12 m base d.
Proof.
  intros Hb H1 H2 H3 H4 Hx. pose proof (pair12_range m base (c / 2) Hb H1 ltac:(dlia) H4) as Hr. rewrite g12_set by (done || dlia || by apply put_half_range).
  destruct (d / 2 =? c / 2) eqn:E; bools.
  - rewrite half_put by done. destruct (d =? c); [done|]. unfold g12. by rewrite E.
  - destruct (d =? c) eqn:E2; bools; [congruence|done].
Qed.

(** ** Reading and linking *)
Definition tbase s : Z := resvSectCount (bootsect (f_vol s)) * 512.
(** A FAT12 volume with the first block of its table on the device. *)
Record tab12 s : Prop := {
  tb_type : fv_type (f_vol s) = FAT12; tb_bytes : bytes (f_img s);
  tb_size : 0 <= tbase s /\ tbase s + 1536 <= len (f_img s) < 2147483648 }.
(** The value of an entry. *)
Definition ent12 s c : Z := g12 (f_img s) (tbase s) c.
Definition shown (x : Z) : Z := if x =? EOC_FAT12 then GETFATVALUE_EOC else x.

Lemma land_fff x : Z.land x 0xFFF = x mod 4096.
Proof. exact (land_low x 12 ltac:(lia)). Qed.
Lemma land_fff000 x : 0 <= x < 16777216 -> Z.land x 0xFFF000 = x / 4096 * 4096.
Proof. intros H. change 0xFFF000 with ((2 ^ 12 - 1) * 2 ^ 12). rewrite land_field by lia. change (2 ^ 12) with 4096. dlia. Qed.
Lemma shiftr12 x : Z.shiftr x 12 = x / 4096.
Proof. by rewrite Z.shiftr_div_pow2 by lia. Qed.

Lemma pair_read s c : tab12 s -> 0 <= c < 1024 -> VFS_ReadAt (u32 (u32 (tbase s) + c / 2 * 3)) 3 s = Ok (sub (tbase s + c / 2 * 3) 3 (f_img s)) s.
Proof. intros [_ _ H] Hc. rewrite (u32_small (tbase s)) by lia. by rewrite u32_small by dlia. Qed.
Lemma pair_range s c : tab12 s -> 0 <= c < 1024 -> 0 <= pair12 (f_img s) (tbase s) (c / 2) < 16777216.
Proof. intros [_ Hb H] Hc. apply pair12_range; [done|lia|dlia|dlia]. Qed.
Lemma fatv_ent s c : tab12 s -> 0 <= c < 1024 -> fatv s c = shown (ent12 s c).
Proof.
  intros Ht Hc. unfold fatv, FAT_int_GetFatValue. rewrite bind_vol, (tb_type _ Ht). fold (tbase s). rewrite (bind_Ok _ _ _ _ _ (pair_read s c Ht Hc)).
  unfold shown, ret, ent12, g12, half, pair12. rewrite land_fff, shiftr12. by destruct (Z.odd c).
Qed.

(** A pair written. *)
Definition with_pair s c (v : Z) : fat := set_img (set_pair (f_img s) (tbase s) (c / 2) v) s.
Lemma pair_write s c v : tab12 s -> 0 <= c < 1024 -> VFS_WriteAt (u32 (u32 (tbase s) + c / 2 * 3)) (to_le 3 v) s = Ok 3 (with_pair s c v).
Proof.
  intros [_ _ H] Hc. rewrite (u32_small (tbase s)) by lia. rewrite u32_small by dlia. unfold VFS_WriteAt, with_pair, set_pair. rewrite to_le_len. f_equal.
  change (clipped (f_img s) (tbase s + c / 2 * 3) (Z.of_nat 3)) with (sub (tbase s + c / 2 * 3) 3 (f_img s)). apply len_sub; dlia.
Qed.
Lemma set_pair_len m base j v : 0 <= base -> 0 <= j -> base + j * 3 + 3 <= len m -> len (set_pair m base j v) = len m.
Proof. intros. unfold set_pair. apply over_len; [lia|]. rewrite to_le_len. lia. Qed.
(** The volume with an entry replaced. *)
Definition put12 s c (x : Z) : fat := with_pair s c (put_half (pair12 (f_img s) (tbase s) (c / 2)) c x).
Lemma put12_tab s c x : tab12 s -> 0 <= c < 1024 -> tab12 (put12 s c x).
Proof.
  intros [H1 H2 H3] Hc. split; [done| |].
  - apply bytes_over; [done|apply to_le_bytes].
  - change (tbase (put12 s c x)) with (tbase s). change (f_img (put12 s c x)) with (set_pair (f_img s) (tbase s) (c / 2) (put_half (pair12 (f_img s) (tbase s) (c / 2)) c x)). rewrite set_pair_len by dlia. lia.
Qed.
Lemma put12_ent s c x d : tab12 s -> 0 <= c < 1024 -> 0 <= d -> 0 <= x < 4096 -> ent12 (put12 s c x) d = if d =? c then x else ent12 s d.
Proof. intros [H1 H2 H3] Hc Hd Hx. apply (g12_put (f_img s) (tbase s)); try done; dlia. Qed.
(** Bytes outside the block are as before. *)
Lemma put12_out s c x o n : tab12 s -> 0 <= c < 1024 -> 0 <= n -> tbase s + 1536 <= o -> sub o n (f_img (put12 s c x)) = sub o n (f_img s).
Proof. intros [H1 H2 H3] Hc Hn Ho. apply over_after; rewrite ?to_le_len; dlia. Qed.

Lemma link12_run s c x : tab12 s -> 0 <= c < 1024 -> 0 <= x < 4096 -> link12 (u32 (tbase s)) c x s = Ok tt (put12 s c x).
Proof.
  intros Ht Hc Hx. unfold link12. rewrite (Z.shiftr_div_pow2 c 1), Z.pow_1_r by lia. rewrite (bind_Ok _ _ _ _ _ (pair_read s c Ht Hc)). fold (pair12 (f_img s) (tbase s) (c / 2)). pose proof (pair_range s c Ht Hc) as Hp.
  rewrite (bind_Ok _ _ _ _ _ (pair_write s c _ Ht Hc)). unfold put12, put_half, ret. do 3 f_equal. set (p := pair12 _ _ _) in *. destruct (Z.odd c).
  - rewrite land_fff, Z.shiftl_mul_pow2 by lia. change (2 ^ 12) with 4096. rewrite u32_small by lia. rewrite Z.lor_comm, (lor_add _ _ 12) by (lia || apply Z_mod_mult || dlia). lia.
  - rewrite land_fff000 by done. rewrite (lor_add _ _ 12) by (lia || apply Z_mod_mult). done.
Qed.

(** ** Searching a block *)
Lemma lor_apart (a b : Z) : Z.land a b = 0 -> Z.lor a b = a + b.
Proof. intros H. rewrite Z.add_nocarry_lxor by done. symmetry. by apply Z.lxor_lor. Qed.
Lemma to_le4 v h : 0 <= v < 16777216 -> 0 <= h < 256 -> to_le 4 (v + 16777216 * h) = to_le 3 v ++ [h].
Proof.
  intros Hv Hh. cbn [to_le app]. assert ((v + 16777216 * h) / 256 = v / 256 + 65536 * h) as E1 by dlia. assert ((v / 256 + 65536 * h) / 256 = v / 256 / 256 + 256 * h) as E2 by dlia.
  assert ((v / 256 / 256 + 256 * h) / 256 = h) as E3 by dlia. rewrite E1, E2, E3. f_equal; [dlia|]. f_equal; [dlia|]. f_equal; [dlia|]. f_equal. dlia.
Qed.
(** The four bytes are the pair and the byte after it. *)
Lemma valptr_run sd i : len sd = 1536 -> bytes sd -> 0 <= i < 1024 -> exists h, 0 <= h < 256 /\ valptr sd i = Some (pair12 sd 0 (i / 2) + 16777216 * h) /\
  forall v, 0 <= v < 16777216 -> set_valptr sd i (v + 16777216 * h) = Some (set_pair sd 0 (i / 2) v).
Proof.
  intros Hl Hb Hi. set (o := i / 2 * 3). assert (0 <= o /\ o + 3 <= 1536) as Ho by (unfold o; dlia). set (l := sd ++ [0]). assert (len l = 1537) as Hll by (unfold l; rewrite len_app, Hl; done).
  assert (len (sub (o + 3) 1 l) = 1) as H1 by (apply len_sub; lia). destruct (sub (o + 3) 1 l) as [|h [|? ?] ] eqn:E; [done| |rewrite !len_cons in H1; pose proof (len_nonneg l0); lia].
  assert (0 <= h < 256) as Hh.
  { assert (bytes (sub (o + 3) 1 l)) as Hbl by (apply bytes_sub, Forall_app; split; [done|by repeat constructor]). rewrite E in Hbl. by inversion Hbl. }
  assert (sub o 4 l = sub o 3 sd ++ [h]) as E4 by (rewrite <- E, <- (sub_app_in sd [0] o 3) by lia; fold l; by rewrite sub_join by lia).
  exists h. split; [done|]. split.
  - unfold valptr. fold o. fold l. rewrite rd_ok by lia. cbn [mbind option_bind]. f_equal. rewrite E4, le_app, len_sub by lia. unfold pair12. rewrite Z.add_0_l. fold o. change (256 ^ 3) with 16777216. change (le [h]) with (h + 256 * 0). lia.
  - intros v Hv. unfold set_valptr. fold o. fold l. rewrite to_le4 by done. rewrite wr_ok by (rewrite ?len_app, ?to_le_len; change (len [h]) with 1; lia). cbn [mbind option_bind]. f_equal.
    unfold set_pair. rewrite Z.add_0_l. fold o. rewrite over_in by (rewrite ?to_le_len; lia). rewrite length_app, to_le_length. cbn [length].
    assert (drop (Z.to_nat (o + 3)) l = h :: drop (Z.to_nat o + (3 + 1)) l) as Ed.
    { rewrite <- (take_drop 1 (drop (Z.to_nat (o + 3)) l)). change (take 1 (drop (Z.to_nat (o + 3)) l)) with (sub (o + 3) 1 l). rewrite E, drop_drop. cbn [app]. by replace (Z.to_nat (o + 3) + 1)%nat with (Z.to_nat o + (3 + 1))%nat by lia. }
    rewrite <- (app_assoc (to_le 3 v) [h]). cbn [app]. rewrite <- Ed. unfold l. unfold len in *. rewrite (take_app_le sd [0]), (drop_app_le sd [0]) by lia. rewrite !app_assoc. rewrite take_app_ge.
    + rewrite !length_app, length_take, length_drop, to_le_length. replace (length sd - _)%nat with 0%nat by lia. rewrite take_0, app_nil_r. do 2 f_equal. lia.
    + rewrite !length_app, length_take, length_drop, to_le_length. lia.
Qed.

Definition marked sd j : list Z := set_pair sd 0 (j / 2) (put_half (pair12 sd 0 (j / 2)) j EOC_FAT12).
Lemma half_field p h i : 0 <= p < 16777216 -> 0 <= h < 256 -> Z.land (Z.shiftr (p + 16777216 * h) (12 * (i mod 2))) 0xFFF = half p i.
Proof.
  intros Hp Hh. rewrite land_fff. rewrite Zmod_odd. unfold half. destruct (Z.odd i); [rewrite shiftr12; dlia|]. rewrite Z.shiftr_0_r. dlia.
Qed.
Lemma mark_field p h i : 0 <= p < 16777216 -> 0 <= h < 256 -> half p i = 0 -> u32 (Z.lor (p + 16777216 * h) (Z.shiftl EOC_FAT12 (12 * (i mod 2)))) = put_half p i EOC_FAT12 + 16777216 * h.
Proof.
  intros Hp Hh. rewrite Zmod_odd. unfold half, put_half, EOC_FAT12. destruct (Z.odd i); intros H0.
  - change (Z.shiftl 4095 (12 * 1)) with ((2 ^ 12 - 1) * 2 ^ 12). rewrite lor_apart by (rewrite land_field by lia; change (2 ^ 12) with 4096; dlia). change (2 ^ 12) with 4096. dlia.
  - change (Z.shiftl 4095 (12 * 0)) with 0xFFF. rewrite lor_apart by (rewrite land_fff; dlia). dlia.
Qed.
Lemma scan_block_run fuel : forall i sd, len sd = 1536 -> bytes sd -> 0 <= i -> i + Z.of_nat fuel = 1024 ->
  exists j, i <= j <= 1024 /\ (forall d, i <= d < j -> g12 sd 0 d <> 0) /\ (j < 1024 -> g12 sd 0 j = 0) /\ scan_block fuel i sd = Some (j, if j =? 1024 then sd else marked sd j).
Proof.
  induction fuel as [|fuel IH]; intros i sd Hl Hb Hi Hf; cbn [scan_block].
  - exists i. rewrite (proj2 (Z.eqb_eq i 1024)) by lia. split_and!; try lia; done.
  - destruct (valptr_run sd i Hl Hb ltac:(lia)) as (h & Hh & Hv & Hset). rewrite Hv. cbn [mbind option_bind]. pose proof (pair12_range sd 0 (i / 2) Hb ltac:(lia) ltac:(dlia) ltac:(dlia)) as Hp.
    rewrite half_field by done. fold (g12 sd 0 i). destruct (g12 sd 0 i =? 0) eqn:E; bools.
    + rewrite mark_field by done. rewrite Hset by (by apply put_half_range). exists i. cbn [mbind option_bind]. rewrite (proj2 (Z.eqb_neq i 1024)) by lia. split_and!; try lia; done.
    + destruct (IH (i + 1) sd Hl Hb ltac:(lia) ltac:(lia)) as (j & Hj & Hall & Hz & Hr). exists j. split; [lia|]. split; [|done]. intros d Hd. destruct (decide (d = i)) as [->|]; [done|apply Hall; lia].
Qed.

(** ** The block on the device *)
Abbreviation first_block s := (sub (tbase s) 1536 (f_img s)).
Lemma sub_slice {A} (l : list A) a N o n : 0 <= a -> 0 <= o -> 0 <= n -> o + n <= N -> sub o n (sub a N l) = sub (a + o) n l.
Proof.
  intros. unfold sub. replace (Z.to_nat N) with (Z.to_nat o + Z.to_nat (N - o))%nat by lia. rewrite <- take_drop_commute, take_take, drop_drop. f_equal; [lia|f_equal; lia].
Qed.
Lemma pair12_block s c : tab12 s -> 0 <= c < 1024 -> pair12 (first_block s) 0 (c / 2) = pair12 (f_img s) (tbase s) (c / 2).
Proof. intros [_ _ H] Hc. unfold pair12. rewrite sub_slice by dlia. do 2 f_equal. Qed.
Lemma g12_block s c : tab12 s -> 0 <= c < 1024 -> g12 (first_block s) 0 c = ent12 s c.
Proof. intros Ht Hc. unfold ent12, g12. by rewrite pair12_block. Qed.
Lemma over_block m base N o b : 0 <= base -> base + N <= len m -> 0 <= o -> o + len b <= N -> over m base (over (sub base N m) o b) = over m (base + o) b.
Proof.
  intros H1 H2 H3 H4. pose proof (len_nonneg b) as Hb. assert (len (sub base N m) = N) as Hs by (apply len_sub; lia). assert (len (over (sub base N m) o b) = N) as Ho by (rewrite over_len; lia).
  rewrite (over_in m base) by lia. replace (length (over (sub base N m) o b)) with (Z.to_nat N) by (unfold len in Ho; lia). rewrite (over_in (sub base N m)) by lia. rewrite (over_in m) by lia. unfold sub.
  rewrite take_take, <- !app_assoc, <- (drop_drop m), drop_take_drop, drop_drop by (unfold len in *; lia). rewrite app_assoc, take_take_drop. f_equal; [f_equal; lia|]. f_equal. f_equal. lia.
Qed.
Lemma over_self m base n : 0 <= base -> 0 <= n -> base + n <= len m -> over m base (sub base n m) = m.
Proof.
  intros H1 H2 H3. assert (len (sub base n m) = n) as Hs by (apply len_sub; lia). rewrite over_in by lia. replace (length (sub base n m)) with (Z.to_nat n) by (unfold len in Hs; lia). unfold sub.
  rewrite <- (drop_drop m), take_drop. apply take_drop.
Qed.

(** ** Finding a cluster *)
Lemma DivUp_one n : 0 < n <= 1024 -> DivUp n ents_per_block_12 = Some 1.
Proof. intros Hn. unfold DivUp. change ents_per_block_12 with 1024. cbn [Z.eqb]. f_equal. rewrite i32_small by lia. rewrite Z.quot_div_nonneg by lia. dlia. Qed.
Lemma scan_blocks_run s : tab12 s -> exists j, 0 <= j <= 1024 /\ (forall d, 0 <= d < j -> ent12 s d <> 0) /\ (j < 1024 -> ent12 s j = 0) /\
  scan_blocks 2 (u32 (tbase s)) 1 0 0 s = Ok (0, if j =? 1024 then None else Some j, if j =? 1024 then first_block s else marked (first_block s) j) s.
Proof.
  intros Ht. pose proof (tb_size _ Ht) as Hs. assert (len (first_block s) = 1536) as Hl by (apply len_sub; lia).
  destruct (scan_block_run (Z.to_nat ents_per_block_12) 0 (first_block s) Hl (bytes_sub _ _ _ (tb_bytes _ Ht)) ltac:(lia) ltac:(done)) as (j & Hj & Hall & Hz & Hr).
  exists j. split; [done|]. split; [intros d Hd; rewrite <- g12_block by (done || lia); by apply Hall|]. split; [intros; rewrite <- g12_block by (done || lia); by apply Hz|].
  cbn [scan_blocks]. unfold read_full, VFS_ReadAt. rewrite (u32_small (tbase s)) by lia. rewrite Z.mul_0_l, Z.add_0_r, (u32_small (tbase s)) by lia.
  change block_size with 1536. rewrite bind_assoc. unfold bind at 1. change (clipped (f_img s) (tbase s) 1536) with (first_block s). rewrite Hl, Z.eqb_refl, bind_ret, Hr. unfold fopt. rewrite bind_ret. cbn [fst snd].
  change ents_per_block_12 with 1024. by destruct (j =? 1024) eqn:E.
Qed.

Lemma block_write s j : tab12 s -> 0 <= j < 1024 -> VFS_WriteAt (u32 (u32 (tbase s) + 0)) (marked (first_block s) j) s = Ok 1536 (put12 s j EOC_FAT12).
Proof.
  intros Ht Hj. pose proof (tb_size _ Ht) as Hs. rewrite (u32_small (tbase s)), Z.add_0_r, (u32_small (tbase s)) by lia. assert (len (first_block s) = 1536) as Hl by (apply len_sub; lia).
  assert (len (marked (first_block s) j) = 1536) as Hm by (unfold marked; rewrite set_pair_len; dlia). unfold VFS_WriteAt. rewrite Hm. f_equal; [by apply len_sub; lia|].
  unfold put12, with_pair. f_equal. unfold marked, set_pair. rewrite over_block by (rewrite ?to_le_len; dlia). by rewrite pair12_block.
Qed.

(** A new cluster: the first free entry of the table, the end of the chain of [Previous]. *)
Lemma allocate_run s Previous : tab12 s -> 0 < ClusterCount (f_vol s) <= 1024 -> ent12 s 0 <> 0 -> 0 <= Previous < 1024 -> ent12 s Previous <> 0 -> (exists d, 0 <= d < 1024 /\ ent12 s d = 0) ->
  exists r, 0 < r < 1024 /\ ent12 s r = 0 /\ (forall d, 0 <= d < r -> ent12 s d <> 0) /\ FAT_int_AllocateCluster Previous s = Ok r (put12 (put12 s r EOC_FAT12) Previous r).
Proof.
  intros Ht Hc H0 HP HPn (d & Hd & Hd0). destruct (scan_blocks_run s Ht) as (j & Hj & Hall & Hz & Hr). assert (j <= d) as Hjd by (destruct (Z.le_gt_cases j d); [done|]; exfalso; by apply (Hall d); [lia|]).
  assert (j <> 0) as Hj0 by (intros ->; apply H0, Hz; lia). exists j. split; [lia|]. split; [apply Hz; lia|]. split; [done|]. rewrite (proj2 (Z.eqb_neq j 1024)) in Hr by lia.
  unfold FAT_int_AllocateCluster. rewrite bind_vol, (tb_type _ Ht). fold (tbase s). rewrite DivUp_one by done. unfold fopt. rewrite bind_ret. change (S (Z.to_nat 1)) with 2%nat.
  rewrite (proj2 (Z.eqb_neq Previous NONE)) by (unfold NONE; lia). change ents_per_block_12 with 1024. replace (Previous / 1024) with 0 by dlia. rewrite (bind_Ok _ _ _ _ _ Hr). cbv iota beta.
  rewrite Z.mul_0_l, Z.add_0_l, u32_small by lia. rewrite (proj2 (Z.eqb_neq j 0)) by done. rewrite bind_assoc, (bind_Ok _ _ _ _ _ (block_write s j Ht ltac:(lia))).
  pose proof (put12_tab s j EOC_FAT12 Ht ltac:(lia)) as Ht'. change (u32 (tbase s)) with (u32 (tbase (put12 s j EOC_FAT12))). rewrite (bind_Ok _ _ _ _ _ (link12_run _ Previous j Ht' HP ltac:(lia))). done.
Qed.
