(* ===== verification/FatGrow.v ===== *)
(** * Files of a FAT12 volume that grow and that are deleted

    The table's entries ([FatTable]) and the files' bytes ([FatFiles]) together: a cluster added to a chain, a chain
    freed. *)
From S2P Require Import Prelude Arith CString Time Fat FatDir FatFiles FatTable.

Local Open Scope Z_scope.
Local Open Scope monad_scope.
Implicit Types (s : fat) (c x : Z) (cs : list Z).

(** The table fits its first block, in front of the clusters; its first two entries are taken. *)
Record fat12 s : Prop := {
  fx_tab : tab12 s; fx_vol : vol_ok s; fx_count : 0 < ClusterCount (f_vol s) <= 1022; fx_apart : tbase s + 1536 <= data_start (f_vol s);
  fx_first : ent12 s 0 <> 0 /\ ent12 s 1 <> 0 }.

Lemma valid_small s x : fat12 s -> valid (f_vol s) x -> 0 <= x < 1024.
Proof. intros H. pose proof (fx_count _ H). unfold valid. lia. Qed.
Lemma put12_fatv s c v x : fat12 s -> 0 <= c < 1024 -> 0 <= v < 4096 -> valid (f_vol s) x -> fatv (put12 s c v) x = if x =? c then shown v else fatv s x.
Proof.
  intros H Hc Hv Hx. pose proof (valid_small s x H Hx) as Hxs. rewrite !fatv_ent by (done || apply H || (apply put12_tab; [apply H|done])). rewrite put12_ent by (apply H || lia). by destruct (x =? c).
Qed.
Lemma put12_clu s c v x : fat12 s -> 0 <= c < 1024 -> valid (f_vol s) x -> clu (put12 s c v) x = clu s x.
Proof.
  intros H Hc Hx. unfold clu. pose proof (vol_pos s (fx_vol _ H)). destruct (addr_range s x (fx_vol _ H) Hx) as (Ha & _). pose proof (fx_apart _ H). apply put12_out; [apply H|done|lia|]. change (f_vol (put12 s c v)) with (f_vol s). lia.
Qed.
Lemma put12_len s c v : tab12 s -> 0 <= c < 1024 -> len (f_img (put12 s c v)) = len (f_img s).
Proof. intros Ht Hc. pose proof (tb_size _ Ht). cbn [put12 with_pair set_img f_img]. apply set_pair_len; dlia. Qed.
Lemma put12_fat12 s c v : fat12 s -> 0 <= c < 1024 -> 0 <= v < 4096 -> (v = 0 -> 2 <= c) -> fat12 (put12 s c v).
Proof.
  intros H Hc Hv H0. pose proof H as [H1 H2 H3 H4 H5]. split; try done; [by apply put12_tab| |].
  - destruct H2 as [K1 K2 K3 K4]. split; try done. change (f_vol (put12 s c v)) with (f_vol s). by rewrite put12_len.
  - rewrite !put12_ent by (done || lia). destruct (0 =? c) eqn:E0, (1 =? c) eqn:E1; bools; split; try tauto; lia.
Qed.
Lemma chain_put s c v : fat12 s -> 0 <= c < 1024 -> 0 <= v < 4096 -> forall cs a, c ∉ cs -> chain s a cs -> chain (put12 s c v) a cs.
Proof.
  intros H Hc Hv. induction cs as [|x cs IH]; intros a Hn Hch; [done|]. rewrite not_elem_of_cons in Hn. destruct Hn as [Hx Hn]. destruct Hch as (H1 & H2 & H3 & H4). split; [done|]. split; [done|]. split; [done|].
  rewrite put12_fatv by done. rewrite (proj2 (Z.eqb_neq _ _)) by done. by apply IH.
Qed.
Lemma content_put s c v cs : fat12 s -> 0 <= c < 1024 -> Forall (valid (f_vol s)) cs -> content (put12 s c v) cs = content s cs.
Proof. intros H Hc Hv. unfold content. f_equal. apply list_fmap_ext. intros i x Hx. apply put12_clu; [done|done|]. by apply (Forall_lookup_1 _ _ _ _ Hv Hx). Qed.
(** A file whose clusters' entries are as before. *)
Lemma file_put s c v N cs f : fat12 s -> 0 <= c < 1024 -> 0 <= v < 4096 -> (v = 0 -> 2 <= c) -> c ∉ cs -> file s N cs f -> file (put12 s c v) N cs f.
Proof.
  intros H Hc Hv H0 Hn [K1 K2 (n & K3 & K4 & K5) K6]. pose proof (chain_valid _ _ _ K5) as Hval. split; [by apply fx_vol, put12_fat12|done| |by rewrite content_put].
  exists n. split; [done|]. split; [done|]. by apply chain_put.
Qed.

(** A cluster of a chain is not free. *)
Lemma chain_used s c cs x : fat12 s -> chain s c cs -> x ∈ cs -> ent12 s x <> 0.
Proof.
  intros H. revert c. induction cs as [|y cs IH]; intros c Hch Hx; [by apply not_elem_of_nil in Hx|]. destruct Hch as (_ & _ & Hv & Hch). apply elem_of_cons in Hx as [->|Hx]; [|by eapply IH].
  intros E. pose proof (fatv_ent s y (fx_tab _ H) (valid_small _ _ H Hv)) as Ef. rewrite E in Ef. change (shown 0) with 0 in Ef. destruct cs as [|z cs]; cbn [chain] in Hch; [rewrite Ef in Hch; discriminate|]. destruct Hch as (Hz & _ & Hvz & _). unfold valid in Hvz. lia.
Qed.

(** ** A cluster added *)
Lemma chain_extend s r p : fat12 s -> valid (f_vol s) r -> ent12 s r = 0 -> forall cs c, chain s c (cs ++ [p]) -> NoDup (cs ++ [p]) -> chain (put12 (put12 s r EOC_FAT12) p r) c ((cs ++ [p]) ++ [r]).
Proof.
  intros H Hr Hr0. pose proof (valid_small _ _ H Hr) as Hrs. induction cs as [|x cs IH]; intros c Hch Hnd; pose proof (chain_used s c _ r H Hch) as Hu.
  - destruct Hch as (-> & H2 & H3 & H4). pose proof (valid_small _ _ H H3) as Hps. assert (p <> r) as Hpr by (intros ->; apply Hu; [by apply list_elem_of_singleton|done]).
    assert (fat12 (put12 s r EOC_FAT12)) as H' by (apply put12_fat12; [done|lia|done|done]).
    split; [done|]. split; [done|]. split; [done|]. rewrite put12_fatv by (done || lia). rewrite Z.eqb_refl. unfold shown. rewrite (proj2 (Z.eqb_neq r EOC_FAT12)) by (unfold EOC_FAT12; lia).
    split; [done|]. split; [unfold GETFATVALUE_EOC; lia|]. split; [done|]. rewrite put12_fatv by (done || lia). rewrite (proj2 (Z.eqb_neq r p)) by done. rewrite put12_fatv by (done || lia). by rewrite Z.eqb_refl.
  - cbn [app] in *. destruct Hch as (-> & H2 & H3 & H4). inversion Hnd as [|? ? Hx Hnd']. subst. assert (x <> r) as Hxr by (intros ->; apply Hu; [by apply elem_of_cons; left|done]).
    assert (p ∈ cs ++ [p]) as Hp by (apply elem_of_app; right; by apply list_elem_of_singleton). assert (x <> p) as Hxp by (by intros ->).
    pose proof (chain_valid _ _ _ H4) as Hval. rewrite Forall_forall in Hval. pose proof (valid_small _ _ H (Hval p Hp)) as Hps.
    assert (fat12 (put12 s r EOC_FAT12)) as H' by (apply put12_fat12; [done|lia|done|done]).
    split; [done|]. split; [done|]. split; [done|]. rewrite put12_fatv by (done || lia). rewrite (proj2 (Z.eqb_neq x p)) by done. rewrite put12_fatv by (done || lia). rewrite (proj2 (Z.eqb_neq x r)) by done. by apply IH.
Qed.
Lemma file_cons_valid s N cs f : file s N cs f -> Forall (valid (f_vol s)) cs.
Proof. intros [_ _ (n & _ & _ & Hch) _]. by eapply chain_valid. Qed.
Lemma file_used s N cs f x : fat12 s -> file s N cs f -> x ∈ cs -> ent12 s x <> 0.
Proof. intros H [_ _ (n & _ & _ & Hch) _]. by eapply chain_used. Qed.

(** The first free cluster joins the file; other files are as before. *)
Lemma file_extend s N cs p f : fat12 s -> file s N (cs ++ [p]) f -> (exists d, valid (f_vol s) d /\ ent12 s d = 0) ->
  exists r, valid (f_vol s) r /\ ent12 s r = 0 /\ (forall d, 0 <= d < r -> ent12 s d <> 0) /\
    let s' := put12 (put12 s r EOC_FAT12) p r in
    FAT_int_AllocateCluster p s = Ok r s' /\ fat12 s' /\ file s' N ((cs ++ [p]) ++ [r]) f /\
    forall M ds g, (forall z, z ∈ ds -> z ∉ cs ++ [p]) -> file s M ds g -> (r ∉ ds) /\ file s' M ds g.
Proof.
  intros H Hf (d & Hdv & Hd0). pose proof (valid_small _ _ H Hdv) as Hds. assert (p ∈ cs ++ [p]) as Hp by (apply elem_of_app; right; by apply list_elem_of_singleton).
  pose proof (file_cons_valid _ _ _ _ Hf) as Hval. pose proof (proj1 (Forall_forall _ _) Hval p Hp) as Hpv. pose proof (valid_small _ _ H Hpv) as Hps. pose proof (fx_count _ H) as Hcnt.
  destruct (allocate_run s p (fx_tab _ H) ltac:(lia) (proj1 (fx_first _ H)) Hps (file_used _ _ _ _ _ H Hf Hp) (ex_intro _ d (conj Hds Hd0))) as (r & Hr & Hr0 & Hmin & Hrun).
  assert (r <> 1) as Hr1 by (intros ->; by apply (fx_first _ H)). assert (r <= d) as Hrd by (destruct (Z.le_gt_cases r d); [done|]; exfalso; by apply (Hmin d); [lia|]).
  assert (valid (f_vol s) r) as Hrv by (unfold valid in *; lia). exists r. split; [done|]. split; [done|]. split; [done|]. intros s'. split; [done|].
  assert (fat12 (put12 s r EOC_FAT12)) as H1 by (apply put12_fat12; [done|lia|done|done]). assert (fat12 s') as H2 by (apply put12_fat12; [done|done|lia|lia]). split; [done|]. split.
  - destruct Hf as [K1 (K2 & K2' & K2'' & K2''') (n & K3 & K4 & K5) K6]. split; [apply H2| | |].
    + change (f_vol s') with (f_vol s). split; [rewrite length_app; lia|]. split; [|split; [rewrite len_app; pose proof (vol_pos s K1); change (len [r]) with 1; nia|done] ].
      apply NoDup_app. split; [done|]. split; [|by apply NoDup_singleton]. intros z Hz ->%list_elem_of_singleton. by apply (chain_used s _ _ r H K5 Hz).
    + exists n. split; [done|]. split; [done|]. by apply chain_extend.
    + rewrite content_app. unfold s' at 1. rewrite !content_put by (done || lia). rewrite sub_app_in; [done|lia|apply len_nonneg|]. rewrite content_len by done. lia.
  - intros M ds g Hdis Hg. assert (r ∉ ds) as Hrn by (intros Hin; by apply (file_used _ _ _ _ r H Hg Hin)). split; [done|].
    apply file_put; [done|done|lia|lia| |apply file_put; [done|lia|done|done|done|done] ]. intros Hin. by apply (Hdis p Hin).
Qed.

Lemma seek_end s k : forall c cs fuel, vol_ok s -> chain s c cs -> (k < length cs)%nat -> (k <= fuel)%nat ->
  exists c', seek_clusters fuel (Z.of_nat (S k) * bpc s) c (bpc s) s = Ok (Some (bpc s, c')) s /\ chain s c' (drop k cs).
Proof.
  induction k as [|k IH]; intros c cs fuel Hok H Hk Hf; pose proof (vol_pos s Hok) as Hp.
  - exists c. split; [|done]. change (Z.of_nat 1) with 1. rewrite Z.mul_1_l. destruct fuel; cbn [seek_clusters]; by rewrite Z.ltb_irrefl.
  - destruct fuel as [|fuel]; [lia|]. cbn [seek_clusters]. rewrite (proj2 (Z.ltb_lt _ _)) by nia. cbn [negb]. destruct cs as [|x cs]; [cbn in Hk; lia|]. destruct H as (-> & Hx & Hv & H).
    rewrite (bind_Ok _ _ _ _ _ (GetFatValue_run s x)). destruct cs as [|y cs]; [cbn in Hk; lia|]. pose proof H as (Hy & Hyn & _). rewrite Hy in H |- *. rewrite (proj2 (Z.eqb_neq _ _)) by done.
    replace (Z.of_nat (S (S k)) * bpc s - bpc s) with (Z.of_nat (S k) * bpc s) by lia. destruct (IH y (y :: cs) fuel Hok) as (c' & Hr & Hc); [done|cbn in *; lia|lia|]. by exists c'.
Qed.

(** Appending to a file that fills its clusters. *)
Lemma file_append s N cs f B : fat12 s -> file s N cs f -> len f = len cs * bpc s -> len B < bpc s -> len f + len B < 2147483648 -> (exists d, valid (f_vol s) d /\ ent12 s d = 0) ->
  exists r s', FAT_Write N (len f) B s = Ok (len B) s' /\ ent12 s r = 0 /\ (forall d, 0 <= d < r -> ent12 s d <> 0) /\ file s' N (cs ++ [r]) (f ++ B) /\
    forall M ds g, M <> N -> (forall z, z ∈ ds -> z ∉ cs) -> file s M ds g -> file s' M ds g.
Proof.
  intros H Hf Hfull HB Hmax Hfree. pose proof Hf as [Hok (Hpos & Hnd & _ & _) (n & Hn & Hsz & Hch) _]. pose proof (vol_pos s Hok) as Hp. pose proof (len_nonneg B) as HB0.
  destruct cs as [|p0 cs0] using rev_ind; [cbn in Hpos; lia|clear IHcs0]. rename cs0 into cs. destruct (file_extend s N cs p0 f H Hf Hfree) as (r & Hrv & Hr0 & Hmin & Hrun & H1 & Hf1 & Hoth).
  set (s1 := put12 (put12 s r EOC_FAT12) p0 r) in *.
  pose proof (vol_pos _ (fx_vol _ H1)) as Hp1. assert (bpc s1 = bpc s) as Eb by done. pose proof (valid_small _ _ H Hrv) as Hrs.
  assert (r <> 0) as Hrz by (unfold valid in Hrv; lia).
  assert (len (cs ++ [p0]) = Z.of_nat (S (length cs))) as El by (unfold len; rewrite length_app; cbn; lia).
  destruct (seek_end s (length cs) _ _ (Z.to_nat (len f / bpc s)) Hok Hch) as (c' & Hseek & Hc').
  { rewrite length_app. cbn. lia. }
  { rewrite Hfull, El, Z.div_mul by lia. lia. }
  rewrite drop_app_length in Hc'. destruct Hc' as (-> & _). rewrite <- El, <- Hfull in Hseek.
  pose proof Hf1 as [Hok1 (_ & Hnd1 & _ & _) (n1 & Hn1 & Hsz1 & Hch1) _]. assert (n1 = n) as -> by (change (f_nodes s1) with (f_nodes s) in Hn1; congruence).
  assert (chain s1 r [r]) as Hchr.
  { destruct (chain_drop s1 (length (cs ++ [p0])) _ _ Hch1) as (c' & Hc'); [rewrite !length_app; lia|]. rewrite drop_app_length in Hc'. by destruct Hc' as (-> & Hc'). }
  destruct (write_rest_run s1 N n r [r] 0 (len f) B) as (s2 & g' & Hw & Hd & Hcon & Hout); [done|done|apply NoDup_singleton|cbn; lia|done|lia|change (len [r]) with 1; lia|].
  assert (Forall (valid (f_vol s1)) ((cs ++ [p0]) ++ [r])) as Hval by (by eapply chain_valid). pose proof Hval as Hval'. apply Forall_app in Hval' as [Hval1 _].
  assert (r ∉ cs ++ [p0]) as Hrn by (apply NoDup_app in Hnd1 as (_ & Hnd1 & _); intros Hin; apply (Hnd1 r Hin), list_elem_of_singleton; done).
  destruct (file_written s1 s2 g' N n ((cs ++ [p0]) ++ [r]) f (len f) B) as (Hvol & Hfile & Hothers); [done|done|pose proof (len_nonneg f); lia| |lia|done| |intros z Hz; apply Hout; intros Hin; apply Hz, elem_of_app; by right|].
  { rewrite len_app. change (len [r]) with 1. rewrite Eb. lia. }
  { unfold gcontent in *. rewrite fmap_app, concat_app. fold (gcontent g' (cs ++ [p0])). rewrite content_app, Hcon. replace (gcontent g' (cs ++ [p0])) with (content s1 (cs ++ [p0])).
    - replace (len f) with (len (content s1 (cs ++ [p0])) + 0) by (rewrite content_len by done; rewrite Eb; lia). by rewrite patch_app_r by lia.
    - symmetry. apply (gcontent_same (clu s1)). intros z Hz. apply Hout. intros ->%list_elem_of_singleton. by apply Hrn. }
  exists r, (grown N n (len f + len B) s2). split; [|split; [done|split; [done|split] ] ].
  - unfold FAT_Write, node_at. unfold bind at 1. rewrite Hn, bind_vol. cbv zeta. rewrite (proj2 (Z.ltb_ge _ _)) by lia. rewrite (bind_Ok _ _ _ _ _ Hseek), Z.eqb_refl. rewrite bind_assoc, (bind_Ok _ _ _ _ _ Hrun), bind_ret.
    rewrite (proj2 (Z.eqb_neq r 0)) by done. cbn [andb]. rewrite u64_small in Hw by (pose proof (len_nonneg f); lia). exact Hw.
  - replace (f ++ B) with (patch f (len f) B); [done|]. unfold patch. rewrite take_ge by (unfold len; lia). rewrite drop_ge by (unfold len; lia). by rewrite app_nil_r.
  - intros M ds g HM Hdis Hg. destruct (Hoth M ds g Hdis Hg) as [Hrd Hg1]. apply Hothers; [done| |done]. intros z Hz Hin. apply elem_of_app in Hin as [Hin| ->%list_elem_of_singleton]; [by apply (Hdis z)|done].
Qed.

(** ** A chain freed *)
Lemma free_run s c : fat12 s -> 2 <= c <= ClusterCount (f_vol s) -> FAT_int_FreeCluster c s = Ok (if ent12 s c =? 0 then NONE else shown (ent12 s c)) (put12 s c 0).
Proof.
  intros H Hc. pose proof (fx_count _ H) as Hcnt. pose proof (fx_tab _ H) as Ht. assert (0 <= c < 1024) as Hcs by lia. pose proof (pair_range s c Ht Hcs) as Hp.
  unfold FAT_int_FreeCluster. rewrite bind_vol. rewrite (proj2 (Z.ltb_ge c 2)), (proj2 (Z.ltb_ge _ c)) by lia. cbn [orb]. rewrite (tb_type _ Ht). fold (tbase s).
  rewrite (Z.shiftr_div_pow2 c 1), Z.pow_1_r by lia. rewrite bind_assoc, (bind_Ok _ _ _ _ _ (pair_read s c Ht Hcs)). fold (pair12 (f_img s) (tbase s) (c / 2)).
  rewrite bind_assoc, (bind_Ok _ _ _ _ _ (pair_write s c _ Ht Hcs)), bind_ret.
  assert ((if Z.odd c then Z.land (Z.shiftr (pair12 (f_img s) (tbase s) (c / 2)) 12) 0xFFF else Z.land (pair12 (f_img s) (tbase s) (c / 2)) 0xFFF) = ent12 s c) as ->.
  { unfold ent12, g12, half. rewrite !land_fff, shiftr12. destruct (Z.odd c); [|done]. dlia. }
  assert ((if Z.odd c then Z.land (pair12 (f_img s) (tbase s) (c / 2)) 0xFFF else Z.land (pair12 (f_img s) (tbase s) (c / 2)) 0xFFF000) = put_half (pair12 (f_img s) (tbase s) (c / 2)) c 0) as ->.
  { unfold put_half. rewrite land_fff, land_fff000 by done. destruct (Z.odd c); lia. }
  unfold shown. by destruct (ent12 s c =? 0), (ent12 s c =? EOC_FAT12).
Qed.

Definition freed s cs : fat := foldl (fun s x => put12 s x 0) s cs.
Lemma freed_fat12 cs : forall s, fat12 s -> Forall (valid (f_vol s)) cs -> fat12 (freed s cs).
Proof.
  induction cs as [|x cs IH]; intros s H Hv; [done|]. apply Forall_cons in Hv as [Hx Hv]. pose proof (valid_small _ _ H Hx). apply IH; [|done]. apply put12_fat12; [done|done|lia|]. unfold valid in Hx. lia.
Qed.
Lemma freed_ent cs d : forall s, fat12 s -> Forall (valid (f_vol s)) cs -> 0 <= d -> ent12 (freed s cs) d = if decide (d ∈ cs) then 0 else ent12 s d.
Proof.
  induction cs as [|x cs IH]; intros s H Hv Hd; [done|]. apply Forall_cons in Hv as [Hx Hv]. pose proof (valid_small _ _ H Hx) as Hxs. cbn [freed foldl]. fold (freed (put12 s x 0) cs).
  rewrite IH by (done || (apply put12_fat12; [done|done|lia|unfold valid in Hx; lia])). rewrite put12_ent by (apply H || lia). destruct (decide (d ∈ cs)) as [Hin|Hin]; [by rewrite decide_True by (apply elem_of_cons; by right)|].
  destruct (d =? x) eqn:E; bools; [by rewrite decide_True by (apply elem_of_cons; by left)|]. rewrite decide_False; [done|]. by intros [?|?]%elem_of_cons.
Qed.
Lemma freed_file cs M ds g : forall s, fat12 s -> Forall (valid (f_vol s)) cs -> (forall z, z ∈ ds -> z ∉ cs) -> file s M ds g -> file (freed s cs) M ds g.
Proof.
  induction cs as [|x cs IH]; intros s H Hv Hdis Hg; [done|]. apply Forall_cons in Hv as [Hx Hv]. pose proof (valid_small _ _ H Hx) as Hxs. assert (0 = 0 -> 2 <= x) as H2 by (unfold valid in Hx; lia). apply IH.
  - by apply put12_fat12.
  - done.
  - intros z Hz Hin. apply (Hdis z Hz). apply elem_of_cons. by right.
  - apply file_put; try done. intros Hin. apply (Hdis x Hin). apply elem_of_cons. by left.
Qed.
Lemma freed_same cs : forall s, f_vol (freed s cs) = f_vol s /\ f_nodes (freed s cs) = f_nodes s /\ f_cache (freed s cs) = f_cache s /\ f_next (freed s cs) = f_next s.
Proof. induction cs as [|x cs IH]; intros s; [done|]. apply (IH (put12 s x 0)). Qed.

(** The loop ends, with every entry of the chain 0. *)
Lemma free_chain_run : forall cs s c fuel, fat12 s -> chain s c cs -> NoDup cs -> Forall (fun x => x <= ClusterCount (f_vol s)) cs -> (length cs <= fuel)%nat -> free_chain fuel c s = Ok tt (freed s cs).
Proof.
  induction cs as [|x cs IH]; intros s c fuel H Hch Hnd Hle Hf.
  - cbn [chain] in Hch. subst c. by destruct fuel.
  - pose proof (chain_used s c _ x H Hch ltac:(apply elem_of_cons; by left)) as Hx0. destruct Hch as (-> & Hx & Hv & Hch). inversion Hnd as [|? ? Hn Hnd']. subst. apply Forall_cons in Hle as [Hle1 Hle]. pose proof (valid_small _ _ H Hv) as Hxs.
    destruct fuel as [|fuel]; [cbn in Hf; lia|]. cbn [free_chain]. rewrite (proj2 (Z.eqb_neq x NONE)) by done. assert (2 <= x <= ClusterCount (f_vol s)) as Hr by (unfold valid in Hv; lia). rewrite (bind_Ok _ _ _ _ _ (free_run s x H Hr)).
    rewrite (proj2 (Z.eqb_neq _ _)) by done. rewrite <- fatv_ent by (apply H || done). apply (IH (put12 s x 0)); [apply put12_fat12; [done|done|lia|lia]|by apply chain_put|done|done|cbn in Hf; lia].
Qed.
Lemma chain_short s c cs : 0 <= ClusterCount (f_vol s) -> chain s c cs -> NoDup cs -> (length cs <= Z.to_nat (ClusterCount (f_vol s)))%nat.
Proof.
  intros H0 Hch Hnd. pose proof (chain_valid _ _ _ Hch) as Hv. rewrite Forall_forall in Hv. rewrite <- (length_seqZ 2 (ClusterCount (f_vol s))). apply submseteq_length, NoDup_submseteq; [done|].
  intros x Hx. apply elem_of_seqZ. specialize (Hv x Hx). unfold valid in Hv. lia.
Qed.

(** ** Closing a deleted file *)
Definition dropped N s : fat := set_nodes (delete N (f_nodes s)) (filter (fun k => k <> N) (f_cache s)) (f_next s) s.
Lemma deref_last s N n : N <> ROOT -> f_nodes s !! N = Some n -> n_refs n = 1 -> N ∈ f_cache s -> FAT_int_DerefNode N s = Ok 1 (dropped N s).
Proof.
  intros Hr Hn H1 Hc. unfold FAT_int_DerefNode. rewrite (proj2 (Z.eqb_neq _ _)) by done. unfold node_at. unfold bind at 1. rewrite Hn. unfold put_node, get_state. unfold bind. cbn [set_nodes f_cache f_nodes]. rewrite bool_decide_true by done. cbn [negb].
  rewrite H1. cbn [Z.sub Z.add Z.opp Z.pos_sub Z.eqb]. unfold ret, dropped, set_nodes. cbn [f_vol f_img f_nodes f_cache f_next f_stack]. change (1 - 1 =? 0) with true. cbv iota beta. cbn [f_vol f_img f_nodes f_cache f_next f_stack]. by rewrite delete_insert_eq.
Qed.
Lemma dropped_ent N s d : ent12 (dropped N s) d = ent12 s d.
Proof. done. Qed.
Lemma dropped_chain N s : forall cs c, chain s c cs -> chain (dropped N s) c cs.
Proof.
  induction cs as [|x cs IH]; intros c Hch; [done|]. destruct Hch as (H1 & H2 & H3 & H4). split; [done|]. split; [done|]. split; [done|].
  assert (fatv (dropped N s) x = fatv s x) as -> by (unfold fatv, FAT_int_GetFatValue, bind, the_vol, VFS_ReadAt, ret, dropped; cbn [set_nodes f_vol f_img]; by destruct (fv_type (f_vol s))). by apply IH.
Qed.
Lemma dropped_fat12 N s : fat12 s -> fat12 (dropped N s).
Proof. intros [ [H1 H2 H3] [K1 K2 K3 K4] H4 H5 H6]. by split. Qed.
Lemma dropped_file N s M ds g : M <> N -> file s M ds g -> file (dropped N s) M ds g.
Proof.
  intros HM [ [K1 K2 K3 K4] L2 (n & L3 & L4 & L5) L6]. split; [by split|done| |done]. exists n. split; [|split; [done|by apply dropped_chain] ]. cbn [dropped set_nodes f_nodes]. by rewrite lookup_delete_ne.
Qed.

Lemma close_run s N n cs : fat12 s -> N <> ROOT -> f_nodes s !! N = Some n -> n_refs n = 1 -> N ∈ f_cache s -> has_flag (n_ImplInt n) FAT_FLAG_DELETE = true ->
  chain s (Z.land (n_Inode n) 0xFFFFFFFF) cs -> NoDup cs -> Forall (fun x => x <= ClusterCount (f_vol s)) cs -> close N s = Ok tt (freed (dropped N s) cs).
Proof.
  intros H HN Hn H1 Hc Hdel Hch Hnd Hle. unfold close. cbn [FAT_CloseFile]. unfold node_at. unfold bind at 1. rewrite Hn, Hdel. cbn [negb]. rewrite andb_false_r, bind_ret. unfold bind at 1. rewrite Hn.
  rewrite (bind_Ok _ _ _ _ _ (deref_last s N n HN Hn H1 Hc)), Hdel. cbn [Z.eqb Pos.eqb andb]. rewrite bind_vol. replace (u32 (n_Inode n)) with (Z.land (n_Inode n) 0xFFFFFFFF) by exact (land_low (n_Inode n) 32 ltac:(lia)).
  apply free_chain_run; [by apply dropped_fat12|by apply dropped_chain|done|done|]. pose proof (fx_count _ H) as Hcnt. pose proof (chain_short s _ cs ltac:(lia) Hch Hnd). change (f_vol (dropped N s)) with (f_vol s). lia.
Qed.
