(* ===== verification/FatNames.v ===== *)
(** * Names in FAT directories

    A name of the 8.3 form is stored in the name field of an entry and read back from it; an entry that has been linked
    is found again. *)
From S2P Require Import Prelude Arith CString Text Time Fat FatDir FatFiles FatTable.

Local Open Scope Z_scope.
Local Open Scope monad_scope.
Implicit Types (s : fat) (l p q rest Name : list Z).

(** ** The parts of a name *)
Abbreviation v83 := (fun c => is_valid_83_char c = true).
Lemma v83_plain c : v83 c -> c <> 0 /\ c <> cDOT /\ c <> cBLANK.
Proof. intros H. split_and!; intros ->; discriminate H. Qed.

(** The end of a part: it is full, the string ends, or a dot follows. *)
Definition part_end (n : nat) (dot : bool) p c : Prop := length p = n \/ c = 0 \/ (dot = true /\ c = cDOT).
Lemma get0 l c : get l 0 = Some c -> exists l', l = c :: l'.
Proof. destruct l as [|x l']; [done|]. intros [= ->]. by exists l'. Qed.
Lemma valid_part_split n dot : forall Name rest, valid_part n dot Name = Some (Some rest) ->
  exists p c, Name = p ++ rest /\ (length p <= n)%nat /\ Forall v83 p /\ get rest 0 = Some c /\ part_end n dot p c /\ copy_part n id dot Name = Some (p, rest).
Proof.
  induction n as [|n IH]; intros Name rest; cbn [valid_part copy_part]; destruct (get Name 0) as [c|] eqn:E; cbn [mbind option_bind]; try done.
  - intros [= <-]. exists [], c. split_and!; try done. by left.
  - destruct ((c =? 0) || (dot && (c =? cDOT))) eqn:Ec.
    + intros [= <-]. exists [], c. split_and!; try done; [cbn; lia|]. apply orb_true_iff in Ec as [Ec|Ec]; [right; left; lia|]. apply andb_true_iff in Ec as [-> Ec]. right. right. split; [done|lia].
    + destruct (is_valid_83_char c) eqn:Ev; [|done]. intros H. apply get0 in E as (l' & ->). destruct (IH _ _ H) as (p & d & H1 & H2 & H3 & H4 & H5 & H6). change (drop 1 (c :: l')) with l' in *. rewrite H6. cbn [mbind option_bind].
      exists (c :: p), d. split; [by rewrite H1|]. split; [cbn; lia|]. split; [by apply Forall_cons|]. split; [done|]. split; [|done]. destruct H5 as [H5|H5]; [left; cbn; lia|by right].
Qed.

(** A name is a base, and after a dot an extension. *)
Definition joined p q : list Z := p ++ (if decide (q = []) then [] else cDOT :: q).
Lemma until_blank_pad p k : Forall v83 p -> until_blank (p ++ replicate k cBLANK) = p.
Proof.
  induction 1 as [|c p Hc _ IH]; [by destruct k|]. cbn [app until_blank]. destruct (v83_plain c Hc) as (_ & _ & Hb). rewrite (proj2 (Z.eqb_neq c cBLANK)) by done. by rewrite IH.
Qed.
Lemma pad_length n p : (length p <= n)%nat -> length (pad n p) = n.
Proof. intros H. unfold pad. rewrite length_app, length_replicate. lia. Qed.
Lemma proper_short p q : Forall v83 p -> Forall v83 q -> (length p <= 8)%nat -> (length q <= 3)%nat -> FAT_int_ProperFilename (pad 8 p ++ pad 3 q) = joined p q ++ [0].
Proof.
  intros Hp Hq Lp Lq. unfold FAT_int_ProperFilename, joined. pose proof (pad_length 8 p Lp) as E8. pose proof (pad_length 3 q Lq) as E3.
  assert (clipped (pad 8 p ++ pad 3 q) 0 8 = pad 8 p) as -> by (unfold clipped; change (Z.to_nat 8) with 8%nat; rewrite drop_0, take_app_le by lia; apply take_ge; lia).
  assert (clipped (pad 8 p ++ pad 3 q) 8 3 = pad 3 q) as ->.
  { unfold clipped. change (Z.to_nat 8) with 8%nat. change (Z.to_nat 3) with 3%nat. rewrite drop_app_ge, E8, Nat.sub_diag, drop_0 by lia. apply take_ge. lia. }
  assert (get (pad 8 p ++ pad 3 q) 8 = get (pad 3 q) 0) as ->.
  { unfold get. cbn [Z.leb Z.compare]. change (Z.to_nat 8) with 8%nat. rewrite lookup_app_r by lia. f_equal. lia. }
  rewrite <- app_assoc. unfold pad at 1. rewrite until_blank_pad by done. f_equal. destruct q as [|c q]; [done|].
  change (get (pad 3 (c :: q)) 0) with (Some c). cbn [default from_option id].
  apply Forall_cons in Hq as Hq'. destruct Hq' as [Hc _]. destruct (v83_plain c Hc) as (_ & _ & Hb). rewrite (proj2 (Z.eqb_neq c cBLANK)) by done. rewrite decide_False by done. cbn [app]. f_equal. change (c :: q ++ [0]) with ((c :: q) ++ [0]). f_equal.
  apply (until_blank_pad (c :: q)). done.
Qed.

(** The forms that are accepted. *)
Lemma valid83_split Name : FAT_int_IsValid83Filename Name = Some true ->
  exists p q tail, Forall v83 p /\ Forall v83 q /\ (0 < length p <= 8)%nat /\ (length q <= 3)%nat /\ short_name Name = Some (pad 8 p ++ pad 3 q) /\
    (Name = p ++ 0 :: tail /\ q = [] \/ Name = p ++ cDOT :: q ++ 0 :: tail).
Proof.
  unfold FAT_int_IsValid83Filename. destruct (get Name 0) as [c0|] eqn:E0; cbn [mbind option_bind]; [|done]. destruct ((c0 =? 0) || (c0 =? cDOT)) eqn:Ec0; [done|]. apply orb_false_iff in Ec0 as [Hz Hd].
  destruct (valid_part 8 true Name) as [ [rest|]|] eqn:Ep; cbn [mbind option_bind]; try done. destruct (valid_part_split _ _ _ _ Ep) as (p & c & -> & Lp & Hp & Hc & Hend & Hcopy). rewrite Hc. cbn [mbind option_bind].
  destruct (negb (c =? 0) && negb (c =? cDOT)) eqn:Ecc; [done|].
  destruct (valid_part 3 false (if c =? 0 then rest else drop 1 rest)) as [ [rest2|]|] eqn:Eq; cbn [mbind option_bind]; try done.
  destruct (valid_part_split _ _ _ _ Eq) as (q & c2 & Hrest & Lq & Hq & Hc2 & Hend2 & Hcopy2). rewrite Hc2. cbn [mbind option_bind]. intros [= H2%Z.eqb_eq]. subst c2.
  assert (short_name (p ++ rest) = Some (pad 8 p ++ pad 3 q)) as Hs by (unfold short_name; rewrite Hcopy; cbn [mbind option_bind]; rewrite Hc; cbn [mbind option_bind]; by rewrite Hcopy2).
  apply get0 in Hc as (rest' & ->). apply get0 in Hc2 as (tail & ->). assert (0 < length p)%nat as Hp0 by (destruct p; [injection E0 as <-; lia|cbn; lia]).
  destruct (c =? 0) eqn:E; bools.
  - subst c. destruct q as [|x q]; [|apply Forall_cons in Hq as [Hx _]; cbn in Hrest; injection Hrest as <- _; by destruct (v83_plain _ Hx)]. exists p, [], rest'. split_and!; try done. by left.
  - assert (c = cDOT) as -> by lia. change (drop 1 (cDOT :: rest')) with rest' in Hrest. exists p, q, tail. split_and!; try done. right. by rewrite Hrest.
Qed.
Lemma strucmp_same x tail : Forall (fun c => c <> 0) x -> strucmp (x ++ [0]) (x ++ 0 :: tail) = Some 0.
Proof. induction 1 as [|c x Hc _ IH]; [done|]. cbn [app strucmp]. rewrite (proj2 (Z.eqb_neq c 0)), Z.eqb_refl by done. exact IH. Qed.

(** A name of the 8.3 form that does not end in a dot is the one its entry gives. *)
Definition ends_in_dot Name : Prop := exists p tail, Name = p ++ cDOT :: 0 :: tail /\ Forall v83 p.
Lemma name_found Name : FAT_int_IsValid83Filename Name = Some true -> ~ ends_in_dot Name ->
  exists nm c rest, short_name Name = Some nm /\ length nm = 11%nat /\ nm = c :: rest /\ v83 c /\ get Name 0 = Some c /\ strucmp (FAT_int_ProperFilename nm) Name = Some 0.
Proof.
  intros H Hdot. destruct (valid83_split Name H) as (p & q & tail & Hp & Hq & Lp & Lq & Hs & Hform). exists (pad 8 p ++ pad 3 q). destruct p as [|c p]; [cbn in Lp; lia|]. exists c, (p ++ replicate (8 - length (c :: p)) cBLANK ++ pad 3 q).
  split; [done|]. split; [rewrite length_app, !pad_length by lia; done|]. split; [unfold pad at 1; rewrite <- app_assoc; done|]. split; [by apply Forall_cons in Hp as [? _]|]. split; [destruct Hform as [ [-> _]| ->]; done|].
  rewrite proper_short by (done || lia). assert (forall l, Forall v83 l -> Forall (fun c => c <> 0) l) as Hnz by (intros l Hl; eapply Forall_impl; [exact Hl|]; intros x Hx; by destruct (v83_plain x Hx)).
  unfold joined. destruct Hform as [ [-> ->]| ->].
  - rewrite decide_True, app_nil_r by done. by apply strucmp_same, Hnz.
  - destruct q as [|y q]; [exfalso; apply Hdot; exists (c :: p), tail; by split|]. rewrite decide_False by done.
    change ((c :: p) ++ cDOT :: (y :: q) ++ 0 :: tail) with ((c :: p) ++ (cDOT :: y :: q) ++ 0 :: tail). rewrite app_assoc. apply strucmp_same. apply Forall_app. split; [by apply Hnz|]. apply Forall_cons. split; [done|by apply Hnz].
Qed.

(** ** The root directory *)
Abbreviation files s := (files_in_root (bootsect (f_vol s))).
Definition dir_base s : Z := (resvSectCount (bootsect (f_vol s)) + RootSector (f_vol s)) * bps (bootsect (f_vol s)).
Record root_ok s : Prop := {
  ro_type : fv_type (f_vol s) <> FAT32; ro_node : is_Some (f_nodes s !! ROOT); ro_files : 0 <= files s < 65536 /\ files s mod 16 = 0;
  ro_size : 0 <= dir_base s /\ dir_base s + files s * 32 <= len (f_img s) < 2147483648; ro_stack : len (f_stack s) = 256;
  ro_sign : 0 <= ClusterCount (f_vol s) /\ 0 <= BytesPerCluster (f_vol s) }.
Definition slot s i : list Z := sub (dir_base s + i * 32) 32 (f_img s).
Definition sector s k : list Z := sub (dir_base s + k * 512) 512 (f_img s).

Lemma root_address s Off : root_ok s -> 0 <= Off < 4294967296 -> FAT_int_GetAddress ROOT Off s = Ok (if files s * 32 <=? Off then (None, None) else (Some (dir_base s + Off), None)) s.
Proof.
  intros [H1 [n H2] H3 H4 _ _] Ho. unfold FAT_int_GetAddress, node_at. unfold bind at 1. rewrite H2, bind_vol. rewrite bool_decide_true by done. cbn [andb]. rewrite Z.eqb_refl. fold (dir_base s). destruct (files s * 32 <=? Off) eqn:E; [done|].
  by rewrite u64_small by lia.
Qed.
Lemma read_sector s k : root_ok s -> 0 <= k < 8388608 -> FAT_int_ReadDirSector ROOT k s = Ok (if files s <=? k * 16 then None else Some (sector s k)) s.
Proof.
  intros H Hk. pose proof (ro_files _ H) as Hf. pose proof (ro_size _ H) as Hs. unfold FAT_int_ReadDirSector. rewrite (bind_Ok _ _ _ _ _ (root_address s (k * 512) H ltac:(lia))). destruct (files s * 32 <=? k * 512) eqn:E, (files s <=? k * 16) eqn:E2; bools; try lia; [done|].
  cbn [fst]. unfold VFS_ReadAt. unfold bind at 1. change (clipped (f_img s) (dir_base s + k * 512) 512) with (sector s k). unfold sector at 1. rewrite len_sub by dlia. done.
Qed.
Lemma ent_slot s i : root_ok s -> 0 <= i < files s -> ent (sector s (i / 16)) (i mod 16) = slot s i.
Proof. intros H Hi. pose proof (ro_size _ H) as Hs. unfold ent, sector, slot. change (clipped ?m ?o ?n) with (sub o n m). rewrite sub_slice by dlia. f_equal. dlia. Qed.

(** ** Going through the entries *)
Definition cached s i (fileinfo : list Z) : Prop := 0 <= i <= files s /\ (i mod 16 <> 0 -> fileinfo = sector s (i / 16)).
Definition load (DirNode i : Z) (fileinfo : list Z) : FM (option (list Z)) := if i mod 16 =? 0 then FAT_int_ReadDirSector DirNode (i / 16) else ret (Some fileinfo).
Lemma load_run s i fi : root_ok s -> cached s i fi -> load ROOT i fi s = Ok (if files s <=? i then None else Some (sector s (i / 16))) s.
Proof.
  intros H [Hi Hc]. pose proof (ro_files _ H) as Hf. unfold load. destruct (i mod 16 =? 0) eqn:E; bools.
  - rewrite read_sector by (done || dlia). by replace (i / 16 * 16) with i by dlia.
  - rewrite Hc by done. rewrite (proj2 (Z.leb_gt _ _)) by dlia. done.
Qed.
Lemma cached_next s i : root_ok s -> 0 <= i < files s -> cached s (i + 1) (sector s (i / 16)).
Proof. intros H Hi. split; [lia|]. intros Hm. f_equal. dlia. Qed.
Lemma cached_first s fi : root_ok s -> cached s 0 fi.
Proof. intros H. pose proof (ro_files _ H). split; [lia|done]. Qed.

(** The first entry that is free. *)
Definition used s i : Prop := first_char (slot s i) <> 0 /\ first_char (slot s i) <> DELETED.
Lemma find_range_run s : root_ok s -> forall fuel i k fi, cached s i fi -> i <= k < files s -> k - i < Z.of_nat fuel -> (forall j, i <= j < k -> used s j) -> ~ used s k ->
  find_range fuel ROOT 0 i i fi s = Ok (Some (k, k)) s.
Proof.
  intros H. induction fuel as [|fuel IH]; intros i k fi Hc Hk Hf Hu Hn; [lia|]. cbn [find_range]. fold (load ROOT i fi). rewrite (bind_Ok _ _ _ _ _ (load_run s i fi H Hc)). destruct Hc as [Hi _].
  rewrite (proj2 (Z.leb_gt _ _)) by lia. rewrite ent_slot by (done || lia). rewrite Z.sub_diag, Z.eqb_refl. destruct (decide (i = k)) as [->|Hne].
  - destruct (first_char (slot s k) =? 0) eqn:E0; [done|]. destruct (first_char (slot s k) =? DELETED) eqn:E1; [done|]. bools. exfalso. by apply Hn.
  - destruct (Hu i ltac:(lia)) as [H0 H1]. rewrite (proj2 (Z.eqb_neq _ 0)), (proj2 (Z.eqb_neq _ DELETED)) by done. cbn [negb]. apply IH; [apply cached_next; [done|lia]|lia|lia|intros j Hj; apply Hu; lia|done].
Qed.

(** Two directories that agree up to an entry the name fits. *)
Definition fits Name (e : list Z) : Prop := first_char e <> 0 /\ first_char e <> DELETED /\ fe_attrib e <> ATTR_LFN /\ strucmp (FAT_int_ProperFilename (fe_name e)) Name = Some 0.
Lemma set_len {A} (l l' : list A) i x : set l i x = Some l' -> len l' = len l.
Proof. unfold set. destruct (_ && _); [|done]. intros [= <-]. unfold len. by rewrite length_insert. Qed.
Lemma parse_len e b r : FAT_int_ParseLFN e b = Some r -> len b = 256 -> len r.2 = 256.
Proof.
  unfold FAT_int_ParseLFN. intros H Hb. assert (len (if has_flag (field e 0 1) 64 then replicate 256 0 else b) = 256) as Hl by (by destruct (has_flag _ _)). destruct (255 <=? _); [injection H as <-; done|].
  destruct (wr _ _ _) as [b'|] eqn:E; [|done]. cbn in H. injection H as <-. cbn. by rewrite (wr_len _ _ _ _ E).
Qed.
Lemma by_name_found s s' Name k : root_ok s -> root_ok s' -> f_vol s' = f_vol s -> k < files s -> (forall i, 0 <= i < k -> slot s' i = slot s i) -> fits Name (slot s' k) ->
  forall fuel i fi fi' lfn lfnId, cached s i fi -> cached s' i fi' -> i <= k -> len lfn = 256 -> (forall j, i <= j < k -> first_char (slot s j) <> 0) ->
  by_name fuel ROOT Name i fi lfn lfnId s = Ok None s -> by_name fuel ROOT Name i fi' lfn lfnId s' = Ok (Some (k, slot s' k)) s'.
Proof.
  intros H H' Hv Hk Hsame (F1 & F2 & F3 & F4). induction fuel as [|fuel IH]; intros i fi fi' lfn lfnId Hc Hc' Hi Hl Hu; [done|]. assert (files s' = files s) as Ef by (by rewrite Hv). pose proof (proj1 Hc) as Hi0.
  cbn [by_name]. fold (load ROOT i fi). fold (load ROOT i fi'). rewrite (bind_Ok _ _ _ _ _ (load_run s i fi H Hc)), (bind_Ok _ _ _ _ _ (load_run s' i fi' H' Hc')). rewrite Ef, (proj2 (Z.leb_gt _ _)) by lia. rewrite !ent_slot by (done || lia).
  assert (is_Some (set lfn 0 0)) as [lfn0 Hset] by (unfold set; rewrite Hl; eauto).
  destruct (decide (i = k)) as [->|Hne].
  - intros _. rewrite (proj2 (Z.eqb_neq _ 0)), (proj2 (Z.eqb_neq _ DELETED)), (proj2 (Z.eqb_neq _ ATTR_LFN)) by done. unfold short_or_long. rewrite Hset, F4. by destruct (lfnId =? k).
  - rewrite Hsame by lia. assert (forall l d, len l = 256 -> by_name fuel ROOT Name (i + 1) (sector s (i / 16)) l d s = Ok None s -> by_name fuel ROOT Name (i + 1) (sector s' (i / 16)) l d s' = Ok (Some (k, slot s' k)) s') as Hnext
      by (intros l d Hl' Hb; apply (IH _ (sector s (i / 16))); [apply cached_next; [done|lia]|apply cached_next; [done|lia]|lia|done|intros j Hj; apply Hu; lia|done]).
    destruct (first_char (slot s i) =? 0) eqn:E0; [bools; exfalso; by apply (Hu i); [lia|]|]. destruct (first_char (slot s i) =? DELETED); [by apply Hnext|]. destruct (fe_attrib (slot s i) =? ATTR_LFN).
    + destruct (FAT_int_ParseLFN (slot s i) lfn) as [p|] eqn:Ep; [|done]. unfold fopt. rewrite !bind_ret. by apply Hnext, (parse_len _ _ _ Ep).
    + rewrite Hset. unfold fopt at 1 3. assert (forall l, len l = 256 -> (do hit <- fopt (short_or_long Name (slot s i) l); if (hit : bool) then ret (Some (i, slot s i)) else by_name fuel ROOT Name (i + 1) (sector s (i / 16)) l lfnId) s = Ok None s ->
        (do hit <- fopt (short_or_long Name (slot s i) l); if (hit : bool) then ret (Some (i, slot s i)) else by_name fuel ROOT Name (i + 1) (sector s' (i / 16)) l lfnId) s' = Ok (Some (k, slot s' k)) s') as Hhit.
      { intros l Hl'. destruct (short_or_long Name (slot s i) l) as [ [|]|]; unfold fopt; try done. rewrite !bind_ret. by apply Hnext. }
      destruct (lfnId =? i); rewrite !bind_ret; apply Hhit; [done|]. by rewrite (set_len _ _ _ _ Hset).
Qed.

(** ** Linking *)
Lemma write_sector s k b : root_ok s -> 0 <= k -> k * 16 < files s -> len b = 512 -> FAT_int_WriteDirSector ROOT k b s = Ok 0 (set_img (over (f_img s) (dir_base s + k * 512) b) s).
Proof.
  intros H Hk Hf Hb. pose proof (ro_files _ H) as Hf'. pose proof (ro_size _ H) as Hs. unfold FAT_int_WriteDirSector. rewrite (bind_Ok _ _ _ _ _ (root_address s (k * 512) H ltac:(lia))). rewrite (proj2 (Z.leb_gt _ _)) by lia. cbn [fst].
  unfold VFS_WriteAt. unfold bind. rewrite Hb. change (clipped (f_img s) (dir_base s + k * 512) 512) with (sub (dir_base s + k * 512) 512 (f_img s)). rewrite len_sub by dlia. done.
Qed.
Lemma wr_over (m b : list Z) o : 0 <= o -> o + len b <= len m -> wr m o b = Some (over m o b).
Proof. intros H1 H2. rewrite wr_ok by done. by rewrite over_in. Qed.
Lemma ent_fuel_enough s : root_ok s -> files s < Z.of_nat (ent_fuel (f_vol s)).
Proof.
  intros H. destruct (ro_sign _ H) as [H1 H2]. pose proof (ro_files _ H) as Hf. unfold ent_fuel. assert (0 <= (ClusterCount (f_vol s) + 4) * BytesPerCluster (f_vol s) / 32) by (apply Z.div_pos; nia). lia.
Qed.
Lemma link_run s Name N n nm ft k : root_ok s -> FAT_int_IsValid83Filename Name = Some true -> short_name Name = Some nm -> f_nodes s !! N = Some n -> node_entry nm n = Some ft -> len ft = 32 ->
  FAT_int_GetEntryByName ROOT Name s = Ok None s -> 0 <= k < files s -> (forall j, 0 <= j < k -> used s j) -> ~ used s k ->
  FAT_Link ROOT Name N s = Ok 0 (set_img (over (f_img s) (dir_base s + k * 32) ft) s).
Proof.
  intros H Hval Hnm Hn Hft Hlen Hdup Hk Hu Hnu. pose proof (ro_files _ H) as Hf. pose proof (ro_size _ H) as Hs. pose proof (ent_fuel_enough s H) as Hfuel.
  unfold FAT_Link. rewrite (bind_Ok _ _ _ _ _ Hdup), Hval. unfold fopt at 1. rewrite bind_ret. cbn [negb]. rewrite Hnm. unfold fopt at 1. rewrite bind_assoc, !bind_ret. unfold node_at. unfold bind at 1. rewrite Hn, Hft. unfold fopt at 1. rewrite bind_ret, bind_vol.
  rewrite (bind_Ok _ _ _ _ _ (find_range_run s H (ent_fuel (f_vol s)) 0 k [] (cached_first s [] H) ltac:(lia) ltac:(lia) Hu Hnu)). rewrite Z.eqb_refl. replace (Z.to_nat (k - k + 1)) with 1%nat by lia.
  assert (len (sector s (k / 16)) = 512) as Hsec by (apply len_sub; dlia). assert ((if files s <=? k / 16 * 16 then None else Some (sector s (k / 16))) = Some (sector s (k / 16))) as Ef by (by rewrite (proj2 (Z.leb_gt _ _)) by dlia).
  pose proof (read_sector s (k / 16) H ltac:(dlia)) as Hread. rewrite Ef in Hread.
  assert (exists fi, (if k mod 16 =? 0 then ret (Some []) else FAT_int_ReadDirSector ROOT (k / 16)) s = Ok (Some fi) s /\ (k mod 16 <> 0 -> fi = sector s (k / 16))) as (fi & Hsec0 & Hfi).
  { destruct (k mod 16 =? 0) eqn:E; bools; [by exists []|]. exists (sector s (k / 16)). by rewrite Hread. }
  rewrite (bind_Ok _ _ _ _ _ Hsec0). unfold fopt at 1. rewrite bind_ret. set (fi' := over (sector s (k / 16)) (k mod 16 * 32) ft).
  assert (insert_entries 1 ROOT k k k 0 0 [] ft fi s = Ok fi' s) as Hins.
  { cbn [insert_entries]. assert ((if k mod 16 =? 0 then (if k =? k then ret tt else do _ <- FAT_int_WriteDirSector ROOT ((k - 1) / 16) fi; ret tt);;; do sec <- FAT_int_ReadDirSector ROOT (k / 16); fopt sec else ret fi) s = Ok (sector s (k / 16)) s) as Hl.
    { rewrite Z.eqb_refl. destruct (k mod 16 =? 0) eqn:E; bools; [|by rewrite Hfi]. rewrite bind_ret. by rewrite (bind_Ok _ _ _ _ _ Hread). }
    rewrite (bind_Ok _ _ _ _ _ Hl), Z.eqb_refl, bind_ret. rewrite wr_over by dlia. done. }
  rewrite (bind_Ok _ _ _ _ _ Hins). assert (len fi' = 512) as Hfl by (unfold fi'; rewrite over_len; dlia). rewrite (bind_Ok _ _ _ _ _ (write_sector s (k / 16) fi' H ltac:(dlia) ltac:(dlia) Hfl)).
  unfold ret, fi', sector. rewrite over_block by dlia. do 3 f_equal. dlia.
Qed.

(** The fields of a new entry. *)
Definition times_ok (n : fnode) : Prop := Forall (fun t => is_Some (FAT_int_GetFATTimestamp t)) [n_CTime n; n_MTime n; n_ATime n].
Record entry_for nm (n : fnode) (e : list Z) : Prop := {
  ef_len : len e = 32; ef_name : fe_name e = nm; ef_attrib : fe_attrib e = if has_flag (n_Flags n) VFS_FFLAG_DIRECTORY then ATTR_DIRECTORY else 0;
  ef_cluster : fe_cluster e = n_Inode n mod 65536 /\ fe_clusterHi e = n_Inode n / 65536 mod 65536; ef_size : fe_size e = n_Size n mod 4294967296 }.
Lemma node_entry_fields nm n : length nm = 11%nat -> times_ok n -> exists e, node_entry nm n = Some e /\ entry_for nm n e.
Proof.
  intros Hl Ht. apply Forall_cons in Ht as [ [ [ [cd ct] cm] Hc] Ht]. apply Forall_cons in Ht as [ [ [ [md mt] mm] Hm] Ht]. apply Forall_cons in Ht as [ [ [ [ad at_] am] Ha] _]. unfold node_entry. rewrite Hc, Hm, Ha. cbn [mbind option_bind].
  eexists. split; [reflexivity|]. unfold entry_bytes. do 11 (destruct nm as [|? nm]; [discriminate Hl|]). destruct nm; [|discriminate Hl].
  assert (forall x, Z.land x 0xFFFF = x mod 65536) as H16 by (intros x; exact (land_low x 16 ltac:(lia))). rewrite !H16, Z.shiftr_div_pow2 by lia. change (2 ^ 16) with 65536.
  split; [done|done| | |].
  - unfold fe_attrib, field. destruct (has_flag _ _); done.
  - unfold fe_cluster, fe_clusterHi, field. split; [exact (le_to_le 2 (n_Inode n mod 65536) ltac:(apply Z.mod_pos_bound; done))|exact (le_to_le 2 (n_Inode n / 65536 mod 65536) ltac:(apply Z.mod_pos_bound; done))].
  - unfold fe_size, field. exact (le_to_le 4 (u32 (n_Size n)) ltac:(apply Z.mod_pos_bound; done)).
Qed.

(** The directory with an entry put in. *)
Definition linked s k (e : list Z) : fat := set_img (over (f_img s) (dir_base s + k * 32) e) s.
Lemma linked_root s k e : root_ok s -> 0 <= k < files s -> len e = 32 -> root_ok (linked s k e).
Proof.
  intros [H1 H2 H3 H4 H5 H6] Hk He. split; try done. change (dir_base (linked s k e)) with (dir_base s). change (f_vol (linked s k e)) with (f_vol s). cbn [linked set_img f_img]. rewrite over_len by lia. done.
Qed.
Lemma linked_slot s k e i : root_ok s -> 0 <= k < files s -> len e = 32 -> 0 <= i -> slot (linked s k e) i = if i =? k then e else slot s i.
Proof.
  intros H Hk He Hi. pose proof (ro_size _ H) as Hs. unfold slot. change (dir_base (linked s k e)) with (dir_base s). cbn [linked set_img f_img]. destruct (i =? k) eqn:E; bools.
  - subst i. pose proof (over_hit (f_img s) (dir_base s + k * 32) e) as Hh. rewrite He in Hh. apply Hh; lia.
  - destruct (Z.lt_total i k) as [Hlt|[?|Hlt] ]; [apply over_before; lia|done|apply over_after; lia].
Qed.
Lemma entry_fits nm Name n c rest e : entry_for nm n e -> nm = c :: rest -> v83 c -> c <> DELETED -> strucmp (FAT_int_ProperFilename nm) Name = Some 0 -> fits Name e.
Proof.
  intros [H1 H2 H3 _ _] -> Hc Hd Hs. destruct (v83_plain c Hc) as (H0 & _). assert (first_char e = c) as Efc.
  { unfold fe_name in H2. destruct e as [|x e]; [done|]. change (clipped (x :: e) 0 11) with (x :: take 10 e) in H2. injection H2 as -> _. unfold first_char, field. change (clipped (c :: e) 0 1) with [c]. cbn [le]. lia. }
  split; [by rewrite Efc|]. split; [by rewrite Efc|]. split; [rewrite H3; by destruct (has_flag _ _)|]. by rewrite H2.
Qed.
