(* ===== verification/FatProps.v ===== *)
(** * Properties of the FAT driver *)
From S2P Require Import Prelude Arith CString Text Time Fat FatDir FatFiles FatTable FatGrow FatNames.

Local Open Scope Z_scope.
Local Open Scope monad_scope.
Implicit Types (s : fat) (v : tFAT_VolInfo).

(** ** A volume
    13 sectors: the boot sector, three of table, one of root directory, 8 clusters.  A file of two whole clusters (2 and
    4), and one of 3 bytes in cluster 5 that is to be deleted. *)
Definition zeros (n : Z) : list Z := replicate (Z.to_nat n) 0.
Definition sample_img : list Z :=
  zeros 11 ++ to_le 2 512 ++ [1] ++ to_le 2 1 ++ [1] ++ to_le 2 16 ++ to_le 2 13 ++ [0xF8] ++ to_le 2 3 ++ zeros 488
  ++ to_le 3 0xFFFFF8 ++ to_le 3 4 ++ to_le 3 0xFFFFFF ++ zeros 6135.
Definition sample_vol : tFAT_VolInfo := MkVol FAT12 (zeros 12) 5 3 3 8 (MkBoot 512 1 1 1 16 13 0xF8 3 0 (zeros 11) 0 0 (zeros 11)) 512.
Definition root_node : fnode := MkFNode 3 0 (u64 (-1)) 2 false 0 0 0 true 1 None.
Definition full_node : fnode := MkFNode 2 0 1024 0 false 0 0 0 false 1 None.
Definition doomed_node : fnode := MkFNode 5 FAT_FLAG_DELETE 3 0 false 0 0 0 false 1 None.
Definition sample : fat := MkFat sample_vol sample_img {[ROOT := root_node; 1 := full_node; 2 := doomed_node]} [1; 2] 3 (zeros 256).

Lemma sample_mounts : option_map f_vol (FAT_InitDevice sample_img (zeros 256) 0) = Some sample_vol.
Proof. by vm_compute. Qed.
Lemma sample_vol_ok : vol_ok sample.
Proof.
  assert (len (f_img sample) = 6656) as Hl by by vm_compute. split; [done|done| |].
  - intros x Hx. change (f_vol sample) with sample_vol in *. unfold valid, entry_at, data_start, sample_vol in *. cbn in *. dlia.
  - rewrite Hl. done.
Qed.
Lemma sample_tab : tab12 sample.
Proof.
  split; [done| |].
  - unfold bytes. apply (bool_decide_unpack _). by vm_compute.
  - assert (len (f_img sample) = 6656) as -> by by vm_compute. done.
Qed.
Lemma sample_fat12 : fat12 sample.
Proof. split; [exact sample_tab|exact sample_vol_ok|done|done|]. split; by vm_compute. Qed.
Lemma sample_full : file sample 1 [2; 4] (zeros 1024).
Proof.
  split; [exact sample_vol_ok| | |by vm_compute].
  - split; [cbn; lia|]. split; [by apply (bool_decide_unpack _)|done].
  - exists full_node. split; [done|]. split; [done|]. vm_compute. split_and!; done.
Qed.
Lemma sample_doomed : file sample 2 [5] (zeros 3).
Proof.
  split; [exact sample_vol_ok| | |by vm_compute].
  - split; [cbn; lia|]. split; [apply NoDup_singleton|done].
  - exists doomed_node. split; [done|]. split; [done|]. vm_compute. split_and!; done.
Qed.

(** ** Files as arrays of bytes *)
Inductive file_op := ReadAt (Node Off n : Z) | WriteAt (Node Off : Z) (B : list Z).

Fixpoint fat_run (ops : list file_op) : FM (list (list Z)) :=
  match ops with
  | [] => ret []
  | ReadAt N Off n :: ops => do r <- FAT_Read N Off n; do rs <- fat_run ops; ret (r :: rs)
  | WriteAt N Off B :: ops => do k <- FAT_Write N Off B; do rs <- fat_run ops; ret ([k] :: rs)
  end.

(** The same on byte arrays: a read is cut at the end, a write replaces and extends. *)
Abbreviation arrays := (gmap Z (list Z)).
Fixpoint array_run (m : arrays) (ops : list file_op) : list (list Z) * arrays :=
  match ops with
  | [] => ([], m)
  | ReadAt N Off n :: ops =>
      let f := default [] (m !! N) in let r := array_run m ops in (sub Off (Z.min n (len f - Off)) f :: r.1, r.2)
  | WriteAt N Off B :: ops =>
      let f := default [] (m !! N) in let r := array_run (<[N := take (Z.to_nat Off) f ++ B ++ drop (Z.to_nat Off + length B) f]> m) ops in ([len B] :: r.1, r.2)
  end.

(** Each file has its clusters; [size N] is how many bytes they hold. *)
Definition holds s (cl : gmap Z (list Z)) (m : arrays) : Prop :=
  (forall N f, m !! N = Some f -> exists cs, cl !! N = Some cs /\ file s N cs f) /\
  (forall N M cs ds, N <> M -> cl !! N = Some cs -> cl !! M = Some ds -> forall z, z ∈ cs -> z ∉ ds).
(** Within the clusters of the file, and not at the start of a cluster other than the first. *)
Fixpoint allowed (b : Z) (cl : gmap Z (list Z)) (m : arrays) (ops : list file_op) : Prop :=
  match ops with
  | [] => True
  | ReadAt N Off n :: ops => is_Some (m !! N) /\ 0 <= Off <= len (default [] (m !! N)) /\ 0 <= n < 2147483648 /\ allowed b cl m ops
  | WriteAt N Off B :: ops =>
      let f := default [] (m !! N) in
      is_Some (m !! N) /\ 0 <= Off <= len f /\ (Off = 0 \/ Off mod b <> 0) /\ Off + len B < len (default [] (cl !! N)) * b /\ Off + len B < 2147483648 /\
      allowed b cl (<[N := take (Z.to_nat Off) f ++ B ++ drop (Z.to_nat Off + length B) f]> m) ops
  end.

(** C15: Any history of reads that start within a file and of writes that start within it, stay strictly inside the
    clusters it already has, and start at its beginning or not at a cluster boundary, on files with clusters of their own,
    on a device below 2 GiB, gives the results and leaves the bytes that the same history gives on arrays of bytes; no
    write to one file is seen in another. (A write that starts at the boundary of a later cluster cuts the chain:
    write_at_boundary.) *)
Theorem fat_refines_arrays ops : forall s cl m, holds s cl m -> allowed (BytesPerCluster (f_vol s)) cl m ops ->
  exists s', fat_run ops s = Ok (array_run m ops).1 s' /\ holds s' cl (array_run m ops).2.
Proof.
  induction ops as [|[N Off n|N Off B] ops IH]; intros s cl m Hh Ha; cbn [fat_run array_run].
  - exists s. by split.
  - destruct Ha as ([f Hf] & HO & Hn & Ha). rewrite Hf in *. cbn [default from_option id] in *. destruct (proj1 Hh N f Hf) as (cs & Hcs & Hfile).
    rewrite (bind_Ok _ _ _ _ _ (file_read s N cs f Off n Hfile HO Hn)). destruct (IH s cl m Hh Ha) as (s' & Hr & Hh'). rewrite (bind_Ok _ _ _ _ _ Hr). by exists s'.
  - destruct Ha as ([f Hf] & HO & Hm & HB & HB2 & Ha). rewrite Hf in *. cbn [default from_option id] in *. destruct (proj1 Hh N f Hf) as (cs & Hcs & Hfile). rewrite Hcs in HB. cbn [default from_option id] in HB.
    destruct (file_write s N cs f Off B Hfile HO Hm HB HB2) as (s1 & Hw & Hvol & Hfile1 & Hothers). rewrite (bind_Ok _ _ _ _ _ Hw). fold (patch f Off B) in *.
    destruct (IH s1 cl (<[N := patch f Off B]> m)) as (s' & Hr & Hh').
    + split; [|apply Hh]. intros M f' [ [<- <-]|[Hne Hm'] ]%lookup_insert_Some; [by exists cs|]. destruct (proj1 Hh M f' Hm') as (ds & Hds & Hf'). exists ds. split; [done|].
      apply Hothers; [done| |done]. intros z Hz. by apply (proj2 Hh M N ds cs).
    + by rewrite Hvol.
    + rewrite (bind_Ok _ _ _ _ _ Hr). by exists s'.
Qed.
Definition sample_files : arrays := {[1 := zeros 1024; 2 := zeros 3]}.
Definition sample_clusters : gmap Z (list Z) := {[1 := [2; 4]; 2 := [5]]}.
Lemma sample_holds : holds sample sample_clusters sample_files.
Proof.
  unfold holds, sample_files, sample_clusters. split.
  - intros N f [ [<- <-]|[_ [<- <-]%lookup_singleton_Some] ]%lookup_insert_Some; [exists [2; 4]; by split; [|exact sample_full]|exists [5]; by split; [|exact sample_doomed] ].
  - intros N M cs ds Hne [ [<- <-]|[_ [<- <-]%lookup_singleton_Some] ]%lookup_insert_Some [ [<- <-]|[_ [<- <-]%lookup_singleton_Some] ]%lookup_insert_Some; try done; set_solver.
Qed.
Lemma sample_apart : (forall z, z ∈ [5] -> z ∉ [2; 4]) /\ (forall z, z ∈ [2; 4] -> z ∉ [5]).
Proof. split; set_solver. Qed.
Definition sample_ops : list file_op := [WriteAt 1 510 [72; 105; 33]; WriteAt 2 1 [7]; ReadAt 1 509 5; ReadAt 2 0 9].
Lemma fat_refines_arrays_witness : exists s', fat_run sample_ops sample = Ok [ [3]; [1]; [0; 72; 105; 33; 0]; [0; 7; 0] ] s'.
Proof.
  destruct (fat_refines_arrays sample_ops sample sample_clusters sample_files sample_holds) as (s' & Hr & _).
  - cbn [sample_ops allowed]. change (sample_files !! 1) with (Some (zeros 1024)). split_and!; try done; right; vm_compute; done.
  - exists s'. by rewrite Hr.
Defined.

(** ** Growing and deleting *)
(** C16: On a FAT12 volume of at most 1022 clusters, on a device below 2 GiB, with a free cluster: a write of less than
    one cluster at the end of a file that fills its clusters takes the first free cluster of the table, links it to the
    chain and stores the bytes; files with other clusters are unchanged. *)
Theorem append_takes_cluster s N cs f B : fat12 s -> file s N cs f -> len f = len cs * BytesPerCluster (f_vol s) -> len B < BytesPerCluster (f_vol s) -> len f + len B < 2147483648 ->
  (exists d, valid (f_vol s) d /\ ent12 s d = 0) ->
  exists r s', FAT_Write N (len f) B s = Ok (len B) s' /\ ent12 s r = 0 /\ (forall d, 0 <= d < r -> ent12 s d <> 0) /\ file s' N (cs ++ [r]) (f ++ B) /\
    forall M ds g, M <> N -> (forall z, z ∈ ds -> z ∉ cs) -> file s M ds g -> file s' M ds g.
Proof. intros H Hf Hfull HB Hmax Hfree. exact (file_append s N cs f B H Hf Hfull HB Hmax Hfree). Qed.
Lemma append_takes_cluster_witness : exists r s', FAT_Write 1 1024 [1; 2; 3] sample = Ok 3 s' /\ file s' 1 [2; 4; r] (zeros 1024 ++ [1; 2; 3]) /\ file s' 2 [5] (zeros 3).
Proof.
  destruct (append_takes_cluster sample 1 [2; 4] (zeros 1024) [1; 2; 3] sample_fat12 sample_full) as (r & s' & Hw & _ & _ & Hf & Hoth); [done|done|done|exists 3; by vm_compute|].
  exists r, s'. split; [exact Hw|]. split; [exact Hf|]. apply Hoth; [done|apply sample_apart|exact sample_doomed].
Defined.

(** C17: On a FAT12 volume of at most 1022 clusters, on a device below 2 GiB, for a file whose chain does not contain
    the volume's last cluster number (ClusterCount + 1): closing the last reference to the file when it is marked for
    deletion ends, removes its node and frees exactly the entries of its chain; files with other clusters keep their
    bytes. (The last cluster, FAT16 and FAT32 are freed wrongly: see the findings.) *)
Theorem close_frees_chain s N n cs f : fat12 s -> N <> ROOT -> file s N cs f -> f_nodes s !! N = Some n -> n_refs n = 1 -> N ∈ f_cache s -> has_flag (n_ImplInt n) FAT_FLAG_DELETE = true ->
  Forall (fun x => x <= ClusterCount (f_vol s)) cs ->
  exists s', close N s = Ok tt s' /\ f_nodes s' = delete N (f_nodes s) /\ (forall d, 0 <= d -> ent12 s' d = if decide (d ∈ cs) then 0 else ent12 s d) /\
    forall M ds g, M <> N -> (forall z, z ∈ ds -> z ∉ cs) -> file s M ds g -> file s' M ds g.
Proof.
  intros H HN [Hok (_ & Hnd & _) (n' & Hn' & _ & Hch) _] Hn H1 Hc Hdel Hle. assert (n' = n) as -> by congruence. exists (freed (dropped N s) cs). pose proof (chain_valid _ _ _ Hch) as Hv. pose proof (dropped_fat12 N s H) as H'.
  split; [by apply (close_run s N n cs)|]. split; [by rewrite (proj1 (proj2 (freed_same cs (dropped N s))))|]. split; [intros d Hd; rewrite freed_ent by done; by rewrite dropped_ent|].
  intros M ds g HM Hdis Hg. apply freed_file; [done|done|done|by apply dropped_file].
Qed.
Lemma close_frees_chain_witness : exists s', close 2 sample = Ok tt s' /\ ent12 s' 5 = 0 /\ ent12 s' 4 = 0xFFF /\ file s' 1 [2; 4] (zeros 1024).
Proof.
  destruct (close_frees_chain sample 2 doomed_node [5] (zeros 3) sample_fat12) as (s' & Hc & _ & Hent & Hoth); [done|exact sample_doomed|done|done|by apply (bool_decide_unpack _)|done|by repeat constructor|].
  exists s'. split; [exact Hc|]. split; [rewrite Hent by done; done|]. split; [rewrite Hent by done; by vm_compute|]. apply Hoth; [done|apply sample_apart|exact sample_full].
Defined.

(** ** Linking and finding *)
(** C18: On a FAT12 or FAT16 volume on a device below 2 GiB, a node whose times FAT_int_GetFATTimestamp converts,
    linked into the root directory under a new name that is valid as 8.3, does not end in a dot and does not start with
    the byte 0xE5, while the directory, whose entries fill whole sectors, has a free entry: the entry goes to the first
    free place, is found under that name with the node's cluster and size, and no other entry changes. (A name ending in a
    dot is not found again: dotted_name_lost.) *)
Theorem link_then_find s Name N n k : root_ok s -> FAT_int_IsValid83Filename Name = Some true -> ~ ends_in_dot Name -> get Name 0 <> Some DELETED -> f_nodes s !! N = Some n -> times_ok n ->
  FAT_int_GetEntryByName ROOT Name s = Ok None s -> 0 <= k < files_in_root (bootsect (f_vol s)) -> (forall j, 0 <= j < k -> used s j) -> ~ used s k ->
  exists nm e s', short_name Name = Some nm /\ entry_for nm n e /\ FAT_Link ROOT Name N s = Ok 0 s' /\ FAT_int_GetEntryByName ROOT Name s' = Ok (Some (k, e)) s' /\
    forall i, 0 <= i -> i <> k -> slot s' i = slot s i.
Proof.
  intros H Hval Hdot Hdel Hn Ht Hdup Hk Hu Hnu. destruct (name_found Name Hval Hdot) as (nm & c & rest & Hnm & Hl & Hc & Hvc & Hget & Hcmp). destruct (node_entry_fields nm n Hl Ht) as (e & He & Hef). pose proof (ef_len _ _ _ Hef) as Hel.
  exists nm, e, (linked s k e). split; [done|]. split; [done|]. split; [by apply (link_run s Name N n nm)|]. pose proof (linked_root s k e H Hk Hel) as H'. assert (forall i, 0 <= i -> slot (linked s k e) i = if i =? k then e else slot s i) as Hslot by (intros; by apply linked_slot).
  split; [|intros i Hi Hik; rewrite Hslot by done; by rewrite (proj2 (Z.eqb_neq _ _))].
  assert (slot (linked s k e) k = e) as Ek by (rewrite Hslot by lia; by rewrite Z.eqb_refl). rewrite <- Ek at 2. unfold FAT_int_GetEntryByName in *. rewrite bind_vol, bind_get in *.
  apply (by_name_found s _ Name k H H' eq_refl ltac:(lia)) with (fi := []); [| |by apply cached_first|by apply cached_first|lia|apply H|intros j Hj; by apply Hu|done].
  - intros i Hi. rewrite Hslot by lia. by rewrite (proj2 (Z.eqb_neq i k)) by lia.
  - rewrite Ek. apply (entry_fits nm Name n c rest); try done. congruence.
Qed.
Definition A_TXT : list Z := [65; 46; 84; 88; 84; 0].
Lemma link_then_find_witness : exists e s', FAT_Link ROOT A_TXT 1 sample = Ok 0 s' /\ FAT_int_GetEntryByName ROOT A_TXT s' = Ok (Some (0, e)) s' /\ fe_cluster e = 2 /\ fe_size e = 1024.
Proof.
  assert (root_ok sample) as Hroot.
  { split; [done|by eexists|done| |done|done]. assert (len (f_img sample) = 6656) as -> by by vm_compute. done. }
  destruct (link_then_find sample A_TXT 1 full_node 0) as (nm & e & s' & _ & [_ _ _ [Hcl _] Hsz] & Hl & Hg & _); [done|by vm_compute| |done|done| |by vm_compute|done|lia|by intros [H _]; apply H; vm_compute|].
  - intros (p & tail & Heq & Hp). destruct p as [|a [|b p] ]; [done|done|]. injection Heq as <- <- _. by apply Forall_cons in Hp as [_ [Hp _]%Forall_cons].
  - apply (bool_decide_unpack _). by vm_compute.
  - exists e, s'. split; [done|]. split; [done|]. split; [by rewrite Hcl|by rewrite Hsz].
Defined.
