(* ===== verification/FatFindings.v ===== *)
(** * Where the FAT driver departs from what it means to do *)
From S2P Require Import Prelude Arith CString Text Time Fat FatDir FatFiles FatTable FatGrow FatNames FatProps.

Local Open Scope Z_scope.
Local Open Scope monad_scope.
Implicit Types (s : fat).

Definition after {A} (r : res fat fstop A) (P : A -> fat -> bool) : bool := match r with Ok a s => P a s | Stop _ => false end.
Lemma after_ok {A} (r : res fat fstop A) (P : A -> fat -> bool) : after r P = true -> exists a s, r = Ok a s /\ P a s = true.
Proof. destruct r as [a s|]; [|done]. intros H. by exists a, s. Qed.

Lemma bind_split {A B} (c : FM A) (k : A -> FM B) s b s2 : bind c k s = Ok b s2 -> exists a s1, c s = Ok a s1 /\ k a s1 = Ok b s2.
Proof. unfold bind. destruct (c s) as [a s1|]; [|done]. intros H. by exists a, s1. Qed.
Lemma ret_same {A} (a b : A) s s2 : (ret a : FM A) s = Ok b s2 -> a = b /\ s = s2.
Proof. by intros [= -> ->]. Qed.

(** A write at the start of the second cluster of a file takes a new cluster and links the first to it: the old second
    cluster leaves the file. *)
Theorem write_at_boundary : exists n s', FAT_Write 1 512 [1] sample = Ok n s' /\ fatv sample 2 = 4 /\ fatv s' 2 = 3 /\ fatv s' 4 = GETFATVALUE_EOC /\ ent12 s' 3 = EOC_FAT12.
Proof.
  destruct (after_ok (FAT_Write 1 512 [1] sample) (fun _ s' => (fatv s' 2 =? 3) && (fatv s' 4 =? GETFATVALUE_EOC) && (ent12 s' 3 =? EOC_FAT12))) as (n & s' & H & Hb); [by vm_compute|].
  apply andb_true_iff in Hb as [ [H1%Z.eqb_eq H2%Z.eqb_eq]%andb_true_iff H3%Z.eqb_eq]. exists n, s'. split; [done|]. split; [by vm_compute|]. split; [exact H1|]. split; [exact H2|exact H3].
Qed.

(** With no entry free, the link of [Previous] is made all the same, to -1; at an even entry that is the end of the next
    cluster's chain too. *)
Definition full_img : list Z := take 512 sample_img ++ to_le 3 0xFFFFF8 ++ to_le 3 0x005004 ++ concat (replicate 510 (to_le 3 0xFFFFFF)) ++ zeros 4608.
Definition full : fat := set_img full_img sample.
Theorem allocate_when_full : exists s', FAT_int_AllocateCluster 2 full = Ok NONE s' /\ ent12 full 3 = 5 /\ ent12 s' 3 = EOC_FAT12.
Proof.
  destruct (after_ok (FAT_int_AllocateCluster 2 full) (fun r s' => (r =? NONE) && (ent12 s' 3 =? EOC_FAT12))) as (r & s' & H & Hb); [by vm_compute|]. bools. subst. exists s'. split; [done|]. split; [by vm_compute|done].
Qed.

(** The number the root directory is known by is also that of a cluster. *)
Theorem root_is_a_cluster : valid (f_vol sample) 3 /\ FAT_int_GetNode 3 sample = Ok (Some ROOT) sample.
Proof. split; [|done]. by vm_compute. Qed.

(** A name that needs entries of a long name cannot be added to a directory whose entries were never used. *)
Definition LONG_NAME : list Z := [108; 111; 110; 103; 46; 110; 97; 109; 101; 0].
Theorem long_name_refused : exists s', FAT_Link ROOT LONG_NAME 1 sample = Ok ENOTIMPL s' /\ FAT_int_IsValid83Filename LONG_NAME = Some false.
Proof. destruct (after_ok (FAT_Link ROOT LONG_NAME 1 sample) (fun r _ => r =? ENOTIMPL)) as (r & s' & H & Hb); [by vm_compute|]. bools. subst. exists s'. split; [done|by vm_compute]. Qed.

(** A name that ends in a dot is taken, and not found under that name. *)
Definition ABC_DOT : list Z := [65; 66; 67; 46; 0].
Theorem dotted_name_lost : exists s1 s2, FAT_Link ROOT ABC_DOT 1 sample = Ok 0 s1 /\ FAT_int_GetEntryByName ROOT ABC_DOT s1 = Ok None s2.
Proof.
  destruct (after_ok ((do r <- FAT_Link ROOT ABC_DOT 1; do e <- FAT_int_GetEntryByName ROOT ABC_DOT; ret (r, e)) sample) (fun r _ => (r.1 =? 0) && bool_decide (r.2 = None))) as (r & s2 & H & Hb); [by vm_compute|].
  apply andb_true_iff in Hb as [Hb1%Z.eqb_eq Hb2%bool_decide_eq_true]. apply bind_split in H as (r1 & s1 & E1 & H). apply bind_split in H as (e & s3 & E2 & H). apply ret_same in H as [<- _]. cbn [fst snd] in Hb1, Hb2. rewrite Hb1 in E1. rewrite Hb2 in E2. exists s1, s3. split; [exact E1|exact E2].
Qed.
